(* ===== verification/_CoqProject ===== *)
-Q . S2P
Prelude.v
Go.v
Api.v
Objects.v
Libs.v
World.v
Locking.v
Hooks.v
Demo.v
Registration.v
Etcd.v
Desired.v
ControlPlane.v
Scale.v
Remediation.v
Workload.v
Lifecycle.v
Inplace.v
Reconciler.v
Status.v
Controller.v
Webhooks.v
V1beta1.v
Casts.v
Conversion.v
BWorld.v
Util.v
Config.v
Registries.v
Bootstrap.v
Extensions.v
Ssa.v
Update.v
ExtensionConfigs.v
UserData.v
Certificates.v
Kubeconfig.v
WorkloadClient.v
Proxy.v
Unstructured.v
ApiVersion.v
CacheWait.v
EtcdClients.v
Convergence.v
V1Webhooks.v
Boot.v
Memory.v
DeepCopy.v
Externals.v
BootstrapCopyV2.v
BootstrapCopyV1.v
PlaneCopyV2.v
PlaneCopyV1.v
Copies.v
Hash.v
Metrics.v
HttpClients.v
SpecDiff.v
