(* ===== verification/Prelude.v ===== *)
(** * Cluster API Provider RKE2: a verification development

    The program manages Kubernetes clusters of the RKE2 distribution.  Its control
    plane controller watches RKE2ControlPlane objects; each reconcile of one lists
    the machines of the control plane, keeps them in step with the spec, reports
    their health in conditions, and then takes at most one step that changes the
    set of machines: creating, replacing, remediating or deleting one.  Its
    bootstrap controller watches RKE2Config objects and writes, for each machine, a
    secret with the user data the machine boots from; a lock makes one machine
    initialize the cluster, and the others join it.  Webhooks default and validate
    the objects, conversions translate them from and to the older API version, and
    runtime extensions can update machines in place.  This library models these
    controllers with the parts of pkg/ they call.

    ** Files

    Shared by all:

    - [Prelude]: errors, outcomes (value, error, panic), the state monad [comp]
      with its loops, the tactics and lemmas shared by all files.
    - [Go]: strings, 32 and 64 bit wrap-around, times and durations, and the two
      things Go leaves open: the sorting algorithm ([GoSort]: any permutation that
      is sorted) and the order of a map iteration ([GoRange]: any order, one per
      place in the code).  Theorems hold for all of them.
    - [Api], [Objects]: the API types of bootstrap/api/v1beta2 and
      controlplane/api/v1beta2, and the Cluster API objects they refer to.  A nil
      pointer, slice or map is [None].
    - [Libs]: Cluster API's libraries as classes: constants, conditions
      ([CondLib]), machine collections ([CollLib]), owner references and names
      ([MetaLib]), with the laws the code relies on and an instance each.

    The control plane controller:

    - [World]: the state of a reconcile.  [World] holds the control plane object in
      memory and the calls made so far; [Call] lists every call to an API server,
      to etcd or to an extension, and [Env] answers a call, given the calls before
      it, with any value or error.  The file defines the notions the theorems use:
      [emits] (only calls of a kind are made), [yields], [one_pick] (at most one
      call of a kind), [keeps] (a part of the state is left alone), [calm] (no
      panic), [quiet] (nothing done when the handler says go on).
    - [Locking]: pkg/locking/control_plane_init_mutex.go.  Lock and Unlock are
      programs over single API calls; [ApiServer] is what an API server promises,
      and runs interleave the calls of any number of machines.
    - [Hooks]: pkg/capi/hooks/tracking.go and pkg/capi/inplace/inplace.go.
    - [Demo]: sample objects and an environment, for the evaluations.
    - [Registration]: pkg/registration/registration.go.
    - [Etcd]: pkg/etcd (clients, members) and pkg/rke2/workload_cluster_etcd.go.
    - [Desired]: pkg/rke2/desiredstate and pkg/rke2/machine_filters.go: what a
      machine should be and whether it is.
    - [ControlPlane]: pkg/rke2/control_plane.go.
    - [Scale], [Remediation], [Lifecycle], [Inplace], [Status]: scale.go,
      remediation.go, lifecycle_hook.go, inplace*.go and status.go of
      controlplane/internal/controllers.
    - [Workload]: pkg/rke2/workload_cluster.go and workload_cluster_conditions.go.
    - [Reconciler]: reconcileNormal and reconcileDelete of
      controlplane/internal/controllers/rke2controlplane_controller.go with the
      functions they call; [Controller]: its entry point Reconcile, with the
      deferred status update and patch.
    - [EtcdClients], [Convergence]: properties that span these files: the etcd clients
      that are open, and a rollout over many reconciles.
    - [Webhooks]: defaulting and validation of the v1beta2 objects
      (the files _webhook.go), and the life of an object behind them.

    Conversion between API versions:

    - [V1beta1]: the types of the v1beta1 packages, in a Module of that name;
      [Casts]: the generated conversions of types that are the same in both
      versions (zz_generated.conversion.go), with the class [Retract] of
      conversions that can be undone; [Conversion]: the others, and the
      hand-written conversion.go of both packages; [V1Webhooks]: the webhooks of
      v1beta1, which the programs do not register, compared with those of v1beta2.

    The bootstrap controller:

    - [BWorld]: its state and calls; [Util]: pkg/util/util.go; [Config]:
      pkg/rke2/config.go, the contents of RKE2's configuration files;
      [Registries]: pkg/rke2/registries.go; [Bootstrap]:
      rke2config_controller.go and rke2config_scope.go of
      bootstrap/internal/controllers; [UserData]: bootstrap/internal/cloudinit and
      bootstrap/internal/ignition, the texts a machine boots from, which [Bootstrap]
      takes as functions; [Boot]: the three together.

    Secrets and clients of a workload cluster:

    - [Certificates]: pkg/secret/certificates.go, the certificate authorities of a
      cluster, over a model of the secrets on the server ([Secrets]) with failing
      calls and other writers; [Kubeconfig]: pkg/kubeconfig and reconcileKubeconfig;
      [WorkloadClient]: pkg/rke2/management_cluster.go and NewWorkload, the
      connection to etcd with its client certificates; [Proxy]: pkg/proxy, the
      connections to pods.  For [World] and [BWorld] the functions of these files
      are calls with any answer, so that the theorems about the controllers do not
      depend on them.

    Libraries of the program itself:

    - [Extensions]: pkg/capi/registry/registry.go and
      pkg/capi/runtimeclient/client.go, the registry and client of runtime
      extensions, with [ExtensionConfigs]: pkg/capi/extensionconfig, the controller
      that feeds the registry; [Ssa]: controlplane/internal/util/ssa, server side
      apply.
    - [Unstructured]: the accessors of controlplane/internal/contract/types.go and
      pkg/capi/patchutil/patch.go, over untyped objects; [ApiVersion]:
      pkg/util/contract.go; [CacheWait]: pkg/capi/client/client.go, waiting for a
      cache, and pkg/capi/compare/equal.go.

    - [HttpClients]: the HTTP clients that pkg/capi/runtimeclient/client.go keeps, with
      calls that run while certificates change; [SpecDiff]: the comparison of untyped
      objects of inplace_canupdatemachine.go.
    - [Hash]: controlplane/internal/util/hash and the random tokens of pkg/util;
      [Metrics]: pkg/capi/runtimemetrics and the other metrics of the program.

    Memory:

    - [Memory]: variables, pointers, slices and maps of Go in a heap, with the
      statements on them as functions of the heap; [DeepCopy]: the statements of the
      generated deep copies, what a deep copy promises and the lemmas that give the
      promise field by field; [Externals]: the types of other modules as parameters;
      [BootstrapCopyV2], [BootstrapCopyV1], [PlaneCopyV2], [PlaneCopyV1]:
      zz_generated.deepcopy.go of the four API packages; [Copies]: all of them
      together.  All other files model an object as a value; that is right because
      the program takes such a copy before it changes an object somebody else holds.

    The extension program:

    - [Update]: cmd/extension/handlers/inplaceupdate, the extension that makes
      in-place updates through plans in secrets.

    ** Correspondence

    A method is a computation ([M A] over [World], [E A] over [EWorld], [B A] over
    [BWorld]) with the name of the method; [fail] is a returned error, [panic] a
    runtime panic, [finally] and [defer] a deferred function, [try] a call whose
    error is inspected.  The control plane object is shared and mutated in place:
    [modify_machine] changes a machine in the collection of the control plane, and
    code that holds a pointer to it reads it again with [current].  Names that
    several Go packages give to different methods carry the type
    ([RKE2ControlPlane_ConvertTo], [RKE2Config_Default]).  Logging, events and
    contexts are left out; error texts keep their constant part.  Recursion is
    structural (over lists of nodes, machines, members, fields of a JSON object),
    with one exception: replacing a regular expression in a string takes the
    length of the string as fuel, which [Util.replace_all_enough] shows to be
    enough.  The code has no unbounded loops: the polls
    of [Update.poll] and [ExtensionConfigs.Start] are bounded by a number of rounds,
    which stands for the time the caller gives them, and that of [CacheWait.poll] by
    the number of steps of its backoff, 63.

    ** What the theorems show

    - A reconcile changes at most one machine: [Reconciler.reconcileNormal_one_change],
      for the whole of it with its guards [Controller.Reconcile_guarded]; it ends
      by writing the object back: [Controller.Reconcile_reports]; rolling updates
      respect MaxSurge: [Reconciler.upgradeControlPlane_surge].
    - A rollout ends: [Convergence.rollout_converges] repeats the step of a reconcile
      that changes machines, on a server where machines come and go by its calls.  Its
      rounds leave open why a step failed and when machines settle; nobody else
      creates or deletes machines between them, and in-place updates are off.
    - Nothing is deleted behind the back of etcd: scale down
      ([Scale.scaleDownControlPlane_safe]), remediation
      ([Remediation.reconcileUnhealthyMachines_safe], with the quorum computation
      [Remediation.canSafelyRemoveEtcdMember_quorum]) and the pre-terminate hook
      ([Lifecycle.reconcilePreTerminateHook_safe]), over the leadership transfer
      ([Etcd.ForwardEtcdLeadership_moves]) and the member list
      ([Etcd.EtcdMembers_nodes]); neither leaves an etcd client open
      ([EtcdClients.etcd_clients_closed]).
    - Deletion of a control plane ends: [Reconciler.reconcileDelete_finalizers],
      [Reconciler.reconcileDelete_deletes_all].
    - Health and progress are reported as they are:
      [Workload.UpdateAgentConditions_spec],
      [Workload.updateManagedEtcdConditions_spec],
      [Workload.aggregateConditions_status], [Status.updateStatus_scaling].
    - Machines are compared and built consistently: the theorems of [Desired],
      [ControlPlane] and [Scale].
    - In-place updates are started only when the extensions cover every change, and
      in an order that survives a crash: the theorems of [Inplace].
    - The init lock excludes and recovers ([Locking.Lock_mutual_exclusion],
      [Locking.Lock_recovers]), and the first machine is prepared under it
      ([Bootstrap.handleClusterNotInitialized_lock]).
    - User data is generated once and the status tells the truth about it:
      [Bootstrap.reconcile_config_honest]; joining servers get the configuration of
      the first one ([Config.Join_is_Init]), and a configuration refers only to
      files that are written with it ([Config.config_files_complete]); together, every
      data secret holds a text with such a configuration, all its files and those of the
      user ([Boot.stored_config_complete]).
    - What a machine boots from is what was asked for: the files of a cloud-config
      are read back from it ([UserData.write_files_roundtrip]), and the script of an
      Ignition machine verifies, installs, prepares and starts in that order
      ([UserData.install_script_order]).
    - A cluster has one set of certificate authorities, whatever fails and however
      often it is looked for ([Certificates.certificates_once]); its kubeconfig is
      made from them, once ([Kubeconfig.reconcileKubeconfig_spec],
      [Kubeconfig.cluster_gets_kubeconfig]); the client of etcd offers a certificate
      of the authority it trusts, through changes of it and with its cache
      ([WorkloadClient.etcd_client_matches_CA]); no connection to a pod is left open
      ([Proxy.DialContext_no_leak]).
    - Objects that are changed are copies that share nothing with the original, for
      every type of the API ([Copies.deep_copies_isolated],
      [Copies.DeepCopyObject_copies]).
    - HTTP clients of extensions match their host and authorities while certificates
      change ([HttpClients.http_client_matches]); hashes of objects that differ in one
      byte differ ([Hash.Compute_spec]); no observation of a metric panics
      ([Metrics.observations_ok]).
    - Untyped objects are read as they were written
      ([Unstructured.accessors_roundtrip]), and a patch changes only the path it may
      ([Unstructured.ApplyPatchToObject_only_path]); the latest version of an API is
      used ([ApiVersion.latest_version_spec]); a wait for the cache that succeeds has
      seen what it waited for ([CacheWait.waitFor_sound]), and succeeds once it is
      there ([CacheWait.waitFor_progress]).
    - Objects survive the older API version: the theorems of [Conversion], proved
      from the retractions of [Casts]; it does not matter in which version an object
      is defaulted and validated ([V1Webhooks.v1_defaulting_commutes],
      [V1Webhooks.v1_admission_agrees]), but for the deprecated fields.
    - Webhooks establish what the controllers rely on, over any sequence of updates:
      [Webhooks.admitted_valid]; with the controller they keep a majority of the
      machines during a rollout: [Webhooks.admitted_rollout].
    - Data structures implement sets: the annotation of pending hooks
      ([Hooks.tracking_refines_set]) and the extension registry
      ([Extensions.registry_refines]); filtering an object for an apply keeps exactly
      the values of interest ([Ssa.FilterObject_spec]), and the apply cache skips only
      what is known to change nothing ([Ssa.Patch_cache]).
    - Only validated extensions are called
      ([ExtensionConfigs.readonly_registers_validated]); the in-place update
      extension declares what its plans deliver ([Update.DoCanUpdateMachine_patches],
      [Update.buildUpgradePlan_delivers]), never replaces a plan in flight
      ([Update.DoUpdateMachine_protocol]), and an update ends with the result of its
      plan ([Update.polling_ends]).
    - The remaining theorems pin down behaviour that differs from what the code
      or its comments intend: [Locking.Lock_stale_cleanup_race],
      [Remediation.getMachineToBeRemediated_unordered],
      [Remediation.replacement_starts_new_retry_sequence],
      [Etcd.ForwardEtcdLeadership_confused], [Workload.UpdateAgentConditions_stale],
      the panic in [Lifecycle.applyHookToActiveMachines_spec],
      [Registries.GenerateRegistries_last],
      [Conversion.RKE2ControlPlane_ConvertTo_forgets],
      [Conversion.RKE2ControlPlaneTemplate_loses_infra],
      [V1Webhooks.deprecated_fields_ignored],
      [Util.two_digit_patch_does_not_match], [Util.GetMapKeysAsString_empty],
      [Config.pause_image_ignored], [Webhooks.registration_address_removed],
      [Webhooks.untyped_strategy_no_rollout], [Extensions.call_handler_ignores],
      [Update.second_update_never_ends], [UserData.leading_space_lost],
      [UserData.nil_ignition_panics], [Certificates.hole_generates_other_pair],
      [Certificates.race_generates_other_pair], [HttpClients.late_add_keeps_old_certificate],
      [Hash.Random_length], [Unstructured.CopySpec_swallows_error].

    ** Not modelled

    Opening a connection to etcd, the collectors of the Prometheus client, go-spew's
    rendering of an object, the registration of the generated conversions, the set-up of
    the controllers and webhooks with the manager, and the wiring of the programs.  Gzip, plans and JSON patches are parameters of
    [Update] and [Unstructured]; YAML and the translation of Butane are parameters of
    [UserData], keys and X.509 of [Certificates]. *)

From stdpp Require Import base tactics option list gmap strings numbers sorting.

#[export] Set Warnings "-clear-no-such-hyp".

(** ** Errors

    A Go [error] is a value the code inspects only through
    [apierrors.IsNotFound], [apierrors.IsAlreadyExists], [errors.Is] and [errors.As];
    everything else is text.  [EWrap] is [fmt.Errorf("...: %w", err)] (the
    classification goes through it, as [errors.As] does) and [EAgg] is
    [kerrors.NewAggregate]. *)

Inductive error : Type :=
| ENotFound
| EAlreadyExists
| EConnection
| ERemote (name : string) (e : error) (* rke2.RemoteClusterConnectionError *)
| EText (msg : string)
| EWrap (msg : string) (e : error)
| EAgg (es : list error).

(** [apierrors.IsNotFound] and [apierrors.IsAlreadyExists]. *)
Fixpoint IsNotFound (e : error) : bool :=
  match e with ENotFound => true | EWrap _ e | ERemote _ e => IsNotFound e | _ => false end.
Fixpoint IsAlreadyExists (e : error) : bool :=
  match e with EAlreadyExists => true | EWrap _ e | ERemote _ e => IsAlreadyExists e | _ => false end.

(** The outcome of a Go call: a value, a non-nil error, or a panic (nil
    dereference, write to a nil map, index out of range). *)
Inductive outcome (A : Type) : Type :=
| Ok (a : A)
| Err (e : error)
| Panic (why : string).
Arguments Ok {A} a.
Arguments Err {A} e.
Arguments Panic {A} why.

Definition is_ok {A} (o : outcome A) : bool :=
  match o with Ok _ => true | _ => false end.

#[global] Instance outcome_ret : MRet outcome := λ A, Ok.
#[global] Instance outcome_bind : MBind outcome := λ A B f o,
  match o with Ok a => f a | Err e => Err e | Panic p => Panic p end.

(** ** Stateful computations

    A Go function that mutates objects and talks to servers is a state
    transformer; the state survives an error return and a panic. *)

Definition comp (S A : Type) : Type := S → outcome A * S.

#[global] Instance comp_ret {S} : MRet (comp S) := λ A a s, (Ok a, s).
#[global] Instance comp_bind {S} : MBind (comp S) := λ A B f m s,
  match m s with
  | (Ok a, s') => f a s'
  | (Err e, s') => (Err e, s')
  | (Panic p, s') => (Panic p, s')
  end.

Definition fail {S A} (e : error) : comp S A := λ s, (Err e, s).
Definition panic {S A} (why : string) : comp S A := λ s, (Panic why, s).
Definition get {S} : comp S S := λ s, (Ok s, s).
Definition gets {S A} (f : S → A) : comp S A := λ s, (Ok (f s), s).
Definition modify {S} (f : S → S) : comp S unit := λ s, (Ok tt, f s).
Definition lift {S A} (o : outcome A) : comp S A := λ s, (o, s).

(** [if err := m; err != nil { handler }]: the error becomes a value. *)
Definition try {S A} (m : comp S A) : comp S (A + error) := λ s,
  match m s with
  | (Ok a, s') => (Ok (inl a), s')
  | (Err e, s') => (Ok (inr e), s')
  | (Panic p, s') => (Panic p, s')
  end.

(** A [for] loop whose body may return early with an error. *)
Fixpoint for_each {S A} (l : list A) (f : A → comp S unit) : comp S unit :=
  match l with
  | [] => mret tt
  | x :: l => _ ← f x; for_each l f
  end.

(** A [for] loop threading an accumulator. *)
Fixpoint for_acc {S A B} (l : list A) (b : B) (f : B → A → comp S B) : comp S B :=
  match l with
  | [] => mret b
  | x :: l => b' ← f b x; for_acc l b' f
  end.

(** An invariant of a loop that runs to its end, over the elements done so far. *)
Lemma for_acc_ok {S A B} (I : list A → B → Prop) (l : list A) b (f : B → A → comp S B) s r s' :
  (∀ d x rest b s b' s', l = d ++ x :: rest → I d b → f b x s = (Ok b', s') → I (d ++ [x]) b') →
  I [] b → for_acc l b f s = (Ok r, s') → I l r.
Proof.
  intros Hf. assert (∀ rest d b s, l = d ++ rest → I d b →
    for_acc rest b f s = (Ok r, s') → I l r) as Hgen; [|by apply (Hgen l [])].
  induction rest as [|x rest IH]; intros d b0 s0 Hl Hi; simpl.
  - intros [= <- _]. by rewrite Hl, app_nil_r.
  - unfold mbind, comp_bind. destruct (f b0 x s0) as [[b'|e|p] s1] eqn:E; [|done..].
    apply (IH (d ++ [x])); [by rewrite <-app_assoc|by eapply Hf].
Qed.

(** A loop whose body never fails is a fold. *)
Lemma for_acc_run {S A B} (l : list A) b (f : B → A → comp S B) (g : B → A → B) (h : S → A → S) s :
  (∀ b x s, x ∈ l → f b x s = (Ok (g b x), h s x)) →
  for_acc l b f s = (Ok (foldl g b l), foldl h s l).
Proof.
  revert b s. induction l as [|x l IH]; intros b s Hf; [done|]. simpl.
  unfold mbind, comp_bind. rewrite Hf by set_solver. apply IH. intros. apply Hf. set_solver.
Qed.
Lemma for_each_run {S A} (l : list A) (f : A → comp S unit) (h : S → A → S) s :
  (∀ x s, x ∈ l → f x s = (Ok tt, h s x)) → for_each l f s = (Ok tt, foldl h s l).
Proof.
  revert s. induction l as [|x l IH]; intros s Hf; [done|]. simpl.
  unfold mbind, comp_bind. rewrite Hf by set_solver. apply IH. intros. apply Hf. set_solver.
Qed.

(** ** Weakest preconditions *)

Definition wp {S A} (m : comp S A) (Q : outcome A → S → Prop) (s : S) : Prop :=
  Q (m s).1 (m s).2.

Section wp.
Context {S : Type}.

Lemma wp_ret {A} (a : A) Q (s : S) : wp (mret a) Q s ↔ Q (Ok a) s.
Proof. done. Qed.

Lemma wp_bind {A B} (m : comp S A) (f : A → comp S B) Q s :
  wp (mbind f m) Q s ↔
  wp m (λ o s', match o with
                | Ok a => wp (f a) Q s'
                | Err e => Q (Err e) s'
                | Panic p => Q (Panic p) s'
                end) s.
Proof. unfold wp, mbind, comp_bind. by destruct (m s) as [[a|e|p] s']. Qed.

Lemma wp_try {A} (m : comp S A) Q s :
  wp (try m) Q s ↔
  wp m (λ o s', match o with
                | Ok a => Q (Ok (inl a)) s'
                | Err e => Q (Ok (inr e)) s'
                | Panic p => Q (Panic p) s'
                end) s.
Proof. unfold wp, try. by destruct (m s) as [[a|e|p] s']. Qed.

Lemma wp_fail {A} e Q (s : S) : wp (fail (A := A) e) Q s ↔ Q (Err e) s.
Proof. done. Qed.

Lemma wp_get Q (s : S) : wp get Q s ↔ Q (Ok s) s.
Proof. done. Qed.

Lemma wp_gets {A} (f : S → A) Q s : wp (gets f) Q s ↔ Q (Ok (f s)) s.
Proof. done. Qed.

Lemma wp_modify f Q (s : S) : wp (modify f) Q s ↔ Q (Ok tt) (f s).
Proof. done. Qed.

Lemma wp_lift {A} (o : outcome A) Q (s : S) : wp (lift o) Q s ↔ Q o s.
Proof. done. Qed.

Lemma wp_panic {A} why Q (s : S) : wp (panic (A := A) why) Q s ↔ Q (Panic why) s.
Proof. done. Qed.

Lemma wp_mono {A} (m : comp S A) (Q Q' : outcome A → S → Prop) s :
  (∀ o s', Q o s' → Q' o s') → wp m Q s → wp m Q' s.
Proof. unfold wp. eauto. Qed.

(** A loop preserves what its body preserves, whatever way it ends. *)
Lemma wp_for_each {A} (I : S → Prop) (l : list A) f s :
  (∀ x s, x ∈ l → I s → wp (f x) (λ _ s', I s') s) →
  I s → wp (for_each l f) (λ _ s', I s') s.
Proof.
  revert s. induction l as [|x l IH]; intros s Hf Hs; [done|].
  simpl. apply wp_bind. eapply wp_mono, Hf; [|set_solver|done].
  intros [[]|e|p] s' Hs'; [|done..]. apply IH; [|done]. set_solver.
Qed.
End wp.

Create Rewrite HintDb wp.
#[export] Hint Rewrite @wp_ret @wp_bind @wp_try @wp_fail @wp_get @wp_gets
  @wp_modify @wp_lift @wp_panic : wp.

(** [wp_step] pushes a weakest precondition through the monad's operations. *)
Ltac wp_step := repeat (progress autorewrite with wp; cbn beta iota).

(** ** Generic lemmas *)

(** Go's [int32] conversion of a mathematical integer: two's complement. *)
Definition wrap32 (z : Z) : Z := ((z + 2 ^ 31) `mod` 2 ^ 32 - 2 ^ 31)%Z.

Lemma wrap32_id z : (- 2 ^ 31 ≤ z < 2 ^ 31)%Z → wrap32 z = z.
Proof. intros ?. unfold wrap32. rewrite Z.mod_small by lia. lia. Qed.

Lemma wrap32_range z : (- 2 ^ 31 ≤ wrap32 z < 2 ^ 31)%Z.
Proof. unfold wrap32. pose proof (Z.mod_pos_bound (z + 2 ^ 31) (2 ^ 32)). lia. Qed.

Definition MaxInt32 : Z := 2147483647%Z.

(** A list has a first element satisfying [p] exactly when [find] says so. *)
Lemma find_app_none {A} (p : A → bool) l1 l2 :
  forallb (λ x, negb (p x)) l1 = true → List.find p (l1 ++ l2) = List.find p l2.
Proof.
  induction l1 as [|x l1 IH]; [done|]. simpl.
  intros [Hx Hl]%andb_prop. apply negb_true_iff in Hx. rewrite Hx. auto.
Qed.

Lemma existsb_perm {A} (p : A → bool) l1 l2 :
  l1 ≡ₚ l2 → existsb p l1 = existsb p l2.
Proof. induction 1 as [|x l l' _ IH|x y l|]; simpl; [done|by rewrite IH| |congruence].
  by destruct (p x), (p y).
Qed.

Lemma existsb_elem_of {A} (p : A → bool) l :
  existsb p l = true ↔ ∃ x, x ∈ l ∧ p x = true.
Proof. rewrite existsb_exists. setoid_rewrite list_elem_of_In. naive_solver. Qed.

Lemma forallb_elem_of {A} (p : A → bool) l :
  forallb p l = true ↔ ∀ x, x ∈ l → p x = true.
Proof. rewrite forallb_forall. setoid_rewrite list_elem_of_In. naive_solver. Qed.

Lemma filter_nil_iff {A} (P : A → Prop) `{∀ x, Decision (P x)} (l : list A) :
  filter P l = [] ↔ ∀ x, x ∈ l → ¬ P x.
Proof.
  induction l as [|x l IH]; [set_solver|].
  rewrite filter_cons. case_decide; set_solver.
Qed.

(** Two positions of a list without duplicates hold different elements. *)
Lemma NoDup_lookup_ne {A} (l : list A) i j x y :
  NoDup l → l !! i = Some x → l !! j = Some y → i ≠ j → x ≠ y.
Proof. intros Hnd Hx Hy Hij ->. by apply Hij, (NoDup_lookup l i j y). Qed.
