(* ===== verification/Go.v ===== *)
(** * The part of Go's language and standard library the program uses

    Strings ([strings], string comparison), integers, instants ([time]),
    sorting ([sort], [slices]) and the iteration order of maps.  What Go leaves
    unspecified, the order in which [range] visits a map and what [sort] does
    with a comparison that is no order, is a class parameter: a theorem holds
    for every choice of it. *)

From Stdlib Require Import Ascii String.
From stdpp Require Import base tactics option list gmap strings numbers sorting pretty.
Open Scope string_scope.
Open Scope list_scope.
Open Scope stdpp_scope.
From S2P Require Import Prelude.

(** ** Strings *)

Definition HasPrefix (s p : string) : bool := String.prefix p s.

(** [strings.HasSuffix]. *)
Fixpoint HasSuffix (s suffix : string) : bool :=
  bool_decide (s = suffix) ||
  match s with EmptyString => false | String _ s' => HasSuffix s' suffix end.

(** [strings.Contains]: [sub] occurs at some position of [s]. *)
Fixpoint Contains (s sub : string) : bool :=
  String.prefix sub s ||
  match s with EmptyString => false | String _ s' => Contains s' sub end.

(** [s[:strings.LastIndex(s, c)]] for a one-character separator; [None] is the
    [-1] of [LastIndex]. *)
Fixpoint before_last (c : ascii) (s : string) : option string :=
  match s with
  | EmptyString => None
  | String a s' =>
      match before_last c s' with
      | Some p => Some (String a p)
      | None => if decide (a = c) then Some EmptyString else None
      end
  end.

(** [strings.Split] with a one-character separator: never the empty slice. *)
Fixpoint Split (s : string) (c : ascii) : list string :=
  match s with
  | EmptyString => [EmptyString]
  | String a s' =>
      if decide (a = c) then EmptyString :: Split s' c
      else match Split s' c with
           | w :: ws => String a w :: ws
           | [] => [String a EmptyString]
           end
  end.

Definition Join (l : list string) (sep : string) : string := String.concat sep l.

(** Go's [<] on strings: bytewise lexicographic. *)
Definition str_lt (a b : string) : bool := String.ltb a b.

(** [%d] of an integer. *)
Definition fmt_d (z : Z) : string := pretty z.
Definition fmt_nat (n : nat) : string := pretty n.

(** The character [c] does not occur in [s]. *)
Fixpoint free_of (c : ascii) (s : string) : bool :=
  match s with
  | EmptyString => true
  | String a s' => bool_decide (a ≠ c) && free_of c s'
  end.

Lemma Split_not_nil s c : Split s c ≠ [].
Proof. induction s as [|a s IH]; simpl; [done|]. case_decide; [done|]. by destruct (Split s c). Qed.

Lemma Split_free c s : free_of c s = true → Split s c = [s].
Proof.
  induction s as [|a s IH]; simpl; [done|].
  intros [Ha Hs]%andb_prop. apply bool_decide_eq_true in Ha.
  rewrite decide_False by done. by rewrite (IH Hs).
Qed.

Lemma Split_app c w s :
  free_of c w = true → Split (w +:+ String c s) c = w :: Split s c.
Proof.
  induction w as [|a w IH]; simpl.
  - by rewrite decide_True.
  - intros [Ha Hw]%andb_prop. apply bool_decide_eq_true in Ha.
    rewrite decide_False by done. by rewrite (IH Hw).
Qed.

(** Splitting what [Join] produced gives the words back, as long as no word
    holds the separator and there is at least one word. *)
Lemma Split_Join c l :
  l ≠ [] → Forall (λ w, free_of c w = true) l →
  Split (Join l (String c "")) c = l.
Proof.
  unfold Join. induction l as [|w l IH]; [done|]. intros _ [Hw Hl]%Forall_cons.
  destruct l as [|w' l]; [by apply Split_free|].
  change (String.concat (String c "") (w :: w' :: l))
    with (w +:+ String c (String.concat (String c "") (w' :: l))).
  rewrite Split_app by done. by rewrite IH.
Qed.

Lemma Split_free_words c s : Forall (λ w, free_of c w = true) (Split s c).
Proof.
  induction s as [|a s IH]; simpl; [repeat constructor|].
  case_decide as Ha; [by constructor|].
  destruct (Split s c) as [|w ws]; [by constructor; simpl; [case_bool_decide|]|].
  apply Forall_cons in IH as [Hw Hws]. constructor; [|done]. simpl.
  by rewrite bool_decide_eq_true_2, Hw.
Qed.

(** The text before the last separator: the inverse of appending a suffix. *)
Lemma before_last_free c s : free_of c s = true → before_last c s = None.
Proof.
  induction s as [|a s IH]; simpl; [done|].
  intros [Ha Hs]%andb_prop. apply bool_decide_eq_true in Ha.
  by rewrite (IH Hs), decide_False.
Qed.

Lemma before_last_app c p s :
  free_of c s = true → before_last c (p +:+ String c s) = Some p.
Proof.
  intros Hs. induction p as [|a p IH]; simpl.
  - rewrite (before_last_free _ _ Hs). by rewrite decide_True.
  - by rewrite IH.
Qed.

Lemma prefix_app p s : String.prefix p (p +:+ s) = true.
Proof.
  induction p as [|a p IH]; [by destruct s|]. simpl.
  destruct (ascii_dec a a); [done|congruence].
Qed.

Lemma Contains_prefix p s : Contains (p +:+ s) p = true.
Proof. pose proof (prefix_app p s) as H. by destruct (p +:+ s); cbn [Contains]; rewrite H. Qed.

Lemma str_app_nil_r s : s +:+ "" = s.
Proof.
  induction s as [|a s IH]; [done|].
  change (String a (s +:+ "") = String a s). by rewrite IH.
Qed.

Lemma Contains_refl s : Contains s s = true.
Proof. rewrite <-(str_app_nil_r s) at 1. apply Contains_prefix. Qed.

Lemma str_lt_irrefl s : str_lt s s = false.
Proof.
  unfold str_lt, String.ltb. pose proof (String.compare_antisym s s) as H.
  destruct (String.compare s s); done.
Qed.

Lemma str_lt_le a b : str_lt a b = true ↔ String.le a b ∧ a ≠ b.
Proof.
  unfold str_lt, String.ltb, String.le, String.leb. split.
  - destruct (String.compare a b) eqn:E; [done| |done]. intros _. split; [done|].
    intros ->. pose proof (str_lt_irrefl b) as H. unfold str_lt, String.ltb in H.
    by rewrite E in H.
  - intros [Hle Hne]. destruct (String.compare a b) eqn:E; [|done|done].
    by apply String.compare_eq_iff in E.
Qed.

(** ** Integers and instants *)

(** A [time.Time], in nanoseconds from the zero [Time] (January 1, year 1), so
    that [IsZero] is equality with 0; a [time.Duration] is in nanoseconds. *)
Abbreviation Time := Z (only parsing).
Abbreviation Duration := Z (only parsing).
Definition Second : Duration := 1000000000%Z.
Definition Minute : Duration := (60 * Second)%Z.
Definition Hour : Duration := (60 * Minute)%Z.

Definition Time_IsZero (t : Time) : bool := bool_decide (t = 0%Z).
Definition Time_After (t u : Time) : bool := bool_decide (u < t)%Z.
Definition Time_Before (t u : Time) : bool := bool_decide (t < u)%Z.
Definition Time_Equal (t u : Time) : bool := bool_decide (t = u).
Definition Time_Add (t : Time) (d : Duration) : Time := (t + d)%Z.

(** [time.Duration] values and products wrap around at 64 bits. *)
Definition wrap64 (z : Z) : Z := ((z + 2 ^ 63) `mod` 2 ^ 64 - 2 ^ 63)%Z.

(** [Duration.String]: "1h0m0s", "1.5s", "300ms". *)
Fixpoint frac_digits (n : nat) (f : Z) : string :=
  match n with
  | O => ""
  | S n' => if decide (f = 0%Z) then ""
            else fmt_d (f `div` 10 ^ Z.of_nat n')%Z +:+ frac_digits n' (f `mod` 10 ^ Z.of_nat n')%Z
  end.
Definition fmt_frac (v : Z) (prec : nat) : string :=
  let f := (v `mod` 10 ^ Z.of_nat prec)%Z in
  fmt_d (v `div` 10 ^ Z.of_nat prec)%Z +:+ (if decide (f = 0%Z) then "" else "." +:+ frac_digits prec f).
Definition Duration_String (d : Duration) : string :=
  let u := Z.abs d in
  let body :=
    if decide (u = 0%Z) then "0s"
    else if decide (u < 1000)%Z then fmt_d u +:+ "ns"
    else if decide (u < 1000000)%Z then fmt_frac u 3 +:+ "µs"
    else if decide (u < Second)%Z then fmt_frac u 6 +:+ "ms"
    else
      let secs := fmt_frac (u `mod` Minute)%Z 9 +:+ "s" in
      let mins := (u `div` Minute)%Z in
      if decide (mins = 0%Z) then secs
      else
        let hours := (u `div` Hour)%Z in
        let ms := fmt_d (mins `mod` 60)%Z +:+ "m" +:+ secs in
        if decide (hours = 0%Z) then ms else fmt_d hours +:+ "h" +:+ ms in
  if decide (d < 0)%Z then "-" +:+ body else body.

Example Duration_String_samples :
  map Duration_String [0; 1500000000; 3600000000000; 300000000; 1500; 5400500000000; -90000000000]%Z =
  ["0s"; "1.5s"; "1h0m0s"; "300ms"; "1.5µs"; "1h30m0.5s"; "-1m30s"].
Proof. vm_compute. reflexivity. Qed.

(** [IsZero] of a pointer to a [metav1.Time]: nil or the zero instant. *)
Definition pTime_IsZero (t : option Time) : bool :=
  match t with None => true | Some t => Time_IsZero t end.

(** ** Sorting *)

(** A comparison [sort] accepts: irreflexive, transitive, and with a
    transitive incomparability. *)
Record strict_weak {A} (lt : A → A → bool) : Prop := {
  sw_irrefl x : lt x x = false;
  sw_trans x y z : lt x y = true → lt y z = true → lt x z = true;
  sw_neg_trans x y z : lt x z = true → lt x y = true ∨ lt y z = true
}.

Lemma sw_asym {A} (lt : A → A → bool) x y :
  strict_weak lt → lt x y = true → lt y x = false.
Proof.
  intros [Hi Ht _] Hxy. destruct (lt y x) eqn:E; [|done].
  rewrite <-(Hi x). symmetry. by eapply Ht.
Qed.

(** [sort.Sort], [sort.Slice], [sort.Strings]: always a permutation, and in
    order when the comparison is a strict weak order. *)
Class GoSort : Type := {
  go_sort : ∀ {A : Type}, (A → A → bool) → list A → list A;
  go_sort_perm : ∀ A (lt : A → A → bool) l, go_sort lt l ≡ₚ l;
  go_sort_sorted : ∀ A (lt : A → A → bool) l,
    strict_weak lt → Sorted (λ x y, lt y x = false) (go_sort lt l)
}.

(** [range] over a map visits every entry once, in an order of its own at every
    loop: [site] tells the loops apart. *)
Class GoRange : Type := {
  go_range : ∀ {A : Type}, nat → gmap string A → list (string * A);
  go_range_perm : ∀ A site (m : gmap string A), go_range site m ≡ₚ map_to_list m
}.

Section range.
Context `{GoRange}.

Lemma elem_of_go_range {A} site (m : gmap string A) k v :
  (k, v) ∈ go_range site m ↔ m !! k = Some v.
Proof. rewrite (go_range_perm A site m). apply elem_of_map_to_list. Qed.

Lemma length_go_range {A} site (m : gmap string A) :
  length (go_range site m) = size m.
Proof. rewrite (go_range_perm A site m). apply length_map_to_list. Qed.

Lemma NoDup_go_range_fst {A} site (m : gmap string A) :
  NoDup (go_range site m).*1.
Proof. rewrite (go_range_perm A site m). apply NoDup_fst_map_to_list. Qed.
End range.

Section sort.
Context `{GoSort}.

Lemma elem_of_go_sort {A} (lt : A → A → bool) l x : x ∈ go_sort lt l ↔ x ∈ l.
Proof. by rewrite go_sort_perm. Qed.

(** The head of a sorted slice is minimal. *)
Lemma go_sort_head_min {A} (lt : A → A → bool) l x l' :
  strict_weak lt → go_sort lt l = x :: l' → ∀ y, y ∈ l → lt y x = false.
Proof.
  intros Hsw E y Hy. pose proof (go_sort_sorted A lt l Hsw) as Hs.
  rewrite E in Hs. apply Sorted_StronglySorted in Hs.
  - apply StronglySorted_inv in Hs as [_ Hall]. rewrite Forall_forall in Hall.
    rewrite <-(elem_of_go_sort lt), E in Hy.
    apply elem_of_cons in Hy as [->|Hy]; [apply Hsw|].
    apply Hall. done.
  - intros a b c Hab Hbc. destruct (lt c a) eqn:Eca; [|done].
    apply (sw_neg_trans lt Hsw _ b) in Eca as [?|?]; congruence.
Qed.
End sort.

(** *** Executable instances, for evaluation on concrete inputs *)

Definition lt_rel {A} (lt : A → A → bool) (x y : A) : Prop := lt y x = false.

#[local] Instance lt_rel_dec {A} (lt : A → A → bool) : RelDecision (lt_rel lt).
Proof. intros x y. unfold lt_rel. apply _. Defined.

#[refine] Instance merge_sort_go : GoSort := {
  go_sort A lt l := merge_sort (lt_rel lt) l
}.
Proof.
  - intros. apply merge_sort_Permutation.
  - intros A lt l Hsw. assert (Total (lt_rel lt)).
    { intros x y. unfold lt_rel. destruct (lt y x) eqn:E; [right|by left].
      by eapply sw_asym. }
    apply (Sorted_merge_sort (lt_rel lt)).
Defined.

#[refine] Instance map_order_go : GoRange := {
  go_range A _ m := map_to_list m
}.
Proof. done. Defined.
