(* ===== verification/Api.v ===== *)
(** * The API types

    The Go structs of [bootstrap/api/v1beta2] and [controlplane/api/v1beta2]
    with all their fields, and, of the Kubernetes and Cluster API structs the
    program handles, the fields it reads or writes.  A slice or a map is nil or
    holds something, and [reflect.DeepEqual] sees the difference: both are
    [option]s.  Decidable equality on these records is [reflect.DeepEqual]. *)

From stdpp Require Import base tactics option list gmap strings numbers.
From S2P Require Import Prelude Go.
Open Scope string_scope.
Open Scope list_scope.
Open Scope stdpp_scope.

(** A slice: [None] is the nil slice. *)
Abbreviation slice A := (option (list A)) (only parsing).
(** A [map[string]string]: [None] is the nil map. *)
Abbreviation strmap := (option (gmap string string)) (only parsing).

(** Reading a map: a nil map holds nothing. *)
Definition map_get (m : strmap) (k : string) : option string := m ≫= lookup k.
(** [len] and [range] of a slice: a nil slice is empty. *)
Definition elems {A} (s : slice A) : list A := default [] s.

(** ** bootstrap/api/v1beta2 *)

Record ObjectReference := {
  or_Kind : string; or_Namespace : string; or_Name : string
}.
#[global] Instance ObjectReference_eq_dec : EqDecision ObjectReference.
Proof. solve_decision. Defined.

Record FileSourceRef := { fsr_Name : string; fsr_Namespace : string; fsr_Key : string }.
#[global] Instance FileSourceRef_eq_dec : EqDecision FileSourceRef.
Proof. solve_decision. Defined.

Record FileSource := { fs_Secret : option FileSourceRef; fs_ConfigMap : option FileSourceRef }.
#[global] Instance FileSource_eq_dec : EqDecision FileSource.
Proof. solve_decision. Defined.

Record File := {
  f_Path : string; f_Owner : string; f_Permissions : string; f_Encoding : string;
  f_Content : string; f_ContentFrom : option FileSource
}.
#[global] Instance File_eq_dec : EqDecision File.
Proof. solve_decision. Defined.

Record Mirror := { mi_Endpoint : slice string; mi_Rewrite : strmap }.
#[global] Instance Mirror_eq_dec : EqDecision Mirror.
Proof. solve_decision. Defined.

Record TLSConfig := { tls_Secret : ObjectReference; tls_InsecureSkipVerify : bool }.
#[global] Instance TLSConfig_eq_dec : EqDecision TLSConfig.
Proof. solve_decision. Defined.

Record RegistryConfig := { rc_AuthSecret : ObjectReference; rc_TLS : TLSConfig }.
#[global] Instance RegistryConfig_eq_dec : EqDecision RegistryConfig.
Proof. solve_decision. Defined.

Record Registry := {
  reg_Mirrors : option (gmap string Mirror); reg_Configs : option (gmap string RegistryConfig)
}.
#[global] Instance Registry_eq_dec : EqDecision Registry.
Proof. solve_decision. Defined.

Record ComponentConfig := {
  cc_ExtraEnv : strmap; cc_ExtraArgs : slice string; cc_ExtraMounts : strmap;
  cc_OverrideImage : string
}.
#[global] Instance ComponentConfig_eq_dec : EqDecision ComponentConfig.
Proof. solve_decision. Defined.

Record NTP := { ntp_Servers : slice string; ntp_Enabled : option bool }.
#[global] Instance NTP_eq_dec : EqDecision NTP.
Proof. solve_decision. Defined.

Record AdditionalUserData := { aud_Config : string; aud_Data : strmap; aud_Strict : bool }.
#[global] Instance AdditionalUserData_eq_dec : EqDecision AdditionalUserData.
Proof. solve_decision. Defined.

Record RKE2AgentConfig := {
  ac_DataDir : string;
  ac_NodeLabels : slice string;
  ac_NodeAnnotations : strmap;
  ac_NodeTaints : slice string;
  ac_NodeNamePrefix : string;
  ac_NTP : option NTP;
  ac_ImageCredentialProviderConfigMap : option ObjectReference;
  ac_ContainerRuntimeEndpoint : string;
  ac_Snapshotter : string;
  ac_CISProfile : string;
  ac_PodSecurityAdmissionConfigFile : string;
  ac_ResolvConf : option ObjectReference;
  ac_ResolvConfPath : string;
  ac_ProtectKernelDefaults : bool;
  ac_SystemDefaultRegistry : string;
  ac_EnableContainerdSElinux : bool;
  ac_KubeletPath : string;
  ac_Kubelet : option ComponentConfig;
  ac_KubeProxy : option ComponentConfig;
  ac_RuntimeImage : string;
  ac_LoadBalancerPort : Z;
  ac_AirGapped : bool;
  ac_AirGappedChecksum : string;
  ac_Format : string;
  ac_AdditionalUserData : AdditionalUserData
}.
#[global] Instance RKE2AgentConfig_eq_dec : EqDecision RKE2AgentConfig.
Proof. solve_decision. Defined.

Record RKE2ConfigSpec := {
  cs_Files : slice File;
  cs_PreRKE2Commands : slice string;
  cs_PostRKE2Commands : slice string;
  cs_AgentConfig : RKE2AgentConfig;
  cs_PrivateRegistriesConfig : Registry;
  cs_GzipUserData : option bool
}.
#[global] Instance RKE2ConfigSpec_eq_dec : EqDecision RKE2ConfigSpec.
Proof. solve_decision. Defined.

(** ** controlplane/api/v1beta2 *)

Record EtcdS3 := {
  s3_Endpoint : string; s3_EndpointCASecret : option ObjectReference;
  s3_EnforceSSLVerify : bool; s3_CredentialSecret : option ObjectReference;
  s3_Bucket : string; s3_Region : string; s3_Folder : string
}.
#[global] Instance EtcdS3_eq_dec : EqDecision EtcdS3.
Proof. solve_decision. Defined.

Record EtcdBackupConfig := {
  eb_DisableAutomaticSnapshots : option bool; eb_SnapshotName : string;
  eb_ScheduleCron : string; eb_Retention : string; eb_Directory : string;
  eb_S3 : option EtcdS3
}.
#[global] Instance EtcdBackupConfig_eq_dec : EqDecision EtcdBackupConfig.
Proof. solve_decision. Defined.

Record EtcdConfig := {
  ec_ExposeMetrics : bool; ec_BackupConfig : EtcdBackupConfig;
  ec_CustomConfig : option ComponentConfig
}.
#[global] Instance EtcdConfig_eq_dec : EqDecision EtcdConfig.
Proof. solve_decision. Defined.

Record SecretsEncryption := {
  se_EncryptionKeySecret : option ObjectReference; se_Provider : string
}.
#[global] Instance SecretsEncryption_eq_dec : EqDecision SecretsEncryption.
Proof. solve_decision. Defined.

Record DisableComponents := {
  dc_KubernetesComponents : slice string; dc_PluginComponents : slice string
}.
#[global] Instance DisableComponents_eq_dec : EqDecision DisableComponents.
Proof. solve_decision. Defined.

Record RKE2ServerConfig := {
  sc_AuditPolicySecret : option ObjectReference;
  sc_BindAddress : string;
  sc_AdvertiseAddress : string;
  sc_TLSSan : slice string;
  sc_ServiceNodePortRange : string;
  sc_ClusterDNS : string;
  sc_ClusterDomain : string;
  sc_DisableComponents : DisableComponents;
  sc_CNI : string;
  sc_CNIMultusEnable : bool;
  sc_IngressController : slice string;
  sc_PauseImage : string;
  sc_Etcd : EtcdConfig;
  sc_SecretsEncryptionProvider : option SecretsEncryption;
  sc_KubeAPIServer : option ComponentConfig;
  sc_KubeControllerManager : option ComponentConfig;
  sc_KubeScheduler : option ComponentConfig;
  sc_CloudControllerManager : option ComponentConfig;
  sc_CloudProviderName : string;
  sc_CloudProviderConfigMap : option ObjectReference;
  sc_SupervisorMetrics : bool;
  sc_EmbeddedRegistry : bool;
  sc_ExternalDatastoreSecret : option ObjectReference
}.
#[global] Instance RKE2ServerConfig_eq_dec : EqDecision RKE2ServerConfig.
Proof. solve_decision. Defined.

(** ** Constants: formats of user data, encodings of files, and the registration
    method with an explicit address *)

Definition CloudConfig : string := "cloud-config".
Definition Ignition : string := "ignition".
Definition Gzip : string := "gzip".
Definition GzipBase64 : string := "gzip+base64".
Definition RegistrationMethodAddress : string := "address".
