(* ===== verification/Objects.v ===== *)
(** * The objects the controllers work on

    [RKE2ControlPlane] and [RKE2Config] (controlplane/api/v1beta2,
    bootstrap/api/v1beta2) with all their fields, and, of the Kubernetes and
    Cluster API objects ([Machine], [Cluster], [Node], conditions, owner
    references), the fields the program reads or writes.  Setters are written
    out: they are the assignments of the Go code. *)

From stdpp Require Import base tactics option list gmap strings numbers.
From S2P Require Import Prelude Go Api.
Open Scope string_scope.
Open Scope list_scope.
Open Scope stdpp_scope.

(** ** Object metadata *)

Record OwnerReference := {
  ow_APIVersion : string; ow_Kind : string; ow_Name : string; ow_UID : string;
  ow_Controller : option bool; ow_BlockOwnerDeletion : option bool
}.
#[global] Instance OwnerReference_eq_dec : EqDecision OwnerReference.
Proof. solve_decision. Defined.

Record ObjectMeta := {
  om_Name : string; om_Namespace : string; om_UID : string;
  om_Labels : strmap; om_Annotations : strmap;
  om_OwnerReferences : list OwnerReference; om_Finalizers : list string;
  om_CreationTimestamp : Time; om_DeletionTimestamp : option Time
}.
#[global] Instance ObjectMeta_eq_dec : EqDecision ObjectMeta.
Proof. solve_decision. Defined.

Definition om_empty : ObjectMeta := Build_ObjectMeta "" "" "" None None [] [] 0%Z None.

Definition om_with_annotations (a : strmap) (o : ObjectMeta) : ObjectMeta :=
  Build_ObjectMeta (om_Name o) (om_Namespace o) (om_UID o) (om_Labels o) a
    (om_OwnerReferences o) (om_Finalizers o) (om_CreationTimestamp o) (om_DeletionTimestamp o).
Definition om_with_labels (l : strmap) (o : ObjectMeta) : ObjectMeta :=
  Build_ObjectMeta (om_Name o) (om_Namespace o) (om_UID o) l (om_Annotations o)
    (om_OwnerReferences o) (om_Finalizers o) (om_CreationTimestamp o) (om_DeletionTimestamp o).
Definition om_with_finalizers (f : list string) (o : ObjectMeta) : ObjectMeta :=
  Build_ObjectMeta (om_Name o) (om_Namespace o) (om_UID o) (om_Labels o) (om_Annotations o)
    (om_OwnerReferences o) f (om_CreationTimestamp o) (om_DeletionTimestamp o).
Definition om_with_owners (l : list OwnerReference) (o : ObjectMeta) : ObjectMeta :=
  Build_ObjectMeta (om_Name o) (om_Namespace o) (om_UID o) (om_Labels o) (om_Annotations o)
    l (om_Finalizers o) (om_CreationTimestamp o) (om_DeletionTimestamp o).

(** Writing to a map: a nil map panics. *)
Definition map_put (m : strmap) (k v : string) : outcome strmap :=
  match m with
  | None => Panic "assignment to entry in nil map"
  | Some m => Ok (Some (<[k := v]> m))
  end.

(** [delete] on a map: nothing happens on a nil map. *)
Definition map_del (m : strmap) (k : string) : strmap :=
  match m with None => None | Some m => Some (delete k m) end.

(** [for k, v := range src { dst[k] = v }] on a map that is not nil: entries of
    [src] win.  The order in which [range] visits the keys does not matter. *)
Definition map_copy (src : strmap) (dst : gmap string string) : gmap string string :=
  default ∅ src ∪ dst.

(** ** Conditions *)

Inductive ConditionStatus := ConditionTrue | ConditionFalse | ConditionUnknown.
#[global] Instance ConditionStatus_eq_dec : EqDecision ConditionStatus.
Proof. solve_decision. Defined.

Record Condition := {
  cond_Type : string; cond_Status : ConditionStatus; cond_Reason : string;
  cond_Message : string; cond_LastTransitionTime : Time
}.
#[global] Instance Condition_eq_dec : EqDecision Condition.
Proof. solve_decision. Defined.

(** A condition literal of the source: no transition time. *)
Definition mkCond (t : string) (s : ConditionStatus) (reason message : string) : Condition :=
  {| cond_Type := t; cond_Status := s; cond_Reason := reason; cond_Message := message;
     cond_LastTransitionTime := 0%Z |}.

(** ** Cluster API *)

Record ContractVersionedObjectReference := {
  cv_APIGroup : string; cv_Kind : string; cv_Name : string
}.
#[global] Instance ContractVersionedObjectReference_eq_dec :
  EqDecision ContractVersionedObjectReference.
Proof. solve_decision. Defined.

Record MachineTaint := {
  mt_Key : string; mt_Value : string; mt_Effect : string; mt_Propagation : string
}.
#[global] Instance MachineTaint_eq_dec : EqDecision MachineTaint.
Proof. solve_decision. Defined.

Record MachineDeletionSpec := {
  md_NodeDrainTimeoutSeconds : option Z; md_NodeVolumeDetachTimeoutSeconds : option Z;
  md_NodeDeletionTimeoutSeconds : option Z
}.
#[global] Instance MachineDeletionSpec_eq_dec : EqDecision MachineDeletionSpec.
Proof. solve_decision. Defined.

Record MachineSpec := {
  msp_ClusterName : string;
  msp_ConfigRef : ContractVersionedObjectReference;
  msp_DataSecretName : option string;
  msp_InfrastructureRef : ContractVersionedObjectReference;
  msp_Version : string; msp_ProviderID : string; msp_FailureDomain : string;
  msp_Deletion : MachineDeletionSpec; msp_Taints : slice MachineTaint
}.
#[global] Instance MachineSpec_eq_dec : EqDecision MachineSpec.
Proof. solve_decision. Defined.

Record MachineStatus := {
  mst_NodeRef : string; (* Status.NodeRef.Name *)
  mst_Conditions : list Condition;
  mst_V1Beta1Conditions : list Condition; (* Status.Deprecated.V1Beta1.Conditions *)
  mst_NodeDrainStartTime : option Time; (* Status.Deletion.NodeDrainStartTime *)
  mst_Addresses : list (string * string) (* type and address *)
}.
#[global] Instance MachineStatus_eq_dec : EqDecision MachineStatus.
Proof. solve_decision. Defined.

Record Machine := {
  m_APIVersion : string; m_Kind : string;
  m_ObjectMeta : ObjectMeta; m_Spec : MachineSpec; m_Status : MachineStatus
}.
#[global] Instance Machine_eq_dec : EqDecision Machine.
Proof. solve_decision. Defined.

(** A [collections.Machines]: the map is keyed by the machine's name. *)
Abbreviation Machines := (gmap string Machine) (only parsing).

Definition m_Name (m : Machine) : string := om_Name (m_ObjectMeta m).
Definition m_Namespace (m : Machine) : string := om_Namespace (m_ObjectMeta m).
Definition m_Annotations (m : Machine) : strmap := om_Annotations (m_ObjectMeta m).
Definition m_CreationTimestamp (m : Machine) : Time := om_CreationTimestamp (m_ObjectMeta m).
Definition m_DeletionTimestamp (m : Machine) : option Time := om_DeletionTimestamp (m_ObjectMeta m).

Definition m_with_meta (o : ObjectMeta) (m : Machine) : Machine :=
  Build_Machine (m_APIVersion m) (m_Kind m) o (m_Spec m) (m_Status m).
Definition m_with_spec (s : MachineSpec) (m : Machine) : Machine :=
  Build_Machine (m_APIVersion m) (m_Kind m) (m_ObjectMeta m) s (m_Status m).
Definition m_with_status (s : MachineStatus) (m : Machine) : Machine :=
  Build_Machine (m_APIVersion m) (m_Kind m) (m_ObjectMeta m) (m_Spec m) s.
Definition m_with_annotations (a : strmap) (m : Machine) : Machine :=
  m_with_meta (om_with_annotations a (m_ObjectMeta m)) m.
Definition m_with_conditions (cs : list Condition) (m : Machine) : Machine :=
  m_with_status (Build_MachineStatus (mst_NodeRef (m_Status m)) cs
    (mst_V1Beta1Conditions (m_Status m)) (mst_NodeDrainStartTime (m_Status m))
    (mst_Addresses (m_Status m))) m.
Definition m_with_v1beta1_conditions (cs : list Condition) (m : Machine) : Machine :=
  m_with_status (Build_MachineStatus (mst_NodeRef (m_Status m)) (mst_Conditions (m_Status m))
    cs (mst_NodeDrainStartTime (m_Status m)) (mst_Addresses (m_Status m))) m.
Definition msp_with_version (v : string) (s : MachineSpec) : MachineSpec :=
  Build_MachineSpec (msp_ClusterName s) (msp_ConfigRef s) (msp_DataSecretName s)
    (msp_InfrastructureRef s) v (msp_ProviderID s) (msp_FailureDomain s) (msp_Deletion s)
    (msp_Taints s).
Definition msp_with_mutable (t : slice MachineTaint) (d : MachineDeletionSpec)
    (s : MachineSpec) : MachineSpec :=
  Build_MachineSpec (msp_ClusterName s) (msp_ConfigRef s) (msp_DataSecretName s)
    (msp_InfrastructureRef s) (msp_Version s) (msp_ProviderID s) (msp_FailureDomain s) d t.

Record FailureDomain := { fd_Name : string; fd_ControlPlane : option bool }.

Record Cluster := {
  cl_ObjectMeta : ObjectMeta;
  cl_ControlPlaneEndpoint : string * Z; (* host and port *)
  cl_TopologyVersion : string;
  cl_InfrastructureProvisioned : option bool;
  cl_FailureDomains : slice FailureDomain
}.
Definition cl_Name (c : Cluster) : string := om_Name (cl_ObjectMeta c).
Definition cl_Namespace (c : Cluster) : string := om_Namespace (cl_ObjectMeta c).

(** ** bootstrap/api/v1beta2: RKE2Config *)

Record RKE2ConfigStatus := {
  cst_Conditions : list Condition;
  cst_DataSecretCreated : option bool;
  cst_DataSecretName : option string;
  cst_ObservedGeneration : Z
}.
#[global] Instance RKE2ConfigStatus_eq_dec : EqDecision RKE2ConfigStatus.
Proof. solve_decision. Defined.

Record RKE2Config := {
  cfg_APIVersion : string; cfg_Kind : string;
  cfg_ObjectMeta : ObjectMeta; cfg_Spec : RKE2ConfigSpec; cfg_Status : RKE2ConfigStatus
}.
#[global] Instance RKE2Config_eq_dec : EqDecision RKE2Config.
Proof. solve_decision. Defined.
Definition cfg_Name (c : RKE2Config) : string := om_Name (cfg_ObjectMeta c).

(** ** controlplane/api/v1beta2: RKE2ControlPlane *)

Definition RKE2ControlPlaneLegacyFinalizer : string := "rke2.controleplane.cluster.x-k8s.io".
Definition RKE2ControlPlaneFinalizer : string := "rke2.controlplane.cluster.x-k8s.io".
Definition RKE2ServerConfigurationAnnotation : string :=
  "controlplane.cluster.x-k8s.io/rke2-server-configuration".
Definition LegacyRKE2ControlPlane : string := "controlplane.cluster.x-k8s.io/legacy".
Definition RemediationInProgressAnnotation : string :=
  "controlplane.cluster.x-k8s.io/remediation-in-progress".
Definition RemediationForAnnotation : string :=
  "controlplane.cluster.x-k8s.io/remediation-for".
Definition DefaultMinHealthyPeriod : Duration := (1 * Hour)%Z.
Definition LoadBalancerExclusionAnnotation : string :=
  "rke2.controlplane.cluster.x-k8s.io/load-balancer-exclusion".
Definition RollingUpdateStrategyType : string := "RollingUpdate".

Record RKE2ControlPlaneMachineTemplateDeletionSpec := {
  td_NodeDrainTimeoutSeconds : option Z; td_NodeVolumeDetachTimeoutSeconds : option Z;
  td_NodeDeletionTimeoutSeconds : option Z
}.

Record RKE2ControlPlaneMachineTemplateSpec := {
  ts_InfrastructureRef : ContractVersionedObjectReference;
  ts_Deletion : RKE2ControlPlaneMachineTemplateDeletionSpec;
  ts_Taints : slice MachineTaint
}.

(** The template's [ObjectMeta] holds labels and annotations only. *)
Record RKE2ControlPlaneMachineTemplate := {
  mtpl_Labels : strmap; mtpl_Annotations : strmap;
  mtpl_Spec : RKE2ControlPlaneMachineTemplateSpec
}.

(** [intstr.IntOrString]. *)
Inductive IntOrString := FromInt (i : Z) | FromString (s : string).

Record RollingUpdate := { ru_MaxSurge : option IntOrString }.
Record RolloutStrategy := { rs_Type : string; rs_RollingUpdate : option RollingUpdate }.

Record RemediationStrategy := {
  rem_MaxRetry : option Z; rem_RetryPeriod : Duration; rem_MinHealthyPeriod : option Duration
}.

Record LastRemediationStatus := {
  lr_Machine : string; lr_Timestamp : Time; lr_RetryCount : Z
}.

Record RKE2ControlPlaneSpec := {
  sp_RKE2ConfigSpec : RKE2ConfigSpec;
  sp_Replicas : option Z;
  sp_Version : string;
  sp_MachineTemplate : RKE2ControlPlaneMachineTemplate;
  sp_ServerConfig : RKE2ServerConfig;
  sp_ManifestsConfigMapReference : ObjectReference;
  sp_RegistrationMethod : string;
  sp_RegistrationAddress : string;
  sp_RolloutStrategy : option RolloutStrategy;
  sp_RemediationStrategy : option RemediationStrategy
}.

(** [st_ControlPlaneInitialized] is [Initialization.ControlPlaneInitialized]. *)
Record RKE2ControlPlaneStatus := {
  st_Conditions : list Condition;
  st_ControlPlaneInitialized : option bool;
  st_ObservedGeneration : Z;
  st_Replicas : option Z;
  st_Version : string;
  st_ReadyReplicas : option Z;
  st_AvailableReplicas : option Z;
  st_UpToDateReplicas : option Z;
  st_AvailableServerIPs : slice string;
  st_LastRemediation : option LastRemediationStatus
}.

Record RKE2ControlPlane := {
  rcp_ObjectMeta : ObjectMeta; rcp_Spec : RKE2ControlPlaneSpec;
  rcp_Status : RKE2ControlPlaneStatus
}.

Definition rcp_Name (r : RKE2ControlPlane) : string := om_Name (rcp_ObjectMeta r).
Definition rcp_Namespace (r : RKE2ControlPlane) : string := om_Namespace (rcp_ObjectMeta r).
Definition rcp_Annotations (r : RKE2ControlPlane) : strmap := om_Annotations (rcp_ObjectMeta r).
Definition rcp_DeletionTimestamp (r : RKE2ControlPlane) : option Time :=
  om_DeletionTimestamp (rcp_ObjectMeta r).
Definition GetDesiredVersion (r : RKE2ControlPlane) : string := sp_Version (rcp_Spec r).

(** [ptr.Deref(rcp.Status.Initialization.ControlPlaneInitialized, false)]. *)
Definition rcp_initialized (r : RKE2ControlPlane) : bool :=
  default false (st_ControlPlaneInitialized (rcp_Status r)).

Definition rcp_with_meta (o : ObjectMeta) (r : RKE2ControlPlane) : RKE2ControlPlane :=
  Build_RKE2ControlPlane o (rcp_Spec r) (rcp_Status r).
Definition rcp_with_status (s : RKE2ControlPlaneStatus) (r : RKE2ControlPlane) : RKE2ControlPlane :=
  Build_RKE2ControlPlane (rcp_ObjectMeta r) (rcp_Spec r) s.
Definition rcp_with_annotations (a : strmap) (r : RKE2ControlPlane) : RKE2ControlPlane :=
  rcp_with_meta (om_with_annotations a (rcp_ObjectMeta r)) r.
Definition SetConditions (cs : list Condition) (r : RKE2ControlPlane) : RKE2ControlPlane :=
  let s := rcp_Status r in
  rcp_with_status (Build_RKE2ControlPlaneStatus cs (st_ControlPlaneInitialized s)
    (st_ObservedGeneration s) (st_Replicas s) (st_Version s) (st_ReadyReplicas s)
    (st_AvailableReplicas s) (st_UpToDateReplicas s) (st_AvailableServerIPs s)
    (st_LastRemediation s)) r.
Definition GetConditions (r : RKE2ControlPlane) : list Condition := st_Conditions (rcp_Status r).

(** The in-place mutable part of a Machine's spec, as the template gives it. *)
Definition template_deletion (r : RKE2ControlPlane) : MachineDeletionSpec :=
  let d := ts_Deletion (mtpl_Spec (sp_MachineTemplate (rcp_Spec r))) in
  {| md_NodeDrainTimeoutSeconds := td_NodeDrainTimeoutSeconds d;
     md_NodeVolumeDetachTimeoutSeconds := td_NodeVolumeDetachTimeoutSeconds d;
     md_NodeDeletionTimeoutSeconds := td_NodeDeletionTimeoutSeconds d |}.
Definition template_taints (r : RKE2ControlPlane) : slice MachineTaint :=
  ts_Taints (mtpl_Spec (sp_MachineTemplate (rcp_Spec r))).
Definition template_infra_ref (r : RKE2ControlPlane) : ContractVersionedObjectReference :=
  ts_InfrastructureRef (mtpl_Spec (sp_MachineTemplate (rcp_Spec r))).

(** ** Templates *)

Record RKE2ConfigTemplateResource := { ctr_Spec : RKE2ConfigSpec }.
Record RKE2ConfigTemplateSpec := { cts_Template : RKE2ConfigTemplateResource }.
Record RKE2ConfigTemplate := {
  ct_ObjectMeta : ObjectMeta; ct_Spec : RKE2ConfigTemplateSpec
}.

Record RKE2ControlPlaneTemplateResourceSpec := {
  trs_RKE2ConfigSpec : RKE2ConfigSpec;
  trs_MachineTemplate : RKE2ControlPlaneMachineTemplate;
  trs_ServerConfig : RKE2ServerConfig;
  trs_ManifestsConfigMapReference : ObjectReference;
  trs_RegistrationMethod : string;
  trs_RegistrationAddress : string;
  trs_RolloutStrategy : option RolloutStrategy;
  trs_RemediationStrategy : option RemediationStrategy
}.
(** The resource's [ObjectMeta] holds labels and annotations only. *)
Record RKE2ControlPlaneTemplateResource := {
  tr_Labels : strmap; tr_Annotations : strmap; tr_Spec : RKE2ControlPlaneTemplateResourceSpec
}.
Record RKE2ControlPlaneTemplateSpec := { tsp_Template : RKE2ControlPlaneTemplateResource }.
Record RKE2ControlPlaneTemplate := {
  tpl_ObjectMeta : ObjectMeta; tpl_Spec : RKE2ControlPlaneTemplateSpec
}.
