(* ===== verification/Libs.v ===== *)
(** * The third-party libraries, as interfaces

    Cluster API (sigs.k8s.io/cluster-api), apimachinery and controller-runtime
    are not part of the repository.  What the program uses of them is a class:
    the functions, and the documented behaviour the theorems rely on as laws.
    At the end of the file each class has a concrete instance. *)

From Stdlib Require Import Ascii.
From stdpp Require Import base tactics option list gmap strings numbers sorting.
From S2P Require Import Prelude Go Api Objects.
Open Scope string_scope.
Open Scope list_scope.
Open Scope stdpp_scope.

(** ** Constants of cluster-api and apimachinery *)

Class CapiConsts := {
  (* annotations *)
  DeleteMachineAnnotation : string;
  RemediateMachineAnnotation : string;
  UpdateInProgressAnnotation : string;
  PreDrainDeleteHookAnnotationPrefix : string;
  PreTerminateDeleteHookAnnotationPrefix : string;
  ExcludeNodeDrainingAnnotation : string;
  ExcludeWaitForNodeVolumeDetachAnnotation : string;
  TemplateClonedFromNameAnnotation : string;
  TemplateClonedFromGroupKindAnnotation : string;
  PendingHooksAnnotation : string;
  (* labels *)
  ClusterNameLabel : string;
  MachineControlPlaneLabel : string;
  MachineControlPlaneNameLabel : string;
  (* machine conditions *)
  MachineHealthCheckSucceededCondition : string;
  MachineOwnerRemediatedCondition : string;
  MachineUpToDateCondition : string;
  MachineReadyCondition : string;
  MachineAvailableCondition : string;
  MachineDeletingCondition : string;
  MachineUpdatingCondition : string;
  (* other conditions *)
  AvailableCondition : string;
  RollingOutCondition : string;
  ScalingUpCondition : string;
  ScalingDownCondition : string;
  RemediatingCondition : string;
  DeletingCondition : string;
  MachinesUpToDateCondition : string;
  (* reasons *)
  MachineDeletingWaitingForPreDrainHookReason : string;
  MachineDeletingWaitingForPreTerminateHookReason : string;
  MachineDeletingDrainingNodeReason : string;
  MachineNotUpToDateReason : string;
  MachineUpToDateUpdatingReason : string;
  MachineUpToDateReason : string;
  InspectionFailedReason : string;
  InternalErrorReason : string;
  RollingOutReason : string;
  NotRollingOutReason : string;
  AvailableReason : string;
  DeletionCompletedReason : string;
  DeletingReason : string;
  NotDeletingReason : string;
  ReadyReason : string;
  NotReadyReason : string;
  ReadyUnknownReason : string;
  NotAvailableReason : string;
  NoReplicasReason : string;
  UpToDateReason : string;
  NotUpToDateReason : string;
  UpToDateUnknownReason : string;
  ScalingUpReason : string;
  NotScalingUpReason : string;
  ScalingDownReason : string;
  NotScalingDownReason : string;
  WaitingForReplicasSetReason : string;
  RemediatingReason : string;
  NotRemediatingReason : string;
  (* annotations, labels, taints, conditions and addresses of nodes *)
  MachineAnnotation : string;
  LabelNodeExcludeBalancers : string;
  TaintNodeUnreachable : string;
  TaintEffectNoExecute : string;
  NodeReadyCondition : string;
  MachineInternalIP : string;
  MachineExternalIP : string;
  (* versions and names *)
  clusterv1_GroupVersion : string;
  TemplateSuffix : string;
  UpdateMachineHook : string; (* runtimecatalog.HookName(runtimehooksv1.UpdateMachine) *)

  (* the annotations and labels are different keys, the condition types
     different types *)
  annotations_distinct : NoDup
    [DeleteMachineAnnotation; RemediateMachineAnnotation; UpdateInProgressAnnotation;
     ExcludeNodeDrainingAnnotation; ExcludeWaitForNodeVolumeDetachAnnotation;
     TemplateClonedFromNameAnnotation; TemplateClonedFromGroupKindAnnotation;
     PendingHooksAnnotation; RKE2ServerConfigurationAnnotation;
     PreTerminateDeleteHookAnnotationPrefix +:+ "/rke2-cleanup";
     PreDrainDeleteHookAnnotationPrefix +:+ "/rke2-lb-exclusion"];
  labels_distinct : NoDup
    [ClusterNameLabel; MachineControlPlaneLabel; MachineControlPlaneNameLabel];
  machine_conditions_distinct : NoDup
    [MachineHealthCheckSucceededCondition; MachineOwnerRemediatedCondition;
     MachineUpToDateCondition; MachineReadyCondition; MachineAvailableCondition;
     MachineDeletingCondition; MachineUpdatingCondition; "AgentHealthy"; "EtcdMemberHealthy";
     "NodeMetadataUpToDate"];
  rcp_conditions_distinct : NoDup
    [AvailableCondition; RollingOutCondition; ScalingUpCondition; ScalingDownCondition;
     RemediatingCondition; DeletingCondition; MachinesUpToDateCondition; "MachinesReady";
     "Initialized"; "ControlPlaneComponentsHealthy"; "EtcdClusterHealthy";
     "CertificatesAvailable"];
  addresses_distinct : MachineInternalIP ≠ MachineExternalIP;
  UpdateMachine_name : UpdateMachineHook ≠ "" ∧ free_of ","%char UpdateMachineHook = true
}.

(** [controlplanev1.PreTerminateHookCleanupAnnotation] and
    [controlplanev1.PreDrainLoadbalancerExclusionAnnotation]. *)
Definition PreTerminateHookCleanupAnnotation `{CapiConsts} : string :=
  PreTerminateDeleteHookAnnotationPrefix +:+ "/rke2-cleanup".
Definition PreDrainLoadbalancerExclusionAnnotation `{CapiConsts} : string :=
  PreDrainDeleteHookAnnotationPrefix +:+ "/rke2-lb-exclusion".

(** Conditions the program defines itself (controlplane/api/v1beta2/condition_consts.go). *)
Definition RKE2ControlPlaneMachineAgentHealthyCondition : string := "AgentHealthy".
Definition RKE2ControlPlaneMachineEtcdMemberHealthyCondition : string := "EtcdMemberHealthy".
Definition RKE2ControlPlaneNodeMetadataUpToDateCondition : string := "NodeMetadataUpToDate".
Definition RKE2ControlPlaneEtcdClusterHealthyCondition : string := "EtcdClusterHealthy".
Definition RKE2ControlPlaneControlPlaneComponentsHealthyCondition : string :=
  "ControlPlaneComponentsHealthy".
Definition RKE2ControlPlaneInitializedCondition : string := "Initialized".
Definition RKE2ControlPlaneMachinesReadyCondition : string := "MachinesReady".
Definition RKE2ControlPlaneCertificatesAvailableCondition : string := "CertificatesAvailable".
Definition RKE2ControlPlaneMachineCannotBeRemediatedReason : string := "CannotBeRemediated".
Definition RKE2ControlPlaneMachineRemediationDeferredReason : string := "RemediationDeferred".
Definition RKE2ControlPlaneMachineRemediationMachineDeletingReason : string := "MachineDeleting".
Definition RKE2ControlPlaneWaitingForRKE2ServerReason : string := "WaitingForRKE2Server".
Definition RKE2ControlPlaneDeletingWaitingForWorkersDeletionReason : string :=
  "WaitingForWorkersDeletion".
Definition RKE2ControlPlaneDeletingWaitingForMachineDeletionReason : string :=
  "WaitingForMachineDeletion".

(** ** Conditions (sigs.k8s.io/cluster-api/util/conditions) *)

Class CondLib := {
  conditions_Get : list Condition → string → option Condition;
  conditions_Set : list Condition → Condition → list Condition;
  conditions_Delete : list Condition → string → list Condition;

  Get_type cs t c : conditions_Get cs t = Some c → cond_Type c = t;
  (* [Set] stores what it was given; the transition time is its own *)
  Get_Set_eq cs c : ∃ t, conditions_Get (conditions_Set cs c) (cond_Type c) =
    Some {| cond_Type := cond_Type c; cond_Status := cond_Status c;
            cond_Reason := cond_Reason c; cond_Message := cond_Message c;
            cond_LastTransitionTime := t |};
  Get_Set_ne cs c t : t ≠ cond_Type c →
    conditions_Get (conditions_Set cs c) t = conditions_Get cs t;
  Get_Delete_eq cs t : conditions_Get (conditions_Delete cs t) t = None;
  Get_Delete_ne cs t t' : t' ≠ t →
    conditions_Get (conditions_Delete cs t) t' = conditions_Get cs t'
}.

Section conditions.
Context `{CondLib}.

Definition conditions_Has (cs : list Condition) (t : string) : bool :=
  bool_decide (is_Some (conditions_Get cs t)).
Definition conditions_IsTrue (cs : list Condition) (t : string) : bool :=
  match conditions_Get cs t with
  | Some c => bool_decide (cond_Status c = ConditionTrue)
  | None => false
  end.
Definition conditions_IsFalse (cs : list Condition) (t : string) : bool :=
  match conditions_Get cs t with
  | Some c => bool_decide (cond_Status c = ConditionFalse)
  | None => false
  end.

Lemma Has_Set cs c t :
  conditions_Has (conditions_Set cs c) t = bool_decide (t = cond_Type c) || conditions_Has cs t.
Proof.
  unfold conditions_Has. destruct (decide (t = cond_Type c)) as [->|Hne].
  - destruct (Get_Set_eq cs c) as [? ->]. by rewrite !bool_decide_eq_true_2 by eauto.
  - by rewrite Get_Set_ne, (bool_decide_eq_false_2 (t = _)) by done.
Qed.

Lemma IsTrue_Set cs c t :
  conditions_IsTrue (conditions_Set cs c) t =
  if decide (t = cond_Type c) then bool_decide (cond_Status c = ConditionTrue)
  else conditions_IsTrue cs t.
Proof.
  unfold conditions_IsTrue. case_decide as Ht; [subst t|by rewrite Get_Set_ne].
  by destruct (Get_Set_eq cs c) as [? ->].
Qed.

Lemma IsTrue_status cs t :
  conditions_IsTrue cs t = true ↔
  ∃ c, conditions_Get cs t = Some c ∧ cond_Status c = ConditionTrue.
Proof.
  unfold conditions_IsTrue. destruct (conditions_Get cs t) as [c|]; [|naive_solver].
  rewrite bool_decide_eq_true. naive_solver.
Qed.
End conditions.

(** ** Machine collections (sigs.k8s.io/cluster-api/util/collections) and
    failure domains (util/failuredomains) *)

(** [IsDefined] of the reference types: some field is set. *)
Definition NodeRef_IsDefined (m : Machine) : bool := bool_decide (mst_NodeRef (m_Status m) ≠ "").
Definition Ref_IsDefined (r : ContractVersionedObjectReference) : bool :=
  bool_decide (r ≠ Build_ContractVersionedObjectReference "" "" "").

Class CollLib := {
  (* methods of collections.Machines *)
  coll_Filter : (Machine → bool) → Machines → Machines;
  coll_Difference : Machines → Machines → Machines;
  coll_Oldest : Machines → option Machine;
  coll_Newest : Machines → option Machine;
  coll_OldestDeletionTimestamp : Machines → option Machine;
  (* predicates *)
  HasDeletionTimestamp : Machine → bool;
  ActiveMachines : Machine → bool;
  HasAnnotationKey : string → Machine → bool;
  InFailureDomains : list string → Machine → bool;
  HasNode : Machine → bool;
  IsReady : Machine → bool;
  IsUnhealthy : Machine → bool;
  IsUnhealthyAndOwnerRemediated : Machine → bool;
  MatchesKubernetesVersion : string → Machine → bool;
  OwnedMachines : RKE2ControlPlane → Machine → bool;
  ControlPlaneMachines : string → Machine → bool;
  (* failure domains *)
  PickMost : list FailureDomain → Machines → Machines → string;
  PickFewest : list FailureDomain → Machines → Machines → string;

  Filter_spec p (ms : Machines) n m :
    coll_Filter p ms !! n = Some m ↔ ms !! n = Some m ∧ p m = true;
  Difference_spec (ms1 ms2 : Machines) n m :
    coll_Difference ms1 ms2 !! n = Some m ↔ ms1 !! n = Some m ∧ ms2 !! n = None;
  Oldest_some (ms : Machines) : ms ≠ ∅ → is_Some (coll_Oldest ms);
  Oldest_spec (ms : Machines) m : coll_Oldest ms = Some m →
    (∃ n, ms !! n = Some m) ∧
    ∀ n m', ms !! n = Some m' → (m_CreationTimestamp m ≤ m_CreationTimestamp m')%Z;
  Newest_some (ms : Machines) : ms ≠ ∅ → is_Some (coll_Newest ms);
  Newest_spec (ms : Machines) m : coll_Newest ms = Some m →
    (∃ n, ms !! n = Some m) ∧
    ∀ n m', ms !! n = Some m' → (m_CreationTimestamp m' ≤ m_CreationTimestamp m)%Z;
  OldestDeletion_some (ms : Machines) : ms ≠ ∅ → is_Some (coll_OldestDeletionTimestamp ms);
  OldestDeletion_spec (ms : Machines) m : coll_OldestDeletionTimestamp ms = Some m →
    ∃ n, ms !! n = Some m;
  HasDeletionTimestamp_spec m :
    HasDeletionTimestamp m = negb (pTime_IsZero (m_DeletionTimestamp m));
  ActiveMachines_spec m : ActiveMachines m = pTime_IsZero (m_DeletionTimestamp m);
  HasAnnotationKey_spec k m :
    HasAnnotationKey k m = bool_decide (is_Some (map_get (m_Annotations m) k));
  InFailureDomains_spec fds m :
    InFailureDomains fds m = bool_decide (msp_FailureDomain (m_Spec m) ∈ fds);
  HasNode_spec m : HasNode m = NodeRef_IsDefined m;
  MatchesKubernetesVersion_spec v m :
    MatchesKubernetesVersion v m = bool_decide (msp_Version (m_Spec m) = v);
  (* the failure domain with the most machines among [ms] *)
  PickMost_spec fds all ms fd : PickMost fds all ms = fd →
    (∃ n m, ms !! n = Some m ∧ msp_FailureDomain (m_Spec m) ∈ map fd_Name fds) →
    ∃ n m, ms !! n = Some m ∧ msp_FailureDomain (m_Spec m) = fd
}.

Definition coll_Not (p : Machine → bool) (m : Machine) : bool := negb (p m).

Lemma size_pos {A} (ms : gmap string A) :
  (0 < size ms)%nat ↔ ∃ n m, ms !! n = Some m.
Proof.
  split.
  - intros Hs. apply map_choose. intros ->. rewrite map_size_empty in Hs. lia.
  - intros (n & m & Hm). destruct (decide (size ms = 0)) as [Hz|]; [|lia].
    apply map_size_empty_inv in Hz. by rewrite Hz, lookup_empty in Hm.
Qed.

Lemma size_pos_ne {A} (ms : gmap string A) : (0 < size ms)%nat ↔ ms ≠ ∅.
Proof.
  rewrite size_pos. split; [|apply map_choose].
  intros (n & m & Hm) ->. by rewrite lookup_empty in Hm.
Qed.

Section collections.
Context `{CollLib}.

Lemma Filter_pos p (ms : Machines) :
  (0 < size (coll_Filter p ms))%nat ↔ ∃ n m, ms !! n = Some m ∧ p m = true.
Proof. rewrite size_pos. by setoid_rewrite Filter_spec. Qed.

Lemma Filter_None p (ms : Machines) n :
  coll_Filter p ms !! n = None ↔ ∀ m, ms !! n = Some m → p m = false.
Proof.
  destruct (coll_Filter p ms !! n) as [m|] eqn:E.
  - apply Filter_spec in E as [? ?]. split; [done|]. intros Hp. by rewrite Hp in *.
  - split; [|done]. intros _ m Hm. destruct (p m) eqn:Ep; [|done].
    assert (coll_Filter p ms !! n = Some m) by (by apply Filter_spec). congruence.
Qed.

Lemma Filter_empty p (ms : Machines) :
  coll_Filter p ms = ∅ ↔ ∀ n m, ms !! n = Some m → p m = false.
Proof.
  split.
  - intros He n m Hm. by eapply Filter_None; [rewrite He; apply lookup_empty|].
  - intros Hp. apply map_empty. intros n. apply Filter_None. eauto.
Qed.

Lemma Filter_subseteq p (ms : Machines) : coll_Filter p ms ⊆ ms.
Proof. apply map_subseteq_spec. intros n m. rewrite Filter_spec. naive_solver. Qed.

Lemma Filter_size p (ms : Machines) : (size (coll_Filter p ms) ≤ size ms)%nat.
Proof. apply map_subseteq_size, Filter_subseteq. Qed.
End collections.

(** ** Names, labels, owners *)

Class MetaLib := {
  (* names.SimpleNameGenerator.GenerateName: the prefix and a random suffix;
     the argument is what the generator has produced so far *)
  GenerateName : nat → string → string;
  (* format.MustFormatValue: a value that fits a label, or its hash *)
  MustFormatValue : string → string;
  (* controlplanev1 and bootstrapv1 group versions *)
  controlplanev1_GroupVersion : string;
  bootstrapv1_GroupVersion : string;
  bootstrapv1_Group : string;
  (* util.HasOwner(refs, apiVersion, kinds) *)
  HasOwner : list OwnerReference → string → list string → bool;
  (* util.HasExactOwnerRef, util.EnsureOwnerRef *)
  HasExactOwnerRef : list OwnerReference → OwnerReference → bool;
  EnsureOwnerRef : list OwnerReference → OwnerReference → list OwnerReference;

  EnsureOwnerRef_in refs r : r ∈ EnsureOwnerRef refs r;
  GenerateName_prefix k p : HasPrefix (GenerateName k p) p = true;
  MustFormatValue_short s : (String.length s ≤ 63)%nat → MustFormatValue s = s
}.

(** [metav1.NewControllerRef(rcp, gvk)]. *)
Definition NewControllerRef `{MetaLib} (rcp : RKE2ControlPlane) : OwnerReference :=
  {| ow_APIVersion := controlplanev1_GroupVersion; ow_Kind := "RKE2ControlPlane";
     ow_Name := rcp_Name rcp; ow_UID := om_UID (rcp_ObjectMeta rcp);
     ow_Controller := Some true; ow_BlockOwnerDeletion := Some true |}.

(** ** Concrete instances *)

#[refine] Instance capi_consts : CapiConsts := {
  DeleteMachineAnnotation := "cluster.x-k8s.io/delete-machine";
  RemediateMachineAnnotation := "cluster.x-k8s.io/remediate-machine";
  UpdateInProgressAnnotation := "in-place-updates.internal.cluster.x-k8s.io/update-in-progress";
  PreDrainDeleteHookAnnotationPrefix := "pre-drain.delete.hook.machine.cluster.x-k8s.io";
  PreTerminateDeleteHookAnnotationPrefix := "pre-terminate.delete.hook.machine.cluster.x-k8s.io";
  ExcludeNodeDrainingAnnotation := "machine.cluster.x-k8s.io/exclude-node-draining";
  ExcludeWaitForNodeVolumeDetachAnnotation :=
    "machine.cluster.x-k8s.io/exclude-wait-for-node-volume-detach";
  TemplateClonedFromNameAnnotation := "cluster.x-k8s.io/cloned-from-name";
  TemplateClonedFromGroupKindAnnotation := "cluster.x-k8s.io/cloned-from-groupkind";
  PendingHooksAnnotation := "runtime.cluster.x-k8s.io/pending-hooks";
  ClusterNameLabel := "cluster.x-k8s.io/cluster-name";
  MachineControlPlaneLabel := "cluster.x-k8s.io/control-plane";
  MachineControlPlaneNameLabel := "cluster.x-k8s.io/control-plane-name";
  MachineHealthCheckSucceededCondition := "HealthCheckSucceeded";
  MachineOwnerRemediatedCondition := "OwnerRemediated";
  MachineUpToDateCondition := "UpToDate";
  MachineReadyCondition := "Ready";
  MachineAvailableCondition := "Available";
  MachineDeletingCondition := "Deleting";
  MachineUpdatingCondition := "Updating";
  AvailableCondition := "Available";
  RollingOutCondition := "RollingOut";
  ScalingUpCondition := "ScalingUp";
  ScalingDownCondition := "ScalingDown";
  RemediatingCondition := "Remediating";
  DeletingCondition := "Deleting";
  MachinesUpToDateCondition := "MachinesUpToDate";
  MachineDeletingWaitingForPreDrainHookReason := "WaitingForPreDrainHook";
  MachineDeletingWaitingForPreTerminateHookReason := "WaitingForPreTerminateHook";
  MachineDeletingDrainingNodeReason := "DrainingNode";
  MachineNotUpToDateReason := "NotUpToDate";
  MachineUpToDateUpdatingReason := "Updating";
  MachineUpToDateReason := "UpToDate";
  InspectionFailedReason := "InspectionFailed";
  InternalErrorReason := "InternalError";
  RollingOutReason := "RollingOut";
  NotRollingOutReason := "NotRollingOut";
  AvailableReason := "Available";
  DeletionCompletedReason := "DeletionCompleted";
  DeletingReason := "Deleting";
  NotDeletingReason := "NotDeleting";
  ReadyReason := "Ready";
  NotReadyReason := "NotReady";
  ReadyUnknownReason := "ReadyUnknown";
  NotAvailableReason := "NotAvailable";
  NoReplicasReason := "NoReplicas";
  UpToDateReason := "UpToDate";
  NotUpToDateReason := "NotUpToDate";
  UpToDateUnknownReason := "UpToDateUnknown";
  ScalingUpReason := "ScalingUp";
  NotScalingUpReason := "NotScalingUp";
  ScalingDownReason := "ScalingDown";
  NotScalingDownReason := "NotScalingDown";
  WaitingForReplicasSetReason := "WaitingForReplicasSet";
  RemediatingReason := "Remediating";
  NotRemediatingReason := "NotRemediating";
  MachineAnnotation := "cluster.x-k8s.io/machine";
  LabelNodeExcludeBalancers := "node.kubernetes.io/exclude-from-external-load-balancers";
  TaintNodeUnreachable := "node.kubernetes.io/unreachable";
  TaintEffectNoExecute := "NoExecute";
  NodeReadyCondition := "Ready";
  MachineInternalIP := "InternalIP";
  MachineExternalIP := "ExternalIP";
  clusterv1_GroupVersion := "cluster.x-k8s.io/v1beta2";
  TemplateSuffix := "Template";
  UpdateMachineHook := "UpdateMachine"
}.
Proof.
  all: try (apply (bool_decide_unpack (NoDup _)); vm_compute; reflexivity).
  { done. }
  split; [discriminate|reflexivity].
Defined.

(** Conditions in a list without repeated types. *)
Definition cond_del (cs : list Condition) (t : string) : list Condition :=
  filter (λ c, cond_Type c ≠ t) cs.

Definition cond_get (cs : list Condition) (t : string) : option Condition :=
  List.find (λ c, bool_decide (cond_Type c = t)) cs.

Lemma cond_get_del_ne cs t t' : t' ≠ t → cond_get (cond_del cs t) t' = cond_get cs t'.
Proof.
  intros Hne. induction cs as [|c cs IH]; [done|]. unfold cond_del, cond_get in *.
  rewrite filter_cons. case_decide as Hc; cbn [List.find].
  - by rewrite IH.
  - rewrite IH, (bool_decide_eq_false_2 (cond_Type c = t')); [done|].
    congruence.
Qed.

Lemma cond_get_del_eq cs t : cond_get (cond_del cs t) t = None.
Proof.
  induction cs as [|c cs IH]; [done|]. unfold cond_del, cond_get in *.
  rewrite filter_cons. case_decide as Hc; [|done]. cbn [List.find].
  by rewrite bool_decide_eq_false_2.
Qed.

#[refine] Instance list_conditions : CondLib := {
  conditions_Get := cond_get;
  conditions_Set cs c := c :: cond_del cs (cond_Type c);
  conditions_Delete := cond_del
}.
Proof.
  - intros cs t c Hc. apply List.find_some in Hc as [_ Hc]. by apply bool_decide_eq_true in Hc.
  - intros cs [ty st re me tt]. exists tt. unfold cond_get. cbn [List.find].
    by rewrite bool_decide_eq_true_2.
  - intros cs c t Hne. unfold cond_get at 1. cbn [List.find].
    rewrite bool_decide_eq_false_2 by done. by apply cond_get_del_ne.
  - apply cond_get_del_eq.
  - intros. by apply cond_get_del_ne.
Defined.

(** The extremal machine of a collection for an integer key: the first entry in
    key order that no other beats. *)
Fixpoint best (key : Machine → Z) (l : list (string * Machine)) : option Machine :=
  match l with
  | [] => None
  | (_, m) :: l =>
      match best key l with
      | Some m' => if decide (key m ≤ key m')%Z then Some m else Some m'
      | None => Some m
      end
  end.

Lemma best_spec key l m :
  best key l = Some m →
  (∃ n, (n, m) ∈ l) ∧ ∀ n m', (n, m') ∈ l → (key m ≤ key m')%Z.
Proof.
  revert m. induction l as [|[n0 m0] l IH]; intros m; simpl; [done|].
  destruct (best key l) as [m1|] eqn:E; [destruct (IH m1 eq_refl) as [[n1 Hin] Hle]|].
  - case_decide as Hd; intros [= <-]; (split; [set_solver|]);
      intros n m'; rewrite elem_of_cons; intros [[= -> ->]|Hn]; try lia;
      apply Hle in Hn; lia.
  - intros [= <-]. destruct l as [|[n1 m1] l]; [|simpl in E; repeat case_match; done].
    split; [set_solver|]. intros n m'. rewrite list_elem_of_singleton. intros [= -> ->]. lia.
Qed.

Lemma best_some key l : l ≠ [] → is_Some (best key l).
Proof. destruct l as [|[n m] l]; [done|]. intros _. simpl. repeat case_match; eauto. Qed.

Definition deletion_key (m : Machine) : Z := default 0%Z (m_DeletionTimestamp m).

#[refine] Instance map_collections : CollLib := {
  coll_Filter p ms := filter (λ kv, p kv.2 = true) ms;
  coll_Difference ms1 ms2 := ms1 ∖ ms2;
  coll_Oldest ms := best m_CreationTimestamp (map_to_list ms);
  coll_Newest ms := best (λ m, - m_CreationTimestamp m)%Z (map_to_list ms);
  coll_OldestDeletionTimestamp ms := best deletion_key (map_to_list ms);
  HasDeletionTimestamp m := negb (pTime_IsZero (m_DeletionTimestamp m));
  ActiveMachines m := pTime_IsZero (m_DeletionTimestamp m);
  HasAnnotationKey k m := bool_decide (is_Some (map_get (m_Annotations m) k));
  InFailureDomains fds m := bool_decide (msp_FailureDomain (m_Spec m) ∈ fds);
  HasNode := NodeRef_IsDefined;
  IsReady m := conditions_IsTrue (mst_Conditions (m_Status m)) "Ready";
  IsUnhealthy m := conditions_IsFalse (mst_Conditions (m_Status m)) "HealthCheckSucceeded";
  IsUnhealthyAndOwnerRemediated m :=
    conditions_IsFalse (mst_Conditions (m_Status m)) "HealthCheckSucceeded" &&
    conditions_IsFalse (mst_Conditions (m_Status m)) "OwnerRemediated";
  MatchesKubernetesVersion v m := bool_decide (msp_Version (m_Spec m) = v);
  OwnedMachines rcp m :=
    existsb (λ o, bool_decide (ow_UID o = om_UID (rcp_ObjectMeta rcp)) &&
                  bool_decide (ow_Controller o = Some true))
      (om_OwnerReferences (m_ObjectMeta m));
  ControlPlaneMachines cl m := bool_decide (msp_ClusterName (m_Spec m) = cl);
  PickMost _ _ ms :=
    match map_to_list ms with [] => "" | (_, m) :: _ => msp_FailureDomain (m_Spec m) end;
  PickFewest fds _ _ := match fds with [] => "" | f :: _ => fd_Name f end
}.
Proof.
  - intros p ms n m. apply map_lookup_filter_Some.
  - intros ms1 ms2 n m. apply lookup_difference_Some.
  - intros ms Hms. apply best_some. by rewrite map_to_list_empty_iff.
  - intros ms m Hm. apply best_spec in Hm as [[n Hn] Hle].
    setoid_rewrite elem_of_map_to_list in Hle. rewrite elem_of_map_to_list in Hn. eauto.
  - intros ms Hms. apply best_some. by rewrite map_to_list_empty_iff.
  - intros ms m Hm. apply best_spec in Hm as [[n Hn] Hle].
    setoid_rewrite elem_of_map_to_list in Hle. rewrite elem_of_map_to_list in Hn.
    split; [by eauto|]. intros n' m' Hm'. apply Hle in Hm'. lia.
  - intros ms Hms. apply best_some. by rewrite map_to_list_empty_iff.
  - intros ms m Hm. apply best_spec in Hm as [[n Hn] _].
    rewrite elem_of_map_to_list in Hn. eauto.
  - done.
  - done.
  - done.
  - done.
  - done.
  - done.
  - intros fds _ ms fd <- (n & m & Hm & _).
    destruct (map_to_list ms) as [|[n' m'] l] eqn:E.
    + apply map_to_list_empty_iff in E. by rewrite E, lookup_empty in Hm.
    + exists n', m'. split; [|done]. apply elem_of_map_to_list. rewrite E. left.
Defined.

#[refine] Instance meta_lib : MetaLib := {
  GenerateName k p := p +:+ fmt_nat k;
  MustFormatValue s := if decide (String.length s ≤ 63)%nat then s else "hash";
  controlplanev1_GroupVersion := "controlplane.cluster.x-k8s.io/v1beta2";
  bootstrapv1_GroupVersion := "bootstrap.cluster.x-k8s.io/v1beta2";
  bootstrapv1_Group := "bootstrap.cluster.x-k8s.io";
  HasOwner refs v kinds :=
    existsb (λ o, bool_decide (ow_APIVersion o = v) && bool_decide (ow_Kind o ∈ kinds)) refs;
  HasExactOwnerRef refs r := bool_decide (r ∈ refs);
  EnsureOwnerRef refs r := if decide (r ∈ refs) then refs else refs ++ [r]
}.
Proof.
  - intros refs r. case_decide; set_solver.
  - intros k p. apply prefix_app.
  - intros s Hs. by rewrite decide_True.
Defined.
