(* ===== verification/World.v ===== *)
(** * The state of a reconcile and its calls to the outside

    A controller keeps a [ControlPlane] in memory (pkg/rke2/control_plane.go)
    and calls the management cluster, the workload cluster and etcd.  [Call]
    lists those calls with the type of their answers; [Env] answers them, in any
    way at all that may depend on all calls made before; [World] is the memory
    with the calls made so far, the latest first.

    Machines are shared pointers: every part of the code that holds a machine
    of the control plane sees the mutations of the others.  [cp_Machines] is
    that store, and code that mutates a machine names it by its key. *)

From stdpp Require Import base tactics option list gmap strings numbers.
From S2P Require Import Prelude Go Api Objects Libs.
Open Scope string_scope.
Open Scope list_scope.
Open Scope stdpp_scope.

(** ** Data of the workload cluster and of etcd *)

Record Node := {
  n_ObjectMeta : ObjectMeta;
  n_Conditions : list Condition; (* Status.Conditions *)
  n_Taints : list (string * string); (* key and effect *)
  n_Addresses : list (string * string) (* type and address *)
}.
Definition n_Name (n : Node) : string := om_Name (n_ObjectMeta n).
Definition n_Annotations (n : Node) : strmap := om_Annotations (n_ObjectMeta n).
Definition n_with_meta (o : ObjectMeta) (n : Node) : Node :=
  Build_Node o (n_Conditions n) (n_Taints n) (n_Addresses n).

(** [*unstructured.Unstructured]: metadata and the rest, which is opaque. *)
Record Unstructured := {
  un_APIVersion : string; un_Kind : string; un_ObjectMeta : ObjectMeta; un_Content : string
}.
#[global] Instance Unstructured_eq_dec : EqDecision Unstructured.
Proof. solve_decision. Defined.

(** [etcdserverpb.Member], the protobuf etcd answers with. *)
Record PbMember := {
  pb_ID : Z; pb_Name : string; pb_PeerURLs : list string; pb_ClientURLs : list string;
  pb_IsLearner : bool
}.

(** [Workload] (pkg/rke2/workload_cluster.go): the nodes fetched so far and the
    patch helpers, each with the node it was created from; [wl_etcd] tells
    whether there is an etcd client generator. *)
Record Workload := {
  wl_Nodes : gmap string Node;
  wl_nodePatchHelpers : gmap string Node;
  wl_etcd : bool
}.

(** ** The control plane in memory *)

Record UpToDateResult := {
  ur_LogMessages : list string;
  ur_ConditionMessages : list string;
  ur_EligibleForInPlaceUpdate : bool;
  ur_DesiredMachine : option Machine;
  ur_CurrentInfraMachine : option Unstructured;
  ur_DesiredInfraMachine : option Unstructured;
  ur_CurrentRKE2Config : option RKE2Config;
  ur_DesiredRKE2Config : option RKE2Config
}.

Record PreflightCheckResults := {
  pf_HasDeletingMachine : bool;
  pf_ControlPlaneComponentsNotHealthy : bool;
  pf_EtcdClusterNotHealthy : bool;
  pf_TopologyVersionMismatch : bool
}.

(** [cp_machinesPatchHelpers] maps a machine to the object its patch helper was
    created from.  [cp_machinesNotUptoDate] keeps the machines as they were when
    the control plane was built: after [syncMachines] the live objects are
    others. *)
Record ControlPlane := {
  cp_RCP : RKE2ControlPlane;
  cp_Cluster : Cluster;
  cp_Machines : Machines;
  cp_machinesPatchHelpers : gmap string Machine;
  cp_machinesNotUptoDate : Machines;
  cp_machinesUpToDateResults : gmap string UpToDateResult;
  cp_InfraMachineTemplateIsNotFound : bool;
  cp_PreflightCheckResults : PreflightCheckResults;
  cp_Rke2Configs : gmap string RKE2Config;
  cp_InfraResources : gmap string Unstructured;
  cp_workloadCluster : option Workload;
  cp_DeletingReason : string;
  cp_DeletingMessage : string
}.

Definition cp_with_rcp (r : RKE2ControlPlane) (c : ControlPlane) : ControlPlane :=
  Build_ControlPlane r (cp_Cluster c) (cp_Machines c) (cp_machinesPatchHelpers c)
    (cp_machinesNotUptoDate c) (cp_machinesUpToDateResults c)
    (cp_InfraMachineTemplateIsNotFound c) (cp_PreflightCheckResults c) (cp_Rke2Configs c)
    (cp_InfraResources c) (cp_workloadCluster c) (cp_DeletingReason c) (cp_DeletingMessage c).
Definition cp_with_machines (ms : Machines) (c : ControlPlane) : ControlPlane :=
  Build_ControlPlane (cp_RCP c) (cp_Cluster c) ms (cp_machinesPatchHelpers c)
    (cp_machinesNotUptoDate c) (cp_machinesUpToDateResults c)
    (cp_InfraMachineTemplateIsNotFound c) (cp_PreflightCheckResults c) (cp_Rke2Configs c)
    (cp_InfraResources c) (cp_workloadCluster c) (cp_DeletingReason c) (cp_DeletingMessage c).
Definition SetPatchHelpers (hs : gmap string Machine) (c : ControlPlane) : ControlPlane :=
  Build_ControlPlane (cp_RCP c) (cp_Cluster c) (cp_Machines c) hs
    (cp_machinesNotUptoDate c) (cp_machinesUpToDateResults c)
    (cp_InfraMachineTemplateIsNotFound c) (cp_PreflightCheckResults c) (cp_Rke2Configs c)
    (cp_InfraResources c) (cp_workloadCluster c) (cp_DeletingReason c) (cp_DeletingMessage c).
Definition cp_with_preflight (p : PreflightCheckResults) (c : ControlPlane) : ControlPlane :=
  Build_ControlPlane (cp_RCP c) (cp_Cluster c) (cp_Machines c) (cp_machinesPatchHelpers c)
    (cp_machinesNotUptoDate c) (cp_machinesUpToDateResults c)
    (cp_InfraMachineTemplateIsNotFound c) p (cp_Rke2Configs c)
    (cp_InfraResources c) (cp_workloadCluster c) (cp_DeletingReason c) (cp_DeletingMessage c).
Definition cp_with_template_missing (b : bool) (c : ControlPlane) : ControlPlane :=
  Build_ControlPlane (cp_RCP c) (cp_Cluster c) (cp_Machines c) (cp_machinesPatchHelpers c)
    (cp_machinesNotUptoDate c) (cp_machinesUpToDateResults c) b (cp_PreflightCheckResults c)
    (cp_Rke2Configs c) (cp_InfraResources c) (cp_workloadCluster c) (cp_DeletingReason c)
    (cp_DeletingMessage c).
Definition cp_with_workload (w : option Workload) (c : ControlPlane) : ControlPlane :=
  Build_ControlPlane (cp_RCP c) (cp_Cluster c) (cp_Machines c) (cp_machinesPatchHelpers c)
    (cp_machinesNotUptoDate c) (cp_machinesUpToDateResults c)
    (cp_InfraMachineTemplateIsNotFound c) (cp_PreflightCheckResults c) (cp_Rke2Configs c)
    (cp_InfraResources c) w (cp_DeletingReason c) (cp_DeletingMessage c).

(** ** The CanUpdateMachine runtime hook

    The objects sent to an extension (of the bootstrap configuration and the
    infrastructure machine the spec, as JSON), and its answer: patches, each a
    function on the spec that may fail to apply. *)

Record CanUpdateObjects := {
  co_Machine : Machine; co_BootstrapConfig : string; co_InfrastructureMachine : string
}.
Record CanUpdateRequest := { cr_Current : CanUpdateObjects; cr_Desired : CanUpdateObjects }.
Record CanUpdateResponse := {
  cu_MachinePatch : option (MachineSpec → outcome MachineSpec);
  cu_BootstrapConfigPatch : option (string → outcome string);
  cu_InfrastructureMachinePatch : option (string → outcome string)
}.

(** ** Calls *)

Inductive Call :=
(* management cluster, reading *)
| CListMachines (uncached : bool)
| CGetInfra (ref : ContractVersionedObjectReference) (ns : string)
| CGetRKE2Config (ns name : string)
| CGetAPIVersion (group kind : string)
| CGetTemplate (apiVersion kind ns name : string)
| CGenerateTemplate (tpl : Unstructured) (name : string) (owner : option OwnerReference)
    (labels annotations : gmap string string)
| CWaitForCache (why : string) (m : Machine)
| CGetRCP
| CGetOwnerCluster
| CGetKubeconfigSecret
(* management cluster, writing *)
| CNewPatchHelper (kind name : string)
| CPatchMachine (before after : Machine)       (* patch helper *)
| CPatchRCP (before after : RKE2ControlPlane)  (* patch helper *)
| CMergePatchMachine (before after : Machine)  (* client.Patch with MergeFrom *)
| CApplyMachine (m : Machine)                  (* client.Patch with Apply *)
| CSsaPatchMachine (m : Machine)
| CSsaPatchInfra (u : Unstructured)
| CSsaPatchConfig (c : RKE2Config)
| CUpdateExternalMetadata (kind ns name uid : string) (labels : gmap string string)
    (annotations : strmap)
| CCleanUpManagedFields (name : string)
| CDropManagedFields (kind name : string)
| CPatchTemplateOwners (u : Unstructured) (owners : list OwnerReference)
| CCreateFromTemplate (apiVersion kind name ns cluster : string)
    (labels : gmap string string) (owner : OwnerReference)
| CCreateRKE2Config (c : RKE2Config)
| CDeleteMachine (name : string)
| CDeleteInfra (u : Unstructured)
| CDeleteRKE2Config (c : option RKE2Config) (* None: a nil pointer in the interface *)
| CLookupOrGenerateCertificates (legacy : bool)
| CReconcileKubeconfig
(* workload cluster *)
| CGetWorkloadCluster
| CListNodes
| CPatchNode (before after : Node)
| CGetServingSecret
(* etcd, through the pod of a node *)
| CEtcdDial (endpoint : string)
| CEtcdStatus (endpoint : string)
| CEtcdMemberList (endpoint : string)
| CEtcdAlarmList (endpoint : string)
| CEtcdMoveLeader (endpoint : string) (id : Z)
| CEtcdMemberRemove (endpoint : string) (id : Z)
| CEtcdMemberUpdate (endpoint : string) (id : Z) (peerURLs : list string)
| CEtcdClose (endpoint : string)
(* runtime extensions *)
| CGetUpdateExtensions
| CCallCanUpdateMachine (extension : string) (req : CanUpdateRequest)
(* dry runs of a server side apply *)
| CDryRunMachine (m : Machine)
| CDryRunInfra (u : Unstructured).

(** [ctrl.Result]. *)
Record Result := { Requeue : bool; RequeueAfter : Duration }.
Definition Result_zero : Result := {| Requeue := false; RequeueAfter := 0%Z |}.
Definition Result_IsZero (r : Result) : bool :=
  negb (Requeue r) && bool_decide (RequeueAfter r = 0%Z).
Definition requeue : Result := {| Requeue := true; RequeueAfter := 0%Z |}.
Definition requeueAfter (d : Duration) : Result := {| Requeue := false; RequeueAfter := d |}.

Definition answer (c : Call) : Type :=
  match c with
  | CListMachines _ => Machines
  | CGetInfra _ _ | CGetTemplate _ _ _ _ | CGenerateTemplate _ _ _ _ _ => Unstructured
  | CGetRKE2Config _ _ => RKE2Config
  | CGetAPIVersion _ _ => string
  | CMergePatchMachine _ _ | CApplyMachine _ | CSsaPatchMachine _ => Machine
  | CCreateFromTemplate _ _ _ _ _ _ _ => Unstructured * ContractVersionedObjectReference
  | CReconcileKubeconfig => Result
  | CGetRCP => RKE2ControlPlane
  | CGetOwnerCluster => option Cluster
  | CGetKubeconfigSecret => bool (* the secret has a value entry *)
  | CGetWorkloadCluster => bool
  | CListNodes => list Node
  | CEtcdStatus _ => Z
  | CEtcdMemberList _ => Z * list PbMember
  | CEtcdAlarmList _ => list (Z * Z)
  | CEtcdMemberUpdate _ _ _ => list PbMember
  | CGetUpdateExtensions => list string
  | CCallCanUpdateMachine _ _ => CanUpdateResponse
  | CDryRunMachine _ => Machine
  | CDryRunInfra _ => Unstructured
  | _ => unit
  end.

(** What the outside answers, given the calls made before. *)
Class Env := ask : list Call → ∀ c : Call, error + answer c.

Record World := { w_cp : ControlPlane; w_calls : list Call; w_names : nat }.

Definition w_with_cp (c : ControlPlane) (w : World) : World :=
  Build_World c (w_calls w) (w_names w).

Abbreviation M := (comp World).

Section world.
Context `{Env}.

(** Make a call. *)
Definition api (c : Call) : M (answer c) := λ w,
  (match ask (w_calls w) c with inl e => Err e | inr a => Ok a end,
   Build_World (w_cp w) (c :: w_calls w) (w_names w)).
End world.

(** [time.Now()], at a point of the run. *)
Class Clock := clock : list Call → Time.
Definition now `{Clock} : M Time := gets (λ w, clock (w_calls w)).

(** [fmt.Errorf("...: %w", err)] around a call. *)
Definition wrap {A} (msg : string) (m : M A) : M A := λ w,
  match m w with
  | (Err e, w') => (Err (EWrap msg e), w')
  | r => r
  end.

(** The in-memory operations. *)
Definition get_cp : M ControlPlane := gets w_cp.
Definition modify_cp (f : ControlPlane → ControlPlane) : M unit :=
  modify (λ w, w_with_cp (f (w_cp w)) w).
Definition modify_rcp (f : RKE2ControlPlane → RKE2ControlPlane) : M unit :=
  modify_cp (λ c, cp_with_rcp (f (cp_RCP c)) c).

(** The workload cluster is a pointer the control plane keeps: its methods
    change it in place. *)
Definition get_workload : M Workload :=
  gets (λ w, default (Build_Workload ∅ ∅ false) (cp_workloadCluster (w_cp w))).
Definition modify_workload (f : Workload → Workload) : M unit :=
  modify_cp (λ c, cp_with_workload (f <$> cp_workloadCluster c) c).

(** Mutate the machine with key [n], if the control plane has it. *)
Definition modify_machine (n : string) (f : Machine → Machine) : M unit :=
  modify_cp (λ c, cp_with_machines (alter f n (cp_Machines c)) c).

Definition fresh_name `{MetaLib} (prefix : string) : M string := λ w,
  (Ok (GenerateName (w_names w) prefix), Build_World (w_cp w) (w_calls w) (S (w_names w))).

Section conditions_set.
Context `{CondLib}.

(** [conditions.Set(rcp, ...)], [conditions.Set(machine, ...)]. *)
Definition rcp_set_condition (c : Condition) : M unit :=
  modify_rcp (λ r, SetConditions (conditions_Set (GetConditions r) c) r).
Definition m_set_condition (c : Condition) (m : Machine) : Machine :=
  m_with_conditions (conditions_Set (mst_Conditions (m_Status m)) c) m.
Definition machine_set_condition (n : string) (c : Condition) : M unit :=
  modify_machine n (m_set_condition c).
Definition m_condition (m : Machine) (t : string) : option Condition :=
  conditions_Get (mst_Conditions (m_Status m)) t.
Definition m_IsTrue (m : Machine) (t : string) : bool :=
  conditions_IsTrue (mst_Conditions (m_Status m)) t.
Definition m_IsFalse (m : Machine) (t : string) : bool :=
  conditions_IsFalse (mst_Conditions (m_Status m)) t.
End conditions_set.

(** [defer]: [d] runs after [m], whatever way it ends, and sees its error; the
    error [d] returns is the function's. *)
Definition finally {A} (m : M A) (d : outcome A → M (outcome A)) : M A := λ w,
  match m w with
  | (Panic p, w') => (Panic p, (d (Panic p) w').2) (* the panic goes on *)
  | (o, w') =>
      match d o w' with
      | (Ok o', w'') => (o', w'')
      | (Err e, w'') => (Err e, w'')
      | (Panic p, w'') => (Panic p, w'')
      end
  end.

(** ** Which calls a computation may make *)

Definition emits {A} (P : Call → Prop) (m : M A) : Prop :=
  ∀ w, ∃ l, w_calls (m w).2 = l ++ w_calls w ∧ Forall P l.

Section emits.
Context {A B : Type} (P : Call → Prop).

Lemma emits_silent (m : M A) : (∀ w, w_calls (m w).2 = w_calls w) → emits P m.
Proof. intros Hm w. exists []. by rewrite Hm. Qed.

Lemma emits_ret (a : A) : emits P (mret a).
Proof. by apply emits_silent. Qed.
Lemma emits_fail e : emits P (fail (A := A) e).
Proof. by apply emits_silent. Qed.
Lemma emits_panic why : emits P (panic (A := A) why).
Proof. by apply emits_silent. Qed.
Lemma emits_lift (o : outcome A) : emits P (lift o).
Proof. by apply emits_silent. Qed.
Lemma emits_gets (f : World → A) : emits P (gets f).
Proof. by apply emits_silent. Qed.

Lemma emits_bind (m : M A) (f : A → M B) :
  emits P m → (∀ a, emits P (f a)) → emits P (m ≫= f).
Proof.
  intros Hm Hf w. unfold mbind, comp_bind. destruct (Hm w) as (l & Hl & Pl).
  destruct (m w) as [[a|e|p] w']; simpl in *; [|by exists l..].
  destruct (Hf a w') as (l' & Hl' & Pl'). exists (l' ++ l).
  rewrite Hl', Hl, app_assoc. split; [done|]. by apply Forall_app.
Qed.

Lemma emits_try (m : M A) : emits P m → emits P (try m).
Proof.
  intros Hm w. destruct (Hm w) as (l & Hl & Pl). unfold try.
  exists l. by destruct (m w) as [[a|e|p] w'].
Qed.

Lemma emits_wrap msg (m : M A) : emits P m → emits P (wrap msg m).
Proof.
  intros Hm w. destruct (Hm w) as (l & Hl & Pl). unfold wrap.
  exists l. by destruct (m w) as [[a|e|p] w'].
Qed.

Lemma emits_finally (m : M A) (d : outcome A → M (outcome A)) :
  emits P m → (∀ o, emits P (d o)) → emits P (finally m d).
Proof.
  intros Hm Hd w. unfold finally. destruct (Hm w) as (l & Hl & Pl).
  destruct (m w) as [o w']; simpl in *.
  destruct (Hd o w') as (l' & Hl' & Pl').
  assert (∃ l, w_calls (d o w').2 = l ++ w_calls w ∧ Forall P l) as Hx.
  { exists (l' ++ l). rewrite Hl', Hl, app_assoc. split; [done|]. by apply Forall_app. }
  destruct o as [a|e|p]; by destruct (d _ w') as [[o'|e'|p'] w''].
Qed.
End emits.

Section emits_ops.
Context (P : Call → Prop).

Lemma emits_now `{Clock} : emits P now.
Proof. by apply emits_silent. Qed.
Lemma emits_get_cp : emits P get_cp.
Proof. by apply emits_silent. Qed.
Lemma emits_modify_cp f : emits P (modify_cp f).
Proof. by apply emits_silent. Qed.
Lemma emits_modify_rcp f : emits P (modify_rcp f).
Proof. by apply emits_silent. Qed.
Lemma emits_get_workload : emits P get_workload.
Proof. by apply emits_silent. Qed.
Lemma emits_modify_workload f : emits P (modify_workload f).
Proof. by apply emits_silent. Qed.
Lemma emits_modify_machine n f : emits P (modify_machine n f).
Proof. by apply emits_silent. Qed.
Lemma emits_fresh_name `{MetaLib} p : emits P (fresh_name p).
Proof. by apply emits_silent. Qed.
Lemma emits_rcp_set_condition `{CondLib} c : emits P (rcp_set_condition c).
Proof. by apply emits_silent. Qed.
Lemma emits_machine_set_condition `{CondLib} n c : emits P (machine_set_condition n c).
Proof. by apply emits_silent. Qed.

Lemma emits_api `{Env} c : P c → emits P (api c).
Proof. intros Hc w. exists [c]. split; [done|]. by constructor. Qed.

Lemma emits_for_each {A} (l : list A) f :
  (∀ x, x ∈ l → emits P (f x)) → emits P (for_each l f).
Proof.
  induction l as [|x l IH]; intros Hf; [apply emits_ret|]. simpl.
  apply emits_bind; [apply Hf; left|]. intros _. apply IH. intros y Hy. apply Hf. by right.
Qed.

Lemma emits_for_acc {A B} (l : list A) (b : B) f :
  (∀ b x, x ∈ l → emits P (f b x)) → emits P (for_acc l b f).
Proof.
  revert b. induction l as [|x l IH]; intros b Hf; [apply emits_ret|]. simpl.
  apply emits_bind; [apply Hf; left|]. intros b'. apply IH. intros b0 y Hy. apply Hf. by right.
Qed.

Lemma emits_mono {A} (Q : Call → Prop) (m : M A) :
  (∀ c, P c → Q c) → emits P m → emits Q m.
Proof.
  intros HPQ Hm w. destruct (Hm w) as (l & Hl & Pl). exists l. split; [done|].
  by eapply Forall_impl.
Qed.
End emits_ops.

Create HintDb emits.
#[export] Hint Resolve emits_ret emits_fail emits_panic emits_lift emits_gets
  emits_now emits_get_cp emits_modify_cp emits_modify_rcp emits_get_workload emits_modify_workload emits_modify_machine emits_fresh_name
  emits_rcp_set_condition emits_machine_set_condition : emits.

(** Walk through a computation; calls that are not settled by the hypotheses
    and loops are left over. *)
Ltac emits_step :=
  first
    [ solve [auto with emits]
    | apply emits_bind; [|intros ?]
    | apply emits_try
    | apply emits_wrap
    | apply emits_finally; [|intros ?]
    | apply emits_for_each; intros ? ?
    | apply emits_for_acc; intros ? ? ?
    | match goal with |- emits ?P (api ?c) => refine (emits_api P c _); done end
    | progress cbn beta iota zeta
    | match goal with |- emits _ (match ?x with _ => _ end) => destruct x end
    | match goal with |- emits _ ((match ?x with _ => _ end) _) => destruct x end ].
Ltac emits_auto := repeat emits_step.

(** ** Calls and results

    [yields P Q m]: every call [m] makes satisfies [P], and a value it returns
    satisfies [Q].  What holds of the value of a step may be used to show [P] of
    the calls after it. *)

Definition yields {A} (P : Call → Prop) (Q : A → Prop) (m : M A) : Prop :=
  ∀ w, ∃ l, w_calls (m w).2 = l ++ w_calls w ∧ Forall P l ∧
            ∀ a, (m w).1 = Ok a → Q a.

Section yields.
Context {A B : Type} (P : Call → Prop).

Lemma yields_emits (m : M A) : emits P m ↔ yields P (λ _, True) m.
Proof.
  split; intros Hm w.
  - destruct (Hm w) as (l & Hl & Pl). by exists l.
  - destruct (Hm w) as (l & Hl & Pl & _). by exists l.
Qed.

Lemma yields_ret (Q : A → Prop) a : Q a → yields P Q (mret a).
Proof. intros Ha w. exists []. split_and!; [done|done|]. by intros ? [= <-]. Qed.

Lemma yields_fail (Q : A → Prop) e : yields P Q (fail e).
Proof. intros w. exists []. by split_and!. Qed.

Lemma yields_lift (Q : A → Prop) (o : outcome A) :
  (∀ a, o = Ok a → Q a) → yields P Q (lift o).
Proof. intros Ho w. exists []. by split_and!. Qed.

Lemma yields_bind (R : A → Prop) (Q : B → Prop) (m : M A) (f : A → M B) :
  yields P R m → (∀ a, R a → yields P Q (f a)) → yields P Q (m ≫= f).
Proof.
  intros Hm Hf w. unfold mbind, comp_bind. destruct (Hm w) as (l & Hl & Pl & Ha).
  destruct (m w) as [[a|e|p] w']; simpl in *; [|by exists l..].
  destruct (Hf a (Ha a eq_refl) w') as (l' & Hl' & Pl' & Hq). exists (l' ++ l).
  rewrite Hl', Hl, app_assoc. split_and!; [done| |done]. by apply Forall_app.
Qed.

Lemma yields_try (Q : A → Prop) (m : M A) :
  yields P Q m → yields P (λ r, ∀ a, r = inl a → Q a) (try m).
Proof.
  intros Hm w. destruct (Hm w) as (l & Hl & Pl & Ha). unfold try. exists l.
  destruct (m w) as [[a|e|p] w']; simpl in *; split_and!; try done.
  - intros ? [= <-] ? [= <-]. auto.
  - by intros ? [= <-].
Qed.

Lemma yields_wrap (Q : A → Prop) msg (m : M A) : yields P Q m → yields P Q (wrap msg m).
Proof.
  intros Hm w. destruct (Hm w) as (l & Hl & Pl & Ha). unfold wrap. exists l.
  by destruct (m w) as [[a|e|p] w'].
Qed.

(** A deferred call that keeps the result. *)
Lemma yields_finally_keep (Q : A → Prop) (m : M A) (d : outcome A → M (outcome A)) :
  yields P Q m → (∀ o, yields P (λ o', o' = o) (d o)) → yields P Q (finally m d).
Proof.
  intros Hm Hd w. unfold finally. destruct (Hm w) as (l & Hl & Pl & Ha).
  destruct (m w) as [o w']; simpl in *. destruct (Hd o w') as (l' & Hl' & Pl' & Ho').
  assert (w_calls (d o w').2 = (l' ++ l) ++ w_calls w ∧ Forall P (l' ++ l)) as [Hx Px].
  { rewrite Hl', Hl, app_assoc. split; [done|]. by apply Forall_app. }
  destruct o as [a|e|p]; exists (l' ++ l); destruct (d _ w') as [[o'|e'|p'] w'']; simpl in *; split_and!; try done;
    by rewrite (Ho' o' eq_refl).
Qed.

Lemma yields_mono (Q Q' : A → Prop) (m : M A) :
  (∀ a, Q a → Q' a) → yields P Q m → yields P Q' m.
Proof.
  intros HQ Hm w. destruct (Hm w) as (l & Hl & Pl & Ha). exists l. split_and!; auto.
Qed.

Lemma yields_calls_mono (P' : Call → Prop) (Q : A → Prop) (m : M A) :
  (∀ c, P c → P' c) → yields P Q m → yields P' Q m.
Proof.
  intros HP Hm w. destruct (Hm w) as (l & Hl & Pl & Ha). exists l. split_and!; auto.
  by eapply Forall_impl.
Qed.
End yields.

(** The answer of a call is what the environment said at some point. *)
Lemma yields_api `{Env} (P : Call → Prop) c :
  P c → yields P (λ a, ∃ t, ask t c = inr a) (api c).
Proof.
  intros Hc w. exists [c]. split_and!; [done|by constructor|].
  unfold api. simpl. intros a Ha. exists (w_calls w). by destruct (ask (w_calls w) c); simplify_eq.
Qed.

(** A single call, possibly wrapped. *)
Ltac yields_call :=
  try apply yields_wrap;
  match goal with |- yields ?P _ (api ?c) => refine (yields_api P c _) end.

(** ** Computations that delete at most one machine, as their last call *)

Definition no_delete (c : Call) : Prop := match c with CDeleteMachine _ => False | _ => True end.

Definition last_delete {A} (n : string) (m : M A) : Prop :=
  ∀ w, ∃ l, w_calls (m w).2 = l ++ w_calls w ∧
    (Forall no_delete l ∨ ∃ l', l = CDeleteMachine n :: l' ∧ Forall no_delete l').

Lemma last_delete_none {A} n (m : M A) : emits no_delete m → last_delete n m.
Proof. intros Hm w. destruct (Hm w) as (l & ? & ?). eauto. Qed.

Lemma last_delete_bind {A B} n (m : M A) (f : A → M B) :
  emits no_delete m → (∀ a, last_delete n (f a)) → last_delete n (m ≫= f).
Proof.
  intros Hm Hf w. unfold mbind, comp_bind. destruct (Hm w) as (l & Hl & Pl).
  destruct (m w) as [[a|e|p] w']; simpl in *; [|by exists l; auto..].
  destruct (Hf a w') as (l' & Hl' & Hd). exists (l' ++ l).
  rewrite Hl', Hl, app_assoc. split; [done|]. destruct Hd as [Hd|(l2 & -> & Hd)].
  - left. by apply Forall_app.
  - right. exists (l2 ++ l). split; [done|]. by apply Forall_app.
Qed.

(** The deletion, followed by steps that make no call. *)
Lemma last_delete_api `{EV : Env} {A} n (f : unit + error → M A) :
  (∀ r w, w_calls (f r w).2 = w_calls w) →
  last_delete n (try (api (CDeleteMachine n)) ≫= f).
Proof.
  intros Hf w. unfold mbind, comp_bind, try, api.
  destruct (ask _ _) as [e|a]; rewrite Hf; exists [CDeleteMachine n]; eauto 6.
Qed.

(** ** At most one call of a kind

    [sel] picks the calls of a kind, with what matters of them. *)

Definition picks {X} (sel : Call → option X) (l : list Call) : list X := omap sel l.

(** From the world [w], [m] makes at most one call of the kind, one with [Q]. *)
Definition one_pick {A X} (sel : Call → option X) (Q : X → Prop) (m : M A) (w : World) : Prop :=
  ∃ l, w_calls (m w).2 = l ++ w_calls w ∧
    (picks sel l = [] ∨ ∃ x, picks sel l = [x] ∧ Q x).

Section one_pick.
Context {A B X : Type} (sel : Call → option X) (Q : X → Prop).
Let none (c : Call) : Prop := sel c = None.

Lemma picks_app l l' : picks sel (l ++ l') = picks sel l ++ picks sel l'.
Proof. apply omap_app. Qed.

Lemma picks_nil l : Forall none l → picks sel l = [].
Proof. induction 1 as [|c l Hc _ IH]; [done|]. unfold picks in *. simpl. by rewrite Hc. Qed.

Lemma one_pick_none (m : M A) w : emits none m → one_pick sel Q m w.
Proof. intros Hm. destruct (Hm w) as (l & Hl & Pl). exists l. eauto using picks_nil. Qed.

(** A step without such a call; what it establishes may be used afterwards. *)
Lemma one_pick_bind (m : M A) (f : A → M B) w :
  emits none m → (∀ a w', m w = (Ok a, w') → one_pick sel Q (f a) w') →
  one_pick sel Q (m ≫= f) w.
Proof.
  intros Hm Hf. destruct (Hm w) as (l & Hl & Pl). unfold one_pick, mbind, comp_bind.
  destruct (m w) as [[a|e|p] w'] eqn:E; simpl in *; [|exists l; eauto using picks_nil..].
  destruct (Hf a w' eq_refl) as (l' & Hl' & Hd). exists (l' ++ l).
  rewrite Hl', Hl, app_assoc, picks_app, (picks_nil l Pl), app_nil_r. done.
Qed.

(** The last step has no such call. *)
Lemma one_pick_then (m : M A) (f : A → M B) w :
  one_pick sel Q m w → (∀ a, emits none (f a)) → one_pick sel Q (m ≫= f) w.
Proof.
  intros (l & Hl & Hd) Hf. unfold one_pick, mbind, comp_bind.
  destruct (m w) as [[a|e|p] w'] eqn:E; simpl in *; [|by exists l..].
  destruct (Hf a w') as (l' & Hl' & Pl'). exists (l' ++ l).
  rewrite Hl', Hl, app_assoc, picks_app, (picks_nil l' Pl'). done.
Qed.

Lemma one_pick_finally (m : M A) (d : outcome A → M (outcome A)) w :
  one_pick sel Q m w → (∀ o, emits none (d o)) → one_pick sel Q (finally m d) w.
Proof.
  intros (l & Hl & Hd) Hf. unfold one_pick, finally.
  destruct (m w) as [o w'] eqn:E; simpl in *. destruct (Hf o w') as (l' & Hl' & Pl').
  assert (w_calls (d o w').2 = (l' ++ l) ++ w_calls w ∧
    (picks sel (l' ++ l) = [] ∨ ∃ x, picks sel (l' ++ l) = [x] ∧ Q x)) as Hx.
  { rewrite Hl', Hl, app_assoc, picks_app, (picks_nil l' Pl'). done. }
  destruct o as [a|e|p]; exists (l' ++ l); by destruct (d _ w') as [[?|?|?] ?].
Qed.

(** The call itself. *)
Lemma one_pick_call (m : M A) c x w :
  (∀ w, w_calls (m w).2 = c :: w_calls w) → sel c = Some x → Q x → one_pick sel Q m w.
Proof.
  intros Hm Hs HQ. exists [c]. rewrite Hm. unfold picks. simpl. rewrite Hs. eauto.
Qed.

Lemma one_pick_wrap msg (m : M A) w : one_pick sel Q m w → one_pick sel Q (wrap msg m) w.
Proof.
  intros (l & Hl & Hd). exists l. split; [|done]. rewrite <-Hl. unfold wrap.
  by destruct (m w) as [[a|e|p] w'].
Qed.
End one_pick.

Lemma try_api_call `{EV : Env} c w : w_calls (try (api c) w).2 = c :: w_calls w.
Proof. unfold try, api. by destruct (ask _ _). Qed.

(** The machines deleted by a sequence of calls. *)
Definition deleted_machine (c : Call) : option string :=
  match c with CDeleteMachine n => Some n | _ => None end.
Definition deletions (l : list Call) : list string := picks deleted_machine l.
Definition one_delete {A} (Q : string → Prop) (m : M A) (w : World) : Prop :=
  one_pick deleted_machine Q m w.

Lemma no_delete_none {A} (m : M A) :
  emits no_delete m → emits (λ c, deleted_machine c = None) m.
Proof. apply emits_mono. by intros []. Qed.

Section one_delete.
Context {A B : Type} (Q : string → Prop).

Lemma one_delete_none (m : M A) w : emits no_delete m → one_delete Q m w.
Proof. intros Hm. by apply one_pick_none, no_delete_none. Qed.

Lemma one_delete_bind (m : M A) (f : A → M B) w :
  emits no_delete m → (∀ a w', m w = (Ok a, w') → one_delete Q (f a) w') →
  one_delete Q (m ≫= f) w.
Proof. intros Hm Hf. apply one_pick_bind; [by apply no_delete_none|done]. Qed.

Lemma one_delete_finally (m : M A) (d : outcome A → M (outcome A)) w :
  one_delete Q m w → (∀ o, emits no_delete (d o)) → one_delete Q (finally m d) w.
Proof. intros Hm Hd. apply one_pick_finally; [done|]. intros o. by apply no_delete_none. Qed.

(** The deletion itself, followed by steps that delete nothing. *)
Lemma one_delete_api `{EV : Env} n (f : unit + error → M B) w :
  Q n → (∀ r, emits no_delete (f r)) →
  one_delete Q (try (api (CDeleteMachine n)) ≫= f) w.
Proof.
  intros HQ Hf. apply one_pick_then; [|intros r; by apply no_delete_none].
  eapply one_pick_call; [apply (try_api_call (CDeleteMachine n))|done|done].
Qed.
End one_delete.

(** ** What a computation leaves alone

    [keeps f m]: whatever [m] does, the part [f] of the control plane in memory
    is the same afterwards. *)

Definition keeps {A X} (f : ControlPlane → X) (m : M A) : Prop :=
  ∀ w, f (w_cp (m w).2) = f (w_cp w).

Section keeps.
Context {X : Type} (f : ControlPlane → X).

Lemma keeps_silent {A} (m : M A) : (∀ w, w_cp (m w).2 = w_cp w) → keeps f m.
Proof. intros Hm w. by rewrite Hm. Qed.
Lemma keeps_ret {A} (a : A) : keeps f (mret a).
Proof. by apply keeps_silent. Qed.
Lemma keeps_fail {A} e : keeps f (fail (A := A) e).
Proof. by apply keeps_silent. Qed.
Lemma keeps_panic {A} e : keeps f (panic (A := A) e).
Proof. by apply keeps_silent. Qed.
Lemma keeps_lift {A} (o : outcome A) : keeps f (lift o).
Proof. by apply keeps_silent. Qed.
Lemma keeps_gets {A} (g : World → A) : keeps f (gets g).
Proof. by apply keeps_silent. Qed.
Lemma keeps_get_cp : keeps f get_cp.
Proof. by apply keeps_silent. Qed.
Lemma keeps_get_workload : keeps f get_workload.
Proof. by apply keeps_silent. Qed.
Lemma keeps_api `{Env} c : keeps f (api c).
Proof. by apply keeps_silent. Qed.
Lemma keeps_fresh_name `{MetaLib} p : keeps f (fresh_name p).
Proof. by apply keeps_silent. Qed.
Lemma keeps_modify_cp g : (∀ c, f (g c) = f c) → keeps f (modify_cp g).
Proof. intros Hg w. apply Hg. Qed.

Lemma keeps_bind {A B} (m : M A) (k : A → M B) :
  keeps f m → (∀ a, keeps f (k a)) → keeps f (m ≫= k).
Proof.
  intros Hm Hk w. unfold mbind, comp_bind. pose proof (Hm w) as Hw.
  destruct (m w) as [[a|e|p] w']; [|done..]. simpl in *. rewrite <-Hw. apply Hk.
Qed.
Lemma keeps_try {A} (m : M A) : keeps f m → keeps f (try m).
Proof. intros Hm w. pose proof (Hm w). unfold try. by destruct (m w) as [[a|e|p] w']. Qed.
Lemma keeps_wrap {A} msg (m : M A) : keeps f m → keeps f (wrap msg m).
Proof. intros Hm w. pose proof (Hm w). unfold wrap. by destruct (m w) as [[a|e|p] w']. Qed.
Lemma keeps_finally {A} (m : M A) d :
  keeps f m → (∀ o, keeps f (d o)) → keeps f (finally m d).
Proof.
  intros Hm Hd w. pose proof (Hm w) as Hw. unfold finally.
  destruct (m w) as [o w']. pose proof (Hd o w') as Hw'. simpl in *.
  destruct o as [a|e|p]; destruct (d _ w') as [[?|?|?] ?]; simpl in *; congruence.
Qed.
Lemma keeps_for_each {A} (l : list A) g : (∀ x, keeps f (g x)) → keeps f (for_each l g).
Proof.
  intros Hg. induction l as [|x l IH]; [apply keeps_ret|]. simpl. by apply keeps_bind.
Qed.
Lemma keeps_for_acc {A B} (l : list A) (b : B) g :
  (∀ b x, keeps f (g b x)) → keeps f (for_acc l b g).
Proof.
  intros Hg. revert b. induction l as [|x l IH]; intros b; [apply keeps_ret|].
  simpl. by apply keeps_bind.
Qed.
End keeps.

Create HintDb keeps.
#[export] Hint Resolve keeps_ret keeps_fail keeps_panic keeps_lift keeps_gets keeps_get_cp keeps_get_workload
  keeps_api keeps_fresh_name : keeps.

Ltac keeps_step :=
  first
    [ solve [auto with keeps]
    | apply keeps_bind; [|intros ?]
    | apply keeps_try
    | apply keeps_wrap
    | apply keeps_finally; [|intros ?]
    | apply keeps_for_each; intros ?
    | apply keeps_for_acc; intros ? ?
    | match goal with |- keeps ?f (api ?c) => exact (keeps_api f c) end
    | apply keeps_modify_cp; reflexivity
    | progress cbn beta iota zeta
    | match goal with |- keeps _ (match ?x with _ => _ end) => destruct x end
    | match goal with |- keeps _ ((match ?x with _ => _ end) _) => destruct x end ].
Ltac keeps_auto := repeat keeps_step.

(** ** Loops that mutate machines

    Each round changes at most one machine, the one under the key [touch] gives. *)

Section touching.
Context {A : Type} (touch : A → option (string * (Machine → Machine))).

Definition touch_step (ms : Machines) (x : A) : Machines :=
  match touch x with Some (k, f) => alter f k ms | None => ms end.
Definition touch_world (w : World) (x : A) : World :=
  w_with_cp (cp_with_machines (touch_step (cp_Machines (w_cp w)) x) (w_cp w)) w.

Lemma touch_world_fold l w :
  foldl touch_world w l =
  w_with_cp (cp_with_machines (foldl touch_step (cp_Machines (w_cp w)) l) (w_cp w)) w.
Proof.
  revert w. induction l as [|x l IH]; intros w; simpl; [by destruct w as [[] ? ?]|].
  rewrite IH. done.
Qed.

Lemma touch_other l (ms : Machines) k :
  (∀ x c, x ∈ l → touch x ≠ Some (k, c)) → foldl touch_step ms l !! k = ms !! k.
Proof.
  revert ms. induction l as [|x l IH]; intros ms Hl; [done|]. simpl.
  rewrite IH by set_solver. unfold touch_step. destruct (touch x) as [[k' c]|] eqn:E; [|done].
  apply lookup_alter_ne. intros ->. apply (Hl x c); [left|done].
Qed.

Lemma touch_one l (ms : Machines) k x c :
  NoDup l → x ∈ l → touch x = Some (k, c) →
  (∀ y c', y ∈ l → touch y = Some (k, c') → y = x) →
  foldl touch_step ms l !! k = c <$> ms !! k.
Proof.
  revert ms. induction l as [|y l IH]; intros ms Hnd Hx Ht Hu; [by apply elem_of_nil in Hx|].
  apply list.NoDup_cons in Hnd as [Hy Hnd]. simpl. apply elem_of_cons in Hx as [->|Hx].
  - rewrite touch_other.
    + unfold touch_step. rewrite Ht. apply lookup_alter_eq.
    + intros z c' Hz Hc'. apply Hy. by rewrite <-(Hu z c' ltac:(by right) Hc').
  - rewrite IH; [|done|done|done|set_solver]. f_equal. unfold touch_step.
    destruct (touch y) as [[k' c']|] eqn:E; [|done]. apply lookup_alter_ne. intros ->.
    apply Hy. by rewrite (Hu y c' ltac:(by left) E).
Qed.

Lemma touch_dom l (ms : Machines) k : is_Some (foldl touch_step ms l !! k) ↔ is_Some (ms !! k).
Proof.
  revert ms. induction l as [|x l IH]; intros ms; [done|]. simpl. rewrite IH. unfold touch_step.
  destruct (touch x) as [[k' c]|]; [|done]. destruct (decide (k' = k)) as [->|Hne].
  - rewrite lookup_alter_eq. by destruct (ms !! k); rewrite ?fmap_is_Some.
  - by rewrite lookup_alter_ne.
Qed.
End touching.

(** ** Computations that cannot panic *)

Definition calm {A} (m : M A) : Prop := ∀ w p, (m w).1 ≠ Panic p.

Section calm.
Lemma calm_ret {A} (a : A) : calm (mret a).
Proof. by intros w p. Qed.
Lemma calm_fail {A} e : calm (fail (A := A) e).
Proof. by intros w p. Qed.
Lemma calm_gets {A} (f : World → A) : calm (gets f).
Proof. by intros w p. Qed.
Lemma calm_modify_cp f : calm (modify_cp f).
Proof. by intros w p. Qed.
Lemma calm_api `{Env} c : calm (api c).
Proof. intros w p. unfold api. by destruct (ask _ _). Qed.
Lemma calm_lift {A} (o : outcome A) : (∀ p, o ≠ Panic p) → calm (lift o).
Proof. by intros Ho w p. Qed.
Lemma calm_bind {A B} (m : M A) (f : A → M B) : calm m → (∀ a, calm (f a)) → calm (m ≫= f).
Proof.
  intros Hm Hf w p. unfold mbind, comp_bind. pose proof (Hm w) as Hw.
  destruct (m w) as [[a|e|q] w']; [apply Hf|done|]. by destruct (Hw q).
Qed.
Lemma calm_try {A} (m : M A) : calm m → calm (try m).
Proof.
  intros Hm w p. pose proof (Hm w) as Hw. unfold try.
  destruct (m w) as [[a|e|q] w']; [done|done|]. by destruct (Hw q).
Qed.
Lemma calm_wrap {A} msg (m : M A) : calm m → calm (wrap msg m).
Proof.
  intros Hm w p. pose proof (Hm w) as Hw. unfold wrap.
  destruct (m w) as [[a|e|q] w']; [done|done|]. by destruct (Hw q).
Qed.
Lemma calm_for_each {A} (l : list A) f : (∀ x, calm (f x)) → calm (for_each l f).
Proof. intros Hf. induction l as [|x l IH]; [apply calm_ret|]. simpl. by apply calm_bind. Qed.
Lemma calm_for_acc {A B} (l : list A) (b : B) f : (∀ b x, calm (f b x)) → calm (for_acc l b f).
Proof.
  intros Hf. revert b. induction l as [|x l IH]; intros b; [apply calm_ret|]. simpl. by apply calm_bind.
Qed.
End calm.

Create HintDb calm.
#[export] Hint Resolve calm_ret calm_fail calm_gets calm_modify_cp calm_api : calm.
Ltac calm_step :=
  first
    [ solve [auto with calm]
    | apply calm_bind; [|intros ?]
    | apply calm_try
    | apply calm_wrap
    | apply calm_for_each; intros ?
    | apply calm_for_acc; intros ? ?
    | match goal with |- calm (api ?c) => exact (calm_api c) end
    | apply calm_gets
    | progress cbn beta iota zeta
    | match goal with |- calm (match ?x with _ => _ end) => destruct x end ].
Ltac calm_auto := repeat calm_step.

(** ** Handlers that ask to go on only when they did nothing

    [quiet P m]: when [m] returns the zero result, all its calls satisfy [P]. *)

Definition quiet (P : Call → Prop) (m : M Result) : Prop :=
  ∀ w r w', m w = (Ok r, w') → Result_IsZero r = true →
    ∃ l, w_calls w' = l ++ w_calls w ∧ Forall P l.

Section quiet.
Context (P : Call → Prop).

Lemma quiet_emits m : emits P m → quiet P m.
Proof. intros Hm w r w' Hrun _. destruct (Hm w) as (l & Hl & Pl). rewrite Hrun in Hl. eauto. Qed.

Lemma quiet_bind {A} (m : M A) f : emits P m → (∀ a, quiet P (f a)) → quiet P (m ≫= f).
Proof.
  intros Hm Hf w r w'. unfold mbind, comp_bind. destruct (Hm w) as (l & Hl & Pl).
  destruct (m w) as [[a|e|p] w1]; [|done..]. simpl in Hl. intros Hrun Hz.
  destruct (Hf a w1 r w' Hrun Hz) as (l' & Hl' & Pl'). exists (l' ++ l).
  rewrite Hl', Hl, app_assoc. split; [done|]. by apply Forall_app.
Qed.

(** A deferred call that may only turn a success into an error. *)
Lemma quiet_finally m d :
  quiet P m → (∀ o, emits P (d o)) →
  (∀ o w r w', d o w = (Ok (Ok r), w') → o = Ok r) → quiet P (finally m d).
Proof.
  intros Hm Hd Hkeep w r w'. unfold finally. destruct (m w) as [o w1] eqn:E.
  destruct o as [r1|e|p]; [| |done].
  - destruct (Hd (Ok r1) w1) as (l & Hl & Pl).
    destruct (d (Ok r1) w1) as [[o'|e'|p'] w2] eqn:Ed; [|done..]. intros [= -> ->] Hz.
    apply Hkeep in Ed as [= ->]. destruct (Hm w r w1 E Hz) as (l' & Hl' & Pl').
    exists (l ++ l'). simpl in Hl. rewrite Hl, Hl', app_assoc. split; [done|]. by apply Forall_app.
  - destruct (d (Err e) w1) as [[o'|e'|p'] w2] eqn:Ed; [|done..]. intros [= -> ->].
    by apply Hkeep in Ed.
Qed.
End quiet.
