(* ===== verification/Locking.v ===== *)
(** * The control plane init lock (pkg/locking/control_plane_init_mutex.go)

    [Lock] and [Unlock] are programs that call the API server; other
    controllers and other machines' [Lock]s run between two of their calls.  A
    program is a tree of calls ([prog]), the API server is the interface
    [ApiServer] with the documented behaviour of get, create and delete, and
    the concurrent system is the step relation [sys_step]. *)

From stdpp Require Import base tactics option list gmap strings numbers.
From S2P Require Import Prelude Go.
Open Scope string_scope.
Open Scope list_scope.
Open Scope stdpp_scope.

(** ** Data *)

Record Cluster := {
  c_APIVersion : string; c_Kind : string;
  c_Namespace : string; c_Name : string; c_UID : string
}.

Record OwnerReference := {
  own_APIVersion : string; own_Kind : string; own_Name : string; own_UID : string
}.

(** The underlying object of a [semaphore]: a [corev1.ConfigMap]. *)
Record semaphore := Semaphore {
  cm_Namespace : string; cm_Name : string;
  cm_Labels : gmap string string;
  cm_OwnerReferences : list OwnerReference;
  cm_Data : option (gmap string string)
}.

Record information := { MachineName : string }.

Definition semaphoreInformationKey : string := "lock-information".

Definition newSemaphore : semaphore := Semaphore "" "" ∅ [] None.

Definition configMapName (clusterName : string) : string := clusterName +:+ "-lock".

(** [encoding/json] on [information].  Marshalling a string that is valid UTF-8
    never fails and unmarshalling gives it back; object names are ASCII. *)
Fixpoint ascii_name (s : string) : bool :=
  match s with
  | EmptyString => true
  | String a s => (Ascii.nat_of_ascii a <? 128)%nat && ascii_name s
  end.

Class InfoJson := {
  json_Marshal : information → outcome string;
  json_Unmarshal : string → outcome information;
  json_roundtrip i : ascii_name (MachineName i) = true →
    ∃ b, json_Marshal i = Ok b ∧ json_Unmarshal b = Ok i
}.

(** [clusterv1.ClusterNameLabel]. *)
Class LockConsts := { ClusterNameLabel : string }.

Section semaphore.
Context `{InfoJson, LockConsts}.

(** [s.Data[key]] of a nil or absent entry is the empty string. *)
Definition semaphore_information (s : semaphore) : outcome information :=
  match json_Unmarshal (default "" (cm_Data s ≫= lookup semaphoreInformationKey)) with
  | Ok li => Ok li
  | Err e => Err (EWrap "failed to unmarshal semaphore information" e)
  | Panic p => Panic p
  end.

Definition setInformation (i : information) (s : semaphore) : outcome semaphore :=
  match json_Marshal i with
  | Ok b =>
      Ok (Semaphore (cm_Namespace s) (cm_Name s) (cm_Labels s) (cm_OwnerReferences s)
            (Some {[ semaphoreInformationKey := b ]}))
  | Err e => Err (EWrap "failed to marshal semaphore information" e)
  | Panic p => Panic p
  end.

Definition setMetadata (cluster : Cluster) (s : semaphore) : semaphore :=
  Semaphore (c_Namespace cluster) (configMapName (c_Name cluster))
    {[ ClusterNameLabel := c_Name cluster ]}
    [ {| own_APIVersion := c_APIVersion cluster; own_Kind := c_Kind cluster;
         own_Name := c_Name cluster; own_UID := c_UID cluster |} ]
    (cm_Data s).
End semaphore.

(** ** Programs over the API *)

Inductive call :=
| GetConfigMap (ns name : string)
| GetMachine (ns name : string)
| CreateConfigMap (cm : semaphore)
| DeleteConfigMap (cm : semaphore).

Definition answer (c : call) : Type :=
  match c with GetConfigMap _ _ => semaphore | _ => unit end.

(** A reply is an error or the call's answer. *)
Definition reply (c : call) : Type := sum error (answer c).

Inductive prog (A : Type) : Type :=
| Ret (a : A)
| Do (c : call) (k : reply c → prog A).
Arguments Ret {A} a.
Arguments Do {A} c k.

Fixpoint prog_bind {A B} (m : prog A) (f : A → prog B) : prog B :=
  match m with
  | Ret a => f a
  | Do c k => Do c (λ r, prog_bind (k r) f)
  end.

Section lock.
Context `{InfoJson, LockConsts}.

Definition Unlock (cluster : Cluster) : prog bool :=
  Do (GetConfigMap (c_Namespace cluster) (configMapName (c_Name cluster))) (λ r,
    match r with
    | inl err => if IsNotFound err then Ret true else Ret false
    | inr sema =>
        Do (DeleteConfigMap sema) (λ r,
          match r with
          | inl err => if IsNotFound err then Ret true else Ret false
          | inr _ => Ret true
          end)
    end).

(** The second half of [Lock]: nobody holds the lock, create it. *)
Definition Lock_create (cluster : Cluster) (machine : string) : prog bool :=
  match setInformation {| MachineName := machine |} (setMetadata cluster newSemaphore) with
  | Ok sema =>
      Do (CreateConfigMap sema) (λ r,
        match r with
        | inl err => if IsAlreadyExists err then Ret false else Ret false
        | inr _ => Ret true
        end)
  | _ => Ret false
  end.

Definition Lock (cluster : Cluster) (machine : string) : prog bool :=
  Do (GetConfigMap (c_Namespace cluster) (configMapName (c_Name cluster))) (λ r,
    match r with
    | inl err => if IsNotFound err then Lock_create cluster machine else Ret false
    | inr sema =>
        match semaphore_information sema with
        | Ok info =>
            if decide (MachineName info = machine) then Ret true
            else
              Do (GetMachine (c_Namespace cluster) (MachineName info)) (λ r,
                match r with
                | inl err =>
                    if IsNotFound err
                    then prog_bind (Unlock cluster) (λ _, Ret false)
                    else Ret false
                | inr _ => Ret false
                end)
        | _ => Ret false
        end
    end).
End lock.

(** ** The API server

    [step s c r s'] : in state [s] the server may answer [c] with [r] and be in
    [s'] afterwards.  Configmaps are read from the server (bootstrap/main.go
    disables the cache for them); [machs] is the machines a read sees.  A call
    that fails may still have been carried out. *)
Class ApiServer := {
  srv : Type;
  cms : srv → gmap (string * string) semaphore;
  machs : srv → gset (string * string);
  step : srv → ∀ c, reply c → srv → Prop;

  step_machs s c r s' : step s c r s' → machs s' = machs s;
  get_found s ns n (cm : semaphore) s' : step s (GetConfigMap ns n) (inr cm) s' →
    cms s !! (ns, n) = Some cm ∧ cms s' = cms s;
  get_failed s ns n e s' : step s (GetConfigMap ns n) (inl e) s' →
    (IsNotFound e = true → cms s !! (ns, n) = None) ∧ cms s' = cms s;
  get_machine s ns n r s' : step s (GetMachine ns n) r s' →
    cms s' = cms s ∧
    match r with
    | inl e => IsNotFound e = true → (ns, n) ∉ machs s
    | inr _ => (ns, n) ∈ machs s
    end;
  create_done s cm s' : step s (CreateConfigMap cm) (inr tt) s' →
    cms s !! (cm_Namespace cm, cm_Name cm) = None ∧
    cms s' = <[(cm_Namespace cm, cm_Name cm) := cm]> (cms s);
  create_failed s cm e s' : step s (CreateConfigMap cm) (inl e) s' →
    cms s' = cms s ∨
    (cms s !! (cm_Namespace cm, cm_Name cm) = None ∧
     cms s' = <[(cm_Namespace cm, cm_Name cm) := cm]> (cms s));
  delete_done s cm s' : step s (DeleteConfigMap cm) (inr tt) s' →
    cms s' = delete (cm_Namespace cm, cm_Name cm) (cms s);
  delete_failed s cm e s' : step s (DeleteConfigMap cm) (inl e) s' →
    (IsNotFound e = true → cms s !! (cm_Namespace cm, cm_Name cm) = None) ∧
    (cms s' = cms s ∨ cms s' = delete (cm_Namespace cm, cm_Name cm) (cms s))
}.

(** ** The concurrent system: machines of one cluster, each running [Lock] *)

Section system.
Context `{InfoJson, LockConsts, ApiServer} (cluster : Cluster).

Definition lock_key : string * string :=
  (c_Namespace cluster, configMapName (c_Name cluster)).

(** The lock's object names machine [m] as the holder. *)
Definition held_by (m : string) (s : srv) : Prop :=
  ∃ cm, cms s !! lock_key = Some cm ∧
        semaphore_information cm = Ok {| MachineName := m |}.

(** A server state with the requests in flight: machine name and the rest of
    its [Lock]. *)
Definition sys : Type := srv * list (string * prog bool).

Inductive sys_step : sys → sys → Prop :=
| step_client s ps1 m c k ps2 r s' :
    step s c r s' →
    sys_step (s, ps1 ++ (m, Do c k) :: ps2) (s', ps1 ++ (m, k r) :: ps2)
| step_env s ps s' :
    (* other controllers: they may do anything but remove this lock or make
       a machine disappear *)
    (∀ cm, cms s !! lock_key = Some cm → cms s' !! lock_key = Some cm) →
    (cms s !! lock_key = None → cms s' !! lock_key = None) →
    machs s ⊆ machs s' →
    sys_step (s, ps) (s', ps)
| step_start s ps m :
    ascii_name m = true →
    (c_Namespace cluster, m) ∈ machs s →
    sys_step (s, ps) (s, (m, Lock cluster m) :: ps).

(** *** Rely-guarantee reasoning about one program *)

(** What the others may do: an existing lock stays, machines stay, and a new
    lock names a machine that exists. *)
Definition rely (s s' : srv) : Prop :=
  (∀ cm, cms s !! lock_key = Some cm → cms s' !! lock_key = Some cm) ∧
  machs s ⊆ machs s'.

(** The lock, if any, is held by a machine that exists. *)
Definition lock_inv (s : srv) : Prop :=
  ∀ cm, cms s !! lock_key = Some cm →
  ∃ m, semaphore_information cm = Ok {| MachineName := m |} ∧
       (c_Namespace cluster, m) ∈ machs s.

(** From state [s] on, every call of [p] respects the others and [p] returns
    true only when [m] holds the lock. *)
Fixpoint prog_ok (m : string) (p : prog bool) (s : srv) : Prop :=
  match p with
  | Ret b => b = true → held_by m s
  | Do c k => ∀ s1 r s2, rely s s1 → lock_inv s1 → step s1 c r s2 →
      rely s1 s2 ∧ lock_inv s2 ∧ prog_ok m (k r) s2
  end.

#[local] Instance rely_preorder : PreOrder rely.
Proof. split; [split; auto|]. intros ??? [? ?] [? ?]. split; [auto|set_solver]. Qed.

Lemma held_by_rely m s s' : rely s s' → held_by m s → held_by m s'.
Proof. intros [Hr _] (cm & Hcm & Hi). exists cm. auto. Qed.

Lemma prog_ok_rely m p s s' : rely s s' → prog_ok m p s → prog_ok m p s'.
Proof.
  intros Hr. destruct p as [b|c k]; simpl.
  - intros Hb ->. eauto using held_by_rely.
  - intros Hk s1 r s2 Hr1. apply Hk. by transitivity s'.
Qed.

Lemma lock_inv_same s s' :
  cms s' = cms s → machs s' = machs s → lock_inv s → lock_inv s' ∧ rely s s'.
Proof.
  intros Hc Hm Hi. unfold lock_inv, rely. rewrite Hc, Hm. split; [done|].
  split; [done|set_solver].
Qed.

(** The object [Lock] creates names the machine that asked. *)
Lemma created_information m sema :
  ascii_name m = true →
  setInformation {| MachineName := m |} (setMetadata cluster newSemaphore) = Ok sema →
  (cm_Namespace sema, cm_Name sema) = lock_key ∧
  semaphore_information sema = Ok {| MachineName := m |}.
Proof.
  intros Hm. unfold setInformation, semaphore_information.
  destruct (json_roundtrip {| MachineName := m |} Hm) as (b & -> & Hb).
  intros [= <-]. simpl. rewrite lookup_singleton_eq. simpl. by rewrite Hb.
Qed.

Lemma lock_inv_created m cm s s' :
  (c_Namespace cluster, m) ∈ machs s → machs s' = machs s →
  semaphore_information cm = Ok {| MachineName := m |} →
  cms s !! lock_key = None → cms s' = <[lock_key := cm]> (cms s) →
  lock_inv s' ∧ rely s s' ∧ held_by m s'.
Proof.
  intros Hm Hms Hi Hn Hc. unfold lock_inv, rely, held_by. rewrite Hc, Hms.
  rewrite lookup_insert_eq. split_and!; [|congruence|set_solver|eauto].
  intros cm' [= <-]. eauto.
Qed.

Lemma Lock_create_ok m s :
  ascii_name m = true → (c_Namespace cluster, m) ∈ machs s →
  prog_ok m (Lock_create cluster m) s.
Proof.
  intros Ha Hm. unfold Lock_create.
  destruct (setInformation _ _) as [sema|e|p] eqn:E; [|done..].
  apply created_information in E as [Hk Hi]; [|done].
  intros s1 r s2 [_ Hms] Hinv Hstep. apply Hms in Hm.
  pose proof (step_machs _ _ _ _ Hstep) as Hsm.
  destruct r as [e|[]].
  - apply create_failed in Hstep. rewrite Hk in Hstep.
    destruct Hstep as [Hc|[Hn Hc]].
    + destruct (lock_inv_same s1 s2) as [??]; [done..|]. by destruct (IsAlreadyExists e).
    + destruct (lock_inv_created m sema s1 s2) as (?&?&?); [done..|].
      by destruct (IsAlreadyExists e).
  - apply create_done in Hstep as [Hn Hc]. rewrite Hk in Hn, Hc.
    destruct (lock_inv_created m sema s1 s2) as (?&?&?); [done..|]. split_and!; [done..|]. by intros _.
Qed.

Lemma Lock_ok m s :
  ascii_name m = true → (c_Namespace cluster, m) ∈ machs s →
  prog_ok m (Lock cluster m) s.
Proof.
  intros Ha Hm s1 r s2 [_ Hms] Hinv Hstep. apply Hms in Hm.
  pose proof (step_machs _ _ _ _ Hstep) as Hsm.
  destruct r as [e|cm].
  - apply get_failed in Hstep as [_ Hc].
    destruct (lock_inv_same s1 s2) as [??]; [done..|]. split_and!; [done..|].
    destruct (IsNotFound e); [|done]. apply Lock_create_ok; [done|]. by rewrite Hsm.
  - apply get_found in Hstep as [Hf Hc].
    destruct (lock_inv_same s1 s2) as [??]; [done..|]. split_and!; [done..|].
    destruct (Hinv cm Hf) as (h & Hi & Hex). rewrite Hi. simpl.
    case_decide as Hd; simpl.
    + intros _. subst h. exists cm. by rewrite Hc.
    + intros s3 r s4 [_ Hms3] Hinv3 Hstep. pose proof (step_machs _ _ _ _ Hstep) as Hsm4.
      apply get_machine in Hstep as [Hc4 Hr].
      destruct (lock_inv_same s3 s4) as [??]; [done..|]. split_and!; [done..|].
      destruct r as [e|[]]; [|done]. destruct (IsNotFound e); [|done].
      exfalso. apply Hr; [done|]. apply Hms3. by rewrite Hsm.
Qed.

(** *** Runs of the system *)

Definition sys_inv (x : sys) : Prop :=
  lock_inv x.1 ∧ Forall (λ mp, prog_ok mp.1 mp.2 x.1) x.2.

Lemma Forall_prog_ok_rely s s' ps :
  rely s s' → Forall (λ mp, prog_ok mp.1 mp.2 s) ps →
  Forall (λ mp, prog_ok mp.1 mp.2 s') ps.
Proof. intros Hr. apply Forall_impl. intros mp. by apply prog_ok_rely. Qed.

Lemma sys_step_inv x y : sys_step x y → sys_inv x → sys_inv y.
Proof.
  destruct 1 as [s ps1 m c k ps2 r s' Hstep|s ps s' Hl Hn Hm|s ps m Ha Hm];
    intros [Hi Hps]; cbn [fst snd] in *.
  - apply Forall_app in Hps as [Hps1 Hps]. apply list.Forall_cons in Hps as [Hk Hps2].
    destruct (Hk s r s') as (Hr & Hi' & Hk'); [done..|].
    split; [done|]. simpl. apply Forall_app. split; [|constructor; [done|]];
      by eapply Forall_prog_ok_rely.
  - split; [|eapply Forall_prog_ok_rely; [|done]; by split]. intros cm Hcm. simpl in *.
    destruct (cms s !! lock_key) as [cm'|] eqn:E; [|by rewrite Hn in Hcm].
    rewrite (Hl cm' eq_refl) in Hcm. injection Hcm as ->.
    destruct (Hi cm E) as (h & ? & ?). eauto.
  - split; [done|]. constructor; [by apply Lock_ok|done].
Qed.

Lemma sys_steps_inv x y : rtc sys_step x y → sys_inv x → sys_inv y.
Proof. induction 1; eauto using sys_step_inv. Qed.
End system.

(** ** Uninterrupted runs *)

Section sequential.
Context `{InfoJson, LockConsts, ApiServer} (cluster : Cluster).

(** [p] run from [s] without interference may return [a] and leave [s']. *)
Fixpoint runs {A} (p : prog A) (s : srv) (a : A) (s' : srv) : Prop :=
  match p with
  | Ret b => a = b ∧ s' = s
  | Do c k => ∃ r s1, step s c r s1 ∧ runs (k r) s1 a s'
  end.

(** A server that answers every call and fails only for a reason: the object is
    not there, or is there already. *)
Class Reliable := {
  rel_total s c : ∃ r s', step s c r s';
  rel_get s ns n e s' : step s (GetConfigMap ns n) (inl e) s' → IsNotFound e = true;
  rel_machine s ns n e s' : step s (GetMachine ns n) (inl e) s' → IsNotFound e = true;
  rel_create s cm e s' : step s (CreateConfigMap cm) (inl e) s' →
    is_Some (cms s !! (cm_Namespace cm, cm_Name cm));
  rel_delete s cm e s' : step s (DeleteConfigMap cm) (inl e) s' →
    IsNotFound e = true ∧ cms s !! (cm_Namespace cm, cm_Name cm) = None
}.

Lemma runs_total `{Reliable} {A} (p : prog A) : ∀ s, ∃ a s', runs p s a s'.
Proof.
  induction p as [a|c k IH]; intros s; [by exists a, s|].
  destruct (rel_total s c) as (r & s1 & Hs). destruct (IH r s1) as (a & s2 & Hr).
  exists a, s2, r, s1. done.
Qed.

Lemma runs_bind {A B} (p : prog A) (f : A → prog B) : ∀ s b s',
  runs (prog_bind p f) s b s' ↔ ∃ a s1, runs p s a s1 ∧ runs (f a) s1 b s'.
Proof.
  induction p as [a|c k IH]; intros s b s'; simpl.
  - split; [intros Hr; by exists a, s|by intros (? & ? & [-> ->] & Hr)].
  - setoid_rewrite IH. split.
    + intros (r & s1 & Hs & a & s2 & ? & ?). eauto 8.
    + intros (a & s2 & (r & s1 & ? & ?) & ?). eauto 8.
Qed.

(** The lock's object is stored under its own name. *)
Definition keyed (s : srv) : Prop :=
  ∀ k cm, cms s !! k = Some cm → k = (cm_Namespace cm, cm_Name cm).

Lemma keyed_same s s' : cms s' = cms s → keyed s → keyed s'.
Proof. unfold keyed. by intros ->. Qed.

(** [Unlock] reports success only when the lock is gone. *)
Lemma Unlock_runs s b s' :
  keyed s → runs (Unlock cluster) s b s' →
  (b = true → cms s' !! lock_key cluster = None) ∧ machs s' = machs s.
Proof.
  intros Hk (r & s1 & Hget & Hr). pose proof (step_machs _ _ _ _ Hget) as Hm.
  destruct r as [e|cm].
  - apply get_failed in Hget as [Hn Hc].
    destruct (IsNotFound e) eqn:E; destruct Hr as [-> ->]; [|done].
    rewrite Hc. auto.
  - cbn in cm; apply get_found in Hget as [Hf Hc]. pose proof (Hk _ _ Hf) as Hkey.
    destruct Hr as (r & s2 & Hdel & Hr). pose proof (step_machs _ _ _ _ Hdel) as Hm2.
    unfold lock_key. rewrite <-Hc, Hkey in Hf. rewrite Hkey. destruct r as [e|[]].
    + apply delete_failed in Hdel as [Hn _].
      destruct (IsNotFound e) eqn:E; destruct Hr as [-> ->]; [|split; [done|congruence]].
      specialize (Hn eq_refl). congruence.
    + apply delete_done in Hdel. destruct Hr as [_ ->].
      rewrite Hdel, lookup_delete_eq. split; [done|congruence].
Qed.

Lemma Unlock_reliable `{Reliable} s b s' :
  keyed s → runs (Unlock cluster) s b s' → b = true.
Proof.
  intros Hk (r & s1 & Hget & Hr). destruct r as [e|cm].
  - rewrite (rel_get _ _ _ _ _ Hget) in Hr. by destruct Hr.
  - destruct Hr as (r & s2 & Hdel & Hr). destruct r as [e|[]].
    + destruct (rel_delete _ _ _ _ Hdel) as [He _]. rewrite He in Hr. by destruct Hr.
    + by destruct Hr.
Qed.

(** [Lock] on a free lock acquires it. *)
Lemma Lock_free_runs `{Reliable} m s b s' :
  ascii_name m = true → cms s !! lock_key cluster = None →
  runs (Lock cluster m) s b s' → b = true ∧ held_by cluster m s'.
Proof.
  intros Ha Hn (r & s1 & Hget & Hr). destruct r as [e|cm].
  - rewrite (rel_get _ _ _ _ _ Hget) in Hr. apply get_failed in Hget as [_ Hc].
    unfold Lock_create in Hr. destruct (setInformation _ _) as [sema|e'|p] eqn:E.
    + apply created_information in E as [Hk Hi]; [|done].
      destruct Hr as (r & s2 & Hcr & Hr). rewrite <-Hc in Hn. destruct r as [e'|[]].
      * apply rel_create in Hcr. rewrite Hk, Hn in Hcr. by destruct Hcr.
      * apply create_done in Hcr as [_ Hcm]. rewrite Hk in Hcm. destruct Hr as [-> ->].
        split; [done|]. exists sema. by rewrite Hcm, lookup_insert_eq.
    + unfold setInformation in E. edestruct (json_roundtrip {| MachineName := m |} Ha) as (? & Hj & _). by rewrite Hj in E.
    + unfold setInformation in E. edestruct (json_roundtrip {| MachineName := m |} Ha) as (? & Hj & _). by rewrite Hj in E.
  - cbn in cm; apply get_found in Hget as [Hf _]. unfold lock_key in Hn. congruence.
Qed.

(** [Lock] by another machine while the holder exists changes nothing; once the
    holder's machine is gone it frees the lock. *)
Lemma Lock_busy_runs m h s b s' :
  h ≠ m → held_by cluster h s →
  runs (Lock cluster m) s b s' →
  b = false ∧ ((c_Namespace cluster, h) ∈ machs s → cms s' = cms s).
Proof.
  intros Hne (cm0 & Hcm0 & Hi) (r & s1 & Hget & Hr).
  pose proof (step_machs _ _ _ _ Hget) as Hm. destruct r as [e|cm].
  - apply get_failed in Hget as [Hn Hc]. destruct (IsNotFound e).
    + unfold lock_key in Hcm0. by rewrite Hn in Hcm0.
    + by destruct Hr as [-> ->].
  - cbn in cm; apply get_found in Hget as [Hf Hc]. unfold lock_key in Hcm0.
    rewrite Hf in Hcm0. injection Hcm0 as ->. rewrite Hi in Hr. cbn [MachineName] in Hr.
    rewrite decide_False in Hr by done. destruct Hr as (r & s2 & Hg & Hr).
    apply get_machine in Hg as [Hc2 Hx]. destruct r as [e|[]]; [destruct (IsNotFound e)|].
    + apply runs_bind in Hr as (b' & s3 & _ & [-> ->]). split; [done|].
      intros Hin. rewrite <-Hm in Hin. by destruct (Hx eq_refl).
    + destruct Hr as [-> ->]. split; [done|congruence].
    + destruct Hr as [-> ->]. split; [done|congruence].
Qed.

Lemma Lock_stale_runs `{Reliable} m h s b s' :
  h ≠ m → keyed s → held_by cluster h s → (c_Namespace cluster, h) ∉ machs s →
  runs (Lock cluster m) s b s' → cms s' !! lock_key cluster = None.
Proof.
  intros Hne Hk (cm0 & Hcm0 & Hi) Hgone (r & s1 & Hget & Hr).
  pose proof (step_machs _ _ _ _ Hget) as Hm. destruct r as [e|cm].
  - pose proof (rel_get _ _ _ _ _ Hget) as He. apply get_failed in Hget as [Hn Hc].
    unfold lock_key in Hcm0. by rewrite Hn in Hcm0.
  - cbn in cm; apply get_found in Hget as [Hf Hc]. unfold lock_key in Hcm0.
    rewrite Hf in Hcm0. injection Hcm0 as ->. rewrite Hi in Hr. cbn [MachineName] in Hr.
    rewrite decide_False in Hr by done. destruct Hr as (r & s2 & Hg & Hr).
    pose proof Hg as [Hc2 Hx]%get_machine. destruct r as [e|[]].
    + rewrite (rel_machine _ _ _ _ _ Hg) in Hr.
      apply runs_bind in Hr as (b' & s3 & Hu & [-> ->]).
      assert (keyed s2) as Hk2 by (eapply keyed_same; [|done]; congruence).
      pose proof (Unlock_reliable _ _ _ Hk2 Hu) as ->.
      by apply (Unlock_runs _ _ _ Hk2 Hu).
    + rewrite Hm in Hx. done.
Qed.
End sequential.

(** ** The lock's guarantees *)

Section guarantees.
Context `{InfoJson, LockConsts, ApiServer} (cluster : Cluster).

(** C6: mutual exclusion.  Any number of machines of a cluster run [Lock] (again
    and again), interleaved call by call with each other and with everything
    else that happens on the API server short of removing the lock or a
    machine, starting from a lock that is free or held by a machine that
    exists.  Two calls that returned true were made for the same machine, and
    that machine is the one the lock object names. *)
Theorem Lock_mutual_exclusion s0 s ps m1 m2 :
  lock_inv cluster s0 →
  rtc (sys_step cluster) (s0, []) (s, ps) →
  (m1, Ret true) ∈ ps → (m2, Ret true) ∈ ps →
  m1 = m2 ∧ held_by cluster m1 s.
Proof.
  intros Hi Hrun H1' H2'.
  destruct (sys_steps_inv cluster _ _ Hrun) as [_ Hps]; [by split; [|constructor]|].
  rewrite list.Forall_forall in Hps.
  pose proof (Hps _ H1' eq_refl) as (cm & Hcm & Hm1).
  pose proof (Hps _ H2' eq_refl) as (cm' & Hcm' & Hm2).
  simpl in *. split; [congruence|]. by exists cm.
Qed.

(** C39: the lock changes hands.  On a server that answers truthfully, when the
    machine holding the lock no longer exists, another machine's [Lock] returns
    false and frees the lock, its next [Lock] returns true and holds it, and
    both calls return. *)
Theorem Lock_recovers `{!Reliable} m h s :
  ascii_name m = true → h ≠ m → keyed s →
  held_by cluster h s → (c_Namespace cluster, h) ∉ machs s →
  ∃ s1 s2, runs (Lock cluster m) s false s1 ∧ cms s1 !! lock_key cluster = None ∧
           runs (Lock cluster m) s1 true s2 ∧ held_by cluster m s2.
Proof.
  intros Ha Hne Hk Hh Hgone.
  destruct (runs_total (Lock cluster m) s) as (b1 & s1 & Hr1).
  destruct (runs_total (Lock cluster m) s1) as (b2 & s2 & Hr2).
  destruct (Lock_busy_runs cluster _ _ _ _ _ Hne Hh Hr1) as [-> _].
  pose proof (Lock_stale_runs cluster _ _ _ _ _ Hne Hk Hh Hgone Hr1) as Hn.
  destruct (Lock_free_runs cluster _ _ _ _ Ha Hn Hr2) as [-> Hh2]. eauto 6.
Qed.

(** [Unlock] releases.  Whatever the server answers, [Unlock] returns true
    only when the lock's object is gone; a server that answers truthfully makes
    it return true, and the next [Lock] of any machine then acquires the lock. *)
Theorem Unlock_releases s b s1 :
  keyed s → runs (Unlock cluster) s b s1 →
  (b = true → cms s1 !! lock_key cluster = None) ∧
  (Reliable → b = true ∧
     ∀ m, ascii_name m = true →
     ∃ s2, runs (Lock cluster m) s1 true s2 ∧ held_by cluster m s2).
Proof.
  intros Hk Hr. destruct (Unlock_runs cluster _ _ _ Hk Hr) as [Hn _].
  split; [done|]. intros Hrel. pose proof (Unlock_reliable cluster _ _ _ Hk Hr) as ->.
  split; [done|]. intros m Ha.
  destruct (runs_total (Lock cluster m) s1) as (b2 & s2 & Hr2).
  destruct (Lock_free_runs cluster _ _ _ _ Ha (Hn eq_refl) Hr2) as [-> Hh]. eauto.
Qed.
End guarantees.

(** ** An executable API server *)

Definition quote : string := String (Ascii.ascii_of_nat 34) EmptyString.
Definition info_head : string :=
  "{" +:+ quote +:+ "machineName" +:+ quote +:+ ":" +:+ quote.
Definition info_tail : string := quote +:+ "}".

(** The JSON of names without characters JSON escapes. *)
Definition info_encode (i : information) : string :=
  info_head +:+ MachineName i +:+ info_tail.
Definition info_decode (b : string) : outcome information :=
  if String.prefix info_head b
  then Ok {| MachineName := String.substring (String.length info_head)
               (String.length b - String.length info_head - String.length info_tail) b |}
  else Err (EText "unexpected end of JSON input").

Lemma substring_mid a b c :
  String.substring (String.length a) (String.length b) (a +:+ (b +:+ c)) = b.
Proof.
  induction a as [|x a IH]; [|exact IH].
  induction b as [|x b IH]; [by destruct c|].
  change (String x (String.substring 0 (String.length b) (b +:+ c)) = String x b).
  f_equal. exact IH.
Qed.

Lemma length_str_app a b : String.length (a +:+ b) = String.length a + String.length b.
Proof. induction a as [|x a IH]; [done|]. change (S (String.length (a +:+ b)) = S (String.length a + String.length b)). by rewrite IH. Qed.

#[refine] Instance plain_json : InfoJson := {
  json_Marshal i := Ok (info_encode i); json_Unmarshal := info_decode
}.
Proof.
  intros [m] _. eexists. split; [done|]. unfold info_decode, info_encode.
  rewrite prefix_app. do 3 f_equal. rewrite !length_str_app.
  replace (_ - _ - _) with (String.length m) by (simpl; lia). apply substring_mid.
Defined.

Instance lock_consts : LockConsts := { ClusterNameLabel := "cluster.x-k8s.io/cluster-name" }.

Record store := Store {
  st_cms : gmap (string * string) semaphore; st_machs : gset (string * string)
}.

Definition store_exec (s : store) (c : call) : reply c * store :=
  match c with
  | GetConfigMap ns n =>
      (match st_cms s !! (ns, n) with Some cm => inr cm | None => inl ENotFound end, s)
  | GetMachine ns n =>
      (if decide ((ns, n) ∈ st_machs s) then inr tt else inl ENotFound, s)
  | CreateConfigMap cm =>
      match st_cms s !! (cm_Namespace cm, cm_Name cm) with
      | Some _ => (inl EAlreadyExists, s)
      | None => (inr tt, Store (<[(cm_Namespace cm, cm_Name cm) := cm]> (st_cms s)) (st_machs s))
      end
  | DeleteConfigMap cm =>
      match st_cms s !! (cm_Namespace cm, cm_Name cm) with
      | Some _ => (inr tt, Store (delete (cm_Namespace cm, cm_Name cm) (st_cms s)) (st_machs s))
      | None => (inl ENotFound, s)
      end
  end.

#[refine] Instance store_server : ApiServer := {
  srv := store; cms := st_cms; machs := st_machs;
  step s c r s' := store_exec s c = (r, s')
}.
Proof.
  { intros s [] r s' Hs; repeat (simpl in *; case_match || case_decide || simplify_eq); done. }
  all: intros; repeat (simpl in *; case_match || case_decide || simplify_eq); eauto.
Defined.

Instance store_reliable : Reliable.
Proof.
  split; [by intros s c; destruct (store_exec s c) as [r s'] eqn:E; exists r, s'|..];
  intros; repeat (simpl in *; case_match || case_decide || simplify_eq); eauto.
Defined.

(** *** Runs on concrete clusters *)

Definition demo_cluster : Cluster :=
  {| c_APIVersion := "cluster.x-k8s.io/v1beta2"; c_Kind := "Cluster";
     c_Namespace := "ns"; c_Name := "c1"; c_UID := "u1" |}.

Definition demo_lock (m : string) : semaphore :=
  match setInformation {| MachineName := m |} (setMetadata demo_cluster newSemaphore) with
  | Ok s => s
  | _ => newSemaphore
  end.

(** Machines a and b exist; the lock is free, or still held by the machine z
    that is gone. *)
Definition demo_free : @srv store_server := Store ∅ {[ ("ns", "a"); ("ns", "b") ]}.
Definition demo_stale : @srv store_server :=
  Store {[ lock_key demo_cluster := demo_lock "z" ]} {[ ("ns", "a"); ("ns", "b") ]}.

(** One step of the request at position [i] against the executable server. *)
Definition sys_do (i : nat) (x : @sys store_server) : @sys store_server :=
  match x.2 !! i with
  | Some (m, Do c k) => let '(r, s') := store_exec x.1 c in (s', <[i := (m, k r)]> x.2)
  | _ => x
  end.

Lemma sys_do_steps i x : rtc (sys_step (H1 := store_server) demo_cluster) x (sys_do i x).
Proof.
  destruct x as [s ps]. unfold sys_do. cbn [fst snd].
  destruct (ps !! i) as [[m [b|c k]]|] eqn:E; try apply rtc_refl.
  destruct (store_exec s c) as [r s'] eqn:Es.
  pose proof (list_elem_of_split_length _ _ _ E) as (p1 & p2 & -> & Hi).
  subst i. rewrite insert_app_r_alt, Nat.sub_diag by lia. simpl.
  apply rtc_once. by constructor.
Qed.

Lemma sys_start_steps m s ps :
  ascii_name m = true → ("ns", m) ∈ st_machs s →
  rtc (sys_step (H1 := store_server) demo_cluster) (s, ps) (s, (m, Lock demo_cluster m) :: ps).
Proof. intros. apply rtc_once. by constructor. Qed.

(** A schedule: start a machine's [Lock] or let the request at a position make
    its next call. *)
Inductive sched := Start (m : string) | Go (i : nat).

Fixpoint sys_run (l : list sched) (x : @sys store_server) : @sys store_server :=
  match l with
  | [] => x
  | Start m :: l => sys_run l (x.1, (m, Lock demo_cluster m) :: x.2)
  | Go i :: l => sys_run l (sys_do i x)
  end.

Fixpoint starts_ok (l : list sched) : bool :=
  match l with
  | [] => true
  | Start m :: l => bool_decide (m = "a" ∨ m = "b") && starts_ok l
  | Go _ :: l => starts_ok l
  end.

Lemma store_exec_machs s c : st_machs (store_exec s c).2 = st_machs s.
Proof. destruct c; simpl; repeat case_match; done. Qed.

Lemma sys_do_machs i x : st_machs (sys_do i x).1 = st_machs x.1.
Proof.
  unfold sys_do. destruct (x.2 !! i) as [[m [b|c k]]|]; try done.
  rewrite <-(store_exec_machs x.1 c). by destruct (store_exec x.1 c).
Qed.

Lemma sys_run_steps l x :
  st_machs x.1 = {[ ("ns", "a"); ("ns", "b") ]} → starts_ok l = true →
  rtc (sys_step (H1 := store_server) demo_cluster) x (sys_run l x).
Proof.
  revert x. induction l as [|[m|i] l IH]; intros x Hm; simpl; [done| |].
  - intros [Ha Hl]%andb_prop. apply bool_decide_eq_true in Ha.
    etransitivity; [|apply IH; done]. destruct x as [s ps]. simpl in *.
    apply sys_start_steps; [by destruct Ha as [->| ->]|].
    rewrite Hm. destruct Ha as [->| ->]; set_solver +.
  - intros Hl. etransitivity; [apply sys_do_steps|]. apply IH; [|done].
    by rewrite sys_do_machs.
Qed.

(** Both machines ask for the free lock, both see it free, b creates it. *)
Definition demo_schedule : list sched :=
  [Start "a"; Start "b"; Go 0; Go 1; Go 0; Go 1; Start "b"; Go 0].

Lemma Lock_mutual_exclusion_witness :
  held_by demo_cluster "b" (sys_run demo_schedule (demo_free, [])).1.
Proof.
  apply (Lock_mutual_exclusion demo_cluster demo_free _
           (sys_run demo_schedule (demo_free, [])).2 "b" "b").
  - intros cm Hcm. discriminate Hcm.
  - rewrite <-surjective_pairing. by apply sys_run_steps.
  - vm_compute. left.
  - vm_compute. left.
Defined.

Lemma demo_stale_held : held_by demo_cluster "z" demo_stale.
Proof. exists (demo_lock "z"). split; vm_compute; reflexivity. Qed.

Lemma demo_stale_keyed : keyed demo_stale.
Proof.
  intros k cm Hk. change (({[ lock_key demo_cluster := demo_lock "z" ]} : gmap _ _) !! k = Some cm) in Hk.
  apply lookup_singleton_Some in Hk as [<- <-]. reflexivity.
Qed.

Lemma Lock_recovers_witness :
  ∃ s1 s2, runs (Lock demo_cluster "a") demo_stale false s1 ∧
           cms s1 !! lock_key demo_cluster = None ∧
           runs (Lock demo_cluster "a") s1 true s2 ∧ held_by demo_cluster "a" s2.
Proof.
  apply (Lock_recovers demo_cluster "a" "z" demo_stale).
  - reflexivity.
  - discriminate.
  - apply demo_stale_keyed.
  - apply demo_stale_held.
  - simpl. set_solver.
Defined.

Lemma Unlock_releases_witness :
  @cms store_server (Store ∅ (st_machs demo_stale)) !! lock_key demo_cluster = None.
Proof.
  apply (Unlock_releases demo_cluster demo_stale true).
  - apply demo_stale_keyed.
  - eexists _, _. split; [reflexivity|]. eexists _, _. split; [reflexivity|].
    split; [done|]. vm_compute. reflexivity.
  - reflexivity.
Defined.

(** The lock does not protect against the cleanup of a stale lock.  With the
    lock left behind by a machine that is gone, two existing machines a and b
    can both be told they hold it: both see the stale lock, b removes it and
    acquires the lock, and then a, still in the middle of its cleanup, deletes
    the lock b just created ([Unlock] deletes whatever object it finds, not the
    one [Lock] looked at) and acquires it too. *)
Theorem Lock_stale_cleanup_race :
  ∃ s ps, rtc (sys_step demo_cluster) (demo_stale, []) (s, ps) ∧
          ("a", Ret true) ∈ ps ∧ ("b", Ret true) ∈ ps.
Proof.
  pose (l := [Start "a"; Start "b"; Go 1; Go 1; Go 0; Go 0; Go 0; Go 0;
              Start "b"; Go 0; Go 0; Go 2; Go 2; Start "a"; Go 0; Go 0]).
  exists (sys_run l (demo_stale, [])).1, (sys_run l (demo_stale, [])).2.
  rewrite <-surjective_pairing. split; [by apply sys_run_steps|].
  vm_compute. split; [left|right; left].
Qed.
