(* ===== verification/Hooks.v ===== *)
(** * Tracking of pending runtime hooks and of in-place updates

    pkg/capi/hooks/tracking.go: the hooks still to be called for an object are a
    comma separated list in an annotation.  pkg/capi/inplace/inplace.go: whether
    an in-place update of a machine is in progress, and what of a machine's spec
    matters when comparing. *)

From Stdlib Require Import Ascii.
From stdpp Require Import base tactics option list gmap strings numbers sorting.
From S2P Require Import Prelude Go Api Objects Libs World.
Open Scope string_scope.
Open Scope list_scope.
Open Scope stdpp_scope.

(** [sets.List] (apimachinery): the elements of a set, in ascending order. *)
Class SetsLib := {
  sets_List : gset string → list string;
  sets_List_elements s : sets_List s ≡ₚ elements s
}.

Definition comma : ascii := ","%char.

Section tracking.
Context `{SetsLib, CapiConsts, EV : Env}.

(** ** Comma separated lists *)

Definition addToCommaSeparatedList (l : string) (items : list string) : string :=
  let set : gset string := list_to_set (Split l comma) in
  let set := set ∖ {[""]} in
  let set := set ∪ list_to_set items in
  Join (sets_List set) ",".

Definition isInCommaSeparatedList (l item : string) : bool :=
  let set : gset string := list_to_set (Split l comma) in
  bool_decide (item ∈ set).

Definition removeFromCommaSeparatedList (l : string) (items : list string) : string :=
  let set : gset string := list_to_set (Split l comma) in
  let set := set ∖ {[""]} in
  let set := set ∖ list_to_set items in
  Join (sets_List set) ",".

(** ** Hooks of an object, by its annotations *)

(** The annotations after, and whether they changed.  A nil map is replaced by
    a fresh one, which the object gets only if something changed. *)
Definition MarkObjectAsPending (annotations : strmap) (hookNames : list string) : strmap * bool :=
  let m := default ∅ annotations in
  let old := default "" (m !! PendingHooksAnnotation) in
  let new := addToCommaSeparatedList old hookNames in
  if decide (old = new) then (annotations, false)
  else (Some (<[PendingHooksAnnotation := new]> m), true).

Definition IsPending (hookName : string) (annotations : strmap) : bool :=
  match annotations with
  | None => false
  | Some m => isInCommaSeparatedList (default "" (m !! PendingHooksAnnotation)) hookName
  end.

Definition done_annotations (hookName : string) (annotations : strmap) : strmap :=
  let m := default ∅ annotations in
  let new := removeFromCommaSeparatedList
               (default "" (m !! PendingHooksAnnotation)) [hookName] in
  let m := <[PendingHooksAnnotation := new]> m in
  Some (if decide (new = "") then delete PendingHooksAnnotation m else m).

(** The machine after the call; with [updateResourceVersionOnObject] it is what
    the server answered. *)
Definition MarkAsPending (obj : Machine) (updateResourceVersionOnObject : bool)
    (hookNames : list string) : M Machine :=
  let orig := obj in
  match MarkObjectAsPending (m_Annotations obj) hookNames with
  | (_, false) => mret obj
  | (a, true) =>
      let obj := m_with_annotations a obj in
      patched ← wrap "failed to mark hook(s) as pending" (api (CMergePatchMachine orig obj));
      mret (if updateResourceVersionOnObject then patched else obj)
  end.

Definition MarkAsDone (obj : Machine) (updateResourceVersionOnObject : bool)
    (hookName : string) : M Machine :=
  if IsPending hookName (m_Annotations obj) then
    let orig := obj in
    let obj := m_with_annotations (done_annotations hookName (m_Annotations obj)) obj in
    patched ← wrap "failed to mark hook as done" (api (CMergePatchMachine orig obj));
    mret (if updateResourceVersionOnObject then patched else obj)
  else mret obj.

(** ** In-place updates *)

Definition IsUpdateInProgress (m : Machine) : bool :=
  bool_decide (is_Some (map_get (m_Annotations m) UpdateInProgressAnnotation)) ||
  IsPending UpdateMachineHook (m_Annotations m).

Definition CleanupMachineSpecForDiff (s : MachineSpec) : MachineSpec :=
  {| msp_ClusterName := "";
     msp_ConfigRef := Build_ContractVersionedObjectReference "" "" "";
     msp_DataSecretName := None;
     msp_InfrastructureRef := Build_ContractVersionedObjectReference "" "" "";
     msp_Version := msp_Version s;
     msp_ProviderID := "";
     msp_FailureDomain := msp_FailureDomain s;
     msp_Deletion := Build_MachineDeletionSpec None None None;
     msp_Taints := None |}.

(** ** Lemmas *)

(** A hook's name: not empty, and without the separator. *)
Definition hook_name (h : string) : Prop := h ≠ "" ∧ free_of comma h = true.

(** The hooks a comma separated list holds. *)
Definition hooks_of (l : string) : gset string := list_to_set (Split l comma) ∖ {[""]}.

Lemma hooks_of_words l h : h ∈ hooks_of l → hook_name h.
Proof.
  unfold hooks_of. rewrite elem_of_difference, elem_of_list_to_set, elem_of_singleton.
  intros [Hin Hne]. split; [done|].
  pose proof (Split_free_words comma l) as Hw. rewrite list.Forall_forall in Hw. auto.
Qed.

Lemma hooks_of_Join (s : gset string) :
  (∀ h, h ∈ s → hook_name h) → hooks_of (Join (sets_List s) ",") = s.
Proof.
  intros Hs. unfold hooks_of. apply set_eq. intros h.
  rewrite elem_of_difference, elem_of_list_to_set, elem_of_singleton.
  destruct (decide (sets_List s = [])) as [He|Hne].
  - rewrite He. simpl. pose proof (sets_List_elements s) as Hp. rewrite He in Hp.
    apply Permutation_nil in Hp. rewrite <-elem_of_elements, Hp. set_solver.
  - rewrite (Split_Join comma).
    + rewrite sets_List_elements, elem_of_elements. split; [by intros [? ?]|].
      intros Hh. split; [done|]. by apply Hs.
    + done.
    + rewrite list.Forall_forall. intros x. rewrite sets_List_elements, elem_of_elements.
      intros Hx. by apply Hs.
Qed.

Lemma hooks_of_add l items :
  Forall hook_name items →
  hooks_of (addToCommaSeparatedList l items) = hooks_of l ∪ list_to_set items.
Proof.
  intros Hi. rewrite list.Forall_forall in Hi. unfold addToCommaSeparatedList.
  apply hooks_of_Join. intros h. rewrite elem_of_union, elem_of_list_to_set.
  intros [Hh|Hh]; [by eapply hooks_of_words|auto].
Qed.

Lemma add_ext l l' items :
  hooks_of l ∪ list_to_set items = hooks_of l' ∪ list_to_set items →
  addToCommaSeparatedList l items = addToCommaSeparatedList l' items.
Proof. unfold addToCommaSeparatedList, hooks_of. by intros ->. Qed.

Lemma hooks_of_remove l items :
  hooks_of (removeFromCommaSeparatedList l items) = hooks_of l ∖ list_to_set items.
Proof.
  unfold removeFromCommaSeparatedList. apply hooks_of_Join. intros h.
  rewrite elem_of_difference. intros [Hh _]. by eapply hooks_of_words.
Qed.

Lemma isIn_hooks_of l h :
  h ≠ "" → isInCommaSeparatedList l h = bool_decide (h ∈ hooks_of l).
Proof. intros Hne. unfold isInCommaSeparatedList, hooks_of. apply bool_decide_ext. set_solver. Qed.

Definition pending_list (a : strmap) : string := default "" (map_get a PendingHooksAnnotation).

Lemma IsPending_hooks_of h a :
  h ≠ "" → IsPending h a = bool_decide (h ∈ hooks_of (pending_list a)).
Proof.
  intros Hne. destruct a as [m|]; [by apply isIn_hooks_of|]. simpl.
  symmetry. apply bool_decide_eq_false. unfold hooks_of, pending_list. simpl. set_solver.
Qed.

Lemma pending_list_mark a hs :
  pending_list (MarkObjectAsPending a hs).1 = addToCommaSeparatedList (pending_list a) hs.
Proof.
  unfold MarkObjectAsPending, pending_list. destruct a as [m|]; simpl.
  - case_decide as Hd; simpl; [done|]. by rewrite lookup_insert_eq.
  - rewrite lookup_empty. simpl. case_decide as Hd; simpl; [done|].
    by rewrite lookup_insert_eq.
Qed.

Lemma hooks_of_empty : hooks_of "" = ∅.
Proof. unfold hooks_of. simpl. set_solver. Qed.

Lemma hooks_of_done h a :
  hooks_of (pending_list (done_annotations h a)) = hooks_of (pending_list a) ∖ {[h]}.
Proof.
  assert (hooks_of (pending_list a) ∖ {[h]} =
          hooks_of (removeFromCommaSeparatedList (pending_list a) [h])) as ->.
  { rewrite hooks_of_remove. simpl. by rewrite (right_id_L ∅ (∪)). }
  unfold done_annotations, pending_list. destruct a as [m|]; simpl;
    case_decide as Hd; simpl;
    rewrite ?lookup_delete_eq, ?lookup_insert_eq; simpl; rewrite ?lookup_empty in *;
    simpl in *; rewrite ?Hd; done.
Qed.

Lemma isIn_empty h : hook_name h → isInCommaSeparatedList "" h = false.
Proof.
  intros [Hne _]. rewrite isIn_hooks_of, hooks_of_empty by done. by apply bool_decide_eq_false_2.
Qed.
End tracking.

Section hook_claims.
Context `{SetsLib, CapiConsts, EV : Env}.

(** Marking hooks as pending.  Afterwards a hook is pending exactly when it
    was one of those marked or was pending before; every other annotation is as
    it was; and marking the same hooks again reports no change and leaves the
    annotations alone. *)
Theorem MarkObjectAsPending_spec a hs h k :
  Forall hook_name hs → hook_name h → k ≠ PendingHooksAnnotation →
  let a' := (MarkObjectAsPending a hs).1 in
  IsPending h a' = bool_decide (h ∈ hs) || IsPending h a ∧
  map_get a' k = map_get a k ∧
  MarkObjectAsPending a' hs = (a', false).
Proof.
  intros Hhs [Hne Hfree] Hk a'. split_and!.
  - rewrite !IsPending_hooks_of by done. unfold a'.
    rewrite pending_list_mark, hooks_of_add by done.
    rewrite (bool_decide_ext _ (h ∈ hooks_of (pending_list a) ∨ h ∈ hs)) by set_solver.
    rewrite bool_decide_or. apply orb_comm.
  - unfold a', MarkObjectAsPending. case_decide; [done|]. simpl.
    rewrite lookup_insert_ne by done. by destruct a.
  - assert (pending_list a' = addToCommaSeparatedList (pending_list a') hs) as Hp.
    { unfold a'. rewrite pending_list_mark. apply add_ext.
      rewrite hooks_of_add by done. set_solver. }
    unfold MarkObjectAsPending at 1. destruct a' as [m|]; simpl in *.
    + by rewrite decide_True.
    + unfold pending_list in Hp. simpl in Hp. rewrite lookup_empty. simpl. by rewrite decide_True.
Qed.

(** Marking a hook as done.  Exactly that hook is no longer pending, and for
    an object without pending hooks marking a hook as pending and then as done
    gives the annotations back (a nil map becomes an empty one). *)
Theorem MarkAsDone_spec a h h' :
  hook_name h → hook_name h' →
  IsPending h' (done_annotations h a) = bool_decide (h' ≠ h) && IsPending h' a ∧
  (map_get a PendingHooksAnnotation = None →
   done_annotations h (MarkObjectAsPending a [h]).1 = Some (default ∅ a)).
Proof.
  intros Hh [Hne' Hfree']. split.
  - rewrite !IsPending_hooks_of, hooks_of_done by done.
    rewrite (bool_decide_ext _ (h' ≠ h ∧ h' ∈ hooks_of (pending_list a))) by set_solver.
    apply bool_decide_and.
  - intros Hn. pose proof Hh as [Hne _].
    assert (removeFromCommaSeparatedList (addToCommaSeparatedList "" [h]) [h] = "") as Hr.
    { unfold removeFromCommaSeparatedList.
      change (Join (sets_List (hooks_of (addToCommaSeparatedList "" [h]) ∖ list_to_set [h])) "," = "").
      rewrite hooks_of_add, hooks_of_empty by (by constructor).
      replace ((∅ ∪ list_to_set [h]) ∖ list_to_set [h] : gset string) with (∅ : gset string) by set_solver.
      pose proof (sets_List_elements ∅) as Hp. rewrite elements_empty in Hp.
      symmetry in Hp. apply Permutation_nil in Hp. by rewrite Hp. }
    assert (∃ m, a = Some m ∧ m !! PendingHooksAnnotation = None ∨ a = None ∧ m = ∅) as (m & Ha).
    { destruct a as [m|]; [exists m; by left|exists ∅; by right]. }
    assert (default ∅ a = m ∧ m !! PendingHooksAnnotation = None) as [Hm Hmn].
    { destruct Ha as [[-> ?]|[-> ->]]; [done|]. by rewrite lookup_empty. }
    assert ("" ≠ addToCommaSeparatedList "" [h]) as Hadd.
    { intros He. assert (hooks_of (addToCommaSeparatedList "" [h]) = ∅) as Hx
        by (by rewrite <-He, hooks_of_empty).
      rewrite hooks_of_add, hooks_of_empty in Hx by (by constructor). set_solver. }
    unfold MarkObjectAsPending. rewrite Hm, Hmn. simpl. rewrite decide_False by done.
    cbn [fst]. unfold done_annotations. simpl. rewrite lookup_insert_eq. simpl.
    rewrite Hr, decide_True by done. rewrite !delete_insert_eq. by rewrite delete_id.
Qed.

(** *** The annotation as a set

    The specification the tracker implements: a set of hooks, to which hooks are
    added and from which they are taken.  [run_annotations] runs a sequence of
    operations on the annotations the way the controllers do, [run_set] on the set. *)

Inductive hook_op := OpPending (hs : list string) | OpDone (h : string).

Definition op_names (op : hook_op) : list string :=
  match op with OpPending hs => hs | OpDone h => [h] end.
Definition op_annotations (a : strmap) (op : hook_op) : strmap :=
  match op with OpPending hs => (MarkObjectAsPending a hs).1 | OpDone h => done_annotations h a end.
Definition op_set (s : gset string) (op : hook_op) : gset string :=
  match op with OpPending hs => s ∪ list_to_set hs | OpDone h => s ∖ {[h]} end.
Definition run_annotations (ops : list hook_op) (a : strmap) : strmap := foldl op_annotations a ops.
Definition run_set (ops : list hook_op) (s : gset string) : gset string := foldl op_set s ops.

(** The abstraction function, and that each operation commutes with it. *)
Definition pending_set (a : strmap) : gset string := hooks_of (pending_list a).

Lemma pending_set_op a op :
  Forall hook_name (op_names op) → pending_set (op_annotations a op) = op_set (pending_set a) op.
Proof.
  unfold pending_set. destruct op as [hs|h]; cbn [op_names op_annotations op_set]; intros Hn.
  - by rewrite pending_list_mark, hooks_of_add.
  - apply hooks_of_done.
Qed.

Lemma op_annotations_other a op k :
  k ≠ PendingHooksAnnotation → map_get (op_annotations a op) k = map_get a k.
Proof.
  intros Hk. destruct op as [hs|h]; cbn.
  - unfold MarkObjectAsPending. case_decide; [done|]. cbn. rewrite lookup_insert_ne by done. by destruct a.
  - unfold done_annotations. destruct a; case_decide; cbn;
      by rewrite ?lookup_delete_ne, ?lookup_insert_ne by done.
Qed.

Lemma run_annotations_set ops a :
  Forall hook_name (ops ≫= op_names) → pending_set (run_annotations ops a) = run_set ops (pending_set a).
Proof.
  revert a. induction ops as [|op ops IH]; intros a; [done|]. cbn.
  rewrite Forall_app. intros [Ho Hs]. rewrite <-(pending_set_op a op Ho). by apply IH.
Qed.

Lemma run_annotations_other ops a k :
  k ≠ PendingHooksAnnotation → map_get (run_annotations ops a) k = map_get a k.
Proof.
  intros Hk. revert a. induction ops as [|op ops IH]; intros a; [done|]. cbn.
  rewrite <-(op_annotations_other a op k Hk). apply IH.
Qed.

(** C22: the comma separated annotation implements a set of hooks.  After any
    sequence of marking hooks as pending and as done, a hook is reported pending
    exactly when it is in the set that the same sequence of insertions and removals
    leaves of the hooks pending at the start; every other annotation is as it was. *)
Theorem tracking_refines_set ops a h k :
  Forall hook_name (ops ≫= op_names) → hook_name h → k ≠ PendingHooksAnnotation →
  IsPending h (run_annotations ops a) = bool_decide (h ∈ run_set ops (pending_set a)) ∧
  map_get (run_annotations ops a) k = map_get a k.
Proof.
  intros Hops [Hne _] Hk. split; [|by apply run_annotations_other].
  by rewrite IsPending_hooks_of, <-run_annotations_set.
Qed.
End hook_claims.

#[refine] Instance sets_lib : SetsLib := { sets_List s := go_sort str_lt (elements s) }.
Proof. intros s. apply go_sort_perm. Defined.

Lemma UpdateMachine_hook_name `{CapiConsts} : hook_name UpdateMachineHook.
Proof. apply UpdateMachine_name. Qed.

Lemma MarkObjectAsPending_spec_witness :
  IsPending "UpdateMachine"
    (MarkObjectAsPending (Some {[ PendingHooksAnnotation := "A,B" ]}) ["UpdateMachine"]).1 = true.
Proof.
  destruct (MarkObjectAsPending_spec (Some {[ PendingHooksAnnotation := "A,B" ]})
    ["UpdateMachine"] "UpdateMachine" "x") as [Hp _].
  - repeat constructor; discriminate.
  - split; [discriminate|reflexivity].
  - discriminate.
  - exact Hp.
Defined.

Lemma MarkAsDone_spec_witness :
  IsPending "B" (done_annotations "A" (Some {[ PendingHooksAnnotation := "A,B" ]})) = true.
Proof.
  destruct (MarkAsDone_spec (Some {[ PendingHooksAnnotation := "A,B" ]}) "A" "B") as [Hp _].
  - split; [discriminate|reflexivity].
  - split; [discriminate|reflexivity].
  - rewrite Hp. vm_compute. reflexivity.
Defined.

Lemma tracking_refines_set_witness :
  let a := run_annotations [OpPending ["B"; "C"]; OpDone "A"] (Some {[ PendingHooksAnnotation := "A" ]}) in
  IsPending "A" a = false.
Proof.
  destruct (tracking_refines_set [OpPending ["B"; "C"]; OpDone "A"]
    (Some {[ PendingHooksAnnotation := "A" ]}) "A" "x") as [Hp _].
  - repeat constructor; discriminate.
  - split; [discriminate|reflexivity].
  - discriminate.
  - cbv zeta. rewrite Hp. vm_compute. reflexivity.
Defined.
