(* ===== verification/Demo.v ===== *)
(** * Sample objects

    A cluster, a control plane and machines on which the executable definitions
    are evaluated, and an environment that answers every call. *)

From stdpp Require Import base tactics option list gmap strings numbers.
From S2P Require Import Prelude Go Api Objects Libs World.
Open Scope string_scope.
Open Scope list_scope.
Open Scope stdpp_scope.

Definition demo_meta (name : string) : ObjectMeta :=
  Build_ObjectMeta name "ns" ("uid-" +:+ name) None (Some ∅) [] [] 0%Z None.
Definition demo_ref : ContractVersionedObjectReference :=
  Build_ContractVersionedObjectReference "infrastructure.cluster.x-k8s.io" "DockerMachine" "infra".
Definition demo_node (name : string) : Node := Build_Node (demo_meta name) [] [] [].
Definition demo_deletion : MachineDeletionSpec := Build_MachineDeletionSpec None None None.

(** A machine with a node (the empty name: none yet), created at a time. *)
Definition demo_machine_at (name node : string) (created : Time) : Machine :=
  Build_Machine "cluster.x-k8s.io/v1beta2" "Machine"
    (Build_ObjectMeta name "ns" ("uid-" +:+ name) None (Some ∅) [] [] created None)
    (Build_MachineSpec "c1" demo_ref None demo_ref "v1.33.1+rke2r1" "" "" demo_deletion None)
    (Build_MachineStatus node [] [] None []).
Definition demo_machine (name node : string) : Machine := demo_machine_at name node 0%Z.

Definition demo_user_data : AdditionalUserData := Build_AdditionalUserData "" None false.
Definition demo_agent : RKE2AgentConfig :=
  Build_RKE2AgentConfig "" None None None "" None None "" "" "" "" None "" false "" false ""
    None None "" 0%Z false "" "" demo_user_data.
Definition demo_config_spec : RKE2ConfigSpec :=
  Build_RKE2ConfigSpec None None None demo_agent (Build_Registry None None) None.
Definition demo_server_config : RKE2ServerConfig :=
  Build_RKE2ServerConfig None "" "" None "" "" "" (Build_DisableComponents None None) "" false
    None "" (Build_EtcdConfig false (Build_EtcdBackupConfig None "" "" "" "" None) None) None
    None None None None "" None false false None.
Definition demo_template : RKE2ControlPlaneMachineTemplate :=
  Build_RKE2ControlPlaneMachineTemplate None None
    (Build_RKE2ControlPlaneMachineTemplateSpec demo_ref
       (Build_RKE2ControlPlaneMachineTemplateDeletionSpec None None None) None).
Definition demo_spec (replicas : Z) : RKE2ControlPlaneSpec :=
  Build_RKE2ControlPlaneSpec demo_config_spec (Some replicas) "v1.33.1+rke2r1" demo_template
    demo_server_config (Build_ObjectReference "" "" "") "" ""
    (Some (Build_RolloutStrategy RollingUpdateStrategyType None)) None.
Definition demo_status (initialized : bool) : RKE2ControlPlaneStatus :=
  Build_RKE2ControlPlaneStatus [] (Some initialized) 0%Z None "" None None None None None.
Definition demo_rcp (replicas : Z) (initialized : bool) : RKE2ControlPlane :=
  Build_RKE2ControlPlane (demo_meta "cp") (demo_spec replicas) (demo_status initialized).
Definition demo_cluster : Cluster :=
  Build_Cluster (demo_meta "c1") ("10.0.0.1", 6443%Z) "" (Some true) None.

Definition demo_workload : Workload := Build_Workload ∅ ∅ true.
Definition no_preflight : PreflightCheckResults :=
  Build_PreflightCheckResults false false false false.

Definition demo_cp (rcp : RKE2ControlPlane) (machines : list Machine) : ControlPlane :=
  let ms : Machines := list_to_map (map (λ m, (m_Name m, m)) machines) in
  Build_ControlPlane rcp demo_cluster ms ms ∅ ∅ false no_preflight ∅ ∅ None "" "".
Definition demo_world (rcp : RKE2ControlPlane) (machines : list Machine) : World :=
  Build_World (demo_cp rcp machines) [] 0.

Definition demo_infra : Unstructured :=
  Build_Unstructured "infrastructure.cluster.x-k8s.io/v1beta2" "DockerMachine" (demo_meta "infra") "".
Definition demo_config : RKE2Config :=
  Build_RKE2Config "" "RKE2Config" (demo_meta "cfg") demo_config_spec
    (Build_RKE2ConfigStatus [] None None 0%Z).

(** An environment in which every call succeeds: the machines listed are
    [machines], the nodes [nodes], and etcd has the members [members], led by
    the one with identifier [leader]. *)
Definition demo_env_with (machines : list Machine) (nodes : list Node)
    (members : list PbMember) (leader : Z) : Env := λ _ c,
  match c with
  | CListMachines _ => inr (list_to_map (map (λ m, (m_Name m, m)) machines))
  | CGetInfra _ _ => inr demo_infra
  | CGetRKE2Config _ _ => inr demo_config
  | CGetAPIVersion _ _ => inr "infrastructure.cluster.x-k8s.io/v1beta2"
  | CGetTemplate _ _ _ _ => inr demo_infra
  | CGenerateTemplate _ _ _ _ _ => inr demo_infra
  | CMergePatchMachine _ after => inr after
  | CApplyMachine m => inr m
  | CSsaPatchMachine m => inr m
  | CCreateFromTemplate _ _ _ _ _ _ _ => inr (demo_infra, demo_ref)
  | CReconcileKubeconfig => inr Result_zero
  | CGetRCP => inr (demo_rcp 3 true)
  | CGetOwnerCluster => inr (Some demo_cluster)
  | CGetKubeconfigSecret => inr true
  | CGetWorkloadCluster => inr true
  | CListNodes => inr nodes
  | CEtcdStatus _ => inr leader
  | CEtcdMemberList _ => inr (7%Z, members)
  | CEtcdAlarmList _ => inr []
  | CEtcdMemberUpdate _ _ _ => inr members
  | CGetUpdateExtensions => inr []
  | CCallCanUpdateMachine _ _ => inr (Build_CanUpdateResponse None None None)
  | CDryRunMachine m => inr m
  | CDryRunInfra u => inr u
  | CWaitForCache _ _ | CNewPatchHelper _ _ | CPatchMachine _ _ | CSsaPatchInfra _
  | CSsaPatchConfig _ | CUpdateExternalMetadata _ _ _ _ _ _ | CCleanUpManagedFields _
  | CDropManagedFields _ _ | CPatchTemplateOwners _ _ | CCreateRKE2Config _ | CDeleteMachine _
  | CDeleteInfra _ | CDeleteRKE2Config _ | CLookupOrGenerateCertificates _ | CPatchNode _ _
  | CGetServingSecret | CPatchRCP _ _ | CEtcdDial _ | CEtcdMoveLeader _ _ | CEtcdMemberRemove _ _
  | CEtcdClose _ => inr tt
  end.

Definition demo_env : Env :=
  demo_env_with [] [demo_node "cp-1"; demo_node "cp-2"; demo_node "cp-3"]
    [Build_PbMember 1 "cp-1-aa" [] [] false; Build_PbMember 2 "cp-2-bb" [] [] false;
     Build_PbMember 3 "cp-3-cc" [] [] false] 1.

Instance demo_clock : Clock := λ _, (1000 * Hour)%Z.
