(* ===== verification/Registration.v ===== *)
(** * Registration addresses

    pkg/registration/registration.go: the addresses under which new nodes find
    the servers of the cluster, by the registration method of the spec. *)

From stdpp Require Import base tactics option list gmap strings numbers.
From S2P Require Import Prelude Go Api Objects Libs World Demo.
Open Scope string_scope.
Open Scope list_scope.
Open Scope stdpp_scope.

Section registration.
Context `{CapiConsts, CollLib, GoRange}.

(** The three filters: the first address of the machine that qualifies. *)
Fixpoint first_address (wanted : string → bool) (addresses : list (string * string)) : string :=
  match addresses with
  | [] => ""
  | (type, address) :: rest =>
      if wanted type && bool_decide (address ≠ "") then address else first_address wanted rest
  end.
Definition filterInternalFirst (m : Machine) : string :=
  first_address (λ t, bool_decide (t = MachineInternalIP) || bool_decide (t = MachineExternalIP))
    (mst_Addresses (m_Status m)).
Definition filterInternalOnly (m : Machine) : string :=
  first_address (λ t, bool_decide (t = MachineInternalIP)) (mst_Addresses (m_Status m)).
Definition filterExternalOnly (m : Machine) : string :=
  first_address (λ t, bool_decide (t = MachineExternalIP)) (mst_Addresses (m_Status m)).

Definition GetRegistrationAddresses : Type :=
  Cluster → RKE2ControlPlane → Machines → outcome (list string).

Definition registrationMethodWithFilter (filter : Machine → string) : GetRegistrationAddresses :=
  λ _ _ availableMachines,
    Ok (foldl (λ validIPAddresses '(_, availableMachine),
                 let ip := filter availableMachine in
                 if decide (ip ≠ "") then validIPAddresses ++ [ip] else validIPAddresses)
          [] (go_range 57 availableMachines)).

(** One address is appended, so the list is never empty. *)
Definition registrationMethodAddress : GetRegistrationAddresses := λ _ rcp _,
  Ok [sp_RegistrationAddress (rcp_Spec rcp)].

(** [IsZero] of an endpoint: neither host nor port. *)
Definition registrationMethodControlPlaneEndpoint : GetRegistrationAddresses := λ cluster _ _,
  let '(host, port) := cl_ControlPlaneEndpoint cluster in
  if decide (host = "" ∧ port = 0%Z) then Err (EText "no control plane endpoint set")
  else if decide (host = "") then Err (EText "no control plane host set")
  else Ok [host].

Definition NewRegistrationMethod (method : string) : outcome GetRegistrationAddresses :=
  if decide (method = "internal-first") then Ok (registrationMethodWithFilter filterInternalFirst)
  else if decide (method = "internal-only-ips") then Ok (registrationMethodWithFilter filterInternalOnly)
  else if decide (method = "external-only-ips") then Ok (registrationMethodWithFilter filterExternalOnly)
  else if decide (method = "address") then Ok registrationMethodAddress
  else if decide (method = "control-plane-endpoint" ∨ method = "") then
    Ok registrationMethodControlPlaneEndpoint
  else Err (EText "unsupported registration method").

(** The address [a] of a wanted kind, before which the machine has no other. *)
Definition first_of (wanted : string → bool) (l : list (string * string)) (a : string) : Prop :=
  ∃ before t after, l = before ++ (t, a) :: after ∧ wanted t = true ∧
    ∀ t' b, (t', b) ∈ before → wanted t' = true → b = "".

Lemma first_address_spec wanted l a :
  a ≠ "" → first_address wanted l = a ↔ first_of wanted l a.
Proof.
  intros Ha. induction l as [|[t b] l IH]; simpl.
  { split; [congruence|]. by intros (before & t & after & Hl%app_cons_not_nil & _). }
  destruct (wanted t && bool_decide (b ≠ "")) eqn:E.
  - apply andb_prop in E as [Et Hb]. apply bool_decide_eq_true in Hb. split.
    + intros <-. exists [], t, l. split_and!; [done..|]. by intros ? ? ?%elem_of_nil.
    + intros ([|[t1 b1] before] & t' & after & [= <- Hl] & Ht' & Hbef); [congruence|].
      destruct Hb. apply (Hbef t); [|done]. rewrite Hl. by apply elem_of_cons; left.
  - rewrite IH. split.
    + intros (before & t' & after & -> & Ht' & Hbef). exists ((t, b) :: before), t', after.
      split_and!; [done..|]. intros t'' b' [[= -> ->]|Hin]%elem_of_cons Hw; [|by eapply Hbef].
      rewrite Hw in E. simpl in E. by apply bool_decide_eq_false, dec_stable in E.
    + intros ([|[t1 b1] before] & t' & after & [= <- Hl] & Ht' & Hbef).
      * subst. rewrite Ht' in E. simpl in E. by apply bool_decide_eq_false in E.
      * exists before, t', after. split_and!; [done..|]. intros t'' b' Hin. apply Hbef.
        by apply elem_of_cons; right.
Qed.

Lemma with_filter_run f cluster rcp ms ips a :
  registrationMethodWithFilter f cluster rcp ms = Ok ips →
  a ∈ ips ↔ a ≠ "" ∧ ∃ n m, ms !! n = Some m ∧ f m = a.
Proof.
  unfold registrationMethodWithFilter. intros [= <-].
  setoid_rewrite <-(elem_of_go_range (A := Machine) 57 ms).
  assert (∀ (l : list (string * Machine)) acc, a ∈ foldl (λ validIPAddresses '(_, availableMachine),
      let ip := f availableMachine in
      if decide (ip ≠ "") then validIPAddresses ++ [ip] else validIPAddresses) acc l ↔
    a ∈ acc ∨ a ≠ "" ∧ ∃ n m, (n, m) ∈ l ∧ f m = a) as Hl.
  { induction l as [|[n m] l IH]; intros acc; simpl.
    - split; [by left|]. intros [?|(_ & n & m & Hin & _)]; [done|]. by apply elem_of_nil in Hin.
    - rewrite IH. setoid_rewrite elem_of_cons. case_decide as Hf.
      + rewrite elem_of_app, list_elem_of_singleton. naive_solver.
      + naive_solver. }
  rewrite Hl. split; [intros [?%elem_of_nil|?]; done|by right].
Qed.

(** The addresses of each registration method.  With a filter method an
    address is listed exactly when it is the first address of the wanted kinds of
    some machine; internal-first takes the first address of either kind in the
    order of the machine's status, so a machine that has an internal address can
    be registered under its external one.  The other methods list the address of
    the spec and the host of the endpoint. *)
Theorem NewRegistrationMethod_spec method f cluster rcp ms ips :
  NewRegistrationMethod method = Ok f → f cluster rcp ms = Ok ips →
  (method = "address" ∧ ips = [sp_RegistrationAddress (rcp_Spec rcp)]) ∨
  ((method = "control-plane-endpoint" ∨ method = "") ∧
     ips = [(cl_ControlPlaneEndpoint cluster).1] ∧ (cl_ControlPlaneEndpoint cluster).1 ≠ "") ∨
  ∃ wanted,
    (method = "internal-first" ∧ (∀ t, wanted t = true ↔ t = MachineInternalIP ∨ t = MachineExternalIP) ∨
     method = "internal-only-ips" ∧ (∀ t, wanted t = true ↔ t = MachineInternalIP) ∨
     method = "external-only-ips" ∧ (∀ t, wanted t = true ↔ t = MachineExternalIP)) ∧
    ∀ a, a ∈ ips ↔ a ≠ "" ∧ ∃ n m, ms !! n = Some m ∧ first_of wanted (mst_Addresses (m_Status m)) a.
Proof.
  unfold NewRegistrationMethod. intros Hf Hrun.
  assert (∀ wanted, registrationMethodWithFilter (λ m, first_address wanted (mst_Addresses (m_Status m)))
      cluster rcp ms = Ok ips →
    ∀ a, a ∈ ips ↔ a ≠ "" ∧ ∃ n m, ms !! n = Some m ∧ first_of wanted (mst_Addresses (m_Status m)) a) as Hfil.
  { intros wanted Hw a. rewrite (with_filter_run _ _ _ _ _ a Hw). split; intros (Ha & n & m & Hm & Hx);
      (split; [done|]); exists n, m; (split; [done|]); by apply first_address_spec. }
  repeat case_decide; simplify_eq; [right; right..|left|right; left].
  - eexists. split; [left|by apply Hfil, Hrun]. split; [done|]. intros t. simpl.
    rewrite orb_true_iff, !bool_decide_eq_true. done.
  - eexists. split; [right; left|by apply Hfil, Hrun]. split; [done|]. intros t. apply bool_decide_eq_true.
  - eexists. split; [right; right|by apply Hfil, Hrun]. split; [done|]. intros t. apply bool_decide_eq_true.
  - by injection Hrun.
  - revert Hrun. unfold registrationMethodControlPlaneEndpoint.
    destruct (cl_ControlPlaneEndpoint cluster) as [host port]. repeat case_decide; [done..|].
    by intros [= <-].
Qed.
End registration.

(** *** Evaluation: an external address listed first wins *)

Definition demo_addressed : Machine :=
  m_with_status (Build_MachineStatus "cp-1" [] [] None
    [("ExternalIP", "203.0.113.7"); ("InternalIP", "10.0.0.7")]) (demo_machine "m" "cp-1").

Lemma NewRegistrationMethod_spec_witness :
  ∃ ips, registrationMethodWithFilter filterInternalFirst demo_cluster (demo_rcp 3 true)
           {[ "m" := demo_addressed ]} = Ok ips ∧ "203.0.113.7" ∈ ips.
Proof.
  assert (∃ ips, registrationMethodWithFilter filterInternalFirst demo_cluster (demo_rcp 3 true)
    {[ "m" := demo_addressed ]} = Ok ips) as [ips Hips] by (eexists; reflexivity).
  exists ips. split; [exact Hips|].
  destruct (NewRegistrationMethod_spec "internal-first" _ _ _ _ _ eq_refl Hips)
    as [[? _]|[[[?|?] _]|(wanted & Hk & Hw)]]; [discriminate..|].
  destruct Hk as [[_ Hk]|[[? _]|[? _]]]; [|discriminate..].
  apply Hw. split; [discriminate|]. exists "m", demo_addressed.
  split; [reflexivity|]. exists [], "ExternalIP", [("InternalIP", "10.0.0.7")].
  split; [reflexivity|]. split; [apply Hk; by right|]. by intros t b ?%elem_of_nil.
Defined.
