(* ===== verification/Etcd.v ===== *)
(** * etcd: client, client generator, membership operations

    pkg/etcd/etcd.go, pkg/etcd/client_generator.go, pkg/etcd/util/util.go and
    pkg/rke2/workload_cluster_etcd.go.  An etcd client talks to the etcd pod of
    one node; everything it learns is an answer of the environment. *)

From Stdlib Require Import Ascii.
From stdpp Require Import base tactics option list gmap strings numbers.
From S2P Require Import Prelude Go Api Objects Libs World Demo.
Open Scope string_scope.
Open Scope list_scope.
Open Scope stdpp_scope.

(** [kerrors.NewAggregate]: nil for no errors. *)
Definition NewAggregate (errs : list error) : option error :=
  match errs with [] => None | _ => Some (EAgg errs) end.

(** [errors.Is(err, errEtcdNodeConnection)]: through wraps and aggregates. *)
Fixpoint is_connection_error (e : error) : bool :=
  match e with
  | EConnection => true
  | EWrap _ e | ERemote _ e => is_connection_error e
  | EAgg es => existsb is_connection_error es
  | _ => false
  end.

(** ** Members (pkg/etcd/etcd.go) *)

Record Member := {
  mem_ClusterID : Z; mem_ID : Z; mem_Name : string; mem_PeerURLs : list string;
  mem_ClientURLs : list string; mem_IsLearner : bool; mem_Alarms : list Z
}.

Definition pbMemberToMember (m : PbMember) : Member :=
  {| mem_ClusterID := 0%Z; mem_ID := pb_ID m; mem_Name := pb_Name m;
     mem_PeerURLs := pb_PeerURLs m; mem_ClientURLs := pb_ClientURLs m;
     mem_IsLearner := pb_IsLearner m; mem_Alarms := [] |}.

(** A [Client]: the endpoint it is connected to and the leader that endpoint
    reported when the client was created. *)
Record Client := { ec_Endpoint : string; ec_LeaderID : Z }.

(** ** util.go *)

Definition NodeNameFromMember (m : Member) : string :=
  match before_last "-"%char (mem_Name m) with
  | Some p => p
  | None => mem_Name m
  end.

Definition MemberForName (members : list Member) (name : string) : option Member :=
  List.find (λ m, Contains (mem_Name m) name) members.

Definition MemberNames (members : list Member) : list string := map mem_Name members.

Definition MemberEqual (members1 members2 : list Member) : bool :=
  let names1 : gset string := list_to_set (MemberNames members1) in
  let names2 : gset string := list_to_set (MemberNames members2) in
  bool_decide (names1 = names2).

Section client.
Context `{EV : Env}.

(** ** The client *)

Definition newEtcdClient (endpoint : string) : M Client :=
  leader ← wrap "failed to get etcd status" (api (CEtcdStatus endpoint));
  mret {| ec_Endpoint := endpoint; ec_LeaderID := leader |}.

(** [NewClient]; closing after a failed status call contributes its error. *)
Definition NewClient (endpoint : string) : M Client :=
  _ ← wrap "unable to init etcd client" (api (CEtcdDial endpoint));
  r ← try (newEtcdClient endpoint);
  match r with
  | inl c => mret c
  | inr err =>
      closed ← try (api (CEtcdClose endpoint));
      let errs := match closed with inl _ => [err] | inr e => [err; e] end in
      fail (EWrap "unable to create etcd client" (EAgg errs))
  end.

(** [defer client.Close()]: the error of closing is ignored. *)
Definition with_client {A} (c : Client) (m : M A) : M A :=
  finally m (λ o, _ ← try (api (CEtcdClose (ec_Endpoint c))); mret o).

Definition Alarms (c : Client) : M (list (Z * Z)) :=
  wrap "failed to get alarms for etcd cluster" (api (CEtcdAlarmList (ec_Endpoint c))).

Definition member_of (clusterID : Z) (alarms : list (Z * Z)) (m : PbMember) : Member :=
  let n := pbMemberToMember m in
  {| mem_ClusterID := clusterID; mem_ID := mem_ID n; mem_Name := mem_Name n;
     mem_PeerURLs := mem_PeerURLs n; mem_ClientURLs := mem_ClientURLs n;
     mem_IsLearner := mem_IsLearner n;
     mem_Alarms := mem_Alarms n ++ map snd (filter (λ a, a.1 = mem_ID n) alarms) |}.

Definition Members (c : Client) : M (list Member) :=
  response ← wrap "failed to get list of members for etcd cluster"
               (api (CEtcdMemberList (ec_Endpoint c)));
  alarms ← Alarms c;
  mret (map (member_of response.1 alarms) response.2).

Definition MoveLeader (c : Client) (newLeaderID : Z) : M unit :=
  wrap "failed to move etcd leader" (api (CEtcdMoveLeader (ec_Endpoint c) newLeaderID)).

(** Two operations that nothing calls. *)
Definition RemoveMember (c : Client) (id : Z) : M unit :=
  wrap "failed to remove member" (api (CEtcdMemberRemove (ec_Endpoint c) id)).
Definition UpdateMemberPeerURLs (c : Client) (id : Z) (peerURLs : list string) : M (list Member) :=
  response ← wrap "failed to update etcd member's peer list" (api (CEtcdMemberUpdate (ec_Endpoint c) id peerURLs));
  mret (map pbMemberToMember response).

(** ** The client generator *)

Definition staticPodName (component nodeName : string) : string :=
  component +:+ "-" +:+ nodeName.

Fixpoint first_available (names : list string) (errs : list error) : M Client :=
  match names with
  | [] =>
      fail (EWrap "could not establish a connection to any etcd node" (EAgg errs))
  | name :: names =>
      r ← try (NewClient (staticPodName "etcd" name));
      match r with
      | inl client => mret client
      | inr err => first_available names (errs ++ [err])
      end
  end.

Definition ForFirstAvailableNode (nodeNames : list string) : M Client :=
  match nodeNames with
  | [] => fail (EText "invalid argument: forLeader can't be called with an empty list of nodes")
  | _ => first_available nodeNames []
  end.

(** The node that hosts the leader, or the error saying there is none. *)
Definition leader_node (members : list Member) (leader : Z) (nodeNames : list string) :
    outcome string :=
  match List.find (λ m, bool_decide (mem_ID m = leader)) members with
  | Some m =>
      match List.find (λ name, Contains (mem_Name m) name) nodeNames with
      | Some n =>
          if decide (n = "") then
            Err (EText "couldn't find a corresponding Node in the cluster")
          else Ok n
      | None => Err (EText "couldn't find a corresponding Node in the cluster")
      end
  | None => Err (EText "couldn't find any matching member")
  end.

Definition getLeaderClient (nodeName : string) (nodeNames : list string) : M Client :=
  r ← try (ForFirstAvailableNode [nodeName]);
  match r with
  | inr err => fail (EAgg [err; EConnection])
  | inl client =>
      with_client client (
        r ← try (Members client);
        match r with
        | inr err => fail (EAgg [err; EConnection])
        | inl members =>
            node ← lift (leader_node members (ec_LeaderID client) nodeNames);
            ForFirstAvailableNode [node]
        end)
  end.

Fixpoint leader_via (names nodeNames : list string) (errs : list error) : M Client :=
  match names with
  | [] => fail (EWrap "could not establish a connection to the etcd leader" (EAgg errs))
  | nodeName :: names =>
      r ← try (getLeaderClient nodeName nodeNames);
      match r with
      | inl cl => mret cl
      | inr err =>
          if is_connection_error err then leader_via names nodeNames (errs ++ [err])
          else fail err
      end
  end.

Definition ForLeader (nodeNames : list string) : M Client :=
  match nodeNames with
  | [] => fail (EText "invalid argument: forLeader can't be called with an empty list of nodes")
  | _ => leader_via nodeNames nodeNames []
  end.
End client.

(** ** Membership operations of the workload cluster
    (pkg/rke2/workload_cluster_etcd.go) *)

Definition EtcdNodeRemoveAnnotation : string := "etcd.rke2.cattle.io/remove".
Definition EtcdNodeRemovedNodeNameAnnotation : string := "etcd.rke2.cattle.io/removed-node-name".

Section workload.
Context `{EV : Env}.

Definition getControlPlaneNodes : M (list Node) := api CListNodes.

(** The first node of the list with a given name. *)
Definition node_named (nodes : list Node) (name : string) : option Node :=
  List.find (λ n, bool_decide (n_Name n = name)) nodes.

Definition removeMemberForNode (w : Workload) (name : string) : M unit :=
  nodes ← wrap "getting control plane nodes" getControlPlaneNodes;
  match node_named nodes name with
  | Some node =>
      let a := <[EtcdNodeRemoveAnnotation := "true"]> (default ∅ (n_Annotations node)) in
      let node' := n_with_meta (om_with_annotations (Some a) (n_ObjectMeta node)) node in
      match wl_nodePatchHelpers w !! n_Name node with
      | Some before => wrap "patching node with etcd remove annotation" (api (CPatchNode before node'))
      | None => fail (EText "could not find patch helper for node")
      end
  | None => mret tt
  end.

Definition RemoveEtcdMemberForMachine (w : Workload) (machine : option Machine) : M unit :=
  match machine with
  | Some m => if NodeRef_IsDefined m then removeMemberForNode w (mst_NodeRef (m_Status m)) else mret tt
  | None => mret tt
  end.

Definition isMemberRemovedForNode (name : string) : M bool :=
  nodes ← wrap "getting control plane nodes" getControlPlaneNodes;
  match node_named nodes name with
  | Some node =>
      match n_Annotations node with
      | None => fail (EText "node is missing the etcd remove annotation")
      | Some a =>
          match a !! EtcdNodeRemovedNodeNameAnnotation with
          | None => mret false
          | Some removedNodeName => mret (bool_decide (removedNodeName ≠ ""))
          end
      end
  | None => mret false
  end.

Definition IsEtcdMemberSafelyRemovedForMachine (machine : option Machine) : M bool :=
  match machine with
  | Some m => if NodeRef_IsDefined m then isMemberRemovedForNode (mst_NodeRef (m_Status m)) else mret true
  | None => mret true
  end.

Definition ForwardEtcdLeadership (w : Workload) (machine leaderCandidate : option Machine) : M unit :=
  match machine with
  | None => mret tt
  | Some machine =>
      if NodeRef_IsDefined machine then
        match leaderCandidate with
        | None => fail (EText "leader candidate cannot be nil")
        | Some candidate =>
            if NodeRef_IsDefined candidate then
              if wl_etcd w then
                nodes ← wrap "failed to list control plane nodes" getControlPlaneNodes;
                etcdClient ← wrap "failed to create etcd client" (ForLeader (map n_Name nodes));
                with_client etcdClient (
                  members ← wrap "failed to list etcd members using etcd client" (Members etcdClient);
                  match MemberForName members (mst_NodeRef (m_Status machine)) with
                  | None => mret tt
                  | Some currentMember =>
                      if decide (mem_ID currentMember = ec_LeaderID etcdClient) then
                        match MemberForName members (mst_NodeRef (m_Status candidate)) with
                        | None => fail (EText "failed to get etcd member from node")
                        | Some nextLeader =>
                            wrap "failed to move leader" (MoveLeader etcdClient (mem_ID nextLeader))
                        end
                      else mret tt
                  end)
              else mret tt
            else fail (EText "leader has no node reference")
        end
      else mret tt
  end.

(** The node a member runs on, given the names of the nodes. *)
Definition member_node (nodeNames : list string) (m : Member) : string :=
  if decide (mem_Name m ∈ nodeNames) then mem_Name m else NodeNameFromMember m.

Definition EtcdMembers (w : Workload) : M (list string) :=
  if wl_etcd w then
    nodes ← wrap "failed to list control plane nodes" getControlPlaneNodes;
    let nodeNames := map n_Name nodes in
    etcdClient ← wrap "failed to create etcd client" (ForLeader nodeNames);
    with_client etcdClient (
      members ← wrap "failed to list etcd members using etcd client" (Members etcdClient);
      mret (map (member_node nodeNames) members))
  else mret [].
End workload.

(** ** Lemmas *)

(** A member of the node [n]: named after it, or after it and a suffix. *)
Definition member_of_node (m : Member) (n : string) : Prop :=
  mem_Name m = n ∨ ∃ suffix, free_of "-"%char suffix = true ∧ mem_Name m = n +:+ "-" +:+ suffix.

Lemma NodeNameFromMember_suffix m n suffix :
  free_of "-"%char suffix = true → mem_Name m = n +:+ "-" +:+ suffix → NodeNameFromMember m = n.
Proof.
  intros Hs Hn. unfold NodeNameFromMember. rewrite Hn.
  change ("-" +:+ suffix) with (String "-"%char suffix). by rewrite before_last_app.
Qed.

Lemma member_node_correct nodeNames m n :
  n ∈ nodeNames → member_of_node m n →
  (∀ n', n' ∈ nodeNames → mem_Name m = n' → n' = n) →
  member_node nodeNames m = n.
Proof.
  intros Hn Hm Huniq. unfold member_node. case_decide as Hd; [by apply Huniq|].
  destruct Hm as [Hm|(s & Hs & Hm)]; [congruence|]. by eapply NodeNameFromMember_suffix.
Qed.

Lemma member_of_node_Contains m n : member_of_node m n → Contains (mem_Name m) n = true.
Proof. intros [->|(s & _ & ->)]; [apply Contains_refl|apply Contains_prefix]. Qed.

(** When no node's name occurs in the name of another node's member,
    [MemberForName] finds the node's own member. *)
Lemma MemberForName_own members m n :
  m ∈ members → member_of_node m n →
  (∀ m', m' ∈ members → Contains (mem_Name m') n = true → m' = m) →
  MemberForName members n = Some m.
Proof.
  intros Hin Hm Hown. unfold MemberForName.
  destruct (List.find _ members) as [m'|] eqn:E.
  - apply List.find_some in E as [Hin' Hc]. apply list_elem_of_In in Hin'. f_equal. auto.
  - apply List.find_none with (x := m) in E; [|by apply list_elem_of_In].
    rewrite (member_of_node_Contains _ _ Hm) in E. done.
Qed.

Section etcd_calls.
Context `{EV : Env} (P : Call → Prop)
  (* the calls connecting to etcd and reading from it *)
  (Pread : ∀ c, match c with
                | CEtcdDial _ | CEtcdStatus _ | CEtcdMemberList _ | CEtcdAlarmList _
                | CEtcdClose _ | CListNodes => True
                | _ => False
                end → P c).

(** A client knows the leader its endpoint reported. *)
Definition honest (c : Client) : Prop :=
  ∃ t, ask t (CEtcdStatus (ec_Endpoint c)) = inr (ec_LeaderID c).

Lemma with_client_yields {A} (Q : A → Prop) c (m : M A) :
  yields P Q m → yields P Q (with_client c m).
Proof.
  intros Hm. apply yields_finally_keep; [done|]. intros o.
  eapply yields_bind; [apply yields_emits, emits_try, emits_api, Pread; done|].
  intros _ _. by apply yields_ret.
Qed.

Lemma NewClient_yields ep : yields P (λ c, honest c ∧ ec_Endpoint c = ep) (NewClient ep).
Proof.
  unfold NewClient. eapply yields_bind; [yields_call; by apply Pread|].
  intros _ _. eapply yields_bind.
  - apply yields_try. unfold newEtcdClient.
    eapply yields_bind; [yields_call; by apply Pread|].
    intros leader [t Ht]. apply (yields_ret P (λ c, honest c ∧ ec_Endpoint c = ep)).
    split; [by exists t|done].
  - intros [c|err] Hc; [by apply yields_ret, Hc|].
    eapply yields_bind; [apply yields_emits, emits_try, emits_api, Pread; done|].
    intros ? _. apply yields_fail.
Qed.

Lemma first_available_yields names errs :
  yields P (λ c, honest c ∧ ∃ n, n ∈ names ∧ ec_Endpoint c = staticPodName "etcd" n)
    (first_available names errs).
Proof.
  revert errs. induction names as [|n names IH]; intros errs; simpl; [apply yields_fail|].
  eapply yields_bind; [apply yields_try, NewClient_yields|]. intros [c|err] Hc.
  - apply yields_ret. destruct (Hc c eq_refl) as [? ?]. split; [done|]. exists n. set_solver.
  - eapply yields_mono; [|apply IH]. intros c [? (n' & ? & ?)]. split; [done|]. exists n'. set_solver.
Qed.

Lemma ForFirstAvailableNode_yields names :
  yields P (λ c, honest c ∧ ∃ n, n ∈ names ∧ ec_Endpoint c = staticPodName "etcd" n)
    (ForFirstAvailableNode names).
Proof.
  destruct names as [|n names]; [apply yields_fail|]. apply first_available_yields.
Qed.

(** What [Members] returns is the member list the endpoint answered with. *)
Definition members_of (ep : string) (ms : list Member) : Prop :=
  ∃ t cid alarms pbs, ask t (CEtcdMemberList ep) = inr (cid, pbs) ∧
    ms = map (member_of cid alarms) pbs.

Lemma Members_yields c : yields P (members_of (ec_Endpoint c)) (Members c).
Proof.
  unfold Members. eapply yields_bind; [yields_call; by apply Pread|].
  intros [cid pbs] [t Ht]. eapply yields_bind.
  - yields_call; by apply Pread.
  - intros alarms _. apply yields_ret. by exists t, cid, alarms, pbs.
Qed.

(** The leader's node as one of the nodes sees it. *)
Definition leads (n : string) (nodeNames : list string) : Prop :=
  n ∈ nodeNames ∧ ∃ ep ms leader m,
    members_of ep ms ∧ (∃ t, ask t (CEtcdStatus ep) = inr leader) ∧
    m ∈ ms ∧ mem_ID m = leader ∧ Contains (mem_Name m) n = true.

Lemma leader_node_Ok ms leader nodeNames n :
  leader_node ms leader nodeNames = Ok n →
  n ∈ nodeNames ∧ ∃ m, m ∈ ms ∧ mem_ID m = leader ∧ Contains (mem_Name m) n = true.
Proof.
  unfold leader_node. destruct (List.find _ ms) as [m|] eqn:Em; [|done].
  destruct (List.find _ nodeNames) as [n'|] eqn:En; [|done]. case_decide; [done|].
  intros [= ->]. apply List.find_some in Em as [Hm Hid], En as [Hn Hc].
  apply bool_decide_eq_true in Hid. apply list_elem_of_In in Hm. apply list_elem_of_In in Hn. eauto.
Qed.

Lemma getLeaderClient_yields name nodeNames :
  yields P (λ c, honest c ∧ ∃ n, leads n nodeNames ∧ ec_Endpoint c = staticPodName "etcd" n)
    (getLeaderClient name nodeNames).
Proof.
  unfold getLeaderClient. eapply yields_bind; [apply yields_try, ForFirstAvailableNode_yields|].
  intros [c|err] Hc; [|apply yields_fail]. destruct (Hc c eq_refl) as [[t Ht] _].
  apply with_client_yields. eapply yields_bind; [apply yields_try, Members_yields|].
  intros [ms|err] Hms; [|apply yields_fail]. specialize (Hms ms eq_refl).
  eapply yields_bind.
  - apply (yields_lift _ (λ n, leads n nodeNames)). intros n Hn.
    apply leader_node_Ok in Hn as [Hn (m & Hm & Hid & Hcon)].
    split; [done|]. exists (ec_Endpoint c), ms, (ec_LeaderID c), m. eauto 6.
  - intros n Hn. eapply yields_mono; [|apply ForFirstAvailableNode_yields].
    intros c' [? (n' & Hn' & ?)]. split; [done|]. exists n'.
    apply list_elem_of_singleton in Hn' as ->. done.
Qed.

Lemma leader_via_yields names nodeNames errs :
  yields P (λ c, honest c ∧ ∃ n, leads n nodeNames ∧ ec_Endpoint c = staticPodName "etcd" n)
    (leader_via names nodeNames errs).
Proof.
  revert errs. induction names as [|x l IH]; intros errs; simpl; [apply yields_fail|].
  eapply yields_bind; [apply yields_try, getLeaderClient_yields|].
  intros [c|err] Hc; [by apply yields_ret, Hc|].
  destruct (is_connection_error err); [apply IH|apply yields_fail].
Qed.

Lemma ForLeader_yields nodeNames :
  yields P (λ c, honest c ∧ ∃ n, leads n nodeNames ∧ ec_Endpoint c = staticPodName "etcd" n)
    (ForLeader nodeNames).
Proof.
  unfold ForLeader. destruct nodeNames as [|n ns]; [apply yields_fail|].
  apply leader_via_yields.
Qed.
End etcd_calls.

(** The calls that connect to etcd and read from it. *)
Definition reads_etcd (c : Call) : Prop :=
  match c with
  | CEtcdDial _ | CEtcdStatus _ | CEtcdMemberList _ | CEtcdAlarmList _ | CEtcdClose _ | CListNodes => True
  | _ => False
  end.

Lemma EtcdMembers_reads `{EV : Env} wl : emits reads_etcd (EtcdMembers wl).
Proof.
  assert (∀ c, match c with
               | CEtcdDial _ | CEtcdStatus _ | CEtcdMemberList _ | CEtcdAlarmList _
               | CEtcdClose _ | CListNodes => True
               | _ => False
               end → reads_etcd c) as Hread by (by intros []).
  unfold EtcdMembers, getControlPlaneNodes. destruct (wl_etcd wl); [|emits_auto].
  apply yields_emits. eapply yields_bind; [yields_call; done|]. intros nodes _.
  eapply yields_bind; [apply yields_wrap, ForLeader_yields, Hread|].
  intros cl _. apply with_client_yields; [done|].
  eapply yields_bind; [apply yields_wrap, Members_yields, Hread|]. intros ms _.
  by apply yields_ret.
Qed.

(** Nothing here touches the control plane in memory. *)
Section etcd_keeps.
Context `{EV : Env} {X : Type} (f : ControlPlane → X).

Lemma first_available_keeps names errs : keeps f (first_available names errs).
Proof.
  revert errs. induction names as [|n l IH]; intros errs; simpl; [auto with keeps|].
  unfold NewClient, newEtcdClient. keeps_auto.
Qed.
Lemma ForFirstAvailableNode_keeps names : keeps f (ForFirstAvailableNode names).
Proof. destruct names; [apply keeps_fail|apply first_available_keeps]. Qed.
Hint Resolve ForFirstAvailableNode_keeps : keeps.

Lemma getLeaderClient_keeps n ns : keeps f (getLeaderClient n ns).
Proof. unfold getLeaderClient, with_client, Members, Alarms. keeps_auto. Qed.
Hint Resolve getLeaderClient_keeps : keeps.

Lemma ForLeader_keeps ns : keeps f (ForLeader ns).
Proof.
  assert (∀ l errs, keeps f (leader_via l ns errs)) as Hl.
  { induction l as [|x l IH]; intros errs; simpl; [auto with keeps|]. keeps_auto. }
  unfold ForLeader. destruct ns; [apply keeps_fail|apply Hl].
Qed.
Hint Resolve ForLeader_keeps : keeps.

Lemma EtcdMembers_keeps wl : keeps f (EtcdMembers wl).
Proof. unfold EtcdMembers, getControlPlaneNodes, with_client, Members, Alarms. keeps_auto. Qed.

Lemma ForwardEtcdLeadership_keeps wl m k : keeps f (ForwardEtcdLeadership wl m k).
Proof.
  unfold ForwardEtcdLeadership, getControlPlaneNodes, with_client, Members, Alarms, MoveLeader.
  keeps_auto.
Qed.
End etcd_keeps.
#[export] Hint Resolve EtcdMembers_keeps ForwardEtcdLeadership_keeps : keeps.

(** ** Claims *)

Section etcd_claims.
Context `{EV : Env}.

(** Moving the leadership, the only call that changes etcd. *)
Definition is_move (c : Call) : Prop := match c with CEtcdMoveLeader _ _ => True | _ => False end.

(** The move [c] is justified: the endpoint it goes to reported a leader, the
    first member whose name contains the machine's node name is that leader,
    and the target is the first member whose name contains the candidate's. *)
Definition justified_move (machine candidate : option Machine) (c : Call) : Prop :=
  match c with
  | CEtcdMoveLeader ep id =>
      ∃ m k ms leader cur next, machine = Some m ∧ candidate = Some k ∧
        members_of ep ms ∧ (∃ t, ask t (CEtcdStatus ep) = inr leader) ∧
        MemberForName ms (mst_NodeRef (m_Status m)) = Some cur ∧ mem_ID cur = leader ∧
        MemberForName ms (mst_NodeRef (m_Status k)) = Some next ∧ id = mem_ID next
  | CEtcdDial _ | CEtcdStatus _ | CEtcdMemberList _ | CEtcdAlarmList _
  | CEtcdClose _ | CListNodes => True
  | _ => False
  end.

Lemma ForwardEtcdLeadership_calls wl machine candidate :
  emits (justified_move machine candidate) (ForwardEtcdLeadership wl machine candidate).
Proof.
  assert (∀ c, match c with
               | CEtcdDial _ | CEtcdStatus _ | CEtcdMemberList _ | CEtcdAlarmList _
               | CEtcdClose _ | CListNodes => True
               | _ => False
               end → justified_move machine candidate c) as Hread by (by intros []).
  unfold ForwardEtcdLeadership, getControlPlaneNodes. destruct machine as [m|]; [|emits_auto].
  destruct (NodeRef_IsDefined m); [|emits_auto]. destruct candidate as [k|]; [|emits_auto].
  destruct (NodeRef_IsDefined k); [|emits_auto]. destruct (wl_etcd wl); [|emits_auto].
  apply yields_emits. eapply yields_bind; [yields_call; done|]. intros nodes _.
  eapply yields_bind; [apply yields_wrap, ForLeader_yields, Hread|].
  intros c [[t Ht] _]. apply with_client_yields; [done|].
  eapply yields_bind; [apply yields_wrap, Members_yields, Hread|]. intros ms Hms.
  destruct (MemberForName ms (mst_NodeRef (m_Status m))) as [cur|] eqn:Ecur;
    [|by apply yields_ret].
  case_decide as Hl; [|by apply yields_ret].
  destruct (MemberForName ms (mst_NodeRef (m_Status k))) as [next|] eqn:Enext;
    [|apply yields_fail].
  apply yields_emits, emits_wrap. unfold MoveLeader. apply emits_wrap.
  refine (emits_api _ (CEtcdMoveLeader _ _) _).
  exists m, k, ms, (ec_LeaderID c), cur, next. eauto 10.
Qed.


(** The names [EtcdMembers] returns are the nodes of the members: if every
    member etcd lists belongs to one of the listed nodes ([owner]), being named
    after it with or without a suffix, the result is the list of those nodes,
    one per member. *)
Theorem EtcdMembers_nodes wl w names w' :
  wl_etcd wl = true → EtcdMembers wl w = (Ok names, w') →
  ∃ t nodes ep ms, ask t CListNodes = inr nodes ∧ members_of ep ms ∧
    ∀ owner : Member → string,
      (∀ m, m ∈ ms → owner m ∈ map n_Name nodes ∧ member_of_node m (owner m) ∧
         (mem_Name m ∈ map n_Name nodes → mem_Name m = owner m)) →
      names = map owner ms.
Proof.
  intros Hwl Hrun. pose (P := λ _ : Call, True).
  assert (yields P (λ names, ∃ t nodes ep ms, ask t CListNodes = inr nodes ∧ members_of ep ms ∧
            names = map (member_node (map n_Name nodes)) ms) (EtcdMembers wl)) as Hy.
  { unfold EtcdMembers, getControlPlaneNodes. rewrite Hwl. eapply yields_bind; [yields_call; done|].
    intros nodes [t Ht]. eapply yields_bind; [by apply yields_wrap, ForLeader_yields|].
    intros c _. apply with_client_yields; [done|].
    eapply yields_bind; [by apply yields_wrap, Members_yields|].
    intros ms Hms. apply yields_ret. eauto 8. }
  destruct (Hy w) as (_ & _ & _ & Hn). rewrite Hrun in Hn.
  destruct (Hn names eq_refl) as (t & nodes & ep & ms & Ht & Hms & ->).
  exists t, nodes, ep, ms. split_and!; [done..|]. intros owner Howner.
  apply map_ext_in. intros m Hm. apply list_elem_of_In in Hm.
  destruct (Howner m Hm) as (Hin & Hof & Hex).
  eapply member_node_correct; [done..|]. intros n' Hn' <-. by apply Hex.
Qed.
End etcd_claims.

(** ** A concrete etcd cluster

    Nodes cp-1, cp-10 and cp-2; the member of cp-10 leads. *)

Definition demo_pb (id : Z) (name : string) : PbMember := Build_PbMember id name [] [] false.

Definition demo_etcd : Env := λ _ c,
  match c with
  | CListNodes => inr [demo_node "cp-1"; demo_node "cp-10"; demo_node "cp-2"]
  | CEtcdDial _ | CEtcdClose _ | CEtcdMoveLeader _ _ => inr tt
  | CEtcdStatus _ => inr 10%Z
  | CEtcdMemberList _ =>
      inr (7%Z, [demo_pb 10 "cp-10-0aa1"; demo_pb 1 "cp-1-0bb2"; demo_pb 2 "cp-2"])
  | CEtcdAlarmList _ => inr []
  | _ => inl (EText "not reachable")
  end.

Definition demo_etcd_world : World := demo_world (demo_rcp 3 true) [].

Lemma EtcdMembers_nodes_witness :
  ∃ t nodes ep ms, @ask demo_etcd t CListNodes = inr nodes ∧ @members_of demo_etcd ep ms ∧
    ∀ owner : Member → string,
      (∀ m, m ∈ ms → owner m ∈ map n_Name nodes ∧ member_of_node m (owner m) ∧
         (mem_Name m ∈ map n_Name nodes → mem_Name m = owner m)) →
      ["cp-10"; "cp-1"; "cp-2"] = map owner ms.
Proof.
  apply (EtcdMembers_nodes (EV := demo_etcd) demo_workload demo_etcd_world _
           (EtcdMembers (EV := demo_etcd) demo_workload demo_etcd_world).2).
  - reflexivity.
  - vm_compute. reflexivity.
Defined.

(** Node names are matched by containment, so the member of cp-10 is taken
    for that of cp-1: forwarding the leadership away from the machine on cp-1,
    which does not lead, moves the leadership (of cp-10) to cp-2; and the client
    that is meant to talk to the leader talks to cp-1. *)
Theorem ForwardEtcdLeadership_confused :
  let run := ForwardEtcdLeadership (EV := demo_etcd) demo_workload
               (Some (demo_machine "m1" "cp-1")) (Some (demo_machine "m2" "cp-2"))
               demo_etcd_world in
  run.1 = Ok tt ∧
  CEtcdMoveLeader "etcd-cp-1" 2 ∈ w_calls run.2 ∧
  MemberForName (map (member_of 7 []) [demo_pb 10 "cp-10-0aa1"; demo_pb 1 "cp-1-0bb2"]) "cp-1" =
    Some (member_of 7 [] (demo_pb 10 "cp-10-0aa1")).
Proof. cbn zeta. split_and!; [reflexivity| |reflexivity]. vm_compute. set_solver. Qed.
