(* ===== verification/Desired.v ===== *)
(** * Desired objects, and whether a machine matches them

    pkg/rke2/desiredstate/desired_state.go computes the Machine, RKE2Config and
    InfraMachine a control plane asks for; pkg/rke2/machine_filters.go compares
    what exists with what is asked for. *)

From Stdlib Require Import Ascii.
From stdpp Require Import base tactics option list gmap strings numbers.
From S2P Require Import Prelude Go Api Objects Libs World Demo.
Open Scope string_scope.
Open Scope list_scope.
Open Scope stdpp_scope.

(** ** encoding/json on [RKE2ServerConfig]

    Every field carries [omitempty]: an empty slice or map is not written, and
    reading it back gives nil. *)

Definition omit_list {A} (s : slice A) : slice A :=
  match s with Some [] => None | s => s end.
Definition omit_map (m : strmap) : strmap :=
  match m with Some m => if decide (m = ∅) then None else Some m | None => None end.
Definition omit_component (c : ComponentConfig) : ComponentConfig :=
  {| cc_ExtraEnv := omit_map (cc_ExtraEnv c); cc_ExtraArgs := omit_list (cc_ExtraArgs c);
     cc_ExtraMounts := omit_map (cc_ExtraMounts c); cc_OverrideImage := cc_OverrideImage c |}.
Definition omit_empty (s : RKE2ServerConfig) : RKE2ServerConfig :=
  {| sc_AuditPolicySecret := sc_AuditPolicySecret s;
     sc_BindAddress := sc_BindAddress s;
     sc_AdvertiseAddress := sc_AdvertiseAddress s;
     sc_TLSSan := omit_list (sc_TLSSan s);
     sc_ServiceNodePortRange := sc_ServiceNodePortRange s;
     sc_ClusterDNS := sc_ClusterDNS s;
     sc_ClusterDomain := sc_ClusterDomain s;
     sc_DisableComponents :=
       {| dc_KubernetesComponents := omit_list (dc_KubernetesComponents (sc_DisableComponents s));
          dc_PluginComponents := omit_list (dc_PluginComponents (sc_DisableComponents s)) |};
     sc_CNI := sc_CNI s;
     sc_CNIMultusEnable := sc_CNIMultusEnable s;
     sc_IngressController := omit_list (sc_IngressController s);
     sc_PauseImage := sc_PauseImage s;
     sc_Etcd :=
       {| ec_ExposeMetrics := ec_ExposeMetrics (sc_Etcd s);
          ec_BackupConfig := ec_BackupConfig (sc_Etcd s);
          ec_CustomConfig := omit_component <$> ec_CustomConfig (sc_Etcd s) |};
     sc_SecretsEncryptionProvider := sc_SecretsEncryptionProvider s;
     sc_KubeAPIServer := omit_component <$> sc_KubeAPIServer s;
     sc_KubeControllerManager := omit_component <$> sc_KubeControllerManager s;
     sc_KubeScheduler := omit_component <$> sc_KubeScheduler s;
     sc_CloudControllerManager := omit_component <$> sc_CloudControllerManager s;
     sc_CloudProviderName := sc_CloudProviderName s;
     sc_CloudProviderConfigMap := sc_CloudProviderConfigMap s;
     sc_SupervisorMetrics := sc_SupervisorMetrics s;
     sc_EmbeddedRegistry := sc_EmbeddedRegistry s;
     sc_ExternalDatastoreSecret := sc_ExternalDatastoreSecret s |}.

(** [json.Unmarshal] into a pointer: the JSON [null] gives nil. *)
Class ServerJson := {
  json_MarshalServer : RKE2ServerConfig → outcome string;
  json_UnmarshalServer : string → outcome (option RKE2ServerConfig);
  server_json s : ∃ b, json_MarshalServer s = Ok b ∧
                       json_UnmarshalServer b = Ok (Some (omit_empty s))
}.

(** The zero value of the struct. *)
Definition ServerConfig_zero : RKE2ServerConfig :=
  Build_RKE2ServerConfig None "" "" None "" "" "" (Build_DisableComponents None None) "" false
    None "" (Build_EtcdConfig false (Build_EtcdBackupConfig None "" "" "" "" None) None) None
    None None None None "" None false false None.

Section desired.
Context `{CapiConsts, MetaLib, ServerJson, EV : Env}.

(** ** desired_state.go *)

Definition ControlPlaneMachineLabels (rcp : RKE2ControlPlane) (clusterName : string) :
    gmap string string :=
  <[MachineControlPlaneNameLabel := rcp_Name rcp]>
  (<[MachineControlPlaneLabel := ""]>
  (<[ClusterNameLabel := clusterName]>
  (map_copy (mtpl_Labels (sp_MachineTemplate (rcp_Spec rcp))) ∅))).

Definition ControlPlaneMachineAnnotations (rcp : RKE2ControlPlane) : gmap string string :=
  map_copy (mtpl_Annotations (sp_MachineTemplate (rcp_Spec rcp))) ∅.

Definition MachineStatus_zero : MachineStatus := Build_MachineStatus "" [] [] None [].

Definition ComputeDesiredMachine (rcp : RKE2ControlPlane) (cluster : Cluster)
    (infraRef bootstrapRef : ContractVersionedObjectReference) (failureDomain : string)
    (existingMachine : option Machine) : M Machine :=
  '(machineName, machineUID, version, annotations) ←
    match existingMachine with
    | None =>
        name ← fresh_name (rcp_Name rcp +:+ "-");
        serverConfig ← wrap "failed to marshal server configuration"
                         (lift (json_MarshalServer (sp_ServerConfig (rcp_Spec rcp))));
        mret (name, "", GetDesiredVersion rcp,
              <[PreTerminateHookCleanupAnnotation := ""]>
              (<[RKE2ServerConfigurationAnnotation := serverConfig]> (∅ : gmap string string)))
    | Some m =>
        mret (m_Name m, om_UID (m_ObjectMeta m), msp_Version (m_Spec m),
              match map_get (m_Annotations m) RKE2ServerConfigurationAnnotation with
              | Some serverConfig => {[ RKE2ServerConfigurationAnnotation := serverConfig ]}
              | None => ∅
              end)
    end;
  let annotations' :=
    map_copy (Some annotations)
      (map_copy (mtpl_Annotations (sp_MachineTemplate (rcp_Spec rcp))) ∅) in
  mret
    {| m_APIVersion := clusterv1_GroupVersion; m_Kind := "Machine";
       m_ObjectMeta :=
         {| om_Name := machineName; om_Namespace := rcp_Namespace rcp; om_UID := machineUID;
            om_Labels := Some (ControlPlaneMachineLabels rcp (cl_Name cluster));
            om_Annotations := Some annotations';
            om_OwnerReferences := [NewControllerRef rcp]; om_Finalizers := [];
            om_CreationTimestamp := 0%Z; om_DeletionTimestamp := None |};
       m_Spec :=
         {| msp_ClusterName := cl_Name cluster; msp_ConfigRef := bootstrapRef;
            msp_DataSecretName := None; msp_InfrastructureRef := infraRef;
            msp_Version := version; msp_ProviderID := ""; msp_FailureDomain := failureDomain;
            msp_Deletion := template_deletion rcp; msp_Taints := template_taints rcp |};
       m_Status := MachineStatus_zero |}.

(** An owner reference to the control plane without the controller flag. *)
Definition rcp_owner (rcp : RKE2ControlPlane) : OwnerReference :=
  {| ow_APIVersion := controlplanev1_GroupVersion; ow_Kind := "RKE2ControlPlane";
     ow_Name := rcp_Name rcp; ow_UID := om_UID (rcp_ObjectMeta rcp);
     ow_Controller := None; ow_BlockOwnerDeletion := None |}.

(** Whether the object is not yet owned by a Machine. *)
Definition unowned (refs : option (list OwnerReference)) : bool :=
  match refs with
  | None => true
  | Some refs => negb (HasOwner refs clusterv1_GroupVersion ["Machine"])
  end.

Definition ConfigStatus_zero : RKE2ConfigStatus := Build_RKE2ConfigStatus [] None None 0%Z.

Definition ComputeDesiredRKE2Config (rcp : RKE2ControlPlane) (cluster : Cluster)
    (name : string) (existing : option RKE2Config) : RKE2Config :=
  let ownerReferences :=
    if unowned (om_OwnerReferences ∘ cfg_ObjectMeta <$> existing) then [rcp_owner rcp] else [] in
  {| cfg_APIVersion := bootstrapv1_GroupVersion; cfg_Kind := "RKE2Config";
     cfg_ObjectMeta :=
       {| om_Name := match existing with Some c => cfg_Name c | None => name end;
          om_Namespace := rcp_Namespace rcp;
          om_UID := match existing with Some c => om_UID (cfg_ObjectMeta c) | None => "" end;
          om_Labels := Some (ControlPlaneMachineLabels rcp (cl_Name cluster));
          om_Annotations := Some (ControlPlaneMachineAnnotations rcp);
          om_OwnerReferences := ownerReferences; om_Finalizers := [];
          om_CreationTimestamp := 0%Z; om_DeletionTimestamp := None |};
     cfg_Spec := sp_RKE2ConfigSpec (rcp_Spec rcp);
     cfg_Status := ConfigStatus_zero |}.

Definition un_with_meta (o : ObjectMeta) (u : Unstructured) : Unstructured :=
  Build_Unstructured (un_APIVersion u) (un_Kind u) o (un_Content u).
Definition om_with_name_uid (name uid : string) (o : ObjectMeta) : ObjectMeta :=
  Build_ObjectMeta name (om_Namespace o) uid (om_Labels o) (om_Annotations o)
    (om_OwnerReferences o) (om_Finalizers o) (om_CreationTimestamp o) (om_DeletionTimestamp o).

Definition ComputeDesiredInfraMachine (rcp : RKE2ControlPlane) (cluster : Cluster)
    (name : string) (existing : option Unstructured) : M Unstructured :=
  let ownerReference :=
    if unowned (om_OwnerReferences ∘ un_ObjectMeta <$> existing) then Some (rcp_owner rcp) else None in
  let infraRef := template_infra_ref rcp in
  infraMachine ← wrap "failed to compute desired InfraMachine" (
    apiVersion ← api (CGetAPIVersion (cv_APIGroup infraRef) (cv_Kind infraRef));
    template ← api (CGetTemplate apiVersion (cv_Kind infraRef) (rcp_Namespace rcp) (cv_Name infraRef));
    api (CGenerateTemplate template name ownerReference
           (ControlPlaneMachineLabels rcp (cl_Name cluster)) (ControlPlaneMachineAnnotations rcp)));
  mret (match existing with
        | Some u => un_with_meta (om_with_name_uid (om_Name (un_ObjectMeta u))
                      (om_UID (un_ObjectMeta u)) (un_ObjectMeta infraMachine)) infraMachine
        | None => infraMachine
        end).
End desired.

(** ** machine_filters.go *)

Section filters.
Context `{CapiConsts, ServerJson}.

Definition matchServerConfig (rcp : RKE2ControlPlane) (machine : Machine) : bool :=
  match map_get (m_Annotations machine) RKE2ServerConfigurationAnnotation with
  | None => true
  | Some machineServerConfigStr =>
      match json_UnmarshalServer machineServerConfigStr with
      | Ok machineServerConfig =>
          let machineServerConfig := default ServerConfig_zero machineServerConfig in
          let rcpServerConfig :=
            if decide (sp_ServerConfig (rcp_Spec rcp) = ServerConfig_zero)
            then ServerConfig_zero else sp_ServerConfig (rcp_Spec rcp) in
          bool_decide (machineServerConfig = rcpServerConfig)
      | _ => false
      end
  end.

Definition turtlesAnnotation : string := "cluster-api.cattle.io/turtles-system-agent".
Definition turtlesFiles : list string :=
  ["/etc/rancher/agent/connect-info-config.json"; "/opt/system-agent-install.sh";
   "/etc/rancher/agent/config.yaml"].
Definition turtlesCommand : string := "sh /opt/system-agent-install.sh".

(** Drop what the Rancher Turtles webhook injected; nothing left becomes nil. *)
Definition strip_turtles (s : RKE2ConfigSpec) : RKE2ConfigSpec :=
  let files := filter (λ f, f_Path f ∉ turtlesFiles) (elems (cs_Files s)) in
  let cmds := filter (λ c, c ≠ turtlesCommand) (elems (cs_PostRKE2Commands s)) in
  {| cs_Files := match files with [] => None | _ => Some files end;
     cs_PreRKE2Commands := cs_PreRKE2Commands s;
     cs_PostRKE2Commands := match cmds with [] => None | _ => Some cmds end;
     cs_AgentConfig := cs_AgentConfig s;
     cs_PrivateRegistriesConfig := cs_PrivateRegistriesConfig s;
     cs_GzipUserData := cs_GzipUserData s |}.

Definition cfg_with_spec (s : RKE2ConfigSpec) (c : RKE2Config) : RKE2Config :=
  Build_RKE2Config (cfg_APIVersion c) (cfg_Kind c) (cfg_ObjectMeta c) s (cfg_Status c).

(** The configuration is compared after stripping, and stripping happens in
    place: the map holds the stripped configuration from then on. *)
Definition matchesRKE2BootstrapConfig (machineConfigs : gmap string RKE2Config)
    (rcp : RKE2ControlPlane) (machine : Machine) : bool * gmap string RKE2Config :=
  if matchServerConfig rcp machine then
    if Ref_IsDefined (msp_ConfigRef (m_Spec machine)) then
      match machineConfigs !! m_Name machine with
      | None => (true, machineConfigs)
      | Some machineConfig =>
          let machineConfig :=
            match map_get (om_Annotations (cfg_ObjectMeta machineConfig)) turtlesAnnotation with
            | Some _ => cfg_with_spec (strip_turtles (cfg_Spec machineConfig)) machineConfig
            | None => machineConfig
            end in
          (bool_decide (cfg_Spec machineConfig = sp_RKE2ConfigSpec (rcp_Spec rcp)),
           <[m_Name machine := machineConfig]> machineConfigs)
      end
    else (true, machineConfigs)
  else (false, machineConfigs).

(** [schema.GroupKind.String()]: "Kind.group", or the kind alone. *)
Definition GroupKind_String (r : ContractVersionedObjectReference) : string :=
  if decide (cv_APIGroup r = "") then cv_Kind r else cv_Kind r +:+ "." +:+ cv_APIGroup r.

Definition matchesTemplateClonedFrom (infraConfigs : gmap string Unstructured)
    (rcp : RKE2ControlPlane) (machine : Machine) : bool :=
  match infraConfigs !! m_Name machine with
  | None => true
  | Some infraObj =>
      let a := om_Annotations (un_ObjectMeta infraObj) in
      match map_get a TemplateClonedFromNameAnnotation,
            map_get a TemplateClonedFromGroupKindAnnotation with
      | Some clonedFromName, Some clonedFromGroupKind =>
          if decide (clonedFromName ≠ cv_Name (template_infra_ref rcp)) then false
          else if decide (clonedFromGroupKind ≠ GroupKind_String (template_infra_ref rcp)) then false
          else true
      | _, _ => true
      end
  end.

(** What the three filters ask of a machine, as propositions. *)
Definition server_config_ok (rcp : RKE2ControlPlane) (m : Machine) : Prop :=
  ∀ s, map_get (m_Annotations m) RKE2ServerConfigurationAnnotation = Some s →
  ∃ sc, json_UnmarshalServer s = Ok sc ∧
        default ServerConfig_zero sc = sp_ServerConfig (rcp_Spec rcp).

Lemma matchServerConfig_iff rcp m : matchServerConfig rcp m = true ↔ server_config_ok rcp m.
Proof.
  unfold matchServerConfig, server_config_ok.
  destruct (map_get _ _) as [s|]; [|by split].
  assert ((if decide (sp_ServerConfig (rcp_Spec rcp) = ServerConfig_zero)
           then ServerConfig_zero else sp_ServerConfig (rcp_Spec rcp)) =
          sp_ServerConfig (rcp_Spec rcp)) as -> by (by case_decide).
  destruct (json_UnmarshalServer s) as [sc|e|p] eqn:E.
  - rewrite bool_decide_eq_true. split.
    + intros Hd s' [= <-]. eauto.
    + intros Hs. destruct (Hs s eq_refl) as (sc' & Hsc & Hd). congruence.
  - split; [done|]. intros Hs. destruct (Hs s eq_refl) as (? & ? & _). congruence.
  - split; [done|]. intros Hs. destruct (Hs s eq_refl) as (? & ? & _). congruence.
Qed.

Lemma omit_list_fix {A} (s : slice A) : omit_list s = s ↔ s ≠ Some [].
Proof. destruct s as [[|]|]; simpl; split; congruence. Qed.
End filters.

(** ** Claims *)

Section desired_claims.
Context `{CapiConsts, MetaLib, ServerJson, EV : Env}.

(** The server configuration annotation [computeDesiredMachine] writes on a new
    machine. *)
Definition fresh_server_annotation (rcp : RKE2ControlPlane) (m : Machine) : Prop :=
  ∃ b, json_MarshalServer (sp_ServerConfig (rcp_Spec rcp)) = Ok b ∧
       map_get (m_Annotations m) RKE2ServerConfigurationAnnotation = Some b.

(** A machine created from a control plane matches its server configuration
    exactly when that configuration has no field that is an empty, non-nil
    slice or map: such a field is dropped by the annotation's JSON and the
    comparison then sees a difference, so every machine of such a control plane
    is out of date from the start. *)
Theorem fresh_machine_matches_server_config rcp m :
  fresh_server_annotation rcp m →
  matchServerConfig rcp m = true ↔
  omit_empty (sp_ServerConfig (rcp_Spec rcp)) = sp_ServerConfig (rcp_Spec rcp).
Proof.
  intros (b & Hb & Hm). rewrite matchServerConfig_iff. unfold server_config_ok.
  destruct (server_json (sp_ServerConfig (rcp_Spec rcp))) as (b' & Hb' & Hu).
  assert (b' = b) as -> by congruence. rewrite Hm. split.
  - intros Hs. destruct (Hs b eq_refl) as (sc & Hsc & Hd). rewrite Hu in Hsc.
    injection Hsc as <-. exact Hd.
  - intros Ho s [= <-]. eexists. split; [exact Hu|]. exact Ho.
Qed.
End desired_claims.

(** ** An executable encoding of server configurations

    Any injective encoding serves: bits of stdpp's [encode]. *)

#[local] Instance ObjectReference_countable : Countable ObjectReference.
Proof.
  refine (inj_countable' (λ r, (or_Kind r, or_Namespace r, or_Name r))
            (λ '(a, b, c), Build_ObjectReference a b c) _). by intros [].
Defined.
#[local] Instance ComponentConfig_countable : Countable ComponentConfig.
Proof.
  refine (inj_countable'
            (λ r, ((cc_ExtraEnv r, cc_ExtraArgs r), (cc_ExtraMounts r, cc_OverrideImage r)))
            (λ '((a, b), (c, d)), Build_ComponentConfig a b c d) _). by intros [].
Defined.
#[local] Instance EtcdS3_countable : Countable EtcdS3.
Proof.
  refine (inj_countable'
            (λ r, ((s3_Endpoint r, s3_EndpointCASecret r), (s3_EnforceSSLVerify r, s3_CredentialSecret r),
                   (s3_Bucket r, s3_Region r, s3_Folder r)))
            (λ '((a, b), (c, d), (e, f, g)), Build_EtcdS3 a b c d e f g) _). by intros [].
Defined.
#[local] Instance EtcdBackupConfig_countable : Countable EtcdBackupConfig.
Proof.
  refine (inj_countable'
            (λ r, ((eb_DisableAutomaticSnapshots r, eb_SnapshotName r, eb_ScheduleCron r),
                   (eb_Retention r, eb_Directory r, eb_S3 r)))
            (λ '((a, b, c), (d, e, f)), Build_EtcdBackupConfig a b c d e f) _). by intros [].
Defined.
#[local] Instance EtcdConfig_countable : Countable EtcdConfig.
Proof.
  refine (inj_countable' (λ r, (ec_ExposeMetrics r, ec_BackupConfig r, ec_CustomConfig r))
            (λ '(a, b, c), Build_EtcdConfig a b c) _). by intros [].
Defined.
#[local] Instance SecretsEncryption_countable : Countable SecretsEncryption.
Proof.
  refine (inj_countable' (λ r, (se_EncryptionKeySecret r, se_Provider r))
            (λ '(a, b), Build_SecretsEncryption a b) _). by intros [].
Defined.
#[local] Instance DisableComponents_countable : Countable DisableComponents.
Proof.
  refine (inj_countable' (λ r, (dc_KubernetesComponents r, dc_PluginComponents r))
            (λ '(a, b), Build_DisableComponents a b) _). by intros [].
Defined.
#[local] Instance RKE2ServerConfig_countable : Countable RKE2ServerConfig.
Proof.
  refine (inj_countable'
    (λ r, (((sc_AuditPolicySecret r, sc_BindAddress r), (sc_AdvertiseAddress r, sc_TLSSan r),
            (sc_ServiceNodePortRange r, sc_ClusterDNS r)),
           ((sc_ClusterDomain r, sc_DisableComponents r), (sc_CNI r, sc_CNIMultusEnable r),
            (sc_IngressController r, sc_PauseImage r)),
           ((sc_Etcd r, sc_SecretsEncryptionProvider r), (sc_KubeAPIServer r, sc_KubeControllerManager r),
            (sc_KubeScheduler r, sc_CloudControllerManager r)),
           ((sc_CloudProviderName r, sc_CloudProviderConfigMap r),
            (sc_SupervisorMetrics r, sc_EmbeddedRegistry r), sc_ExternalDatastoreSecret r)))
    (λ '(((a, b), (c, d), (e, f)), ((g, h), (i, j), (k, l)), ((m, n), (o, p), (q, r)),
         ((s, t), (u, v), w)),
       Build_RKE2ServerConfig a b c d e f g h i j k l m n o p q r s t u v w) _). by intros [].
Defined.

Fixpoint pos_bits (p : positive) : string :=
  match p with
  | xH => ""
  | xO p => String "0"%char (pos_bits p)
  | xI p => String "1"%char (pos_bits p)
  end.
Fixpoint bits_pos (s : string) : positive :=
  match s with
  | EmptyString => xH
  | String a s => if decide (a = "0"%char) then xO (bits_pos s) else xI (bits_pos s)
  end.
Lemma bits_pos_bits p : bits_pos (pos_bits p) = p.
Proof. induction p as [p IH|p IH|]; simpl; [by rewrite IH..|done]. Qed.

#[refine] Instance server_json_bits : ServerJson := {
  json_MarshalServer s := Ok (pos_bits (encode (omit_empty s)));
  json_UnmarshalServer b := Ok (decode (bits_pos b))
}.
Proof. intros s. eexists. split; [done|]. by rewrite bits_pos_bits, decode_encode. Defined.

Definition demo_annotated : Machine :=
  m_with_annotations
    (Some {[ RKE2ServerConfigurationAnnotation := pos_bits (encode (omit_empty demo_server_config)) ]})
    (demo_machine "m1" "cp-1").

Lemma fresh_machine_matches_server_config_witness :
  matchServerConfig (demo_rcp 3 true) demo_annotated = true.
Proof.
  apply (fresh_machine_matches_server_config (demo_rcp 3 true) demo_annotated).
  - eexists. split; reflexivity.
  - reflexivity.
Defined.
