(* ===== verification/ControlPlane.v ===== *)
(** * The control plane (pkg/rke2/control_plane.go)

    Selections of machines, the order of deletions, failure domains, whether a
    machine is up to date, the construction of the in-memory control plane, and
    the calls that keep machines and the infrastructure template in step. *)

From Stdlib Require Import Ascii.
From stdpp Require Import base tactics option list gmap strings numbers sorting.
From S2P Require Import Prelude Go Api Objects Libs World Hooks Etcd Desired Demo.
Open Scope string_scope.
Open Scope list_scope.
Open Scope stdpp_scope.

Section selections.
Context `{CapiConsts, CollLib, SetsLib, GoSort, GoRange}.

(** ** Failure domains *)

Definition FailureDomains (c : ControlPlane) : slice FailureDomain :=
  match cl_FailureDomains (cp_Cluster c) with
  | None => None
  | Some specs =>
      match filter (λ s, default false (fd_ControlPlane s) = true) specs with
      | [] => None
      | res => Some res
      end
  end.

Definition getFailureDomainIDs (fds : slice FailureDomain) : list string :=
  map fd_Name (elems fds).

(** ** Selections of machines *)

Definition NeedsReplacementNode (c : ControlPlane) : bool :=
  match sp_Replicas (rcp_Spec (cp_RCP c)) with
  | None => false
  | Some replicas => bool_decide (Z.of_nat (size (cp_Machines c)) + 1 = replicas)%Z
  end.

Definition DeletingMachines (c : ControlPlane) : Machines :=
  coll_Filter HasDeletionTimestamp (cp_Machines c).

Definition HasDeletingMachine (c : ControlPlane) : bool :=
  bool_decide (0 < size (coll_Filter HasDeletionTimestamp (cp_Machines c)))%nat.

Definition MachinesNeedingRollout (c : ControlPlane) : Machines * gmap string UpToDateResult :=
  (coll_Filter (coll_Not HasDeletionTimestamp) (cp_machinesNotUptoDate c),
   cp_machinesUpToDateResults c).

Definition UpToDateMachines (c : ControlPlane) : Machines :=
  coll_Difference (cp_Machines c) (cp_machinesNotUptoDate c).

Definition NotUpToDateMachines (c : ControlPlane) : Machines * gmap string UpToDateResult :=
  (cp_machinesNotUptoDate c, cp_machinesUpToDateResults c).

Definition MachinesToCompleteTriggerInPlaceUpdate (c : ControlPlane) : Machines :=
  coll_Filter (λ m,
    bool_decide (is_Some (map_get (m_Annotations m) UpdateInProgressAnnotation)) &&
    negb (IsPending UpdateMachineHook (m_Annotations m))) (cp_Machines c).

Definition MachinesToCompleteInPlaceUpdate (c : ControlPlane) : Machines :=
  coll_Filter IsUpdateInProgress (cp_Machines c).

Definition IsEtcdManaged (c : ControlPlane) : bool := true.

Definition MachinesToBeRemediatedByRCP (c : ControlPlane) : Machines :=
  coll_Filter IsUnhealthyAndOwnerRemediated (cp_Machines c).
Definition UnhealthyMachines (c : ControlPlane) : Machines :=
  coll_Filter IsUnhealthy (cp_Machines c).
Definition HealthyMachines (c : ControlPlane) : Machines :=
  coll_Filter (coll_Not IsUnhealthy) (cp_Machines c).
Definition HasUnhealthyMachine (c : ControlPlane) : bool :=
  bool_decide (0 < size (UnhealthyMachines c))%nat.
Definition HasHealthyMachineStillProvisioning (c : ControlPlane) : bool :=
  bool_decide (0 < size (coll_Filter (coll_Not HasNode) (HealthyMachines c)))%nat.

Definition UsesEmbeddedEtcd (c : ControlPlane) : bool :=
  bool_decide (sc_ExternalDatastoreSecret (sp_ServerConfig (rcp_Spec (cp_RCP c))) = None).

Definition MachineWithDeleteAnnotation (machines : Machines) : Machines :=
  coll_Filter (HasAnnotationKey DeleteMachineAnnotation) machines.

(** [notInFailureDomains.Oldest()] is not nil: the collection is not empty. *)
Definition FailureDomainWithMostMachines (c : ControlPlane) (machines : Machines) : outcome string :=
  let notInFailureDomains :=
    coll_Filter (coll_Not (InFailureDomains (getFailureDomainIDs (FailureDomains c)))) machines in
  if decide (0 < size notInFailureDomains)%nat then
    match coll_Oldest notInFailureDomains with
    | Some m => Ok (msp_FailureDomain (m_Spec m))
    | None => Panic "nil pointer dereference"
    end
  else Ok (PickMost (elems (FailureDomains c)) (cp_Machines c) machines).

Definition MachineInFailureDomainWithMostMachines (c : ControlPlane) (machines : Machines) :
    outcome Machine :=
  fd ← FailureDomainWithMostMachines c machines;
  match coll_Oldest (coll_Filter (InFailureDomains [fd]) machines) with
  | None => Err (EText "failed to pick control plane Machine to mark for deletion")
  | Some m => Ok m
  end.

Definition NextFailureDomainForScaleUp (c : ControlPlane) : string :=
  match FailureDomains c with
  | None | Some [] => ""
  | Some fds =>
      PickFewest fds (cp_Machines c)
        (coll_Filter (coll_Not HasDeletionTimestamp) (UpToDateMachines c))
  end.

(** ** The order of deletions *)

(** [machinesByDeletionTimestamp.Less]. *)
Definition deletion_less (i j : Machine) : bool :=
  match m_DeletionTimestamp i, m_DeletionTimestamp j with
  | None, None => str_lt (m_Name i) (m_Name j)
  | None, Some _ => false
  | Some _, None => true
  | Some ti, Some tj =>
      if Time_Equal ti tj then str_lt (m_Name i) (m_Name j) else Time_Before ti tj
  end.

Definition SortedByDeletionTimestamp (s : Machines) : list Machine :=
  go_sort deletion_less (map snd (go_range 362 s)).
End selections.

(** ** New objects

    The specs handed to [createInitialControlPlane] and to scaling up are copies of the
    spec.  [GenerateRKE2Config] and [NewMachine] are not called. *)

Section constructors.
Context `{CapiConsts, MetaLib}.

Definition ControlPlaneLabelsForCluster (clusterName : string) : gmap string string :=
  <[ClusterNameLabel := clusterName]> {[ MachineControlPlaneLabel := "" ]}.

Definition Version (c : ControlPlane) : string := GetDesiredVersion (cp_RCP c).
Definition InfrastructureRef (c : ControlPlane) : ContractVersionedObjectReference :=
  ts_InfrastructureRef (mtpl_Spec (sp_MachineTemplate (rcp_Spec (cp_RCP c)))).
Definition AsOwnerReference (c : ControlPlane) : OwnerReference :=
  {| ow_APIVersion := controlplanev1_GroupVersion; ow_Kind := "RKE2ControlPlane";
     ow_Name := rcp_Name (cp_RCP c); ow_UID := om_UID (rcp_ObjectMeta (cp_RCP c));
     ow_Controller := None; ow_BlockOwnerDeletion := None |}.

Definition InitialControlPlaneConfig (c : ControlPlane) : RKE2ConfigSpec := sp_RKE2ConfigSpec (rcp_Spec (cp_RCP c)).
Definition JoinControlPlaneConfig (c : ControlPlane) : RKE2ConfigSpec := sp_RKE2ConfigSpec (rcp_Spec (cp_RCP c)).

Definition GenerateRKE2Config (c : ControlPlane) (spec : RKE2ConfigSpec) : M RKE2Config :=
  name ← fresh_name (rcp_Name (cp_RCP c) +:+ "-");
  mret
    {| cfg_APIVersion := ""; cfg_Kind := "";
       cfg_ObjectMeta :=
         {| om_Name := name; om_Namespace := rcp_Namespace (cp_RCP c); om_UID := "";
            om_Labels := Some (ControlPlaneLabelsForCluster (cl_Name (cp_Cluster c))); om_Annotations := None;
            om_OwnerReferences := [AsOwnerReference c]; om_Finalizers := [];
            om_CreationTimestamp := 0%Z; om_DeletionTimestamp := None |};
       cfg_Spec := spec; cfg_Status := ConfigStatus_zero |}.

Definition NewMachine (c : ControlPlane) (infraRef bootstrapRef : ContractVersionedObjectReference)
    (failureDomain : string) : M Machine :=
  name ← fresh_name (rcp_Name (cp_RCP c) +:+ "-");
  mret
    {| m_APIVersion := ""; m_Kind := "";
       m_ObjectMeta :=
         {| om_Name := name; om_Namespace := rcp_Namespace (cp_RCP c); om_UID := "";
            om_Labels := Some (ControlPlaneLabelsForCluster (cl_Name (cp_Cluster c))); om_Annotations := None;
            om_OwnerReferences := [NewControllerRef (cp_RCP c)]; om_Finalizers := [];
            om_CreationTimestamp := 0%Z; om_DeletionTimestamp := None |};
       m_Spec :=
         {| msp_ClusterName := cl_Name (cp_Cluster c); msp_ConfigRef := bootstrapRef;
            msp_DataSecretName := None; msp_InfrastructureRef := infraRef;
            msp_Version := Version c; msp_ProviderID := ""; msp_FailureDomain := failureDomain;
            msp_Deletion := template_deletion (cp_RCP c); msp_Taints := None |};
       m_Status := MachineStatus_zero |}.

(** The machine of [NewMachine] is the one a scale up applies, but for its labels,
    annotations and taints: a control plane without taints gets the same spec. *)
Lemma NewMachine_desired `{ServerJson, EV : Env} c infraRef bootstrapRef failureDomain w m w1 m' w2 :
  template_taints (cp_RCP c) = None →
  NewMachine c infraRef bootstrapRef failureDomain w = (Ok m, w1) →
  ComputeDesiredMachine (cp_RCP c) (cp_Cluster c) infraRef bootstrapRef failureDomain None w = (Ok m', w2) →
  m_Spec m = m_Spec m' ∧ m_Name m = m_Name m' ∧ w_calls w1 = w_calls w ∧
  om_OwnerReferences (m_ObjectMeta m) = om_OwnerReferences (m_ObjectMeta m').
Proof.
  intros Ht. unfold NewMachine, ComputeDesiredMachine. unfold mbind, comp_bind, mret, comp_ret, wrap, lift, fresh_name. cbn.
  intros [= <- <-]. destruct (json_MarshalServer _) as [b|e|p]; [|done..]. cbn. intros [= <- <-]. cbn. by rewrite Ht.
Qed.
End constructors.

(** ** Lemmas *)

Lemma str_lt_trans a b c : str_lt a b = true → str_lt b c = true → str_lt a c = true.
Proof.
  rewrite !str_lt_le. intros [Hab Hne] [Hbc Hne'].
  assert (String.le a c) by (by etransitivity). split; [done|]. intros ->.
  apply Hne. by apply (anti_symm String.le).
Qed.

Lemma str_lt_total a b : str_lt a b = true ∨ a = b ∨ str_lt b a = true.
Proof.
  rewrite !str_lt_le. destruct (decide (a = b)) as [->|Hne]; [auto|].
  destruct (total String.le a b); auto.
Qed.

Lemma str_lt_neg_trans a b c : str_lt a c = true → str_lt a b = true ∨ str_lt b c = true.
Proof.
  intros Hac. destruct (str_lt_total a b) as [?|[->|Hba]]; auto.
  right. by eapply str_lt_trans.
Qed.

(** Comparing by deletion timestamp, then by name, is a strict weak order. *)
Lemma deletion_less_strict_weak : strict_weak deletion_less.
Proof.
  unfold deletion_less, Time_Equal, Time_Before. split.
  - intros x. destruct (m_DeletionTimestamp x) as [t|]; [|apply str_lt_irrefl].
    rewrite bool_decide_eq_true_2 by done. apply str_lt_irrefl.
  - intros x y z. destruct (m_DeletionTimestamp x) as [tx|], (m_DeletionTimestamp y) as [ty|],
      (m_DeletionTimestamp z) as [tz|]; try done; try apply str_lt_trans.
    repeat case_bool_decide; try done; try lia; subst; try lia; auto using str_lt_trans.
    apply str_lt_trans.
  - intros x y z. destruct (m_DeletionTimestamp x) as [tx|], (m_DeletionTimestamp y) as [ty|],
      (m_DeletionTimestamp z) as [tz|]; try done; auto; try apply str_lt_neg_trans.
    repeat case_bool_decide; try done; try lia; subst; auto; try lia; try apply str_lt_neg_trans.
Qed.

Section control_plane.
Context `{CapiConsts, CollLib, CondLib, SetsLib, MetaLib, ServerJson, GoSort, GoRange, EV : Env}.

(** ** Fetching what belongs to the machines *)

Definition GetInfraResources (machines : Machines) : M (gmap string Unstructured) :=
  for_acc (go_range 411 machines) ∅ (λ result '(_, m),
    r ← try (api (CGetInfra (msp_InfrastructureRef (m_Spec m)) (m_Namespace m)));
    match r with
    | inl infraObj => mret (<[m_Name m := infraObj]> result)
    | inr err =>
        if IsNotFound err then mret result
        else fail (EWrap "failed to retrieve infra obj for machine" err)
    end).

Definition GetRKE2Configs (machines : Machines) : M (gmap string RKE2Config) :=
  for_acc (go_range 431 machines) ∅ (λ result '(name, m),
    let bootstrapRef := msp_ConfigRef (m_Spec m) in
    if Ref_IsDefined bootstrapRef then
      r ← try (api (CGetRKE2Config (m_Namespace m) (cv_Name bootstrapRef)));
      match r with
      | inl machineConfig => mret (<[name := machineConfig]> result)
      | inr err =>
          if IsNotFound err then mret result
          else fail (EWrap "failed to retrieve bootstrap config for machine" err)
      end
    else mret result).

(** ** Up to date *)

Definition ur_new (eligible : bool) (infra : option Unstructured) (config : option RKE2Config) :
    UpToDateResult :=
  {| ur_LogMessages := []; ur_ConditionMessages := []; ur_EligibleForInPlaceUpdate := eligible;
     ur_DesiredMachine := None; ur_CurrentInfraMachine := infra; ur_DesiredInfraMachine := None;
     ur_CurrentRKE2Config := config; ur_DesiredRKE2Config := None |}.
Definition ur_with_desired (m : option Machine) (c : option RKE2Config) (i : option Unstructured)
    (r : UpToDateResult) : UpToDateResult :=
  Build_UpToDateResult (ur_LogMessages r) (ur_ConditionMessages r) (ur_EligibleForInPlaceUpdate r)
    m (ur_CurrentInfraMachine r) i (ur_CurrentRKE2Config r) c.
Definition ur_with_current_config (c : option RKE2Config) (r : UpToDateResult) : UpToDateResult :=
  Build_UpToDateResult (ur_LogMessages r) (ur_ConditionMessages r) (ur_EligibleForInPlaceUpdate r)
    (ur_DesiredMachine r) (ur_CurrentInfraMachine r) (ur_DesiredInfraMachine r) c
    (ur_DesiredRKE2Config r).
Definition ur_with_messages (logs conds : list string) (eligible : bool) (r : UpToDateResult) :
    UpToDateResult :=
  Build_UpToDateResult logs conds eligible
    (ur_DesiredMachine r) (ur_CurrentInfraMachine r) (ur_DesiredInfraMachine r)
    (ur_CurrentRKE2Config r) (ur_DesiredRKE2Config r).

(** The version mismatch, the configuration mismatch and the template mismatch,
    each with its condition message. *)
Definition spec_messages (infraConfigs : gmap string Unstructured) (config_matches : bool)
    (rcp : RKE2ControlPlane) (machine : Machine) : list (string * string) :=
  let version := msp_Version (m_Spec machine) in
  (if MatchesKubernetesVersion (sp_Version (rcp_Spec rcp)) machine then []
   else [("Machine version " +:+ version +:+ " is not equal to RCP version " +:+ sp_Version (rcp_Spec rcp),
          "Version " +:+ version +:+ ", " +:+ sp_Version (rcp_Spec rcp) +:+ " required")]) ++
  (if config_matches then []
   else [("RKE2Config does not match RCP's RKE2ConfigSpec", "RKE2Config is not up-to-date")]) ++
  (if matchesTemplateClonedFrom infraConfigs rcp machine then []
   else [("Machine InfrastructureRef does not match RCP's MachineTemplate.InfrastructureRef",
          cv_Kind (msp_InfrastructureRef (m_Spec machine)) +:+ " is not up-to-date")]).

(** The desired objects stored in the result; [None] is the early return for a
    control plane under deletion whose infrastructure template is gone. *)
Definition compute_desired (cluster : Cluster) (rcp : RKE2ControlPlane) (machine : Machine)
    (res : UpToDateResult) : M (bool * UpToDateResult) :=
  desired ← wrap "failed to compute desired Machine"
    (ComputeDesiredMachine rcp cluster (msp_InfrastructureRef (m_Spec machine))
       (msp_ConfigRef (m_Spec machine)) (msp_FailureDomain (m_Spec machine)) (Some machine));
  let desiredMachine :=
    m_with_spec (msp_with_version (sp_Version (rcp_Spec rcp)) (m_Spec desired)) desired in
  let desiredConfig :=
    (λ c, ComputeDesiredRKE2Config rcp cluster (cfg_Name c) (Some c)) <$> ur_CurrentRKE2Config res in
  let res := ur_with_desired (Some desiredMachine) desiredConfig None res in
  match ur_CurrentInfraMachine res with
  | None => mret (false, res)
  | Some infra =>
      r ← try (ComputeDesiredInfraMachine rcp cluster (om_Name (un_ObjectMeta infra)) (Some infra));
      match r with
      | inl desiredInfra =>
          mret (false, ur_with_desired (Some desiredMachine) desiredConfig (Some desiredInfra) res)
      | inr err =>
          if negb (pTime_IsZero (rcp_DeletionTimestamp rcp)) && IsNotFound err
          then mret (true, res)
          else fail (EWrap "failed to compute desired InfraMachine" err)
      end
  end.

(** The messages (none when the machine matches), the result with the desired
    objects, and the configurations: the comparison may strip one in place. *)
Definition matchesMachineSpec (cluster : option Cluster)
    (infraConfigs : gmap string Unstructured) (machineConfigs : gmap string RKE2Config)
    (rcp : RKE2ControlPlane) (machine : Machine) (res : UpToDateResult) :
    M (list (string * string) * UpToDateResult * gmap string RKE2Config) :=
  '(tolerated, res) ←
    match cluster with
    | Some cluster => compute_desired cluster rcp machine res
    | None => mret (false, res)
    end;
  if (tolerated : bool) then mret ([], res, machineConfigs)
  else
    let '(config_matches, machineConfigs) :=
      matchesRKE2BootstrapConfig machineConfigs rcp machine in
    mret (spec_messages infraConfigs config_matches rcp machine,
          match ur_CurrentRKE2Config res with
          | Some _ => ur_with_current_config (machineConfigs !! m_Name machine) res
          | None => res
          end,
          machineConfigs).

Definition UpToDate (cluster : option Cluster) (machine : Machine) (rcp : RKE2ControlPlane)
    (infraConfigs : gmap string Unstructured) (machineConfigs : gmap string RKE2Config) :
    M (bool * UpToDateResult * gmap string RKE2Config) :=
  let eligible :=
    bool_decide (map_get (m_Annotations machine) DeleteMachineAnnotation = None) &&
    bool_decide (map_get (m_Annotations machine) RemediateMachineAnnotation = None) &&
    matchServerConfig rcp machine in
  let res := ur_new eligible (infraConfigs !! m_Name machine) (machineConfigs !! m_Name machine) in
  '(messages, res, machineConfigs) ←
    matchesMachineSpec cluster infraConfigs machineConfigs rcp machine res;
  match messages with
  | [] => mret (true, ur_with_messages [] [] false res, machineConfigs)
  | _ => mret (false, ur_with_messages (map fst messages) (map snd messages) eligible res,
               machineConfigs)
  end.

(** ** Construction *)

Definition patch_helpers (machines : Machines) : M (gmap string Machine) :=
  for_acc (go_range 127 machines) ∅ (λ helpers '(name, machine),
    _ ← api (CNewPatchHelper "Machine" (m_Name machine));
    mret (<[name := machine]> helpers)).

(** [NewControlPlane]: the control plane with its machines classified; the RCP
    and the cluster are the ones already in the world. *)
Definition NewControlPlane (ownedMachines : Machines) : M unit :=
  infraObjects ← GetInfraResources ownedMachines;
  rke2Configs ← GetRKE2Configs ownedMachines;
  patchHelpers ← patch_helpers ownedMachines;
  c ← get_cp;
  '(notUpToDate, results, rke2Configs) ←
    for_acc (go_range 144 ownedMachines)
      ((∅, ∅, rke2Configs) : Machines * gmap string UpToDateResult * gmap string RKE2Config)
      (λ '(notUpToDate, results, configs) '(_, m),
        '(upToDate, result, configs) ←
          UpToDate (Some (cp_Cluster c)) m (cp_RCP c) infraObjects configs;
        mret (if (upToDate : bool) then notUpToDate else <[m_Name m := m]> notUpToDate,
              <[m_Name m := result]> results, configs));
  modify_cp (λ c,
    {| cp_RCP := cp_RCP c; cp_Cluster := cp_Cluster c; cp_Machines := ownedMachines;
       cp_machinesPatchHelpers := patchHelpers; cp_machinesNotUptoDate := notUpToDate;
       cp_machinesUpToDateResults := results; cp_InfraMachineTemplateIsNotFound := false;
       cp_PreflightCheckResults := Build_PreflightCheckResults false false false false;
       cp_Rke2Configs := rke2Configs; cp_InfraResources := infraObjects;
       cp_workloadCluster := None; cp_DeletingReason := ""; cp_DeletingMessage := "" |}).

(** ** Keeping machines in step *)

(** [PatchMachines]: every machine is patched from the object its helper was
    created from; the errors are collected. *)
Definition PatchMachines : M unit :=
  c ← get_cp;
  errList ← for_acc (go_range 489 (cp_Machines c)) [] (λ errList '(name, machine),
    match cp_machinesPatchHelpers c !! name with
    | Some before =>
        r ← try (api (CPatchMachine before machine));
        mret (match r with inl _ => errList | inr err => errList ++ [err] end)
    | None => mret (errList ++ [EText "failed to get patch helper for machine"])
    end);
  match NewAggregate errList with
  | None => mret tt
  | Some e => fail e
  end.

Definition GetWorkloadCluster : M Workload :=
  c ← get_cp;
  match cp_workloadCluster c with
  | Some w => mret w
  | None =>
      has_etcd ← api CGetWorkloadCluster;
      let w := Build_Workload ∅ ∅ has_etcd in
      _ ← modify_cp (cp_with_workload (Some w));
      mret w
  end.

(** [ReconcileExternalReference]: the cluster owns the infrastructure template. *)
Definition ReconcileExternalReference : M unit :=
  c ← get_cp;
  let ref := template_infra_ref (cp_RCP c) in
  if HasSuffix (cv_Kind ref) TemplateSuffix then
    r ← try (api (CGetInfra ref (rcp_Namespace (cp_RCP c))));
    match r with
    | inr err =>
        if IsNotFound err then
          _ ← modify_cp (cp_with_template_missing true);
          fail err
        else fail err
    | inl obj =>
        let desiredOwnerRef :=
          {| ow_APIVersion := clusterv1_GroupVersion; ow_Kind := "Cluster";
             ow_Name := cl_Name (cp_Cluster c); ow_UID := om_UID (cl_ObjectMeta (cp_Cluster c));
             ow_Controller := None; ow_BlockOwnerDeletion := None |} in
        let owners := om_OwnerReferences (un_ObjectMeta obj) in
        if HasExactOwnerRef owners desiredOwnerRef then mret tt
        else
          _ ← wrap "initializing patch helper"
                (api (CNewPatchHelper (un_Kind obj) (om_Name (un_ObjectMeta obj))));
          api (CPatchTemplateOwners obj (EnsureOwnerRef owners desiredOwnerRef))
    end
  else mret tt.
End control_plane.

(** ** Claims *)

(** A collection keyed by the machines' names, as collections are. *)
Definition keyed_machines (ms : Machines) : Prop := ∀ n m, ms !! n = Some m → m_Name m = n.

Section deletion_order.

Lemma sorted_deletion `{GoSort, GoRange} (s : Machines) :
  StronglySorted (λ x y, deletion_less y x = false) (SortedByDeletionTimestamp s).
Proof.
  apply Sorted_StronglySorted; [|apply go_sort_sorted, deletion_less_strict_weak].
  intros x y z Hxy Hyz. destruct (deletion_less z x) eqn:E; [|done].
  apply (sw_neg_trans _ deletion_less_strict_weak _ y) in E as [?|?]; congruence.
Qed.

Lemma elem_of_sorted_deletion `{GoSort, GoRange} (s : Machines) m :
  m ∈ SortedByDeletionTimestamp s ↔ ∃ n, s !! n = Some m.
Proof.
  unfold SortedByDeletionTimestamp. rewrite elem_of_go_sort, list_elem_of_fmap.
  setoid_rewrite <-elem_of_go_range. split.
  - intros ([n m'] & -> & Hin). eauto.
  - intros [n Hn]. by exists (n, m).
Qed.

(** Neither comes first: same timestamp, same name. *)
Lemma deletion_less_incomparable x y :
  deletion_less x y = false → deletion_less y x = false → m_Name x = m_Name y.
Proof.
  assert (∀ a b, str_lt a b = false → str_lt b a = false → a = b) as Hstr.
  { intros a b Hab Hba. destruct (str_lt_total a b) as [?|[?|?]]; congruence. }
  unfold deletion_less, Time_Equal, Time_Before.
  destruct (m_DeletionTimestamp x) as [tx|], (m_DeletionTimestamp y) as [ty|]; try done; auto.
  repeat case_bool_decide; subst; try done; try lia; auto.
Qed.

(** The machines of a control plane sorted by deletion timestamp.  The
    result holds every machine of the collection, in order: machines being
    deleted first, an earlier deletion before a later one, the name breaking
    ties; and it does not depend on the order in which Go visits the map nor on
    how it sorts, so repeated reconciles agree on it. *)
Theorem SortedByDeletionTimestamp_deterministic
    (S1 S2 : GoSort) (R1 R2 : GoRange) (s : Machines) :
  keyed_machines s →
  @SortedByDeletionTimestamp S1 R1 s = @SortedByDeletionTimestamp S2 R2 s ∧
  (∀ m, m ∈ @SortedByDeletionTimestamp S1 R1 s ↔ ∃ n, s !! n = Some m) ∧
  StronglySorted (λ x y, deletion_less y x = false) (@SortedByDeletionTimestamp S1 R1 s).
Proof.
  intros Hk. split_and!; [|apply elem_of_sorted_deletion|apply sorted_deletion].
  apply (StronglySorted_unique_strong (λ x y, deletion_less y x = false));
    [|apply sorted_deletion..|].
  - intros x y. rewrite !elem_of_sorted_deletion. intros [n Hn] [n' Hn'] Hxy Hyx.
    pose proof (deletion_less_incomparable _ _ Hyx Hxy) as Hname.
    rewrite (Hk _ _ Hn), (Hk _ _ Hn') in Hname. congruence.
  - unfold SortedByDeletionTimestamp. rewrite !go_sort_perm.
    by rewrite (@go_range_perm R1 _ 362 s), (@go_range_perm R2 _ 362 s).
Qed.
End deletion_order.

Definition deleting_at (t : Time) (m : Machine) : Machine :=
  m_with_meta (Build_ObjectMeta (m_Name m) (m_Namespace m) (om_UID (m_ObjectMeta m))
    (om_Labels (m_ObjectMeta m)) (m_Annotations m) (om_OwnerReferences (m_ObjectMeta m))
    (om_Finalizers (m_ObjectMeta m)) (m_CreationTimestamp m) (Some t)) m.

Definition demo_deleting : Machines :=
  {[ "a" := deleting_at 7 (demo_machine "a" "n1"); "b" := demo_machine "b" "n2";
     "c" := deleting_at 5 (demo_machine "c" "n3") ]}.

Lemma demo_deleting_keyed : keyed_machines demo_deleting.
Proof.
  intros n m. unfold demo_deleting. rewrite !lookup_insert_Some, lookup_singleton_Some.
  naive_solver.
Qed.

Lemma SortedByDeletionTimestamp_deterministic_witness :
  map m_Name (SortedByDeletionTimestamp demo_deleting) = ["c"; "a"; "b"] ∧
  ∀ m, m ∈ SortedByDeletionTimestamp demo_deleting ↔ ∃ n, demo_deleting !! n = Some m.
Proof.
  split; [vm_compute; reflexivity|].
  apply (SortedByDeletionTimestamp_deterministic merge_sort_go merge_sort_go
           map_order_go map_order_go demo_deleting demo_deleting_keyed).
Defined.

Section up_to_date.
Context `{CapiConsts, CollLib, CondLib, SetsLib, MetaLib, ServerJson, GoSort, GoRange, EV : Env}.

(** What a control plane asks of a machine. *)
Definition matches_spec (infraConfigs : gmap string Unstructured)
    (machineConfigs : gmap string RKE2Config) (rcp : RKE2ControlPlane) (m : Machine) : Prop :=
  msp_Version (m_Spec m) = sp_Version (rcp_Spec rcp) ∧
  (matchesRKE2BootstrapConfig machineConfigs rcp m).1 = true ∧
  matchesTemplateClonedFrom infraConfigs rcp m = true.

(** A machine an in-place update may be tried on. *)
Definition in_place_allowed (rcp : RKE2ControlPlane) (m : Machine) : Prop :=
  map_get (m_Annotations m) DeleteMachineAnnotation = None ∧
  map_get (m_Annotations m) RemediateMachineAnnotation = None ∧
  matchServerConfig rcp m = true.

Lemma spec_messages_nil infraConfigs machineConfigs rcp m :
  spec_messages infraConfigs (matchesRKE2BootstrapConfig machineConfigs rcp m).1 rcp m = [] ↔
  matches_spec infraConfigs machineConfigs rcp m.
Proof.
  unfold spec_messages, matches_spec. rewrite MatchesKubernetesVersion_spec.
  case_bool_decide; repeat case_match; simpl; naive_solver.
Qed.

Lemma compute_desired_Ok cluster rcp m res w b res' w' :
  compute_desired cluster rcp m res w = (Ok (b, res'), w') →
  (b = true → pTime_IsZero (rcp_DeletionTimestamp rcp) = false).
Proof.
  unfold compute_desired, mbind, comp_bind.
  destruct (wrap _ _ w) as [[desired|e|p] w1]; [|done..]. cbn zeta.
  cbn [ur_CurrentInfraMachine ur_with_desired].
  destruct (ur_CurrentInfraMachine res) as [infra|]; [|by intros [= <- _ _]].
  destruct (try _ w1) as [[[i|err]|e|p] w2]; [by intros [= <- _ _]| |done..].
  destruct (pTime_IsZero _) eqn:Ez; [|done]. simpl. done.
Qed.

(** When the check of a machine returns, for a control plane that is not
    being deleted, the machine is up to date exactly when its version is the
    desired one, its bootstrap and server configuration match and its
    infrastructure machine was cloned from the current template; it is eligible
    for an in-place update exactly when it is not up to date, carries neither
    the delete nor the remediate annotation and its server configuration
    matches; and a machine that is not up to date comes with the reasons. *)
Theorem UpToDate_spec cluster m rcp infraConfigs machineConfigs w b res configs' w' :
  pTime_IsZero (rcp_DeletionTimestamp rcp) = true →
  UpToDate cluster m rcp infraConfigs machineConfigs w = (Ok (b, res, configs'), w') →
  (b = true ↔ matches_spec infraConfigs machineConfigs rcp m) ∧
  (ur_EligibleForInPlaceUpdate res = true ↔ b = false ∧ in_place_allowed rcp m) ∧
  (b = true ↔ ur_ConditionMessages res = []).
Proof.
  intros Hz. unfold UpToDate, matchesMachineSpec. cbn zeta. set (res0 := ur_new _ _ _).
  unfold mbind, comp_bind.
  destruct (match cluster with Some cl => compute_desired cl rcp m res0 | None => mret (false, res0) end w)
    as [[[tol res1]|e|p] w1] eqn:Ed; [|done..].
  assert (tol = false) as ->.
  { destruct tol; [|done]. destruct cluster as [cl|]; [|done].
    apply compute_desired_Ok in Ed; [congruence|done]. }
  destruct (matchesRKE2BootstrapConfig machineConfigs rcp m) as [cm configs1] eqn:Ec.
  assert (spec_messages infraConfigs cm rcp m = [] ↔
          matches_spec infraConfigs machineConfigs rcp m) as Hmsg.
  { rewrite <-spec_messages_nil, Ec. done. }
  destruct (spec_messages infraConfigs cm rcp m) as [|msg msgs]; intros [= <- <- _ _]; simpl.
  - naive_solver.
  - unfold in_place_allowed. rewrite !andb_true_iff, !bool_decide_eq_true. naive_solver.
Qed.

(** Up to date is "no reasons", also while the control plane is being deleted. *)
Lemma UpToDate_messages cluster m rcp infraConfigs machineConfigs w b res configs' w' :
  UpToDate cluster m rcp infraConfigs machineConfigs w = (Ok (b, res, configs'), w') →
  b = true ↔ ur_ConditionMessages res = [].
Proof.
  unfold UpToDate. cbn zeta. unfold mbind, comp_bind.
  destruct (matchesMachineSpec _ _ _ _ _ _ w) as [[[[msgs res1] configs1]|e|p] w1]; [|done..].
  destruct msgs as [|msg msgs]; intros [= <- <- _ _]; simpl; naive_solver.
Qed.
End up_to_date.

Section construction.
Context `{CapiConsts, CollLib, CondLib, SetsLib, MetaLib, ServerJson, GoSort, GoRange, EV : Env}.

(** The machines visited so far are classified, each in one of the two ways. *)
Definition classified (done : list (string * Machine))
    (b : Machines * gmap string UpToDateResult * gmap string RKE2Config) : Prop :=
  let '(notUpToDate, results, _) := b in
  (∀ n, is_Some (results !! n) → ∃ m, (n, m) ∈ done) ∧
  (∀ n m, notUpToDate !! n = Some m → (n, m) ∈ done) ∧
  (∀ n m, (n, m) ∈ done → ∃ res, results !! n = Some res ∧
     (notUpToDate !! n = None ↔ ur_ConditionMessages res = [])).

Lemma classified_step (owned : Machines) site done n m rest notUpToDate results configs
    (upToDate : bool) res configs' :
  keyed_machines owned → go_range site owned = done ++ (n, m) :: rest →
  (upToDate = true ↔ ur_ConditionMessages res = []) →
  classified done (notUpToDate, results, configs) →
  classified (done ++ [(n, m)])
    (if upToDate then notUpToDate else <[m_Name m := m]> notUpToDate,
     <[m_Name m := res]> results, configs').
Proof.
  intros Hk Hl Hu (Hr & Hn & Hd).
  assert (m_Name m = n) as ->.
  { apply Hk. eapply (elem_of_go_range site). rewrite Hl. set_solver. }
  assert (∀ m', (n, m') ∉ done) as Hfresh.
  { intros m' Hin. pose proof (NoDup_go_range_fst site owned) as Hnd. rewrite Hl in Hnd.
    rewrite fmap_app, NoDup_app in Hnd. destruct Hnd as (_ & Hdis & _).
    apply (Hdis n); [apply list_elem_of_fmap; by exists (n, m')|]. simpl. left. }
  assert (notUpToDate !! n = None) as Hnn.
  { destruct (notUpToDate !! n) eqn:E; [|done]. apply Hn in E. by apply Hfresh in E. }
  split_and!.
  - intros n'. destruct (decide (n' = n)) as [->|Hne]; [set_solver|].
    rewrite lookup_insert_ne by done. intros Hs. apply Hr in Hs as [m' ?]. exists m'. set_solver.
  - intros n' m'. destruct upToDate; [set_solver|].
    destruct (decide (n' = n)) as [->|Hne].
    + rewrite lookup_insert_eq. intros [= <-]. set_solver.
    + rewrite lookup_insert_ne by done. set_solver.
  - intros n' m'. rewrite elem_of_app, list_elem_of_singleton. intros [Hin|[= -> ->]].
    + assert (n' ≠ n) by (intros ->; by apply Hfresh in Hin).
      rewrite lookup_insert_ne by done. destruct (Hd _ _ Hin) as (res' & ? & ?).
      exists res'. split; [done|]. destruct upToDate; [done|]. by rewrite lookup_insert_ne.
    + exists res. rewrite lookup_insert_eq. split; [done|]. destruct upToDate.
      * naive_solver.
      * rewrite lookup_insert_eq. naive_solver.
Qed.

(** Building the in-memory control plane classifies every machine once.  When
    [NewControlPlane] returns, there is an up-to-date result for exactly the
    owned machines, the machines that are not up to date are those whose result
    names a reason, and the up-to-date and the not up-to-date machines together
    are all the machines. *)
Theorem NewControlPlane_partition owned w w' :
  keyed_machines owned → NewControlPlane owned w = (Ok tt, w') →
  let c := w_cp w' in
  cp_Machines c = owned ∧
  (∀ n m, owned !! n = Some m → ∃ res, cp_machinesUpToDateResults c !! n = Some res ∧
     cp_machinesNotUptoDate c !! n =
       (if decide (ur_ConditionMessages res = []) then None else Some m)) ∧
  (∀ n, is_Some (cp_machinesUpToDateResults c !! n) → is_Some (owned !! n)) ∧
  size (UpToDateMachines c) + size (NotUpToDateMachines c).1 = size owned.
Proof.
  intros Hk. unfold NewControlPlane, mbind, comp_bind.
  destruct (GetInfraResources owned w) as [[infra|e|p] w1]; [|done..].
  destruct (GetRKE2Configs owned w1) as [[configs|e|p] w2]; [|done..].
  destruct (patch_helpers owned w2) as [[helpers|e|p] w3]; [|done..]. cbn [get_cp gets].
  match goal with |- context [for_acc ?l ?b ?f w3] =>
    destruct (for_acc l b f w3) as [[[[nu results] configs']|e|p] w4] eqn:E end; [|done..].
  apply (for_acc_ok classified) in E.
  - intros [= <-]. simpl. destruct E as (Hr & Hn & Hd).
    setoid_rewrite elem_of_go_range in Hr. setoid_rewrite elem_of_go_range in Hn.
    setoid_rewrite elem_of_go_range in Hd.
    assert (nu ⊆ owned) as Hsub by (by apply map_subseteq_spec).
    split_and!.
    + done.
    + intros n m Hm. destruct (Hd n m Hm) as (res & Hres & Hnone). exists res. split; [done|].
      case_decide as Hc; [by apply Hnone|]. destruct (nu !! n) as [m'|] eqn:En; [|tauto].
      apply Hn in En. congruence.
    + intros n Hs. apply Hr in Hs as [m ->]. eauto.
    + unfold UpToDateMachines, NotUpToDateMachines. simpl.
      replace (coll_Difference owned nu) with (owned ∖ nu).
      * rewrite Nat.add_comm, <-map_size_disj_union by (by apply map_disjoint_difference_r1).
        by rewrite map_difference_union.
      * apply map_eq. intros n. apply option_eq. intros m.
        rewrite lookup_difference_Some. symmetry. apply Difference_spec.
  - intros d [n m] rest [[nu0 results0] configs0] s [[nu1 results1] configs1] s' Hl Hi.
    cbn [fst snd]. unfold mbind, comp_bind.
    destruct (UpToDate _ _ _ _ _ s) as [[[[b res] configs2]|e|p] s1] eqn:Eu; [|done..].
    intros [= <- <- <- _]. eapply classified_step; [done|exact Hl| |exact Hi].
    by eapply UpToDate_messages.
  - split_and!; [|set_solver..]. intros n. rewrite lookup_empty. by intros [? ?].
Qed.
End construction.

(** *** Evaluation on a sample control plane *)

Definition demo_run_uptodate :=
  UpToDate (EV := demo_env) (Some demo_cluster) (demo_machine "m1" "cp-1") (demo_rcp 3 true) ∅ ∅
    (demo_world (demo_rcp 3 true) []).

Lemma UpToDate_spec_witness :
  matches_spec ∅ ∅ (demo_rcp 3 true) (demo_machine "m1" "cp-1").
Proof.
  assert (∃ res configs', demo_run_uptodate = (Ok (true, res, configs'), demo_run_uptodate.2))
    as (res & configs' & Hrun) by (eexists _, _; vm_compute; reflexivity).
  apply (UpToDate_spec (EV := demo_env) (Some demo_cluster) (demo_machine "m1" "cp-1")
           (demo_rcp 3 true) ∅ ∅ _ true res configs' _ eq_refl Hrun).
  reflexivity.
Defined.

Definition demo_two : Machines :=
  {[ "a" := demo_machine "a" "cp-1";
     "b" := m_with_spec (msp_with_version "v1.32.0+rke2r1" (m_Spec (demo_machine "b" "cp-2")))
              (demo_machine "b" "cp-2") ]}.

Lemma demo_two_keyed : keyed_machines demo_two.
Proof.
  intros n m. unfold demo_two. rewrite lookup_insert_Some, lookup_singleton_Some. naive_solver.
Qed.

Definition demo_new : outcome unit * World :=
  NewControlPlane (EV := demo_env) demo_two (demo_world (demo_rcp 2 true) []).

Lemma NewControlPlane_partition_witness :
  size (UpToDateMachines (w_cp demo_new.2)) + size (NotUpToDateMachines (w_cp demo_new.2)).1 = 2.
Proof.
  apply (NewControlPlane_partition (EV := demo_env) demo_two (demo_world (demo_rcp 2 true) []) demo_new.2).
  - apply demo_two_keyed.
  - vm_compute. reflexivity.
Defined.
