(* ===== verification/Scale.v ===== *)
(** * Scaling the control plane (controlplane/internal/controllers/scale.go)

    Preflight checks, the choice of the machine to remove, creating a machine
    with its infrastructure and bootstrap objects, and the three handlers that
    initialize, scale up and scale down. *)

From Stdlib Require Import Ascii.
From stdpp Require Import base tactics option list gmap strings numbers.
From S2P Require Import Prelude Go Api Objects Libs World Hooks Etcd Desired ControlPlane Demo.
Open Scope string_scope.
Open Scope list_scope.
Open Scope stdpp_scope.

Definition deleteRequeueAfter : Duration := (30 * Second)%Z.
Definition preflightFailedRequeueAfter : Duration := (15 * Second)%Z.

Section scale.
Context `{CapiConsts, CollLib, CondLib, SetsLib, MetaLib, ServerJson, GoSort, GoRange, EV : Env}.

(** ** Preflight checks *)

Definition preflightCheckCondition (m : Machine) (conditionType : string) : option error :=
  match m_condition m conditionType with
  | None => Some (EText "machine does not have condition")
  | Some c =>
      match cond_Status c with
      | ConditionFalse => Some (EText ("condition is false (" +:+ cond_Message c +:+ ")"))
      | ConditionUnknown => Some (EText ("condition is unknown (" +:+ cond_Message c +:+ ")"))
      | ConditionTrue => None
      end
  end.

Definition allMachineHealthConditions : list string :=
  [RKE2ControlPlaneMachineAgentHealthyCondition; RKE2ControlPlaneMachineEtcdMemberHealthyCondition].

(** The errors of one machine that is not excluded. *)
Definition machineErrors (excludeFor : list Machine) (m : Machine) : list error :=
  if existsb (λ e, bool_decide (m_Name m = m_Name e)) excludeFor then []
  else omap (preflightCheckCondition m) allMachineHealthConditions.

Definition preflight_with_deleting (p : PreflightCheckResults) : PreflightCheckResults :=
  Build_PreflightCheckResults true (pf_ControlPlaneComponentsNotHealthy p)
    (pf_EtcdClusterNotHealthy p) (pf_TopologyVersionMismatch p).

Definition preflightChecks (excludeFor : list Machine) : M Result :=
  c ← get_cp;
  if decide (size (cp_Machines c) = 0) then mret Result_zero
  else if HasDeletingMachine c then
    _ ← modify_cp (λ c, cp_with_preflight (preflight_with_deleting (cp_PreflightCheckResults c)) c);
    mret (requeueAfter deleteRequeueAfter)
  else
    let errs := concat (map (λ kv, machineErrors excludeFor kv.2) (go_range 239 (cp_Machines c))) in
    if decide (0 < length errs)%nat then mret (requeueAfter preflightFailedRequeueAfter)
    else mret Result_zero.

(** ** Which machine goes *)

Definition selectMachineForScaleDown (c : ControlPlane) (outdatedMachines : Machines) :
    outcome Machine :=
  let machines := cp_Machines c in
  let machines :=
    if decide (0 < size (MachineWithDeleteAnnotation outdatedMachines))%nat
    then MachineWithDeleteAnnotation outdatedMachines
    else if decide (0 < size (MachineWithDeleteAnnotation machines))%nat
    then MachineWithDeleteAnnotation machines
    else if decide (0 < size outdatedMachines)%nat then outdatedMachines
    else if decide (0 < size (coll_Filter (coll_Not IsReady) machines))%nat
    then coll_Filter (coll_Not IsReady) machines
    else machines in
  MachineInFailureDomainWithMostMachines c machines.

Definition selectMachineForInPlaceUpdateOrScaleDown (c : ControlPlane)
    (outdatedMachines : Machines) : outcome Machine :=
  let eligibleMachines :=
    if decide (0 < size (MachineWithDeleteAnnotation outdatedMachines))%nat
    then MachineWithDeleteAnnotation outdatedMachines
    else if decide (0 < size (MachineWithDeleteAnnotation (cp_Machines c)))%nat
    then MachineWithDeleteAnnotation (cp_Machines c)
    else if decide (0 < size outdatedMachines)%nat then outdatedMachines
    else cp_Machines c in
  MachineInFailureDomainWithMostMachines c eligibleMachines.

(** ** Creating a machine *)

Definition ControlPlaneMachineLabelsForCluster (rcp : RKE2ControlPlane) (clusterName : string) :
    gmap string string :=
  <[MachineControlPlaneNameLabel := MustFormatValue (rcp_Name rcp)]>
  (<[MachineControlPlaneLabel := ""]>
  (<[ClusterNameLabel := clusterName]>
  (map_copy (mtpl_Labels (sp_MachineTemplate (rcp_Spec rcp))) ∅))).

Definition computeDesiredMachine (rcp : RKE2ControlPlane) (cluster : Cluster)
    (infraRef bootstrapRef : ContractVersionedObjectReference) (failureDomain : string)
    (existingMachine : option Machine) : M Machine :=
  '(machineName, machineUID, version, annotations) ←
    match existingMachine with
    | None =>
        name ← fresh_name (rcp_Name rcp +:+ "-");
        serverConfig ← wrap "failed to marshal cluster configuration"
                         (lift (json_MarshalServer (sp_ServerConfig (rcp_Spec rcp))));
        mret (name, "", GetDesiredVersion rcp,
              <[PreTerminateHookCleanupAnnotation := ""]>
              (<[RKE2ServerConfigurationAnnotation := serverConfig]> (∅ : gmap string string)))
    | Some m =>
        mret (m_Name m, om_UID (m_ObjectMeta m), msp_Version (m_Spec m),
              match map_get (m_Annotations m) RKE2ServerConfigurationAnnotation with
              | Some serverConfig => {[ RKE2ServerConfigurationAnnotation := serverConfig ]}
              | None => ∅
              end)
    end;
  let annotations' :=
    map_copy (Some annotations)
      (map_copy (mtpl_Annotations (sp_MachineTemplate (rcp_Spec rcp))) ∅) in
  mret
    {| m_APIVersion := clusterv1_GroupVersion; m_Kind := "Machine";
       m_ObjectMeta :=
         {| om_Name := machineName; om_Namespace := rcp_Namespace rcp; om_UID := machineUID;
            om_Labels := Some (ControlPlaneMachineLabelsForCluster rcp (cl_Name cluster));
            om_Annotations := Some annotations';
            om_OwnerReferences := [NewControllerRef rcp]; om_Finalizers := [];
            om_CreationTimestamp := 0%Z; om_DeletionTimestamp := None |};
       m_Spec :=
         {| msp_ClusterName := cl_Name cluster; msp_ConfigRef := bootstrapRef;
            msp_DataSecretName := None; msp_InfrastructureRef := infraRef;
            msp_Version := version; msp_ProviderID := ""; msp_FailureDomain := failureDomain;
            msp_Deletion := template_deletion rcp; msp_Taints := template_taints rcp |};
       m_Status := MachineStatus_zero |}.

Definition createMachine (rcp : RKE2ControlPlane) (cluster : Cluster)
    (infraRef bootstrapRef : ContractVersionedObjectReference) (failureDomain : string) : M unit :=
  machine ← wrap "failed to create Machine: failed to compute desired Machine"
              (computeDesiredMachine rcp cluster infraRef bootstrapRef failureDomain None);
  _ ← wrap "failed to create Machine: apply failed" (api (CApplyMachine machine));
  mret tt.

(** The machine as the server returned it. *)
Definition UpdateMachine (machine : Machine) (rcp : RKE2ControlPlane) (cluster : Cluster) : M Machine :=
  updatedMachine ← wrap "failed to update Machine: failed to compute desired Machine"
    (computeDesiredMachine rcp cluster (msp_InfrastructureRef (m_Spec machine))
       (msp_ConfigRef (m_Spec machine)) (msp_FailureDomain (m_Spec machine)) (Some machine));
  wrap "failed to update Machine: apply failed" (api (CApplyMachine updatedMachine)).

Definition UpdateExternalObject (kind : string) (meta : ObjectMeta) (rcp : RKE2ControlPlane)
    (cluster : Cluster) : M unit :=
  wrap "failed to update" (api (CUpdateExternalMetadata kind (om_Namespace meta) (om_Name meta)
    (om_UID meta) (ControlPlaneMachineLabelsForCluster rcp (cl_Name cluster))
    (mtpl_Annotations (sp_MachineTemplate (rcp_Spec rcp))))).

(** The reference is returned with the object. *)
Definition generateRKE2Config (rcp : RKE2ControlPlane) (cluster : Cluster) (spec : RKE2ConfigSpec) :
    M (RKE2Config * ContractVersionedObjectReference) :=
  name ← fresh_name (rcp_Name rcp +:+ "-");
  let bootstrapConfig :=
    {| cfg_APIVersion := ""; cfg_Kind := "";
       cfg_ObjectMeta :=
         {| om_Name := name; om_Namespace := rcp_Namespace rcp; om_UID := "";
            om_Labels := Some (ControlPlaneLabelsForCluster (cl_Name cluster));
            om_Annotations := None; om_OwnerReferences := [rcp_owner rcp]; om_Finalizers := [];
            om_CreationTimestamp := 0%Z; om_DeletionTimestamp := None |};
       cfg_Spec := spec; cfg_Status := ConfigStatus_zero |} in
  _ ← wrap "failed to create bootstrap configuration" (api (CCreateRKE2Config bootstrapConfig));
  mret (bootstrapConfig,
        {| cv_APIGroup := bootstrapv1_Group; cv_Kind := "RKE2Config"; cv_Name := name |}).

(** The errors of deleting what was generated.  The bootstrap configuration is
    a pointer inside an interface: a nil pointer is not a nil interface, so it is
    not skipped. *)
Definition cleanupFromGeneration (infraMachine : Unstructured)
    (bootstrapConfig : option RKE2Config) : M (list error) :=
  let collect (errs : list error) (c : M unit) : M (list error) :=
    r ← try c;
    mret (match r with
          | inl _ => errs
          | inr err => if IsNotFound err then errs
                       else errs ++ [EWrap "failed to cleanup generated resources after error" err]
          end) in
  errs ← collect [] (api (CDeleteInfra infraMachine));
  collect errs (api (CDeleteRKE2Config bootstrapConfig)).

Definition cloneConfigsAndGenerateMachine (cluster : Cluster) (rcp : RKE2ControlPlane)
    (bootstrapSpec : RKE2ConfigSpec) (failureDomain : string) : M unit :=
  let ref := template_infra_ref rcp in
  apiVersion ← wrap "failed to get api version for kind"
                 (api (CGetAPIVersion (cv_APIGroup ref) (cv_Kind ref)));
  '(infraMachine, infraRef) ← wrap "failed to clone infrastructure template"
    (api (CCreateFromTemplate apiVersion (cv_Kind ref) (cv_Name ref) (rcp_Namespace rcp)
            (cl_Name cluster) (ControlPlaneLabelsForCluster (cl_Name cluster)) (rcp_owner rcp)));
  generated ← try (generateRKE2Config rcp cluster bootstrapSpec);
  '(bootstrapConfig, errs) ←
    match generated with
    | inr err => mret (None, [EWrap "failed to generate bootstrap config" err])
    | inl (bootstrapConfig, bootstrapRef) =>
        r ← try (createMachine rcp cluster infraRef bootstrapRef failureDomain);
        mret (Some bootstrapConfig,
              match r with inl _ => [] | inr err => [EWrap "failed to create Machine" err] end)
    end;
  match (errs : list error) with
  | [] => mret tt
  | _ =>
      cleanup ← cleanupFromGeneration infraMachine bootstrapConfig;
      let errs := match cleanup with
                  | [] => errs
                  | _ => errs ++ [EWrap "failed to cleanup generated resources" (EAgg cleanup)]
                  end in
      fail (EAgg errs)
  end.

(** ** The handlers *)

Definition GetMachinesForCluster (uncached : bool) (filters : list (Machine → bool)) : M Machines :=
  ms ← api (CListMachines uncached);
  mret (foldr coll_Filter ms (rev filters)).

Definition initializeControlPlane : M Result :=
  c ← get_cp;
  ownedMachines ← GetMachinesForCluster true [OwnedMachines (cp_RCP c)];
  if decide (0 < size ownedMachines)%nat then
    fail (EText "control plane has already been initialized")
  else
    let fd := NextFailureDomainForScaleUp c in
    _ ← cloneConfigsAndGenerateMachine (cp_Cluster c) (cp_RCP c)
          (sp_RKE2ConfigSpec (rcp_Spec (cp_RCP c))) fd;
    mret requeue.

Definition scaleUpControlPlane : M Result :=
  result ← preflightChecks [];
  if negb (Result_IsZero result) then mret result
  else
    c ← get_cp;
    let fd := NextFailureDomainForScaleUp c in
    _ ← cloneConfigsAndGenerateMachine (cp_Cluster c) (cp_RCP c)
          (sp_RKE2ConfigSpec (rcp_Spec (cp_RCP c))) fd;
    mret (requeueAfter Minute).

Definition scaleDownControlPlane (outdatedMachines : Machines) : M Result :=
  c ← get_cp;
  machineToDelete ← wrap "failed to select machine for scale down"
                      (lift (selectMachineForScaleDown c outdatedMachines));
  result ← preflightChecks [machineToDelete];
  if negb (Result_IsZero result) then mret result
  else
    workloadCluster ← wrap "getting workload cluster" GetWorkloadCluster;
    _ ← (if UsesEmbeddedEtcd c then
           match map_get (rcp_Annotations (cp_RCP c)) LegacyRKE2ControlPlane with
           | Some _ => mret tt
           | None =>
               (* a failure dereferences the candidate, which is not nil: there is a machine *)
               ForwardEtcdLeadership workloadCluster (Some machineToDelete)
                 (coll_Newest (cp_Machines c))
           end
         else mret tt);
    r ← try (api (CDeleteMachine (m_Name machineToDelete)));
    match r with
    | inl _ => mret requeue
    | inr err => if IsNotFound err then mret requeue else fail err
    end.
End scale.

(** ** Lemmas *)

Section scale_lemmas.
Context `{CapiConsts, CollLib, CondLib, SetsLib, MetaLib, ServerJson, GoSort, GoRange, EV : Env}.

(** A machine that passes the health conditions. *)
Definition healthy (m : Machine) : Prop :=
  m_IsTrue m RKE2ControlPlaneMachineAgentHealthyCondition = true ∧
  m_IsTrue m RKE2ControlPlaneMachineEtcdMemberHealthyCondition = true.

Lemma preflightCheckCondition_None m t :
  preflightCheckCondition m t = None ↔ m_IsTrue m t = true.
Proof.
  unfold preflightCheckCondition, m_IsTrue, conditions_IsTrue, m_condition.
  destruct (conditions_Get _ t) as [c|]; [|done].
  rewrite bool_decide_eq_true. by destruct (cond_Status c).
Qed.

Definition excluded (excludeFor : list Machine) (m : Machine) : Prop :=
  ∃ e, e ∈ excludeFor ∧ m_Name m = m_Name e.

Lemma machineErrors_nil excludeFor m :
  machineErrors excludeFor m = [] ↔ excluded excludeFor m ∨ healthy m.
Proof.
  unfold machineErrors, excluded, healthy.
  destruct (existsb _ excludeFor) eqn:E.
  - apply existsb_elem_of in E as (e & He & Hn). apply bool_decide_eq_true in Hn.
    split; [|done]. intros _. left. eauto.
  - assert (¬ ∃ e, e ∈ excludeFor ∧ m_Name m = m_Name e) as Hne.
    { intros (e & He & Hn). assert (existsb (λ e, bool_decide (m_Name m = m_Name e)) excludeFor = true).
      { apply existsb_elem_of. exists e. by rewrite bool_decide_eq_true. } congruence. }
    rewrite <-!preflightCheckCondition_None. simpl.
    destruct (preflightCheckCondition m RKE2ControlPlaneMachineAgentHealthyCondition),
      (preflightCheckCondition m RKE2ControlPlaneMachineEtcdMemberHealthyCondition); naive_solver.
Qed.

Lemma HasDeletingMachine_true c :
  HasDeletingMachine c = true ↔
  ∃ n m, cp_Machines c !! n = Some m ∧ HasDeletionTimestamp m = true.
Proof.
  unfold HasDeletingMachine. rewrite bool_decide_eq_true. apply Filter_pos.
Qed.

Lemma concat_map_nil {A B} (f : A → list B) l :
  concat (map f l) = [] ↔ ∀ x, x ∈ l → f x = [].
Proof.
  induction l as [|x l IH]; simpl; [set_solver|].
  rewrite app_nil, IH. set_solver.
Qed.

(** The control plane is stable, the excluded machines aside. *)
Definition stable (excludeFor : list Machine) (c : ControlPlane) : Prop :=
  (∀ n m, cp_Machines c !! n = Some m → HasDeletionTimestamp m = false) ∧
  (∀ n m, cp_Machines c !! n = Some m → excluded excludeFor m ∨ healthy m).

(** [preflightChecks] never fails and makes no call; it changes at most the
    preflight results. *)
Lemma preflightChecks_run excludeFor w :
  ∃ r p, preflightChecks excludeFor w =
           (Ok r, w_with_cp (cp_with_preflight p (w_cp w)) w) ∧
  (Result_IsZero r = true ↔ cp_Machines (w_cp w) = ∅ ∨ stable excludeFor (w_cp w)) ∧
  p = (if decide (cp_Machines (w_cp w) ≠ ∅) then
         if HasDeletingMachine (w_cp w)
         then preflight_with_deleting (cp_PreflightCheckResults (w_cp w))
         else cp_PreflightCheckResults (w_cp w)
       else cp_PreflightCheckResults (w_cp w)).
Proof.
  unfold preflightChecks, mbind, comp_bind. cbn [get_cp gets].
  assert (∀ r, (mret r : M Result) w =
    (Ok r, w_with_cp (cp_with_preflight (cp_PreflightCheckResults (w_cp w)) (w_cp w)) w)) as Hid.
  { intros r. by destruct w as [[] ? ?]. }
  destruct (decide (size (cp_Machines (w_cp w)) = 0)) as [Hz|Hz].
  { apply map_size_empty_inv in Hz. rewrite Hid. do 2 eexists. split; [done|].
    split; [naive_solver|]. by case_decide. }
  assert (cp_Machines (w_cp w) ≠ ∅) as Hne by (intros He; by rewrite He, map_size_empty in Hz).
  rewrite (decide_True _ _ Hne). destruct (HasDeletingMachine (w_cp w)) eqn:Ed.
  { do 2 eexists. split; [done|]. split; [|done]. simpl. split; [done|].
    intros [?|[Hnd _]]; [done|]. apply HasDeletingMachine_true in Ed as (n & m & Hm & Hd).
    rewrite (Hnd n m Hm) in Hd. done. }
  assert (∀ n m, cp_Machines (w_cp w) !! n = Some m → HasDeletionTimestamp m = false) as Hnd.
  { intros n m Hm. destruct (HasDeletionTimestamp m) eqn:E; [|done].
    assert (HasDeletingMachine (w_cp w) = true) by (apply HasDeletingMachine_true; eauto). congruence. }
  assert (concat (map (λ kv, machineErrors excludeFor kv.2) (go_range 239 (cp_Machines (w_cp w)))) = []
          ↔ ∀ n m, cp_Machines (w_cp w) !! n = Some m → excluded excludeFor m ∨ healthy m) as He.
  { rewrite concat_map_nil. split.
    - intros Hx n m Hm. apply machineErrors_nil, (Hx (n, m)). by apply elem_of_go_range.
    - intros Hx [n m] Hm. apply machineErrors_nil, (Hx n). by apply elem_of_go_range in Hm. }
  destruct (concat _) as [|e es] eqn:Ec; simpl; rewrite Hid; do 2 eexists; (split; [done|]);
    (split; [|done]); simpl; unfold stable; naive_solver.
Qed.
End scale_lemmas.

Section selection.
Context `{CapiConsts, CollLib, CondLib, SetsLib, MetaLib, ServerJson, GoSort, GoRange, EV : Env}.

Lemma FailureDomainWithMostMachines_inhabited c (ms : Machines) :
  ms ≠ ∅ → ∃ fd, FailureDomainWithMostMachines c ms = Ok fd ∧
    ∃ n m, ms !! n = Some m ∧ msp_FailureDomain (m_Spec m) = fd.
Proof.
  intros Hne. unfold FailureDomainWithMostMachines. case_decide as Hs.
  - destruct (Oldest_some _ (proj1 (size_pos_ne _) Hs)) as [m Hm]. rewrite Hm.
    apply Oldest_spec in Hm as [[n Hn] _]. apply Filter_spec in Hn as [Hn _]. eauto 6.
  - eexists. split; [done|]. eapply PickMost_spec; [done|].
    apply size_pos_ne, size_pos in Hne as (n & m & Hm). exists n, m. split; [done|].
    destruct (decide (msp_FailureDomain (m_Spec m) ∈ map fd_Name (elems (FailureDomains c))))
      as [|Hnot]; [done|].
    exfalso. apply Hs, Filter_pos. exists n, m. split; [done|].
    unfold coll_Not. by rewrite InFailureDomains_spec, bool_decide_eq_false_2.
Qed.

(** The oldest machine of a failure domain of [ms]. *)
Definition oldest_of_domain (ms : Machines) (m : Machine) : Prop :=
  (∃ n, ms !! n = Some m) ∧
  ∀ n m', ms !! n = Some m' → msp_FailureDomain (m_Spec m') = msp_FailureDomain (m_Spec m) →
    (m_CreationTimestamp m ≤ m_CreationTimestamp m')%Z.

Lemma MachineInFailureDomain_total c (ms : Machines) :
  ms ≠ ∅ → ∃ m, MachineInFailureDomainWithMostMachines c ms = Ok m ∧ oldest_of_domain ms m.
Proof.
  intros Hne. unfold MachineInFailureDomainWithMostMachines.
  destruct (FailureDomainWithMostMachines_inhabited c ms Hne) as (fd & -> & n & m & Hm & Hfd).
  simpl. destruct (Oldest_some (coll_Filter (InFailureDomains [fd]) ms)) as [m' Hm'].
  { apply size_pos_ne, Filter_pos. exists n, m. split; [done|].
    rewrite InFailureDomains_spec. by apply bool_decide_eq_true, list_elem_of_singleton. }
  rewrite Hm'. apply Oldest_spec in Hm' as [[n' Hn'] Hold].
  apply Filter_spec in Hn' as [Hn' Hd']. rewrite InFailureDomains_spec, bool_decide_eq_true in Hd'.
  apply list_elem_of_singleton in Hd'. eexists. split; [done|]. split; [eauto|].
  intros n2 m2 Hm2 Hfd2. apply (Hold n2), Filter_spec. split; [done|].
  rewrite InFailureDomains_spec. apply bool_decide_eq_true, list_elem_of_singleton. congruence.
Qed.

Definition has_delete_annotation (m : Machine) : Prop :=
  is_Some (map_get (m_Annotations m) DeleteMachineAnnotation).

Lemma MachineWithDeleteAnnotation_lookup ms n m :
  MachineWithDeleteAnnotation ms !! n = Some m ↔ ms !! n = Some m ∧ has_delete_annotation m.
Proof.
  unfold MachineWithDeleteAnnotation. rewrite Filter_spec, HasAnnotationKey_spec.
  by rewrite bool_decide_eq_true.
Qed.

Lemma MachineWithDeleteAnnotation_pos ms :
  (0 < size (MachineWithDeleteAnnotation ms))%nat ↔
  ∃ n m, ms !! n = Some m ∧ has_delete_annotation m.
Proof. rewrite size_pos. by setoid_rewrite MachineWithDeleteAnnotation_lookup. Qed.

Definition some_machine (P : Machine → Prop) (ms : Machines) : Prop :=
  ∃ n m, ms !! n = Some m ∧ P m.

(** Where the machine to go comes from, in this order: outdated and annotated
    for deletion, annotated, outdated, not ready, any. *)
Definition scale_down_candidate (c : ControlPlane) (outdated : Machines) (m : Machine) : Prop :=
  let all := cp_Machines c in
  (some_machine has_delete_annotation outdated →
     (∃ n, outdated !! n = Some m) ∧ has_delete_annotation m) ∧
  (¬ some_machine has_delete_annotation outdated → some_machine has_delete_annotation all →
     (∃ n, all !! n = Some m) ∧ has_delete_annotation m) ∧
  (¬ some_machine has_delete_annotation outdated → ¬ some_machine has_delete_annotation all →
     outdated ≠ ∅ → ∃ n, outdated !! n = Some m) ∧
  (outdated = ∅ → ¬ some_machine has_delete_annotation all →
     some_machine (λ m, IsReady m = false) all →
     (∃ n, all !! n = Some m) ∧ IsReady m = false) ∧
  ((∃ n, outdated !! n = Some m) ∨ ∃ n, all !! n = Some m).

(** The machine selected for scale down.  As long as the control plane has a
    machine the selection succeeds; it takes the machine from the first
    non-empty of: outdated machines annotated for deletion, machines annotated
    for deletion, outdated machines, machines that are not ready, all machines;
    and among the candidates in its failure domain the machine is the oldest. *)
Theorem selectMachineForScaleDown_spec c outdated :
  cp_Machines c ≠ ∅ →
  ∃ m, selectMachineForScaleDown c outdated = Ok m ∧ scale_down_candidate c outdated m ∧
    ∃ candidates, oldest_of_domain candidates m ∧
      (candidates ⊆ outdated ∨ candidates ⊆ cp_Machines c).
Proof.
  intros Hne. unfold selectMachineForScaleDown. cbn zeta.
  set (sel := if decide (0 < size (MachineWithDeleteAnnotation outdated))%nat then _ else _).
  assert (sel ≠ ∅ ∧ (sel ⊆ outdated ∨ sel ⊆ cp_Machines c) ∧
          ∀ m, (∃ n, sel !! n = Some m) → scale_down_candidate c outdated m) as (Hs & Hsub & Hc).
  { unfold sel, scale_down_candidate, some_machine.
    setoid_rewrite <-MachineWithDeleteAnnotation_pos.
    case_decide as H1'; [|case_decide as H2'; [|case_decide as H3'; [|case_decide as H4']]];
      (split_and!; [first [by apply size_pos_ne|done]| | intros m [n Hn]]).
    - left. apply Filter_subseteq.
    - apply MachineWithDeleteAnnotation_lookup in Hn as [? ?]. split_and!; eauto; try tauto.
      intros ->. apply MachineWithDeleteAnnotation_pos in H1' as (? & ? & Hx & _).
      by rewrite lookup_empty in Hx.
    - right. apply Filter_subseteq.
    - apply MachineWithDeleteAnnotation_lookup in Hn as [? ?]. split_and!; eauto; tauto.
    - by left.
    - split_and!; eauto; try tauto. intros ->. by rewrite lookup_empty in Hn.
    - right. apply Filter_subseteq.
    - apply Filter_spec in Hn as [? Hr]. apply negb_true_iff in Hr. split_and!; eauto; try tauto.
      intros _ _ Ho. by apply size_pos_ne in Ho.
    - by right.
    - split_and!; eauto; try tauto.
      + intros _ _ Ho. by apply size_pos_ne in Ho.
      + intros _ _ (n' & m' & Hm' & Hr). exfalso. apply H4', Filter_pos.
        exists n', m'. split; [done|]. unfold coll_Not. by rewrite Hr. }
  destruct (MachineInFailureDomain_total c sel Hs) as (m & Hm & Ho).
  exists m. split_and!; [done| |by exists sel]. apply Hc, Ho.
Qed.
End selection.

Section scale_claims.
Context `{CapiConsts, CollLib, CondLib, SetsLib, MetaLib, ServerJson, GoSort, GoRange, EV : Env}.

(** The preflight checks pass (the zero result) exactly when the control
    plane has no machine yet, or no machine is being deleted and every machine
    that is not excluded has both health conditions true.  They make no call
    and change nothing but the flag that reports a deleting machine. *)
Theorem preflightChecks_spec excludeFor w :
  ∃ r w', preflightChecks excludeFor w = (Ok r, w') ∧
  (Result_IsZero r = true ↔ cp_Machines (w_cp w) = ∅ ∨ stable excludeFor (w_cp w)) ∧
  w_calls w' = w_calls w ∧ cp_Machines (w_cp w') = cp_Machines (w_cp w) ∧
  cp_RCP (w_cp w') = cp_RCP (w_cp w) ∧
  pf_HasDeletingMachine (cp_PreflightCheckResults (w_cp w')) =
    pf_HasDeletingMachine (cp_PreflightCheckResults (w_cp w)) || HasDeletingMachine (w_cp w).
Proof.
  destruct (preflightChecks_run excludeFor w) as (r & p & Hrun & Hz & Hp).
  do 2 eexists. split_and!; [exact Hrun|done..|]. simpl. rewrite Hp.
  destruct (HasDeletingMachine (w_cp w)) eqn:Ed.
  - apply HasDeletingMachine_true in Ed as (n & m & Hm & _).
    rewrite decide_True; [by rewrite orb_true_r|]. intros He. by rewrite He, lookup_empty in Hm.
  - rewrite orb_false_r. by case_decide.
Qed.

(** The two functions that compute the desired Machine agree on every input
    whenever the control plane's name is a valid label value, so that a machine
    kept in step by the controller is never reported out of date by the check;
    for a longer name they always differ in the control plane name label. *)
Theorem computeDesiredMachine_agree rcp cluster infraRef bootstrapRef fd existing w :
  let controller := computeDesiredMachine rcp cluster infraRef bootstrapRef fd existing w in
  let check := ComputeDesiredMachine rcp cluster infraRef bootstrapRef fd existing w in
  (MustFormatValue (rcp_Name rcp) = rcp_Name rcp → controller = check) ∧
  ∃ m m', controller.1 = Ok m ∧ check.1 = Ok m' ∧
    map_get (om_Labels (m_ObjectMeta m)) MachineControlPlaneNameLabel =
      Some (MustFormatValue (rcp_Name rcp)) ∧
    map_get (om_Labels (m_ObjectMeta m')) MachineControlPlaneNameLabel = Some (rcp_Name rcp).
Proof.
  cbn zeta. unfold computeDesiredMachine, ComputeDesiredMachine, mbind, comp_bind.
  destruct (server_json (sp_ServerConfig (rcp_Spec rcp))) as (b & Hb & _).
  unfold ControlPlaneMachineLabelsForCluster, ControlPlaneMachineLabels.
  destruct existing as [m|]; [|cbn [fresh_name]; unfold wrap, lift; rewrite Hb]; simpl;
    (split; [by intros ->|]); do 2 eexists; (split_and!; [done|done|..]); simpl;
    by rewrite lookup_insert_eq.
Qed.

(** The machine [createMachine] sends: computed from the control plane, with the
    references to the objects created for it. *)
Definition created_machine (rcp : RKE2ControlPlane) (cluster : Cluster)
    (infraRef bootstrapRef : ContractVersionedObjectReference) (fd : string) (m : Machine) : Prop :=
  msp_InfrastructureRef (m_Spec m) = infraRef ∧ msp_ConfigRef (m_Spec m) = bootstrapRef ∧
  msp_FailureDomain (m_Spec m) = fd ∧ msp_Version (m_Spec m) = sp_Version (rcp_Spec rcp) ∧
  om_OwnerReferences (m_ObjectMeta m) = [NewControllerRef rcp] ∧
  HasPrefix (m_Name m) (rcp_Name rcp +:+ "-") = true ∧
  map_get (m_Annotations m) PreTerminateHookCleanupAnnotation = Some "" ∧
  fresh_server_annotation rcp m.

Lemma computeDesiredMachine_created rcp cluster infraRef bootstrapRef fd w :
  ∃ m w', computeDesiredMachine rcp cluster infraRef bootstrapRef fd None w = (Ok m, w') ∧
    w_calls w' = w_calls w ∧ created_machine rcp cluster infraRef bootstrapRef fd m.
Proof.
  unfold computeDesiredMachine, mbind, comp_bind. cbn [fresh_name]. unfold wrap, lift.
  destruct (server_json (sp_ServerConfig (rcp_Spec rcp))) as (b & Hb & _). rewrite Hb. simpl.
  do 2 eexists. split; [done|]. split; [done|].
  assert (PreTerminateHookCleanupAnnotation ≠ RKE2ServerConfigurationAnnotation) as Hne.
  { by apply (NoDup_lookup_ne _ 9 8 _ _ annotations_distinct). }
  split_and!; try done; simpl.
  - apply GenerateName_prefix.
  - unfold map_copy. simpl. by rewrite lookup_union, lookup_insert_eq, union_Some_l.
  - exists b. split; [done|]. simpl. unfold map_copy. simpl.
    rewrite lookup_union, lookup_insert_ne, lookup_insert_eq by done. by rewrite union_Some_l.
Qed.
End scale_claims.

Section cloning.
Context `{CapiConsts, CollLib, CondLib, SetsLib, MetaLib, ServerJson, GoSort, GoRange, EV : Env}.

(** One call, followed by its answer. *)
Lemma api_cases c w :
  (∃ e, ask (w_calls w) c = inl e ∧
        api c w = (Err e, Build_World (w_cp w) (c :: w_calls w) (w_names w))) ∨
  (∃ a, ask (w_calls w) c = inr a ∧
        api c w = (Ok a, Build_World (w_cp w) (c :: w_calls w) (w_names w))).
Proof. unfold api. destruct (ask (w_calls w) c) as [e|a]; [left|right]; eauto. Qed.

Lemma createMachine_run rcp cluster infraRef bootstrapRef fd w :
  ∃ m w', created_machine rcp cluster infraRef bootstrapRef fd m ∧
    w_calls w' = CApplyMachine m :: w_calls w ∧
    ((∃ e, createMachine rcp cluster infraRef bootstrapRef fd w = (Err e, w')) ∨
     createMachine rcp cluster infraRef bootstrapRef fd w = (Ok tt, w')).
Proof.
  unfold createMachine, mbind, comp_bind, wrap.
  destruct (computeDesiredMachine_created rcp cluster infraRef bootstrapRef fd w)
    as (m & w1 & -> & Hc & Hm).
  destruct (api_cases (CApplyMachine m) w1) as [(e & _ & ->)|(a & _ & ->)];
    exists m; eexists; (split; [exact Hm|]); (split; [|eauto]); simpl; by rewrite Hc.
Qed.

Lemma generateRKE2Config_run rcp cluster spec w :
  ∃ cfg w', w_calls w' = CCreateRKE2Config cfg :: w_calls w ∧
    cfg_Spec cfg = spec ∧ om_OwnerReferences (cfg_ObjectMeta cfg) = [rcp_owner rcp] ∧
    ((∃ e, generateRKE2Config rcp cluster spec w = (Err e, w')) ∨
     generateRKE2Config rcp cluster spec w =
       (Ok (cfg, Build_ContractVersionedObjectReference bootstrapv1_Group "RKE2Config" (cfg_Name cfg)), w')).
Proof.
  unfold generateRKE2Config, mbind, comp_bind. cbn [fresh_name]. unfold wrap. cbn zeta.
  match goal with |- context [api (CCreateRKE2Config ?cfg) ?w1] =>
    exists cfg, (Build_World (w_cp w1) (CCreateRKE2Config cfg :: w_calls w1) (w_names w1));
    destruct (api_cases (CCreateRKE2Config cfg) w1) as [(e & _ & ->)|(a & _ & ->)] end;
    (split_and!; [done|done|done|]); eauto.
Qed.

Lemma cleanupFromGeneration_run infra cfg w :
  ∃ errs w', cleanupFromGeneration infra cfg w = (Ok errs, w') ∧
    w_calls w' = CDeleteRKE2Config cfg :: CDeleteInfra infra :: w_calls w.
Proof.
  unfold cleanupFromGeneration, mbind, comp_bind, try. cbn zeta.
  destruct (api_cases (CDeleteInfra infra) w) as [(e & _ & ->)|(a & _ & ->)]; cbn [mret comp_ret];
    cbn beta iota; match goal with |- context [api (CDeleteRKE2Config cfg) ?w1] =>
      destruct (api_cases (CDeleteRKE2Config cfg) w1) as [(e' & _ & ->)|(a' & _ & ->)] end;
    do 2 eexists; split; reflexivity.
Qed.

(** The clone of the infrastructure template. *)
Definition clone_call (rcp : RKE2ControlPlane) (cluster : Cluster) (apiVersion : string) : Call :=
  CCreateFromTemplate apiVersion (cv_Kind (template_infra_ref rcp))
    (cv_Name (template_infra_ref rcp)) (rcp_Namespace rcp) (cl_Name cluster)
    (ControlPlaneLabelsForCluster (cl_Name cluster)) (rcp_owner rcp).

(** C38: creating a control plane machine.  When it succeeds, exactly the
    infrastructure object, the bootstrap configuration and the machine were
    created, and the machine refers to the other two, is owned by the control
    plane, has the desired version and carries the pre-terminate hook.  When it
    fails after the infrastructure object was created, the infrastructure object
    and the bootstrap configuration are both deleted again; when already creating
    the bootstrap configuration fails, the second deletion is of a nil object. *)
Theorem cloneConfigsAndGenerateMachine_spec cluster rcp spec fd w :
  let run := cloneConfigsAndGenerateMachine cluster rcp spec fd w in
  ∃ l, w_calls run.2 = l ++ w_calls w ∧
  match run.1 with
  | Ok _ => ∃ m cfg infra infraRef get v t,
      l = [CApplyMachine m; CCreateRKE2Config cfg; clone_call rcp cluster v; get] ∧
      ask t (clone_call rcp cluster v) = inr (infra, infraRef) ∧ cfg_Spec cfg = spec ∧
      created_machine rcp cluster infraRef
        (Build_ContractVersionedObjectReference bootstrapv1_Group "RKE2Config" (cfg_Name cfg)) fd m
  | Err _ =>
      (∃ get, l = [get]) ∨ (∃ get v t e, l = [clone_call rcp cluster v; get] ∧
         ask t (clone_call rcp cluster v) = inl e) ∨
      (∃ get v infra infraRef t cfg,
         l = [CDeleteRKE2Config None; CDeleteInfra infra; CCreateRKE2Config cfg;
              clone_call rcp cluster v; get] ∧
         ask t (clone_call rcp cluster v) = inr (infra, infraRef)) ∨
      (∃ get v infra infraRef t cfg m,
         l = [CDeleteRKE2Config (Some cfg); CDeleteInfra infra; CApplyMachine m;
              CCreateRKE2Config cfg; clone_call rcp cluster v; get] ∧
         ask t (clone_call rcp cluster v) = inr (infra, infraRef))
  | Panic _ => False
  end.
Proof.
  cbn zeta. unfold cloneConfigsAndGenerateMachine, mbind, comp_bind, mret, comp_ret, wrap, try.
  cbn zeta.
  destruct (api_cases (CGetAPIVersion (cv_APIGroup (template_infra_ref rcp))
    (cv_Kind (template_infra_ref rcp))) w) as [(e & _ & ->)|(v & _ & ->)].
  { eexists [_]. split; [reflexivity|]. cbn. left. by eexists. }
  match goal with |- context [api (CCreateFromTemplate ?x1 ?x2 ?x3 ?x4 ?x5 ?x6 ?x7) ?w1] =>
    change (CCreateFromTemplate x1 x2 x3 x4 x5 x6 x7) with (clone_call rcp cluster v);
    destruct (api_cases (clone_call rcp cluster v) w1)
      as [(e1 & Hask & Hrun)|(a & Hask & Hrun)];
      [|cbn in a; destruct a as [infra infraRef]]; rewrite Hrun; clear Hrun end.
  { eexists [_; _]. split; [reflexivity|]. cbn. right. left. do 4 eexists. split; [reflexivity|exact Hask]. }
  match goal with |- context [generateRKE2Config rcp cluster spec ?w1] =>
    destruct (generateRKE2Config_run rcp cluster spec w1)
      as (cfg & w2 & Hc & Hspec & _ & [[e2 ->]| ->]) end; simpl in Hc; cbn beta iota.
  { destruct (cleanupFromGeneration_run infra None w2) as (errs & w3 & -> & Hc3).
    eexists [_; _; _; _; _]. split; [cbn; by rewrite Hc3, Hc|]. cbn. right. right. left.
    do 6 eexists. split; [reflexivity|exact Hask]. }
  match goal with |- context [createMachine rcp cluster infraRef ?r fd w2] =>
    destruct (createMachine_run rcp cluster infraRef r fd w2)
      as (m & w3 & Hm & Hc3 & [[e3 ->]| ->]) end; cbn beta iota.
  - destruct (cleanupFromGeneration_run infra (Some cfg) w3) as (errs & w4 & -> & Hc4).
    eexists [_; _; _; _; _; _]. split; [cbn; by rewrite Hc4, Hc3, Hc|]. cbn.
    right. right. right. do 7 eexists. split; [reflexivity|exact Hask].
  - eexists [_; _; _; _]. split; [cbn; by rewrite Hc3, Hc|]. cbn.
    exists m, cfg, infra, infraRef. do 3 eexists. split_and!; [reflexivity|exact Hask|done|done].
Qed.
End cloning.

Section scale_down.
Context `{CapiConsts, CollLib, CondLib, SetsLib, MetaLib, ServerJson, GoSort, GoRange, EV : Env}.

Lemma GetWorkloadCluster_no_delete : emits no_delete GetWorkloadCluster.
Proof.
  unfold GetWorkloadCluster. emits_auto.
Qed.

Lemma ForwardEtcdLeadership_no_delete wl m k : emits no_delete (ForwardEtcdLeadership wl m k).
Proof.
  unfold ForwardEtcdLeadership, getControlPlaneNodes.
  assert (∀ c, match c with
               | CEtcdDial _ | CEtcdStatus _ | CEtcdMemberList _ | CEtcdAlarmList _
               | CEtcdClose _ | CListNodes => True
               | _ => False
               end → no_delete c) as Hread by (by intros []).
  destruct m as [m|]; [|emits_auto]. destruct (NodeRef_IsDefined m); [|emits_auto].
  destruct k as [k|]; [|emits_auto]. destruct (NodeRef_IsDefined k); [|emits_auto].
  destruct (wl_etcd wl); [|emits_auto]. apply yields_emits.
  eapply yields_bind; [yields_call; done|]. intros nodes _.
  eapply yields_bind; [apply yields_wrap, ForLeader_yields, Hread|].
  intros c _. apply with_client_yields; [done|].
  eapply yields_bind; [apply yields_wrap, Members_yields, Hread|]. intros ms _.
  apply yields_emits. unfold MoveLeader. emits_auto.
Qed.

End scale_down.

(** A control plane of two machines, the older one annotated for deletion. *)
Definition demo_marked : Machine :=
  m_with_annotations (Some {[ DeleteMachineAnnotation := "" ]}) (demo_machine_at "m1" "cp-1" 1%Z).
Definition demo_scale_cp : ControlPlane :=
  demo_cp (demo_rcp 1 true) [demo_marked; demo_machine_at "m2" "cp-2" 2%Z].

Lemma selectMachineForScaleDown_spec_witness :
  ∃ m, selectMachineForScaleDown demo_scale_cp ∅ = Ok m ∧
    scale_down_candidate demo_scale_cp ∅ m ∧
    ∃ candidates, oldest_of_domain candidates m ∧
      (candidates ⊆ ∅ ∨ candidates ⊆ cp_Machines demo_scale_cp).
Proof. apply (selectMachineForScaleDown_spec demo_scale_cp ∅). by vm_compute. Defined.
