(* ===== verification/Remediation.v ===== *)
(** * Remediation of unhealthy machines
    (controlplane/internal/controllers/remediation.go)

    Which unhealthy machine to replace, whether retry limits and etcd quorum
    allow it, and the handler that deletes it. *)

From Stdlib Require Import Ascii.
From stdpp Require Import base tactics option list gmap strings numbers sorting.
From S2P Require Import Prelude Go Api Objects Libs World Hooks Etcd Desired ControlPlane Scale Demo.
Open Scope string_scope.
Open Scope list_scope.
Open Scope stdpp_scope.

Definition genericErrorMessage : string := "Please check controller logs for errors".

(** ** RemediationData *)

Record RemediationData := { rd_Machine : string; rd_Timestamp : Time; rd_RetryCount : Z }.
#[global] Instance RemediationData_eq_dec : EqDecision RemediationData.
Proof. solve_decision. Defined.

(** [metav1.Time] is written in whole seconds. *)
Definition truncate_second (t : Time) : Time := (t `div` Second * Second)%Z.
Definition rd_truncate (d : RemediationData) : RemediationData :=
  {| rd_Machine := rd_Machine d; rd_Timestamp := truncate_second (rd_Timestamp d);
     rd_RetryCount := rd_RetryCount d |}.

(** January 1, year 10000: RFC 3339 has four digits for the year. *)
Definition end_of_rfc3339 : Time := (3652059 * 24 * Hour)%Z.
Definition ascii_only (s : string) : bool :=
  forallb (λ c, bool_decide (N_of_ascii c < 128)%N) (String.list_ascii_of_string s).

(** [encoding/json] on [RemediationData]. *)
Class RemediationJson := {
  json_MarshalRemediation : RemediationData → outcome string;
  json_UnmarshalRemediation : string → outcome RemediationData;
  remediation_json d :
    ascii_only (rd_Machine d) = true → (0 ≤ rd_Timestamp d < end_of_rfc3339)%Z →
    ∃ b, json_MarshalRemediation d = Ok b ∧ json_UnmarshalRemediation b = Ok (rd_truncate d)
}.

Section data.
Context `{RemediationJson}.

Definition RemediationDataFromAnnotation (value : string) : outcome RemediationData :=
  match json_UnmarshalRemediation value with
  | Err err => Err (EWrap "failed to unmarshal value" err)
  | o => o
  end.

Definition RemediationData_Marshal (r : RemediationData) : outcome string :=
  match json_MarshalRemediation r with
  | Err err => Err (EWrap "failed to marshal value" err)
  | o => o
  end.

Definition RemediationData_ToStatus (r : RemediationData) : LastRemediationStatus :=
  {| lr_Machine := rd_Machine r; lr_Timestamp := rd_Timestamp r; lr_RetryCount := rd_RetryCount r |}.
End data.

Section remediation.
Context `{CapiConsts, CollLib, CondLib, SetsLib, MetaLib, ServerJson, RemediationJson,
          GoSort, GoRange, Clock, EV : Env}.

(** ** Which machine *)

(** [annotations.HasRemediateMachine]. *)
Definition HasRemediateMachine (m : Machine) : bool :=
  bool_decide (is_Some (map_get (m_Annotations m) RemediateMachineAnnotation)).

Definition pickMachineToBeRemediatedByConditionState (i j : Machine) (conditionType : string) :
    option bool :=
  let iCondition := m_IsTrue i conditionType in
  let jCondition := m_IsTrue j conditionType in
  if negb iCondition && jCondition then Some true
  else if iCondition && negb jCondition then Some false
  else None.

Definition pickMachineToBeRemediated (isEtcdManaged : bool) (i j : Machine) : bool :=
  if HasRemediateMachine i && negb (HasRemediateMachine j) then true
  else if negb (HasRemediateMachine i) && HasRemediateMachine j then false
  else if NodeRef_IsDefined i && NodeRef_IsDefined j then true
  else if NodeRef_IsDefined i && NodeRef_IsDefined j then false
  else
    let byAgent :=
      match pickMachineToBeRemediatedByConditionState i j RKE2ControlPlaneMachineAgentHealthyCondition with
      | Some p => p
      | None =>
          if Time_Equal (m_CreationTimestamp i) (m_CreationTimestamp j)
          then str_lt (m_Name i) (m_Name j)
          else Time_Before (m_CreationTimestamp i) (m_CreationTimestamp j)
      end in
    if isEtcdManaged then
      match pickMachineToBeRemediatedByConditionState i j
              RKE2ControlPlaneMachineEtcdMemberHealthyCondition with
      | Some p => p
      | None => byAgent
      end
    else byAgent.

Definition getMachineToBeRemediated (unhealthyMachines : Machines) (isEtcdManaged : bool) :
    option Machine :=
  if decide (size unhealthyMachines = 0) then None
  else
    let machinesToBeRemediated := map snd (go_range 379 unhealthyMachines) in
    if decide (length machinesToBeRemediated = 1) then head machinesToBeRemediated
    else head (go_sort (pickMachineToBeRemediated isEtcdManaged) machinesToBeRemediated).

(** ** Retry limits *)

(** [conditions.Set(machine, OwnerRemediated False ...)]. *)
Definition set_remediated (m : Machine) (reason message : string) : M unit :=
  machine_set_condition (m_Name m)
    (mkCond MachineOwnerRemediatedCondition ConditionFalse reason message).

Definition checkRetryLimits (machineToBeRemediated : Machine) (reconciliationTime : Time) :
    M (RemediationData * bool) :=
  c ← get_cp;
  let strategy := sp_RemediationStrategy (rcp_Spec (cp_RCP c)) in
  lastRemediationData ←
    match map_get (m_Annotations machineToBeRemediated) RemediationForAnnotation with
    | Some value => l ← lift (RemediationDataFromAnnotation value); mret (Some l)
    | None => mret None
    end;
  let first := {| rd_Machine := m_Name machineToBeRemediated;
                  rd_Timestamp := reconciliationTime; rd_RetryCount := 0%Z |} in
  match lastRemediationData with
  | None => mret (first, true)
  | Some last =>
      let minHealthyPeriod := default DefaultMinHealthyPeriod (strategy ≫= rem_MinHealthyPeriod) in
      let retryPeriod := match strategy with Some s => rem_RetryPeriod s | None => 0%Z end in
      let lastRemediationTime :=
        if Time_IsZero (rd_Timestamp last)
        then Time_Add reconciliationTime (wrap64 (-2 * Z.max minHealthyPeriod retryPeriod))
        else rd_Timestamp last in
      if Time_After (Time_Add lastRemediationTime minHealthyPeriod) reconciliationTime then
        let data := {| rd_Machine := rd_Machine first; rd_Timestamp := rd_Timestamp first;
                       rd_RetryCount := rd_RetryCount last |} in
        if Time_After (Time_Add lastRemediationTime retryPeriod) reconciliationTime then
          _ ← set_remediated machineToBeRemediated RKE2ControlPlaneMachineCannotBeRemediatedReason
                ("RKE2ControlPlane can't remediate this machine because the operation already failed in the latest "
                 +:+ Duration_String retryPeriod +:+ " (RetryPeriod)");
          mret (data, false)
        else
          let reached :=
            match strategy ≫= rem_MaxRetry with
            | Some maxRetry => if decide (maxRetry ≤ rd_RetryCount data)%Z then Some maxRetry else None
            | None => None
            end in
          match reached with
          | Some maxRetry =>
              _ ← set_remediated machineToBeRemediated RKE2ControlPlaneMachineCannotBeRemediatedReason
                    ("RKE2ControlPlane can't remediate this machine because the operation already failed "
                     +:+ fmt_d maxRetry +:+ " times (MaxRetry)");
              mret (data, false)
          | None =>
              mret ({| rd_Machine := rd_Machine data; rd_Timestamp := rd_Timestamp data;
                       rd_RetryCount := wrap64 (rd_RetryCount data + 1) |}, true)
          end
      else mret (first, true)
  end.

(** ** etcd quorum *)

(** The machine of an etcd member: the first one the loop over the map meets. *)
Definition machine_for_member (c : ControlPlane) (etcdMember : string) : option Machine :=
  snd <$> List.find (λ '(_, m), NodeRef_IsDefined m && bool_decide (mst_NodeRef (m_Status m) = etcdMember))
            (go_range 622 (cp_Machines c)).

(** [targetTotalMembers] and [targetUnhealthyMembers]. *)
Definition project_members (c : ControlPlane) (machineToBeRemediated : Machine)
    (etcdMembers : list string) : nat * nat :=
  foldl (λ '(total, unhealthy) etcdMember,
    if NodeRef_IsDefined machineToBeRemediated &&
       bool_decide (mst_NodeRef (m_Status machineToBeRemediated) = etcdMember)
    then (total, unhealthy)
    else
      match machine_for_member c etcdMember with
      | None => (S total, S unhealthy)
      | Some machine =>
          if negb (m_IsTrue machine RKE2ControlPlaneMachineEtcdMemberHealthyCondition)
          then (S total, S unhealthy)
          else (S total, unhealthy)
      end) (0, 0) etcdMembers.

Definition canSafelyRemoveEtcdMember (machineToBeRemediated : Machine) : M bool :=
  workloadCluster ← wrap "failed to get client for workload cluster" GetWorkloadCluster;
  etcdMembers ← wrap "failed to get etcdStatus for workload cluster" (EtcdMembers workloadCluster);
  c ← get_cp;
  let '(targetTotalMembers, targetUnhealthyMembers) :=
    project_members c machineToBeRemediated etcdMembers in
  let targetQuorum := (targetTotalMembers / 2 + 1)%nat in
  mret (bool_decide (targetQuorum ≤ targetTotalMembers - targetUnhealthyMembers)%nat).

(** ** The handler *)

(** The machine as the store has it now. *)
Definition current (m : Machine) : M Machine :=
  c ← get_cp; mret (default m (cp_Machines c !! m_Name m)).

Definition m_delete_condition (t : string) (m : Machine) : Machine :=
  m_with_conditions (conditions_Delete (mst_Conditions (m_Status m)) t) m.

(** Pending remediations of machines that are healthy again are dropped. *)
Definition cleanupPendingRemediations : M unit :=
  c ← get_cp;
  errList ← for_acc (go_range 60 (cp_Machines c)) [] (λ errList '(name, m),
    if negb (pTime_IsZero (m_DeletionTimestamp m)) then mret errList
    else if m_IsTrue m MachineHealthCheckSucceededCondition && m_IsFalse m MachineOwnerRemediatedCondition then
      r ← try (api (CNewPatchHelper "Machine" (m_Name m)));
      match r with
      | inr err => mret (errList ++ [err])
      | inl _ =>
          let m' := m_delete_condition MachineOwnerRemediatedCondition m in
          _ ← modify_machine name (λ _, m');
          r ← try (api (CPatchMachine m m'));
          mret (match r with
                | inl _ => errList
                | inr err => errList ++ [err; EWrap "failed to patch machine" err]
                end)
      end
    else mret errList);
  match NewAggregate errList with Some e => fail e | None => mret tt end.

(** Whether another remediation is in progress; a stale mark of one is removed. *)
Definition remediationInProgress : M bool :=
  c ← get_cp;
  match map_get (rcp_Annotations (cp_RCP c)) RemediationInProgressAnnotation with
  | None => mret false
  | Some v =>
      remediationData ← lift (RemediationDataFromAnnotation v);
      if existsb (λ kv, Time_After (m_CreationTimestamp kv.2) (rd_Timestamp remediationData))
           (go_range 141 (cp_Machines c)) then
        _ ← modify_rcp (λ r, rcp_with_annotations
              (map_del (rcp_Annotations r) RemediationInProgressAnnotation) r);
        mret false
      else mret true
  end.

(** The checks on an initialized control plane, then the etcd leadership is
    handed over; false is the early return without an error. *)
Definition prepareRemediation (m : Machine) : M bool :=
  c ← get_cp;
  if decide (size (cp_Machines c) ≤ 1)%nat then
    _ ← set_remediated m RKE2ControlPlaneMachineCannotBeRemediatedReason
          "RKE2ControlPlane can't remediate if current replicas are less or equal to 1";
    mret false
  else if HasHealthyMachineStillProvisioning c then
    _ ← set_remediated m RKE2ControlPlaneMachineRemediationDeferredReason
          "RKE2ControlPlane waiting for control plane Machine provisioning to complete before triggering remediation";
    mret false
  else if HasDeletingMachine c then
    _ ← set_remediated m RKE2ControlPlaneMachineRemediationDeferredReason
          "RKE2ControlPlane waiting for control plane Machine deletion to complete before triggering remediation";
    mret false
  else
    let managed := IsEtcdManaged c && UsesEmbeddedEtcd c in
    canSafelyRemediate ←
      (if managed then
         r ← try (canSafelyRemoveEtcdMember m);
         match r with
         | inr err =>
             _ ← set_remediated m InternalErrorReason genericErrorMessage;
             fail err
         | inl b => mret b
         end
       else mret true);
    if negb canSafelyRemediate then
      _ ← set_remediated m RKE2ControlPlaneMachineCannotBeRemediatedReason
            "RKE2ControlPlane can't remediate this Machine because this could result in etcd loosing quorum";
      mret false
    else
      workloadCluster ← wrap "failed to create client to workload cluster" GetWorkloadCluster;
      if managed then
        c ← get_cp;
        match coll_Newest (HealthyMachines c) with
        | None =>
            _ ← set_remediated m RKE2ControlPlaneMachineCannotBeRemediatedReason
                  "RKE2ControlPlane can't remediate this Machine because there is no healthy Machine to forward etcd leadership to";
            mret false
        | Some etcdLeaderCandidate =>
            m' ← current m;
            r ← try (ForwardEtcdLeadership workloadCluster (Some m') (Some etcdLeaderCandidate));
            match r with
            | inl _ => mret true
            | inr err =>
                _ ← set_remediated m InternalErrorReason genericErrorMessage;
                fail err
            end
        end
      else mret true.

Definition deleteForRemediation (m : Machine) (data : RemediationData) : M Result :=
  r ← try (api (CDeleteMachine (m_Name m)));
  match r with
  | inr err =>
      _ ← set_remediated m InternalErrorReason genericErrorMessage;
      fail (EWrap "failed to delete unhealthy machine" err)
  | inl _ =>
      _ ← set_remediated m RKE2ControlPlaneMachineRemediationMachineDeletingReason "Machine is deleting";
      remediationInProgressValue ← lift (RemediationData_Marshal data);
      _ ← modify_rcp (λ r, rcp_with_annotations
            (Some (<[RemediationInProgressAnnotation := remediationInProgressValue]>
                     (default ∅ (rcp_Annotations r)))) r);
      mret requeue
  end.

Definition reconcileUnhealthyMachines : M Result :=
  reconciliationTime ← now;
  _ ← cleanupPendingRemediations;
  c ← get_cp;
  let machinesToBeRemediated := MachinesToBeRemediatedByRCP c in
  if decide (size machinesToBeRemediated = 0) then mret Result_zero
  else
    match getMachineToBeRemediated machinesToBeRemediated (IsEtcdManaged c) with
    | None => fail (EText "failed to find a Machine to remediate within unhealthy Machines")
    | Some machineToBeRemediated =>
        if negb (pTime_IsZero (m_DeletionTimestamp machineToBeRemediated)) then mret Result_zero
        else
          inProgress ← remediationInProgress;
          if (inProgress : bool) then mret Result_zero
          else
            _ ← api (CNewPatchHelper "Machine" (m_Name machineToBeRemediated));
            finally
              ('(remediationInProgressData, canRemediate) ←
                 checkRetryLimits machineToBeRemediated reconciliationTime;
               if negb canRemediate then mret Result_zero
               else
                 go ← (if rcp_initialized (cp_RCP c) then prepareRemediation machineToBeRemediated
                       else mret true);
                 if negb go then mret Result_zero
                 else deleteForRemediation machineToBeRemediated remediationInProgressData)
              (λ o,
                 after ← current machineToBeRemediated;
                 r ← try (api (CPatchMachine machineToBeRemediated after));
                 mret (match r, o with
                       | inr err, Ok _ => Err (EWrap "failed to patch control plane Machine" err)
                       | _, _ => o
                       end))
    end.
End remediation.

(** ** Lemmas *)

Section quorum.
Context `{CapiConsts, CollLib, CondLib, SetsLib, MetaLib, ServerJson, RemediationJson,
          GoSort, GoRange, Clock, EV : Env}.

(** The etcd members that stay when the machine's member is removed. *)
Definition remaining_members (m : Machine) (members : list string) : list string :=
  filter (λ e, ¬ (NodeRef_IsDefined m = true ∧ mst_NodeRef (m_Status m) = e)) members.

Definition seen_healthy (c : ControlPlane) (e : string) : bool :=
  match machine_for_member c e with
  | Some machine => m_IsTrue machine RKE2ControlPlaneMachineEtcdMemberHealthyCondition
  | None => false
  end.

Lemma project_members_count c m members :
  project_members c m members =
  (length (remaining_members m members),
   length (filter (λ e, seen_healthy c e = false) (remaining_members m members))).
Proof.
  unfold project_members.
  assert (∀ t u, foldl (λ '(total, unhealthy) etcdMember,
    if NodeRef_IsDefined m && bool_decide (mst_NodeRef (m_Status m) = etcdMember)
    then (total, unhealthy)
    else match machine_for_member c etcdMember with
      | None => (S total, S unhealthy)
      | Some machine =>
          if negb (m_IsTrue machine RKE2ControlPlaneMachineEtcdMemberHealthyCondition)
          then (S total, S unhealthy) else (S total, unhealthy)
      end) (t, u) members =
    (t + length (remaining_members m members),
     u + length (filter (λ e, seen_healthy c e = false) (remaining_members m members)))%nat) as Hgen;
    [|by rewrite Hgen].
  induction members as [|e l IH]; intros t u; simpl; [f_equal; simpl; lia|].
  unfold remaining_members in *. rewrite filter_cons.
  destruct (NodeRef_IsDefined m && bool_decide _) eqn:E.
  - apply andb_prop in E as [Hd He]. apply bool_decide_eq_true in He.
    rewrite decide_False by tauto. apply IH.
  - rewrite decide_True.
    2:{ intros [Hd He]. by rewrite Hd, bool_decide_eq_true_2 in E. }
    assert (seen_healthy c e = match machine_for_member c e with
      | Some x => m_IsTrue x RKE2ControlPlaneMachineEtcdMemberHealthyCondition
      | None => false
      end) as Hs by done.
    rewrite filter_cons. destruct (machine_for_member c e) as [x|]; [destruct (m_IsTrue x _)|];
      destruct (decide (seen_healthy c e = false)); try congruence; cbn [negb]; rewrite IH; f_equal; simpl; lia.
Qed.

(** No two machines refer to the same node. *)
Definition unique_node_refs (ms : Machines) : Prop :=
  ∀ n1 n2 m1 m2, ms !! n1 = Some m1 → ms !! n2 = Some m2 → NodeRef_IsDefined m1 = true →
    mst_NodeRef (m_Status m1) = mst_NodeRef (m_Status m2) → n1 = n2.

(** The machine on node [e] reports a healthy etcd member. *)
Definition healthy_member (ms : Machines) (e : string) : Prop :=
  ∃ n m, ms !! n = Some m ∧ NodeRef_IsDefined m = true ∧ mst_NodeRef (m_Status m) = e ∧
    m_IsTrue m RKE2ControlPlaneMachineEtcdMemberHealthyCondition = true.

Lemma seen_healthy_spec c e :
  unique_node_refs (cp_Machines c) →
  seen_healthy c e = true ↔ healthy_member (cp_Machines c) e.
Proof.
  intros Hu. unfold seen_healthy, machine_for_member, healthy_member.
  destruct (List.find _ _) as [[n m]|] eqn:Ef; simpl.
  - apply List.find_some in Ef as [Hin Hm]. apply list_elem_of_In, elem_of_go_range in Hin.
    apply andb_prop in Hm as [Hd He]. apply bool_decide_eq_true in He. split; [eauto 6|].
    intros (n' & m' & Hm' & Hd' & He' & Ht).
    assert (n' = n) as -> by (eapply Hu; eauto; congruence). by simplify_eq.
  - split; [done|]. intros (n & m & Hm & Hd & He & _).
    assert (In (n, m) (go_range 622 (cp_Machines c))) as Hin by (by apply list_elem_of_In, elem_of_go_range).
    apply (List.find_none _ _ Ef) in Hin. by rewrite Hd, bool_decide_eq_true_2 in Hin.
Qed.

#[local] Instance healthy_member_dec ms e : Decision (healthy_member ms e).
Proof.
  destruct (decide (Exists (λ kv, NodeRef_IsDefined kv.2 = true ∧
    mst_NodeRef (m_Status kv.2) = e ∧
    m_IsTrue kv.2 RKE2ControlPlaneMachineEtcdMemberHealthyCondition = true) (map_to_list ms)))
    as [He|Hn]; [left|right]; unfold healthy_member; rewrite list.Exists_exists in *.
  - destruct He as ([n m] & Hin & ?). apply elem_of_map_to_list in Hin. eauto.
  - intros (n & m & Hm & ?). apply Hn. exists (n, m). by rewrite elem_of_map_to_list.
Defined.

(** A strict majority of the members that stay is healthy: etcd keeps its quorum. *)
Definition quorum_survives (ms : Machines) (m : Machine) (members : list string) : Prop :=
  let rest := remaining_members m members in
  (length rest < 2 * length (filter (healthy_member ms) rest))%nat.

Lemma majority_div t u : (u ≤ t)%nat → (t / 2 + 1 ≤ t - u)%nat ↔ (t < 2 * (t - u))%nat.
Proof.
  intros Hu. pose proof (Nat.div_mod t 2 ltac:(lia)). pose proof (Nat.mod_upper_bound t 2 ltac:(lia)).
  lia.
Qed.

Lemma filter_partition {A} (P Q : A → Prop) `{∀ x, Decision (P x), ∀ x, Decision (Q x)} (l : list A) :
  (∀ x, P x ↔ ¬ Q x) → (length (filter P l) + length (filter Q l) = length l)%nat.
Proof.
  intros HPQ. induction l as [|x l IH]; [done|]. rewrite !filter_cons. simpl.
  repeat case_decide; simpl; try lia; naive_solver.
Qed.

Lemma canSafely_true c m members :
  unique_node_refs (cp_Machines c) →
  let '(t, u) := project_members c m members in
  bool_decide (t / 2 + 1 ≤ t - u)%nat = true ↔ quorum_survives (cp_Machines c) m members.
Proof.
  intros Hu. rewrite project_members_count, bool_decide_eq_true. unfold quorum_survives.
  set (rest := remaining_members m members).
  assert (length (filter (λ e, seen_healthy c e = false) rest) +
          length (filter (healthy_member (cp_Machines c)) rest) = length rest)%nat as Hlen.
  { apply filter_partition. intros e. rewrite <-seen_healthy_spec by done.
    by destruct (seen_healthy c e). }
  rewrite majority_div by lia. lia.
Qed.
End quorum.

Section runs.
Context `{CapiConsts, CollLib, CondLib, SetsLib, MetaLib, ServerJson, RemediationJson,
          GoSort, GoRange, Clock, EV : Env}.

Lemma GetWorkloadCluster_machines : keeps cp_Machines GetWorkloadCluster.
Proof. unfold GetWorkloadCluster. keeps_auto. Qed.
Hint Resolve GetWorkloadCluster_machines : keeps.

Lemma canSafely_machines m : keeps cp_Machines (canSafelyRemoveEtcdMember m).
Proof. unfold canSafelyRemoveEtcdMember. keeps_auto. Qed.

(** A run of [EtcdMembers] that answered [members]. *)
Definition etcd_answered (members : list string) : Prop :=
  ∃ wl w1 w2, EtcdMembers wl w1 = (Ok members, w2).

Lemma canSafelyRemoveEtcdMember_run m w b w' :
  canSafelyRemoveEtcdMember m w = (Ok b, w') →
  ∃ members, etcd_answered members ∧
    (unique_node_refs (cp_Machines (w_cp w)) →
     b = true ↔ quorum_survives (cp_Machines (w_cp w)) m members).
Proof.
  unfold canSafelyRemoveEtcdMember, mbind, comp_bind, wrap.
  pose proof (GetWorkloadCluster_machines w) as Hk1.
  destruct (GetWorkloadCluster w) as [[wl|e|p] w1]; [|done..].
  pose proof (EtcdMembers_keeps cp_Machines wl w1) as Hk2.
  destruct (EtcdMembers wl w1) as [[members|e|p] w2] eqn:Em; [|done..].
  simpl in *. rewrite <-Hk1, <-Hk2.
  pose proof (canSafely_true (w_cp w2) m members) as Hq.
  destruct (project_members (w_cp w2) m members) as [t u]. intros [= <- <-].
  exists members. split; [by exists wl, w1, w2|]. done.
Qed.

Lemma checkRetryLimits_emits P m t : emits P (checkRetryLimits m t).
Proof. unfold checkRetryLimits, set_remediated. emits_auto. Qed.

(** When the retry limits allow a remediation nothing was changed. *)
Lemma checkRetryLimits_true m t w d w' :
  checkRetryLimits m t w = (Ok (d, true), w') → w' = w.
Proof.
  unfold checkRetryLimits, mbind, comp_bind. cbn [get_cp gets].
  destruct (map_get _ _) as [v|]; [|by intros [= _ <-]]. unfold lift.
  destruct (RemediationDataFromAnnotation v) as [l|e|p]; [|done..]. cbn zeta.
  unfold mret, comp_ret, set_remediated, machine_set_condition, modify_machine, modify_cp, modify.
  intros Hrun. repeat case_match; by simplify_eq.
Qed.

(** No remediation is under way: none is marked, or a machine was created since. *)
Definition none_in_progress (c : ControlPlane) : Prop :=
  ∀ v, map_get (rcp_Annotations (cp_RCP c)) RemediationInProgressAnnotation = Some v →
    ∃ d n m, RemediationDataFromAnnotation v = Ok d ∧ cp_Machines c !! n = Some m ∧
      (rd_Timestamp d < m_CreationTimestamp m)%Z.

Lemma remediationInProgress_false w w' :
  remediationInProgress w = (Ok false, w') →
  none_in_progress (w_cp w) ∧ cp_Machines (w_cp w') = cp_Machines (w_cp w) ∧
  rcp_Spec (cp_RCP (w_cp w')) = rcp_Spec (cp_RCP (w_cp w)).
Proof.
  unfold remediationInProgress, none_in_progress, mbind, comp_bind. cbn [get_cp gets].
  destruct (map_get _ _) as [v|]; [|intros [= <-]; by split_and!]. unfold lift.
  destruct (RemediationDataFromAnnotation v) as [d|e|p] eqn:Ed; [|done..].
  destruct (existsb _ _) eqn:Ex; [|done]. intros [= <-]. split_and!; [|done|done].
  intros v' [= <-]. apply existsb_elem_of in Ex as ([n m] & Hin & Ha).
  apply elem_of_go_range in Hin. unfold Time_After in Ha. apply bool_decide_eq_true in Ha.
  exists d, n, m. done.
Qed.

Lemma canSafely_no_delete m : emits no_delete (canSafelyRemoveEtcdMember m).
Proof.
  unfold canSafelyRemoveEtcdMember. pose proof GetWorkloadCluster_no_delete.
  assert (∀ wl, emits no_delete (EtcdMembers wl)).
  { intros wl. eapply emits_mono; [|apply EtcdMembers_reads]. by intros []. }
  emits_auto.
Qed.

Lemma prepareRemediation_no_delete m : emits no_delete (prepareRemediation m).
Proof.
  unfold prepareRemediation, set_remediated, current.
  pose proof (canSafely_no_delete m). pose proof GetWorkloadCluster_no_delete.
  pose proof ForwardEtcdLeadership_no_delete. emits_auto.
Qed.

(** What makes it safe to remediate on an initialized control plane. *)
Definition remediation_allowed (c : ControlPlane) (m : Machine) : Prop :=
  (1 < size (cp_Machines c))%nat ∧
  (∀ n m', cp_Machines c !! n = Some m' → IsUnhealthy m' = false → NodeRef_IsDefined m' = true) ∧
  (∀ n m', cp_Machines c !! n = Some m' → HasDeletionTimestamp m' = false) ∧
  (UsesEmbeddedEtcd c = true →
     ∃ members, etcd_answered members ∧
       (unique_node_refs (cp_Machines c) → quorum_survives (cp_Machines c) m members)).

Lemma HasHealthyMachineStillProvisioning_false c :
  HasHealthyMachineStillProvisioning c = false →
  ∀ n m, cp_Machines c !! n = Some m → IsUnhealthy m = false → NodeRef_IsDefined m = true.
Proof.
  unfold HasHealthyMachineStillProvisioning. rewrite bool_decide_eq_false. intros Hs n m Hm Hh.
  destruct (NodeRef_IsDefined m) eqn:Hd; [done|]. exfalso. apply Hs, Filter_pos.
  exists n, m. split; [|unfold coll_Not; by rewrite HasNode_spec, Hd].
  apply Filter_spec. unfold coll_Not. by rewrite Hh.
Qed.

Lemma prepareRemediation_true m w w' :
  prepareRemediation m w = (Ok true, w') → remediation_allowed (w_cp w) m.
Proof.
  unfold prepareRemediation, mbind at 1, comp_bind at 1. cbn [get_cp gets].
  case_decide as Hs; [done|]. destruct (HasHealthyMachineStillProvisioning _) eqn:Ep; [done|].
  destruct (HasDeletingMachine _) eqn:Ed; [done|]. cbn zeta.
  intros Hrun. split_and!; [lia|by apply HasHealthyMachineStillProvisioning_false| |].
  { intros n m' Hm'. destruct (HasDeletionTimestamp m') eqn:E; [|done].
    assert (HasDeletingMachine (w_cp w) = true) by (apply HasDeletingMachine_true; eauto). congruence. }
  intros Hu. revert Hrun. rewrite Hu. cbn [IsEtcdManaged andb].
  unfold mbind, comp_bind, try. cbn beta.
  destruct (canSafelyRemoveEtcdMember m w) as [[b|e|p] w1] eqn:Ec; [|by cbn..].
  destruct b; [|by cbn]. intros _.
  apply canSafelyRemoveEtcdMember_run in Ec as (members & Ha & Hq).
  exists members. split; [done|]. intros Huniq. by apply Hq.
Qed.
End runs.

Section handler.
Context `{CapiConsts, CollLib, CondLib, SetsLib, MetaLib, ServerJson, RemediationJson,
          GoSort, GoRange, Clock, EV : Env}.

(** The machine picked is one of the candidates, and there is one when there are
    candidates, whatever the sort makes of the comparison. *)
Lemma getMachineToBeRemediated_some (ms : Machines) managed :
  ms ≠ ∅ → ∃ m, getMachineToBeRemediated ms managed = Some m ∧ ∃ n, ms !! n = Some m.
Proof.
  intros Hne. unfold getMachineToBeRemediated.
  assert (size ms ≠ 0) as Hs by (intros Hz; by apply map_size_empty_inv in Hz).
  rewrite decide_False by done. set (l := map snd (go_range 379 ms)).
  assert (length l = size ms) as Hlen by (unfold l; by rewrite length_map, length_go_range).
  assert (∀ m, m ∈ l → ∃ n, ms !! n = Some m) as Hl.
  { intros m ([n m'] & -> & Hin)%list_elem_of_fmap. exists n. by apply elem_of_go_range in Hin. }
  case_decide.
  - destruct l as [|m l']; [simpl in *; lia|]. exists m. split; [done|]. apply Hl. left.
  - pose proof (go_sort_perm _ (pickMachineToBeRemediated managed) l) as Hp.
    destruct (go_sort _ l) as [|m l'] eqn:Es.
    + apply Permutation_nil in Hp. rewrite Hp in Hlen. simpl in Hlen. lia.
    + exists m. split; [done|]. apply Hl. rewrite <-Hp. left.
Qed.

(** Why machine [m] may be deleted, in terms of the control plane [c]. *)
Definition remediable (c : ControlPlane) (m : Machine) : Prop :=
  (∃ n, cp_Machines c !! n = Some m) ∧ IsUnhealthyAndOwnerRemediated m = true ∧
  pTime_IsZero (m_DeletionTimestamp m) = true ∧ none_in_progress c ∧
  (rcp_initialized (cp_RCP c) = true → remediation_allowed c m).

Lemma remediation_allowed_ext c c' m :
  cp_Machines c' = cp_Machines c → rcp_Spec (cp_RCP c') = rcp_Spec (cp_RCP c) →
  remediation_allowed c' m → remediation_allowed c m.
Proof. unfold remediation_allowed, UsesEmbeddedEtcd. by intros -> ->. Qed.

Lemma cleanup_no_delete : emits no_delete cleanupPendingRemediations.
Proof. unfold cleanupPendingRemediations. emits_auto. Qed.

Lemma remediationInProgress_no_delete : emits no_delete remediationInProgress.
Proof. unfold remediationInProgress. emits_auto. Qed.

Lemma reconcileUnhealthyMachines_one w :
  one_delete (λ n, ∃ m, n = m_Name m ∧ remediable (w_cp (cleanupPendingRemediations w).2) m)
    reconcileUnhealthyMachines w.
Proof.
  unfold reconcileUnhealthyMachines. apply one_delete_bind; [auto with emits|].
  intros t _ [= _ <-]. apply one_delete_bind; [apply cleanup_no_delete|]. intros [] w1 Hw1.
  assert (w_cp (cleanupPendingRemediations w).2 = w_cp w1) as Hc by (by rewrite Hw1).
  rewrite Hc. clear Hc. apply one_delete_bind; [auto with emits|].
  intros c _ [= <- <-]. case_decide as Hs; [apply one_delete_none; auto with emits|].
  destruct (getMachineToBeRemediated_some (MachinesToBeRemediatedByRCP (w_cp w1)) (IsEtcdManaged (w_cp w1)))
    as (m & -> & n & Hm); [intros Hz; by rewrite Hz, map_size_empty in Hs|].
  apply Filter_spec in Hm as [Hm Hu].
  destruct (pTime_IsZero (m_DeletionTimestamp m)) eqn:Ez; cbn [negb];
    [|apply one_delete_none; auto with emits].
  apply one_delete_bind; [apply remediationInProgress_no_delete|]. intros [] w2 Hw2;
    [apply one_delete_none; auto with emits|].
  apply remediationInProgress_false in Hw2 as (Hnone & Hms & Hsp).
  apply one_delete_bind; [emits_auto|]. intros [] w3 Hw3.
  assert (w_cp w3 = w_cp w2) as Hcp3.
  { pose proof (keeps_api id (CNewPatchHelper "Machine" (m_Name m)) w2) as Hk.
    rewrite Hw3 in Hk. exact Hk. }
  apply one_delete_finally; [|intros o; unfold current; emits_auto].
  apply one_delete_bind; [apply checkRetryLimits_emits|]. intros [d can] w4 Hw4.
  destruct can; cbn [negb]; [|apply one_delete_none; auto with emits].
  apply checkRetryLimits_true in Hw4 as ->.
  apply one_delete_bind.
  { destruct (rcp_initialized _); [apply prepareRemediation_no_delete|auto with emits]. }
  intros go w4 Hw4. destruct go; cbn [negb]; [|apply one_delete_none; auto with emits].
  apply one_delete_api.
  - exists m. split; [done|]. split_and!; eauto. intros Hi. rewrite Hi in Hw4.
    apply prepareRemediation_true in Hw4. rewrite Hcp3 in Hw4.
    by apply (remediation_allowed_ext _ (w_cp w2)).
  - intros r. unfold set_remediated. emits_auto.
Qed.


End handler.

Section retries.
Context `{CapiConsts, CollLib, CondLib, SetsLib, MetaLib, ServerJson, RemediationJson,
          GoSort, GoRange, Clock, EV : Env}.

(** A remediation shortly after the last one on record. *)
Lemma checkRetryLimits_again m t w d w' v last :
  map_get (m_Annotations m) RemediationForAnnotation = Some v →
  RemediationDataFromAnnotation v = Ok last → rd_Timestamp last ≠ 0%Z →
  let strategy := sp_RemediationStrategy (rcp_Spec (cp_RCP (w_cp w))) in
  (t < rd_Timestamp last + default DefaultMinHealthyPeriod (strategy ≫= rem_MinHealthyPeriod))%Z →
  checkRetryLimits m t w = (Ok (d, true), w') →
  rd_Machine d = m_Name m ∧ rd_Timestamp d = t ∧
  rd_RetryCount d = wrap64 (rd_RetryCount last + 1) ∧
  (∀ s, strategy = Some s → (rd_Timestamp last + rem_RetryPeriod s ≤ t)%Z) ∧
  (∀ k, strategy ≫= rem_MaxRetry = Some k → (rd_RetryCount last < k)%Z).
Proof.
  intros Hv Hl Hz strategy Ht. unfold checkRetryLimits, mbind at 1, comp_bind at 1. cbn [get_cp gets].
  rewrite Hv. cbn zeta. fold strategy. set (mr := strategy ≫= rem_MaxRetry) in *.
  set (mh := strategy ≫= rem_MinHealthyPeriod) in *.
  unfold mbind, comp_bind, lift. rewrite Hl. unfold mret, comp_ret. cbn beta iota.
  unfold Time_IsZero, Time_After, Time_Add. rewrite (bool_decide_eq_false_2 (rd_Timestamp last = _)) by done.
  rewrite (bool_decide_eq_true_2 _ Ht). unfold set_remediated, machine_set_condition,
    modify_machine, modify_cp, modify. case_bool_decide as Hr; [done|]. simpl.
  destruct mr as [k|]; [case_decide; [done|]|];
    intros [= <- <-]; simpl; split_and!; try done; first
    [intros s Hs; rewrite Hs in Hr; lia | intros k' [= <-]; lia].
Qed.

(** A sequence of [k] remediations in which every failing machine is the
    replacement of the previous one (its annotation records that remediation)
    and fails before the minimum healthy period is over. *)
Inductive retry_chain (strategy : RemediationStrategy) (d0 : RemediationData) :
    RemediationData → nat → Prop :=
| chain_start : retry_chain strategy d0 d0 0
| chain_retry d k v m t w d' w' :
    retry_chain strategy d0 d k →
    ascii_only (rd_Machine d) = true → (Second ≤ rd_Timestamp d < end_of_rfc3339)%Z →
    RemediationData_Marshal d = Ok v →
    map_get (m_Annotations m) RemediationForAnnotation = Some v →
    sp_RemediationStrategy (rcp_Spec (cp_RCP (w_cp w))) = Some strategy →
    (t < truncate_second (rd_Timestamp d) +
         default DefaultMinHealthyPeriod (rem_MinHealthyPeriod strategy))%Z →
    checkRetryLimits m t w = (Ok (d', true), w') →
    retry_chain strategy d0 d' (S k).

Lemma Marshal_read d v :
  ascii_only (rd_Machine d) = true → (0 ≤ rd_Timestamp d < end_of_rfc3339)%Z →
  RemediationData_Marshal d = Ok v → RemediationDataFromAnnotation v = Ok (rd_truncate d).
Proof.
  intros Ha Ht. unfold RemediationData_Marshal, RemediationDataFromAnnotation.
  destruct (remediation_json d Ha Ht) as (b & -> & Hb). intros [= ->]. by rewrite Hb.
Qed.

(** The number of retries is bounded: in a chain of remediations, each of a
    replacement that failed within the minimum healthy period, the retry count
    goes up by one every time (it never overflows) and never exceeds MaxRetry,
    so the chain is no longer than MaxRetry. *)
Theorem remediation_retries_bounded strategy maxRetry d0 d k :
  rem_MaxRetry strategy = Some maxRetry → (maxRetry ≤ MaxInt32)%Z →
  (0 ≤ rd_RetryCount d0 ≤ maxRetry)%Z →
  retry_chain strategy d0 d k →
  rd_RetryCount d = (rd_RetryCount d0 + Z.of_nat k)%Z ∧ (rd_RetryCount d ≤ maxRetry)%Z.
Proof.
  intros Hmax Hm32 H0' Hc.
  induction Hc as [|d k v m t w d' w' _ [IHc IHm] Ha Hts Hv Hann Hs Ht Hrun]; [lia|].
  assert (0 ≤ rd_Timestamp d < end_of_rfc3339)%Z as Hts' by (unfold Second in Hts; lia).
  pose proof (Marshal_read d v Ha Hts' Hv) as Hread.
  eapply (checkRetryLimits_again m t w d' w' v (rd_truncate d)) in Hrun as (_ & _ & Hcount & _ & Hlt);
    [|done|done| |].
  - rewrite Hs in Hlt. simpl in Hlt, Hcount. specialize (Hlt maxRetry Hmax).
    unfold MaxInt32 in Hm32. rewrite Hcount. unfold wrap64. rewrite Z.mod_small by lia. lia.
  - simpl. unfold truncate_second. assert (1 ≤ rd_Timestamp d `div` Second)%Z.
    { apply Z.div_le_lower_bound; unfold Second in *; lia. } unfold Second in *. lia.
  - rewrite Hs. simpl. exact Ht.
Qed.

Lemma RemediationFor_ne_hook : RemediationForAnnotation ≠ PreTerminateHookCleanupAnnotation.
Proof.
  unfold PreTerminateHookCleanupAnnotation. intros Heq.
  assert (before_last "/"%char RemediationForAnnotation = Some PreTerminateDeleteHookAnnotationPrefix) as Hb.
  { rewrite Heq. by apply (before_last_app "/"%char _ "rke2-cleanup"). }
  injection Hb as Hb. by rewrite <-Hb in Heq.
Qed.

(** The machine the controller creates does not record the remediation it
    completes (unless the machine template itself carries the annotation), so
    when it fails the retry limits do not hold it back: whatever RetryPeriod and
    MaxRetry say, at any time, the remediation is allowed as the first try of a
    new sequence. *)
Theorem replacement_starts_new_retry_sequence rcp cluster infraRef bootstrapRef fd w :
  map_get (mtpl_Annotations (sp_MachineTemplate (rcp_Spec rcp))) RemediationForAnnotation = None →
  ∃ m w', computeDesiredMachine rcp cluster infraRef bootstrapRef fd None w = (Ok m, w') ∧
    ∀ t w0, checkRetryLimits m t w0 =
      (Ok (Build_RemediationData (m_Name m) t 0, true), w0).
Proof.
  intros Htpl. unfold computeDesiredMachine, mbind at 1 2, comp_bind at 1 2. cbn [fresh_name].
  unfold mbind, comp_bind, wrap, lift.
  destruct (server_json (sp_ServerConfig (rcp_Spec rcp))) as (b & -> & _). cbn [mret comp_ret].
  do 2 eexists. split; [reflexivity|]. intros t w0.
  unfold checkRetryLimits, mbind, comp_bind. cbn [get_cp gets].
  match goal with |- context [map_get ?a RemediationForAnnotation] =>
    assert (map_get a RemediationForAnnotation = None) as Hnone end.
  { simpl. unfold map_copy. simpl. apply lookup_union_None. split.
    - rewrite !lookup_insert_ne; [done|done|]. intros Heq. by apply RemediationFor_ne_hook.
    - apply lookup_union_None. split; [|done].
      by destruct (mtpl_Annotations (sp_MachineTemplate (rcp_Spec rcp))). }
  by rewrite Hnone.
Qed.
End retries.

(** ** Concrete runs *)

#[refine] Instance remediation_json_bits : RemediationJson := {
  json_MarshalRemediation d :=
    Ok (pos_bits (encode (rd_Machine d, truncate_second (rd_Timestamp d), rd_RetryCount d)));
  json_UnmarshalRemediation b :=
    match decode (A := string * Z * Z) (bits_pos b) with
    | Some (n, t, k) => Ok (Build_RemediationData n t k)
    | None => Err (EText "invalid character")
    end
}.
Proof. intros d _ _. eexists. split; [done|]. by rewrite bits_pos_bits, decode_encode. Defined.

Definition unique_node_refs_b (ms : Machines) : bool :=
  let l := map_to_list ms in
  forallb (λ '(n1, m1), forallb (λ '(n2, m2),
    negb (NodeRef_IsDefined m1 && bool_decide (mst_NodeRef (m_Status m1) = mst_NodeRef (m_Status m2)))
    || bool_decide (n1 = n2)) l) l.

Lemma unique_node_refs_check ms : unique_node_refs_b ms = true → unique_node_refs ms.
Proof.
  unfold unique_node_refs_b. intros Hb n1 n2 m1 m2 Hm1 Hm2 Hd He.
  apply elem_of_map_to_list in Hm1, Hm2. rewrite forallb_elem_of in Hb.
  specialize (Hb _ Hm1). cbn beta iota in Hb. rewrite forallb_elem_of in Hb.
  specialize (Hb _ Hm2). cbn beta iota in Hb. rewrite Hd, bool_decide_eq_true_2 in Hb by done.
  by apply bool_decide_eq_true in Hb.
Qed.

(** Three machines with healthy members, the first one unhealthy. *)
Definition with_etcd_health (s : ConditionStatus) (m : Machine) : Machine :=
  m_set_condition (mkCond RKE2ControlPlaneMachineEtcdMemberHealthyCondition s "" "") m.
Definition demo_quorum_world : World :=
  demo_world (demo_rcp 3 true)
    [demo_machine "m1" "cp-1"; with_etcd_health ConditionTrue (demo_machine "m2" "cp-2");
     with_etcd_health ConditionTrue (demo_machine "m3" "cp-3")].


Definition demo_strategy : RemediationStrategy := Build_RemediationStrategy (Some 2%Z) 0%Z None.
Definition demo_remediated_rcp : RKE2ControlPlane :=
  let s := demo_spec 3 in
  Build_RKE2ControlPlane (demo_meta "cp")
    (Build_RKE2ControlPlaneSpec (sp_RKE2ConfigSpec s) (sp_Replicas s) (sp_Version s)
       (sp_MachineTemplate s) (sp_ServerConfig s) (sp_ManifestsConfigMapReference s)
       (sp_RegistrationMethod s) (sp_RegistrationAddress s) (sp_RolloutStrategy s)
       (Some demo_strategy)) (demo_status true).
Definition demo_first : RemediationData := Build_RemediationData "m0" (1000 * Hour)%Z 0%Z.
Definition demo_replacement : Machine :=
  m_with_annotations
    (Some {[ RemediationForAnnotation := pos_bits (encode ("m0", (1000 * Hour)%Z, 0%Z)) ]})
    (demo_machine "m1" "cp-1").

Lemma remediation_retries_bounded_witness :
  let d := Build_RemediationData "m1" (1000 * Hour + Minute)%Z 1%Z in
  rd_RetryCount d = (rd_RetryCount demo_first + Z.of_nat 1)%Z ∧ (rd_RetryCount d ≤ 2)%Z.
Proof.
  cbn zeta. apply (remediation_retries_bounded demo_strategy 2%Z demo_first _ 1).
  - reflexivity.
  - unfold MaxInt32. lia.
  - simpl. lia.
  - eapply (chain_retry demo_strategy demo_first demo_first 0
              (pos_bits (encode ("m0", (1000 * Hour)%Z, 0%Z))) demo_replacement (1000 * Hour + Minute)%Z
              (demo_world demo_remediated_rcp [])).
    + constructor.
    + reflexivity.
    + by vm_compute.
    + reflexivity.
    + reflexivity.
    + reflexivity.
    + reflexivity.
    + vm_compute. reflexivity.
Defined.

Lemma replacement_starts_new_retry_sequence_witness :
  ∃ m w', computeDesiredMachine demo_remediated_rcp demo_cluster demo_ref demo_ref "" None
            (demo_world demo_remediated_rcp []) = (Ok m, w') ∧
    ∀ t w0, checkRetryLimits m t w0 = (Ok (Build_RemediationData (m_Name m) t 0, true), w0).
Proof.
  by apply (replacement_starts_new_retry_sequence demo_remediated_rcp demo_cluster demo_ref demo_ref "").
Defined.

(** Go may visit the machines in the opposite order as well. *)
#[refine] Definition reverse_order_go : GoRange := {|
  go_range A _ m := reverse (map_to_list m)
|}.
Proof. intros. apply reverse_Permutation. Defined.

Definition demo_sick : Machines :=
  let sick := with_etcd_health ConditionFalse (demo_machine_at "m1" "cp-1" 1%Z) in
  let fine := with_etcd_health ConditionTrue (demo_machine_at "m2" "cp-2" 2%Z) in
  list_to_map [("m1", sick); ("m2", fine)].

(** The comparison that is to put the most broken machine first says "first"
    of any two machines that both have a node, in both directions, and does not
    look at their conditions.  The machine picked for remediation then depends
    on the order in which Go walks the map: of a machine with a failing etcd
    member and one with a healthy member, either may be picked.  And a machine
    without a node does not come before an older one with a node. *)
Theorem getMachineToBeRemediated_unordered :
  (∀ managed i j, HasRemediateMachine i = HasRemediateMachine j →
     NodeRef_IsDefined i = true → NodeRef_IsDefined j = true →
     pickMachineToBeRemediated managed i j = true ∧ pickMachineToBeRemediated managed j i = true) ∧
  (m_Name <$> @getMachineToBeRemediated _ _ _ map_order_go demo_sick true) ≠
  (m_Name <$> @getMachineToBeRemediated _ _ _ reverse_order_go demo_sick true) ∧
  pickMachineToBeRemediated true (demo_machine_at "m4" "" 4%Z) (demo_machine_at "m3" "cp-3" 3%Z) = false.
Proof.
  split_and!; [|by vm_compute|by vm_compute].
  intros managed i j Hr Hi Hj. unfold pickMachineToBeRemediated. rewrite Hr, Hi, Hj.
  by destruct (HasRemediateMachine j).
Qed.
