(* ===== verification/Workload.v ===== *)
(** * The workload cluster: nodes and health conditions

    pkg/rke2/workload_cluster.go and pkg/rke2/workload_cluster_conditions.go.
    The workload cluster is a pointer kept by the control plane, so its methods
    read and write [cp_workloadCluster]. *)

From Stdlib Require Import Ascii Btauto.
From stdpp Require Import base tactics option list gmap strings numbers.
From S2P Require Import Prelude Go Api Objects Libs World Hooks Etcd Desired ControlPlane Demo.
Open Scope string_scope.
Open Scope list_scope.
Open Scope stdpp_scope.

(** Library functions: the v1beta1 conditions (only ever written here), the
    text of an error, the abbreviated list of clog, and whether a node is ready
    (sigs.k8s.io/cluster-api/util). *)
Class WorkloadLib := {
  v1beta1_MarkTrue : list Condition → string → list Condition;
  v1beta1_MarkUnknown : list Condition → string → string → string → list Condition;
  err_Error : error → string;
  ListToString : list string → nat → string;
  util_IsNodeReady : Node → bool
}.

Definition NodeMetadataUpToDateV1Beta1Condition : string := "NodeMetadataUpToDate".
Definition NodePatchFailedV1Beta1Reason : string := "NodePatchFailed".
Definition RKE2ControlPlaneNodePatchFailedReason : string := "NodePatchFailed".
Definition RKE2ControlPlaneMachineAgentHealthyReason : string := "Healthy".
Definition RKE2ControlPlaneMachineEtcdMemberHealthyReason : string := "Healthy".
Definition RKE2ControlPlaneMachinePodFailedReason : string := "PodFailed".
Definition HealthyReason : string := "Healthy".
Definition NotHealthyReason : string := "NotHealthy".
Definition HealthUnknownReason : string := "HealthUnknown".

Definition Status_String (s : ConditionStatus) : string :=
  match s with ConditionTrue => "True" | ConditionFalse => "False" | ConditionUnknown => "Unknown" end.
Definition newline : string := String (ascii_of_nat 10) "".

Definition wl_put_node (w : Workload) (n : Node) : Workload :=
  Build_Workload (<[n_Name n := n]> (wl_Nodes w)) (wl_nodePatchHelpers w) (wl_etcd w).
Definition wl_put_helper (n : Node) (w : Workload) : Workload :=
  Build_Workload (wl_Nodes w) (<[n_Name n := n]> (wl_nodePatchHelpers w)) (wl_etcd w).
Definition wl_alter_node (f : Node → Node) (name : string) (w : Workload) : Workload :=
  Build_Workload (alter f name (wl_Nodes w)) (wl_nodePatchHelpers w) (wl_etcd w).

(** [annotations.AddAnnotations(node, desired)]: an empty map adds nothing. *)
Definition n_add_annotations (desired : strmap) (n : Node) : Node :=
  match desired with
  | None => n
  | Some d =>
      if decide (d = ∅) then n
      else n_with_meta (om_with_annotations (Some (d ∪ default ∅ (n_Annotations n))) (n_ObjectMeta n)) n
  end.

Record ClusterStatus := { cs_Nodes : Z; cs_ReadyNodes : Z; cs_HasRKE2ServingSecret : bool }.

Section workload.
Context `{CapiConsts, CollLib, CondLib, SetsLib, MetaLib, WorkloadLib, GoSort, GoRange, EV : Env}.

Definition components_inspection_failed (message : string) : Condition :=
  mkCond RKE2ControlPlaneControlPlaneComponentsHealthyCondition ConditionUnknown
    InspectionFailedReason message.

Definition InitWorkload : M unit :=
  r ← try getControlPlaneNodes;
  c ← get_cp;
  match r with
  | inr err =>
      _ ← rcp_set_condition (components_inspection_failed
            ("Failed to list nodes hosting control plane " +:+ rcp_Name (cp_RCP c)));
      fail err
  | inl nodes =>
      _ ← modify_workload (λ w, foldl wl_put_node w nodes);
      w ← get_workload;
      for_each (go_range 189 (wl_Nodes w)) (λ '(_, node),
        r ← try (api (CNewPatchHelper "Node" (n_Name node)));
        match r with
        | inr err =>
            _ ← rcp_set_condition (components_inspection_failed
                  ("Failed to create patch helper for control plane " +:+ rcp_Name (cp_RCP c) +:+ " nodes"));
            fail err
        | inl _ => modify_workload (wl_put_helper node)
        end)
  end.

(** The key of the machine of a node: named like the node, or referring to it. *)
Definition scan_node_ref (site : nat) (machines : Machines) (nodeName : string) : option string :=
  fst <$> List.find (λ '(_, m), NodeRef_IsDefined m && bool_decide (mst_NodeRef (m_Status m) = nodeName))
            (go_range site machines).

Definition node_patch_failed (name message : string) : M unit :=
  machine_set_condition name
    (mkCond RKE2ControlPlaneNodeMetadataUpToDateCondition ConditionUnknown
       RKE2ControlPlaneNodePatchFailedReason message).
Definition set_v1beta1 (name : string) (f : list Condition → list Condition) : M unit :=
  modify_machine name (λ m, m_with_v1beta1_conditions (f (mst_V1Beta1Conditions (m_Status m))) m).

Definition PatchNodes : M unit :=
  w ← get_workload;
  c ← get_cp;
  errList ← for_acc (go_range 222 (wl_Nodes w)) [] (λ errList '(_, node),
    let machine :=
      match cp_Machines c !! n_Name node with
      | Some _ => Some (n_Name node)
      | None => scan_node_ref 227 (cp_Machines c) (n_Name node)
      end in
    match machine with
    | None => mret errList
    | Some machine =>
        match wl_nodePatchHelpers w !! n_Name node with
        | Some before =>
            r ← try (api (CPatchNode before node));
            match r with
            | inl _ => mret errList
            | inr err =>
                _ ← set_v1beta1 machine (λ cs, v1beta1_MarkUnknown cs NodeMetadataUpToDateV1Beta1Condition
                      NodePatchFailedV1Beta1Reason (err_Error err));
                _ ← node_patch_failed machine ("Failed to patch node %s" +:+ n_Name node);
                mret (errList ++ [err])
            end
        | None => mret (errList ++ [EText "failed to get patch helper for node"])
        end
    end);
  match NewAggregate errList with Some e => fail e | None => mret tt end.

(** [status.Nodes++] on an int32. *)
Definition GetClusterStatus : M ClusterStatus :=
  w ← get_workload;
  let '(nodes, ready) := foldl (λ '(nodes, ready) '(_, node),
    (wrap32 (nodes + 1), if util_IsNodeReady node then wrap32 (ready + 1) else ready))
    (0%Z, 0%Z) (go_range 271 (wl_Nodes w)) in
  r ← try (api CGetServingSecret);
  mret {| cs_Nodes := nodes; cs_ReadyNodes := ready;
          cs_HasRKE2ServingSecret := match r with inl _ => true | inr _ => false end |}.

Definition hasProvisioningMachine (machines : Machines) : bool :=
  existsb (λ kv, negb (NodeRef_IsDefined kv.2)) (go_range 298 machines).

Definition UpdateNodeMetadata : M unit :=
  c ← get_cp;
  _ ← for_each (go_range 310 (cp_Machines c)) (λ '(key, machine),
    if negb (Ref_IsDefined (msp_ConfigRef (m_Spec machine))) then mret tt
    else
      let nodeName := if NodeRef_IsDefined machine then mst_NodeRef (m_Status machine) else key in
      _ ← set_v1beta1 key (λ cs, v1beta1_MarkTrue cs NodeMetadataUpToDateV1Beta1Condition);
      _ ← machine_set_condition key (mkCond RKE2ControlPlaneNodeMetadataUpToDateCondition
            ConditionTrue MachineUpToDateReason "");
      w ← get_workload;
      match wl_Nodes w !! nodeName with
      | None =>
          _ ← set_v1beta1 key (λ cs, v1beta1_MarkUnknown cs NodeMetadataUpToDateV1Beta1Condition
                NodePatchFailedV1Beta1Reason "associated node not found");
          node_patch_failed key ("node " +:+ nodeName +:+ " not found")
      | Some node =>
          if bool_decide (map_get (n_Annotations node) MachineAnnotation = Some (m_Name machine)) then
            match cp_Rke2Configs c !! m_Name machine with
            | None =>
                _ ← set_v1beta1 key (λ cs, v1beta1_MarkUnknown cs NodeMetadataUpToDateV1Beta1Condition
                      NodePatchFailedV1Beta1Reason "associated RKE2 config not found");
                node_patch_failed key ("node " +:+ nodeName +:+ "'s RKE2Config not found")
            | Some rkeConfig =>
                modify_workload (wl_alter_node
                  (n_add_annotations (ac_NodeAnnotations (cs_AgentConfig (cfg_Spec rkeConfig)))) nodeName)
            end
          else
            _ ← set_v1beta1 key (λ cs, v1beta1_MarkUnknown cs NodeMetadataUpToDateV1Beta1Condition
                  NodePatchFailedV1Beta1Reason ("node object is missing " +:+ MachineAnnotation +:+ " annotation"));
            node_patch_failed key ("node " +:+ nodeName +:+ " is missing " +:+ MachineAnnotation +:+ " annotation")
      end);
  PatchNodes.

Definition ApplyLabelOnNode (machine : option Machine) (key value : string) : M unit :=
  match machine with
  | None => mret tt
  | Some machine =>
      if negb (NodeRef_IsDefined machine) then mret tt
      else
        controlPlaneNodes ← wrap "getting control plane nodes" getControlPlaneNodes;
        w ← get_workload;
        match node_named controlPlaneNodes (mst_NodeRef (m_Status machine)) with
        | None => mret tt
        | Some node =>
            let labels := <[key := value]> (default ∅ (om_Labels (n_ObjectMeta node))) in
            let node' := n_with_meta (om_with_labels (Some labels) (n_ObjectMeta node)) node in
            match wl_nodePatchHelpers w !! n_Name node with
            | Some before => wrap "patching node with label" (api (CPatchNode before node'))
            | None => fail (EText "could not find patch helper for node")
            end
        end
  end.

(** ** Conditions *)

Definition isNodeReady (node : Node) : bool :=
  match List.find (λ c, bool_decide (cond_Type c = NodeReadyCondition)) (n_Conditions node) with
  | Some c => bool_decide (cond_Status c = ConditionTrue)
  | None => false
  end.

Definition nodeHasUnreachableTaint (node : Node) : bool :=
  existsb (λ t, bool_decide (t.1 = TaintNodeUnreachable) && bool_decide (t.2 = TaintEffectNoExecute))
    (n_Taints node).

(** What the conditions of one machine contribute. *)
Record MachineReport := {
  mr_errors : bool; mr_unknown : bool; mr_info : bool; mr_count : nat;
  mr_conditionMessages : gset string; mr_messages : list string
}.

Definition condition_message (c : Condition) : string :=
  "  * " +:+ cond_Type c +:+ ": " +:+
  (if decide (cond_Message c = "") then "condition is " +:+ Status_String (cond_Status c) else cond_Message c).

Definition report_condition (machine : Machine) (r : MachineReport) (condition : string) : MachineReport :=
  match m_condition machine condition with
  | None => r
  | Some c =>
      let msgs := {[ cond_Message c ]} ∪ mr_conditionMessages r in
      let n := S (mr_count r) in
      match cond_Status c with
      | ConditionTrue =>
          Build_MachineReport (mr_errors r) (mr_unknown r) true n msgs (mr_messages r)
      | ConditionFalse =>
          Build_MachineReport true (mr_unknown r) (mr_info r) n msgs (mr_messages r ++ [condition_message c])
      | ConditionUnknown =>
          if decide (msp_ProviderID (m_Spec machine) = "") then
            Build_MachineReport (mr_errors r) (mr_unknown r) true n msgs (mr_messages r)
          else
            Build_MachineReport (mr_errors r) true (mr_info r) n msgs (mr_messages r ++ [condition_message c])
      end
  end.
Definition report_machine (machineConditions : list string) (machine : Machine) : MachineReport :=
  foldl (report_condition machine) (Build_MachineReport false false false 0 ∅ []) machineConditions.

(** The message under which a machine is listed, if it has anything to say. *)
Definition report_message (r : MachineReport) : option string :=
  match mr_messages r with
  | [] => None
  | _ =>
      if decide ((1 < mr_count r)%nat ∧ size (mr_conditionMessages r) = 1) then
        (λ s, "  * Control plane components: " +:+ s) <$> head (elements (mr_conditionMessages r))
      else Some (Join (mr_messages r) newline)
  end.

Definition aggregate_message (messageMap : gmap string (list string)) (rcpErrors : list string) : string :=
  let names m := default [] (messageMap !! m) in
  let messageIndex := go_sort (λ i j,
    bool_decide (length (names j) < length (names i))%nat ||
    (bool_decide (length (names i) = length (names j)) && str_lt (Join (names i) ",") (Join (names j) ",")))
    (map fst (go_range 382 messageMap)) in
  let messages := map (λ message,
    "* " +:+ (if decide (1 < length (names message))%nat then "Machines" else "Machine") +:+ " " +:+
    ListToString (go_sort str_lt (names message)) 3 +:+ ":" +:+ newline +:+ message) messageIndex in
  Join (messages ++ rcpErrors) newline.

(** The condition the aggregation sets on the control plane. *)
Definition aggregate_condition (machines : Machines) (machineConditions rcpErrors : list string)
    (condition trueReason unknownReason falseReason note : string) : Condition :=
  let reports := map (λ kv, (m_Name kv.2, report_machine machineConditions kv.2))
                     (go_range 329 machines) in
  let named (p : MachineReport → bool) : gset string :=
    list_to_set (map fst (filter (λ nr, p nr.2 = true) reports)) in
  let messageMap := foldl (λ (mm : gmap string (list string)) nr,
    match report_message nr.2 with
    | Some message => <[message := default [] (mm !! message) ++ [nr.1]]> mm
    | None => mm
    end) ∅ reports in
  let message := aggregate_message messageMap rcpErrors in
  if decide ((0 < length rcpErrors)%nat ∨ (0 < size (named mr_errors))%nat) then
    mkCond condition ConditionFalse falseReason message
  else if decide (0 < size (named mr_unknown))%nat then
    mkCond condition ConditionUnknown unknownReason message
  else if decide (0 < size (named mr_info))%nat then
    mkCond condition ConditionTrue trueReason ""
  else
    mkCond condition ConditionUnknown unknownReason ("No Machines reporting " +:+ note +:+ " status").

Definition aggregateConditionsFromMachinesToRCP (machineConditions rcpErrors : list string)
    (condition trueReason unknownReason falseReason note : string) : M unit :=
  c ← get_cp;
  rcp_set_condition (aggregate_condition (cp_Machines c) machineConditions rcpErrors condition
    trueReason unknownReason falseReason note).

(** The machine of a node in the first pass: none yet (wait), none at all, or
    the machine under a key. *)
Inductive NodeMachine := NodeWaits | NodeOrphan | NodeMachineAt (key : string) (m : Machine).

Definition node_machine (site : nat) (machines : Machines) (node : Node) : NodeMachine :=
  match machines !! n_Name node with
  | Some m => NodeMachineAt (n_Name node) m
  | None =>
      if hasProvisioningMachine machines then NodeWaits
      else
        match List.find (λ '(_, m), NodeRef_IsDefined m && bool_decide (mst_NodeRef (m_Status m) = n_Name node))
                (go_range site machines) with
        | Some (key, m) => NodeMachineAt key m
        | None => NodeOrphan
        end
  end.

(** The loop over the nodes: [verdict] is the condition for the node's machine.
    Setting conditions changes nothing the loop looks at. *)
Definition first_pass (site site' : nat) (verdict : Node → Machine → Condition) : M (list string) :=
  w ← get_workload;
  c ← get_cp;
  for_acc (go_range site (wl_Nodes w)) [] (λ rcpErrors '(_, node),
    match node_machine site' (cp_Machines c) node with
    | NodeWaits => mret rcpErrors
    | NodeOrphan =>
        mret (rcpErrors ++ ["Control plane node " +:+ n_Name node +:+ " does not have a corresponding machine"])
    | NodeMachineAt key machine =>
        _ ← machine_set_condition key (verdict node machine);
        mret rcpErrors
    end).

(** The loop over the machines that have no node. *)
Definition second_pass (site : nat) (condition waitReason missingReason : string) : M unit :=
  w ← get_workload;
  c ← get_cp;
  for_each (go_range site (cp_Machines c)) (λ '(key, machine),
    if NodeRef_IsDefined machine &&
       bool_decide (is_Some (wl_Nodes w !! mst_NodeRef (m_Status machine))) then mret tt
    else if hasProvisioningMachine (cp_Machines c) then
      machine_set_condition key (mkCond condition ConditionUnknown waitReason "Waiting for node to be provisioned")
    else
      machine_set_condition key (mkCond condition ConditionFalse missingReason "Node does not exist")).

Definition etcd_verdict (node : Node) (machine : Machine) : Condition :=
  if negb (pTime_IsZero (m_DeletionTimestamp machine)) then
    mkCond RKE2ControlPlaneMachineEtcdMemberHealthyCondition ConditionFalse
      RKE2ControlPlaneMachineEtcdMemberHealthyReason ("Machine " +:+ m_Name machine +:+ " is deleting")
  else
    mkCond RKE2ControlPlaneMachineEtcdMemberHealthyCondition ConditionTrue
      RKE2ControlPlaneMachineEtcdMemberHealthyReason "".

Definition updateManagedEtcdConditions : M unit :=
  rcpErrors ← first_pass 51 64 etcd_verdict;
  _ ← second_pass 103 RKE2ControlPlaneMachineEtcdMemberHealthyCondition InspectionFailedReason
        RKE2ControlPlaneMachineEtcdMemberHealthyReason;
  aggregateConditionsFromMachinesToRCP [RKE2ControlPlaneMachineEtcdMemberHealthyCondition] rcpErrors
    RKE2ControlPlaneEtcdClusterHealthyCondition HealthyReason HealthUnknownReason NotHealthyReason
    "etcd member".

Definition agent_verdict (node : Node) (machine : Machine) : Condition :=
  if negb (pTime_IsZero (m_DeletionTimestamp machine)) then
    mkCond RKE2ControlPlaneMachineAgentHealthyCondition ConditionFalse DeletingReason "Machine is deleting"
  else if nodeHasUnreachableTaint node then
    mkCond RKE2ControlPlaneMachineAgentHealthyCondition ConditionUnknown InspectionFailedReason
      ("Node " +:+ n_Name node +:+ " is unreachable")
  else if isNodeReady node then
    mkCond RKE2ControlPlaneMachineAgentHealthyCondition ConditionTrue
      RKE2ControlPlaneMachineAgentHealthyReason ""
  else
    mkCond RKE2ControlPlaneMachineAgentHealthyCondition ConditionFalse
      RKE2ControlPlaneMachinePodFailedReason ("Node " +:+ n_Name node +:+ " is not ready").

Definition UpdateAgentConditions : M unit :=
  rcpErrors ← first_pass 161 174 agent_verdict;
  _ ← second_pass 237 RKE2ControlPlaneMachineAgentHealthyCondition InspectionFailedReason
        RKE2ControlPlaneMachinePodFailedReason;
  aggregateConditionsFromMachinesToRCP [RKE2ControlPlaneMachineAgentHealthyCondition] rcpErrors
    RKE2ControlPlaneControlPlaneComponentsHealthyCondition HealthyReason HealthUnknownReason
    NotHealthyReason "control plane".
End workload.

(** ** Lemmas *)

Section passes.
Context `{CapiConsts, CollLib, CondLib, SetsLib, MetaLib, WorkloadLib, GoSort, GoRange, EV : Env}.

(** Every machine has a node of its own, and a machine named like a node refers
    to that node. *)
Definition well_linked (ms : Machines) (nodes : gmap string Node) : Prop :=
  (∀ k m, ms !! k = Some m → NodeRef_IsDefined m = true) ∧
  (∀ k1 k2 m1 m2, ms !! k1 = Some m1 → ms !! k2 = Some m2 →
     mst_NodeRef (m_Status m1) = mst_NodeRef (m_Status m2) → k1 = k2) ∧
  (∀ n node, nodes !! n = Some node → n_Name node = n) ∧
  (∀ n m, is_Some (nodes !! n) → ms !! n = Some m → mst_NodeRef (m_Status m) = n).

Lemma hasProvisioningMachine_false ms :
  (∀ k m, ms !! k = Some m → NodeRef_IsDefined m = true) → hasProvisioningMachine ms = false.
Proof.
  intros Hall. unfold hasProvisioningMachine. destruct (existsb _ _) eqn:E; [|done].
  apply existsb_elem_of in E as ([k m] & Hin & Hn). apply elem_of_go_range in Hin.
  simpl in Hn. by rewrite (Hall k m Hin) in Hn.
Qed.

(** In a well linked control plane the machine of a node is the one referring to it. *)
Lemma node_machine_spec site ms nodes node :
  well_linked ms nodes → nodes !! n_Name node = Some node →
  match node_machine site ms node with
  | NodeWaits => False
  | NodeOrphan => ∀ k m, ms !! k = Some m → mst_NodeRef (m_Status m) ≠ n_Name node
  | NodeMachineAt k m => ms !! k = Some m ∧ mst_NodeRef (m_Status m) = n_Name node
  end.
Proof.
  intros (Hdef & _ & _ & Hnm) Hn. unfold node_machine.
  destruct (ms !! n_Name node) as [m|] eqn:Em; [eauto|].
  rewrite hasProvisioningMachine_false by done. destruct (List.find _ _) as [[k m]|] eqn:Ef.
  - apply List.find_some in Ef as [Hin Hm]. apply list_elem_of_In, elem_of_go_range in Hin.
    apply andb_prop in Hm as [_ Hm]. by apply bool_decide_eq_true in Hm.
  - intros k m Hm He. assert (In (k, m) (go_range site ms)) as Hin
      by (by apply list_elem_of_In, elem_of_go_range).
    apply (List.find_none _ _ Ef) in Hin. by rewrite (Hdef k m Hm), bool_decide_eq_true_2 in Hin.
Qed.

Definition first_touch (site' : nat) (verdict : Node → Machine → Condition) (ms : Machines)
    (x : string * Node) : option (string * (Machine → Machine)) :=
  match node_machine site' ms x.2 with
  | NodeMachineAt key m => Some (key, m_set_condition (verdict x.2 m))
  | _ => None
  end.

Definition orphan_errors (site' : nat) (ms : Machines) (errs : list string) (x : string * Node) : list string :=
  match node_machine site' ms x.2 with
  | NodeOrphan => errs ++ ["Control plane node " +:+ n_Name x.2 +:+ " does not have a corresponding machine"]
  | _ => errs
  end.

Lemma first_pass_run site site' verdict w :
  let nodes := wl_Nodes (default (Build_Workload ∅ ∅ false) (cp_workloadCluster (w_cp w))) in
  let ms := cp_Machines (w_cp w) in
  first_pass site site' verdict w =
  (Ok (foldl (orphan_errors site' ms) [] (go_range site nodes)),
   w_with_cp (cp_with_machines
     (foldl (touch_step (first_touch site' verdict ms)) ms (go_range site nodes)) (w_cp w)) w).
Proof.
  cbn zeta. unfold first_pass. unfold mbind at 1 2, comp_bind at 1 2. cbn [get_workload get_cp gets].
  rewrite <-touch_world_fold. apply for_acc_run. intros errs [n node] s _.
  unfold orphan_errors, touch_world, touch_step, first_touch. simpl.
  destruct (node_machine _ _ _) as [| |key m]; [by destruct s as [[] ? ?]..|]. reflexivity.
Qed.

Definition second_touch (condition waitReason missingReason : string) (nodes : gmap string Node)
    (ms : Machines) (x : string * Machine) : option (string * (Machine → Machine)) :=
  if NodeRef_IsDefined x.2 && bool_decide (is_Some (nodes !! mst_NodeRef (m_Status x.2))) then None
  else if hasProvisioningMachine ms then
    Some (x.1, m_set_condition
      (mkCond condition ConditionUnknown waitReason "Waiting for node to be provisioned"))
  else Some (x.1, m_set_condition (mkCond condition ConditionFalse missingReason "Node does not exist")).

Lemma second_pass_run site condition waitReason missingReason w :
  let nodes := wl_Nodes (default (Build_Workload ∅ ∅ false) (cp_workloadCluster (w_cp w))) in
  let ms := cp_Machines (w_cp w) in
  second_pass site condition waitReason missingReason w =
  (Ok tt, w_with_cp (cp_with_machines
     (foldl (touch_step (second_touch condition waitReason missingReason nodes ms)) ms
        (go_range site ms)) (w_cp w)) w).
Proof.
  cbn zeta. unfold second_pass. unfold mbind at 1 2, comp_bind at 1 2. cbn [get_workload get_cp gets].
  rewrite <-touch_world_fold. apply for_each_run. intros [k m] s _.
  unfold touch_world, touch_step, second_touch. simpl.
  destruct (NodeRef_IsDefined m && _); [by destruct s as [[] ? ?]|].
  by destruct (hasProvisioningMachine _).
Qed.

Lemma NoDup_go_range {A} site (m : gmap string A) : NoDup (go_range site m).
Proof. apply (NoDup_fmap_1 fst), NoDup_go_range_fst. Qed.

(** What the first pass does to a machine. *)
Lemma first_pass_lookup site site' verdict ms nodes k m :
  well_linked ms nodes → ms !! k = Some m →
  foldl (touch_step (first_touch site' verdict ms)) ms (go_range site nodes) !! k =
  match nodes !! mst_NodeRef (m_Status m) with
  | Some node => Some (m_set_condition (verdict node m) m)
  | None => Some m
  end.
Proof.
  intros Hwl Hm. pose proof Hwl as (Hdef & Huniq & Hkey & Hnm).
  assert (∀ n node k' c, (n, node) ∈ go_range site nodes →
    first_touch site' verdict ms (n, node) = Some (k', c) →
    n_Name node = n ∧ nodes !! n = Some node ∧
    ∃ m', ms !! k' = Some m' ∧ mst_NodeRef (m_Status m') = n ∧ c = m_set_condition (verdict node m')) as Htouch.
  { intros n node k' c Hin. apply elem_of_go_range in Hin. pose proof (Hkey _ _ Hin) as Hn.
    unfold first_touch. simpl. subst n. pose proof (node_machine_spec site' ms nodes node Hwl Hin) as Hs.
    destruct (node_machine site' ms node) as [| |k0 m0]; [done..|]. intros [= <- <-].
    destruct Hs. eauto 6. }
  destruct (nodes !! mst_NodeRef (m_Status m)) as [node|] eqn:En.
  - pose proof (Hkey _ _ En) as Hn. pose proof (node_machine_spec site' ms nodes node Hwl) as Hs.
    rewrite Hn in Hs. specialize (Hs En).
    assert (first_touch site' verdict ms (n_Name node, node) = Some (k, m_set_condition (verdict node m))) as Hft.
    { unfold first_touch. simpl. destruct (node_machine site' ms node) as [| |k0 m0]; [done| |].
      - by destruct (Hs k m Hm).
      - destruct Hs as [Hm0 He]. assert (k0 = k) as -> by (by eapply Huniq). by simplify_eq. }
    rewrite (touch_one _ _ _ k (n_Name node, node) (m_set_condition (verdict node m))).
    + by rewrite Hm.
    + apply NoDup_go_range.
    + apply elem_of_go_range. by rewrite Hn.
    + done.
    + intros [n' node'] c' Hin Hc'. apply Htouch in Hc' as (<- & Hn' & m' & Hm' & He & _); [|done].
      simplify_eq. rewrite He in En. by simplify_eq.
  - rewrite touch_other; [done|]. intros [n' node'] c' Hin Hc'.
    apply Htouch in Hc' as (<- & Hn' & m' & Hm' & He & _); [|done]. simplify_eq.
    rewrite He in En. congruence.
Qed.

End passes.

Section pass_specs.
Context `{CapiConsts, CollLib, CondLib, SetsLib, MetaLib, WorkloadLib, GoSort, GoRange, EV : Env}.

Lemma second_pass_lookup site condition waitReason missingReason nodes ms k m :
  (∀ k m, ms !! k = Some m → NodeRef_IsDefined m = true) → ms !! k = Some m →
  foldl (touch_step (second_touch condition waitReason missingReason nodes ms)) ms (go_range site ms) !! k =
  match nodes !! mst_NodeRef (m_Status m) with
  | Some _ => Some m
  | None => Some (m_set_condition (mkCond condition ConditionFalse missingReason "Node does not exist") m)
  end.
Proof.
  intros Hdef Hm. pose proof (hasProvisioningMachine_false ms Hdef) as Hp.
  assert (∀ k' m' c, (k', m') ∈ go_range site ms →
    second_touch condition waitReason missingReason nodes ms (k', m') = Some (k, c) → (k', m') = (k, m)) as Hk.
  { intros k' m' c Hin. apply elem_of_go_range in Hin. unfold second_touch. simpl.
    destruct (_ && _); [done|]. rewrite Hp. intros [= -> _]. by simplify_eq. }
  assert (second_touch condition waitReason missingReason nodes ms (k, m) =
    match nodes !! mst_NodeRef (m_Status m) with
    | Some _ => None
    | None => Some (k, m_set_condition (mkCond condition ConditionFalse missingReason "Node does not exist"))
    end) as Ht.
  { unfold second_touch. simpl. rewrite (Hdef k m Hm), Hp. by destruct (nodes !! _). }
  destruct (nodes !! mst_NodeRef (m_Status m)) as [node|] eqn:En.
  - rewrite touch_other; [done|]. intros [k' m'] c Hin Hc. pose proof (Hk k' m' c Hin Hc) as [= -> ->].
    congruence.
  - erewrite (touch_one _ _ _ k (k, m)); [by rewrite Hm|apply NoDup_go_range| |done|].
    + by apply elem_of_go_range.
    + intros [k' m'] c Hin Hc. by eapply Hk.
Qed.

(** The condition a machine ends up with after both passes. *)
Definition final_condition (verdict : Node → Machine → Condition) (condition missingReason : string)
    (nodes : gmap string Node) (m : Machine) : Condition :=
  match nodes !! mst_NodeRef (m_Status m) with
  | Some node => verdict node m
  | None => mkCond condition ConditionFalse missingReason "Node does not exist"
  end.

Definition workload_nodes (w : World) : gmap string Node :=
  wl_Nodes (default (Build_Workload ∅ ∅ false) (cp_workloadCluster (w_cp w))).

(** Both passes and the aggregation, on a well linked control plane. *)
Lemma passes_run s1 s2 s3 verdict condition waitReason missingReason conds a b c d e w :
  well_linked (cp_Machines (w_cp w)) (workload_nodes w) →
  let m := (rcpErrors ← first_pass s1 s2 verdict;
            _ ← second_pass s3 condition waitReason missingReason;
            aggregateConditionsFromMachinesToRCP conds rcpErrors a b c d e) in
  (m w).1 = Ok tt ∧ w_calls (m w).2 = w_calls w ∧
  ∀ k mc, cp_Machines (w_cp w) !! k = Some mc →
    cp_Machines (w_cp (m w).2) !! k =
    Some (m_set_condition (final_condition verdict condition missingReason (workload_nodes w) mc) mc).
Proof.
  intros Hwl. cbn zeta. unfold mbind, comp_bind. rewrite first_pass_run.
  fold (workload_nodes w). set (ms1 := foldl _ (cp_Machines (w_cp w)) _).
  assert (∀ k m, cp_Machines (w_cp w) !! k = Some m → ms1 !! k =
    match workload_nodes w !! mst_NodeRef (m_Status m) with
    | Some node => Some (m_set_condition (verdict node m) m)
    | None => Some m
    end) as H1' by (intros; by apply first_pass_lookup).
  assert (∀ k m, ms1 !! k = Some m → NodeRef_IsDefined m = true) as Hdef.
  { intros k m Hm. assert (is_Some (cp_Machines (w_cp w) !! k)) as [m0 Hm0].
    { eapply touch_dom. fold ms1. by exists m. }
    pose proof Hwl as (Hd & _). specialize (Hd k m0 Hm0). rewrite (H1' k m0 Hm0) in Hm.
    destruct (workload_nodes w !! _); by simplify_eq. }
  rewrite second_pass_run. cbn [w_cp w_with_cp cp_Machines cp_with_machines cp_workloadCluster].
  fold (workload_nodes w). set (ms2 := foldl _ ms1 _).
  unfold aggregateConditionsFromMachinesToRCP, mbind, comp_bind. cbn [get_cp gets].
  assert (∀ k m, cp_Machines (w_cp w) !! k = Some m → ms2 !! k =
    Some (m_set_condition (final_condition verdict condition missingReason (workload_nodes w) m) m)) as H2'.
  { intros k m Hm. unfold final_condition, ms2.
    destruct (workload_nodes w !! mst_NodeRef (m_Status m)) as [node|] eqn:En;
      specialize (H1' k m Hm); rewrite En in H1';
      rewrite (second_pass_lookup _ _ _ _ _ _ k _ Hdef H1'); simpl; by rewrite En. }
  split_and!; [done|done|exact H2'].
Qed.

Lemma m_condition_set c m t :
  t ≠ cond_Type c → m_condition (m_set_condition c m) t = m_condition m t.
Proof. intros Ht. unfold m_condition, m_set_condition. simpl. by apply Get_Set_ne. Qed.

Lemma m_IsTrue_set c m :
  m_IsTrue (m_set_condition c m) (cond_Type c) = bool_decide (cond_Status c = ConditionTrue).
Proof.
  unfold m_IsTrue, m_set_condition. simpl. rewrite IsTrue_Set. by rewrite decide_True.
Qed.

(** Machine [m] keeps everything but its condition [t]. *)
Definition same_but (t : string) (m m' : Machine) : Prop :=
  m_ObjectMeta m' = m_ObjectMeta m ∧ m_Spec m' = m_Spec m ∧
  mst_NodeRef (m_Status m') = mst_NodeRef (m_Status m) ∧
  ∀ t', t' ≠ t → m_condition m' t' = m_condition m t'.

Lemma same_but_set t c m : cond_Type c = t → same_but t m (m_set_condition c m).
Proof. intros <-. split_and!; [done..|]. intros t'. apply m_condition_set. Qed.

(** The agent health of the machines, when every machine has a node of its
    own: afterwards AgentHealthy is true of a machine exactly when its node
    exists, is ready, has no unreachable taint, and the machine is not being
    deleted.  Nothing else of the machines changes, nothing is called, whatever
    order Go walks the maps in. *)
Theorem UpdateAgentConditions_spec w :
  well_linked (cp_Machines (w_cp w)) (workload_nodes w) →
  let run := UpdateAgentConditions w in
  run.1 = Ok tt ∧ w_calls run.2 = w_calls w ∧
  ∀ k m, cp_Machines (w_cp w) !! k = Some m →
  ∃ m', cp_Machines (w_cp run.2) !! k = Some m' ∧
    same_but RKE2ControlPlaneMachineAgentHealthyCondition m m' ∧
    (m_IsTrue m' RKE2ControlPlaneMachineAgentHealthyCondition = true ↔
     ∃ node, workload_nodes w !! mst_NodeRef (m_Status m) = Some node ∧
       isNodeReady node = true ∧ nodeHasUnreachableTaint node = false ∧
       pTime_IsZero (m_DeletionTimestamp m) = true).
Proof.
  intros Hwl. destruct (passes_run 161 174 237 agent_verdict RKE2ControlPlaneMachineAgentHealthyCondition
    InspectionFailedReason RKE2ControlPlaneMachinePodFailedReason
    [RKE2ControlPlaneMachineAgentHealthyCondition] RKE2ControlPlaneControlPlaneComponentsHealthyCondition
    HealthyReason HealthUnknownReason NotHealthyReason "control plane" w Hwl) as (Hok & Hcalls & Hms).
  cbn zeta. split_and!; [exact Hok|exact Hcalls|]. intros k m Hm. eexists. split; [by apply Hms|].
  set (fc := final_condition _ _ _ _ m).
  assert (cond_Type fc = RKE2ControlPlaneMachineAgentHealthyCondition) as Ht.
  { unfold fc, final_condition, agent_verdict. by repeat case_match. }
  split; [by apply same_but_set|]. rewrite <-Ht, m_IsTrue_set, bool_decide_eq_true.
  unfold fc, final_condition, agent_verdict. destruct (workload_nodes w !! _) as [node|];
    [|split; [done|by intros (? & ? & _)]].
  destruct (pTime_IsZero _), (nodeHasUnreachableTaint node) eqn:E1, (isNodeReady node) eqn:E2;
    cbn; (split; [intros; try done; by exists node|]); intros (n0 & [= <-] & ? & ? & ?); congruence.
Qed.

(** The health of an etcd member is not asked of etcd: the update makes no
    call at all, and sets EtcdMemberHealthy true of a machine exactly when the
    machine's node object exists and the machine is not being deleted, be the
    node ready, unreachable or neither. *)
Theorem updateManagedEtcdConditions_spec w :
  well_linked (cp_Machines (w_cp w)) (workload_nodes w) →
  let run := updateManagedEtcdConditions w in
  run.1 = Ok tt ∧ w_calls run.2 = w_calls w ∧
  ∀ k m, cp_Machines (w_cp w) !! k = Some m →
  ∃ m', cp_Machines (w_cp run.2) !! k = Some m' ∧
    same_but RKE2ControlPlaneMachineEtcdMemberHealthyCondition m m' ∧
    (m_IsTrue m' RKE2ControlPlaneMachineEtcdMemberHealthyCondition = true ↔
     is_Some (workload_nodes w !! mst_NodeRef (m_Status m)) ∧
     pTime_IsZero (m_DeletionTimestamp m) = true).
Proof.
  intros Hwl. destruct (passes_run 51 64 103 etcd_verdict RKE2ControlPlaneMachineEtcdMemberHealthyCondition
    InspectionFailedReason RKE2ControlPlaneMachineEtcdMemberHealthyReason
    [RKE2ControlPlaneMachineEtcdMemberHealthyCondition] RKE2ControlPlaneEtcdClusterHealthyCondition
    HealthyReason HealthUnknownReason NotHealthyReason "etcd member" w Hwl) as (Hok & Hcalls & Hms).
  cbn zeta. split_and!; [exact Hok|exact Hcalls|]. intros k m Hm. eexists. split; [by apply Hms|].
  set (fc := final_condition _ _ _ _ m).
  assert (cond_Type fc = RKE2ControlPlaneMachineEtcdMemberHealthyCondition) as Ht.
  { unfold fc, final_condition, etcd_verdict. by repeat case_match. }
  split; [by apply same_but_set|]. rewrite <-Ht, m_IsTrue_set, bool_decide_eq_true.
  unfold fc, final_condition, etcd_verdict.
  destruct (workload_nodes w !! _) as [node|]; simpl.
  - destruct (pTime_IsZero _); cbn; (split; [by eauto|by intros [_ ?]]).
  - split; [done|]. intros [[? ?] _]. done.
Qed.
End pass_specs.

Section aggregation.
Context `{CapiConsts, CollLib, CondLib, SetsLib, MetaLib, WorkloadLib, GoSort, GoRange, EV : Env}.

(** Machine [m] has one of the conditions with the given status. *)
Definition reports (conds : list string) (s : ConditionStatus) (m : Machine) : Prop :=
  ∃ t c, t ∈ conds ∧ m_condition m t = Some c ∧ cond_Status c = s.

Definition has_status (m : Machine) (s : ConditionStatus) (t : string) : bool :=
  match m_condition m t with Some c => bool_decide (cond_Status c = s) | None => false end.

Lemma has_status_reports conds s m :
  existsb (has_status m s) conds = true ↔ reports conds s m.
Proof.
  rewrite existsb_elem_of. unfold has_status, reports. split.
  - intros (t & Ht & Hs). destruct (m_condition m t) as [c|] eqn:E; [|done].
    apply bool_decide_eq_true in Hs. eauto.
  - intros (t & c & Ht & Hc & Hs). exists t. rewrite Hc. by rewrite bool_decide_eq_true.
Qed.

Definition no_provider (m : Machine) : bool := bool_decide (msp_ProviderID (m_Spec m) = "").

Lemma report_flags m conds :
  let r := report_machine conds m in
  mr_errors r = existsb (has_status m ConditionFalse) conds ∧
  mr_unknown r = negb (no_provider m) && existsb (has_status m ConditionUnknown) conds ∧
  mr_info r = existsb (has_status m ConditionTrue) conds ||
              (no_provider m && existsb (has_status m ConditionUnknown) conds).
Proof.
  cbn zeta. unfold report_machine.
  assert (∀ r, let r' := foldl (report_condition m) r conds in
    mr_errors r' = mr_errors r || existsb (has_status m ConditionFalse) conds ∧
    mr_unknown r' = mr_unknown r || (negb (no_provider m) && existsb (has_status m ConditionUnknown) conds) ∧
    mr_info r' = mr_info r || (existsb (has_status m ConditionTrue) conds ||
                 (no_provider m && existsb (has_status m ConditionUnknown) conds))) as Hgen.
  { induction conds as [|t l IH]; intros r; simpl.
    - by rewrite !andb_false_r, !orb_false_r.
    - destruct (IH (report_condition m r t)) as (-> & -> & ->).
      unfold report_condition, has_status, no_provider.
      destruct (m_condition m t) as [c|]; [|done].
      destruct (decide (msp_ProviderID (m_Spec m) = "")) as [Hp|Hp];
        [rewrite (bool_decide_eq_true_2 _ Hp)|rewrite (bool_decide_eq_false_2 _ Hp)];
        destruct (cond_Status c);
        repeat first [rewrite (bool_decide_eq_true_2 (_ = _)) by done
                     |rewrite (bool_decide_eq_false_2 (_ = _)) by done];
        simpl; split_and!; btauto. }
  apply Hgen.
Qed.

Lemma named_pos (p : MachineReport → bool) conds machines :
  (0 < size (list_to_set (map fst (filter (λ nr : string * MachineReport, p nr.2 = true)
     (map (λ kv : string * Machine, (m_Name kv.2, report_machine conds kv.2)) (go_range 329 machines)))) : gset string))%nat ↔
  ∃ k m, machines !! k = Some m ∧ p (report_machine conds m) = true.
Proof.
  set (S := list_to_set _). assert ((0 < size S)%nat ↔ ∃ x, x ∈ S) as ->.
  { destruct (decide (S = ∅)) as [->|Hne].
    - rewrite size_empty. split; [lia|]. by intros [x ?%not_elem_of_empty].
    - split; [by intros _; apply set_choose_L|]. intros _.
      destruct (decide (size S = 0)) as [Hz|]; [|lia]. by apply size_empty_inv, leibniz_equiv in Hz. }
  unfold S. setoid_rewrite elem_of_list_to_set. setoid_rewrite list_elem_of_fmap. split.
  - intros (x & [n r] & -> & Hin). apply list_elem_of_filter in Hin as [Hp Hin].
    apply list_elem_of_fmap in Hin as ([k m] & [= -> ->] & Hin). apply elem_of_go_range in Hin. eauto.
  - intros (k & m & Hm & Hp). exists (m_Name m), (m_Name m, report_machine conds m). split; [done|].
    apply list_elem_of_filter. split; [done|]. apply list_elem_of_fmap. exists (k, m).
    split; [done|]. by apply elem_of_go_range.
Qed.

Definition some_reports (conds : list string) (s : ConditionStatus) (provider : bool) (ms : Machines) : Prop :=
  ∃ k m, ms !! k = Some m ∧ no_provider m = negb provider ∧ reports conds s m.

(** The aggregated condition in terms of the machines' reports. *)
Lemma aggregate_condition_cases ms conds rcpErrors condition t u f note :
  let c := aggregate_condition ms conds rcpErrors condition t u f note in
  let bad := (0 < length rcpErrors)%nat ∨
             ∃ k m, ms !! k = Some m ∧ mr_errors (report_machine conds m) = true in
  cond_Type c = condition ∧ (cond_Status c = ConditionFalse ↔ bad) ∧
  (cond_Status c = ConditionTrue ↔ ¬ bad ∧
     ¬ (∃ k m, ms !! k = Some m ∧ mr_unknown (report_machine conds m) = true) ∧
     ∃ k m, ms !! k = Some m ∧ mr_info (report_machine conds m) = true).
Proof.
  cbn zeta. rewrite <-!named_pos. unfold aggregate_condition. cbn zeta.
  repeat match goal with |- context [if decide ?P then mkCond _ _ _ _ else _] => destruct (decide P) end;
    cbn [mkCond cond_Type cond_Status]; (split; [done|]); split; split; try done; tauto.
Qed.

(** The condition aggregated on the control plane, whatever order Go walks
    the maps and whatever its sort does: false exactly when a node has no machine
    or some machine has one of the conditions false; true exactly when, that
    aside, no machine with a provider ID has one unknown, and some machine has
    one true (or unknown, without a provider ID); otherwise unknown. *)
Theorem aggregateConditions_status conds rcpErrors condition t u f note w :
  let w' := (aggregateConditionsFromMachinesToRCP conds rcpErrors condition t u f note w).2 in
  let ms := cp_Machines (w_cp w) in
  let bad := rcpErrors ≠ [] ∨ ∃ k m, ms !! k = Some m ∧ reports conds ConditionFalse m in
  let fine := ¬ bad ∧ ¬ some_reports conds ConditionUnknown true ms ∧
    ((∃ k m, ms !! k = Some m ∧ reports conds ConditionTrue m) ∨
     some_reports conds ConditionUnknown false ms) in
  ∃ c, conditions_Get (GetConditions (cp_RCP (w_cp w'))) condition = Some c ∧
    (cond_Status c = ConditionFalse ↔ bad) ∧ (cond_Status c = ConditionTrue ↔ fine).
Proof.
  cbn zeta. unfold aggregateConditionsFromMachinesToRCP, mbind, comp_bind. cbn [get_cp gets].
  set (ms := cp_Machines (w_cp w)).
  destruct (aggregate_condition_cases ms conds rcpErrors condition t u f note) as (Hty & Hf & Ht).
  set (c0 := aggregate_condition _ _ _ _ _ _ _ _) in *.
  destruct (Get_Set_eq (GetConditions (cp_RCP (w_cp w))) c0) as [tt0 Hget]. rewrite Hty in Hget.
  eexists. split; [exact Hget|]. cbn [cond_Status]. rewrite Hf, Ht. clear Hf Ht Hget Hty c0.
  assert (∀ m, mr_errors (report_machine conds m) = true ↔ reports conds ConditionFalse m) as He.
  { intros m. destruct (report_flags m conds) as (-> & _). by rewrite has_status_reports. }
  assert (∀ m, mr_unknown (report_machine conds m) = true ↔
    no_provider m = negb true ∧ reports conds ConditionUnknown m) as Hu.
  { intros m. destruct (report_flags m conds) as (_ & -> & _).
    by rewrite andb_true_iff, has_status_reports, negb_true_iff. }
  assert (∀ m, mr_info (report_machine conds m) = true ↔ reports conds ConditionTrue m ∨
      no_provider m = negb false ∧ reports conds ConditionUnknown m) as Hi.
  { intros m. destruct (report_flags m conds) as (_ & _ & ->).
    by rewrite orb_true_iff, andb_true_iff, !has_status_reports. }
  assert ((0 < length rcpErrors)%nat ↔ rcpErrors ≠ []) as Hl
    by (destruct rcpErrors; simpl; split; [lia|done|done|lia]).
  setoid_rewrite He. setoid_rewrite Hu. setoid_rewrite Hi. rewrite Hl. unfold some_reports.
  split; [done|]. naive_solver.
Qed.
End aggregation.

(** ** Concrete runs *)

Instance plain_workload_lib : WorkloadLib := {
  v1beta1_MarkTrue cs t := cond_del cs t ++ [mkCond t ConditionTrue "" ""];
  v1beta1_MarkUnknown cs t r m := cond_del cs t ++ [mkCond t ConditionUnknown r m];
  err_Error e := "error";
  ListToString l _ := Join l ", ";
  util_IsNodeReady n :=
    existsb (λ c, bool_decide (cond_Type c = "Ready") && bool_decide (cond_Status c = ConditionTrue)) (n_Conditions n)
}.

Definition demo_node_ready (name : string) (s : ConditionStatus) : Node :=
  Build_Node (demo_meta name) [mkCond "Ready" s "" ""] [] [].
Definition demo_workload_world (machines : list Machine) (nodes : list Node) : World :=
  let c := demo_cp (demo_rcp 3 true) machines in
  Build_World (cp_with_workload (Some (foldl wl_put_node (Build_Workload ∅ ∅ true) nodes)) c) [] 0.

(** One machine, its node ready. *)
Definition demo_linked : World :=
  demo_workload_world [demo_machine "m1" "cp-1"] [demo_node_ready "cp-1" ConditionTrue].

Lemma demo_linked_ok : well_linked (cp_Machines (w_cp demo_linked)) (workload_nodes demo_linked).
Proof.
  change (cp_Machines (w_cp demo_linked)) with ({[ "m1" := demo_machine "m1" "cp-1" ]} : Machines).
  change (workload_nodes demo_linked) with ({[ "cp-1" := demo_node_ready "cp-1" ConditionTrue ]} : gmap string Node).
  split_and!.
  - intros k m [<- <-]%lookup_singleton_Some. done.
  - intros k1 k2 m1 m2 [<- <-]%lookup_singleton_Some [<- <-]%lookup_singleton_Some. done.
  - intros n node [<- <-]%lookup_singleton_Some. done.
  - intros n m [x [<- <-]%lookup_singleton_Some] [Hn <-]%lookup_singleton_Some. done.
Qed.

Lemma UpdateAgentConditions_spec_witness :
  ∃ m', cp_Machines (w_cp (UpdateAgentConditions demo_linked).2) !! "m1" = Some m' ∧
    m_IsTrue m' RKE2ControlPlaneMachineAgentHealthyCondition = true.
Proof.
  destruct (UpdateAgentConditions_spec demo_linked demo_linked_ok) as (_ & _ & Hm).
  destruct (Hm "m1" (demo_machine "m1" "cp-1")) as (m' & Hm' & _ & Hiff); [reflexivity|].
  exists m'. split; [exact Hm'|]. apply Hiff. exists (demo_node_ready "cp-1" ConditionTrue).
  split_and!; reflexivity.
Defined.

Lemma updateManagedEtcdConditions_spec_witness :
  ∃ m', cp_Machines (w_cp (updateManagedEtcdConditions demo_linked).2) !! "m1" = Some m' ∧
    m_IsTrue m' RKE2ControlPlaneMachineEtcdMemberHealthyCondition = true.
Proof.
  destruct (updateManagedEtcdConditions_spec demo_linked demo_linked_ok) as (_ & _ & Hm).
  destruct (Hm "m1" (demo_machine "m1" "cp-1")) as (m' & Hm' & _ & Hiff); [reflexivity|].
  exists m'. split; [exact Hm'|]. apply Hiff. split; [|reflexivity]. by eexists.
Defined.

(** A machine that was healthy, on a node with another name that is no longer
    ready, while a second machine is being provisioned. *)
Definition demo_stale : World :=
  demo_workload_world
    [m_set_condition (mkCond RKE2ControlPlaneMachineAgentHealthyCondition ConditionTrue "" "")
       (demo_machine "m1" "cp-1"); demo_machine "m2" ""]
    [demo_node_ready "cp-1" ConditionFalse].

(** While some machine is being provisioned, the conditions of a machine
    whose name is not its node's name are not updated: its node is not ready any
    more, and it is still reported as healthy. *)
Theorem UpdateAgentConditions_stale :
  let run := UpdateAgentConditions demo_stale in
  run.1 = Ok tt ∧
  (isNodeReady <$> workload_nodes demo_stale !! "cp-1") = Some false ∧
  ((λ m, m_IsTrue m RKE2ControlPlaneMachineAgentHealthyCondition) <$>
     cp_Machines (w_cp run.2) !! "m1") = Some true.
Proof. by vm_compute. Qed.
