(* ===== verification/Lifecycle.v ===== *)
(** * Machine lifecycle hooks (controlplane/internal/controllers/lifecycle_hook.go)

    Machines carry annotations that make Cluster API wait before draining and
    before terminating them.  The controller sets them on active machines, does
    its part (load balancer exclusion, etcd leadership and membership) for one
    deleting machine at a time, and then removes them. *)

From Stdlib Require Import Ascii.
From stdpp Require Import base tactics option list gmap strings numbers.
From S2P Require Import Prelude Go Api Objects Libs World Hooks Etcd Desired ControlPlane Scale Workload Demo.
Open Scope string_scope.
Open Scope list_scope.
Open Scope stdpp_scope.

Definition trueString : string := "true".
Definition inMemoryProviderIDPrefix : string := "in-memory://".

Section lifecycle.
Context `{CapiConsts, CollLib, CondLib, SetsLib, MetaLib, ServerJson, WorkloadLib, GoSort, GoRange, EV : Env}.

(** The hook [hook] is set on [m]. *)
Definition has_hook (hook : string) (m : Machine) : bool :=
  bool_decide (is_Some (map_get (m_Annotations m) hook)).

(** A write to the annotations of a machine that has none panics. *)
Definition applyHookToActiveMachines (hookAnnotation : string) : M unit :=
  c ← get_cp;
  patchHookAnnotation ←
    for_acc (go_range 261 (coll_Filter ActiveMachines (cp_Machines c))) false (λ patch '(key, machine),
      if has_hook hookAnnotation machine then mret patch
      else
        a ← lift (map_put (m_Annotations machine) hookAnnotation "");
        _ ← modify_machine key (m_with_annotations a);
        mret true);
  if (patchHookAnnotation : bool) then wrap "patching machines" PatchMachines else mret tt.

Definition cleanupHookOnAllMachines (hookAnnotation : string) : M unit :=
  c ← get_cp;
  patchHookAnnotation ←
    for_acc (go_range 285 (cp_Machines c)) false (λ patch '(key, machine),
      if has_hook hookAnnotation machine then
        _ ← modify_machine key (m_with_annotations (map_del (m_Annotations machine) hookAnnotation));
        mret true
      else mret patch);
  if (patchHookAnnotation : bool) then wrap "patching machines" PatchMachines else mret tt.

Definition machineHasOtherHooks (machine : Machine) (hookPrefix hookAnnotation : string) : bool :=
  existsb (λ kv, HasPrefix kv.1 hookPrefix && bool_decide (kv.1 ≠ hookAnnotation))
    (go_range 305 (default ∅ (m_Annotations machine))).

(** The condition says the Machine controller waits for the hook. *)
Definition waits_for_hook (hookReason : string) (m : Machine) : bool :=
  match m_condition m MachineDeletingCondition with
  | Some c => bool_decide (cond_Status c = ConditionTrue) && bool_decide (cond_Reason c = hookReason)
  | None => false
  end.

(** [conditions.Get] of a nil machine panics: callers check that a machine is
    being deleted. *)
Definition getDeletingMachineWithHook (c : ControlPlane) (hookAnnotation hookReason : string) :
    outcome (option Machine) :=
  if existsb (λ kv, negb (has_hook hookAnnotation kv.2)) (go_range 322 (DeletingMachines c)) then Ok None
  else
    match coll_OldestDeletionTimestamp (DeletingMachines c) with
    | None => Panic "nil pointer dereference"
    | Some deletingMachine =>
        if waits_for_hook hookReason deletingMachine then Ok (Some deletingMachine) else Ok None
    end.

(** [r.Patch(ctx, machine, MergeFrom(original))]: the machine becomes what the
    server returned; on an error it keeps the local change. *)
Definition merge_patch (before after : Machine) : M unit :=
  _ ← modify_machine (m_Name before) (λ _, after);
  updated ← wrap "removing pre-terminate hook from control plane Machine"
              (api (CMergePatchMachine before after));
  modify_machine (m_Name before) (λ _, updated).

Definition removeHookAnnotationFromMachine (machine : Machine) (hookAnnotation : string) : M unit :=
  if has_hook hookAnnotation machine then
    merge_patch machine (m_with_annotations (map_del (m_Annotations machine) hookAnnotation) machine)
  else mret tt.

Definition removePreTerminateHookAnnotationFromMachine (machine : Machine) : M unit :=
  if has_hook PreTerminateHookCleanupAnnotation machine then
    let a := map_del (m_Annotations machine) PreTerminateHookCleanupAnnotation in
    a ← lift (map_put a ExcludeNodeDrainingAnnotation trueString);
    a ← lift (map_put a ExcludeWaitForNodeVolumeDetachAnnotation trueString);
    merge_patch machine (m_with_annotations a machine)
  else mret tt.

Definition reconcilePreDrainHook : M Result :=
  c ← get_cp;
  let value := map_get (rcp_Annotations (cp_RCP c)) LoadBalancerExclusionAnnotation in
  if bool_decide (value ≠ Some trueString) then
    _ ← wrap "cleaning up hook annotation on machines"
          (cleanupHookOnAllMachines PreDrainLoadbalancerExclusionAnnotation);
    mret Result_zero
  else
    _ ← wrap "applying hook annotation to machines"
          (applyHookToActiveMachines PreDrainLoadbalancerExclusionAnnotation);
    c ← get_cp;
    if negb (HasDeletingMachine c) then mret Result_zero
    else
      deletingMachine ← lift (getDeletingMachineWithHook c PreDrainLoadbalancerExclusionAnnotation
                                MachineDeletingWaitingForPreDrainHookReason);
      match deletingMachine with
      | None => mret (requeueAfter deleteRequeueAfter)
      | Some deletingMachine =>
          if decide (size (cp_Machines c) < 2)%nat then
            _ ← removeHookAnnotationFromMachine deletingMachine PreDrainLoadbalancerExclusionAnnotation;
            mret Result_zero
          else
            _ ← wrap "getting workload cluster" GetWorkloadCluster;
            _ ← wrap "applying label on machine node"
                  (ApplyLabelOnNode (Some deletingMachine) LabelNodeExcludeBalancers trueString);
            _ ← removeHookAnnotationFromMachine deletingMachine PreDrainLoadbalancerExclusionAnnotation;
            mret (requeueAfter deleteRequeueAfter)
      end.

(** etcd lets go of the machine: the leadership is forwarded, the removal of the
    member is requested, and true is returned once it is acknowledged. *)
Definition release_etcd_member (workloadCluster : Workload) (deletingMachine : Machine) : M bool :=
  c ← get_cp;
  _ ← match coll_Newest (coll_Filter (coll_Not HasDeletionTimestamp) (cp_Machines c)) with
      | Some etcdLeaderCandidate =>
          wrap "failed to move leadership to candidate Machine"
            (ForwardEtcdLeadership workloadCluster (Some deletingMachine) (Some etcdLeaderCandidate))
      | None => mret tt
      end;
  _ ← wrap "failed to remove etcd member for deleting Machine"
        (RemoveEtcdMemberForMachine workloadCluster (Some deletingMachine));
  safelyRemoved ← wrap "determining if etcd member is safely removed for Machine"
        (IsEtcdMemberSafelyRemovedForMachine (Some deletingMachine));
  mret (safelyRemoved || HasPrefix (msp_ProviderID (m_Spec deletingMachine)) inMemoryProviderIDPrefix).

Definition reconcilePreTerminateHook : M Result :=
  _ ← wrap "applying hook annotation to machines"
        (applyHookToActiveMachines PreTerminateHookCleanupAnnotation);
  c ← get_cp;
  if negb (HasDeletingMachine c) then mret Result_zero
  else
    deletingMachine ← lift (getDeletingMachineWithHook c PreTerminateHookCleanupAnnotation
                              MachineDeletingWaitingForPreTerminateHookReason);
    match deletingMachine with
    | None => mret (requeueAfter deleteRequeueAfter)
    | Some deletingMachine =>
        if machineHasOtherHooks deletingMachine PreTerminateDeleteHookAnnotationPrefix
             PreTerminateHookCleanupAnnotation
        then mret (requeueAfter deleteRequeueAfter)
        else
          let legacy := bool_decide (is_Some (map_get (rcp_Annotations (cp_RCP c)) LegacyRKE2ControlPlane)) in
          released ←
            (if bool_decide (1 < size (cp_Machines c))%nat && negb legacy then
               r ← try GetWorkloadCluster;
               match r with
               | inr _ => fail (EText "removing etcd member for deleting Machine: failed to create client to workload cluster")
               | inl workloadCluster =>
                   if UsesEmbeddedEtcd c then release_etcd_member workloadCluster deletingMachine
                   else mret true
               end
             else mret true);
          if negb released then mret (requeueAfter deleteRequeueAfter)
          else
            _ ← removePreTerminateHookAnnotationFromMachine deletingMachine;
            mret (requeueAfter deleteRequeueAfter)
    end.

Definition reconcileLifecycleHooks : M Result :=
  preDrainResult ← reconcilePreDrainHook;
  preTerminateResult ← reconcilePreTerminateHook;
  mret (if negb (Result_IsZero preDrainResult) then preDrainResult
        else if negb (Result_IsZero preTerminateResult) then preTerminateResult
        else Result_zero).
End lifecycle.

(** ** Lemmas *)

Section hooks.
Context `{CapiConsts, CollLib, CondLib, SetsLib, MetaLib, ServerJson, WorkloadLib, GoSort, GoRange, EV : Env}.

(** The machine whose hook a call removes. *)
Definition unhooked (c : Call) : option Machine :=
  match c with CMergePatchMachine before _ => Some before | _ => None end.

Lemma PatchMachines_none : emits (λ c, unhooked c = None) PatchMachines.
Proof. unfold PatchMachines. emits_auto. Qed.

Lemma applyHook_none hook : emits (λ c, unhooked c = None) (applyHookToActiveMachines hook).
Proof. unfold applyHookToActiveMachines. pose proof PatchMachines_none. emits_auto. Qed.

Lemma GetWorkloadCluster_none : emits (λ c, unhooked c = None) GetWorkloadCluster.
Proof. unfold GetWorkloadCluster. emits_auto. Qed.

Lemma ForwardEtcdLeadership_none wl m k :
  emits (λ c, unhooked c = None) (ForwardEtcdLeadership wl (Some m) (Some k)).
Proof.
  eapply emits_mono; [|apply (ForwardEtcdLeadership_calls wl (Some m) (Some k))]. by intros [].
Qed.

Lemma release_etcd_member_none wl m : emits (λ c, unhooked c = None) (release_etcd_member wl m).
Proof.
  unfold release_etcd_member, RemoveEtcdMemberForMachine, removeMemberForNode,
    IsEtcdMemberSafelyRemovedForMachine, isMemberRemovedForNode, getControlPlaneNodes.
  pose proof ForwardEtcdLeadership_none. emits_auto.
Qed.

(** The workload cluster acknowledged that the machine's etcd member is gone. *)
Definition member_removed (m : Machine) : Prop :=
  NodeRef_IsDefined m = false ∨
  ∃ t nodes node name, ask t CListNodes = inr nodes ∧
    node_named nodes (mst_NodeRef (m_Status m)) = Some node ∧
    map_get (n_Annotations node) EtcdNodeRemovedNodeNameAnnotation = Some name ∧ name ≠ "".

Lemma IsEtcdMemberSafelyRemoved_true m w w' :
  IsEtcdMemberSafelyRemovedForMachine (Some m) w = (Ok true, w') → member_removed m.
Proof.
  unfold IsEtcdMemberSafelyRemovedForMachine, member_removed.
  destruct (NodeRef_IsDefined m); [|by left]. intros Hrun. right. revert Hrun.
  unfold isMemberRemovedForNode, getControlPlaneNodes, mbind, comp_bind, wrap.
  destruct (api_cases CListNodes w) as [(e & _ & ->)|(nodes & Ht & ->)]; [done|].
  destruct (node_named nodes _) as [node|] eqn:En; [|done].
  destruct (n_Annotations node) as [a|] eqn:Ea; [|done].
  destruct (a !! EtcdNodeRemovedNodeNameAnnotation) as [name|] eqn:El; [|done].
  intros [= Hb _]. apply bool_decide_eq_true in Hb.
  exists (w_calls w), nodes, node, name. split_and!; [done|done| |done]. by rewrite Ea.
Qed.

Lemma release_etcd_member_true wl m w w' :
  release_etcd_member wl m w = (Ok true, w') →
  member_removed m ∨ HasPrefix (msp_ProviderID (m_Spec m)) inMemoryProviderIDPrefix = true.
Proof.
  unfold release_etcd_member, mbind, comp_bind. cbn [get_cp gets]. unfold wrap.
  match goal with |- context [match ?m1 w with _ => _ end] => destruct (m1 w) as [[[]|e|p] w1] end; [|done..].
  destruct (RemoveEtcdMemberForMachine wl (Some m) w1) as [[[]|e|p] w2]; [|done..].
  destruct (IsEtcdMemberSafelyRemovedForMachine (Some m) w2) as [[b|e|p] w3] eqn:Es; [|done..].
  intros [= Hb _]. destruct b; [left; by eapply IsEtcdMemberSafelyRemoved_true|by right].
Qed.
End hooks.

Section claims.
Context `{CapiConsts, CollLib, CondLib, SetsLib, MetaLib, ServerJson, WorkloadLib, GoSort, GoRange, EV : Env}.

(** What is known of the machine picked for a hook. *)
Lemma getDeletingMachineWithHook_some c hook reason m :
  getDeletingMachineWithHook c hook reason = Ok (Some m) →
  (∃ n, cp_Machines c !! n = Some m) ∧ HasDeletionTimestamp m = true ∧ waits_for_hook reason m = true ∧
  (∀ n m', cp_Machines c !! n = Some m' → HasDeletionTimestamp m' = true → has_hook hook m' = true).
Proof.
  unfold getDeletingMachineWithHook. destruct (existsb _ _) eqn:Ex; [done|].
  destruct (coll_OldestDeletionTimestamp _) as [d|] eqn:Eo; [|done].
  destruct (waits_for_hook reason d) eqn:Ew; [|done]. intros [= <-].
  apply OldestDeletion_spec in Eo as [n Hn]. apply Filter_spec in Hn as [Hn Hd].
  split_and!; eauto. intros n' m' Hm' Hd'. destruct (has_hook hook m') eqn:Eh; [done|].
  assert (existsb (λ kv, negb (has_hook hook kv.2)) (go_range 322 (DeletingMachines c)) = true); [|congruence].
  apply existsb_elem_of. exists (n', m'). simpl. rewrite Eh. split; [|done].
  by apply elem_of_go_range, Filter_spec.
Qed.

Lemma machineHasOtherHooks_false m p hook :
  machineHasOtherHooks m p hook = false →
  ∀ k, is_Some (map_get (m_Annotations m) k) → HasPrefix k p = true → k = hook.
Proof.
  unfold machineHasOtherHooks. intros He k [v Hv] Hp. destruct (decide (k = hook)) as [|Hne]; [done|].
  assert (existsb (λ kv : string * string, HasPrefix kv.1 p && bool_decide (kv.1 ≠ hook))
    (go_range 305 (default ∅ (m_Annotations m))) = true); [|congruence].
  apply existsb_elem_of. exists (k, v). simpl. rewrite Hp, bool_decide_eq_true_2 by done. split; [|done].
  apply elem_of_go_range. by destruct (m_Annotations m).
Qed.

(** Why the pre-terminate hook of [m] may go. *)
Definition may_terminate (c : ControlPlane) (m : Machine) : Prop :=
  (∃ n, cp_Machines c !! n = Some m) ∧ HasDeletionTimestamp m = true ∧
  waits_for_hook MachineDeletingWaitingForPreTerminateHookReason m = true ∧
  (∀ n m', cp_Machines c !! n = Some m' → HasDeletionTimestamp m' = true →
     has_hook PreTerminateHookCleanupAnnotation m' = true) ∧
  (∀ k, is_Some (map_get (m_Annotations m) k) →
     HasPrefix k PreTerminateDeleteHookAnnotationPrefix = true → k = PreTerminateHookCleanupAnnotation) ∧
  ((1 < size (cp_Machines c))%nat → map_get (rcp_Annotations (cp_RCP c)) LegacyRKE2ControlPlane = None →
   UsesEmbeddedEtcd c = true →
   member_removed m ∨ HasPrefix (msp_ProviderID (m_Spec m)) inMemoryProviderIDPrefix = true).

Lemma merge_patch_one (Q : Machine → Prop) before after w :
  Q before → one_pick unhooked Q (merge_patch before after) w.
Proof.
  intros HQ. unfold merge_patch. apply one_pick_bind; [auto with emits|]. intros [] w1 _.
  apply one_pick_then; [|auto with emits]. apply one_pick_wrap.
  apply (one_pick_call _ _ _ (CMergePatchMachine before after) before); [|done|done]. intros w2. unfold api. by destruct (ask _ _).
Qed.


(** The annotations of the active machines. *)
Definition hook_touch (hook : string) (x : string * Machine) : option (string * (Machine → Machine)) :=
  if has_hook hook x.2 then None
  else Some (x.1, m_with_annotations (Some (<[hook := ""]> (default ∅ (m_Annotations x.2))))).

Lemma PatchMachines_machines : keeps cp_Machines PatchMachines.
Proof. unfold PatchMachines. keeps_auto. Qed.

Lemma PatchMachines_calm : calm PatchMachines.
Proof. unfold PatchMachines. calm_auto. Qed.

Lemma applyHook_run_ok hook w :
  let ms := cp_Machines (w_cp w) in
  let run := applyHookToActiveMachines hook w in
  (∀ n m, ms !! n = Some m → ActiveMachines m = true → m_Annotations m ≠ None) →
  (∀ p, run.1 ≠ Panic p) ∧
  cp_Machines (w_cp run.2) =
    foldl (touch_step (hook_touch hook)) ms (go_range 261 (coll_Filter ActiveMachines ms)).
Proof.
  cbn zeta. intros Hann. set (l := go_range 261 _).
  assert (applyHookToActiveMachines hook w =
    (if foldl (λ patch x, if has_hook hook x.2 then patch else true) false l
     then wrap "patching machines" PatchMachines else mret tt)
      (foldl (touch_world (hook_touch hook)) w l)) as ->.
  { unfold applyHookToActiveMachines. unfold mbind at 1, comp_bind at 1. cbn [get_cp gets].
    unfold mbind at 1, comp_bind at 1. fold l.
    rewrite (for_acc_run _ _ _ (λ patch x, if has_hook hook x.2 then patch else true)
               (touch_world (hook_touch hook))); [done|].
    intros patch [k m] s Hin. apply elem_of_go_range, Filter_spec in Hin as [Hm Ha].
    unfold touch_world, touch_step, hook_touch. simpl.
    destruct (has_hook hook m); [by destruct s as [[] ? ?]|].
    pose proof (Hann k m Hm Ha) as Hne. destruct (m_Annotations m) as [a|]; [|done]. reflexivity. }
  rewrite touch_world_fold. destruct (foldl _ false l); [|done].
  split; [intros p; apply calm_wrap, PatchMachines_calm|].
  by rewrite (keeps_wrap _ _ _ PatchMachines_machines).
Qed.

Lemma applyHook_lookup hook ms n m :
  (∀ n m, ms !! n = Some m → ActiveMachines m = true → m_Annotations m ≠ None) →
  ms !! n = Some m →
  ∃ m', foldl (touch_step (hook_touch hook)) ms (go_range 261 (coll_Filter ActiveMachines ms)) !! n = Some m' ∧
    (ActiveMachines m = true → has_hook hook m' = true ∧
       ∀ k, k ≠ hook → map_get (m_Annotations m') k = map_get (m_Annotations m) k) ∧
    (ActiveMachines m = false → m' = m).
Proof.
  intros Hann Hm.
  assert (∀ x f, x ∈ go_range 261 (coll_Filter ActiveMachines ms) → hook_touch hook x = Some (n, f) →
    x = (n, m) ∧ ActiveMachines m = true) as Hx.
  { intros [k' m'] f Hin. apply elem_of_go_range, Filter_spec in Hin as [Hm' Ha]. unfold hook_touch. simpl.
    case_match; [done|]. intros [= -> _]. by simplify_eq. }
  destruct (ActiveMachines m) eqn:Ea; [destruct (has_hook hook m) eqn:Eh|].
  - rewrite touch_other; [by exists m|]. intros x f Hin Hf. destruct (Hx x f Hin Hf) as [-> _].
    unfold hook_touch in Hf. simpl in Hf. by rewrite Eh in Hf.
  - assert (hook_touch hook (n, m) =
      Some (n, m_with_annotations (Some (<[hook := ""]> (default ∅ (m_Annotations m)))))) as Ht.
    { unfold hook_touch. simpl. by rewrite Eh. }
    erewrite (touch_one _ _ _ n (n, m)); [|apply NoDup_go_range| |exact Ht|].
    + rewrite Hm. eexists. split; [reflexivity|]. split; [|done]. intros _. split.
      * unfold has_hook. simpl. by rewrite bool_decide_eq_true, lookup_insert_eq.
      * intros k Hk. simpl. rewrite lookup_insert_ne by done. by destruct (m_Annotations m).
    + by apply elem_of_go_range, Filter_spec.
    + intros y f Hin Hf. by destruct (Hx y f Hin Hf).
  - rewrite touch_other; [by exists m|]. intros x f Hin Hf. by destruct (Hx x f Hin Hf).
Qed.

Lemma applyHook_run_panic hook w :
  (∃ n m, coll_Filter ActiveMachines (cp_Machines (w_cp w)) !! n = Some m ∧ m_Annotations m = None) →
  ∃ p, (applyHookToActiveMachines hook w).1 = Panic p.
Proof.
  intros (n & m & Hm & Hn). unfold applyHookToActiveMachines.
  unfold mbind at 1, comp_bind at 1. cbn [get_cp gets]. unfold mbind at 1, comp_bind at 1.
  apply (elem_of_go_range 261) in Hm. revert Hm. generalize (go_range 261 (coll_Filter ActiveMachines (cp_Machines (w_cp w)))).
  generalize false, w. clear w.
  assert (∀ l b w, (n, m) ∈ l → ∃ p w', for_acc l b (λ patch '(key, machine),
      if has_hook hook machine then mret patch
      else a ← lift (map_put (m_Annotations machine) hook "");
           _ ← modify_machine key (m_with_annotations a); mret true) w = (Panic p, w')) as Hl.
  { induction l as [|[k0 m0] l IH]; intros b w Hin; [by apply elem_of_nil in Hin|].
    simpl. unfold mbind at 1, comp_bind at 1. unfold has_hook.
    apply elem_of_cons in Hin as [[= <- <-]|Hin].
    - rewrite Hn. simpl. eauto.
    - case_bool_decide; [by apply IH|]. unfold mbind at 1, comp_bind at 1. unfold lift, map_put.
      destruct (m_Annotations m0); [|eauto]. by apply IH. }
  intros b w l Hin. destruct (Hl l b w Hin) as (p & w' & ->). eauto.
Qed.

(** Setting a hook on the active machines.  If every active machine has
    annotations, then afterwards every active machine has the hook, keeps its
    other annotations, and all other machines are unchanged, whether or not the
    patches that follow succeed.  An active machine without any annotations
    makes the controller panic. *)
Theorem applyHookToActiveMachines_spec hook w :
  let ms := cp_Machines (w_cp w) in
  let run := applyHookToActiveMachines hook w in
  ((∀ n m, ms !! n = Some m → ActiveMachines m = true → m_Annotations m ≠ None) →
   (∀ p, run.1 ≠ Panic p) ∧
   ∀ n m, ms !! n = Some m → ∃ m', cp_Machines (w_cp run.2) !! n = Some m' ∧
     (ActiveMachines m = true → has_hook hook m' = true ∧
        ∀ k, k ≠ hook → map_get (m_Annotations m') k = map_get (m_Annotations m) k) ∧
     (ActiveMachines m = false → m' = m)) ∧
  ((∃ n m, ms !! n = Some m ∧ ActiveMachines m = true ∧ m_Annotations m = None) →
   ∃ p, run.1 = Panic p).
Proof.
  cbn zeta. split.
  - intros Hann. destruct (applyHook_run_ok hook w Hann) as [Hp Hms]. split; [done|].
    intros n m Hm. rewrite Hms. by apply applyHook_lookup.
  - intros (n & m & Hm & Ha & Hn). apply applyHook_run_panic. exists n, m. split; [|done].
    by apply Filter_spec.
Qed.
End claims.
