(* ===== verification/Inplace.v ===== *)
(** * In-place updates

    controlplane/internal/controllers/inplace.go, inplace_trigger.go and
    inplace_canupdatemachine.go: instead of replacing an outdated machine the
    controller may ask an extension whether the machine can be changed in place,
    and then write the desired objects and the marks that start the update. *)

From Stdlib Require Import Ascii.
From stdpp Require Import base tactics option list gmap strings numbers.
From S2P Require Import Prelude Go Api Objects Libs World Hooks Etcd Desired ControlPlane Scale Demo.
Open Scope string_scope.
Open Scope list_scope.
Open Scope stdpp_scope.

(** The feature gate, the conversion of an object's spec to JSON
    (patchutil.ConvertToRawExtension), and the spec of an unstructured object. *)
Class InPlaceLib := {
  feature_InPlaceUpdates : bool;
  config_spec_json : RKE2Config → outcome string;
  infra_spec_json : Unstructured → outcome string
}.

Definition cfg_with_meta (o : ObjectMeta) (c : RKE2Config) : RKE2Config :=
  Build_RKE2Config (cfg_APIVersion c) (cfg_Kind c) o (cfg_Spec c) (cfg_Status c).
Definition om_with_both (l a : strmap) (o : ObjectMeta) : ObjectMeta :=
  om_with_annotations a (om_with_labels l o).

Section inplace.
Context `{CapiConsts, CollLib, CondLib, SetsLib, MetaLib, ServerJson, InPlaceLib, GoSort, GoRange, EV : Env}.

(** ** Can the machine be updated in place? *)

Definition cleanup_meta (o : ObjectMeta) : ObjectMeta :=
  Build_ObjectMeta (om_Name o) (om_Namespace o) "" (om_Labels o) (om_Annotations o) [] [] 0%Z None.

Definition cleanupMachine (machine : Machine) : Machine :=
  {| m_APIVersion := clusterv1_GroupVersion; m_Kind := "Machine";
     m_ObjectMeta := cleanup_meta (m_ObjectMeta machine);
     m_Spec := m_Spec machine; m_Status := MachineStatus_zero |}.

Definition cleanupRKE2Config (config : RKE2Config) : RKE2Config :=
  {| cfg_APIVersion := bootstrapv1_GroupVersion; cfg_Kind := "RKE2Config";
     cfg_ObjectMeta := cleanup_meta (cfg_ObjectMeta config);
     cfg_Spec := cfg_Spec config; cfg_Status := ConfigStatus_zero |}.

(** [infra_spec_json] reads nothing but the spec, which is kept. *)
Definition cleanupUnstructured (u : Unstructured) : Unstructured :=
  Build_Unstructured (un_APIVersion u) (un_Kind u) (cleanup_meta (un_ObjectMeta u)) (un_Content u).

Definition createCanUpdateRequest (currentMachine : Machine) (desiredMachine : Machine)
    (currentConfig desiredConfig : RKE2Config) (currentInfra desiredInfra : Unstructured) :
    M CanUpdateRequest :=
  let currentConfig := cfg_with_meta
    (om_with_both (om_Labels (cfg_ObjectMeta desiredConfig)) (om_Annotations (cfg_ObjectMeta desiredConfig))
       (cfg_ObjectMeta currentConfig)) currentConfig in
  let currentInfra := un_with_meta
    (om_with_both (om_Labels (un_ObjectMeta desiredInfra)) (om_Annotations (un_ObjectMeta desiredInfra))
       (un_ObjectMeta currentInfra)) currentInfra in
  desiredMachine ← wrap "server side apply dry-run failed for desired Machine"
                     (api (CDryRunMachine desiredMachine));
  currentInfra ← wrap "server side apply dry-run failed for current InfraMachine"
                   (api (CDryRunInfra currentInfra));
  desiredInfra ← wrap "server side apply dry-run failed for desired InfraMachine"
                   (api (CDryRunInfra desiredInfra));
  currentBootstrap ← lift (config_spec_json (cleanupRKE2Config currentConfig));
  desiredBootstrap ← lift (config_spec_json (cleanupRKE2Config desiredConfig));
  currentInfrastructure ← lift (infra_spec_json (cleanupUnstructured currentInfra));
  desiredInfrastructure ← lift (infra_spec_json (cleanupUnstructured desiredInfra));
  mret {| cr_Current := Build_CanUpdateObjects (cleanupMachine currentMachine) currentBootstrap
                          currentInfrastructure;
          cr_Desired := Build_CanUpdateObjects (cleanupMachine desiredMachine) desiredBootstrap
                          desiredInfrastructure |}.

Definition apply_patch {A} (p : option (A → outcome A)) (a : A) : outcome A :=
  match p with Some f => f a | None => Ok a end.

(** Only the spec of an object is patched. *)
Definition applyPatchesToRequest (req : CanUpdateRequest) (resp : CanUpdateResponse) :
    outcome CanUpdateRequest :=
  let cur := cr_Current req in
  spec ← apply_patch (cu_MachinePatch resp) (m_Spec (co_Machine cur));
  bootstrap ← apply_patch (cu_BootstrapConfigPatch resp) (co_BootstrapConfig cur);
  infra ← apply_patch (cu_InfrastructureMachinePatch resp) (co_InfrastructureMachine cur);
  mret {| cr_Current := Build_CanUpdateObjects (m_with_spec spec (co_Machine cur)) bootstrap infra;
          cr_Desired := cr_Desired req |}.

Definition matchesMachineSpecForUpdate (patched desired : Machine) : bool :=
  bool_decide (CleanupMachineSpecForDiff (m_Spec patched) = CleanupMachineSpecForDiff (m_Spec desired)).

(** The reasons why the objects still differ; none when they match. *)
Definition matchesMachine (req : CanUpdateRequest) : list string :=
  (if matchesMachineSpecForUpdate (co_Machine (cr_Current req)) (co_Machine (cr_Desired req)) then []
   else ["Machine cannot be updated in-place"]) ++
  (if decide (co_BootstrapConfig (cr_Current req) = co_BootstrapConfig (cr_Desired req)) then []
   else ["RKE2Config cannot be updated in-place"]) ++
  (if decide (co_InfrastructureMachine (cr_Current req) = co_InfrastructureMachine (cr_Desired req)) then []
   else ["InfraMachine cannot be updated in-place"]).

(** The request the last extension left behind is returned with the verdict. *)
Fixpoint ask_extensions (extensionHandlers : list string) (req : CanUpdateRequest) (reasons : list string) :
    M (bool * list string * CanUpdateRequest) :=
  match extensionHandlers with
  | [] => mret (false, reasons, req)
  | extensionHandler :: extensionHandlers =>
      resp ← api (CCallCanUpdateMachine extensionHandler req);
      req ← wrap "failed to apply patches to the CanUpdateMachine request"
              (lift (applyPatchesToRequest req resp));
      match matchesMachine req with
      | [] => mret (true, [], req)
      | reasons => ask_extensions extensionHandlers req reasons
      end
  end.

Definition canUpdateMachine (machine : Machine) (res : UpToDateResult) : M bool :=
  if negb feature_InPlaceUpdates then mret false
  else
    match ur_DesiredMachine res, ur_CurrentInfraMachine res, ur_DesiredInfraMachine res,
          ur_CurrentRKE2Config res, ur_DesiredRKE2Config res with
    | Some desiredMachine, Some currentInfra, Some desiredInfra, Some currentConfig, Some desiredConfig =>
        extensionHandlers ← api CGetUpdateExtensions;
        match extensionHandlers with
        | [] => mret false
        | [_] =>
            req ← wrap "failed to generate CanUpdateMachine request"
                    (createCanUpdateRequest machine desiredMachine currentConfig desiredConfig
                       currentInfra desiredInfra);
            '(canUpdate, _, _) ← ask_extensions extensionHandlers req [];
            mret canUpdate
        | _ => fail (EText "found multiple CanUpdateMachine hooks: only one hook is supported")
        end
    | _, _, _, _, _ => mret false
    end.

(** ** Starting the update

    The machine may be an older copy of the one in the control plane: nothing
    reads it after this call. *)

Definition infra_for_update (infra : Unstructured) : Unstructured :=
  let a k := default "" (map_get (om_Annotations (un_ObjectMeta infra)) k) in
  un_with_meta (om_with_both None
    (Some (<[TemplateClonedFromNameAnnotation := a TemplateClonedFromNameAnnotation]>
           (<[TemplateClonedFromGroupKindAnnotation := a TemplateClonedFromGroupKindAnnotation]>
            {[ UpdateInProgressAnnotation := "" ]}))) (un_ObjectMeta infra)) infra.
Definition config_for_update (config : RKE2Config) : RKE2Config :=
  cfg_with_meta (om_with_both None (Some {[ UpdateInProgressAnnotation := "" ]}) (cfg_ObjectMeta config)) config.

Definition mark_in_progress (machine : Machine) : M unit :=
  match map_get (m_Annotations machine) UpdateInProgressAnnotation with
  | Some _ => mret tt
  | None =>
      let a := <[UpdateInProgressAnnotation := ""]> (default ∅ (m_Annotations machine)) in
      updated ← wrap "failed to trigger in-place update for Machine"
                  (api (CMergePatchMachine machine (m_with_annotations (Some a) machine)));
      api (CWaitForCache "setting the annotation" updated)
  end.

Definition triggerInPlaceUpdate (machine : Machine) (res : UpToDateResult) : M unit :=
  _ ← mark_in_progress machine;
  match ur_DesiredInfraMachine res, ur_DesiredRKE2Config res with
  | None, _ => fail (EText "failed to complete triggering in-place update, could not compute desired InfraMachine")
  | _, None => fail (EText "failed to complete triggering in-place update, could not compute desired RKE2Config")
  | Some desiredInfra, Some desiredConfig =>
      _ ← wrap "failed to complete triggering in-place update"
            (api (CSsaPatchInfra (infra_for_update desiredInfra)));
      _ ← wrap "failed to complete triggering in-place update"
            (api (CSsaPatchConfig (config_for_update desiredConfig)));
      match ur_DesiredMachine res with
      | None => panic "nil pointer dereference"
      | Some desiredMachine =>
          desiredMachine ← wrap "failed to complete triggering in-place update"
                             (api (CSsaPatchMachine desiredMachine));
          desiredMachine ← wrap "failed to complete triggering in-place update"
                             (MarkAsPending desiredMachine true [UpdateMachineHook]);
          api (CWaitForCache "marking the UpdateMachine hook as pending" desiredMachine)
      end
  end.

(** The result, and whether to fall back to scaling down. *)
Definition tryInPlaceUpdate (machine : Machine) (res : UpToDateResult) : M (bool * Result) :=
  resultForAllMachines ← preflightChecks [];
  if negb (Result_IsZero resultForAllMachines) then
    result ← preflightChecks [machine];
    if Result_IsZero result then mret (true, Result_zero)
    else mret (false, resultForAllMachines)
  else
    canUpdate ← wrap "failed to determine if Machine can be updated in-place"
                  (canUpdateMachine machine res);
    if negb canUpdate then mret (true, Result_zero)
    else
      _ ← triggerInPlaceUpdate machine res;
      mret (false, Result_zero).
End inplace.

(** ** Lemmas and claims *)

Section inplace_claims.
Context `{CapiConsts, CollLib, CondLib, SetsLib, MetaLib, ServerJson, InPlaceLib, GoSort, GoRange, EV : Env}.

Lemma matchesMachine_nil req :
  matchesMachine req = [] ↔
  CleanupMachineSpecForDiff (m_Spec (co_Machine (cr_Current req))) =
    CleanupMachineSpecForDiff (m_Spec (co_Machine (cr_Desired req))) ∧
  co_BootstrapConfig (cr_Current req) = co_BootstrapConfig (cr_Desired req) ∧
  co_InfrastructureMachine (cr_Current req) = co_InfrastructureMachine (cr_Desired req).
Proof.
  unfold matchesMachine, matchesMachineSpecForUpdate.
  destruct (bool_decide_reflect (CleanupMachineSpecForDiff (m_Spec (co_Machine (cr_Current req))) =
    CleanupMachineSpecForDiff (m_Spec (co_Machine (cr_Desired req)))));
    destruct (decide (co_BootstrapConfig _ = _)), (decide (co_InfrastructureMachine _ = _)); simpl;
    (split; [by auto|]); intros (? & ? & ?); done.
Qed.

Lemma applyPatches_desired req resp req' :
  applyPatchesToRequest req resp = Ok req' → cr_Desired req' = cr_Desired req.
Proof.
  unfold applyPatchesToRequest, mbind, outcome_bind. cbn zeta.
  destruct (apply_patch (cu_MachinePatch resp) _); [|done..].
  destruct (apply_patch (cu_BootstrapConfigPatch resp) _); [|done..].
  destruct (apply_patch (cu_InfrastructureMachinePatch resp) _); [|done..]. by intros [= <-].
Qed.

(** Calls that change nothing on the server. *)
Definition only_asks (c : Call) : Prop :=
  match c with
  | CGetUpdateExtensions | CCallCanUpdateMachine _ _ | CDryRunMachine _ | CDryRunInfra _ => True
  | _ => False
  end.

Lemma createCanUpdateRequest_yields machine desired cc dc ci di :
  yields only_asks (λ req, co_Machine (cr_Current req) = cleanupMachine machine ∧
      ∃ d, co_Machine (cr_Desired req) = cleanupMachine d)
    (createCanUpdateRequest machine desired cc dc ci di).
Proof.
  unfold createCanUpdateRequest. cbn zeta.
  eapply yields_bind; [yields_call; done|]. intros d _.
  do 2 (eapply yields_bind; [yields_call; done|]; intros ? _).
  do 4 (eapply yields_bind; [apply (yields_lift _ (λ _, True)); done|]; intros ? _).
  apply yields_ret. simpl. eauto.
Qed.

(** The machine can be updated: an extension's patches turn the current objects
    into the desired ones. *)
Definition extension_agrees (machine : Machine) : Prop :=
  ∃ t ext req resp req', ask t (CCallCanUpdateMachine ext req) = inr resp ∧
    co_Machine (cr_Current req) = cleanupMachine machine ∧
    applyPatchesToRequest req resp = Ok req' ∧ cr_Desired req' = cr_Desired req ∧
    CleanupMachineSpecForDiff (m_Spec (co_Machine (cr_Current req'))) =
      CleanupMachineSpecForDiff (m_Spec (co_Machine (cr_Desired req))) ∧
    co_BootstrapConfig (cr_Current req') = co_BootstrapConfig (cr_Desired req) ∧
    co_InfrastructureMachine (cr_Current req') = co_InfrastructureMachine (cr_Desired req).

Lemma canUpdateMachine_yields machine res :
  yields only_asks (λ b, b = true → feature_InPlaceUpdates = true ∧ extension_agrees machine)
    (canUpdateMachine machine res).
Proof.
  unfold canUpdateMachine. destruct feature_InPlaceUpdates; cbn [negb]; [|by apply yields_ret].
  repeat (case_match; [|by apply yields_ret]).
  eapply yields_bind; [yields_call; done|]. intros [|ext [|? ?]] _; [by apply yields_ret| |apply yields_fail].
  eapply yields_bind; [apply yields_wrap, createCanUpdateRequest_yields|]. intros req [Hcur _].
  eapply (yields_bind _ (λ r, r.1.1 = true → extension_agrees machine)).
  - simpl. eapply yields_bind; [yields_call; done|]. intros resp [t Ht].
    eapply yields_bind; [apply yields_wrap, (yields_lift _ (λ r, applyPatchesToRequest req resp = Ok r)); done|].
    intros req' Hreq'. destruct (matchesMachine req') eqn:Em; [|by apply yields_ret].
    apply yields_ret. intros _. apply matchesMachine_nil in Em as (Hs & Hb & Hi).
    pose proof (applyPatches_desired _ _ _ Hreq') as Hd. rewrite Hd in *.
    by exists t, ext, req, resp, req'.
  - intros [[b ?] ?] Hb. apply yields_ret. auto.
Qed.


(** The call makes the UpdateMachine hook pending. *)
Definition starts_update (c : Call) : bool :=
  match c with
  | CMergePatchMachine before after =>
      IsPending UpdateMachineHook (m_Annotations after) && negb (IsPending UpdateMachineHook (m_Annotations before))
  | _ => false
  end.

Lemma in_progress_ne_pending : UpdateInProgressAnnotation ≠ PendingHooksAnnotation.
Proof. by apply (NoDup_lookup_ne _ 2 7 _ _ annotations_distinct). Qed.

Lemma mark_in_progress_emits machine : emits (λ c, starts_update c = false) (mark_in_progress machine).
Proof.
  unfold mark_in_progress. destruct (map_get _ _); [auto with emits|]. cbn zeta.
  apply emits_bind; [|intros ?; by emits_auto]. apply emits_wrap. refine (emits_api _ (CMergePatchMachine _ _) _).
  simpl. destruct (m_Annotations machine) as [a|] eqn:Ea; simpl.
  - rewrite lookup_insert_ne by apply in_progress_ne_pending. apply andb_negb_r.
  - rewrite lookup_insert_ne, lookup_empty by apply in_progress_ne_pending. simpl.
    rewrite andb_true_r. apply isIn_empty, UpdateMachine_hook_name.
Qed.

(** The desired objects have been written, in this order: infrastructure machine,
    bootstrap configuration, machine; the first two with the mark that an update
    is in progress. *)
Definition objects_written (res : UpToDateResult) (l : list Call) : Prop :=
  ∃ infra cfg m l0, ur_DesiredInfraMachine res = Some infra ∧ ur_DesiredRKE2Config res = Some cfg ∧
    ur_DesiredMachine res = Some m ∧
    l = CSsaPatchMachine m :: CSsaPatchConfig (config_for_update cfg) ::
        CSsaPatchInfra (infra_for_update infra) :: l0.

End inplace_claims.
