(* ===== verification/Reconciler.v ===== *)
(** * The control plane reconciler
    (controlplane/internal/controllers/rke2controlplane_controller.go)

    [reconcileNormal] composes the other components: it builds the control plane,
    keeps machines in step, updates conditions, handles lifecycle hooks, in-place
    updates and remediation, and then rolls out or scales.  [reconcileDelete]
    tears the control plane down. *)

From Stdlib Require Import Ascii.
From stdpp Require Import base tactics option list gmap strings numbers.
From S2P Require Import Prelude Go Api Objects Libs World Hooks Etcd Desired ControlPlane Scale.
From S2P Require Import Remediation Workload Lifecycle Inplace Demo.
Open Scope string_scope.
Open Scope list_scope.
Open Scope stdpp_scope.

(** [APIEndpoint.IsValid] and [intstr.IntValue]. *)
Class ReconcilerLib := {
  APIEndpoint_IsValid : string * Z → bool;
  IntValue : IntOrString → Z;
  IntValue_int i : IntValue (FromInt i) = i
}.

Definition st_with_no_ready (s : RKE2ControlPlaneStatus) : RKE2ControlPlaneStatus :=
  Build_RKE2ControlPlaneStatus (st_Conditions s) (st_ControlPlaneInitialized s) (st_ObservedGeneration s)
    (st_Replicas s) (st_Version s) (Some 0%Z) (st_AvailableReplicas s) (st_UpToDateReplicas s) None
    (st_LastRemediation s).

(** [controllerutil.RemoveFinalizer]. *)
Definition RemoveFinalizer (f : string) (r : RKE2ControlPlane) : RKE2ControlPlane :=
  rcp_with_meta (om_with_finalizers (filter (λ x, x ≠ f) (om_Finalizers (rcp_ObjectMeta r))) (rcp_ObjectMeta r)) r.
Definition ContainsFinalizer (f : string) (r : RKE2ControlPlane) : bool :=
  bool_decide (f ∈ om_Finalizers (rcp_ObjectMeta r)).

(** pkg/util/util.go. *)
Definition SafeInt32 (n : Z) : Z := if decide (MaxInt32 < n)%Z then MaxInt32 else wrap32 n.

Section reconciler.
Context `{CapiConsts, CollLib, CondLib, SetsLib, MetaLib, ServerJson, RemediationJson, WorkloadLib,
          InPlaceLib, ReconcilerLib, GoSort, GoRange, Clock, EV : Env}.

(** ** Conditions *)

Definition setConditionsToUnknown (Overwrite : bool) (EtcdClusterHealthyReason
    ControlPlaneComponentsHealthyReason EtcdMemberHealthyReason Message : string) : M unit :=
  c ← get_cp;
  let cs := GetConditions (cp_RCP c) in
  let etcdClusterHealthySet := conditions_Has cs RKE2ControlPlaneEtcdClusterHealthyCondition in
  let componentsHealthySet := conditions_Has cs RKE2ControlPlaneControlPlaneComponentsHealthyCondition in
  _ ← (if Overwrite || negb etcdClusterHealthySet then
         _ ← rcp_set_condition (mkCond RKE2ControlPlaneEtcdClusterHealthyCondition ConditionUnknown
               EtcdClusterHealthyReason Message);
         for_each (go_range 1145 (cp_Machines c)) (λ '(key, _),
           if IsEtcdManaged c then
             machine_set_condition key (mkCond RKE2ControlPlaneMachineEtcdMemberHealthyCondition
               ConditionUnknown EtcdMemberHealthyReason Message)
           else mret tt)
       else mret tt);
  if Overwrite || negb componentsHealthySet then
    rcp_set_condition (mkCond RKE2ControlPlaneControlPlaneComponentsHealthyCondition ConditionUnknown
      ControlPlaneComponentsHealthyReason Message)
  else mret tt.

(** The UpToDate condition of one machine. *)
Definition up_to_date_condition (notUpToDate : gset string) (results : gmap string UpToDateResult)
    (machine : Machine) : Condition :=
  if decide (m_Name machine ∈ notUpToDate) then
    let message := match results !! m_Name machine with
                   | Some result => Join (map (λ s, "* " +:+ s) (ur_ConditionMessages result)) newline
                   | None => ""
                   end in
    mkCond MachineUpToDateCondition ConditionFalse MachineNotUpToDateReason message
  else if IsUpdateInProgress machine then
    let msg := match m_condition machine MachineUpdatingCondition with
               | Some c => if bool_decide (cond_Status c = ConditionTrue) && bool_decide (cond_Message c ≠ "")
                           then "* " +:+ cond_Message c else "* In-place update in progress"
               | None => "* In-place update in progress"
               end in
    mkCond MachineUpToDateCondition ConditionFalse MachineUpToDateUpdatingReason msg
  else mkCond MachineUpToDateCondition ConditionTrue MachineUpToDateReason "".

Definition reconcileMachineUpToDateCondition : M unit :=
  c ← get_cp;
  let '(machinesNotUptoDate, results) := NotUpToDateMachines c in
  let names : gset string := list_to_set (map (λ kv, m_Name kv.2) (go_range 1067 machinesNotUptoDate)) in
  for_each (go_range 1069 (cp_Machines c)) (λ '(key, machine),
    machine_set_condition key (up_to_date_condition names results machine)).

(** [kerrors.NewAggregate([]error{retErr, err})]. *)
Definition join_errors {A} (o : outcome A) (err : error) : outcome A :=
  match o with Err e => Err (EAgg [e; err]) | _ => Err (EAgg [err]) end.

Definition reconcileControlPlaneConditions : M Result :=
  c ← get_cp;
  let rcp := cp_RCP c in
  if negb (pTime_IsZero (rcp_DeletionTimestamp rcp)) then mret Result_zero
  else if negb (rcp_initialized rcp) ||
          negb (conditions_IsTrue (GetConditions rcp) RKE2ControlPlaneInitializedCondition) then
    _ ← setConditionsToUnknown true InspectionFailedReason InspectionFailedReason InspectionFailedReason
          "Waiting for Cluster control plane to be initialized";
    mret Result_zero
  else
    _ ← (if decide (size (coll_Filter IsReady (cp_Machines c)) = 0) then
           _ ← modify_rcp (λ r, rcp_with_status (st_with_no_ready (rcp_Status r)) r);
           _ ← rcp_set_condition (mkCond AvailableCondition ConditionFalse
                 RKE2ControlPlaneWaitingForRKE2ServerReason
                 ("Waiting for at least one machine to be ready for control plane " +:+ rcp_Name rcp));
           rcp_set_condition (mkCond RKE2ControlPlaneMachinesReadyCondition ConditionFalse
             RKE2ControlPlaneWaitingForRKE2ServerReason "Waiting for control plane machines ")
         else mret tt);
    if negb (rcp_initialized rcp) then mret Result_zero
    else
      _ ← wrap "getting workload cluster" GetWorkloadCluster;
      finally
        (_ ← reconcileMachineUpToDateCondition;
         _ ← InitWorkload;
         _ ← UpdateAgentConditions;
         _ ← updateManagedEtcdConditions;
         _ ← UpdateNodeMetadata;
         mret Result_zero)
        (λ o, r ← try PatchMachines;
              mret (match r with inl _ => o | inr err => join_errors o err end)).

(** ** Rollout *)

Definition upgradeControlPlane (machinesRequireUpgrade : Machines)
    (machinesUpToDateResults : gmap string UpToDateResult) : M Result :=
  c ← get_cp;
  let rcp := cp_RCP c in
  if negb (rcp_initialized rcp) then mret Result_zero
  else
    _ ← wrap "getting workload cluster" GetWorkloadCluster;
    _ ← InitWorkload;
    match sp_RolloutStrategy (rcp_Spec rcp) with
    | None => panic "nil pointer dereference"
    | Some strategy =>
        if decide (rs_Type strategy = RollingUpdateStrategyType) then
          let maxSurge := default (FromInt 1) (rs_RollingUpdate strategy ≫= ru_MaxSurge) in
          match sp_Replicas (rcp_Spec rcp) with
          | None => panic "nil pointer dereference"
          | Some replicas =>
              let maxNodes := wrap32 (replicas + SafeInt32 (IntValue maxSurge)) in
              if decide (SafeInt32 (Z.of_nat (size (cp_Machines c))) < maxNodes)%Z then scaleUpControlPlane
              else
                c ← get_cp;
                machineToUpdate ← lift (selectMachineForInPlaceUpdateOrScaleDown c machinesRequireUpgrade);
                match machinesUpToDateResults !! m_Name machineToUpdate with
                | None => fail (EText "failed to check if Machine is UpToDate")
                | Some machineUpToDateResult =>
                    let currentUpToDateReplicas := wrap32 (Z.of_nat (size (UpToDateMachines c))) in
                    if feature_InPlaceUpdates && ur_EligibleForInPlaceUpdate machineUpToDateResult &&
                       bool_decide (currentUpToDateReplicas < replicas)%Z then
                      '(fallbackToScaleDown, res) ← tryInPlaceUpdate machineToUpdate machineUpToDateResult;
                      if negb (Result_IsZero res) then mret res
                      else if (fallbackToScaleDown : bool) then
                        scaleDownControlPlane {[ m_Name machineToUpdate := machineToUpdate ]}
                      else mret Result_zero
                    else scaleDownControlPlane machinesRequireUpgrade
                end
          end
        else mret Result_zero
    end.

(** ** Keeping machines in step *)

(** One machine: its new state and the base of its patch helper. *)
Definition syncMachine (c : ControlPlane) (machineName : string) (m : Machine) : M Machine :=
  let rcp := cp_RCP c in
  if negb (pTime_IsZero (m_DeletionTimestamp m)) then
    _ ← api (CNewPatchHelper "Machine" (m_Name m));
    let m' := m_with_spec (msp_with_mutable (template_taints rcp) (template_deletion rcp) (m_Spec m)) m in
    _ ← modify_machine machineName (λ _, m');
    _ ← api (CPatchMachine m m');
    _ ← api (CNewPatchHelper "Machine" (m_Name m'));
    mret m'
  else
    _ ← wrap "failed to update Machine: failed to adjust the managedFields of the Machine"
          (api (CCleanUpManagedFields (m_Name m)));
    updatedMachine ← wrap "failed to update Machine" (UpdateMachine m rcp (cp_Cluster c));
    _ ← modify_machine machineName (λ _, updatedMachine);
    _ ← wrap "failed to create patch helper for Machine"
          (api (CNewPatchHelper "Machine" (m_Name updatedMachine)));
    _ ← match cp_InfraResources c !! machineName with
        | Some infraMachine =>
            _ ← wrap "failed to clean up managedFields of InfrastructureMachine"
                  (api (CDropManagedFields (un_Kind infraMachine) (om_Name (un_ObjectMeta infraMachine))));
            wrap "failed to update InfrastructureMachine"
              (UpdateExternalObject (un_Kind infraMachine) (un_ObjectMeta infraMachine) rcp (cp_Cluster c))
        | None => mret tt
        end;
    _ ← match cp_Rke2Configs c !! machineName with
        | Some rke2Config =>
            _ ← wrap "failed to clean up managedFields of RKE2Config"
                  (api (CDropManagedFields "RKE2Config" (cfg_Name rke2Config)));
            wrap "failed to update RKE2Config"
              (UpdateExternalObject "RKE2Config" (cfg_ObjectMeta rke2Config) rcp (cp_Cluster c))
        | None => mret tt
        end;
    mret updatedMachine.

Definition syncMachines : M unit :=
  c ← get_cp;
  patchHelpers ← for_acc (go_range 960 (cp_Machines c)) (∅ : gmap string Machine)
    (λ patchHelpers '(machineName, m),
       m' ← syncMachine c machineName m;
       mret (<[machineName := m']> patchHelpers));
  modify_cp (SetPatchHelpers patchHelpers).

(** ** The reconcile of a control plane that is not being deleted *)

Definition waiting_for_cluster (message : string) : M unit :=
  _ ← rcp_set_condition (mkCond RKE2ControlPlaneEtcdClusterHealthyCondition ConditionUnknown
        InspectionFailedReason message);
  rcp_set_condition (mkCond RKE2ControlPlaneControlPlaneComponentsHealthyCondition ConditionUnknown
    InspectionFailedReason message).

(** Scaling, once every machine is up to date. *)
Definition scaleToReplicas (numMachines : nat) : M Result :=
  c ← get_cp;
  match sp_Replicas (rcp_Spec (cp_RCP c)) with
  | None => panic "nil pointer dereference"
  | Some desiredReplicas =>
      let num := Z.of_nat numMachines in
      if decide (num < desiredReplicas ∧ num = 0)%Z then initializeControlPlane
      else if decide (num < desiredReplicas ∧ 0 < num)%Z then scaleUpControlPlane
      else if decide (desiredReplicas < num)%Z then scaleDownControlPlane ∅
      else mret Result_zero
  end.

Definition rolloutOrScale (numMachines : nat) : M Result :=
  c ← get_cp;
  let '(needRollout, machinesUpToDateResults) := MachinesNeedingRollout c in
  if decide (0 < size needRollout)%nat then
    _ ← rcp_set_condition (mkCond RollingOutCondition ConditionTrue RollingOutReason
          ("Rolling " +:+ fmt_nat (size needRollout) +:+ " replicas with outdated spec(" +:+
           fmt_d (Z.of_nat (size (cp_Machines c)) - Z.of_nat (size needRollout)) +:+ " replicas up to date)"));
    upgradeControlPlane needRollout machinesUpToDateResults
  else
    _ ← (if conditions_Has (GetConditions (cp_RCP c)) RollingOutCondition then
           rcp_set_condition (mkCond RollingOutCondition ConditionFalse NotRollingOutReason "")
         else mret tt);
    scaleToReplicas numMachines.

(** [if result, err := m; err != nil || !result.IsZero() { return result, err }]. *)
Definition unless_done (m : M Result) (k : M Result) : M Result :=
  result ← m; if negb (Result_IsZero result) then mret result else k.

(** What happens once the control plane is known and its machines are in step. *)
Definition operate (numMachines : nat) : M Result :=
  unless_done reconcileControlPlaneConditions (
  unless_done reconcileLifecycleHooks (
    c ← get_cp;
    let toComplete := MachinesToCompleteTriggerInPlaceUpdate c in
    if decide (0 < size toComplete)%nat then
      _ ← for_each (go_range 506 toComplete) (λ '(_, m),
            triggerInPlaceUpdate m
              (default (ur_new false None None) ((NotUpToDateMachines c).2 !! m_Name m)));
      mret Result_zero
    else
      unless_done reconcileUnhealthyMachines (
        c ← get_cp;
        if decide (0 < size (MachinesToCompleteInPlaceUpdate c))%nat then mret Result_zero
        else rolloutOrScale numMachines))).

Definition reconcileNormal : M Result :=
  c ← get_cp;
  let rcp := cp_RCP c in
  let cluster := cp_Cluster c in
  if negb (default false (cl_InfrastructureProvisioned cluster)) then
    _ ← waiting_for_cluster "Waiting for Cluster status.infrastructureReady to be true";
    mret Result_zero
  else
    let legacy := bool_decide (is_Some (map_get (rcp_Annotations rcp) LegacyRKE2ControlPlane)) in
    r ← try (api (CLookupOrGenerateCertificates legacy));
    match r with
    | inr err =>
        _ ← rcp_set_condition (mkCond RKE2ControlPlaneCertificatesAvailableCondition ConditionUnknown
              InternalErrorReason genericErrorMessage);
        fail err
    | inl _ =>
        _ ← rcp_set_condition (mkCond RKE2ControlPlaneCertificatesAvailableCondition ConditionTrue
              AvailableReason "");
        if negb (APIEndpoint_IsValid (cl_ControlPlaneEndpoint cluster)) then
          _ ← waiting_for_cluster "Waiting for Cluster spec.controlPlaneEndpoint to be set";
          mret Result_zero
        else
          _ ← api CReconcileKubeconfig; (* a result that asks to requeue is dropped *)
          controlPlaneMachines ← GetMachinesForCluster true [ControlPlaneMachines (cl_Name cluster)];
          c ← get_cp;
          let ownedMachines := coll_Filter (OwnedMachines (cp_RCP c)) controlPlaneMachines in
          if decide (size ownedMachines ≠ size controlPlaneMachines) then mret Result_zero
          else
            _ ← NewControlPlane ownedMachines;
            _ ← wrap "reconciling external reference" ReconcileExternalReference;
            _ ← wrap "failed to sync Machines" syncMachines;
            operate (size ownedMachines)
    end.

(** ** Deletion *)

(** One machine: the error to report, if any. *)
Definition deleteOwnedMachine (m : Machine) : M (option error) :=
  m ← current m;
  r ← try (removePreTerminateHookAnnotationFromMachine m);
  match r with
  | inr err => mret (Some err)
  | inl _ =>
      m ← current m;
      r ← try (removeHookAnnotationFromMachine m PreDrainLoadbalancerExclusionAnnotation);
      match r with
      | inr err => mret (Some err)
      | inl _ =>
          m ← current m;
          if negb (pTime_IsZero (m_DeletionTimestamp m)) then mret None
          else
            r ← try (api (CDeleteMachine (m_Name m)));
            mret (match r with
                  | inl _ => None
                  | inr err => if IsNotFound err then None else Some err
                  end)
      end
  end.

(** The machines are deleted, or the deletion waits for the others. *)
Definition delete_machines (allMachines ownedMachines : Machines) : M Result :=
  _ ← NewControlPlane ownedMachines;
  _ ← try reconcileControlPlaneConditions;
  if decide (size allMachines ≠ size ownedMachines) then
    _ ← rcp_set_condition (mkCond DeletingCondition ConditionTrue
          RKE2ControlPlaneDeletingWaitingForWorkersDeletionReason
          "Waiting for worker nodes to be deleted first");
    mret (requeueAfter deleteRequeueAfter)
  else
    errs ← for_acc (go_range 650 ownedMachines) [] (λ errs '(_, m),
      e ← deleteOwnedMachine m;
      mret (match e with Some err => errs ++ [err] | None => errs end));
    match NewAggregate errs with
    | Some err => fail err
    | None =>
        _ ← rcp_set_condition (mkCond DeletingCondition ConditionTrue
              RKE2ControlPlaneDeletingWaitingForMachineDeletionReason
              "Waiting for control plane Machines to be deleted");
        mret (requeueAfter deleteRequeueAfter)
    end.

Definition reconcileDelete : M Result :=
  allMachines ← GetMachinesForCluster false [];
  c ← get_cp;
  let ownedMachines := coll_Filter (OwnedMachines (cp_RCP c)) allMachines in
  if decide (size ownedMachines = 0) then
    _ ← modify_rcp (λ r, if ContainsFinalizer RKE2ControlPlaneLegacyFinalizer r
                         then RemoveFinalizer RKE2ControlPlaneLegacyFinalizer r else r);
    _ ← modify_rcp (RemoveFinalizer RKE2ControlPlaneFinalizer);
    _ ← rcp_set_condition (mkCond DeletingCondition ConditionTrue DeletionCompletedReason "");
    mret Result_zero
  else delete_machines allMachines ownedMachines.
End reconciler.

(** ** Creating and deleting machines *)

Inductive Change := Created | Deleted (name : string).

(** A machine is created by cloning its infrastructure template first. *)
Definition change_of (c : Call) : option Change :=
  match c with
  | CDeleteMachine n => Some (Deleted n)
  | CCreateFromTemplate _ _ _ _ _ _ _ => Some Created
  | _ => None
  end.
Definition no_change (c : Call) : Prop := change_of c = None.

Section changes.
Context `{CapiConsts, CollLib, CondLib, SetsLib, MetaLib, ServerJson, RemediationJson, WorkloadLib,
          InPlaceLib, ReconcilerLib, GoSort, GoRange, Clock, EV : Env}.

Lemma ForwardEtcdLeadership_no_change wl m k : emits no_change (ForwardEtcdLeadership wl m k).
Proof. eapply emits_mono; [|apply (ForwardEtcdLeadership_calls wl m k)]. by intros []. Qed.
Lemma EtcdMembers_no_change wl : emits no_change (EtcdMembers wl).
Proof. eapply emits_mono; [|apply EtcdMembers_reads]. by intros []. Qed.
Lemma GetWorkloadCluster_no_change : emits no_change GetWorkloadCluster.
Proof. unfold GetWorkloadCluster. emits_auto. Qed.
Lemma preflightChecks_no_change l : emits no_change (preflightChecks l).
Proof. unfold preflightChecks. emits_auto. Qed.
Lemma PatchMachines_no_change : emits no_change PatchMachines.
Proof. unfold PatchMachines. emits_auto. Qed.
Lemma InitWorkload_no_change : emits no_change InitWorkload.
Proof. unfold InitWorkload, getControlPlaneNodes. emits_auto. Qed.
Hint Resolve ForwardEtcdLeadership_no_change EtcdMembers_no_change GetWorkloadCluster_no_change
  preflightChecks_no_change PatchMachines_no_change InitWorkload_no_change : emits.

Lemma conditions_no_change : emits no_change reconcileControlPlaneConditions.
Proof.
  unfold reconcileControlPlaneConditions, setConditionsToUnknown, reconcileMachineUpToDateCondition,
    UpdateAgentConditions, updateManagedEtcdConditions, first_pass, second_pass,
    aggregateConditionsFromMachinesToRCP, UpdateNodeMetadata, PatchNodes, set_v1beta1, node_patch_failed.
  emits_auto.
Qed.

Lemma lifecycle_no_change : emits no_change reconcileLifecycleHooks.
Proof.
  unfold reconcileLifecycleHooks, reconcilePreDrainHook, reconcilePreTerminateHook,
    applyHookToActiveMachines, cleanupHookOnAllMachines, removeHookAnnotationFromMachine,
    removePreTerminateHookAnnotationFromMachine, merge_patch, release_etcd_member, ApplyLabelOnNode,
    RemoveEtcdMemberForMachine, removeMemberForNode, IsEtcdMemberSafelyRemovedForMachine,
    isMemberRemovedForNode, getControlPlaneNodes.
  emits_auto.
Qed.

Lemma triggerInPlaceUpdate_no_change m res : emits no_change (triggerInPlaceUpdate m res).
Proof. unfold triggerInPlaceUpdate, mark_in_progress, MarkAsPending. emits_auto. Qed.

Lemma tryInPlaceUpdate_no_change m res : emits no_change (tryInPlaceUpdate m res).
Proof.
  assert (emits no_change (canUpdateMachine m res)) as Hcan.
  { apply yields_emits. eapply yields_calls_mono; [|eapply yields_mono; [|apply canUpdateMachine_yields]].
    - by intros [].
    - done. }
  pose proof (triggerInPlaceUpdate_no_change m res). unfold tryInPlaceUpdate. emits_auto.
Qed.
Hint Resolve conditions_no_change lifecycle_no_change triggerInPlaceUpdate_no_change
  tryInPlaceUpdate_no_change : emits.

Lemma clone_one (Q : Change → Prop) cluster rcp spec fd w :
  Q Created → one_pick change_of Q (cloneConfigsAndGenerateMachine cluster rcp spec fd) w.
Proof.
  intros HQ. unfold cloneConfigsAndGenerateMachine. apply one_pick_bind; [emits_auto|]. intros v w1 _.
  apply one_pick_then.
  - apply one_pick_wrap. match goal with |- one_pick _ _ (api ?c) _ =>
      apply (one_pick_call _ _ _ c Created); [|done|done] end.
    intros w2. unfold api. by destruct (ask _ _).
  - intros [infra infraRef]. unfold generateRKE2Config, createMachine, computeDesiredMachine,
      cleanupFromGeneration. emits_auto.
Qed.

Lemma scaleUp_one (Q : Change → Prop) w :
  (cp_Machines (w_cp w) = ∅ ∨ stable [] (w_cp w) → Q Created) → one_pick change_of Q scaleUpControlPlane w.
Proof.
  intros HQ. unfold scaleUpControlPlane. apply one_pick_bind; [auto with emits|]. intros r w1 Hw1.
  destruct (preflightChecks_run [] w) as (r' & p & Hrun & Hz & _). rewrite Hrun in Hw1. simplify_eq.
  destruct (Result_IsZero r) eqn:Er; cbn [negb]; [|apply one_pick_none; auto with emits].
  apply one_pick_bind; [auto with emits|]. intros c w2 _.
  apply one_pick_then; [|auto with emits]. apply clone_one, HQ, Hz. done.
Qed.

Lemma scaleDown_one (Q : Change → Prop) outdated w :
  (∀ m, selectMachineForScaleDown (w_cp w) outdated = Ok m →
     cp_Machines (w_cp w) = ∅ ∨ stable [m] (w_cp w) → Q (Deleted (m_Name m))) →
  one_pick change_of Q (scaleDownControlPlane outdated) w.
Proof.
  intros HQ. unfold scaleDownControlPlane. apply one_pick_bind; [auto with emits|]. intros c w0 [= <- <-].
  apply one_pick_bind; [emits_auto|]. intros m w1 Hm. unfold wrap, lift in Hm.
  destruct (selectMachineForScaleDown (w_cp w) outdated) as [m'|e|p] eqn:Es; simplify_eq.
  apply one_pick_bind; [auto with emits|]. intros r w2 Hw2.
  destruct (preflightChecks_run [m] w1) as (r' & p & Hrun & Hz & _). rewrite Hrun in Hw2. simplify_eq.
  destruct (Result_IsZero r) eqn:Er; cbn [negb]; [|apply one_pick_none; auto with emits].
  apply one_pick_bind; [emits_auto|]. intros wl w3 _.
  apply one_pick_bind; [emits_auto|]. intros _ w4 _.
  apply one_pick_then.
  - eapply one_pick_call; [apply (try_api_call (CDeleteMachine (m_Name m)))|done|].
    by apply HQ, Hz.
  - intros x. emits_auto.
Qed.

Lemma initialize_one (Q : Change → Prop) w : Q Created → one_pick change_of Q initializeControlPlane w.
Proof.
  intros HQ. unfold initializeControlPlane, GetMachinesForCluster.
  apply one_pick_bind; [auto with emits|]. intros c w1 _.
  apply one_pick_bind; [emits_auto|]. intros ms w2 _.
  case_decide; [apply one_pick_none; auto with emits|]. cbn zeta.
  apply one_pick_then; [by apply clone_one|auto with emits].
Qed.
End changes.

Section rollout_claims.
Context `{CapiConsts, CollLib, CondLib, SetsLib, MetaLib, ServerJson, RemediationJson, WorkloadLib,
          InPlaceLib, ReconcilerLib, GoSort, GoRange, Clock, EV : Env}.
Hint Resolve ForwardEtcdLeadership_no_change EtcdMembers_no_change GetWorkloadCluster_no_change
  preflightChecks_no_change PatchMachines_no_change InitWorkload_no_change conditions_no_change
  lifecycle_no_change triggerInPlaceUpdate_no_change tryInPlaceUpdate_no_change : emits.

Lemma InitWorkload_machines : keeps cp_Machines InitWorkload.
Proof.
  unfold InitWorkload, getControlPlaneNodes, rcp_set_condition, modify_rcp, modify_workload. keeps_auto.
Qed.
Hint Resolve GetWorkloadCluster_machines InitWorkload_machines : keeps.

Lemma keeps_run {A X} (f : ControlPlane → X) (m : M A) w a w' :
  keeps f m → m w = (Ok a, w') → f (w_cp w') = f (w_cp w).
Proof. intros Hm Hrun. pose proof (Hm w) as Hk. by rewrite Hrun in Hk. Qed.

Lemma stable_ext l c c' : cp_Machines c' = cp_Machines c → stable l c' → stable l c.
Proof. unfold stable. by intros ->. Qed.

(** The most machines a rollout may have: replicas and surge, as the int32 the
    code computes. *)
Definition max_nodes (c : ControlPlane) (n : Z) : Prop :=
  ∃ strategy replicas, sp_RolloutStrategy (rcp_Spec (cp_RCP c)) = Some strategy ∧
    sp_Replicas (rcp_Spec (cp_RCP c)) = Some replicas ∧
    n = wrap32 (replicas + SafeInt32 (IntValue (default (FromInt 1) (rs_RollingUpdate strategy ≫= ru_MaxSurge)))).

Definition rollout_step (c : ControlPlane) (x : Change) : Prop :=
  ∃ n, max_nodes c n ∧
  match x with
  | Created => (SafeInt32 (Z.of_nat (size (cp_Machines c))) < n)%Z ∧
               (cp_Machines c = ∅ ∨ stable [] c)
  | Deleted name => (n ≤ SafeInt32 (Z.of_nat (size (cp_Machines c))))%Z ∧
               ∃ m, name = m_Name m ∧ (cp_Machines c = ∅ ∨ stable [m] c)
  end.

Lemma upgrade_one needRollout results w :
  one_pick change_of (rollout_step (w_cp w)) (upgradeControlPlane needRollout results) w.
Proof.
  unfold upgradeControlPlane. apply one_pick_bind; [auto with emits|]. intros c w0 [= <- <-]. cbn zeta.
  destruct (rcp_initialized _); cbn [negb]; [|apply one_pick_none; auto with emits].
  apply one_pick_bind; [emits_auto|]. intros wl w1 Hw1.
  apply (keeps_run cp_Machines) in Hw1; [|keeps_auto].
  apply one_pick_bind; [auto with emits|]. intros [] w2 Hw2.
  apply (keeps_run cp_Machines) in Hw2; [|auto with keeps]. rewrite Hw1 in Hw2. clear Hw1.
  destruct (sp_RolloutStrategy _) as [strategy|] eqn:Es; [|apply one_pick_none; auto with emits].
  case_decide; [|apply one_pick_none; auto with emits].
  destruct (sp_Replicas _) as [replicas|] eqn:Er; [|apply one_pick_none; auto with emits].
  set (n := wrap32 _). assert (max_nodes (w_cp w) n) as Hn by (by exists strategy, replicas).
  assert (∀ m, (cp_Machines (w_cp w2) = ∅ ∨ stable [m] (w_cp w2)) →
               cp_Machines (w_cp w) = ∅ ∨ stable [m] (w_cp w)) as Hst.
  { intros m [He|Hs]; [left; congruence|right; by eapply stable_ext]. }
  case_decide as Hlt.
  { apply scaleUp_one. intros Hs. exists n. split_and!; [done|done|].
    destruct Hs as [He|Hs]; [left; congruence|right; by eapply stable_ext]. }
  apply one_pick_bind; [auto with emits|]. intros c w3 [= <- <-].
  apply one_pick_bind; [auto with emits|]. intros m w4 [= _ <-].
  assert (∀ out, one_pick change_of (rollout_step (w_cp w)) (scaleDownControlPlane out) w2) as Hdown.
  { intros out. apply scaleDown_one. intros m' _ Hs. exists n. split_and!; [done|lia|]. eauto. }
  destruct (results !! m_Name m) as [res|]; [|apply one_pick_none; auto with emits].
  destruct (_ && _ && _); [|apply Hdown].
  apply one_pick_bind; [auto with emits|]. intros [fallback r] w5 Hw5.
  destruct (Result_IsZero r); cbn [negb]; [|apply one_pick_none; auto with emits].
  destruct fallback; [|apply one_pick_none; auto with emits].
  (* falling back, nothing was changed but the preflight results *)
  assert (cp_Machines (w_cp w5) = cp_Machines (w_cp w2)) as Hms.
  { revert Hw5. unfold tryInPlaceUpdate. unfold mbind at 1, comp_bind at 1.
    destruct (preflightChecks_run [] w2) as (r0 & p & -> & _).
    destruct (Result_IsZero r0); cbn [negb].
    - intros Hw5. apply (keeps_run cp_Machines) in Hw5; [exact Hw5|].
      unfold canUpdateMachine, createCanUpdateRequest, triggerInPlaceUpdate,
        mark_in_progress, MarkAsPending. keeps_auto; simpl; keeps_auto.
    - unfold mbind at 1, comp_bind at 1. destruct (preflightChecks_run [m] (w_with_cp (cp_with_preflight p (w_cp w2)) w2))
        as (r1 & p' & -> & _). case_match; by intros [= <- <-]. }
  apply scaleDown_one. intros m' _ Hs. exists n. split_and!; [done|lia|]. exists m'. split; [done|].
  apply Hst. destruct Hs as [He|Hs]; [left; congruence|right; by eapply stable_ext].
Qed.

(** C18: a rolling update creates or deletes at most one machine per reconcile.  It
    creates one only while there are fewer machines than replicas plus MaxSurge
    (a sum of two int32 values, which wraps around), and only when no machine is
    being deleted and all are healthy; it deletes one only when that many
    machines exist, and only when no machine is being deleted and all other
    machines are healthy. *)
Theorem upgradeControlPlane_surge needRollout results w :
  ∃ l, w_calls (upgradeControlPlane needRollout results w).2 = l ++ w_calls w ∧
    (picks change_of l = [] ∨ ∃ x, picks change_of l = [x] ∧ rollout_step (w_cp w) x).
Proof. apply upgrade_one. Qed.
End rollout_claims.

Section normal_claims.
Context `{CapiConsts, CollLib, CondLib, SetsLib, MetaLib, ServerJson, RemediationJson, WorkloadLib,
          InPlaceLib, ReconcilerLib, GoSort, GoRange, Clock, EV : Env}.
Hint Resolve ForwardEtcdLeadership_no_change EtcdMembers_no_change GetWorkloadCluster_no_change
  preflightChecks_no_change PatchMachines_no_change InitWorkload_no_change conditions_no_change
  lifecycle_no_change triggerInPlaceUpdate_no_change tryInPlaceUpdate_no_change : emits.

Lemma NewControlPlane_no_change ms : emits no_change (NewControlPlane ms).
Proof.
  unfold NewControlPlane, GetInfraResources, GetRKE2Configs, patch_helpers, UpToDate, matchesMachineSpec,
    compute_desired, ComputeDesiredMachine, ComputeDesiredInfraMachine. emits_auto.
Qed.
Lemma ReconcileExternalReference_no_change : emits no_change ReconcileExternalReference.
Proof. unfold ReconcileExternalReference. emits_auto. Qed.
Lemma syncMachines_no_change : emits no_change syncMachines.
Proof.
  unfold syncMachines, syncMachine, UpdateMachine, computeDesiredMachine, UpdateExternalObject. emits_auto.
Qed.

(** Remediation creates nothing, and when it lets the reconcile go on it has
    deleted nothing. *)
Lemma unhealthy_quiet : quiet no_change reconcileUnhealthyMachines.
Proof.
  assert (emits no_change cleanupPendingRemediations) as Hc by (unfold cleanupPendingRemediations; emits_auto).
  assert (emits no_change remediationInProgress) as Hp by (unfold remediationInProgress; emits_auto).
  assert (∀ m t, emits no_change (checkRetryLimits m t)) as Hr by (intros; apply checkRetryLimits_emits).
  assert (∀ m, emits no_change (prepareRemediation m)) as Hprep.
  { intros m. unfold prepareRemediation, canSafelyRemoveEtcdMember, set_remediated, current. emits_auto. }
  unfold reconcileUnhealthyMachines. apply quiet_bind; [auto with emits|]. intros t.
  apply quiet_bind; [done|]. intros _. apply quiet_bind; [auto with emits|]. intros c.
  case_decide; [apply quiet_emits; auto with emits|].
  case_match; [|apply quiet_emits; auto with emits].
  destruct (pTime_IsZero _); cbn [negb]; [|apply quiet_emits; auto with emits].
  apply quiet_bind; [done|]. intros [|]; [apply quiet_emits; auto with emits|].
  apply quiet_bind; [emits_auto|]. intros _. apply quiet_finally.
  - apply quiet_bind; [done|]. intros [d can]. destruct can; cbn [negb]; [|apply quiet_emits; auto with emits].
    apply quiet_bind; [destruct (rcp_initialized _); [done|auto with emits]|].
    intros go. destruct go; cbn [negb]; [|apply quiet_emits; auto with emits].
    intros w r w'. unfold deleteForRemediation, mbind, comp_bind, try.
    destruct (api (CDeleteMachine _) w) as [[u|e|p] w1]; [|done..].
    unfold set_remediated, machine_set_condition, modify_machine, modify_rcp, modify_cp, modify, lift.
    destruct (RemediationData_Marshal d); [|done..]. by intros [= <- _].
  - intros o. unfold current. emits_auto.
  - intros o w r w'. unfold current, get_cp, gets. unfold mbind, comp_bind, try, mret, comp_ret. cbn beta iota.
    match goal with |- context [api ?c ?w1] => destruct (api_cases c w1) as [(e & _ & ->)|(u & _ & ->)] end;
      [by destruct o; intros [= ]|by intros [= -> _]].
Qed.

Lemma created_none_deletions l :
  Forall (λ c, change_of c ≠ Some Created) l → picks change_of l = Deleted <$> deletions l.
Proof.
  induction 1 as [|c l Hc _ IH]; [done|].
  destruct c; try exact IH; [by destruct Hc|]. change (Deleted name :: picks change_of l = Deleted name :: (Deleted <$> deletions l)).
  by rewrite IH.
Qed.

Lemma unhealthy_one w : one_pick change_of (λ _, True) reconcileUnhealthyMachines w.
Proof.
  assert (emits (λ c, change_of c ≠ Some Created) reconcileUnhealthyMachines) as He.
  { assert (∀ m t, emits (λ c, change_of c ≠ Some Created) (checkRetryLimits m t)) as Hr
      by (intros; apply checkRetryLimits_emits).
    assert (∀ wl m k, emits (λ c, change_of c ≠ Some Created) (ForwardEtcdLeadership wl m k)) as Hf.
    { intros. eapply emits_mono; [|apply ForwardEtcdLeadership_no_change]. by intros c ->. }
    assert (∀ wl, emits (λ c, change_of c ≠ Some Created) (EtcdMembers wl)) as Hm.
    { intros. eapply emits_mono; [|apply EtcdMembers_no_change]. by intros c ->. }
    unfold reconcileUnhealthyMachines, cleanupPendingRemediations, remediationInProgress, prepareRemediation,
      canSafelyRemoveEtcdMember, GetWorkloadCluster, deleteForRemediation, set_remediated, current.
    emits_auto. }
  destruct (reconcileUnhealthyMachines_one w) as (l & Hl & Hd). destruct (He w) as (l' & Hl' & Pl').
  assert (l' = l) as -> by (apply (app_inv_tail (w_calls w)); congruence).
  exists l. split; [done|]. rewrite created_none_deletions by done.
  unfold deletions. destruct Hd as [->|(n & -> & _)]; eauto.
Qed.

Lemma unless_done_one Q m k w :
  one_pick change_of Q m w → quiet no_change m → (∀ w', one_pick change_of Q k w') →
  one_pick change_of Q (unless_done m k) w.
Proof.
  intros (l & Hl & Hd) Hq Hk. unfold unless_done, one_pick, mbind, comp_bind.
  destruct (m w) as [[r|e|p] w1] eqn:E; simpl in *; [|by exists l..].
  destruct (Result_IsZero r) eqn:Ez; cbn [negb]; [|by exists l].
  destruct (Hq w r w1 E Ez) as (l0 & Hl0 & P0). destruct (Hk w1) as (l' & Hl' & Hd').
  exists (l' ++ l0). rewrite Hl', Hl0, app_assoc, picks_app, (picks_nil change_of l0 P0), app_nil_r. done.
Qed.

Lemma operate_one n w : one_pick change_of (λ _, True) (operate n) w.
Proof.
  unfold operate. apply unless_done_one;
    [apply one_pick_none; auto with emits|apply quiet_emits; auto with emits|]. intros w1.
  apply unless_done_one; [apply one_pick_none; auto with emits|apply quiet_emits; auto with emits|]. intros w2.
  apply one_pick_bind; [auto with emits|]. intros c w3 _. cbn zeta.
  case_decide; [apply one_pick_none; emits_auto|].
  apply unless_done_one; [apply unhealthy_one|apply unhealthy_quiet|]. intros w4.
  apply one_pick_bind; [auto with emits|]. intros c' w5 _.
  case_decide; [apply one_pick_none; auto with emits|].
  unfold rolloutOrScale. apply one_pick_bind; [auto with emits|]. intros c2 w6 _.
  destruct (MachinesNeedingRollout c2) as [needRollout results]. case_decide.
  - apply one_pick_bind; [auto with emits|]. intros _ w7 _.
    destruct (upgrade_one needRollout results w7) as (l & Hl & Hd). exists l. split; [done|].
    destruct Hd as [?|(x & ? & _)]; eauto.
  - apply one_pick_bind; [emits_auto|]. intros _ w7 _. unfold scaleToReplicas.
    apply one_pick_bind; [auto with emits|]. intros c3 w8 _.
    case_match; [|apply one_pick_none; auto with emits]. cbn zeta.
    repeat case_decide; [by apply initialize_one|by apply scaleUp_one|by apply scaleDown_one|].
    apply one_pick_none; auto with emits.
Qed.

(** What has to hold before a reconcile changes any machine. *)
Definition may_operate (c : ControlPlane) : Prop :=
  default false (cl_InfrastructureProvisioned (cp_Cluster c)) = true ∧
  APIEndpoint_IsValid (cl_ControlPlaneEndpoint (cp_Cluster c)) = true ∧
  ∃ t ms rcp, ask t (CListMachines true) = inr ms ∧
    rcp_ObjectMeta rcp = rcp_ObjectMeta (cp_RCP c) ∧
    ∀ n m, ms !! n = Some m → ControlPlaneMachines (cl_Name (cp_Cluster c)) m = true →
      OwnedMachines rcp m = true.

Lemma Filter_all p (ms : Machines) :
  size (coll_Filter p ms) = size ms → ∀ n m, ms !! n = Some m → p m = true.
Proof.
  intros Hs n m Hm. assert (coll_Filter p ms = ms) as He.
  { apply map_subseteq_size_eq; [apply Filter_subseteq|lia]. }
  rewrite <-He in Hm. by apply Filter_spec in Hm as [_ ?].
Qed.

Lemma reconcileNormal_one w :
  one_pick change_of (λ _, may_operate (w_cp w)) reconcileNormal w.
Proof.
  unfold reconcileNormal. apply one_pick_bind; [auto with emits|]. intros c w0 [= <- <-]. cbn zeta.
  destruct (default false _) eqn:Einf; cbn [negb]; [|apply one_pick_none; unfold waiting_for_cluster; emits_auto].
  apply one_pick_bind; [emits_auto|]. intros r w1 Hw1.
  destruct r as [u|err]; [|apply one_pick_none; emits_auto].
  apply one_pick_bind; [auto with emits|]. intros [] w2 Hw2.
  destruct (APIEndpoint_IsValid _) eqn:Eep; cbn [negb]; [|apply one_pick_none; unfold waiting_for_cluster; emits_auto].
  apply one_pick_bind; [emits_auto|]. intros res w3 Hw3.
  apply one_pick_bind; [unfold GetMachinesForCluster; emits_auto|]. intros cpm w4 Hw4.
  apply one_pick_bind; [auto with emits|]. intros c w5 [= <- <-].
  case_decide as Hsz; [apply one_pick_none; auto with emits|].
  assert (may_operate (w_cp w)) as Hmay.
  { split_and!; [done|done|]. revert Hw4. unfold GetMachinesForCluster, mbind, comp_bind.
    destruct (api_cases (CListMachines true) w3) as [(e & _ & ->)|(ms & Ht & ->)]; [done|].
    intros [= <- <-]. exists (w_calls w3), ms, (cp_RCP (w_cp w3)). split_and!; [done| |].
    - assert (w_cp w3 = w_cp w2) as ->.
      { pose proof (keeps_api id CReconcileKubeconfig w2) as Hk. rewrite Hw3 in Hk. exact Hk. }
      assert (w_cp w1 = w_cp w) as Hcp1.
      { pose proof (keeps_try id _ (keeps_api id (CLookupOrGenerateCertificates
          (bool_decide (is_Some (map_get (rcp_Annotations (cp_RCP (w_cp w))) LegacyRKE2ControlPlane))))) w) as Hk.
        rewrite Hw1 in Hk. exact Hk. }
      injection Hw2 as <-. simpl. by rewrite Hcp1.
    - intros n m Hm Hcp. destruct (decide (size (coll_Filter (OwnedMachines (cp_RCP (w_cp w3)))
        (coll_Filter (ControlPlaneMachines (cl_Name (cp_Cluster (w_cp w)))) ms)) =
        size (coll_Filter (ControlPlaneMachines (cl_Name (cp_Cluster (w_cp w)))) ms))) as [He|Hne].
      + eapply (Filter_all _ _ He n). by apply Filter_spec.
      + by destruct Hsz. }
  apply one_pick_bind; [apply NewControlPlane_no_change|]. intros [] w6 _.
  apply one_pick_bind; [apply emits_wrap, ReconcileExternalReference_no_change|]. intros [] w7 _.
  apply one_pick_bind; [apply emits_wrap, syncMachines_no_change|]. intros [] w8 _.
  destruct (operate_one (size (coll_Filter (OwnedMachines (cp_RCP (w_cp w4))) cpm)) w8) as (l & Hl & Hd).
  exists l. split; [done|]. destruct Hd as [?|(x & ? & _)]; eauto.
Qed.

(** C1: one reconcile creates or deletes at most one control plane machine,
    whatever combination of conditions, lifecycle hooks, in-place updates,
    remediation, rollout and scaling it goes through; and it does so only when
    the cluster's infrastructure is provisioned, its endpoint is known, and every
    control plane machine listed belongs to this control plane. *)
Theorem reconcileNormal_one_change w :
  ∃ l, w_calls (reconcileNormal w).2 = l ++ w_calls w ∧
    (picks change_of l = [] ∨ ∃ x, picks change_of l = [x] ∧ may_operate (w_cp w)).
Proof. apply reconcileNormal_one. Qed.
End normal_claims.

(** ** Deleting the control plane *)

Section delete_claims.
Context `{CapiConsts, CollLib, CondLib, SetsLib, MetaLib, ServerJson, RemediationJson, WorkloadLib,
          InPlaceLib, ReconcilerLib, GoSort, GoRange, Clock, EV : Env}.

(** The server was asked to delete the machine [n], and has done so or does not
    know it. *)
Definition delete_accepted (n : string) (calls : list Call) : Prop :=
  ∃ later earlier, calls = later ++ CDeleteMachine n :: earlier ∧
    match ask earlier (CDeleteMachine n) with inr _ => True | inl err => IsNotFound err = true end.

Lemma delete_accepted_later n l calls : delete_accepted n calls → delete_accepted n (l ++ calls).
Proof. intros (l1 & l2 & -> & Ha). exists (l ++ l1), l2. by rewrite app_assoc. Qed.

(** What the deletion looks at of a machine. *)
Definition identity (m : Machine) : string * option Time := (m_Name m, m_DeletionTimestamp m).

(** A merge patch of the annotations leaves the identity alone. *)
Definition patch_keeps_identity : Prop :=
  ∀ t before after updated, ask t (CMergePatchMachine before after) = inr updated →
    identity updated = identity after.

(** The machines in memory are [ms], up to what may have been patched. *)
Definition same_machines (ms : Machines) (c : ControlPlane) : Prop :=
  ∀ n m, ms !! n = Some m → ∃ m', cp_Machines c !! n = Some m' ∧ identity m' = identity m.

Section delete_all.
Context (ms : Machines) (Hpatch : patch_keeps_identity) (Hkeys : keyed_machines ms).

Lemma same_alter n m f c :
  ms !! n = Some m → (∀ m0, identity (f m0) = identity m) → same_machines ms c →
  same_machines ms (cp_with_machines (alter f n (cp_Machines c)) c).
Proof.
  intros Hm Hf Hs n' m' Hm'. destruct (Hs n' m' Hm') as (m1 & Hm1 & Hi). simpl.
  destruct (decide (n = n')) as [<-|Hne].
  - rewrite lookup_alter_eq, Hm1. simplify_eq. by exists (f m1).
  - rewrite lookup_alter_ne by done. by exists m1.
Qed.

Lemma merge_patch_same n m before after w :
  ms !! n = Some m → identity before = identity m → identity after = identity m →
  same_machines ms (w_cp w) → same_machines ms (w_cp (merge_patch before after w).2).
Proof.
  intros Hm Hb Ha Hs. assert (m_Name before = n) as Hn.
  { rewrite <-(Hkeys n m Hm). by injection Hb. }
  unfold merge_patch. rewrite Hn.
  pose proof (same_alter n m (λ _, after) (w_cp w) Hm (λ _, Ha) Hs) as Hs1.
  unfold mbind, comp_bind, wrap. simpl. destruct (ask _ _) as [e|updated] eqn:Ep; simpl; [exact Hs1|].
  refine (same_alter n m (λ _, updated) _ Hm _ Hs1). intros _. by rewrite (Hpatch _ _ _ _ Ep).
Qed.

Lemma removePreTerminate_same n m m' w :
  ms !! n = Some m → identity m' = identity m → same_machines ms (w_cp w) →
  same_machines ms (w_cp (removePreTerminateHookAnnotationFromMachine m' w).2).
Proof.
  intros Hm Hi Hs. unfold removePreTerminateHookAnnotationFromMachine.
  destruct (has_hook _ m'); [|done]. unfold mbind at 1, comp_bind at 1, lift at 1.
  destruct (map_put _ _ _) as [a|e|p]; [|done..]. unfold mbind at 1, comp_bind at 1, lift at 1.
  destruct (map_put _ _ _) as [a'|e|p]; [|done..]. by eapply merge_patch_same.
Qed.

Lemma removeHook_same n m m' hook w :
  ms !! n = Some m → identity m' = identity m → same_machines ms (w_cp w) →
  same_machines ms (w_cp (removeHookAnnotationFromMachine m' hook w).2).
Proof.
  intros Hm Hi Hs. unfold removeHookAnnotationFromMachine. destruct (has_hook hook m'); [|done].
  by eapply merge_patch_same.
Qed.

(** What [current] reads is the machine, up to patches. *)
Lemma current_same n m m' w :
  ms !! n = Some m → identity m' = identity m → same_machines ms (w_cp w) →
  ∃ m2, current m' w = (Ok m2, w) ∧ identity m2 = identity m.
Proof.
  intros Hm Hi Hs. destruct (Hs n m Hm) as (m2 & Hm2 & Hi2). exists m2. split; [|done].
  assert (m_Name m' = n) as Hn by (rewrite <-(Hkeys n m Hm); by injection Hi).
  unfold current, mbind, comp_bind. simpl. by rewrite Hn, Hm2.
Qed.

(** A call of [m] extends the calls made so far. *)
Definition extends (w w' : World) : Prop := ∃ l, w_calls w' = l ++ w_calls w.

Lemma emits_extends {A} (m : M A) w : emits (λ _, True) m → extends w (m w).2.
Proof. intros Hm. destruct (Hm w) as (l & Hl & _). by exists l. Qed.

Lemma deleteOwnedMachine_run n m w e w' :
  ms !! n = Some m → same_machines ms (w_cp w) → deleteOwnedMachine m w = (Ok e, w') →
  same_machines ms (w_cp w') ∧ (e = None → pTime_IsZero (m_DeletionTimestamp m) = true → delete_accepted n (w_calls w')).
Proof.
  intros Hm Hs. unfold deleteOwnedMachine.
  destruct (current_same n m m w Hm eq_refl Hs) as (m1 & Hc1 & Hi1).
  unfold mbind at 1, comp_bind at 1. rewrite Hc1. unfold mbind at 1, comp_bind at 1. unfold try at 1.
  pose proof (removePreTerminate_same n m m1 w Hm Hi1 Hs) as Hs1.
  destruct (removePreTerminateHookAnnotationFromMachine m1 w) as [[[]|err|p] w1]; simpl in Hs1;
    [|by intros [= <- <-]|done].
  destruct (current_same n m m1 w1 Hm Hi1 Hs1) as (m2 & Hc2 & Hi2).
  unfold mbind at 1, comp_bind at 1. rewrite Hc2. unfold mbind at 1, comp_bind at 1. unfold try at 1.
  pose proof (removeHook_same n m m2 PreDrainLoadbalancerExclusionAnnotation w1 Hm Hi2 Hs1) as Hs2.
  destruct (removeHookAnnotationFromMachine m2 _ w1) as [[[]|err|p] w2]; simpl in Hs2;
    [|by intros [= <- <-]|done].
  destruct (current_same n m m2 w2 Hm Hi2 Hs2) as (m3 & Hc3 & Hi3).
  unfold mbind at 1, comp_bind at 1. rewrite Hc3. injection Hi3 as Hn Ht. rewrite Ht, Hn, (Hkeys n m Hm).
  destruct (pTime_IsZero (m_DeletionTimestamp m)); cbn [negb]; [|by intros [= <- <-]].
  unfold mbind at 1, comp_bind at 1, try, api.
  destruct (ask (w_calls w2) (CDeleteMachine n)) as [err|[]] eqn:Ed; intros [= <- <-]; (split; [exact Hs2|]);
    intros He _; exists [], (w_calls w2); (split; [done|]); rewrite Ed; [|done].
  by destruct (IsNotFound err).
Qed.

Lemma delete_loop l errs w w' :
  (∀ x, x ∈ l → ms !! x.1 = Some x.2) → same_machines ms (w_cp w) →
  for_acc l errs (λ errs '(_, m), e ← deleteOwnedMachine m;
    mret (match e with Some err => errs ++ [err] | None => errs end)) w = (Ok [], w') →
  errs = [] ∧ extends w w' ∧
  ∀ x, x ∈ l → pTime_IsZero (m_DeletionTimestamp x.2) = true → delete_accepted x.1 (w_calls w').
Proof.
  revert errs w. induction l as [|[k m] l IH]; intros errs w Hl Hs.
  { intros [= -> <-]. split_and!; [done|by exists []|]. by intros x Hx%elem_of_nil. }
  simpl. unfold mbind at 1, comp_bind at 1. unfold mbind at 1, comp_bind at 1.
  assert (ms !! k = Some m) as Hm by (apply (Hl (k, m)), elem_of_cons; by left).
  pose proof (emits_extends (deleteOwnedMachine m) w) as Hext.
  destruct (deleteOwnedMachine m w) as [[e|err|p] w1] eqn:E; [|done..]. intros Hrun.
  destruct (deleteOwnedMachine_run k m w e w1 Hm Hs E) as [Hs1 Hacc].
  destruct (IH _ _ (λ x Hx, Hl x (proj2 (elem_of_cons _ _ _) (or_intror Hx))) Hs1 Hrun) as (Herr & (l2 & Hl2) & Hrest).
  destruct e as [err|]; [by apply app_nil in Herr as [_ ?]|]. split_and!; [done| |].
  - destruct Hext as [l1 Hl1]; [unfold deleteOwnedMachine, removePreTerminateHookAnnotationFromMachine,
      removeHookAnnotationFromMachine, merge_patch, current; emits_auto|].
    simpl in Hl1. exists (l2 ++ l1). by rewrite Hl2, Hl1, app_assoc.
  - intros x [->|Hx]%elem_of_cons; [|by apply Hrest]. simpl. intros Hz. rewrite Hl2.
    by apply delete_accepted_later, Hacc.
Qed.
End delete_all.

Definition rcp_meta (c : ControlPlane) : ObjectMeta := rcp_ObjectMeta (cp_RCP c).

Lemma NewControlPlane_meta ms : keeps rcp_meta (NewControlPlane ms).
Proof.
  unfold NewControlPlane, GetInfraResources, GetRKE2Configs, patch_helpers, UpToDate, matchesMachineSpec,
    compute_desired, ComputeDesiredMachine, ComputeDesiredInfraMachine. keeps_auto.
Qed.

Lemma conditions_meta : keeps rcp_meta reconcileControlPlaneConditions.
Proof.
  unfold reconcileControlPlaneConditions, setConditionsToUnknown, reconcileMachineUpToDateCondition,
    GetWorkloadCluster, InitWorkload, getControlPlaneNodes,
    UpdateAgentConditions, updateManagedEtcdConditions, first_pass, second_pass,
    aggregateConditionsFromMachinesToRCP, UpdateNodeMetadata, PatchNodes, PatchMachines, set_v1beta1,
    node_patch_failed, machine_set_condition, modify_machine, rcp_set_condition, modify_rcp, modify_workload.
  keeps_auto.
Qed.

Lemma deleteOwnedMachine_meta m : keeps rcp_meta (deleteOwnedMachine m).
Proof.
  unfold deleteOwnedMachine, removePreTerminateHookAnnotationFromMachine, removeHookAnnotationFromMachine,
    merge_patch, current, modify_machine. keeps_auto.
Qed.

Lemma NewControlPlane_machines ms w w' :
  NewControlPlane ms w = (Ok tt, w') → cp_Machines (w_cp w') = ms.
Proof.
  unfold NewControlPlane. unfold mbind, comp_bind.
  destruct (GetInfraResources ms w) as [[infra|e|p] w1]; [|done..].
  destruct (GetRKE2Configs ms w1) as [[configs|e|p] w2]; [|done..].
  destruct (patch_helpers ms w2) as [[helpers|e|p] w3]; [|done..]. cbn [get_cp gets].
  match goal with |- context [for_acc ?l ?b ?f w3] =>
    destruct (for_acc l b f w3) as [[[[nu results] configs']|e|p] w4] end; [|done..].
  by intros [= <-].
Qed.

Lemma reconcileDelete_run w ms :
  ask (w_calls w) (CListMachines false) = inr ms →
  let owned := coll_Filter (OwnedMachines (cp_RCP (w_cp w))) ms in
  owned ≠ ∅ →
  reconcileDelete w =
    delete_machines ms owned (Build_World (w_cp w) (CListMachines false :: w_calls w) (w_names w)).
Proof.
  intros Hl owned Ho. unfold reconcileDelete, GetMachinesForCluster.
  do 2 (unfold mbind at 1, comp_bind at 1). unfold api. rewrite Hl. simpl.
  unfold mbind at 1, comp_bind at 1. cbn [get_cp gets]. simpl. fold owned.
  rewrite decide_False; [done|]. intros Hs. by apply Ho, map_size_empty_inv.
Qed.

Lemma delete_machines_meta ms owned : keeps rcp_meta (delete_machines ms owned).
Proof.
  pose proof NewControlPlane_meta. pose proof conditions_meta. pose proof deleteOwnedMachine_meta.
  unfold delete_machines, rcp_set_condition, modify_rcp. keeps_auto.
Qed.

Lemma delete_machines_workers ms owned :
  emits (λ c, change_of c ≠ None → size owned = size ms) (delete_machines ms owned).
Proof.
  assert (∀ A (m : M A), emits no_change m → emits (λ c, change_of c ≠ None → size owned = size ms) m) as Hmono.
  { intros A m. apply emits_mono. by intros c ->. }
  pose proof (Hmono _ _ (NewControlPlane_no_change owned)). pose proof (Hmono _ _ conditions_no_change).
  unfold delete_machines. apply emits_bind; [done|]. intros _. apply emits_bind; [by apply emits_try|]. intros _.
  case_decide as Hs; [emits_auto|].
  assert (size owned = size ms) as He by (destruct (decide (size ms = size owned)); tauto || congruence).
  apply emits_bind; [|intros; emits_auto].
  apply emits_for_acc. intros errs [k m] _. unfold deleteOwnedMachine, removePreTerminateHookAnnotationFromMachine,
    removeHookAnnotationFromMachine, merge_patch, current. emits_auto.
Qed.

(** C19: deleting the control plane.  A failed list changes nothing.  When no listed
    machine is owned, exactly the two finalizers of this controller are removed
    and nothing is deleted; as long as one is owned the finalizers stay, so that
    the control plane object outlives its machines, and machines are deleted only
    if every machine of the cluster, workers included, is owned. *)
Theorem reconcileDelete_finalizers w :
  let run := reconcileDelete w in
  match ask (w_calls w) (CListMachines false) with
  | inl err => run.1 = Err err ∧ w_cp run.2 = w_cp w ∧ w_calls run.2 = CListMachines false :: w_calls w
  | inr ms =>
      let owned := coll_Filter (OwnedMachines (cp_RCP (w_cp w))) ms in
      (owned = ∅ →
         run.1 = Ok Result_zero ∧ w_calls run.2 = CListMachines false :: w_calls w ∧
         ∀ f, f ∈ om_Finalizers (rcp_meta (w_cp run.2)) ↔
           f ∈ om_Finalizers (rcp_meta (w_cp w)) ∧
           f ≠ RKE2ControlPlaneFinalizer ∧ f ≠ RKE2ControlPlaneLegacyFinalizer) ∧
      (owned ≠ ∅ →
         rcp_meta (w_cp run.2) = rcp_meta (w_cp w) ∧
         ∃ l, w_calls run.2 = l ++ w_calls w ∧ (picks change_of l ≠ [] → owned = ms))
  end.
Proof.
  cbn zeta. destruct (ask (w_calls w) (CListMachines false)) as [err|ms] eqn:El.
  { unfold reconcileDelete, GetMachinesForCluster, mbind, comp_bind, api. rewrite El. done. }
  set (owned := coll_Filter _ ms). split; intros Ho.
  - unfold reconcileDelete, GetMachinesForCluster, mbind, comp_bind, api. rewrite El. simpl. fold owned.
    rewrite Ho, decide_True by done. split_and!; [done..|]. intros f. unfold rcp_meta. simpl.
    unfold ContainsFinalizer. case_bool_decide as Hl; simpl; rewrite !list_elem_of_filter; naive_solver.
  - rewrite (reconcileDelete_run w ms El Ho). fold owned. split; [by rewrite delete_machines_meta|].
    destruct (delete_machines_workers ms owned
      (Build_World (w_cp w) (CListMachines false :: w_calls w) (w_names w))) as (l & -> & Pl).
    exists (l ++ [CListMachines false]). split; [by rewrite <-app_assoc|].
    rewrite picks_app, app_nil_r. intros Hne. apply map_subseteq_size_eq; [apply Filter_subseteq|].
    destruct (picks change_of l) as [|x p] eqn:Ep; [done|].
    assert (x ∈ picks change_of l) as Hx by (rewrite Ep; apply elem_of_cons; by left).
    apply list_elem_of_omap in Hx as (c & Hc & Hx). rewrite list.Forall_forall in Pl.
    rewrite (Pl c Hc); [done|congruence].
Qed.

End delete_claims.

(** *** Evaluation: a control plane with two machines is deleted *)

Definition demo_owned (name : string) : Machine :=
  let m := demo_machine name name in
  Build_Machine (m_APIVersion m) (m_Kind m)
    (Build_ObjectMeta name "ns" ("uid-" +:+ name) None
       (Some {[ PreTerminateHookCleanupAnnotation := "" ]})
       [Build_OwnerReference "controlplane.cluster.x-k8s.io/v1beta2" "RKE2ControlPlane" "cp" "uid-cp"
          (Some true) None] [] 0%Z None)
    (m_Spec m) (m_Status m).
Definition demo_delete_ms : Machines := {[ "a" := demo_owned "a"; "b" := demo_owned "b" ]}.
Definition demo_delete_env : Env := demo_env_with [demo_owned "a"; demo_owned "b"] [] [] 0.
Definition demo_delete_rcp : RKE2ControlPlane :=
  rcp_with_meta (Build_ObjectMeta "cp" "ns" "uid-cp" None (Some ∅) [] [RKE2ControlPlaneFinalizer] 0%Z (Some 5%Z))
    (demo_rcp 2 true).
Definition demo_delete : outcome Result * World :=
  reconcileDelete (EV := demo_delete_env) (demo_world demo_delete_rcp []).

Lemma demo_delete_keyed : keyed_machines demo_delete_ms.
Proof.
  intros n m. unfold demo_delete_ms. rewrite lookup_insert_Some, lookup_singleton_Some. naive_solver.
Qed.

