(* ===== verification/Status.v ===== *)
(** * The status of the control plane

    controlplane/internal/controllers/status.go: after every reconcile the
    machines are listed again and counted, and the conditions that summarise the
    control plane are set.  The functions that set a field take the control plane
    and return it changed. *)

From stdpp Require Import base tactics option list gmap strings numbers.
From S2P Require Import Prelude Go Api Objects Libs World Registration Hooks Etcd Desired ControlPlane.
From S2P Require Import Scale Remediation Workload Lifecycle Inplace Reconciler Demo.
Open Scope string_scope.
Open Scope list_scope.
Open Scope stdpp_scope.

(** [Machines.LowestVersion], [conditions.NewAggregateCondition] (for a list of
    objects, a source and a target type, and the reasons of the merge strategy, if
    it is not the default) and what [collections.IsReady] tests. *)
Class StatusLib `{CapiConsts, CondLib, CollLib} := {
  LowestVersion : Machines → string;
  NewAggregateCondition : list Machine → string → string → option (string * string * string) →
    outcome Condition;

  NewAggregateCondition_type ms s t r c : NewAggregateCondition ms s t r = Ok c → cond_Type c = t;
  NewAggregateCondition_total ms s t r p : NewAggregateCondition ms s t r ≠ Panic p;
  IsReady_spec m : IsReady m = conditions_IsTrue (mst_Conditions (m_Status m)) MachineReadyCondition
}.

Definition RKE2ControlPlaneInitializedReason : string := "Initialized".
Definition RKE2ControlPlaneNotInitializedReason : string := "NotInitialized".

(** ** Fields of the status *)

Definition st_with_replicas (total ready available upToDate : Z) (s : RKE2ControlPlaneStatus) :=
  Build_RKE2ControlPlaneStatus (st_Conditions s) (st_ControlPlaneInitialized s) (st_ObservedGeneration s)
    (Some total) (st_Version s) (Some ready) (Some available) (Some upToDate) (st_AvailableServerIPs s)
    (st_LastRemediation s).
Definition st_with_ready (ready : Z) (s : RKE2ControlPlaneStatus) :=
  Build_RKE2ControlPlaneStatus (st_Conditions s) (st_ControlPlaneInitialized s) (st_ObservedGeneration s)
    (st_Replicas s) (st_Version s) (Some ready) (st_AvailableReplicas s) (st_UpToDateReplicas s)
    (st_AvailableServerIPs s) (st_LastRemediation s).
Definition st_with_initialized (s : RKE2ControlPlaneStatus) :=
  Build_RKE2ControlPlaneStatus (st_Conditions s) (Some true) (st_ObservedGeneration s)
    (st_Replicas s) (st_Version s) (st_ReadyReplicas s) (st_AvailableReplicas s) (st_UpToDateReplicas s)
    (st_AvailableServerIPs s) (st_LastRemediation s).
Definition st_with_ips (ips : slice string) (s : RKE2ControlPlaneStatus) :=
  Build_RKE2ControlPlaneStatus (st_Conditions s) (st_ControlPlaneInitialized s) (st_ObservedGeneration s)
    (st_Replicas s) (st_Version s) (st_ReadyReplicas s) (st_AvailableReplicas s) (st_UpToDateReplicas s)
    ips (st_LastRemediation s).
Definition st_with_version (v : string) (s : RKE2ControlPlaneStatus) :=
  Build_RKE2ControlPlaneStatus (st_Conditions s) (st_ControlPlaneInitialized s) (st_ObservedGeneration s)
    (st_Replicas s) v (st_ReadyReplicas s) (st_AvailableReplicas s) (st_UpToDateReplicas s)
    (st_AvailableServerIPs s) (st_LastRemediation s).
Definition st_with_last (l : LastRemediationStatus) (s : RKE2ControlPlaneStatus) :=
  Build_RKE2ControlPlaneStatus (st_Conditions s) (st_ControlPlaneInitialized s) (st_ObservedGeneration s)
    (st_Replicas s) (st_Version s) (st_ReadyReplicas s) (st_AvailableReplicas s) (st_UpToDateReplicas s)
    (st_AvailableServerIPs s) (Some l).
Definition rcp_map_status (f : RKE2ControlPlaneStatus → RKE2ControlPlaneStatus) (r : RKE2ControlPlane) :=
  rcp_with_status (f (rcp_Status r)) r.

Section status.
Context `{CapiConsts, CollLib, CondLib, SetsLib, MetaLib, ServerJson, RemediationJson, WorkloadLib,
          !StatusLib, GoSort, GoRange, Clock, EV : Env}.

(** [conditions.Set(rcp, ...)]. *)
Definition rcp_put (c : Condition) (r : RKE2ControlPlane) : RKE2ControlPlane :=
  SetConditions (conditions_Set (GetConditions r) c) r.

(** ** Counts *)

Definition setReplicas (rcp : RKE2ControlPlane) (machines : Machines) : RKE2ControlPlane :=
  let '(ready, available, upToDate) :=
    foldl (λ '(ready, available, upToDate) '(_, machine),
      (if m_IsTrue machine MachineReadyCondition then wrap32 (ready + 1) else ready,
       if m_IsTrue machine MachineAvailableCondition then wrap32 (available + 1) else available,
       if m_IsTrue machine MachineUpToDateCondition then wrap32 (upToDate + 1) else upToDate))
      (0%Z, 0%Z, 0%Z) (go_range 235 machines) in
  rcp_map_status (st_with_replicas (SafeInt32 (Z.of_nat (size machines))) ready available upToDate) rcp.

Definition setInitializedCondition (rcp : RKE2ControlPlane) : RKE2ControlPlane :=
  if rcp_initialized rcp then
    rcp_put (mkCond RKE2ControlPlaneInitializedCondition ConditionTrue
      RKE2ControlPlaneInitializedReason "") rcp
  else
    rcp_put (mkCond RKE2ControlPlaneInitializedCondition ConditionFalse
      RKE2ControlPlaneNotInitializedReason "") rcp.

(** ** Scaling *)

Definition calculateMissingReferencesMessage (rcp : RKE2ControlPlane) (notFound : bool) : string :=
  if notFound then cv_Kind (template_infra_ref rcp) +:+ " does not exist" else "".

Definition getPreflightMessages (cluster : Cluster) (p : PreflightCheckResults) : list string :=
  (if pf_TopologyVersionMismatch p then
     ["* waiting for a version upgrade to" +:+ cl_TopologyVersion cluster +:+
      "to be propagated from Cluster.spec.topology"] else []) ++
  (if pf_HasDeletingMachine p then ["* waiting for a control plane Machine to complete deletion"] else []) ++
  (if pf_ControlPlaneComponentsNotHealthy p
   then ["* waiting for control plane components to become healthy"] else []) ++
  (if pf_EtcdClusterNotHealthy p then ["* waiting for etcd cluster to become healthy"] else []).

Definition blocked (message : string) (additionalMessages : list string) : string :=
  match additionalMessages with
  | [] => message
  | _ => message +:+ " is blocked because:" +:+ newline +:+ Join additionalMessages newline
  end.

(** The number of replicas wanted: none of a control plane that is being deleted. *)
Definition desired_replicas (rcp : RKE2ControlPlane) (replicas : Z) : Z :=
  if pTime_IsZero (rcp_DeletionTimestamp rcp) then replicas else 0%Z.

Definition scalingUpCondition (cluster : Cluster) (rcp : RKE2ControlPlane) (machines : Machines)
    (infrastructureObjectNotFound : bool) (preflightChecks : PreflightCheckResults) : Condition :=
  match sp_Replicas (rcp_Spec rcp) with
  | None => mkCond ScalingUpCondition ConditionUnknown WaitingForReplicasSetReason
              "Waiting for spec.replicas set"
  | Some replicas =>
      let currentReplicas := SafeInt32 (Z.of_nat (size machines)) in
      let desiredReplicas := desired_replicas rcp replicas in
      let missing := calculateMissingReferencesMessage rcp infrastructureObjectNotFound in
      if decide (desiredReplicas ≤ currentReplicas)%Z then
        let message := if decide (missing ≠ "")
                       then "Scaling up would be blocked because " +:+ missing else "" in
        mkCond ScalingUpCondition ConditionFalse NotScalingUpReason message
      else
        let message := "Scaling up from " +:+ fmt_d currentReplicas +:+ " to " +:+
                       fmt_d desiredReplicas +:+ " replicas" in
        let additionalMessages := getPreflightMessages cluster preflightChecks ++
          (if decide (missing ≠ "") then ["* " +:+ missing] else []) in
        mkCond ScalingUpCondition ConditionTrue ScalingUpReason (blocked message additionalMessages)
  end.
Definition setScalingUpCondition (cluster : Cluster) (rcp : RKE2ControlPlane) (machines : Machines)
    (infrastructureObjectNotFound : bool) (preflightChecks : PreflightCheckResults) : RKE2ControlPlane :=
  rcp_put (scalingUpCondition cluster rcp machines infrastructureObjectNotFound preflightChecks) rcp.

(** The reasons a machine that drains for more than five minutes gives. *)
Definition drain_reasons : list (string * string) :=
  [("cannot evict pod as it would violate the pod's disruption budget.", "PodDisruptionBudgets");
   ("deletionTimestamp set, but still not removed from the Node", "Pods not terminating");
   ("failed to evict Pod", "Pod eviction errors");
   ("waiting for completion", "Pods not completed yet")].

Definition stale (t : Time) (m : Machine) : bool :=
  match m_DeletionTimestamp m with
  | Some d => negb (Time_IsZero d) && bool_decide (15 * Minute < t - d)%Z
  | None => false
  end.

Definition stale_reasons (t : Time) (m : Machine) : list string :=
  match m_condition m MachineDeletingCondition, mst_NodeDrainStartTime (m_Status m) with
  | Some c, Some started =>
      if bool_decide (cond_Status c = ConditionTrue) &&
         bool_decide (cond_Reason c = MachineDeletingDrainingNodeReason) &&
         negb (Time_IsZero started) && bool_decide (5 * Minute < t - started)%Z
      then map snd (filter (λ r, Contains (cond_Message c) r.1 = true) drain_reasons)
      else []
  | _, _ => []
  end.

(** "Machine a is" or "Machines a, b are". *)
Definition machines_are (names : list string) : string :=
  (if decide (1 < length names)%nat then "Machines" else "Machine") +:+ " " +:+
  ListToString (go_sort str_lt names) 3 +:+
  (if decide (length names = 1)%nat then " is " else " are ").

Definition aggregateStaleMachines (t : Time) (machines : Machines) : string :=
  let staleMachines := filter (λ kv, stale t kv.2 = true) (go_range 484 machines) in
  let machineNames := map (λ kv, m_Name kv.2) staleMachines in
  let delayReasons : gset string := list_to_set (concat (map (λ kv, stale_reasons t kv.2) staleMachines)) in
  match machineNames with
  | [] => ""
  | _ =>
      machines_are machineNames +:+ "in deletion since more than 15m" +:+
      (if decide (0 < size delayReasons)%nat then
         ", delay likely due to " +:+
         Join (filter (λ r, r ∈ delayReasons) (map snd drain_reasons)) ", "
       else "")
  end.

Definition scalingDownCondition (t : Time) (cluster : Cluster) (rcp : RKE2ControlPlane)
    (machines : Machines) (preflightChecks : PreflightCheckResults) : Condition :=
  match sp_Replicas (rcp_Spec rcp) with
  | None => mkCond ScalingDownCondition ConditionUnknown WaitingForReplicasSetReason
              "Waiting for spec.replicas set"
  | Some replicas =>
      let currentReplicas := SafeInt32 (Z.of_nat (size machines)) in
      let desiredReplicas := desired_replicas rcp replicas in
      if decide (currentReplicas ≤ desiredReplicas)%Z then
        mkCond ScalingDownCondition ConditionFalse NotScalingDownReason ""
      else
        let message := "Scaling down from " +:+ fmt_d currentReplicas +:+ " to " +:+
                       fmt_d desiredReplicas +:+ " replicas" in
        let staleMessage := aggregateStaleMachines t machines in
        let additionalMessages := getPreflightMessages cluster preflightChecks ++
          (if decide (staleMessage ≠ "") then ["* " +:+ staleMessage] else []) in
        mkCond ScalingDownCondition ConditionTrue ScalingDownReason (blocked message additionalMessages)
  end.
Definition setScalingDownCondition (t : Time) (cluster : Cluster) (rcp : RKE2ControlPlane)
    (machines : Machines) (preflightChecks : PreflightCheckResults) : RKE2ControlPlane :=
  rcp_put (scalingDownCondition t cluster rcp machines preflightChecks) rcp.

(** ** Conditions aggregated from the machines *)

Definition setMachinesReadyCondition (rcp : RKE2ControlPlane) (machines : Machines) :
    outcome RKE2ControlPlane :=
  if decide (size machines = 0) then
    Ok (rcp_put (mkCond RKE2ControlPlaneMachinesReadyCondition ConditionTrue NoReplicasReason "") rcp)
  else
    match NewAggregateCondition (map snd (go_range 397 machines)) MachineReadyCondition
            RKE2ControlPlaneMachinesReadyCondition (Some (NotReadyReason, ReadyUnknownReason, ReadyReason)) with
    | Ok readyCondition => Ok (rcp_put readyCondition rcp)
    | Err _ => Ok (rcp_put (mkCond RKE2ControlPlaneMachinesReadyCondition ConditionUnknown
                     InternalErrorReason genericErrorMessage) rcp)
    | Panic p => Panic p
    end.

Definition setMachinesUpToDateCondition (t : Time) (rcp : RKE2ControlPlane) (machines : Machines) :
    outcome RKE2ControlPlane :=
  let machines := coll_Filter (λ m,
    conditions_Has (mst_Conditions (m_Status m)) MachineUpToDateCondition ||
    bool_decide (10 * Second < t - m_CreationTimestamp m)%Z) machines in
  if decide (size machines = 0) then
    Ok (rcp_put (mkCond MachinesUpToDateCondition ConditionTrue NoReplicasReason "") rcp)
  else
    match NewAggregateCondition (map snd (go_range 567 machines)) MachineUpToDateCondition
            MachinesUpToDateCondition (Some (NotUpToDateReason, UpToDateUnknownReason, UpToDateReason)) with
    | Ok upToDateCondition => Ok (rcp_put upToDateCondition rcp)
    | Err _ => Ok (rcp_put (mkCond MachinesUpToDateCondition ConditionUnknown
                     InternalErrorReason genericErrorMessage) rcp)
    | Panic p => Panic p
    end.

Definition aggregateUnhealthyMachines (unhealthyMachines : Machines) : string :=
  match map (λ kv, m_Name kv.2) (go_range 647 unhealthyMachines) with
  | [] => ""
  | machineNames => machines_are machineNames +:+ "not healthy (not to be remediated by RKE2ControlPlane)"
  end.

Definition setRemediatingCondition (rcp : RKE2ControlPlane)
    (machinesToBeRemediated unhealthyMachines : Machines) : outcome RKE2ControlPlane :=
  if decide (size machinesToBeRemediated = 0) then
    Ok (rcp_put (mkCond RemediatingCondition ConditionFalse NotRemediatingReason
          (aggregateUnhealthyMachines unhealthyMachines)) rcp)
  else
    match NewAggregateCondition (map snd (go_range 613 machinesToBeRemediated))
            MachineOwnerRemediatedCondition RemediatingCondition None with
    | Ok c => Ok (rcp_put (mkCond (cond_Type c) ConditionTrue RemediatingReason (cond_Message c)) rcp)
    | Err _ => Ok (rcp_put (mkCond RemediatingCondition ConditionUnknown
                     InternalErrorReason genericErrorMessage) rcp)
    | Panic p => Panic p
    end.

Definition setDeletingCondition (rcp : RKE2ControlPlane) (deletingReason deletingMessage : string) :
    RKE2ControlPlane :=
  if pTime_IsZero (rcp_DeletionTimestamp rcp) then
    rcp_put (mkCond DeletingCondition ConditionFalse NotDeletingReason "") rcp
  else rcp_put (mkCond DeletingCondition ConditionTrue deletingReason deletingMessage) rcp.

(** ** The last remediation *)

(** The most recent of the remediations recorded on machines. *)
Definition recorded_remediation (machines : list Machine) : outcome (option RemediationData) :=
  foldl (λ lastRemediation m,
    last ← lastRemediation;
    match map_get (m_Annotations m) RemediationForAnnotation with
    | None => Ok last
    | Some v =>
        remediationData ← RemediationDataFromAnnotation v;
        Ok (match last with
            | Some l => if Time_Before (rd_Timestamp l) (rd_Timestamp remediationData)
                        then Some remediationData else last
            | None => Some remediationData
            end)
    end) (Ok None) machines.

Definition lastRemediation (c : ControlPlane) : outcome (option RemediationData) :=
  match map_get (rcp_Annotations (cp_RCP c)) RemediationInProgressAnnotation with
  | Some v => remediationData ← RemediationDataFromAnnotation v; Ok (Some remediationData)
  | None => recorded_remediation (map snd (go_range 209 (cp_Machines c)))
  end.

(** ** The update *)

(** What is known without the workload cluster. *)
Definition summarize (ownedMachines : Machines) : M unit :=
  _ ← modify_rcp (λ r, setReplicas r ownedMachines);
  _ ← modify_rcp setInitializedCondition;
  c ← get_cp;
  _ ← modify_rcp (λ r, setScalingUpCondition (cp_Cluster c) r (cp_Machines c)
        (cp_InfraMachineTemplateIsNotFound c) (cp_PreflightCheckResults c));
  t ← now;
  _ ← modify_rcp (λ r, setScalingDownCondition t (cp_Cluster c) r (cp_Machines c)
        (cp_PreflightCheckResults c));
  c ← get_cp;
  r ← lift (setMachinesReadyCondition (cp_RCP c) (cp_Machines c));
  _ ← modify_rcp (λ _, r);
  t ← now;
  r ← lift (setMachinesUpToDateCondition t r (cp_Machines c));
  _ ← modify_rcp (λ _, r);
  r ← lift (setRemediatingCondition r (MachinesToBeRemediatedByRCP c) (UnhealthyMachines c));
  modify_rcp (λ _, r).

(** What the registration addresses, versions and remediations add once a machine
    is ready. *)
Definition surface (ownedMachines readyMachines : Machines) : M unit :=
  c ← get_cp;
  registrationMethod ← wrap "getting node registration method"
    (lift (NewRegistrationMethod (sp_RegistrationMethod (rcp_Spec (cp_RCP c)))));
  validIPAddresses ← wrap "getting registration addresses"
    (lift (registrationMethod (cp_Cluster c) (cp_RCP c) readyMachines));
  _ ← modify_rcp (rcp_map_status (st_with_ips (Some validIPAddresses)));
  match validIPAddresses with
  | [] => fail (EText "some Control Plane machines exist and are ready but they have no IP Address available")
  | _ =>
      _ ← (if decide (size readyMachines = size ownedMachines)
           then modify_rcp (rcp_map_status st_with_initialized) else mret tt);
      c ← get_cp;
      _ ← (if rcp_initialized (cp_RCP c) then
             rcp_set_condition (mkCond AvailableCondition ConditionTrue AvailableReason "")
           else mret tt);
      let lowestVersion := LowestVersion (cp_Machines c) in
      _ ← (if decide (lowestVersion ≠ "")
           then modify_rcp (rcp_map_status (st_with_version lowestVersion)) else mret tt);
      c ← get_cp;
      last ← lift (lastRemediation c);
      match last with
      | Some l => modify_rcp (rcp_map_status (st_with_last (RemediationData_ToStatus l)))
      | None => mret tt
      end
  end.

(** What needs the workload cluster, unless the control plane is being deleted. *)
Definition after_summary (ownedMachines readyMachines : Machines) : M unit :=
  c ← get_cp;
  if negb (pTime_IsZero (rcp_DeletionTimestamp (cp_RCP c))) then mret tt
  else
    _ ← modify_rcp (λ r, setDeletingCondition r (cp_DeletingReason c) (cp_DeletingMessage c));
    has_value ← api CGetKubeconfigSecret;
    if negb has_value then fail (EText "unable to find a value entry in the kubeconfig secret")
    else
      _ ← modify_rcp (rcp_map_status (st_with_ready (SafeInt32 (Z.of_nat (size readyMachines)))));
      _ ← wrap "getting workload cluster" GetWorkloadCluster;
      status ← GetClusterStatus;
      _ ← (if cs_HasRKE2ServingSecret status
           then modify_rcp (rcp_map_status st_with_initialized) else mret tt);
      if decide (size ownedMachines = 0 ∨ size readyMachines = 0) then mret tt
      else surface ownedMachines readyMachines.

(** The list of machines is not nil when there is no error, and the cluster is
    not nil: the caller has checked. *)
Definition updateStatus : M unit :=
  c ← get_cp;
  match sp_Replicas (rcp_Spec (cp_RCP c)) with
  | None => mret tt
  | Some _ =>
      ownedMachines ← wrap "failed to get list of owned machines"
        (GetMachinesForCluster false [OwnedMachines (cp_RCP c)]);
      let readyMachines := coll_Filter IsReady ownedMachines in
      _ ← NewControlPlane ownedMachines;
      _ ← summarize ownedMachines;
      after_summary ownedMachines readyMachines
  end.
End status.

(** ** Lemmas *)

(** Membership in an explicit list. *)
Ltac in_list := simpl; repeat first [by apply list_elem_of_here | apply list_elem_of_further].

Section counting.
Context `{CollLib, GoRange}.

Lemma filter_Filter p (ms : Machines) : filter (λ kv, p kv.2 = true) ms = coll_Filter p ms.
Proof.
  apply map_eq. intros n. apply option_eq. intros m. by rewrite map_lookup_filter_Some, Filter_spec.
Qed.

Lemma length_filter_range p site (ms : Machines) :
  length (filter (λ kv, p kv.2 = true) (go_range site ms)) = size (coll_Filter p ms).
Proof.
  rewrite <-filter_Filter, map_filter_alt, <-length_map_to_list, map_to_list_to_map.
  - by rewrite (go_range_perm _ site ms).
  - apply NoDup_fmap_fst; [|apply list.NoDup_filter, NoDup_map_to_list].
    intros n m1 m2 [_ H1]%list_elem_of_filter [_ H2]%list_elem_of_filter.
    apply elem_of_map_to_list in H1, H2. congruence.
Qed.

(** A counter of type int32 is exact while the list is short enough. *)
Lemma count_wrap {A} (p : A → bool) l n :
  (0 ≤ n)%Z → (n + Z.of_nat (length l) < 2 ^ 31)%Z →
  foldl (λ n x, if p x then wrap32 (n + 1) else n) n l =
  (n + Z.of_nat (length (filter (λ x, p x = true) l)))%Z.
Proof.
  revert n. induction l as [|x l IH]; intros n Hn Hl; simpl in *; [lia|].
  rewrite filter_cons. destruct (p x); simpl.
  - rewrite wrap32_id by lia. rewrite IH by lia. lia.
  - apply IH; lia.
Qed.

Lemma foldl_triple {A} (p1 p2 p3 : A → bool) l a b c :
  foldl (λ '(a, b, c) x,
    (if p1 x then wrap32 (a + 1) else a, if p2 x then wrap32 (b + 1) else b,
     if p3 x then wrap32 (c + 1) else c)) (a, b, c) l =
  (foldl (λ n x, if p1 x then wrap32 (n + 1) else n) a l,
   foldl (λ n x, if p2 x then wrap32 (n + 1) else n) b l,
   foldl (λ n x, if p3 x then wrap32 (n + 1) else n) c l)%Z.
Proof. revert a b c. by induction l as [|x l IH]; intros a b c; simpl; [|rewrite IH]. Qed.

Lemma SafeInt32_size (n : nat) : (Z.of_nat n < 2 ^ 31)%Z → SafeInt32 (Z.of_nat n) = Z.of_nat n.
Proof. intros Hn. unfold SafeInt32, MaxInt32. rewrite decide_False by lia. apply wrap32_id. lia. Qed.
End counting.

Section status_lemmas.
Context `{CapiConsts, CollLib, CondLib, SetsLib, MetaLib, ServerJson, RemediationJson, WorkloadLib,
          !StatusLib, GoSort, GoRange, Clock, EV : Env}.

Definition IsTrue_of (t : string) (m : Machine) : bool := m_IsTrue m t.

Lemma setReplicas_run rcp (ms : Machines) :
  (Z.of_nat (size ms) < 2 ^ 31)%Z →
  setReplicas rcp ms = rcp_map_status (st_with_replicas (Z.of_nat (size ms))
    (Z.of_nat (size (coll_Filter (IsTrue_of MachineReadyCondition) ms)))
    (Z.of_nat (size (coll_Filter (IsTrue_of MachineAvailableCondition) ms)))
    (Z.of_nat (size (coll_Filter (IsTrue_of MachineUpToDateCondition) ms)))) rcp.
Proof.
  intros Hs. unfold setReplicas.
  replace (foldl _ _ (go_range 235 ms)) with
    (foldl (λ '(a, b, c) (x : string * Machine),
      (if IsTrue_of MachineReadyCondition x.2 then wrap32 (a + 1) else a,
       if IsTrue_of MachineAvailableCondition x.2 then wrap32 (b + 1) else b,
       if IsTrue_of MachineUpToDateCondition x.2 then wrap32 (c + 1) else c))
      (0, 0, 0) (go_range 235 ms))%Z.
  - rewrite foldl_triple, !count_wrap by (rewrite ?length_go_range; lia).
    by rewrite !length_filter_range, SafeInt32_size.
  - generalize (go_range 235 ms). generalize (0%Z, 0%Z, 0%Z). intros acc l. revert acc.
    induction l as [|[k m] l IH]; intros [[a b] c]; [done|]. simpl. by rewrite IH.
Qed.

(** A condition without its transition time. *)
Definition cond_view (c : Condition) : ConditionStatus * string * string :=
  (cond_Status c, cond_Reason c, cond_Message c).

(** The scaling conditions and the counts of the status. *)
Definition rcp_view (r : RKE2ControlPlane) :=
  (cond_view <$> conditions_Get (GetConditions r) ScalingUpCondition,
   cond_view <$> conditions_Get (GetConditions r) ScalingDownCondition,
   (st_Replicas (rcp_Status r), st_AvailableReplicas (rcp_Status r), st_UpToDateReplicas (rcp_Status r))).

Lemma put_Get c r t :
  cond_view <$> conditions_Get (GetConditions (rcp_put c r)) t =
  if decide (t = cond_Type c) then Some (cond_view c) else cond_view <$> conditions_Get (GetConditions r) t.
Proof.
  unfold rcp_put, GetConditions, SetConditions. simpl. case_decide as Ht.
  - rewrite Ht. by destruct (Get_Set_eq (st_Conditions (rcp_Status r)) c) as [? ->].
  - by rewrite Get_Set_ne.
Qed.

Lemma rcp_put_view c r :
  rcp_view (rcp_put c r) =
  (if decide (ScalingUpCondition = cond_Type c) then Some (cond_view c) else (rcp_view r).1.1,
   if decide (ScalingDownCondition = cond_Type c) then Some (cond_view c) else (rcp_view r).1.2,
   (rcp_view r).2).
Proof. unfold rcp_view. by rewrite !put_Get. Qed.

(** Types at different places of the list of condition types differ. *)
Lemma conditions_differ i j (x y : string) (l : list string) :
  NoDup l → l !! i = Some x → l !! j = Some y → i ≠ j → x ≠ y.
Proof. intros Hd Hi Hj Hne ->. by destruct (Hne (NoDup_lookup l i j y Hd Hi Hj)). Qed.

(** The condition types set after the scaling conditions are others. *)
Lemma other_condition t :
  t ∈ [AvailableCondition; RemediatingCondition; DeletingCondition; MachinesUpToDateCondition;
       RKE2ControlPlaneMachinesReadyCondition; RKE2ControlPlaneInitializedCondition] →
  t ≠ ScalingUpCondition ∧ t ≠ ScalingDownCondition.
Proof.
  intros Hin. pose proof (λ i j x y, conditions_differ i j x y _ rcp_conditions_distinct) as Hd.
  repeat (apply elem_of_cons in Hin as [->|Hin]); [..|by apply elem_of_nil in Hin]; split.
  1-2: first [by apply (Hd 0 2)|by apply (Hd 0 3)].
  1-2: first [by apply (Hd 4 2)|by apply (Hd 4 3)].
  1-2: first [by apply (Hd 5 2)|by apply (Hd 5 3)].
  1-2: first [by apply (Hd 6 2)|by apply (Hd 6 3)].
  1-2: first [by apply (Hd 7 2)|by apply (Hd 7 3)].
  1-2: first [by apply (Hd 8 2)|by apply (Hd 8 3)].
Qed.

Lemma rcp_put_other c r :
  cond_Type c ∈ [AvailableCondition; RemediatingCondition; DeletingCondition; MachinesUpToDateCondition;
       RKE2ControlPlaneMachinesReadyCondition; RKE2ControlPlaneInitializedCondition] →
  rcp_view (rcp_put c r) = rcp_view r.
Proof.
  intros [? ?]%other_condition. rewrite rcp_put_view, !decide_False by done. by destruct (rcp_view r) as [[]].
Qed.

(** The aggregating setters put one condition of their type. *)
Lemma setMachinesReadyCondition_put r ms :
  ∃ c, setMachinesReadyCondition r ms = Ok (rcp_put c r) ∧
    cond_Type c = RKE2ControlPlaneMachinesReadyCondition.
Proof.
  unfold setMachinesReadyCondition. case_decide; [by eexists|].
  destruct (NewAggregateCondition _ _ _ _) as [c|e|p] eqn:E; [|by eexists|].
  - exists c. split; [done|]. by eapply NewAggregateCondition_type.
  - by apply NewAggregateCondition_total in E.
Qed.

Lemma setMachinesUpToDateCondition_put t r ms :
  ∃ c, setMachinesUpToDateCondition t r ms = Ok (rcp_put c r) ∧ cond_Type c = MachinesUpToDateCondition.
Proof.
  unfold setMachinesUpToDateCondition. case_decide; [by eexists|].
  destruct (NewAggregateCondition _ _ _ _) as [c|e|p] eqn:E; [|by eexists|].
  - exists c. split; [done|]. by eapply NewAggregateCondition_type.
  - by apply NewAggregateCondition_total in E.
Qed.

Lemma setRemediatingCondition_put r ms un :
  ∃ c, setRemediatingCondition r ms un = Ok (rcp_put c r) ∧ cond_Type c = RemediatingCondition.
Proof.
  unfold setRemediatingCondition. case_decide; [by eexists|].
  destruct (NewAggregateCondition _ _ _ _) as [c|e|p] eqn:E; [|by eexists|].
  - eexists. split; [done|]. simpl. by eapply NewAggregateCondition_type.
  - by apply NewAggregateCondition_total in E.
Qed.

Lemma scalingUp_type cl r ms nf pf : cond_Type (scalingUpCondition cl r ms nf pf) = ScalingUpCondition.
Proof. unfold scalingUpCondition. destruct (sp_Replicas _); [cbv zeta; by destruct (decide (_ ≤ _)%Z)|done]. Qed.
Lemma scalingDown_type t cl r ms pf : cond_Type (scalingDownCondition t cl r ms pf) = ScalingDownCondition.
Proof. unfold scalingDownCondition. destruct (sp_Replicas _); [cbv zeta; by destruct (decide (_ ≤ _)%Z)|done]. Qed.

Lemma setInitializedCondition_put r :
  ∃ c, setInitializedCondition r = rcp_put c r ∧ cond_Type c = RKE2ControlPlaneInitializedCondition.
Proof. unfold setInitializedCondition. case_match; by eexists. Qed.

(** What [summarize] leaves behind. *)
Lemma summarize_run owned w :
  let c := w_cp w in
  let t := clock (w_calls w) in
  ∃ r, summarize owned w = (Ok tt, w_with_cp (cp_with_rcp r c) w) ∧
    rcp_ObjectMeta r = rcp_ObjectMeta (cp_RCP c) ∧ rcp_Spec r = rcp_Spec (cp_RCP c) ∧
    rcp_initialized r = rcp_initialized (cp_RCP c) ∧
    st_ReadyReplicas (rcp_Status r) = st_ReadyReplicas (rcp_Status (setReplicas (cp_RCP c) owned)) ∧
    rcp_view r =
      (Some (cond_view (scalingUpCondition (cp_Cluster c) (cp_RCP c) (cp_Machines c)
         (cp_InfraMachineTemplateIsNotFound c) (cp_PreflightCheckResults c))),
       Some (cond_view (scalingDownCondition t (cp_Cluster c) (cp_RCP c) (cp_Machines c)
         (cp_PreflightCheckResults c))),
       (rcp_view (setReplicas (cp_RCP c) owned)).2).
Proof.
  cbv zeta. unfold summarize. destruct w as [c calls names].
  unfold mbind, comp_bind, modify_rcp, modify_cp, modify, lift, now, get_cp. unfold gets.
  cbn [w_cp w_with_cp w_calls w_names cp_RCP cp_with_rcp cp_Cluster cp_Machines
       cp_InfraMachineTemplateIsNotFound cp_PreflightCheckResults].
  destruct (setInitializedCondition_put (setReplicas (cp_RCP c) owned)) as (c0 & E0 & T0). rewrite E0.
  match goal with |- context [setMachinesReadyCondition ?r ?ms] =>
    destruct (setMachinesReadyCondition_put r ms) as (c1 & E1 & T1); rewrite E1 end.
  cbn [w_cp w_with_cp w_calls w_names].
  match goal with |- context [setMachinesUpToDateCondition ?t ?r ?ms] =>
    destruct (setMachinesUpToDateCondition_put t r ms) as (c2 & E2 & T2); rewrite E2 end.
  cbn [w_cp w_with_cp w_calls w_names].
  match goal with |- context [setRemediatingCondition ?r ?ms ?un] =>
    destruct (setRemediatingCondition_put r ms un) as (c3 & E3 & T3); rewrite E3 end.
  clear E0 E1 E2 E3. eexists. split; [reflexivity|].
  assert (∀ r, setReplicas r owned = rcp_with_status (rcp_Status (setReplicas r owned)) r) as Hr.
  { intros r. unfold setReplicas. by destruct (foldl _ _ _) as [[]]. }
  rewrite (Hr (cp_RCP c)). set (st := rcp_Status (setReplicas (cp_RCP c) owned)).
  assert (st_ControlPlaneInitialized st = st_ControlPlaneInitialized (rcp_Status (cp_RCP c))) as Hi.
  { unfold st, setReplicas. by destruct (foldl _ _ _) as [[]]. }
  split_and!; [reflexivity|reflexivity|unfold rcp_initialized; simpl; by rewrite Hi|reflexivity|].
  assert (ScalingUpCondition ≠ ScalingDownCondition) as Hud.
  { by apply (conditions_differ 2 3 _ _ _ rcp_conditions_distinct). }
  rewrite !rcp_put_other by (rewrite ?T1, ?T2, ?T3; in_list).
  unfold setScalingDownCondition, setScalingUpCondition.
  rewrite !rcp_put_view, scalingUp_type, scalingDown_type. simpl.
  repeat case_decide; try congruence. reflexivity.
Qed.

(** The observer survives everything after the summary. *)
Lemma keeps_put (f : RKE2ControlPlane → RKE2ControlPlane) :
  (∀ r, rcp_view (f r) = rcp_view r) → keeps (λ c, rcp_view (cp_RCP c)) (modify_rcp f).
Proof. intros Hf. apply keeps_modify_cp. intros c. apply Hf. Qed.

Lemma keeps_set_other c :
  cond_Type c ∈ [AvailableCondition; RemediatingCondition; DeletingCondition; MachinesUpToDateCondition;
       RKE2ControlPlaneMachinesReadyCondition; RKE2ControlPlaneInitializedCondition] →
  keeps (λ c, rcp_view (cp_RCP c)) (rcp_set_condition c).
Proof. intros Hc. apply keeps_put. intros r. by apply (rcp_put_other c). Qed.

Lemma surface_view owned ready : keeps (λ c, rcp_view (cp_RCP c)) (surface owned ready).
Proof.
  unfold surface. repeat match goal with
    | |- keeps _ (rcp_set_condition _) => apply keeps_set_other; in_list
    | |- keeps _ (modify_rcp _) => apply keeps_put; intros r; reflexivity
    | |- _ => keeps_step
    end.
Qed.

(** A new control plane knows nothing of earlier preflight checks. *)
Lemma NewControlPlane_fresh ms w w' :
  NewControlPlane ms w = (Ok tt, w') →
  cp_RCP (w_cp w') = cp_RCP (w_cp w) ∧ cp_Cluster (w_cp w') = cp_Cluster (w_cp w) ∧
  cp_Machines (w_cp w') = ms ∧ cp_InfraMachineTemplateIsNotFound (w_cp w') = false ∧
  cp_PreflightCheckResults (w_cp w') = no_preflight.
Proof.
  intros Hrun. pose proof (NewControlPlane_machines ms w w' Hrun) as Hms.
  assert (keeps (λ c, (cp_RCP c, cp_Cluster c)) (NewControlPlane ms)) as Hk.
  { unfold NewControlPlane, GetInfraResources, GetRKE2Configs, patch_helpers, UpToDate, matchesMachineSpec,
      compute_desired, ComputeDesiredMachine, ComputeDesiredInfraMachine. keeps_auto. }
  specialize (Hk w). rewrite Hrun in Hk. simpl in Hk. injection Hk as Hr Hc.
  split_and!; [done|done|done|..]; revert Hrun; unfold NewControlPlane, mbind, comp_bind;
    destruct (GetInfraResources ms w) as [[infra|e|p] w1]; try done;
    destruct (GetRKE2Configs ms w1) as [[configs|e|p] w3]; try done;
    destruct (patch_helpers ms w3) as [[helpers|e|p] w4]; try done; cbn [get_cp gets];
    match goal with |- context [for_acc ?l ?b ?f w4] =>
      destruct (for_acc l b f w4) as [[[[nu results] configs']|e|p] w5] end; try done;
    by intros [= <-].
Qed.

Lemma after_summary_view owned ready : keeps (λ c, rcp_view (cp_RCP c)) (after_summary owned ready).
Proof.
  pose proof surface_view. unfold after_summary, GetWorkloadCluster, GetClusterStatus.
  repeat match goal with
    | |- keeps _ (modify_rcp (λ r, setDeletingCondition _ _ _)) =>
        apply keeps_put; intros r; unfold setDeletingCondition; destruct (pTime_IsZero _);
        apply rcp_put_other; in_list
    | |- keeps _ (modify_rcp _) => apply keeps_put; intros r; reflexivity
    | |- _ => keeps_step
    end.
Qed.

(** The machines owned, as the status update lists them. *)
Definition listed (w : World) (ms : Machines) : World * Machines :=
  (Build_World (w_cp w) (CListMachines false :: w_calls w) (w_names w),
   coll_Filter (OwnedMachines (cp_RCP (w_cp w))) ms).

Lemma updateStatus_run w ms replicas w2 :
  sp_Replicas (rcp_Spec (cp_RCP (w_cp w))) = Some replicas →
  ask (w_calls w) (CListMachines false) = inr ms →
  NewControlPlane (listed w ms).2 (listed w ms).1 = (Ok tt, w2) →
  updateStatus w =
    (_ ← summarize (listed w ms).2; after_summary (listed w ms).2 (coll_Filter IsReady (listed w ms).2)) w2.
Proof.
  intros Hr Hl Hn. unfold updateStatus, GetMachinesForCluster. unfold mbind at 1, comp_bind at 1. cbn [get_cp gets].
  rewrite Hr. unfold mbind at 1, comp_bind at 1. unfold wrap. unfold mbind at 1, comp_bind at 1. unfold api. rewrite Hl.
  simpl. unfold mbind at 1, comp_bind at 1. simpl in Hn. by rewrite Hn.
Qed.

(** The status counts what is there.  Once the owned machines are listed and
    compared, and whatever fails afterwards, the status holds the number of owned,
    available and up-to-date machines; ScalingUp is true exactly when there are
    fewer machines than desired and ScalingDown exactly when there are more (none
    are desired of a control plane being deleted), so never both.  The message of
    ScalingUp never names a reason why it is blocked: the preflight results belong
    to the control plane object of the reconcile, and the status is computed from a
    new one. *)
Theorem updateStatus_scaling w ms replicas w2 :
  sp_Replicas (rcp_Spec (cp_RCP (w_cp w))) = Some replicas →
  ask (w_calls w) (CListMachines false) = inr ms →
  (Z.of_nat (size (listed w ms).2) < 2 ^ 31)%Z →
  NewControlPlane (listed w ms).2 (listed w ms).1 = (Ok tt, w2) →
  let r := cp_RCP (w_cp (updateStatus w).2) in
  let owned := (listed w ms).2 in
  let current := Z.of_nat (size owned) in
  let desired := desired_replicas (cp_RCP (w_cp w)) replicas in
  (st_Replicas (rcp_Status r), st_AvailableReplicas (rcp_Status r), st_UpToDateReplicas (rcp_Status r)) =
    (Some current, Some (Z.of_nat (size (coll_Filter (IsTrue_of MachineAvailableCondition) owned))),
     Some (Z.of_nat (size (coll_Filter (IsTrue_of MachineUpToDateCondition) owned)))) ∧
  (∃ up, conditions_Get (GetConditions r) ScalingUpCondition = Some up ∧
     cond_Status up = (if decide (current < desired)%Z then ConditionTrue else ConditionFalse) ∧
     cond_Message up = (if decide (current < desired)%Z then
       "Scaling up from " +:+ fmt_d current +:+ " to " +:+ fmt_d desired +:+ " replicas" else "")) ∧
  (∃ down, conditions_Get (GetConditions r) ScalingDownCondition = Some down ∧
     cond_Status down = (if decide (desired < current)%Z then ConditionTrue else ConditionFalse)).
Proof.
  intros Hr Hl Hsz Hn. cbv zeta. rewrite (updateStatus_run w ms replicas w2 Hr Hl Hn).
  destruct (NewControlPlane_fresh _ _ _ Hn) as (Hrcp & Hcl & Hms & Hnf & Hpf). simpl in Hrcp.
  destruct (summarize_run (listed w ms).2 w2) as (r & Hrun & _ & _ & _ & _ & Hv).
  unfold mbind at 1 2 3 4 5, comp_bind at 1 2 3 4 5. rewrite Hrun.
  pose proof (after_summary_view (listed w ms).2 (coll_Filter IsReady (listed w ms).2)
    (w_with_cp (cp_with_rcp r (w_cp w2)) w2)) as Hk. simpl in Hk. rewrite Hv, Hrcp, Hms, Hnf, Hpf in Hk.
  set (r' := cp_RCP (w_cp (after_summary _ _ _).2)) in *. clearbody r'. clear Hrun Hv r.
  pose proof (f_equal (λ v, v.1.1) Hk) as Hup. pose proof (f_equal (λ v, v.1.2) Hk) as Hdown.
  pose proof (f_equal snd Hk) as Hcounts. rewrite setReplicas_run in Hcounts by done.
  split; [exact Hcounts|]. simpl in Hup, Hdown. unfold listed in *. cbn [fst snd] in *.
  apply fmap_Some in Hup as (up & -> & Hup). apply fmap_Some in Hdown as (down & -> & Hdown).
  unfold cond_view in Hup, Hdown. unfold scalingUpCondition in Hup. unfold scalingDownCondition in Hdown.
  rewrite Hr in Hup, Hdown. rewrite SafeInt32_size in Hup, Hdown by done. split.
  - exists up. split; [done|]. revert Hup. cbv zeta. clear Hdown.
    destruct (decide (desired_replicas (cp_RCP (w_cp w)) replicas ≤ _)%Z) as [Hle|Hle].
    + rewrite !(decide_False (P := (_ < _)%Z)) by lia. by intros [= -> _ ->].
    + rewrite !(decide_True (P := (_ < _)%Z)) by lia. by intros [= -> _ ->].
  - exists down. split; [done|]. revert Hdown. cbv zeta. clear Hup.
    destruct (decide (_ ≤ desired_replicas (cp_RCP (w_cp w)) replicas)%Z) as [Hle|Hle].
    + rewrite (decide_False (P := (_ < _)%Z)) by lia. by intros [= -> _ _].
    + rewrite (decide_True (P := (_ < _)%Z)) by lia. by intros [= -> _ _].
Qed.
End status_lemmas.

(** *** Evaluation: two machines of three *)

#[refine] Instance plain_status_lib : StatusLib := {
  LowestVersion ms := match map_to_list ms with [] => "" | (_, m) :: _ => msp_Version (m_Spec m) end;
  NewAggregateCondition ms s t r := Ok (mkCond t ConditionUnknown "" "")
}.
Proof.
  - by intros ms s t r c [= <-].
  - done.
  - done.
Defined.

Definition demo_status_env : Env := demo_env_with [demo_owned "a"; demo_owned "b"] [] [] 0.
Definition demo_status_world : World :=
  demo_world (rcp_with_meta (Build_ObjectMeta "cp" "ns" "uid-cp" None (Some ∅) [] [] 0%Z None) (demo_rcp 3 true)) [].
Definition demo_status_w2 : World :=
  (NewControlPlane (EV := demo_status_env) (listed demo_status_world demo_delete_ms).2
     (listed demo_status_world demo_delete_ms).1).2.

Lemma updateStatus_scaling_witness :
  ∃ up, conditions_Get (GetConditions (cp_RCP (w_cp (updateStatus (EV := demo_status_env) demo_status_world).2)))
          ScalingUpCondition = Some up ∧ cond_Status up = ConditionTrue.
Proof.
  destruct (updateStatus_scaling (EV := demo_status_env) demo_status_world demo_delete_ms 3 demo_status_w2)
    as (_ & (up & Hup & Hs & _) & _).
  - reflexivity.
  - reflexivity.
  - reflexivity.
  - vm_compute. reflexivity.
  - exists up. split; [exact Hup|]. rewrite Hs. reflexivity.
Defined.
