(* ===== verification/Controller.v ===== *)
(** * The entry point of the control plane controller

    [Reconcile] of controlplane/internal/controllers/rke2controlplane_controller.go:
    it fetches the control plane and its cluster, puts the finalizer on the control
    plane, hands over to [reconcileNormal] or [reconcileDelete], and in a deferred
    function updates the status and writes the object back. *)

From stdpp Require Import base tactics option list gmap strings numbers.
From S2P Require Import Prelude Go Api Objects Libs World Registration Hooks Etcd Desired ControlPlane.
From S2P Require Import Scale Remediation Workload Lifecycle Inplace Reconciler Status Demo.
Open Scope string_scope.
Open Scope list_scope.
Open Scope stdpp_scope.

(** [annotations.IsPaused]. *)
Class ControllerLib := IsPaused : Cluster → RKE2ControlPlane → bool.

Definition DefaultRequeueTime : Duration := (20 * Second)%Z.

(** [errors.AsType[*rke2.RemoteClusterConnectionError]]: through wraps, not
    through aggregates. *)
Fixpoint is_remote_connection_error (e : error) : bool :=
  match e with ERemote _ _ => true | EWrap _ e => is_remote_connection_error e | _ => false end.

(** [controllerutil.AddFinalizer]. *)
Definition AddFinalizer (f : string) (r : RKE2ControlPlane) : RKE2ControlPlane :=
  if ContainsFinalizer f r then r
  else rcp_with_meta (om_with_finalizers (om_Finalizers (rcp_ObjectMeta r) ++ [f]) (rcp_ObjectMeta r)) r.

(** The control plane object and the cluster as fetched; nothing else is known yet. *)
Definition fetched (rcp : RKE2ControlPlane) (cluster : Cluster) : ControlPlane :=
  Build_ControlPlane rcp cluster ∅ ∅ ∅ ∅ false no_preflight ∅ ∅ None "" "".

(** The object of a watch event, and the control plane it is about: of a Cluster, the
    one it refers to. *)
Inductive WatchedObject :=
| WatchedCluster (namespace : string) (controlPlaneRef : ContractVersionedObjectReference)
| WatchedOther.
Definition ClusterToRKE2ControlPlane (o : WatchedObject) : list (string * string) :=
  match o with
  | WatchedOther => []
  | WatchedCluster namespace controlPlaneRef =>
      if Ref_IsDefined controlPlaneRef && bool_decide (cv_Kind controlPlaneRef = "RKE2ControlPlane")
      then [(namespace, cv_Name controlPlaneRef)] else []
  end.

Section controller.
Context `{CapiConsts, CollLib, CondLib, SetsLib, MetaLib, ServerJson, RemediationJson, WorkloadLib,
          InPlaceLib, ReconcilerLib, !StatusLib, ControllerLib, GoSort, GoRange, Clock, EV : Env}.

(** [patchHelper.Patch] of the control plane, from the object the helper saw. *)
Definition patchRKE2ControlPlane (before : RKE2ControlPlane) : M unit :=
  c ← get_cp; api (CPatchRCP before (cp_RCP c)).

(** The second half of the deferred function: the object is written back, and a
    control plane that is not initialized is looked at again. *)
Definition write_back (before : RKE2ControlPlane) (o : outcome Result) : M (outcome Result) :=
  r ← try (patchRKE2ControlPlane before);
  let o := match r with inl _ => o | inr err => join_errors o err end in
  c ← get_cp;
  mret (match o with
        | Ok res =>
            if bool_decide (RequeueAfter res ≤ 0)%Z && pTime_IsZero (rcp_DeletionTimestamp (cp_RCP c)) &&
               negb (rcp_initialized (cp_RCP c))
            then Ok (requeueAfter DefaultRequeueTime) else Ok res
        | _ => o
        end).

(** The deferred function: the outcome of the handler becomes that of the reconcile. *)
Definition finish (before : RKE2ControlPlane) (o : outcome Result) : M (outcome Result) :=
  r ← try updateStatus;
  write_back before
    (match r with
     | inl _ => o
     | inr err => if is_remote_connection_error err then o else join_errors o err
     end).

(** The handler for the object and its cluster. *)
Definition handle : M Result :=
  c ← get_cp;
  if negb (pTime_IsZero (rcp_DeletionTimestamp (cp_RCP c))) then reconcileDelete else reconcileNormal.

Definition Reconcile : M Result :=
  rcp ← api CGetRCP;
  cluster ← api CGetOwnerCluster;
  match cluster with
  | None => mret requeue
  | Some cluster =>
      if IsPaused cluster rcp then mret Result_zero
      else
        r ← try (api (CNewPatchHelper "RKE2ControlPlane" (rcp_Name rcp)));
        match r with
        | inr _ => mret requeue
        | inl _ =>
            if negb (ContainsFinalizer RKE2ControlPlaneFinalizer rcp) then
              _ ← wrap "failed to add finalizer"
                    (api (CPatchRCP rcp (AddFinalizer RKE2ControlPlaneFinalizer rcp)));
              mret requeue
            else
              _ ← modify_cp (λ _, fetched rcp cluster);
              finally handle (finish rcp)
        end
  end.
End controller.

(** ** What a reconcile does to the status *)

Section initialized.
Context `{CapiConsts, CollLib, CondLib, SetsLib, MetaLib, ServerJson, RemediationJson, WorkloadLib,
          InPlaceLib, ReconcilerLib, !StatusLib, ControllerLib, GoSort, GoRange, Clock, EV : Env}.

Definition init_view (c : ControlPlane) : option bool := st_ControlPlaneInitialized (rcp_Status (cp_RCP c)).

Lemma NewControlPlane_init ms : keeps init_view (NewControlPlane ms).
Proof.
  unfold NewControlPlane, GetInfraResources, GetRKE2Configs, patch_helpers, UpToDate, matchesMachineSpec,
    compute_desired, ComputeDesiredMachine, ComputeDesiredInfraMachine. keeps_auto.
Qed.

Lemma conditions_init : keeps init_view reconcileControlPlaneConditions.
Proof.
  unfold reconcileControlPlaneConditions, setConditionsToUnknown, reconcileMachineUpToDateCondition,
    GetWorkloadCluster, InitWorkload, getControlPlaneNodes,
    UpdateAgentConditions, updateManagedEtcdConditions, first_pass, second_pass,
    aggregateConditionsFromMachinesToRCP, UpdateNodeMetadata, PatchNodes, PatchMachines, set_v1beta1,
    node_patch_failed, machine_set_condition, modify_machine, rcp_set_condition, modify_rcp, modify_workload.
  keeps_auto.
Qed.

Lemma lifecycle_init : keeps init_view reconcileLifecycleHooks.
Proof.
  unfold reconcileLifecycleHooks, reconcilePreDrainHook, reconcilePreTerminateHook,
    applyHookToActiveMachines, cleanupHookOnAllMachines, removeHookAnnotationFromMachine,
    removePreTerminateHookAnnotationFromMachine, merge_patch, release_etcd_member, ApplyLabelOnNode,
    RemoveEtcdMemberForMachine, removeMemberForNode, IsEtcdMemberSafelyRemovedForMachine,
    isMemberRemovedForNode, getControlPlaneNodes, GetWorkloadCluster, PatchMachines,
    machine_set_condition, modify_machine, rcp_set_condition, modify_rcp, modify_workload.
  keeps_auto.
Qed.

Lemma unhealthy_init : keeps init_view reconcileUnhealthyMachines.
Proof.
  unfold reconcileUnhealthyMachines, cleanupPendingRemediations, remediationInProgress, prepareRemediation,
    canSafelyRemoveEtcdMember, GetWorkloadCluster, deleteForRemediation, checkRetryLimits, set_remediated, current, now,
    machine_set_condition, modify_machine, rcp_set_condition, modify_rcp, modify_workload.
  keeps_auto.
Qed.

Lemma trigger_init m res : keeps init_view (triggerInPlaceUpdate m res).
Proof.
  unfold triggerInPlaceUpdate, mark_in_progress, MarkAsPending, modify_machine. keeps_auto.
Qed.

Lemma scaling_init :
  keeps init_view initializeControlPlane ∧ keeps init_view scaleUpControlPlane ∧
  ∀ out, keeps init_view (scaleDownControlPlane out).
Proof.
  assert (∀ ex, keeps init_view (preflightChecks ex)) as Hp by (intros; unfold preflightChecks; keeps_auto).
  assert (∀ cl r s fd, keeps init_view (cloneConfigsAndGenerateMachine cl r s fd)) as Hc.
  { intros. unfold cloneConfigsAndGenerateMachine, generateRKE2Config, createMachine, computeDesiredMachine,
      cleanupFromGeneration. keeps_auto. }
  split_and!; [..|intros out]; unfold initializeControlPlane, scaleUpControlPlane, scaleDownControlPlane,
    GetMachinesForCluster, GetWorkloadCluster; keeps_auto.
Qed.

Lemma upgrade_init out res : keeps init_view (upgradeControlPlane out res).
Proof.
  destruct scaling_init as (_ & Hup & Hdown). pose proof trigger_init.
  unfold upgradeControlPlane, InitWorkload, GetWorkloadCluster, getControlPlaneNodes, tryInPlaceUpdate,
    canUpdateMachine, createCanUpdateRequest, rcp_set_condition, modify_rcp, modify_workload, preflightChecks.
  keeps_auto.
Qed.

Lemma operate_init n : keeps init_view (operate n).
Proof.
  destruct scaling_init as (Hini & Hup & Hdown). pose proof upgrade_init. pose proof trigger_init.
  pose proof conditions_init. pose proof lifecycle_init. pose proof unhealthy_init.
  unfold operate, unless_done, rolloutOrScale, scaleToReplicas, rcp_set_condition, modify_rcp. keeps_auto.
Qed.

Lemma handle_init : keeps init_view handle.
Proof.
  pose proof operate_init. pose proof NewControlPlane_init. pose proof conditions_init.
  unfold handle, reconcileNormal, reconcileDelete, delete_machines, deleteOwnedMachine, waiting_for_cluster,
    removePreTerminateHookAnnotationFromMachine, removeHookAnnotationFromMachine, merge_patch, current,
    ReconcileExternalReference, syncMachines, syncMachine, UpdateMachine, computeDesiredMachine,
    UpdateExternalObject, GetMachinesForCluster, modify_machine, rcp_set_condition, modify_rcp.
  keeps_auto. apply keeps_modify_cp. intros c. unfold init_view. simpl. by destruct (ContainsFinalizer _ _).
Qed.

(** [m] does not take back that the control plane is initialized. *)
Definition stays {A} (m : M A) : Prop :=
  ∀ w, rcp_initialized (cp_RCP (w_cp w)) = true → rcp_initialized (cp_RCP (w_cp (m w).2)) = true.

Lemma stays_keeps {A} (m : M A) : keeps init_view m → stays m.
Proof. intros Hm w. unfold rcp_initialized. pose proof (Hm w) as Hw. unfold init_view in Hw. by rewrite Hw. Qed.
Lemma stays_bind {A B} (m : M A) (f : A → M B) : stays m → (∀ a, stays (f a)) → stays (m ≫= f).
Proof.
  intros Hm Hf w Hw. specialize (Hm w Hw). unfold mbind, comp_bind.
  destruct (m w) as [[a|e|p] w']; [by apply Hf|done..].
Qed.
Lemma stays_set : stays (modify_rcp (rcp_map_status st_with_initialized)).
Proof. by intros w _. Qed.
Lemma stays_if {A} (b : bool) (m m' : M A) : stays m → stays m' → stays (if b then m else m').
Proof. by destruct b. Qed.
Lemma stays_decide {A} P `{Decision P} (m m' : M A) : stays m → stays m' → stays (if decide P then m else m').
Proof. intros. by case_decide. Qed.

Ltac stays_step :=
  match goal with
  | |- stays (_ ≫= _) => apply stays_bind; [|intros ?]
  | |- stays (if decide _ then _ else _) => apply stays_decide
  | |- stays (modify_rcp (rcp_map_status st_with_initialized)) => apply stays_set
  | |- stays (if _ then _ else _) => apply stays_if
  | |- stays (match ?x with _ => _ end) => destruct x
  | |- stays _ => apply stays_keeps; unfold modify_rcp; keeps_auto
  end.

Lemma surface_stays owned ready : stays (surface owned ready).
Proof.
  unfold surface, rcp_set_condition. repeat stays_step.
Qed.

Lemma updateStatus_stays : stays updateStatus.
Proof.
  unfold updateStatus, after_summary, GetMachinesForCluster, GetWorkloadCluster, GetClusterStatus.
  pose proof surface_stays. pose proof NewControlPlane_init.
  assert (∀ owned, stays (summarize owned)) as Hs.
  { intros owned w Hw. destruct (summarize_run owned w) as (r & -> & _ & _ & Hi & _). simpl. by rewrite Hi. }
  assert (∀ a b, stays (modify_rcp (λ r, setDeletingCondition r a b))) as Hd.
  { intros a b w Hw. unfold setDeletingCondition. simpl. by destruct (pTime_IsZero _). }
  repeat match goal with
    | |- stays (summarize _) => apply Hs
    | |- stays (surface _ _) => apply surface_stays
    | |- stays (modify_rcp (λ r, setDeletingCondition _ _ _)) => apply Hd
    | |- _ => stays_step
    end.
Qed.
End initialized.

(** ** What a reconcile does *)

Section controller_claims.
Context `{CapiConsts, CollLib, CondLib, SetsLib, MetaLib, ServerJson, RemediationJson, WorkloadLib,
          InPlaceLib, ReconcilerLib, !StatusLib, ControllerLib, GoSort, GoRange, Clock, EV : Env}.

Lemma updateStatus_no_change : emits no_change updateStatus.
Proof.
  pose proof NewControlPlane_no_change. pose proof GetWorkloadCluster_no_change.
  unfold updateStatus, summarize, after_summary, surface, GetMachinesForCluster, GetClusterStatus. emits_auto.
Qed.

Lemma finish_no_change before o : emits no_change (finish before o).
Proof. pose proof updateStatus_no_change. unfold finish, write_back, patchRKE2ControlPlane. emits_auto. Qed.

(** The world in which the handler runs: three calls later. *)
Definition handling (w : World) (rcp : RKE2ControlPlane) (cluster : Cluster) : World :=
  Build_World (fetched rcp cluster)
    (CNewPatchHelper "RKE2ControlPlane" (rcp_Name rcp) :: CGetOwnerCluster :: CGetRCP :: w_calls w) (w_names w).

(** All guards of [Reconcile] are passed. *)
Definition past_guards (w : World) (rcp : RKE2ControlPlane) (cluster : Cluster) : Prop :=
  ask (w_calls w) CGetRCP = inr rcp ∧ ask (CGetRCP :: w_calls w) CGetOwnerCluster = inr (Some cluster) ∧
  IsPaused cluster rcp = false ∧
  (∃ u, ask (CGetOwnerCluster :: CGetRCP :: w_calls w) (CNewPatchHelper "RKE2ControlPlane" (rcp_Name rcp)) = inr u) ∧
  RKE2ControlPlaneFinalizer ∈ om_Finalizers (rcp_ObjectMeta rcp).

Lemma Reconcile_past w rcp cluster :
  past_guards w rcp cluster → Reconcile w = finally handle (finish rcp) (handling w rcp cluster).
Proof.
  intros (Hr & Hc & Hp & (u & Hh) & Hf). unfold Reconcile.
  unfold mbind at 1, comp_bind at 1, api at 1. rewrite Hr.
  unfold mbind at 1, comp_bind at 1, api at 1. cbn [w_calls]. rewrite Hc, Hp.
  unfold mbind at 1, comp_bind at 1, try, api at 1. cbn [w_calls]. rewrite Hh.
  unfold ContainsFinalizer. by rewrite bool_decide_eq_true_2.
Qed.

(** The calls made before the guards are passed. *)
Definition only_guards (c : Call) : Prop :=
  match c with
  | CGetRCP | CGetOwnerCluster | CNewPatchHelper _ _ => True
  | CPatchRCP before after => after = AddFinalizer RKE2ControlPlaneFinalizer before
  | _ => False
  end.

Lemma Reconcile_cases w :
  (∃ rcp cluster, past_guards w rcp cluster) ∨
  ∃ l, w_calls (Reconcile w).2 = l ++ w_calls w ∧ Forall only_guards l.
Proof.
  unfold Reconcile, past_guards. unfold mbind at 1, comp_bind at 1, api at 1.
  destruct (ask (w_calls w) CGetRCP) as [e|rcp] eqn:Er; [right; exists [CGetRCP]; by repeat constructor|].
  unfold mbind at 1, comp_bind at 1, api at 1. cbn [w_calls].
  destruct (ask _ CGetOwnerCluster) as [e|cluster] eqn:Ec; cbn [w_calls w_cp w_names];
    [right; exists [CGetOwnerCluster; CGetRCP]; by repeat constructor|].
  destruct cluster as [cluster|]; [|right; exists [CGetOwnerCluster; CGetRCP]; by repeat constructor].
  destruct (IsPaused cluster rcp) eqn:Ep; [right; exists [CGetOwnerCluster; CGetRCP]; by repeat constructor|].
  unfold mbind at 1, comp_bind at 1, try, api at 1. cbn [w_calls w_cp w_names].
  set (h := CNewPatchHelper _ _).
  destruct (ask _ h) as [e|u] eqn:Eh; [right; exists [h; CGetOwnerCluster; CGetRCP]; by repeat constructor|].
  unfold ContainsFinalizer. case_bool_decide as Hf; [left; by exists rcp, cluster; eauto 10|]. right.
  cbn [negb]. unfold mbind, comp_bind, wrap, api. cbn [w_calls w_cp w_names].
  exists [CPatchRCP rcp (AddFinalizer RKE2ControlPlaneFinalizer rcp); h; CGetOwnerCluster; CGetRCP].
  split; [by destruct (ask (h :: _) _)|]. by repeat constructor.
Qed.

Lemma handle_one w :
  pTime_IsZero (rcp_DeletionTimestamp (cp_RCP (w_cp w))) = true →
  one_pick change_of (λ _, True) handle w.
Proof.
  intros Hd. unfold handle. apply one_pick_bind; [auto with emits|]. intros c w' [= <- <-]. rewrite Hd. simpl.
  destruct (reconcileNormal_one w) as (l & Hl & Hc). exists l. split; [done|].
  destruct Hc as [?|(x & ? & _)]; eauto.
Qed.

Lemma handle_calls w : extends w (handle w).2.
Proof.
  unfold handle. unfold mbind, comp_bind. cbn [get_cp gets]. destruct (pTime_IsZero _); simpl.
  - destruct (reconcileNormal_one w) as (l & Hl & _). by exists l.
  - apply emits_extends. unfold reconcileDelete, GetMachinesForCluster.
    assert (∀ ms owned, emits (λ _, True) (delete_machines ms owned)) as Hd.
    { intros. eapply emits_mono; [|apply delete_machines_workers]. done. }
    emits_auto.
Qed.


(** The server is given what is in memory, and an uninitialized control plane is
    requeued. *)
Lemma write_back_run before o w :
  ∃ o' w', write_back before o w = (Ok o', w') ∧ w_cp w' = w_cp w ∧
    w_calls w' = CPatchRCP before (cp_RCP (w_cp w)) :: w_calls w ∧
    ∀ res, o' = Ok res → pTime_IsZero (rcp_DeletionTimestamp (cp_RCP (w_cp w))) = true →
      rcp_initialized (cp_RCP (w_cp w)) = false → (0 < RequeueAfter res)%Z.
Proof.
  unfold write_back, patchRKE2ControlPlane. set (w1 := Build_World (w_cp w) (CPatchRCP before (cp_RCP (w_cp w)) :: w_calls w) (w_names w)).
  assert (∃ r, try (c ← get_cp; api (CPatchRCP before (cp_RCP c))) w = (Ok r, w1)) as [r Hr].
  { unfold try, mbind, comp_bind. cbn [get_cp gets]. unfold api. destruct (ask _ _); eauto. }
  unfold mbind at 1, comp_bind at 1. rewrite Hr. eexists _, _. split; [reflexivity|].
  split_and!; [done..|]. cbn [w_cp w1]. intros res Hres Hd Hi. rewrite Hd, Hi in Hres. simpl in Hres.
  destruct r; [|by destruct o]. destruct o as [res1|e|p]; [|done..].
  case_bool_decide; simpl in Hres; injection Hres as <-; [done|lia].
Qed.

(** C40: what a reconcile reports.  Once past the guards, and unless something
    panics, the last call writes the control plane object back; a control plane
    that was initialized is never written back as not initialized; and when the
    reconcile ends without an error while the control plane, not being deleted, is
    not initialized, it asks to be run again. *)
Theorem Reconcile_reports w rcp cluster :
  past_guards w rcp cluster → (∀ p, (Reconcile w).1 ≠ Panic p) →
  ∃ after rest, w_calls (Reconcile w).2 = CPatchRCP rcp after :: rest ∧
    (rcp_initialized rcp = true → rcp_initialized after = true) ∧
    ∀ res, (Reconcile w).1 = Ok res → pTime_IsZero (rcp_DeletionTimestamp after) = true →
      rcp_initialized after = false → (0 < RequeueAfter res)%Z.
Proof.
  intros Hg. rewrite (Reconcile_past w rcp cluster Hg). set (w0 := handling w rcp cluster).
  unfold finally. pose proof (stays_keeps _ handle_init w0) as Hh.
  destruct (handle w0) as [o w1]. simpl in Hh. unfold finish, mbind, comp_bind, try.
  pose proof (updateStatus_stays w1) as Hs.
  destruct o as [res0|e|p]; intros Hnp; [..|by destruct (Hnp p)].
  all: destruct (updateStatus w1) as [[u|err|p] w2]; simpl in Hs, Hnp; [..|by destruct (Hnp p)].
  all: match goal with |- context [write_back ?r ?o ?w] =>
    destruct (write_back_run r o w) as (o' & w' & Hw & Hcp & Hcalls & Hreq); rewrite Hw end.
  all: exists (cp_RCP (w_cp w2)), (w_calls w2); simpl; rewrite Hcalls; split_and!; auto.
Qed.
End controller_claims.

(** *** Evaluation: a reconcile of an initialized control plane *)

Instance plain_inplace_lib : InPlaceLib := {
  feature_InPlaceUpdates := false;
  config_spec_json _ := Ok "";
  infra_spec_json _ := Ok ""
}.
#[refine] Instance plain_reconciler_lib : ReconcilerLib := {
  APIEndpoint_IsValid e := bool_decide (e.1 ≠ "") && bool_decide (e.2 ≠ 0%Z);
  IntValue v := match v with FromInt i => i | FromString _ => 0%Z end
}.
Proof. done. Defined.
Instance plain_controller_lib : ControllerLib := λ _ _, false.

Definition demo_finalized : RKE2ControlPlane :=
  rcp_with_meta (Build_ObjectMeta "cp" "ns" "uid-cp" None (Some ∅) [] [RKE2ControlPlaneFinalizer] 0%Z None)
    (demo_rcp 0 true).
Definition demo_reconcile_env : Env := λ t c,
  match c with
  | CGetRCP => inr demo_finalized
  | c => demo_env t c
  end.

Lemma Reconcile_reports_witness :
  ∃ after rest, w_calls (Reconcile (EV := demo_reconcile_env) (demo_world (demo_rcp 0 false) [])).2 =
    CPatchRCP demo_finalized after :: rest ∧ rcp_initialized after = true.
Proof.
  assert (∃ r, (Reconcile (EV := demo_reconcile_env) (demo_world (demo_rcp 0 false) [])).1 = Ok r) as [r Hr]
    by (eexists; vm_compute; reflexivity).
  destruct (Reconcile_reports (EV := demo_reconcile_env) (demo_world (demo_rcp 0 false) [])
              demo_finalized demo_cluster) as (after & rest & Hl & Hi & _).
  - split_and!; try reflexivity; [by exists tt|]. apply list_elem_of_here.
  - intros p Hp. rewrite Hr in Hp. discriminate.
  - exists after, rest. split; [exact Hl|]. apply Hi. reflexivity.
Defined.
