(* ===== verification/Webhooks.v ===== *)
(** * Admission of v1beta2 objects

    controlplane/api/v1beta2/rke2controlplane_webhook.go and
    rke2controlplanetemplate_webhook.go, bootstrap/api/v1beta2/rke2config_webhook.go
    and rke2configtemplate_webhook.go.  A defaulting webhook mutates the object and
    may refuse it; a validating one collects errors, each with its kind, path and
    detail (the rejected value is left out), and refuses when there are some.

    [admitted] is the life of a control plane object behind the webhooks: created,
    then updated any number of times.  [admitted_valid] is the invariant they
    keep, and [admitted_rollout] what the rolling update of the controller gets
    from it. *)

From stdpp Require Import base tactics option list gmap strings numbers.
From Stdlib Require Import Ascii.
From S2P Require Import Prelude Go Api Objects Libs World Locking Hooks Demo Etcd Desired ControlPlane Scale.
From S2P Require Import Remediation Workload Lifecycle Inplace Reconciler Controller.
Open Scope string_scope.
Open Scope list_scope.
Open Scope stdpp_scope.

#[global] Instance IntOrString_eq_dec : EqDecision IntOrString.
Proof. solve_decision. Defined.

(** ** Libraries

    [ToIgn3_3Bytes] is Butane's translation, of which the number of entries of its
    report, whether it is fatal, and its text are used; [IsLabelKey] lists what is
    wrong with a label key; YAML is read into and written from values of types of
    its own. *)
Class WebhookLib := {
  feature_MachineTaintPropagation : bool;
  NodeUninitializedTaint_Key : string;
  NodeOutdatedRevisionTaint_Key : string;
  IsLabelKey : string → list string;
  ToIgn3_3Bytes : string → nat * bool * string;
  YamlMap : Type;
  YamlList : Type;
  yaml_Unmarshal_map : string → option YamlMap;
  yaml_Unmarshal_list : string → option YamlList;
  yaml_Encode_map : YamlMap → error + string;
  yaml_Encode_list : YamlList → error + string
}.

(** ** Field errors *)

Inductive ErrorType := ErrorTypeInvalid | ErrorTypeForbidden | ErrorTypeRequired | ErrorTypeInternal.
Record FieldError := { fe_Type : ErrorType; fe_Field : string; fe_Detail : string }.
Definition field_Invalid := Build_FieldError ErrorTypeInvalid.
Definition field_Forbidden := Build_FieldError ErrorTypeForbidden.
Definition field_Required := Build_FieldError ErrorTypeRequired.
Definition field_InternalError := Build_FieldError ErrorTypeInternal.
Definition path_Index (path : string) (i : nat) : string := path +:+ "[" +:+ fmt_nat i +:+ "]".

(** The end of every validation: no errors, or [apierrors.NewInvalid]. *)
Definition validated (name : string) (allErrs : list FieldError) : outcome unit :=
  match allErrs with
  | [] => Ok tt
  | _ => Err (EWrap (name +:+ " is invalid") (EAgg (map (λ e, EText (fe_Field e +:+ ": " +:+ fe_Detail e)) allErrs)))
  end.

Section webhooks.
Context `{WebhookLib, ReconcilerLib, GoRange}.

(** ** The bootstrap configuration *)

Definition ignoredCloudInitFields : list string := ["write_files"; "ntp"; "runcmd"].

(** [strings.ReplaceAll(s, "\n", ident)]. *)
Fixpoint replace_newlines (ident s : string) : string :=
  match s with
  | EmptyString => ""
  | String c s =>
      if bool_decide (c = "010"%char) then ident +:+ replace_newlines ident s
      else String c (replace_newlines ident s)
  end.
Definition ident : string := newline +:+ "  ".

(** The new value of an entry; [None] leaves it as it is. *)
Definition corrected (v : string) : error + option string :=
  match yaml_Unmarshal_map v with
  | Some mapping =>
      match yaml_Encode_map mapping with
      | inr b => inr (Some (ident +:+ replace_newlines ident b))
      | inl e => inl (EWrap "invalid map value provided" e)
      end
  | None =>
      match yaml_Unmarshal_list v with
      | Some l =>
          match yaml_Encode_list l with
          | inr b => inr (Some (newline +:+ b))
          | inl e => inl (EWrap "invalid list value provided" e)
          end
      | None => inr None
      end
  end.

(** The loop updates the map it ranges over in place, and stops at an error. *)
Fixpoint correct_values (l : list (string * string)) (data : gmap string string) :
    gmap string string * option error :=
  match l with
  | [] => (data, None)
  | (k, v) :: l =>
      match corrected v with
      | inr (Some v') => correct_values l (<[k := v']> data)
      | inr None => correct_values l data
      | inl e => (data, Some e)
      end
  end.

Definition drop_ignored (data : gmap string string) : gmap string string :=
  foldr delete data ignoredCloudInitFields.

Definition CorrectArbitraryData (site : nat) (data : gmap string string) :
    gmap string string * option error :=
  let data := drop_ignored data in correct_values (go_range site data) data.

Definition ac_with_data (format : string) (data : strmap) (a : RKE2AgentConfig) : RKE2AgentConfig :=
  let '(Build_RKE2AgentConfig f1 f2 f3 f4 f5 f6 f7 f8 f9 f10 f11 f12 f13 f14 f15 f16 f17 f18 f19 f20
          f21 f22 f23 _ (Build_AdditionalUserData config _ strict)) := a in
  Build_RKE2AgentConfig f1 f2 f3 f4 f5 f6 f7 f8 f9 f10 f11 f12 f13 f14 f15 f16 f17 f18 f19 f20
    f21 f22 f23 format (Build_AdditionalUserData config data strict).
Definition cs_with_agent (a : RKE2AgentConfig) (s : RKE2ConfigSpec) : RKE2ConfigSpec :=
  Build_RKE2ConfigSpec (cs_Files s) (cs_PreRKE2Commands s) (cs_PostRKE2Commands s) a
    (cs_PrivateRegistriesConfig s) (cs_GzipUserData s).
Definition cs_Data (s : RKE2ConfigSpec) : strmap := aud_Data (ac_AdditionalUserData (cs_AgentConfig s)).

(** An error while correcting is logged, what was corrected before it stays. *)
Definition DefaultRKE2ConfigSpec (spec : RKE2ConfigSpec) : RKE2ConfigSpec :=
  let a := cs_AgentConfig spec in
  let format := if decide (ac_Format a = "") then CloudConfig else ac_Format a in
  let data := (λ d, (CorrectArbitraryData 50 d).1) <$> cs_Data spec in
  cs_with_agent (ac_with_data format data a) spec.

Definition RKE2Config_Default (rc : RKE2Config) : outcome RKE2Config :=
  Ok (cfg_with_spec (DefaultRKE2ConfigSpec (cfg_Spec rc)) rc).

Definition cannotUseWithIgnition : string := "not supported when spec.format is set to ignition".

Definition gzipped (f : File) : bool :=
  bool_decide (f_Encoding f = Gzip) || bool_decide (f_Encoding f = GzipBase64).

Definition validateIgnition (s : RKE2ConfigSpec) (pathPrefix : string) : list FieldError :=
  let ac := cs_AgentConfig s in
  if decide (ac_Format ac = Ignition) then
    let '(entries, fatal, text) := ToIgn3_3Bytes (aud_Config (ac_AdditionalUserData ac)) in
    (if ((0 <? entries)%nat && aud_Strict (ac_AdditionalUserData ac)) || fatal
     then [field_Invalid (pathPrefix +:+ ".agentConfig.AdditionalUserData.Config")
             ("error parsing Butane config: " +:+ text)] else []) ++
    concat (imap (λ i f, if gzipped f then [field_Forbidden
                     (path_Index (pathPrefix +:+ ".files") i +:+ ".encoding") cannotUseWithIgnition]
                   else []) (elems (cs_Files s)))
  else [].

Definition no_ref : ObjectReference := Build_ObjectReference "" "" "".
Definition bare_registry (r : RegistryConfig) : bool :=
  bool_decide (rc_AuthSecret r = no_ref) && bool_decide (rc_TLS r = Build_TLSConfig no_ref false).

Definition validateRegistries (s : RKE2ConfigSpec) (pathPrefix : string) : list FieldError :=
  concat (map (λ '(regName, regConfig),
    if bare_registry regConfig
    then [field_Invalid (pathPrefix +:+ ".privateRegistriesConfig.configs." +:+ regName)
            ("need either credentials, tls settings or both for registry: " +:+ regName)]
    else []) (go_range 51 (default ∅ (reg_Configs (cs_PrivateRegistriesConfig s))))).

Definition validate (s : RKE2ConfigSpec) (pathPrefix : string) : list FieldError :=
  validateIgnition s pathPrefix ++ validateRegistries s pathPrefix.
Definition ValidateRKE2ConfigSpec (spec : RKE2ConfigSpec) : list FieldError := validate spec "spec".

Definition RKE2Config_ValidateCreate (rc : RKE2Config) : outcome unit :=
  validated (om_Name (cfg_ObjectMeta rc)) (ValidateRKE2ConfigSpec (cfg_Spec rc)).
Definition RKE2Config_ValidateUpdate (old new : RKE2Config) : outcome unit :=
  validated (om_Name (cfg_ObjectMeta new)) (ValidateRKE2ConfigSpec (cfg_Spec new)).

(** A template of configurations is defaulted and never refused. *)
Definition RKE2ConfigTemplate_Default (rct : RKE2ConfigTemplate) : outcome RKE2ConfigTemplate :=
  let t := cts_Template (ct_Spec rct) in
  Ok (Build_RKE2ConfigTemplate (ct_ObjectMeta rct)
        (Build_RKE2ConfigTemplateSpec (Build_RKE2ConfigTemplateResource (DefaultRKE2ConfigSpec (ctr_Spec t))))).
Definition RKE2ConfigTemplate_ValidateCreate (rct : RKE2ConfigTemplate) : outcome unit := Ok tt.
Definition RKE2ConfigTemplate_ValidateUpdate (old new : RKE2ConfigTemplate) : outcome unit := Ok tt.

(** ** The control plane *)

Definition defaultNodeDeletionTimeoutSeconds : Z := 10%Z.
Definition defaultNodeDrainTimeoutSeconds : Z := 120%Z.
Definition defaultNodeVolumeDetachTimeoutSeconds : Z := 300%Z.

(** [if p == nil { p = &v }]. *)
Definition or_default {A} (v : A) (p : option A) : option A := match p with Some x => Some x | None => Some v end.

Definition default_deletion (d : RKE2ControlPlaneMachineTemplateDeletionSpec) :
    RKE2ControlPlaneMachineTemplateDeletionSpec :=
  Build_RKE2ControlPlaneMachineTemplateDeletionSpec
    (or_default defaultNodeDrainTimeoutSeconds (td_NodeDrainTimeoutSeconds d))
    (or_default defaultNodeVolumeDetachTimeoutSeconds (td_NodeVolumeDetachTimeoutSeconds d))
    (or_default defaultNodeDeletionTimeoutSeconds (td_NodeDeletionTimeoutSeconds d)).
Definition default_template (t : RKE2ControlPlaneMachineTemplate) : RKE2ControlPlaneMachineTemplate :=
  let s := mtpl_Spec t in
  Build_RKE2ControlPlaneMachineTemplate (mtpl_Labels t) (mtpl_Annotations t)
    (Build_RKE2ControlPlaneMachineTemplateSpec (ts_InfrastructureRef s) (default_deletion (ts_Deletion s))
       (ts_Taints s)).
Definition cs_with_data (data : strmap) (s : RKE2ConfigSpec) : RKE2ConfigSpec :=
  cs_with_agent (ac_with_data (ac_Format (cs_AgentConfig s)) data (cs_AgentConfig s)) s.

(** The data is corrected a second time, and here an error is returned. *)
Definition correct_again (site : nat) (s : RKE2ConfigSpec) : error + RKE2ConfigSpec :=
  match cs_Data s with
  | None => inr s
  | Some d =>
      match CorrectArbitraryData site d with
      | (d', None) => inr (cs_with_data (Some d') s)
      | (_, Some e) => inl e
      end
  end.

Definition RKE2ControlPlane_Default (rcp : RKE2ControlPlane) : outcome RKE2ControlPlane :=
  let s := rcp_Spec rcp in
  match correct_again 52 (DefaultRKE2ConfigSpec (sp_RKE2ConfigSpec s)) with
  | inl e => Err (EWrap "failed to correct additional user data for RKE2ControlPlane" e)
  | inr config =>
      Ok (Build_RKE2ControlPlane (rcp_ObjectMeta rcp)
        (Build_RKE2ControlPlaneSpec config (or_default 1%Z (sp_Replicas s)) (sp_Version s)
           (default_template (sp_MachineTemplate s)) (sp_ServerConfig s) (sp_ManifestsConfigMapReference s)
           (sp_RegistrationMethod s) (sp_RegistrationAddress s) (sp_RolloutStrategy s)
           (sp_RemediationStrategy s)) (rcp_Status rcp))
  end.

Definition validateCNI (r : RKE2ControlPlane) : list FieldError :=
  let sc := sp_ServerConfig (rcp_Spec r) in
  if sc_CNIMultusEnable sc && bool_decide (sc_CNI sc = "")
  then [field_Invalid "spec.serverConfig.cni" "must be specified when cniMultusEnable is true"] else [].

Definition validateRegistrationMethod (r : RKE2ControlPlane) : list FieldError :=
  if decide (sp_RegistrationMethod (rcp_Spec r) = RegistrationMethodAddress) then
    if decide (sp_RegistrationAddress (rcp_Spec r) = "")
    then [field_Invalid "spec.registrationAddress"
            "registrationAddress must be supplied when using registration method 'address'"] else []
  else [].

Definition taint_key_error (key : string) : option string :=
  if bool_decide (key = NodeUninitializedTaint_Key) || bool_decide (key = NodeOutdatedRevisionTaint_Key)
  then Some "taint key is reserved for Cluster API"
  else if HasPrefix key "node.kubernetes.io/" && bool_decide (key ≠ "node.kubernetes.io/out-of-service")
  then Some "taint key must not have the prefix node.kubernetes.io/, except for node.kubernetes.io/out-of-service"
  else if HasPrefix key "node.cloudprovider.kubernetes.io/"
  then Some "taint key must not have the prefix node.cloudprovider.kubernetes.io/"
  else if bool_decide (key = "node-role.kubernetes.io/master")
  then Some "taint is deprecated since 1.24 and should not be used anymore"
  else None.

Definition validateMachineTaints (taints : slice MachineTaint) (taintsPath : string) : list FieldError :=
  (if (0 <? length (elems taints))%nat && negb feature_MachineTaintPropagation
   then [field_Forbidden taintsPath "taints require the MachineTaintPropagation feature gate"] else []) ++
  concat (imap (λ i taint,
    let keyPath := path_Index taintsPath i +:+ ".key" in
    map (field_Invalid keyPath) (option_list (taint_key_error (mt_Key taint)) ++ IsLabelKey (mt_Key taint)))
    (elems taints)).

Definition validate_timeout (path : string) (timeout : option Z) : list FieldError :=
  match timeout with
  | Some t => if decide (t < 0)%Z then [field_Invalid path "must be non-negative"] else []
  | None => []
  end.

Definition validateMachineTemplate (r : RKE2ControlPlane) : list FieldError :=
  let s := mtpl_Spec (sp_MachineTemplate (rcp_Spec r)) in
  validateMachineTaints (ts_Taints s) "spec.machineTemplate.spec.taints" ++
  (if Ref_IsDefined (ts_InfrastructureRef s) then []
   else [field_Invalid "spec.machineTemplate.spec.infrastructureRef" "machineTemplate is required"]) ++
  validate_timeout "spec.machineTemplate.spec.deletion.nodeDrainTimeoutSeconds"
    (td_NodeDrainTimeoutSeconds (ts_Deletion s)) ++
  validate_timeout "spec.machineTemplate.spec.deletion.nodeVolumeDetachTimeoutSeconds"
    (td_NodeVolumeDetachTimeoutSeconds (ts_Deletion s)) ++
  validate_timeout "spec.machineTemplate.spec.deletion.nodeDeletionTimeoutSeconds"
    (td_NodeDeletionTimeoutSeconds (ts_Deletion s)).

Definition validateSpec (r : RKE2ControlPlane) : list FieldError :=
  match sp_Replicas (rcp_Spec r) with
  | None => [field_Required "spec.replicas" "is required"]
  | Some n => if decide (n <= 0)%Z
              then [field_Forbidden "spec.replicas" "cannot be less than or equal to 0"] else []
  end.

Definition maxSurge (r : RKE2ControlPlane) : option IntOrString :=
  strategy ← sp_RolloutStrategy (rcp_Spec r); rollingUpdate ← rs_RollingUpdate strategy; ru_MaxSurge rollingUpdate.

Definition validateScaling (r : RKE2ControlPlane) : list FieldError :=
  match sp_Replicas (rcp_Spec r) with
  | None => []
  | Some replicas =>
      (if bool_decide (sc_ExternalDatastoreSecret (sp_ServerConfig (rcp_Spec r)) = None) &&
          bool_decide (Z.rem replicas 2 = 0%Z)
       then [field_Forbidden "spec.replicas" "cannot be an even number when etcd is embedded"] else []) ++
      match maxSurge r with
      | None => []
      | Some surge =>
          let v := IntValue surge in
          let path := "spec.rolloutStrategy.rollingUpdate.maxSurge" in
          (if bool_decide (v ≠ 0%Z) && bool_decide (v ≠ 1%Z)
           then [field_Invalid path "value must be 1 or 0"] else []) ++
          (if bool_decide (v = 0%Z) && bool_decide (replicas < 3)%Z
           then [field_Forbidden path "cannot be 0 when replicas is less than 3"] else [])
      end
  end.

Definition RKE2ControlPlane_ValidateCreate (rcp : RKE2ControlPlane) : outcome unit :=
  validated (rcp_Name rcp)
    (ValidateRKE2ConfigSpec (sp_RKE2ConfigSpec (rcp_Spec rcp)) ++ validateCNI rcp ++
     validateRegistrationMethod rcp ++ validateMachineTemplate rcp ++ validateSpec rcp ++ validateScaling rcp).

(** The scaling rules are checked only when one of the values they are about changes. *)
Definition scaling_changed (old new : RKE2ControlPlane) : bool :=
  bool_decide (sp_Replicas (rcp_Spec old) ≠ sp_Replicas (rcp_Spec new)) ||
  bool_decide (maxSurge old ≠ maxSurge new) ||
  negb (Bool.eqb (bool_decide (sc_ExternalDatastoreSecret (sp_ServerConfig (rcp_Spec old)) = None))
            (bool_decide (sc_ExternalDatastoreSecret (sp_ServerConfig (rcp_Spec new)) = None))).

Definition registration_immutable (old new : string) : list FieldError :=
  if bool_decide (old ≠ "") && bool_decide (new ≠ old)
  then [field_Invalid "spec.registrationMethod" "field value is immutable once set"] else [].

Definition RKE2ControlPlane_ValidateUpdate (old new : RKE2ControlPlane) : outcome unit :=
  validated (rcp_Name new)
    (ValidateRKE2ConfigSpec (sp_RKE2ConfigSpec (rcp_Spec new)) ++ validateCNI new ++
     validateMachineTemplate new ++ validateSpec new ++
     (if scaling_changed old new then validateScaling new else []) ++
     registration_immutable (sp_RegistrationMethod (rcp_Spec old)) (sp_RegistrationMethod (rcp_Spec new))).
Definition RKE2ControlPlane_ValidateDelete (rcp : RKE2ControlPlane) : outcome unit := Ok tt.

(** ** Templates of control planes *)

Definition template_spec (t : RKE2ControlPlaneTemplate) : RKE2ControlPlaneTemplateResourceSpec :=
  tr_Spec (tsp_Template (tpl_Spec t)).
Definition tpl_with_config (c : RKE2ConfigSpec) (t : RKE2ControlPlaneTemplate) : RKE2ControlPlaneTemplate :=
  let r := tsp_Template (tpl_Spec t) in
  let s := tr_Spec r in
  Build_RKE2ControlPlaneTemplate (tpl_ObjectMeta t) (Build_RKE2ControlPlaneTemplateSpec
    (Build_RKE2ControlPlaneTemplateResource (tr_Labels r) (tr_Annotations r)
      (Build_RKE2ControlPlaneTemplateResourceSpec c (trs_MachineTemplate s) (trs_ServerConfig s)
        (trs_ManifestsConfigMapReference s) (trs_RegistrationMethod s) (trs_RegistrationAddress s)
        (trs_RolloutStrategy s) (trs_RemediationStrategy s)))).

Definition RKE2ControlPlaneTemplate_Default (t : RKE2ControlPlaneTemplate) : outcome RKE2ControlPlaneTemplate :=
  match correct_again 53 (DefaultRKE2ConfigSpec (trs_RKE2ConfigSpec (template_spec t))) with
  | inl e => Err (EWrap "failed to correct additional user data for RKE2ControlPlaneTemplate" e)
  | inr config => Ok (tpl_with_config config t)
  end.

Definition template_validateCNI (t : RKE2ControlPlaneTemplate) : list FieldError :=
  let sc := trs_ServerConfig (template_spec t) in
  if sc_CNIMultusEnable sc && bool_decide (sc_CNI sc = "")
  then [field_Invalid "spec.serverConfig.cni" "must be specified when cniMultusEnable is true"] else [].

Definition template_validateRegistrationMethod (t : RKE2ControlPlaneTemplate) : list FieldError :=
  if decide (trs_RegistrationMethod (template_spec t) = RegistrationMethodAddress) then
    if decide (trs_RegistrationAddress (template_spec t) = "")
    then [field_Invalid "spec.registrationAddress"
            "registrationAddress must be supplied when using registration method 'address'"] else []
  else [].

Definition template_taints_path : string := "spec.template.spec.machineTemplate.spec.taints".

(** [metadata_errors] is what [ObjectMeta.Validate] of Cluster API says of the
    labels and annotations. *)
Definition RKE2ControlPlaneTemplate_ValidateCreate
    (metadata_errors : strmap → strmap → string → list FieldError) (t : RKE2ControlPlaneTemplate) : outcome unit :=
  let r := tsp_Template (tpl_Spec t) in
  validated (om_Name (tpl_ObjectMeta t))
    (ValidateRKE2ConfigSpec (trs_RKE2ConfigSpec (template_spec t)) ++ template_validateCNI t ++
     template_validateRegistrationMethod t ++ metadata_errors (tr_Labels r) (tr_Annotations r) "spec.template.metadata" ++
     validateMachineTaints (ts_Taints (mtpl_Spec (trs_MachineTemplate (template_spec t)))) template_taints_path).

(** The old object may be nil, when it could not be converted. *)
Definition RKE2ControlPlaneTemplate_ValidateUpdate
    (metadata_errors : strmap → strmap → string → list FieldError)
    (old : option RKE2ControlPlaneTemplate) (new : RKE2ControlPlaneTemplate) : outcome unit :=
  match old with
  | None => validated "" [field_InternalError "<nil>" "failed to convert old RKE2ControlPlane to object"]
  | Some old =>
      let r := tsp_Template (tpl_Spec new) in
      validated (om_Name (tpl_ObjectMeta new))
        (ValidateRKE2ConfigSpec (trs_RKE2ConfigSpec (template_spec new)) ++ template_validateCNI new ++
         metadata_errors (tr_Labels r) (tr_Annotations r) "spec.template.metadata" ++
         validateMachineTaints (ts_Taints (mtpl_Spec (trs_MachineTemplate (template_spec new)))) template_taints_path ++
         registration_immutable (trs_RegistrationMethod (template_spec old)) (trs_RegistrationMethod (template_spec new)))
  end.
End webhooks.

(** ** What validation accepts *)

Section accepted.
Context `{WebhookLib, ReconcilerLib, GoRange}.

Lemma validated_ok name errs : validated name errs = Ok tt ↔ errs = [].
Proof. by destruct errs. Qed.

Lemma if_nil {A} (b : bool) (x : A) (l : list A) : (if b then x :: l else []) = [] ↔ b = false.
Proof. by destruct b. Qed.

Lemma concat_nil {A} (l : list (list A)) : concat l = [] ↔ Forall (λ x, x = []) l.
Proof.
  induction l as [|x l IH]; cbn; [by split|]. rewrite app_nil, IH, list.Forall_cons. done.
Qed.

Lemma imap_concat_nil {A B} (f : nat → A → list B) (l : list A) :
  concat (imap f l) = [] → ∀ i x, l !! i = Some x → f i x = [].
Proof.
  rewrite concat_nil, list.Forall_forall. intros Hf i x Hx. apply Hf.
  apply list_elem_of_lookup. exists i. by rewrite list_lookup_imap, Hx.
Qed.

(** The scaling rules: as many machines as etcd needs, and a surge that keeps a
    majority of them while one is replaced. *)
Definition scales_well (s : RKE2ControlPlaneSpec) (surge : option IntOrString) : Prop :=
  ∃ n, sp_Replicas s = Some n ∧ (0 < n)%Z ∧
    (sc_ExternalDatastoreSecret (sp_ServerConfig s) = None → Z.odd n = true) ∧
    ∀ v, surge = Some v → IntValue v = 1%Z ∨ IntValue v = 0%Z ∧ (3 ≤ n)%Z.

Lemma validateScaling_nil r :
  validateSpec r = [] → validateScaling r = [] → scales_well (rcp_Spec r) (maxSurge r).
Proof.
  unfold validateSpec, validateScaling, scales_well. destruct (sp_Replicas _) as [n|]; [|done].
  case_decide as Hn; [done|]. intros _. rewrite app_nil, if_nil, andb_false_iff.
  intros [Heven Hsurge]. exists n. split_and!; [done|lia|..].
  - intros He. destruct Heven as [Hx%bool_decide_eq_false|Hx%bool_decide_eq_false]; [done|].
    rewrite Z.odd_spec in *. destruct (Z.Even_or_Odd n) as [[k Hk]|Ho]; [|done].
    destruct Hx. rewrite Hk, Z.mul_comm. apply Z.rem_mul. lia.
  - intros v Hv. rewrite Hv in Hsurge. revert Hsurge. rewrite app_nil, !if_nil, !andb_false_iff, !bool_decide_eq_false. lia.
Qed.

Lemma scaling_unchanged old new :
  scaling_changed old new = false →
  scales_well (rcp_Spec old) (maxSurge old) → scales_well (rcp_Spec new) (maxSurge new).
Proof.
  unfold scaling_changed. rewrite !orb_false_iff, negb_false_iff, Bool.eqb_true_iff, !bool_decide_eq_false.
  intros [[Hr Hs] Hd] (n & Hn & Hpos & Hodd & Hsurge).
  apply dec_stable in Hr, Hs. exists n. rewrite <-Hr, <-Hs. split_and!; [done..| |done].
  intros He. apply Hodd. by rewrite <-(bool_decide_eq_true (_ = None)), Hd, bool_decide_eq_true.
Qed.

(** The rest of the spec. *)
Record sound_template (t : RKE2ControlPlaneMachineTemplateSpec) : Prop := {
  so_infra : Ref_IsDefined (ts_InfrastructureRef t) = true;
  so_timeouts : Forall (λ o, ∀ z, o = Some z → (0 ≤ z)%Z)
    [td_NodeDrainTimeoutSeconds (ts_Deletion t); td_NodeVolumeDetachTimeoutSeconds (ts_Deletion t);
     td_NodeDeletionTimeoutSeconds (ts_Deletion t)];
  so_taints : ∀ x, x ∈ elems (ts_Taints t) → feature_MachineTaintPropagation = true ∧
    taint_key_error (mt_Key x) = None ∧ IsLabelKey (mt_Key x) = []
}.

Lemma validate_timeout_nil path o : validate_timeout path o = [] → ∀ z, o = Some z → (0 ≤ z)%Z.
Proof. intros Ho z ->. cbn in Ho. case_decide; [done|lia]. Qed.

Lemma validateMachineTaints_nil taints path x :
  validateMachineTaints taints path = [] → x ∈ elems taints →
  feature_MachineTaintPropagation = true ∧ taint_key_error (mt_Key x) = None ∧ IsLabelKey (mt_Key x) = [].
Proof.
  unfold validateMachineTaints. rewrite app_nil, if_nil, andb_false_iff, negb_false_iff, Nat.ltb_ge.
  intros [Hf Ht] Hx. apply list_elem_of_lookup in Hx as [i Hi]. split.
  - destruct Hf as [Hf|Hf]; [|done]. apply lookup_lt_Some in Hi. lia.
  - apply (imap_concat_nil _ _ Ht) in Hi. apply map_eq_nil in Hi. apply app_nil in Hi as [Ho Hl].
    by destruct (taint_key_error _).
Qed.

Lemma validateMachineTemplate_nil r :
  validateMachineTemplate r = [] → sound_template (mtpl_Spec (sp_MachineTemplate (rcp_Spec r))).
Proof.
  unfold validateMachineTemplate. rewrite !app_nil. intros (Ht & Hi & Hdrain & Hvolume & Hdelete). split.
  - by destruct (Ref_IsDefined _).
  - repeat constructor; by eapply validate_timeout_nil.
  - intros x Hx. by eapply validateMachineTaints_nil.
Qed.

Record sound_config (s : RKE2ConfigSpec) : Prop := {
  so_files : ac_Format (cs_AgentConfig s) = Ignition → Forall (λ f, gzipped f = false) (elems (cs_Files s));
  so_registries : ∀ name r, default ∅ (reg_Configs (cs_PrivateRegistriesConfig s)) !! name = Some r →
    bare_registry r = false
}.

Lemma ValidateRKE2ConfigSpec_nil s : ValidateRKE2ConfigSpec s = [] → sound_config s.
Proof.
  unfold ValidateRKE2ConfigSpec, validate. rewrite app_nil. intros [Hi Hr]. split.
  - intros Hf. revert Hi. unfold validateIgnition. rewrite decide_True by done.
    destruct (ToIgn3_3Bytes _) as [[? ?] ?]. rewrite app_nil. intros [_ Hg].
    apply Forall_lookup. intros i f Hl. pose proof (imap_concat_nil _ _ Hg i f Hl) as Hn.
    cbv beta in Hn. by destruct (gzipped f).
  - intros name r Hl. revert Hr. unfold validateRegistries. rewrite concat_nil, list.Forall_forall.
    intros Hr. rewrite <-(elem_of_go_range 51) in Hl.
    specialize (Hr _ (list_elem_of_fmap_2 _ _ _ Hl)). cbn in Hr. by destruct (bare_registry r).
Qed.
End accepted.

(** ** The life of a control plane object *)

Section admission.
Context `{WebhookLib, ReconcilerLib, GoRange}.

(** A control plane is defaulted and validated when it is created and whenever its
    spec is written; writes of the status go past the webhooks and leave the spec. *)
Inductive admitted : RKE2ControlPlane → Prop :=
| admitted_create r r' :
    RKE2ControlPlane_Default r = Ok r' → RKE2ControlPlane_ValidateCreate r' = Ok tt → admitted r'
| admitted_update old r r' :
    admitted old → RKE2ControlPlane_Default r = Ok r' → RKE2ControlPlane_ValidateUpdate old r' = Ok tt →
    admitted r'
| admitted_status old r : admitted old → rcp_Spec r = rcp_Spec old → admitted r.

(** *** Defaulting *)

Lemma correct_values_keys l d k :
  (∀ x, x ∈ l.*1 → is_Some (d !! x)) → is_Some ((correct_values l d).1 !! k) → is_Some (d !! k).
Proof.
  revert d. induction l as [|[x v] l IH]; intros d Hl; cbn; [done|].
  destruct (corrected v) as [e|[v'|]]; [done|..]; intros Hk.
  - apply IH in Hk as Hk'.
    + destruct (decide (k = x)) as [->|Hne]; [apply Hl; cbn; by left|]. by rewrite lookup_insert_ne in Hk'.
    + intros y Hy. destruct (decide (y = x)) as [->|Hne]; [rewrite lookup_insert_eq; eauto|].
      rewrite lookup_insert_ne by done. apply Hl. cbn. by right.
  - apply IH in Hk; [done|]. intros y Hy. apply Hl. cbn. by right.
Qed.

Lemma drop_ignored_none d k : k ∈ ignoredCloudInitFields → drop_ignored d !! k = None.
Proof.
  unfold drop_ignored, ignoredCloudInitFields. cbn. rewrite !elem_of_cons.
  intros [->|[->|[->|Hk%elem_of_nil]]]; [..|done];
    rewrite ?(lookup_delete_ne _ _ _ ltac:(discriminate)), ?lookup_delete_eq by done; try done;
    by rewrite ?lookup_delete_ne, lookup_delete_eq by done.
Qed.

Lemma CorrectArbitraryData_none site d k :
  k ∈ ignoredCloudInitFields → (CorrectArbitraryData site d).1 !! k = None.
Proof.
  intros Hk. apply eq_None_not_Some. intros Hs. apply correct_values_keys in Hs.
  - rewrite drop_ignored_none in Hs by done. by destruct Hs.
  - intros x Hx. apply list_elem_of_fmap in Hx as [[y v] [-> Hy]].
    apply elem_of_go_range in Hy. cbn. eauto.
Qed.

(** What defaulting fills in. *)
Record defaulted (s : RKE2ControlPlaneSpec) : Prop := {
  de_format : ac_Format (cs_AgentConfig (sp_RKE2ConfigSpec s)) ≠ "";
  de_data k : k ∈ ignoredCloudInitFields → map_get (cs_Data (sp_RKE2ConfigSpec s)) k = None;
  de_timeouts : Forall is_Some
    (let d := ts_Deletion (mtpl_Spec (sp_MachineTemplate s)) in
     [td_NodeDrainTimeoutSeconds d; td_NodeVolumeDetachTimeoutSeconds d; td_NodeDeletionTimeoutSeconds d])
}.

Lemma ac_with_data_spec f d a :
  ac_Format (ac_with_data f d a) = f ∧ aud_Data (ac_AdditionalUserData (ac_with_data f d a)) = d.
Proof. by destruct a as [????????????????????????[]]. Qed.

Lemma is_Some_or_default {A} (v : A) o : is_Some (or_default v o).
Proof. destruct o; cbn; eauto. Qed.

Lemma Default_defaulted r r' : RKE2ControlPlane_Default r = Ok r' → defaulted (rcp_Spec r').
Proof.
  unfold RKE2ControlPlane_Default. set (c := DefaultRKE2ConfigSpec _).
  assert (ac_Format (cs_AgentConfig c) ≠ "" ∧
          ∀ k, k ∈ ignoredCloudInitFields → map_get (cs_Data c) k = None) as [Hf Hd].
  { unfold c, DefaultRKE2ConfigSpec, cs_Data. cbn [cs_with_agent cs_AgentConfig].
    rewrite (proj1 (ac_with_data_spec _ _ _)), (proj2 (ac_with_data_spec _ _ _)). split.
    - by case_decide.
    - intros k Hk. destruct (aud_Data _) as [d|]; [|done]. by apply CorrectArbitraryData_none. }
  clearbody c. unfold correct_again. intros Hr.
  assert (∃ config, (cs_Data c = None ∧ config = c ∨
      ∃ d, cs_Data c = Some d ∧ config = cs_with_data (Some (CorrectArbitraryData 52 d).1) c) ∧
    sp_RKE2ConfigSpec (rcp_Spec r') = config ∧
    ts_Deletion (mtpl_Spec (sp_MachineTemplate (rcp_Spec r'))) =
      default_deletion (ts_Deletion (mtpl_Spec (sp_MachineTemplate (rcp_Spec r))))) as (config & Hc & Hs & Ht).
  { destruct (cs_Data c) as [d|] eqn:Ed.
    - destruct (CorrectArbitraryData 52 d) as [d' [e|]] eqn:Ec; [done|]. injection Hr as <-.
      eexists. split; [right|done]. exists d. by rewrite Ec.
    - injection Hr as <-. exists c. split; [by left|done]. }
  split; rewrite ?Hs, ?Ht.
  - destruct Hc as [[_ ->]|(d & _ & ->)]; [done|]. cbn. by rewrite (proj1 (ac_with_data_spec _ _ _)).
  - intros k Hk. destruct Hc as [[_ ->]|(d & _ & ->)]; [auto|]. unfold cs_Data. cbn.
    rewrite (proj2 (ac_with_data_spec _ _ _)). by apply CorrectArbitraryData_none.
  - repeat constructor; apply is_Some_or_default.
Qed.

(** *** The invariant *)

Record valid (r : RKE2ControlPlane) : Prop := {
  va_scaling : scales_well (rcp_Spec r) (maxSurge r);
  va_template : sound_template (mtpl_Spec (sp_MachineTemplate (rcp_Spec r)));
  va_config : sound_config (sp_RKE2ConfigSpec (rcp_Spec r));
  va_cni : sc_CNIMultusEnable (sp_ServerConfig (rcp_Spec r)) = true → sc_CNI (sp_ServerConfig (rcp_Spec r)) ≠ "";
  va_defaults : defaulted (rcp_Spec r)
}.

Lemma validateCNI_nil r :
  validateCNI r = [] → sc_CNIMultusEnable (sp_ServerConfig (rcp_Spec r)) = true →
  sc_CNI (sp_ServerConfig (rcp_Spec r)) ≠ "".
Proof.
  unfold validateCNI. rewrite if_nil, andb_false_iff, bool_decide_eq_false. intros [->|?]; done.
Qed.

Lemma valid_intro r :
  defaulted (rcp_Spec r) → scales_well (rcp_Spec r) (maxSurge r) →
  ValidateRKE2ConfigSpec (sp_RKE2ConfigSpec (rcp_Spec r)) = [] → validateCNI r = [] →
  validateMachineTemplate r = [] → valid r.
Proof.
  intros. split; [done|by apply validateMachineTemplate_nil|by apply ValidateRKE2ConfigSpec_nil
    |by apply validateCNI_nil|done].
Qed.

Lemma admitted_valid_run r : admitted r → valid r.
Proof.
  induction 1 as [r r' Hd Hv|old r r' Ho IH Hd Hv|old r Ho IH Hs].
  - apply validated_ok in Hv. rewrite !app_nil in Hv. destruct Hv as (Hc & Hn & _ & Hm & Hs & Hsc).
    apply valid_intro; [by eapply Default_defaulted|by apply validateScaling_nil|done..].
  - apply validated_ok in Hv. rewrite !app_nil in Hv. destruct Hv as (Hc & Hn & Hm & Hs & Hsc & _).
    apply valid_intro; [by eapply Default_defaulted| |done..].
    destruct (scaling_changed old r') eqn:E; [by apply validateScaling_nil|].
    eapply scaling_unchanged; [done|apply IH].
  - destruct IH as [H1' H2' H3' H4' H5']. unfold maxSurge in H1'.
    split; unfold maxSurge; by rewrite Hs.
Qed.
End admission.

Section admission_claims.
Context `{CapiConsts, CollLib, CondLib, SetsLib, MetaLib, ServerJson, RemediationJson, WorkloadLib,
          InPlaceLib, ReconcilerLib, WebhookLib, GoSort, GoRange, Clock, EV : Env}.

Lemma SafeInt32_le n : (0 ≤ n)%Z → (SafeInt32 n ≤ n)%Z.
Proof. intros Hn. unfold SafeInt32, MaxInt32. case_decide; [lia|]. rewrite wrap32_id; lia. Qed.
Lemma SafeInt32_lt n k : (0 ≤ n)%Z → (k < 2 ^ 31 - 1)%Z → (SafeInt32 n < k + 1)%Z → (n ≤ k)%Z.
Proof. unfold SafeInt32, MaxInt32. intros Hn Hk. case_decide; [lia|]. rewrite wrap32_id; lia. Qed.

(** The bound of a rollout, for an admitted control plane: one machine more than
    replicas, or, with three replicas or more, as many as replicas. *)
Lemma admitted_max_nodes c n replicas :
  valid (cp_RCP c) → sp_Replicas (rcp_Spec (cp_RCP c)) = Some replicas → (replicas < 2 ^ 31 - 1)%Z →
  max_nodes c n → n = (replicas + 1)%Z ∨ n = replicas ∧ (3 ≤ replicas)%Z.
Proof.
  intros Hv Hr Hb (strategy & replicas' & Hs & Hr' & ->). rewrite Hr in Hr'. injection Hr' as <-.
  destruct (va_scaling _ Hv) as (m & Hm & Hpos & _ & Hsurge). rewrite Hr in Hm. injection Hm as <-.
  revert Hsurge. unfold maxSurge. rewrite Hs. cbn.
  destruct (rs_RollingUpdate strategy) as [[[v|]]|]; cbn; intros Hsurge.
  - destruct (Hsurge v eq_refl) as [->|[-> ?]]; unfold SafeInt32, MaxInt32;
      rewrite decide_False by lia; rewrite !wrap32_id by (rewrite ?wrap32_id; lia); [by left|right; lia].
  - rewrite IntValue_int. unfold SafeInt32, MaxInt32. rewrite decide_False by lia.
    rewrite !wrap32_id by (rewrite ?wrap32_id; lia). by left.
  - rewrite IntValue_int. unfold SafeInt32, MaxInt32. rewrite decide_False by lia.
    rewrite !wrap32_id by (rewrite ?wrap32_id; lia). by left.
Qed.

(** C23: every control plane object that got past the webhooks, by being created and
    then updated any number of times, is one the controller can work with: replicas
    are set and positive, odd while etcd runs on the machines, MaxSurge is 1, or 0
    with at least three replicas; the machine template refers to an infrastructure
    template, has all its timeouts set and none negative, and no reserved taints;
    Multus comes with a network plugin; no file is compressed when the user data is
    Ignition, every private registry has credentials or TLS settings, and no
    additional user data replaces a field the provider writes.  The scaling rules
    hold although an update checks them only when their values change. *)
Theorem admitted_valid (r : RKE2ControlPlane) : admitted r → valid r.
Proof. apply admitted_valid_run. Qed.

(** C24: the webhooks and the rolling update together keep a majority.  For an
    admitted control plane (with room for the surge in an int32) a rolling update
    never has more than one machine above replicas, and whenever it deletes one, the
    machines that stay are still a majority of replicas. *)
Theorem admitted_rollout needRollout results w replicas :
  admitted (cp_RCP (w_cp w)) →
  sp_Replicas (rcp_Spec (cp_RCP (w_cp w))) = Some replicas → (replicas < 2 ^ 31 - 1)%Z →
  let machines := Z.of_nat (size (cp_Machines (w_cp w))) in
  ∃ l, w_calls (upgradeControlPlane needRollout results w).2 = l ++ w_calls w ∧
    (picks change_of l = [] ∨
     picks change_of l = [Created] ∧ (machines + 1 ≤ replicas + 1)%Z ∨
     ∃ name, picks change_of l = [Deleted name] ∧ (replicas / 2 + 1 ≤ machines - 1)%Z).
Proof.
  intros Ha%admitted_valid_run Hr Hb. destruct (va_scaling _ Ha) as (m & Hm & Hpos & _ & _).
  rewrite Hr in Hm. injection Hm as <-.
  destruct (upgrade_one needRollout results w) as (l & Hl & Hp). exists l. split; [done|].
  destruct Hp as [Hp|(x & Hp & n & Hn & Hx)]; [by left|right].
  pose proof (admitted_max_nodes _ _ _ Ha Hr Hb Hn) as Hn'. destruct x as [|name].
  - left. split; [done|]. destruct Hx as [Hx _].
    assert (Z.of_nat (size (cp_Machines (w_cp w))) ≤ replicas)%Z; [|lia]. apply SafeInt32_lt; lia.
  - right. exists name. split; [done|]. destruct Hx as [Hx _].
    pose proof (SafeInt32_le (Z.of_nat (size (cp_Machines (w_cp w)))) ltac:(lia)).
    destruct Hn' as [->|[-> ?]]; Z.to_euclidean_division_equations; lia.
Qed.

Hint Resolve GetWorkloadCluster_no_change InitWorkload_no_change : emits.

(** A rollout strategy without a type is accepted, and nothing is ever rolled out. *)
Lemma untyped_strategy_no_rollout needRollout results w strategy :
  sp_RolloutStrategy (rcp_Spec (cp_RCP (w_cp w))) = Some strategy → rs_Type strategy = "" →
  ∃ l, w_calls (upgradeControlPlane needRollout results w).2 = l ++ w_calls w ∧ picks change_of l = [].
Proof.
  intros Hs Ht. assert (one_pick change_of (λ _, False) (upgradeControlPlane needRollout results) w) as (l & Hl & Hp).
  { unfold upgradeControlPlane. apply one_pick_bind; [auto with emits|]. intros c w0 [= <- <-]. cbn zeta.
    destruct (rcp_initialized _); cbn [negb]; [|apply one_pick_none; auto with emits].
    apply one_pick_bind; [emits_auto|]. intros wl w1 _.
    apply one_pick_bind; [auto with emits|]. intros [] w2 _.
    rewrite Hs, Ht. case_decide as Hx; [discriminate Hx|]. apply one_pick_none. auto with emits. }
  exists l. split; [done|]. by destruct Hp as [Hp|(x & _ & Hf)].
Qed.
End admission_claims.

(** ** Samples *)

#[export] Instance plain_webhook_lib : WebhookLib := {
  feature_MachineTaintPropagation := false;
  NodeUninitializedTaint_Key := "node.cluster.x-k8s.io/uninitialized";
  NodeOutdatedRevisionTaint_Key := "node.cluster.x-k8s.io/outdated-revision";
  IsLabelKey _ := [];
  ToIgn3_3Bytes _ := (0%nat, false, "");
  YamlMap := string; YamlList := string;
  yaml_Unmarshal_map v := if HasPrefix v "{" then Some v else None;
  yaml_Unmarshal_list v := if HasPrefix v "[" then Some v else None;
  yaml_Encode_map v := inr v; yaml_Encode_list v := inr v
}.

Definition demo_admit (r : RKE2ControlPlane) : RKE2ControlPlane :=
  match RKE2ControlPlane_Default r with Ok r' => r' | _ => r end.

Lemma demo_admitted : admitted (demo_admit (demo_rcp 3 true)).
Proof. apply (admitted_create (demo_rcp 3 true)); vm_compute; reflexivity. Qed.

Lemma admitted_valid_witness : valid (demo_admit (demo_rcp 3 true)).
Proof. apply admitted_valid. apply (admitted_create (demo_rcp 3 true)); vm_compute; reflexivity. Defined.

Definition demo_rollout_world : World :=
  demo_world (demo_admit (demo_rcp 3 true)) [demo_machine "m1" "n1"; demo_machine "m2" "n2"; demo_machine "m3" "n3"].

Lemma admitted_rollout_witness :
  ∃ l, w_calls (upgradeControlPlane (EV := demo_env) ∅ ∅ demo_rollout_world).2 =
      l ++ w_calls demo_rollout_world ∧ (length (picks change_of l) ≤ 1)%nat.
Proof.
  destruct (admitted_rollout (EV := demo_env) ∅ ∅ demo_rollout_world 3) as (l & Hl & Hp).
  - apply (admitted_create (demo_rcp 3 true)); vm_compute; reflexivity.
  - vm_compute. reflexivity.
  - lia.
  - exists l. split; [exact Hl|]. destruct Hp as [->|[[-> _]|(name & -> & _)]]; simpl; lia.
Defined.

(** The address of the registration method "address" is checked when the control plane
    is created, and an update can take it away. *)
Definition sp_with_registration (method address : string) (s : RKE2ControlPlaneSpec) : RKE2ControlPlaneSpec :=
  Build_RKE2ControlPlaneSpec (sp_RKE2ConfigSpec s) (sp_Replicas s) (sp_Version s) (sp_MachineTemplate s)
    (sp_ServerConfig s) (sp_ManifestsConfigMapReference s) method address (sp_RolloutStrategy s)
    (sp_RemediationStrategy s).
Definition demo_registered (address : string) : RKE2ControlPlane :=
  Build_RKE2ControlPlane (demo_meta "cp") (sp_with_registration "address" address (demo_spec 3)) (demo_status true).

Lemma registration_address_removed :
  (∀ r, RKE2ControlPlane_ValidateCreate r = Ok tt →
     sp_RegistrationMethod (rcp_Spec r) = RegistrationMethodAddress → sp_RegistrationAddress (rcp_Spec r) ≠ "") ∧
  ∃ r, admitted r ∧ sp_RegistrationMethod (rcp_Spec r) = RegistrationMethodAddress ∧
    sp_RegistrationAddress (rcp_Spec r) = "".
Proof.
  split.
  - intros r Hv%validated_ok Hm. rewrite !app_nil in Hv. destruct Hv as (_ & _ & Hv & _).
    unfold validateRegistrationMethod in Hv. rewrite decide_True in Hv by done. by case_decide.
  - exists (demo_admit (demo_registered "")). split; [|done].
    apply (admitted_update (demo_admit (demo_registered "lb.example.com")) (demo_registered ""));
      [|vm_compute; reflexivity..].
    apply (admitted_create (demo_registered "lb.example.com")); vm_compute; reflexivity.
Qed.

(** Defaulting: the ignored fields go, a mapping is indented, a scalar stays. *)
Example demo_correct :
  CorrectArbitraryData 0 (list_to_map [("runcmd", "x"); ("a", "{b"); ("c", "d")] : gmap string string) =
  (list_to_map [("a", ident +:+ "{b"); ("c", "d")], None).
Proof. vm_compute. reflexivity. Qed.
