(* ===== verification/V1beta1.v ===== *)
(** * The v1beta1 API types

    The Go structs of [bootstrap/api/v1beta1] and [controlplane/api/v1beta1],
    field for field and in the order of the source: the generated conversions
    reinterpret the memory of a struct as that of its v1beta2 peer, so the order
    is part of the contract.  The Kubernetes structs both versions use
    ([corev1.ObjectReference], [metav1.ObjectMeta], [metav1.Condition]) are those
    of Api and Objects. *)

From stdpp Require Import base tactics option list gmap strings numbers.
From S2P Require Import Prelude Go Api Objects.
Open Scope string_scope.
Open Scope list_scope.
Open Scope stdpp_scope.

Module V1beta1.

(** ** Structs with the same fields in both versions *)

Record FileSourceRef := {
  fsr_Name : string; fsr_Namespace : string; fsr_Key : string
}.

Record FileSource := {
  fs_Secret : option FileSourceRef; fs_ConfigMap : option FileSourceRef
}.

Record File := {
  f_Path : string; f_Owner : string; f_Permissions : string; f_Encoding : string;
  f_Content : string; f_ContentFrom : option FileSource
}.

Record Mirror := {
  mi_Endpoint : slice string; mi_Rewrite : strmap
}.

Record TLSConfig := {
  tls_Secret : ObjectReference; tls_InsecureSkipVerify : bool
}.

Record RegistryConfig := {
  rc_AuthSecret : ObjectReference; rc_TLS : TLSConfig
}.

Record Registry := {
  reg_Mirrors : option (gmap string Mirror);
  reg_Configs : option (gmap string RegistryConfig)
}.

Record ComponentConfig := {
  cc_ExtraEnv : strmap; cc_ExtraArgs : slice string; cc_ExtraMounts : strmap;
  cc_OverrideImage : string
}.

Record NTP := {
  ntp_Servers : slice string; ntp_Enabled : option bool
}.

Record AdditionalUserData := {
  aud_Config : string; aud_Data : strmap; aud_Strict : bool
}.

Record RKE2AgentConfig := {
  ac_DataDir : string; ac_NodeLabels : slice string; ac_NodeAnnotations : strmap;
  ac_NodeTaints : slice string; ac_NodeNamePrefix : string; ac_NTP : option NTP;
  ac_ImageCredentialProviderConfigMap : option ObjectReference;
  ac_ContainerRuntimeEndpoint : string; ac_Snapshotter : string; ac_CISProfile : string;
  ac_PodSecurityAdmissionConfigFile : string; ac_ResolvConf : option ObjectReference;
  ac_ResolvConfPath : string; ac_ProtectKernelDefaults : bool;
  ac_SystemDefaultRegistry : string; ac_EnableContainerdSElinux : bool;
  ac_KubeletPath : string; ac_Kubelet : option ComponentConfig;
  ac_KubeProxy : option ComponentConfig; ac_RuntimeImage : string;
  ac_LoadBalancerPort : Z; ac_AirGapped : bool; ac_AirGappedChecksum : string;
  ac_Format : string; ac_AdditionalUserData : AdditionalUserData
}.

Record RKE2ConfigSpec := {
  cs_Files : slice File; cs_PreRKE2Commands : slice string;
  cs_PostRKE2Commands : slice string; cs_AgentConfig : RKE2AgentConfig;
  cs_PrivateRegistriesConfig : Registry; cs_GzipUserData : option bool
}.

Record EtcdS3 := {
  s3_Endpoint : string; s3_EndpointCASecret : option ObjectReference;
  s3_EnforceSSLVerify : bool; s3_CredentialSecret : option ObjectReference;
  s3_Bucket : string; s3_Region : string; s3_Folder : string
}.

Record EtcdBackupConfig := {
  eb_DisableAutomaticSnapshots : option bool; eb_SnapshotName : string;
  eb_ScheduleCron : string; eb_Retention : string; eb_Directory : string;
  eb_S3 : option EtcdS3
}.

Record EtcdConfig := {
  ec_ExposeMetrics : bool; ec_BackupConfig : EtcdBackupConfig;
  ec_CustomConfig : option ComponentConfig
}.

Record SecretsEncryption := {
  se_EncryptionKeySecret : option ObjectReference; se_Provider : string
}.

Record DisableComponents := {
  dc_KubernetesComponents : slice string; dc_PluginComponents : slice string
}.

Record RKE2ServerConfig := {
  sc_AuditPolicySecret : option ObjectReference; sc_BindAddress : string;
  sc_AdvertiseAddress : string; sc_TLSSan : slice string;
  sc_ServiceNodePortRange : string; sc_ClusterDNS : string; sc_ClusterDomain : string;
  sc_DisableComponents : DisableComponents; sc_CNI : string; sc_CNIMultusEnable : bool;
  sc_IngressController : slice string; sc_PauseImage : string; sc_Etcd : EtcdConfig;
  sc_SecretsEncryptionProvider : option SecretsEncryption;
  sc_KubeAPIServer : option ComponentConfig;
  sc_KubeControllerManager : option ComponentConfig;
  sc_KubeScheduler : option ComponentConfig;
  sc_CloudControllerManager : option ComponentConfig; sc_CloudProviderName : string;
  sc_CloudProviderConfigMap : option ObjectReference; sc_SupervisorMetrics : bool;
  sc_EmbeddedRegistry : bool; sc_ExternalDatastoreSecret : option ObjectReference
}.

Record RollingUpdate := {
  ru_MaxSurge : option IntOrString
}.

Record RolloutStrategy := {
  rs_Type : string; rs_RollingUpdate : option RollingUpdate
}.

Record RemediationStrategy := {
  rem_MaxRetry : option Z; rem_RetryPeriod : Duration;
  rem_MinHealthyPeriod : option Duration
}.

Record LastRemediationStatus := {
  lr_Machine : string; lr_Timestamp : Time; lr_RetryCount : Z
}.

(** ** bootstrap/api/v1beta1 *)

(** The condition of Cluster API v1beta1: it has a severity. *)
Record CapiCondition := {
  cond_Type : string; cond_Status : ConditionStatus; cond_Severity : string;
  cond_LastTransitionTime : Time; cond_Reason : string; cond_Message : string
}.

Record RKE2ConfigV1Beta2Status := { c2_Conditions : list Condition }.

Record RKE2ConfigStatus := {
  cst_Ready : bool; cst_DataSecretName : option string; cst_FailureReason : string;
  cst_FailureMessage : string; cst_ObservedGeneration : Z;
  cst_Conditions : list CapiCondition; cst_V1Beta2 : option RKE2ConfigV1Beta2Status
}.

Record RKE2Config := {
  cfg_APIVersion : string; cfg_Kind : string;
  cfg_ObjectMeta : ObjectMeta; cfg_Spec : RKE2ConfigSpec; cfg_Status : RKE2ConfigStatus
}.

Record RKE2ConfigTemplateResource := { ctr_Spec : RKE2ConfigSpec }.
Record RKE2ConfigTemplateSpec := { cts_Template : RKE2ConfigTemplateResource }.
Record RKE2ConfigTemplate := {
  ct_ObjectMeta : ObjectMeta; ct_Spec : RKE2ConfigTemplateSpec
}.

(** ** controlplane/api/v1beta1 *)

(** The [corev1.ObjectReference] of an infrastructure template, with the fields
    the conversion reads or writes. *)
Record InfraReference := {
  ir_APIVersion : string; ir_Kind : string; ir_Namespace : string; ir_Name : string
}.

Record RKE2ControlPlaneMachineTemplate := {
  mtpl_Labels : strmap; mtpl_Annotations : strmap;
  mtpl_InfrastructureRef : InfraReference;
  mtpl_NodeDrainTimeout : option Duration;
  mtpl_NodeVolumeDetachTimeout : option Duration;
  mtpl_NodeDeletionTimeout : option Duration
}.

Record RKE2ControlPlaneSpec := {
  sp_RKE2ConfigSpec : RKE2ConfigSpec; sp_Replicas : option Z; sp_Version : string;
  sp_MachineTemplate : RKE2ControlPlaneMachineTemplate; sp_ServerConfig : RKE2ServerConfig;
  sp_ManifestsConfigMapReference : ObjectReference;
  sp_InfrastructureRef : InfraReference; sp_NodeDrainTimeout : option Duration;
  sp_RegistrationMethod : string; sp_RegistrationAddress : string;
  sp_RolloutStrategy : option RolloutStrategy;
  sp_RemediationStrategy : option RemediationStrategy
}.

Record RKE2ControlPlaneV1Beta2Status := {
  s2_Conditions : list Condition; s2_ReadyReplicas : option Z;
  s2_AvailableReplicas : option Z; s2_UpToDateReplicas : option Z
}.

Record RKE2ControlPlaneStatus := {
  st_Ready : bool; st_Initialized : bool; st_DataSecretName : option string;
  st_FailureReason : string; st_FailureMessage : string; st_ObservedGeneration : Z;
  st_Conditions : list CapiCondition; st_Replicas : Z; st_Version : option string;
  st_ReadyReplicas : Z; st_UpdatedReplicas : Z; st_UnavailableReplicas : Z;
  st_AvailableServerIPs : slice string; st_LastRemediation : option LastRemediationStatus;
  st_V1Beta2 : option RKE2ControlPlaneV1Beta2Status
}.

Record RKE2ControlPlane := {
  rcp_ObjectMeta : ObjectMeta; rcp_Spec : RKE2ControlPlaneSpec;
  rcp_Status : RKE2ControlPlaneStatus
}.

(** The resource's [ObjectMeta] holds labels and annotations only. *)
Record RKE2ControlPlaneTemplateResource := {
  tr_Labels : strmap; tr_Annotations : strmap; tr_Spec : RKE2ControlPlaneSpec
}.
Record RKE2ControlPlaneTemplateSpec := { tsp_Template : RKE2ControlPlaneTemplateResource }.
Record RKE2ControlPlaneTemplate := {
  tpl_ObjectMeta : ObjectMeta; tpl_Spec : RKE2ControlPlaneTemplateSpec;
  tpl_Status : RKE2ControlPlaneStatus
}.

End V1beta1.
