(* ===== verification/Casts.v ===== *)
(** * Conversion of the structs both API versions share

    [zz_generated.conversion.go] of bootstrap/api/v1beta1 and
    controlplane/api/v1beta1, for the structs that have the same fields in both
    versions.  A cast through [unsafe.Pointer] reinterprets the memory of the struct:
    the fields are passed by position, and a pointer, slice or map to a struct that
    is itself reinterpreted is mapped.  [RKE2AgentConfig] and [RKE2ConfigSpec] are
    converted field by field.  None of these conversions can return an error.

    Every conversion is inverted by its peer ([Retract]), in both directions. *)

From stdpp Require Import base tactics option list gmap strings numbers.
From S2P Require Import Prelude Go Api Objects V1beta1.
Open Scope string_scope.
Open Scope list_scope.
Open Scope stdpp_scope.

(** [g] undoes [f]. *)
Class Retract {A B : Type} (g : B → A) (f : A → B) : Prop := retract x : g (f x) = x.

#[export] Instance option_retract {A B} (g : B → A) f :
  Retract g f → Retract (fmap (M := option) g) (fmap (M := option) f).
Proof. intros Hr [x|]; [|done]. cbn. f_equal. apply Hr. Qed.
#[export] Instance list_retract {A B} (g : B → A) f :
  Retract g f → Retract (map g) (map f).
Proof. intros Hr l. induction l as [|x l IH]; [done|]. cbn. by rewrite IH, Hr. Qed.
#[export] Instance gmap_retract {A B} (g : B → A) f :
  Retract g f → Retract (fmap (M := gmap string) g) (fmap (M := gmap string) f).
Proof.
  intros Hr m. apply map_eq. intros k. rewrite !lookup_fmap.
  destruct (m !! k) as [x|]; [|done]. cbn. f_equal. apply Hr.
Qed.

(** A struct is converted back when its fields are. *)
Ltac solve_retract :=
  intros []; lazymatch goal with |- ?g (?f _) = _ => unfold g, f end;
  cbn; f_equal; apply retract.

Definition Convert_v1beta1_FileSourceRef_To_v1beta2_FileSourceRef
    (x : V1beta1.FileSourceRef) : FileSourceRef :=
  let 'V1beta1.Build_FileSourceRef Name Namespace Key := x in
  Build_FileSourceRef Name Namespace Key.

Definition Convert_v1beta2_FileSourceRef_To_v1beta1_FileSourceRef
    (x : FileSourceRef) : V1beta1.FileSourceRef :=
  let 'Build_FileSourceRef Name Namespace Key := x in
  V1beta1.Build_FileSourceRef Name Namespace Key.

Definition Convert_v1beta1_FileSource_To_v1beta2_FileSource
    (x : V1beta1.FileSource) : FileSource :=
  let 'V1beta1.Build_FileSource Secret ConfigMap := x in
  Build_FileSource (Convert_v1beta1_FileSourceRef_To_v1beta2_FileSourceRef <$> Secret)
    (Convert_v1beta1_FileSourceRef_To_v1beta2_FileSourceRef <$> ConfigMap).

Definition Convert_v1beta2_FileSource_To_v1beta1_FileSource
    (x : FileSource) : V1beta1.FileSource :=
  let 'Build_FileSource Secret ConfigMap := x in
  V1beta1.Build_FileSource
    (Convert_v1beta2_FileSourceRef_To_v1beta1_FileSourceRef <$> Secret)
    (Convert_v1beta2_FileSourceRef_To_v1beta1_FileSourceRef <$> ConfigMap).

Definition Convert_v1beta1_File_To_v1beta2_File
    (x : V1beta1.File) : File :=
  let 'V1beta1.Build_File Path Owner Permissions Encoding Content ContentFrom := x in
  Build_File Path Owner Permissions Encoding Content
    (Convert_v1beta1_FileSource_To_v1beta2_FileSource <$> ContentFrom).

Definition Convert_v1beta2_File_To_v1beta1_File
    (x : File) : V1beta1.File :=
  let 'Build_File Path Owner Permissions Encoding Content ContentFrom := x in
  V1beta1.Build_File Path Owner Permissions Encoding Content
    (Convert_v1beta2_FileSource_To_v1beta1_FileSource <$> ContentFrom).

Definition Convert_v1beta1_Mirror_To_v1beta2_Mirror
    (x : V1beta1.Mirror) : Mirror :=
  let 'V1beta1.Build_Mirror Endpoint Rewrite := x in
  Build_Mirror Endpoint Rewrite.

Definition Convert_v1beta2_Mirror_To_v1beta1_Mirror
    (x : Mirror) : V1beta1.Mirror :=
  let 'Build_Mirror Endpoint Rewrite := x in
  V1beta1.Build_Mirror Endpoint Rewrite.

Definition Convert_v1beta1_TLSConfig_To_v1beta2_TLSConfig
    (x : V1beta1.TLSConfig) : TLSConfig :=
  let 'V1beta1.Build_TLSConfig Secret InsecureSkipVerify := x in
  Build_TLSConfig Secret InsecureSkipVerify.

Definition Convert_v1beta2_TLSConfig_To_v1beta1_TLSConfig
    (x : TLSConfig) : V1beta1.TLSConfig :=
  let 'Build_TLSConfig Secret InsecureSkipVerify := x in
  V1beta1.Build_TLSConfig Secret InsecureSkipVerify.

Definition Convert_v1beta1_RegistryConfig_To_v1beta2_RegistryConfig
    (x : V1beta1.RegistryConfig) : RegistryConfig :=
  let 'V1beta1.Build_RegistryConfig AuthSecret TLS := x in
  Build_RegistryConfig AuthSecret (Convert_v1beta1_TLSConfig_To_v1beta2_TLSConfig TLS).

Definition Convert_v1beta2_RegistryConfig_To_v1beta1_RegistryConfig
    (x : RegistryConfig) : V1beta1.RegistryConfig :=
  let 'Build_RegistryConfig AuthSecret TLS := x in
  V1beta1.Build_RegistryConfig AuthSecret
    (Convert_v1beta2_TLSConfig_To_v1beta1_TLSConfig TLS).

Definition Convert_v1beta1_Registry_To_v1beta2_Registry
    (x : V1beta1.Registry) : Registry :=
  let 'V1beta1.Build_Registry Mirrors Configs := x in
  Build_Registry ((fmap (M := gmap string) Convert_v1beta1_Mirror_To_v1beta2_Mirror) <$> Mirrors)
    ((fmap (M := gmap string) Convert_v1beta1_RegistryConfig_To_v1beta2_RegistryConfig) <$> Configs).

Definition Convert_v1beta2_Registry_To_v1beta1_Registry
    (x : Registry) : V1beta1.Registry :=
  let 'Build_Registry Mirrors Configs := x in
  V1beta1.Build_Registry ((fmap (M := gmap string) Convert_v1beta2_Mirror_To_v1beta1_Mirror) <$> Mirrors)
    ((fmap (M := gmap string) Convert_v1beta2_RegistryConfig_To_v1beta1_RegistryConfig) <$> Configs).

Definition Convert_v1beta1_ComponentConfig_To_v1beta2_ComponentConfig
    (x : V1beta1.ComponentConfig) : ComponentConfig :=
  let 'V1beta1.Build_ComponentConfig ExtraEnv ExtraArgs ExtraMounts OverrideImage := x in
  Build_ComponentConfig ExtraEnv ExtraArgs ExtraMounts OverrideImage.

Definition Convert_v1beta2_ComponentConfig_To_v1beta1_ComponentConfig
    (x : ComponentConfig) : V1beta1.ComponentConfig :=
  let 'Build_ComponentConfig ExtraEnv ExtraArgs ExtraMounts OverrideImage := x in
  V1beta1.Build_ComponentConfig ExtraEnv ExtraArgs ExtraMounts OverrideImage.

Definition Convert_v1beta1_NTP_To_v1beta2_NTP
    (x : V1beta1.NTP) : NTP :=
  let 'V1beta1.Build_NTP Servers Enabled := x in
  Build_NTP Servers Enabled.

Definition Convert_v1beta2_NTP_To_v1beta1_NTP
    (x : NTP) : V1beta1.NTP :=
  let 'Build_NTP Servers Enabled := x in
  V1beta1.Build_NTP Servers Enabled.

Definition Convert_v1beta1_AdditionalUserData_To_v1beta2_AdditionalUserData
    (x : V1beta1.AdditionalUserData) : AdditionalUserData :=
  let 'V1beta1.Build_AdditionalUserData Config Data Strict := x in
  Build_AdditionalUserData Config Data Strict.

Definition Convert_v1beta2_AdditionalUserData_To_v1beta1_AdditionalUserData
    (x : AdditionalUserData) : V1beta1.AdditionalUserData :=
  let 'Build_AdditionalUserData Config Data Strict := x in
  V1beta1.Build_AdditionalUserData Config Data Strict.

Definition Convert_v1beta1_RKE2AgentConfig_To_v1beta2_RKE2AgentConfig (x : V1beta1.RKE2AgentConfig) : RKE2AgentConfig :=
  {| ac_DataDir := V1beta1.ac_DataDir x;
     ac_NodeLabels := V1beta1.ac_NodeLabels x;
     ac_NodeAnnotations := V1beta1.ac_NodeAnnotations x;
     ac_NodeTaints := V1beta1.ac_NodeTaints x;
     ac_NodeNamePrefix := V1beta1.ac_NodeNamePrefix x;
     ac_NTP := Convert_v1beta1_NTP_To_v1beta2_NTP <$> V1beta1.ac_NTP x;
     ac_ImageCredentialProviderConfigMap := V1beta1.ac_ImageCredentialProviderConfigMap x;
     ac_ContainerRuntimeEndpoint := V1beta1.ac_ContainerRuntimeEndpoint x;
     ac_Snapshotter := V1beta1.ac_Snapshotter x;
     ac_CISProfile := V1beta1.ac_CISProfile x;
     ac_PodSecurityAdmissionConfigFile := V1beta1.ac_PodSecurityAdmissionConfigFile x;
     ac_ResolvConf := V1beta1.ac_ResolvConf x;
     ac_ResolvConfPath := V1beta1.ac_ResolvConfPath x;
     ac_ProtectKernelDefaults := V1beta1.ac_ProtectKernelDefaults x;
     ac_SystemDefaultRegistry := V1beta1.ac_SystemDefaultRegistry x;
     ac_EnableContainerdSElinux := V1beta1.ac_EnableContainerdSElinux x;
     ac_KubeletPath := V1beta1.ac_KubeletPath x;
     ac_Kubelet := Convert_v1beta1_ComponentConfig_To_v1beta2_ComponentConfig <$> V1beta1.ac_Kubelet x;
     ac_KubeProxy := Convert_v1beta1_ComponentConfig_To_v1beta2_ComponentConfig <$> V1beta1.ac_KubeProxy x;
     ac_RuntimeImage := V1beta1.ac_RuntimeImage x;
     ac_LoadBalancerPort := V1beta1.ac_LoadBalancerPort x;
     ac_AirGapped := V1beta1.ac_AirGapped x;
     ac_AirGappedChecksum := V1beta1.ac_AirGappedChecksum x;
     ac_Format := V1beta1.ac_Format x;
     ac_AdditionalUserData := Convert_v1beta1_AdditionalUserData_To_v1beta2_AdditionalUserData (V1beta1.ac_AdditionalUserData x) |}.

Definition Convert_v1beta2_RKE2AgentConfig_To_v1beta1_RKE2AgentConfig (x : RKE2AgentConfig) : V1beta1.RKE2AgentConfig :=
  {| V1beta1.ac_DataDir := ac_DataDir x;
     V1beta1.ac_NodeLabels := ac_NodeLabels x;
     V1beta1.ac_NodeAnnotations := ac_NodeAnnotations x;
     V1beta1.ac_NodeTaints := ac_NodeTaints x;
     V1beta1.ac_NodeNamePrefix := ac_NodeNamePrefix x;
     V1beta1.ac_NTP := Convert_v1beta2_NTP_To_v1beta1_NTP <$> ac_NTP x;
     V1beta1.ac_ImageCredentialProviderConfigMap := ac_ImageCredentialProviderConfigMap x;
     V1beta1.ac_ContainerRuntimeEndpoint := ac_ContainerRuntimeEndpoint x;
     V1beta1.ac_Snapshotter := ac_Snapshotter x;
     V1beta1.ac_CISProfile := ac_CISProfile x;
     V1beta1.ac_PodSecurityAdmissionConfigFile := ac_PodSecurityAdmissionConfigFile x;
     V1beta1.ac_ResolvConf := ac_ResolvConf x;
     V1beta1.ac_ResolvConfPath := ac_ResolvConfPath x;
     V1beta1.ac_ProtectKernelDefaults := ac_ProtectKernelDefaults x;
     V1beta1.ac_SystemDefaultRegistry := ac_SystemDefaultRegistry x;
     V1beta1.ac_EnableContainerdSElinux := ac_EnableContainerdSElinux x;
     V1beta1.ac_KubeletPath := ac_KubeletPath x;
     V1beta1.ac_Kubelet := Convert_v1beta2_ComponentConfig_To_v1beta1_ComponentConfig <$> ac_Kubelet x;
     V1beta1.ac_KubeProxy := Convert_v1beta2_ComponentConfig_To_v1beta1_ComponentConfig <$> ac_KubeProxy x;
     V1beta1.ac_RuntimeImage := ac_RuntimeImage x;
     V1beta1.ac_LoadBalancerPort := ac_LoadBalancerPort x;
     V1beta1.ac_AirGapped := ac_AirGapped x;
     V1beta1.ac_AirGappedChecksum := ac_AirGappedChecksum x;
     V1beta1.ac_Format := ac_Format x;
     V1beta1.ac_AdditionalUserData := Convert_v1beta2_AdditionalUserData_To_v1beta1_AdditionalUserData (ac_AdditionalUserData x) |}.

Definition Convert_v1beta1_RKE2ConfigSpec_To_v1beta2_RKE2ConfigSpec (x : V1beta1.RKE2ConfigSpec) : RKE2ConfigSpec :=
  {| cs_Files := (map Convert_v1beta1_File_To_v1beta2_File) <$> V1beta1.cs_Files x;
     cs_PreRKE2Commands := V1beta1.cs_PreRKE2Commands x;
     cs_PostRKE2Commands := V1beta1.cs_PostRKE2Commands x;
     cs_AgentConfig := Convert_v1beta1_RKE2AgentConfig_To_v1beta2_RKE2AgentConfig (V1beta1.cs_AgentConfig x);
     cs_PrivateRegistriesConfig := Convert_v1beta1_Registry_To_v1beta2_Registry (V1beta1.cs_PrivateRegistriesConfig x);
     cs_GzipUserData := V1beta1.cs_GzipUserData x |}.

Definition Convert_v1beta2_RKE2ConfigSpec_To_v1beta1_RKE2ConfigSpec (x : RKE2ConfigSpec) : V1beta1.RKE2ConfigSpec :=
  {| V1beta1.cs_Files := (map Convert_v1beta2_File_To_v1beta1_File) <$> cs_Files x;
     V1beta1.cs_PreRKE2Commands := cs_PreRKE2Commands x;
     V1beta1.cs_PostRKE2Commands := cs_PostRKE2Commands x;
     V1beta1.cs_AgentConfig := Convert_v1beta2_RKE2AgentConfig_To_v1beta1_RKE2AgentConfig (cs_AgentConfig x);
     V1beta1.cs_PrivateRegistriesConfig := Convert_v1beta2_Registry_To_v1beta1_Registry (cs_PrivateRegistriesConfig x);
     V1beta1.cs_GzipUserData := cs_GzipUserData x |}.

Definition Convert_v1beta1_EtcdS3_To_v1beta2_EtcdS3
    (x : V1beta1.EtcdS3) : EtcdS3 :=
  let 'V1beta1.Build_EtcdS3 Endpoint EndpointCASecret EnforceSSLVerify CredentialSecret
       Bucket Region Folder := x in
  Build_EtcdS3 Endpoint EndpointCASecret EnforceSSLVerify CredentialSecret Bucket Region
    Folder.

Definition Convert_v1beta2_EtcdS3_To_v1beta1_EtcdS3
    (x : EtcdS3) : V1beta1.EtcdS3 :=
  let 'Build_EtcdS3 Endpoint EndpointCASecret EnforceSSLVerify CredentialSecret Bucket
       Region Folder := x in
  V1beta1.Build_EtcdS3 Endpoint EndpointCASecret EnforceSSLVerify CredentialSecret Bucket
    Region Folder.

Definition Convert_v1beta1_EtcdBackupConfig_To_v1beta2_EtcdBackupConfig
    (x : V1beta1.EtcdBackupConfig) : EtcdBackupConfig :=
  let 'V1beta1.Build_EtcdBackupConfig DisableAutomaticSnapshots SnapshotName ScheduleCron
       Retention Directory S3 := x in
  Build_EtcdBackupConfig DisableAutomaticSnapshots SnapshotName ScheduleCron Retention
    Directory (Convert_v1beta1_EtcdS3_To_v1beta2_EtcdS3 <$> S3).

Definition Convert_v1beta2_EtcdBackupConfig_To_v1beta1_EtcdBackupConfig
    (x : EtcdBackupConfig) : V1beta1.EtcdBackupConfig :=
  let 'Build_EtcdBackupConfig DisableAutomaticSnapshots SnapshotName ScheduleCron Retention
       Directory S3 := x in
  V1beta1.Build_EtcdBackupConfig DisableAutomaticSnapshots SnapshotName ScheduleCron
    Retention Directory (Convert_v1beta2_EtcdS3_To_v1beta1_EtcdS3 <$> S3).

Definition Convert_v1beta1_EtcdConfig_To_v1beta2_EtcdConfig
    (x : V1beta1.EtcdConfig) : EtcdConfig :=
  let 'V1beta1.Build_EtcdConfig ExposeMetrics BackupConfig CustomConfig := x in
  Build_EtcdConfig ExposeMetrics
    (Convert_v1beta1_EtcdBackupConfig_To_v1beta2_EtcdBackupConfig BackupConfig)
    (Convert_v1beta1_ComponentConfig_To_v1beta2_ComponentConfig <$> CustomConfig).

Definition Convert_v1beta2_EtcdConfig_To_v1beta1_EtcdConfig
    (x : EtcdConfig) : V1beta1.EtcdConfig :=
  let 'Build_EtcdConfig ExposeMetrics BackupConfig CustomConfig := x in
  V1beta1.Build_EtcdConfig ExposeMetrics
    (Convert_v1beta2_EtcdBackupConfig_To_v1beta1_EtcdBackupConfig BackupConfig)
    (Convert_v1beta2_ComponentConfig_To_v1beta1_ComponentConfig <$> CustomConfig).

Definition Convert_v1beta1_SecretsEncryption_To_v1beta2_SecretsEncryption
    (x : V1beta1.SecretsEncryption) : SecretsEncryption :=
  let 'V1beta1.Build_SecretsEncryption EncryptionKeySecret Provider := x in
  Build_SecretsEncryption EncryptionKeySecret Provider.

Definition Convert_v1beta2_SecretsEncryption_To_v1beta1_SecretsEncryption
    (x : SecretsEncryption) : V1beta1.SecretsEncryption :=
  let 'Build_SecretsEncryption EncryptionKeySecret Provider := x in
  V1beta1.Build_SecretsEncryption EncryptionKeySecret Provider.

Definition Convert_v1beta1_DisableComponents_To_v1beta2_DisableComponents
    (x : V1beta1.DisableComponents) : DisableComponents :=
  let 'V1beta1.Build_DisableComponents KubernetesComponents PluginComponents := x in
  Build_DisableComponents KubernetesComponents PluginComponents.

Definition Convert_v1beta2_DisableComponents_To_v1beta1_DisableComponents
    (x : DisableComponents) : V1beta1.DisableComponents :=
  let 'Build_DisableComponents KubernetesComponents PluginComponents := x in
  V1beta1.Build_DisableComponents KubernetesComponents PluginComponents.

Definition Convert_v1beta1_RKE2ServerConfig_To_v1beta2_RKE2ServerConfig
    (x : V1beta1.RKE2ServerConfig) : RKE2ServerConfig :=
  let 'V1beta1.Build_RKE2ServerConfig AuditPolicySecret BindAddress AdvertiseAddress TLSSan
       ServiceNodePortRange ClusterDNS ClusterDomain DisableComponents CNI CNIMultusEnable
       IngressController PauseImage Etcd SecretsEncryptionProvider KubeAPIServer
       KubeControllerManager KubeScheduler CloudControllerManager CloudProviderName
       CloudProviderConfigMap SupervisorMetrics EmbeddedRegistry ExternalDatastoreSecret := x in
  Build_RKE2ServerConfig AuditPolicySecret BindAddress AdvertiseAddress TLSSan
    ServiceNodePortRange ClusterDNS ClusterDomain
    (Convert_v1beta1_DisableComponents_To_v1beta2_DisableComponents DisableComponents) CNI
    CNIMultusEnable IngressController PauseImage
    (Convert_v1beta1_EtcdConfig_To_v1beta2_EtcdConfig Etcd)
    (Convert_v1beta1_SecretsEncryption_To_v1beta2_SecretsEncryption <$> SecretsEncryptionProvider)
    (Convert_v1beta1_ComponentConfig_To_v1beta2_ComponentConfig <$> KubeAPIServer)
    (Convert_v1beta1_ComponentConfig_To_v1beta2_ComponentConfig <$> KubeControllerManager)
    (Convert_v1beta1_ComponentConfig_To_v1beta2_ComponentConfig <$> KubeScheduler)
    (Convert_v1beta1_ComponentConfig_To_v1beta2_ComponentConfig <$> CloudControllerManager)
    CloudProviderName CloudProviderConfigMap SupervisorMetrics EmbeddedRegistry
    ExternalDatastoreSecret.

Definition Convert_v1beta2_RKE2ServerConfig_To_v1beta1_RKE2ServerConfig
    (x : RKE2ServerConfig) : V1beta1.RKE2ServerConfig :=
  let 'Build_RKE2ServerConfig AuditPolicySecret BindAddress AdvertiseAddress TLSSan
       ServiceNodePortRange ClusterDNS ClusterDomain DisableComponents CNI CNIMultusEnable
       IngressController PauseImage Etcd SecretsEncryptionProvider KubeAPIServer
       KubeControllerManager KubeScheduler CloudControllerManager CloudProviderName
       CloudProviderConfigMap SupervisorMetrics EmbeddedRegistry ExternalDatastoreSecret := x in
  V1beta1.Build_RKE2ServerConfig AuditPolicySecret BindAddress AdvertiseAddress TLSSan
    ServiceNodePortRange ClusterDNS ClusterDomain
    (Convert_v1beta2_DisableComponents_To_v1beta1_DisableComponents DisableComponents) CNI
    CNIMultusEnable IngressController PauseImage
    (Convert_v1beta2_EtcdConfig_To_v1beta1_EtcdConfig Etcd)
    (Convert_v1beta2_SecretsEncryption_To_v1beta1_SecretsEncryption <$> SecretsEncryptionProvider)
    (Convert_v1beta2_ComponentConfig_To_v1beta1_ComponentConfig <$> KubeAPIServer)
    (Convert_v1beta2_ComponentConfig_To_v1beta1_ComponentConfig <$> KubeControllerManager)
    (Convert_v1beta2_ComponentConfig_To_v1beta1_ComponentConfig <$> KubeScheduler)
    (Convert_v1beta2_ComponentConfig_To_v1beta1_ComponentConfig <$> CloudControllerManager)
    CloudProviderName CloudProviderConfigMap SupervisorMetrics EmbeddedRegistry
    ExternalDatastoreSecret.

Definition Convert_v1beta1_RollingUpdate_To_v1beta2_RollingUpdate
    (x : V1beta1.RollingUpdate) : RollingUpdate :=
  let 'V1beta1.Build_RollingUpdate MaxSurge := x in
  Build_RollingUpdate MaxSurge.

Definition Convert_v1beta2_RollingUpdate_To_v1beta1_RollingUpdate
    (x : RollingUpdate) : V1beta1.RollingUpdate :=
  let 'Build_RollingUpdate MaxSurge := x in
  V1beta1.Build_RollingUpdate MaxSurge.

Definition Convert_v1beta1_RolloutStrategy_To_v1beta2_RolloutStrategy
    (x : V1beta1.RolloutStrategy) : RolloutStrategy :=
  let 'V1beta1.Build_RolloutStrategy type RollingUpdate := x in
  Build_RolloutStrategy type
    (Convert_v1beta1_RollingUpdate_To_v1beta2_RollingUpdate <$> RollingUpdate).

Definition Convert_v1beta2_RolloutStrategy_To_v1beta1_RolloutStrategy
    (x : RolloutStrategy) : V1beta1.RolloutStrategy :=
  let 'Build_RolloutStrategy type RollingUpdate := x in
  V1beta1.Build_RolloutStrategy type
    (Convert_v1beta2_RollingUpdate_To_v1beta1_RollingUpdate <$> RollingUpdate).

Definition Convert_v1beta1_RemediationStrategy_To_v1beta2_RemediationStrategy
    (x : V1beta1.RemediationStrategy) : RemediationStrategy :=
  let 'V1beta1.Build_RemediationStrategy MaxRetry RetryPeriod MinHealthyPeriod := x in
  Build_RemediationStrategy MaxRetry RetryPeriod MinHealthyPeriod.

Definition Convert_v1beta2_RemediationStrategy_To_v1beta1_RemediationStrategy
    (x : RemediationStrategy) : V1beta1.RemediationStrategy :=
  let 'Build_RemediationStrategy MaxRetry RetryPeriod MinHealthyPeriod := x in
  V1beta1.Build_RemediationStrategy MaxRetry RetryPeriod MinHealthyPeriod.

Definition Convert_v1beta1_LastRemediationStatus_To_v1beta2_LastRemediationStatus
    (x : V1beta1.LastRemediationStatus) : LastRemediationStatus :=
  let 'V1beta1.Build_LastRemediationStatus Machine Timestamp RetryCount := x in
  Build_LastRemediationStatus Machine Timestamp RetryCount.

Definition Convert_v1beta2_LastRemediationStatus_To_v1beta1_LastRemediationStatus
    (x : LastRemediationStatus) : V1beta1.LastRemediationStatus :=
  let 'Build_LastRemediationStatus Machine Timestamp RetryCount := x in
  V1beta1.Build_LastRemediationStatus Machine Timestamp RetryCount.

#[export] Instance FileSourceRef_retract :
  Retract Convert_v1beta1_FileSourceRef_To_v1beta2_FileSourceRef
    Convert_v1beta2_FileSourceRef_To_v1beta1_FileSourceRef.
Proof. solve_retract. Qed.
#[export] Instance FileSourceRef_retract' :
  Retract Convert_v1beta2_FileSourceRef_To_v1beta1_FileSourceRef
    Convert_v1beta1_FileSourceRef_To_v1beta2_FileSourceRef.
Proof. solve_retract. Qed.
#[export] Instance FileSource_retract :
  Retract Convert_v1beta1_FileSource_To_v1beta2_FileSource
    Convert_v1beta2_FileSource_To_v1beta1_FileSource.
Proof. solve_retract. Qed.
#[export] Instance FileSource_retract' :
  Retract Convert_v1beta2_FileSource_To_v1beta1_FileSource
    Convert_v1beta1_FileSource_To_v1beta2_FileSource.
Proof. solve_retract. Qed.
#[export] Instance File_retract :
  Retract Convert_v1beta1_File_To_v1beta2_File
    Convert_v1beta2_File_To_v1beta1_File.
Proof. solve_retract. Qed.
#[export] Instance File_retract' :
  Retract Convert_v1beta2_File_To_v1beta1_File
    Convert_v1beta1_File_To_v1beta2_File.
Proof. solve_retract. Qed.
#[export] Instance Mirror_retract :
  Retract Convert_v1beta1_Mirror_To_v1beta2_Mirror
    Convert_v1beta2_Mirror_To_v1beta1_Mirror.
Proof. solve_retract. Qed.
#[export] Instance Mirror_retract' :
  Retract Convert_v1beta2_Mirror_To_v1beta1_Mirror
    Convert_v1beta1_Mirror_To_v1beta2_Mirror.
Proof. solve_retract. Qed.
#[export] Instance TLSConfig_retract :
  Retract Convert_v1beta1_TLSConfig_To_v1beta2_TLSConfig
    Convert_v1beta2_TLSConfig_To_v1beta1_TLSConfig.
Proof. solve_retract. Qed.
#[export] Instance TLSConfig_retract' :
  Retract Convert_v1beta2_TLSConfig_To_v1beta1_TLSConfig
    Convert_v1beta1_TLSConfig_To_v1beta2_TLSConfig.
Proof. solve_retract. Qed.
#[export] Instance RegistryConfig_retract :
  Retract Convert_v1beta1_RegistryConfig_To_v1beta2_RegistryConfig
    Convert_v1beta2_RegistryConfig_To_v1beta1_RegistryConfig.
Proof. solve_retract. Qed.
#[export] Instance RegistryConfig_retract' :
  Retract Convert_v1beta2_RegistryConfig_To_v1beta1_RegistryConfig
    Convert_v1beta1_RegistryConfig_To_v1beta2_RegistryConfig.
Proof. solve_retract. Qed.
#[export] Instance Registry_retract :
  Retract Convert_v1beta1_Registry_To_v1beta2_Registry
    Convert_v1beta2_Registry_To_v1beta1_Registry.
Proof. solve_retract. Qed.
#[export] Instance Registry_retract' :
  Retract Convert_v1beta2_Registry_To_v1beta1_Registry
    Convert_v1beta1_Registry_To_v1beta2_Registry.
Proof. solve_retract. Qed.
#[export] Instance ComponentConfig_retract :
  Retract Convert_v1beta1_ComponentConfig_To_v1beta2_ComponentConfig
    Convert_v1beta2_ComponentConfig_To_v1beta1_ComponentConfig.
Proof. solve_retract. Qed.
#[export] Instance ComponentConfig_retract' :
  Retract Convert_v1beta2_ComponentConfig_To_v1beta1_ComponentConfig
    Convert_v1beta1_ComponentConfig_To_v1beta2_ComponentConfig.
Proof. solve_retract. Qed.
#[export] Instance NTP_retract :
  Retract Convert_v1beta1_NTP_To_v1beta2_NTP
    Convert_v1beta2_NTP_To_v1beta1_NTP.
Proof. solve_retract. Qed.
#[export] Instance NTP_retract' :
  Retract Convert_v1beta2_NTP_To_v1beta1_NTP
    Convert_v1beta1_NTP_To_v1beta2_NTP.
Proof. solve_retract. Qed.
#[export] Instance AdditionalUserData_retract :
  Retract Convert_v1beta1_AdditionalUserData_To_v1beta2_AdditionalUserData
    Convert_v1beta2_AdditionalUserData_To_v1beta1_AdditionalUserData.
Proof. solve_retract. Qed.
#[export] Instance AdditionalUserData_retract' :
  Retract Convert_v1beta2_AdditionalUserData_To_v1beta1_AdditionalUserData
    Convert_v1beta1_AdditionalUserData_To_v1beta2_AdditionalUserData.
Proof. solve_retract. Qed.
#[export] Instance RKE2AgentConfig_retract :
  Retract Convert_v1beta1_RKE2AgentConfig_To_v1beta2_RKE2AgentConfig
    Convert_v1beta2_RKE2AgentConfig_To_v1beta1_RKE2AgentConfig.
Proof. solve_retract. Qed.
#[export] Instance RKE2AgentConfig_retract' :
  Retract Convert_v1beta2_RKE2AgentConfig_To_v1beta1_RKE2AgentConfig
    Convert_v1beta1_RKE2AgentConfig_To_v1beta2_RKE2AgentConfig.
Proof. solve_retract. Qed.
#[export] Instance RKE2ConfigSpec_retract :
  Retract Convert_v1beta1_RKE2ConfigSpec_To_v1beta2_RKE2ConfigSpec
    Convert_v1beta2_RKE2ConfigSpec_To_v1beta1_RKE2ConfigSpec.
Proof. solve_retract. Qed.
#[export] Instance RKE2ConfigSpec_retract' :
  Retract Convert_v1beta2_RKE2ConfigSpec_To_v1beta1_RKE2ConfigSpec
    Convert_v1beta1_RKE2ConfigSpec_To_v1beta2_RKE2ConfigSpec.
Proof. solve_retract. Qed.
#[export] Instance EtcdS3_retract :
  Retract Convert_v1beta1_EtcdS3_To_v1beta2_EtcdS3
    Convert_v1beta2_EtcdS3_To_v1beta1_EtcdS3.
Proof. solve_retract. Qed.
#[export] Instance EtcdS3_retract' :
  Retract Convert_v1beta2_EtcdS3_To_v1beta1_EtcdS3
    Convert_v1beta1_EtcdS3_To_v1beta2_EtcdS3.
Proof. solve_retract. Qed.
#[export] Instance EtcdBackupConfig_retract :
  Retract Convert_v1beta1_EtcdBackupConfig_To_v1beta2_EtcdBackupConfig
    Convert_v1beta2_EtcdBackupConfig_To_v1beta1_EtcdBackupConfig.
Proof. solve_retract. Qed.
#[export] Instance EtcdBackupConfig_retract' :
  Retract Convert_v1beta2_EtcdBackupConfig_To_v1beta1_EtcdBackupConfig
    Convert_v1beta1_EtcdBackupConfig_To_v1beta2_EtcdBackupConfig.
Proof. solve_retract. Qed.
#[export] Instance EtcdConfig_retract :
  Retract Convert_v1beta1_EtcdConfig_To_v1beta2_EtcdConfig
    Convert_v1beta2_EtcdConfig_To_v1beta1_EtcdConfig.
Proof. solve_retract. Qed.
#[export] Instance EtcdConfig_retract' :
  Retract Convert_v1beta2_EtcdConfig_To_v1beta1_EtcdConfig
    Convert_v1beta1_EtcdConfig_To_v1beta2_EtcdConfig.
Proof. solve_retract. Qed.
#[export] Instance SecretsEncryption_retract :
  Retract Convert_v1beta1_SecretsEncryption_To_v1beta2_SecretsEncryption
    Convert_v1beta2_SecretsEncryption_To_v1beta1_SecretsEncryption.
Proof. solve_retract. Qed.
#[export] Instance SecretsEncryption_retract' :
  Retract Convert_v1beta2_SecretsEncryption_To_v1beta1_SecretsEncryption
    Convert_v1beta1_SecretsEncryption_To_v1beta2_SecretsEncryption.
Proof. solve_retract. Qed.
#[export] Instance DisableComponents_retract :
  Retract Convert_v1beta1_DisableComponents_To_v1beta2_DisableComponents
    Convert_v1beta2_DisableComponents_To_v1beta1_DisableComponents.
Proof. solve_retract. Qed.
#[export] Instance DisableComponents_retract' :
  Retract Convert_v1beta2_DisableComponents_To_v1beta1_DisableComponents
    Convert_v1beta1_DisableComponents_To_v1beta2_DisableComponents.
Proof. solve_retract. Qed.
#[export] Instance RKE2ServerConfig_retract :
  Retract Convert_v1beta1_RKE2ServerConfig_To_v1beta2_RKE2ServerConfig
    Convert_v1beta2_RKE2ServerConfig_To_v1beta1_RKE2ServerConfig.
Proof. solve_retract. Qed.
#[export] Instance RKE2ServerConfig_retract' :
  Retract Convert_v1beta2_RKE2ServerConfig_To_v1beta1_RKE2ServerConfig
    Convert_v1beta1_RKE2ServerConfig_To_v1beta2_RKE2ServerConfig.
Proof. solve_retract. Qed.
#[export] Instance RollingUpdate_retract :
  Retract Convert_v1beta1_RollingUpdate_To_v1beta2_RollingUpdate
    Convert_v1beta2_RollingUpdate_To_v1beta1_RollingUpdate.
Proof. solve_retract. Qed.
#[export] Instance RollingUpdate_retract' :
  Retract Convert_v1beta2_RollingUpdate_To_v1beta1_RollingUpdate
    Convert_v1beta1_RollingUpdate_To_v1beta2_RollingUpdate.
Proof. solve_retract. Qed.
#[export] Instance RolloutStrategy_retract :
  Retract Convert_v1beta1_RolloutStrategy_To_v1beta2_RolloutStrategy
    Convert_v1beta2_RolloutStrategy_To_v1beta1_RolloutStrategy.
Proof. solve_retract. Qed.
#[export] Instance RolloutStrategy_retract' :
  Retract Convert_v1beta2_RolloutStrategy_To_v1beta1_RolloutStrategy
    Convert_v1beta1_RolloutStrategy_To_v1beta2_RolloutStrategy.
Proof. solve_retract. Qed.
#[export] Instance RemediationStrategy_retract :
  Retract Convert_v1beta1_RemediationStrategy_To_v1beta2_RemediationStrategy
    Convert_v1beta2_RemediationStrategy_To_v1beta1_RemediationStrategy.
Proof. solve_retract. Qed.
#[export] Instance RemediationStrategy_retract' :
  Retract Convert_v1beta2_RemediationStrategy_To_v1beta1_RemediationStrategy
    Convert_v1beta1_RemediationStrategy_To_v1beta2_RemediationStrategy.
Proof. solve_retract. Qed.
#[export] Instance LastRemediationStatus_retract :
  Retract Convert_v1beta1_LastRemediationStatus_To_v1beta2_LastRemediationStatus
    Convert_v1beta2_LastRemediationStatus_To_v1beta1_LastRemediationStatus.
Proof. solve_retract. Qed.
#[export] Instance LastRemediationStatus_retract' :
  Retract Convert_v1beta2_LastRemediationStatus_To_v1beta1_LastRemediationStatus
    Convert_v1beta1_LastRemediationStatus_To_v1beta2_LastRemediationStatus.
Proof. solve_retract. Qed.
