(* ===== verification/Conversion.v ===== *)
(** * Conversion between the v1beta1 and v1beta2 API versions

    [bootstrap/api/v1beta1/conversion.go], [controlplane/api/v1beta1/conversion.go]
    and the generated functions they complete.  v1beta2 is the hub: the API server
    converts a stored object to the version a client asks for with [ConvertFrom]
    (down) and what a v1beta1 client writes with [ConvertTo] (up).

    A Go conversion assigns the fields of [*out]; the fields it does not assign
    keep what [*out] had.  The definitions take [out] for the structs that have such
    fields.  [out.ObjectMeta = in.ObjectMeta] copies the struct, not the annotations
    map it points to: the two objects share it, so the entry [UnmarshalData] deletes
    from the source's map is gone from the destination too.

    A nil list of conditions and an empty one are the same here: both are omitted
    from JSON.

    The Cluster API and apimachinery functions the code calls are the class
    [ConvLib]; what their documentation says of them is [ConvLaws]. *)

From stdpp Require Import base tactics option list gmap strings numbers.
From S2P Require Import Prelude Go Api Objects V1beta1 Casts Demo.
From Stdlib Require Import Ascii.
Open Scope string_scope.
Open Scope list_scope.
Open Scope stdpp_scope.

(** ** The libraries *)

(** The key of [utilconversion.DataAnnotation]. *)
Definition DataAnnotation : string := "cluster.x-k8s.io/conversion-data".

(** [omitempty] of a slice: an empty slice is not written, and reads back nil. *)
Definition omit_empty {A} (s : slice A) : slice A :=
  match s with Some [] => None | _ => s end.

(** [utilconversion.MarshalData] and [UnmarshalData] for hub objects of type [H]:
    the annotations of the destination after the data is stored; the object found
    in the annotations and the annotations left, or nothing. *)
Class HubData (H : Type) := {
  MarshalData : H → strmap → outcome strmap;
  UnmarshalData : strmap → outcome (option (H * strmap))
}.

Class ConvLib := {
  capi_Convert_v1beta1_Condition_To_v1_Condition : V1beta1.CapiCondition → outcome Condition;
  capi_Convert_v1_Condition_To_v1beta1_Condition : Condition → outcome V1beta1.CapiCondition;
  (* labels and annotations *)
  capi_Convert_v1beta1_ObjectMeta_To_v1beta2_ObjectMeta : strmap * strmap → outcome (strmap * strmap);
  capi_Convert_v1beta2_ObjectMeta_To_v1beta1_ObjectMeta : strmap * strmap → outcome (strmap * strmap);
  ConvertToSeconds : option Duration → option Z;
  ConvertFromSeconds : option Z → option Duration;
  (* the value, whether there is restored data, the restored value, the destination *)
  Convert_bool_To_Pointer_bool : bool → bool → option bool → option bool → option bool;
  Convert_int32_To_Pointer_int32 : Z → outcome (option Z);
  Convert_Pointer_int32_To_int32 : option Z → outcome Z;
  Convert_string_To_Pointer_string : string → outcome (option string);
  Convert_Pointer_string_To_string : option string → outcome string;
  (* group and version *)
  ParseGroupVersion : string → outcome (string * string);
  IsDefined : ContractVersionedObjectReference → bool;
  (* set by SetAPIVersionGetter: the API version served for a group and a kind *)
  apiVersionGetter : string → string → outcome string;
  RCPData :: HubData RKE2ControlPlane;
  RCPTemplateData :: HubData RKE2ControlPlaneTemplate;
  ConfigData :: HubData RKE2Config;
  ConfigTemplateData :: HubData RKE2ConfigTemplate
}.

(** Restored data: [keeps h h'] says what of [h] the object [h'] read back from the
    stored JSON has. *)
Class HubLaws (H : Type) `{HubData H} (keeps : H → H → Prop) : Prop := {
  unmarshal_absent a : map_get a DataAnnotation = None → UnmarshalData (H := H) a = Ok None;
  unmarshal_marshal h a a' : MarshalData h a = Ok a' →
    ∃ h', UnmarshalData a' = Ok (Some (h', Some (delete DataAnnotation (default ∅ a)))) ∧ keeps h h'
}.

Definition machine_taints (t : RKE2ControlPlaneMachineTemplate) : slice MachineTaint :=
  ts_Taints (mtpl_Spec t).
Definition keeps_rcp (h h' : RKE2ControlPlane) : Prop :=
  machine_taints (sp_MachineTemplate (rcp_Spec h')) =
    omit_empty (machine_taints (sp_MachineTemplate (rcp_Spec h))) ∧
  st_ControlPlaneInitialized (rcp_Status h') = st_ControlPlaneInitialized (rcp_Status h).
Definition template_machine (t : RKE2ControlPlaneTemplate) : RKE2ControlPlaneMachineTemplate :=
  trs_MachineTemplate (tr_Spec (tsp_Template (tpl_Spec t))).
Definition keeps_rcpt (h h' : RKE2ControlPlaneTemplate) : Prop :=
  machine_taints (template_machine h') = omit_empty (machine_taints (template_machine h)).
Definition keeps_config (h h' : RKE2Config) : Prop :=
  cst_DataSecretCreated (cfg_Status h') = cst_DataSecretCreated (cfg_Status h).

Class ConvLaws `{ConvLib} : Prop := {
  cond_up_ok c : is_ok (capi_Convert_v1beta1_Condition_To_v1_Condition c) = true;
  cond_down_ok c : is_ok (capi_Convert_v1_Condition_To_v1beta1_Condition c) = true;
  meta_up m : capi_Convert_v1beta1_ObjectMeta_To_v1beta2_ObjectMeta m = Ok m;
  meta_down m : capi_Convert_v1beta2_ObjectMeta_To_v1beta1_ObjectMeta m = Ok m;
  seconds_nil : ConvertToSeconds (ConvertFromSeconds None) = None;
  seconds_some z : (- 2 ^ 31 ≤ z < 2 ^ 31)%Z → ConvertToSeconds (ConvertFromSeconds (Some z)) = Some z;
  bool_true r o b : Convert_bool_To_Pointer_bool true r o b = Some true;
  bool_false o b : Convert_bool_To_Pointer_bool false true o b =
    if decide (o = Some false) then Some false else b;
  int32_up z : Convert_int32_To_Pointer_int32 z = Ok (Some z);
  int32_down o : Convert_Pointer_int32_To_int32 o = Ok (default 0%Z o);
  string_up o : Convert_Pointer_string_To_string o = Ok (default "" o);
  string_down s : Convert_string_To_Pointer_string s = Ok (Some s);
  is_defined r : IsDefined r = bool_decide (r ≠ Build_ContractVersionedObjectReference "" "" "");
  (* the version served for a group belongs to the group, and is not empty *)
  getter_group g k v : apiVersionGetter g k = Ok v →
    v ≠ "" ∧ ∃ ver, ParseGroupVersion v = Ok (g, ver);
  RCPData_laws :: HubLaws RKE2ControlPlane keeps_rcp;
  RCPTemplateData_laws :: HubLaws RKE2ControlPlaneTemplate keeps_rcpt;
  ConfigData_laws :: HubLaws RKE2Config keeps_config;
  ConfigTemplateData_laws :: HubLaws RKE2ConfigTemplate (λ _ _, True)
}.

(** A list object. *)
Record ObjectList (A : Type) := { ol_ResourceVersion : string; ol_Items : slice A }.
Arguments ol_ResourceVersion {A} _.
Arguments ol_Items {A} _.

(** [make([]T, len(items))] and the loop over it, or nil. *)
Definition convert_list {A B} (f : A → outcome B) (l : ObjectList A) : outcome (ObjectList B) :=
  match ol_Items l with
  | None => Ok (Build_ObjectList B (ol_ResourceVersion l) None)
  | Some items =>
      items' ← mapM f items;
      Ok (Build_ObjectList B (ol_ResourceVersion l) (Some items'))
  end.

(** ** Zero values

    The structs a conversion writes to are fresh. *)

Definition zero_ref : ObjectReference := Build_ObjectReference "" "" "".
Definition zero_cvref : ContractVersionedObjectReference :=
  Build_ContractVersionedObjectReference "" "" "".
Definition zero_infra : V1beta1.InfraReference := V1beta1.Build_InfraReference "" "" "" "".

Definition zero_config_spec : RKE2ConfigSpec :=
  Build_RKE2ConfigSpec None None None
    (Build_RKE2AgentConfig "" None None None "" None None "" "" "" "" None "" false "" false ""
       None None "" 0%Z false "" "" (Build_AdditionalUserData "" None false))
    (Build_Registry None None) None.
Definition zero_server_config : RKE2ServerConfig :=
  Build_RKE2ServerConfig None "" "" None "" "" "" (Build_DisableComponents None None) "" false
    None "" (Build_EtcdConfig false (Build_EtcdBackupConfig None "" "" "" "" None) None) None
    None None None None "" None false false None.
Definition zero_machine_template : RKE2ControlPlaneMachineTemplate :=
  Build_RKE2ControlPlaneMachineTemplate None None
    (Build_RKE2ControlPlaneMachineTemplateSpec zero_cvref
       (Build_RKE2ControlPlaneMachineTemplateDeletionSpec None None None) None).

Definition zero_RKE2Config : RKE2Config :=
  Build_RKE2Config "" "" om_empty zero_config_spec (Build_RKE2ConfigStatus [] None None 0%Z).
Definition zero_RKE2ControlPlane : RKE2ControlPlane :=
  Build_RKE2ControlPlane om_empty
    (Build_RKE2ControlPlaneSpec zero_config_spec None "" zero_machine_template zero_server_config
       zero_ref "" "" None None)
    (Build_RKE2ControlPlaneStatus [] None 0%Z None "" None None None None None).
Definition zero_RKE2ControlPlaneTemplate : RKE2ControlPlaneTemplate :=
  Build_RKE2ControlPlaneTemplate om_empty
    (Build_RKE2ControlPlaneTemplateSpec (Build_RKE2ControlPlaneTemplateResource None None
       (Build_RKE2ControlPlaneTemplateResourceSpec zero_config_spec zero_machine_template
          zero_server_config zero_ref "" "" None None))).

Definition zero_v1_spec : V1beta1.RKE2ControlPlaneSpec :=
  V1beta1.Build_RKE2ControlPlaneSpec
    (Convert_v1beta2_RKE2ConfigSpec_To_v1beta1_RKE2ConfigSpec zero_config_spec) None ""
    (V1beta1.Build_RKE2ControlPlaneMachineTemplate None None zero_infra None None None)
    (Convert_v1beta2_RKE2ServerConfig_To_v1beta1_RKE2ServerConfig zero_server_config)
    zero_ref zero_infra None "" "" None None.
Definition zero_v1_status : V1beta1.RKE2ControlPlaneStatus :=
  V1beta1.Build_RKE2ControlPlaneStatus false false None "" "" 0%Z [] 0%Z None 0%Z 0%Z 0%Z
    None None None.
Definition zero_v1_RKE2Config : V1beta1.RKE2Config :=
  V1beta1.Build_RKE2Config "" "" om_empty
    (Convert_v1beta2_RKE2ConfigSpec_To_v1beta1_RKE2ConfigSpec zero_config_spec)
    (V1beta1.Build_RKE2ConfigStatus false None "" "" 0%Z [] None).
Definition zero_v1_RKE2ControlPlane : V1beta1.RKE2ControlPlane :=
  V1beta1.Build_RKE2ControlPlane om_empty zero_v1_spec zero_v1_status.
Definition zero_v1_RKE2ControlPlaneTemplate : V1beta1.RKE2ControlPlaneTemplate :=
  V1beta1.Build_RKE2ControlPlaneTemplate om_empty
    (V1beta1.Build_RKE2ControlPlaneTemplateSpec
       (V1beta1.Build_RKE2ControlPlaneTemplateResource None None zero_v1_spec)) zero_v1_status.

Section conversion.
Context `{ConvLib}.

(** ** bootstrap/api/v1beta1 *)

(** The wrappers that let the generator find the library's functions. *)
Definition Convert_v1beta1_Condition_To_v1_Condition := capi_Convert_v1beta1_Condition_To_v1_Condition.
Definition Convert_v1_Condition_To_v1beta1_Condition := capi_Convert_v1_Condition_To_v1beta1_Condition.

Definition autoConvert_v1beta1_RKE2ConfigStatus_To_v1beta2_RKE2ConfigStatus
    (x : V1beta1.RKE2ConfigStatus) (out : RKE2ConfigStatus) : outcome RKE2ConfigStatus :=
  conditions ← mapM Convert_v1beta1_Condition_To_v1_Condition (V1beta1.cst_Conditions x);
  Ok {| cst_Conditions := conditions;
        cst_DataSecretCreated := cst_DataSecretCreated out;
        cst_DataSecretName := V1beta1.cst_DataSecretName x;
        cst_ObservedGeneration := V1beta1.cst_ObservedGeneration x |}.

Definition Convert_v1beta1_RKE2ConfigStatus_To_v1beta2_RKE2ConfigStatus
    (x : V1beta1.RKE2ConfigStatus) (out : RKE2ConfigStatus) : outcome RKE2ConfigStatus :=
  out ← autoConvert_v1beta1_RKE2ConfigStatus_To_v1beta2_RKE2ConfigStatus x out;
  Ok {| cst_Conditions := match V1beta1.cst_V1Beta2 x with
                          | Some v => V1beta1.c2_Conditions v
                          | None => []
                          end;
        cst_DataSecretCreated := cst_DataSecretCreated out;
        cst_DataSecretName := cst_DataSecretName out;
        cst_ObservedGeneration := cst_ObservedGeneration out |}.

Definition autoConvert_v1beta2_RKE2ConfigStatus_To_v1beta1_RKE2ConfigStatus
    (x : RKE2ConfigStatus) (out : V1beta1.RKE2ConfigStatus) : outcome V1beta1.RKE2ConfigStatus :=
  conditions ← mapM Convert_v1_Condition_To_v1beta1_Condition (cst_Conditions x);
  Ok {| V1beta1.cst_Ready := V1beta1.cst_Ready out;
        V1beta1.cst_DataSecretName := cst_DataSecretName x;
        V1beta1.cst_FailureReason := V1beta1.cst_FailureReason out;
        V1beta1.cst_FailureMessage := V1beta1.cst_FailureMessage out;
        V1beta1.cst_ObservedGeneration := cst_ObservedGeneration x;
        V1beta1.cst_Conditions := conditions;
        V1beta1.cst_V1Beta2 := V1beta1.cst_V1Beta2 out |}.

Definition Convert_v1beta2_RKE2ConfigStatus_To_v1beta1_RKE2ConfigStatus
    (x : RKE2ConfigStatus) (out : V1beta1.RKE2ConfigStatus) : outcome V1beta1.RKE2ConfigStatus :=
  out ← autoConvert_v1beta2_RKE2ConfigStatus_To_v1beta1_RKE2ConfigStatus x out;
  Ok {| V1beta1.cst_Ready := default false (cst_DataSecretCreated x);
        V1beta1.cst_DataSecretName := V1beta1.cst_DataSecretName out;
        V1beta1.cst_FailureReason := V1beta1.cst_FailureReason out;
        V1beta1.cst_FailureMessage := V1beta1.cst_FailureMessage out;
        V1beta1.cst_ObservedGeneration := V1beta1.cst_ObservedGeneration out;
        V1beta1.cst_Conditions := [];
        V1beta1.cst_V1Beta2 :=
          if decide (cst_Conditions x = []) then V1beta1.cst_V1Beta2 out
          else Some {| V1beta1.c2_Conditions := cst_Conditions x |} |}.

Definition Convert_v1beta1_RKE2Config_To_v1beta2_RKE2Config
    (x : V1beta1.RKE2Config) (out : RKE2Config) : outcome RKE2Config :=
  status ← Convert_v1beta1_RKE2ConfigStatus_To_v1beta2_RKE2ConfigStatus
    (V1beta1.cfg_Status x) (cfg_Status out);
  Ok {| cfg_APIVersion := cfg_APIVersion out; cfg_Kind := cfg_Kind out;
        cfg_ObjectMeta := V1beta1.cfg_ObjectMeta x;
        cfg_Spec := Convert_v1beta1_RKE2ConfigSpec_To_v1beta2_RKE2ConfigSpec (V1beta1.cfg_Spec x);
        cfg_Status := status |}.

Definition Convert_v1beta2_RKE2Config_To_v1beta1_RKE2Config
    (x : RKE2Config) (out : V1beta1.RKE2Config) : outcome V1beta1.RKE2Config :=
  status ← Convert_v1beta2_RKE2ConfigStatus_To_v1beta1_RKE2ConfigStatus
    (cfg_Status x) (V1beta1.cfg_Status out);
  Ok {| V1beta1.cfg_APIVersion := V1beta1.cfg_APIVersion out;
        V1beta1.cfg_Kind := V1beta1.cfg_Kind out;
        V1beta1.cfg_ObjectMeta := cfg_ObjectMeta x;
        V1beta1.cfg_Spec := Convert_v1beta2_RKE2ConfigSpec_To_v1beta1_RKE2ConfigSpec (cfg_Spec x);
        V1beta1.cfg_Status := status |}.

Definition cst_with_created (b : option bool) (s : RKE2ConfigStatus) : RKE2ConfigStatus :=
  Build_RKE2ConfigStatus (cst_Conditions s) b (cst_DataSecretName s) (cst_ObservedGeneration s).
Definition cfg_with (o : ObjectMeta) (s : RKE2ConfigStatus) (c : RKE2Config) : RKE2Config :=
  Build_RKE2Config (cfg_APIVersion c) (cfg_Kind c) o (cfg_Spec c) s.

(** The [ok] passed to [Convert_bool_To_Pointer_bool] is the one of the type
    assertion, true there: the one of [UnmarshalData] is out of scope. *)
Definition RKE2Config_ConvertTo (src : V1beta1.RKE2Config) (dst : RKE2Config) : outcome RKE2Config :=
  dst ← Convert_v1beta1_RKE2Config_To_v1beta2_RKE2Config src dst;
  found ← UnmarshalData (H := RKE2Config) (om_Annotations (V1beta1.cfg_ObjectMeta src));
  match found with
  | None => Ok dst
  | Some (restored, annotations) =>
      let initialization := Convert_bool_To_Pointer_bool (V1beta1.cst_Ready (V1beta1.cfg_Status src))
        true (cst_DataSecretCreated (cfg_Status restored)) None in
      let status := cfg_Status dst in
      Ok (cfg_with (om_with_annotations annotations (cfg_ObjectMeta dst))
            (if decide (initialization = None) then status
             else cst_with_created initialization status) dst)
  end.

Definition RKE2Config_ConvertFrom (src : RKE2Config) (dst : V1beta1.RKE2Config) :
    outcome V1beta1.RKE2Config :=
  dst ← Convert_v1beta2_RKE2Config_To_v1beta1_RKE2Config src dst;
  annotations ← MarshalData src (om_Annotations (V1beta1.cfg_ObjectMeta dst));
  Ok (V1beta1.Build_RKE2Config (V1beta1.cfg_APIVersion dst) (V1beta1.cfg_Kind dst)
        (om_with_annotations annotations (V1beta1.cfg_ObjectMeta dst))
        (V1beta1.cfg_Spec dst) (V1beta1.cfg_Status dst)).

Definition Convert_v1beta1_RKE2ConfigTemplateResource_To_v1beta2_RKE2ConfigTemplateResource
    (x : V1beta1.RKE2ConfigTemplateResource) : RKE2ConfigTemplateResource :=
  {| ctr_Spec := Convert_v1beta1_RKE2ConfigSpec_To_v1beta2_RKE2ConfigSpec (V1beta1.ctr_Spec x) |}.
Definition Convert_v1beta2_RKE2ConfigTemplateResource_To_v1beta1_RKE2ConfigTemplateResource
    (x : RKE2ConfigTemplateResource) : V1beta1.RKE2ConfigTemplateResource :=
  {| V1beta1.ctr_Spec := Convert_v1beta2_RKE2ConfigSpec_To_v1beta1_RKE2ConfigSpec (ctr_Spec x) |}.
Definition Convert_v1beta1_RKE2ConfigTemplateSpec_To_v1beta2_RKE2ConfigTemplateSpec
    (x : V1beta1.RKE2ConfigTemplateSpec) : RKE2ConfigTemplateSpec :=
  {| cts_Template := Convert_v1beta1_RKE2ConfigTemplateResource_To_v1beta2_RKE2ConfigTemplateResource
       (V1beta1.cts_Template x) |}.
Definition Convert_v1beta2_RKE2ConfigTemplateSpec_To_v1beta1_RKE2ConfigTemplateSpec
    (x : RKE2ConfigTemplateSpec) : V1beta1.RKE2ConfigTemplateSpec :=
  {| V1beta1.cts_Template := Convert_v1beta2_RKE2ConfigTemplateResource_To_v1beta1_RKE2ConfigTemplateResource
       (cts_Template x) |}.
Definition Convert_v1beta1_RKE2ConfigTemplate_To_v1beta2_RKE2ConfigTemplate
    (x : V1beta1.RKE2ConfigTemplate) : RKE2ConfigTemplate :=
  {| ct_ObjectMeta := V1beta1.ct_ObjectMeta x;
     ct_Spec := Convert_v1beta1_RKE2ConfigTemplateSpec_To_v1beta2_RKE2ConfigTemplateSpec
       (V1beta1.ct_Spec x) |}.
Definition Convert_v1beta2_RKE2ConfigTemplate_To_v1beta1_RKE2ConfigTemplate
    (x : RKE2ConfigTemplate) : V1beta1.RKE2ConfigTemplate :=
  {| V1beta1.ct_ObjectMeta := ct_ObjectMeta x;
     V1beta1.ct_Spec := Convert_v1beta2_RKE2ConfigTemplateSpec_To_v1beta1_RKE2ConfigTemplateSpec
       (ct_Spec x) |}.

(** The restored template is read, and only its annotation is used: it is gone. *)
Definition RKE2ConfigTemplate_ConvertTo (src : V1beta1.RKE2ConfigTemplate) :
    outcome RKE2ConfigTemplate :=
  let dst := Convert_v1beta1_RKE2ConfigTemplate_To_v1beta2_RKE2ConfigTemplate src in
  found ← UnmarshalData (H := RKE2ConfigTemplate) (om_Annotations (V1beta1.ct_ObjectMeta src));
  match found with
  | None => Ok dst
  | Some (_, annotations) =>
      Ok (Build_RKE2ConfigTemplate (om_with_annotations annotations (ct_ObjectMeta dst)) (ct_Spec dst))
  end.

Definition RKE2ConfigTemplate_ConvertFrom (src : RKE2ConfigTemplate) :
    outcome V1beta1.RKE2ConfigTemplate :=
  let dst := Convert_v1beta2_RKE2ConfigTemplate_To_v1beta1_RKE2ConfigTemplate src in
  annotations ← MarshalData src (om_Annotations (V1beta1.ct_ObjectMeta dst));
  Ok (V1beta1.Build_RKE2ConfigTemplate (om_with_annotations annotations (V1beta1.ct_ObjectMeta dst))
        (V1beta1.ct_Spec dst)).

(** ** controlplane/api/v1beta1 *)

Definition convertToContractVersionedObjectReference (ref : V1beta1.InfraReference) :
    outcome ContractVersionedObjectReference :=
  apiGroup ← (if decide (V1beta1.ir_APIVersion ref = "") then Ok ""
              else match ParseGroupVersion (V1beta1.ir_APIVersion ref) with
                   | Ok (group, _) => Ok group
                   | Err _ => Err (EText "failed to convert object: failed to parse apiVersion")
                   | Panic p => Panic p
                   end);
  Ok {| cv_APIGroup := apiGroup; cv_Kind := V1beta1.ir_Kind ref; cv_Name := V1beta1.ir_Name ref |}.

Definition convertToObjectReference (ref : ContractVersionedObjectReference) (namespace : string) :
    outcome V1beta1.InfraReference :=
  match apiVersionGetter (cv_APIGroup ref) (cv_Kind ref) with
  | Ok apiVersion =>
      Ok {| V1beta1.ir_APIVersion := apiVersion; V1beta1.ir_Kind := cv_Kind ref;
            V1beta1.ir_Namespace := namespace; V1beta1.ir_Name := cv_Name ref |}
  | Err _ => Err (EText "failed to convert object")
  | Panic p => Panic p
  end.

Definition autoConvert_v1beta1_RKE2ControlPlaneStatus_To_v1beta2_RKE2ControlPlaneStatus
    (x : V1beta1.RKE2ControlPlaneStatus) (out : RKE2ControlPlaneStatus) :
    outcome RKE2ControlPlaneStatus :=
  conditions ← mapM Convert_v1beta1_Condition_To_v1_Condition (V1beta1.st_Conditions x);
  replicas ← Convert_int32_To_Pointer_int32 (V1beta1.st_Replicas x);
  version ← Convert_Pointer_string_To_string (V1beta1.st_Version x);
  ready ← Convert_int32_To_Pointer_int32 (V1beta1.st_ReadyReplicas x);
  Ok {| st_Conditions := conditions;
        st_ControlPlaneInitialized := st_ControlPlaneInitialized out;
        st_ObservedGeneration := V1beta1.st_ObservedGeneration x;
        st_Replicas := replicas; st_Version := version; st_ReadyReplicas := ready;
        st_AvailableReplicas := st_AvailableReplicas out;
        st_UpToDateReplicas := st_UpToDateReplicas out;
        st_AvailableServerIPs := V1beta1.st_AvailableServerIPs x;
        st_LastRemediation :=
          Convert_v1beta1_LastRemediationStatus_To_v1beta2_LastRemediationStatus <$>
            V1beta1.st_LastRemediation x |}.

Definition Convert_v1beta1_RKE2ControlPlaneStatus_To_v1beta2_RKE2ControlPlaneStatus
    (x : V1beta1.RKE2ControlPlaneStatus) (out : RKE2ControlPlaneStatus) :
    outcome RKE2ControlPlaneStatus :=
  out ← autoConvert_v1beta1_RKE2ControlPlaneStatus_To_v1beta2_RKE2ControlPlaneStatus x out;
  let v2 := V1beta1.st_V1Beta2 x in
  Ok {| st_Conditions := match v2 with Some v => V1beta1.s2_Conditions v | None => [] end;
        st_ControlPlaneInitialized := st_ControlPlaneInitialized out;
        st_ObservedGeneration := st_ObservedGeneration out;
        st_Replicas := st_Replicas out; st_Version := st_Version out;
        st_ReadyReplicas := match v2 with Some v => V1beta1.s2_ReadyReplicas v | None => None end;
        st_AvailableReplicas :=
          match v2 with Some v => V1beta1.s2_AvailableReplicas v
                      | None => st_AvailableReplicas out end;
        st_UpToDateReplicas :=
          match v2 with Some v => V1beta1.s2_UpToDateReplicas v
                      | None => st_UpToDateReplicas out end;
        st_AvailableServerIPs := st_AvailableServerIPs out;
        st_LastRemediation := st_LastRemediation out |}.

Definition autoConvert_v1beta2_RKE2ControlPlaneStatus_To_v1beta1_RKE2ControlPlaneStatus
    (x : RKE2ControlPlaneStatus) (out : V1beta1.RKE2ControlPlaneStatus) :
    outcome V1beta1.RKE2ControlPlaneStatus :=
  conditions ← mapM Convert_v1_Condition_To_v1beta1_Condition (st_Conditions x);
  replicas ← Convert_Pointer_int32_To_int32 (st_Replicas x);
  version ← Convert_string_To_Pointer_string (st_Version x);
  ready ← Convert_Pointer_int32_To_int32 (st_ReadyReplicas x);
  Ok {| V1beta1.st_Ready := V1beta1.st_Ready out;
        V1beta1.st_Initialized := V1beta1.st_Initialized out;
        V1beta1.st_DataSecretName := V1beta1.st_DataSecretName out;
        V1beta1.st_FailureReason := V1beta1.st_FailureReason out;
        V1beta1.st_FailureMessage := V1beta1.st_FailureMessage out;
        V1beta1.st_ObservedGeneration := st_ObservedGeneration x;
        V1beta1.st_Conditions := conditions;
        V1beta1.st_Replicas := replicas; V1beta1.st_Version := version;
        V1beta1.st_ReadyReplicas := ready;
        V1beta1.st_UpdatedReplicas := V1beta1.st_UpdatedReplicas out;
        V1beta1.st_UnavailableReplicas := V1beta1.st_UnavailableReplicas out;
        V1beta1.st_AvailableServerIPs := st_AvailableServerIPs x;
        V1beta1.st_LastRemediation :=
          Convert_v1beta2_LastRemediationStatus_To_v1beta1_LastRemediationStatus <$>
            st_LastRemediation x;
        V1beta1.st_V1Beta2 := V1beta1.st_V1Beta2 out |}.

(** [Ready] is computed from the replica counter that was just reset. *)
Definition Convert_v1beta2_RKE2ControlPlaneStatus_To_v1beta1_RKE2ControlPlaneStatus
    (x : RKE2ControlPlaneStatus) (out : V1beta1.RKE2ControlPlaneStatus) :
    outcome V1beta1.RKE2ControlPlaneStatus :=
  out ← autoConvert_v1beta2_RKE2ControlPlaneStatus_To_v1beta1_RKE2ControlPlaneStatus x out;
  let ready_replicas := 0%Z in
  Ok {| V1beta1.st_Ready := bool_decide (ready_replicas > 0)%Z;
        V1beta1.st_Initialized := default false (st_ControlPlaneInitialized x);
        V1beta1.st_DataSecretName := V1beta1.st_DataSecretName out;
        V1beta1.st_FailureReason := V1beta1.st_FailureReason out;
        V1beta1.st_FailureMessage := V1beta1.st_FailureMessage out;
        V1beta1.st_ObservedGeneration := V1beta1.st_ObservedGeneration out;
        V1beta1.st_Conditions := [];
        V1beta1.st_Replicas := V1beta1.st_Replicas out;
        V1beta1.st_Version := V1beta1.st_Version out;
        V1beta1.st_ReadyReplicas := ready_replicas;
        V1beta1.st_UpdatedReplicas := V1beta1.st_UpdatedReplicas out;
        V1beta1.st_UnavailableReplicas := V1beta1.st_UnavailableReplicas out;
        V1beta1.st_AvailableServerIPs := V1beta1.st_AvailableServerIPs out;
        V1beta1.st_LastRemediation := V1beta1.st_LastRemediation out;
        V1beta1.st_V1Beta2 :=
          if decide (st_Conditions x = [] ∧ st_ReadyReplicas x = None ∧
                     st_AvailableReplicas x = None ∧ st_UpToDateReplicas x = None)
          then V1beta1.st_V1Beta2 out
          else Some {| V1beta1.s2_Conditions := st_Conditions x;
                       V1beta1.s2_ReadyReplicas := st_ReadyReplicas x;
                       V1beta1.s2_AvailableReplicas := st_AvailableReplicas x;
                       V1beta1.s2_UpToDateReplicas := st_UpToDateReplicas x |} |}.

(** The wrappers of the metadata conversions. *)
Definition Convert_v1beta1_ObjectMeta_To_v1beta2_ObjectMeta :=
  capi_Convert_v1beta1_ObjectMeta_To_v1beta2_ObjectMeta.
Definition Convert_v1beta2_ObjectMeta_To_v1beta1_ObjectMeta :=
  capi_Convert_v1beta2_ObjectMeta_To_v1beta1_ObjectMeta.

(** [autoConvert] of the machine template assigns the metadata only. *)
Definition Convert_v1beta1_RKE2ControlPlaneMachineTemplate_To_v1beta2_RKE2ControlPlaneMachineTemplate
    (x : V1beta1.RKE2ControlPlaneMachineTemplate) (out : RKE2ControlPlaneMachineTemplate) :
    outcome RKE2ControlPlaneMachineTemplate :=
  meta ← Convert_v1beta1_ObjectMeta_To_v1beta2_ObjectMeta
    (V1beta1.mtpl_Labels x, V1beta1.mtpl_Annotations x);
  infraRef ← convertToContractVersionedObjectReference (V1beta1.mtpl_InfrastructureRef x);
  Ok {| mtpl_Labels := meta.1; mtpl_Annotations := meta.2;
        mtpl_Spec :=
          {| ts_InfrastructureRef := infraRef;
             ts_Deletion :=
               {| td_NodeDrainTimeoutSeconds := ConvertToSeconds (V1beta1.mtpl_NodeDrainTimeout x);
                  td_NodeVolumeDetachTimeoutSeconds :=
                    ConvertToSeconds (V1beta1.mtpl_NodeVolumeDetachTimeout x);
                  td_NodeDeletionTimeoutSeconds :=
                    ConvertToSeconds (V1beta1.mtpl_NodeDeletionTimeout x) |};
             ts_Taints := ts_Taints (mtpl_Spec out) |} |}.

Definition Convert_v1beta2_RKE2ControlPlaneMachineTemplate_To_v1beta1_RKE2ControlPlaneMachineTemplate
    (x : RKE2ControlPlaneMachineTemplate) (out : V1beta1.RKE2ControlPlaneMachineTemplate) :
    outcome V1beta1.RKE2ControlPlaneMachineTemplate :=
  meta ← Convert_v1beta2_ObjectMeta_To_v1beta1_ObjectMeta (mtpl_Labels x, mtpl_Annotations x);
  let deletion := ts_Deletion (mtpl_Spec x) in
  Ok {| V1beta1.mtpl_Labels := meta.1; V1beta1.mtpl_Annotations := meta.2;
        V1beta1.mtpl_InfrastructureRef := V1beta1.mtpl_InfrastructureRef out;
        V1beta1.mtpl_NodeDrainTimeout := ConvertFromSeconds (td_NodeDrainTimeoutSeconds deletion);
        V1beta1.mtpl_NodeVolumeDetachTimeout :=
          ConvertFromSeconds (td_NodeVolumeDetachTimeoutSeconds deletion);
        V1beta1.mtpl_NodeDeletionTimeout :=
          ConvertFromSeconds (td_NodeDeletionTimeoutSeconds deletion) |}.

Definition Convert_v1beta1_RKE2ControlPlaneSpec_To_v1beta2_RKE2ControlPlaneSpec
    (x : V1beta1.RKE2ControlPlaneSpec) (out : RKE2ControlPlaneSpec) : outcome RKE2ControlPlaneSpec :=
  template ←
    Convert_v1beta1_RKE2ControlPlaneMachineTemplate_To_v1beta2_RKE2ControlPlaneMachineTemplate
      (V1beta1.sp_MachineTemplate x) (sp_MachineTemplate out);
  Ok {| sp_RKE2ConfigSpec :=
          Convert_v1beta1_RKE2ConfigSpec_To_v1beta2_RKE2ConfigSpec (V1beta1.sp_RKE2ConfigSpec x);
        sp_Replicas := V1beta1.sp_Replicas x;
        sp_Version := V1beta1.sp_Version x;
        sp_MachineTemplate := template;
        sp_ServerConfig :=
          Convert_v1beta1_RKE2ServerConfig_To_v1beta2_RKE2ServerConfig (V1beta1.sp_ServerConfig x);
        sp_ManifestsConfigMapReference := V1beta1.sp_ManifestsConfigMapReference x;
        sp_RegistrationMethod := V1beta1.sp_RegistrationMethod x;
        sp_RegistrationAddress := V1beta1.sp_RegistrationAddress x;
        sp_RolloutStrategy :=
          Convert_v1beta1_RolloutStrategy_To_v1beta2_RolloutStrategy <$> V1beta1.sp_RolloutStrategy x;
        sp_RemediationStrategy :=
          Convert_v1beta1_RemediationStrategy_To_v1beta2_RemediationStrategy <$>
            V1beta1.sp_RemediationStrategy x |}.

Definition Convert_v1beta2_RKE2ControlPlaneSpec_To_v1beta1_RKE2ControlPlaneSpec
    (x : RKE2ControlPlaneSpec) (out : V1beta1.RKE2ControlPlaneSpec) :
    outcome V1beta1.RKE2ControlPlaneSpec :=
  template ←
    Convert_v1beta2_RKE2ControlPlaneMachineTemplate_To_v1beta1_RKE2ControlPlaneMachineTemplate
      (sp_MachineTemplate x) (V1beta1.sp_MachineTemplate out);
  Ok {| V1beta1.sp_RKE2ConfigSpec :=
          Convert_v1beta2_RKE2ConfigSpec_To_v1beta1_RKE2ConfigSpec (sp_RKE2ConfigSpec x);
        V1beta1.sp_Replicas := sp_Replicas x;
        V1beta1.sp_Version := sp_Version x;
        V1beta1.sp_MachineTemplate := template;
        V1beta1.sp_ServerConfig :=
          Convert_v1beta2_RKE2ServerConfig_To_v1beta1_RKE2ServerConfig (sp_ServerConfig x);
        V1beta1.sp_ManifestsConfigMapReference := sp_ManifestsConfigMapReference x;
        V1beta1.sp_InfrastructureRef := V1beta1.sp_InfrastructureRef out;
        V1beta1.sp_NodeDrainTimeout := V1beta1.sp_NodeDrainTimeout out;
        V1beta1.sp_RegistrationMethod := sp_RegistrationMethod x;
        V1beta1.sp_RegistrationAddress := sp_RegistrationAddress x;
        V1beta1.sp_RolloutStrategy :=
          Convert_v1beta2_RolloutStrategy_To_v1beta1_RolloutStrategy <$> sp_RolloutStrategy x;
        V1beta1.sp_RemediationStrategy :=
          Convert_v1beta2_RemediationStrategy_To_v1beta1_RemediationStrategy <$>
            sp_RemediationStrategy x |}.

Definition Convert_v1beta1_RKE2ControlPlane_To_v1beta2_RKE2ControlPlane
    (x : V1beta1.RKE2ControlPlane) (out : RKE2ControlPlane) : outcome RKE2ControlPlane :=
  spec ← Convert_v1beta1_RKE2ControlPlaneSpec_To_v1beta2_RKE2ControlPlaneSpec
    (V1beta1.rcp_Spec x) (rcp_Spec out);
  status ← Convert_v1beta1_RKE2ControlPlaneStatus_To_v1beta2_RKE2ControlPlaneStatus
    (V1beta1.rcp_Status x) (rcp_Status out);
  Ok {| rcp_ObjectMeta := V1beta1.rcp_ObjectMeta x; rcp_Spec := spec; rcp_Status := status |}.

Definition Convert_v1beta2_RKE2ControlPlane_To_v1beta1_RKE2ControlPlane
    (x : RKE2ControlPlane) (out : V1beta1.RKE2ControlPlane) : outcome V1beta1.RKE2ControlPlane :=
  spec ← Convert_v1beta2_RKE2ControlPlaneSpec_To_v1beta1_RKE2ControlPlaneSpec
    (rcp_Spec x) (V1beta1.rcp_Spec out);
  status ← Convert_v1beta2_RKE2ControlPlaneStatus_To_v1beta1_RKE2ControlPlaneStatus
    (rcp_Status x) (V1beta1.rcp_Status out);
  Ok {| V1beta1.rcp_ObjectMeta := rcp_ObjectMeta x; V1beta1.rcp_Spec := spec;
        V1beta1.rcp_Status := status |}.

(** The assignments of [ConvertTo] and [ConvertFrom]. *)
Definition mtpl_with_infra (r : ContractVersionedObjectReference)
    (t : RKE2ControlPlaneMachineTemplate) : RKE2ControlPlaneMachineTemplate :=
  Build_RKE2ControlPlaneMachineTemplate (mtpl_Labels t) (mtpl_Annotations t)
    (Build_RKE2ControlPlaneMachineTemplateSpec r (ts_Deletion (mtpl_Spec t)) (ts_Taints (mtpl_Spec t))).
Definition mtpl_with_taints (ts : slice MachineTaint)
    (t : RKE2ControlPlaneMachineTemplate) : RKE2ControlPlaneMachineTemplate :=
  Build_RKE2ControlPlaneMachineTemplate (mtpl_Labels t) (mtpl_Annotations t)
    (Build_RKE2ControlPlaneMachineTemplateSpec (ts_InfrastructureRef (mtpl_Spec t))
       (ts_Deletion (mtpl_Spec t)) ts).
Definition sp_with_template (t : RKE2ControlPlaneMachineTemplate) (s : RKE2ControlPlaneSpec) :
    RKE2ControlPlaneSpec :=
  Build_RKE2ControlPlaneSpec (sp_RKE2ConfigSpec s) (sp_Replicas s) (sp_Version s) t
    (sp_ServerConfig s) (sp_ManifestsConfigMapReference s) (sp_RegistrationMethod s)
    (sp_RegistrationAddress s) (sp_RolloutStrategy s) (sp_RemediationStrategy s).
Definition st_with_initialized (b : option bool) (s : RKE2ControlPlaneStatus) :
    RKE2ControlPlaneStatus :=
  Build_RKE2ControlPlaneStatus (st_Conditions s) b (st_ObservedGeneration s) (st_Replicas s)
    (st_Version s) (st_ReadyReplicas s) (st_AvailableReplicas s) (st_UpToDateReplicas s)
    (st_AvailableServerIPs s) (st_LastRemediation s).
Definition v1_with_infra (r : V1beta1.InfraReference) (s : V1beta1.RKE2ControlPlaneSpec) :
    V1beta1.RKE2ControlPlaneSpec :=
  let t := V1beta1.sp_MachineTemplate s in
  V1beta1.Build_RKE2ControlPlaneSpec (V1beta1.sp_RKE2ConfigSpec s) (V1beta1.sp_Replicas s)
    (V1beta1.sp_Version s)
    (V1beta1.Build_RKE2ControlPlaneMachineTemplate (V1beta1.mtpl_Labels t)
       (V1beta1.mtpl_Annotations t) r (V1beta1.mtpl_NodeDrainTimeout t)
       (V1beta1.mtpl_NodeVolumeDetachTimeout t) (V1beta1.mtpl_NodeDeletionTimeout t))
    (V1beta1.sp_ServerConfig s) (V1beta1.sp_ManifestsConfigMapReference s)
    (V1beta1.sp_InfrastructureRef s) (V1beta1.sp_NodeDrainTimeout s)
    (V1beta1.sp_RegistrationMethod s) (V1beta1.sp_RegistrationAddress s)
    (V1beta1.sp_RolloutStrategy s) (V1beta1.sp_RemediationStrategy s).

Definition RKE2ControlPlane_ConvertTo (src : V1beta1.RKE2ControlPlane) (dst : RKE2ControlPlane) :
    outcome RKE2ControlPlane :=
  dst ← Convert_v1beta1_RKE2ControlPlane_To_v1beta2_RKE2ControlPlane src dst;
  infraRef ← convertToContractVersionedObjectReference
    (V1beta1.mtpl_InfrastructureRef (V1beta1.sp_MachineTemplate (V1beta1.rcp_Spec src)));
  let spec := sp_with_template (mtpl_with_infra infraRef (sp_MachineTemplate (rcp_Spec dst)))
    (rcp_Spec dst) in
  let status := rcp_Status dst in
  found ← UnmarshalData (H := RKE2ControlPlane) (om_Annotations (V1beta1.rcp_ObjectMeta src));
  match found with
  | None => Ok (Build_RKE2ControlPlane (rcp_ObjectMeta dst) spec status)
  | Some (restored, annotations) =>
      let spec := sp_with_template (mtpl_with_taints
        (machine_taints (sp_MachineTemplate (rcp_Spec restored))) (sp_MachineTemplate spec)) spec in
      let initialization := Convert_bool_To_Pointer_bool
        (V1beta1.st_Initialized (V1beta1.rcp_Status src)) true
        (st_ControlPlaneInitialized (rcp_Status restored)) None in
      Ok (Build_RKE2ControlPlane (om_with_annotations annotations (rcp_ObjectMeta dst)) spec
            (if decide (initialization = None) then status
             else st_with_initialized initialization status))
  end.

Definition RKE2ControlPlane_ConvertFrom (src : RKE2ControlPlane) (dst : V1beta1.RKE2ControlPlane) :
    outcome V1beta1.RKE2ControlPlane :=
  dst ← Convert_v1beta2_RKE2ControlPlane_To_v1beta1_RKE2ControlPlane src dst;
  let ref := ts_InfrastructureRef (mtpl_Spec (sp_MachineTemplate (rcp_Spec src))) in
  spec ← (if IsDefined ref
          then infraRef ← convertToObjectReference ref (rcp_Namespace src);
               Ok (v1_with_infra infraRef (V1beta1.rcp_Spec dst))
          else Ok (V1beta1.rcp_Spec dst));
  annotations ← MarshalData src (om_Annotations (V1beta1.rcp_ObjectMeta dst));
  Ok (V1beta1.Build_RKE2ControlPlane (om_with_annotations annotations (V1beta1.rcp_ObjectMeta dst))
        spec (V1beta1.rcp_Status dst)).

(** *** Templates *)

Definition Convert_v1beta1_RKE2ControlPlaneSpec_To_v1beta2_RKE2ControlPlaneTemplateResourceSpec
    (x : V1beta1.RKE2ControlPlaneSpec) (out : RKE2ControlPlaneTemplateResourceSpec) :
    outcome RKE2ControlPlaneTemplateResourceSpec :=
  template ←
    Convert_v1beta1_RKE2ControlPlaneMachineTemplate_To_v1beta2_RKE2ControlPlaneMachineTemplate
      (V1beta1.sp_MachineTemplate x) (trs_MachineTemplate out);
  Ok {| trs_RKE2ConfigSpec :=
          Convert_v1beta1_RKE2ConfigSpec_To_v1beta2_RKE2ConfigSpec (V1beta1.sp_RKE2ConfigSpec x);
        trs_MachineTemplate := template;
        trs_ServerConfig :=
          Convert_v1beta1_RKE2ServerConfig_To_v1beta2_RKE2ServerConfig (V1beta1.sp_ServerConfig x);
        trs_ManifestsConfigMapReference := V1beta1.sp_ManifestsConfigMapReference x;
        trs_RegistrationMethod := V1beta1.sp_RegistrationMethod x;
        trs_RegistrationAddress := V1beta1.sp_RegistrationAddress x;
        trs_RolloutStrategy :=
          Convert_v1beta1_RolloutStrategy_To_v1beta2_RolloutStrategy <$> V1beta1.sp_RolloutStrategy x;
        trs_RemediationStrategy :=
          Convert_v1beta1_RemediationStrategy_To_v1beta2_RemediationStrategy <$>
            V1beta1.sp_RemediationStrategy x |}.

Definition Convert_v1beta2_RKE2ControlPlaneTemplateResourceSpec_To_v1beta1_RKE2ControlPlaneSpec
    (x : RKE2ControlPlaneTemplateResourceSpec) (out : V1beta1.RKE2ControlPlaneSpec) :
    outcome V1beta1.RKE2ControlPlaneSpec :=
  template ←
    Convert_v1beta2_RKE2ControlPlaneMachineTemplate_To_v1beta1_RKE2ControlPlaneMachineTemplate
      (trs_MachineTemplate x) (V1beta1.sp_MachineTemplate out);
  Ok {| V1beta1.sp_RKE2ConfigSpec :=
          Convert_v1beta2_RKE2ConfigSpec_To_v1beta1_RKE2ConfigSpec (trs_RKE2ConfigSpec x);
        V1beta1.sp_Replicas := V1beta1.sp_Replicas out;
        V1beta1.sp_Version := V1beta1.sp_Version out;
        V1beta1.sp_MachineTemplate := template;
        V1beta1.sp_ServerConfig :=
          Convert_v1beta2_RKE2ServerConfig_To_v1beta1_RKE2ServerConfig (trs_ServerConfig x);
        V1beta1.sp_ManifestsConfigMapReference := trs_ManifestsConfigMapReference x;
        V1beta1.sp_InfrastructureRef := V1beta1.sp_InfrastructureRef out;
        V1beta1.sp_NodeDrainTimeout := V1beta1.sp_NodeDrainTimeout out;
        V1beta1.sp_RegistrationMethod := trs_RegistrationMethod x;
        V1beta1.sp_RegistrationAddress := trs_RegistrationAddress x;
        V1beta1.sp_RolloutStrategy :=
          Convert_v1beta2_RolloutStrategy_To_v1beta1_RolloutStrategy <$> trs_RolloutStrategy x;
        V1beta1.sp_RemediationStrategy :=
          Convert_v1beta2_RemediationStrategy_To_v1beta1_RemediationStrategy <$>
            trs_RemediationStrategy x |}.

Definition Convert_v1beta1_RKE2ControlPlaneTemplateResource_To_v1beta2_RKE2ControlPlaneTemplateResource
    (x : V1beta1.RKE2ControlPlaneTemplateResource) (out : RKE2ControlPlaneTemplateResource) :
    outcome RKE2ControlPlaneTemplateResource :=
  meta ← Convert_v1beta1_ObjectMeta_To_v1beta2_ObjectMeta
    (V1beta1.tr_Labels x, V1beta1.tr_Annotations x);
  spec ← Convert_v1beta1_RKE2ControlPlaneSpec_To_v1beta2_RKE2ControlPlaneTemplateResourceSpec
    (V1beta1.tr_Spec x) (tr_Spec out);
  Ok {| tr_Labels := meta.1; tr_Annotations := meta.2; tr_Spec := spec |}.

Definition Convert_v1beta2_RKE2ControlPlaneTemplateResource_To_v1beta1_RKE2ControlPlaneTemplateResource
    (x : RKE2ControlPlaneTemplateResource) (out : V1beta1.RKE2ControlPlaneTemplateResource) :
    outcome V1beta1.RKE2ControlPlaneTemplateResource :=
  meta ← Convert_v1beta2_ObjectMeta_To_v1beta1_ObjectMeta (tr_Labels x, tr_Annotations x);
  spec ← Convert_v1beta2_RKE2ControlPlaneTemplateResourceSpec_To_v1beta1_RKE2ControlPlaneSpec
    (tr_Spec x) (V1beta1.tr_Spec out);
  Ok {| V1beta1.tr_Labels := meta.1; V1beta1.tr_Annotations := meta.2; V1beta1.tr_Spec := spec |}.

Definition Convert_v1beta1_RKE2ControlPlaneTemplateSpec_To_v1beta2_RKE2ControlPlaneTemplateSpec
    (x : V1beta1.RKE2ControlPlaneTemplateSpec) (out : RKE2ControlPlaneTemplateSpec) :
    outcome RKE2ControlPlaneTemplateSpec :=
  template ←
    Convert_v1beta1_RKE2ControlPlaneTemplateResource_To_v1beta2_RKE2ControlPlaneTemplateResource
      (V1beta1.tsp_Template x) (tsp_Template out);
  Ok {| tsp_Template := template |}.

Definition Convert_v1beta2_RKE2ControlPlaneTemplateSpec_To_v1beta1_RKE2ControlPlaneTemplateSpec
    (x : RKE2ControlPlaneTemplateSpec) (out : V1beta1.RKE2ControlPlaneTemplateSpec) :
    outcome V1beta1.RKE2ControlPlaneTemplateSpec :=
  template ←
    Convert_v1beta2_RKE2ControlPlaneTemplateResource_To_v1beta1_RKE2ControlPlaneTemplateResource
      (tsp_Template x) (V1beta1.tsp_Template out);
  Ok {| V1beta1.tsp_Template := template |}.

Definition Convert_v1beta1_RKE2ControlPlaneTemplate_To_v1beta2_RKE2ControlPlaneTemplate
    (x : V1beta1.RKE2ControlPlaneTemplate) (out : RKE2ControlPlaneTemplate) :
    outcome RKE2ControlPlaneTemplate :=
  spec ← Convert_v1beta1_RKE2ControlPlaneTemplateSpec_To_v1beta2_RKE2ControlPlaneTemplateSpec
    (V1beta1.tpl_Spec x) (tpl_Spec out);
  Ok {| tpl_ObjectMeta := V1beta1.tpl_ObjectMeta x; tpl_Spec := spec |}.

Definition Convert_v1beta2_RKE2ControlPlaneTemplate_To_v1beta1_RKE2ControlPlaneTemplate
    (x : RKE2ControlPlaneTemplate) (out : V1beta1.RKE2ControlPlaneTemplate) :
    outcome V1beta1.RKE2ControlPlaneTemplate :=
  spec ← Convert_v1beta2_RKE2ControlPlaneTemplateSpec_To_v1beta1_RKE2ControlPlaneTemplateSpec
    (tpl_Spec x) (V1beta1.tpl_Spec out);
  Ok {| V1beta1.tpl_ObjectMeta := tpl_ObjectMeta x; V1beta1.tpl_Spec := spec;
        V1beta1.tpl_Status := V1beta1.tpl_Status out |}.

Definition tpl_with_taints (ts : slice MachineTaint) (t : RKE2ControlPlaneTemplate) :
    RKE2ControlPlaneTemplateSpec :=
  let r := tsp_Template (tpl_Spec t) in
  let s := tr_Spec r in
  Build_RKE2ControlPlaneTemplateSpec
    (Build_RKE2ControlPlaneTemplateResource (tr_Labels r) (tr_Annotations r)
       (Build_RKE2ControlPlaneTemplateResourceSpec (trs_RKE2ConfigSpec s)
          (mtpl_with_taints ts (trs_MachineTemplate s)) (trs_ServerConfig s)
          (trs_ManifestsConfigMapReference s) (trs_RegistrationMethod s)
          (trs_RegistrationAddress s) (trs_RolloutStrategy s) (trs_RemediationStrategy s))).

Definition RKE2ControlPlaneTemplate_ConvertTo (src : V1beta1.RKE2ControlPlaneTemplate)
    (dst : RKE2ControlPlaneTemplate) : outcome RKE2ControlPlaneTemplate :=
  dst ← Convert_v1beta1_RKE2ControlPlaneTemplate_To_v1beta2_RKE2ControlPlaneTemplate src dst;
  found ← UnmarshalData (H := RKE2ControlPlaneTemplate) (om_Annotations (V1beta1.tpl_ObjectMeta src));
  match found with
  | None => Ok dst
  | Some (restored, annotations) =>
      Ok (Build_RKE2ControlPlaneTemplate (om_with_annotations annotations (tpl_ObjectMeta dst))
            (tpl_with_taints (machine_taints (template_machine restored)) dst))
  end.

Definition RKE2ControlPlaneTemplate_ConvertFrom (src : RKE2ControlPlaneTemplate)
    (dst : V1beta1.RKE2ControlPlaneTemplate) : outcome V1beta1.RKE2ControlPlaneTemplate :=
  dst ← Convert_v1beta2_RKE2ControlPlaneTemplate_To_v1beta1_RKE2ControlPlaneTemplate src dst;
  annotations ← MarshalData src (om_Annotations (V1beta1.tpl_ObjectMeta dst));
  Ok (V1beta1.Build_RKE2ControlPlaneTemplate
        (om_with_annotations annotations (V1beta1.tpl_ObjectMeta dst))
        (V1beta1.tpl_Spec dst) (V1beta1.tpl_Status dst)).

(** *** Lists

    The items are converted by the [Convert] functions, not by [ConvertTo] and
    [ConvertFrom], into fresh structs. *)

Definition RKE2ConfigList_ConvertTo : ObjectList V1beta1.RKE2Config → outcome (ObjectList RKE2Config) :=
  convert_list (λ x, Convert_v1beta1_RKE2Config_To_v1beta2_RKE2Config x zero_RKE2Config).
Definition RKE2ConfigList_ConvertFrom : ObjectList RKE2Config → outcome (ObjectList V1beta1.RKE2Config) :=
  convert_list (λ x, Convert_v1beta2_RKE2Config_To_v1beta1_RKE2Config x zero_v1_RKE2Config).
Definition RKE2ConfigTemplateList_ConvertTo :
    ObjectList V1beta1.RKE2ConfigTemplate → outcome (ObjectList RKE2ConfigTemplate) :=
  convert_list (λ x, Ok (Convert_v1beta1_RKE2ConfigTemplate_To_v1beta2_RKE2ConfigTemplate x)).
Definition RKE2ConfigTemplateList_ConvertFrom :
    ObjectList RKE2ConfigTemplate → outcome (ObjectList V1beta1.RKE2ConfigTemplate) :=
  convert_list (λ x, Ok (Convert_v1beta2_RKE2ConfigTemplate_To_v1beta1_RKE2ConfigTemplate x)).
Definition RKE2ControlPlaneList_ConvertTo :
    ObjectList V1beta1.RKE2ControlPlane → outcome (ObjectList RKE2ControlPlane) :=
  convert_list (λ x, Convert_v1beta1_RKE2ControlPlane_To_v1beta2_RKE2ControlPlane x
                       zero_RKE2ControlPlane).
Definition RKE2ControlPlaneList_ConvertFrom :
    ObjectList RKE2ControlPlane → outcome (ObjectList V1beta1.RKE2ControlPlane) :=
  convert_list (λ x, Convert_v1beta2_RKE2ControlPlane_To_v1beta1_RKE2ControlPlane x
                       zero_v1_RKE2ControlPlane).
Definition RKE2ControlPlaneTemplateList_ConvertTo :
    ObjectList V1beta1.RKE2ControlPlaneTemplate → outcome (ObjectList RKE2ControlPlaneTemplate) :=
  convert_list (λ x, Convert_v1beta1_RKE2ControlPlaneTemplate_To_v1beta2_RKE2ControlPlaneTemplate x
                       zero_RKE2ControlPlaneTemplate).
Definition RKE2ControlPlaneTemplateList_ConvertFrom :
    ObjectList RKE2ControlPlaneTemplate → outcome (ObjectList V1beta1.RKE2ControlPlaneTemplate) :=
  convert_list (λ x, Convert_v1beta2_RKE2ControlPlaneTemplate_To_v1beta1_RKE2ControlPlaneTemplate x
                       zero_v1_RKE2ControlPlaneTemplate).

(** ** Round trips *)

Context `{!ConvLaws}.

Lemma mapM_is_ok {A B} (f : A → outcome B) l :
  (∀ x, is_ok (f x) = true) → ∃ l', mapM f l = Ok l'.
Proof.
  intros Hf. induction l as [|x l [l' IH]]; [by eexists|].
  cbn. specialize (Hf x). destruct (f x) as [y|e|p]; [|done..].
  cbn. rewrite IH. by eexists.
Qed.

Lemma conditions_up l : ∃ l', mapM Convert_v1beta1_Condition_To_v1_Condition l = Ok l'.
Proof. apply mapM_is_ok, cond_up_ok. Qed.
Lemma conditions_down l : ∃ l', mapM Convert_v1_Condition_To_v1beta1_Condition l = Ok l'.
Proof. apply mapM_is_ok, cond_down_ok. Qed.

(** What a v1beta1 client sees of a status. *)
Definition status_down (s : RKE2ControlPlaneStatus) : V1beta1.RKE2ControlPlaneStatus :=
  {| V1beta1.st_Ready := false;
     V1beta1.st_Initialized := default false (st_ControlPlaneInitialized s);
     V1beta1.st_DataSecretName := None;
     V1beta1.st_FailureReason := ""; V1beta1.st_FailureMessage := "";
     V1beta1.st_ObservedGeneration := st_ObservedGeneration s;
     V1beta1.st_Conditions := [];
     V1beta1.st_Replicas := default 0%Z (st_Replicas s);
     V1beta1.st_Version := Some (st_Version s);
     V1beta1.st_ReadyReplicas := 0%Z; V1beta1.st_UpdatedReplicas := 0%Z;
     V1beta1.st_UnavailableReplicas := 0%Z;
     V1beta1.st_AvailableServerIPs := st_AvailableServerIPs s;
     V1beta1.st_LastRemediation :=
       Convert_v1beta2_LastRemediationStatus_To_v1beta1_LastRemediationStatus <$>
         st_LastRemediation s;
     V1beta1.st_V1Beta2 :=
       if decide (st_Conditions s = [] ∧ st_ReadyReplicas s = None ∧
                  st_AvailableReplicas s = None ∧ st_UpToDateReplicas s = None)
       then None
       else Some {| V1beta1.s2_Conditions := st_Conditions s;
                    V1beta1.s2_ReadyReplicas := st_ReadyReplicas s;
                    V1beta1.s2_AvailableReplicas := st_AvailableReplicas s;
                    V1beta1.s2_UpToDateReplicas := st_UpToDateReplicas s |} |}.

Lemma rcp_status_down_run s :
  Convert_v1beta2_RKE2ControlPlaneStatus_To_v1beta1_RKE2ControlPlaneStatus s
    (V1beta1.rcp_Status zero_v1_RKE2ControlPlane) = Ok (status_down s).
Proof.
  unfold Convert_v1beta2_RKE2ControlPlaneStatus_To_v1beta1_RKE2ControlPlaneStatus,
    autoConvert_v1beta2_RKE2ControlPlaneStatus_To_v1beta1_RKE2ControlPlaneStatus.
  destruct (conditions_down (st_Conditions s)) as [l ->]. cbn.
  by rewrite !int32_down, string_down.
Qed.

(** The v1beta1 conditions are dropped on the way up. *)
Lemma rcp_status_up_run x out :
  Convert_v1beta1_RKE2ControlPlaneStatus_To_v1beta2_RKE2ControlPlaneStatus x out =
  let v2 := V1beta1.st_V1Beta2 x in
  Ok {| st_Conditions := match v2 with Some v => V1beta1.s2_Conditions v | None => [] end;
        st_ControlPlaneInitialized := st_ControlPlaneInitialized out;
        st_ObservedGeneration := V1beta1.st_ObservedGeneration x;
        st_Replicas := Some (V1beta1.st_Replicas x);
        st_Version := default "" (V1beta1.st_Version x);
        st_ReadyReplicas := v2 ≫= V1beta1.s2_ReadyReplicas;
        st_AvailableReplicas := from_option V1beta1.s2_AvailableReplicas (st_AvailableReplicas out) v2;
        st_UpToDateReplicas := from_option V1beta1.s2_UpToDateReplicas (st_UpToDateReplicas out) v2;
        st_AvailableServerIPs := V1beta1.st_AvailableServerIPs x;
        st_LastRemediation :=
          Convert_v1beta1_LastRemediationStatus_To_v1beta2_LastRemediationStatus <$>
            V1beta1.st_LastRemediation x |}.
Proof.
  unfold Convert_v1beta1_RKE2ControlPlaneStatus_To_v1beta2_RKE2ControlPlaneStatus,
    autoConvert_v1beta1_RKE2ControlPlaneStatus_To_v1beta2_RKE2ControlPlaneStatus.
  destruct (conditions_up (V1beta1.st_Conditions x)) as [l ->]. cbn.
  rewrite !int32_up. cbn. rewrite string_up. cbn. by destruct (V1beta1.st_V1Beta2 x).
Qed.

Definition st_with_replicas (n : option Z) (s : RKE2ControlPlaneStatus) : RKE2ControlPlaneStatus :=
  Build_RKE2ControlPlaneStatus (st_Conditions s) (st_ControlPlaneInitialized s)
    (st_ObservedGeneration s) n (st_Version s) (st_ReadyReplicas s) (st_AvailableReplicas s)
    (st_UpToDateReplicas s) (st_AvailableServerIPs s) (st_LastRemediation s).

Lemma rcp_status_up_down s :
  Convert_v1beta1_RKE2ControlPlaneStatus_To_v1beta2_RKE2ControlPlaneStatus (status_down s)
    (rcp_Status zero_RKE2ControlPlane) =
  Ok (st_with_initialized None (st_with_replicas (Some (default 0%Z (st_Replicas s))) s)).
Proof.
  rewrite rcp_status_up_run. unfold status_down. cbn [V1beta1.st_V1Beta2 V1beta1.st_Version
    V1beta1.st_Replicas V1beta1.st_ObservedGeneration V1beta1.st_AvailableServerIPs
    V1beta1.st_LastRemediation].
  destruct s as [cs ini og n v r a u ips lr]. cbn.
  assert ((Convert_v1beta1_LastRemediationStatus_To_v1beta2_LastRemediationStatus <$>
    (Convert_v1beta2_LastRemediationStatus_To_v1beta1_LastRemediationStatus <$> lr)) = lr) as ->
    by apply retract.
  case_decide as Hz; [|done]. by destruct Hz as (-> & -> & -> & ->).
Qed.

(** *** The machine template and the spec *)

Definition int32_opt (o : option Z) : Prop := ∀ z, o = Some z → (- 2 ^ 31 ≤ z < 2 ^ 31)%Z.
Definition timeouts_int32 (t : RKE2ControlPlaneMachineTemplate) : Prop :=
  let d := ts_Deletion (mtpl_Spec t) in
  int32_opt (td_NodeDrainTimeoutSeconds d) ∧ int32_opt (td_NodeVolumeDetachTimeoutSeconds d) ∧
  int32_opt (td_NodeDeletionTimeoutSeconds d).

Lemma seconds_retract o : int32_opt o → ConvertToSeconds (ConvertFromSeconds o) = o.
Proof. intros Ho. destruct o as [z|]; [by apply seconds_some, Ho|apply seconds_nil]. Qed.

Definition mtpl_down (t : RKE2ControlPlaneMachineTemplate) (ir : V1beta1.InfraReference) :
    V1beta1.RKE2ControlPlaneMachineTemplate :=
  let d := ts_Deletion (mtpl_Spec t) in
  V1beta1.Build_RKE2ControlPlaneMachineTemplate (mtpl_Labels t) (mtpl_Annotations t) ir
    (ConvertFromSeconds (td_NodeDrainTimeoutSeconds d))
    (ConvertFromSeconds (td_NodeVolumeDetachTimeoutSeconds d))
    (ConvertFromSeconds (td_NodeDeletionTimeoutSeconds d)).

Lemma mtpl_down_run t out :
  Convert_v1beta2_RKE2ControlPlaneMachineTemplate_To_v1beta1_RKE2ControlPlaneMachineTemplate t out =
  Ok (mtpl_down t (V1beta1.mtpl_InfrastructureRef out)).
Proof.
  unfold Convert_v1beta2_RKE2ControlPlaneMachineTemplate_To_v1beta1_RKE2ControlPlaneMachineTemplate.
  unfold Convert_v1beta2_ObjectMeta_To_v1beta1_ObjectMeta. by rewrite meta_down.
Qed.

Lemma mtpl_up_down t ir ref out :
  timeouts_int32 t → convertToContractVersionedObjectReference ir = Ok ref →
  Convert_v1beta1_RKE2ControlPlaneMachineTemplate_To_v1beta2_RKE2ControlPlaneMachineTemplate
    (mtpl_down t ir) out = Ok (mtpl_with_taints (machine_taints out) (mtpl_with_infra ref t)).
Proof.
  intros (H1 & H2 & H3) Href.
  unfold Convert_v1beta1_RKE2ControlPlaneMachineTemplate_To_v1beta2_RKE2ControlPlaneMachineTemplate.
  unfold Convert_v1beta1_ObjectMeta_To_v1beta2_ObjectMeta. rewrite meta_up. cbn. rewrite Href. cbn.
  rewrite !seconds_retract by done.
  by destruct t as [la an [r [] ts]].
Qed.

(** The reference a v1beta1 client sees. *)
Definition infra_down (ref : ContractVersionedObjectReference) (ns : string) :
    outcome V1beta1.InfraReference :=
  if IsDefined ref then convertToObjectReference ref ns else Ok zero_infra.

Lemma infra_up_down ref ns ir :
  infra_down ref ns = Ok ir → convertToContractVersionedObjectReference ir = Ok ref.
Proof.
  unfold infra_down, convertToObjectReference. rewrite is_defined.
  case_bool_decide as Hd.
  - destruct (apiVersionGetter (cv_APIGroup ref) (cv_Kind ref)) as [v|e|p] eqn:Hg; [|done..].
    intros [= <-]. destruct (getter_group _ _ _ Hg) as [Hv [ver Hp]].
    unfold convertToContractVersionedObjectReference. cbn.
    rewrite decide_False by done. rewrite Hp. by destruct ref.
  - intros [= <-]. destruct (decide (ref = Build_ContractVersionedObjectReference "" "" ""));
      [by subst|done].
Qed.

Definition spec_down (s : RKE2ControlPlaneSpec) (ir : V1beta1.InfraReference) :
    V1beta1.RKE2ControlPlaneSpec :=
  V1beta1.Build_RKE2ControlPlaneSpec
    (Convert_v1beta2_RKE2ConfigSpec_To_v1beta1_RKE2ConfigSpec (sp_RKE2ConfigSpec s))
    (sp_Replicas s) (sp_Version s) (mtpl_down (sp_MachineTemplate s) ir)
    (Convert_v1beta2_RKE2ServerConfig_To_v1beta1_RKE2ServerConfig (sp_ServerConfig s))
    (sp_ManifestsConfigMapReference s) zero_infra None (sp_RegistrationMethod s)
    (sp_RegistrationAddress s)
    (Convert_v1beta2_RolloutStrategy_To_v1beta1_RolloutStrategy <$> sp_RolloutStrategy s)
    (Convert_v1beta2_RemediationStrategy_To_v1beta1_RemediationStrategy <$> sp_RemediationStrategy s).

Lemma spec_up_down s ir ref out :
  timeouts_int32 (sp_MachineTemplate s) → convertToContractVersionedObjectReference ir = Ok ref →
  Convert_v1beta1_RKE2ControlPlaneSpec_To_v1beta2_RKE2ControlPlaneSpec (spec_down s ir) out =
  Ok (sp_with_template (mtpl_with_taints (machine_taints (sp_MachineTemplate out))
        (mtpl_with_infra ref (sp_MachineTemplate s))) s).
Proof.
  intros Ht Href. unfold Convert_v1beta1_RKE2ControlPlaneSpec_To_v1beta2_RKE2ControlPlaneSpec.
  cbn [spec_down V1beta1.sp_MachineTemplate]. rewrite (mtpl_up_down _ _ _ _ Ht Href).
  destruct s as [cs n v t sc mf rm ra ro re]. cbn [mbind outcome_bind sp_with_template].
  f_equal. unfold sp_with_template. cbn -[Convert_v1beta1_RKE2ConfigSpec_To_v1beta2_RKE2ConfigSpec
    Convert_v1beta2_RKE2ConfigSpec_To_v1beta1_RKE2ConfigSpec].
  f_equal; apply retract.
Qed.

(** *** RKE2ControlPlane *)

(** [ConvertFrom] into a fresh object. *)
Lemma ConvertFrom_run h :
  RKE2ControlPlane_ConvertFrom h zero_v1_RKE2ControlPlane =
  ir ← infra_down (ts_InfrastructureRef (mtpl_Spec (sp_MachineTemplate (rcp_Spec h)))) (rcp_Namespace h);
  annotations ← MarshalData h (om_Annotations (rcp_ObjectMeta h));
  Ok (V1beta1.Build_RKE2ControlPlane (om_with_annotations annotations (rcp_ObjectMeta h))
        (spec_down (rcp_Spec h) ir) (status_down (rcp_Status h))).
Proof.
  unfold RKE2ControlPlane_ConvertFrom, Convert_v1beta2_RKE2ControlPlane_To_v1beta1_RKE2ControlPlane,
    Convert_v1beta2_RKE2ControlPlaneSpec_To_v1beta1_RKE2ControlPlaneSpec, infra_down.
  rewrite mtpl_down_run. cbn [mbind outcome_bind]. rewrite rcp_status_down_run.
  cbn [mbind outcome_bind V1beta1.rcp_Spec V1beta1.rcp_Status V1beta1.rcp_ObjectMeta].
  destruct (IsDefined _); [|done].
  by destruct (convertToObjectReference _ _).
Qed.

(** The object a round trip through v1beta1 gives back: the conversion data is not
    left in the annotations, an empty list of taints is nil, and the number of
    replicas is set. *)
Definition roundtrip_rcp (h : RKE2ControlPlane) : RKE2ControlPlane :=
  let template := sp_MachineTemplate (rcp_Spec h) in
  Build_RKE2ControlPlane
    (om_with_annotations (Some (delete DataAnnotation (default ∅ (om_Annotations (rcp_ObjectMeta h)))))
       (rcp_ObjectMeta h))
    (sp_with_template (mtpl_with_taints (omit_empty (machine_taints template)) template) (rcp_Spec h))
    (st_with_replicas (Some (default 0%Z (st_Replicas (rcp_Status h)))) (rcp_Status h)).

Lemma bool_retract o :
  Convert_bool_To_Pointer_bool (default false o) true o None = o.
Proof.
  destruct o as [[]|]; cbn; [apply bool_true| |]; rewrite bool_false; by case_decide.
Qed.

Lemma rcp_roundtrip_run h spoke :
  RKE2ControlPlane_ConvertFrom h zero_v1_RKE2ControlPlane = Ok spoke →
  timeouts_int32 (sp_MachineTemplate (rcp_Spec h)) →
  RKE2ControlPlane_ConvertTo spoke zero_RKE2ControlPlane = Ok (roundtrip_rcp h).
Proof.
  rewrite ConvertFrom_run. intros Hf Ht.
  destruct (infra_down _ _) as [ir|e|p] eqn:Hir; [|done..]. cbn [mbind outcome_bind] in Hf.
  destruct (MarshalData h _) as [a|e|p] eqn:Hm; [|done..]. cbn [mbind outcome_bind] in Hf.
  injection Hf as <-. apply infra_up_down in Hir as Href.
  destruct (unmarshal_marshal _ _ _ Hm) as (h' & Hu & Hta & Hin).
  unfold RKE2ControlPlane_ConvertTo, Convert_v1beta1_RKE2ControlPlane_To_v1beta2_RKE2ControlPlane.
  cbn [V1beta1.rcp_Spec V1beta1.rcp_Status V1beta1.rcp_ObjectMeta].
  rewrite (spec_up_down _ _ _ _ Ht Href), rcp_status_up_down. cbn [mbind outcome_bind].
  cbn [V1beta1.sp_MachineTemplate spec_down V1beta1.mtpl_InfrastructureRef mtpl_down].
  rewrite Href. cbn [mbind outcome_bind om_Annotations om_with_annotations].
  rewrite Hu. cbn [mbind outcome_bind rcp_Status].
  rewrite Hin, Hta. cbn [V1beta1.st_Initialized status_down]. rewrite bool_retract.
  destruct h as [om [cs n v [la an [r d ts]] sc mf rm ra ro re] [c i o nr ve rr ar ur ips lr]].
  unfold roundtrip_rcp. cbn. destruct i as [b|]; by rewrite ?decide_True, ?decide_False by done.
Qed.

(** [ConvertTo] of an object of any content, with its template's reference parsed. *)
Lemma ConvertTo_inv src dst :
  RKE2ControlPlane_ConvertTo src zero_RKE2ControlPlane = Ok dst →
  ∃ spec, Convert_v1beta1_RKE2ControlPlaneSpec_To_v1beta2_RKE2ControlPlaneSpec (V1beta1.rcp_Spec src)
            (rcp_Spec zero_RKE2ControlPlane) = Ok spec ∧
  ∃ found, UnmarshalData (H := RKE2ControlPlane) (om_Annotations (V1beta1.rcp_ObjectMeta src)) = Ok found ∧
  match found with
  | None => rcp_ObjectMeta dst = V1beta1.rcp_ObjectMeta src ∧ rcp_Spec dst = spec ∧
            st_ControlPlaneInitialized (rcp_Status dst) = None
  | Some (r, a) =>
      rcp_ObjectMeta dst = om_with_annotations a (V1beta1.rcp_ObjectMeta src) ∧
      rcp_Spec dst = sp_with_template (mtpl_with_taints
        (machine_taints (sp_MachineTemplate (rcp_Spec r))) (sp_MachineTemplate spec)) spec ∧
      st_ControlPlaneInitialized (rcp_Status dst) =
        Convert_bool_To_Pointer_bool (V1beta1.st_Initialized (V1beta1.rcp_Status src)) true
          (st_ControlPlaneInitialized (rcp_Status r)) None
  end.
Proof.
  unfold RKE2ControlPlane_ConvertTo, Convert_v1beta1_RKE2ControlPlane_To_v1beta2_RKE2ControlPlane,
    Convert_v1beta1_RKE2ControlPlaneSpec_To_v1beta2_RKE2ControlPlaneSpec,
    Convert_v1beta1_RKE2ControlPlaneMachineTemplate_To_v1beta2_RKE2ControlPlaneMachineTemplate,
    Convert_v1beta1_ObjectMeta_To_v1beta2_ObjectMeta.
  rewrite meta_up. cbn [mbind outcome_bind].
  destruct (convertToContractVersionedObjectReference _) as [ref|e|p]; [|done..].
  cbn [mbind outcome_bind]. rewrite rcp_status_up_run. cbn [mbind outcome_bind].
  destruct (UnmarshalData _) as [[[r a]|]|e|p] eqn:Hu; [..|done|done]; cbn [mbind outcome_bind];
    intros [= <-]; (eexists; split; [reflexivity|]); (eexists; split; [reflexivity|]); [|done].
  split; [done|]. split; [done|]. cbn [rcp_Status st_with_initialized].
  destruct (Convert_bool_To_Pointer_bool _ _ _ _) eqn:Hb;
    by rewrite ?decide_True, ?decide_False by done.
Qed.

(** *** RKE2Config *)

Definition roundtrip_config (h : RKE2Config) : RKE2Config :=
  Build_RKE2Config "" ""
    (om_with_annotations (Some (delete DataAnnotation (default ∅ (om_Annotations (cfg_ObjectMeta h)))))
       (cfg_ObjectMeta h)) (cfg_Spec h) (cfg_Status h).

Lemma config_roundtrip_run h spoke :
  RKE2Config_ConvertFrom h zero_v1_RKE2Config = Ok spoke →
  RKE2Config_ConvertTo spoke zero_RKE2Config = Ok (roundtrip_config h).
Proof.
  unfold RKE2Config_ConvertFrom, Convert_v1beta2_RKE2Config_To_v1beta1_RKE2Config,
    Convert_v1beta2_RKE2ConfigStatus_To_v1beta1_RKE2ConfigStatus,
    autoConvert_v1beta2_RKE2ConfigStatus_To_v1beta1_RKE2ConfigStatus.
  destruct (conditions_down (cst_Conditions (cfg_Status h))) as [l ->]. cbn [mbind outcome_bind].
  cbn [V1beta1.cfg_ObjectMeta]. destruct (MarshalData h _) as [a|e|p] eqn:Hm; [|done..].
  intros [= <-]. destruct (unmarshal_marshal _ _ _ Hm) as (h' & Hu & Hk).
  unfold RKE2Config_ConvertTo, Convert_v1beta1_RKE2Config_To_v1beta2_RKE2Config,
    Convert_v1beta1_RKE2ConfigStatus_To_v1beta2_RKE2ConfigStatus,
    autoConvert_v1beta1_RKE2ConfigStatus_To_v1beta2_RKE2ConfigStatus.
  cbn [mapM V1beta1.cfg_Status V1beta1.cst_Conditions mbind outcome_bind mret outcome_ret].
  cbn [V1beta1.cfg_ObjectMeta om_Annotations om_with_annotations V1beta1.cfg_Spec V1beta1.cst_Ready].
  rewrite Hu. cbn [mbind outcome_bind]. rewrite Hk, bool_retract.
  destruct h as [av k om sp [cs c n g]]. cbn -[Convert_v1beta1_RKE2ConfigSpec_To_v1beta2_RKE2ConfigSpec
    Convert_v1beta2_RKE2ConfigSpec_To_v1beta1_RKE2ConfigSpec].
  unfold cfg_with, roundtrip_config. cbn -[Convert_v1beta1_RKE2ConfigSpec_To_v1beta2_RKE2ConfigSpec
    Convert_v1beta2_RKE2ConfigSpec_To_v1beta1_RKE2ConfigSpec].
  rewrite (retract (g := Convert_v1beta1_RKE2ConfigSpec_To_v1beta2_RKE2ConfigSpec)).
  do 2 f_equal. destruct cs; destruct c; cbn; by rewrite ?decide_True, ?decide_False by done.
Qed.

(** *** RKE2ConfigTemplate *)

Lemma config_template_roundtrip_run h spoke :
  RKE2ConfigTemplate_ConvertFrom h = Ok spoke →
  RKE2ConfigTemplate_ConvertTo spoke =
  Ok (Build_RKE2ConfigTemplate (om_with_annotations (Some (delete DataAnnotation
        (default ∅ (om_Annotations (ct_ObjectMeta h))))) (ct_ObjectMeta h)) (ct_Spec h)).
Proof.
  unfold RKE2ConfigTemplate_ConvertFrom. cbn [V1beta1.ct_ObjectMeta
    Convert_v1beta2_RKE2ConfigTemplate_To_v1beta1_RKE2ConfigTemplate].
  destruct (MarshalData h _) as [a|e|p] eqn:Hm; [|done..]. intros [= <-].
  destruct (unmarshal_marshal _ _ _ Hm) as (h' & Hu & _).
  unfold RKE2ConfigTemplate_ConvertTo. cbn [V1beta1.ct_ObjectMeta om_Annotations om_with_annotations].
  rewrite Hu. cbn [mbind outcome_bind].
  destruct h as [om [[sp]]]. unfold Convert_v1beta1_RKE2ConfigTemplate_To_v1beta2_RKE2ConfigTemplate,
    Convert_v1beta1_RKE2ConfigTemplateSpec_To_v1beta2_RKE2ConfigTemplateSpec,
    Convert_v1beta1_RKE2ConfigTemplateResource_To_v1beta2_RKE2ConfigTemplateResource.
  cbn -[Convert_v1beta1_RKE2ConfigSpec_To_v1beta2_RKE2ConfigSpec
    Convert_v1beta2_RKE2ConfigSpec_To_v1beta1_RKE2ConfigSpec].
  by rewrite (retract (g := Convert_v1beta1_RKE2ConfigSpec_To_v1beta2_RKE2ConfigSpec)).
Qed.

(** *** RKE2ControlPlaneTemplate *)

Definition roundtrip_template (h : RKE2ControlPlaneTemplate) : RKE2ControlPlaneTemplate :=
  Build_RKE2ControlPlaneTemplate
    (om_with_annotations (Some (delete DataAnnotation (default ∅ (om_Annotations (tpl_ObjectMeta h)))))
       (tpl_ObjectMeta h))
    (let r := tsp_Template (tpl_Spec h) in
     let s := tr_Spec r in
     Build_RKE2ControlPlaneTemplateSpec
       (Build_RKE2ControlPlaneTemplateResource (tr_Labels r) (tr_Annotations r)
          (Build_RKE2ControlPlaneTemplateResourceSpec (trs_RKE2ConfigSpec s)
             (mtpl_with_taints (omit_empty (machine_taints (trs_MachineTemplate s)))
                (mtpl_with_infra zero_cvref (trs_MachineTemplate s)))
             (trs_ServerConfig s) (trs_ManifestsConfigMapReference s) (trs_RegistrationMethod s)
             (trs_RegistrationAddress s) (trs_RolloutStrategy s) (trs_RemediationStrategy s)))).

Lemma template_roundtrip_run h spoke :
  RKE2ControlPlaneTemplate_ConvertFrom h zero_v1_RKE2ControlPlaneTemplate = Ok spoke →
  timeouts_int32 (template_machine h) →
  RKE2ControlPlaneTemplate_ConvertTo spoke zero_RKE2ControlPlaneTemplate = Ok (roundtrip_template h).
Proof.
  intros Hf Ht. revert Hf.
  unfold RKE2ControlPlaneTemplate_ConvertFrom,
    Convert_v1beta2_RKE2ControlPlaneTemplate_To_v1beta1_RKE2ControlPlaneTemplate,
    Convert_v1beta2_RKE2ControlPlaneTemplateSpec_To_v1beta1_RKE2ControlPlaneTemplateSpec,
    Convert_v1beta2_RKE2ControlPlaneTemplateResource_To_v1beta1_RKE2ControlPlaneTemplateResource,
    Convert_v1beta2_RKE2ControlPlaneTemplateResourceSpec_To_v1beta1_RKE2ControlPlaneSpec,
    Convert_v1beta2_ObjectMeta_To_v1beta1_ObjectMeta.
  rewrite meta_down. cbn [mbind outcome_bind]. rewrite mtpl_down_run. cbn [mbind outcome_bind].
  cbn [V1beta1.tpl_ObjectMeta]. destruct (MarshalData h _) as [a|e|p] eqn:Hm; [|done..].
  intros [= <-]. destruct (unmarshal_marshal _ _ _ Hm) as (h' & Hu & Hk).
  unfold RKE2ControlPlaneTemplate_ConvertTo,
    Convert_v1beta1_RKE2ControlPlaneTemplate_To_v1beta2_RKE2ControlPlaneTemplate,
    Convert_v1beta1_RKE2ControlPlaneTemplateSpec_To_v1beta2_RKE2ControlPlaneTemplateSpec,
    Convert_v1beta1_RKE2ControlPlaneTemplateResource_To_v1beta2_RKE2ControlPlaneTemplateResource,
    Convert_v1beta1_RKE2ControlPlaneSpec_To_v1beta2_RKE2ControlPlaneTemplateResourceSpec,
    Convert_v1beta1_ObjectMeta_To_v1beta2_ObjectMeta.
  rewrite meta_up. cbn [mbind outcome_bind V1beta1.tsp_Template V1beta1.tpl_Spec V1beta1.tr_Spec
    V1beta1.sp_MachineTemplate].
  rewrite (mtpl_up_down _ _ zero_cvref); [|done|reflexivity].
  cbn [mbind outcome_bind V1beta1.tpl_ObjectMeta om_Annotations om_with_annotations].
  rewrite Hu. cbn [mbind outcome_bind]. rewrite Hk.
  destruct h as [om [[la an [cs t sc mf rm ra ro re]]]].
  unfold roundtrip_template, tpl_with_taints. cbn -[Convert_v1beta1_RKE2ConfigSpec_To_v1beta2_RKE2ConfigSpec
    Convert_v1beta2_RKE2ConfigSpec_To_v1beta1_RKE2ConfigSpec].
  do 5 f_equal; apply retract.
Qed.

End conversion.

(** ** An instance of the libraries

    Values are stored in an annotation as the digits of their encoding. *)

Fixpoint digits (p : positive) : string :=
  match p with
  | xH => ""
  | xO p => String "0"%char (digits p)
  | xI p => String "1"%char (digits p)
  end.
Fixpoint undigits (s : string) : positive :=
  match s with
  | EmptyString => xH
  | String c s => if decide (c = "0"%char) then xO (undigits s) else xI (undigits s)
  end.
Lemma undigits_digits p : undigits (digits p) = p.
Proof. by induction p as [p IH|p IH|]; cbn; rewrite ?decide_True, ?decide_False, ?IH by done. Qed.

Section plain.
Context {H K : Type} `{Countable K} (pack : H → K) (unpack : K → H).

Definition plain_Marshal (h : H) (a : strmap) : outcome strmap :=
  Ok (Some (<[DataAnnotation := digits (encode (pack h))]> (default ∅ a))).
Definition plain_Unmarshal (a : strmap) : outcome (option (H * strmap)) :=
  match map_get a DataAnnotation with
  | None => Ok None
  | Some s => match decode (undigits s) with
              | Some k => Ok (Some (unpack k, map_del a DataAnnotation))
              | None => Err (EText "json")
              end
  end.
Definition plain_HubData : HubData H :=
  {| MarshalData := plain_Marshal; UnmarshalData := plain_Unmarshal |}.

Lemma plain_HubLaws (keeps : H → H → Prop) :
  (∀ h, keeps h (unpack (pack h))) → @HubLaws H plain_HubData keeps.
Proof.
  intros Hk. split.
  - intros a Ha. cbn. unfold plain_Unmarshal. by rewrite Ha.
  - intros h a a' [= <-]. exists (unpack (pack h)). split; [|done].
    cbn. unfold plain_Unmarshal. cbn. rewrite lookup_insert_eq, undigits_digits, decode_encode.
    by rewrite delete_insert_eq.
Qed.
End plain.

Definition taint_tuple (t : MachineTaint) : string * string * string * string :=
  (mt_Key t, mt_Value t, mt_Effect t, mt_Propagation t).
Definition tuple_taint (t : string * string * string * string) : MachineTaint :=
  let '(k, v, e, p) := t in Build_MachineTaint k v e p.
Definition taints_of (l : list (string * string * string * string)) : slice MachineTaint :=
  omit_empty (Some (map tuple_taint l)).

Definition rcp_pack (h : RKE2ControlPlane) :=
  (map taint_tuple (elems (machine_taints (sp_MachineTemplate (rcp_Spec h)))),
   st_ControlPlaneInitialized (rcp_Status h)).
Definition rcp_unpack (k : list (string * string * string * string) * option bool) : RKE2ControlPlane :=
  let z := zero_RKE2ControlPlane in
  Build_RKE2ControlPlane om_empty
    (sp_with_template (mtpl_with_taints (taints_of k.1) zero_machine_template) (rcp_Spec z))
    (st_with_initialized k.2 (rcp_Status z)).
Definition rcpt_pack (h : RKE2ControlPlaneTemplate) :=
  map taint_tuple (elems (machine_taints (template_machine h))).
Definition rcpt_unpack (k : list (string * string * string * string)) : RKE2ControlPlaneTemplate :=
  Build_RKE2ControlPlaneTemplate om_empty
    (tpl_with_taints (taints_of k) zero_RKE2ControlPlaneTemplate).
Definition config_pack (h : RKE2Config) : option bool := cst_DataSecretCreated (cfg_Status h).
Definition config_unpack (k : option bool) : RKE2Config :=
  cfg_with om_empty (cst_with_created k (cfg_Status zero_RKE2Config)) zero_RKE2Config.

Lemma taints_of_tuples (s : slice MachineTaint) :
  taints_of (map taint_tuple (elems s)) = omit_empty s.
Proof.
  assert (∀ l, map tuple_taint (map taint_tuple l) = l) as Hl.
  { intros l. induction l as [|[] l IH]; cbn; [done|by rewrite IH]. }
  unfold taints_of. rewrite Hl. by destruct s as [[]|].
Qed.

(** A server that serves version v1beta2 of every group; a version is read up to
    the slash. *)
Definition plain_conv_lib : ConvLib := {|
  capi_Convert_v1beta1_Condition_To_v1_Condition c :=
    Ok (Build_Condition (V1beta1.cond_Type c) (V1beta1.cond_Status c) (V1beta1.cond_Reason c)
          (V1beta1.cond_Message c) (V1beta1.cond_LastTransitionTime c));
  capi_Convert_v1_Condition_To_v1beta1_Condition c :=
    Ok (V1beta1.Build_CapiCondition (cond_Type c) (cond_Status c) ""
          (cond_LastTransitionTime c) (cond_Reason c) (cond_Message c));
  capi_Convert_v1beta1_ObjectMeta_To_v1beta2_ObjectMeta m := Ok m;
  capi_Convert_v1beta2_ObjectMeta_To_v1beta1_ObjectMeta m := Ok m;
  ConvertToSeconds d := (λ d : Z, Z.min MaxInt32 (d `quot` Second)) <$> d;
  ConvertFromSeconds s := (λ s : Z, s * Second)%Z <$> s;
  Convert_bool_To_Pointer_bool b has o out :=
    if b then Some true
    else if has then if decide (o = Some false) then Some false else out else out;
  Convert_int32_To_Pointer_int32 z := Ok (Some z);
  Convert_Pointer_int32_To_int32 o := Ok (default 0%Z o);
  Convert_string_To_Pointer_string s := Ok (Some s);
  Convert_Pointer_string_To_string o := Ok (default "" o);
  ParseGroupVersion v := if decide (v = "infrastructure.cluster.x-k8s.io/v1beta2")
    then Ok ("infrastructure.cluster.x-k8s.io", "v1beta2") else Err (EText "unexpected GroupVersion string");
  IsDefined r := bool_decide (r ≠ Build_ContractVersionedObjectReference "" "" "");
  apiVersionGetter g _ := if decide (g = "infrastructure.cluster.x-k8s.io")
    then Ok "infrastructure.cluster.x-k8s.io/v1beta2" else Err (EText "no matches for kind");
  RCPData := plain_HubData rcp_pack rcp_unpack;
  RCPTemplateData := plain_HubData rcpt_pack rcpt_unpack;
  ConfigData := plain_HubData config_pack config_unpack;
  ConfigTemplateData := plain_HubData (λ _, tt)
    (λ _, Build_RKE2ConfigTemplate om_empty
            (Build_RKE2ConfigTemplateSpec (Build_RKE2ConfigTemplateResource zero_config_spec)))
|}.

Lemma plain_conv_laws : @ConvLaws plain_conv_lib.
Proof.
  split; try done; cbn.
  - intros z Hz. f_equal. rewrite Z.quot_mul by done. unfold MaxInt32. lia.
  - intros g k v. case_decide as Hg; [|done]. intros [= <-]. subst g. split; [done|by eexists].
  - apply plain_HubLaws. intros h. split; [apply taints_of_tuples|done].
  - apply plain_HubLaws. intros h. apply taints_of_tuples.
  - by apply plain_HubLaws.
  - by apply plain_HubLaws.
Qed.

(** ** The claims *)

(** C21: a v1beta2 control plane that is read as v1beta1 and written back is the
    object it was: the whole spec (the machine template's infrastructure reference,
    timeouts and taints included), the conditions, the replica counters of the
    status and whether it is initialized, unset apart from false.  Three things may
    differ: the conversion data is not left among the annotations (which are no
    longer nil), an empty list of taints becomes nil, and a number of replicas that
    was not set becomes 0. *)
Theorem RKE2ControlPlane_roundtrip `{ConvLaws} (h : RKE2ControlPlane) spoke :
  RKE2ControlPlane_ConvertFrom h zero_v1_RKE2ControlPlane = Ok spoke →
  timeouts_int32 (sp_MachineTemplate (rcp_Spec h)) →
  RKE2ControlPlane_ConvertTo spoke zero_RKE2ControlPlane = Ok (roundtrip_rcp h).
Proof. apply rcp_roundtrip_run. Qed.

(** A control plane with a timeout and a taint. *)
Definition demo_taint : MachineTaint := Build_MachineTaint "dedicated" "cp" "NoSchedule" "Always".
Definition demo_hub : RKE2ControlPlane :=
  Build_RKE2ControlPlane (demo_meta "cp")
    (sp_with_template (Build_RKE2ControlPlaneMachineTemplate None None
       (Build_RKE2ControlPlaneMachineTemplateSpec demo_ref
          (Build_RKE2ControlPlaneMachineTemplateDeletionSpec (Some 300%Z) None None)
          (Some [demo_taint]))) (demo_spec 3)) (demo_status false).
Definition ok_or {A} (d : A) (o : outcome A) : A := match o with Ok a => a | _ => d end.
Definition demo_spoke : V1beta1.RKE2ControlPlane :=
  ok_or zero_v1_RKE2ControlPlane
    (@RKE2ControlPlane_ConvertFrom plain_conv_lib demo_hub zero_v1_RKE2ControlPlane).

Lemma RKE2ControlPlane_roundtrip_witness :
  @RKE2ControlPlane_ConvertTo plain_conv_lib demo_spoke zero_RKE2ControlPlane =
  Ok (roundtrip_rcp demo_hub).
Proof.
  apply (@RKE2ControlPlane_roundtrip plain_conv_lib plain_conv_laws demo_hub).
  - vm_compute. reflexivity.
  - unfold timeouts_int32, int32_opt; cbn; repeat split; intros; naive_solver lia.
Defined.

(** What a v1beta1 client changes is kept, and what it cannot see survives.  Take
    the annotations of an object a control plane [h] was converted to and any v1beta1
    object [src] with them: when its conversion succeeds, the spec is that of [src],
    with the taints of [h]; the control plane is initialized when [src] says so, and
    otherwise unset, unless [h] had it false; the conversion data is gone. *)
Theorem RKE2ControlPlane_ConvertTo_edit `{ConvLaws} (h : RKE2ControlPlane) a a' src dst :
  MarshalData h a = Ok a' →
  om_Annotations (V1beta1.rcp_ObjectMeta src) = a' →
  RKE2ControlPlane_ConvertTo src zero_RKE2ControlPlane = Ok dst →
  (∃ spec, Convert_v1beta1_RKE2ControlPlaneSpec_To_v1beta2_RKE2ControlPlaneSpec (V1beta1.rcp_Spec src)
             (rcp_Spec zero_RKE2ControlPlane) = Ok spec ∧
     rcp_Spec dst = sp_with_template (mtpl_with_taints
       (omit_empty (machine_taints (sp_MachineTemplate (rcp_Spec h)))) (sp_MachineTemplate spec)) spec) ∧
  st_ControlPlaneInitialized (rcp_Status dst) =
    (if V1beta1.st_Initialized (V1beta1.rcp_Status src) then Some true
     else if decide (st_ControlPlaneInitialized (rcp_Status h) = Some false) then Some false
     else None) ∧
  map_get (om_Annotations (rcp_ObjectMeta dst)) DataAnnotation = None.
Proof.
  intros Hm Ha Hc. destruct (unmarshal_marshal _ _ _ Hm) as (h' & Hu & Ht & Hi).
  destruct (ConvertTo_inv _ _ Hc) as (spec & Hs & found & Hf & Hd).
  rewrite Ha, Hu in Hf. injection Hf as <-. destruct Hd as (Hom & Hsp & Hin).
  rewrite Ht in Hsp. rewrite Hin, Hom, Hi. split; [by eexists|]. split.
  - destruct (V1beta1.st_Initialized _); [apply bool_true|apply bool_false].
  - cbn. apply lookup_delete_eq.
Qed.

(** The object the client sees, with another registration address, reported initialized. *)
Definition demo_edited : V1beta1.RKE2ControlPlane :=
  let s := V1beta1.rcp_Spec demo_spoke in
  V1beta1.Build_RKE2ControlPlane (V1beta1.rcp_ObjectMeta demo_spoke)
    (V1beta1.Build_RKE2ControlPlaneSpec (V1beta1.sp_RKE2ConfigSpec s) (V1beta1.sp_Replicas s)
       (V1beta1.sp_Version s) (V1beta1.sp_MachineTemplate s) (V1beta1.sp_ServerConfig s)
       (V1beta1.sp_ManifestsConfigMapReference s) (V1beta1.sp_InfrastructureRef s)
       (V1beta1.sp_NodeDrainTimeout s) (V1beta1.sp_RegistrationMethod s) "updated.example.com"
       (V1beta1.sp_RolloutStrategy s) (V1beta1.sp_RemediationStrategy s))
    (V1beta1.rcp_Status demo_spoke).
Definition demo_edited_hub : RKE2ControlPlane :=
  ok_or zero_RKE2ControlPlane
    (@RKE2ControlPlane_ConvertTo plain_conv_lib demo_edited zero_RKE2ControlPlane).

Lemma RKE2ControlPlane_ConvertTo_edit_witness :
  sp_RegistrationAddress (rcp_Spec demo_edited_hub) = "updated.example.com" ∧
  st_ControlPlaneInitialized (rcp_Status demo_edited_hub) = Some false.
Proof.
  split; [vm_compute; reflexivity|].
  destruct (@RKE2ControlPlane_ConvertTo_edit plain_conv_lib plain_conv_laws demo_hub
    (om_Annotations (rcp_ObjectMeta demo_hub)) (om_Annotations (V1beta1.rcp_ObjectMeta demo_edited))
    demo_edited demo_edited_hub) as (_ & Hi & _).
  - vm_compute. reflexivity.
  - reflexivity.
  - vm_compute. reflexivity.
  - rewrite Hi. vm_compute. reflexivity.
Defined.

(** An object written as v1beta1 without conversion data (by a client that never
    read it as such, or stored before v1beta2 existed) is never initialized after
    its conversion, even when its status says [initialized: true]: [ConvertTo]
    returns before it looks at the status. *)
Theorem RKE2ControlPlane_ConvertTo_forgets `{ConvLaws} src dst :
  map_get (om_Annotations (V1beta1.rcp_ObjectMeta src)) DataAnnotation = None →
  RKE2ControlPlane_ConvertTo src zero_RKE2ControlPlane = Ok dst →
  rcp_initialized dst = false ∧ st_ControlPlaneInitialized (rcp_Status dst) = None.
Proof.
  intros Ha Hc. destruct (ConvertTo_inv _ _ Hc) as (spec & Hs & found & Hf & Hd).
  rewrite (unmarshal_absent _ Ha) in Hf. injection Hf as <-. destruct Hd as (_ & _ & Hin).
  unfold rcp_initialized. by rewrite Hin.
Qed.

(** An initialized control plane of a v1beta1 store. *)
Definition demo_old : V1beta1.RKE2ControlPlane :=
  V1beta1.Build_RKE2ControlPlane (demo_meta "cp") zero_v1_spec
    (V1beta1.Build_RKE2ControlPlaneStatus true true None "" "" 0%Z [] 3%Z None 3%Z 3%Z 0%Z None None None).

Lemma RKE2ControlPlane_ConvertTo_forgets_witness :
  V1beta1.st_Initialized (V1beta1.rcp_Status demo_old) = true ∧
  rcp_initialized (ok_or zero_RKE2ControlPlane
    (@RKE2ControlPlane_ConvertTo plain_conv_lib demo_old zero_RKE2ControlPlane)) = false.
Proof.
  split; [reflexivity|].
  refine (proj1 (@RKE2ControlPlane_ConvertTo_forgets plain_conv_lib plain_conv_laws demo_old _ _ _));
    vm_compute; reflexivity.
Defined.

(** Bootstrap configurations round trip: an RKE2Config that is read as v1beta1
    and written back has the same spec and status (only the type information, which
    the caller sets, and the conversion data differ), and so has the spec of an
    RKE2ConfigTemplate. *)
Theorem RKE2Config_roundtrip `{ConvLaws} :
  (∀ h spoke, RKE2Config_ConvertFrom h zero_v1_RKE2Config = Ok spoke →
     RKE2Config_ConvertTo spoke zero_RKE2Config = Ok (roundtrip_config h)) ∧
  (∀ h spoke, RKE2ConfigTemplate_ConvertFrom h = Ok spoke →
     ∃ h', RKE2ConfigTemplate_ConvertTo spoke = Ok h' ∧ ct_Spec h' = ct_Spec h).
Proof.
  split; [apply config_roundtrip_run|].
  intros h spoke Hf. eexists. split; [by apply config_template_roundtrip_run|done].
Qed.

Lemma RKE2Config_roundtrip_witness :
  @RKE2Config_ConvertTo plain_conv_lib (ok_or zero_v1_RKE2Config
    (@RKE2Config_ConvertFrom plain_conv_lib demo_config zero_v1_RKE2Config)) zero_RKE2Config =
  Ok (roundtrip_config demo_config).
Proof.
  apply (proj1 (@RKE2Config_roundtrip plain_conv_lib plain_conv_laws)).
  vm_compute. reflexivity.
Defined.

(** A control plane template comes back from v1beta1 without its infrastructure
    reference, whatever it was: [ConvertFrom] of a template does not write it to the
    v1beta1 object and [ConvertTo] does not take it from the conversion data.  All
    else round trips. *)
Theorem RKE2ControlPlaneTemplate_loses_infra `{ConvLaws} (h : RKE2ControlPlaneTemplate) spoke :
  RKE2ControlPlaneTemplate_ConvertFrom h zero_v1_RKE2ControlPlaneTemplate = Ok spoke →
  timeouts_int32 (template_machine h) →
  RKE2ControlPlaneTemplate_ConvertTo spoke zero_RKE2ControlPlaneTemplate = Ok (roundtrip_template h) ∧
  ts_InfrastructureRef (mtpl_Spec (template_machine (roundtrip_template h))) = zero_cvref.
Proof. intros Hf Ht. split; [by apply template_roundtrip_run|done]. Qed.

Definition demo_hub_template : RKE2ControlPlaneTemplate :=
  Build_RKE2ControlPlaneTemplate (demo_meta "t")
    (Build_RKE2ControlPlaneTemplateSpec (Build_RKE2ControlPlaneTemplateResource None None
       (Build_RKE2ControlPlaneTemplateResourceSpec demo_config_spec demo_template demo_server_config
          zero_ref "" "" None None))).

Lemma RKE2ControlPlaneTemplate_loses_infra_witness :
  ts_InfrastructureRef (mtpl_Spec (template_machine demo_hub_template)) = demo_ref ∧
  ts_InfrastructureRef (mtpl_Spec (template_machine (roundtrip_template demo_hub_template))) = zero_cvref.
Proof.
  split; [reflexivity|].
  refine (proj2 (@RKE2ControlPlaneTemplate_loses_infra plain_conv_lib plain_conv_laws demo_hub_template
    (ok_or zero_v1_RKE2ControlPlaneTemplate (@RKE2ControlPlaneTemplate_ConvertFrom plain_conv_lib
       demo_hub_template zero_v1_RKE2ControlPlaneTemplate)) _ _)).
  - vm_compute. reflexivity.
  - unfold timeouts_int32, int32_opt; cbn; repeat split; intros; naive_solver lia.
Defined.
