(* ===== verification/BWorld.v ===== *)
(** * The world of the bootstrap controller

    The bootstrap controller keeps the [RKE2Config] it reconciles in memory and
    calls the management cluster, the init lock and a source of random bytes.
    [BCall] lists those calls, [BEnv] answers them in any way that may depend on
    all that happened before, and [BWorld] is the object in memory with the calls
    made so far, each with whether it succeeded, the latest first.

    [keeps_inv I m] says that the computation [m] preserves [I] whatever way it
    ends; [inv_auto] proves it along the structure of [m]. *)

From stdpp Require Import base tactics option list gmap strings numbers.
From S2P Require Import Prelude Go Api Objects Libs World.
Open Scope string_scope.
Open Scope list_scope.
Open Scope stdpp_scope.

(** ** Objects *)

(** What the bootstrap controller reads of a Cluster beyond [Cluster]. *)
Record BCluster := {
  bc_Cluster : Cluster; bc_APIVersion : string; bc_Kind : string;
  bc_PodsCIDRBlocks : list string; bc_ServicesCIDRBlocks : list string;
  bc_ControlPlaneRef : string; (* Spec.ControlPlaneRef.Name *)
  bc_Conditions : list Condition
}.
Definition bc_Name (c : BCluster) : string := cl_Name (bc_Cluster c).
Definition bc_Namespace (c : BCluster) : string := cl_Namespace (bc_Cluster c).
Definition bc_Endpoint (c : BCluster) : string := (cl_ControlPlaneEndpoint (bc_Cluster c)).1.

Record MachinePool := {
  mp_Name : string; mp_Namespace : string; mp_ClusterName : string;
  mp_ConfigRef : ContractVersionedObjectReference; (* Spec.Template.Spec.Bootstrap.ConfigRef *)
  mp_DataSecretName : option string; (* Spec.Template.Spec.Bootstrap.DataSecretName *)
  mp_Version : string (* Spec.Template.Spec.Version *)
}.

Record Secret := {
  sec_Name : string; sec_Namespace : string; sec_Labels : gmap string string;
  sec_Owner : OwnerReference; sec_Data : gmap string string; sec_Type : string
}.

(** ** Calls *)

Inductive BCall :=
(* reading *)
| BGetSecret (ns name : string)
| BGetConfigMap (ns name : string)
| BGetRKE2Config
| BGetOwnerMachine (c : RKE2Config)
| BGetOwnerMachinePool (c : RKE2Config)
| BGetControlPlane (ns name : string)
| BGetCluster (ns name : string)
| BListMachines (ns cluster : string)
| BListMachinePools (ns cluster : string)
| BRandom (size : Z)
(* writing *)
| BCreateSecret (s : Secret)
| BUpdateSecret (s : Secret)
| BLookupOrGenerateCertificates (legacy : bool)
| BNewPatchHelper
| BPatchConfig (before after : RKE2Config) (observed : bool)
(* the init lock: it answers whether it succeeded *)
| BLock (cluster machine : string)
| BUnlock (cluster : string).

(** The data of a secret or of a config map is a map.  The certificates are known
    by the files they become. *)
Definition banswer (c : BCall) : Type :=
  match c with
  | BGetSecret _ _ | BGetConfigMap _ _ => strmap
  | BGetRKE2Config => RKE2Config
  | BGetOwnerMachine _ => option Machine
  | BGetOwnerMachinePool _ => option MachinePool
  | BGetControlPlane _ _ => RKE2ControlPlane
  | BGetCluster _ _ => BCluster
  | BListMachines _ _ => list Machine
  | BListMachinePools _ _ => list MachinePool
  | BRandom _ => string
  | BLookupOrGenerateCertificates _ => list File
  | BLock _ _ | BUnlock _ => bool
  | _ => unit
  end.

(** A call and whether it succeeded. *)
Abbreviation BEvent := (BCall * bool)%type (only parsing).

Class BEnv := bask : list BEvent → ∀ c : BCall, error + banswer c.

Record BWorld := { b_cfg : RKE2Config; b_log : list BEvent }.

Abbreviation B := (comp BWorld).

(** A lock operation succeeds when it answers true. *)
Definition answered_ok (c : BCall) : banswer c → bool :=
  match c with BLock _ _ | BUnlock _ => λ b, b | _ => λ _, true end.

Definition bapi `{BEnv} (c : BCall) : B (banswer c) := λ w,
  match bask (b_log w) c with
  | inl e => (Err e, Build_BWorld (b_cfg w) ((c, false) :: b_log w))
  | inr a => (Ok a, Build_BWorld (b_cfg w) ((c, answered_ok c a) :: b_log w))
  end.

(** The lock interface returns a bool and no error: an error is a false. *)
Definition block `{BEnv} (c : BCall) (ok : banswer c → bool) : B bool := λ w,
  match bask (b_log w) c with
  | inl _ => (Ok false, Build_BWorld (b_cfg w) ((c, false) :: b_log w))
  | inr a => (Ok (ok a), Build_BWorld (b_cfg w) ((c, ok a) :: b_log w))
  end.

(** [fmt.Errorf("msg: %w", err)] on the way out. *)
Definition bwrap {S A} (msg : string) (m : comp S A) : comp S A := λ w,
  match m w with (Err e, w') => (Err (EWrap msg e), w') | r => r end.

(** [defer]: the deferred function sees the outcome and may change it. *)
Definition defer {S A} (m : comp S A) (d : outcome A → comp S (outcome A)) : comp S A := λ w,
  let '(o, w1) := m w in
  match d o w1 with
  | (Ok o', w2) => (o', w2)
  | (Err e, w2) => (Err e, w2)
  | (Panic p, w2) => (Panic p, w2)
  end.

Definition get_cfg : B RKE2Config := gets b_cfg.
Definition set_cfg (c : RKE2Config) : B unit := modify (λ w, Build_BWorld c (b_log w)).
Definition modify_cfg (f : RKE2Config → RKE2Config) : B unit :=
  modify (λ w, Build_BWorld (f (b_cfg w)) (b_log w)).

Lemma comp_bind_ok {S A C} (m : comp S A) (f : A → comp S C) s a s' :
  m s = (Ok a, s') → (m ≫= f) s = f a s'.
Proof. intros Hm. unfold mbind, comp_bind. by rewrite Hm. Qed.

(** ** Invariants *)

Definition keeps_inv {S A} (I : S → Prop) (m : comp S A) : Prop := ∀ s, I s → I (m s).2.

Section inv.
Context {S : Type} (I : S → Prop).

Lemma inv_ret {A} (a : A) : keeps_inv I (mret a).
Proof. by intros s. Qed.
Lemma inv_fail {A} e : keeps_inv I (fail (A := A) e).
Proof. by intros s. Qed.
Lemma inv_panic {A} p : keeps_inv I (panic (A := A) p).
Proof. by intros s. Qed.
Lemma inv_lift {A} (o : outcome A) : keeps_inv I (lift o).
Proof. by intros s. Qed.
Lemma inv_gets {A} (f : S → A) : keeps_inv I (gets f).
Proof. by intros s. Qed.
Lemma inv_bind {A B} (m : comp S A) (f : A → comp S B) :
  keeps_inv I m → (∀ a, keeps_inv I (f a)) → keeps_inv I (m ≫= f).
Proof.
  intros Hm Hf s Hs. specialize (Hm s Hs). unfold mbind, comp_bind.
  destruct (m s) as [[a|e|p] s']; [by apply Hf|done..].
Qed.
Lemma inv_try {A} (m : comp S A) : keeps_inv I m → keeps_inv I (try m).
Proof. intros Hm s Hs. specialize (Hm s Hs). unfold try. by destruct (m s) as [[a|e|p] s']. Qed.
Lemma inv_bwrap {A} msg (m : comp S A) : keeps_inv I m → keeps_inv I (bwrap msg m).
Proof. intros Hm s Hs. specialize (Hm s Hs). unfold bwrap. by destruct (m s) as [[a|e|p] s']. Qed.
Lemma inv_defer {A} (m : comp S A) d :
  keeps_inv I m → (∀ o, keeps_inv I (d o)) → keeps_inv I (defer m d).
Proof.
  intros Hm Hd s Hs. specialize (Hm s Hs). unfold defer. destruct (m s) as [o s1].
  specialize (Hd o s1 Hm). by destruct (d o s1) as [[o'|e|p] s2].
Qed.
Lemma inv_for_acc {A B} (l : list A) (b : B) f :
  (∀ b x, keeps_inv I (f b x)) → keeps_inv I (for_acc l b f).
Proof.
  intros Hf. revert b. induction l as [|x l IH]; intros b; [apply inv_ret|].
  simpl. apply inv_bind; [apply Hf|apply IH].
Qed.
End inv.

(** What a call may change: [I] holds after it whatever the answer. *)
Lemma inv_bapi `{BEnv} (I : BWorld → Prop) c :
  (∀ w ok, I w → I (Build_BWorld (b_cfg w) ((c, ok) :: b_log w))) → keeps_inv I (bapi c).
Proof. intros Hc w Hw. unfold bapi. destruct (bask _ c); by apply Hc. Qed.
Lemma inv_block `{BEnv} (I : BWorld → Prop) c ok :
  (∀ w b, I w → I (Build_BWorld (b_cfg w) ((c, b) :: b_log w))) → keeps_inv I (block c ok).
Proof. intros Hc w Hw. unfold block. destruct (bask _ c); by apply Hc. Qed.
Lemma inv_modify_cfg (I : BWorld → Prop) f :
  (∀ w, I w → I (Build_BWorld (f (b_cfg w)) (b_log w))) → keeps_inv I (modify_cfg f).
Proof. intros Hf w Hw. by apply Hf. Qed.
Lemma inv_set_cfg (I : BWorld → Prop) c :
  (∀ w, I w → I (Build_BWorld c (b_log w))) → keeps_inv I (set_cfg c).
Proof. intros Hf w Hw. by apply Hf. Qed.

(** One step along the structure; branches are taken apart, and what is left is
    about single calls and assignments. *)
Ltac inv_step :=
  lazymatch goal with
  | |- keeps_inv _ (mret _) => apply inv_ret
  | |- keeps_inv _ (fail _) => apply inv_fail
  | |- keeps_inv _ (panic _) => apply inv_panic
  | |- keeps_inv _ (lift _) => apply inv_lift
  | |- keeps_inv _ (gets _) => apply inv_gets
  | |- keeps_inv _ get_cfg => apply inv_gets
  | |- keeps_inv _ (mbind _ _) => apply inv_bind; [|intros ?]
  | |- keeps_inv _ (try _) => apply inv_try
  | |- keeps_inv _ (bwrap _ _) => apply inv_bwrap
  | |- keeps_inv _ (for_acc _ _ _) => apply inv_for_acc; intros ? ?
  | |- keeps_inv _ (let '(_, _) := ?p in _) => destruct p
  | |- keeps_inv _ (match ?x with _ => _ end) => destruct x
  end.
Ltac inv_auto := repeat inv_step.

(** A computation that makes only calls satisfying [P] and does not touch the
    configuration: what reading the management cluster looks like. *)
Definition reads {A} (P : BCall → Prop) (m : B A) : Prop :=
  ∀ w, b_cfg (m w).2 = b_cfg w ∧
       ∃ l, b_log (m w).2 = l ++ b_log w ∧ Forall (λ ev, P (ev : BEvent).1) l.

Section reads.
Context (P : BCall → Prop).

Lemma reads_silent {A} (m : B A) : (∀ w, (m w).2 = w) → reads P m.
Proof. intros Hm w. rewrite Hm. split; [done|]. by exists []. Qed.
Lemma reads_bind {A C} (m : B A) (f : A → B C) :
  reads P m → (∀ a, reads P (f a)) → reads P (m ≫= f).
Proof.
  intros Hm Hf w. destruct (Hm w) as [Hc (l & Hl & Hp)]. unfold mbind, comp_bind.
  destruct (m w) as [[a|e|p] w1]; [|by split; [|exists l]..]. cbn in *.
  destruct (Hf a w1) as [Hc' (l' & Hl' & Hp')]. rewrite Hc', Hl', Hl, Hc. split; [done|].
  exists (l' ++ l). rewrite <-app_assoc. split; [done|]. by apply Forall_app.
Qed.
Lemma reads_try {A} (m : B A) : reads P m → reads P (try m).
Proof. intros Hm w. specialize (Hm w). unfold try. by destruct (m w) as [[a|e|p] w1]. Qed.
Lemma reads_bwrap {A} msg (m : B A) : reads P m → reads P (bwrap msg m).
Proof. intros Hm w. specialize (Hm w). unfold bwrap. by destruct (m w) as [[a|e|p] w1]. Qed.
Lemma reads_for_acc {A C} (l : list A) (b : C) f :
  (∀ b x, reads P (f b x)) → reads P (for_acc l b f).
Proof.
  intros Hf. revert b. induction l as [|x l IH]; intros b; [by apply reads_silent|].
  simpl. apply reads_bind; [apply Hf|apply IH].
Qed.
Lemma reads_bapi `{BEnv} c : P c → reads P (bapi c).
Proof.
  intros Hc w. unfold bapi. destruct (bask _ c); (split; [done|]);
    eexists [_]; (split; [done|]); by repeat constructor.
Qed.

(** What reading preserves: anything that only grows with the calls of [P]. *)
Lemma reads_inv {A} (I : BWorld → Prop) (m : B A) :
  (∀ w c ok, P c → I w → I (Build_BWorld (b_cfg w) ((c, ok) :: b_log w))) →
  reads P m → keeps_inv I m.
Proof.
  intros HI Hm w Hw. destruct (Hm w) as [Hc (l & Hl & Hp)].
  destruct (m w).2 as [c lg]. cbn in *. subst c lg. clear Hm.
  induction l as [|[c ok] l IH]; [by destruct w|].
  inversion Hp as [|? ? Hp1 Hp2]; subst. cbn.
  apply (HI (Build_BWorld (b_cfg w) (l ++ b_log w)) c ok Hp1). by apply IH.
Qed.
End reads.

(** A computation that makes only calls satisfying [P], whatever it does to the
    configuration. *)
Definition makes {A} (P : BCall → Prop) (m : B A) : Prop :=
  ∀ w, ∃ l, b_log (m w).2 = l ++ b_log w ∧ Forall (λ ev, P (ev : BEvent).1) l.

Section makes.
Context (P : BCall → Prop).

Lemma makes_silent {A} (m : B A) : (∀ w, b_log (m w).2 = b_log w) → makes P m.
Proof. intros Hm w. rewrite Hm. by exists []. Qed.
Lemma makes_bind {A C} (m : B A) (f : A → B C) :
  makes P m → (∀ a, makes P (f a)) → makes P (m ≫= f).
Proof.
  intros Hm Hf w. destruct (Hm w) as (l & Hl & Hp). unfold mbind, comp_bind.
  destruct (m w) as [[a|e|p] w1]; [|by exists l..]. cbn in *.
  destruct (Hf a w1) as (l' & Hl' & Hp'). rewrite Hl', Hl.
  exists (l' ++ l). rewrite <-app_assoc. split; [done|]. by apply Forall_app.
Qed.
Lemma makes_try {A} (m : B A) : makes P m → makes P (try m).
Proof. intros Hm w. specialize (Hm w). unfold try. by destruct (m w) as [[a|e|p] w1]. Qed.
Lemma makes_bwrap {A} msg (m : B A) : makes P m → makes P (bwrap msg m).
Proof. intros Hm w. specialize (Hm w). unfold bwrap. by destruct (m w) as [[a|e|p] w1]. Qed.
Lemma makes_reads {A} (m : B A) : reads P m → makes P m.
Proof. intros Hm w. apply (Hm w). Qed.
End makes.

Ltac reads_step :=
  lazymatch goal with
  | |- reads _ (mret _) => by apply reads_silent
  | |- reads _ (fail _) => by apply reads_silent
  | |- reads _ (panic _) => by apply reads_silent
  | |- reads _ (lift _) => by apply reads_silent
  | |- reads _ (gets _) => by apply reads_silent
  | |- reads _ get_cfg => by apply reads_silent
  | |- reads _ (mbind _ _) => apply reads_bind; [|intros ?]
  | |- reads _ (try _) => apply reads_try
  | |- reads _ (bwrap _ _) => apply reads_bwrap
  | |- reads _ (for_acc _ _ _) => apply reads_for_acc; intros ? ?
  | |- reads _ (bapi ?c) => apply (reads_bapi _ c); try exact Logic.I
  | |- reads _ (let '(_, _) := ?p in _) => destruct p
  | |- reads _ (match ?x with _ => _ end) => destruct x
  end.
Ltac reads_auto := repeat reads_step.

Ltac makes_step :=
  lazymatch goal with
  | |- makes _ (mbind _ _) => apply makes_bind; [|intros ?]
  | |- makes _ (try _) => apply makes_try
  | |- makes _ (bwrap _ _) => apply makes_bwrap
  | |- makes _ (bapi ?c) => apply makes_reads, (reads_bapi _ c); try exact Logic.I
  | |- makes _ (let '(_, _) := ?p in _) => destruct p
  | |- makes _ (match ?x with _ => _ end) => destruct x
  | |- makes _ _ => by apply makes_silent
  end.
Ltac makes_auto := repeat makes_step.

(** ** Results

    [returns Q m]: whatever [m] returns satisfies [Q]. *)

Definition returns {S A} (Q : A → Prop) (m : comp S A) : Prop :=
  ∀ s a s', m s = (Ok a, s') → Q a.

Section returns.
Context {S : Type}.

Lemma returns_ret {A} (Q : A → Prop) (a : A) : Q a → returns Q (mret (M := comp S) a).
Proof. by intros Ha s a' s' [= <- _]. Qed.
Lemma returns_fail {A} (Q : A → Prop) e : returns Q (fail (S := S) e).
Proof. by intros s a s' [=]. Qed.
Lemma returns_panic {A} (Q : A → Prop) p : returns Q (panic (S := S) p).
Proof. by intros s a s' [=]. Qed.
Lemma returns_bind {A B} (R : A → Prop) (Q : B → Prop) (m : comp S A) (f : A → comp S B) :
  returns R m → (∀ a, R a → returns Q (f a)) → returns Q (m ≫= f).
Proof.
  intros Hm Hf s b s'. unfold mbind, comp_bind.
  destruct (m s) as [[a|e|p] s1] eqn:E; [|done..]. intros Hb. by eapply Hf, Hb; eapply Hm.
Qed.
Lemma returns_any {A B} (Q : B → Prop) (m : comp S A) (f : A → comp S B) :
  (∀ a, returns Q (f a)) → returns Q (m ≫= f).
Proof. intros Hf. apply (returns_bind (λ _, True)); auto. by intros s a s'. Qed.
Lemma returns_bwrap {A} (Q : A → Prop) msg (m : comp S A) : returns Q m → returns Q (bwrap msg m).
Proof.
  intros Hm s a s'. unfold bwrap. destruct (m s) as [[b|e|p] s1] eqn:E; [|done..].
  intros [= <- _]. by eapply Hm.
Qed.
End returns.
