(* ===== verification/Util.v ===== *)
(** * Versions and small helpers (pkg/util/util.go)

    The regular expression of the source, [v(\d\.\d{2}\.\d)\+rke2r\d], is not
    anchored: it is searched for at every position. *)

From stdpp Require Import base tactics option list gmap strings numbers.
From Stdlib Require Import Ascii.
From S2P Require Import Prelude Go Api Objects Libs.
Open Scope string_scope.
Open Scope list_scope.
Open Scope stdpp_scope.

Definition is_digit (c : ascii) : bool :=
  let n := nat_of_ascii c in (48 <=? n)%nat && (n <=? 57)%nat.

(** A match of the expression at the start of [s]: its group and what follows. *)
Definition match_version (s : string) : option (string * string) :=
  match s with
  | String v (String d1 (String p1 (String d2 (String d3 (String p2 (String d4
      (String plus (String r (String k (String e (String two (String r' (String d5 rest))))))))))))) =>
      if bool_decide (v = "v"%char) && is_digit d1 && bool_decide (p1 = "."%char) && is_digit d2 &&
         is_digit d3 && bool_decide (p2 = "."%char) && is_digit d4 && bool_decide (plus = "+"%char) &&
         bool_decide (r = "r"%char) && bool_decide (k = "k"%char) && bool_decide (e = "e"%char) &&
         bool_decide (two = "2"%char) && bool_decide (r' = "r"%char) && is_digit d5
      then Some (String d1 (String p1 (String d2 (String d3 (String p2 (String d4 ""))))), rest)
      else None
  | _ => None
  end.

(** [regex.MatchString]. *)
Fixpoint IsRKE2Version (s : string) : bool :=
  match match_version s, s with
  | Some _, _ => true
  | None, String _ s' => IsRKE2Version s'
  | None, EmptyString => false
  end.

(** [regex.ReplaceAll] with the group, from left to right; the fuel is the length of
    the string, and each step consumes a character. *)
Fixpoint replace_all (fuel : nat) (s : string) : string :=
  match fuel with
  | 0 => s
  | S n =>
      match match_version s, s with
      | Some (g, rest), _ => g +:+ replace_all n rest
      | None, String c s' => String c (replace_all n s')
      | None, EmptyString => ""
      end
  end.
Definition Rke2ToKubeVersion (s : string) : string := replace_all (String.length s) s.

Lemma match_version_shorter s g rest :
  match_version s = Some (g, rest) → (String.length rest + 14)%nat = String.length s.
Proof.
  intros Hm. unfold match_version in Hm.
  do 14 (destruct s as [|? s]; [done|]). destruct (_ && _); [|done]. injection Hm as <- <-. simpl. lia.
Qed.

(** More fuel than the length changes nothing: the loop has come to its end. *)
Lemma replace_all_enough n m s :
  (String.length s ≤ n)%nat → (String.length s ≤ m)%nat → replace_all n s = replace_all m s.
Proof.
  revert m s. induction n as [|n IH]; intros m s Hn Hm.
  { destruct s; [|simpl in Hn; lia]. by destruct m. }
  destruct m as [|m]; [destruct s; [done|simpl in Hm; lia]|]. simpl.
  destruct (match_version s) as [[g rest]|] eqn:E.
  - apply match_version_shorter in E. f_equal. apply IH; lia.
  - destruct s as [|c s]; [done|]. simpl in Hn, Hm. f_equal. apply IH; lia.
Qed.

(** Without a match the version is left as it is. *)
Lemma Rke2ToKubeVersion_other s : IsRKE2Version s = false → Rke2ToKubeVersion s = s.
Proof.
  unfold Rke2ToKubeVersion. induction s as [|c s IH]; [done|]. intros H.
  cbn [IsRKE2Version replace_all String.length] in *.
  destruct (match_version (String c s)) as [[g rest]|]; [done|]. by rewrite IH.
Qed.

(** [v1[0]] of an empty version panics. *)
Definition with_v (v : string) : outcome string :=
  match v with
  | EmptyString => Panic "index out of range [0] with length 0"
  | String c _ => Ok (if decide (c = "v"%char) then v else "v" +:+ v)
  end.
Definition CompareVersions (v1 v2 : string) : outcome bool :=
  v1 ← with_v v1; v2 ← with_v v2; Ok (bool_decide (v1 = v2)).

(** The machine filter: [None] is a nil machine.  [Rke2ToKubeVersion] has no error. *)
Definition matchesKubernetesOrRKE2Version (rke2Version : string) (machine : option Machine) :
    outcome bool :=
  match machine with
  | None => Ok false
  | Some machine =>
      let v := msp_Version (m_Spec machine) in
      if decide (v = "") then Ok false
      else if IsRKE2Version v then CompareVersions v rke2Version
      else CompareVersions v (Rke2ToKubeVersion rke2Version)
  end.

Definition AppendIfNotPresent (l : list string) (s : string) : list string :=
  if decide (s ∈ l) then l else l ++ [s].

Definition TokenName (cluster : string) : string := cluster +:+ "-token".

(** [keys[:len(keys)-1]] of a map without keys is out of range. *)
Definition GetMapKeysAsString `{GoRange} (m : strmap) : outcome string :=
  let keys := foldl (λ acc kv, acc +:+ kv.1 +:+ ",") "" (go_range 20 (default ∅ m)) in
  match String.length keys with
  | 0 => Panic "slice bounds out of range [:-1]"
  | S n => Ok (String.substring 0 n keys)
  end.

(** [version.MustParseGeneric(v).AtLeast(version.MustParseGeneric(min))]: a version
    that does not parse panics. *)
Class VersionLib := version_AtLeast : string → string → outcome bool.

Definition RKE2_CIS_VERSION_CHANGE : string := "v1.25.0".
Definition AtLeastv125 `{VersionLib} (rke2version : string) : outcome bool :=
  version_AtLeast (Rke2ToKubeVersion rke2version) RKE2_CIS_VERSION_CHANGE.

Definition ProfileCompliant `{VersionLib} (profile version : string) : outcome bool :=
  new ← AtLeastv125 version;
  Ok (if bool_decide (profile = "cis") || bool_decide (profile = "cis-1.23") then new
      else if bool_decide (profile = "cis-1.5") || bool_decide (profile = "cis-1.6") then negb new
      else false).

(** ** What the functions do *)

(** The Kubernetes version of an RKE2 version with a patch number of one digit. *)
Example Rke2ToKubeVersion_one_digit : Rke2ToKubeVersion "v1.30.9+rke2r1" = "1.30.9".
Proof. reflexivity. Qed.

(** A patch number of two digits is not recognized: a machine that has the plain
    Kubernetes version of the control plane's RKE2 version does not match it. *)
Lemma two_digit_patch_does_not_match m :
  msp_Version (m_Spec m) = "v1.30.10" →
  IsRKE2Version "v1.30.10+rke2r1" = false ∧
  matchesKubernetesOrRKE2Version "v1.30.10+rke2r1" (Some m) = Ok false.
Proof. intros Hv. split; [done|]. unfold matchesKubernetesOrRKE2Version. by rewrite Hv. Qed.

Lemma GetMapKeysAsString_empty `{GoRange} m :
  default ∅ m = ∅ → GetMapKeysAsString m = Panic "slice bounds out of range [:-1]".
Proof.
  intros Hm. unfold GetMapKeysAsString. rewrite Hm.
  pose proof (go_range_perm string 20 ∅) as Hp. rewrite map_to_list_empty in Hp.
  apply Permutation_nil_r in Hp. by rewrite Hp.
Qed.
