(* ===== verification/Config.v ===== *)
(** * RKE2 configuration files (pkg/rke2/config.go)

    The configuration of a server or an agent node, as the structs that are
    written to [config.yaml], with the files it refers to.  The secrets and config
    maps it is made of are read from the management cluster, in the order of the
    source; a map is turned into a list in the order [range] gives.

    A field of the yaml structs the code never sets is left out of the records. *)

From stdpp Require Import base tactics option list gmap strings numbers.
From Stdlib Require Import Ascii.
From S2P Require Import Prelude Go Api Objects Libs World BWorld Util Demo.
Open Scope string_scope.
Open Scope list_scope.
Open Scope stdpp_scope.

Definition DefaultRKE2ConfigLocation : string := "/etc/rancher/rke2/config.yaml".
Definition DefaultRKE2CloudProviderConfigLocation : string := "/etc/rancher/rke2/cloud-provider-config".
Definition EncryptionConfigurationLocation : string :=
  "/var/lib/rancher/rke2/server/cred/encryption-config.json".
Definition DefaultFileOwner : string := "root:root".
Definition DefaultFileMode : string := "0644".
Definition FileModeRootExecutable : string := "0700".

(** ** The yaml structs *)

Record rke2AgentConfig := {
  ya_ContainerRuntimeEndpoint : string; ya_CloudProviderConfig : string;
  ya_CloudProviderName : string; ya_DataDir : string;
  ya_ImageCredentialProviderConfig : string; ya_ImageCredentialProviderBinDir : string;
  ya_KubeProxyArgs : slice string; ya_KubeProxyExtraEnv : slice string;
  ya_KubeProxyExtraMounts : slice string; ya_KubeProxyImage : string;
  ya_KubeletArgs : slice string; ya_KubeletPath : string; ya_LbServerPort : Z;
  ya_NodeLabels : slice string; ya_NodeTaints : slice string; ya_Profile : string;
  ya_ProtectKernelDefaults : bool; ya_PodSecurityAdmissionConfigFile : string;
  ya_ResolvConf : string; ya_RuntimeImage : string; ya_Selinux : bool; ya_Server : string;
  ya_Snapshotter : string; ya_Token : string; ya_SystemDefaultRegistry : string
}.

(** What the code takes from a component's configuration. *)
Record component := {
  co_Args : slice string; co_Image : string; co_Mounts : slice string; co_Env : slice string
}.
Definition no_component : component := Build_component None "" None None.

Record s3_config := {
  ys_EtcdS3 : bool; ys_AccessKey : string; ys_SecretKey : string; ys_Bucket : string;
  ys_Region : string; ys_Folder : string; ys_Endpoint : string; ys_EndpointCA : string;
  ys_SkipSslVerify : bool
}.
Record datastore_config := {
  yd_Endpoint : string; yd_CAFile : string; yd_CertFile : string; yd_KeyFile : string
}.

(** [ServerConfig]; the agent part is embedded, and the fields of a component, of the
    S3 backup and of the external datastore are grouped. *)
Record YamlServerConfig := {
  y_Agent : rke2AgentConfig;
  y_AdvertiseAddress : string; y_AuditPolicyFile : string; y_BindAddress : string;
  y_CNI : slice string; y_CloudControllerManager : component;
  y_ClusterDNS : string; y_ClusterDomain : string;
  y_DisableCloudController : bool; y_DisableComponents : slice string;
  y_DisableKubeProxy : bool; y_DisableScheduler : bool;
  y_Etcd : component; y_EtcdDisableSnapshots : option bool; y_EtcdExposeMetrics : bool;
  y_EtcdS3 : s3_config;
  y_EtcdSnapshotDir : string; y_EtcdSnapshotName : string; y_EtcdSnapshotRetention : string;
  y_EtcdSnapshotScheduleCron : string; y_IngressController : slice string;
  y_KubeAPIServer : component; y_KubeControllerManager : component; y_KubeScheduler : component;
  y_ServiceNodePortRange : string; y_TLSSan : slice string; y_EmbeddedRegistry : bool;
  y_SupervisorMetrics : bool; y_Datastore : datastore_config; y_SecretsEncryptionProvider : string;
  y_ClusterCIDR : string; y_ServiceCIDR : string
}.

Record ServerConfigOpts := {
  so_Cluster : BCluster; so_ControlPlaneEndpoint : string; so_Token : string;
  so_ServerURL : string; so_ServerConfig : RKE2ServerConfig; so_AgentConfig : RKE2AgentConfig;
  so_Version : string
}.
Record AgentConfigOpts := {
  ao_ServerURL : string; ao_Token : string; ao_AgentConfig : RKE2AgentConfig;
  ao_CloudProviderName : string; ao_CloudProviderConfigMap : option ObjectReference;
  ao_Version : string
}.

(** [NetworkRanges.String], and the text of the CIS script. *)
Class ConfigLib := {
  NetworkRanges_String : list string → string;
  CISNodePreparationScript : string
}.

(** ** Helpers *)

Definition mkFile (path content permissions : string) : File :=
  {| f_Path := path; f_Owner := DefaultFileOwner; f_Permissions := permissions; f_Encoding := "";
     f_Content := content; f_ContentFrom := None |}.

Inductive componentType := extraEnv | extraMount.
Definition separator (t : componentType) : string :=
  match t with extraEnv => "=" | extraMount => ":" end.

(** The result is never nil. *)
Definition componentMapToSlice `{GoRange} (site : nat) (t : componentType) (input : strmap) :
    slice string :=
  Some (omap (λ '(k, v), if decide (k = "") then None else Some (k +:+ separator t +:+ v))
         (go_range site (default ∅ input))).

(** [base64.StdEncoding]. *)
Definition base64_char (n : nat) : ascii :=
  default "="%char (String.get n "ABCDEFGHIJKLMNOPQRSTUVWXYZabcdefghijklmnopqrstuvwxyz0123456789+/").
Fixpoint base64 (s : string) : string :=
  match s with
  | EmptyString => ""
  | String a EmptyString =>
      let x := nat_of_ascii a in
      String (base64_char (x `div` 4)) (String (base64_char ((x `mod` 4) * 16)) "==")
  | String a (String b EmptyString) =>
      let x := nat_of_ascii a in let y := nat_of_ascii b in
      String (base64_char (x `div` 4)) (String (base64_char ((x `mod` 4) * 16 + y `div` 16))
        (String (base64_char ((y `mod` 16) * 4)) "="))
  | String a (String b (String c rest)) =>
      let x := nat_of_ascii a in let y := nat_of_ascii b in let z := nat_of_ascii c in
      String (base64_char (x `div` 4)) (String (base64_char ((x `mod` 4) * 16 + y `div` 16))
        (String (base64_char ((y `mod` 16) * 4 + z `div` 64)) (String (base64_char (z `mod` 64))
          (base64 rest))))
  end.

(** The template is written with single quotes. *)
Fixpoint json_quotes (s : string) : string :=
  match s with
  | EmptyString => ""
  | String c s => String (if decide (c = "'"%char) then ascii_of_nat 34 else c) (json_quotes s)
  end.
Definition generateEncryptionConfig (provider key : string) : string :=
  json_quotes "{'kind':'EncryptionConfiguration','apiVersion':'apiserver.config.k8s.io/v1','resources':[{'resources':['secrets'],'providers':[{'"
  +:+ provider +:+ json_quotes "':{'keys':[{'name':'enckey','secret':'" +:+ key
  +:+ json_quotes "'}]}},{'identity':{}}]}]}".

(** A slice an [append] loop built: nil when nothing was appended. *)
Definition appended {A} (l : list A) : slice A := match l with [] => None | _ => Some l end.

Section config.
Context `{BEnv, GoRange, VersionLib, ConfigLib}.

Definition get_secret (msg : string) (ref : ObjectReference) : B strmap :=
  bwrap msg (bapi (BGetSecret (or_Namespace ref) (or_Name ref))).
Definition get_config_map (msg : string) (ref : ObjectReference) : B strmap :=
  bwrap msg (bapi (BGetConfigMap (or_Namespace ref) (or_Name ref))).
Definition get_entry (data : strmap) (key msg : string) : B string :=
  match map_get data key with Some v => mret v | None => fail (EText msg) end.

(** ** Server configuration: the parts of [newRKE2ServerConfig], in its order *)

Definition server_audit_policy (sc : RKE2ServerConfig) : B (string * list File) :=
  match sc_AuditPolicySecret sc with
  | None => mret ("", [])
  | Some ref =>
      data ← get_secret "failed to get audit policy secret" ref;
      policy ← get_entry data "audit-policy.yaml" "audit policy secret is missing audit-policy.yaml key";
      let path := "/etc/rancher/rke2/audit-policy.yaml" in
      mret (path, [mkFile path policy DefaultFileMode])
  end.

Definition cni (sc : RKE2ServerConfig) : slice string :=
  if sc_CNIMultusEnable sc then Some ["multus"; sc_CNI sc]
  else if decide (sc_CNI sc = "") then None else Some [sc_CNI sc].

(** The server and the agent configuration both read the cloud provider's. *)
Definition cloud_provider_config (ref : option ObjectReference) : B (string * list File) :=
  match ref with
  | None => mret ("", [])
  | Some ref =>
      data ← get_config_map "failed to get cloud provider config map" ref;
      config ← get_entry data "cloud-config" "cloud provider config map is missing cloud-config key";
      mret (DefaultRKE2CloudProviderConfigLocation,
            [mkFile DefaultRKE2CloudProviderConfigLocation config DefaultFileMode])
  end.

Definition s3_credentials (s3 : EtcdS3) : B (string * string) :=
  match s3_CredentialSecret s3 with
  | None => mret ("", "")
  | Some ref =>
      data ← get_secret "failed to get aws credentials secret" ref;
      access ← get_entry data "aws_access_key_id" "aws credentials secret is missing aws_access_key_id";
      secret ← get_entry data "aws_secret_access_key"
        "aws credentials secret is missing aws_secret_access_key";
      mret (access, secret)
  end.
Definition s3_ca (s3 : EtcdS3) : B (string * list File) :=
  match s3_EndpointCASecret s3 with
  | None => mret ("", [])
  | Some ref =>
      data ← get_secret "failed to get aws credentials secret" ref;
      ca ← get_entry data "ca.pem" "endpoint CA secret is missing ca.pem";
      let path := "/etc/rancher/rke2/etcd-s3-ca.crt" in
      mret (path, [mkFile path ca "0640"])
  end.
Definition server_s3 (sc : RKE2ServerConfig) : B (s3_config * list File) :=
  match eb_S3 (ec_BackupConfig (sc_Etcd sc)) with
  | None => mret (Build_s3_config false "" "" "" "" "" "" "" false, [])
  | Some s3 =>
      '(access, secret) ← s3_credentials s3;
      '(ca, files) ← s3_ca s3;
      mret (Build_s3_config true access secret (s3_Bucket s3) (s3_Region s3) (s3_Folder s3)
              (s3_Endpoint s3) ca (negb (s3_EnforceSSLVerify s3)), files)
  end.

Definition component_of (site : nat) (c : option ComponentConfig) : component :=
  match c with
  | None => no_component
  | Some c =>
      {| co_Args := cc_ExtraArgs c; co_Image := cc_OverrideImage c;
         co_Mounts := componentMapToSlice site extraMount (cc_ExtraMounts c);
         co_Env := componentMapToSlice (S site) extraEnv (cc_ExtraEnv c) |}
  end.

(** Of the cloud controller manager only mounts and environment are taken. *)
Definition cloud_controller_manager (site : nat) (c : option ComponentConfig) : component :=
  match c with
  | None => no_component
  | Some c =>
      {| co_Args := None; co_Image := "";
         co_Mounts := componentMapToSlice site extraMount (cc_ExtraMounts c);
         co_Env := componentMapToSlice (S site) extraEnv (cc_ExtraEnv c) |}
  end.

(** A provider without a key secret is a nil dereference. *)
Definition server_encryption (sc : RKE2ServerConfig) : B (string * list File) :=
  match sc_SecretsEncryptionProvider sc with
  | None => mret ("", [])
  | Some e =>
      match se_EncryptionKeySecret e with
      | None => panic "invalid memory address or nil pointer dereference"
      | Some ref =>
          data ← get_secret "failed to get encryptionKey secret" ref;
          key ← get_entry data "encryptionKey" "encryptionKey secret missing 'encryptionKey' key";
          mret (se_Provider e,
                [mkFile EncryptionConfigurationLocation
                   (generateEncryptionConfig (se_Provider e) (base64 key)) "0400"])
      end
  end.

(** The certificate needs its key; the CA is on its own. *)
Definition datastore_ca (data : strmap) : string * list File :=
  let path := "/etc/rancher/rke2/datastore-ca.crt" in
  match map_get data "ca.pem" with
  | Some ca => (path, [mkFile path ca "0640"])
  | None => ("", [])
  end.
Definition datastore_cert (data : strmap) : B (string * string * list File) :=
  match map_get data "cert.pem" with
  | None => mret ("", "", [])
  | Some cert =>
      key ← get_entry data "key.pem" "external datastore secret is missing key.pem key";
      let cert_path := "/etc/rancher/rke2/datastore-cert.crt" in
      let key_path := "/etc/rancher/rke2/datastore-key.crt" in
      mret (cert_path, key_path, [mkFile cert_path cert "0640"; mkFile key_path key "0640"])
  end.
Definition server_datastore (sc : RKE2ServerConfig) : B (datastore_config * list File) :=
  match sc_ExternalDatastoreSecret sc with
  | None => mret (Build_datastore_config "" "" "" "", [])
  | Some ref =>
      data ← get_secret "failed to get external datastore secret" ref;
      endpoint ← get_entry data "endpoint" "external datastore secret is missing endpoint key";
      let '(ca, ca_files) := datastore_ca data in
      '(cert, key, cert_files) ← datastore_cert data;
      mret (Build_datastore_config endpoint ca cert key, ca_files ++ cert_files)
  end.

Definition disabled (sc : RKE2ServerConfig) (c : string) : bool :=
  bool_decide (c ∈ elems (dc_KubernetesComponents (sc_DisableComponents sc))).

(** The agent part of the result holds the cloud provider's name and file only: the
    callers overwrite it. *)
Definition newRKE2ServerConfig (opts : ServerConfigOpts) : B (YamlServerConfig * list File) :=
  let sc := so_ServerConfig opts in
  let cluster := so_Cluster opts in
  let backup := ec_BackupConfig (sc_Etcd sc) in
  '(audit, audit_files) ← server_audit_policy sc;
  '(cloud, cloud_files) ← cloud_provider_config (sc_CloudProviderConfigMap sc);
  '(s3, s3_files) ← server_s3 sc;
  '(provider, encryption_files) ← server_encryption sc;
  '(datastore, datastore_files) ← server_datastore sc;
  mret ({| y_Agent := Build_rke2AgentConfig "" cloud (sc_CloudProviderName sc) "" "" "" None None
             None "" None "" 0%Z None None "" false "" "" "" false "" "" "" "";
           y_AdvertiseAddress := sc_AdvertiseAddress sc;
           y_AuditPolicyFile := audit;
           y_BindAddress := sc_BindAddress sc;
           y_CNI := cni sc;
           y_CloudControllerManager := cloud_controller_manager 30 (sc_CloudControllerManager sc);
           y_ClusterDNS := sc_ClusterDNS sc;
           y_ClusterDomain := sc_ClusterDomain sc;
           y_DisableCloudController := disabled sc "cloudController";
           y_DisableComponents := Some (elems (dc_PluginComponents (sc_DisableComponents sc)));
           y_DisableKubeProxy := disabled sc "kubeProxy";
           y_DisableScheduler := disabled sc "scheduler";
           y_Etcd := component_of 32 (ec_CustomConfig (sc_Etcd sc));
           y_EtcdDisableSnapshots := eb_DisableAutomaticSnapshots backup;
           y_EtcdExposeMetrics := ec_ExposeMetrics (sc_Etcd sc);
           y_EtcdS3 := s3;
           y_EtcdSnapshotDir := eb_Directory backup;
           y_EtcdSnapshotName := eb_SnapshotName backup;
           y_EtcdSnapshotRetention := eb_Retention backup;
           y_EtcdSnapshotScheduleCron := eb_ScheduleCron backup;
           y_IngressController := appended (elems (sc_IngressController sc));
           y_KubeAPIServer := component_of 34 (sc_KubeAPIServer sc);
           y_KubeControllerManager := component_of 36 (sc_KubeControllerManager sc);
           y_KubeScheduler := component_of 38 (sc_KubeScheduler sc);
           y_ServiceNodePortRange := sc_ServiceNodePortRange sc;
           y_TLSSan := Some (elems (sc_TLSSan sc) ++ [so_ControlPlaneEndpoint opts]);
           y_EmbeddedRegistry := sc_EmbeddedRegistry sc;
           y_SupervisorMetrics := sc_SupervisorMetrics sc;
           y_Datastore := datastore;
           y_SecretsEncryptionProvider := provider;
           y_ClusterCIDR := match bc_PodsCIDRBlocks cluster with
                            | [] => "" | l => NetworkRanges_String l end;
           y_ServiceCIDR := match bc_ServicesCIDRBlocks cluster with
                            | [] => "" | l => NetworkRanges_String l end |},
        audit_files ++ cloud_files ++ s3_files ++ encryption_files ++ datastore_files).

(** ** Agent configuration *)

Definition agent_profile (ac : RKE2AgentConfig) (version : string) : B (string * list File) :=
  if decide (ac_CISProfile ac = "") then mret ("", [])
  else
    compliant ← lift (ProfileCompliant (ac_CISProfile ac) version);
    if compliant : bool
    then mret (ac_CISProfile ac,
               [mkFile "/opt/rke2-cis-script.sh" CISNodePreparationScript FileModeRootExecutable])
    else fail (EText "profile is not supported for version").

(** The configuration file and the directory of the binaries. *)
Definition agent_image_credentials (ac : RKE2AgentConfig) : B (string * string * list File) :=
  match ac_ImageCredentialProviderConfigMap ac with
  | None => mret ("", "", [])
  | Some ref =>
      data ← get_config_map "failed to get image credential provider config map" ref;
      config ← get_entry data "credential-config.yaml"
        "image credential provider config map is missing config.yaml";
      binaries ← get_entry data "credential-provider-binaries"
        "image credential provider config map is missing credential-provider-binaries";
      let path := "/etc/rancher/rke2/credential-config.yaml" in
      mret (path, binaries, [mkFile path config DefaultFileMode])
  end.

(** A config map wins over the path. *)
Definition agent_resolv_conf (ac : RKE2AgentConfig) : B (string * list File) :=
  match ac_ResolvConf ac with
  | None => mret (ac_ResolvConfPath ac, [])
  | Some ref =>
      data ← get_config_map "failed to get resolv.conf config map" ref;
      conf ← get_entry data "resolv.conf" "resolv conf config map is missing resolv.conf";
      let path := "/etc/rancher/rke2/resolv.conf" in
      mret (path, [mkFile path conf DefaultFileMode])
  end.

Definition newRKE2AgentConfig (opts : AgentConfigOpts) : B (rke2AgentConfig * list File) :=
  let ac := ao_AgentConfig opts in
  '(profile, profile_files) ← agent_profile ac (ao_Version opts);
  '(cloud, cloud_files) ← cloud_provider_config (ao_CloudProviderConfigMap opts);
  '(cred, bins, cred_files) ← agent_image_credentials ac;
  '(resolv, resolv_files) ← agent_resolv_conf ac;
  let proxy := component_of 40 (ac_KubeProxy ac) in
  mret ({| ya_ContainerRuntimeEndpoint := ac_ContainerRuntimeEndpoint ac;
           ya_CloudProviderConfig := cloud;
           ya_CloudProviderName := ao_CloudProviderName opts;
           ya_DataDir := ac_DataDir ac;
           ya_ImageCredentialProviderConfig := cred;
           ya_ImageCredentialProviderBinDir := bins;
           ya_KubeProxyArgs := co_Args proxy; ya_KubeProxyExtraEnv := co_Env proxy;
           ya_KubeProxyExtraMounts := co_Mounts proxy; ya_KubeProxyImage := co_Image proxy;
           ya_KubeletArgs := ac_Kubelet ac ≫= cc_ExtraArgs;
           ya_KubeletPath := ac_KubeletPath ac;
           ya_LbServerPort := ac_LoadBalancerPort ac;
           ya_NodeLabels := ac_NodeLabels ac; ya_NodeTaints := ac_NodeTaints ac;
           ya_Profile := profile;
           ya_ProtectKernelDefaults := ac_ProtectKernelDefaults ac;
           ya_PodSecurityAdmissionConfigFile := ac_PodSecurityAdmissionConfigFile ac;
           ya_ResolvConf := resolv;
           ya_RuntimeImage := ac_RuntimeImage ac;
           ya_Selinux := ac_EnableContainerdSElinux ac;
           ya_Server := ao_ServerURL opts;
           ya_Snapshotter := ac_Snapshotter ac;
           ya_Token := ao_Token opts;
           ya_SystemDefaultRegistry := ac_SystemDefaultRegistry ac |},
        profile_files ++ cloud_files ++ cred_files ++ resolv_files).

(** ** The three configurations *)

Definition y_with_agent (a : rke2AgentConfig) (y : YamlServerConfig) : YamlServerConfig :=
  let '(Build_YamlServerConfig _ f2 f3 f4 f5 f6 f7 f8 f9 f10 f11 f12 f13 f14 f15 f16 f17 f18 f19 f20
          f21 f22 f23 f24 f25 f26 f27 f28 f29 f30 f31 f32) := y in
  Build_YamlServerConfig a f2 f3 f4 f5 f6 f7 f8 f9 f10 f11 f12 f13 f14 f15 f16 f17 f18 f19 f20
    f21 f22 f23 f24 f25 f26 f27 f28 f29 f30 f31 f32.

(** What both server configurations do after their guards; [url] is the address
    to join, none for the first server. *)
Definition agent_opts (opts : ServerConfigOpts) (url : string) : AgentConfigOpts :=
  {| ao_ServerURL := url; ao_Token := so_Token opts; ao_AgentConfig := so_AgentConfig opts;
     ao_CloudProviderName := sc_CloudProviderName (so_ServerConfig opts);
     ao_CloudProviderConfigMap := sc_CloudProviderConfigMap (so_ServerConfig opts);
     ao_Version := so_Version opts |}.

Definition GenerateInitControlPlaneConfig (opts : ServerConfigOpts) :
    B (YamlServerConfig * list File) :=
  if decide (so_Token opts = "") then fail (EText "token is required")
  else
    '(server, server_files) ← bwrap "failed to generate rke2 server config" (newRKE2ServerConfig opts);
    '(agent, agent_files) ← bwrap "failed to generate rke2 agent config"
        (newRKE2AgentConfig (agent_opts opts ""));
    mret (y_with_agent agent server, server_files ++ agent_files).

Definition GenerateJoinControlPlaneConfig (opts : ServerConfigOpts) :
    B (YamlServerConfig * list File) :=
  if decide (so_ServerURL opts = "") then fail (EText "server url is required")
  else if decide (so_Token opts = "") then fail (EText "token is required")
  else
    '(server, server_files) ← bwrap "failed to generate rke2 server config" (newRKE2ServerConfig opts);
    '(agent, agent_files) ← bwrap "failed to generate rke2 agent config"
        (newRKE2AgentConfig (agent_opts opts (so_ServerURL opts)));
    mret (y_with_agent agent server, server_files ++ agent_files).

Definition GenerateWorkerConfig (opts : AgentConfigOpts) : B (rke2AgentConfig * list File) :=
  if decide (ao_ServerURL opts = "") then fail (EText "server url is required")
  else if decide (ao_Token opts = "") then fail (EText "token is required")
  else bwrap "failed to generate rke2 agent config" (newRKE2AgentConfig opts).

(** ** The files a configuration refers to *)

(** Every path is empty or that of one of the files. *)
Definition covered (files : list File) (paths : list string) : Prop :=
  Forall (λ p, p = "" ∨ p ∈ map f_Path files) paths.

Lemma covered_nil files : covered files [].
Proof. constructor. Qed.
Lemma covered_one files p : p ∈ map f_Path files → covered files [p].
Proof. intros Hp. constructor; [by right|constructor]. Qed.
Lemma covered_empty files : covered files [""].
Proof. constructor; [by left|constructor]. Qed.
Lemma covered_weaken files files' ps :
  map f_Path files ⊆ map f_Path files' → covered files ps → covered files' ps.
Proof.
  intros Hs Hc. eapply list.Forall_impl; [exact Hc|]. intros p [->|Hp]; [by left|right; auto].
Qed.
Lemma covered_app files ps qs : covered files ps → covered files qs → covered files (ps ++ qs).
Proof. apply Forall_app_2. Qed.

Lemma covered_join f1 f2 ps qs :
  covered f1 ps → covered f2 qs → covered (f1 ++ f2) (ps ++ qs).
Proof.
  intros Hp Hq. apply covered_app; [eapply covered_weaken, Hp|eapply covered_weaken, Hq];
    rewrite map_app; intros x Hx; apply elem_of_app; auto.
Qed.

Definition pair_covered (r : string * list File) : Prop := covered r.2 [r.1].

Lemma audit_covered sc : returns pair_covered (server_audit_policy sc).
Proof.
  unfold server_audit_policy. destruct (sc_AuditPolicySecret sc); [|by apply returns_ret, covered_empty].
  do 2 (apply returns_any; intros ?). apply returns_ret, covered_one. cbn. by apply list_elem_of_here.
Qed.
Lemma cloud_covered ref : returns pair_covered (cloud_provider_config ref).
Proof.
  unfold cloud_provider_config. destruct ref; [|by apply returns_ret, covered_empty].
  do 2 (apply returns_any; intros ?). apply returns_ret, covered_one. cbn. by apply list_elem_of_here.
Qed.
Lemma s3_ca_covered s3 : returns pair_covered (s3_ca s3).
Proof.
  unfold s3_ca. destruct (s3_EndpointCASecret s3); [|by apply returns_ret, covered_empty].
  do 2 (apply returns_any; intros ?). apply returns_ret, covered_one. cbn. by apply list_elem_of_here.
Qed.
Lemma s3_covered sc : returns (λ r, covered r.2 [ys_EndpointCA r.1]) (server_s3 sc).
Proof.
  unfold server_s3. destruct (eb_S3 _) as [s3|]; [|by apply returns_ret, covered_empty].
  apply returns_any; intros [access secret].
  apply (returns_bind pair_covered); [apply s3_ca_covered|]. intros [ca files] Hc. by apply returns_ret.
Qed.
Lemma cert_covered data :
  returns (λ r, covered r.2 [r.1.1; r.1.2]) (datastore_cert data).
Proof.
  unfold datastore_cert. destruct (map_get data "cert.pem");
    [|by apply returns_ret; repeat constructor; left].
  apply returns_any; intros key. apply returns_ret. cbn.
  constructor; [right; by apply list_elem_of_here|].
  constructor; [right; by apply list_elem_of_further, list_elem_of_here|constructor].
Qed.
Lemma ca_covered data : pair_covered (datastore_ca data).
Proof.
  unfold datastore_ca. destruct (map_get data "ca.pem"); [|apply covered_empty].
  apply covered_one. cbn. by apply list_elem_of_here.
Qed.
Lemma datastore_covered sc :
  returns (λ r, covered r.2 [yd_CAFile r.1; yd_CertFile r.1; yd_KeyFile r.1]) (server_datastore sc).
Proof.
  unfold server_datastore. destruct (sc_ExternalDatastoreSecret sc) as [ref|];
    [|by apply returns_ret; repeat constructor; left].
  apply returns_any; intros data. apply returns_any; intros endpoint.
  pose proof (ca_covered data) as Hca. destruct (datastore_ca data) as [ca ca_files].
  apply (returns_bind _ _ _ _ (cert_covered data)). intros [[cert key] files] Hc.
  apply returns_ret. by apply (covered_join ca_files files [ca] [cert; key]).
Qed.
Lemma encryption_covered sc :
  returns (λ r, r.1 = "" ∨ EncryptionConfigurationLocation ∈ map f_Path r.2) (server_encryption sc).
Proof.
  unfold server_encryption. destruct (sc_SecretsEncryptionProvider sc) as [e|];
    [|by apply returns_ret; left].
  destruct (se_EncryptionKeySecret e); [|apply returns_panic].
  do 2 (apply returns_any; intros ?). apply returns_ret. right. cbn. by apply list_elem_of_here.
Qed.

(** The files of a server configuration, apart from its agent part. *)
Definition server_paths (y : YamlServerConfig) : list string :=
  [y_AuditPolicyFile y; ys_EndpointCA (y_EtcdS3 y); yd_CAFile (y_Datastore y);
   yd_CertFile (y_Datastore y); yd_KeyFile (y_Datastore y)].
(** The files of an agent configuration.  A [resolv-conf] path may also be one of the
    machine image. *)
Definition agent_paths (a : rke2AgentConfig) : list string :=
  [ya_CloudProviderConfig a; ya_ImageCredentialProviderConfig a].

Definition server_complete (r : YamlServerConfig * list File) : Prop :=
  covered r.2 (server_paths r.1) ∧
  (y_SecretsEncryptionProvider r.1 = "" ∨ EncryptionConfigurationLocation ∈ map f_Path r.2).

Lemma newRKE2ServerConfig_complete opts : returns server_complete (newRKE2ServerConfig opts).
Proof.
  unfold newRKE2ServerConfig.
  apply (returns_bind _ _ _ _ (audit_covered _)). intros [audit fa] Ha.
  apply returns_any. intros [cloud fc].
  apply (returns_bind _ _ _ _ (s3_covered _)). intros [s3 fs] Hs.
  apply (returns_bind _ _ _ _ (encryption_covered _)). intros [prov fe] He.
  apply (returns_bind _ _ _ _ (datastore_covered _)). intros [ds fd] Hd.
  apply returns_ret. cbn in Ha, Hs, He, Hd. split; cbn.
  - assert (∀ f, f = fa ∨ f = fs ∨ f = fd →
      map f_Path f ⊆ map f_Path (fa ++ fc ++ fs ++ fe ++ fd)) as Hsub.
    { intros f Hf x Hx. rewrite !map_app, !elem_of_app. naive_solver. }
    apply (covered_app _ [_]); [eapply covered_weaken, Ha; auto|].
    apply (covered_app _ [_]); [eapply covered_weaken, Hs; auto|].
    eapply covered_weaken, Hd. auto.
  - destruct He as [->|He]; [by left|right]. rewrite !map_app, !elem_of_app. tauto.
Qed.

Lemma profile_covered ac v :
  returns (λ r, r.1 = "" ∨ "/opt/rke2-cis-script.sh" ∈ map f_Path r.2) (agent_profile ac v).
Proof.
  unfold agent_profile. case_decide; [by apply returns_ret; left|].
  apply returns_any. intros []; [|apply returns_fail]. apply returns_ret. right. cbn.
  by apply list_elem_of_here.
Qed.
Lemma credentials_covered ac :
  returns (λ r, covered r.2 [r.1.1]) (agent_image_credentials ac).
Proof.
  unfold agent_image_credentials. destruct (ac_ImageCredentialProviderConfigMap ac);
    [|by apply returns_ret, covered_empty].
  do 3 (apply returns_any; intros ?). apply returns_ret, covered_one. cbn. by apply list_elem_of_here.
Qed.
Lemma resolv_covered ac :
  returns (λ r, r.1 = ac_ResolvConfPath ac ∨ r.1 ∈ map f_Path r.2) (agent_resolv_conf ac).
Proof.
  unfold agent_resolv_conf. destruct (ac_ResolvConf ac); [|by apply returns_ret; left].
  do 2 (apply returns_any; intros ?). apply returns_ret. right. cbn. by apply list_elem_of_here.
Qed.

Definition agent_complete (ac : RKE2AgentConfig) (r : rke2AgentConfig * list File) : Prop :=
  covered r.2 (agent_paths r.1) ∧
  (ya_ResolvConf r.1 = ac_ResolvConfPath ac ∨ ya_ResolvConf r.1 ∈ map f_Path r.2) ∧
  (ya_Profile r.1 = "" ∨ "/opt/rke2-cis-script.sh" ∈ map f_Path r.2).

Lemma newRKE2AgentConfig_complete opts :
  returns (agent_complete (ao_AgentConfig opts)) (newRKE2AgentConfig opts).
Proof.
  unfold newRKE2AgentConfig.
  apply (returns_bind _ _ _ _ (profile_covered _ _)). intros [prof fp] Hp.
  apply (returns_bind _ _ _ _ (cloud_covered _)). intros [cloud fc] Hc.
  apply (returns_bind _ _ _ _ (credentials_covered _)). intros [[cred bins] fi] Hi.
  apply (returns_bind _ _ _ _ (resolv_covered _)). intros [resolv fr] Hr.
  apply returns_ret. unfold pair_covered in Hc. cbn in Hp, Hc, Hi, Hr. split; [|split]; cbn.
  - assert (∀ f, f = fc ∨ f = fi → map f_Path f ⊆ map f_Path (fp ++ fc ++ fi ++ fr)) as Hsub.
    { intros f Hf x Hx. rewrite !map_app, !elem_of_app. naive_solver. }
    apply (covered_app _ [_]); [eapply covered_weaken, Hc; auto|eapply covered_weaken, Hi; auto].
  - destruct Hr as [->|Hr]; [by left|right]. rewrite !map_app, !elem_of_app. tauto.
  - destruct Hp as [->|Hp]; [by left|right]. rewrite !map_app, !elem_of_app. tauto.
Qed.

(** ** The first server and the ones that join *)

Definition a_with_server (url : string) (a : rke2AgentConfig) : rke2AgentConfig :=
  {| ya_ContainerRuntimeEndpoint := ya_ContainerRuntimeEndpoint a;
     ya_CloudProviderConfig := ya_CloudProviderConfig a;
     ya_CloudProviderName := ya_CloudProviderName a; ya_DataDir := ya_DataDir a;
     ya_ImageCredentialProviderConfig := ya_ImageCredentialProviderConfig a;
     ya_ImageCredentialProviderBinDir := ya_ImageCredentialProviderBinDir a;
     ya_KubeProxyArgs := ya_KubeProxyArgs a; ya_KubeProxyExtraEnv := ya_KubeProxyExtraEnv a;
     ya_KubeProxyExtraMounts := ya_KubeProxyExtraMounts a; ya_KubeProxyImage := ya_KubeProxyImage a;
     ya_KubeletArgs := ya_KubeletArgs a; ya_KubeletPath := ya_KubeletPath a;
     ya_LbServerPort := ya_LbServerPort a; ya_NodeLabels := ya_NodeLabels a;
     ya_NodeTaints := ya_NodeTaints a; ya_Profile := ya_Profile a;
     ya_ProtectKernelDefaults := ya_ProtectKernelDefaults a;
     ya_PodSecurityAdmissionConfigFile := ya_PodSecurityAdmissionConfigFile a;
     ya_ResolvConf := ya_ResolvConf a; ya_RuntimeImage := ya_RuntimeImage a;
     ya_Selinux := ya_Selinux a; ya_Server := url; ya_Snapshotter := ya_Snapshotter a;
     ya_Token := ya_Token a; ya_SystemDefaultRegistry := ya_SystemDefaultRegistry a |}.
Definition y_with_server (url : string) (y : YamlServerConfig) : YamlServerConfig :=
  y_with_agent (a_with_server url (y_Agent y)) y.

(** A result with its first component changed. *)
Definition on_config {X S : Type} (f : X → X) (r : outcome (X * list File) * S) :
    outcome (X * list File) * S :=
  match r with (Ok (x, files), s) => (Ok (f x, files), s) | r => r end.

Lemma agent_server opts url w :
  newRKE2AgentConfig (agent_opts opts url) w =
  on_config (a_with_server url) (newRKE2AgentConfig (agent_opts opts "") w).
Proof.
  unfold newRKE2AgentConfig, mbind, comp_bind. cbn [agent_opts ao_AgentConfig ao_Version
    ao_CloudProviderConfigMap ao_CloudProviderName ao_ServerURL ao_Token].
  destruct (agent_profile _ _ _) as [[[p fp]|e|q] w1]; [|done..].
  destruct (cloud_provider_config _ _) as [[[c fc]|e|q] w2]; [|done..].
  destruct (agent_image_credentials _ _) as [[[[i b] fi]|e|q] w3]; [|done..].
  by destruct (agent_resolv_conf _ _) as [[[r fr]|e|q] w4].
Qed.

Lemma y_with_agent_twice a b y : y_with_agent a (y_with_agent b y) = y_with_agent a y.
Proof. by destruct y. Qed.
Lemma y_Agent_with a y : y_Agent (y_with_agent a y) = a.
Proof. by destruct y. Qed.

Lemma join_init_run opts w :
  so_ServerURL opts ≠ "" →
  GenerateJoinControlPlaneConfig opts w =
  on_config (y_with_server (so_ServerURL opts)) (GenerateInitControlPlaneConfig opts w).
Proof.
  intros Hu. unfold GenerateJoinControlPlaneConfig, GenerateInitControlPlaneConfig.
  rewrite decide_False by done. case_decide; [done|]. unfold mbind, comp_bind, bwrap.
  destruct (newRKE2ServerConfig opts w) as [[[y fs]|e|q] w1]; [|done..].
  rewrite agent_server. destruct (newRKE2AgentConfig _ w1) as [[[a fa]|e|q] w2]; [|done..].
  cbn. unfold y_with_server. by rewrite y_with_agent_twice, y_Agent_with.
Qed.

Lemma server_complete_files r files' a :
  server_complete r → server_complete (y_with_agent a r.1, r.2 ++ files').
Proof.
  intros [Hc He]. assert (map f_Path r.2 ⊆ map f_Path (r.2 ++ files')) as Hs.
  { intros x Hx. rewrite map_app, elem_of_app. by left. }
  destruct r as [y fs]. destruct y. split; cbn in *.
  - by eapply covered_weaken.
  - destruct He as [He|He]; [by left|right]. by apply Hs.
Qed.

Definition config_complete (ac : RKE2AgentConfig) (r : YamlServerConfig * list File) : Prop :=
  server_complete r ∧ agent_complete ac (y_Agent r.1, r.2).

Lemma init_complete opts :
  returns (config_complete (so_AgentConfig opts)) (GenerateInitControlPlaneConfig opts).
Proof.
  unfold GenerateInitControlPlaneConfig. case_decide; [apply returns_fail|].
  apply (returns_bind _ _ _ _ (returns_bwrap _ _ _ (newRKE2ServerConfig_complete opts))).
  intros [y fs] Hs.
  apply (returns_bind _ _ _ _ (returns_bwrap _ _ _ (newRKE2AgentConfig_complete (agent_opts opts "")))).
  intros [a fa] (Ha & Hr & Hp). apply returns_ret.
  split; [by apply (server_complete_files (y, fs))|]. cbn. rewrite y_Agent_with.
  assert (map f_Path fa ⊆ map f_Path (fs ++ fa)) as Hsub.
  { intros x Hx. rewrite map_app, elem_of_app. by right. }
  split; [by eapply covered_weaken|]. cbn in *. naive_solver.
Qed.

Lemma config_complete_server url ac y fs :
  config_complete ac (y, fs) → config_complete ac (y_with_server url y, fs).
Proof. by destruct y as [[]]. Qed.

Lemma join_complete opts :
  returns (config_complete (so_AgentConfig opts)) (GenerateJoinControlPlaneConfig opts).
Proof.
  intros w [y fs] w' Hj. destruct (decide (so_ServerURL opts = "")) as [Hu|Hu].
  { unfold GenerateJoinControlPlaneConfig in Hj. by rewrite decide_True in Hj. }
  rewrite (join_init_run _ _ Hu) in Hj.
  destruct (GenerateInitControlPlaneConfig opts w) as [[[y' fs']|e|q] w1] eqn:E; [|done..].
  injection Hj as <- <- <-. by apply config_complete_server, (init_complete opts w _ w1).
Qed.
Lemma worker_complete opts :
  returns (agent_complete (ao_AgentConfig opts)) (GenerateWorkerConfig opts).
Proof.
  unfold GenerateWorkerConfig. do 2 (case_decide; [apply returns_fail|]).
  apply returns_bwrap, newRKE2AgentConfig_complete.
Qed.
End config.

(** ** The claims *)

(** C26: a server that joins gets the configuration of the first server, with the same
    files, reads of the cluster and errors; only the address to join ([server]) is
    added. *)
Theorem Join_is_Init `{BEnv, GoRange, VersionLib, ConfigLib} (opts : ServerConfigOpts) (w : BWorld) :
  so_ServerURL opts ≠ "" →
  GenerateJoinControlPlaneConfig opts w =
  on_config (y_with_server (so_ServerURL opts)) (GenerateInitControlPlaneConfig opts w).
Proof. apply join_init_run. Qed.

(** A configuration refers only to files that are written with it.  When the
    configuration of a server, first or joining, or of a worker is generated, the
    audit policy, the cloud provider's configuration, the image credentials, the
    certificates of the S3 endpoint and of the datastore are each unset or the path of
    a generated file; so is the resolver configuration, unless it is a path the user
    gave; an encryption provider comes with its configuration and a CIS profile with
    its script. *)
Theorem config_files_complete `{BEnv, GoRange, VersionLib, ConfigLib} :
  (∀ opts, returns (config_complete (so_AgentConfig opts)) (GenerateInitControlPlaneConfig opts)) ∧
  (∀ opts, returns (config_complete (so_AgentConfig opts)) (GenerateJoinControlPlaneConfig opts)) ∧
  (∀ opts, returns (agent_complete (ao_AgentConfig opts)) (GenerateWorkerConfig opts)).
Proof.
  split; [apply init_complete|]. split; [apply join_complete|apply worker_complete].
Qed.

(** The [pauseImage] of a server configuration reaches no file. *)
Definition sc_with_pause (img : string) (s : RKE2ServerConfig) : RKE2ServerConfig :=
  let '(Build_RKE2ServerConfig f1 f2 f3 f4 f5 f6 f7 f8 f9 f10 f11 _ f13 f14 f15 f16 f17 f18 f19 f20
          f21 f22 f23) := s in
  Build_RKE2ServerConfig f1 f2 f3 f4 f5 f6 f7 f8 f9 f10 f11 img f13 f14 f15 f16 f17 f18 f19 f20
    f21 f22 f23.
Lemma pause_image_ignored `{BEnv, GoRange, VersionLib, ConfigLib} opts img :
  newRKE2ServerConfig (Build_ServerConfigOpts (so_Cluster opts) (so_ControlPlaneEndpoint opts)
    (so_Token opts) (so_ServerURL opts) (sc_with_pause img (so_ServerConfig opts))
    (so_AgentConfig opts) (so_Version opts)) = newRKE2ServerConfig opts.
Proof. destruct opts as [cl ep tok url [] ac v]. reflexivity. Qed.

(** An encryption provider without its key secret: no configuration is generated, and
    with nothing else to read the reconcile panics. *)
Lemma encryption_without_secret `{BEnv, GoRange, VersionLib, ConfigLib} opts e :
  sc_SecretsEncryptionProvider (so_ServerConfig opts) = Some e →
  se_EncryptionKeySecret e = None → returns (λ _, False) (newRKE2ServerConfig opts).
Proof.
  intros He Hn. unfold newRKE2ServerConfig, server_encryption. rewrite He, Hn.
  do 3 (apply returns_any; intros []). by apply (returns_bind (λ _, False)); [apply returns_panic|].
Qed.

(** ** Samples *)

Definition plain_version_lib : VersionLib := λ v m, Ok (negb (str_lt v "1.25.0")).
Definition plain_config_lib : ConfigLib :=
  {| NetworkRanges_String := String.concat ","; CISNodePreparationScript := "#!/bin/bash" |}.
Definition plain_range : GoRange.
Proof. refine {| go_range _ _ m := map_to_list m |}. intros. reflexivity. Defined.

Definition demo_bcluster : BCluster :=
  Build_BCluster demo_cluster "cluster.x-k8s.io/v1beta2" "Cluster" ["10.42.0.0/16"] [] "cp"
    [mkCond "ControlPlaneInitialized" ConditionTrue "" ""].
Definition demo_policy_config : RKE2ServerConfig :=
  Build_RKE2ServerConfig (Some (Build_ObjectReference "Secret" "ns" "policy")) "" "" None "" "" ""
    (Build_DisableComponents None None) "calico" true
    None "" (Build_EtcdConfig false (Build_EtcdBackupConfig None "" "" "" "" None) None) None
    None None None None "" None false false None.
Definition demo_opts (url : string) : ServerConfigOpts :=
  Build_ServerConfigOpts demo_bcluster "10.0.0.1" "token" url demo_policy_config demo_agent
    "v1.33.1+rke2r1".

(** An environment in which every call succeeds; secrets hold the entries a
    configuration may ask for. *)
Definition demo_secret : strmap :=
  Some (<["value" := "token"]> (<["audit-policy.yaml" := "rules"]> ∅)).
Definition demo_benv_with (cluster : BCluster) (rcp : RKE2ControlPlane) (cfg : RKE2Config)
    (machine : Machine) (locked : bool) : BEnv := λ _ c,
  match c with
  | BGetSecret _ _ => inr demo_secret
  | BGetConfigMap _ _ => inr (Some ∅)
  | BGetRKE2Config => inr cfg
  | BGetOwnerMachine _ => inr (Some machine)
  | BGetOwnerMachinePool _ => inr None
  | BGetControlPlane _ _ => inr rcp
  | BGetCluster _ _ => inr cluster
  | BListMachines _ _ => inr [machine]
  | BListMachinePools _ _ => inr []
  | BRandom _ => inr "0123456789abcdef"
  | BLookupOrGenerateCertificates _ => inr []
  | BLock _ _ => inr (negb locked)
  | BUnlock _ => inr true
  | BCreateSecret _ | BUpdateSecret _ | BNewPatchHelper | BPatchConfig _ _ _ => inr tt
  end.
Definition demo_benv : BEnv :=
  demo_benv_with demo_bcluster (demo_rcp 3 true) demo_config (demo_machine "m1" "") false.

Lemma Join_is_Init_witness :
  (@GenerateJoinControlPlaneConfig demo_benv plain_range plain_version_lib plain_config_lib
     (demo_opts "https://10.0.0.2:9345") (Build_BWorld demo_config [])).1 =
  (on_config (y_with_server "https://10.0.0.2:9345")
     (@GenerateInitControlPlaneConfig demo_benv plain_range plain_version_lib plain_config_lib
        (demo_opts "https://10.0.0.2:9345") (Build_BWorld demo_config []))).1.
Proof.
  rewrite (@Join_is_Init demo_benv plain_range plain_version_lib plain_config_lib
    (demo_opts "https://10.0.0.2:9345") (Build_BWorld demo_config [])); [reflexivity|done].
Defined.

(** The audit policy of the sample is written to the file its configuration names. *)
Example demo_init :
  (λ r : outcome (YamlServerConfig * list File) * BWorld,
     match r.1 with
     | Ok (y, files) => Some (y_CNI y, y_AuditPolicyFile y, map f_Path files)
     | _ => None
     end)
    (@GenerateInitControlPlaneConfig demo_benv plain_range plain_version_lib plain_config_lib
       (demo_opts "") (Build_BWorld demo_config [])) =
  Some (Some ["multus"; "calico"], "/etc/rancher/rke2/audit-policy.yaml",
        ["/etc/rancher/rke2/audit-policy.yaml"]).
Proof. vm_compute. reflexivity. Qed.

Example base64_sample : base64 "Man is" = "TWFuIGlz" ∧ base64 "Ma" = "TWE=" ∧ base64 "M" = "TQ==".
Proof. repeat split. Qed.
