(* ===== verification/Registries.v ===== *)
(** * Private registries (pkg/rke2/registries.go)

    [GenerateRegistries] turns the registries of an [RKE2Config] into the struct that
    is written to [registries.yaml] and the certificate files it names, reading the
    TLS and credential secrets from the management cluster.  The loop over the
    registries goes in the order [range] gives. *)

From stdpp Require Import base tactics option list gmap strings numbers.
From S2P Require Import Prelude Go Api Objects Libs World BWorld Util Demo Config.
Open Scope string_scope.
Open Scope list_scope.
Open Scope stdpp_scope.

Definition DefaultRKE2RegistriesLocation : string := "/etc/rancher/rke2/registries.yaml".
Definition registryCertsPath : string := "/etc/rancher/rke2/tls".
Definition cacert : string := "ca.crt".
Definition tlskey : string := "tls.key".
Definition tlscert : string := "tls.crt".

(** ** The structs of registries.yaml; a mirror has the fields it has in the API *)

Record AuthConfig := { au_Username : string; au_Password : string; au_IdentityToken : string }.
Record YamlTLSConfig := {
  yt_CAFile : string; yt_CertFile : string; yt_KeyFile : string; yt_InsecureSkipVerify : bool
}.
Record YamlRegistryConfig := { yr_Auth : option AuthConfig; yr_TLS : option YamlTLSConfig }.
Record YamlRegistry := {
  yr_Mirrors : option (gmap string Mirror); yr_Configs : option (gmap string YamlRegistryConfig)
}.
(** [&Registry{}]. *)
Definition empty_registry : YamlRegistry := Build_YamlRegistry None None.

(** A file without owner and permissions. *)
Definition cert_file (entry content : string) : File :=
  {| f_Path := registryCertsPath +:+ "/" +:+ entry; f_Owner := ""; f_Permissions := "";
     f_Encoding := ""; f_Content := content; f_ContentFrom := None |}.
(** The file of an entry of the secret, and its path in the configuration. *)
Definition cert_entry (data : strmap) (entry : string) : string * list File :=
  match map_get data entry with
  | Some content => (registryCertsPath +:+ "/" +:+ entry, [cert_file entry content])
  | None => ("", [])
  end.

Section registries.
Context `{BEnv, GoRange}.

Definition registry_tls (c : RegistryConfig) : B (option YamlTLSConfig * list File) :=
  if decide (rc_TLS c = Build_TLSConfig (Build_ObjectReference "" "" "") false) then mret (None, [])
  else
    data ← bapi (BGetSecret (or_Namespace (tls_Secret (rc_TLS c))) (or_Name (tls_Secret (rc_TLS c))));
    let '(cert, f1) := cert_entry data tlscert in
    let '(key, f2) := cert_entry data tlskey in
    let '(ca, f3) := cert_entry data cacert in
    mret (Some {| yt_CAFile := ca; yt_CertFile := cert; yt_KeyFile := key;
                  yt_InsecureSkipVerify := tls_InsecureSkipVerify (rc_TLS c) |}, f1 ++ f2 ++ f3).

(** The credentials: [None] is the return from the function with [&Registry{}], no
    files and an [err] that is nil there, after the keys were logged. *)
Definition registry_auth (c : RegistryConfig) : B (option (option AuthConfig)) :=
  if decide (rc_AuthSecret c = Build_ObjectReference "" "" "") then mret (Some None)
  else
    data ← bapi (BGetSecret (or_Namespace (rc_AuthSecret c)) (or_Name (rc_AuthSecret c)));
    let basic := bool_decide (is_Some (map_get data "username")) &&
                 bool_decide (is_Some (map_get data "password")) in
    let token := bool_decide (is_Some (map_get data "identity-token")) in
    if basic || token
    then mret (Some (Some
      {| au_Username := if basic then default "" (map_get data "username") else "";
         au_Password := if basic then default "" (map_get data "password") else "";
         au_IdentityToken := if token then default "" (map_get data "identity-token") else "" |}))
    else _ ← lift (GetMapKeysAsString data); mret None.

(** The loop: the map of configurations is made anew for every registry. *)
Fixpoint registries_loop (l : list (string * RegistryConfig))
    (configs : option (gmap string YamlRegistryConfig)) (files : list File) :
    B (option (option (gmap string YamlRegistryConfig) * list File)) :=
  match l with
  | [] => mret (Some (configs, files))
  | (name, c) :: l =>
      '(tls, tls_files) ← registry_tls c;
      auth ← registry_auth c;
      match auth with
      | None => mret None
      | Some auth =>
          registries_loop l (Some {[name := {| yr_Auth := auth; yr_TLS := tls |}]}) (files ++ tls_files)
      end
  end.

Definition GenerateRegistries (registry : Registry) : B (YamlRegistry * list File) :=
  r ← registries_loop (go_range 42 (default ∅ (reg_Configs registry))) None [];
  mret (match r with
        | Some (configs, files) =>
            (Build_YamlRegistry (Some (default ∅ (reg_Mirrors registry))) configs, files)
        | None => (empty_registry, [])
        end).

(** ** What is generated *)

(** The configurations after the loop: those before it, or the one of the last
    registry visited. *)
Definition last_only (before : option (gmap string YamlRegistryConfig))
    (l : list (string * RegistryConfig)) (after : option (gmap string YamlRegistryConfig)) : Prop :=
  match list.last l with
  | None => after = before
  | Some (name, _) => ∃ c, after = Some {[name := c]}
  end.

Lemma registries_loop_last l configs files :
  returns (λ r, match r with Some (after, _) => last_only configs l after | None => True end)
    (registries_loop l configs files).
Proof.
  revert configs files. induction l as [|[name c] l IH]; intros configs files; simpl.
  { by apply returns_ret. }
  apply returns_any. intros [tls ft]. apply returns_any. intros [auth|]; [|by apply returns_ret].
  intros w r w' Hr. specialize (IH _ _ w r w' Hr). destruct r as [[after fs]|]; [|done].
  unfold last_only in *. destruct l as [|[name' c'] l]; cbn in *; [by eexists|].
  destruct (list.last _) as [[]|] eqn:E; [done|]. by apply list.last_None in E.
Qed.

Lemma GenerateRegistries_run registry :
  returns (λ r, r = (empty_registry, []) ∨
    yr_Mirrors r.1 = Some (default ∅ (reg_Mirrors registry)) ∧
    last_only None (go_range 42 (default ∅ (reg_Configs registry))) (yr_Configs r.1))
    (GenerateRegistries registry).
Proof.
  unfold GenerateRegistries. apply (returns_bind _ _ _ _ (registries_loop_last _ _ _)).
  intros [[configs files]|] Hr; apply returns_ret; [by right|by left].
Qed.

Lemma last_only_size before l after :
  last_only before l after → default ∅ before = ∅ → (size (default ∅ after) ≤ 1)%nat.
Proof.
  unfold last_only. destruct (list.last l) as [[name c]|]; intros Hl Hb.
  - destruct Hl as [y ->]. cbn. by rewrite map_size_singleton.
  - subst. rewrite Hb. by rewrite map_size_empty; lia.
Qed.

(** The secret of a registry whose credentials are incomplete: nothing is generated
    and no error is returned; with no entry at all the reconcile panics. *)
Lemma registry_auth_incomplete c w data :
  rc_AuthSecret c ≠ Build_ObjectReference "" "" "" →
  bask (b_log w) (BGetSecret (or_Namespace (rc_AuthSecret c)) (or_Name (rc_AuthSecret c))) = inr data →
  map_get data "username" = None → map_get data "identity-token" = None →
  (registry_auth c w).1 = match GetMapKeysAsString data with
                          | Ok _ => Ok None | Err e => Err e | Panic p => Panic p end.
Proof.
  intros Hc Hd Hu Ht. unfold registry_auth. rewrite decide_False by done.
  unfold mbind, comp_bind, bapi. rewrite Hd, Hu, Ht. cbn.
  by destruct (GetMapKeysAsString data).
Qed.
End registries.

(** Whatever private registries a machine is configured with, the configurations
    of at most one of them are written: when generation succeeds, either nothing is
    (the credentials of a registry were incomplete, and no error says so), or the
    mirrors are all there and the configurations are those of the registry the loop
    visited last, because the loop makes a new map for every registry. *)
Theorem GenerateRegistries_last `{BEnv, GoRange} (registry : Registry) w r files w' :
  GenerateRegistries registry w = (Ok (r, files), w') →
  (r = empty_registry ∧ files = [] ∨
   yr_Mirrors r = Some (default ∅ (reg_Mirrors registry)) ∧
   last_only None (go_range 42 (default ∅ (reg_Configs registry))) (yr_Configs r)) ∧
  (size (default ∅ (yr_Configs r)) ≤ 1)%nat.
Proof.
  intros Hg. destruct (GenerateRegistries_run registry w _ w' Hg) as [Hr|[Hm Hl]].
  - injection Hr as -> ->. split; [by left|]. cbn. rewrite map_size_empty. lia.
  - split; [by right|]. by eapply last_only_size.
Qed.

(** Two registries with credentials: the one visited last is the only one written. *)
Definition demo_registry (name : string) : RegistryConfig :=
  Build_RegistryConfig (Build_ObjectReference "Secret" "ns" name)
    (Build_TLSConfig (Build_ObjectReference "" "" "") false).
Definition demo_registries : Registry :=
  Build_Registry None (Some (<["a.example.com" := demo_registry "a"]>
    (<["b.example.com" := demo_registry "b"]> ∅))).
Definition demo_auth_env : BEnv := λ l c,
  match c with
  | BGetSecret _ _ => inr (Some (<["username" := "u"]> (<["password" := "p"]> ∅)))
  | c => @demo_benv l c
  end.
Definition demo_generated : outcome (YamlRegistry * list File) :=
  (@GenerateRegistries demo_auth_env plain_range demo_registries (Build_BWorld demo_config [])).1.

Lemma GenerateRegistries_last_witness :
  match demo_generated with
  | Ok (r, _) => size (default ∅ (reg_Configs demo_registries)) = 2%nat ∧
                 (size (default ∅ (yr_Configs r)) ≤ 1)%nat
  | _ => False
  end.
Proof.
  unfold demo_generated.
  pose proof (@GenerateRegistries_last demo_auth_env plain_range demo_registries
    (Build_BWorld demo_config [])) as Hl.
  destruct (GenerateRegistries _ _) as [[[r files]|e|p] w'] eqn:E.
  - split; [reflexivity|]. apply (Hl r files w' eq_refl).
  - vm_compute in E. discriminate E.
  - vm_compute in E. discriminate E.
Defined.
