(* ===== verification/Bootstrap.v ===== *)
(** * The bootstrap controller

    [bootstrap/internal/controllers]: the controller that turns an [RKE2Config] into
    a secret with the user data of its machine.  The first machine of a control plane
    takes the init lock, makes the certificates and the registration token, and
    gets the configuration of the first server; later ones join with the token.

    [scope.Config] is the [RKE2Config] of the world: the functions mutate it and the
    deferred function of [Reconcile] writes it back.  The rendering of cloud-init and
    ignition documents, yaml and gzip are the class [BootstrapLib]; the init lock is the
    interface the controller sees ([BLock], [BUnlock]). *)

From stdpp Require Import base tactics option list gmap strings numbers.
From Stdlib Require Import Ascii.
From S2P Require Import Prelude Go Api Objects Libs World BWorld Util Demo Config Registries.
Open Scope string_scope.
Open Scope list_scope.
Open Scope stdpp_scope.

Definition filePermissions : string := "0640".
Definition tokenPrefix : string := "-token".
Definition DefaultManifestDirectory : string := "/var/lib/rancher/rke2/server/manifests".
Definition DefaultRequeueAfter : Duration := (20 * Second)%Z.
Definition defaultTokenLength : Z := 16%Z.

Definition RKE2ConfigDataSecretAvailableCondition : string := "DataSecretAvailable".
Definition RKE2ConfigCertificatesAvailableCondition : string := "CertificatesAvailable".

(** ** Libraries and renderers *)

(** [cloudinit.ControlPlaneInput] and [BaseUserData]; the certificates are the files
    they become. *)
Record UserDataInput := {
  ud_AirGapped : bool; ud_AirGappedChecksum : string; ud_CISEnabled : bool;
  ud_PreRKE2Commands : slice string; ud_PostRKE2Commands : slice string;
  ud_ConfigFile : File; ud_RKE2Version : string; ud_WriteFiles : list File;
  ud_NTPServers : slice string; ud_AdditionalCloudInit : string;
  ud_AdditionalArbitraryData : strmap; ud_Certificates : list File
}.
Inductive UserDataKind := InitControlPlane | JoinControlPlane | JoinWorker.

Class BootstrapLib := {
  config_IsPaused : BCluster → RKE2Config → bool;
  SetSummaryCondition : RKE2Config → outcome RKE2Config;
  yaml_server : YamlServerConfig → outcome string;
  yaml_agent : rke2AgentConfig → outcome string;
  yaml_registries : YamlRegistry → outcome string;
  (* cloudinit.New... and ignition.New..., the latter with the additional user data *)
  cloudinit_New : UserDataKind → UserDataInput → outcome string;
  ignition_New : UserDataKind → UserDataInput → AdditionalUserData → outcome string;
  gzip : string → outcome string;
  EncapsulateGzippedConfig : string → outcome string;
  ClusterSecretType : string; ClusterSecretLabel : string;
  ControlPlaneInitializedCondition : string;
  AvailableReason : string; NotAvailableReason : string; InternalErrorReason : string;
  (* key and effect of clusterv1.NodeUninitializedTaint, its text, and corev1's MatchTaint *)
  NodeUninitializedTaint : string * string;
  NodeUninitializedTaint_String : string;
  MatchTaint : string * string → string * string → bool;
  cp_GroupVersion : string; bootstrap_Group : string;
  ref_IsDefined : ContractVersionedObjectReference → bool;
  MachinePool_enabled : bool
}.

(** ** Scope (rke2config_scope.go) *)

Record Scope := {
  s_Machine : option Machine; s_MachinePool : option MachinePool; s_Cluster : BCluster;
  s_ControlPlane : option RKE2ControlPlane
}.
(** [ErrRKE2ConfigNotFound] and [ErrNoRKE2ConfigOwner]. *)
Inductive scope_error := ConfigNotFound | NoConfigOwner.

Definition HasControlPlaneOwner (s : Scope) : bool :=
  bool_decide (is_Some (s_Machine s)) && bool_decide (is_Some (s_ControlPlane s)).

Definition GetDesiredVersion_of (s : Scope) : outcome string :=
  match s_MachinePool s with
  | Some p => if decide (mp_Version p ≠ "") then Ok (mp_Version p) else
      match s_Machine s with
      | Some m => if decide (msp_Version (m_Spec m) ≠ "") then Ok (msp_Version (m_Spec m))
                  else Err (EText "RKE2 version can not be found")
      | None => Err (EText "RKE2 version can not be found")
      end
  | None =>
      match s_Machine s with
      | Some m => if decide (msp_Version (m_Spec m) ≠ "") then Ok (msp_Version (m_Spec m))
                  else Err (EText "RKE2 version can not be found")
      | None => Err (EText "RKE2 version can not be found")
      end
  end.

(** [strings.Cut] and [net.JoinHostPort]. *)
Fixpoint Cut (s : string) (c : ascii) : string * string :=
  match s with
  | EmptyString => ("", "")
  | String x s => if decide (x = c) then ("", s) else let '(a, b) := Cut s c in (String x a, b)
  end.
Definition JoinHostPort (host port : string) : string :=
  if Contains host ":" then "[" +:+ host +:+ "]:" +:+ port else host +:+ ":" +:+ port.
Definition server_url (host : string) : string := "https://" +:+ JoinHostPort host "9345".

Section bootstrap.
Context `{BEnv, GoRange, VersionLib, ConfigLib, CondLib, BootstrapLib}.

(** The last owner reference of the control plane kind; [None] is
    [ErrControlPlaneNotFound]. *)
Definition control_plane_owner (o : ObjectMeta) : option OwnerReference :=
  list.last (filter (λ r, ow_APIVersion r = cp_GroupVersion ∧ ow_Kind r = "RKE2ControlPlane")
               (om_OwnerReferences o)).
Definition GetControlPlaneByName (ns name : string) : B RKE2ControlPlane :=
  bapi (BGetControlPlane ns name).
Definition GetOwnerControlPlane (o : ObjectMeta) : B (option RKE2ControlPlane) :=
  match control_plane_owner o with
  | Some r => cp ← GetControlPlaneByName (om_Namespace o) (ow_Name r); mret (Some cp)
  | None => mret None
  end.

Definition NewScope : B (scope_error + Scope) :=
  r ← try (bapi BGetRKE2Config);
  match r with
  | inr e => if IsNotFound e then mret (inl ConfigNotFound) else fail (EWrap "fetching RKE2Config" e)
  | inl config =>
      _ ← set_cfg config;
      machine ← bwrap "fetching Machine owner" (bapi (BGetOwnerMachine config));
      pool ← bwrap "fetching MachinePool owner" (bapi (BGetOwnerMachinePool config));
      let cluster_name := match pool, machine with
                          | Some p, _ => mp_ClusterName p
                          | None, Some m => msp_ClusterName (m_Spec m)
                          | None, None => ""
                          end in
      match machine, pool with
      | None, None => mret (inl NoConfigOwner)
      | _, _ =>
          cp ← match machine with
               | Some m => bwrap "fetching ControlPlane owner" (GetOwnerControlPlane (m_ObjectMeta m))
               | None => mret None
               end;
          cluster ← bwrap "fetching Cluster"
            (bapi (BGetCluster (om_Namespace (cfg_ObjectMeta config)) cluster_name));
          mret (inr (Build_Scope machine pool cluster cp))
      end
  end.

(** ** Assignments to the configuration's status *)

Definition cfg_with_status (s : RKE2ConfigStatus) (c : RKE2Config) : RKE2Config :=
  Build_RKE2Config (cfg_APIVersion c) (cfg_Kind c) (cfg_ObjectMeta c) (cfg_Spec c) s.
Definition cfg_set_condition (cond : Condition) : B unit :=
  modify_cfg (λ c, let s := cfg_Status c in
    cfg_with_status (Build_RKE2ConfigStatus (conditions_Set (cst_Conditions s) cond)
      (cst_DataSecretCreated s) (cst_DataSecretName s) (cst_ObservedGeneration s)) c).
Definition cfg_set_secret (name : option string) : B unit :=
  modify_cfg (λ c, let s := cfg_Status c in
    cfg_with_status (Build_RKE2ConfigStatus (cst_Conditions s) (Some true) name
      (cst_ObservedGeneration s)) c).
Definition data_secret_available : Condition :=
  mkCond RKE2ConfigDataSecretAvailableCondition ConditionTrue AvailableReason "".
Definition certificates_available : Condition :=
  mkCond RKE2ConfigCertificatesAvailableCondition ConditionTrue AvailableReason "".

Definition data_secret_created (c : RKE2Config) : bool :=
  default false (cst_DataSecretCreated (cfg_Status c)).

(** ** Secrets *)

Definition createSecretFromObject (s : Secret) : B unit :=
  r ← try (bapi (BCreateSecret s));
  match r with
  | inl _ => mret tt
  | inr e => if IsAlreadyExists e then fail e else fail (EWrap "failed to create secret" e)
  end.

Definition createOrUpdateSecretFromObject (s : Secret) : B unit :=
  r ← try (bapi (BCreateSecret s));
  match r with
  | inl _ => mret tt
  | inr e => if IsAlreadyExists e then bwrap "failed to update secret" (bapi (BUpdateSecret s))
             else fail (EWrap "failed to create secret" e)
  end.

Definition getRegistrationTokenFromSecretValue (name ns : string) : B string :=
  data ← bwrap "could not retrieve secret" (bapi (BGetSecret ns name));
  mret (default "" (map_get data "value")).

Definition token_secret (s : Scope) (c : RKE2Config) (name token : string) : Secret :=
  let cluster := s_Cluster s in
  {| sec_Name := name; sec_Namespace := om_Namespace (cfg_ObjectMeta c);
     sec_Labels := {[ClusterSecretLabel := bc_Name cluster]};
     sec_Owner := Build_OwnerReference (bc_APIVersion cluster) (bc_Kind cluster) (bc_Name cluster)
       (om_UID (cl_ObjectMeta (bc_Cluster cluster))) (Some true) None;
     sec_Data := {["value" := token]}; sec_Type := ClusterSecretType |}.

(** [Random] reads [size] bytes; the token is their hexadecimal text. *)
Definition generateAndStoreToken (s : Scope) (name : string) : B string :=
  token ← bapi (BRandom defaultTokenLength);
  c ← get_cfg;
  _ ← createSecretFromObject (token_secret s c name token);
  mret token.

Definition bootstrap_secret (s : Scope) (c : RKE2Config) (data : string) : Secret :=
  {| sec_Name := cfg_Name c; sec_Namespace := om_Namespace (cfg_ObjectMeta c);
     sec_Labels := {[ClusterSecretLabel := bc_Name (s_Cluster s)]};
     sec_Owner := Build_OwnerReference (cfg_APIVersion c) (cfg_Kind c) (cfg_Name c)
       (om_UID (cfg_ObjectMeta c)) (Some true) None;
     sec_Data := <["value" := data]> {["format" := ac_Format (cs_AgentConfig (cfg_Spec c))]};
     sec_Type := ClusterSecretType |}.

Definition storeBootstrapData (s : Scope) (data : string) : B unit :=
  c ← get_cfg;
  let spec := cfg_Spec c in
  data ← (if default false (cs_GzipUserData spec) then
            z ← lift (gzip data);
            if decide (ac_Format (cs_AgentConfig spec) = Ignition)
            then lift (EncapsulateGzippedConfig z) else mret z
          else mret data);
  _ ← createOrUpdateSecretFromObject (bootstrap_secret s c data);
  _ ← cfg_set_secret (Some (cfg_Name c));
  cfg_set_condition data_secret_available.

(** ** Files *)

Definition fileSourceNamespace (c : RKE2Config) (ref : FileSourceRef) : string :=
  if decide (fsr_Namespace ref = "") then om_Namespace (cfg_ObjectMeta c) else fsr_Namespace ref.

Definition f_with_content (content : string) (f : File) : File :=
  Build_File (f_Path f) (f_Owner f) (f_Permissions f) (f_Encoding f) content None.

(** One file of the configuration, its content fetched: an empty entry of a config map
    is an error, one of a secret is not. *)
Definition resolve_file (c : RKE2Config) (f : File) : B File :=
  match f_ContentFrom f with
  | None => mret f
  | Some src =>
      match fs_Secret src, fs_ConfigMap src with
      | Some ref, _ =>
          data ← bwrap "unable to get secret"
            (bapi (BGetSecret (fileSourceNamespace c ref) (fsr_Name ref)));
          match map_get data (fsr_Key ref) with
          | Some content => mret (f_with_content content f)
          | None => fail (EText "file content is empty for secret")
          end
      | None, Some ref =>
          data ← bwrap "unable to get config map"
            (bapi (BGetConfigMap (fileSourceNamespace c ref) (fsr_Name ref)));
          let content := default "" (map_get data (fsr_Key ref)) in
          if decide (content = "") then fail (EText "file content is empty for config map")
          else mret (f_with_content content f)
      | None, None => mret f
      end
  end.

Definition generateFileListIncludingRegistries (configFiles : list File) : B (list File) :=
  c ← get_cfg;
  '(registries, registryFiles) ← GenerateRegistries (cs_PrivateRegistriesConfig (cfg_Spec c));
  yaml ← lift (yaml_registries registries);
  let registriesFile := mkFile DefaultRKE2RegistriesLocation yaml filePermissions in
  additional ← for_acc (elems (cs_Files (cfg_Spec c))) []
    (λ acc f, f' ← resolve_file c f; mret (acc ++ [f']));
  mret (configFiles ++ registryFiles ++ [registriesFile] ++ additional).

Definition manifest_file (kv : string * string) : File :=
  Build_File (DefaultManifestDirectory +:+ "/" +:+ kv.1) "" "" "" kv.2 None.
Definition generateFilesFromManifestConfig (ref : ObjectReference) : B (list File) :=
  if decide (ref = Build_ObjectReference "" "" "") then mret []
  else
    data ← bapi (BGetConfigMap (or_Namespace ref) (or_Name ref));
    mret (map manifest_file (go_range 44 (default ∅ data))).

(** ** User data *)

Definition user_data_input (c : RKE2Config) (configFile : File) (version : string)
    (files certificates : list File) : UserDataInput :=
  let spec := cfg_Spec c in
  let ac := cs_AgentConfig spec in
  {| ud_AirGapped := ac_AirGapped ac; ud_AirGappedChecksum := ac_AirGappedChecksum ac;
     ud_CISEnabled := bool_decide (ac_CISProfile ac ≠ "");
     ud_PreRKE2Commands := cs_PreRKE2Commands spec; ud_PostRKE2Commands := cs_PostRKE2Commands spec;
     ud_ConfigFile := configFile; ud_RKE2Version := version; ud_WriteFiles := files;
     ud_NTPServers := ac_NTP ac ≫= ntp_Servers;
     ud_AdditionalCloudInit := aud_Config (ac_AdditionalUserData ac);
     ud_AdditionalArbitraryData := aud_Data (ac_AdditionalUserData ac);
     ud_Certificates := certificates |}.

Definition render (kind : UserDataKind) (c : RKE2Config) (input : UserDataInput) : outcome string :=
  let ac := cs_AgentConfig (cfg_Spec c) in
  if decide (ac_Format ac = Ignition) then ignition_New kind input (ac_AdditionalUserData ac)
  else cloudinit_New kind input.

(** The end all three paths share: the file list, the manifests of a server, the user
    data, and its secret. *)
Definition make_user_data (s : Scope) (kind : UserDataKind) (manifests : option ObjectReference)
    (yaml version : string) (configFiles certificates : list File) : B unit :=
  let configFile := mkFile DefaultRKE2ConfigLocation yaml filePermissions in
  files ← generateFileListIncludingRegistries configFiles;
  manifestFiles ← match manifests with
                  | Some ref => generateFilesFromManifestConfig ref
                  | None => mret []
                  end;
  c ← get_cfg;
  userData ← lift (render kind c
    (user_data_input c configFile version (files ++ manifestFiles) certificates));
  storeBootstrapData s userData.

(** ** The first control plane machine *)

Definition registration_address (s : Scope) (cp : RKE2ControlPlane) : string :=
  if bool_decide (sp_RegistrationMethod (rcp_Spec cp) = RegistrationMethodAddress) &&
     bool_decide (sp_RegistrationAddress (rcp_Spec cp) ≠ "")
  then sp_RegistrationAddress (rcp_Spec cp) else bc_Endpoint (s_Cluster s).

Definition server_opts (s : Scope) (cp : RKE2ControlPlane) (c : RKE2Config)
    (token url version : string) : ServerConfigOpts :=
  {| so_Cluster := s_Cluster s; so_ControlPlaneEndpoint := bc_Endpoint (s_Cluster s);
     so_Token := token; so_ServerURL := url; so_ServerConfig := sp_ServerConfig (rcp_Spec cp);
     so_AgentConfig := cs_AgentConfig (cfg_Spec c); so_Version := version |}.

(** The registration token: generated once, and read back when it exists. *)
Definition registration_token (s : Scope) : B string :=
  let name := TokenName (bc_Name (s_Cluster s)) in
  r ← try (generateAndStoreToken s name);
  match r with
  | inl token => mret token
  | inr e => if IsAlreadyExists e
             then getRegistrationTokenFromSecretValue name (bc_Namespace (s_Cluster s))
             else fail e
  end.

Definition wrap_yaml (m : outcome string) : B string := bwrap "unable to marshal config.yaml" (lift m).

(** What runs under the lock. *)
Definition init_control_plane (s : Scope) (cp : RKE2ControlPlane) : B Result :=
  let legacy := bool_decide (is_Some (map_get (rcp_Annotations cp) LegacyRKE2ControlPlane)) in
  r ← try (bapi (BLookupOrGenerateCertificates legacy));
  match r with
  | inr e =>
      _ ← cfg_set_condition (mkCond RKE2ConfigCertificatesAvailableCondition ConditionFalse
            InternalErrorReason
            "Failed to generate or retrieve certificate: check controller log for errors");
      fail e
  | inl certificates =>
      _ ← cfg_set_condition certificates_available;
      token ← registration_token s;
      version ← lift (GetDesiredVersion_of s);
      c ← get_cfg;
      '(config, configFiles) ← GenerateInitControlPlaneConfig
        (server_opts s cp c token (server_url (registration_address s cp)) version);
      yaml ← wrap_yaml (yaml_server config);
      _ ← make_user_data s InitControlPlane (Some (sp_ManifestsConfigMapReference (rcp_Spec cp)))
            yaml version configFiles certificates;
      mret Result_zero
  end.

(** The deferred function gives the lock back when an error is returned. *)
Definition unlock_on_error (s : Scope) (o : outcome Result) : B (outcome Result) :=
  match o with
  | Err e =>
      unlocked ← block (BUnlock (bc_Name (s_Cluster s))) (λ b, b);
      mret (if unlocked : bool then Err e
            else Err (EAgg [e; EText "failed to unlock the rke2 init lock"]))
  | o => mret o
  end.

Definition handleClusterNotInitialized (s : Scope) : B Result :=
  match s_Machine s, s_ControlPlane s with
  | Some machine, Some cp =>
      locked ← block (BLock (bc_Name (s_Cluster s)) (m_Name machine)) (λ b, b);
      if locked : bool then defer (init_control_plane s cp) (unlock_on_error s)
      else mret (requeueAfter DefaultRequeueAfter)
  | _, _ => mret (requeueAfter DefaultRequeueAfter)
  end.

(** ** Machines that join *)

Definition hasTaint (taints : list string) (target : string * string) : bool :=
  existsb (λ taint, let '(keyValue, effect) := Cut taint ":" in
                    MatchTaint ((Cut keyValue "=").1, effect) target) taints.

Definition get_token (s : Scope) : B string :=
  data ← bapi (BGetSecret (bc_Namespace (s_Cluster s)) (bc_Name (s_Cluster s) +:+ tokenPrefix));
  mret (default "" (map_get data "value")).

Definition joinControlplane (s : Scope) (cp : RKE2ControlPlane) : B Result :=
  token ← get_token s;
  match elems (st_AvailableServerIPs (rcp_Status cp)) with
  | [] => mret (requeueAfter DefaultRequeueAfter)
  | ip :: _ =>
      version ← lift (GetDesiredVersion_of s);
      c ← get_cfg;
      '(config, configFiles) ← GenerateJoinControlPlaneConfig
        (server_opts s cp c token (server_url ip) version);
      yaml ← wrap_yaml (yaml_server config);
      _ ← make_user_data s JoinControlPlane (Some (sp_ManifestsConfigMapReference (rcp_Spec cp)))
            yaml version configFiles [];
      _ ← cfg_set_condition certificates_available;
      mret Result_zero
  end.

Definition ac_with_taints (t : slice string) (a : RKE2AgentConfig) : RKE2AgentConfig :=
  let '(Build_RKE2AgentConfig f1 f2 f3 _ f5 f6 f7 f8 f9 f10 f11 f12 f13 f14 f15 f16 f17 f18 f19 f20
          f21 f22 f23 f24 f25) := a in
  Build_RKE2AgentConfig f1 f2 f3 t f5 f6 f7 f8 f9 f10 f11 f12 f13 f14 f15 f16 f17 f18 f19 f20
    f21 f22 f23 f24 f25.

(** A worker's node starts tainted: the taint is added unless a taint matches it. *)
Definition worker_agent_config (a : RKE2AgentConfig) : RKE2AgentConfig :=
  let taints := elems (ac_NodeTaints a) in
  if hasTaint taints NodeUninitializedTaint then a
  else ac_with_taints (Some (taints ++ [NodeUninitializedTaint_String])) a.

Definition joinWorker (s : Scope) (cp : RKE2ControlPlane) : B Result :=
  token ← get_token s;
  match elems (st_AvailableServerIPs (rcp_Status cp)) with
  | [] => mret (requeueAfter DefaultRequeueAfter)
  | ip :: _ =>
      version ← lift (GetDesiredVersion_of s);
      c ← get_cfg;
      '(config, configFiles) ← GenerateWorkerConfig
        {| ao_ServerURL := server_url ip; ao_Token := token;
           ao_AgentConfig := worker_agent_config (cs_AgentConfig (cfg_Spec c));
           ao_CloudProviderName := sc_CloudProviderName (sp_ServerConfig (rcp_Spec cp));
           ao_CloudProviderConfigMap := sc_CloudProviderConfigMap (sp_ServerConfig (rcp_Spec cp));
           ao_Version := version |};
      yaml ← wrap_yaml (yaml_agent config);
      _ ← make_user_data s JoinWorker None yaml version configFiles [];
      _ ← cfg_set_condition certificates_available;
      mret Result_zero
  end.

(** ** Reconcile *)

(** A machine or pool that has its data secret already: the status follows it. *)
Definition restore_status (name : option string) : B unit :=
  c ← get_cfg;
  match name with
  | Some name =>
      if negb (data_secret_created c) || bool_decide (cst_DataSecretName (cfg_Status c) = None)
      then _ ← cfg_set_secret (Some name);
           _ ← cfg_set_condition data_secret_available;
           cfg_set_condition certificates_available
      else mret tt
  | None => mret tt
  end.

Definition join_error {A} (o : outcome A) (err : error) : outcome A :=
  match o with Err e => Err (EAgg [e; err]) | Panic p => Panic p | Ok _ => Err (EAgg [err]) end.

(** The deferred function: the summary condition, and the object is written back; its
    generation is observed when there is no error (a panic is none). *)
Definition write_config (before : RKE2Config) (o : outcome Result) : B (outcome Result) :=
  c ← get_cfg;
  '(o, failed) ← match SetSummaryCondition c with
                 | Ok c' => _ ← set_cfg c'; mret (o, match o with Err _ => true | _ => false end)
                 | Err e => mret (join_error o e, true)
                 | Panic p => panic p
                 end;
  c ← get_cfg;
  r ← try (bapi (BPatchConfig before c (negb failed)));
  mret (match r with inl _ => o | inr e => join_error o e end).

(** What the deferred function is around. *)
Definition reconcile_config (s : Scope) : B Result :=
  c ← get_cfg;
  if negb (pTime_IsZero (om_DeletionTimestamp (cfg_ObjectMeta c))) then mret Result_zero
  else if negb (default false (cl_InfrastructureProvisioned (bc_Cluster (s_Cluster s)))) then
    _ ← cfg_set_condition (mkCond RKE2ConfigDataSecretAvailableCondition ConditionFalse
          NotAvailableReason
          "Waiting for Cluster status.initialization.infrastructureProvisioned to be true");
    mret requeue
  else
    _ ← restore_status (s_Machine s ≫= λ m, msp_DataSecretName (m_Spec m));
    _ ← restore_status (s_MachinePool s ≫= mp_DataSecretName);
    c ← get_cfg;
    if data_secret_created c then mret Result_zero
    else if negb (conditions_IsTrue (bc_Conditions (s_Cluster s)) ControlPlaneInitializedCondition)
    then handleClusterNotInitialized s
    else
      _ ← block (BUnlock (bc_Name (s_Cluster s))) (λ b, b);
      match s_Machine s, s_ControlPlane s with
      | Some _, Some cp => joinControlplane s cp
      | _, _ =>
          r ← try (bapi (BGetControlPlane (bc_Namespace (s_Cluster s))
                           (bc_ControlPlaneRef (s_Cluster s))));
          match r with
          | inr _ => mret requeue
          | inl cp => joinWorker s cp
          end
      end.

Definition Reconcile_config : B Result :=
  r ← bwrap "initializing RKE2Config scope" NewScope;
  match r with
  | inl _ => mret Result_zero
  | inr s =>
      c ← get_cfg;
      if config_IsPaused (s_Cluster s) c then mret Result_zero
      else
        _ ← bapi BNewPatchHelper;
        defer (reconcile_config s) (write_config c)
  end.

(** ** Watches *)

(** The requests of an event: namespace and name. *)
Definition is_rke2config (r : ContractVersionedObjectReference) : bool :=
  ref_IsDefined r && bool_decide (cv_APIGroup r = bootstrap_Group) && bool_decide (cv_Kind r = "RKE2Config").
Definition MachineToBootstrapMapFunc (m : Machine) : list (string * string) :=
  let r := msp_ConfigRef (m_Spec m) in
  if is_rke2config r then [(m_Namespace m, cv_Name r)] else [].
Definition MachinePoolToBootstrapMapFunc (p : MachinePool) : list (string * string) :=
  if is_rke2config (mp_ConfigRef p) then [(mp_Namespace p, cv_Name (mp_ConfigRef p))] else [].

(** Only the kind is compared here, and an error lists nothing. *)
Definition of_kind (r : ContractVersionedObjectReference) : bool :=
  ref_IsDefined r && bool_decide (cv_Kind r = "RKE2Config").
Definition ClusterToRKE2Configs (ns name : string) : B (list (string * string)) :=
  r ← try (bapi (BListMachines ns name));
  match r with
  | inr _ => mret []
  | inl machines =>
      let found := omap (λ m, let ref := msp_ConfigRef (m_Spec m) in
        if of_kind ref then Some (m_Namespace m, cv_Name ref) else None) machines in
      if MachinePool_enabled then
        r ← try (bapi (BListMachinePools ns name));
        match r with
        | inr _ => mret []
        | inl pools =>
            mret (found ++ omap (λ p, let ref := mp_ConfigRef p in
              if of_kind ref then Some (mp_Namespace p, cv_Name ref) else None) pools)
        end
      else mret found
  end.

(** ** Generating configurations and files only reads *)

Definition is_read (c : BCall) : Prop :=
  match c with BGetSecret _ _ | BGetConfigMap _ _ => True | _ => False end.

Lemma reads_get_secret msg ref : reads is_read (get_secret msg ref).
Proof. unfold get_secret. reads_auto. Qed.
Lemma reads_get_config_map msg ref : reads is_read (get_config_map msg ref).
Proof. unfold get_config_map. reads_auto. Qed.
Lemma reads_get_entry data k msg : reads is_read (get_entry data k msg).
Proof. unfold get_entry. reads_auto. Qed.

Ltac reads_config :=
  repeat first [ apply reads_get_secret | apply reads_get_config_map | apply reads_get_entry
               | reads_step ].

Lemma reads_server opts : reads is_read (newRKE2ServerConfig opts).
Proof.
  unfold newRKE2ServerConfig, server_audit_policy, cloud_provider_config, server_s3, s3_credentials,
    s3_ca, server_encryption, server_datastore, datastore_cert. reads_config.
Qed.
Lemma reads_agent opts : reads is_read (newRKE2AgentConfig opts).
Proof.
  unfold newRKE2AgentConfig, agent_profile, cloud_provider_config, agent_image_credentials,
    agent_resolv_conf. reads_config.
Qed.
Lemma reads_init opts : reads is_read (GenerateInitControlPlaneConfig opts).
Proof.
  unfold GenerateInitControlPlaneConfig.
  repeat first [ apply reads_server | apply reads_agent | reads_step ].
Qed.
Lemma reads_join opts : reads is_read (GenerateJoinControlPlaneConfig opts).
Proof.
  unfold GenerateJoinControlPlaneConfig.
  repeat first [ apply reads_server | apply reads_agent | reads_step ].
Qed.
Lemma reads_worker opts : reads is_read (GenerateWorkerConfig opts).
Proof.
  unfold GenerateWorkerConfig. repeat first [ apply reads_agent | reads_step ].
Qed.

Lemma reads_registries r : reads is_read (GenerateRegistries r).
Proof.
  unfold GenerateRegistries. reads_step; [|by reads_auto].
  generalize (go_range 42 (default ∅ (reg_Configs r))) as l.
  generalize (@None (gmap string YamlRegistryConfig)) as cs. generalize (@nil File) as fs.
  intros fs cs l. revert cs fs. induction l as [|[n c] l IH]; intros cs fs; simpl; [by reads_auto|].
  unfold registry_tls, registry_auth. repeat first [ apply IH | reads_step ].
Qed.
Lemma reads_file_list files : reads is_read (generateFileListIncludingRegistries files).
Proof.
  unfold generateFileListIncludingRegistries, resolve_file.
  repeat first [ apply reads_registries | reads_step ].
Qed.
Lemma reads_manifests ref : reads is_read (generateFilesFromManifestConfig ref).
Proof. unfold generateFilesFromManifestConfig. reads_auto. Qed.
Lemma reads_token_value name ns : reads is_read (getRegistrationTokenFromSecretValue name ns).
Proof. unfold getRegistrationTokenFromSecretValue. reads_auto. Qed.
Lemma reads_get_token s : reads is_read (get_token s).
Proof. unfold get_token. reads_auto. Qed.

(** ** Calls other than the lock's *)

Definition no_lock (c : BCall) : Prop :=
  match c with BLock _ _ | BUnlock _ => False | _ => True end.

Lemma is_read_no_lock {A} (m : B A) : reads is_read m → makes no_lock m.
Proof.
  intros Hm w. destruct (Hm w) as [_ (l & Hl & Hp)]. exists l. split; [done|].
  eapply list.Forall_impl; [exact Hp|]. by intros [[] ?].
Qed.

Ltac makes_boot :=
  repeat first
    [ apply is_read_no_lock, reads_init | apply is_read_no_lock, reads_join
    | apply is_read_no_lock, reads_worker | apply is_read_no_lock, reads_file_list
    | apply is_read_no_lock, reads_manifests | apply is_read_no_lock, reads_token_value
    | apply is_read_no_lock, reads_get_token | makes_step ].

Lemma store_no_lock s data : makes no_lock (storeBootstrapData s data).
Proof.
  unfold storeBootstrapData, createOrUpdateSecretFromObject. makes_boot.
Qed.
Lemma user_data_no_lock s k mf y v fs cs : makes no_lock (make_user_data s k mf y v fs cs).
Proof. unfold make_user_data. repeat first [ apply store_no_lock | progress makes_boot ]. Qed.
Lemma init_no_lock s cp : makes no_lock (init_control_plane s cp).
Proof.
  unfold init_control_plane, registration_token, generateAndStoreToken, createSecretFromObject, wrap_yaml.
  repeat first [ apply user_data_no_lock | progress makes_boot ].
Qed.

(** ** The lock *)

(** The calls of the first machine's path, the latest first. *)
Definition lock_discipline (s : Scope) (o : outcome Result) (l : list BEvent) : Prop :=
  let cluster := bc_Name (s_Cluster s) in
  l = [] ∨
  (∃ m, l = [(BLock cluster m, false)] ∧ o = Ok (requeueAfter DefaultRequeueAfter)) ∨
  (∃ m body, l = body ++ [(BLock cluster m, true)] ∧
     match o with
     | Err _ => ∃ ok rest, body = (BUnlock cluster, ok) :: rest ∧ Forall (λ ev, no_lock ev.1) rest
     | _ => Forall (λ ev, no_lock ev.1) body
     end).

Lemma handle_lock_run s w :
  let r := handleClusterNotInitialized s w in
  ∃ l, b_log r.2 = l ++ b_log w ∧ lock_discipline s r.1 l.
Proof.
  cbn. unfold handleClusterNotInitialized.
  destruct (s_Machine s) as [m|]; [|by exists []; split; [|left]].
  destruct (s_ControlPlane s) as [cp|]; [|by exists []; split; [|left]].
  unfold mbind, comp_bind, block. destruct (bask (b_log w) _) as [e|[]].
  1, 3: by eexists [_]; split; [|right; left; eexists].
  unfold defer. set (w1 := Build_BWorld _ _).
  destruct (init_no_lock s cp w1) as (l & Hl & Hp).
  destruct (init_control_plane s cp w1) as [[r|e|p] w2] eqn:E; cbn in Hl.
  1, 3: exists (l ++ [(BLock (bc_Name (s_Cluster s)) (m_Name m), true)]); cbn; rewrite Hl;
    (split; [by rewrite <-app_assoc|]); right; right; by exists (m_Name m), l.
  cbn. unfold mbind, comp_bind, block.
  assert (∀ ok, ∃ l0, (BUnlock (bc_Name (s_Cluster s)), ok) :: b_log w2 = l0 ++ b_log w ∧
    ∀ e', lock_discipline s (Err e') l0) as Hd.
  { intros ok. exists ((BUnlock (bc_Name (s_Cluster s)), ok) ::
      l ++ [(BLock (bc_Name (s_Cluster s)) (m_Name m), true)]).
    split; [rewrite Hl; cbn; by rewrite <-app_assoc|]. intros e'. right; right.
    exists (m_Name m), ((BUnlock (bc_Name (s_Cluster s)), ok) :: l). split; [done|]. by eexists _, _. }
  destruct (bask (b_log w2) _) as [e2|b]; [destruct (Hd false) as (l0 & H1' & H2')|
    destruct (Hd b) as (l0 & H1' & H2'); destruct b];
    exists l0; (split; [exact H1'|apply H2']).
Qed.

(** ** When the status says there is a data secret *)

(** A secret with the configuration's name was written. *)
Definition stored (c0 : RKE2Config) (log : list BEvent) : Prop :=
  ∃ sec, sec_Name sec = cfg_Name c0 ∧ sec_Namespace sec = om_Namespace (cfg_ObjectMeta c0) ∧
    ((BCreateSecret sec, true) ∈ log ∨ (BUpdateSecret sec, true) ∈ log).
Definition owner_has_secret (s : Scope) : Prop :=
  is_Some (s_Machine s ≫= λ m, msp_DataSecretName (m_Spec m)) ∨
  is_Some (s_MachinePool s ≫= mp_DataSecretName).

(** The status does not claim a secret that is not there, and no secret but the
    configuration's own is ever overwritten. *)
Definition honest (c0 : RKE2Config) (s : Scope) (w : BWorld) : Prop :=
  cfg_ObjectMeta (b_cfg w) = cfg_ObjectMeta c0 ∧
  (data_secret_created (b_cfg w) = true →
   data_secret_created c0 = true ∨ owner_has_secret s ∨ stored c0 (b_log w)) ∧
  (∀ sec ok, (BUpdateSecret sec, ok) ∈ b_log w → sec_Name sec = cfg_Name c0).

Section honest.
Context (c0 : RKE2Config) (s : Scope).

Lemma stored_cons ev log : stored c0 log → stored c0 (ev :: log).
Proof.
  intros (sec & Hn & Hs & Hl). exists sec. split; [done|]. split; [done|].
  destruct Hl; [left|right]; by apply list_elem_of_further.
Qed.

Lemma honest_log w c ok :
  (∀ sec, c = BUpdateSecret sec → sec_Name sec = cfg_Name c0) →
  honest c0 s w → honest c0 s (Build_BWorld (b_cfg w) ((c, ok) :: b_log w)).
Proof.
  intros Hc (Hm & Hd & Hu). split; [done|]. split; cbn.
  - intros Hx. destruct (Hd Hx) as [?|[?|?]]; [by left|by right; left|right; right].
    by apply stored_cons.
  - intros sec ok' [[= <- <-]|Hin]%elem_of_cons; [by apply Hc|by eapply Hu].
Qed.

Lemma honest_reads {A} (m : B A) : reads is_read m → keeps_inv (honest c0 s) m.
Proof.
  intros Hm. apply (reads_inv is_read); [|done]. intros w c ok Hc. apply honest_log.
  by intros sec ->.
Qed.
Lemma honest_condition c : keeps_inv (honest c0 s) (cfg_set_condition c).
Proof. apply inv_modify_cfg. by intros w. Qed.

Lemma meta_name (c : RKE2Config) : cfg_ObjectMeta c = cfg_ObjectMeta c0 → cfg_Name c = cfg_Name c0.
Proof. unfold cfg_Name. by intros ->. Qed.

(** Writing the secret, then the status. *)
Lemma honest_write c data name :
  cfg_ObjectMeta c = cfg_ObjectMeta c0 →
  keeps_inv (honest c0 s)
    (_ ← createOrUpdateSecretFromObject (bootstrap_secret s c data);
     _ ← cfg_set_secret name; cfg_set_condition data_secret_available).
Proof.
  intros Hm w Hw. unfold createOrUpdateSecretFromObject, bwrap, mbind, comp_bind, try, bapi.
  set (sec := bootstrap_secret s c data).
  assert (sec_Name sec = cfg_Name c0) as Hn by (by apply meta_name).
  assert (sec_Namespace sec = om_Namespace (cfg_ObjectMeta c0)) as Hs by (cbn; by rewrite Hm).
  assert (∀ w1, honest c0 s w1 → stored c0 (b_log w1) →
    honest c0 s ((_ ← cfg_set_secret name; cfg_set_condition data_secret_available) w1).2) as Hset.
  { intros w1 (Hm1 & _ & Hu1) Hst. split; [done|]. split; [|done]. intros _. by right; right. }
  pose proof (honest_log w (BCreateSecret sec) false (λ _, ltac:(done)) Hw) as Hf.
  pose proof (honest_log w (BCreateSecret sec) true (λ _, ltac:(done)) Hw) as Ht.
  assert (∀ ok, honest c0 s (Build_BWorld (b_cfg w) ((BUpdateSecret sec, ok) ::
    (BCreateSecret sec, false) :: b_log w))) as Hup.
  { intros ok. apply (honest_log _ (BUpdateSecret sec) ok) in Hf; [done|by intros sec' [= <-]]. }
  destruct (bask (b_log w) (BCreateSecret sec)) as [e|a].
  - destruct (IsAlreadyExists e); [|exact Hf]. cbn [b_log b_cfg].
    destruct (bask _ (BUpdateSecret sec)) as [e2|a2]; [exact (Hup false)|].
    apply (Hset _ (Hup true)).
    exists sec. split; [done|]. split; [done|]. right. by apply list_elem_of_here.
  - apply (Hset _ Ht). exists sec. split; [done|]. split; [done|]. left. by apply list_elem_of_here.
Qed.

Lemma honest_get_cfg {A} (f : RKE2Config → B A) :
  (∀ c, cfg_ObjectMeta c = cfg_ObjectMeta c0 → keeps_inv (honest c0 s) (f c)) →
  keeps_inv (honest c0 s) (c ← get_cfg; f c).
Proof. intros Hf w Hw. apply (Hf (b_cfg w)); [apply Hw|done]. Qed.

Lemma honest_store data : keeps_inv (honest c0 s) (storeBootstrapData s data).
Proof.
  unfold storeBootstrapData. apply honest_get_cfg. intros c Hc.
  apply inv_bind; [inv_auto|]. intros d. by apply honest_write.
Qed.

Ltac honest_step :=
  first
  [ apply honest_store | apply honest_condition
  | apply honest_reads, reads_init | apply honest_reads, reads_join
  | apply honest_reads, reads_worker | apply honest_reads, reads_file_list
  | apply honest_reads, reads_manifests | apply honest_reads, reads_token_value
  | apply honest_reads, reads_get_token
  | lazymatch goal with
    | |- keeps_inv _ (bapi ?c) => apply (inv_bapi _ c); intros ? ?; by apply honest_log
    | |- keeps_inv _ (block ?c _) => apply (inv_block _ c); intros ? ?; by apply honest_log
    end
  | inv_step ].
Ltac honest_auto := repeat honest_step.

Lemma honest_user_data k mf y v fs cs : keeps_inv (honest c0 s) (make_user_data s k mf y v fs cs).
Proof. unfold make_user_data. honest_auto. Qed.

Lemma honest_init cp : keeps_inv (honest c0 s) (init_control_plane s cp).
Proof.
  unfold init_control_plane, registration_token, generateAndStoreToken, createSecretFromObject, wrap_yaml.
  repeat first [ apply honest_user_data | honest_step ].
Qed.
Lemma honest_handle : keeps_inv (honest c0 s) (handleClusterNotInitialized s).
Proof.
  unfold handleClusterNotInitialized.
  repeat first [ apply honest_init | apply inv_defer; [|intros ?; unfold unlock_on_error] | honest_step ].
Qed.
Lemma honest_join cp : keeps_inv (honest c0 s) (joinControlplane s cp).
Proof. unfold joinControlplane, wrap_yaml. repeat first [ apply honest_user_data | honest_step ]. Qed.
Lemma honest_worker cp : keeps_inv (honest c0 s) (joinWorker s cp).
Proof. unfold joinWorker, wrap_yaml. repeat first [ apply honest_user_data | honest_step ]. Qed.

Lemma honest_restore name :
  (is_Some name → owner_has_secret s) → keeps_inv (honest c0 s) (restore_status name).
Proof.
  intros Ho w Hw. unfold restore_status, get_cfg, gets, mbind, comp_bind.
  destruct name as [n|]; [|done]. destruct (_ || _); [|done].
  destruct Hw as (Hm & Hd & Hu). split; [done|]. split; [|done]. intros _. right; left. by apply Ho.
Qed.

Lemma honest_run : keeps_inv (honest c0 s) (reconcile_config s).
Proof.
  unfold reconcile_config.
  repeat first [ apply honest_handle | apply honest_join | apply honest_worker
               | apply honest_restore; unfold owner_has_secret; by auto | honest_step ].
Qed.
End honest.

(** ** Once the data secret exists *)

Lemma restore_ok name w : ∃ w', restore_status name w = (Ok tt, w') ∧ b_log w' = b_log w ∧
  (data_secret_created (b_cfg w) = true ∨ is_Some name → data_secret_created (b_cfg w') = true).
Proof.
  unfold restore_status, get_cfg, gets, mbind, comp_bind. destruct name as [n|].
  - destruct (negb (data_secret_created (b_cfg w))) eqn:E; cbn; [by eexists|].
    case_bool_decide; cbn; (eexists; split; [done|]); (split; [done|]); intros _; [done|].
    by apply negb_false_iff in E.
  - exists w. split; [done|]. split; [done|]. intros [?|[? [=]]]; done.
Qed.

Lemma idle_run s w :
  data_secret_created (b_cfg w) = true ∨ owner_has_secret s →
  b_log (reconcile_config s w).2 = b_log w.
Proof.
  intros Hd. unfold reconcile_config. rewrite (comp_bind_ok get_cfg _ w _ w eq_refl).
  destruct (negb (pTime_IsZero _)); [done|]. destruct (negb (default false _)); [done|].
  destruct (restore_ok (s_Machine s ≫= λ m, msp_DataSecretName (m_Spec m)) w) as (w1 & R1 & L1 & D1).
  destruct (restore_ok (s_MachinePool s ≫= mp_DataSecretName) w1) as (w2 & R2 & L2 & D2).
  rewrite (comp_bind_ok _ _ _ _ _ R1), (comp_bind_ok _ _ _ _ _ R2),
    (comp_bind_ok get_cfg _ w2 _ w2 eq_refl).
  assert (data_secret_created (b_cfg w2) = true) as ->; [|cbn; congruence].
  apply D2. destruct Hd as [Hd|[Hd|Hd]]; [left; auto|left; auto|by right].
Qed.
End bootstrap.

(** ** The claims *)

(** C13: the path of the first machine goes under the init lock.  Its calls are none,
    or a failed attempt to take the lock, after which it waits, or begin by taking
    the lock; then the lock is given back exactly when an error is returned, as the
    last call, and is kept otherwise: the certificates, the token and the data secret
    are written by the holder of the lock only. *)
Theorem handleClusterNotInitialized_lock
    `{BEnv, GoRange, VersionLib, ConfigLib, CondLib, BootstrapLib} (s : Scope) (w : BWorld) :
  let r := handleClusterNotInitialized s w in
  ∃ l, b_log r.2 = l ++ b_log w ∧ lock_discipline s r.1 l.
Proof. apply handle_lock_run. Qed.

(** C14: the status of a configuration tells the truth.  Whatever happens during a
    reconcile, errors and panics included, the status says that the data secret exists
    only if it said so before, or the machine or machine pool names a secret, or a
    secret with the configuration's name and namespace was written during the
    reconcile; and no other secret is overwritten: the registration token is written
    once.  User data is generated once: when the status says the data secret exists,
    or the owner names one, the reconcile makes no call at all before the object is
    written back, so no secret, lock or certificate is touched. *)
Theorem reconcile_config_honest
    `{BEnv, GoRange, VersionLib, ConfigLib, CondLib, BootstrapLib} (s : Scope) (c0 : RKE2Config) :
  let w := (reconcile_config s (Build_BWorld c0 [])).2 in
  honest c0 s w ∧ (data_secret_created c0 = true ∨ owner_has_secret s → b_log w = []).
Proof.
  split; [|apply (idle_run s (Build_BWorld c0 []))].
  apply honest_run. split; [done|]. split; [by left|]. by intros sec ok Hin%elem_of_nil.
Qed.

(** ** Samples *)

Definition plain_bootstrap_lib : BootstrapLib := {|
  config_IsPaused _ _ := false;
  SetSummaryCondition c := Ok c;
  yaml_server y := Ok (y_AdvertiseAddress y +:+ "server");
  yaml_agent a := Ok (ya_Server a);
  yaml_registries _ := Ok "registries";
  cloudinit_New _ i := Ok (f_Content (ud_ConfigFile i));
  ignition_New _ i _ := Ok (f_Content (ud_ConfigFile i));
  gzip d := Ok d;
  EncapsulateGzippedConfig d := Ok d;
  ClusterSecretType := "cluster.x-k8s.io/secret"; ClusterSecretLabel := "cluster.x-k8s.io/cluster-name";
  ControlPlaneInitializedCondition := "ControlPlaneInitialized";
  AvailableReason := "Available"; NotAvailableReason := "NotAvailable";
  InternalErrorReason := "InternalError";
  NodeUninitializedTaint := ("node.cluster.x-k8s.io/uninitialized", "NoSchedule");
  NodeUninitializedTaint_String := "node.cluster.x-k8s.io/uninitialized:NoSchedule";
  MatchTaint a b := bool_decide (a = b);
  cp_GroupVersion := "controlplane.cluster.x-k8s.io/v1beta2";
  bootstrap_Group := "bootstrap.cluster.x-k8s.io";
  ref_IsDefined r := bool_decide (r ≠ Build_ContractVersionedObjectReference "" "" "");
  MachinePool_enabled := true
|}.

Definition demo_waiting_cluster : BCluster :=
  Build_BCluster demo_cluster "cluster.x-k8s.io/v1beta2" "Cluster" [] [] "cp" [].
Definition demo_scope (cluster : BCluster) : Scope :=
  Build_Scope (Some (demo_machine "m1" "")) None cluster (Some (demo_rcp 3 false)).
Definition demo_done : RKE2Config :=
  cfg_with_status (Build_RKE2ConfigStatus [] (Some true) (Some "cfg") 0%Z) demo_config.

Lemma reconcile_config_honest_witness :
  b_log (@reconcile_config demo_benv plain_range plain_version_lib plain_config_lib list_conditions
           plain_bootstrap_lib (demo_scope demo_waiting_cluster) (Build_BWorld demo_done [])).2 = [].
Proof.
  apply (@reconcile_config_honest demo_benv plain_range plain_version_lib plain_config_lib list_conditions
    plain_bootstrap_lib (demo_scope demo_waiting_cluster) demo_done).
  left. reflexivity.
Defined.

(** The first machine of the sample: lock, certificates, token, data secret. *)
Example demo_first_machine :
  let r := @reconcile_config demo_benv plain_range plain_version_lib plain_config_lib list_conditions
             plain_bootstrap_lib (demo_scope demo_waiting_cluster) (Build_BWorld demo_config []) in
  (r.1, data_secret_created (b_cfg r.2),
   map (λ ev : BEvent, match ev.1 with
                       | BLock _ _ => "lock" | BUnlock _ => "unlock"
                       | BLookupOrGenerateCertificates _ => "certificates"
                       | BRandom _ => "random" | BCreateSecret sec => sec_Name sec
                       | _ => "other" end) (rev (b_log r.2))) =
  (Ok Result_zero, true, ["lock"; "certificates"; "random"; "c1-token"; "cfg"]).
Proof. vm_compute. reflexivity. Qed.

(** The worker's taint: added unless one with its key and effect is there. *)
Example demo_taints :
  let taints l := elems (ac_NodeTaints (@worker_agent_config plain_bootstrap_lib
                    (@ac_with_taints (Some l) demo_agent))) in
  taints ["node.cluster.x-k8s.io/uninitialized=true:NoSchedule"] =
    ["node.cluster.x-k8s.io/uninitialized=true:NoSchedule"] ∧
  taints ["node.cluster.x-k8s.io/uninitialized:NoExecute"] =
    ["node.cluster.x-k8s.io/uninitialized:NoExecute"; "node.cluster.x-k8s.io/uninitialized:NoSchedule"].
Proof. split; vm_compute; reflexivity. Qed.
