(* ===== verification/Extensions.v ===== *)
(** * Runtime extensions: registry and client

    pkg/capi/registry/registry.go and pkg/capi/runtimeclient/client.go.  The registry
    keeps the handlers of all registered extensions; it is behind a lock, so its
    operations are functions from a state to a state.  The client discovers the
    handlers of an extension, lists those for a hook and an object, and calls them:
    [ECall] lists its calls to the API server, to the caches and over HTTP, and
    [EEnv] answers them.  Metrics, timeouts of a request and the construction of an
    HTTP client are left to the call that makes the request.

    The registry is refined to the set of registered ExtensionConfigs
    ([registry_refines]): that holds because discovery gives handlers names that
    cannot clash between extensions ([nameForHandler_inj]). *)

From stdpp Require Import base tactics option list gmap strings numbers.
From Stdlib Require Import Ascii.
From S2P Require Import Prelude Go Api Objects.
Open Scope string_scope.
Open Scope list_scope.
Open Scope stdpp_scope.

(** ** Objects *)

Record GroupVersionHook := { gvh_Group : string; gvh_Version : string; gvh_Hook : string }.
#[global] Instance GroupVersionHook_eq_dec : EqDecision GroupVersionHook.
Proof. solve_decision. Defined.
Record GroupHook := { gh_Group : string; gh_Hook : string }.
#[global] Instance GroupHook_eq_dec : EqDecision GroupHook.
Proof. solve_decision. Defined.
Definition gvh_GroupHook (g : GroupVersionHook) : GroupHook := Build_GroupHook (gvh_Group g) (gvh_Hook g).

(** How to reach an extension: a service, or a URL. *)
Record ServiceReference := {
  svc_Namespace : string; svc_Name : string; svc_Path : string; svc_Port : option Z
}.
#[global] Instance ServiceReference_eq_dec : EqDecision ServiceReference.
Proof. solve_decision. Defined.
Record ClientConfig := { cc_URL : string; cc_Service : ServiceReference; cc_CABundle : string }.

(** A handler in the status of an ExtensionConfig. *)
Record ExtensionHandler := {
  eh_Name : string; eh_APIVersion : string; eh_Hook : string;
  eh_TimeoutSeconds : Z; eh_FailurePolicy : string
}.

(** [labels.Selector] and [metav1.LabelSelector] are types of the Kubernetes
    libraries, as is the parsing of group versions. *)
Class SelectorLib := {
  LabelSelector : Type;
  Selector : Type;
  LabelSelectorAsSelector : LabelSelector → error + Selector;
  Selector_Empty : Selector → bool;
  Selector_Matches : Selector → gmap string string → bool;
  ParseGroupVersion : string → error + (string * string)
}.

Section extensions.
Context `{SelectorLib, GoRange}.

Record ExtensionConfig := {
  ec_Name : string; ec_ResourceVersion : string; ec_NamespaceSelector : LabelSelector;
  ec_ClientConfig : ClientConfig; ec_Settings : gmap string string;
  ec_Handlers : list ExtensionHandler
}.

(** The rest of an ExtensionConfig object; a condition with the generation it was
    observed at. *)
Record ExtCondition := {
  xc_Type : string; xc_Status : ConditionStatus; xc_ObservedGeneration : Z; xc_Reason : string; xc_Message : string
}.
Record ExtensionConfigObject := {
  eo_Config : ExtensionConfig; eo_Annotations : strmap; eo_Generation : Z; eo_DeletionTimestamp : option Time;
  eo_Conditions : list ExtCondition; eo_V1Beta1Conditions : list Condition
}.

Record ExtensionRegistration := {
  er_Name : string; er_ExtensionConfigName : string; er_ExtensionConfigResourceVersion : string;
  er_GroupVersionHook : GroupVersionHook; er_NamespaceSelector : Selector;
  er_ClientConfig : ClientConfig; er_TimeoutSeconds : Z; er_FailurePolicy : string;
  er_Settings : gmap string string
}.

(** ** The registry *)

Record extensionRegistry := { ready : bool; items : gmap string ExtensionRegistration }.
Definition New : extensionRegistry := Build_extensionRegistry false ∅.
Definition IsReady (r : extensionRegistry) : bool := ready r.

(** The loop deletes by the name of the entry while it ranges over the map, which
    visits every entry that is there at the start. *)
Definition remove (c : ExtensionConfig) (m : gmap string ExtensionRegistration) :
    gmap string ExtensionRegistration :=
  foldr (λ '(_, e) m, if decide (er_ExtensionConfigName e = ec_Name c) then delete (er_Name e) m else m)
    m (go_range 61 m).

Definition registration (c : ExtensionConfig) (selector : Selector) (gv : string * string)
    (e : ExtensionHandler) : ExtensionRegistration :=
  {| er_Name := eh_Name e; er_ExtensionConfigName := ec_Name c;
     er_ExtensionConfigResourceVersion := ec_ResourceVersion c;
     er_GroupVersionHook := Build_GroupVersionHook gv.1 gv.2 (eh_Hook e);
     er_NamespaceSelector := selector; er_ClientConfig := ec_ClientConfig c;
     er_TimeoutSeconds := eh_TimeoutSeconds e; er_FailurePolicy := eh_FailurePolicy e;
     er_Settings := ec_Settings c |}.

(** The loop over the handlers: errors are collected, registrations too. *)
Fixpoint collect (c : ExtensionConfig) (selector : Selector) (l : list ExtensionHandler) :
    list error * list ExtensionRegistration :=
  match l with
  | [] => ([], [])
  | e :: l =>
      let '(errs, regs) := collect c selector l in
      match ParseGroupVersion (eh_APIVersion e) with
      | inl err => (EWrap "failed to parse GroupVersion of handler" err :: errs, regs)
      | inr gv => (errs, registration c selector gv e :: regs)
      end
  end.

(** All registrations of an ExtensionConfig, or the reason why there are none. *)
Definition registrations (c : ExtensionConfig) : error + list ExtensionRegistration :=
  match LabelSelectorAsSelector (ec_NamespaceSelector c) with
  | inl e => inl (EWrap "failed to create namespaceSelector" e)
  | inr selector =>
      match collect c selector (ec_Handlers c) with
      | ([], regs) => inr regs
      | (errs, _) => inl (EWrap "failed to add ExtensionConfig to registry" (EAgg errs))
      end
  end.

Definition insert_all (regs : list ExtensionRegistration) (m : gmap string ExtensionRegistration) :
    gmap string ExtensionRegistration :=
  foldl (λ m e, <[er_Name e := e]> m) m regs.

(** The old registrations go in any case. *)
Definition add (c : ExtensionConfig) (m : gmap string ExtensionRegistration) :
    gmap string ExtensionRegistration * option error :=
  let m := remove c m in
  match registrations c with
  | inl e => (m, Some e)
  | inr regs => (insert_all regs m, None)
  end.

Fixpoint add_all (l : list ExtensionConfig) (m : gmap string ExtensionRegistration) :
    gmap string ExtensionRegistration * list error :=
  match l with
  | [] => (m, [])
  | c :: l =>
      let '(m, err) := add c m in
      let '(m, errs) := add_all l m in
      (m, option_list err ++ errs)
  end.

(** An argument that may be nil is an option. *)
Definition WarmUp (l : option (list ExtensionConfig)) (r : extensionRegistry) :
    extensionRegistry * option error :=
  match l with
  | None => (r, Some (EText "failed to warm up registry: ExtensionConfigList must not be nil"))
  | Some l =>
      if ready r then (r, Some (EText "WarmUp cannot be called on a registry which has already been warmed up"))
      else
        match add_all l (items r) with
        | (m, []) => (Build_extensionRegistry true m, None)
        | (_, errs) => (Build_extensionRegistry (ready r) ∅, Some (EWrap "failed to warm up registry" (EAgg errs)))
        end
  end.

Definition Add (c : option ExtensionConfig) (r : extensionRegistry) : extensionRegistry * option error :=
  match c with
  | None => (r, Some (EText "when calling Add extensionConfig must not be nil"))
  | Some c =>
      if negb (ready r)
      then (r, Some (EText "Add cannot be called on a registry which has not been warmed up"))
      else let '(m, err) := add c (items r) in (Build_extensionRegistry (ready r) m, err)
  end.

Definition Remove (c : option ExtensionConfig) (r : extensionRegistry) : extensionRegistry * option error :=
  match c with
  | None => (r, Some (EText "when calling Remove ExtensionConfig must not be nil"))
  | Some c =>
      if negb (ready r)
      then (r, Some (EText "Remove cannot be called on a registry which has not been warmed up"))
      else (Build_extensionRegistry (ready r) (remove c (items r)), None)
  end.

(** The registrations of a hook, in the order the map is walked. *)
Definition List_ (gh : GroupHook) (r : extensionRegistry) : error + list ExtensionRegistration :=
  if decide (gh_Group gh = "") then inl (EText "when calling List gh.Group must not be empty")
  else if decide (gh_Hook gh = "") then inl (EText "when calling List gh.Hook must not be empty")
  else if negb (ready r) then inl (EText "List cannot be called on a registry which has not been warmed up")
  else inr (filter (λ e, gvh_Group (er_GroupVersionHook e) = gh_Group gh ∧
                         gvh_Hook (er_GroupVersionHook e) = gh_Hook gh) (go_range 60 (items r)).*2).

Definition Get (name : string) (r : extensionRegistry) : error + ExtensionRegistration :=
  if negb (ready r) then inl (EText "Get cannot be called on a registry not yet ready")
  else match items r !! name with
       | Some e => inr e
       | None => inl (EText "handler has not been registered")
       end.
End extensions.

(** ** The client: libraries *)

(** The handlers an extension reports. *)
Record DiscoveredHandler := {
  dh_Name : string; dh_APIVersion : string; dh_Hook : string;
  dh_TimeoutSeconds : option Z; dh_FailurePolicy : option string
}.

Definition FailurePolicyFail : string := "Fail".
Definition FailurePolicyIgnore : string := "Ignore".
Definition ResponseStatusSuccess : string := "Success".
Definition ResponseStatusFailure : string := "Failure".
Definition DefaultHandlersTimeoutSeconds : Z := 10%Z.
Definition defaultDiscoveryTimeout : Z := 10%Z.

Definition has_dot (s : string) : bool := bool_decide ("."%char ∈ String.list_ascii_of_string s).

(** The catalog of hooks with its requests and responses, their JSON form, URLs, and
    the validation of DNS labels (lower case letters, digits and hyphens). *)
Class CatalogLib := {
  Request : Type;
  Response : Type;
  GetSettings : Request → gmap string string;
  SetSettings : gmap string string → Request → Request;
  GetStatus : Response → string;
  SetStatus : string → Response → Response;
  GetMessage : Response → string;
  SetMessage : string → Response → Response;
  GetRetryAfterSeconds : Response → option Z; (* None: not a RetryResponseObject *)
  SetRetryAfterSeconds : Z → Response → Response;
  DiscoveryHandlers : Response → list DiscoveredHandler;
  DiscoveryRequest : Request;
  DiscoveryResponse : Response;
  LowestNonZeroInt32 : Z → Z → Z;
  catalog_GroupVersionHook : string → error + GroupVersionHook;
  catalog_ValidateRequest : GroupVersionHook → Request → option error;
  catalog_ValidateResponse : GroupVersionHook → Response → option error;
  catalog_NewRequest : GroupVersionHook → error + Request;
  catalog_NewResponse : GroupVersionHook → error + Response;
  catalog_ConvertRequest : Request → Request → error + Request;
  catalog_ConvertResponse : Response → Response → error + Response;
  catalog_Request : GroupVersionHook → error + string;
  catalog_IsHookRegistered : GroupVersionHook → bool;
  json_Marshal : string → Request → error + string;
  json_Decode : string → Response → Response * option error;
  url_Parse : string → error + (string * string * string); (* scheme, host, path *)
  path_Join : string → string → string;
  url_Hostname : string → string;
  net_JoinHostPort : string → Z → string;
  GVHToPath : GroupVersionHook → string → string;
  IsDNS1123Label : string → list string;
  DNS1123Label_no_dot s : IsDNS1123Label s = [] → has_dot s = false
}.

Section client.
Context `{SelectorLib, CatalogLib}.

(** ** The client: calls *)

Inductive ECall :=
| EGetNamespace (name : string)
| EHasClient (hostName caData : string)
| ECreateClient (hostName caData : string)
| EPost (scheme host path : string) (timeout : Z) (body : string)
| ECacheHas (key : string)
| ECacheAdd (key : string) (r : Response)
(* the controller that feeds the registry *)
| EGetExtensionConfig (name : string)
| EListExtensionConfigs
| EListByCASecret (index : string)
| EGetSecret (ns name : string)
| EEnsurePaused (c : ExtensionConfigObject)
| EMergePatch (original modified : ExtensionConfigObject)
| EPatchHelper (original modified : ExtensionConfigObject).

(** An HTTP answer: the status code and the body, which may fail to be read.  A cached
    response comes with whether its type fits.  A patch gives the object with what the
    server made of it; [EEnsurePaused] answers whether the object is paused and whether
    to requeue, with its conditions updated. *)
Definition eanswer (c : ECall) : Type :=
  match c with
  | EGetNamespace _ => gmap string string
  | EHasClient _ _ => bool
  | EPost _ _ _ _ _ => Z * option string
  | ECacheHas _ => option (bool * Response)
  | EGetExtensionConfig _ | EMergePatch _ _ | EPatchHelper _ _ => ExtensionConfigObject
  | EListExtensionConfigs | EListByCASecret _ => list ExtensionConfigObject
  | EGetSecret _ _ => strmap
  | EEnsurePaused _ => bool * bool * ExtensionConfigObject
  | _ => unit
  end.

Class EEnv := eask : list ECall → ∀ c : ECall, error + eanswer c.

Record EWorld := { e_registry : extensionRegistry; e_log : list ECall }.
Abbreviation E := (comp EWorld).

Definition eapi `{EEnv} (c : ECall) : E (eanswer c) := λ w,
  (match eask (e_log w) c with inl e => Err e | inr a => Ok a end,
   Build_EWorld (e_registry w) (c :: e_log w)).

(** [errors.Wrap] on the way out, and functions of the registry and libraries. *)
Definition ewrap {A} (msg : string) (m : E A) : E A := λ w,
  match m w with (Err e, w') => (Err (EWrap msg e), w') | r => r end.
Definition of_sum {A} (s : error + A) : E A := match s with inl e => fail e | inr a => mret a end.
Definition of_option (o : option error) : E unit := match o with Some e => fail e | None => mret tt end.
Definition on_registry (f : extensionRegistry → extensionRegistry * option error) : E unit := λ w,
  let '(r, err) := f (e_registry w) in
  (match err with Some e => Err e | None => Ok tt end, Build_EWorld r (e_log w)).

Context `{GoRange, EEnv}.

Definition Client_WarmUp (l : option (list ExtensionConfig)) : E unit := on_registry (WarmUp l).
Definition Client_IsReady : E bool := gets (λ w, IsReady (e_registry w)).
Definition Register (c : option ExtensionConfig) : E unit :=
  ewrap "failed to register ExtensionConfig" (on_registry (Add c)).
Definition Unregister (c : option ExtensionConfig) : E unit :=
  ewrap "failed to unregister ExtensionConfig" (on_registry (Remove c)).

(** ** URLs and HTTP *)

Definition service_defined (s : ServiceReference) : bool :=
  bool_decide (s ≠ Build_ServiceReference "" "" "" None).

(** The scheme, host and path an extension is reached at. *)
Definition urlForExtension (config : ClientConfig) (gvh : GroupVersionHook) (name : string) :
    error + (string * string * string) :=
  let finish '(scheme, host, path) := inr (scheme, host, path_Join path (GVHToPath gvh name)) in
  let svc := cc_Service config in
  if service_defined svc then
    let host := svc_Name svc +:+ "." +:+ svc_Namespace svc +:+ ".svc" in
    finish ("https", match svc_Port svc with Some port => net_JoinHostPort host port | None => host end,
            svc_Path svc)
  else if decide (cc_URL config = "")
  then inl (EText "failed to compute URL: at least one of service and url should be defined in config")
  else
    match url_Parse (cc_URL config) with
    | inl e => inl (EWrap "failed to compute URL: failed to parse url from clientConfig" e)
    | inr (scheme, host, path) =>
        if decide (scheme = "https") then finish (scheme, host, path)
        else inl (EText "failed to compute URL: expected https scheme")
    end.

Definition no_hook : GroupVersionHook := Build_GroupVersionHook "" "" "".

Definition getHTTPClient (config : ClientConfig) : E unit :=
  '(_, host, _) ← of_sum (urlForExtension config no_hook "");
  found ← eapi (EHasClient (url_Hostname host) (cc_CABundle config));
  if (found : bool) then mret tt else eapi (ECreateClient (url_Hostname host) (cc_CABundle config)).

(** What is sent when the versions differ: a converted request, and a response of the
    registered version to read into. *)
Definition prepare_call (request : Request) (response : Response) (registrationGVH hookGVH : GroupVersionHook) :
    error + (Request * Response) :=
  if decide (gvh_Version registrationGVH = gvh_Version hookGVH) then inr (request, response)
  else
    match catalog_NewRequest registrationGVH with
    | inl e => inl (EWrap "http call failed" e)
    | inr requestLocal =>
        match catalog_ConvertRequest request requestLocal with
        | inl e => inl (EWrap "http call failed: failed to convert request" e)
        | inr requestLocal =>
            match catalog_NewResponse registrationGVH with
            | inl e => inl (EWrap "http call failed" e)
            | inr responseLocal => inr (requestLocal, responseLocal)
            end
        end
    end.

(** The response object with what decoding left in it, even when it failed. *)
Definition read_reply (reply : Z * option string) (response responseLocal : Response)
    (registrationGVH hookGVH : GroupVersionHook) : Response * option error :=
  match reply with
  | (code, body) =>
      if decide (code = 200%Z) then
        let '(decoded, err) := match body with
                              | Some b => json_Decode b responseLocal
                              | None => (responseLocal, Some EConnection)
                              end in
        let same := bool_decide (gvh_Version registrationGVH = gvh_Version hookGVH) in
        match err with
        | Some e => (if same then decoded else response, Some (EWrap "http call failed: failed to decode response" e))
        | None =>
            if same then (decoded, None)
            else match catalog_ConvertResponse decoded response with
                 | inl e => (response, Some (EWrap "http call failed: failed to convert response" e))
                 | inr converted => (converted, None)
                 end
        end
      else (response, Some (EText "http call failed: got response with status code != 200"))
  end.

(** The response and the error; nothing is returned but these. *)
Definition httpCall (request : Request) (response : Response) (config : ClientConfig)
    (registrationGVH hookGVH : GroupVersionHook) (name : string) (timeout : Z) : E (Response * option error) :=
  match urlForExtension config registrationGVH name with
  | inl e => mret (response, Some (EWrap "http call failed" e))
  | inr (scheme, host, path) =>
      match prepare_call request response registrationGVH hookGVH with
      | inl e => mret (response, Some e)
      | inr (requestLocal, responseLocal) =>
          match catalog_Request registrationGVH with
          | inl e => mret (response, Some (EWrap "http call failed" e))
          | inr requestGVH =>
              match json_Marshal requestGVH requestLocal with
              | inl e => mret (response, Some (EWrap "http call failed: failed to marshall request object" e))
              | inr body =>
                  r ← try (eapi (EPost scheme host path timeout body));
                  mret (match r with
                        | inr e => (response, Some (EWrap "http call failed" e))
                        | inl reply => read_reply reply response responseLocal registrationGVH hookGVH
                        end)
              end
          end
      end
  end.

(** ** Discovery *)

Definition nameForHandler (handler config : string) : string := handler +:+ "." +:+ config.

Definition defaultDiscoveryResponse (l : list DiscoveredHandler) : list DiscoveredHandler :=
  map (λ h, Build_DiscoveredHandler (dh_Name h) (dh_APIVersion h) (dh_Hook h)
              (Some (default DefaultHandlersTimeoutSeconds (dh_TimeoutSeconds h)))
              (Some (default FailurePolicyFail (dh_FailurePolicy h)))) l.

Definition handler_errors (seen : gset string) (h : DiscoveredHandler) : list error :=
  let timeout := default 0%Z (dh_TimeoutSeconds h) in
  let policy := default "" (dh_FailurePolicy h) in
  (if decide (dh_Name h ∈ seen) then [EText "duplicate name for handler found"] else []) ++
  (if decide (IsDNS1123Label (dh_Name h) = []) then [] else [EText "handler name is not valid"]) ++
  (if bool_decide (timeout < 0)%Z || bool_decide (30 < timeout)%Z
   then [EText "handler timeoutSeconds must be between 0 and 30"] else []) ++
  (if bool_decide (policy ≠ FailurePolicyFail) && bool_decide (policy ≠ FailurePolicyIgnore)
   then [EText "handler failurePolicy must equal Ignore or Fail"] else []) ++
  match ParseGroupVersion (dh_APIVersion h) with
  | inl e => [EWrap "handler requestHook APIVersion is not valid" e]
  | inr (group, version) =>
      if catalog_IsHookRegistered (Build_GroupVersionHook group version (dh_Hook h)) then []
      else [EText "handler requestHook is not in the Runtime SDK catalog"]
  end.

Fixpoint handlers_errors (seen : gset string) (l : list DiscoveredHandler) : list error :=
  match l with
  | [] => []
  | h :: l => handler_errors seen h ++ handlers_errors ({[dh_Name h]} ∪ seen) l
  end.

(** The defaulted handlers, or what is wrong with them. *)
Definition defaultAndValidateDiscoveryResponse (l : list DiscoveredHandler) : error + list DiscoveredHandler :=
  let l := defaultDiscoveryResponse l in
  match handlers_errors ∅ l with
  | [] => inr l
  | errs => inl (EWrap "failed to validate discovery response" (EAgg errs))
  end.

Definition validateResponseStatus (r : Response) : option error :=
  if decide (GetStatus r = ResponseStatusSuccess) then None
  else if decide (GetStatus r = ResponseStatusFailure) then Some (EText "got failure response")
  else Some (EText "got unknown response status").

Definition handler_of (c : ExtensionConfig) (h : DiscoveredHandler) : ExtensionHandler :=
  {| eh_Name := nameForHandler (dh_Name h) (ec_Name c); eh_APIVersion := dh_APIVersion h;
     eh_Hook := dh_Hook h; eh_TimeoutSeconds := default 0%Z (dh_TimeoutSeconds h);
     eh_FailurePolicy := default "" (dh_FailurePolicy h) |}.
Definition ec_with_handlers (l : list ExtensionHandler) (c : ExtensionConfig) : ExtensionConfig :=
  Build_ExtensionConfig (ec_Name c) (ec_ResourceVersion c) (ec_NamespaceSelector c) (ec_ClientConfig c)
    (ec_Settings c) l.

Definition Discover (c : ExtensionConfig) : E ExtensionConfig :=
  hookGVH ← ewrap "failed to compute GVH of hook" (of_sum (catalog_GroupVersionHook "Discovery"));
  _ ← ewrap "failed to get http client" (getHTTPClient (ec_ClientConfig c));
  '(response, err) ← httpCall DiscoveryRequest DiscoveryResponse (ec_ClientConfig c) hookGVH hookGVH ""
                       defaultDiscoveryTimeout;
  _ ← ewrap "failed to discover extension" (of_option err);
  _ ← of_option (validateResponseStatus response);
  handlers ← ewrap "failed to discover extension"
    (of_sum (defaultAndValidateDiscoveryResponse (DiscoveryHandlers response)));
  mret (ec_with_handlers (map (handler_of c) handlers) c).

(** ** Calling extensions *)

Definition matchNamespace (selector : Selector) (namespace : string) : E bool :=
  if Selector_Empty selector then mret true
  else labels ← ewrap "failed to match namespace" (eapi (EGetNamespace namespace));
       mret (Selector_Matches selector labels).

(** An object a hook is executed for. *)
Record ForObject := { fo_Namespace : string; fo_Name : string; fo_GVK : error + string }.

(** [hook] is the name of a hook. *)
Definition GetAllExtensions (hook : string) (forObject : ForObject) : E (list string) :=
  gvh ← ewrap "failed to compute GroupVersionHook" (of_sum (catalog_GroupVersionHook hook));
  _ ← ewrap "failed to get GroupVersionKind for the object" (of_sum (fo_GVK forObject));
  w ← get;
  regs ← ewrap "failed to get extension handlers" (of_sum (List_ (gvh_GroupHook gvh) (e_registry w)));
  for_acc regs [] (λ matching registration,
    matches ← ewrap "failed to get extension handler"
      (matchNamespace (er_NamespaceSelector registration) (fo_Namespace forObject));
    mret (if (matches : bool) then matching ++ [er_Name registration] else matching)).

(** The settings of the request win over those of the registration. *)
Definition cloneAndAddSettings (request : Request) (registrationSettings : gmap string string) : Request :=
  SetSettings (GetSettings request ∪ registrationSettings) request.

Definition TrimSuffix (s suffix : string) : string :=
  let n := (String.length s - String.length suffix)%nat in
  if bool_decide (String.substring n (String.length suffix) s = suffix) &&
     bool_decide (String.length suffix ≤ String.length s)%nat
  then String.substring 0 n s else s.

(** [errors.As] with a target of type errCallingExtensionHandler.  The type is declared
    as [type errCallingExtensionHandler error], an interface type, which every error
    implements: the conversion in httpCall marks nothing, and the test is true of
    every error. *)
Definition is_errCallingExtensionHandler (e : error) : bool := true.

(** The caching options: the key of a request, when responses are cached. *)
Definition CacheKeyFunc : Type := string → string → Request → string.

Definition call_timeout (registration : ExtensionRegistration) : Z :=
  if decide (er_TimeoutSeconds registration = 0%Z) then DefaultHandlersTimeoutSeconds
  else er_TimeoutSeconds registration.

(** The call itself, once the handler is known to fit. *)
Definition call_handler (hookGVH : GroupVersionHook) (registration : ExtensionRegistration)
    (request : Request) (response : Response) (cacheKey : option string) : E Response :=
  _ ← ewrap "failed to get http client" (getHTTPClient (er_ClientConfig registration));
  '(response, err) ← httpCall request response (er_ClientConfig registration)
    (er_GroupVersionHook registration) hookGVH
    (TrimSuffix (er_Name registration) ("." +:+ er_ExtensionConfigName registration)) (call_timeout registration);
  match err with
  | Some e =>
      if bool_decide (er_FailurePolicy registration = FailurePolicyIgnore) && is_errCallingExtensionHandler e
      then mret (SetMessage "" (SetStatus ResponseStatusSuccess response))
      else fail (EWrap "failed to call extension handler" e)
  | None =>
      _ ← of_option (validateResponseStatus response);
      _ ← match cacheKey with Some key => eapi (ECacheAdd key response) | None => mret tt end;
      mret response
  end.

(** [GetRetryAfterSeconds] and so on of [response] are those of the object that is
    passed in, which the call overwrites. *)
Definition CallExtension (hook : string) (forObject : ForObject) (name : string) (request : Request)
    (response : Response) (caching : option CacheKeyFunc) : E Response :=
  hookGVH ← ewrap "failed to compute GroupVersionHook" (of_sum (catalog_GroupVersionHook hook));
  _ ← ewrap "request object is invalid for hook" (of_option (catalog_ValidateRequest hookGVH request));
  _ ← ewrap "response object is invalid for hook" (of_option (catalog_ValidateResponse hookGVH response));
  w ← get;
  registration ← ewrap "failed to call extension handler" (of_sum (Get name (e_registry w)));
  if decide (gvh_GroupHook hookGVH = gvh_GroupHook (er_GroupVersionHook registration)) then
    r ← try (matchNamespace (er_NamespaceSelector registration) (fo_Namespace forObject));
    match r with
    | inr _ => fail (EText "failed to call extension handler")
    | inl false => fail (EText "namespaceSelector did not match object")
    | inl true =>
        let request := cloneAndAddSettings request (er_Settings registration) in
        match caching with
        | None => call_handler hookGVH registration request response None
        | Some key_of =>
            let key := key_of (er_Name registration) (er_ExtensionConfigResourceVersion registration) request in
            cached ← eapi (ECacheHas key);
            match cached : option (bool * Response) with
            | Some (true, cached) => mret cached
            | Some (false, _) => fail (EText "cached response of another type")
            | None => call_handler hookGVH registration request response (Some key)
            end
        end
    end
  else fail (EText "handler does not match GroupHook").

(** One response into the aggregate: the shortest wait that is not 0. *)
Definition aggregate_retry (aggregated resp : Response) : Response :=
  match GetRetryAfterSeconds aggregated, GetRetryAfterSeconds resp with
  | Some a, Some b => SetRetryAfterSeconds (LowestNonZeroInt32 a b) aggregated
  | _, _ => aggregated
  end.

Definition aggregateSuccessfulResponses (aggregated : Response) (responses : list Response) : Response :=
  let aggregated := foldl aggregate_retry (SetStatus ResponseStatusSuccess aggregated) responses in
  SetMessage (Join (filter (λ m, m ≠ "") (map GetMessage responses)) ", ") aggregated.

Definition CallAllExtensions (hook : string) (forObject : ForObject) (request : Request)
    (response : Response) : E Response :=
  gvh ← ewrap "failed to compute GroupVersionHook" (of_sum (catalog_GroupVersionHook hook));
  _ ← ewrap "request object is invalid for hook" (of_option (catalog_ValidateRequest gvh request));
  _ ← ewrap "response object is invalid for hook" (of_option (catalog_ValidateResponse gvh response));
  matchingHandlers ← ewrap "failed to call extension handlers" (GetAllExtensions hook forObject);
  responses ← for_acc matchingHandlers [] (λ responses handlerName,
    tmpResponse ← ewrap "failed to call extension handler" (of_sum (catalog_NewResponse gvh));
    tmpResponse ← ewrap "failed to call extension handlers"
      (CallExtension hook forObject handlerName request tmpResponse None);
    mret (responses ++ [tmpResponse]));
  mret (aggregateSuccessfulResponses response responses).
End client.

(** ** The registry as a set of ExtensionConfigs *)

Section refinement.
Context `{SelectorLib, GoRange}.

(** The name of a handler: a label without dots, a dot, the name of the
    ExtensionConfig. *)
Lemma nameForHandler_inj l1 l2 c1 c2 :
  has_dot l1 = false → has_dot l2 = false →
  nameForHandler l1 c1 = nameForHandler l2 c2 → l1 = l2 ∧ c1 = c2.
Proof.
  unfold has_dot, nameForHandler. rewrite !bool_decide_eq_false. revert l2.
  assert (∀ a s t, String a s +:+ t = String a (s +:+ t)) as Hcons by done.
  assert (∀ t, "" +:+ t = t) as Hnil by done.
  induction l1 as [|a l1 IH]; intros [|b l2] H1 H2; rewrite ?Hnil, ?Hcons, ?Hnil; cbn in H1, H2; intros He.
  - by injection He as <-.
  - injection He as <- _. destruct H2. by left.
  - injection He as -> _. destruct H1. by left.
  - injection He as <- He. rewrite not_elem_of_cons in H1, H2.
    destruct H1 as [_ H1], H2 as [_ H2]. rewrite !Hcons, !Hnil in IH.
    by destruct (IH l2 H1 H2 He) as [-> ->].
Qed.

Definition named (c : ExtensionConfig) : Prop :=
  NoDup (map eh_Name (ec_Handlers c)) ∧
  Forall (λ h, ∃ label, has_dot label = false ∧ eh_Name h = nameForHandler label (ec_Name c)) (ec_Handlers c).

(** What is registered for a set of ExtensionConfigs, by name. *)
Definition registered (m : gmap string ExtensionConfig) (k : string) (e : ExtensionRegistration) : Prop :=
  ∃ c regs, m !! ec_Name c = Some c ∧ registrations c = inr regs ∧ e ∈ regs ∧ er_Name e = k.

Definition holds (it : gmap string ExtensionRegistration) (m : gmap string ExtensionConfig) : Prop :=
  (∀ n c, m !! n = Some c → ec_Name c = n ∧ named c) ∧
  ∀ k e, it !! k = Some e ↔ registered m k e.

Lemma collect_regs c sel l errs regs :
  collect c sel l = (errs, regs) → errs = [] →
  map er_Name regs = map eh_Name l ∧ Forall (λ e, er_ExtensionConfigName e = ec_Name c) regs.
Proof.
  revert errs regs. induction l as [|h l IH]; cbn; intros errs regs; [by intros [= <- <-]|].
  destruct (collect c sel l) as [errs' regs'] eqn:E.
  destruct (ParseGroupVersion _) as [err|gv]; intros [= <- <-] He; [done|]. subst.
  destruct (IH _ _ eq_refl eq_refl) as [Hn Hf]. cbn. split; [by rewrite Hn|]. by constructor.
Qed.

Lemma registrations_regs c regs :
  registrations c = inr regs →
  map er_Name regs = map eh_Name (ec_Handlers c) ∧ Forall (λ e, er_ExtensionConfigName e = ec_Name c) regs.
Proof.
  unfold registrations. destruct (LabelSelectorAsSelector _) as [e|sel]; [done|].
  destruct (collect _ _ _) as [[|err errs] regs'] eqn:E; [|done]. intros [= <-]. by eapply collect_regs.
Qed.

Lemma registered_config m k e :
  registered m k e → ∃ c, m !! er_ExtensionConfigName e = Some c ∧ ec_Name c = er_ExtensionConfigName e.
Proof.
  intros (c & regs & Hm & Hr & He & _). destruct (registrations_regs _ _ Hr) as [_ Hf].
  rewrite list.Forall_forall in Hf. rewrite (Hf _ He). eauto.
Qed.

(** The loop of [remove] is a filter, for a map whose keys are the names. *)
Lemma remove_lookup c it k e :
  (∀ k e, it !! k = Some e → er_Name e = k) →
  remove c it !! k = Some e ↔ it !! k = Some e ∧ er_ExtensionConfigName e ≠ ec_Name c.
Proof.
  intros Hk. unfold remove.
  assert (∀ l, (∀ k e, (k, e) ∈ l → it !! k = Some e) →
    foldr (λ '(_, e) m, if decide (er_ExtensionConfigName e = ec_Name c) then delete (er_Name e) m else m) it l !! k
      = Some e ↔ it !! k = Some e ∧ (er_ExtensionConfigName e = ec_Name c → (k, e) ∉ l)) as Hl.
  { induction l as [|[k' e'] l IH]; intros Hin; cbn.
    - split; [intros ?|intros [? _]; done]. split; [done|]. intros _. apply not_elem_of_nil.
    - specialize (IH (λ k e He, Hin k e (list_elem_of_further _ _ _ He))).
      assert (it !! k' = Some e') as Hk' by (apply Hin, list_elem_of_here).
      pose proof (Hk _ _ Hk') as Hn. case_decide as Hc.
      + rewrite lookup_delete_Some, IH, Hn. setoid_rewrite not_elem_of_cons.
        split; [intros (Hne & Hi & Hx); split; [done|]; intros He; split; [congruence|auto]|].
        intros [Hi Hx]. split_and!; [|done|naive_solver]. intros ->. rewrite Hk' in Hi. injection Hi as ->.
        by destruct (Hx Hc).
      + rewrite IH. setoid_rewrite not_elem_of_cons. naive_solver. }
  rewrite Hl by (intros ??; apply elem_of_go_range). setoid_rewrite elem_of_go_range. naive_solver.
Qed.

Lemma insert_all_lookup regs it k e :
  NoDup (map er_Name regs) →
  insert_all regs it !! k = Some e ↔
  e ∈ regs ∧ er_Name e = k ∨ it !! k = Some e ∧ k ∉ map er_Name regs.
Proof.
  revert it. induction regs as [|r regs IH]; intros it; cbn.
  - intros _. setoid_rewrite elem_of_nil. naive_solver.
  - rewrite list.NoDup_cons. intros [Hr Hn]. unfold insert_all in IH. rewrite IH by done.
    rewrite lookup_insert_Some, elem_of_cons, not_elem_of_cons.
    assert (∀ x, x ∈ regs → er_Name x ∈ map er_Name regs) as Hin by (intros; by apply list_elem_of_fmap_2).
    split.
    + intros [[He <-]|[[[<- <-]|[Hne Hi]] Hx]]; [by left; eauto|by left; eauto|right].
      split_and!; [done|congruence|done].
    + intros [[[->|He] <-]|[Hi [Hne Hx]]]; [right; by eauto|by left|right; eauto].
Qed.

Lemma holds_keyed it m k e : holds it m → it !! k = Some e → er_Name e = k.
Proof. intros [_ Hi] (c & regs & _ & _ & _ & Hn)%Hi. done. Qed.

Lemma remove_holds it m c : holds it m → holds (remove c it) (delete (ec_Name c) m).
Proof.
  intros Hh. pose proof Hh as [Hm Hi]. split.
  - intros n c' [_ Hn]%lookup_delete_Some. by apply Hm.
  - intros k e. rewrite remove_lookup by (intros ??; by eapply holds_keyed). rewrite Hi. split.
    + intros [(c' & regs & Hc' & Hr & He & Hn) Hne]. exists c', regs.
      destruct (registrations_regs _ _ Hr) as [_ Hf]. rewrite list.Forall_forall in Hf.
      rewrite (Hf _ He) in Hne. by rewrite lookup_delete_ne.
    + intros (c' & regs & Hc' & Hr & He & Hn). apply lookup_delete_Some in Hc' as [Hne Hc'].
      destruct (registrations_regs _ _ Hr) as [_ Hf]. rewrite list.Forall_forall in Hf.
      split; [exists c', regs; done|]. rewrite (Hf _ He). congruence.
Qed.

(** Names of different ExtensionConfigs do not clash. *)
Lemma names_disjoint c c' regs regs' e :
  named c → named c' → registrations c = inr regs → registrations c' = inr regs' →
  ec_Name c ≠ ec_Name c' → e ∈ regs' → er_Name e ∉ map er_Name regs.
Proof.
  intros [_ Hc] [_ Hc'] Hr Hr' Hne He Hin. rewrite list.Forall_forall in Hc, Hc'.
  destruct (registrations_regs _ _ Hr) as [Hn _], (registrations_regs _ _ Hr') as [Hn' _].
  rewrite Hn in Hin. apply (list_elem_of_fmap_2 er_Name) in He. change (er_Name <$> regs') with (map er_Name regs') in He.
  rewrite Hn' in He.
  apply list_elem_of_fmap in Hin as (h & Hh & Hhin), He as (h' & Hh' & Hhin').
  destruct (Hc _ Hhin) as (l & Hl & El), (Hc' _ Hhin') as (l' & Hl' & El').
  destruct (nameForHandler_inj l l' (ec_Name c) (ec_Name c')); [done..|congruence|done].
Qed.

Lemma insert_holds it m c regs :
  holds it m → named c → registrations c = inr regs →
  holds (insert_all regs (remove c it)) (<[ec_Name c := c]> m).
Proof.
  intros Hh Hc Hr. pose proof (remove_holds _ _ c Hh) as [Hm' Hi']. destruct Hh as [Hm _]. split.
  - intros n c' [[<- <-]|[_ Hn]]%lookup_insert_Some; [done|by apply Hm].
  - intros k e. destruct (registrations_regs _ _ Hr) as [Hn _]. pose proof Hc as [Hnd _].
    rewrite insert_all_lookup by (by rewrite Hn). rewrite Hi'. split.
    + intros [[He <-]|[(c' & regs' & Hc' & Hr' & He & Hk) _]].
      * exists c, regs. by rewrite lookup_insert_eq.
      * exists c', regs'. apply lookup_delete_Some in Hc' as [? Hc']. by rewrite lookup_insert_ne.
    + intros (c' & regs' & Hl & Hr' & He & <-). apply lookup_insert_Some in Hl as [[_ <-]|[Hne Hl]].
      * rewrite Hr in Hr'. injection Hr' as <-. by left.
      * right. split; [exists c', regs'; by rewrite lookup_delete_ne|].
        by eapply (names_disjoint c c'); [|apply (Hm _ _ Hl)|..].
Qed.
End refinement.

(** ** Operations on the registry, and on the set *)

Section registry_claims.
Context `{SelectorLib, CatalogLib, GoRange}.

(** Discovery gives an ExtensionConfig such names. *)
Lemma handlers_errors_nil seen l :
  handlers_errors seen l = [] →
  NoDup (map dh_Name l) ∧ Forall (λ h, (dh_Name h ∉ seen) ∧ has_dot (dh_Name h) = false) l.
Proof.
  revert seen. induction l as [|h l IH]; intros seen; cbn; [by repeat constructor|].
  rewrite app_nil. intros [Hh Hl]. destruct (IH _ Hl) as [Hn Hf].
  rewrite list.Forall_forall in Hf. unfold handler_errors in Hh. rewrite !app_nil in Hh.
  destruct Hh as (Hd & Hv & _). rewrite list.NoDup_cons. split; [split; [|done]|].
  - intros (h' & Hx & Hin)%list_elem_of_fmap. destruct (Hf _ Hin) as [Hs _]. set_solver.
  - constructor.
    + split; [by destruct (decide (dh_Name h ∈ seen))|].
      apply DNS1123Label_no_dot. by destruct (decide (IsDNS1123Label (dh_Name h) = [])).
    + apply list.Forall_forall. intros h' Hin. destruct (Hf _ Hin). split; [set_solver|done].
Qed.

Lemma bind_Ok_inv {S A B} (m : comp S A) (f : A → comp S B) s b s2 :
  (m ≫= f) s = (Ok b, s2) → ∃ a s1, m s = (Ok a, s1) ∧ f a s1 = (Ok b, s2).
Proof. unfold mbind, comp_bind. destruct (m s) as [[a|e|p] s1]; [eauto|done..]. Qed.

Lemma defaultAndValidate_named c handlers l :
  defaultAndValidateDiscoveryResponse handlers = inr l → named (ec_with_handlers (map (handler_of c) l) c).
Proof.
  unfold defaultAndValidateDiscoveryResponse. set (d := defaultDiscoveryResponse handlers).
  destruct (handlers_errors ∅ d) eqn:E; [|done]. intros [= <-].
  destruct (handlers_errors_nil _ _ E) as [Hn Hf]. split; cbn.
  - rewrite map_map. change (λ x, eh_Name (handler_of c x)) with (λ x, nameForHandler (dh_Name x) (ec_Name c)).
    clear E. induction d as [|h d IH]; cbn; [constructor|]. cbn in Hn.
    apply list.NoDup_cons in Hn as [Hx Hn]. apply list.Forall_cons in Hf as [[_ Hh] Hf].
    apply list.NoDup_cons. split; [|by apply IH].
    intros (h' & He & Hin)%list_elem_of_fmap. rewrite list.Forall_forall in Hf.
    destruct (nameForHandler_inj (dh_Name h) (dh_Name h') (ec_Name c) (ec_Name c)) as [Heq _];
      [done|by apply Hf|done|]. apply Hx. rewrite Heq. by apply list_elem_of_fmap_2.
  - apply list.Forall_forall. intros h (h' & -> & Hin)%list_elem_of_fmap. rewrite list.Forall_forall in Hf.
    exists (dh_Name h'). split; [by apply Hf|done].
Qed.

Lemma Discover_named `{!EEnv} c c' w w' : Discover c w = (Ok c', w') → named c' ∧ ec_Name c' = ec_Name c.
Proof.
  unfold Discover. intros Hd.
  apply bind_Ok_inv in Hd as (gvh & w1 & _ & Hd). apply bind_Ok_inv in Hd as (u & w2 & _ & Hd).
  apply bind_Ok_inv in Hd as ([response err] & w3 & _ & Hd). apply bind_Ok_inv in Hd as (u4 & w4 & _ & Hd).
  apply bind_Ok_inv in Hd as (u5 & w5 & _ & Hd). apply bind_Ok_inv in Hd as (l & w6 & Hl & Hd).
  unfold mret, comp_ret in Hd. injection Hd as <- _. split; [|done]. revert Hl. unfold ewrap, of_sum.
  destruct (defaultAndValidateDiscoveryResponse _) as [e|l'] eqn:E; [done|]. intros [= <- _].
  exact (defaultAndValidate_named c _ _ E).
Qed.

Inductive reg_op :=
| OpWarmUp (l : list ExtensionConfig) | OpAdd (c : ExtensionConfig) | OpRemove (c : ExtensionConfig).

Definition op_configs (op : reg_op) : list ExtensionConfig :=
  match op with OpWarmUp l => l | OpAdd c | OpRemove c => [c] end.

Definition op_registry (r : extensionRegistry) (op : reg_op) : extensionRegistry * option error :=
  match op with OpWarmUp l => WarmUp (Some l) r | OpAdd c => Add (Some c) r | OpRemove c => Remove (Some c) r end.

(** An ExtensionConfig that can be registered. *)
Definition accepted (c : ExtensionConfig) : bool := match registrations c with inr _ => true | inl _ => false end.

(** The specification: nothing until a warm up succeeds, then a set of
    ExtensionConfigs by name; and whether the operation succeeds. *)
Definition op_spec (s : option (gmap string ExtensionConfig)) (op : reg_op) :
    option (gmap string ExtensionConfig) * bool :=
  match s, op with
  | None, OpWarmUp l => if forallb accepted l then (Some (foldl (λ m c, <[ec_Name c := c]> m) ∅ l), true)
                        else (None, false)
  | None, _ | Some _, OpWarmUp _ => (s, false)
  | Some m, OpAdd c => if accepted c then (Some (<[ec_Name c := c]> m), true)
                       else (Some (delete (ec_Name c) m), false)
  | Some m, OpRemove c => (Some (delete (ec_Name c) m), true)
  end.

Definition represents (r : extensionRegistry) (s : option (gmap string ExtensionConfig)) : Prop :=
  match s with
  | None => r = New
  | Some m => ready r = true ∧ holds (items r) m
  end.

Lemma add_holds it m c :
  holds it m → named c →
  match add c it with
  | (it', None) => accepted c = true ∧ holds it' (<[ec_Name c := c]> m)
  | (it', Some _) => accepted c = false ∧ holds it' (delete (ec_Name c) m)
  end.
Proof.
  intros Hh Hc. unfold add, accepted. destruct (registrations c) as [e|regs] eqn:Hr.
  - split; [done|by apply remove_holds].
  - split; [done|by apply insert_holds].
Qed.

Lemma add_all_holds l it m :
  holds it m → Forall named l →
  match add_all l it with
  | (it', []) => forallb accepted l = true ∧ holds it' (foldl (λ m c, <[ec_Name c := c]> m) m l)
  | (_, _ :: _) => forallb accepted l = false
  end.
Proof.
  revert it m. induction l as [|c l IH]; intros it m Hh; cbn; [done|].
  intros [Hc Hl]%list.Forall_cons. pose proof (add_holds it m c Hh Hc) as Ha.
  destruct (add c it) as [it1 [e|]]; destruct Ha as [Hacc Ha].
  - destruct (add_all l it1) as [it2 errs]. cbn. by rewrite Hacc.
  - specialize (IH it1 _ Ha Hl). destruct (add_all l it1) as [it2 errs]. cbn. by rewrite Hacc.
Qed.

Lemma op_simulates r s op :
  represents r s → Forall named (op_configs op) →
  represents (op_registry r op).1 (op_spec s op).1 ∧
  (op_spec s op).2 = bool_decide ((op_registry r op).2 = None).
Proof.
  intros Hr Hn. destruct s as [m|]; cbn in Hr.
  - destruct r as [rd it]. destruct Hr as [[= ->] Hh]. destruct op as [l|c|c]; cbn in *.
    + done.
    + apply list.Forall_cons in Hn as [Hn _]. pose proof (add_holds it m c Hh Hn) as Ha.
      destruct (add c it) as [it' [e|]]; destruct Ha as [-> Ha]; cbn; done.
    + split; [|done]. split; [done|]. by apply remove_holds.
  - subst r. destruct op as [l|c|c]; cbn in *; [|done..].
    pose proof (add_all_holds l ∅ ∅) as Ha.
    destruct (add_all l ∅) as [it [|e errs]].
    + destruct Ha as [-> Ha]; [|done|done].
      split; [by intros ???%lookup_empty_Some|]. intros k e. split; [by intros ?%lookup_empty_Some|].
      by intros (c & regs & ?%lookup_empty_Some & _).
    + rewrite Ha; [done| |done].
      split; [by intros ???%lookup_empty_Some|]. intros k x. split; [by intros ?%lookup_empty_Some|].
      by intros (c & regs & ?%lookup_empty_Some & _).
Qed.

Definition run_registry (ops : list reg_op) : extensionRegistry :=
  foldl (λ r op, (op_registry r op).1) New ops.
Definition run_configs (ops : list reg_op) : option (gmap string ExtensionConfig) :=
  foldl (λ s op, (op_spec s op).1) None ops.

Lemma run_represents ops : Forall named (ops ≫= op_configs) → represents (run_registry ops) (run_configs ops).
Proof.
  unfold run_registry, run_configs. generalize (eq_refl : represents New None).
  generalize New (None : option (gmap string ExtensionConfig)).
  induction ops as [|op ops IH]; intros r s Hr; cbn; [done|].
  rewrite Forall_app. intros [Hop Hops]. apply IH; [|done]. by apply op_simulates.
Qed.

Lemma NoDup_map_filter {A B} (f : A → B) P `{∀ x, Decision (P x)} l :
  NoDup (map f l) → NoDup (map f (filter P l)).
Proof.
  induction l as [|x l IH]; [done|]. cbn [map]. rewrite list.NoDup_cons. intros [Hx Hl].
  rewrite filter_cons. case_decide; [|by apply IH]. cbn [map]. apply list.NoDup_cons. split; [|by apply IH].
  intros (y & Hy & Hin)%list_elem_of_fmap. apply list_elem_of_filter in Hin as [_ Hin].
  apply Hx. rewrite Hy. by apply list_elem_of_fmap_2.
Qed.

(** C29: the registry is the set of registered extensions.  After any sequence of warm
    ups, additions and removals of ExtensionConfigs whose handlers are named the way
    discovery names them, what the registry answers is determined by the set of
    configs the specification leaves: nothing can be listed until a warm up has
    succeeded; then a name is found exactly when a registered config has a handler
    of that name, and listing a hook gives each handler of that hook, of all
    registered configs, once.  A config that cannot be registered replaces its
    predecessor all the same: neither is registered afterwards. *)
Theorem registry_refines ops gh :
  Forall named (ops ≫= op_configs) → gh_Group gh ≠ "" → gh_Hook gh ≠ "" →
  let r := run_registry ops in
  match run_configs ops with
  | None => (∃ e, List_ gh r = inl e) ∧ ∀ name, ∃ e, Get name r = inl e
  | Some m =>
      (∀ name e, Get name r = inr e ↔ registered m name e) ∧
      ∃ l, List_ gh r = inr l ∧ NoDup (map er_Name l) ∧
        ∀ e, e ∈ l ↔ registered m (er_Name e) e ∧ gvh_GroupHook (er_GroupVersionHook e) = gh
  end.
Proof.
  intros Hn Hg Hk r. pose proof (run_represents ops Hn) as Hr. fold r in Hr.
  destruct (run_configs ops) as [m|]; cbn in Hr.
  - destruct Hr as [Hready Hh]. pose proof Hh as [_ Hi]. unfold Get, List_. rewrite Hready. cbn. split.
    + intros name e. rewrite <-Hi. by destruct (items r !! name); split; [intros [= <-]|intros [= <-]| |].
    + rewrite !decide_False by done. eexists. split; [reflexivity|].
      assert (∀ k e, (k, e) ∈ go_range 60 (items r) → er_Name e = k) as Hkey.
      { intros k e Hin%elem_of_go_range. by eapply holds_keyed. }
      assert (map er_Name (go_range 60 (items r)).*2 = (go_range 60 (items r)).*1) as Hmap.
      { revert Hkey. clear. induction (go_range 60 (items r)) as [|[k e] l IH]; intros Hkey; cbn; [done|].
        rewrite (Hkey k e) by (by apply list_elem_of_here). f_equal. apply IH.
        intros ???. by apply Hkey, list_elem_of_further. }
      split.
      * apply NoDup_map_filter. rewrite Hmap. apply NoDup_go_range_fst.
      * intros e. rewrite list_elem_of_filter, <-Hi. destruct gh as [g h]. cbn.
        assert (e ∈ (go_range 60 (items r)).*2 ↔ items r !! er_Name e = Some e) as ->.
        { rewrite list_elem_of_fmap. setoid_rewrite <-(elem_of_go_range 60). split.
          - intros ([k e'] & -> & Hin). cbn. by rewrite (Hkey _ _ Hin).
          - intros Hin. by exists (er_Name e, e). }
        unfold gvh_GroupHook. split; [intros [[<- <-] ?]; done|]. intros [? [= -> ->]]. done.
  - rewrite Hr. unfold List_, Get. cbn. rewrite !decide_False by done. split; eauto.
Qed.
End registry_claims.

(** ** Calling extensions: failures and waits *)

(** What the setters of a response do, and the smaller of two waits that are not 0. *)
Class CatalogLaws `{CatalogLib} : Prop := {
  status_set s r : GetStatus (SetStatus s r) = s;
  status_message m r : GetStatus (SetMessage m r) = GetStatus r;
  status_retry z r : GetStatus (SetRetryAfterSeconds z r) = GetStatus r;
  retry_set z r : is_Some (GetRetryAfterSeconds r) → GetRetryAfterSeconds (SetRetryAfterSeconds z r) = Some z;
  retry_status s r : GetRetryAfterSeconds (SetStatus s r) = GetRetryAfterSeconds r;
  retry_message m r : GetRetryAfterSeconds (SetMessage m r) = GetRetryAfterSeconds r;
  lowest_nonzero a b : LowestNonZeroInt32 a b =
    if decide (a = 0%Z) then b else if decide (b = 0%Z) then a else Z.min a b
}.

Section client_claims.
Context `{SelectorLib, CatalogLib, !CatalogLaws, GoRange, !EEnv}.

(** Whatever goes wrong with the call of a handler whose policy is Ignore is success: a
    URL that cannot be built, a request that cannot be converted or encoded, and a
    response that cannot be converted as much as a connection that fails.  Only an
    answer that reports a failure is an error. *)
Lemma call_handler_ignores gvh reg request response w :
  er_FailurePolicy reg = FailurePolicyIgnore →
  ∀ e w', call_handler gvh reg request response None w = (Err e, w') →
  (∃ e' w1, getHTTPClient (er_ClientConfig reg) w = (Err e', w1)) ∨
  ∃ r, validateResponseStatus r = Some e.
Proof.
  intros Hp e w'. unfold call_handler, ewrap. unfold mbind at 1, comp_bind at 1.
  destruct (getHTTPClient _ w) as [[u|e1|p] w1]; [|by eauto|done].
  unfold mbind at 1, comp_bind at 1.
  destruct (httpCall _ _ _ _ _ _ _ w1) as [[[r [e2|]]|e2|p] w2] eqn:Eh; [| | |done].
  - rewrite Hp, bool_decide_eq_true_2 by done. done.
  - unfold mbind, comp_bind, of_option. destruct (validateResponseStatus r) as [e3|] eqn:Ev; [|done].
    intros [= <- _]. eauto.
  - (* httpCall returns its errors in its result *)
    exfalso. revert Eh. unfold httpCall, try, mbind, comp_bind.
    destruct (urlForExtension _ _ _) as [?|[[? ?] ?]]; [done|].
    destruct (prepare_call _ _ _ _) as [?|[? ?]]; [done|]. destruct (catalog_Request _); [done|].
    destruct (json_Marshal _ _); [done|]. unfold eapi. by destruct (eask _ _).
Qed.

Lemma validateResponseStatus_ok r : validateResponseStatus r = None → GetStatus r = ResponseStatusSuccess.
Proof. unfold validateResponseStatus. repeat case_decide; done. Qed.

Lemma call_handler_ok gvh reg request response key w r w' :
  call_handler gvh reg request response key w = (Ok r, w') → GetStatus r = ResponseStatusSuccess.
Proof.
  unfold call_handler. intros Hc.
  apply bind_Ok_inv in Hc as (u & w1 & _ & Hc). apply bind_Ok_inv in Hc as ([r1 [e|]] & w2 & _ & Hc).
  - destruct (_ && _); [|done]. injection Hc as <- _. by rewrite status_message, status_set.
  - apply bind_Ok_inv in Hc as (u2 & w3 & Hv & Hc). apply bind_Ok_inv in Hc as (u3 & w4 & _ & Hc).
    unfold mret, comp_ret in Hc. injection Hc as <- _. apply validateResponseStatus_ok.
    unfold of_option in Hv. by destruct (validateResponseStatus r1).
Qed.

Lemma CallExtension_ok hook o name request response w r w' :
  CallExtension hook o name request response None w = (Ok r, w') → GetStatus r = ResponseStatusSuccess.
Proof.
  unfold CallExtension. intros Hc.
  apply bind_Ok_inv in Hc as (gvh & w1 & _ & Hc). apply bind_Ok_inv in Hc as (? & w2 & _ & Hc).
  apply bind_Ok_inv in Hc as (? & w3 & _ & Hc). apply bind_Ok_inv in Hc as (? & w4 & _ & Hc).
  apply bind_Ok_inv in Hc as (reg & w5 & _ & Hc). case_decide; [|done].
  apply bind_Ok_inv in Hc as ([[]|] & w6 & _ & Hc); [|done..]. by eapply call_handler_ok.
Qed.

Lemma aggregate_retry_spec l agg a r z :
  GetRetryAfterSeconds agg = Some a → (0 ≤ a)%Z →
  (∀ x y, x ∈ l → GetRetryAfterSeconds x = Some y → (0 ≤ y)%Z) →
  ∃ b, GetRetryAfterSeconds (foldl aggregate_retry agg l) = Some b ∧ (0 ≤ b)%Z ∧
    ((0 < a)%Z → (0 < b ≤ a)%Z) ∧
    (r ∈ l → GetRetryAfterSeconds r = Some z → (0 < z)%Z → (0 < b ≤ z)%Z).
Proof.
  revert agg a. induction l as [|x l IH]; intros agg a Ha Hpos Hl; cbn.
  - exists a. split_and!; [done..|lia|]. by intros ?%elem_of_nil.
  - assert (∃ a', GetRetryAfterSeconds (aggregate_retry agg x) = Some a' ∧ (0 ≤ a')%Z ∧
      ((0 < a)%Z → (0 < a' ≤ a)%Z) ∧ (∀ y, GetRetryAfterSeconds x = Some y → (0 < y)%Z → (0 < a' ≤ y)%Z))
      as (a' & Ha' & Hpos' & Hle & Hx).
    { unfold aggregate_retry. rewrite Ha. destruct (GetRetryAfterSeconds x) as [y|] eqn:Ey.
      - exists (LowestNonZeroInt32 a y). rewrite retry_set, lowest_nonzero by (by rewrite Ha).
        pose proof (Hl x y (list_elem_of_here _ _) Ey).
        split; [done|]. repeat case_decide; (split; [lia|]); (split; [lia|]); intros ? [= <-]; lia.
      - exists a. split_and!; [done..|lia|done]. }
    destruct (IH _ _ Ha' Hpos') as (b & Hb & Hb0 & Hba & Hbr).
    { intros x' y Hin. apply Hl. by apply list_elem_of_further. }
    exists b. split_and!; [done..|lia|]. intros [->|Hin]%elem_of_cons Hz Hzpos; [|by auto].
    specialize (Hx z Hz Hzpos). lia.
Qed.

(** When all extensions are called and none fails, the answer is a success that asks to
    wait if any of them does, no longer than the shortest wait asked for. *)
Theorem CallAllExtensions_blocks hook o request response w resp w' :
  CallAllExtensions hook o request response w = (Ok resp, w') →
  ∃ responses, GetStatus resp = ResponseStatusSuccess ∧
    Forall (λ r, GetStatus r = ResponseStatusSuccess) responses ∧
    resp = aggregateSuccessfulResponses response responses ∧
    (GetRetryAfterSeconds response = Some 0%Z →
     (∀ r y, r ∈ responses → GetRetryAfterSeconds r = Some y → (0 ≤ y)%Z) →
     ∀ r z, r ∈ responses → GetRetryAfterSeconds r = Some z → (0 < z)%Z →
     ∃ b, GetRetryAfterSeconds resp = Some b ∧ (0 < b ≤ z)%Z).
Proof.
  unfold CallAllExtensions. intros Hc.
  apply bind_Ok_inv in Hc as (gvh & w1 & _ & Hc). apply bind_Ok_inv in Hc as (? & w2 & _ & Hc).
  apply bind_Ok_inv in Hc as (? & w3 & _ & Hc). apply bind_Ok_inv in Hc as (names & w4 & _ & Hc).
  apply bind_Ok_inv in Hc as (responses & w5 & Hl & Hc). unfold mret, comp_ret in Hc. injection Hc as <- _.
  exists responses. split_and!; [| |done|].
  - unfold aggregateSuccessfulResponses. rewrite status_message.
    assert (∀ l agg, GetStatus (foldl aggregate_retry agg l) = GetStatus agg) as ->; [|apply status_set].
    induction l as [|r1 l IH]; intros agg; cbn; [done|]. rewrite IH. unfold aggregate_retry.
    repeat case_match; try done. apply status_retry.
  - eapply (for_acc_ok (λ _ rs, Forall (λ r, GetStatus r = ResponseStatusSuccess) rs)); [|constructor|exact Hl].
    intros d name rest b s b' s' _ Hb Hs. apply bind_Ok_inv in Hs as (tmp & s1 & _ & Hs).
    apply bind_Ok_inv in Hs as (r & s2 & Hr & Hs). unfold mret, comp_ret in Hs. injection Hs as <- _.
    apply Forall_app. split; [done|]. constructor; [|constructor]. revert Hr. unfold ewrap.
    destruct (CallExtension _ _ _ _ _ _ s1) as [[r1|e|p] s3] eqn:E; [|done..]. intros [= <- _].
    by eapply CallExtension_ok.
  - intros H0' Hnn r z Hin Hz Hpos. unfold aggregateSuccessfulResponses. rewrite retry_message.
    destruct (aggregate_retry_spec responses (SetStatus ResponseStatusSuccess response) 0 r z)
      as (b & Hb & _ & _ & Hbr); [by rewrite retry_status|done|done|]. exists b. split; [done|by auto].
Qed.
End client_claims.

(** ** Samples *)

#[export] Instance plain_selectors : SelectorLib := {
  LabelSelector := gmap string string; Selector := gmap string string;
  LabelSelectorAsSelector s := inr s;
  Selector_Empty s := bool_decide (s = ∅);
  Selector_Matches s labels := bool_decide (s ⊆ labels);
  ParseGroupVersion s := if decide (s = "") then inl (EText "empty") else inr ("hooks.runtime", s)
}.

Definition demo_range : GoRange :=
  {| go_range _ _ m := map_to_list m; go_range_perm _ _ _ := Permutation_refl _ |}.

Definition demo_client_config : ClientConfig :=
  Build_ClientConfig "" (Build_ServiceReference "ns" "ext" "" None) "ca".
Definition demo_handler (name : string) : ExtensionHandler :=
  Build_ExtensionHandler name "v1alpha1" "CanUpdateMachine" 0%Z FailurePolicyFail.
Definition demo_extension (name : string) (handlers : list ExtensionHandler) : ExtensionConfig :=
  Build_ExtensionConfig name "1" ∅ demo_client_config ∅ handlers.
Definition demo_ops : list reg_op :=
  [OpWarmUp [demo_extension "a" [demo_handler "update.a"; demo_handler "check.a"]];
   OpAdd (demo_extension "b" [demo_handler "update.b"]);
   OpAdd (demo_extension "a" [demo_handler "update.a"])].
Definition demo_hook : GroupHook := Build_GroupHook "hooks.runtime" "CanUpdateMachine".

Lemma demo_named_a l : l ∈ [["update"; "check"]; ["update"]] → ∀ name, name ∈ ["a"; "b"] →
  named (demo_extension name (map (λ h, demo_handler (nameForHandler h name)) l)).
Proof.
  intros Hl name Hname. rewrite !elem_of_cons, elem_of_nil in Hl. rewrite !elem_of_cons, elem_of_nil in Hname.
  split; cbn.
  - destruct Hl as [->|[->|[]]], Hname as [->|[->|[]]]; cbn; apply (bool_decide_unpack _); vm_compute; exact I.
  - apply list.Forall_forall. intros h Hh. apply list_elem_of_fmap in Hh as (x & -> & Hx). exists x. split; [|done].
    destruct Hl as [->|[->|[]]]; rewrite !elem_of_cons, elem_of_nil in Hx;
      repeat destruct Hx as [->|Hx]; try reflexivity; done.
Qed.

Lemma registry_refines_witness :
  ∃ l, @List_ plain_selectors demo_range demo_hook (@run_registry plain_selectors demo_range demo_ops) = inr l ∧
    NoDup (map er_Name l).
Proof.
  destruct (@registry_refines plain_selectors demo_range demo_ops demo_hook) as (_ & l & Hl & Hn & _).
  - change (Forall named [demo_extension "a" (map (λ h, demo_handler (nameForHandler h "a")) ["update"; "check"]);
      demo_extension "b" (map (λ h, demo_handler (nameForHandler h "b")) ["update"]);
      demo_extension "a" (map (λ h, demo_handler (nameForHandler h "a")) ["update"])]).
    rewrite !list.Forall_cons. split_and!; [..|constructor]; apply demo_named_a; set_solver.
  - discriminate.
  - discriminate.
  - exists l. split; [exact Hl|exact Hn].
Defined.

Example demo_listed :
  (λ l, map er_Name l) <$> match @List_ plain_selectors demo_range demo_hook
      (@run_registry plain_selectors demo_range demo_ops) with inr l => Some l | inl _ => None end =
  Some ["update.a"; "update.b"].
Proof. vm_compute. reflexivity. Qed.
