(* ===== verification/Ssa.v ===== *)
(** * Server side apply

    controlplane/internal/util/ssa (filterintent.go, patch.go, cache.go,
    managedfields.go) and the paths of controlplane/internal/contract/types.go.

    An unstructured object is a JSON value whose objects are association lists, in
    the order Go walks them.  [FilterIntent] removes fields in place, level by
    level; [FilterObject_spec] says what is left: the values that remain are those
    of the object whose path is allowed and not ignored.

    [Patch] is a program over the API server and the request cache. *)

From stdpp Require Import base tactics option list gmap strings numbers.
From S2P Require Import Prelude Go.
Open Scope string_scope.
Open Scope list_scope.
Open Scope stdpp_scope.

(** ** Paths *)

Definition Path : Type := list string.
Definition Append (p : Path) (k : string) : Path := p ++ [k].

(** The loops compare as many elements as the shorter path has. *)
Fixpoint same_start (p other : Path) : bool :=
  match p, other with
  | [], _ => true
  | x :: p, y :: other => bool_decide (x = y) && same_start p other
  | _ :: _, [] => false
  end.
Definition IsParentOf (p other : Path) : bool :=
  if decide (length other ≤ length p)%nat then false else same_start p other.
Definition Path_Equal (p other : Path) : bool :=
  if decide (length p = length other) then same_start p other else false.
Definition Overlaps (p other : Path) : bool :=
  Path_Equal other p || IsParentOf other p || IsParentOf p other.

Lemma same_start_prefix p q : same_start p q = true ↔ p `prefix_of` q.
Proof.
  revert q. induction p as [|x p IH]; intros [|y q]; cbn.
  - split; [intros _; apply prefix_nil|done].
  - split; [intros _; apply prefix_nil|done].
  - split; [done|]. by intros [? [=]].
  - rewrite andb_true_iff, bool_decide_eq_true, IH. split.
    + intros [-> Hp]. by apply prefix_cons.
    + intros Hp. split; [by eapply prefix_cons_inv_1|by eapply prefix_cons_inv_2].
Qed.

(** Two paths overlap when one starts the other. *)
Lemma Overlaps_prefix p q : Overlaps p q = true ↔ p `prefix_of` q ∨ q `prefix_of` p.
Proof.
  unfold Overlaps, Path_Equal, IsParentOf. rewrite !orb_true_iff. split.
  - intros [[Hp|Hp]|Hp]; case_decide; try done; apply same_start_prefix in Hp; by auto.
  - intros [Hp|Hp].
    + destruct (decide (length q = length p)) as [Hl|Hl].
      * left; left. apply same_start_prefix. destruct Hp as [k ->]. rewrite length_app in Hl.
        destruct k; [|cbn in Hl; lia]. by rewrite app_nil_r.
      * right. pose proof (prefix_length _ _ Hp). rewrite decide_False by lia. by apply same_start_prefix.
    + destruct (decide (length q = length p)) as [Hl|Hl]; [by left; left; apply same_start_prefix|].
      left; right. pose proof (prefix_length _ _ Hp). rewrite decide_False by lia. by apply same_start_prefix.
Qed.

Lemma Path_Equal_eq p q : Path_Equal p q = true ↔ p = q.
Proof.
  unfold Path_Equal. split.
  - case_decide as Hl; [|done]. intros [k ->]%same_start_prefix. rewrite length_app in Hl.
    destruct k; [by rewrite app_nil_r|cbn in Hl; lia].
  - intros ->. rewrite decide_True by done. by apply same_start_prefix.
Qed.

(** ** Unstructured objects *)

#[local] Unset Elimination Schemes.
Inductive json :=
| JNull | JBool (b : bool) | JNumber (z : Z) | JString (s : string) | JArray (l : list json)
| JObject (fields : list (string * json)).

#[local] Set Elimination Schemes.

(** Induction over the fields of objects. *)
Fixpoint json_object_ind (P : json → Prop) (Hleaf : ∀ v, (∀ l, v ≠ JObject l) → P v)
    (Hobj : ∀ fields, Forall (λ kv, P kv.2) fields → P (JObject fields)) (v : json) : P v.
Proof.
  destruct v as [| | | | |fields]; try (apply Hleaf; discriminate). apply Hobj.
  induction fields as [|[k v] l IH]; constructor; [apply (json_object_ind P Hleaf Hobj v)|exact IH].
Defined.

Definition empty_object (v : json) : bool := match v with JObject [] => true | _ => false end.

(** Whether fields are removed, one level after the other: the value that is left, and
    whether one of its own fields was deleted.  A field that became empty because
    something was deleted in it goes too. *)
Fixpoint FilterIntent (ShouldFilter : Path → bool) (path : Path) (value : json) : json * bool :=
  match value with
  | JObject fields =>
      let fix each (l : list (string * json)) : list (string * json) * bool :=
        match l with
        | [] => ([], false)
        | (field, v) :: l =>
            let '(rest, gotDeletions) := each l in
            if ShouldFilter (Append path field) then (rest, true)
            else
              let '(v', deleted) := FilterIntent ShouldFilter (Append path field) v in
              if deleted && empty_object v' then (rest, true) else ((field, v') :: rest, gotDeletions)
        end in
      let '(fields, gotDeletions) := each fields in (JObject fields, gotDeletions)
  | _ => (value, false)
  end.

Definition IsPathAllowed (allowedPaths : list Path) (path : Path) : bool :=
  existsb (λ p, Overlaps path p) allowedPaths.
Definition IsPathNotAllowed (allowedPaths : list Path) (path : Path) : bool :=
  negb (IsPathAllowed allowedPaths path).
Definition IsPathIgnored (ignorePaths : list Path) (path : Path) : bool :=
  existsb (λ p, Path_Equal path p) ignorePaths.

Record FilterObjectInput := { AllowedPaths : list Path; IgnorePaths : list Path }.

Definition FilterObject (obj : json) (input : FilterObjectInput) : json :=
  let obj := if decide (AllowedPaths input = []) then obj
             else (FilterIntent (IsPathNotAllowed (AllowedPaths input)) [] obj).1 in
  if decide (IgnorePaths input = []) then obj
  else (FilterIntent (IsPathIgnored (IgnorePaths input)) [] obj).1.

(** ** What is left *)

(** The values in an object, each with its path: everything that is not an object with
    fields.  The object itself has path [path]. *)
Fixpoint values (path : Path) (v : json) : list (Path * json) :=
  match v with
  | JObject fields =>
      (fix each (l : list (string * json)) : list (Path * json) :=
        match l with
        | [] => []
        | (field, v) :: l =>
            (match v with
             | JObject (_ :: _) => values (Append path field) v
             | _ => [(Append path field, v)]
             end) ++ each l
        end) fields
  | _ => []
  end.

Section filter.
Context (should : Path → bool).

(** The two loops, named. *)
Definition filter_fields (path : Path) : list (string * json) → list (string * json) * bool :=
  fix each l :=
    match l with
    | [] => ([], false)
    | (field, v) :: l =>
        let '(rest, gotDeletions) := each l in
        if should (Append path field) then (rest, true)
        else
          let '(v', deleted) := FilterIntent should (Append path field) v in
          if deleted && empty_object v' then (rest, true) else ((field, v') :: rest, gotDeletions)
    end.
Definition field_values (path : Path) (field : string) (v : json) : list (Path * json) :=
  match v with
  | JObject (_ :: _) => values (Append path field) v
  | _ => [(Append path field, v)]
  end.

Lemma FilterIntent_object path fields :
  FilterIntent should path (JObject fields) =
  (JObject (filter_fields path fields).1, (filter_fields path fields).2).
Proof. cbn. fold (filter_fields path). by destruct (filter_fields path fields). Qed.

Lemma values_object path fields :
  values path (JObject fields) = concat (map (λ '(k, v), field_values path k v) fields).
Proof.
  cbn. induction fields as [|[k v] l IH]; [done|]. cbn [map concat]. unfold field_values at 1. by rewrite <-IH.
Qed.

(** Nothing on the way to the value is filtered, starting below [path]. *)
Fixpoint unfiltered (path rest : Path) : bool :=
  match rest with
  | [] => true
  | k :: rest => negb (should (Append path k)) && unfiltered (Append path k) rest
  end.
Definition keep (path p : Path) : bool := unfiltered path (drop (length path) p).

Lemma keep_self p : keep p p = true.
Proof. unfold keep. by rewrite drop_ge. Qed.

Lemma keep_step path k p :
  Append path k `prefix_of` p → keep path p = negb (should (Append path k)) && keep (Append path k) p.
Proof.
  intros [s ->]. unfold keep, Append. rewrite drop_app_length, <-app_assoc, drop_app_length. done.
Qed.

Lemma keep_prefixes path p :
  path `prefix_of` p → keep path p = true ↔
  ∀ q, path `prefix_of` q → q ≠ path → q `prefix_of` p → should q = false.
Proof.
  intros [s ->]. unfold keep. rewrite drop_app_length. revert path.
  induction s as [|k s IH]; intros path; cbn.
  - split; [|done]. intros _ q Hq Hne Hp. rewrite app_nil_r in Hp. by destruct Hne; apply (anti_symm prefix).
  - rewrite andb_true_iff, negb_true_iff. specialize (IH (Append path k)).
    replace (path ++ k :: s) with (Append path k ++ s) by (unfold Append; by rewrite <-app_assoc). rewrite IH. split.
    + intros [Hk Hs] q [t ->] Hne Hp. destruct t as [|k' t]; [by rewrite app_nil_r in Hne|].
      assert (k' = k) as ->.
      { destruct Hp as [u Hu]. unfold Append in Hu. rewrite <-!app_assoc in Hu. apply (inj (path ++.)) in Hu.
        by injection Hu. }
      destruct (decide (t = [])) as [->|Ht]; [done|]. apply Hs; [|intros He|done].
      * exists t. unfold Append. by rewrite <-app_assoc.
      * unfold Append in He. apply (inj (path ++.)) in He. by injection He.
    + intros Hall. split.
      * apply Hall; [by exists [k]| |by eexists]. unfold Append. intros He.
        apply (f_equal length) in He. rewrite length_app in He. cbn in He. lia.
      * intros q Hq Hne Hp. apply Hall; [|intros ->|done].
        -- etrans; [|exact Hq]. by exists [k].
        -- apply prefix_length in Hq. unfold Append in Hq. rewrite length_app in Hq. cbn in Hq. lia.
Qed.

Lemma values_below path v p x : (p, x) ∈ values path v → ∃ k, Append path k `prefix_of` p.
Proof.
  revert path. induction v as [v Hv|fields IH] using json_object_ind; intros path.
  - destruct v; cbn; try (by intros ?%elem_of_nil). by destruct (Hv fields).
  - rewrite values_object. rewrite list.Forall_forall in IH. intros Hin.
    apply list_elem_of_In, in_concat in Hin as (l & Hl & Hin). apply in_map_iff in Hl as ([k v] & <- & Hkv).
    apply list_elem_of_In in Hkv, Hin. specialize (IH _ Hkv). cbn in IH. exists k.
    destruct v as [| | | | |[|f fs]]; cbn [field_values] in Hin;
      [apply list_elem_of_singleton in Hin; injection Hin as -> ->; done..|].
    destruct (IH _ Hin) as [k' Hk]. etrans; [|exact Hk]. by exists [k'].
Qed.

Lemma values_prefix path v p x : (p, x) ∈ values path v → path `prefix_of` p.
Proof. intros [k Hk]%values_below. etrans; [|exact Hk]. by exists [k]. Qed.

(** A field of a non-empty object is deleted when none is left. *)
Lemma filter_fields_empty path fields :
  fields ≠ [] → (filter_fields path fields).1 = [] → (filter_fields path fields).2 = true.
Proof.
  destruct fields as [|[k v] l]; [done|]. intros _. cbn. fold (filter_fields path).
  destruct (filter_fields path l) as [rest got]. destruct (should _); [done|].
  destruct (FilterIntent should _ v) as [v' d]. by destruct (d && empty_object v').
Qed.

Lemma FilterIntent_values v path :
  values path (FilterIntent should path v).1 = filter (λ px, keep path px.1 = true) (values path v).
Proof.
  revert path. induction v as [v Hv|fields IH] using json_object_ind; intros path.
  - destruct v; try done. by destruct (Hv fields).
  - rewrite FilterIntent_object. cbn [fst]. rewrite !values_object.
    induction IH as [|[k v] l Hk _ IHl]; [done|]. cbn [map concat]. rewrite list.filter_app, <-IHl. clear IHl.
    cbn [filter_fields]. fold (filter_fields path). destruct (filter_fields path l) as [rest got]. cbn [fst].
    assert (filter (λ px, keep path px.1 = true) (field_values path k v) =
            if should (Append path k) then [] else
            filter (λ px, keep (Append path k) px.1 = true) (field_values path k v)) as ->.
    { assert (∀ px, px ∈ field_values path k v →
        keep path px.1 = negb (should (Append path k)) && keep (Append path k) px.1) as Hall.
      { intros [p x] Hin. apply keep_step. destruct v as [| | | | |[|f fs]]; cbn [field_values] in Hin;
          [apply list_elem_of_singleton in Hin; injection Hin as -> ->; done..|]. by eapply values_prefix. }
      revert Hall. generalize (field_values path k v). clear. intros vs Hall.
      induction vs as [|px vs IH]; [by destruct (should _)|].
      rewrite filter_cons, IH by (intros; by apply Hall, list_elem_of_further).
      rewrite (Hall px) by (by apply list_elem_of_here).
      destruct (should _); cbn [negb andb]; [done|]. by rewrite filter_cons. }
    destruct (should (Append path k)); [done|]. cbn in Hk. specialize (Hk (Append path k)).
    destruct (FilterIntent should (Append path k) v) as [v' d] eqn:Ef. cbn [fst] in Hk.
    destruct v as [| | | | |[|f fs]]; try (injection Ef as <- <-; cbn [andb map concat field_values];
      rewrite filter_cons, decide_True by (by apply keep_self); done).
    cbn [field_values]. rewrite <-Hk. rewrite FilterIntent_object in Ef.
    pose proof (filter_fields_empty (Append path k) (f :: fs) ltac:(done)) as He.
    destruct (filter_fields (Append path k) (f :: fs)) as [fields d']. cbn [fst snd] in Ef, He.
    injection Ef as <- <-. destruct fields as [|g gs]; cbn [empty_object].
    + by rewrite (He eq_refl).
    + by rewrite andb_false_r.
Qed.
End filter.

(** ** Allowed and ignored paths *)

Section paths.

Lemma keep_allowed allowed p :
  p ≠ [] → keep (IsPathNotAllowed allowed) [] p = IsPathAllowed allowed p.
Proof.
  intros Hp. apply eq_bool_prop_intro. rewrite !Is_true_true, keep_prefixes by apply prefix_nil.
  unfold IsPathNotAllowed. split.
  - intros Hq. specialize (Hq p (prefix_nil _) Hp (reflexivity p)). by apply negb_false_iff in Hq.
  - intros Ha q _ _ Hq. apply negb_false_iff. unfold IsPathAllowed in *. rewrite existsb_exists in *.
    destruct Ha as (a & Hin & Ho). exists a. split; [done|]. rewrite Overlaps_prefix in *.
    destruct Ho as [Ho|Ho]; [left; by etrans|]. by eapply prefix_weak_total.
Qed.

Lemma keep_ignored ignored p :
  keep (IsPathIgnored ignored) [] p = forallb (λ i, bool_decide (i = []) || negb (bool_decide (i `prefix_of` p))) ignored.
Proof.
  apply eq_bool_prop_intro. rewrite !Is_true_true, keep_prefixes, forallb_forall by apply prefix_nil.
  unfold IsPathIgnored. split.
  - intros Hq i Hin. rewrite orb_true_iff, bool_decide_eq_true, negb_true_iff, bool_decide_eq_false.
    destruct (decide (i = [])) as [|Hne]; [by left|right]. intros Hp.
    specialize (Hq i (prefix_nil _) Hne Hp). apply not_true_iff_false in Hq. apply Hq.
    apply existsb_exists. exists i. split; [done|]. by apply Path_Equal_eq.
  - intros Hi q _ Hne Hp. apply not_true_iff_false. rewrite existsb_exists. intros (i & Hin & ->%Path_Equal_eq).
    specialize (Hi i Hin). rewrite orb_true_iff, bool_decide_eq_true, negb_true_iff, bool_decide_eq_false in Hi.
    by destruct Hi.
Qed.

(** The paths the controller has an opinion on: those at, below or above an allowed
    path (any path when none is given), and not at or below an ignored one. *)
Definition of_interest (input : FilterObjectInput) (p : Path) : bool :=
  (bool_decide (AllowedPaths input = []) ||
   existsb (λ a, bool_decide (a `prefix_of` p) || bool_decide (p `prefix_of` a)) (AllowedPaths input)) &&
  forallb (λ i, bool_decide (i = []) || negb (bool_decide (i `prefix_of` p))) (IgnorePaths input).

Lemma IsPathAllowed_existsb allowed p :
  IsPathAllowed allowed p = existsb (λ a, bool_decide (a `prefix_of` p) || bool_decide (p `prefix_of` a)) allowed.
Proof.
  unfold IsPathAllowed. induction allowed as [|a l IH]; [done|]. cbn. f_equal; [|done].
  apply eq_bool_prop_intro. rewrite !Is_true_true, Overlaps_prefix, orb_true_iff, !bool_decide_eq_true. tauto.
Qed.

Lemma filter_values_ext {A} (P Q : A → bool) (l : list A) :
  (∀ x, x ∈ l → P x = Q x) → filter (λ x, P x = true) l = filter (λ x, Q x = true) l.
Proof.
  induction l as [|x l IH]; intros Hl; [done|]. rewrite !filter_cons, (Hl x) by apply list_elem_of_here.
  rewrite IH by (intros; by apply Hl, list_elem_of_further). done.
Qed.

Lemma filter_values_all {A} (P : A → bool) (l : list A) :
  (∀ x, P x = true) → filter (λ x, P x = true) l = l.
Proof. intros HP. induction l as [|x l IH]; [done|]. by rewrite filter_cons, IH, decide_True. Qed.

(** C30: filtering an object keeps exactly what the controller has an opinion on.  The
    values of the filtered object, with their paths and in their order, are the
    values of the object whose path is at, below or above one of the allowed paths
    and not at or below one of the ignored ones; in particular fields that only
    became empty are not left behind as empty objects. *)
Theorem FilterObject_spec (obj : json) (input : FilterObjectInput) :
  values [] (FilterObject obj input) =
  filter (λ px, of_interest input px.1 = true) (values [] obj).
Proof.
  unfold FilterObject, of_interest. cbv zeta. set (obj1 := if decide (AllowedPaths input = []) then obj else _).
  assert (values [] obj1 = filter (λ px, (bool_decide (AllowedPaths input = []) ||
    existsb (λ a, bool_decide (a `prefix_of` px.1) || bool_decide (px.1 `prefix_of` a)) (AllowedPaths input)) = true)
    (values [] obj)) as Hobj1.
  { unfold obj1. destruct (decide (AllowedPaths input = [])) as [Ha|Ha].
    - symmetry. apply filter_values_all. intros px. by rewrite bool_decide_eq_true_2.
    - rewrite FilterIntent_values. apply filter_values_ext. intros [p x] (k & Hk)%values_below. cbn [fst].
      rewrite bool_decide_eq_false_2, orb_false_l by done.
      rewrite keep_allowed, IsPathAllowed_existsb; [done|]. intros ->. by apply prefix_nil_inv in Hk; destruct k. }
  destruct (decide (IgnorePaths input = [])) as [Hi|Hi].
  - rewrite Hobj1, Hi. apply filter_values_ext. intros. cbn. by rewrite andb_true_r.
  - rewrite FilterIntent_values, Hobj1, list_filter_filter.
    apply list_filter_iff. intros [p x]. cbn [fst]. rewrite keep_ignored, andb_true_iff. tauto.
Qed.
End paths.

(** ** Applying objects *)

(** The objects of the controllers, their unstructured form, what is read of them, and
    the 32 bit hash of go-spew's rendering. *)
Class SsaLib := {
  Object : Type;
  to_unstructured : Object → error + json;
  from_unstructured : json → error + Object;
  obj_key : Object → string; (* klog.KObj *)
  obj_GVK : Object → error + string;
  obj_ResourceVersion : Object → string;
  json_GVK : json → error + string;
  json_ResourceVersion : json → string;
  hash_Compute : json → error + Z;
  json_Marshal_raw : json → error + string;
  json_Unmarshal_raw : string → error + list (string * json)
}.

Record ManagedFieldsEntry := {
  mf_Manager : string; mf_Operation : string; mf_APIVersion : string;
  mf_FieldsV1 : option string (* FieldsV1.Raw *)
}.
Definition ManagedFieldsOperationUpdate : string := "Update".
Definition ManagedFieldsOperationApply : string := "Apply".
Definition classicManager : string := "manager".

(** The fields a server side apply is about. *)
Definition apply_paths : FilterObjectInput :=
  {| AllowedPaths :=
       [["apiVersion"]; ["kind"]; ["metadata"; "name"]; ["metadata"; "namespace"]; ["metadata"; "uid"];
        ["metadata"; "labels"]; ["metadata"; "annotations"]; ["metadata"; "finalizers"];
        ["metadata"; "ownerReferences"]; ["spec"]];
     IgnorePaths := [] |}.

Section patch.
Context `{SsaLib}.

Definition prepareModified (obj : Object) : error + json :=
  match to_unstructured obj with
  | inl e => inl (EWrap "failed to convert object to Unstructured" e)
  | inr u => inr (FilterObject u apply_paths)
  end.

(** The calls: an apply with its answer's resource version, and a merge patch of the
    managed fields. *)
Inductive SCall :=
| SApply (fieldManager : string) (intent : json) (dryRun : bool)
| SMergeManagedFields (after : list ManagedFieldsEntry)
| SExpired (key : string).
Definition sanswer (c : SCall) : Type :=
  match c with SApply _ _ _ => json | SMergeManagedFields _ => unit | SExpired _ => bool end.
Class SEnv := sask : list (SCall * option string) → ∀ c : SCall, error + sanswer c.

(** The cache holds the keys added; a key may have expired when it is looked up.  The
    log has every call with the resource version an apply answered. *)
Record SWorld := { s_cache : gset string; s_log : list (SCall * option string) }.
Abbreviation SM := (comp SWorld).

Definition version_of (c : SCall) : sanswer c → option string :=
  match c with SApply _ _ _ => λ j, Some (json_ResourceVersion j) | _ => λ _, None end.

Definition sapi `{!SEnv} (c : SCall) : SM (sanswer c) := λ w,
  match sask (s_log w) c with
  | inl e => (Err e, Build_SWorld (s_cache w) ((c, None) :: s_log w))
  | inr a => (Ok a, Build_SWorld (s_cache w) ((c, version_of c a) :: s_log w))
  end.
Definition swrap {A} (msg : string) (m : SM A) : SM A := λ w,
  match m w with (Err e, w') => (Err (EWrap msg e), w') | r => r end.
Definition sum_of {A} (s : error + A) : SM A := match s with inl e => fail e | inr a => mret a end.

Context `{!SEnv}.

Definition Cache_Add (key : string) : SM unit := λ w,
  (Ok tt, Build_SWorld ({[key]} ∪ s_cache w) (s_log w)).
Definition Cache_Has (key : string) : SM bool := λ w,
  if decide (key ∈ s_cache w) then
    match sask (s_log w) (SExpired key) with
    | inr true => (Ok false, w)
    | _ => (Ok true, w)
    end
  else (Ok false, w).

(** The key of a request: kind, name and resource version of the object as it was, and a
    hash of the intent. *)
Definition ComputeRequestIdentifier (original : Object) (intent : json) : error + string :=
  match hash_Compute intent with
  | inl e => inl (EWrap "failed to compute hash for modified object" e)
  | inr h =>
      match obj_GVK original with
      | inl e => inl (EWrap "failed to get GroupVersionKind of original object" e)
      | inr gvk => inr (Join [gvk; obj_key original; obj_ResourceVersion original; fmt_d h] ".")
      end
  end.

(** [original] is given with the option WithCachingProxy.  The result is the object the
    caller is left with. *)
Definition apply_intent (fieldManager : string) (intent : json) (dryRun : bool)
    (cached : option (Object * string)) : SM Object :=
  applied ← swrap "failed to apply" (sapi (SApply fieldManager intent dryRun));
  result ← swrap "failed to write modified object" (sum_of (from_unstructured applied));
  _ ← match cached with
      | Some (original, requestIdentifier) =>
          if negb dryRun && bool_decide (obj_ResourceVersion original = json_ResourceVersion applied)
          then Cache_Add requestIdentifier else mret tt
      | None => mret tt
      end;
  mret result.

Definition Patch (fieldManager : string) (modified : Object) (caching : option Object) (dryRun : bool) : SM Object :=
  intent ← sum_of (prepareModified modified);
  _ ← swrap "failed to get GroupVersionKind of modified object" (sum_of (json_GVK intent));
  match caching with
  | None => apply_intent fieldManager intent dryRun None
  | Some original =>
      key ← swrap "failed to apply object" (sum_of (ComputeRequestIdentifier original intent));
      hit ← Cache_Has key;
      if (hit : bool) then mret original
      else apply_intent fieldManager intent dryRun (Some (original, key))
  end.

(** The options of Patch, applied in their order to options that start empty. *)
Inductive PatchOption :=
| WithCachingProxy (Original : Object)
| WithDryRun.

Record Options := { opt_WithCachingProxy : bool; opt_Original : option Object; opt_WithDryRun : bool }.

Definition ApplyToOptions (o : PatchOption) (in_ : Options) : Options :=
  match o with
  | WithCachingProxy original =>
      {| opt_WithCachingProxy := true; opt_Original := Some original; opt_WithDryRun := opt_WithDryRun in_ |}
  | WithDryRun =>
      {| opt_WithCachingProxy := opt_WithCachingProxy in_; opt_Original := opt_Original in_; opt_WithDryRun := true |}
  end.

Definition PatchWith (fieldManager : string) (modified : Object) (opts : list PatchOption) : SM Object :=
  let options := foldl (λ options opt, ApplyToOptions opt options) (Build_Options false None false) opts in
  Patch fieldManager modified (if opt_WithCachingProxy options then opt_Original options else None)
    (opt_WithDryRun options).

(** *** Managed fields *)

Definition hasFieldsManagedBy (l : list ManagedFieldsEntry) (manager : string) : bool :=
  existsb (λ mf, bool_decide (mf_Manager mf = manager)) l.

Definition classic_update (mf : ManagedFieldsEntry) : bool :=
  bool_decide (mf_Manager mf = classicManager) && bool_decide (mf_Operation mf = ManagedFieldsOperationUpdate).

(** The fields are a pointer, which is dereferenced. *)
Definition drop_ownership (paths : list Path) (mf : ManagedFieldsEntry) : outcome ManagedFieldsEntry :=
  if classic_update mf then
    match mf_FieldsV1 mf with
    | None => Panic "nil pointer dereference"
    | Some raw =>
        match json_Unmarshal_raw raw with
        | inl e => Err (EWrap "failed to unmarshal managed fields" e)
        | inr fieldsV1 =>
            match json_Marshal_raw (FilterIntent (IsPathIgnored paths) [] (JObject fieldsV1)).1 with
            | inl e => Err (EWrap "failed to marshal managed fields" e)
            | inr raw' => Ok (Build_ManagedFieldsEntry (mf_Manager mf) (mf_Operation mf) (mf_APIVersion mf) (Some raw'))
            end
        end
    end
  else Ok mf.

Definition DropManagedFields (managedFields : list ManagedFieldsEntry) (ssaManager : string)
    (paths : list Path) : SM unit :=
  if hasFieldsManagedBy managedFields ssaManager then mret tt
  else
    after ← for_acc managedFields [] (λ acc mf, mf' ← lift (drop_ownership paths mf); mret (acc ++ [mf']));
    sapi (SMergeManagedFields after).

Definition seed_fields : json := JObject [("f:metadata", JObject [("f:name", JObject [])])].

Definition CleanUpManagedFieldsForSSAAdoption (managedFields : list ManagedFieldsEntry) (ssaManager : string)
    (gvk : error + string) : SM unit :=
  if hasFieldsManagedBy managedFields ssaManager then mret tt
  else
    let kept := filter (λ mf, classic_update mf = false) managedFields in
    fieldV1 ← swrap "failed to create seeding fieldV1Map for cleaning up legacy managed fields"
      (sum_of (json_Marshal_raw seed_fields));
    groupVersion ← swrap "failed to get GroupVersionKind of object" (sum_of gvk);
    sapi (SMergeManagedFields
      (kept ++ [Build_ManagedFieldsEntry ssaManager ManagedFieldsOperationApply groupVersion (Some fieldV1)])).

(** ** The cache skips only what is known to change nothing *)

Lemma sum_bind {A B} (s : error + A) (f : A → SM B) w :
  (sum_of s ≫= f) w = match s with inl e => (Err e, w) | inr a => f a w end.
Proof. by destruct s. Qed.
Lemma swrap_sum_bind {A B} msg (s : error + A) (f : A → SM B) w :
  (swrap msg (sum_of s) ≫= f) w = match s with inl e => (Err (EWrap msg e), w) | inr a => f a w end.
Proof. by destruct s. Qed.

Lemma bind_run {A B} (m : SM A) (f : A → SM B) w a w' : m w = (Ok a, w') → (m ≫= f) w = f a w'.
Proof. intros Hm. unfold mbind, comp_bind. by rewrite Hm. Qed.

(** Every key in the cache is that of an intent that was applied for real, and left the
    object it was computed for at its resource version. *)
Definition cache_sound (w : SWorld) : Prop :=
  ∀ key, key ∈ s_cache w → ∃ manager intent original,
    ComputeRequestIdentifier original intent = inr key ∧
    (SApply manager intent false, Some (obj_ResourceVersion original)) ∈ s_log w.

Lemma cache_sound_log w c v :
  cache_sound w → cache_sound (Build_SWorld (s_cache w) ((c, v) :: s_log w)).
Proof.
  intros Hw key Hk. destruct (Hw key Hk) as (m & i & o & Hi & Hl). exists m, i, o. split; [done|].
  by apply list_elem_of_further.
Qed.

Lemma sapi_sound c w : cache_sound w → cache_sound (sapi c w).2.
Proof. intros Hw. unfold sapi. destruct (sask _ c); by apply cache_sound_log. Qed.

Lemma apply_intent_sound manager intent dryRun cached w :
  cache_sound w →
  (∀ original key, cached = Some (original, key) → ComputeRequestIdentifier original intent = inr key) →
  cache_sound (apply_intent manager intent dryRun cached w).2.
Proof.
  intros Hw Hc. unfold apply_intent, mbind, comp_bind, swrap, sum_of.
  unfold sapi. destruct (sask _ _) as [e|applied]; [by apply cache_sound_log|].
  set (w1 := Build_SWorld _ _). assert (cache_sound w1) as Hw1 by (by apply cache_sound_log).
  destruct (from_unstructured applied) as [e|result]; [done|].
  destruct cached as [[original key]|]; [|done]. cbn.
  destruct (negb dryRun && bool_decide _) eqn:Eb; [|done]. cbn.
  apply andb_true_iff in Eb as [Hd Hv%bool_decide_eq_true]. apply negb_true_iff in Hd as ->.
  intros key' [->%elem_of_singleton|Hin]%elem_of_union; [|by apply Hw1].
  exists manager, intent, original. split; [by apply Hc|]. rewrite Hv. apply list_elem_of_here.
Qed.

(** Patching keeps the cache sound, and returns the original object without a request
    only for an intent with the key of one that changed nothing. *)
Theorem Patch_cache manager modified caching dryRun w :
  cache_sound w →
  cache_sound (Patch manager modified caching dryRun w).2 ∧
  ∀ r w', Patch manager modified caching dryRun w = (Ok r, w') → s_log w' = s_log w →
    ∃ original intent key manager' intent' original', caching = Some original ∧ r = original ∧
      prepareModified modified = inr intent ∧ ComputeRequestIdentifier original intent = inr key ∧
      ComputeRequestIdentifier original' intent' = inr key ∧
      (SApply manager' intent' false, Some (obj_ResourceVersion original')) ∈ s_log w.
Proof.
  intros Hw. unfold Patch.
  assert (∀ m i d c r w', apply_intent m i d c w = (Ok r, w') → s_log w' ≠ s_log w) as Happ.
  { intros m i d c r w'. unfold apply_intent, mbind, comp_bind, swrap, sapi.
    destruct (sask _ _) as [e|a]; [done|]. unfold sum_of. destruct (from_unstructured a); [done|]. cbn.
    intros Hr Hl. assert (s_log w' = (SApply m i d, Some (json_ResourceVersion a)) :: s_log w) as Hx.
    { destruct c as [[orig key]|]; [|by injection Hr as _ <-]. destruct (_ && _); by injection Hr as _ <-. }
    rewrite Hx in Hl. apply (f_equal length) in Hl. cbn in Hl. lia. }
  rewrite sum_bind. destruct (prepareModified modified) as [e|intent] eqn:Ep; [by split|].
  rewrite swrap_sum_bind. destruct (json_GVK intent); [by split|]. destruct caching as [original|].
  - rewrite swrap_sum_bind. destruct (ComputeRequestIdentifier _ _) as [e|key] eqn:Ei; [by split|].
    assert (∃ hit, Cache_Has key w = (Ok hit, w) ∧ (hit = true → key ∈ s_cache w)) as (hit & Hk & Hhit).
    { unfold Cache_Has. case_decide; [|by exists false]. destruct (sask _ _) as [|[]]; eauto. }
    rewrite (bind_run (Cache_Has key) _ w hit w Hk). destruct hit.
    + unfold mret, comp_ret. split; [done|]. intros r w' [= <- <-] _. destruct (Hw key (Hhit eq_refl)) as (m & i & o & Hi & Hl).
      by exists original, intent, key, m, i, o.
    + split; [apply apply_intent_sound; [done|naive_solver]|].
      intros r w' Hr Hl. by destruct (Happ _ _ _ _ _ _ Hr).
  - split; [by apply apply_intent_sound|]. intros r w' Hr Hl. by destruct (Happ _ _ _ _ _ _ Hr).
Qed.
End patch.

(** ** Samples *)

Definition demo_object : json :=
  JObject [("apiVersion", JString "v1"); ("metadata", JObject [("name", JString "m"); ("generation", JNumber 3)]);
           ("spec", JObject [("a", JObject []); ("b", JArray [])]); ("status", JObject [("ready", JBool true)])].

Example demo_filtered :
  FilterObject demo_object apply_paths =
  JObject [("apiVersion", JString "v1"); ("metadata", JObject [("name", JString "m")]);
           ("spec", JObject [("a", JObject []); ("b", JArray [])])].
Proof. vm_compute. reflexivity. Qed.
