(* ===== verification/Update.v ===== *)
(** * The in-place update extension

    cmd/extension/handlers/inplaceupdate: the extension that declares which changes
    of a machine it can make in place (handlers.go, [DoCanUpdateMachine] and
    [DoCanUpdateMachineSet]) and makes them, by handing the agent on the machine a
    plan (plan.go) through a secret (secret.go, [DoUpdateMachine]).  Cluster API asks
    for the update again and again until it is told not to: [poll] runs the handler
    and the agent in turns.

    [DoUpdateMachine_protocol] says what a call writes, [polling_ends] that an agent
    that completes its plans ends the polling with the truth about the plan, and
    [second_update_never_ends] that an agent that does not know plan states, which
    the handler means to support, is given no second plan. *)

From stdpp Require Import base tactics option list gmap strings numbers.
From Stdlib Require Import Ascii ZifyNat.
From S2P Require Import Prelude Go Api Objects Libs World Demo BWorld Util Config Extensions.
Open Scope string_scope.
Open Scope list_scope.
Open Scope stdpp_scope.

(** ** Strings *)

Definition Base64 : string := "base64".

(** [strings.ReplaceAll(s, "+", "-")]. *)
Fixpoint replace_plus (s : string) : string :=
  match s with
  | EmptyString => ""
  | String c s => String (if decide (c = "+"%char) then "-"%char else c) (replace_plus s)
  end.

(** [strings.SplitN(s, ":", 2)]: the text before and after the first colon. *)
Fixpoint cut_colon (s : string) : option (string * string) :=
  match s with
  | EmptyString => None
  | String c s =>
      if decide (c = ":"%char) then Some ("", s)
      else '(u, v) ← cut_colon s; Some (String c u, v)
  end.

(** [strconv.Atoi]: an optional sign, digits, and the range of an int. *)
Fixpoint digits_value (acc : Z) (s : string) : option Z :=
  match s with
  | EmptyString => Some acc
  | String c s =>
      if is_digit c then digits_value (acc * 10 + (Z.of_nat (nat_of_ascii c) - 48))%Z s else None
  end.
Definition in_int (z : Z) : option Z := if decide (- 2 ^ 63 ≤ z < 2 ^ 63)%Z then Some z else None.
Definition Atoi (s : string) : option Z :=
  match s with
  | EmptyString => None
  | String c s' =>
      if decide (c = "-"%char) then
        if decide (s' = "") then None else z ← digits_value 0 s'; in_int (- z)
      else if decide (c = "+"%char) then
        if decide (s' = "") then None else z ← digits_value 0 s'; in_int z
      else z ← digits_value 0 s; in_int z
  end.

(** [base64.StdEncoding.DecodeString]: line ends are skipped, padding is required, and
    unused bits are not looked at. *)
Definition base64_value (c : ascii) : option nat :=
  let n := nat_of_ascii c in
  if bool_decide (65 ≤ n ≤ 90)%nat then Some (n - 65)%nat
  else if bool_decide (97 ≤ n ≤ 122)%nat then Some (n - 71)%nat
  else if bool_decide (48 ≤ n ≤ 57)%nat then Some (n + 4)%nat
  else if bool_decide (n = 43)%nat then Some 62
  else if bool_decide (n = 47)%nat then Some 63
  else None.
Fixpoint skip_line_ends (s : string) : string :=
  match s with
  | EmptyString => ""
  | String c s =>
      if bool_decide (c = "010"%char ∨ c = "013"%char) then skip_line_ends s
      else String c (skip_line_ends s)
  end.
Definition pad : ascii := "="%char.
Fixpoint base64_quads (s : string) : option string :=
  match s with
  | EmptyString => Some ""
  | String a (String b (String c (String d rest))) =>
      x ← base64_value a; y ← base64_value b;
      let first := ascii_of_nat (x * 4 + y `div` 16)%nat in
      if decide (c = pad) then
        if decide (d = pad ∧ rest = "") then Some (String first "") else None
      else
        z ← base64_value c;
        let second := ascii_of_nat ((y `mod` 16) * 16 + z `div` 4)%nat in
        if decide (d = pad) then
          if decide (rest = "") then Some (String first (String second "")) else None
        else
          w ← base64_value d;
          tail ← base64_quads rest;
          Some (String first (String second (String (ascii_of_nat ((z `mod` 4) * 64 + w)%nat) tail)))
  | _ => None
  end.
Definition base64_decode (s : string) : option string := base64_quads (skip_line_ends s).

Example base64_decode_samples :
  map base64_decode ["aGVs
bG8="; "aGVsbG8"; "TQ=="; "TQ=a"; ""; "TWFu"; "TQ==TQ=="] =
  [Some "hello"; None; Some "M"; None; Some ""; Some "Man"; None].
Proof. vm_compute. reflexivity. Qed.

(** ** Objects

    A plan of the agent, of the fields the extension fills in; the secret that carries
    it; and the objects of a request, whose types the decoder finds out. *)

Record PlanFile := {
  pf_Path : string; pf_Permissions : string; pf_Content : string; pf_UID : Z; pf_GID : Z
}.
Record OneTimeInstruction := {
  oi_Name : string; oi_Image : string; oi_Command : string; oi_Args : list string; oi_Env : slice string
}.
Record Plan := { pl_Files : slice PlanFile; pl_OneTimeInstructions : list OneTimeInstruction }.

Record PlanSecret := { ps_Name : string; ps_Namespace : string; ps_Type : string; ps_Data : strmap }.

Inductive RObject :=
| ROConfig (c : RKE2Config)
| ROConfigTemplate (t : RKE2ConfigTemplate)
| ROOther (kind content : string).
Record RawExtension := { re_Raw : string; re_Object : option RObject }.

(** A MachineSet: the spec of its machines, and the rest. *)
Record MachineSet := { mset_TemplateSpec : MachineSpec; mset_Rest : string }.

Record CanUpdateMachineRequest := {
  cmr_CurrentMachine : Machine; cmr_CurrentBootstrapConfig : RawExtension;
  cmr_DesiredMachine : Machine; cmr_DesiredBootstrapConfig : RawExtension
}.
Record CanUpdateMachineSetRequest := {
  csr_CurrentMachineSet : MachineSet; csr_CurrentBootstrapConfigTemplate : RawExtension;
  csr_DesiredMachineSet : MachineSet; csr_DesiredBootstrapConfigTemplate : RawExtension
}.

(** A message is a text of the source or the text of an error. *)
Inductive Message := MText (s : string) | MError (e : error).

(** The patches of an answer are not set when it is a failure. *)
Record CanUpdateAnswer := {
  ca_Status : string; ca_Message : Message;
  ca_MachinePatch : option string; (* or MachineSetPatch *)
  ca_BootstrapConfigPatch : option string (* or BootstrapConfigTemplatePatch *)
}.
Record UpdateMachineResponse := {
  ures_Status : string; ures_Message : Message; ures_RetryAfterSeconds : Z
}.

(** The packages the extension calls: Rancher's plans, JSON and its patches, the
    decoder of objects, gzip. *)
Class UpdateLib := {
  SecretTypeMachinePlan : string;
  PlanStateKey : string;
  PlanStatePending : string;
  PlanState_IsTerminal : string → bool;
  Checksum : string → string;
  MachineLifecycleGroupLabel : string;
  MachineLifecycleKindLabel : string;
  MachineLifecycleNameLabel : string;
  clusterv1_Group : string;
  JPatch : Type;
  json_Plan : Plan → error + string;
  json_Machine : Machine → error + string;
  json_MachineSet : MachineSet → error + string;
  json_Object : RObject → error + string;
  json_JPatch : JPatch → error + string;
  jsonpatch_CreatePatch : string → string → error + JPatch;
  Decode : string → option RObject → error + RObject;
  gzip_Read : string → error + string (* a reader of the data, read to its end *)
}.

Section update.
Context `{CapiConsts, UpdateLib}.

(** ** The plan (plan.go) *)

Definition installerImageRepository : string := "rancher/system-agent-installer-rke2".
Definition installInstructionName : string := "rke2-upgrade-install".
Definition restartInstructionName : string := "rke2-upgrade-restart".
Definition rke2ServerServiceName : string := "rke2-server".
Definition rke2AgentServiceName : string := "rke2-agent".
Definition systemctlRestartArg : string := "restart".

Definition installerImage (systemDefaultRegistry version : string) : string :=
  let image := installerImageRepository +:+ ":" +:+ replace_plus version in
  if decide (systemDefaultRegistry = "") then image else systemDefaultRegistry +:+ "/" +:+ image.

Definition parseOwner (owner : string) : outcome (Z * Z) :=
  let unsupported := Err (EText "owner is not supported: only root:root or a numeric uid:gid") in
  if decide (owner = "" ∨ owner = "root:root") then Ok (0, 0)%Z
  else
    match cut_colon owner with
    | Some (user, group) =>
        match Atoi user, Atoi group with
        | Some u, Some g => Ok (u, g)
        | _, _ => unsupported
        end
    | None => unsupported
    end.

Definition gunzip (s : string) : outcome string :=
  match gzip_Read s with inl e => Err e | inr b => Ok b end.
Definition base64_bytes (s : string) : outcome string :=
  match base64_decode s with Some b => Ok b | None => Err (EText "illegal base64 data") end.

Definition decodeFileContent (content encoding : string) : outcome string :=
  if decide (encoding = "") then Ok content
  else if decide (encoding = Base64) then base64_bytes content
  else if decide (encoding = Gzip) then gunzip content
  else if decide (encoding = GzipBase64) then gz ← base64_bytes content; gunzip gz
  else Err (EText "unsupported file encoding").

Definition owrap {A} (msg : string) (o : outcome A) : outcome A :=
  match o with Err e => Err (EWrap msg e) | o => o end.

Definition convertFile (f : File) : outcome PlanFile :=
  match f_ContentFrom f with
  | Some _ => Err (EText "file uses contentFrom, which was not resolved before plan construction")
  | None =>
      raw ← owrap "failed to decode content for file" (decodeFileContent (f_Content f) (f_Encoding f));
      '(uid, gid) ← owrap "file" (parseOwner (f_Owner f));
      Ok {| pf_Path := f_Path f; pf_Permissions := f_Permissions f; pf_Content := base64 raw;
            pf_UID := uid; pf_GID := gid |}
  end.

Fixpoint convert_all (files : list File) : outcome (list PlanFile) :=
  match files with
  | [] => Ok []
  | f :: files => c ← convertFile f; cs ← convert_all files; Ok (c :: cs)
  end.

Definition convertFiles (files : slice File) : outcome (slice PlanFile) :=
  match elems files with
  | [] => Ok None
  | files => converted ← convert_all files; Ok (Some converted)
  end.

Definition buildUpgradePlan (machine : Machine) (files : slice File) (agentConfig : RKE2AgentConfig) :
    outcome Plan :=
  let version := msp_Version (m_Spec machine) in
  if decide (version = "") then Err (EText "machine has no desired version set")
  else if ac_AirGapped agentConfig
  then Err (EText "machine is air-gapped, which in-place update plans do not support yet")
  else
    planFiles ← owrap "machine" (convertFiles files);
    let isControlPlane := bool_decide (is_Some (map_get (om_Labels (m_ObjectMeta machine))
                                                  MachineControlPlaneLabel)) in
    let serviceName := if isControlPlane then rke2ServerServiceName else rke2AgentServiceName in
    let installEnv :=
      if isControlPlane then ["INSTALL_RKE2_TYPE=server"; "INSTALL_RKE2_EXEC=server"]
      else ["INSTALL_RKE2_TYPE=agent"; "INSTALL_RKE2_EXEC=agent"] in
    let image := installerImage (ac_SystemDefaultRegistry agentConfig) version in
    Ok {| pl_Files := planFiles;
          pl_OneTimeInstructions := [
            {| oi_Name := installInstructionName; oi_Image := image; oi_Command := "sh";
               oi_Args := ["run.sh"]; oi_Env := Some installEnv |};
            {| oi_Name := restartInstructionName; oi_Image := ""; oi_Command := "systemctl";
               oi_Args := [systemctlRestartArg; serviceName]; oi_Env := None |}] |}.

(** ** The secret (secret.go) *)

Definition planDataKey : string := "plan".
Definition appliedChecksumKey : string := "applied-checksum".
Definition failedChecksumKey : string := "failed-checksum".

Inductive planOutcome :=
| planOutcomeNotSubmitted | planOutcomeWaiting | planOutcomeSucceeded | planOutcomeFailed.

(** A key that is missing reads as no bytes. *)
Definition read_key (data : strmap) (k : string) : string := default "" (map_get data k).

Definition evaluatePlanOutcome (secret : PlanSecret) (desiredPlanBytes : string) : planOutcome :=
  let currentState := read_key (ps_Data secret) PlanStateKey in
  let desiredChecksum := Checksum desiredPlanBytes in
  if decide (Checksum (read_key (ps_Data secret) planDataKey) = desiredChecksum) then
    if decide (read_key (ps_Data secret) appliedChecksumKey = desiredChecksum) then planOutcomeSucceeded
    else if decide (read_key (ps_Data secret) failedChecksumKey = desiredChecksum) then planOutcomeFailed
    else planOutcomeWaiting
  else if bool_decide (currentState ≠ "") && negb (PlanState_IsTerminal currentState)
  then planOutcomeWaiting
  else planOutcomeNotSubmitted.

(** The data a plan is submitted with. *)
Definition submitted (planBytes : string) (data : strmap) : strmap :=
  Some (<[PlanStateKey := PlanStatePending]> (<[planDataKey := planBytes]> (default ∅ data))).
Definition ps_with_data (d : strmap) (s : PlanSecret) : PlanSecret :=
  Build_PlanSecret (ps_Name s) (ps_Namespace s) (ps_Type s) d.

(** ** Calls *)

Inductive UCall :=
| UListSecrets (ns : string) (labels : gmap string string)
| UGetSecret (ns name : string)
| UGetConfigMap (ns name : string)
| UGetMachine (ns name : string)
| UPatchSecret (base updated : PlanSecret) (* a merge patch from the one to the other *)
| UEvent (m : Machine) (reason : string) (message : Message).

(** The data of a secret; the data and the binary data of a config map. *)
Definition uanswer (c : UCall) : Type :=
  match c with
  | UListSecrets _ _ => list PlanSecret
  | UGetSecret _ _ => strmap
  | UGetConfigMap _ _ => strmap * strmap
  | UGetMachine _ _ => Machine
  | _ => unit
  end.

(** The rest of the world: any state, and answers that depend on it and may change it. *)
Class UServer := {
  UState : Type;
  serve : UState → ∀ c : UCall, (error + uanswer c) * UState
}.
End update.

Section handlers.
Context `{CapiConsts, UpdateLib, UServer}.

(** The state of the world, and the calls made so far, the latest first. *)
Abbreviation U := (comp (UState * list UCall)).

Definition uapi (c : UCall) : U (uanswer c) := λ '(s, log),
  let '(a, s') := serve s c in
  (match a with inl e => Err e | inr a => Ok a end, (s', c :: log)).

(** A call that has no result. *)
Definition uemit (c : UCall) : U unit := λ '(s, log), (Ok tt, ((serve s c).2, c :: log)).

Definition writePlan (secret : PlanSecret) (planBytes : string) : U unit :=
  uapi (UPatchSecret secret (ps_with_data (submitted planBytes (ps_Data secret)) secret)).

(** ** The handlers (handlers.go) *)

Definition findMachinePlanSecret (machine : Machine) : U PlanSecret :=
  items ← uapi (UListSecrets (m_Namespace machine)
    (<[MachineLifecycleGroupLabel := clusterv1_Group]>
    (<[MachineLifecycleKindLabel := "Machine"]>
     {[ MachineLifecycleNameLabel := m_Name machine ]})));
  match List.find (λ s, bool_decide (ps_Type s = SecretTypeMachinePlan)) items with
  | Some s => mret s
  | None => fail (EWrap "Machine" (EText "machine-plan secret not found"))
  end.

(** errBootstrapConfigUnavailable, for which the caller tests, is [None]. *)
Definition decodeDesiredRKE2Config (bootstrapConfig : RawExtension) : outcome (option RKE2Config) :=
  if decide (re_Raw bootstrapConfig = "") then Ok None
  else
    match Decode (re_Raw bootstrapConfig) (re_Object bootstrapConfig) with
    | inl e => Err (EWrap "failed to decode desired BootstrapConfig" e)
    | inr (ROConfig c) => Ok (Some c)
    | inr _ => Ok None
    end.

Definition or_namespace (ns namespace : string) : string := if decide (ns = "") then namespace else ns.

Definition resolveFileContentFrom (namespace : string) (ref : FileSource) : U string :=
  match fs_Secret ref, fs_ConfigMap ref with
  | Some s, _ =>
      data ← bwrap "failed to get secret"
        (uapi (UGetSecret (or_namespace (fsr_Namespace s) namespace) (fsr_Name s)));
      match map_get data (fsr_Key s) with
      | Some v => mret v
      | None => fail (EText "key not found in secret")
      end
  | None, Some c =>
      '(data, binary) ← bwrap "failed to get configmap"
        (uapi (UGetConfigMap (or_namespace (fsr_Namespace c) namespace) (fsr_Name c)));
      match map_get data (fsr_Key c), map_get binary (fsr_Key c) with
      | Some v, _ => mret v
      | None, Some v => mret v
      | None, None => fail (EText "key not found in configmap")
      end
  | None, None => fail (EText "contentFrom has neither secret nor configMap set")
  end.

Definition resolved_file (content : string) (f : File) : File :=
  Build_File (f_Path f) (f_Owner f) (f_Permissions f) Base64 (base64 content) None.

Fixpoint resolve_all (namespace : string) (files : list File) : U (list File) :=
  match files with
  | [] => mret []
  | f :: files =>
      r ← match f_ContentFrom f with
          | None => mret f
          | Some ref =>
              content ← bwrap "file" (resolveFileContentFrom namespace ref);
              mret (resolved_file content f)
          end;
      rs ← resolve_all namespace files;
      mret (r :: rs)
  end.

Definition resolveDesiredFiles (namespace : string) (files : slice File) : U (slice File) :=
  match elems files with
  | [] => mret None
  | files => resolved ← resolve_all namespace files; mret (Some resolved)
  end.

Definition retryAfterUpdateInProgressSeconds : Z := 30%Z.

(** The zero value of the agent configuration, used when there is no bootstrap
    configuration. *)
Definition ac_zero : RKE2AgentConfig :=
  Build_RKE2AgentConfig "" None None None "" None None "" "" "" "" None "" false "" false ""
    None None "" 0%Z false "" "" (Build_AdditionalUserData "" None false).

(** The bytes of the plan that makes the desired machine. *)
Definition desired_plan (machine : Machine) (bootstrapConfig : RawExtension) : U string :=
  desiredRKE2Config ← lift (decodeDesiredRKE2Config bootstrapConfig);
  '(desiredFiles, agentConfig) ←
    match desiredRKE2Config with
    | None => mret (None, ac_zero)
    | Some c =>
        files ← resolveDesiredFiles (m_Namespace machine) (cs_Files (cfg_Spec c));
        mret (files, cs_AgentConfig (cfg_Spec c))
    end;
  desiredPlan ← lift (buildUpgradePlan machine desiredFiles agentConfig);
  bwrap "failed to marshal upgrade plan"
    (lift (match json_Plan desiredPlan with inl e => Err e | inr b => Ok b end)).

Definition succeeded (message : string) (retryAfterSeconds : Z) : UpdateMachineResponse :=
  Build_UpdateMachineResponse ResponseStatusSuccess (MText message) retryAfterSeconds.
Definition failed (message : Message) : UpdateMachineResponse :=
  Build_UpdateMachineResponse ResponseStatusFailure message 0.

(** The body: a returned error is the message of a failure. *)
Definition update_machine (machine : Machine) (bootstrapConfig : RawExtension) :
    U UpdateMachineResponse :=
  secret ← findMachinePlanSecret machine;
  planBytes ← desired_plan machine bootstrapConfig;
  match evaluatePlanOutcome secret planBytes with
  | planOutcomeNotSubmitted =>
      _ ← bwrap "failed to write upgrade plan to machine-plan Secret" (writePlan secret planBytes);
      mret (succeeded "Update plan submitted" retryAfterUpdateInProgressSeconds)
  | planOutcomeWaiting =>
      mret (succeeded "Waiting for system-agent to apply the update plan" retryAfterUpdateInProgressSeconds)
  | planOutcomeSucceeded => mret (succeeded "Update applied successfully" 0)
  | planOutcomeFailed =>
      mret (failed (MText "system-agent failed to apply the update plan, check machine-plan Secret"))
  end.

(** The request carries no UID, so the machine is read again for its event. *)
Definition recordFailure (machine : Machine) (message : Message) : U unit :=
  m ← try (uapi (UGetMachine (m_Namespace machine) (m_Name machine)));
  match m with
  | inr _ => mret tt
  | inl machine => uemit (UEvent machine "InPlaceUpdateFailed" message)
  end.

Definition DoUpdateMachine (machine : Machine) (bootstrapConfig : RawExtension) :
    U UpdateMachineResponse :=
  r ← try (update_machine machine bootstrapConfig);
  let resp := match r with inl resp => resp | inr e => failed (MError e) end in
  _ ← (if decide (ures_Status resp = ResponseStatusFailure)
       then recordFailure machine (ures_Message resp) else mret tt);
  mret resp.
End handlers.

(** ** What can be updated in place *)

Section can_update.
Context `{UpdateLib}.

Definition canUpdateMachineSpec (current desired : MachineSpec) : MachineSpec :=
  if decide (msp_Version current = msp_Version desired) then current
  else msp_with_version (msp_Version desired) current.

Definition cs_with_files (files : slice File) (s : RKE2ConfigSpec) : RKE2ConfigSpec :=
  Build_RKE2ConfigSpec files (cs_PreRKE2Commands s) (cs_PostRKE2Commands s) (cs_AgentConfig s)
    (cs_PrivateRegistriesConfig s) (cs_GzipUserData s).
Definition canUpdateRKE2ConfigSpec (current desired : RKE2ConfigSpec) : RKE2ConfigSpec :=
  if decide (cs_Files current = cs_Files desired) then current else cs_with_files (cs_Files desired) current.

Definition createJSONPatch (marshalledOriginal : string) (modified : error + string) : error + string :=
  match modified with
  | inl _ => inl (EText "failed to marshal modified object")
  | inr marshalledModified =>
      match jsonpatch_CreatePatch marshalledOriginal marshalledModified with
      | inl _ => inl (EText "failed to create patch")
      | inr patch =>
          match json_JPatch patch with
          | inl _ => inl (EText "failed to marshal patch")
          | inr p => inr p
          end
      end
  end.

Definition cfg_with_spec (s : RKE2ConfigSpec) (c : RKE2Config) : RKE2Config :=
  Build_RKE2Config (cfg_APIVersion c) (cfg_Kind c) (cfg_ObjectMeta c) s (cfg_Status c).
Definition ct_with_spec (s : RKE2ConfigSpec) (t : RKE2ConfigTemplate) : RKE2ConfigTemplate :=
  Build_RKE2ConfigTemplate (ct_ObjectMeta t)
    (Build_RKE2ConfigTemplateSpec (Build_RKE2ConfigTemplateResource s)).
Definition ct_inner (t : RKE2ConfigTemplate) : RKE2ConfigSpec := ctr_Spec (cts_Template (ct_Spec t)).

(** The decoded bootstrap configurations, current and desired. *)
Definition decode_both (current desired : RawExtension) : error + (RObject * RObject) :=
  match Decode (re_Raw current) (re_Object current) with
  | inl e => inl e
  | inr c => match Decode (re_Raw desired) (re_Object desired) with inl e => inl e | inr d => inr (c, d) end
  end.

Definition getObjectsFromCanUpdateMachineRequest (req : CanUpdateMachineRequest) :
    error + (Machine * Machine * RObject * RObject) :=
  match decode_both (cmr_CurrentBootstrapConfig req) (cmr_DesiredBootstrapConfig req) with
  | inl e => inl e
  | inr (c, d) => inr (cmr_CurrentMachine req, cmr_DesiredMachine req, c, d)
  end.
Definition getObjectsFromCanUpdateMachineSetRequest (req : CanUpdateMachineSetRequest) :
    error + (MachineSet * MachineSet * RObject * RObject) :=
  match decode_both (csr_CurrentBootstrapConfigTemplate req) (csr_DesiredBootstrapConfigTemplate req) with
  | inl e => inl e
  | inr (c, d) => inr (csr_CurrentMachineSet req, csr_DesiredMachineSet req, c, d)
  end.

(** The two patches of an answer, from the originals and the modified objects. *)
Definition both_patches (marshalled : error + string) (modified : error + string)
    (raw : string) (config : error + string) : error + (string * string) :=
  match marshalled with
  | inl e => inl e
  | inr marshalled =>
      match createJSONPatch marshalled modified with
      | inl e => inl e
      | inr p => match createJSONPatch raw config with inl e => inl e | inr q => inr (p, q) end
      end
  end.
Definition computeCanUpdateMachineResponse (req : CanUpdateMachineRequest) (currentMachine : Machine)
    (currentBootstrapConfig : RObject) : error + (string * string) :=
  both_patches (json_Machine (cmr_CurrentMachine req)) (json_Machine currentMachine)
    (re_Raw (cmr_CurrentBootstrapConfig req)) (json_Object currentBootstrapConfig).
Definition computeCanUpdateMachineSetResponse (req : CanUpdateMachineSetRequest)
    (currentMachineSet : MachineSet) (currentBootstrapConfigTemplate : RObject) : error + (string * string) :=
  both_patches (json_MachineSet (csr_CurrentMachineSet req)) (json_MachineSet currentMachineSet)
    (re_Raw (csr_CurrentBootstrapConfigTemplate req)) (json_Object currentBootstrapConfigTemplate).

Definition ca_failure (e : error) : CanUpdateAnswer :=
  Build_CanUpdateAnswer ResponseStatusFailure (MError e) None None.
Definition ca_answer (r : error + (string * string)) : CanUpdateAnswer :=
  match r with
  | inl e => ca_failure e
  | inr (p, q) => Build_CanUpdateAnswer ResponseStatusSuccess (MText "") (Some p) (Some q)
  end.

Definition update_config (current desired : RObject) : RObject :=
  match current, desired with
  | ROConfig c, ROConfig d => ROConfig (cfg_with_spec (canUpdateRKE2ConfigSpec (cfg_Spec c) (cfg_Spec d)) c)
  | _, _ => current
  end.
Definition update_config_template (current desired : RObject) : RObject :=
  match current, desired with
  | ROConfigTemplate c, ROConfigTemplate d =>
      ROConfigTemplate (ct_with_spec (canUpdateRKE2ConfigSpec (ct_inner c) (ct_inner d)) c)
  | _, _ => current
  end.

Definition DoCanUpdateMachine (req : CanUpdateMachineRequest) : CanUpdateAnswer :=
  match getObjectsFromCanUpdateMachineRequest req with
  | inl e => ca_failure e
  | inr (currentMachine, desiredMachine, currentBootstrapConfig, desiredBootstrapConfig) =>
      ca_answer (computeCanUpdateMachineResponse req
        (m_with_spec (canUpdateMachineSpec (m_Spec currentMachine) (m_Spec desiredMachine)) currentMachine)
        (update_config currentBootstrapConfig desiredBootstrapConfig))
  end.

Definition DoCanUpdateMachineSet (req : CanUpdateMachineSetRequest) : CanUpdateAnswer :=
  match getObjectsFromCanUpdateMachineSetRequest req with
  | inl e => ca_failure e
  | inr (currentMachineSet, desiredMachineSet, currentConfig, desiredConfig) =>
      ca_answer (computeCanUpdateMachineSetResponse req
        (Build_MachineSet (canUpdateMachineSpec (mset_TemplateSpec currentMachineSet)
                             (mset_TemplateSpec desiredMachineSet)) (mset_Rest currentMachineSet))
        (update_config_template currentConfig desiredConfig))
  end.
End can_update.

(** ** Base64 gives the bytes back *)

Lemma base64_value_char n : (n < 64)%nat → base64_value (base64_char n) = Some n.
Proof. intros Hn. do 64 (destruct n as [|n]; [reflexivity|]). lia. Qed.
Lemma base64_char_pad n : (n < 64)%nat → base64_char n ≠ pad.
Proof. intros Hn Hp%(f_equal base64_value). by rewrite base64_value_char in Hp. Qed.
Lemma skip_line_ends_char n s :
  skip_line_ends (String (base64_char n) s) = String (base64_char n) (skip_line_ends s).
Proof.
  simpl. rewrite bool_decide_eq_false_2; [done|].
  do 64 (destruct n as [|n]; [by intros [|]|]). by intros [|].
Qed.

(** Induction three bytes at a time. *)
Lemma bytes_ind (P : string → Prop) :
  P "" → (∀ a, P (String a "")) → (∀ a b, P (String a (String b ""))) →
  (∀ a b c s, P s → P (String a (String b (String c s)))) → ∀ s, P s.
Proof.
  intros H0 H1 H2 H3. fix IH 1. intros [|a [|b [|c s]]]; [done..|]. apply H3, IH.
Qed.

Lemma nat_of_ascii_lt a : (nat_of_ascii a < 256)%nat.
Proof. apply nat_ascii_bounded. Qed.

(** What the three characters of a quantum say of the bytes. *)
#[local] Ltac quantum := intros; zify; Z.to_euclidean_division_equations; lia.
Lemma byte1 x y : (x < 256)%nat → (y < 256)%nat →
  (x `div` 4 * 4 + ((x `mod` 4) * 16 + y `div` 16) `div` 16 = x)%nat.
Proof. quantum. Qed.
Lemma byte2 x y z : (x < 256)%nat → (y < 256)%nat → (z < 256)%nat →
  (((x `mod` 4) * 16 + y `div` 16) `mod` 16 * 16 + ((y `mod` 16) * 4 + z `div` 64) `div` 4 = y)%nat.
Proof. quantum. Qed.
Lemma byte3 y z : (y < 256)%nat → (z < 256)%nat →
  (((y `mod` 16) * 4 + z `div` 64) `mod` 4 * 64 + z `mod` 64 = z)%nat.
Proof. quantum. Qed.

Lemma skip_line_ends_base64 s : skip_line_ends (base64 s) = base64 s.
Proof.
  induction s as [|a|a b|a b c s IH] using bytes_ind; cbn [base64]; rewrite ?skip_line_ends_char; [done..|].
  by rewrite IH.
Qed.

Lemma base64_quads_base64 s : base64_quads (base64 s) = Some s.
Proof.
  induction s as [|a|a b|a b c s IH] using bytes_ind; [done|..];
    pose proof (nat_of_ascii_lt a) as Ha;
    try pose proof (nat_of_ascii_lt b) as Hb; try pose proof (nat_of_ascii_lt c) as Hc;
    cbn [base64 base64_quads].
  - rewrite !base64_value_char by quantum. cbn [mbind option_bind].
    rewrite (decide_True (P := pad = pad)), (decide_True (P := pad = pad ∧ "" = "")) by done.
    replace (_ + _)%nat with (nat_of_ascii a) by quantum. by rewrite ascii_nat_embedding.
  - rewrite !base64_value_char by quantum. cbn [mbind option_bind].
    rewrite (decide_False (P := base64_char _ = pad)) by (apply base64_char_pad; quantum).
    rewrite (decide_True (P := pad = pad)), (decide_True (P := "" = "")) by done.
    rewrite byte1 by done. replace (_ + _)%nat with (nat_of_ascii b) by quantum. by rewrite !ascii_nat_embedding.
  - rewrite !base64_value_char by quantum. cbn [mbind option_bind].
    rewrite !(decide_False (P := base64_char _ = pad)) by (apply base64_char_pad; quantum).
    rewrite IH. cbn [option_bind]. rewrite byte1, byte2, byte3 by done. by rewrite !ascii_nat_embedding.
Qed.

(** Decoding what was encoded gives the bytes back. *)
Lemma base64_roundtrip s : base64_decode (base64 s) = Some s.
Proof. unfold base64_decode. by rewrite skip_line_ends_base64, base64_quads_base64. Qed.

(** ** What a plan delivers *)

Section plans.
Context `{CapiConsts, UpdateLib, UServer}.

Lemma owrap_Ok {A} msg (o : outcome A) a : owrap msg o = Ok a → o = Ok a.
Proof. by destruct o. Qed.

Lemma obind_Ok {A B} (o : outcome A) (f : A → outcome B) b :
  o ≫= f = Ok b → ∃ a, o = Ok a ∧ f a = Ok b.
Proof. destruct o as [a|e|p]; [by exists a|done..]. Qed.

(** A file of a plan is what a file of the configuration says. *)
Definition converted (f : File) (p : PlanFile) : Prop :=
  f_ContentFrom f = None ∧ pf_Path p = f_Path f ∧ pf_Permissions p = f_Permissions f ∧
  parseOwner (f_Owner f) = Ok (pf_UID p, pf_GID p) ∧
  ∃ raw, decodeFileContent (f_Content f) (f_Encoding f) = Ok raw ∧ base64_decode (pf_Content p) = Some raw.

Lemma convertFile_Ok f p : convertFile f = Ok p → converted f p.
Proof.
  unfold convertFile. destruct (f_ContentFrom f) eqn:Ec; [done|].
  intros (raw & Hraw%owrap_Ok & Hp)%obind_Ok. apply obind_Ok in Hp as ([uid gid] & Ho%owrap_Ok & [= <-]).
  split_and!; [done..|]. exists raw. split; [done|]. apply base64_roundtrip.
Qed.

Lemma convertFiles_Ok files r : convertFiles files = Ok r → Forall2 converted (elems files) (elems r).
Proof.
  unfold convertFiles. assert (∀ l cs, convert_all l = Ok cs → Forall2 converted l cs) as Hall.
  { induction l as [|f l IH]; cbn; intros cs; [by intros [= <-]|].
    intros (c & Hc & Hcs)%obind_Ok. apply obind_Ok in Hcs as (cs' & Hcs & [= <-]).
    constructor; [by apply convertFile_Ok|by apply IH]. }
  destruct (elems files) as [|f l]; [by intros [= <-]|]. intros (cs & Hcs & [= <-])%obind_Ok. by apply Hall.
Qed.

(** The content of a file of the configuration: its own, or the one it refers to. *)
Definition content_of (ns : string) (f : File) (raw : string) : Prop :=
  match f_ContentFrom f with
  | None => decodeFileContent (f_Content f) (f_Encoding f) = Ok raw
  | Some ref => ∃ w w', resolveFileContentFrom ns ref w = (Ok raw, w')
  end.
Definition delivered (ns : string) (f : File) (p : PlanFile) : Prop :=
  pf_Path p = f_Path f ∧ pf_Permissions p = f_Permissions f ∧
  parseOwner (f_Owner f) = Ok (pf_UID p, pf_GID p) ∧
  ∃ raw, content_of ns f raw ∧ base64_decode (pf_Content p) = Some raw.

Definition resolved_from (ns : string) (f r : File) : Prop :=
  ∀ p, converted r p → delivered ns f p.

Lemma resolve_all_Ok ns l rs w w' : resolve_all ns l w = (Ok rs, w') → Forall2 (resolved_from ns) l rs.
Proof.
  revert rs w w'. induction l as [|f l IH]; intros rs w w'; cbn.
  - unfold mret, comp_ret. intros [= <- _]. constructor.
  - intros (r & w1 & Hr & Hc)%bind_Ok_inv. apply bind_Ok_inv in Hc as (rs' & w2 & Hrs & Hc).
    unfold mret, comp_ret in Hc. injection Hc as <- _. constructor; [|by eapply IH].
    intros p (Hnone & Hpath & Hperm & Howner & raw & Hraw & Hcontent).
    unfold delivered, content_of. destruct (f_ContentFrom f) as [ref|] eqn:Ef.
    + apply bind_Ok_inv in Hr as (content & w3 & Hres & Hr).
      unfold mret, comp_ret in Hr. injection Hr as <- _. cbn in *.
      unfold decodeFileContent in Hraw. cbn in Hraw. unfold base64_bytes in Hraw.
      rewrite base64_roundtrip in Hraw. injection Hraw as <-.
      split_and!; [done..|]. exists content. split; [|done]. exists w.
      unfold bwrap in Hres. destruct (resolveFileContentFrom ns ref w) as [[x|e|q] w4]; [|done..].
      injection Hres as <- _. by exists w4.
    + unfold mret, comp_ret in Hr. injection Hr as <- _. split_and!; [done..|]. by exists raw.
Qed.

Lemma resolveDesiredFiles_Ok ns files r w w' :
  resolveDesiredFiles ns files w = (Ok r, w') → Forall2 (resolved_from ns) (elems files) (elems r).
Proof.
  unfold resolveDesiredFiles. destruct (elems files) as [|f l].
  - unfold mret, comp_ret. intros [= <- _]. constructor.
  - intros (rs & w1 & Hr & Hc)%bind_Ok_inv. unfold mret, comp_ret in Hc. injection Hc as <- _.
    by eapply resolve_all_Ok.
Qed.

Lemma Forall2_compose {A B C} (P : A → B → Prop) (Q : B → C → Prop) (R : A → C → Prop) l k m :
  (∀ a b c, P a b → Q b c → R a c) → Forall2 P l k → Forall2 Q k m → Forall2 R l m.
Proof.
  intros HR Hp. revert m. induction Hp as [|a b l k Hab Hp IH]; intros m Hq; inversion Hq; subst; constructor; eauto.
Qed.

(** The service that is restarted, and the kind of node that is installed. *)
Definition node_kind (machine : Machine) : string * string :=
  if bool_decide (is_Some (map_get (om_Labels (m_ObjectMeta machine)) MachineControlPlaneLabel))
  then ("rke2-server", "server") else ("rke2-agent", "agent").

(** C32: the plan delivers what the handler says it can update, the version and the
    files.  Every file of the desired configuration is in it, in order and with its
    path, permissions and owner; the content is the decoded content of the file, or,
    for a file that takes its content from a secret or a config map, the bytes found
    there.  The installer is that of the desired version, and the service restarted
    that of the machine's role.  Air-gapped machines, machines without a version and
    owners that need a user database are refused. *)
Theorem buildUpgradePlan_delivers machine config files w w' plan :
  resolveDesiredFiles (m_Namespace machine) (cs_Files (cfg_Spec config)) w = (Ok files, w') →
  buildUpgradePlan machine files (cs_AgentConfig (cfg_Spec config)) = Ok plan →
  let '(service, kind) := node_kind machine in
  Forall2 (delivered (m_Namespace machine)) (elems (cs_Files (cfg_Spec config))) (elems (pl_Files plan)) ∧
  msp_Version (m_Spec machine) ≠ "" ∧ ac_AirGapped (cs_AgentConfig (cfg_Spec config)) = false ∧
  ∃ install restart, pl_OneTimeInstructions plan = [install; restart] ∧
    oi_Image install = installerImage (ac_SystemDefaultRegistry (cs_AgentConfig (cfg_Spec config)))
                         (msp_Version (m_Spec machine)) ∧
    oi_Env install = Some ["INSTALL_RKE2_TYPE=" +:+ kind; "INSTALL_RKE2_EXEC=" +:+ kind] ∧
    oi_Args restart = ["restart"; service].
Proof.
  intros Hr%resolveDesiredFiles_Ok. unfold buildUpgradePlan, node_kind.
  destruct (decide (msp_Version (m_Spec machine) = "")); [done|].
  destruct (ac_AirGapped _); [done|].
  intros (pf & Hpf%owrap_Ok%convertFiles_Ok & [= <-])%obind_Ok.
  destruct (bool_decide (is_Some _)); cbn -[installerImage]; (split_and!; [|done..|]);
    try (by eapply Forall2_compose; [|exact Hr|exact Hpf]; intros a b c Hab; apply Hab);
    do 2 eexists; split_and!; reflexivity.
Qed.
End plans.

(** ** What a call of the handler does *)

Section protocol.
Context `{CapiConsts, UpdateLib, UServer}.
Abbreviation U := (comp (UState * list UCall)).

(** A computation that makes only calls satisfying [P]. *)
Definition umakes {A} (P : UCall → Prop) (m : U A) : Prop :=
  ∀ w, ∃ l, (m w).2.2 = l ++ w.2 ∧ Forall P l.

Section umakes.
Context (P : UCall → Prop).
Lemma umakes_ret {A} (a : A) : umakes P (mret a).
Proof. intros w. by exists []. Qed.
Lemma umakes_fail {A} e : umakes P (fail (A := A) e).
Proof. intros w. by exists []. Qed.
Lemma umakes_lift {A} (o : outcome A) : umakes P (lift o).
Proof. intros w. by exists []. Qed.
Lemma umakes_uapi c : P c → umakes P (uapi c).
Proof.
  intros Hc [s log]. unfold uapi. destruct (serve s c). exists [c]. split; [done|]. by repeat constructor.
Qed.
Lemma umakes_bwrap {A} msg (m : U A) : umakes P m → umakes P (bwrap msg m).
Proof. intros Hm w. specialize (Hm w). unfold bwrap. by destruct (m w) as [[a|e|p] w1]. Qed.
Lemma umakes_bind {A B} (m : U A) (f : A → U B) :
  umakes P m → (∀ a, umakes P (f a)) → umakes P (m ≫= f).
Proof.
  intros Hm Hf w. destruct (Hm w) as (l & Hl & Hp). unfold mbind, comp_bind.
  destruct (m w) as [[a|e|p] w1]; cbn in *; [|by exists l..].
  destruct (Hf a w1) as (l' & Hl' & Hp'). exists (l' ++ l). rewrite Hl', Hl, <-app_assoc.
  split; [done|]. by apply Forall_app.
Qed.
End umakes.

Definition reads_file (c : UCall) : Prop :=
  match c with UGetSecret _ _ | UGetConfigMap _ _ => True | _ => False end.

Lemma resolve_all_reads ns l : umakes reads_file (resolve_all ns l).
Proof.
  induction l as [|f l IH]; cbn; [apply umakes_ret|].
  apply umakes_bind; [|intros r; apply umakes_bind; [done|intros ?; apply umakes_ret]].
  destruct (f_ContentFrom f) as [ref|]; [|apply umakes_ret].
  apply umakes_bind; [|intros ?; apply umakes_ret]. apply umakes_bwrap.
  unfold resolveFileContentFrom. destruct (fs_Secret ref); [|destruct (fs_ConfigMap ref)]; [..|apply umakes_fail].
  - apply umakes_bind; [by apply umakes_bwrap, umakes_uapi|]. intros d. case_match; [apply umakes_ret|apply umakes_fail].
  - apply umakes_bind; [by apply umakes_bwrap, umakes_uapi|]. intros [d b].
    repeat case_match; first [apply umakes_ret|apply umakes_fail].
Qed.

Lemma desired_plan_reads machine bc : umakes reads_file (desired_plan machine bc).
Proof.
  unfold desired_plan. apply umakes_bind; [apply umakes_lift|]. intros c.
  apply umakes_bind.
  - destruct c as [c|]; [|apply umakes_ret]. apply umakes_bind; [|intros ?; apply umakes_ret].
    unfold resolveDesiredFiles. destruct (elems _); [apply umakes_ret|].
    apply umakes_bind; [apply resolve_all_reads|]. intros ?; apply umakes_ret.
  - intros [files ac]. apply umakes_bind; [apply umakes_lift|]. intros p. apply umakes_bwrap, umakes_lift.
Qed.

(** The secret the handler finds, and the plan it wants. *)
Definition list_call (machine : Machine) : UCall :=
  UListSecrets (m_Namespace machine)
    (<[MachineLifecycleGroupLabel := clusterv1_Group]>
    (<[MachineLifecycleKindLabel := "Machine"]> {[ MachineLifecycleNameLabel := m_Name machine ]})).
Definition found (machine : Machine) (s : UState) (secret : PlanSecret) : Prop :=
  ∃ items s', serve s (list_call machine) = (inr items, s') ∧ secret ∈ items ∧
    ps_Type secret = SecretTypeMachinePlan.
Definition wanted (machine : Machine) (bc : RawExtension) (bytes : string) : Prop :=
  ∃ w w', desired_plan machine bc w = (Ok bytes, w').

Lemma findMachinePlanSecret_run machine s log :
  ∃ s', (findMachinePlanSecret machine (s, log)).2 = (s', list_call machine :: log) ∧
  match (findMachinePlanSecret machine (s, log)).1 with
  | Ok secret => found machine s secret
  | Err _ => True
  | Panic _ => False
  end.
Proof.
  unfold findMachinePlanSecret. fold (list_call machine). unfold mbind, comp_bind, uapi.
  destruct (serve s (list_call machine)) as [[e|items] s'] eqn:E; [by exists s'|]. cbn beta iota.
  exists s'. destruct (List.find _ items) as [secret|] eqn:Ef; (split; [done|]); [|done].
  apply List.find_some in Ef as [Hin Ht]. apply bool_decide_eq_true in Ht.
  exists items, s'. split_and!; [done| |done]. by apply list_elem_of_In.
Qed.

(** Whether the agent is still busy with another plan. *)
Definition in_flight (secret : PlanSecret) (bytes : string) : Prop :=
  Checksum (read_key (ps_Data secret) planDataKey) ≠ Checksum bytes ∧
  read_key (ps_Data secret) PlanStateKey ≠ "" ∧
  PlanState_IsTerminal (read_key (ps_Data secret) PlanStateKey) = false.

(** What the calls of a run write: the patch of a secret. *)
Definition is_patch (c : UCall) : Prop := match c with UPatchSecret _ _ => True | _ => False end.
#[global] Instance is_patch_dec c : Decision (is_patch c).
Proof. destruct c; cbn; apply _. Defined.
Definition patches (calls : list UCall) : list UCall := filter is_patch calls.

Lemma patches_reads l k : Forall reads_file l → patches (l ++ k) = patches k.
Proof. unfold patches. induction 1 as [|c l Hc Hl IH]; [done|]. by destruct c. Qed.

Definition no_event (c : UCall) : Prop := match c with UEvent _ _ _ => False | _ => True end.
Lemma reads_no_event l machine : Forall reads_file l → Forall no_event (l ++ [list_call machine]).
Proof. induction 1 as [|c l Hc Hl IH]; [by repeat constructor|]. constructor; [by destruct c|done]. Qed.

(** What a patch of a run does: it hands over the wanted plan, and touches nothing else. *)
Definition hands_over (machine : Machine) (bc : RawExtension) (s : UState) (c : UCall) : Prop :=
  ∃ secret bytes, found machine s secret ∧ wanted machine bc bytes ∧
    c = UPatchSecret secret (ps_with_data (submitted bytes (ps_Data secret)) secret) ∧
    Checksum (read_key (ps_Data secret) planDataKey) ≠ Checksum bytes ∧ ¬ in_flight secret bytes.

(** What an answer means. *)
Definition done_plan (machine : Machine) (bc : RawExtension) (s : UState) (key : string) : Prop :=
  ∃ secret bytes, found machine s secret ∧ wanted machine bc bytes ∧
    Checksum (read_key (ps_Data secret) planDataKey) = Checksum bytes ∧
    read_key (ps_Data secret) key = Checksum bytes.

Lemma evaluate_spec secret bytes :
  match evaluatePlanOutcome secret bytes with
  | planOutcomeNotSubmitted =>
      Checksum (read_key (ps_Data secret) planDataKey) ≠ Checksum bytes ∧ ¬ in_flight secret bytes
  | planOutcomeWaiting => True
  | planOutcomeSucceeded =>
      Checksum (read_key (ps_Data secret) planDataKey) = Checksum bytes ∧
      read_key (ps_Data secret) appliedChecksumKey = Checksum bytes
  | planOutcomeFailed =>
      Checksum (read_key (ps_Data secret) planDataKey) = Checksum bytes ∧
      read_key (ps_Data secret) failedChecksumKey = Checksum bytes
  end.
Proof.
  unfold evaluatePlanOutcome. cbn zeta.
  destruct (decide (Checksum (read_key _ planDataKey) = _)) as [Hp|Hp].
  - by repeat case_decide.
  - destruct (bool_decide_reflect (read_key (ps_Data secret) PlanStateKey ≠ "")) as [Hs|Hs]; cbn.
    + destruct (PlanState_IsTerminal _) eqn:Et; cbn; [|done]. split; [done|]. intros (_ & _ & Hf). congruence.
    + split; [done|]. by intros (_ & ? & _).
Qed.

(** No panic. *)
Definition answers {S A} (m : comp S A) : Prop := ∀ s p, (m s).1 ≠ Panic p.
Lemma answers_bind {S A B} (m : comp S A) (f : A → comp S B) :
  answers m → (∀ a, answers (f a)) → answers (m ≫= f).
Proof.
  intros Hm Hf s p. specialize (Hm s). unfold mbind, comp_bind.
  destruct (m s) as [[a|e|q] s1]; [by apply Hf|done|]. by destruct (Hm q).
Qed.
Lemma answers_bwrap {S A} msg (m : comp S A) : answers m → answers (bwrap msg m).
Proof. intros Hm s p. specialize (Hm s p). unfold bwrap. by destruct (m s) as [[a|e|q] s1]. Qed.
Lemma answers_lift {S A} (o : outcome A) : (∀ p, o ≠ Panic p) → answers (S := S) (lift o).
Proof. intros Ho s p. apply Ho. Qed.
Lemma answers_uapi c : answers (uapi c).
Proof. intros [s log] p. unfold uapi. by destruct (serve s c) as [[]]. Qed.
Lemma answers_ret {S A} (a : A) : answers (S := S) (mret a).
Proof. done. Qed.
Lemma answers_fail {S A} e : answers (fail (S := S) (A := A) e).
Proof. done. Qed.
Create HintDb answers.
#[local] Hint Resolve answers_bwrap answers_uapi answers_ret answers_fail : answers.

Lemma obind_no_panic {A B} (o : outcome A) (f : A → outcome B) :
  (∀ p, o ≠ Panic p) → (∀ a p, f a ≠ Panic p) → ∀ p, o ≫= f ≠ Panic p.
Proof. intros Ho Hf p. destruct o as [a|e|q]; [apply Hf|done|]. by destruct (Ho q). Qed.
Lemma owrap_no_panic {A} msg (o : outcome A) : (∀ p, o ≠ Panic p) → ∀ p, owrap msg o ≠ Panic p.
Proof. intros Ho p. destruct o as [a|e|q]; [done..|]. by destruct (Ho q). Qed.

Lemma decodeFileContent_no_panic content encoding p : decodeFileContent content encoding ≠ Panic p.
Proof.
  unfold decodeFileContent, gunzip, base64_bytes. repeat case_decide; try done; repeat case_match; try done.
  all: destruct (base64_decode content); [|done]; cbn; by destruct (gzip_Read _).
Qed.
Lemma parseOwner_no_panic owner p : parseOwner owner ≠ Panic p.
Proof. unfold parseOwner. repeat case_match; done. Qed.
Lemma convert_all_no_panic l p : convert_all l ≠ Panic p.
Proof.
  revert p. induction l as [|f l IH]; [done|]. cbn. apply obind_no_panic; [|intros c; by apply obind_no_panic].
  unfold convertFile. destruct (f_ContentFrom f); [done|].
  apply obind_no_panic; [apply owrap_no_panic, decodeFileContent_no_panic|]. intros raw.
  apply obind_no_panic; [apply owrap_no_panic, parseOwner_no_panic|]. by intros [].
Qed.
Lemma buildUpgradePlan_no_panic machine files ac p : buildUpgradePlan machine files ac ≠ Panic p.
Proof.
  unfold buildUpgradePlan. case_decide; [done|]. destruct (ac_AirGapped ac); [done|].
  revert p. apply obind_no_panic; [|done]. apply owrap_no_panic. intros p. unfold convertFiles.
  destruct (elems files); [done|]. by apply obind_no_panic; [apply convert_all_no_panic|].
Qed.

Lemma resolve_all_answers ns l : answers (resolve_all ns l).
Proof.
  induction l as [|f l IH]; cbn; [apply answers_ret|].
  apply answers_bind; [|intros; by apply answers_bind; auto with answers].
  destruct (f_ContentFrom f) as [ref|]; [|apply answers_ret].
  apply answers_bind; [|auto with answers]. apply answers_bwrap. unfold resolveFileContentFrom.
  destruct (fs_Secret ref); [|destruct (fs_ConfigMap ref)]; [..|apply answers_fail];
    (apply answers_bind; [auto with answers|]); intros d; repeat case_match; auto with answers.
Qed.
Lemma desired_plan_answers machine bc : answers (desired_plan machine bc).
Proof.
  unfold desired_plan. apply answers_bind.
  { apply answers_lift. intros p. unfold decodeDesiredRKE2Config. repeat case_match; done. }
  intros c. apply answers_bind.
  - destruct c as [c|]; [|apply answers_ret]. apply answers_bind; [|auto with answers].
    unfold resolveDesiredFiles. destruct (elems _); [apply answers_ret|].
    apply answers_bind; [apply resolve_all_answers|auto with answers].
  - intros [files ac]. apply answers_bind; [apply answers_lift, buildUpgradePlan_no_panic|].
    intros plan. apply answers_bwrap, answers_lift. by destruct (json_Plan plan).
Qed.

Lemma update_machine_run machine bc s log :
  let '(o, (s', log')) := update_machine machine bc (s, log) in
  ∃ calls, log' = calls ++ log ∧ Forall no_event calls ∧
    (patches calls = [] ∨ ∃ c, patches calls = [c] ∧ hands_over machine bc s c) ∧
    match o with
    | Ok resp =>
        (ures_Status resp = ResponseStatusSuccess ∧ ures_RetryAfterSeconds resp = 30%Z) ∨
        (patches calls = [] ∧ ures_RetryAfterSeconds resp = 0%Z ∧
         ((ures_Status resp = ResponseStatusSuccess ∧ done_plan machine bc s appliedChecksumKey) ∨
          (ures_Status resp = ResponseStatusFailure ∧ done_plan machine bc s failedChecksumKey)))
    | Err _ => True
    | Panic _ => False
    end.
Proof.
  unfold update_machine. unfold mbind at 1, comp_bind at 1.
  destruct (findMachinePlanSecret_run machine s log) as (s1 & Hs1 & Hf).
  destruct (findMachinePlanSecret machine (s, log)) as [[secret|e|p] w1]; cbn in Hs1, Hf; subst w1.
  2,3: exists [list_call machine]; split_and!; [done|by repeat constructor|by left|done].
  destruct (desired_plan_reads machine bc (s1, list_call machine :: log)) as (l & Hl & Hp).
  unfold mbind at 1, comp_bind at 1.
  pose proof (desired_plan_answers machine bc (s1, list_call machine :: log)) as Hnp.
  destruct (desired_plan machine bc (s1, list_call machine :: log)) as [[bytes|e|p] [s2 log2]] eqn:Ed; cbn in Hl.
  3: by destruct (Hnp p).
  2: exists (l ++ [list_call machine]); split_and!; [by rewrite Hl, <-app_assoc| | |done];
    [by apply reads_no_event|left; by rewrite patches_reads].
  assert (wanted machine bc bytes) as Hw by (by do 2 eexists).
  assert (patches (l ++ [list_call machine]) = []) as Hnone.
  { by rewrite patches_reads. }
  assert (Forall no_event (l ++ [list_call machine])) as Hne.
  { by apply reads_no_event. }
  assert (log2 = (l ++ [list_call machine]) ++ log) as Hlog by (by rewrite Hl, <-app_assoc).
  pose proof (evaluate_spec secret bytes) as Hev.
  destruct (evaluatePlanOutcome secret bytes).
  - unfold writePlan, bwrap, mbind, comp_bind, uapi.
    set (c := UPatchSecret secret _). destruct (serve s2 c) as [a s3].
    assert (hands_over machine bc s c) as Hh by (exists secret, bytes; by destruct Hev).
    destruct a as [e|[]]; exists (c :: l ++ [list_call machine]); (split_and!; [by rewrite Hlog|by constructor| |]);
      try (right; exists c; split; [unfold patches in *; by rewrite filter_cons_True, Hnone|done]); [done|by left].
  - exists (l ++ [list_call machine]). split_and!; [done..|by left|by left].
  - exists (l ++ [list_call machine]). split_and!; [done..|by left|]. right. split_and!; [done..|]. left.
    split; [done|]. exists secret, bytes. by destruct Hev.
  - exists (l ++ [list_call machine]). split_and!; [done..|by left|]. right. split_and!; [done..|]. right.
    split; [done|]. exists secret, bytes. by destruct Hev.
Qed.
Definition is_event (c : UCall) : Prop := ¬ no_event c.
#[global] Instance is_event_dec c : Decision (is_event c).
Proof. destruct c; unfold is_event; cbn; apply _. Defined.
Definition events (calls : list UCall) : list UCall := filter is_event calls.

Lemma events_none l : Forall no_event l → events l = [].
Proof. unfold events. induction 1 as [|c l Hc Hl IH]; [done|]. rewrite filter_cons_False; [done|]. by intros []. Qed.

Lemma recordFailure_run machine message s log :
  ∃ calls s', recordFailure machine message (s, log) = (Ok tt, (s', calls ++ log)) ∧
    patches calls = [] ∧
    (events calls = [] ∨ ∃ m, events calls = [UEvent m "InPlaceUpdateFailed" message]).
Proof.
  unfold recordFailure, mbind, comp_bind, try, uapi.
  destruct (serve s _) as [[e|m] s1]; cbn -[patches events].
  - eexists [_], _. split_and!; [reflexivity|done|by left].
  - eexists [_; _], _. split_and!; [reflexivity|done|]. right. by exists m.
Qed.

(** C27: what a call of the update handler does.  It always answers, with success or
    failure, and writes at most once: the plan it wants, to the secret it found,
    under the keys of the plan and its state and no other, and only if the secret
    carries a different plan that is not in flight.  It says that the update is
    applied only when the agent recorded the checksum of the wanted plan, which the
    secret carries, as applied; every other success asks to be called again.  A
    failure does not, and leaves at most one event with its message. *)
Theorem DoUpdateMachine_protocol machine bc s log :
  let '(o, (_, log')) := DoUpdateMachine machine bc (s, log) in
  ∃ resp calls, o = Ok resp ∧ log' = calls ++ log ∧
    (patches calls = [] ∨ ∃ c, patches calls = [c] ∧ hands_over machine bc s c) ∧
    ((ures_Status resp = ResponseStatusSuccess ∧ events calls = [] ∧
      (ures_RetryAfterSeconds resp = 30%Z ∨
       ures_RetryAfterSeconds resp = 0%Z ∧ patches calls = [] ∧ done_plan machine bc s appliedChecksumKey)) ∨
     (ures_Status resp = ResponseStatusFailure ∧ ures_RetryAfterSeconds resp = 0%Z ∧
      (events calls = [] ∨ ∃ m, events calls = [UEvent m "InPlaceUpdateFailed" (ures_Message resp)]))).
Proof.
  pose proof (update_machine_run machine bc s log) as Hrun.
  unfold DoUpdateMachine. unfold mbind at 1, comp_bind at 1, try.
  destruct (update_machine machine bc (s, log)) as [o [s1 log1]].
  destruct Hrun as (calls & -> & Hne & Hp & Ho).
  assert (∀ resp, ∃ cs s2,
    (recordFailure machine (ures_Message resp) ≫= λ _, mret resp) (s1, calls ++ log) =
      (Ok resp, (s2, (cs ++ calls) ++ log)) ∧ patches (cs ++ calls) = patches calls ∧
    (events (cs ++ calls) = [] ∨
     ∃ m, events (cs ++ calls) = [UEvent m "InPlaceUpdateFailed" (ures_Message resp)])) as Hfail.
  { intros resp. unfold mbind, comp_bind.
    destruct (recordFailure_run machine (ures_Message resp) s1 (calls ++ log)) as (cs & s2 & -> & Hnp & Hev).
    exists cs, s2. rewrite <-app_assoc. unfold patches, events in *.
    rewrite !list.filter_app, Hnp. fold (events calls). by rewrite (events_none calls Hne), app_nil_r. }
  pose proof (events_none calls Hne) as Hnone.
  destruct o as [resp|e|p]; [|..|done]; cbn beta iota zeta.
  - destruct Ho as [[Hs Hr]|(Hnp & Hr & [[Hs Hd]|[Hs Hd]])].
    + rewrite decide_False by (by rewrite Hs). exists resp, calls. split_and!; [done..|left; auto 10].
    + rewrite decide_False by (by rewrite Hs). exists resp, calls. split_and!; [done..|left; auto 10].
    + rewrite decide_True by done. destruct (Hfail resp) as (cs & s2 & -> & Hc & Hev).
      exists resp, (cs ++ calls). rewrite Hc. split_and!; [done..|right; auto 10].
  - rewrite decide_True by done. destruct (Hfail (failed (MError e))) as (cs & s2 & -> & Hc & Hev).
    exists (failed (MError e)), (cs ++ calls). rewrite Hc. split_and!; [done..|right; auto 10].
Qed.
End protocol.

(** ** Polling

    A server with one secret, whose state is the data of the secret, and an agent
    that works on the data between two calls of the handler. *)

(** [client.MergeFrom]: what differs between the base and the updated data is applied
    to the data the server has. *)
Definition merge_patch (base updated current : strmap) : strmap :=
  let b := default ∅ base in
  let u := default ∅ updated in
  Some (filter (λ kv, b !! kv.1 ≠ Some kv.2) u ∪
        filter (λ kv, ¬ (is_Some (b !! kv.1) ∧ u !! kv.1 = None)) (default ∅ current)).

Lemma merge_patch_self base u : merge_patch base (Some u) base = Some u.
Proof.
  unfold merge_patch. cbn. f_equal. apply map_eq. intros k. set (b := default ∅ base).
  rewrite lookup_union, !map_lookup_filter. fold b.
  destruct (u !! k) as [x|] eqn:Eu, (b !! k) as [y|] eqn:Eb; cbn; repeat case_guard; cbn; rewrite ?Eu; naive_solver.
Qed.

Class PlanLaws `{UpdateLib} : Prop := {
  state_key_fresh : PlanStateKey ∉ [planDataKey; appliedChecksumKey; failedChecksumKey];
  pending_set : PlanStatePending ≠ "";
  pending_not_terminal : PlanState_IsTerminal PlanStatePending = false
}.

Section polling.
Context `{CapiConsts, UpdateLib, !PlanLaws}.
Context (secret0 : PlanSecret) (secret0_type : ps_Type secret0 = SecretTypeMachinePlan).
Context (fetch : ∀ c : UCall, error + uanswer c).

Definition secret_serve (d : strmap) (c : UCall) : (error + uanswer c) * strmap :=
  match c with
  | UListSecrets _ _ => (inr [ps_with_data d secret0], d)
  | UPatchSecret base updated => (inr tt, merge_patch (ps_Data base) (ps_Data updated) d)
  | c => (fetch c, d)
  end.
Definition secret_server : UServer := {| UState := strmap; serve := secret_serve |}.
#[local] Existing Instance secret_server.

Context (machine : Machine) (bc : RawExtension) (bytes : string).
(** The desired plan can be built: what it is made of can be read. *)
Definition plan_is : Prop :=
  ∀ (d : UState) log, ∃ log', desired_plan machine bc (d, log) = (Ok bytes, (d, log')).

(** The handler and the agent in turns, until the handler does not ask to be called
    again: its last answer, and the data it saw. *)
Fixpoint poll (agent : nat → strmap → strmap) (n i : nat) (d : strmap) :
    option (UpdateMachineResponse * strmap) :=
  match n with
  | 0 => None
  | S n =>
      match DoUpdateMachine machine bc (d, []) with
      | (Ok resp, (d', _)) =>
          if decide (ures_RetryAfterSeconds resp = 0%Z) then Some (resp, d')
          else poll agent n (S i) (agent i d')
      | _ => None
      end
  end.
Fixpoint run (agent : nat → strmap → strmap) (i n : nat) (d : strmap) : strmap :=
  match n with 0 => d | S n => run agent (S i) n (agent i d) end.

(** The plan in the secret, and whether its result is recorded. *)
Definition plan_sum (d : strmap) : string := Checksum (read_key d planDataKey).
Definition completed (d : strmap) : Prop :=
  read_key d appliedChecksumKey = plan_sum d ∨ read_key d failedChecksumKey = plan_sum d.
Definition idle (d : strmap) : Prop :=
  read_key d PlanStateKey = "" ∨ PlanState_IsTerminal (read_key d PlanStateKey) = true.

(** An agent that leaves the plan alone and, within [k] rounds, records its result and
    is idle; and one that does not know plan states. *)
Record Agent (k : nat) (agent : nat → strmap → strmap) : Prop := {
  agent_plan i d : read_key (agent i d) planDataKey = read_key d planDataKey;
  agent_completes i d n : (k ≤ n)%nat → read_key d planDataKey ≠ "" → completed (run agent i n d);
  agent_idle i d n : (k ≤ n)%nat → idle (run agent i n d)
}.
Record StatelessAgent (agent : nat → strmap → strmap) : Prop := {
  stateless_plan i d : read_key (agent i d) planDataKey = read_key d planDataKey;
  stateless_state i d : read_key (agent i d) PlanStateKey = read_key d PlanStateKey
}.

Lemma read_submitted_plan b d : read_key (submitted b d) planDataKey = b.
Proof.
  unfold read_key, submitted, map_get. cbn. rewrite lookup_insert_ne; [by rewrite lookup_insert_eq|].
  pose proof state_key_fresh as Hk. set_solver.
Qed.
Lemma read_submitted_state b d : read_key (submitted b d) PlanStateKey = PlanStatePending.
Proof. unfold read_key, submitted, map_get. cbn. by rewrite lookup_insert_eq. Qed.

(** One call, on the data of the secret. *)
Definition seen (d : strmap) : planOutcome := evaluatePlanOutcome (ps_with_data d secret0) bytes.
Lemma call_run (d : strmap) : plan_is →
  ∃ resp log, DoUpdateMachine machine bc (d, []) =
    (Ok resp, (match seen d with planOutcomeNotSubmitted => submitted bytes d | _ => d end, log)) ∧
    match seen d with
    | planOutcomeNotSubmitted | planOutcomeWaiting => ures_RetryAfterSeconds resp = 30%Z
    | planOutcomeSucceeded => ures_RetryAfterSeconds resp = 0%Z ∧ ures_Status resp = ResponseStatusSuccess
    | planOutcomeFailed => ures_RetryAfterSeconds resp = 0%Z ∧ ures_Status resp = ResponseStatusFailure
    end.
Proof.
  intros Hplan. unfold seen, DoUpdateMachine, update_machine, findMachinePlanSecret, try.
  unfold mbind, comp_bind, mret, comp_ret, uapi. cbn [serve secret_server secret_serve List.find].
  rewrite bool_decide_eq_true_2 by exact secret0_type. cbn beta iota.
  match goal with |- context [desired_plan machine bc (?d, ?l)] => destruct (Hplan d l) as (log & ->) end.
  cbn beta iota.
  destruct (evaluatePlanOutcome (ps_with_data d secret0) bytes).
  - unfold writePlan, bwrap, uapi. cbn [serve secret_server secret_serve ps_with_data ps_Data].
    rewrite (merge_patch_self d _ : merge_patch d (submitted bytes d) d = submitted bytes d). cbn. eauto.
  - cbn. eauto.
  - cbn. eauto.
  - cbn. unfold recordFailure, try, mbind, comp_bind, uapi, uemit. cbn.
    destruct (fetch (UGetMachine _ _)); cbn; eauto.
Qed.
(** What the handler sees. *)
Lemma seen_same d : plan_sum d = Checksum bytes →
  match seen d with
  | planOutcomeSucceeded => read_key d appliedChecksumKey = Checksum bytes
  | planOutcomeFailed => read_key d failedChecksumKey = Checksum bytes
  | planOutcomeWaiting => ¬ completed d
  | planOutcomeNotSubmitted => False
  end.
Proof.
  unfold seen, evaluatePlanOutcome, completed, plan_sum. intros Hs. cbn. rewrite decide_True by done.
  rewrite Hs. repeat case_decide; naive_solver.
Qed.
Lemma seen_other d : plan_sum d ≠ Checksum bytes →
  (seen d = planOutcomeWaiting ∧ ¬ idle d) ∨ (seen d = planOutcomeNotSubmitted ∧ idle d).
Proof.
  unfold seen, evaluatePlanOutcome, plan_sum, idle. intros Hs.
  change (ps_Data (ps_with_data d secret0)) with d. cbn zeta. rewrite decide_False by done.
  destruct (bool_decide_reflect (read_key d PlanStateKey ≠ "")) as [Hne|He]; cbn [andb].
  - destruct (PlanState_IsTerminal _); cbn [negb]; naive_solver.
  - right. split; [done|]. left. by apply dec_stable.
Qed.

Lemma poll_S agent n i (d : strmap) :
  poll agent (S n) i d =
  match DoUpdateMachine machine bc (d, []) with
  | (Ok resp, (d', _)) =>
      if decide (ures_RetryAfterSeconds resp = 0%Z) then Some (resp, d') else poll agent n (S i) (agent i d')
  | _ => None
  end.
Proof. done. Qed.

Lemma poll_step agent n i d : plan_is →
  match seen d with
  | planOutcomeNotSubmitted => poll agent (S n) i d = poll agent n (S i) (agent i (submitted bytes d))
  | planOutcomeWaiting => poll agent (S n) i d = poll agent n (S i) (agent i d)
  | planOutcomeSucceeded => ∃ resp, poll agent (S n) i d = Some (resp, d) ∧ ures_Status resp = ResponseStatusSuccess
  | planOutcomeFailed => ∃ resp, poll agent (S n) i d = Some (resp, d) ∧ ures_Status resp = ResponseStatusFailure
  end.
Proof.
  intros Hplan. destruct (call_run d Hplan) as (resp & log & Hr & Hs). rewrite !poll_S, Hr.
  destruct (seen d).
  - by rewrite decide_False by (by rewrite Hs).
  - by rewrite decide_False by (by rewrite Hs).
  - destruct Hs as [Hz Hs]. rewrite decide_True by done. eauto.
  - destruct Hs as [Hz Hs]. rewrite decide_True by done. eauto.
Qed.

(** The end of the polling: the last answer is the result of the wanted plan. *)
Definition ends_well (r : option (UpdateMachineResponse * strmap)) : Prop :=
  ∃ resp d, r = Some (resp, d) ∧ plan_sum d = Checksum bytes ∧
    ((ures_Status resp = ResponseStatusSuccess ∧ read_key d appliedChecksumKey = Checksum bytes) ∨
     (ures_Status resp = ResponseStatusFailure ∧ read_key d failedChecksumKey = Checksum bytes)).

Lemma poll_same agent n m i d : plan_is → (∀ i d, read_key (agent i d) planDataKey = read_key d planDataKey) →
  plan_sum d = Checksum bytes → (n < m)%nat → completed (run agent i n d) → ends_well (poll agent m i d).
Proof.
  intros Hplan Ha. revert m i d. induction n as [|n IH]; intros [|m] i d Hs Hm Hc; try lia;
    pose proof (poll_step agent m i d Hplan) as Hp; pose proof (seen_same d Hs) as Hseen;
    destruct (seen d); try done; try (destruct Hp as (resp & -> & Hr); exists resp, d; by auto).
  rewrite Hp. apply IH; [|lia|done]. unfold plan_sum. by rewrite Ha.
Qed.


(** An agent that does not know plan states gets no second plan.  Completion is
    read from the checksums so that such an agent is not waited for forever; but
    submitting a plan sets its state to pending, which the agent never moves on, and
    the next different plan waits for that state: it is never submitted, however
    long the polling goes on and although the first plan was completed long ago. *)
Theorem second_update_never_ends agent first d i j n :
  plan_is → StatelessAgent agent → Checksum first ≠ Checksum bytes →
  poll agent n i (run agent i j (submitted first d)) = None.
Proof.
  intros Hplan [Hp Hs] Hne.
  assert (∀ j i d, read_key (run agent i j d) planDataKey = read_key d planDataKey ∧
                   read_key (run agent i j d) PlanStateKey = read_key d PlanStateKey) as Hrun.
  { intros j'. induction j' as [|j' IH]; intros i' d'; [done|]. cbn [run]. destruct (IH (S i') (agent i' d')) as [-> ->]. auto. }
  destruct (Hrun j i (submitted first d)) as [Hplan' Hstate]. revert Hplan' Hstate.
  rewrite read_submitted_plan, read_submitted_state. generalize (run agent i j (submitted first d)).
  clear Hrun. revert i. induction n as [|n IH]; intros i d' Hd Hst; [done|].
  pose proof (poll_step agent n i d' Hplan) as Hstep.
  assert (plan_sum d' ≠ Checksum bytes) as Hsum by (unfold plan_sum; by rewrite Hd).
  destruct (seen_other d' Hsum) as [[Hw _]|[_ [Hi|Hi]]]; [|rewrite Hst in Hi..].
  - rewrite Hw in Hstep. rewrite Hstep. apply IH; [by rewrite Hp|by rewrite Hs].
  - by destruct (pending_set Hi).
  - by rewrite pending_not_terminal in Hi.
Qed.
End polling.

(** ** What the extension says it can do *)

(** RFC 6902: applying a patch between two documents to the one gives the other. *)
Class JsonPatchLaws `{UpdateLib} := {
  JDoc : Type;
  read_json : string → option JDoc;
  apply_json : string → JDoc → option JDoc;
  apply_CreatePatch a b p s d : jsonpatch_CreatePatch a b = inr p → json_JPatch p = inr s →
    read_json a = Some d → apply_json s d = read_json b
}.

Section can_update_claims.
Context `{UpdateLib, !JsonPatchLaws}.

Lemma canUpdateMachineSpec_eq current desired :
  canUpdateMachineSpec current desired = msp_with_version (msp_Version desired) current.
Proof. unfold canUpdateMachineSpec. case_decide as Hv; [|done]. rewrite <-Hv. by destruct current. Qed.
Lemma canUpdateRKE2ConfigSpec_eq current desired :
  canUpdateRKE2ConfigSpec current desired = cs_with_files (cs_Files desired) current.
Proof. unfold canUpdateRKE2ConfigSpec. case_decide as Hv; [|done]. rewrite <-Hv. by destruct current. Qed.

(** A patch that takes one document to the JSON of an object. *)
Definition patches_to (patch : option string) (original : string) (modified : error + string) : Prop :=
  ∃ p j, patch = Some p ∧ modified = inr j ∧
    ∀ d, read_json original = Some d → apply_json p d = read_json j.

Lemma createJSONPatch_spec original modified p :
  createJSONPatch original modified = inr p → patches_to (Some p) original modified.
Proof.
  unfold createJSONPatch. destruct modified as [e|j]; [done|].
  destruct (jsonpatch_CreatePatch original j) as [e|q] eqn:Eq; [done|].
  destruct (json_JPatch q) as [e|s] eqn:Es; [done|]. intros [= <-]. exists s, j. split_and!; [done..|].
  intros d Hd. by eapply apply_CreatePatch.
Qed.

(** What the extension makes of a bootstrap configuration: the desired files. *)
Definition with_desired_files (current desired : RObject) : RObject :=
  match current, desired with
  | ROConfig c, ROConfig d => ROConfig (cfg_with_spec (cs_with_files (cs_Files (cfg_Spec d)) (cfg_Spec c)) c)
  | _, _ => current
  end.

(** What the extension declares.  The answer is a failure without patches, or a
    success with two: the one takes the JSON of the current machine to the JSON of
    the current machine with the desired version; the other takes the current
    bootstrap configuration to what it decodes to, with the desired files if both
    are RKE2Configs.  No other difference is declared, so none is patched away. *)
Theorem DoCanUpdateMachine_patches req :
  let ans := DoCanUpdateMachine req in
  (ca_Status ans = ResponseStatusFailure ∧ ca_MachinePatch ans = None ∧ ca_BootstrapConfigPatch ans = None) ∨
  (ca_Status ans = ResponseStatusSuccess ∧
   ∃ marshalled current desired,
     json_Machine (cmr_CurrentMachine req) = inr marshalled ∧
     decode_both (cmr_CurrentBootstrapConfig req) (cmr_DesiredBootstrapConfig req) = inr (current, desired) ∧
     patches_to (ca_MachinePatch ans) marshalled
       (json_Machine (m_with_spec (msp_with_version (msp_Version (m_Spec (cmr_DesiredMachine req)))
                                     (m_Spec (cmr_CurrentMachine req))) (cmr_CurrentMachine req))) ∧
     patches_to (ca_BootstrapConfigPatch ans) (re_Raw (cmr_CurrentBootstrapConfig req))
       (json_Object (with_desired_files current desired))).
Proof.
  unfold DoCanUpdateMachine, getObjectsFromCanUpdateMachineRequest, computeCanUpdateMachineResponse, both_patches.
  destruct (decode_both _ _) as [e|[current desired]]; [by left|]. rewrite canUpdateMachineSpec_eq.
  assert (update_config current desired = with_desired_files current desired) as ->.
  { destruct current, desired; cbn; try done. by rewrite canUpdateRKE2ConfigSpec_eq. }
  destruct (json_Machine (cmr_CurrentMachine req)) as [e|marshalled]; [by left|].
  destruct (createJSONPatch marshalled _) as [e|p] eqn:Ep; [by left|].
  destruct (createJSONPatch (re_Raw _) _) as [e|q] eqn:Eq; [by left|].
  right. split; [done|]. exists marshalled, current, desired. cbn.
  split_and!; [done..| |]; by apply createJSONPatch_spec.
Qed.
End can_update_claims.

(** ** Samples *)

#[export] Instance demo_update_lib : UpdateLib := {
  SecretTypeMachinePlan := "rke.cattle.io/machine-plan";
  PlanStateKey := "plan-state"; PlanStatePending := "pending";
  PlanState_IsTerminal s := bool_decide (s ∈ ["succeeded"; "failed"; "canceled"]);
  Checksum s := "sum:" +:+ s;
  MachineLifecycleGroupLabel := "group"; MachineLifecycleKindLabel := "kind";
  MachineLifecycleNameLabel := "name"; clusterv1_Group := "cluster.x-k8s.io";
  JPatch := string;
  json_Plan p := inr (Join (map oi_Image (pl_OneTimeInstructions p)) " " +:+
                      Join (map (λ f, pf_Path f +:+ pf_Content f) (elems (pl_Files p))) " ");
  json_Machine m := inr (msp_Version (m_Spec m)); json_MachineSet m := inr (msp_Version (mset_TemplateSpec m));
  json_Object o := match o with ROConfig c => inr (cfg_Name c) | _ => inl (EText "other") end;
  json_JPatch p := inr p; jsonpatch_CreatePatch a b := inr b;
  Decode raw o := match o with Some o => inr o | None => inl (EText "cannot decode") end;
  gzip_Read s := inl (EText "gzip: invalid header")
}.
#[export] Instance demo_plan_laws : PlanLaws.
Proof. split; [vm_compute; set_solver|done|reflexivity]. Qed.

Definition demo_files : list File :=
  [Build_File "/etc/a" "" "0600" "" "" (Some (Build_FileSource (Some (Build_FileSourceRef "s" "" "k")) None));
   Build_File "/etc/b" "100:200" "0644" "base64" "aGVsbG8=" None].
Definition demo_update_config : RKE2Config := cfg_with_spec (cs_with_files (Some demo_files) demo_config_spec) demo_config.
Definition demo_update_raw : RawExtension := Build_RawExtension "raw" (Some (ROConfig demo_update_config)).
Definition demo_update_machine : Machine :=
  m_with_spec (msp_with_version "v1.33.2+rke2r1" (m_Spec (demo_machine "m" "n"))) (demo_machine "m" "n").
Definition demo_fetch (c : UCall) : error + uanswer c :=
  match c with UGetSecret _ _ => inr (Some {[ "k" := "secret" ]}) | _ => inl ENotFound end.
Definition demo_plan_secret : PlanSecret := Build_PlanSecret "plan" "ns" "rke.cattle.io/machine-plan" None.
#[local] Existing Instance secret_server.
Definition demo_server : UServer := secret_server demo_plan_secret demo_fetch.

Definition demo_bytes : string :=
  "rancher/system-agent-installer-rke2:v1.33.2-rke2r1 /etc/ac2VjcmV0 /etc/baGVsbG8=".
Lemma demo_plan_is : plan_is demo_plan_secret demo_fetch demo_update_machine demo_update_raw demo_bytes.
Proof. intros d log. eexists. vm_compute. reflexivity. Qed.

Definition demo_resolved : outcome (slice File) * (strmap * list UCall) :=
  Eval vm_compute in resolveDesiredFiles (H1 := demo_server) "ns" (Some demo_files) (None, []).
Definition demo_resolved_files : slice File := match demo_resolved.1 with Ok files => files | _ => None end.
Definition demo_plan : Plan :=
  Eval vm_compute in
    match buildUpgradePlan demo_update_machine demo_resolved_files (cs_AgentConfig demo_config_spec) with
    | Ok plan => plan
    | _ => Build_Plan None []
    end.

Lemma buildUpgradePlan_delivers_witness :
  map pf_Path (elems (pl_Files demo_plan)) = ["/etc/a"; "/etc/b"] ∧
  Forall2 (delivered (H1 := demo_server) "ns") demo_files (elems (pl_Files demo_plan)).
Proof.
  split; [reflexivity|].
  assert (resolveDesiredFiles (H1 := demo_server) "ns" (Some demo_files) (None, []) =
    (Ok demo_resolved_files, demo_resolved.2)) as Hr by (vm_compute; reflexivity).
  assert (buildUpgradePlan demo_update_machine demo_resolved_files (cs_AgentConfig demo_config_spec) =
    Ok demo_plan) as Hb by (vm_compute; reflexivity).
  pose proof (buildUpgradePlan_delivers (H1 := demo_server) demo_update_machine demo_update_config
    demo_resolved_files (None, []) demo_resolved.2 demo_plan Hr Hb) as Hd.
  exact (proj1 Hd).
Defined.

(** An agent that applies what it finds, and one that does so without plan states. *)
Definition demo_agent_of (states : bool) (i : nat) (d : strmap) : strmap :=
  let m := <[appliedChecksumKey := plan_sum d]> (default ∅ d) in
  Some (if states then <[PlanStateKey := "succeeded"]> m else m).

Lemma demo_agent_plan states i d : read_key (demo_agent_of states i d) planDataKey = read_key d planDataKey.
Proof. destruct states, d as [d|]; unfold read_key, demo_agent_of, map_get; cbn; by simplify_map_eq. Qed.

Lemma demo_agent_ok : Agent 1 (demo_agent_of true).
Proof.
  assert (∀ n i d, ∃ d', run (demo_agent_of true) i (S n) d = demo_agent_of true 0 d') as Hlast.
  { intros n. induction n as [|n IH]; intros i d; [by exists d|]. apply (IH (S i) (demo_agent_of true i d)). }
  split; [apply demo_agent_plan|..]; intros i d [|n] Hn; try lia; [intros _|];
    destruct (Hlast n i d) as [d' ->].
  - left. unfold plan_sum. rewrite demo_agent_plan. unfold read_key at 1, demo_agent_of, map_get. cbn.
    by simplify_map_eq.
  - right. unfold read_key, demo_agent_of, map_get. cbn. by simplify_map_eq.
Qed.
Lemma demo_stateless_ok : StatelessAgent (demo_agent_of false).
Proof.
  split; [apply demo_agent_plan|]. intros i d. unfold read_key, demo_agent_of, map_get. cbn.
  by destruct d; simplify_map_eq.
Qed.


Lemma second_update_never_ends_witness :
  poll demo_plan_secret demo_fetch demo_update_machine demo_update_raw (demo_agent_of false) 100 0
    (run (demo_agent_of false) 0 5 (submitted "first" None)) = None.
Proof.
  apply (second_update_never_ends (H0 := demo_update_lib) demo_plan_secret eq_refl demo_fetch demo_update_machine demo_update_raw demo_bytes).
  - exact demo_plan_is.
  - exact demo_stateless_ok.
  - discriminate.
Defined.

#[export] Instance demo_json_patch : JsonPatchLaws.
Proof.
  refine {| JDoc := string; read_json s := Some s; apply_json p _ := Some p |}.
  intros a b p s d. by intros [= <-] [= <-] _.
Defined.

Definition demo_can_update : CanUpdateMachineRequest :=
  Build_CanUpdateMachineRequest (demo_machine "m" "n") (Build_RawExtension "raw" (Some (ROConfig demo_config)))
    demo_update_machine demo_update_raw.

Example demo_can_update_answer :
  DoCanUpdateMachine demo_can_update =
  Build_CanUpdateAnswer "Success" (MText "") (Some "v1.33.2+rke2r1") (Some "cfg").
Proof. vm_compute. reflexivity. Qed.

Lemma DoCanUpdateMachine_patches_witness :
  ∃ current desired,
    decode_both (cmr_CurrentBootstrapConfig demo_can_update) (cmr_DesiredBootstrapConfig demo_can_update) =
      inr (current, desired) ∧
    patches_to (ca_BootstrapConfigPatch (DoCanUpdateMachine demo_can_update)) "raw"
      (json_Object (with_desired_files current desired)).
Proof.
  destruct (DoCanUpdateMachine_patches demo_can_update) as [[Hs _]|(_ & mm & current & desired & _ & Hd & _ & Hp)].
  - discriminate.
  - exists current, desired. exact (conj Hd Hp).
Defined.
