(* ===== verification/ExtensionConfigs.v ===== *)
(** * The controller that feeds the extension registry

    pkg/capi/extensionconfig: [Reconcile] keeps the registry of [Extensions] in step
    with the ExtensionConfig objects, and [Start] fills it before anything else may
    use it (warmup.go).  The control plane program runs it read-only: it registers
    what another controller discovered and validated, and writes nothing.

    [readonly_registers_validated] is the invariant of that mode, and [index_matches]
    says that a secret wakes up exactly the ExtensionConfigs that take their CA
    bundle from it. *)

From stdpp Require Import base tactics option list gmap strings numbers.
From Stdlib Require Import Ascii.
From S2P Require Import Prelude Go Api Objects Libs World BWorld Extensions.
Open Scope string_scope.
Open Scope list_scope.
Open Scope stdpp_scope.

(** Names and conditions of Cluster API's runtime package. *)
Class ExtensionLib `{SelectorLib} := {
  LabelSelector_zero : LabelSelector;
  InjectCAFromSecretAnnotation : string;
  PausedCondition : string;
  ExtensionConfigDiscoveredCondition : string;
  ExtensionConfigDiscoveredReason : string;
  ExtensionConfigNotDiscoveredReason : string;
  conditions_Get : ExtensionConfigObject → string → option ExtCondition;
  conditions_Set : ExtCondition → ExtensionConfigObject → ExtensionConfigObject;
  v1beta1_MarkDiscovered : ExtensionConfigObject → ExtensionConfigObject;
  v1beta1_MarkNotDiscovered : error → ExtensionConfigObject → ExtensionConfigObject
}.

Definition tlsCAKey : string := "ca.crt".

(** [strings.IndexRune(s, '/')]. *)
Fixpoint cut_slash (s : string) : option (string * string) :=
  match s with
  | EmptyString => None
  | String c s =>
      if decide (c = "/"%char) then Some ("", s)
      else '(u, v) ← cut_slash s; Some (String c u, v)
  end.
Definition splitNamespacedName (nameStr : string) : string * string :=
  match cut_slash nameStr with Some p => p | None => ("", nameStr) end.

Section configs.
Context `{SelectorLib, CatalogLib, !ExtensionLib, GoRange, !EEnv}.
Abbreviation E := (comp EWorld).

Definition eo_name (o : ExtensionConfigObject) : string := ec_Name (eo_Config o).
Definition eo_CABundle (o : ExtensionConfigObject) : string := cc_CABundle (ec_ClientConfig (eo_Config o)).
Definition eo_with_config (c : ExtensionConfig) (o : ExtensionConfigObject) : ExtensionConfigObject :=
  Build_ExtensionConfigObject c (eo_Annotations o) (eo_Generation o) (eo_DeletionTimestamp o)
    (eo_Conditions o) (eo_V1Beta1Conditions o).
Definition ec_with_ca (ca : string) (c : ExtensionConfig) : ExtensionConfig :=
  Build_ExtensionConfig (ec_Name c) (ec_ResourceVersion c) (ec_NamespaceSelector c)
    (Build_ClientConfig (cc_URL (ec_ClientConfig c)) (cc_Service (ec_ClientConfig c)) ca)
    (ec_Settings c) (ec_Handlers c).

(** ** The parts of a reconcile *)

Definition reconcileDelete (c : ExtensionConfig) : E Result :=
  _ ← ewrap "failed to unregister ExtensionConfig" (Unregister (Some c));
  mret Result_zero.

Definition validateExtensionConfig (o : ExtensionConfigObject) : option error :=
  if decide (eo_CABundle o = "") then Some (EText "caBundle is not set on ExtensionConfig")
  else
    match conditions_Get o ExtensionConfigDiscoveredCondition with
    | None => Some (EText "condition not yet set on ExtensionConfig")
    | Some c =>
        if decide (xc_Status c ≠ ConditionTrue)
        then Some (EText "condition on ExtensionConfig must have status: True")
        else if decide (xc_ObservedGeneration c ≠ eo_Generation o)
        then Some (EText "condition on ExtensionConfig must have observedGeneration")
        else None
    end.

Definition reconcileCABundle (config : ExtensionConfigObject) : E ExtensionConfigObject :=
  match map_get (eo_Annotations config) InjectCAFromSecretAnnotation with
  | None => mret config
  | Some secretNameRaw =>
      let '(ns, name) := splitNamespacedName secretNameRaw in
      if decide (ns = "" ∨ name = "")
      then fail (EText "failed to reconcile caBundle: secret name must be in the form <namespace>/<name>")
      else
        data ← ewrap "failed to reconcile caBundle: failed to get secret" (eapi (EGetSecret ns name));
        match map_get data tlsCAKey with
        | None => fail (EText "failed to reconcile caBundle: secret does not contain an entry")
        | Some caData => mret (eo_with_config (ec_with_ca caData (eo_Config config)) config)
        end
  end.

(** The object with the outcome of the discovery in its conditions, and the error. *)
Definition discoverExtensionConfig (o : ExtensionConfigObject) : E (ExtensionConfigObject * option error) :=
  r ← try (Discover (eo_Config o));
  mret (match r with
        | inr err =>
            (conditions_Set (Build_ExtCondition ExtensionConfigDiscoveredCondition ConditionFalse 0
                               ExtensionConfigNotDiscoveredReason "Error in discovery")
               (v1beta1_MarkNotDiscovered err o), Some (EWrap "failed to discover ExtensionConfig" err))
        | inl c =>
            (conditions_Set (Build_ExtCondition ExtensionConfigDiscoveredCondition ConditionTrue 0
                               ExtensionConfigDiscoveredReason "")
               (v1beta1_MarkDiscovered (eo_with_config c o)), None)
        end).

Definition patchExtensionConfig (original modified : ExtensionConfigObject) : E ExtensionConfigObject :=
  eapi (EPatchHelper original modified).

(** A failed discovery is patched all the same. *)
Definition reconcileExtensionConfig (original config : ExtensionConfigObject) : E ExtensionConfigObject :=
  config ← reconcileCABundle config;
  '(original, config) ←
    (if decide (eo_CABundle original = eo_CABundle config) then mret (original, config)
     else
       patched ← ewrap "failed to patch ExtensionConfig" (eapi (EMergePatch original config));
       mret (patched, patched));
  '(config, err) ← discoverExtensionConfig config;
  r ← try (patchExtensionConfig original config);
  match option_list err ++ (match r with inr e => [e] | inl _ => [] end) with
  | [] => mret (match r with inl patched => patched | inr _ => config end)
  | errs => fail (EAgg errs)
  end.

(** ** Reconcile *)

Definition register (o : ExtensionConfigObject) : E Result :=
  _ ← ewrap "failed to register ExtensionConfig" (Register (Some (eo_Config o)));
  mret Result_zero.

(** The zero value of an object that is not found, with its name. *)
Definition ec_named (name : string) : ExtensionConfig :=
  Build_ExtensionConfig name "" LabelSelector_zero
    (Build_ClientConfig "" (Build_ServiceReference "" "" "" None) "") ∅ [].

Definition Reconcile (ReadOnly : bool) (name : string) : E Result :=
  ready ← Client_IsReady;
  if negb ready then mret (requeueAfter (10 * Second)%Z)
  else
    r ← try (eapi (EGetExtensionConfig name));
    match r with
    | inr err => if IsNotFound err then reconcileDelete (ec_named name) else fail err
    | inl extensionConfig =>
        if negb (pTime_IsZero (eo_DeletionTimestamp extensionConfig))
        then reconcileDelete (eo_Config extensionConfig)
        else if ReadOnly then
          match conditions_Get extensionConfig PausedCondition with
          | Some (Build_ExtCondition _ ConditionTrue _ _ _) => mret Result_zero
          | _ =>
              _ ← ewrap "failed to validate ExtensionConfig" (of_option (validateExtensionConfig extensionConfig));
              register extensionConfig
          end
        else
          '(isPaused, requeue, modified) ← eapi (EEnsurePaused extensionConfig);
          if (isPaused || requeue : bool) then mret Result_zero
          else
            modified ← ewrap "failed to reconcile ExtensionConfig"
              (reconcileExtensionConfig extensionConfig modified);
            register modified
    end.

(** The requests a secret causes: the index lists the objects whose annotation is the
    key.  An error is no request. *)
Definition extensionConfigByInjectCAFromSecretName (o : ExtensionConfigObject) : list string :=
  option_list (map_get (eo_Annotations o) InjectCAFromSecretAnnotation).
Definition secretToExtensionConfig (ns name : string) : E (list string) :=
  r ← try (eapi (EListByCASecret (ns +:+ "/" +:+ name)));
  mret (match r with inl items => map eo_name items | inr _ => [] end).

(** ** Warm up *)

(** The objects to warm up with, and what went wrong. *)
Fixpoint warmup_configs (ReadOnly : bool) (l : list ExtensionConfigObject) :
    E (list ExtensionConfigObject * list error) :=
  match l with
  | [] => mret ([], [])
  | o :: l =>
      '(o, errs) ← (if ReadOnly
        then mret (o, match validateExtensionConfig o with
                      | Some err => [EWrap "failed to validate ExtensionConfig" err] | None => [] end)
        else
          r ← try (reconcileExtensionConfig o o);
          mret (match r with
                | inl o => (o, [])
                | inr err => (o, [EWrap "failed to reconcile ExtensionConfig" err])
                end));
      '(l, errs') ← warmup_configs ReadOnly l;
      mret (o :: l, errs ++ errs')
  end.

Definition warmupRegistry (ReadOnly : bool) : E unit :=
  items ← ewrap "failed to list ExtensionConfigs" (eapi EListExtensionConfigs);
  '(items, errs) ← warmup_configs ReadOnly items;
  match errs with
  | [] => Client_WarmUp (Some (map eo_Config items))
  | errs => fail (EAgg errs)
  end.

(** The polling tries at once and then at intervals, until the timeout: [attempts] is
    the number of times that leaves after the first. *)
Fixpoint Start (ReadOnly : bool) (attempts : nat) : E unit :=
  r ← try (warmupRegistry ReadOnly);
  match r, attempts with
  | inl _, _ => mret tt
  | inr warmupErr, 0 => fail (EWrap "ExtensionConfig registry warmup timed out" warmupErr)
  | inr _, S attempts => Start ReadOnly attempts
  end.
End configs.

(** ** Secrets and the ExtensionConfigs that use them *)

Lemma cut_slash_spec s u v :
  cut_slash s = Some (u, v) ↔ s = u +:+ String "/"%char v ∧ free_of "/"%char u = true.
Proof.
  revert u v. induction s as [|c s IH]; intros u v; cbn [cut_slash].
  - split; [done|]. intros [He _]. by destruct u.
  - destruct (decide (c = "/"%char)) as [->|Hc].
    + split; [by intros [= <- <-]|]. intros [He Hf]. destruct u as [|a u].
      * by injection He as <-.
      * injection He as <- _. done.
    + split.
      * intros ([u' v'] & Hs & [= <- <-])%bind_Some. apply IH in Hs as [-> Hf]. split; [done|]. cbn.
        by rewrite bool_decide_eq_true_2.
      * intros [He Hf]. destruct u as [|a u]; [by injection He as -> _|]. injection He as <- He.
        cbn in Hf. apply andb_prop in Hf as [_ Hf]. by rewrite (proj2 (IH u v) (conj He Hf)).
Qed.

Section config_claims.
Context `{SelectorLib, CatalogLib, !ExtensionLib, GoRange, !EEnv}.

(** A secret causes requests for exactly the ExtensionConfigs that would take their CA
    bundle from it: the key the index is asked for is their annotation just when the
    annotation splits into the namespace and the name of the secret. *)
Theorem index_matches o ns name :
  free_of "/"%char ns = true → ns ≠ "" →
  ns +:+ "/" +:+ name ∈ extensionConfigByInjectCAFromSecretName o ↔
  ∃ a, map_get (eo_Annotations o) InjectCAFromSecretAnnotation = Some a ∧ splitNamespacedName a = (ns, name).
Proof.
  intros Hf Hns. unfold extensionConfigByInjectCAFromSecretName.
  destruct (map_get _ _) as [a|]; cbn; [|split; [by intros ?%elem_of_nil|by intros (? & ? & _)]].
  rewrite list_elem_of_singleton. unfold splitNamespacedName. split.
  - intros <-. exists (ns +:+ "/" +:+ name). split; [done|].
    change ("/" +:+ name) with (String "/"%char name).
    by rewrite (proj2 (cut_slash_spec _ ns name) (conj eq_refl Hf)).
  - intros (a' & [= <-] & Hs). destruct (cut_slash a) as [[u v]|] eqn:Ec.
    + injection Hs as -> ->. by apply cut_slash_spec in Ec as [-> _].
    + by injection Hs as <- _.
Qed.

(** ** Read-only: the invariant *)

(** An object the server gave to the controller, and a handler of a valid one. *)
Definition served (o : ExtensionConfigObject) : Prop :=
  (∃ t n, eask t (EGetExtensionConfig n) = inr o) ∨ (∃ t l, eask t EListExtensionConfigs = inr l ∧ o ∈ l).
Definition validated (e : ExtensionRegistration) : Prop :=
  ∃ o regs, served o ∧ validateExtensionConfig o = None ∧ registrations (eo_Config o) = inr regs ∧ e ∈ regs.
Definition only_reads (c : ECall) : Prop :=
  match c with EGetExtensionConfig _ | EListExtensionConfigs => True | _ => False end.
Definition good_items (it : gmap string ExtensionRegistration) : Prop := ∀ k e, it !! k = Some e → validated e.
Definition readonly_inv (w : EWorld) : Prop := good_items (items (e_registry w)) ∧ Forall only_reads (e_log w).

Lemma good_items_empty : good_items ∅.
Proof. intros k e. by rewrite lookup_empty. Qed.
Lemma remove_good c it : good_items it → good_items (remove c it).
Proof.
  unfold remove. intros Hg. induction (go_range 61 it) as [|[k e] l IH]; cbn; [done|].
  case_decide; [|done]. intros k' e' [_ He]%lookup_delete_Some. by eapply IH.
Qed.
Lemma insert_all_good regs it : good_items it → Forall validated regs → good_items (insert_all regs it).
Proof.
  unfold insert_all. intros Hg Hr. revert it Hg. induction Hr as [|r regs Hr Hrs IH]; intros it Hg; cbn; [done|].
  apply IH. intros k e [[_ <-]|[_ He]]%lookup_insert_Some; [done|by eapply Hg].
Qed.
Lemma add_good o it :
  served o → validateExtensionConfig o = None → good_items it → good_items (add (eo_Config o) it).1.
Proof.
  intros Hs Hv Hg. unfold add. destruct (registrations (eo_Config o)) as [e|regs] eqn:Hr; cbn.
  - by apply remove_good.
  - apply insert_all_good; [by apply remove_good|]. apply list.Forall_forall. intros e He. by exists o, regs.
Qed.
Lemma add_all_good l it :
  Forall (λ o, served o ∧ validateExtensionConfig o = None) l → good_items it →
  good_items (add_all (map eo_Config l) it).1.
Proof.
  intros Hl. revert it. induction Hl as [|o l [Hs Hv] Hl IH]; intros it Hg; cbn; [done|].
  pose proof (add_good o it Hs Hv Hg) as Ha. destruct (add (eo_Config o) it) as [it1 err]. cbn in Ha.
  specialize (IH it1 Ha). by destruct (add_all (map eo_Config l) it1).
Qed.

(** [inv_ewrap] and [inv_registry]: the parts of a reconcile. *)
Lemma inv_ewrap {A} (I : EWorld → Prop) msg (m : comp EWorld A) : keeps_inv I m → keeps_inv I (ewrap msg m).
Proof. intros Hm w Hw. specialize (Hm w Hw). unfold ewrap. by destruct (m w) as [[a|e|p] w']. Qed.
Lemma inv_registry f :
  (∀ r, good_items (items r) → good_items (items (f r).1)) → keeps_inv readonly_inv (on_registry f).
Proof.
  intros Hf w [Hg Hl]. unfold on_registry. specialize (Hf _ Hg). destruct (f (e_registry w)) as [r err]. done.
Qed.

Lemma reconcileDelete_inv c : keeps_inv readonly_inv (reconcileDelete c).
Proof.
  apply inv_bind; [|intros ?; apply inv_ret]. apply inv_ewrap, inv_ewrap, inv_registry. intros r Hr.
  unfold Remove. destruct (ready r); [|done]. by apply remove_good.
Qed.
Lemma register_inv o : served o → validateExtensionConfig o = None → keeps_inv readonly_inv (register o).
Proof.
  intros Hs Hv. apply inv_bind; [|intros ?; apply inv_ret]. apply inv_ewrap, inv_ewrap, inv_registry. intros r Hr.
  unfold Add. destruct (ready r); [|done]. pose proof (add_good o (items r) Hs Hv Hr) as Ha. cbn.
  by destruct (add (eo_Config o) (items r)).
Qed.

Lemma Reconcile_inv name : keeps_inv readonly_inv (Reconcile true name).
Proof.
  unfold Reconcile. apply inv_bind; [apply inv_gets|]. intros ready. destruct (negb ready); [apply inv_ret|].
  intros w [Hg Hl]. unfold mbind at 1, comp_bind at 1, try, eapi.
  assert (∀ log, Forall only_reads log → readonly_inv (Build_EWorld (e_registry w) (EGetExtensionConfig name :: log)))
    as Hw by (intros log Hlog; split; [done|by constructor]).
  destruct (eask (e_log w) (EGetExtensionConfig name)) as [err|o] eqn:E; cbn beta iota zeta.
  - destruct (IsNotFound err); [|by apply Hw]. apply reconcileDelete_inv. by apply Hw.
  - assert (served o) as Hs by (left; eauto).
    destruct (negb (pTime_IsZero _)); [apply reconcileDelete_inv; by apply Hw|].
    assert (readonly_inv ((_ ← ewrap "failed to validate ExtensionConfig" (of_option (validateExtensionConfig o));
      register o) (Build_EWorld (e_registry w) (EGetExtensionConfig name :: e_log w))).2) as Hreg.
    { destruct (validateExtensionConfig o) as [e|] eqn:Hv; [by apply Hw|].
      unfold of_option, ewrap, mbind, comp_bind, mret, comp_ret. apply register_inv; [done..|]. by apply Hw. }
    destruct (conditions_Get o PausedCondition) as [[? [] ? ? ?]|]; [by apply Hw|exact Hreg..].
Qed.

Lemma warmup_configs_readonly l w :
  ∃ errs, warmup_configs true l w = (Ok (l, errs), w) ∧
    (errs = [] → Forall (λ o, validateExtensionConfig o = None) l).
Proof.
  induction l as [|o l (errs & IH & Hv)]; cbn [warmup_configs]; [by exists []|].
  unfold mbind, comp_bind, mret, comp_ret in *. rewrite IH.
  eexists. split; [reflexivity|]. intros [Ho He]%app_nil. constructor; [|by auto].
  by destruct (validateExtensionConfig o).
Qed.

Lemma warmupRegistry_run w : readonly_inv w →
  let '(o, w') := warmupRegistry true w in
  readonly_inv w' ∧
  (o = Ok tt → ready (e_registry w') = true ∧
     ∃ t l, eask t EListExtensionConfigs = inr l ∧ Forall (λ o, validateExtensionConfig o = None) l).
Proof.
  intros [Hg Hl]. unfold warmupRegistry. unfold mbind at 1, comp_bind at 1, ewrap, eapi.
  destruct (eask (e_log w) EListExtensionConfigs) as [e|l] eqn:E.
  { split; [|done]. split; [done|by constructor]. }
  destruct (warmup_configs_readonly l (Build_EWorld (e_registry w) (EListExtensionConfigs :: e_log w)))
    as (errs & Hr & Hv).
  unfold mbind at 1, comp_bind at 1. rewrite Hr. destruct errs as [|err errs].
  2: { split; [|done]. split; [done|by constructor]. }
  specialize (Hv eq_refl). unfold Client_WarmUp, on_registry, WarmUp. cbn.
  destruct (ready (e_registry w)) eqn:Er; [split; [|done]; by split; [|constructor]|].
  assert (good_items (add_all (map eo_Config l) (items (e_registry w))).1) as Ha.
  { apply add_all_good; [|done]. apply list.Forall_forall. intros o Ho. rewrite list.Forall_forall in Hv.
    split; [right; eauto|by apply Hv]. }
  destruct (add_all _ _) as [it [|e0 errs0]]; cbn in *.
  - split; [by split; [|constructor]|]. intros _. split; [done|]. by exists (e_log w), l.
  - split; [|done]. split; [apply good_items_empty|by constructor].
Qed.

(** The controller at work: the warm up, then reconciles of any names, whose errors
    are retried later. *)
Definition controller (attempts : nat) (names : list string) : comp EWorld unit :=
  _ ← Start true attempts;
  for_each names (λ name, _ ← try (Reconcile true name); mret tt).
Definition started : EWorld := Build_EWorld New [].

Lemma Start_run attempts w : readonly_inv w →
  let '(o, w') := Start true attempts w in
  readonly_inv w' ∧
  (o = Ok tt → ready (e_registry w') = true ∧
     ∃ t l, eask t EListExtensionConfigs = inr l ∧ Forall (λ o, validateExtensionConfig o = None) l).
Proof.
  revert w. induction attempts as [|n IH]; intros w Hw; cbn [Start];
    unfold mbind, comp_bind, try; pose proof (warmupRegistry_run w Hw) as Hr;
    destruct (warmupRegistry true w) as [[[]|e|p] w1]; cbn; destruct Hr as [Hi Hr]; try by split.
  by apply IH.
Qed.

(** The control plane program calls only extensions that were validated.  In
    read-only mode, whatever the server answers and in whatever order ExtensionConfigs
    are reconciled, every handler in the registry comes from an ExtensionConfig the
    server gave, with a CA bundle and a Discovered condition that is true for its
    generation; the controller only reads; and it comes to reconcile anything only
    after all listed ExtensionConfigs were valid at once. *)
Theorem readonly_registers_validated attempts names :
  let '(o, w) := controller attempts names started in
  (∀ name e, Get name (e_registry w) = inr e → validated e) ∧
  Forall only_reads (e_log w) ∧
  ((Start true attempts started).1 = Ok tt →
     ∃ t l, eask t EListExtensionConfigs = inr l ∧ Forall (λ o, validateExtensionConfig o = None) l) ∧
  ((Start true attempts started).1 ≠ Ok tt → w = (Start true attempts started).2).
Proof.
  assert (readonly_inv started) as Hst by (split; [apply good_items_empty|constructor]).
  pose proof (Start_run attempts started Hst) as Hs. unfold controller. unfold mbind at 1, comp_bind at 1.
  assert (∀ w name e, readonly_inv w → Get name (e_registry w) = inr e → validated e) as Hget.
  { intros w name e [Hg _]. unfold Get. destruct (ready _); [|done]. cbn.
    destruct (items _ !! name) eqn:El; [|done]. intros [= <-]. by eapply Hg. }
  destruct (Start true attempts started) as [[[]|e|p] w1]; cbn; destruct Hs as [Hi Hs].
  2,3: split_and!; [intros ??; by apply Hget|apply Hi|done..].
  assert (∀ w, readonly_inv w →
    readonly_inv (for_each names (λ name, _ ← try (Reconcile true name); mret tt) w).2) as Hf.
  { intros w. revert w. induction names as [|n names IH]; intros w Hw; [done|]. cbn [for_each].
    unfold mbind, comp_bind, try. pose proof (Reconcile_inv n w Hw) as Hr.
    destruct (Reconcile true n w) as [[r|e|p] w2]; cbn in *; [| |done]; by apply IH. }
  specialize (Hf w1 Hi).
  destruct (for_each _ _ w1) as [o w2]. split_and!; [intros ??; by apply Hget|apply Hf| |done].
  intros _. by destruct (Hs eq_refl) as [_ ?].
Qed.
End config_claims.

(** ** Samples *)

#[export] Instance plain_catalog : CatalogLib.
Proof.
  refine {|
    Request := gmap string string; Response := string * string * Z;
    GetSettings r := r; SetSettings s _ := s;
    GetStatus r := r.1.1; SetStatus s r := (s, r.1.2, r.2);
    GetMessage r := r.1.2; SetMessage m r := (r.1.1, m, r.2);
    GetRetryAfterSeconds r := Some r.2; SetRetryAfterSeconds z r := (r.1, z);
    DiscoveryHandlers _ := []; DiscoveryRequest := ∅; DiscoveryResponse := ("", "", 0%Z);
    LowestNonZeroInt32 a b := if decide (a = 0%Z) then b else if decide (b = 0%Z) then a else Z.min a b;
    catalog_GroupVersionHook h := inr (Build_GroupVersionHook "hooks.runtime" "v1alpha1" h);
    catalog_ValidateRequest _ _ := None; catalog_ValidateResponse _ _ := None;
    catalog_NewRequest _ := inr ∅; catalog_NewResponse _ := inr ("", "", 0%Z);
    catalog_ConvertRequest a _ := inr a; catalog_ConvertResponse a _ := inr a;
    catalog_Request h := inr (gvh_Hook h); catalog_IsHookRegistered _ := true;
    json_Marshal v _ := inr v; json_Decode s r := ((s, r.1.2, r.2), None);
    url_Parse s := inr ("https", s, ""); path_Join a b := a +:+ "/" +:+ b; url_Hostname h := h;
    net_JoinHostPort h p := h; GVHToPath h n := gvh_Hook h +:+ "/" +:+ n;
    IsDNS1123Label s := if has_dot s then ["must not contain dots"] else [] |}.
  intros s. by destruct (has_dot s).
Defined.

#[export] Instance plain_extension_lib : ExtensionLib := {
  LabelSelector_zero := ∅ : gmap string string; InjectCAFromSecretAnnotation := "runtime.cluster.x-k8s.io/inject-ca-from-secret";
  PausedCondition := "Paused"; ExtensionConfigDiscoveredCondition := "Discovered";
  ExtensionConfigDiscoveredReason := "Discovered"; ExtensionConfigNotDiscoveredReason := "NotDiscovered";
  conditions_Get o t := List.find (λ c, bool_decide (xc_Type c = t)) (eo_Conditions o);
  conditions_Set c o := Build_ExtensionConfigObject (eo_Config o) (eo_Annotations o) (eo_Generation o)
    (eo_DeletionTimestamp o) (c :: filter (λ c', xc_Type c' ≠ xc_Type c) (eo_Conditions o)) (eo_V1Beta1Conditions o);
  v1beta1_MarkDiscovered o := o; v1beta1_MarkNotDiscovered _ o := o
}.

(** Two extensions; the second loses its Discovered condition once the program runs. *)
Definition demo_object (name : string) (generation : Z) : ExtensionConfigObject :=
  Build_ExtensionConfigObject (demo_extension name [demo_handler (nameForHandler "update" name)]) None generation None
    [Build_ExtCondition "Discovered" ConditionTrue 1 "Discovered" ""] [].
Definition demo_config_env : EEnv := λ _ c,
  match c with
  | EListExtensionConfigs => inr [demo_object "a" 1; demo_object "b" 1]
  | EGetExtensionConfig "a" => inl ENotFound
  | EGetExtensionConfig _ => inr (demo_object "b" 2)
  | _ => inl EConnection
  end.

(** A deleted one goes; one that is not valid any more stays as it was registered. *)
Example demo_controller :
  let w := (@controller _ _ plain_extension_lib demo_range demo_config_env 3 ["a"; "b"] started).2 in
  map fst (map_to_list (items (e_registry w))) = ["update.b"] ∧ length (e_log w) = 3.
Proof. vm_compute. split; reflexivity. Qed.
