(* ===== verification/UserData.v ===== *)
(** * User data

    bootstrap/internal/cloudinit and bootstrap/internal/ignition: what a machine reads
    when it boots, as a cloud-config (cloudinit.go, controlplane_init.go,
    controlplane_join.go, worker_join.go) or as an Ignition configuration made from
    Butane's format (ignition.go, butane.go).  The texts are Go templates; a template
    is a function here, with the white space its dashes trim already trimmed, and the
    examples are the expectations of cloudinit_test.go.  YAML, the translation of
    Butane and the types of Ignition are parameters.  A version is put into the
    template before it is parsed: versions are taken to hold no template actions.

    [write_files_roundtrip] reads the files back from a cloud-config, and
    [install_script_order] the commands from the script Ignition installs. *)

From stdpp Require Import base tactics option list gmap strings numbers.
From Stdlib Require Import Ascii.
From S2P Require Import Prelude Go Api Objects Libs World BWorld Util Config Registries Bootstrap.
Open Scope string_scope.
Open Scope list_scope.
Open Scope stdpp_scope.

(** ** Strings *)

Definition nl : ascii := "010"%char.
Definition dq : ascii := "034"%char.
Definition nls : string := String nl "".

(** [strings.Repeat(" ", i)]. *)
Fixpoint spaces (i : nat) : string := match i with 0 => "" | S i => String " "%char (spaces i) end.

(** [printf "%q"] of a text of ASCII characters; other characters are taken to be
    printable, which are kept. *)
Definition hex_digit (n : nat) : ascii := default "0"%char (String.get n "0123456789abcdef").
Definition quote_char (c : ascii) : string :=
  let n := nat_of_ascii c in
  if bool_decide (c = dq) then String "\"%char (String dq "")
  else if bool_decide (c = "\"%char) then "\\"
  else if bool_decide (n = 7)%nat then "\a" else if bool_decide (n = 8)%nat then "\b"
  else if bool_decide (n = 12)%nat then "\f" else if bool_decide (n = 10)%nat then "\n"
  else if bool_decide (n = 13)%nat then "\r" else if bool_decide (n = 9)%nat then "\t"
  else if bool_decide (n = 11)%nat then "\v"
  else if bool_decide (n < 32 ∨ n = 127)%nat
  then "\x" +:+ String (hex_digit (n `div` 16)) (String (hex_digit (n `mod` 16)) "")
  else String c "".
Fixpoint quote_body (s : string) : string :=
  match s with EmptyString => "" | String c s => quote_char c +:+ quote_body s end.
Definition Quote (s : string) : string := String dq (quote_body s +:+ String dq "").

(** [templateYAMLIndent] of cloudinit.go and of butane.go: the second leaves the first
    line to the template. *)
Definition Indent_rest (i : nat) (input : string) : string := Join (Split input nl) (nls +:+ spaces i).
Definition Indent (i : nat) (input : string) : string := spaces i +:+ Indent_rest i input.

Fixpoint concat_map {A} (f : A → string) (l : list A) : string :=
  match l with [] => "" | x :: l => f x +:+ concat_map f l end.

(** ** cloudinit.go *)

Class UserDataLib := {
  YValue : Type;
  yaml_Unmarshal : string → error + gmap string YValue;
  yaml_Encode : gmap string YValue → error + string;
  (* Butane and Ignition: reports are whether they have entries, and are fatal *)
  IgnConfig : Type;
  fcos_ToIgn3_3Bytes : string → error + (string * (bool * bool));
  ignition_Parse : string → error + (IgnConfig * (bool * bool));
  ignition_Merge : IgnConfig → IgnConfig → IgnConfig;
  clear_Filesystems : IgnConfig → IgnConfig; (* cfg.Storage.Filesystems = {} *)
  json_IgnConfig : IgnConfig → error + string;
  (* the configuration replaced by a compressed source *)
  json_Encapsulated : string → string → string → error + string
}.

Section user_data.
Context `{UserDataLib, GoSort}.

Definition defaultYamlIndent : nat := 2.
Definition cloudConfigHeader : string := "## template: jinja" +:+ nls +:+ "#cloud-config" +:+ nls.
Definition sentinelFileCommand : string := "echo success > /run/cluster-api/bootstrap-success.complete".
Definition ignoredFields : list string := ["runcmd"; "write_files"; "ntp"].

Definition file_text (f : File) : string :=
  nls +:+ "-   path: " +:+ f_Path f +:+ nls +:+ "    " +:+
  (if decide (f_Encoding f = "") then "" else
     "encoding: " +:+ String dq (f_Encoding f +:+ String dq (nls +:+ "    "))) +:+
  (if decide (f_Owner f = "") then "" else "owner: " +:+ f_Owner f +:+ nls +:+ "    ") +:+
  (if decide (f_Permissions f = "") then "" else "permissions: '" +:+ f_Permissions f +:+ "'" +:+ nls +:+ "    ") +:+
  "content: |" +:+ nls +:+ Indent 6 (f_Content f).
Definition filesTemplate (l : list File) : string := "write_files:" +:+ concat_map file_text l.
Definition commandsTemplate (l : list string) : string := concat_map (λ c, nls +:+ "  - " +:+ Quote c) l.
Definition ntpTemplate (l : list string) : string :=
  match l with
  | [] => ""
  | _ => "ntp:" +:+ nls +:+ "  enabled: true" +:+ nls +:+ "  servers:" +:+ commandsTemplate l
  end.

(** A template ranges over a map in the order of its keys. *)
Definition sorted_entries (m : strmap) : list (string * string) :=
  go_sort (λ x y, str_lt x.1 y.1) (map_to_list (default ∅ m)).
Definition arbitraryTemplate (m : strmap) : string :=
  concat_map (λ kv, nls +:+ kv.1 +:+ ": " +:+ kv.2) (sorted_entries m).

Definition cleanupAdditionalCloudInit (cloudInitData : string) : outcome string :=
  match yaml_Unmarshal cloudInitData with
  | inl e => Err (EWrap "failed to unmarshal additional cloud-init data" e)
  | inr m =>
      match yaml_Encode (foldr (λ field m, delete field m) m ignoredFields) with
      | inl e => Err (EWrap "failed to marshal additional cloud-init data" e)
      | inr res => Ok (if decide (res = "{}" +:+ nls) then "" else res)
      end
  end.

Definition cleanupArbitraryData (arbitraryData : strmap) : outcome unit :=
  if decide (default ∅ arbitraryData = ∅) then Ok tt
  else
    match yaml_Unmarshal (arbitraryTemplate arbitraryData) with
    | inl e => Err (EWrap "failed to unmarshal arbitrary cloud-init data" e)
    | inr _ => Ok tt
    end.

(** ** The templates *)

Definition line (s : string) : string := nls +:+ "  - " +:+ s.
Definition checksum_command (sum : string) : string :=
  "[[ $(sha256sum /opt/rke2-artifacts/sha256sum*.txt | awk '{print $1}') == " +:+ sum +:+ " ]] || exit 1".
Definition checksum_line (u : UserDataInput) : string :=
  if decide (ud_AirGappedChecksum u = "") then "" else line (checksum_command (ud_AirGappedChecksum u)).
Definition cis_line (u : UserDataInput) : string :=
  if ud_CISEnabled u then line "'/opt/rke2-cis-script.sh'" else "".

Definition controlPlaneCloudInit (u : UserDataInput) (files : list File) (additional : string) : string :=
  cloudConfigHeader +:+ nls +:+ filesTemplate files +:+ nls +:+ ntpTemplate (elems (ud_NTPServers u)) +:+ nls +:+
  arbitraryTemplate (ud_AdditionalArbitraryData u) +:+ nls +:+ nls +:+ "runcmd:" +:+
  commandsTemplate (elems (ud_PreRKE2Commands u)) +:+ checksum_line u +:+
  line (if ud_AirGapped u then "INSTALL_RKE2_ARTIFACT_PATH=/opt/rke2-artifacts sh /opt/install.sh"
        else "'curl -sfL https://get.rke2.io | INSTALL_RKE2_VERSION=" +:+ ud_RKE2Version u +:+ " sh -s - server'") +:+
  cis_line u +:+
  line "'systemctl mask rke2-agent.service || true'" +:+
  line "'systemctl enable rke2-server.service'" +:+
  line "'systemctl start rke2-server.service'" +:+
  line "'mkdir -p /run/cluster-api'" +:+
  line ("'" +:+ sentinelFileCommand +:+ "'") +:+
  commandsTemplate (elems (ud_PostRKE2Commands u)) +:+ nls +:+ additional.

Definition agent_type : string := "INSTALL_RKE2_TYPE=" +:+ String dq ("agent" +:+ String dq "").
Definition workerCloudInit (u : UserDataInput) (files : list File) (additional : string) : string :=
  cloudConfigHeader +:+ nls +:+ filesTemplate files +:+ nls +:+ ntpTemplate (elems (ud_NTPServers u)) +:+ nls +:+
  arbitraryTemplate (ud_AdditionalArbitraryData u) +:+ nls +:+ "runcmd:" +:+
  commandsTemplate (elems (ud_PreRKE2Commands u)) +:+ checksum_line u +:+
  line ("'" +:+ (if ud_AirGapped u
                 then "INSTALL_RKE2_ARTIFACT_PATH=/opt/rke2-artifacts " +:+ agent_type +:+ " sh /opt/install.sh"
                 else "curl -sfL https://get.rke2.io | INSTALL_RKE2_VERSION=" +:+ ud_RKE2Version u +:+ " " +:+
                      agent_type +:+ " sh -s -") +:+ "'") +:+
  cis_line u +:+
  line "'systemctl mask rke2-server.service || true'" +:+
  line "'systemctl enable rke2-agent.service'" +:+
  line "'systemctl start rke2-agent.service'" +:+
  line "'mkdir -p /run/cluster-api'" +:+
  line ("'" +:+ sentinelFileCommand +:+ "'") +:+
  commandsTemplate (elems (ud_PostRKE2Commands u)) +:+ nls +:+ additional.

(** The files of a kind of machine: only the first one brings the certificates. *)
Definition init_files (u : UserDataInput) : list File := ud_WriteFiles u ++ ud_Certificates u ++ [ud_ConfigFile u].
Definition join_files (u : UserDataInput) : list File := ud_WriteFiles u ++ [ud_ConfigFile u].

(** The template is rendered without an error once the additional data is clean. *)
Definition generate (template : UserDataInput → list File → string → string) (u : UserDataInput)
    (files : list File) : outcome string :=
  additional ← cleanupAdditionalCloudInit (ud_AdditionalCloudInit u);
  _ ← cleanupArbitraryData (ud_AdditionalArbitraryData u);
  Ok (template u files additional).

Definition NewInitControlPlane (u : UserDataInput) : outcome string := generate controlPlaneCloudInit u (init_files u).
Definition NewJoinControlPlane (u : UserDataInput) : outcome string := generate controlPlaneCloudInit u (join_files u).
Definition NewJoinWorker (u : UserDataInput) : outcome string := generate workerCloudInit u (join_files u).
End user_data.

(** ** Samples: the expectations of cloudinit_test.go *)

#[export] Instance plain_user_data : UserDataLib := {
  YValue := string;
  yaml_Unmarshal s := inr (if decide (s = "") then ∅ else {[ "data" := s ]});
  yaml_Encode m := inr (if decide (m = ∅) then "{}" +:+ nls else default "" (m !! "data"));
  IgnConfig := list string;
  fcos_ToIgn3_3Bytes s := inr (s, (false, false)); ignition_Parse s := inr ([s], (false, false));
  ignition_Merge a b := a ++ b; clear_Filesystems c := c; json_IgnConfig c := inr (Join c "+");
  json_Encapsulated v c s := inr (v +:+ c +:+ s)
}.

Definition plain_input : UserDataInput :=
  Build_UserDataInput false "" false None None (Build_File "" "" "" "" "" None) "v1.25.6+rke2r1" [] None "" None [].
Definition joined (l : list string) : string := Join l nls.

Example worker_airgapped_checksum :
  NewJoinWorker (Build_UserDataInput true "abcd" false None None (Build_File "" "" "" "" "" None) "" [] None "" None [])
  = Ok (joined ["## template: jinja"; "#cloud-config"; ""; "write_files:"; "-   path: "; "    content: |"; "      ";
                ""; ""; "runcmd:";
                "  - [[ $(sha256sum /opt/rke2-artifacts/sha256sum*.txt | awk '{print $1}') == abcd ]] || exit 1";
                "  - 'INSTALL_RKE2_ARTIFACT_PATH=/opt/rke2-artifacts " +:+ agent_type +:+ " sh /opt/install.sh'";
                "  - 'systemctl mask rke2-server.service || true'"; "  - 'systemctl enable rke2-agent.service'";
                "  - 'systemctl start rke2-agent.service'"; "  - 'mkdir -p /run/cluster-api'";
                "  - 'echo success > /run/cluster-api/bootstrap-success.complete'"; ""]).
Proof. vm_compute. reflexivity. Qed.

Example worker_ntp_cis_arbitrary :
  NewJoinWorker (Build_UserDataInput false "" true None None (Build_File "" "" "" "" "" None) "v1.25.6+rke2r1" []
    (Some ["test.ntp.org"]) "" (Some (<["users" := joined [""; "- name: capv"; ""]]> {["list" := joined [""; "- data"; ""]]})) [])
  = Ok (joined ["## template: jinja"; "#cloud-config"; ""; "write_files:"; "-   path: "; "    content: |"; "      ";
                "ntp:"; "  enabled: true"; "  servers:"; "  - " +:+ Quote "test.ntp.org"; ""; "list: "; "- data"; "";
                "users: "; "- name: capv"; ""; "runcmd:";
                "  - 'curl -sfL https://get.rke2.io | INSTALL_RKE2_VERSION=v1.25.6+rke2r1 " +:+ agent_type +:+ " sh -s -'";
                "  - '/opt/rke2-cis-script.sh'";
                "  - 'systemctl mask rke2-server.service || true'"; "  - 'systemctl enable rke2-agent.service'";
                "  - 'systemctl start rke2-agent.service'"; "  - 'mkdir -p /run/cluster-api'";
                "  - 'echo success > /run/cluster-api/bootstrap-success.complete'"; ""]).
Proof. vm_compute. reflexivity. Qed.

(** ** Lines *)

Lemma sapp_assoc a b c : (a +:+ b) +:+ c = a +:+ (b +:+ c).
Proof. induction a as [|x a IH]; [done|]. change (String x ((a +:+ b) +:+ c) = String x (a +:+ (b +:+ c))). by rewrite IH. Qed.
Lemma sapp_cons x a b : String x a +:+ b = String x (a +:+ b).
Proof. done. Qed.
Lemma sapp_nil b : "" +:+ b = b.
Proof. done. Qed.

Lemma Split_sapp c a b : Split (a +:+ String c b) c = Split a c ++ Split b c.
Proof.
  induction a as [|x a IH]; rewrite ?sapp_nil, ?sapp_cons; cbn [Split].
  - by rewrite decide_True.
  - case_decide; [by rewrite IH|]. rewrite IH. pose proof (Split_not_nil a c). by destruct (Split a c).
Qed.

Lemma free_of_app c a b : free_of c (a +:+ b) = free_of c a && free_of c b.
Proof. induction a as [|x a IH]; [done|]. rewrite sapp_cons. cbn. by rewrite IH, andb_assoc. Qed.

(** A document made of lines is split into them. *)
Lemma Join_cons a b l sep : Join (a :: b :: l) sep = a +:+ (sep +:+ Join (b :: l) sep).
Proof. done. Qed.
Lemma Split_lines ls t :
  ls ≠ [] → Forall (λ l, free_of nl l = true) ls → Split (Join ls nls +:+ String nl t) nl = ls ++ Split t nl.
Proof. intros Hne Hf. rewrite Split_sapp. unfold nls. by rewrite Split_Join. Qed.

(** What [Indent] does to the lines. *)
Lemma Indent_lines i s :
  Indent i s = Join (map (λ l, spaces i +:+ l) (Split s nl)) nls.
Proof.
  unfold Indent, Indent_rest. generalize (Split_not_nil s nl). destruct (Split s nl) as [|w ws]; [done|]. intros _.
  revert w. induction ws as [|w' ws IH]; intros w; [done|].
  specialize (IH w'). cbn [map] in *. rewrite !Join_cons, <-IH. by rewrite !sapp_assoc.
Qed.

Lemma spaces_free i : free_of nl (spaces i) = true.
Proof. induction i; [done|]. cbn. by rewrite IHi. Qed.

(** ** The files section as lines *)

Section files.
Context `{UserDataLib, GoSort}.

Definition opt (b : bool) (s : string) : list string := if b then [s] else [].
Definition file_options (f : File) : list string :=
  opt (bool_decide (f_Encoding f ≠ "")) ("encoding: " +:+ String dq (f_Encoding f +:+ String dq "")) ++
  opt (bool_decide (f_Owner f ≠ "")) ("owner: " +:+ f_Owner f) ++
  opt (bool_decide (f_Permissions f ≠ "")) ("permissions: '" +:+ f_Permissions f +:+ "'") ++
  ["content: |"].
Definition content_lines (f : File) : list string := map (λ l, spaces 6 +:+ l) (Split (f_Content f) nl).
Definition file_lines (f : File) : list string :=
  ("-   path: " +:+ f_Path f) :: map (λ l, "    " +:+ l) (file_options f) ++ content_lines f.

Lemma content_lines_cons f : ∃ l ls, content_lines f = l :: ls.
Proof.
  unfold content_lines. pose proof (Split_not_nil (f_Content f) nl). destruct (Split _ nl); [done|]. cbn. eauto.
Qed.

Lemma file_text_lines f : file_text f = nls +:+ Join (file_lines f) nls.
Proof.
  unfold file_text, file_lines, file_options, opt. rewrite Indent_lines. fold (content_lines f).
  destruct (content_lines_cons f) as (l & ls & ->).
  repeat case_decide; repeat case_bool_decide; try done;
    cbn [app map]; rewrite !Join_cons, ?sapp_nil, ?sapp_assoc, ?sapp_cons, ?sapp_assoc, ?sapp_nil; reflexivity.
Qed.

(** ** Reading the files back

    A reader of the files section, as YAML reads it: a literal block is indented by
    the spaces of its first line, and ends before the first line with fewer. *)

Fixpoint strip (p s : string) : option string :=
  match p, s with
  | EmptyString, _ => Some s
  | String a p, String b s => if decide (a = b) then strip p s else None
  | String _ _, EmptyString => None
  end.
Fixpoint leading (s : string) : nat :=
  match s with
  | String c s => if decide (c = " "%char) then S (leading s) else 0
  | EmptyString => 0
  end.
Fixpoint take_block (d : nat) (ls : list string) : list string * list string :=
  match ls with
  | [] => ([], [])
  | l :: rest =>
      match strip (spaces d) l with
      | Some l' => let '(b, r) := take_block d rest in (l' :: b, r)
      | None => ([], ls)
      end
  end.
Definition read_block (ls : list string) : string * list string :=
  match ls with
  | [] => ("", [])
  | l :: _ => let '(b, r) := take_block (leading l) ls in (Join b nls, r)
  end.
Definition read_option (key : string) (ls : list string) : string * list string :=
  match ls with
  | [] => ("", [])
  | l :: rest => match strip key l with Some v => (v, rest) | None => ("", ls) end
  end.
(** Without the quote at the end. *)
Definition unquoted (q : ascii) (s : string) : string := default "" (before_last q s).

Definition read_file (ls : list string) : option (File * list string) :=
  match ls with
  | [] => None
  | l :: ls =>
      path ← strip "-   path: " l;
      let '(encoding, ls) := read_option ("    encoding: " +:+ String dq "") ls in
      let '(owner, ls) := read_option "    owner: " ls in
      let '(permissions, ls) := read_option "    permissions: '" ls in
      match ls with
      | [] => None
      | l :: ls =>
          _ ← strip "    content: |" l;
          let '(content, ls) := read_block ls in
          Some (Build_File path owner (unquoted "'"%char permissions) (unquoted dq encoding) content None, ls)
      end
  end.
Fixpoint read_files (n : nat) (ls : list string) : list File * list string :=
  match n with
  | 0 => ([], ls)
  | S n => match read_file ls with
           | Some (f, ls) => let '(fs, r) := read_files n ls in (f :: fs, r)
           | None => ([], ls)
           end
  end.
(** The files of a cloud-config, after the three lines of its header. *)
Definition read_write_files (doc : string) : option (list File) :=
  match Split doc nl with
  | _ :: _ :: _ :: l :: ls => if decide (l = "write_files:") then Some (read_files (length ls) ls).1 else None
  | _ => None
  end.

(** A file that YAML can hold like that: its attributes are single lines, and its
    content begins with a character that is neither a space nor a line end. *)
Record readable (f : File) : Prop := {
  rd_path : free_of nl (f_Path f) = true;
  rd_encoding : free_of nl (f_Encoding f) = true;
  rd_owner : free_of nl (f_Owner f) = true;
  rd_permissions : free_of nl (f_Permissions f) = true;
  rd_content : match f_Content f with
               | String c _ => c ≠ " "%char ∧ c ≠ nl
               | EmptyString => False
               end;
  rd_resolved : f_ContentFrom f = None
}.

Lemma strip_app p s : strip p (p +:+ s) = Some s.
Proof. induction p as [|c p IH]; [by destruct s|]. rewrite sapp_cons. cbn. by rewrite decide_True. Qed.

Lemma leading_spaces i s :
  match s with String c _ => c ≠ " "%char | EmptyString => True end → leading (spaces i +:+ s) = i.
Proof.
  intros Hs. induction i as [|i IH].
  - change (leading s = 0). destruct s; [done|]. cbn. by rewrite decide_False.
  - change (leading (String " "%char (spaces i +:+ s)) = S i). cbn [leading]. by rewrite decide_True, IH.
Qed.

(** What follows a block: a line that is indented less. *)
Definition ends_block (ls : list string) : Prop :=
  match ls with l :: _ => strip (spaces 6) l = None | [] => True end.

Lemma take_block_lines ws r :
  ends_block r → take_block 6 (map (λ l, spaces 6 +:+ l) ws ++ r) = (ws, r).
Proof.
  intros Hr. induction ws as [|w ws IH].
  - change (take_block 6 r = ([], r)). destruct r as [|l r]; [done|]. cbn [take_block].
    unfold ends_block in Hr. by rewrite Hr.
  - cbn [map app take_block]. by rewrite strip_app, IH.
Qed.

Lemma Join_Split s : Join (Split s nl) nls = s.
Proof.
  induction s as [|c s IH]; [done|]. cbn [Split]. pose proof (Split_not_nil s nl) as Hn.
  case_decide as Hc.
  - subst c. destruct (Split s nl) as [|w ws]; [done|]. rewrite Join_cons. rewrite IH. done.
  - destruct (Split s nl) as [|w ws]; [done|]. destruct ws as [|w' ws].
    + unfold Join in *. cbn in *. by rewrite IH.
    + rewrite Join_cons in *. by rewrite sapp_cons, IH.
Qed.

Lemma read_content f r :
  readable f → ends_block r → read_block (content_lines f ++ r) = (f_Content f, r).
Proof.
  intros Hf Hr. unfold read_block. destruct (content_lines_cons f) as (l & ls & El). rewrite El. cbn [app].
  assert (leading l = 6) as ->.
  { unfold content_lines in El. pose proof (rd_content f Hf) as Hc.
    destruct (f_Content f) as [|c s]; [done|]. destruct Hc as [Hsp Hnl]. cbn [Split] in El.
    rewrite decide_False in El by done.
    assert (∃ w, l = spaces 6 +:+ String c w) as [w ->]
      by (destruct (Split s nl); injection El as <- _; eexists; reflexivity).
    by apply leading_spaces. }
  change (l :: ls ++ r) with ((l :: ls) ++ r). rewrite <-El. unfold content_lines.
  rewrite take_block_lines by done. by rewrite Join_Split.
Qed.

Lemma before_last_end q s : before_last q (s +:+ String q "") = Some s.
Proof. by rewrite before_last_app. Qed.

(** An option that is there, and one that is not. *)
Lemma read_option_some key v l r : l = key +:+ v → read_option key (l :: r) = (v, r).
Proof. intros ->. cbn [read_option]. by rewrite strip_app. Qed.
Lemma read_option_none key l r : strip key l = None → read_option key (l :: r) = ("", l :: r).
Proof. intros Hk. cbn [read_option]. by rewrite Hk. Qed.

Lemma read_file_lines f r :
  readable f → ends_block r → read_file (file_lines f ++ r) = Some (f, r).
Proof.
  intros Hf Hr. unfold read_file, file_lines. cbn [app]. rewrite strip_app. cbn [mbind option_bind].
  rewrite <-app_assoc. unfold file_options, opt.
  repeat case_bool_decide; cbn [app map];
    repeat first [rewrite (read_option_some _ (f_Encoding f +:+ String dq "")) by reflexivity
                 |rewrite (read_option_some _ (f_Owner f)) by reflexivity
                 |rewrite (read_option_some _ (f_Permissions f +:+ "'")) by reflexivity
                 |rewrite read_option_none by reflexivity];
    rewrite (strip_app "    content: |" "" : strip _ ("    " +:+ "content: |") = Some "");
    cbn [mbind option_bind]; rewrite read_content by done; unfold unquoted; rewrite ?before_last_end;
    do 2 f_equal; pose proof (rd_resolved f Hf) as Hn; destruct f; cbn in *; f_equal; try done;
    symmetry; by apply dec_stable.
Qed.

Lemma read_files_lines l r n :
  Forall readable l → (length l ≤ n)%nat →
  match r with [] => False | x :: _ => strip (spaces 6) x = None ∧ strip "-   path: " x = None end →
  read_files n (concat (map file_lines l) ++ r) = (l, r).
Proof.
  intros Hl Hn Hr. revert n Hn. induction Hl as [|f l Hf Hl IH]; intros n Hn.
  - destruct r as [|x r]; [done|]. destruct n as [|n]; [done|].
    cbn [map concat app read_files]. unfold read_file. by rewrite (proj2 Hr).
  - destruct n as [|n]; [cbn in Hn; lia|]. cbn [map concat read_files]. rewrite <-app_assoc.
    rewrite read_file_lines; [|done|].
    + rewrite IH; [done|]. cbn in Hn. lia.
    + destruct l as [|g l]; [by destruct r; [|apply Hr]|]. reflexivity.
Qed.

Lemma file_lines_free f : readable f → Forall (λ l, free_of nl l = true) (file_lines f).
Proof.
  intros [Hp He Ho Hm _ _]. unfold file_lines. constructor; [by rewrite free_of_app, Hp|].
  apply Forall_app. split.
  - unfold file_options, opt. apply list.Forall_forall. intros l (w & -> & Hw)%list_elem_of_fmap.
    rewrite free_of_app. cbn [free_of]. rewrite !elem_of_app in Hw.
    destruct Hw as [Hw|[Hw|[Hw|Hw%list_elem_of_singleton]]]; [match type of Hw with context [if ?b then _ else _] => destruct b end..|by subst w];
      try (by apply elem_of_nil in Hw); apply list_elem_of_singleton in Hw as ->;
      rewrite ?free_of_app; cbn [free_of]; rewrite ?free_of_app; cbn [free_of]; rewrite ?He, ?Ho, ?Hm; reflexivity.
  - unfold content_lines. apply list.Forall_forall. intros l (w & -> & Hw)%list_elem_of_fmap.
    rewrite free_of_app, spaces_free. cbn. pose proof (Split_free_words nl (f_Content f)) as Hf.
    rewrite list.Forall_forall in Hf. by apply Hf.
Qed.

Lemma Join_flatten a b sep : a ≠ [] → Join (Join a sep :: b) sep = Join (a ++ b) sep.
Proof.
  intros Ha. destruct b as [|y b]; [by rewrite app_nil_r|]. rewrite Join_cons.
  induction a as [|x [|x' a] IH]; [done|done|]. cbn [app] in *. rewrite !Join_cons, <-IH by done.
  by rewrite !sapp_assoc.
Qed.

(** The files section as lines. *)
Lemma filesTemplate_lines l : filesTemplate l = Join ("write_files:" :: concat (map file_lines l)) nls.
Proof.
  unfold filesTemplate. generalize "write_files:". induction l as [|f l IH]; intros w; cbn [concat_map map concat].
  - by rewrite str_app_nil_r.
  - rewrite file_text_lines, sapp_assoc, IH, Join_flatten by done.
    by destruct (file_lines f ++ concat (map file_lines l)) eqn:E.
Qed.

(** Any of the user data: the header, the files, a line end, and a line that is neither
    part of a content nor a file. *)
Lemma read_rendered l t :
  Forall readable l →
  match Split t nl with [] => False | x :: _ => strip (spaces 6) x = None ∧ strip "-   path: " x = None end →
  read_write_files (cloudConfigHeader +:+ nls +:+ filesTemplate l +:+ nls +:+ t) = Some l.
Proof.
  intros Hl Ht. unfold read_write_files.
  assert (Split (cloudConfigHeader +:+ nls +:+ filesTemplate l +:+ nls +:+ t) nl =
    ["## template: jinja"; "#cloud-config"; ""; "write_files:"] ++ concat (map file_lines l) ++ Split t nl) as ->.
  { change (["## template: jinja"; "#cloud-config"; ""; "write_files:"] ++ concat (map file_lines l) ++ Split t nl)
      with (("## template: jinja" :: "#cloud-config" :: "" :: "write_files:" :: concat (map file_lines l)) ++ Split t nl).
    rewrite <-Split_lines; [|done|].
    - change (String nl t) with (nls +:+ t). rewrite filesTemplate_lines.
      generalize (concat (map file_lines l)). intros L. rewrite !Join_cons. unfold cloudConfigHeader.
      rewrite !sapp_assoc, sapp_nil. done.
    - repeat (constructor; [reflexivity|]). apply Forall_concat, list.Forall_forall.
      intros ls (f & -> & Hf)%list_elem_of_fmap. rewrite list.Forall_forall in Hl. by apply file_lines_free, Hl. }
  cbn [app]. rewrite decide_True by done. rewrite read_files_lines; [done|done| |done].
  rewrite length_app. clear. induction l as [|f l IH]; cbn [map concat length]; [lia|].
  rewrite length_app. unfold file_lines at 1. cbn [length]. lia.
Qed.

Lemma after_files l t :
  match Split (ntpTemplate l +:+ nls +:+ t) nl with
  | [] => False
  | x :: _ => strip (spaces 6) x = None ∧ strip "-   path: " x = None
  end.
Proof.
  destruct l as [|a l].
  - cbn [ntpTemplate]. rewrite sapp_nil. change (nls +:+ t) with ("" +:+ String nl t). by rewrite Split_sapp.
  - unfold ntpTemplate. rewrite !sapp_assoc.
    assert (∀ x, Split ("ntp:" +:+ (nls +:+ x)) nl = "ntp:" :: Split x nl) as Hs
      by (intros x; apply (Split_sapp nl "ntp:" x)).
    by rewrite Hs.
Qed.

(** What the controller calls for each kind of machine. *)
Definition cloudinit (k : UserDataKind) (u : UserDataInput) : outcome string :=
  match k with
  | InitControlPlane => NewInitControlPlane u
  | JoinControlPlane => NewJoinControlPlane u
  | JoinWorker => NewJoinWorker u
  end.
Definition kind_files (k : UserDataKind) (u : UserDataInput) : list File :=
  match k with InitControlPlane => init_files u | _ => join_files u end.

Lemma write_files_run k u out :
  cloudinit k u = Ok out → Forall readable (kind_files k u) →
  read_write_files out = Some (kind_files k u).
Proof.
  intros Ho Hf. assert (∃ t, out = cloudConfigHeader +:+ nls +:+ filesTemplate (kind_files k u) +:+ nls +:+
    (ntpTemplate (elems (ud_NTPServers u)) +:+ nls +:+ t)) as [t ->].
  { destruct k; cbn [cloudinit kind_files] in *;
      unfold NewInitControlPlane, NewJoinControlPlane, NewJoinWorker, generate in Ho;
      destruct (cleanupAdditionalCloudInit _) as [additional|e|p]; try done;
      destruct (cleanupArbitraryData _) as [[]|e|p]; try done; injection Ho as <-; eexists; reflexivity. }
  apply read_rendered; [done|]. apply after_files.
Qed.


(** Rendering fails only on YAML that cannot be read or written. *)
Theorem cloudinit_total k u :
  (∃ m s, yaml_Unmarshal (ud_AdditionalCloudInit u) = inr m ∧
     yaml_Encode (foldr (λ field m, delete field m) m ignoredFields) = inr s) →
  (default ∅ (ud_AdditionalArbitraryData u) = ∅ ∨
   ∃ m, yaml_Unmarshal (arbitraryTemplate (ud_AdditionalArbitraryData u)) = inr m) →
  ∃ out, cloudinit k u = Ok out.
Proof.
  intros (m & s & Hu & He) Ha.
  assert (∃ a, cleanupAdditionalCloudInit (ud_AdditionalCloudInit u) = Ok a) as [a Hadd]
    by (unfold cleanupAdditionalCloudInit; rewrite Hu, He; eauto).
  assert (cleanupArbitraryData (ud_AdditionalArbitraryData u) = Ok tt) as Harb.
  { unfold cleanupArbitraryData. case_decide; [done|]. destruct Ha as [?|[m' ->]]; done. }
  destruct k; unfold cloudinit, NewInitControlPlane, NewJoinControlPlane, NewJoinWorker, generate;
    rewrite Hadd; cbn [mbind outcome_bind]; rewrite Harb; eexists; reflexivity.
Qed.
End files.

Definition demo_readable (path content : string) : File := Build_File path "root:root" "0600" "base64" content None.
Definition demo_user_data_input : UserDataInput :=
  Build_UserDataInput false "" false None None (demo_readable "/etc/rancher/rke2/config.yaml" "cni: canal")
    "v1.25.6+rke2r1" [demo_readable "/etc/a" (joined ["a"; ""; "-   path: /etc/shadow"; "  b"; "runcmd:"])]
    (Some ["ntp"]) "" None [demo_readable "/ca.crt" "ca"].


(** A content that begins with a space is read without it, and only up to the first
    line that is indented less. *)
Example leading_space_lost :
  read_block (content_lines (demo_readable "/etc/a" (joined ["  a"; "b"]))) = ("a", ["      b"]).
Proof. vm_compute. reflexivity. Qed.

(** ** Ignition: the commands (ignition.go) *)

Definition airGappedControlPlaneCommand : string := "INSTALL_RKE2_ARTIFACT_PATH=/opt/rke2-artifacts sh /opt/install.sh".
Definition controlPlaneCommand (version : string) : string :=
  "curl -sfL https://get.rke2.io | INSTALL_RKE2_VERSION=" +:+ version +:+ " sh -s - server".
Definition airGappedWorkerCommand : string :=
  "INSTALL_RKE2_ARTIFACT_PATH=/opt/rke2-artifacts " +:+ agent_type +:+ " sh /opt/install.sh".
Definition workerCommand (version : string) : string :=
  "curl -sfL https://get.rke2.io | INSTALL_RKE2_VERSION=" +:+ version +:+ " " +:+ agent_type +:+ " sh -s -".
Definition cisPreparationCommand : string := "/opt/rke2-cis-script.sh".
Definition deployCommands (service : string) : list string :=
  ["setenforce 0"; "restorecon /etc/systemd/system/" +:+ service; "systemctl enable --now " +:+ service;
   "mkdir -p /run/cluster-api /etc/cluster-api";
   "echo success | tee /run/cluster-api/bootstrap-success.complete /etc/cluster-api/bootstrap-success.complete > /dev/null";
   "setenforce 1"].
Definition serverDeployCommands : list string := deployCommands "rke2-server.service".
Definition workerDeployCommands : list string := deployCommands "rke2-agent.service".

(** A nil pointer is [None]. *)
Definition getRKE2Commands (baseUserData : option UserDataInput) (command : string → string)
    (airgappedCommand : string) (systemdServices : list string) : outcome (list string) :=
  match baseUserData with
  | None => Err (EText "base user data can't be nil")
  | Some u =>
      if decide (ud_RKE2Version u = "") then Err (EText "rke2 version can't be empty")
      else
        Ok ((if ud_AirGapped u && bool_decide (ud_AirGappedChecksum u ≠ "")
             then [checksum_command (ud_AirGappedChecksum u); airgappedCommand]
             else if ud_AirGapped u then [airgappedCommand]
             else [command (ud_RKE2Version u)]) ++
            (if ud_CISEnabled u then [cisPreparationCommand] else []) ++ systemdServices)
  end.
Definition getControlPlaneRKE2Commands (u : option UserDataInput) : outcome (list string) :=
  getRKE2Commands u controlPlaneCommand airGappedControlPlaneCommand serverDeployCommands.
Definition getWorkerRKE2Commands (u : option UserDataInput) : outcome (list string) :=
  getRKE2Commands u workerCommand airGappedWorkerCommand workerDeployCommands.

Definition removeSemanageCmd (cmds : list string) : list string :=
  filter (λ cmd, HasPrefix cmd "semanage" = false) cmds.

(** ** Butane (butane.go) *)

(** [strings.TrimSpace], of ASCII. *)
Definition is_space (c : ascii) : bool :=
  let n := nat_of_ascii c in bool_decide (n = 32 ∨ 9 ≤ n ≤ 13)%nat.
Fixpoint trim_left (s : string) : string :=
  match s with String c s' => if is_space c then trim_left s' else s | EmptyString => "" end.
Fixpoint trim_right (s : string) : string :=
  match s with
  | EmptyString => ""
  | String c s =>
      match trim_right s with
      | EmptyString => if is_space c then "" else String c ""
      | t => String c t
      end
  end.
Definition TrimSpace (s : string) : string := trim_left (trim_right s).

Definition parseEntity (entity : string) : option string :=
  if decide (entity = "") then None else Some (TrimSpace entity).
Definition owner_of (ownerRaw : string) : option string * option string :=
  if decide (ownerRaw = "") then (None, None)
  else
    match Split ownerRaw ":"%char with
    | user :: group :: _ => (parseEntity user, parseEntity group)
    | [user] => (parseEntity user, None)
    | [] => (None, None)
    end.

(** What the template reads of [cloudinit.BaseUserData]. *)
Record ButaneInput := {
  bi_PreRKE2Commands : list string; bi_DeployRKE2Commands : list string; bi_PostRKE2Commands : list string;
  bi_WriteFiles : list File; bi_NTPServers : list string
}.

(** The template: its units, its storage, and the head of the install script. *)
Definition butane_units : list string :=
  ["";
   "variant: fcos";
   "version: 1.4.0";
   "systemd:";
   "  units:";
   "    - name: rke2-install.service";
   "      enabled: true";
   "      contents: |";
   "        [Unit]";
   "        Description=rke2-install";
   "        Wants=network-online.target dbus.service";
   "        After=network-online.target network.target dbus.service";
   "        ConditionPathExists=!/etc/cluster-api/bootstrap-success.complete";
   "        [Service]";
   "        User=root";
   "        # To not restart the unit when it exits, as it is expected.";
   "        Type=oneshot";
   "        ExecStart=/etc/rke2-install.sh";
   "        [Install]";
   "        WantedBy=multi-user.target"].
Definition butane_storage : list string :=
  ["storage:";
   "  filesystems:";
   "    - path: /opt";
   "      device: " +:+ String dq ("/dev/disk/by-partlabel/p.lxroot" +:+ String dq "");
   "      format: btrfs";
   "      wipe_filesystem: false";
   "      mount_options:";
   "       - " +:+ String dq ("subvol=/@/opt" +:+ String dq "");
   "  files:";
   "    - path: /etc/ssh/sshd_config.d/010-rke2.conf";
   "      mode: 0600";
   "      overwrite: true";
   "      contents:";
   "        inline: |";
   "          # Use most defaults for sshd configuration.";
   "          Subsystem sftp internal-sftp";
   "          ClientAliveInterval 180";
   "          UseDNS no";
   "          UsePAM yes";
   "          PrintLastLog no # handled by PAM";
   "          PrintMotd no # handled by PAM"].
Definition script_path : string := "    - path: /etc/rke2-install.sh".
Definition butane_script_options : list string :=
  ["      mode: 0700"; "      overwrite: true"; "      contents:"; "        inline: |"].
Definition butane_script_head : list string :=
  script_path :: butane_script_options ++ ["          #!/bin/bash"; "          set -euo pipefail"].
Definition chrony_head : list string :=
  ["    - path: /etc/chrony.conf";
   "      mode: 0644";
   "      overwrite: true";
   "      contents:";
   "        inline: |";
   "          # Configured by RKE2 CAPI bootstrap provider"].
Definition chrony_tail : list string :=
  ["          driftfile /var/lib/chrony/drift";
   "          makestep 1.0 3";
   "          rtcsync";
   "          ntsdumpdir /var/lib/chrony";
   "          logdir /var/log/chrony";
   "          include /etc/chrony.d/*.conf";
   "          sourcedir /run/chrony-dhcp"].

Definition butane_file (f : File) : string :=
  let '(user, group) := owner_of (f_Owner f) in
  nls +:+ "    - path: " +:+ f_Path f +:+ nls +:+ "      " +:+
  (match user with Some u => "user:" +:+ nls +:+ "        name: " +:+ u | None => "" end) +:+ nls +:+ "      " +:+
  (match group with Some g => "group:" +:+ nls +:+ "        name: " +:+ g | None => "" end) +:+ nls +:+
  "      # Owner" +:+ nls +:+ "      " +:+
  (if decide (f_Permissions f = "") then "" else "mode: " +:+ f_Permissions f +:+ nls +:+ "      ") +:+
  "overwrite: true" +:+ nls +:+ "      contents:" +:+ nls +:+ "        " +:+
  (if decide (f_Encoding f = "base64") then "inline: !!binary |" else "inline: |") +:+
  nls +:+ spaces 10 +:+ Indent_rest 10 (f_Content f).
Definition script_commands (l : list string) : string :=
  nls +:+ spaces 10 +:+ concat_map (λ c, nls +:+ spaces 10 +:+ Indent_rest 10 c) l.

(** What NTP servers add: a unit, and the configuration of chrony. *)
Definition chronyd_unit (servers : list string) : string :=
  match servers with
  | [] => ""
  | _ => nls +:+ "    - name: chronyd.service" +:+ nls +:+ "      enabled: true"
  end.
Definition chrony_file (servers : list string) : string :=
  match servers with
  | [] => ""
  | _ => nls +:+ joined chrony_head +:+ concat_map (λ s, nls +:+ "          server " +:+ s) servers +:+ nls +:+
         joined chrony_tail
  end.

Definition butaneTemplate (i : ButaneInput) : string :=
  joined butane_units +:+ chronyd_unit (bi_NTPServers i) +:+ nls +:+
  joined butane_storage +:+ concat_map butane_file (bi_WriteFiles i) +:+ nls +:+
  joined butane_script_head +:+ script_commands (bi_PreRKE2Commands i) +:+ nls +:+
  script_commands (bi_DeployRKE2Commands i) +:+ nls +:+ script_commands (bi_PostRKE2Commands i) +:+
  chrony_file (bi_NTPServers i) +:+ nls.

Section ignition.
Context `{UserDataLib}.

Definition renderButane (i : ButaneInput) : outcome string := Ok (butaneTemplate i).

Definition butaneToIgnition (data : string) (strict : bool) : outcome IgnConfig :=
  match fcos_ToIgn3_3Bytes data with
  | inl e => Err (EWrap "error converting to Ignition" e)
  | inr (ignBytes, (entries, fatal)) =>
      if (entries && strict) || fatal : bool then Err (EText "error converting to Ignition")
      else
        match ignition_Parse ignBytes with
        | inl e => Err (EWrap "error parsing resulting Ignition" e)
        | inr (cfg, (entries, fatal)) =>
            if (entries && strict) || fatal : bool then Err (EText "error parsing resulting Ignition") else Ok cfg
        end
  end.

Definition owrap {A} (msg : string) (o : outcome A) : outcome A :=
  match o with Err e => Err (EWrap msg e) | o => o end.
Definition of_sum_outcome {A} (s : error + A) : outcome A := match s with inl e => Err e | inr a => Ok a end.

Definition Render (input : option ButaneInput) (butaneCfg : option AdditionalUserData) : outcome string :=
  match input with
  | None => Err (EText "empty base user data")
  | Some input =>
      butaneBytes ← renderButane input;
      cfg ← owrap "converting base config to Ignition" (butaneToIgnition butaneBytes true);
      cfg ← match butaneCfg with
            | Some b =>
                if decide (aud_Config b = "") then Ok cfg
                else
                  addCfg ← owrap "converting additional config to Ignition"
                             (butaneToIgnition (aud_Config b) (aud_Strict b));
                  Ok (ignition_Merge (if Contains (aud_Config b) "variant: flatcar" then clear_Filesystems cfg else cfg)
                        addCfg)
            | None => Ok cfg
            end;
      owrap "marshaling Ignition config into JSON" (of_sum_outcome (json_IgnConfig cfg))
  end.

Definition EncapsulateGzippedConfig (gzippedConfig : string) : outcome string :=
  owrap "marshaling Ignition config into JSON"
    (of_sum_outcome (json_Encapsulated "3.3.0" "gzip" ("data:text/plain;base64," +:+ base64 gzippedConfig))).

(** [ignitionConfig.Config] is read although the pointer may be nil. *)
Definition render (input : ButaneInput) (ignitionConfig : option AdditionalUserData) : outcome string :=
  match ignitionConfig with
  | None => Panic "nil pointer dereference"
  | Some c =>
      let additionalButaneConfig := if decide (aud_Config c = "") then Build_AdditionalUserData "" None false else c in
      let input := if Contains (aud_Config c) "variant: flatcar"
                   then Build_ButaneInput (bi_PreRKE2Commands input) (removeSemanageCmd (bi_DeployRKE2Commands input))
                          (bi_PostRKE2Commands input) (bi_WriteFiles input) (bi_NTPServers input)
                   else input in
      Render (Some input) (Some additionalButaneConfig)
  end.

Definition butane_input (u : UserDataInput) (deploy : list string) (files : list File) : ButaneInput :=
  Build_ButaneInput (elems (ud_PreRKE2Commands u)) deploy (elems (ud_PostRKE2Commands u)) files (elems (ud_NTPServers u)).

(** An input, which may be nil, holds the user data, which may be nil too, and the
    additional configuration. *)
Definition IgnitionInput : Type := option (option UserDataInput * option AdditionalUserData).

Definition ign_NewJoinWorker (input : IgnitionInput) : outcome string :=
  match input with
  | None => Err (EText "input can't be nil")
  | Some (None, _) => Err (EText "base userdata can't be nil")
  | Some (Some u, additional) =>
      deployRKE2Command ← owrap "failed to get rke2 command" (getWorkerRKE2Commands (Some u));
      render (butane_input u deployRKE2Command (join_files u)) additional
  end.

(** Both kinds of control plane machines bring the certificates: a joining one has
    none. *)
Definition controlPlaneConfigInput (input : IgnitionInput) : outcome (ButaneInput * option AdditionalUserData) :=
  match input with
  | None => Err (EText "input can't be nil")
  | Some (None, _) => Err (EText "controlplane input can't be nil")
  | Some (Some u, additional) =>
      deployRKE2Command ← owrap "failed to get rke2 command" (getControlPlaneRKE2Commands (Some u));
      Ok (butane_input u deployRKE2Command (init_files u), additional)
  end.
Definition ign_NewControlPlane (input : IgnitionInput) : outcome string :=
  '(processedInput, additional) ← owrap "failed to process controlplane input" (controlPlaneConfigInput input);
  render processedInput additional.
End ignition.

(** ** The install script, read back from the Butane configuration

    The lines of a literal block at a depth; blank lines belong to it whatever their
    length, and the shell skips them. *)

Fixpoint after_line (l0 : string) (ls : list string) : list string :=
  match ls with [] => [] | l :: ls => if decide (l = l0) then ls else after_line l0 ls end.
Fixpoint take_literal (d : nat) (ls : list string) : list string :=
  match ls with
  | [] => []
  | l :: ls =>
      match strip (spaces d) l with
      | Some l' => l' :: take_literal d ls
      | None => if decide (l = spaces (leading l)) then "" :: take_literal d ls else []
      end
  end.
Definition nonempty_lines (ls : list string) : list string := filter (λ l, l ≠ "") ls.
Definition script_of (doc : string) : list string :=
  nonempty_lines (take_literal 10 (drop 4 (after_line script_path (Split doc nl)))).
Definition command_lines (cmds : list string) : list string :=
  nonempty_lines (concat (map (λ c, Split c nl) cmds)).

(** The files that can be told from the script: their attributes are on one line. *)
Record plain_file (f : File) : Prop := {
  pf_path : free_of nl (f_Path f) = true;
  pf_other : f_Path f ≠ "/etc/rke2-install.sh";
  pf_owner : free_of nl (f_Owner f) = true;
  pf_permissions : free_of nl (f_Permissions f) = true
}.

Lemma Split_nl a b : Split (a +:+ nls +:+ b) nl = Split a nl ++ Split b nl.
Proof. apply Split_sapp. Qed.

Lemma Split_concat_map {A} (g : A → string) l a :
  Split (a +:+ concat_map (λ c, nls +:+ g c) l) nl = Split a nl ++ concat (map (λ c, Split (g c) nl) l).
Proof.
  revert a. induction l as [|c l IH]; intros a; cbn [concat_map map concat].
  - by rewrite str_app_nil_r, app_nil_r.
  - by rewrite sapp_assoc, Split_nl, IH.
Qed.

Lemma Split_Indent i s : Split (Indent i s) nl = map (λ l, spaces i +:+ l) (Split s nl).
Proof.
  rewrite Indent_lines. apply Split_Join.
  - pose proof (Split_not_nil s nl). by destruct (Split s nl).
  - apply list.Forall_forall. intros x (l & -> & Hl)%list_elem_of_fmap. rewrite free_of_app, spaces_free. cbn.
    pose proof (Split_free_words nl s) as Hf. rewrite list.Forall_forall in Hf. by apply Hf.
Qed.

(** Finding the script. *)
Lemma after_line_app l0 a b : Forall (λ l, l ≠ l0) a → after_line l0 (a ++ l0 :: b) = b.
Proof.
  induction 1 as [|l a Hl _ IH]; cbn [app after_line]; [by rewrite decide_True|by rewrite decide_False].
Qed.

(** Reading its lines. *)
Lemma take_literal_lines d ws r : take_literal d (map (λ l, spaces d +:+ l) ws ++ r) = ws ++ take_literal d r.
Proof. induction ws as [|w ws IH]; [done|]. cbn [map app take_literal]. by rewrite strip_app, IH. Qed.

Lemma trim_left_free c s : free_of c s = true → free_of c (trim_left s) = true.
Proof.
  induction s as [|x s IH]; [done|]. intros Hs. cbn [trim_left]. destruct (is_space x); [|done].
  apply IH. by apply andb_true_iff in Hs as [_ ?].
Qed.
Lemma trim_right_free c s : free_of c s = true → free_of c (trim_right s) = true.
Proof.
  induction s as [|x s IH]; [done|]. cbn [free_of trim_right]. intros [Hx Hs]%andb_true_iff. specialize (IH Hs).
  destruct (trim_right s); [destruct (is_space x)|]; cbn [free_of] in *; by rewrite ?Hx, ?IH.
Qed.
Lemma parseEntity_free c s t : free_of c s = true → parseEntity s = Some t → free_of c t = true.
Proof.
  intros Hs. unfold parseEntity. case_decide; [done|]. intros [= <-]. by apply trim_left_free, trim_right_free.
Qed.
Lemma Split_parts_free c d s : free_of c s = true → Forall (λ w, free_of c w = true) (Split s d).
Proof.
  induction s as [|x s IH]; [by repeat constructor|]. cbn [free_of Split]. intros [Hx Hs]%andb_true_iff.
  specialize (IH Hs). destruct (decide (x = d)) as [|_]; [by constructor|].
  destruct (Split s d) as [|w ws]; [by repeat constructor; cbn; rewrite Hx|].
  apply list.Forall_cons in IH as [Hw Hws]. constructor; [cbn; by rewrite Hx, Hw|done].
Qed.
Lemma owner_of_free c s u g :
  free_of c s = true → owner_of s = (u, g) →
  (∀ t, u = Some t → free_of c t = true) ∧ (∀ t, g = Some t → free_of c t = true).
Proof.
  intros Hs. unfold owner_of. case_decide; [by intros [= <- <-]|].
  pose proof (Split_parts_free c ":"%char s Hs) as Hp.
  destruct (Split s ":"%char) as [|w [|w' ws]]; [by intros [= <- <-]| |];
    apply list.Forall_cons in Hp as [Hw Hp]; [|apply list.Forall_cons in Hp as [Hw' _]];
    intros [= <- <-]; split; try done; intros t; by apply parseEntity_free.
Qed.

(** No line of a file is the one that names the script. *)
Definition no_script (s : string) : Prop := Forall (λ l, l ≠ script_path) (Split s nl).

Lemma no_script_nl a b : no_script a → no_script b → no_script (a +:+ nls +:+ b).
Proof. unfold no_script. rewrite Split_nl. intros ??. by apply Forall_app. Qed.
Lemma no_script_line s : free_of nl s = true → no_script ("      " +:+ s).
Proof.
  intros Hs. unfold no_script. rewrite Split_free by (by rewrite free_of_app, Hs). by repeat constructor.
Qed.
Lemma no_script_content s : no_script (spaces 10 +:+ Indent_rest 10 s).
Proof.
  unfold no_script. change (spaces 10 +:+ Indent_rest 10 s) with (Indent 10 s). rewrite Split_Indent.
  apply list.Forall_forall. by intros x (l & -> & _)%list_elem_of_fmap.
Qed.
Lemma no_script_name label o t :
  free_of nl label = true → (∀ u, o = Some u → free_of nl u = true) → no_script t →
  no_script ("      " +:+ (match o with Some u => label +:+ nls +:+ "        name: " +:+ u | None => "" end) +:+ nls +:+ t).
Proof.
  intros Hl Ho Ht. destruct o as [u|].
  - specialize (Ho u eq_refl). rewrite !sapp_assoc, <-(sapp_assoc "      " label).
    apply no_script_nl; [by apply no_script_line|]. rewrite <-(sapp_assoc "        name: ").
    apply no_script_nl; [|done]. by apply (no_script_line ("  name: " +:+ u)).
  - rewrite sapp_nil. apply no_script_nl; [by apply (no_script_line "")|done].
Qed.

Lemma no_script_file f :
  plain_file f → ∃ t, butane_file f = nls +:+ t ∧ no_script t.
Proof.
  intros [Hp Hne Ho Hm]. unfold butane_file. destruct (owner_of (f_Owner f)) as [user group] eqn:E.
  destruct (owner_of_free nl _ _ _ Ho E) as [Hu Hg]. eexists. split; [reflexivity|].
  rewrite <-(sapp_assoc "    - path: "). apply no_script_nl.
  { unfold no_script. rewrite Split_free by (by rewrite free_of_app, Hp). repeat constructor.
    intros Heq. apply Hne. change script_path with ("    - path: " +:+ "/etc/rke2-install.sh") in Heq.
    by injection Heq. }
  apply no_script_name; [done|done|]. apply no_script_name; [done|done|].
  apply no_script_nl; [by apply (no_script_line "# Owner")|].
  assert (no_script ("      " +:+ "overwrite: true" +:+ nls +:+ "      contents:" +:+ nls +:+ "        " +:+
    (if decide (f_Encoding f = "base64") then "inline: !!binary |" else "inline: |") +:+
    nls +:+ spaces 10 +:+ Indent_rest 10 (f_Content f))) as Hrest.
  { apply (no_script_nl "      overwrite: true"); [by apply (no_script_line "overwrite: true")|].
    apply (no_script_nl "      contents:"); [by apply (no_script_line "contents:")|].
    rewrite <-(sapp_assoc "        "). apply no_script_nl; [|apply no_script_content].
    by case_decide; [apply (no_script_line "  inline: !!binary |")|apply (no_script_line "  inline: |")]. }
  destruct (decide (f_Permissions f = "")); [by rewrite sapp_nil|].
  rewrite !sapp_assoc, <-(sapp_assoc "mode: "), <-(sapp_assoc "      ").
  apply no_script_nl; [|exact Hrest]. apply no_script_line. by rewrite free_of_app, Hm.
Qed.

Lemma no_script_files a l : no_script a → Forall plain_file l → no_script (a +:+ concat_map butane_file l).
Proof.
  intros Ha Hl. revert a Ha. induction Hl as [|f l Hf _ IH]; intros a Ha; cbn [concat_map].
  - by rewrite str_app_nil_r.
  - destruct (no_script_file f Hf) as (t & -> & Ht). rewrite <-(sapp_assoc a). apply IH. by apply no_script_nl.
Qed.

(** The lines of the script. *)
Lemma Split_script_commands a l :
  Split (a +:+ script_commands l) nl =
    Split a nl ++ map (λ x, spaces 10 +:+ x) ("" :: concat (map (λ c, Split c nl) l)).
Proof.
  unfold script_commands. rewrite Split_nl.
  change (λ c, nls +:+ spaces 10 +:+ Indent_rest 10 c) with (λ c, nls +:+ Indent 10 c).
  rewrite Split_concat_map. f_equal. cbn [map]. f_equal.
  induction l as [|c l IH]; [done|]. cbn [map concat]. by rewrite Split_Indent, IH, map_app.
Qed.

Lemma nonempty_app a b : nonempty_lines (a ++ b) = nonempty_lines a ++ nonempty_lines b.
Proof. apply list.filter_app. Qed.
Lemma command_lines_app a b : command_lines (a ++ b) = command_lines a ++ command_lines b.
Proof. unfold command_lines. by rewrite map_app, concat_app, nonempty_app. Qed.

(** What follows the commands: the end of the text, or the next file. *)
Definition script_end (r : list string) : Prop := nonempty_lines (take_literal 10 r) = [].

Lemma script_block pre deploy post r :
  script_end r →
  nonempty_lines (take_literal 10
    (map (λ x, spaces 10 +:+ x) ("#!/bin/bash" :: "set -euo pipefail" :: "" :: concat (map (λ c, Split c nl) pre)) ++
     "" :: map (λ x, spaces 10 +:+ x) ("" :: concat (map (λ c, Split c nl) deploy)) ++
     "" :: map (λ x, spaces 10 +:+ x) ("" :: concat (map (λ c, Split c nl) post)) ++ r)) =
  ["#!/bin/bash"; "set -euo pipefail"] ++ command_lines (pre ++ deploy ++ post).
Proof.
  intros Hr. rewrite !command_lines_app.
  assert (∀ ws x, take_literal 10 (map (λ x, spaces 10 +:+ x) ws ++ "" :: x) = ws ++ "" :: take_literal 10 x) as Hb
    by (intros; by rewrite take_literal_lines).
  rewrite !Hb, take_literal_lines. unfold script_end in Hr.
  change (nonempty_lines ("#!/bin/bash" :: ?l)) with ("#!/bin/bash" :: nonempty_lines l).
  cbn [app]. unfold nonempty_lines, command_lines in *.
  repeat first [rewrite filter_cons_True by done | rewrite filter_cons_False by auto | rewrite list.filter_app].
  rewrite Hr, app_nil_r. done.
Qed.

Definition script_part (l : list string) : list string :=
  map (λ x, spaces 10 +:+ x) ("" :: concat (map (λ c, Split c nl) l)).

Lemma butane_split u1 u2 s1 s2 h a b c t r :
  (∀ x, Split (x +:+ t) nl = Split x nl ++ r) →
  Split (u1 +:+ u2 +:+ nls +:+ s1 +:+ s2 +:+ nls +:+ h +:+ script_commands a +:+ nls +:+
         script_commands b +:+ nls +:+ script_commands c +:+ t) nl =
    Split ((u1 +:+ u2) +:+ nls +:+ (s1 +:+ s2)) nl ++ Split h nl ++ script_part a ++
    "" :: script_part b ++ "" :: script_part c ++ r.
Proof.
  intros Ht.
  transitivity (Split ((u1 +:+ u2) +:+ nls +:+ (s1 +:+ s2) +:+ nls +:+ (h +:+ script_commands a) +:+ nls +:+
    ("" +:+ script_commands b) +:+ nls +:+ (("" +:+ script_commands c) +:+ t)) nl).
  { by rewrite !sapp_assoc, !sapp_nil. }
  rewrite !Split_nl, Ht, !Split_script_commands. unfold script_part. by rewrite <-!app_assoc.
Qed.

Lemma script_end_head x l t :
  l ≠ [] → free_of nl x = true → strip (spaces 10) x = None → x ≠ spaces (leading x) →
  script_end (Split (joined (x :: l) +:+ t) nl).
Proof.
  intros Hl Hx Hs Hb. destruct l as [|y l]; [done|]. unfold joined, script_end.
  rewrite Join_cons, !sapp_assoc, Split_nl, (Split_free _ x) by done. cbn [app take_literal].
  by rewrite Hs, decide_False.
Qed.

Lemma butane_lines i :
  Forall plain_file (bi_WriteFiles i) →
  ∃ before r, Split (butaneTemplate i) nl =
    before ++ script_path :: butane_script_options ++
    ["          #!/bin/bash"; "          set -euo pipefail"] ++ script_part (bi_PreRKE2Commands i) ++
    "" :: script_part (bi_DeployRKE2Commands i) ++ "" :: script_part (bi_PostRKE2Commands i) ++ r ∧
    Forall (λ l, l ≠ script_path) before ∧ script_end r.
Proof.
  intros Hf.
  set (units := joined butane_units +:+ chronyd_unit (bi_NTPServers i)).
  assert (no_script units) as Hu
    by (subst units; destruct (bi_NTPServers i); apply (bool_decide_unpack _); vm_compute; exact I).
  set (storage := joined butane_storage +:+ concat_map butane_file (bi_WriteFiles i)).
  assert (no_script storage) as Hs
    by (apply no_script_files; [apply (bool_decide_unpack _); vm_compute; exact I|done]).
  assert (∃ r, (∀ a, Split (a +:+ chrony_file (bi_NTPServers i) +:+ nls) nl = Split a nl ++ r) ∧ script_end r)
    as (r & Er & Hr).
  { destruct (bi_NTPServers i) as [|s l].
    - exists [""]. split; [|done]. intros a. apply (Split_nl a "").
    - eexists. split; [intros a; unfold chrony_file; rewrite !sapp_assoc; apply Split_nl|].
      apply script_end_head; done. }
  exists (Split (units +:+ nls +:+ storage) nl), r. split; [|split; [exact (no_script_nl _ _ Hu Hs)|exact Hr]].
  subst units storage. exact (butane_split _ _ _ _ _ _ _ _ _ r Er).
Qed.

(** The install script runs the commands of the configuration before and after the
    installation, in order, and between them what installs RKE2: the checksum of the
    artifacts is verified first when there is one, then the installer runs, then the
    CIS preparation when it is asked for, and only then the service starts.  This is
    what a literal block reader finds in the Butane configuration at the path of the
    script, whatever the user's files contain, as long as no file has that path and
    paths, owners and permissions are on one line. *)
Theorem install_script_order (worker : bool) u deploy files :
  (if worker then getWorkerRKE2Commands (Some u) else getControlPlaneRKE2Commands (Some u)) = Ok deploy →
  Forall plain_file files →
  script_of (butaneTemplate (butane_input u deploy files)) =
    ["#!/bin/bash"; "set -euo pipefail"] ++ command_lines (
      elems (ud_PreRKE2Commands u) ++
      (if ud_AirGapped u && bool_decide (ud_AirGappedChecksum u ≠ "")
       then [checksum_command (ud_AirGappedChecksum u)] else []) ++
      [if ud_AirGapped u then (if worker then airGappedWorkerCommand else airGappedControlPlaneCommand)
       else if worker then workerCommand (ud_RKE2Version u) else controlPlaneCommand (ud_RKE2Version u)] ++
      (if ud_CISEnabled u then [cisPreparationCommand] else []) ++
      (if worker then workerDeployCommands else serverDeployCommands) ++
      elems (ud_PostRKE2Commands u)).
Proof.
  intros Hd Hf. unfold script_of.
  destruct (butane_lines (butane_input u deploy files) Hf) as (before & r & -> & Hb & Hr).
  rewrite after_line_app by done. change (drop 4 (butane_script_options ++ ?l)) with l.
  etransitivity; [apply (script_block _ _ _ r Hr)|]. cbn [butane_input bi_PreRKE2Commands bi_DeployRKE2Commands bi_PostRKE2Commands].
  do 2 f_equal. f_equal.
  destruct worker; unfold getWorkerRKE2Commands, getControlPlaneRKE2Commands, getRKE2Commands in Hd;
    case_decide; try done; injection Hd as <-;
    destruct (ud_AirGapped u), (bool_decide _); cbn [andb app]; rewrite <-?app_assoc; reflexivity.
Qed.

Lemma install_script_order_witness :
  getWorkerRKE2Commands (Some (demo_user_data_input)) =
    Ok (workerCommand "v1.25.6+rke2r1" :: workerDeployCommands) ∧
  script_of (butaneTemplate (butane_input demo_user_data_input
    (workerCommand "v1.25.6+rke2r1" :: workerDeployCommands) (join_files demo_user_data_input))) =
    ["#!/bin/bash"; "set -euo pipefail"] ++ command_lines ([workerCommand "v1.25.6+rke2r1"] ++ workerDeployCommands).
Proof.
  split; [vm_compute; reflexivity|].
  apply (install_script_order true demo_user_data_input (workerCommand "v1.25.6+rke2r1" :: workerDeployCommands)
    (join_files demo_user_data_input)); [vm_compute; reflexivity|].
  repeat constructor; vm_compute; congruence.
Defined.

(** Dropping the semanage commands for Flatcar drops nothing: there is none. *)
Example no_semanage_command b :
  let cmds := if b : bool then workerDeployCommands else serverDeployCommands in removeSemanageCmd cmds = cmds.
Proof. by destruct b; vm_compute. Qed.

(** Without an additional Ignition configuration every kind of machine fails alike. *)
Theorem nil_ignition_panics `{UserDataLib} u :
  ud_RKE2Version u ≠ "" →
  ign_NewJoinWorker (Some (Some u, None)) = Panic "nil pointer dereference" ∧
  ign_NewControlPlane (Some (Some u, None)) = Panic "nil pointer dereference".
Proof.
  intros Hv. unfold ign_NewJoinWorker, ign_NewControlPlane, controlPlaneConfigInput, getWorkerRKE2Commands,
    getControlPlaneRKE2Commands, getRKE2Commands. by rewrite !decide_False.
Qed.
