(* ===== verification/Certificates.v ===== *)
(** * Certificates

    pkg/secret/certificates.go: the certificate authorities of a cluster, generated
    once, kept in secrets of the management cluster, and copied to the machines.

    [Secrets] is the state of the server, with a number for the next API call and one
    for the next draw of randomness; [ApiServer] says which calls fail, before or after
    their effect, and what others do to the secrets before a call.  Keys and X.509 are
    parameters; the template of a certificate is data.  Methods of the interface
    [Certificate] are those of its one implementation.  A certificate of the list is a
    value here: the code shares pointers to them, but every caller drops the list when
    an error is returned, and no list holds a pointer twice.

    [certificates_once] is the contract: whatever fails, all runs that succeed agree on
    the certificates, and these are the ones in the secrets. *)

From stdpp Require Import base tactics option list gmap strings numbers.
From S2P Require Import Prelude Go Api Objects Libs World Config.
Open Scope string_scope.
Open Scope list_scope.
Open Scope stdpp_scope.

(** ** Secrets on the server *)

Definition ObjectKey : Type := string * string. (* namespace and name *)

Record ClusterSecret := {
  cse_Key : ObjectKey; cse_Labels : gmap string string; cse_OwnerReferences : list OwnerReference;
  cse_Data : strmap; cse_Type : string
}.
#[global] Instance ClusterSecret_eq_dec : EqDecision ClusterSecret.
Proof. solve_decision. Defined.
Abbreviation Store := (gmap ObjectKey ClusterSecret).

Record Secrets := { se_store : Store; se_calls : nat; se_draws : nat }.
Abbreviation SC := (comp Secrets).

Class ApiServer := {
  traffic : nat → Store → Store;
  (* an error, and whether a write was made before it *)
  fault : nat → option (error * bool);
  wall_clock : nat → Time
}.

Section server.
Context `{ApiServer}.

(** One call: the others come first. *)
Definition call {A} (f : Store → outcome A * Store) (partial : Store → Store) : SC A := λ w,
  let m := traffic (se_calls w) (se_store w) in
  match fault (se_calls w) with
  | Some (e, applied) =>
      (Err e, Build_Secrets (if applied : bool then partial m else m) (S (se_calls w)) (se_draws w))
  | None => let '(o, m') := f m in (o, Build_Secrets m' (S (se_calls w)) (se_draws w))
  end.

Definition insert_new (s : ClusterSecret) (m : Store) : Store :=
  match m !! cse_Key s with Some _ => m | None => <[cse_Key s := s]> m end.

Definition api_Get (key : ObjectKey) : SC ClusterSecret :=
  call (λ m, (match m !! key with Some s => Ok s | None => Err ENotFound end, m)) id.
Definition api_Create (s : ClusterSecret) : SC unit :=
  call (λ m, match m !! cse_Key s with
             | Some _ => (Err EAlreadyExists, m)
             | None => (Ok tt, <[cse_Key s := s]> m)
             end) (insert_new s).
(** An update of an object that was read as [before]: it conflicts when the object
    has changed since. *)
Definition api_Update (before s : ClusterSecret) : SC unit :=
  call (λ m, match m !! cse_Key s with
             | None => (Err ENotFound, m)
             | Some cur => if decide (cur = before) then (Ok tt, <[cse_Key s := s]> m)
                           else (Err (EText "the object has been modified"), m)
             end)
       (λ m, if decide (m !! cse_Key s = Some before) then <[cse_Key s := s]> m else m).

(** A draw of randomness. *)
Definition draw : SC nat := λ w,
  (Ok (se_draws w), Build_Secrets (se_store w) (se_calls w) (S (se_draws w))).
(** [time.Now()] *)
Definition time_Now : SC Time := gets (λ w, wall_clock (se_calls w)).
End server.

(** ** Keys and certificates *)

Record KeyPair := { kp_Cert : string; kp_Key : string }.
#[global] Instance KeyPair_eq_dec : EqDecision KeyPair.
Proof. solve_decision. Defined.

Inductive KeyUsageBit := KeyUsageDigitalSignature | KeyUsageKeyEncipherment | KeyUsageCertSign.
Inductive ExtKeyUsageKind := ExtKeyUsageClientAuth.

(** What the code sets of an [x509.Certificate]. *)
Record CertificateTemplate := {
  ct_SerialNumber : Z; ct_CommonName : string; ct_Organization : list string;
  ct_NotBefore : Time; ct_NotAfter : Time; ct_KeyUsage : list KeyUsageBit;
  ct_ExtKeyUsage : list ExtKeyUsageKind;
  ct_MaxPathLenZero : bool; ct_BasicConstraintsValid : bool; ct_MaxPathLen : Z; ct_IsCA : bool
}.

(** A number is a draw of randomness. *)
Class X509 := {
  PrivateKey : Type;
  Certificate : Type;
  certs_NewPrivateKey : nat → error + PrivateKey;
  (* the template, the parent (none: the template itself), the key and the signer *)
  x509_CreateCertificate : nat → CertificateTemplate → option Certificate → PrivateKey → PrivateKey → error + string;
  x509_ParseCertificate : string → error + Certificate;
  EncodeCertPEM : Certificate → string;
  EncodePrivateKeyPEM : PrivateKey → string;
  EncodePublicKeyPEM : PrivateKey → error + string;
  (* a nil result is [None] *)
  DecodeCertPEM : string → error + option Certificate;
  DecodePrivateKeyPEM : string → error + option PrivateKey;
  (* certs.Config.NewSignedCert, with the name, the organizations and the usages *)
  NewSignedCert : nat → Time → string → list string → list ExtKeyUsageKind →
    PrivateKey → Certificate → PrivateKey → error + Certificate;
  (* clusterv1.ClusterSecretType *)
  ClusterSecret_Type : string
}.

Definition of_sum {A} (s : error + A) : outcome A := match s with inl e => Err e | inr a => Ok a end.

(** ** The package *)

Definition DefaultCertificatesDir : string := "/var/lib/rancher/rke2/server/tls".
Definition DefaultETCDCertificatesDir : string := DefaultCertificatesDir +:+ "/etcd".
Definition Kubeconfig : string := "kubeconfig".
Definition KubeconfigDataName : string := "value".
Definition EtcdCA : string := "peer-etcd".
Definition EtcdServerCA : string := "etcd".
Definition ClusterCA : string := "ca".
Definition ClientClusterCA : string := "cca".
Definition TLSKeyDataName : string := "tls.key".
Definition TLSCrtDataName : string := "tls.crt".
Definition APIServerEtcdClient : string := "apiserver-etcd-client".
Definition ServiceAccount : string := "sa".
Definition TenYears : Duration := (Hour * 24 * 365 * 10)%Z.

Record ManagedCertificate := {
  mc_External : bool; mc_Generated : bool; mc_Purpose : string; mc_KeyPair : option KeyPair;
  mc_CertFile : string; mc_KeyFile : string
}.
Definition SetKeyPair (kp : KeyPair) (c : ManagedCertificate) : ManagedCertificate :=
  Build_ManagedCertificate (mc_External c) (mc_Generated c) (mc_Purpose c) (Some kp) (mc_CertFile c) (mc_KeyFile c).
Definition set_Generated (c : ManagedCertificate) : ManagedCertificate :=
  Build_ManagedCertificate (mc_External c) true (mc_Purpose c) (mc_KeyPair c) (mc_CertFile c) (mc_KeyFile c).
Definition new_certificate (purpose certFile keyFile : string) : ManagedCertificate :=
  Build_ManagedCertificate false false purpose None certFile keyFile.

Definition NewCertificatesForLegacyControlPlane : list ManagedCertificate :=
  [new_certificate ClusterCA (DefaultCertificatesDir +:+ "/server-ca.crt") (DefaultCertificatesDir +:+ "/server-ca.key");
   new_certificate ClientClusterCA (DefaultCertificatesDir +:+ "/client-ca.crt")
     (DefaultCertificatesDir +:+ "/client-ca.key")].
Definition NewCertificatesForInitialControlPlane : list ManagedCertificate :=
  NewCertificatesForLegacyControlPlane ++
  [new_certificate EtcdCA (DefaultETCDCertificatesDir +:+ "/peer-ca.crt")
     (DefaultETCDCertificatesDir +:+ "/peer-ca.key");
   new_certificate EtcdServerCA (DefaultETCDCertificatesDir +:+ "/server-ca.crt")
     (DefaultETCDCertificatesDir +:+ "/server-ca.key")].

Definition Name (cluster suffix : string) : string := cluster +:+ "-" +:+ suffix.
Definition secret_key (clusterName : ObjectKey) (purpose : string) : ObjectKey :=
  (clusterName.1, Name clusterName.2 purpose).

Definition GetByPurpose (c : list ManagedCertificate) (purpose : string) : option ManagedCertificate :=
  List.find (λ certificate, bool_decide (mc_Purpose certificate = purpose)) c.

(** [secretToKeyPair]. *)
Definition secretToKeyPair (s : ClusterSecret) : outcome KeyPair :=
  match default ∅ (cse_Data s) !! TLSCrtDataName with
  | None => Err (EText "missing data for key tls.crt")
  | Some c => Ok (Build_KeyPair c (default "" (default ∅ (cse_Data s) !! TLSKeyDataName)))
  end.

Section certificates.
Context `{ApiServer, X509, CapiConsts}.

Definition asSecret (data : gmap string string) (purpose : string) (clusterName : ObjectKey) : ClusterSecret :=
  {| cse_Key := secret_key clusterName purpose; cse_Labels := {[ClusterNameLabel := clusterName.2]};
     cse_OwnerReferences := []; cse_Data := Some data; cse_Type := ClusterSecret_Type |}.

(** [AsSecret]: the key pair is a pointer that may be nil. *)
Definition AsSecret (c : ManagedCertificate) (clusterName : ObjectKey) (owner : OwnerReference) : outcome ClusterSecret :=
  match mc_KeyPair c with
  | None => Panic "nil pointer dereference"
  | Some kp =>
      let s := asSecret (<[TLSCrtDataName := kp_Cert kp]> {[TLSKeyDataName := kp_Key kp]}) (mc_Purpose c) clusterName in
      Ok (if mc_Generated c
          then Build_ClusterSecret (cse_Key s) (cse_Labels s) [owner] (cse_Data s) (cse_Type s) else s)
  end.

Definition certificate_file (path permissions content : string) : list File :=
  if decide (content = "") then [] else [Build_File path DefaultFileOwner permissions "" content None].
Definition certificate_AsFiles (c : ManagedCertificate) : outcome (list File) :=
  match mc_KeyPair c with
  | None => Panic "nil pointer dereference"
  | Some kp => Ok (certificate_file (mc_CertFile c) "0640" (kp_Cert kp) ++
                   certificate_file (mc_KeyFile c) "0600" (kp_Key kp))
  end.
Definition AsFiles (c : list ManagedCertificate) : outcome (list File) :=
  foldl (λ acc purpose,
      certFiles ← acc;
      match GetByPurpose c purpose with
      | Some certificate => files ← certificate_AsFiles certificate; Ok (certFiles ++ files)
      | None => Ok certFiles
      end)
    (Ok []) [ClusterCA; ClientClusterCA; EtcdCA; EtcdServerCA; APIServerEtcdClient].

(** ** Generating *)

(** [newSelfSignedCACert]. *)
Definition ca_template (now : Time) : CertificateTemplate :=
  {| ct_SerialNumber := 0%Z; ct_CommonName := "kubernetes"; ct_Organization := [];
     ct_NotBefore := Time_Add now (Minute * -5); ct_NotAfter := Time_Add now TenYears;
     ct_KeyUsage := [KeyUsageKeyEncipherment; KeyUsageDigitalSignature; KeyUsageCertSign]; ct_ExtKeyUsage := [];
     ct_MaxPathLenZero := true; ct_BasicConstraintsValid := true; ct_MaxPathLen := 0%Z; ct_IsCA := true |}.
Definition newSelfSignedCACert (key : PrivateKey) : SC Certificate :=
  now ← time_Now;
  n ← draw;
  b ← lift (match x509_CreateCertificate n (ca_template now) None key key with
            | inl e => Err (EWrap "failed to create self signed CA certificate" e)
            | inr b => Ok b
            end);
  lift (of_sum (x509_ParseCertificate b)).

Definition newCertificateAuthority : SC (Certificate * PrivateKey) :=
  n ← draw;
  key ← lift (of_sum (certs_NewPrivateKey n));
  c ← newSelfSignedCACert key;
  mret (c, key).

Definition generateCACert : SC KeyPair :=
  '(x509Cert, privKey) ← newCertificateAuthority;
  mret (Build_KeyPair (EncodeCertPEM x509Cert) (EncodePrivateKeyPEM privKey)).

Definition generateServiceAccountKeys : SC KeyPair :=
  n ← draw;
  saCreds ← lift (of_sum (certs_NewPrivateKey n));
  saPub ← lift (of_sum (EncodePublicKeyPEM saCreds));
  mret (Build_KeyPair saPub (EncodePrivateKeyPEM saCreds)).

(** [ManagedCertificate.Generate]. *)
Definition certificate_Generate (c : ManagedCertificate) : SC ManagedCertificate :=
  if decide (mc_Purpose c = APIServerEtcdClient) then mret c
  else
    kp ← (if decide (mc_Purpose c = ServiceAccount) then generateServiceAccountKeys else generateCACert);
    mret (set_Generated (SetKeyPair kp c)).

(** ** Looking up, generating and saving *)

(** A client that reads: the server, or a cache of it. *)
Definition Reader : Type := ObjectKey → SC ClusterSecret.

Definition certificate_Lookup (ctrlclient : Reader) (c : ManagedCertificate) (clusterName : ObjectKey)
    : SC (option ClusterSecret) :=
  r ← try (ctrlclient (secret_key clusterName (mc_Purpose c)));
  match r with
  | inl s => mret (Some s)
  | inr e =>
      if IsNotFound e then
        if mc_External c then fail (EWrap "external certificate not found" e) else mret None
      else fail e
  end.

(** The loop of [Lookup] ends at the first certificate without a secret: those after
    it are not looked up. *)
Fixpoint Lookup (ctrlclient : Reader) (c : list ManagedCertificate) (clusterName : ObjectKey)
    : SC (list ManagedCertificate) :=
  match c with
  | [] => mret []
  | certificate :: rest =>
      s ← certificate_Lookup ctrlclient certificate clusterName;
      match s with
      | None => mret (certificate :: rest)
      | Some s =>
          kp ← lift (secretToKeyPair s);
          rest ← Lookup ctrlclient rest clusterName;
          mret (SetKeyPair kp certificate :: rest)
      end
  end.

Fixpoint Generate (c : list ManagedCertificate) : SC (list ManagedCertificate) :=
  match c with
  | [] => mret []
  | certificate :: rest =>
      certificate ← match mc_KeyPair certificate with
                    | None => certificate_Generate certificate
                    | Some _ => mret certificate
                    end;
      rest ← Generate rest;
      mret (certificate :: rest)
  end.

Definition certificate_SaveGenerated (c : ManagedCertificate) (key : ObjectKey) (owner : OwnerReference) : SC unit :=
  s ← lift (AsSecret c key owner);
  r ← try (api_Get (cse_Key s));
  match r with
  | inl _ => mret tt
  | inr e =>
      if IsNotFound e then
        r ← try (api_Create s);
        match r with
        | inl _ => mret tt
        | inr e => if IsAlreadyExists e then mret tt else fail e
        end
      else fail e
  end.
Definition SaveGenerated (c : list ManagedCertificate) (clusterName : ObjectKey) (owner : OwnerReference) : SC unit :=
  for_each c (λ certificate, certificate_SaveGenerated certificate clusterName owner).

Definition LookupOrGenerate (c : list ManagedCertificate) (clusterName : ObjectKey) (owner : OwnerReference)
    : SC (list ManagedCertificate) :=
  c ← Lookup api_Get c clusterName;
  c ← Generate c;
  _ ← SaveGenerated c clusterName owner;
  mret c.

Definition GetFromNamespacedName (clusterName : ObjectKey) (purpose : string) : SC ClusterSecret :=
  api_Get (secret_key clusterName purpose).
End certificates.

(** ** The contract *)

(** A list of certificates to look up or generate: nothing loaded yet, none supplied
    by the user, one secret each. *)
Record to_manage (c : ManagedCertificate) : Prop := {
  tm_external : mc_External c = false;
  tm_purpose : mc_Purpose c ≠ APIServerEtcdClient;
  tm_pair : mc_KeyPair c = None
}.

Section contract.
Context `{ApiServer, X509, CapiConsts}.
Context (cn : ObjectKey).

Definition ckey (c : ManagedCertificate) : ObjectKey := secret_key cn (mc_Purpose c).

(** The secrets were written in the order of the list: none after a missing one.
    [LookupOrGenerate] writes them in this order, and [Lookup] relies on it. *)
Fixpoint in_order (m : Store) (l : list ManagedCertificate) : Prop :=
  match l with
  | [] => True
  | c :: l => match m !! ckey c with
              | Some _ => in_order m l
              | None => Forall (λ c, m !! ckey c = None) l
              end
  end.

(** The key pair is that of the secret. *)
Definition agrees (m : Store) (c : ManagedCertificate) : Prop :=
  ∃ kp s, mc_KeyPair c = Some kp ∧ m !! ckey c = Some s ∧ secretToKeyPair s = Ok kp.
(** ... or will be. *)
Definition compatible (m : Store) (c : ManagedCertificate) : Prop :=
  ∃ kp, mc_KeyPair c = Some kp ∧ ∀ s, m !! ckey c = Some s → secretToKeyPair s = Ok kp.

(** The others leave the secrets with these keys alone, and a failed call is neither a
    missing object nor one that exists: both are answers. *)
Record well_behaved (K : list ObjectKey) : Prop := {
  wb_traffic : ∀ n m key, key ∈ K → traffic n m !! key = m !! key;
  wb_fault : ∀ n e b, fault n = Some (e, b) → IsNotFound e = false ∧ IsAlreadyExists e = false
}.

Definition same_on (K : list ObjectKey) (m m' : Store) : Prop := ∀ key, key ∈ K → m' !! key = m !! key.
(** What was stored stays as it is. *)
Definition grows_on (K : list ObjectKey) (m m' : Store) : Prop :=
  ∀ key s, key ∈ K → m !! key = Some s → m' !! key = Some s.

Context (K : list ObjectKey) (HK : well_behaved K).

Lemma same_on_trans m1 m2 m3 : same_on K m1 m2 → same_on K m2 m3 → same_on K m1 m3.
Proof. intros Ha Hb key Hk. by rewrite Hb, Ha. Qed.
Lemma same_grows m m' : same_on K m m' → grows_on K m m'.
Proof. intros Hs key s Hk Hm. by rewrite Hs. Qed.
Lemma grows_on_trans m1 m2 m3 : grows_on K m1 m2 → grows_on K m2 m3 → grows_on K m1 m3.
Proof. unfold grows_on. eauto. Qed.

(** The calls, as seen from these keys. *)
Lemma api_Get_spec key w :
  key ∈ K →
  wp (api_Get key) (λ o w', same_on K (se_store w) (se_store w') ∧
    match o with
    | Ok s => se_store w !! key = Some s
    | Err e => IsNotFound e = true → se_store w !! key = None
    | Panic _ => False
    end) w.
Proof.
  intros Hk. unfold wp, api_Get, call. destruct (fault (se_calls w)) as [[e b]|] eqn:Ef; cbn.
  - split; [destruct b; intros k Hk'; by apply (wb_traffic K HK)|].
    destruct (wb_fault K HK _ _ _ Ef) as [-> _]. done.
  - split; [intros k Hk'; by apply (wb_traffic K HK)|].
    rewrite (wb_traffic K HK _ _ _ Hk). by destruct (se_store w !! key).
Qed.

Lemma api_Create_spec s w :
  cse_Key s ∈ K → se_store w !! cse_Key s = None →
  wp (api_Create s) (λ o w',
    (same_on K (se_store w) (se_store w') ∨ same_on K (<[cse_Key s := s]> (se_store w)) (se_store w')) ∧
    match o with
    | Ok _ => se_store w' !! cse_Key s = Some s
    | Err e => IsAlreadyExists e = false
    | Panic _ => False
    end) w.
Proof.
  intros Hk Hm. unfold wp, api_Create, call.
  assert (traffic (se_calls w) (se_store w) !! cse_Key s = None) as Ht by (by rewrite (wb_traffic K HK)).
  assert (same_on K (<[cse_Key s:=s]> (se_store w)) (<[cse_Key s:=s]> (traffic (se_calls w) (se_store w)))) as Hi.
  { intros k Hk'. destruct (decide (k = cse_Key s)) as [->|Hne]; [by rewrite !lookup_insert_eq|].
    rewrite !lookup_insert_ne by done. by apply (wb_traffic K HK). }
  destruct (fault (se_calls w)) as [[e b]|] eqn:Ef; cbn.
  - split; [|by destruct (wb_fault K HK _ _ _ Ef)].
    destruct b; [|left; intros k Hk'; by apply (wb_traffic K HK)]. right. unfold insert_new. by rewrite Ht.
  - rewrite Ht. cbn. split; [by right|]. by rewrite lookup_insert_eq.
Qed.

(** A run from [w] only adds to what is stored. *)
Definition steady {A} (m : SC A) : Prop := ∀ w, se_store (m w).2 = se_store w.
Lemma steady_bind {A B} (m : SC A) (f : A → SC B) : steady m → (∀ a, steady (f a)) → steady (m ≫= f).
Proof.
  intros Hm Hf w. unfold mbind, comp_bind. specialize (Hm w). destruct (m w) as [[a|e|p] w']; [|done..].
  cbn in Hm. by rewrite Hf.
Qed.
Lemma steady_silent {A} (m : SC A) : (∀ w, (m w).2 = w) → steady m.
Proof. intros Hm w. by rewrite Hm. Qed.
Lemma steady_draw : steady draw.
Proof. done. Qed.

Ltac steady_auto := repeat first [apply steady_bind; [|intros ?] | apply steady_draw | by apply steady_silent | case_decide].

Lemma generateCACert_steady : steady generateCACert.
Proof.
  unfold generateCACert, newCertificateAuthority, newSelfSignedCACert. apply steady_bind; [steady_auto|].
  intros [??]. steady_auto.
Qed.
Lemma generateServiceAccountKeys_steady : steady generateServiceAccountKeys.
Proof. unfold generateServiceAccountKeys. steady_auto. Qed.

(** What generating does to a certificate. *)
Definition generated (c c' : ManagedCertificate) : Prop :=
  match mc_KeyPair c with
  | Some _ => c' = c
  | None => ∃ kp, c' = set_Generated (SetKeyPair kp c)
  end.

Lemma certificate_Generate_spec c w :
  mc_Purpose c ≠ APIServerEtcdClient → mc_KeyPair c = None →
  wp (certificate_Generate c) (λ o w', se_store w' = se_store w ∧ ∀ c', o = Ok c' → generated c c') w.
Proof.
  intros Hp Hn. unfold certificate_Generate, generated. rewrite decide_False, Hn by done.
  assert (steady (if decide (mc_Purpose c = ServiceAccount) then generateServiceAccountKeys else generateCACert)) as Hq
    by (case_decide; [apply generateServiceAccountKeys_steady|apply generateCACert_steady]).
  specialize (Hq w). wp_step. unfold wp. destruct (_ w) as [[kp|e|p] w']; (split; [done|]); [|done..].
  intros c' [= <-]. eauto.
Qed.

Lemma Generate_spec l w :
  Forall (λ c, mc_Purpose c ≠ APIServerEtcdClient) l →
  wp (Generate l) (λ o w', se_store w' = se_store w ∧ ∀ l', o = Ok l' → Forall2 generated l l') w.
Proof.
  intros Hl. revert w. induction Hl as [|c l Hc Hl IH]; intros w; cbn [Generate].
  { split; [done|]. by intros l' [= <-]. }
  wp_step.
  assert (wp (match mc_KeyPair c with Some _ => mret c | None => certificate_Generate c end)
    (λ o w', se_store w' = se_store w ∧ ∀ c', o = Ok c' → generated c c') w) as Hg.
  { destruct (mc_KeyPair c) eqn:E; [|by apply certificate_Generate_spec].
    split; [done|]. intros c' [= <-]. unfold generated. by rewrite E. }
  eapply wp_mono, Hg. intros [c'|e|p] w1 [Hw Hc']; [|done..]. wp_step.
  eapply wp_mono, IH. intros [l'|e|p] w2 [Hw2 Hl']; [|by rewrite Hw2..]. wp_step.
  split; [by rewrite Hw2|]. intros ? [= <-]. constructor; auto.
Qed.

(** Looking up: with the secrets in order every certificate that has one is loaded. *)
Definition loaded (m : Store) (c c' : ManagedCertificate) : Prop :=
  match m !! ckey c with
  | Some s => ∃ kp, secretToKeyPair s = Ok kp ∧ c' = SetKeyPair kp c
  | None => c' = c
  end.

Lemma loaded_same m m' c c' : ckey c ∈ K → same_on K m m' → loaded m' c c' → loaded m c c'.
Proof. intros Hk Hs. unfold loaded. by rewrite Hs. Qed.

Lemma Lookup_spec l w :
  Forall to_manage l → Forall (λ c, ckey c ∈ K) l → in_order (se_store w) l →
  wp (Lookup api_Get l cn) (λ o w', same_on K (se_store w) (se_store w') ∧
    ∀ l', o = Ok l' → Forall2 (loaded (se_store w)) l l') w.
Proof.
  intros Hl HlK. revert w. induction l as [|c l IH]; intros w Ho; cbn [Lookup].
  { split; [done|]. by intros l' [= <-]. }
  apply list.Forall_cons in Hl as [Hc Hl], HlK as [HcK HlK]. specialize (IH Hl HlK).
  unfold certificate_Lookup. wp_step. cbn [in_order] in Ho.
  eapply wp_mono, api_Get_spec; [|exact HcK]. intros [s|e|p] w1 [Hw1 Hs]; [|..|done]; wp_step.
  - destruct (secretToKeyPair s) as [kp|e|p] eqn:Ekp; wp_step; [|done..].
    fold (ckey c) in Hs. rewrite Hs in Ho.
    assert (in_order (se_store w1) l) as Ho1.
    { clear -Ho HlK Hw1. induction l as [|d l IH]; [done|]. apply list.Forall_cons in HlK as [HdK HlK].
      cbn [in_order] in *. rewrite Hw1 by done. destruct (se_store w !! ckey d); [by apply IH|].
      apply list.Forall_forall. intros x Hx. rewrite list.Forall_forall in Ho, HlK. rewrite Hw1 by auto. auto. }
    eapply wp_mono, IH, Ho1. intros [l'|e|p] w2 [Hw2 Hl']; wp_step; (split; [by eapply same_on_trans|]); [|done..].
    intros ? [= <-]. constructor.
    + unfold loaded. fold (ckey c). rewrite Hs. eauto.
    + specialize (Hl' l' eq_refl). clear -Hl' HlK Hw1. induction Hl' as [|d d' l l' Hd Hl' IH]; [done|].
      apply list.Forall_cons in HlK as [HdK HlK]. constructor; [|by apply IH]. by eapply loaded_same.
  - destruct (IsNotFound e) eqn:Ee; wp_step; [|done]. rewrite (tm_external c Hc). wp_step.
    specialize (Hs eq_refl). fold (ckey c) in Hs. rewrite Hs in Ho. split; [done|]. intros ? [= <-].
    constructor; [unfold loaded; by fold (ckey c); rewrite Hs|].
    clear -Ho. induction Ho as [|d l Hd Hl IH]; constructor; [|done]. unfold loaded. by rewrite Hd.
Qed.

(** Saving. *)
Lemma AsSecret_pair c owner s kp :
  mc_KeyPair c = Some kp → AsSecret c cn owner = Ok s → cse_Key s = ckey c ∧ secretToKeyPair s = Ok kp.
Proof.
  unfold AsSecret. intros ->. intros [= <-].
  assert (secretToKeyPair (asSecret (<[TLSCrtDataName := kp_Cert kp]> {[TLSKeyDataName := kp_Key kp]}) (mc_Purpose c) cn)
    = Ok kp) as Hs.
  { unfold secretToKeyPair, asSecret. cbn [cse_Data]. change (default ∅ (Some ?m)) with m.
    rewrite lookup_insert_eq, lookup_insert_ne by done. rewrite lookup_singleton_eq. by destruct kp. }
  by destruct (mc_Generated c).
Qed.

Lemma certificate_SaveGenerated_spec c owner w :
  ckey c ∈ K → compatible (se_store w) c →
  wp (certificate_SaveGenerated c cn owner) (λ o w',
    (same_on K (se_store w) (se_store w') ∨
     se_store w !! ckey c = None ∧ ∃ s, same_on K (<[ckey c := s]> (se_store w)) (se_store w')) ∧
    compatible (se_store w') c ∧ (o = Ok tt → agrees (se_store w') c) ∧ (∀ p, o ≠ Panic p)) w.
Proof.
  intros HcK (kp & Hkp & Hst). unfold certificate_SaveGenerated.
  destruct (AsSecret c cn owner) as [s|e|p] eqn:Es; [|by unfold AsSecret in Es; rewrite Hkp in Es..].
  destruct (AsSecret_pair c owner s kp Hkp Es) as [Hkey Hpair]. wp_step. rewrite Hkey.
  eapply wp_mono, api_Get_spec; [|exact HcK]. intros [s0|e|p] w1 [Hw1 Hs]; [|..|done]; wp_step.
  - split; [by left|]. rewrite <-Hw1 in Hs by done. specialize (Hst s0).
    split; [|split; [intros _|done]]; [exists kp|exists kp, s0]; (split; [done|]).
    + intros s1. rewrite Hs. intros [= <-]. apply Hst. by rewrite <-Hw1.
    + split; [done|]. apply Hst. by rewrite <-Hw1.
  - assert (compatible (se_store w1) c) as Hcw1
      by (exists kp; split; [done|]; intros s1; rewrite Hw1 by done; apply Hst).
    destruct (IsNotFound e) eqn:Ee; wp_step; [|by split; [left|split; [|split]]].
    specialize (Hs eq_refl). rewrite <-Hkey in Hs, HcK.
    eapply wp_mono, api_Create_spec; [|exact HcK|by rewrite Hw1].
    intros [[]|e'|p] w2 [Hw2 Ho]; [| |done]; wp_step.
    + assert (se_store w2 !! ckey c = Some s) as Hs2 by (by rewrite <-Hkey).
      split; [|split; [|split; [|done]]].
      * rewrite Hkey in *. destruct Hw2 as [Hw2|Hw2]; [left; by eapply same_on_trans|right]. split; [done|].
        exists s. intros k Hk. rewrite Hw2 by done. destruct (decide (k = ckey c)) as [->|Hne];
          [by rewrite !lookup_insert_eq|rewrite !lookup_insert_ne by done; by apply Hw1].
      * exists kp. split; [done|]. rewrite Hs2. by intros ? [= <-].
      * intros _. by exists kp, s.
    + rewrite Ho. wp_step. rewrite Hkey in *.
      destruct Hw2 as [Hw2|Hw2]; (split; [|split; [|by split]]).
      * left. by eapply same_on_trans.
      * exists kp. split; [done|]. intros s1. rewrite Hw2, Hw1 by done. apply Hst.
      * right. split; [done|]. exists s. intros k Hk. rewrite Hw2 by done.
        destruct (decide (k = ckey c)) as [->|Hne];
          [by rewrite !lookup_insert_eq|rewrite !lookup_insert_ne by done; by apply Hw1].
      * exists kp. split; [done|]. rewrite Hw2 by done. rewrite lookup_insert_eq. by intros ? [= <-].
Qed.

(** Writing a secret that is missing keeps the others of the list. *)
Lemma in_order_same m m' l : Forall (λ c, ckey c ∈ K) l → same_on K m m' → in_order m l → in_order m' l.
Proof.
  intros HlK Hs. induction HlK as [|d l Hd HlK IH]; [done|]. cbn [in_order]. rewrite Hs by done.
  destruct (m !! ckey d); [done|]. intros Ho. apply list.Forall_forall. intros x Hx.
  rewrite list.Forall_forall in Ho, HlK. rewrite Hs by auto. auto.
Qed.

Lemma compatible_other m m' c d s :
  ckey d ∈ K → ckey d ≠ ckey c → (same_on K m m' ∨ m !! ckey c = None ∧ same_on K (<[ckey c := s]> m) m') →
  m' !! ckey d = m !! ckey d.
Proof.
  intros Hd Hne [Hs|[_ Hs]]; rewrite Hs by done; [done|]. by rewrite lookup_insert_ne.
Qed.

Lemma SaveGenerated_spec l owner w :
  NoDup (map ckey l) → Forall (λ c, ckey c ∈ K) l → Forall (compatible (se_store w)) l → in_order (se_store w) l →
  wp (SaveGenerated l cn owner) (λ o w',
    grows_on K (se_store w) (se_store w') ∧ in_order (se_store w') l ∧
    (∀ key, key ∈ K → key ∉ map ckey l → se_store w' !! key = se_store w !! key) ∧
    (o = Ok tt → Forall (agrees (se_store w')) l)) w.
Proof.
  unfold SaveGenerated. revert w. induction l as [|c l IH]; intros w Hnd HlK Hl Ho; cbn [for_each].
  { split; [by apply same_grows|]. split; [done|]. split; [done|]. by intros _. }
  apply list.Forall_cons in HlK as [HcK HlK], Hl as [Hc Hl].
  cbn [map] in Hnd. apply list.NoDup_cons in Hnd as [Hni Hnd]. wp_step.
  assert (∀ d, d ∈ l → ckey d ∈ K ∧ ckey d ≠ ckey c) as Hoth.
  { intros d Hd. rewrite list.Forall_forall in HlK. split; [auto|]. intros E. apply Hni. rewrite <-E.
    by apply list_elem_of_fmap_2. }
  eapply wp_mono, certificate_SaveGenerated_spec; [|done|done].
  intros o w1 (Hw1 & Hc1 & Hok & _).
  assert (∃ s, same_on K (se_store w) (se_store w1) ∨
    se_store w !! ckey c = None ∧ same_on K (<[ckey c:=s]> (se_store w)) (se_store w1)) as [s1 Hw1'].
  { destruct Hw1 as [?|[? [s ?]]]; [|exists s; by right].
    exists (Build_ClusterSecret ("","") ∅ [] None ""). by left. }
  assert (∀ d, d ∈ l → se_store w1 !! ckey d = se_store w !! ckey d) as Hrest.
  { intros d Hd. destruct (Hoth d Hd) as [HdK Hne]. by eapply compatible_other. }
  assert (grows_on K (se_store w) (se_store w1)) as Hgrow.
  { intros k s Hk Hm. destruct Hw1' as [Hs|[Hn Hs]]; rewrite Hs by done; [done|].
    rewrite lookup_insert_ne; [done|]. intros <-. by rewrite Hm in Hn. }
  assert (∀ k, k ∈ K → k ≠ ckey c → se_store w1 !! k = se_store w !! k) as Hkeep.
  { intros k Hk Hne. destruct Hw1' as [Hs|[_ Hs]]; rewrite Hs by done; [done|]. by rewrite lookup_insert_ne. }
  assert (in_order (se_store w1) l ∧ in_order (se_store w1) (c :: l)) as [Hol Hol'].
  { cbn [in_order] in Ho |- *.
    assert (in_order (se_store w) l → in_order (se_store w1) l) as Hll.
    { clear -Hrest. induction l as [|d l IH]; [done|]. cbn [in_order]. rewrite Hrest by set_solver.
      destruct (se_store w !! ckey d); [apply IH; set_solver|]. intros Hf. apply list.Forall_forall. intros x Hx.
      rewrite list.Forall_forall in Hf. rewrite Hrest by set_solver. auto. }
    assert (Forall (λ c, se_store w !! ckey c = None) l → in_order (se_store w1) l ∧
      Forall (λ c, se_store w1 !! ckey c = None) l) as Hnone.
    { intros Hf. split.
      - apply Hll. clear -Hf. induction Hf as [|d l Hd Hf IH]; [done|]. cbn. by rewrite Hd.
      - apply list.Forall_forall. intros x Hx. rewrite list.Forall_forall in Hf. rewrite Hrest by done. auto. }
    destruct (se_store w !! ckey c) as [s|] eqn:Ec.
    - rewrite (Hgrow _ _ HcK Ec). auto.
    - destruct (Hnone Ho) as [? ?]. by destruct (se_store w1 !! ckey c). }
  destruct o as [[]|e|p]; [|split; [done|]; split; [done|]; split; [|done]; intros k Hk Hn; apply Hkeep; [done|set_solver]..].
  assert (Forall (compatible (se_store w1)) l) as Hcl.
  { apply list.Forall_forall. intros d Hd. rewrite list.Forall_forall in Hl. destruct (Hl d Hd) as (kp & ? & Hs).
    exists kp. split; [done|]. rewrite Hrest by done. done. }
  eapply wp_mono, IH; [|done..]. intros o' w2 (Hg2 & Ho2 & Hk2 & Hok2).
  assert (in_order (se_store w2) (c :: l)) as Hin2.
  { cbn [in_order]. destruct (Hok eq_refl) as (kp & s & _ & Hs & _). by rewrite (Hg2 _ _ HcK Hs). }
  split; [by eapply grows_on_trans|]. split; [done|]. split.
  { intros k Hk Hn. rewrite Hk2 by set_solver. apply Hkeep; set_solver. }
  intros ->. constructor; [|by apply Hok2]. destruct (Hok eq_refl) as (kp & s & Hkp & Hs & Hp).
  exists kp, s. split; [done|]. split; [|done]. by apply Hg2.
Qed.

(** Looking up and generating changes key pairs only. *)
Definition same_but_pair (c c' : ManagedCertificate) : Prop :=
  mc_Purpose c' = mc_Purpose c ∧ mc_CertFile c' = mc_CertFile c ∧ mc_KeyFile c' = mc_KeyFile c.

Lemma loaded_generated m l l1 l2 :
  Forall to_manage l → Forall2 (loaded m) l l1 → Forall2 generated l1 l2 →
  Forall2 same_but_pair l l2 ∧ Forall (compatible m) l2 ∧ map ckey l2 = map ckey l.
Proof.
  intros Hl H1l. revert l2 Hl. induction H1l as [|c c1 l l1 Hc Hl1 IH]; intros l2 Hl Hg.
  { inversion Hg; subst. by repeat constructor. }
  inversion Hg as [|? c2 ? l2' Hg2 Hgl]; subst. apply list.Forall_cons in Hl as [Htm Hl].
  destruct (IH l2' Hl Hgl) as (Hs & Hcp & Hk). clear IH.
  assert (same_but_pair c c2 ∧ compatible m c2) as [Hsc Hcc].
  { unfold loaded in Hc. unfold generated in Hg2. destruct (m !! ckey c) as [s|] eqn:Es.
    - destruct Hc as (kp & Hkp & ->). cbn in Hg2. subst c2. split; [done|]. exists kp. split; [done|].
      intros s' Hs'. change (ckey (SetKeyPair kp c)) with (ckey c) in Hs'. rewrite Es in Hs'. by injection Hs' as <-.
    - subst c1. rewrite (tm_pair c Htm) in Hg2. destruct Hg2 as [kp ->]. split; [done|]. exists kp. split; [done|].
      intros s' Hs'. change (ckey (set_Generated (SetKeyPair kp c))) with (ckey c) in Hs'. by rewrite Es in Hs'. }
  split; [by constructor|]. split; [by constructor|]. cbn [map]. rewrite Hk. f_equal.
  unfold ckey. by destruct Hsc as [-> _].
Qed.

Lemma in_order_keys m l l' : map ckey l' = map ckey l → in_order m l → in_order m l'.
Proof.
  revert l'. induction l as [|c l IH]; intros [|c' l'] Hk; try done. cbn [map] in Hk.
  apply cons_eq_inj in Hk as [Hkc Hk]. cbn [in_order]. rewrite Hkc. destruct (m !! ckey c); [auto|]. clear -Hk.
  revert l' Hk. induction l as [|d l IH]; intros [|d' l'] Hk; try done. cbn [map] in Hk.
  apply cons_eq_inj in Hk as [Hd Hk]. intros [Hn Hf]%list.Forall_cons. constructor; [by rewrite Hd|auto].
Qed.

Lemma LookupOrGenerate_spec l owner w :
  Forall (λ c, ckey c ∈ K) l → NoDup (map ckey l) → Forall to_manage l → in_order (se_store w) l →
  wp (LookupOrGenerate l cn owner) (λ o w',
    grows_on K (se_store w) (se_store w') ∧ in_order (se_store w') l ∧
    (∀ key, key ∈ K → key ∉ map ckey l → se_store w' !! key = se_store w !! key) ∧
    ∀ l', o = Ok l' → Forall2 same_but_pair l l' ∧ map ckey l' = map ckey l ∧ Forall (agrees (se_store w')) l') w.
Proof.
  intros HlK Hnd Hl Ho. unfold LookupOrGenerate. wp_step.
  assert (Forall (λ c, mc_Purpose c ≠ APIServerEtcdClient) l) as Hp.
  { eapply Forall_impl; [|exact Hl]. intros c Hc. by apply tm_purpose. }
  assert (∀ w', same_on K (se_store w) (se_store w') → grows_on K (se_store w) (se_store w') ∧
    in_order (se_store w') l ∧ (∀ key, key ∈ K → key ∉ map ckey l → se_store w' !! key = se_store w !! key)) as Hsame.
  { intros w' Hs. split; [by apply same_grows|]. split; [by eapply in_order_same|]. auto. }
  eapply wp_mono, Lookup_spec; [|done..]. intros [l1|e|p] w1 [Hw1 Hl1]; wp_step;
    [|destruct (Hsame _ Hw1) as (? & ? & ?); done..].
  specialize (Hl1 l1 eq_refl).
  assert (Forall (λ c, mc_Purpose c ≠ APIServerEtcdClient) l1) as Hp1.
  { clear -Hl1 Hp. induction Hl1 as [|c c1 l l1 Hc Hl1 IH]; [done|].
    apply list.Forall_cons in Hp as [Hpc Hp]. constructor; [|auto]. unfold loaded in Hc.
    destruct (_ !! ckey c); [destruct Hc as (kp & _ & ->)|subst c1]; done. }
  eapply wp_mono, Generate_spec; [|done]. intros [l2|e|p] w2 [Hw2 Hl2]; wp_step;
    [|rewrite Hw2; destruct (Hsame _ Hw1) as (? & ? & ?); done..].
  specialize (Hl2 l2 eq_refl). destruct (loaded_generated _ l l1 l2 Hl Hl1 Hl2) as (Hsb & Hcp & Hkeys).
  assert (Forall (λ c, ckey c ∈ K) l2) as Hl2K.
  { apply list.Forall_forall. intros c Hc. apply (list_elem_of_fmap_2 ckey) in Hc.
    change (ckey c ∈ map ckey l2) in Hc. rewrite Hkeys in Hc. apply list_elem_of_fmap in Hc as (d & -> & Hd). rewrite list.Forall_forall in HlK. auto. }
  rewrite <-Hw2 in Hw1. destruct (Hsame _ Hw1) as (_ & Ho2 & _).
  eapply wp_mono, SaveGenerated_spec; [|by rewrite Hkeys|done| |by eapply in_order_keys].
  - intros o w3 (Hg & Ho3 & Hf & Hok).
    assert (grows_on K (se_store w) (se_store w3)) as Hg' by (eapply grows_on_trans; [by apply same_grows|done]).
    assert (in_order (se_store w3) l) as Hol by (by eapply in_order_keys).
    assert (∀ key, key ∈ K → key ∉ map ckey l → se_store w3 !! key = se_store w !! key) as Hf'.
    { intros key Hk Hn. rewrite Hf by (by rewrite ?Hkeys). by apply Hw1. }
    destruct o as [[]|e|p]; wp_step; (split; [done|]; split; [done|]; split; [done|]); [|done..].
    intros ? [= <-]. auto.
  - eapply Forall_impl; [|apply list.Forall_and; split; [exact Hcp|exact Hl2K]].
    intros c [(kp & Hkp & Hs) HcK]. exists kp. split; [done|]. intros s. rewrite Hw1 by done. apply Hs.
Qed.
End contract.

(** ** Runs *)

Section runs.
Context `{ApiServer, X509, CapiConsts}.

(** The lists of the two kinds of clusters. *)
Definition certificates_of (legacy : bool) : list ManagedCertificate :=
  if legacy then NewCertificatesForLegacyControlPlane else NewCertificatesForInitialControlPlane.

Lemma str_app_inj_l a b c : a +:+ b = a +:+ c → b = c.
Proof. induction a as [|x a IH]; [done|]. intros Heq. injection Heq. apply IH. Qed.

#[local] Instance secret_key_inj cn : Inj (=) (=) (secret_key cn).
Proof. intros a b. unfold secret_key, Name. intros Heq. injection Heq. intros Ha%str_app_inj_l. by injection Ha. Qed.

Lemma certificates_keys cn legacy : NoDup (map (ckey cn) (certificates_of legacy)).
Proof.
  assert (∀ l, NoDup (map mc_Purpose l) → NoDup (map (ckey cn) l)) as Hk.
  { intros l. rewrite <-(map_map mc_Purpose (secret_key cn)). intros Hl. by apply (NoDup_fmap_2 (secret_key cn)). }
  apply Hk. destruct legacy; apply (bool_decide_unpack _); vm_compute; exact I.
Qed.
Lemma certificates_in cn legacy : Forall (λ c, ckey cn c ∈ map (ckey cn) (certificates_of legacy)) (certificates_of legacy).
Proof. apply list.Forall_forall. intros c Hc. by apply list_elem_of_fmap_2. Qed.
Lemma certificates_managed legacy : Forall to_manage (certificates_of legacy).
Proof. destruct legacy; repeat constructor; done. Qed.

(** What the reconciles of a cluster do over time: each starts with a new list, and may
    fail anywhere. *)
Fixpoint runs (legacy : bool) (cn : ObjectKey) (owners : list OwnerReference) :
    Secrets → list (outcome (list ManagedCertificate)) * Secrets := λ w,
  match owners with
  | [] => ([], w)
  | owner :: owners =>
      let '(o, w1) := LookupOrGenerate (certificates_of legacy) cn owner w in
      let '(outs, w2) := runs legacy cn owners w1 in (o :: outs, w2)
  end.

Lemma runs_spec legacy cn owners w outs w' :
  well_behaved (map (ckey cn) (certificates_of legacy)) →
  in_order cn (se_store w) (certificates_of legacy) → runs legacy cn owners w = (outs, w') →
  grows_on (map (ckey cn) (certificates_of legacy)) (se_store w) (se_store w') ∧
  ∀ l', Ok l' ∈ outs → Forall2 same_but_pair (certificates_of legacy) l' ∧ Forall (agrees cn (se_store w')) l'.
Proof.
  intros HK. revert w outs w'. induction owners as [|owner owners IH]; intros w outs w' Ho; cbn [runs].
  { intros [= <- <-]. split; [by intros ????|]. intros l' Hl'. by apply not_elem_of_nil in Hl'. }
  destruct (LookupOrGenerate _ _ _ w) as [o w1] eqn:E1. destruct (runs _ _ _ w1) as [outs' w2] eqn:E2.
  intros [= <- <-].
  pose proof (LookupOrGenerate_spec cn _ HK _ owner w (certificates_in cn legacy) (certificates_keys cn legacy)
    (certificates_managed legacy) Ho) as Hs.
  unfold wp in Hs. rewrite E1 in Hs. destruct Hs as (Hg1 & Ho1 & _ & Hok).
  destruct (IH w1 outs' w2 Ho1 E2) as [Hg2 Hl2]. split; [by eapply grows_on_trans|].
  intros l' [Hl'|Hl']%elem_of_cons; [|by apply Hl2]. subst o.
  destruct (Hok l' eq_refl) as (Hsame & Hkeys & Hag). split; [done|].
  apply list.Forall_forall. intros c Hc. rewrite list.Forall_forall in Hag.
  destruct (Hag c Hc) as (kp & s & Hkp & Hs & Hp). exists kp, s. split; [done|]. split; [|done].
  apply Hg2; [|done]. rewrite <-Hkeys. by apply list_elem_of_fmap_2.
Qed.

End runs.

(** ** The files of a machine *)

Section files.
Context `{ApiServer, X509, CapiConsts}.

Definition pair_files (c : ManagedCertificate) : list File :=
  match mc_KeyPair c with
  | Some kp => certificate_file (mc_CertFile c) "0640" (kp_Cert kp) ++ certificate_file (mc_KeyFile c) "0600" (kp_Key kp)
  | None => []
  end.

(** Every certificate of a list becomes its files, in the order of the list. *)
Theorem AsFiles_all legacy l :
  Forall2 same_but_pair (certificates_of legacy) l → Forall (λ c, is_Some (mc_KeyPair c)) l →
  AsFiles l = Ok (concat (map pair_files l)).
Proof.
  intros Hs Hp.
  assert (∀ c, is_Some (mc_KeyPair c) → certificate_AsFiles c = Ok (pair_files c)) as Hc.
  { intros c [kp Hkp]. unfold certificate_AsFiles, pair_files. by rewrite Hkp. }
  destruct legacy; repeat (inversion Hs as [|? ? ? ? (? & _ & _) Hs']; subst; clear Hs; rename Hs' into Hs);
    inversion Hs; subst; repeat (apply list.Forall_cons in Hp as [? Hp]);
    unfold AsFiles; cbn [foldl mbind outcome_bind mc_Purpose new_certificate] in *; unfold GetByPurpose; cbn [List.find];
    repeat match goal with H : mc_Purpose _ = _ |- _ => rewrite H; clear H end;
    repeat match goal with |- context [@bool_decide (?x = ?y) ?d] =>
      let b := eval vm_compute in (@bool_decide (x = y) d) in change (@bool_decide (x = y) d) with b end;
    cbn [mbind outcome_bind]; repeat (rewrite Hc by done; cbn [mbind outcome_bind]);
    cbn [map concat app]; rewrite ?app_nil_r, <-?app_assoc; done.
Qed.
End files.

(** ** Samples *)

(** Keys and certificates that show how they were made. *)
#[export] Instance plain_x509 : X509 := {
  PrivateKey := nat;
  Certificate := string;
  certs_NewPrivateKey n := inr n;
  x509_CreateCertificate n t parent key signer :=
    inr (ct_CommonName t +:+ " of " +:+ fmt_nat key +:+ " by " +:+ fmt_nat signer);
  x509_ParseCertificate s := inr s;
  EncodeCertPEM s := "cert:" +:+ s;
  EncodePrivateKeyPEM n := "key:" +:+ fmt_nat n;
  EncodePublicKeyPEM n := inr ("pub:" +:+ fmt_nat n);
  DecodeCertPEM s := inr (match s with
    | String _ (String _ (String _ (String _ (String _ c)))) => if HasPrefix s "cert:" then Some c else None
    | _ => None
    end);
  DecodePrivateKeyPEM s := inr (if HasPrefix s "key:" then Some 0 else None);
  NewSignedCert n now name orgs usages key ca cakey := inr (name +:+ " signed by " +:+ ca);
  ClusterSecret_Type := "cluster.x-k8s.io/secret"
}.

(** A server whose seventh call answers with a timeout after it was carried out. *)
Definition timeout_server : ApiServer := {|
  traffic _ m := m;
  fault n := if decide (n = 6) then Some (EText "timeout", true) else None;
  wall_clock n := Z.of_nat n
|}.
Definition plain_server : ApiServer := {| traffic _ m := m; fault _ := None; wall_clock n := Z.of_nat n |}.

Definition demo_cluster : ObjectKey := ("default", "c").
Definition demo_owner : OwnerReference := Build_OwnerReference "v1" "RKE2ControlPlane" "cp" "uid" (Some true) (Some true).
Definition no_secrets : Secrets := Build_Secrets ∅ 0 0.

Definition demo_runs : list (outcome (list ManagedCertificate)) * Secrets :=
  runs (H := timeout_server) false demo_cluster [demo_owner; demo_owner; demo_owner] no_secrets.

(** The first run fails, the others succeed. *)
Example demo_runs_outcomes : map is_ok demo_runs.1 = [false; true; true].
Proof. vm_compute. reflexivity. Qed.


(** When a secret is missing and a later one of the list exists, the later one is not
    looked up: another key pair is generated in its place, the secret is kept, and the
    call succeeds with a key pair nobody else has. *)
Definition hole_secrets : Secrets :=
  Build_Secrets {[secret_key demo_cluster ClientClusterCA :=
    Build_ClusterSecret (secret_key demo_cluster ClientClusterCA) ∅ []
      (Some (<[TLSCrtDataName := "cert:mine"]> {[TLSKeyDataName := "key:mine"]})) ""]} 0 0.
Theorem hole_generates_other_pair :
  ∃ l w, LookupOrGenerate (H := plain_server) (certificates_of false) demo_cluster demo_owner hole_secrets = (Ok l, w) ∧
    mc_KeyPair <$> GetByPurpose l ClientClusterCA = Some (Some (Build_KeyPair "cert:kubernetes of 2 by 2" "key:2")) ∧
    secretToKeyPair <$> se_store w !! secret_key demo_cluster ClientClusterCA =
      Some (Ok (Build_KeyPair "cert:mine" "key:mine")).
Proof. eexists _, _. split; [vm_compute; reflexivity|]. split; vm_compute; reflexivity. Qed.

(** The same happens when somebody creates the secret between the lookup and the
    creation: that it exists already is not an error, and it is not read again. *)
Definition racing_server : ApiServer := {|
  traffic n m := if decide (n = 1) then se_store hole_secrets ∪ m else m;
  fault _ := None; wall_clock n := Z.of_nat n
|}.
Theorem race_generates_other_pair :
  ∃ l w, LookupOrGenerate (H := racing_server) (certificates_of false) demo_cluster demo_owner no_secrets = (Ok l, w) ∧
    mc_KeyPair <$> GetByPurpose l ClientClusterCA = Some (Some (Build_KeyPair "cert:kubernetes of 2 by 2" "key:2")) ∧
    secretToKeyPair <$> se_store w !! secret_key demo_cluster ClientClusterCA =
      Some (Ok (Build_KeyPair "cert:mine" "key:mine")).
Proof. eexists _, _. split; [vm_compute; reflexivity|]. split; vm_compute; reflexivity. Qed.
