(* ===== verification/Kubeconfig.v ===== *)
(** * The kubeconfig of a cluster and the client of a workload cluster

    pkg/kubeconfig/kubeconfig.go, [reconcileKubeconfig] of
    rke2controlplane_controller.go, and pkg/rke2/management_cluster.go with
    [NewWorkload] of workload_cluster.go: what is built from the certificates of
    [Certificates].

    The serialization of a kubeconfig, the check of the validity of a client
    certificate, TLS key pairs and the cluster cache are parameters. *)

From stdpp Require Import base tactics option list gmap strings numbers.
From S2P Require Import Prelude Go Api Objects Libs World Controller Demo Config Certificates.
Open Scope string_scope.
Open Scope list_scope.
Open Scope stdpp_scope.

(** [api.Config] with the entries the code makes, and [clusterv1.APIEndpoint]. *)
Record KubeCluster := { kc_Server : string; kc_CertificateAuthorityData : string }.
Record KubeContext := { kx_Cluster : string; kx_AuthInfo : string }.
Record AuthInfo := { ai_ClientKeyData : string; ai_ClientCertificateData : string }.
Record KubeConfig := {
  kcfg_Clusters : gmap string KubeCluster; kcfg_Contexts : gmap string KubeContext;
  kcfg_AuthInfos : gmap string AuthInfo; kcfg_CurrentContext : string
}.
Record APIEndpoint := { ae_Host : string; ae_Port : Z }.
Definition APIEndpoint_IsZero (e : APIEndpoint) : bool :=
  bool_decide (ae_Host e = "") && bool_decide (ae_Port e = 0%Z).

Class KubeconfigLib := {
  clientcmd_Write : KubeConfig → error + string;
  (* net.JoinHostPort of the host and the port *)
  APIEndpoint_String : APIEndpoint → string;
  (* capikubeconfig.NeedsClientCertRotation with ClientCertificateRenewalDuration *)
  NeedsClientCertRotation : ClusterSecret → Time → error + bool;
  (* util.IsControlledBy *)
  IsControlledBy : ClusterSecret → RKE2ControlPlane → bool
}.

(** [errors.Is(err, ErrDependentCertificateNotFound)]: this error is the only one with
    its text. *)
Definition ErrDependentCertificateNotFound : error := EText "could not find secret ca".
Fixpoint is_dependent_certificate_error (e : error) : bool :=
  match e with
  | EText msg => bool_decide (msg = "could not find secret ca")
  | EWrap _ e | ERemote _ e => is_dependent_certificate_error e
  | _ => false
  end.

(** [fmt.Errorf("msg: %w", err)]. *)
Definition kwrap {S A} (msg : string) (m : comp S A) : comp S A := λ w,
  match m w with (Err e, w') => (Err (EWrap msg e), w') | r => r end.

Section kubeconfig.
Context `{ApiServer, X509, CapiConsts, KubeconfigLib}.

(** [New]. *)
Definition New (clusterName endpoint : string) (clientCACert : Certificate) (clientCAKey : PrivateKey)
    (serverCACert : Certificate) : SC KubeConfig :=
  n ← draw;
  clientKey ← kwrap "unable to create private key" (lift (of_sum (certs_NewPrivateKey n)));
  now ← time_Now;
  n ← draw;
  clientCert ← kwrap "unable to sign certificate" (lift (of_sum
    (NewSignedCert n now "kubernetes-admin" ["system:masters"] [ExtKeyUsageClientAuth] clientKey clientCACert clientCAKey)));
  let userName := clusterName +:+ "-admin" in
  let contextName := userName +:+ "@" +:+ clusterName in
  mret {| kcfg_Clusters := {[clusterName := Build_KubeCluster endpoint (EncodeCertPEM serverCACert)]};
          kcfg_Contexts := {[contextName := Build_KubeContext clusterName userName]};
          kcfg_AuthInfos := {[userName := Build_AuthInfo (EncodePrivateKeyPEM clientKey) (EncodeCertPEM clientCert)]};
          kcfg_CurrentContext := contextName |}.

(** One of the secrets the kubeconfig is built from. *)
Definition dependent_secret (msg : string) (clusterName : ObjectKey) (purpose : string) : SC ClusterSecret :=
  r ← try (GetFromNamespacedName clusterName purpose);
  match r with
  | inl s => mret s
  | inr e => fail (EWrap msg (if IsNotFound e then ErrDependentCertificateNotFound else e))
  end.

(** A decoding that may fail or give a nil pointer; a missing entry is empty. *)
Definition decoded {A} (msg nil_msg : string) (r : error + option A) : outcome A :=
  match r with
  | inl e => Err (EWrap msg e)
  | inr None => Err (EText nil_msg)
  | inr (Some a) => Ok a
  end.
Definition entry (s : ClusterSecret) (key : string) : string := default "" (default ∅ (cse_Data s) !! key).

Definition kubeconfig_config (clusterName : ObjectKey) (endpoint : string) : SC KubeConfig :=
  clusterCA ← dependent_secret "getting Cluster CA for cluster" clusterName ClusterCA;
  clientClusterCA ← dependent_secret "getting Client Cluster CA for cluster" clusterName ClientClusterCA;
  clientCACert ← lift (decoded "failed to decode CA Cert" "certificate not found in config"
    (DecodeCertPEM (entry clientClusterCA TLSCrtDataName)));
  clientCAKey ← lift (decoded "failed to decode private key" "CA private key not found"
    (DecodePrivateKeyPEM (entry clientClusterCA TLSKeyDataName)));
  serverCACert ← lift (decoded "failed to decode CA Cert" "certificate not found in config"
    (DecodeCertPEM (entry clusterCA TLSCrtDataName)));
  kwrap "failed to generate a kubeconfig" (New clusterName.2 endpoint clientCACert clientCAKey serverCACert).
Definition generateKubeconfig (clusterName : ObjectKey) (endpoint : string) : SC string :=
  cfg ← kubeconfig_config clusterName endpoint;
  kwrap "failed to serialize config to yaml" (lift (of_sum (clientcmd_Write cfg))).

Definition GenerateSecretWithOwner (clusterName : ObjectKey) (data : string) (owner : OwnerReference) : ClusterSecret :=
  {| cse_Key := secret_key clusterName Kubeconfig; cse_Labels := {[ClusterNameLabel := clusterName.2]};
     cse_OwnerReferences := [owner]; cse_Data := Some {[KubeconfigDataName := data]}; cse_Type := "" |}.

Definition CreateSecretWithOwner (clusterName : ObjectKey) (endpoint : string) (owner : OwnerReference) : SC unit :=
  let server := "https://" +:+ endpoint in
  out ← kwrap "generating kubeconfig" (generateKubeconfig clusterName server);
  kwrap "creating Secret" (api_Create (GenerateSecretWithOwner clusterName out owner)).

(** The owner of a secret without a control plane: the cluster. *)
Definition cluster_owner (groupVersion name uid : string) : OwnerReference :=
  Build_OwnerReference groupVersion "Cluster" name uid None None.
Definition CreateSecret (clusterName : ObjectKey) (endpoint : APIEndpoint) (groupVersion uid : string) : SC unit :=
  CreateSecretWithOwner clusterName (APIEndpoint_String endpoint) (cluster_owner groupVersion clusterName.2 uid).
Definition GenerateSecret (clusterName : ObjectKey) (data groupVersion uid : string) : ClusterSecret :=
  GenerateSecretWithOwner clusterName data (cluster_owner groupVersion clusterName.2 uid).

(** A write to a nil map panics. *)
Definition UpdateSecret (clusterName : ObjectKey) (endpoint : string) (configSecret : ClusterSecret) : SC unit :=
  let server := "https://" +:+ endpoint in
  out ← generateKubeconfig clusterName server;
  match cse_Data configSecret with
  | None => panic "assignment to entry in nil map"
  | Some data =>
      api_Update configSecret
        (Build_ClusterSecret (cse_Key configSecret) (cse_Labels configSecret) (cse_OwnerReferences configSecret)
           (Some (<[KubeconfigDataName := out]> data)) (cse_Type configSecret))
  end.

(** ** [reconcileKubeconfig] *)

Context `{MetaLib}.


Definition dependentCertRequeueAfter : Duration := (30 * Second)%Z.

Definition reconcileKubeconfig (clusterName : ObjectKey) (endpoint : APIEndpoint) (rcp : RKE2ControlPlane) : SC Result :=
  if APIEndpoint_IsZero endpoint then mret (requeueAfter DefaultRequeueTime)
  else
    r ← try (GetFromNamespacedName clusterName Kubeconfig);
    match r with
    | inr e =>
        if IsNotFound e then
          r ← try (CreateSecretWithOwner clusterName (APIEndpoint_String endpoint) (NewControllerRef rcp));
          match r with
          | inl _ => mret Result_zero
          | inr createErr =>
              if is_dependent_certificate_error createErr then mret (requeueAfter dependentCertRequeueAfter)
              else fail createErr
          end
        else fail (EWrap "failed to retrieve kubeconfig Secret" e)
    | inl configSecret =>
        if negb (IsControlledBy configSecret rcp) then mret Result_zero
        else
          now ← time_Now;
          needsRotation ← lift (of_sum (NeedsClientCertRotation configSecret now));
          _ ← (if needsRotation : bool
               then kwrap "failed to regenerate kubeconfig"
                      (UpdateSecret clusterName (APIEndpoint_String endpoint) configSecret)
               else mret tt);
          mret Result_zero
    end.
End kubeconfig.

(** ** What a kubeconfig is built from *)

Section kubeconfig_contract.
Context `{ApiServer, X509, CapiConsts, KubeconfigLib, MetaLib}.
Context (cn : ObjectKey).

(** The server's certificate authority is the one of the cluster, and the client's
    certificate is signed by the client authority. *)
Definition built_config (m : Store) (server : string) (cfg : KubeConfig) : Prop :=
  ∃ s1 s2 clientCA clientCAKey serverCA n now key cert,
    m !! secret_key cn ClusterCA = Some s1 ∧ m !! secret_key cn ClientClusterCA = Some s2 ∧
    DecodeCertPEM (entry s1 TLSCrtDataName) = inr (Some serverCA) ∧
    DecodeCertPEM (entry s2 TLSCrtDataName) = inr (Some clientCA) ∧
    DecodePrivateKeyPEM (entry s2 TLSKeyDataName) = inr (Some clientCAKey) ∧
    NewSignedCert n now "kubernetes-admin" ["system:masters"] [ExtKeyUsageClientAuth] key clientCA clientCAKey = inr cert ∧
    kcfg_Clusters cfg = {[cn.2 := Build_KubeCluster server (EncodeCertPEM serverCA)]} ∧
    kcfg_AuthInfos cfg = {[cn.2 +:+ "-admin" := Build_AuthInfo (EncodePrivateKeyPEM key) (EncodeCertPEM cert)]} ∧
    kcfg_Contexts cfg !! kcfg_CurrentContext cfg = Some (Build_KubeContext cn.2 (cn.2 +:+ "-admin")).
Definition built_from (m : Store) (server out : string) : Prop :=
  ∃ cfg, built_config m server cfg ∧ clientcmd_Write cfg = inr out.

Definition kubeconfig_keys : list ObjectKey :=
  [secret_key cn Kubeconfig; secret_key cn ClusterCA; secret_key cn ClientClusterCA].
Context (K : list ObjectKey) (HK : well_behaved K) (Hsub : ∀ key, key ∈ kubeconfig_keys → key ∈ K).

Lemma kubeconfig_keys_in : secret_key cn Kubeconfig ∈ K ∧ secret_key cn ClusterCA ∈ K ∧ secret_key cn ClientClusterCA ∈ K.
Proof. unfold kubeconfig_keys in Hsub. set_solver. Qed.

Lemma api_Update_spec before s w :
  cse_Key s ∈ K → se_store w !! cse_Key s = Some before →
  wp (api_Update before s) (λ o w',
    (same_on K (se_store w) (se_store w') ∨ same_on K (<[cse_Key s := s]> (se_store w)) (se_store w')) ∧
    match o with
    | Ok _ => same_on K (<[cse_Key s := s]> (se_store w)) (se_store w')
    | Err _ => True
    | Panic _ => False
    end) w.
Proof.
  intros Hk Hm. unfold wp, api_Update, call.
  assert (traffic (se_calls w) (se_store w) !! cse_Key s = Some before) as Ht by (by rewrite (wb_traffic K HK)).
  assert (same_on K (<[cse_Key s:=s]> (se_store w)) (<[cse_Key s:=s]> (traffic (se_calls w) (se_store w)))) as Hi.
  { intros k Hk'. destruct (decide (k = cse_Key s)) as [->|Hne]; [by rewrite !lookup_insert_eq|].
    rewrite !lookup_insert_ne by done. by apply (wb_traffic K HK). }
  destruct (fault (se_calls w)) as [[e b]|]; cbn.
  - split; [|done]. destruct b; [|left; intros k Hk'; by apply (wb_traffic K HK)]. rewrite Ht, decide_True by done. by right.
  - rewrite Ht, decide_True by done. by split; [right|].
Qed.

Lemma dependent_secret_spec msg purpose w :
  secret_key cn purpose ∈ K →
  wp (dependent_secret msg cn purpose) (λ o w', same_on K (se_store w) (se_store w') ∧
    (∀ p, o ≠ Panic p) ∧ ∀ s, o = Ok s → se_store w !! secret_key cn purpose = Some s) w.
Proof.
  intros Hk. unfold dependent_secret, GetFromNamespacedName. wp_step.
  eapply wp_mono, (api_Get_spec _ HK); [|exact Hk]. intros [s|e|p] w1 [Hw1 Hs]; [|..|done]; wp_step.
  - split; [done|]. split; [done|]. by intros ? [= <-].
  - done.
Qed.

Lemma decoded_spec {A} msg nil_msg (r : error + option A) :
  (∀ p, decoded msg nil_msg r ≠ Panic p) ∧ ∀ a, decoded msg nil_msg r = Ok a → r = inr (Some a).
Proof. by destruct r as [e|[a|]]; (split; [done|]); intros ? [= <-]. Qed.

Lemma wp_kwrap {S A} msg (m : comp S A) Q s :
  wp (kwrap msg m) Q s ↔ wp m (λ o s', Q (match o with Err e => Err (EWrap msg e) | o => o end) s') s.
Proof. unfold wp, kwrap. by destruct (m s) as [[a|e|p] s']. Qed.

Lemma wp_draw Q w : wp draw Q w ↔ Q (Ok (se_draws w)) (Build_Secrets (se_store w) (se_calls w) (S (se_draws w))).
Proof. done. Qed.

Lemma New_spec endpoint ca cakey sca w :
  wp (New cn.2 endpoint ca cakey sca) (λ o w', se_store w' = se_store w ∧ (∀ p, o ≠ Panic p) ∧
    ∀ cfg, o = Ok cfg → ∃ n now key cert,
      NewSignedCert n now "kubernetes-admin" ["system:masters"] [ExtKeyUsageClientAuth] key ca cakey = inr cert ∧
      cfg = {| kcfg_Clusters := {[cn.2 := Build_KubeCluster endpoint (EncodeCertPEM sca)]};
               kcfg_Contexts := {[(cn.2 +:+ "-admin") +:+ "@" +:+ cn.2 := Build_KubeContext cn.2 (cn.2 +:+ "-admin")]};
               kcfg_AuthInfos := {[cn.2 +:+ "-admin" := Build_AuthInfo (EncodePrivateKeyPEM key) (EncodeCertPEM cert)]};
               kcfg_CurrentContext := (cn.2 +:+ "-admin") +:+ "@" +:+ cn.2 |}) w.
Proof.
  unfold New. wp_step. rewrite wp_draw. wp_step. rewrite wp_kwrap. wp_step.
  destruct (certs_NewPrivateKey _) as [e|key]; cbn [of_sum]; wp_step; [done|].
  unfold time_Now. wp_step. rewrite wp_draw. wp_step. rewrite wp_kwrap. wp_step.
  destruct (NewSignedCert _ _ _ _ _ _ _ _) as [e|cert] eqn:Es; cbn [of_sum]; wp_step; [done|].
  split; [done|]. split; [done|]. intros ? [= <-]. by eexists _, _, _, _.
Qed.

Lemma kubeconfig_config_spec server w :
  wp (kubeconfig_config cn server) (λ o w', same_on K (se_store w) (se_store w') ∧
    (∀ p, o ≠ Panic p) ∧ ∀ cfg, o = Ok cfg → built_config (se_store w) server cfg) w.
Proof.
  destruct kubeconfig_keys_in as (Hkk & Hk1 & Hk2). unfold kubeconfig_config. wp_step.
  eapply wp_mono, dependent_secret_spec; [|done]. intros [s1|e|p] w1 (Hw1 & Hp1 & Hs1); wp_step; [|done|by destruct (Hp1 p)].
  specialize (Hs1 s1 eq_refl). wp_step.
  eapply wp_mono, dependent_secret_spec; [|done]. intros [s2|e|p] w2 (Hw2 & Hp2 & Hs2); wp_step;
    [|by split; [eapply same_on_trans|]|by destruct (Hp2 p)].
  specialize (Hs2 s2 eq_refl). rewrite Hw1 in Hs2 by done.
  assert (same_on K (se_store w) (se_store w2)) as Hw by (by eapply same_on_trans).
  match goal with |- context [decoded ?a ?b ?r] => destruct (decoded_spec a b r) as [Hq Hd]; destruct (decoded a b r) as [ca|e|p] end;
    wp_step; [|done|by destruct (Hq p)]. specialize (Hd ca eq_refl). clear Hq.
  match goal with |- context [decoded ?a ?b ?r] => destruct (decoded_spec a b r) as [Hq Hd']; destruct (decoded a b r) as [cakey|e|p] end;
    wp_step; [|done|by destruct (Hq p)]. specialize (Hd' cakey eq_refl). clear Hq.
  match goal with |- context [decoded ?a ?b ?r] => destruct (decoded_spec a b r) as [Hq Hd'']; destruct (decoded a b r) as [sca|e|p] end;
    wp_step; [|done|by destruct (Hq p)]. specialize (Hd'' sca eq_refl). clear Hq.
  rewrite wp_kwrap. eapply wp_mono, New_spec. intros [cfg|e|p] w3 (Hw3 & Hp3 & Hcfg);
    rewrite Hw3; [|done|by destruct (Hp3 p)].
  split; [done|]. split; [done|]. intros ? [= <-]. destruct (Hcfg cfg eq_refl) as (n & now & key & cert & Hs & ->).
  exists s1, s2, ca, cakey, sca, n, now, key, cert. repeat (split; [done|]). by apply lookup_singleton_eq.
Qed.

Lemma generateKubeconfig_spec server w :
  wp (generateKubeconfig cn server) (λ o w', same_on K (se_store w) (se_store w') ∧
    (∀ p, o ≠ Panic p) ∧ ∀ out, o = Ok out → built_from (se_store w) server out) w.
Proof.
  unfold generateKubeconfig. wp_step. eapply wp_mono, kubeconfig_config_spec.
  intros [cfg|e|p] w1 (Hw1 & Hp & Hc); wp_step; [|done|by destruct (Hp p)]. rewrite wp_kwrap. wp_step.
  destruct (clientcmd_Write cfg) as [e|out] eqn:Eo; (split; [done|]; split; [done|]); [done|].
  intros ? [= <-]. exists cfg. auto.
Qed.

Definition with_kubeconfig (s : ClusterSecret) (data : gmap string string) (out : string) : ClusterSecret :=
  Build_ClusterSecret (cse_Key s) (cse_Labels s) (cse_OwnerReferences s)
    (Some (<[KubeconfigDataName := out]> data)) (cse_Type s).

(** The write a reconcile may make: a new secret where there is none, or new data in
    the secret it controls, when its client certificate is about to expire. *)
Definition kubeconfig_written (rcp : RKE2ControlPlane) (server : string) (m : Store) (s' : ClusterSecret) : Prop :=
  ∃ out, built_from m server out ∧
    (m !! secret_key cn Kubeconfig = None ∧ s' = GenerateSecretWithOwner cn out (NewControllerRef rcp) ∨
     ∃ s data now, m !! secret_key cn Kubeconfig = Some s ∧ IsControlledBy s rcp = true ∧
       NeedsClientCertRotation s now = inr true ∧ cse_Data s = Some data ∧ s' = with_kubeconfig s data out).

Lemma insert_same_on key s m m' m'' :
  same_on K m m' → same_on K (<[key := s]> m') m'' → same_on K (<[key := s]> m) m''.
Proof.
  intros Hm Hi k Hk. rewrite Hi by done. destruct (decide (k = key)) as [->|Hne]; [by rewrite !lookup_insert_eq|].
  rewrite !lookup_insert_ne by done. by apply Hm.
Qed.
Lemma built_from_same m m' server out :
  same_on K m m' → built_from m' server out → built_from m server out.
Proof.
  intros Hm (cfg & (s1 & s2 & ca & k & sca & n & t & pk & c & Hs1 & Hs2 & Hrest) & Hout).
  destruct kubeconfig_keys_in as (_ & Hk1 & Hk2). rewrite Hm in Hs1, Hs2 by done.
  exists cfg. split; [|done]. exists s1, s2, ca, k, sca, n, t, pk, c. by split; [|split].
Qed.

Lemma CreateSecretWithOwner_spec endpoint owner w :
  se_store w !! secret_key cn Kubeconfig = None →
  wp (CreateSecretWithOwner cn endpoint owner) (λ o w', (∀ p, o ≠ Panic p) ∧
    (same_on K (se_store w) (se_store w') ∧ o ≠ Ok tt ∨
     ∃ out, built_from (se_store w) ("https://" +:+ endpoint) out ∧
       same_on K (<[secret_key cn Kubeconfig := GenerateSecretWithOwner cn out owner]> (se_store w))
         (se_store w'))) w.
Proof.
  intros Hn. unfold CreateSecretWithOwner. wp_step. rewrite wp_kwrap.
  eapply wp_mono, generateKubeconfig_spec. intros [out|e|p] w1 (Hw1 & Hp & Hb); wp_step;
    [|by split; [|left]|by destruct (Hp p)].
  specialize (Hb out eq_refl). rewrite wp_kwrap.
  destruct kubeconfig_keys_in as (Hkk & _ & _).
  eapply wp_mono, (api_Create_spec _ HK); [|exact Hkk|by rewrite Hw1].
  intros o w2 [Hw2 Ho]. split; [by destruct o|].
  destruct Hw2 as [Hw2|Hw2].
  - destruct o as [[]|e|p]; [|left; split; [by eapply same_on_trans|done]|done].
    exfalso. rewrite Hw2, Hw1 in Ho by done. cbn [cse_Key GenerateSecretWithOwner] in Ho. by rewrite Hn in Ho.
  - right. exists out. split; [done|]. by eapply insert_same_on.
Qed.

Lemma UpdateSecret_spec endpoint s data w :
  se_store w !! secret_key cn Kubeconfig = Some s → cse_Key s = secret_key cn Kubeconfig → cse_Data s = Some data →
  wp (UpdateSecret cn endpoint s) (λ o w', (∀ p, o ≠ Panic p) ∧
    is_Some (se_store w' !! secret_key cn Kubeconfig) ∧
    (same_on K (se_store w) (se_store w') ∨
     ∃ out, built_from (se_store w) ("https://" +:+ endpoint) out ∧
       same_on K (<[secret_key cn Kubeconfig := with_kubeconfig s data out]> (se_store w)) (se_store w'))) w.
Proof.
  intros Hs Hkey Hd. destruct kubeconfig_keys_in as (Hkk & _ & _). unfold UpdateSecret. wp_step.
  eapply wp_mono, generateKubeconfig_spec. intros [out|e|p] w1 (Hw1 & Hp & Hb); wp_step; [|..|by destruct (Hp p)].
  - specialize (Hb out eq_refl). rewrite Hd. fold (with_kubeconfig s data out).
    assert (cse_Key (with_kubeconfig s data out) = secret_key cn Kubeconfig) as Hk' by done.
    eapply wp_mono, api_Update_spec; [|by rewrite Hk'|by rewrite Hk', Hw1]. rewrite Hk'.
    intros o w2 [Hw2 Ho]. split; [by destruct o|]. split.
    { destruct Hw2 as [Hw2|Hw2]; rewrite Hw2 by done; [rewrite Hw1 by done; eauto|by rewrite lookup_insert_eq]. }
    destruct Hw2 as [Hw2|Hw2]; [left; by eapply same_on_trans|right]. exists out. split; [done|].
    by eapply insert_same_on.
  - split; [done|]. split; [rewrite Hw1 by done; eauto|by left].
Qed.

(** C10: the kubeconfig secret is written only when there is none, or when the control
    plane controls it and its client certificate is due; what is written points at the
    endpoint, trusts the cluster's certificate authority and authenticates with a
    certificate signed by the client authority, those of the certificate secrets.
    Nothing else of the three secrets changes, there is no panic once the secret has
    data, and a reconcile that ends without asking to be run again leaves a kubeconfig
    secret. *)
Theorem reconcileKubeconfig_spec endpoint rcp w :
  (∀ s, se_store w !! secret_key cn Kubeconfig = Some s → cse_Key s = secret_key cn Kubeconfig ∧ is_Some (cse_Data s)) →
  wp (reconcileKubeconfig cn endpoint rcp) (λ o w', (∀ p, o ≠ Panic p) ∧
    (same_on K (se_store w) (se_store w') ∨
     ∃ s', kubeconfig_written rcp ("https://" +:+ APIEndpoint_String endpoint) (se_store w) s' ∧
       same_on K (<[secret_key cn Kubeconfig := s']> (se_store w)) (se_store w')) ∧
    (o = Ok Result_zero → is_Some (se_store w' !! secret_key cn Kubeconfig))) w.
Proof.
  intros Hdata. destruct kubeconfig_keys_in as (Hkk & _ & _). unfold reconcileKubeconfig, GetFromNamespacedName.
  destruct (APIEndpoint_IsZero endpoint).
  { wp_step. split; [done|]. split; [by left|]. by intros [= ?]. }
  wp_step. eapply wp_mono, (api_Get_spec _ HK); [|exact Hkk]. intros [s|e|p] w1 [Hw1 Hs]; [|..|done]; wp_step.
  - assert (is_Some (se_store w1 !! secret_key cn Kubeconfig)) as Hex by (rewrite Hw1 by done; eauto).
    destruct (IsControlledBy s rcp) eqn:Ec; cbn [negb]; [|by split; [|split; [left|]]].
    unfold time_Now. wp_step. destruct (NeedsClientCertRotation s _) as [e|b] eqn:En; cbn [of_sum]; wp_step;
      [by split; [|split; [left|]]|].
    destruct b; wp_step; [|by split; [|split; [left|]]]. rewrite wp_kwrap.
    destruct (Hdata s Hs) as [Hkey [data Hd]].
    eapply wp_mono, UpdateSecret_spec; [|by rewrite Hw1|done|exact Hd].
    intros o w2 (Hp & Hex2 & Hw2). 
    assert (same_on K (se_store w) (se_store w2) ∨
      ∃ s', kubeconfig_written rcp ("https://" +:+ APIEndpoint_String endpoint) (se_store w) s' ∧
        same_on K (<[secret_key cn Kubeconfig := s']> (se_store w)) (se_store w2)) as Hst.
    { destruct Hw2 as [Hw2|(out & Hb & Hw2)]; [left; by eapply same_on_trans|right].
      exists (with_kubeconfig s data out). split; [|by eapply insert_same_on].
      exists out. split; [by eapply built_from_same|]. right. by eexists s, data, _. }
    destruct o as [[]|e|p]; wp_step; [done|done|by destruct (Hp p)].
  - destruct (IsNotFound e) eqn:Ee; wp_step; [|by split; [|split; [left|]]].
    specialize (Hs eq_refl). eapply wp_mono, CreateSecretWithOwner_spec; [|by rewrite Hw1].
    intros o w2 [Hp Hw2].
    assert (same_on K (se_store w) (se_store w2) ∨
        ∃ s', kubeconfig_written rcp ("https://" +:+ APIEndpoint_String endpoint) (se_store w) s' ∧
         same_on K (<[secret_key cn Kubeconfig := s']> (se_store w)) (se_store w2)) as Hst.
    { destruct Hw2 as [[Hw2 _]|(out & Hb & Hw2)]; [left; by eapply same_on_trans|right].
      exists (GenerateSecretWithOwner cn out (NewControllerRef rcp)). split; [|by eapply insert_same_on].
      exists out. split; [by eapply built_from_same|by left]. }
    destruct o as [[]|e'|p]; wp_step; [| |by destruct (Hp p)].
    + split; [done|]. split; [done|]. intros _. destruct Hw2 as [[_ ?]|(out & _ & Hw2)]; [done|].
      rewrite Hw2 by done. rewrite lookup_insert_eq. eauto.
    + destruct (is_dependent_certificate_error e'); wp_step; (split; [done|]; split; [done|]); by intros [= ?].
Qed.
End kubeconfig_contract.

(** ** Without failures *)

Section progress.
Context `{ApiServer, X509, CapiConsts, KubeconfigLib, MetaLib}.
Context (cn : ObjectKey).

(** Keys can be drawn, certificates made, and what is encoded can be decoded. *)
Record pki_works : Prop := {
  pki_key : ∀ n, ∃ k, certs_NewPrivateKey n = inr k;
  pki_create : ∀ n t k, ∃ b c, x509_CreateCertificate n t None k k = inr b ∧ x509_ParseCertificate b = inr c;
  pki_cert : ∀ c, DecodeCertPEM (EncodeCertPEM c) = inr (Some c);
  pki_private : ∀ k, ∃ k', DecodePrivateKeyPEM (EncodePrivateKeyPEM k) = inr (Some k');
  pki_sign : ∀ n now name orgs usages key ca cakey, ∃ c, NewSignedCert n now name orgs usages key ca cakey = inr c;
  pki_write : ∀ cfg, ∃ out, clientcmd_Write cfg = inr out
}.
Definition decodable (kp : KeyPair) : Prop :=
  (∃ c, DecodeCertPEM (kp_Cert kp) = inr (Some c)) ∧ (∃ k, DecodePrivateKeyPEM (kp_Key kp) = inr (Some k)).
(** A stored secret that holds a key pair. *)
Definition good_secret (m : Store) (key : ObjectKey) : Prop :=
  ∀ s, m !! key = Some s → ∃ kp, secretToKeyPair s = Ok kp ∧ decodable kp.

Context (K : list ObjectKey) (HK : well_behaved K) (Hnofault : ∀ n, fault n = None) (Hpki : pki_works).

Lemma api_Get_total key w :
  key ∈ K → wp (api_Get key) (λ o w', same_on K (se_store w) (se_store w') ∧
    o = match se_store w !! key with Some s => Ok s | None => Err ENotFound end) w.
Proof.
  intros Hk. unfold wp, api_Get, call. rewrite Hnofault. cbn. split; [intros k Hk'; by apply (wb_traffic K HK)|].
  by rewrite (wb_traffic K HK).
Qed.
Lemma api_Create_total s w : cse_Key s ∈ K → se_store w !! cse_Key s = None →
  wp (api_Create s) (λ o w', same_on K (<[cse_Key s := s]> (se_store w)) (se_store w') ∧ o = Ok tt) w.
Proof.
  intros Hk Hm. unfold wp, api_Create, call. rewrite Hnofault, (wb_traffic K HK), Hm by done. cbn. split; [|done].
  eapply insert_same_on; [|done]. intros k Hk'. by apply (wb_traffic K HK).
Qed.

Lemma generateCACert_total w : ∃ kp w', generateCACert w = (Ok kp, w') ∧ se_store w' = se_store w ∧ decodable kp.
Proof.
  unfold generateCACert, newCertificateAuthority, newSelfSignedCACert.
  destruct (pki_key Hpki (se_draws w)) as [k Hk].
  destruct (pki_create Hpki (S (se_draws w)) (ca_template (wall_clock (se_calls w))) k) as (b & c & Hb & Hc).
  exists (Build_KeyPair (EncodeCertPEM c) (EncodePrivateKeyPEM k)).
  eexists. split; [|split; [|split; [exists c; apply (pki_cert Hpki)|apply (pki_private Hpki)]]].
  - unfold draw, time_Now, lift, gets, mbind, comp_bind. cbn. rewrite Hk. cbn. rewrite Hb. cbn. rewrite Hc. reflexivity.
  - done.
Qed.

Definition plain_certificate (c : ManagedCertificate) : Prop := to_manage c ∧ mc_Purpose c ≠ ServiceAccount.

Lemma Lookup_total l w :
  Forall plain_certificate l → Forall (λ c, ckey cn c ∈ K ∧ good_secret (se_store w) (ckey cn c)) l →
  wp (Lookup api_Get l cn) (λ o w', same_on K (se_store w) (se_store w') ∧ ∃ l', o = Ok l' ∧
    Forall (λ c, mc_Purpose c ≠ APIServerEtcdClient ∧ mc_Purpose c ≠ ServiceAccount ∧
                 ∀ kp, mc_KeyPair c = Some kp → decodable kp) l') w.
Proof.
  intros Hl. revert w. induction Hl as [|c l [Hc Hsa] Hl IH]; intros w HlK; cbn [Lookup].
  { split; [done|]. by exists []. }
  apply list.Forall_cons in HlK as [[HcK Hgood] HlK]. unfold certificate_Lookup. wp_step.
  eapply wp_mono, api_Get_total; [|exact HcK]. intros o w1 [Hw1 ->]. fold (ckey cn c).
  destruct (se_store w !! ckey cn c) as [s|] eqn:Es; wp_step.
  - destruct (Hgood s Es) as (kp & Hkp & Hdec). rewrite Hkp. wp_step.
    assert (Forall (λ c, ckey cn c ∈ K ∧ good_secret (se_store w1) (ckey cn c)) l) as HlK1.
    { eapply Forall_impl; [|exact HlK]. intros d [HdK Hg]. split; [done|]. intros s'. rewrite Hw1 by done. apply Hg. }
    eapply wp_mono, IH, HlK1. intros o w2 (Hw2 & l' & -> & Hl'). wp_step. split; [by eapply same_on_trans|].
    eexists. split; [done|]. constructor; [|done]. split; [exact (tm_purpose c Hc)|]. split; [done|].
    intros kp' [= <-]. done.
  - cbn [IsNotFound]. rewrite (tm_external c Hc). wp_step. split; [done|]. eexists. split; [done|].
    assert (∀ d, plain_certificate d → mc_Purpose d ≠ APIServerEtcdClient ∧ mc_Purpose d ≠ ServiceAccount ∧
      ∀ kp, mc_KeyPair d = Some kp → decodable kp) as Hd.
    { intros d [Hd ?]. split; [exact (tm_purpose d Hd)|]. split; [done|]. intros kp. by rewrite (tm_pair d Hd). }
    constructor; [by apply Hd|]. eapply Forall_impl; [exact Hd|done].
Qed.

Lemma Generate_total l w :
  Forall (λ c, mc_Purpose c ≠ APIServerEtcdClient ∧ mc_Purpose c ≠ ServiceAccount ∧
               ∀ kp, mc_KeyPair c = Some kp → decodable kp) l →
  wp (Generate l) (λ o w', se_store w' = se_store w ∧ ∃ l', o = Ok l' ∧
    Forall (λ c, ∃ kp, mc_KeyPair c = Some kp ∧ decodable kp) l') w.
Proof.
  intros Hl. revert w. induction Hl as [|c l (Ha & Hs & Hd) Hl IH]; intros w; cbn [Generate].
  { split; [done|]. by exists []. }
  wp_step.
  assert (wp (match mc_KeyPair c with Some _ => mret c | None => certificate_Generate c end) (λ o w', se_store w' = se_store w ∧
    ∃ c', o = Ok c' ∧ ∃ kp, mc_KeyPair c' = Some kp ∧ decodable kp) w) as Hc.
  { destruct (mc_KeyPair c) as [kp|] eqn:E; [by split; [|exists c; eauto]|].
    unfold certificate_Generate. rewrite !decide_False by done. wp_step.
    destruct (generateCACert_total w) as (kp & w' & Hg & Hst & Hdec). unfold wp. rewrite Hg. cbn. split; [done|].
    eexists. split; [done|]. by exists kp. }
  eapply wp_mono, Hc. intros o w1 (Hw1 & c' & -> & Hc'). wp_step.
  eapply wp_mono, IH. intros o w2 (Hw2 & l' & -> & Hl'). wp_step. split; [by rewrite Hw2|]. eexists. split; [done|].
  by constructor.
Qed.

Lemma SaveGenerated_total l owner w :
  Forall (λ c, ckey cn c ∈ K ∧ is_Some (mc_KeyPair c)) l →
  wp (SaveGenerated l cn owner) (λ o _, o = Ok tt) w.
Proof.
  unfold SaveGenerated. intros Hl. revert w. induction Hl as [|c l [HcK [kp Hkp]] Hl IH]; intros w; cbn [for_each]; [done|].
  wp_step. unfold certificate_SaveGenerated.
  destruct (AsSecret c cn owner) as [s|e|p] eqn:Es; [|by unfold AsSecret in Es; rewrite Hkp in Es..].
  destruct (AsSecret_pair cn c owner s kp Hkp Es) as [Hkey _]. wp_step. rewrite Hkey.
  eapply wp_mono, api_Get_total; [|done]. intros o w1 [Hw1 ->].
  destruct (se_store w !! ckey cn c) eqn:Em; wp_step; [apply IH|]. cbn [IsNotFound]. wp_step.
  eapply wp_mono, api_Create_total; [|by rewrite Hkey|by rewrite Hkey, Hw1]. intros o w2 [_ ->]. wp_step. apply IH.
Qed.

Lemma LookupOrGenerate_total l owner w :
  Forall plain_certificate l → Forall (λ c, ckey cn c ∈ K ∧ good_secret (se_store w) (ckey cn c)) l →
  NoDup (map (ckey cn) l) → in_order cn (se_store w) l →
  wp (LookupOrGenerate l cn owner) (λ o _, ∃ l', o = Ok l' ∧ Forall (λ c, ∃ kp, mc_KeyPair c = Some kp ∧ decodable kp) l') w.
Proof.
  intros Hl HlK Hnd Ho.
  assert (Forall to_manage l) as Htm by (eapply Forall_impl; [|exact Hl]; by intros ? []).
  assert (Forall (λ c, ckey cn c ∈ K) l) as HlK' by (eapply Forall_impl; [|exact HlK]; by intros ? []).
  pose proof (Lookup_spec cn K HK l w Htm HlK' Ho) as Hls. pose proof (Lookup_total l w Hl HlK) as Hlt.
  unfold LookupOrGenerate. wp_step. unfold wp in Hls, Hlt |- * at 1.
  destruct (Lookup api_Get l cn w) as [o w1]. cbn [fst snd] in *. destruct Hlt as (Hw1 & l1 & -> & Hl1).
  destruct Hls as [_ Hls]. specialize (Hls l1 eq_refl). wp_step.
  assert (Forall (λ c, mc_Purpose c ≠ APIServerEtcdClient) l1) as Hp1
    by (eapply Forall_impl; [|exact Hl1]; by intros ? []).
  pose proof (Generate_spec l1 w1 Hp1) as Hgs. pose proof (Generate_total l1 w1 Hl1) as Hgt.
  unfold wp in Hgs, Hgt |- * at 1. destruct (Generate l1 w1) as [o w2]. cbn [fst snd] in *.
  destruct Hgt as (Hw2 & l2 & -> & Hl2). destruct Hgs as [_ Hgs]. specialize (Hgs l2 eq_refl). wp_step.
  destruct (loaded_generated cn _ l l1 l2 Htm Hls Hgs) as (_ & _ & Hkeys).
  eapply wp_mono, SaveGenerated_total.
  - intros o w3 ->. wp_step. eauto.
  - apply list.Forall_forall. intros c Hc. rewrite list.Forall_forall in Hl2. destruct (Hl2 c Hc) as (kp & Hkp & _).
    split; [|by rewrite Hkp]. apply (list_elem_of_fmap_2 (ckey cn)) in Hc. change (ckey cn c ∈ map (ckey cn) l2) in Hc.
    rewrite Hkeys in Hc. apply list_elem_of_fmap in Hc as (d & -> & Hd). rewrite list.Forall_forall in HlK'. auto.
Qed.

(** A secret with a key pair has the entries the kubeconfig is made from. *)
Lemma decodable_entries s kp :
  secretToKeyPair s = Ok kp → entry s TLSCrtDataName = kp_Cert kp ∧ entry s TLSKeyDataName = kp_Key kp.
Proof.
  unfold secretToKeyPair, entry. destruct (default ∅ (cse_Data s) !! TLSCrtDataName); [|done]. by intros [= <-].
Qed.

Definition ready_secret (m : Store) (purpose : string) : Prop :=
  ∃ s kp, m !! secret_key cn purpose = Some s ∧ secretToKeyPair s = Ok kp ∧ decodable kp.

Lemma dependent_secret_total msg purpose w s :
  secret_key cn purpose ∈ K → se_store w !! secret_key cn purpose = Some s →
  wp (dependent_secret msg cn purpose) (λ o w', same_on K (se_store w) (se_store w') ∧ o = Ok s) w.
Proof.
  intros Hk Hs. unfold dependent_secret, GetFromNamespacedName. wp_step.
  eapply wp_mono, api_Get_total; [|exact Hk]. intros o w1 [Hw1 ->]. rewrite Hs. by wp_step.
Qed.

Lemma generateKubeconfig_total server w :
  secret_key cn ClusterCA ∈ K → secret_key cn ClientClusterCA ∈ K →
  ready_secret (se_store w) ClusterCA → ready_secret (se_store w) ClientClusterCA →
  wp (generateKubeconfig cn server) (λ o w', same_on K (se_store w) (se_store w') ∧ ∃ out, o = Ok out) w.
Proof.
  intros Hk1 Hk2 (s1 & kp1 & Hs1 & Hp1 & [ca1 Hd1] & _) (s2 & kp2 & Hs2 & Hp2 & [ca2 Hd2] & [key2 Hd2']).
  destruct (decodable_entries _ _ Hp1) as [He1 _], (decodable_entries _ _ Hp2) as [He2 He2'].
  unfold generateKubeconfig, kubeconfig_config. wp_step.
  eapply wp_mono, dependent_secret_total; [|done|done]. intros o w1 [Hw1 ->]. wp_step.
  eapply wp_mono, dependent_secret_total; [|done|by rewrite Hw1]. intros o w2 [Hw2 ->]. wp_step.
  rewrite He1, He2, He2', Hd1, Hd2, Hd2'. cbn [decoded]. wp_step. rewrite wp_kwrap. unfold New. wp_step. rewrite wp_draw.
  wp_step. rewrite wp_kwrap. wp_step. destruct (pki_key Hpki (se_draws w2)) as [k ->]. cbn [of_sum]. wp_step.
  unfold time_Now. wp_step. rewrite wp_draw. wp_step. rewrite wp_kwrap. wp_step.
  match goal with |- context [NewSignedCert ?n ?t ?a ?b ?c ?d ?e ?f] =>
    destruct (pki_sign Hpki n t a b c d e f) as [cert ->] end. cbn [of_sum]. wp_step. rewrite wp_kwrap. wp_step.
  match goal with |- context [clientcmd_Write ?c] => destruct (pki_write Hpki c) as [out ->] end. cbn [of_sum].
  split; [|by exists out]. cbn [se_store]. by eapply same_on_trans.
Qed.

Lemma reconcileKubeconfig_creates endpoint rcp w :
  secret_key cn Kubeconfig ∈ K → secret_key cn ClusterCA ∈ K → secret_key cn ClientClusterCA ∈ K →
  APIEndpoint_IsZero endpoint = false → se_store w !! secret_key cn Kubeconfig = None →
  ready_secret (se_store w) ClusterCA → ready_secret (se_store w) ClientClusterCA →
  wp (reconcileKubeconfig cn endpoint rcp) (λ o _, o = Ok Result_zero) w.
Proof.
  intros Hk Hk1 Hk2 He Hn Hr1 Hr2. unfold reconcileKubeconfig, GetFromNamespacedName. rewrite He. wp_step.
  eapply wp_mono, api_Get_total; [|exact Hk]. intros o w1 [Hw1 ->]. rewrite Hn. wp_step. cbn [IsNotFound]. wp_step.
  unfold CreateSecretWithOwner. wp_step. rewrite wp_kwrap.
  assert (∀ p, secret_key cn p ∈ K → ready_secret (se_store w) p → ready_secret (se_store w1) p) as Hr.
  { intros p Hp (s & kp & ? & ?). exists s, kp. by rewrite Hw1. }
  eapply wp_mono, generateKubeconfig_total; [|done|done|by apply Hr|by apply Hr].
  intros o w2 (Hw2 & out & ->). wp_step. rewrite wp_kwrap.
  eapply wp_mono, api_Create_total; [|exact Hk|cbn [cse_Key GenerateSecretWithOwner]; by rewrite Hw2, Hw1].
  intros o w3 [_ ->]. by wp_step.
Qed.
End progress.

Section access.
Context `{ApiServer, X509, CapiConsts, KubeconfigLib, MetaLib}.

Lemma certificates_plain legacy : Forall plain_certificate (certificates_of legacy).
Proof. destruct legacy; repeat constructor; done. Qed.

(** The secrets of a cluster: those of its certificates, and the kubeconfig. *)
Definition cluster_keys (cn : ObjectKey) (legacy : bool) : list ObjectKey :=
  secret_key cn Kubeconfig :: map (ckey cn) (certificates_of legacy).

Lemma cluster_keys_CA cn legacy :
  secret_key cn ClusterCA ∈ map (ckey cn) (certificates_of legacy) ∧
  secret_key cn ClientClusterCA ∈ map (ckey cn) (certificates_of legacy).
Proof. destruct legacy; cbn; set_solver. Qed.
Lemma kubeconfig_not_certificate cn legacy : secret_key cn Kubeconfig ∉ map (ckey cn) (certificates_of legacy).
Proof.
  intros Hin. rewrite <-(map_map mc_Purpose (secret_key cn)) in Hin.
  apply list_elem_of_fmap in Hin as (p & Hp & Hin). apply (inj (secret_key cn)) in Hp. subst p.
  revert Hin. destruct legacy; vm_compute; intros Hin; repeat (apply elem_of_cons in Hin as [?|Hin]; [done|]);
    by apply not_elem_of_nil in Hin.
Qed.

Lemma cluster_keys_in cn legacy :
  secret_key cn Kubeconfig ∈ cluster_keys cn legacy ∧
  (∀ k, k ∈ map (ckey cn) (certificates_of legacy) → k ∈ cluster_keys cn legacy) ∧
  (∀ k, k ∈ kubeconfig_keys cn → k ∈ cluster_keys cn legacy) ∧
  Forall (λ c, ckey cn c ∈ cluster_keys cn legacy) (certificates_of legacy).
Proof.
  destruct (cluster_keys_CA cn legacy) as [Hca Hcca].
  assert (∀ k, k ∈ map (ckey cn) (certificates_of legacy) → k ∈ cluster_keys cn legacy) as Hin
    by (intros k Hk; by apply list_elem_of_further).
  assert (secret_key cn Kubeconfig ∈ cluster_keys cn legacy) as Hkk by (by apply list_elem_of_here).
  split; [done|]. split; [done|]. split.
  - intros k Hk. unfold kubeconfig_keys in Hk.
    repeat (apply elem_of_cons in Hk as [->|Hk]; [auto|]). by apply not_elem_of_nil in Hk.
  - eapply Forall_impl; [|apply (certificates_in cn legacy)]. auto.
Qed.

(** The certificates, ready to be used. *)
Lemma LookupOrGenerate_ready legacy cn owner w :
  well_behaved (cluster_keys cn legacy) → (∀ n, fault n = None) → pki_works →
  in_order cn (se_store w) (certificates_of legacy) →
  Forall (λ c, good_secret (se_store w) (ckey cn c)) (certificates_of legacy) →
  ∃ l w1, LookupOrGenerate (certificates_of legacy) cn owner w = (Ok l, w1) ∧
    map (ckey cn) l = map (ckey cn) (certificates_of legacy) ∧ Forall (agrees cn (se_store w1)) l ∧
    se_store w1 !! secret_key cn Kubeconfig = se_store w !! secret_key cn Kubeconfig ∧
    ready_secret cn (se_store w1) ClusterCA ∧ ready_secret cn (se_store w1) ClientClusterCA.
Proof.
  intros HK Hf Hpki Ho Hgood. destruct (cluster_keys_in cn legacy) as (Hkk & _ & _ & HlK).
  pose proof (LookupOrGenerate_spec cn _ HK _ owner w HlK (certificates_keys cn legacy) (certificates_managed legacy) Ho) as Hs.
  pose proof (LookupOrGenerate_total cn _ HK Hf Hpki (certificates_of legacy) owner w (certificates_plain legacy)
    (proj2 (list.Forall_and _ _) (conj HlK Hgood)) (certificates_keys cn legacy) Ho) as Ht.
  unfold wp in Hs, Ht. destruct (LookupOrGenerate _ _ _ w) as [o w1]. cbn [fst snd] in *.
  destruct Ht as (l & -> & Hdec). destruct Hs as (_ & _ & Hframe & Hs). destruct (Hs l eq_refl) as (Hsb & Hkeys & Hag).
  assert (∀ p, secret_key cn p ∈ map (ckey cn) (certificates_of legacy) → ready_secret cn (se_store w1) p) as Hready.
  { intros p Hp. rewrite <-Hkeys in Hp. apply list_elem_of_fmap in Hp as (c & Hc & Hcl).
    rewrite list.Forall_forall in Hag, Hdec. destruct (Hag c Hcl) as (kp & s & Hkp & Hst & Hpair).
    destruct (Hdec c Hcl) as (kp' & Hkp' & Hd). exists s, kp. rewrite Hc. split; [done|]. split; [done|].
    rewrite Hkp in Hkp'. by injection Hkp' as <-. }
  destruct (cluster_keys_CA cn legacy) as [Hca Hcca]. exists l, w1. split; [done|]. split; [done|]. split; [done|].
  split; [apply Hframe; [done|apply kubeconfig_not_certificate]|]. by split; apply Hready.
Qed.

(** C11: a cluster comes to a working kubeconfig.  When no call fails, keys can be drawn
    and what is encoded decodes, one reconcile makes the certificates that are missing
    and the kubeconfig secret, from the certificates it returns, whatever part of them
    earlier reconciles had already stored. *)
Theorem cluster_gets_kubeconfig legacy cn owner endpoint rcp w :
  well_behaved (cluster_keys cn legacy) → (∀ n, fault n = None) → pki_works →
  in_order cn (se_store w) (certificates_of legacy) →
  Forall (λ c, good_secret (se_store w) (ckey cn c)) (certificates_of legacy) →
  se_store w !! secret_key cn Kubeconfig = None → APIEndpoint_IsZero endpoint = false →
  ∃ l w1 w2 out,
    LookupOrGenerate (certificates_of legacy) cn owner w = (Ok l, w1) ∧
    reconcileKubeconfig cn endpoint rcp w1 = (Ok Result_zero, w2) ∧
    se_store w2 !! secret_key cn Kubeconfig = Some (GenerateSecretWithOwner cn out (NewControllerRef rcp)) ∧
    built_from cn (se_store w2) ("https://" +:+ APIEndpoint_String endpoint) out ∧
    Forall (agrees cn (se_store w2)) l.
Proof.
  intros HK Hf Hpki Ho Hgood Hn He. destruct (cluster_keys_CA cn legacy) as [Hca Hcca].
  destruct (cluster_keys_in cn legacy) as (Hkk & Hin & Hsub & _).
  pose proof (kubeconfig_not_certificate cn legacy) as Hnot.
  destruct (LookupOrGenerate_ready legacy cn owner w HK Hf Hpki Ho Hgood)
    as (l & w1 & E1 & Hkeys & Hag & Hn1 & Hr1 & Hr2). rewrite Hn in Hn1.
  pose proof (reconcileKubeconfig_spec cn _ HK Hsub endpoint rcp w1) as Hrs.
  pose proof (reconcileKubeconfig_creates cn _ HK Hf Hpki endpoint rcp w1 Hkk (Hin _ Hca) (Hin _ Hcca) He Hn1 Hr1 Hr2) as Hrc.
  unfold wp in Hrs, Hrc. destruct (reconcileKubeconfig _ _ _ w1) as [o w2] eqn:E2. cbn [fst snd] in *. subst o.
  destruct Hrs as (_ & Hw2 & Hex); [by rewrite Hn1|]. specialize (Hex eq_refl).
  destruct Hw2 as [Hw2|(s' & (out & Hb & [[_ ->]|(s & ? & ? & Hsome & _)]) & Hw2)];
    [rewrite Hw2, Hn1 in Hex by done; by destruct Hex| |by rewrite Hn1 in Hsome].
  assert (∀ k, k ∈ map (ckey cn) (certificates_of legacy) → se_store w2 !! k = se_store w1 !! k) as Hkeep.
  { intros k Hk. rewrite Hw2 by auto. apply lookup_insert_ne. intros <-. done. }
  exists l, w1, w2, out. split; [done|]. split; [done|]. split; [rewrite Hw2 by done; by apply lookup_insert_eq|]. split.
  - destruct Hb as (cfg & (s1 & s2 & ca & k & sca & n & t & pk & c & Hs1 & Hs2 & Hrest) & Hout).
    exists cfg. split; [|done]. exists s1, s2, ca, k, sca, n, t, pk, c. rewrite !Hkeep by done. done.
  - apply list.Forall_forall. intros c Hc. rewrite list.Forall_forall in Hag.
    destruct (Hag c Hc) as (kp & s & Hkp & Hst & Hp). exists kp, s. split; [done|]. split; [|done].
    rewrite Hkeep; [done|]. rewrite <-Hkeys. by apply list_elem_of_fmap_2.
Qed.
End access.

(** ** Samples *)

#[export] Instance plain_kubeconfig : KubeconfigLib := {
  clientcmd_Write c := inr (kcfg_CurrentContext c +:+ " " +:+
    match map_to_list (kcfg_Clusters c) with (_, x) :: _ => kc_Server x | [] => "" end);
  APIEndpoint_String e := ae_Host e +:+ ":" +:+ fmt_d (ae_Port e);
  NeedsClientCertRotation s now := inr (bool_decide (100 < now)%Z);
  IsControlledBy s rcp := existsb (λ o, bool_decide (ow_UID o = om_UID (rcp_ObjectMeta rcp))) (cse_OwnerReferences s)
}.

Definition demo_endpoint : APIEndpoint := Build_APIEndpoint "10.0.0.1" 6443.

Lemma plain_pki_works : pki_works.
Proof.
  split; intros; cbn; repeat eexists.
  - by destruct c.
  - by destruct (fmt_nat k).
Qed.

Lemma cluster_gets_kubeconfig_witness :
  ∃ l w1 w2 out,
    LookupOrGenerate (H := plain_server) (certificates_of false) demo_cluster demo_owner no_secrets = (Ok l, w1) ∧
    reconcileKubeconfig (H := plain_server) demo_cluster demo_endpoint (demo_rcp 3 true) w1 = (Ok Result_zero, w2) ∧
    se_store w2 !! secret_key demo_cluster Kubeconfig =
      Some (GenerateSecretWithOwner demo_cluster out (NewControllerRef (demo_rcp 3 true))) ∧
    built_from demo_cluster (se_store w2) ("https://" +:+ APIEndpoint_String demo_endpoint) out ∧
    Forall (agrees demo_cluster (se_store w2)) l.
Proof.
  apply (cluster_gets_kubeconfig (H := plain_server) false demo_cluster demo_owner demo_endpoint (demo_rcp 3 true) no_secrets).
  - by split.
  - done.
  - apply plain_pki_works.
  - vm_compute. repeat constructor.
  - apply list.Forall_forall. intros c _ s Hs. cbn in Hs. by rewrite lookup_empty in Hs.
  - vm_compute. reflexivity.
  - vm_compute. reflexivity.
Defined.

(** The first reconcile after the certificates creates the kubeconfig. *)
Definition demo_certified : Secrets := (runs (H := plain_server) false demo_cluster [demo_owner] no_secrets).2.
Lemma reconcileKubeconfig_spec_witness :
  is_Some (se_store (reconcileKubeconfig (H := plain_server) demo_cluster demo_endpoint (demo_rcp 3 true) demo_certified).2
    !! secret_key demo_cluster Kubeconfig).
Proof.
  refine (proj2 (proj2 (reconcileKubeconfig_spec (H := plain_server) demo_cluster (kubeconfig_keys demo_cluster)
    _ _ demo_endpoint (demo_rcp 3 true) demo_certified _)) _).
  - by split.
  - done.
  - intros s Hs. vm_compute in Hs. discriminate Hs.
  - vm_compute. reflexivity.
Defined.
