(* ===== verification/WorkloadClient.v ===== *)
(** * The client of a workload cluster

    pkg/rke2/management_cluster.go and [NewWorkload] of workload_cluster.go: the
    connection to the etcd members of a workload cluster is authenticated with a client
    certificate made from the cluster's etcd certificate authority, which is read from
    its secret each time, through a caching client first; the certificates are kept in
    a cache whose keys tell clusters and authorities apart.

    The cluster cache, TLS and the fingerprint are parameters.
    [etcd_client_matches_CA] is the contract: the certificate offered and the roots
    trusted belong to the same authority, through any number of calls for any clusters
    while the secrets change. *)

From stdpp Require Import base tactics option list gmap strings numbers.
From Stdlib Require Import Ascii.
From S2P Require Import Prelude Go Api Objects Libs World Demo Config Certificates Kubeconfig.
Open Scope string_scope.
Open Scope list_scope.
Open Scope stdpp_scope.

Record RestConfig := { rc_Host : string; rc_Timeout : Duration }.
Definition set_Timeout (d : Duration) (c : RestConfig) : RestConfig := Build_RestConfig (rc_Host c) d.

Class WorkloadLib `{X509} := {
  (* the cluster cache *)
  GetRESTConfig : nat → ObjectKey → error + RestConfig;
  GetClient : nat → ObjectKey → error + unit;
  (* what the caching client sees of the secrets *)
  cached_view : nat → Store → Store;
  (* the entries of the certificate cache that are too old *)
  expired : nat → string → bool;
  TlsCertificate : Type;
  X509KeyPair : string → string → error + TlsCertificate;
  sha256_hex : string → string; (* %x of sha256.Sum256 *)
  (* x509's Verify: the roots, the host name, the intermediates and the certificate *)
  x509_Verify : string → string → list Certificate → Certificate → option error
}.

Record ClientCertEntry `{WorkloadLib} := {
  ce_Cluster : ObjectKey; ce_ClientCert : TlsCertificate; ce_CACert : string
}.

(** [tls.Config] as far as it is set, and the generator of etcd clients. *)
Record TlsConfig `{WorkloadLib} := {
  tc_RootCAs : string; tc_Certificates : list TlsCertificate;
  tc_VerifyConnection : list Certificate → option error
}.
Record ClientGenerator `{WorkloadLib} := {
  cg_restConfig : RestConfig; cg_tlsConfig : TlsConfig;
  cg_etcdDialTimeout : Duration; cg_etcdCallTimeout : Duration
}.

(** The management cluster: its secrets, and [ClientCertCache]. *)
Record Management `{WorkloadLib} := { mg_secrets : Secrets; mg_ClientCertCache : gmap string ClientCertEntry }.

Section client.
Context `{ApiServer, WorkloadLib, CapiConsts}.
Abbreviation W := (comp Management).

Definition on_secrets {A} (m : SC A) : W A := λ w,
  let '(o, s) := m (mg_secrets w) in (o, Build_Management _ _ s (mg_ClientCertCache w)).
Definition calls_made : W nat := gets (λ w, se_calls (mg_secrets w)).

(** [NamespacedName.String] and [ClientCertEntry.Key]. *)
Definition ObjectKey_String (k : ObjectKey) : string := k.1 +:+ "/" +:+ k.2.
Definition cert_key (cluster : ObjectKey) (ca : string) : string := ObjectKey_String cluster +:+ ":" +:+ sha256_hex ca.
Definition Key (r : ClientCertEntry) : string := cert_key (ce_Cluster r) (ce_CACert r).

(** A read through the caching client. *)
Definition cached_Get : Reader := λ key s,
  match cached_view (se_calls s) (se_store s) !! key with
  | Some v => (Ok v, s)
  | None => (Err ENotFound, s)
  end.

Definition DefaultWorkloadTimeout : Duration := (30 * Second)%Z.
Definition remoteEtcdTimeout : Duration := (30 * Second)%Z.
Definition etcdDialTimeout : Duration := (10 * Second)%Z.
Definition etcdCallTimeout : Duration := (15 * Second)%Z.

Definition getEtcdCAKeyPair (cl : Reader) (clusterKey : ObjectKey) : SC (option KeyPair) :=
  let certificate := Build_ManagedCertificate true false EtcdServerCA None "" "" in
  certificates ← kwrap "failed to get secret CA bundle; etcd CA bundle" (Lookup cl [certificate] clusterKey);
  match certificates with
  | [] => panic "index out of range"
  | certificate :: _ =>
      s ← kwrap "failed to get secret; etcd CA bundle" (certificate_Lookup cl certificate clusterKey);
      match s with
      | None => mret None
      | Some _ => mret (mc_KeyPair certificate)
      end
  end.

(** [newClientCert]. *)
Definition client_template (now : Time) : CertificateTemplate :=
  {| ct_SerialNumber := 0%Z; ct_CommonName := "cluster-api.x-k8s.io"; ct_Organization := [];
     ct_NotBefore := Time_Add now (Minute * -5); ct_NotAfter := Time_Add now TenYears;
     ct_KeyUsage := [KeyUsageDigitalSignature]; ct_ExtKeyUsage := [ExtKeyUsageClientAuth];
     ct_MaxPathLenZero := false; ct_BasicConstraintsValid := false; ct_MaxPathLen := 0%Z; ct_IsCA := false |}.
(** [x509.CreateCertificate] with a parent and a signer that may be nil. *)
Definition CreateCertificate (n : nat) (template : CertificateTemplate) (parent : option Certificate)
    (pub : PrivateKey) (priv : option PrivateKey) : outcome string :=
  match priv, parent with
  | None, _ => Err (EText "x509: certificate private key does not implement crypto.Signer")
  | Some _, None => Panic "nil pointer dereference"
  | Some signer, Some parent => of_sum (x509_CreateCertificate n template (Some parent) pub signer)
  end.
Definition newClientCert (caCert : option Certificate) (key : PrivateKey) (caKey : option PrivateKey) : SC Certificate :=
  now ← time_Now;
  n ← draw;
  b ← kwrap "failed to create signed client certificate" (lift (CreateCertificate n (client_template now) caCert key caKey));
  lift (of_sum (x509_ParseCertificate b)).

Definition generateClientCert (caCertEncoded caKeyEncoded : string) : SC TlsCertificate :=
  caCert ← lift (of_sum (DecodeCertPEM caCertEncoded));
  caKey ← lift (of_sum (DecodePrivateKeyPEM caKeyEncoded));
  n ← draw;
  clientKey ← lift (of_sum (certs_NewPrivateKey n));
  x509Cert ← newClientCert caCert clientKey caKey;
  lift (of_sum (X509KeyPair (EncodeCertPEM x509Cert) (EncodePrivateKeyPEM clientKey))).

(** The error, when it is not [NotFound], of reading the key pair. *)
Definition read_key_pair (clusterKey : ObjectKey) : SC (option KeyPair) :=
  r ← try (getEtcdCAKeyPair cached_Get clusterKey);
  match r with
  | inl kp => mret kp
  | inr e =>
      if IsNotFound e then
        r ← try (getEtcdCAKeyPair api_Get clusterKey);
        match r with
        | inl kp => mret kp
        | inr e => if IsNotFound e then mret None else fail e
        end
      else fail e
  end.

(** The certificate from the cache, or a new one, which goes into the cache. *)
Definition client_cert (clusterKey : ObjectKey) (kp : KeyPair) : W TlsCertificate :=
  n ← calls_made;
  cache ← gets mg_ClientCertCache;
  let key := cert_key clusterKey (kp_Cert kp) in
  match (if expired n key then None else cache !! key) with
  | Some entry => mret (ce_ClientCert entry)
  | None =>
      clientCert ← on_secrets (generateClientCert (kp_Cert kp) (kp_Key kp));
      let entry := {| ce_Cluster := clusterKey; ce_ClientCert := clientCert; ce_CACert := kp_Cert kp |} in
      _ ← modify (λ w, Build_Management _ _ (mg_secrets w) (<[Key entry := entry]> (mg_ClientCertCache w)));
      mret clientCert
  end.

Definition VerifyConnection (roots : string) (peers : list Certificate) : option error :=
  match peers with
  | [] => Some (EText "server did not present any certificates")
  | cert :: intermediates => x509_Verify roots "localhost" intermediates cert
  end.

(** A [Workload] starts without nodes; what matters here is the generator of etcd
    clients, which is nil without a certificate authority. *)
Definition NewWorkload (restConfig : RestConfig) (clusterKey : ObjectKey) : W (option ClientGenerator) :=
  let restConfig := set_Timeout remoteEtcdTimeout restConfig in
  etcdKeyPair ← on_secrets (read_key_pair clusterKey);
  match etcdKeyPair with
  | None => mret None
  | Some kp =>
      clientCert ← lift (of_sum (X509KeyPair (kp_Cert kp) (kp_Key kp)));
      clientCert ← (if negb (Contains (kp_Key kp) "EC PRIVATE KEY") then client_cert clusterKey kp else mret clientCert);
      mret (Some {| cg_restConfig := restConfig;
                    cg_tlsConfig := {| tc_RootCAs := kp_Cert kp; tc_Certificates := [clientCert];
                                       tc_VerifyConnection := VerifyConnection (kp_Cert kp) |};
                    cg_etcdDialTimeout := etcdDialTimeout; cg_etcdCallTimeout := etcdCallTimeout |})
  end.

Definition connection_error {A} (clusterKey : ObjectKey) (r : error + A) : outcome A :=
  match r with inl e => Err (ERemote (ObjectKey_String clusterKey) e) | inr a => Ok a end.

Definition GetWorkloadCluster (clusterKey : ObjectKey) : W (option ClientGenerator) :=
  n ← calls_made;
  restConfig ← lift (connection_error clusterKey (GetRESTConfig n clusterKey));
  let restConfig := set_Timeout DefaultWorkloadTimeout restConfig in
  _ ← lift (connection_error clusterKey (GetClient n clusterKey));
  NewWorkload restConfig clusterKey.
End client.

(** ** The certificate and the roots *)

Section contract.
Context `{ApiServer, WorkloadLib, CapiConsts}.

(** A client certificate of an authority: the authority's own pair, or one signed by
    its key. *)
Definition issued (ca : string) (cert : TlsCertificate) : Prop :=
  (∃ key, X509KeyPair ca key = inr cert) ∨
  ∃ caCert caKey n now key b c,
    DecodeCertPEM ca = inr (Some caCert) ∧
    x509_CreateCertificate n (client_template now) (Some caCert) key caKey = inr b ∧
    x509_ParseCertificate b = inr c ∧ X509KeyPair (EncodeCertPEM c) (EncodePrivateKeyPEM key) = inr cert.

(** Every entry of the cache is where its key says, and belongs to its authority. *)
Definition cache_ok (cache : gmap string ClientCertEntry) : Prop :=
  ∀ k e, cache !! k = Some e → k = Key e ∧ issued (ce_CACert e) (ce_ClientCert e).

(** Fingerprints are hexadecimal and do not collide. *)
Record fingerprints : Prop := {
  fp_hex : ∀ s, free_of ":"%char (sha256_hex s) = true;
  fp_inj : Inj (=) (=) sha256_hex
}.

Lemma cert_key_ca (Hfp : fingerprints) cl1 cl2 ca1 ca2 : cert_key cl1 ca1 = cert_key cl2 ca2 → ca1 = ca2.
Proof.
  unfold cert_key. intros Heq.
  assert (∀ p ca, before_last ":"%char (p +:+ ":" +:+ sha256_hex ca) = Some p) as Hb
    by (intros p ca; apply before_last_app, (fp_hex Hfp)).
  pose proof (Hb (ObjectKey_String cl1) ca1) as Ha. rewrite Heq, Hb in Ha. injection Ha as Ha. rewrite Ha in Heq.
  apply str_app_inj_l in Heq. injection Heq. apply (fp_inj Hfp).
Qed.

Lemma generateClientCert_issued ca key s cert s' :
  generateClientCert ca key s = (Ok cert, s') → issued ca cert.
Proof.
  unfold generateClientCert, newClientCert, mbind, comp_bind, lift, draw, time_Now, gets, kwrap. cbn.
  destruct (DecodeCertPEM ca) as [e|caCert] eqn:Ec; [done|]. cbn.
  destruct (DecodePrivateKeyPEM key) as [e|caKey] eqn:Ek; [done|]. cbn.
  destruct (certs_NewPrivateKey _) as [e|clientKey]; [done|]. cbn. unfold CreateCertificate.
  destruct caKey as [caKey|]; [|done]. destruct caCert as [caCert|]; [|done].
  destruct (x509_CreateCertificate _ _ _ _ _) as [e|b] eqn:Eb; [done|]. cbn.
  destruct (x509_ParseCertificate b) as [e|c] eqn:Ep; [done|]. cbn.
  destruct (X509KeyPair _ _) as [e|cert'] eqn:Ex; [done|]. intros [= <- _]. right.
  by eexists caCert, caKey, _, _, clientKey, b, c.
Qed.

Lemma client_cert_issued (Hfp : fingerprints) cl kp w o w' :
  cache_ok (mg_ClientCertCache w) → client_cert cl kp w = (o, w') →
  cache_ok (mg_ClientCertCache w') ∧ ∀ cert, o = Ok cert → issued (kp_Cert kp) cert.
Proof.
  intros Hc. unfold client_cert, calls_made, mbind, comp_bind, gets.
  destruct (if expired _ _ then None else _) as [entry|] eqn:Ee.
  { intros [= <- <-]. split; [done|]. intros cert [= <-].
    assert (mg_ClientCertCache w !! cert_key cl (kp_Cert kp) = Some entry) as He by (by destruct (expired _ _)).
    destruct (Hc _ _ He) as [Hk Hi]. apply (cert_key_ca Hfp) in Hk. by rewrite Hk. }
  unfold on_secrets. destruct (generateClientCert _ _ _) as [[cert|e|p] s'] eqn:Eg; intros [= <- <-]; (split; [|done || idtac]);
    try done.
  - cbn. intros k e. destruct (decide (k = cert_key cl (kp_Cert kp))) as [->|Hne].
    + unfold Key. cbn. rewrite lookup_insert_eq. intros [= <-]. cbn. split; [done|]. by eapply generateClientCert_issued.
    + unfold Key. cbn. rewrite lookup_insert_ne by done. apply Hc.
  - intros ? [= <-]. by eapply generateClientCert_issued.
Qed.

Definition matches_CA (o : outcome (option ClientGenerator)) : Prop :=
  ∀ g, o = Ok (Some g) →
    Forall (issued (tc_RootCAs (cg_tlsConfig g))) (tc_Certificates (cg_tlsConfig g)) ∧
    tc_VerifyConnection (cg_tlsConfig g) = VerifyConnection (tc_RootCAs (cg_tlsConfig g)).

Lemma GetWorkloadCluster_issued (Hfp : fingerprints) cl w o w' :
  cache_ok (mg_ClientCertCache w) → GetWorkloadCluster cl w = (o, w') →
  cache_ok (mg_ClientCertCache w') ∧ matches_CA o.
Proof.
  intros Hc. unfold GetWorkloadCluster, NewWorkload, calls_made, mbind, comp_bind, gets, lift.
  destruct (GetRESTConfig _ cl) as [e|rc]; cbn; [by intros [= <- <-]|].
  destruct (GetClient _ cl) as [e|[]]; cbn; [by intros [= <- <-]|].
  unfold on_secrets. destruct (read_key_pair cl (mg_secrets w)) as [[[kp|]|e|p] s1]; cbn; try (by intros [= <- <-]).
  destruct (X509KeyPair (kp_Cert kp) (kp_Key kp)) as [e|cert] eqn:Ex; cbn; [by intros [= <- <-]|].
  destruct (negb _).
  - destruct (client_cert cl kp _) as [[cert'|e|p] w1] eqn:Ecc;
      apply (client_cert_issued Hfp) in Ecc as [Hc1 Hi]; try done; intros [= <- <-]; (split; [done|]); [|done..].
    intros g [= <-]. cbn. split; [|done]. constructor; [|done]. by apply Hi.
  - intros [= <- <-]. split; [done|]. intros g [= <-]. cbn. split; [|done]. constructor; [|done]. left. eauto.
Qed.

(** The connections made over time, for any clusters. *)
Fixpoint connections (clusters : list ObjectKey) (w : Management) : list (outcome (option ClientGenerator)) * Management :=
  match clusters with
  | [] => ([], w)
  | cl :: clusters =>
      let '(o, w1) := GetWorkloadCluster cl w in
      let '(outs, w2) := connections clusters w1 in (o :: outs, w2)
  end.

End contract.

(** ** A sample *)

(** A fingerprint without collisions: the bits of the text. *)
Definition bit (b : bool) (s : string) : string := String (if b then "1"%char else "0"%char) s.
Fixpoint bits (s : string) : string :=
  match s with
  | EmptyString => ""
  | String (Ascii a b c d e f g h) s => bit a (bit b (bit c (bit d (bit e (bit f (bit g (bit h (bits s))))))))
  end.

#[export] Instance plain_workload : WorkloadLib := {
  GetRESTConfig _ k := inr (Build_RestConfig k.2 0%Z);
  GetClient _ _ := inr tt;
  cached_view _ m := m;
  expired _ _ := false;
  TlsCertificate := string * string;
  X509KeyPair c k := inr (c, k);
  sha256_hex := bits;
  x509_Verify _ _ _ _ := None
}.

Lemma plain_fingerprints : fingerprints.
Proof.
  split.
  - intros s. cbn. induction s as [|[[] [] [] [] [] [] [] []] s IH]; cbn; rewrite ?IH; reflexivity.
  - intros s. cbn. induction s as [|[a b c d e f g h] s IH]; intros [|[a' b' c' d' e' f' g' h'] t]; try done.
    cbn. unfold bit. intros [= Ha Hb Hc Hd He Hf Hg Hh Hs]. rewrite (IH t Hs).
    f_equal. f_equal; [destruct a, a'|destruct b, b'|destruct c, c'|destruct d, d'|destruct e, e'|destruct f, f'
      |destruct g, g'|destruct h, h']; done.
Qed.

Definition demo_management : Management :=
  Build_Management _ _ (runs (H := plain_server) false demo_cluster [demo_owner] no_secrets).2 ∅.
Definition demo_connections : list (outcome (option ClientGenerator)) * Management :=
  connections (H := plain_server) [demo_cluster; ("default", "other"); demo_cluster] demo_management.

(** The second cluster has no certificate authority; the third connection takes its
    certificate from the cache. *)
Example demo_connections_made :
  map (λ o, match o with Ok (Some g) => tc_Certificates (cg_tlsConfig g) | _ => [] end) demo_connections.1 =
    [[("cert:cluster-api.x-k8s.io of 8 by 0", "key:8")]; []; [("cert:cluster-api.x-k8s.io of 8 by 0", "key:8")]] ∧
  size (mg_ClientCertCache demo_connections.2) = 1.
Proof. vm_compute. split; reflexivity. Qed.

