(* ===== verification/Proxy.v ===== *)
(** * The proxy to the etcd pods

    pkg/proxy: connections to a port of a pod through the API server's port forwarding,
    in the form gRPC dials them.  [NetCall] lists what is done on the network, [Network]
    says which of it fails, and [NetWorld] logs it; a connection has at most one error
    stream and one data stream, which are named by their type. *)

From stdpp Require Import base tactics option list gmap strings numbers.
From S2P Require Import Prelude Go Etcd.
Open Scope string_scope.
Open Scope list_scope.
Open Scope stdpp_scope.

Inductive StreamType := StreamTypeError | StreamTypeData.
#[global] Instance StreamType_eq_dec : EqDecision StreamType.
Proof. solve_decision. Defined.

Inductive NetCall :=
| NNewForConfig
| NRoundTripperFor
| NDial (kind ns name : string)
| NCreateStream (t : StreamType) (port requestID : string)
| NCloseStream (t : StreamType)
| NCloseConnection.
#[global] Instance NetCall_eq_dec : EqDecision NetCall.
Proof. solve_decision. Defined.

Class Network := net : list (NetCall * bool) → NetCall → option error.

(** The log, the latest first, each call with whether it succeeded, and the timeout of
    the REST configuration, which the dialer shares with its caller and sets. *)
Record NetWorld := { nw_log : list (NetCall * bool); nw_KubeConfig_Timeout : Duration }.
Abbreviation N := (comp NetWorld).

Record Proxy := { px_Kind : string; px_Namespace : string; px_ResourceName : string; px_Port : Z }.
Record Dialer := { dl_proxy : Proxy; dl_timeout : Duration }.

Section proxy.
Context `{Network}.

Definition ncall (c : NetCall) : N unit := λ w,
  match net (nw_log w) c with
  | Some e => (Err e, Build_NetWorld ((c, false) :: nw_log w) (nw_KubeConfig_Timeout w))
  | None => (Ok tt, Build_NetWorld ((c, true) :: nw_log w) (nw_KubeConfig_Timeout w))
  end.

Definition defaultTimeout : Duration := (10 * Second)%Z.

(** An option changes the dialer, or fails. *)
Definition setTimeout (duration : Duration) (d : Dialer) : outcome Dialer := Ok (Build_Dialer (dl_proxy d) duration).
Definition DialTimeout (duration : Duration) : Dialer → outcome Dialer := setTimeout duration.

Definition NewDialer (p : Proxy) (options : list (Dialer → outcome Dialer)) : N Dialer :=
  if decide (px_Port p = 0%Z) then fail (EText "port required")
  else
    dialer ← for_acc options (Build_Dialer p 0%Z) (λ dialer option, lift (option dialer));
    let dialer := if decide (dl_timeout dialer = 0%Z) then Build_Dialer (dl_proxy dialer) defaultTimeout else dialer in
    _ ← modify (λ w, Build_NetWorld (nw_log w) (dl_timeout dialer));
    _ ← ncall NNewForConfig;
    _ ← ncall NRoundTripperFor;
    mret dialer.

(** A connection: its port, and the identifier of its data stream. *)
Record Conn := { cn_port : string; cn_identifier : Z; cn_readDeadline : Time; cn_writeDeadline : Time }.

(** [kerrors.NewAggregate] of an error and the one of closing, which may be nil. *)
Definition close_connection {A} (err : error) : N A :=
  r ← try (ncall NCloseConnection);
  fail (EAgg (err :: match r with inl _ => [] | inr e => [e] end)).

(** The data stream is the second stream of the connection: its identifier is 3. *)
Definition DialContext (d : Dialer) (addr : string) : N Conn :=
  let port := fmt_d (px_Port (dl_proxy d)) in
  r ← try (ncall (NDial (px_Kind (dl_proxy d)) (px_Namespace (dl_proxy d)) addr));
  match r with
  | inr err => fail (EWrap "error upgrading connection" err)
  | inl _ =>
      r ← try (ncall (NCreateStream StreamTypeError port "0"));
      match r with
      | inr err => close_connection err
      | inl _ =>
          r ← try (ncall (NCloseStream StreamTypeError));
          match r with
          | inr err => close_connection err
          | inl _ =>
              r ← try (ncall (NCreateStream StreamTypeData port "0"));
              match r with
              | inr err => close_connection (EWrap "error creating forwarding stream" err)
              | inl _ => mret (Build_Conn port 3%Z 0%Z 0%Z)
              end
          end
      end
  end.
Definition DialContextWithAddr (d : Dialer) (addr : string) : N Conn := DialContext d addr.

(** [Conn]. *)
Definition Conn_Close : N unit :=
  r1 ← try (ncall (NCloseStream StreamTypeData));
  r2 ← try (ncall NCloseConnection);
  match NewAggregate (match r1 with inl _ => [] | inr e => [e] end ++ match r2 with inl _ => [] | inr e => [e] end) with
  | Some e => fail e
  | None => mret tt
  end.
Definition SetReadDeadline (t : Time) (c : Conn) : Conn := Build_Conn (cn_port c) (cn_identifier c) t (cn_writeDeadline c).
Definition SetWriteDeadline (t : Time) (c : Conn) : Conn := Build_Conn (cn_port c) (cn_identifier c) (cn_readDeadline c) t.
Definition SetDeadline (t : Time) (c : Conn) : Conn := Build_Conn (cn_port c) (cn_identifier c) t t.

(** [Addr]; the protocol is portforward.PortForwardProtocolV1Name. *)
Definition scheme : string := "proxy".
Definition PortForwardProtocolV1Name : string := "portforward.k8s.io".
Record Addr := { ad_port : string; ad_identifier : Z }.
Definition NewAddrFromConn (c : Conn) : Addr := Build_Addr (cn_port c) (cn_identifier c).
Definition Addr_Network (a : Addr) : string := PortForwardProtocolV1Name.
Definition Addr_String (a : Addr) : string :=
  scheme +:+ "://" +:+ fmt_d (ad_identifier a) +:+ "." +:+ PortForwardProtocolV1Name +:+ ".local:" +:+ ad_port a.

(** ** No connection is left open *)

Definition is_dial (c : NetCall) : bool := match c with NDial _ _ _ => true | _ => false end.
(** Connections that were opened, attempts to close one, and data streams created. *)
Definition opened (l : list (NetCall * bool)) : nat := length (filter (λ ev, is_dial ev.1 = true ∧ ev.2 = true) l).
Definition closed (l : list (NetCall * bool)) : nat := length (filter (λ ev, ev.1 = NCloseConnection) l).

(** Dialing ends with a connection that is open and has a data stream to the port of
    the proxy, or with an error; with an error every connection that was opened has been
    closed again, whichever of the steps failed. *)
Theorem DialContext_no_leak d addr w :
  wp (DialContext d addr) (λ o w', ∃ l, nw_log w' = l ++ nw_log w ∧
    match o with
    | Ok c => opened l = 1 ∧ closed l = 0 ∧ cn_port c = fmt_d (px_Port (dl_proxy d)) ∧
        (NCreateStream StreamTypeData (cn_port c) "0", true) ∈ l ∧ (NCloseStream StreamTypeError, true) ∈ l
    | Err _ => opened l = closed l
    | Panic _ => False
    end) w.
Proof.
  unfold DialContext, close_connection, wp, try, mbind, comp_bind, ncall, fail. cbn.
  repeat (match goal with |- context [net ?l ?c] => destruct (net l c) end; cbn);
    try (first [eexists [_]; split; [reflexivity|]; done | eexists [_; _; _]; split; [reflexivity|]; done
               |eexists [_; _; _; _]; split; [reflexivity|]; done | eexists [_; _; _; _; _]; split; [reflexivity|]; done]).
  eexists [_; _; _; _]. split; [reflexivity|]. split; [done|]. split; [done|]. split; [done|]. set_solver.
Qed.

(** Closing a connection closes it even when its stream cannot be closed. *)
Theorem Conn_Close_closes w :
  ∃ r ok l, Conn_Close w = (r, Build_NetWorld ((NCloseConnection, ok) :: l) (nw_KubeConfig_Timeout w)) ∧ (r = Ok tt → ok = true).
Proof.
  unfold Conn_Close, try, mbind, comp_bind, ncall, fail. cbn.
  repeat (match goal with |- context [net ?l ?c] => destruct (net l c) end; cbn); eexists _, _, _; (split; [reflexivity|]); done.
Qed.

(** A dialer never waits without a limit: it sets the timeout of the configuration it
    shares with the caller, to ten seconds when no option gives one. *)
Theorem NewDialer_timeout p options w d w' :
  NewDialer p options w = (Ok d, w') →
  px_Port p ≠ 0%Z ∧ dl_timeout d ≠ 0%Z ∧ nw_KubeConfig_Timeout w' = dl_timeout d.
Proof.
  unfold NewDialer. case_decide as Hp; [done|]. unfold mbind, comp_bind.
  destruct (for_acc _ _ _ w) as [[d0|e|p0] w1]; [|done..]. unfold modify, ncall. cbn.
  repeat (match goal with |- context [net ?l ?c] => destruct (net l c) end; cbn); try done.
  case_decide; intros [= <- <-]; done.
Qed.
End proxy.

(** The address of a connection. *)
Example address : Addr_String (NewAddrFromConn (Build_Conn "2379" 3%Z 0%Z 0%Z)) = "proxy://3.portforward.k8s.io.local:2379".
Proof. vm_compute. reflexivity. Qed.
