(* ===== verification/Unstructured.v ===== *)
(** * Unstructured objects

    The typed accessors of controlplane/internal/contract/types.go and the patches of
    pkg/capi/patchutil/patch.go, over the JSON values and paths of [Ssa].

    Reading and writing a nested field belong to apimachinery: [Nested] is what the code
    relies on, and [plain_nested] an implementation on association lists.  Encodings,
    JSON patches and merge patches are parameters. *)

From stdpp Require Import base tactics option list gmap strings numbers.
From Stdlib Require Import Ascii.
From S2P Require Import Prelude Go Ssa.
Open Scope string_scope.
Open Scope list_scope.
Open Scope stdpp_scope.

(** An error of [NestedFieldNoCopy] comes with found = false. *)
Class Nested := {
  NestedFieldNoCopy : json → Path → error + option json;
  SetNestedField : json → json → Path → error + json;

  nested_get_set o v p o' : SetNestedField o v p = inr o' → NestedFieldNoCopy o' p = inr (Some v);
  (* writing a field leaves alone what is not above, at or below it *)
  nested_get_other o v p o' q :
    SetNestedField o v p = inr o' → Overlaps p q = false → NestedFieldNoCopy o' q = NestedFieldNoCopy o q
}.

(** [time.ParseDuration] *)
Class DurationLib := { ParseDuration : string → error + Duration }.

(** ** Accessors *)

Definition ErrFieldNotFound : error := EText "field not found".
Definition Path_String (p : Path) : string := Join p ".".

Section accessors.
Context `{Nested, DurationLib}.

(** [unstructured.NestedInt64], [NestedBool] and [NestedString]: an error when the field
    has another type. *)
Definition nested_as {A} (as_A : json → option A) (o : json) (p : Path) : error + option A :=
  match NestedFieldNoCopy o p with
  | inl e => inl e
  | inr None => inr None
  | inr (Some v) => match as_A v with Some a => inr (Some a) | None => inl (EText "accessor error") end
  end.
Definition as_int64 (v : json) : option Z := match v with JNumber z => Some z | _ => None end.
Definition as_bool (v : json) : option bool := match v with JBool b => Some b | _ => None end.
Definition as_string (v : json) : option string := match v with JString s => Some s | _ => None end.

Definition get_field {A} (as_A : json → option A) (path : Path) (obj : json) : outcome A :=
  match nested_as as_A obj path with
  | inl err => Err (EWrap ("failed to get " +:+ "." +:+ Path_String path +:+ " from object") err)
  | inr None => Err (EWrap ("path " +:+ "." +:+ Path_String path) ErrFieldNotFound)
  | inr (Some value) => Ok value
  end.
Definition set_field (path : Path) (obj : json) (value : json) : outcome json :=
  match SetNestedField obj value path with
  | inl err => Err (EWrap ("failed to set path " +:+ "." +:+ Path_String path +:+ " of object") err)
  | inr obj => Ok obj
  end.

Definition Int64_Get (path : Path) (obj : json) : outcome Z := get_field as_int64 path obj.
Definition Int64_Set (path : Path) (obj : json) (value : Z) : outcome json := set_field path obj (JNumber value).
Definition Bool_Get (path : Path) (obj : json) : outcome bool := get_field as_bool path obj.
Definition Bool_Set (path : Path) (obj : json) (value : bool) : outcome json := set_field path obj (JBool value).
Definition String_Get (path : Path) (obj : json) : outcome string := get_field as_string path obj.
Definition String_Set (path : Path) (obj : json) (value : string) : outcome json := set_field path obj (JString value).

(** The first path that is there wins. *)
Fixpoint Int32_Get_from (all : list Path) (paths : list Path) (obj : json) : outcome Z :=
  match paths with
  | [] => Err (EWrap ("path " +:+ Join (map (λ p, "." +:+ Path_String p) all) ", ") ErrFieldNotFound)
  | path :: rest =>
      match nested_as as_int64 obj path with
      | inl err => Err (EWrap ("failed to get " +:+ "." +:+ Path_String path +:+ " from object") err)
      | inr None => Int32_Get_from all rest obj
      | inr (Some value) =>
          if bool_decide (2147483647 < value)%Z || bool_decide (value < -2147483648)%Z
          then Err (EText ("int32 overflow: " +:+ fmt_d value))
          else Ok (wrap32 value)
      end
  end.
Definition Int32_Get (paths : list Path) (obj : json) : outcome Z := Int32_Get_from paths paths obj.
Definition Int32_Set (paths : list Path) (obj : json) (value : Z) : outcome json :=
  match paths with
  | [] => Panic "index out of range"
  | path :: _ => set_field path obj (JNumber value)
  end.

(** The duration is quoted and parsed as JSON, which gives its text back. *)
Definition Duration_Get (path : Path) (obj : json) : outcome Duration :=
  match nested_as as_string obj path with
  | inl err => Err (EWrap ("failed to get " +:+ "." +:+ Path_String path +:+ " from object") err)
  | inr None => Err (EWrap ("path " +:+ "." +:+ Path_String path) ErrFieldNotFound)
  | inr (Some durationString) =>
      match ParseDuration durationString with
      | inl err => Err (EWrap ("failed to unmarshal duration " +:+ "." +:+ Path_String path +:+ " from object") err)
      | inr d => Ok d
      end
  end.
Definition Duration_Set (path : Path) (obj : json) (value : Duration) : outcome json :=
  set_field path obj (JString (Duration_String value)).

(** ** What is written is read back *)

Lemma set_field_spec {A} (as_A : json → option A) (to : A → json) path obj a obj' :
  (∀ a, as_A (to a) = Some a) → set_field path obj (to a) = Ok obj' →
  get_field as_A path obj' = Ok a ∧
  ∀ q, Overlaps path q = false → NestedFieldNoCopy obj' q = NestedFieldNoCopy obj q.
Proof.
  intros Hto. unfold set_field, get_field, nested_as. destruct (SetNestedField _ _ _) as [e|o] eqn:Es; [done|].
  intros [= <-]. rewrite (nested_get_set _ _ _ _ Es), Hto. split; [done|]. intros q. by eapply nested_get_other.
Qed.

Lemma wrap32_in z : (-2147483648 ≤ z ≤ 2147483647)%Z → wrap32 z = z.
Proof. intros ?. apply wrap32_id. lia. Qed.

(** An accessor reads back what it wrote.  A 32-bit accessor writes to its first path
    and reads the value back exactly when it is in range, and otherwise answers with an
    error, never with another number; and every accessor leaves the fields alone that
    do not overlap its path. *)
Theorem accessors_roundtrip path rest obj obj' :
  (∀ v, Int64_Set path obj v = Ok obj' → Int64_Get path obj' = Ok v) ∧
  (∀ v, Bool_Set path obj v = Ok obj' → Bool_Get path obj' = Ok v) ∧
  (∀ v, String_Set path obj v = Ok obj' → String_Get path obj' = Ok v) ∧
  (∀ v, ParseDuration (Duration_String v) = inr v → Duration_Set path obj v = Ok obj' → Duration_Get path obj' = Ok v) ∧
  (∀ v, Int32_Set (path :: rest) obj v = Ok obj' →
     if bool_decide (-2147483648 ≤ v ≤ 2147483647)%Z then Int32_Get (path :: rest) obj' = Ok v
     else ∃ e, Int32_Get (path :: rest) obj' = Err e) ∧
  (∀ v q, set_field path obj v = Ok obj' → Overlaps path q = false →
     NestedFieldNoCopy obj' q = NestedFieldNoCopy obj q).
Proof.
  split; [intros v Hv; by eapply (set_field_spec as_int64 JNumber) in Hv as [? _]|].
  split; [intros v Hv; by eapply (set_field_spec as_bool JBool) in Hv as [? _]|].
  split; [intros v Hv; by eapply (set_field_spec as_string JString) in Hv as [? _]|].
  split.
  { intros v Hp Hv. eapply (set_field_spec as_string JString) in Hv as [Hg _]; [|done]. unfold Duration_Get.
    unfold get_field in Hg. destruct (nested_as as_string obj' path) as [e|[s|]]; [done| |done].
    injection Hg as ->. by rewrite Hp. }
  split.
  - intros v Hv. eapply (set_field_spec as_int64 JNumber) in Hv as [Hg _]; [|done].
    unfold Int32_Get. cbn [Int32_Get_from]. unfold get_field in Hg.
    destruct (nested_as as_int64 obj' path) as [e|[z|]]; [done| |done]. injection Hg as ->.
    case_bool_decide as Hin.
    + rewrite !bool_decide_eq_false_2 by lia. cbn. by rewrite wrap32_in.
    + destruct (bool_decide (2147483647 < v)%Z) eqn:E1; cbn; [by eexists|].
      destruct (bool_decide (v < -2147483648)%Z) eqn:E2; [by eexists|].
      apply bool_decide_eq_false in E1, E2. lia.
  - intros v q. unfold set_field. destruct (SetNestedField _ _ _) as [e|o] eqn:Es; [done|]. intros [= <-].
    by eapply nested_get_other.
Qed.
End accessors.

(** ** Nested fields of association lists *)

Fixpoint field_get (k : string) (l : list (string * json)) : option json :=
  match l with [] => None | (k', v) :: l => if decide (k = k') then Some v else field_get k l end.
Fixpoint field_set (k : string) (v : json) (l : list (string * json)) : list (string * json) :=
  match l with
  | [] => [(k, v)]
  | (k', v') :: l => if decide (k = k') then (k', v) :: l else (k', v') :: field_set k v l
  end.
Fixpoint nested_get (o : json) (p : Path) : error + option json :=
  match p with
  | [] => inr (Some o)
  | f :: p =>
      match o with
      | JNull => inr None
      | JObject l => match field_get f l with Some o => nested_get o p | None => inr None end
      | _ => inl (EText "accessor error")
      end
  end.
Fixpoint nested_set (o v : json) (p : Path) : error + json :=
  match p, o with
  | [], _ => inl (EText "index out of range")
  | [f], JObject l => inr (JObject (field_set f v l))
  | f :: p, JObject l =>
      match field_get f l with
      | None => match nested_set (JObject []) v p with inl e => inl e | inr o => inr (JObject (field_set f o l)) end
      | Some (JObject l') =>
          match nested_set (JObject l') v p with inl e => inl e | inr o => inr (JObject (field_set f o l)) end
      | Some _ => inl (EText "value cannot be set because a parent is not a map")
      end
  | _, _ => inl (EText "value cannot be set because a parent is not a map")
  end.

Lemma field_get_set k v l : field_get k (field_set k v l) = Some v.
Proof.
  induction l as [|[k' v'] l IH]; cbn; [by rewrite decide_True|].
  case_decide; cbn; [by rewrite decide_True|by rewrite decide_False].
Qed.
Lemma field_get_set_ne k k' v l : k ≠ k' → field_get k (field_set k' v l) = field_get k l.
Proof.
  intros Hne. induction l as [|[k2 v2] l IH]; cbn; [by rewrite decide_False|].
  destruct (decide (k' = k2)); cbn; [subst; by rewrite !decide_False|]. by rewrite IH.
Qed.

Lemma nested_set_cons f g p o v o' :
  nested_set o v (f :: g :: p) = inr o' →
  ∃ l sub new, o = JObject l ∧ o' = JObject (field_set f new l) ∧ nested_set sub v (g :: p) = inr new ∧
    (field_get f l = Some sub ∨ field_get f l = None ∧ sub = JObject []).
Proof.
  destruct o as [| | | | |l]; try done.
  change (nested_set (JObject l) v (f :: g :: p)) with
    (match field_get f l with
     | None => match nested_set (JObject []) v (g :: p) with inl e => inl e | inr o => inr (JObject (field_set f o l)) end
     | Some (JObject l') =>
         match nested_set (JObject l') v (g :: p) with inl e => inl e | inr o => inr (JObject (field_set f o l)) end
     | Some _ => inl (EText "value cannot be set because a parent is not a map")
     end).
  destruct (field_get f l) as [[| | | | |l']|] eqn:Ef; try done;
    destruct (nested_set _ v (g :: p)) as [e|new] eqn:En; try done; intros [= <-]; eauto 10.
Qed.

Lemma nested_set_get o v p o' : nested_set o v p = inr o' → nested_get o' p = inr (Some v).
Proof.
  revert o o'. induction p as [|f [|g p] IH]; intros o o' Hs; [done| |].
  - destruct o; try done. injection Hs as <-. cbn. by rewrite field_get_set.
  - apply nested_set_cons in Hs as (l & sub & new & -> & -> & Hs & _). cbn [nested_get]. rewrite field_get_set.
    by apply (IH sub).
Qed.

Lemma nested_get_empty g q : nested_get (JObject []) (g :: q) = inr None.
Proof. done. Qed.

Lemma nested_set_other o v p o' q :
  nested_set o v p = inr o' → Overlaps p q = false → nested_get o' q = nested_get o q.
Proof.
  assert (∀ p q, Overlaps p q = false ↔ ¬ (p `prefix_of` q ∨ q `prefix_of` p)) as Hov.
  { intros p' q'. rewrite <-Overlaps_prefix. by destruct (Overlaps p' q'). }
  revert o o' q. induction p as [|f [|g p] IH]; intros o o' q Hs Hq; [done| |].
  - destruct o as [| | | | |l]; try done. injection Hs as <-. apply Hov in Hq. destruct q as [|f' q];
      [exfalso; apply Hq; right; apply prefix_nil|]. cbn [nested_get].
    rewrite field_get_set_ne; [done|]. intros ->. apply Hq. left. apply prefix_cons, prefix_nil.
  - apply nested_set_cons in Hs as (l & sub & new & -> & -> & Hs & Hsub). apply Hov in Hq.
    destruct q as [|f' q]; [exfalso; apply Hq; right; apply prefix_nil|]. cbn [nested_get].
    destruct (decide (f' = f)) as [->|Hne]; [|by rewrite field_get_set_ne].
    rewrite field_get_set. assert (Overlaps (g :: p) q = false) as Hq'.
    { apply Hov. intros [Hp|Hp]; apply Hq; [left|right]; by apply prefix_cons. }
    rewrite (IH sub new q Hs Hq'). destruct Hsub as [->|[-> ->]]; [done|].
    destruct q as [|g' q]; [|done]. exfalso. apply Hov in Hq'. apply Hq'. right. apply prefix_nil.
Qed.

#[export] Instance plain_nested : Nested := {
  NestedFieldNoCopy := nested_get;
  SetNestedField := nested_set;
  nested_get_set := nested_set_get;
  nested_get_other := nested_set_other
}.
#[export] Instance plain_duration : DurationLib := {
  ParseDuration s := if decide (s = "10s") then inr (10 * Second)%Z else inl (EText "time: invalid duration")
}.

Definition demo_object : json :=
  JObject [("kind", JString "Machine"); ("spec", JObject [("replicas", JNumber 3); ("paused", JBool false)])].

(** A number that does not fit is written and cannot be read. *)
Lemma accessors_roundtrip_witness :
  ∃ obj', Int32_Set [["spec"; "replicas"]; ["spec"; "count"]] demo_object 2147483648%Z = Ok obj' ∧
    (∃ e, Int32_Get [["spec"; "replicas"]; ["spec"; "count"]] obj' = Err e) ∧
    NestedFieldNoCopy obj' ["spec"; "paused"] = inr (Some (JBool false)).
Proof.
  eexists. split; [vm_compute; reflexivity|].
  destruct (accessors_roundtrip ["spec"; "replicas"] [["spec"; "count"]] demo_object
    (JObject [("kind", JString "Machine"); ("spec", JObject [("replicas", JNumber 2147483648); ("paused", JBool false)])]))
    as (_ & _ & _ & _ & H32 & Hother).
  split; [by apply (H32 2147483648%Z); vm_compute|].
  rewrite (Hother (JNumber 2147483648)); vm_compute; reflexivity.
Defined.

(** ** Patches (pkg/capi/patchutil/patch.go) *)

(** [runtime.RawExtension]: its bytes, and the object, which is set with them. *)
Record RawExtension := { re_Raw : string; re_Object : option json }.
(** [runtimehooksv1.Patch]. *)
Record HookPatch := { hp_PatchType : string; hp_Patch : string }.
Definition JSONPatchType : string := "JSONPatch".
Definition JSONMergePatchType : string := "JSONMergePatch".

Class PatchLib := {
  JsonPatch : Type;
  DecodePatch : string → error + JsonPatch;
  patch_length : JsonPatch → nat;
  (* these may panic *)
  Apply : JsonPatch → string → outcome string;
  MergePatch : string → string → outcome string;
  (* the decoder of Unstructured objects, and MarshalJSON *)
  decode_Unstructured : string → error + json;
  MarshalJSON : json → error + string;
  decode_marshal j b : MarshalJSON j = inr b → decode_Unstructured b = inr j
}.

Section patch.
Context `{Nested, PatchLib, GoRange}.

Record CopySpecInput := {
  Src : json; Dest : json; SrcSpecPath : string; DestSpecPath : string; FieldsToPreserve : list Path
}.

(** The fields to keep, by their dotted path.  A field that is not found, with or
    without an error, is left out. *)
Definition preserved_fields (dest : json) (fields : list Path) : gmap string json :=
  foldl (λ m field, match NestedFieldNoCopy dest field with
                    | inr (Some value) => <[Join field "." := value]> m
                    | _ => m
                    end) ∅ fields.
Definition split_path (path : string) : Path := Split path "."%char.

(** The destination is written in place: a failure leaves it with what was written. *)
Fixpoint restore_fields (fields : list (string * json)) (dest : json) : outcome unit * json :=
  match fields with
  | [] => (Ok tt, dest)
  | (path, value) :: fields =>
      match SetNestedField dest value (split_path path) with
      | inl err => (Err (EWrap "failed to set field" err), dest)
      | inr dest => restore_fields fields dest
      end
  end.
Definition CopySpec (i : CopySpecInput) : outcome unit * json :=
  let preservedFields := preserved_fields (Dest i) (FieldsToPreserve i) in
  match NestedFieldNoCopy (Src i) (split_path (SrcSpecPath i)) with
  | inl _ | inr None => (Ok tt, Dest i)
  | inr (Some srcSpec) =>
      match SetNestedField (Dest i) srcSpec (split_path (DestSpecPath i)) with
      | inl err => (Err (EWrap "failed to set field" err), Dest i)
      | inr dest => restore_fields (go_range 0 preservedFields) dest
      end
  end.

Definition bytesToUnstructured (b : string) : outcome json :=
  match decode_Unstructured b with
  | inl err => Err (EWrap "failed to unmarshal object from json" err)
  | inr u => Ok u
  end.
Definition pwrap {A} (msg : string) (o : outcome A) : outcome A := match o with Err e => Err (EWrap msg e) | o => o end.

Definition Patch (object : RawExtension) (patchedObjectBytes patchPath : string) : outcome RawExtension :=
  objectUnstructured ← pwrap "failed to convert object to Unstructured" (bytesToUnstructured (re_Raw object));
  patchedObjectUnstructured ← pwrap "failed to convert patched object to Unstructured"
                                (bytesToUnstructured patchedObjectBytes);
  let '(r, objectUnstructured) := CopySpec {| Src := patchedObjectUnstructured; Dest := objectUnstructured;
      SrcSpecPath := patchPath; DestSpecPath := patchPath; FieldsToPreserve := [] |} in
  _ ← pwrap "failed to apply patch to object" r;
  match MarshalJSON objectUnstructured with
  | inl err => Err (EWrap "failed to marshal patched object" err)
  | inr objectBytes => Ok (Build_RawExtension objectBytes (Some objectUnstructured))
  end.

(** Whether the object was changed, and the object: [None] when there is nothing to do. *)
Definition apply_patch (obj : RawExtension) (patch : HookPatch) (patchPath : string) : outcome (option RawExtension) :=
  let overwrite patchedObject :=
    obj ← pwrap "failed to apply patch to object" (Patch obj patchedObject patchPath); Ok (Some obj) in
  if decide (hp_PatchType patch = JSONPatchType) then
    match DecodePatch (hp_Patch patch) with
    | inl err => Err (EWrap "failed to apply patch: error decoding json patch (RFC6902)" err)
    | inr jsonPatch =>
        if decide (patch_length jsonPatch = 0) then Ok None
        else
          patchedObject ← pwrap "failed to apply patch: error applying json patch (RFC6902)"
                            (Apply jsonPatch (re_Raw obj));
          overwrite patchedObject
    end
  else if decide (hp_PatchType patch = JSONMergePatchType) then
    if decide (hp_Patch patch = "" ∨ hp_Patch patch = "{}") then Ok None
    else
      patchedObject ← pwrap "failed to apply patch: error applying json merge patch (RFC7386)"
                        (MergePatch (re_Raw obj) (hp_Patch patch));
      overwrite patchedObject
  else Err (EText ("failed to apply patch: unknown patchType " +:+ hp_PatchType patch)).

(** The deferred function turns a panic into an error. *)
Definition ApplyPatchToObject (obj : RawExtension) (patch : HookPatch) (patchPath : string) : outcome bool * RawExtension :=
  if decide (hp_PatchType patch = "") then (Err (EText "failed to apply patch: patchType is not set"), obj)
  else
    match apply_patch obj patch patchPath with
    | Ok None => (Ok false, obj)
    | Ok (Some obj) => (Ok true, obj)
    | Err e => (Err e, obj)
    | Panic p => (Err (EAgg [EText ("observed a panic when applying patch: " +:+ p)]), obj)
    end.

(** A typed object, with its encoding; an object that is unstructured already is kept
    as it is. *)
Definition ConvertToRawExtension {T} (Marshal : T → error + string) (as_Unstructured : T → option json) (object : T)
    : outcome RawExtension :=
  match Marshal object with
  | inl err => Err (EWrap "failed to marshal object to JSON" err)
  | inr objectBytes =>
      match as_Unstructured object with
      | Some u => Ok (Build_RawExtension objectBytes (Some u))
      | None =>
          match decode_Unstructured objectBytes with
          | inl err => Err (EWrap "failed to Unmarshal object into Unstructured" err)
          | inr u => Ok (Build_RawExtension objectBytes (Some u))
          end
      end
  end.
Definition ApplyPatchToTypedObject {T} (Marshal : T → error + string) (Unmarshal : string → error + T)
    (currentMachine : T) (machinePatch : HookPatch) (patchPath : string) : outcome unit * T :=
  match ConvertToRawExtension Marshal (λ _, None) currentMachine with
  | Err e => (Err e, currentMachine)
  | Panic p => (Panic p, currentMachine)
  | Ok currentMachineRaw =>
      let '(machineChanged, currentMachineRaw) := ApplyPatchToObject currentMachineRaw machinePatch patchPath in
      match machineChanged with
      | Err e => (Err e, currentMachine)
      | Panic p => (Panic p, currentMachine)
      | Ok false => (Ok tt, currentMachine)
      | Ok true =>
          match Unmarshal (re_Raw currentMachineRaw) with
          | inl e => (Err e, currentMachine)
          | inr patchedCurrentMachine => (Ok tt, patchedCurrentMachine)
          end
      end
  end.

(** ** A patch reaches nothing but its path *)

Lemma CopySpec_frame src dest path r dest' :
  CopySpec {| Src := src; Dest := dest; SrcSpecPath := path; DestSpecPath := path; FieldsToPreserve := [] |} = (r, dest') →
  (∀ q, Overlaps (split_path path) q = false → NestedFieldNoCopy dest' q = NestedFieldNoCopy dest q) ∧
  (∀ v, r = Ok tt → NestedFieldNoCopy src (split_path path) = inr (Some v) →
     NestedFieldNoCopy dest' (split_path path) = inr (Some v)).
Proof.
  unfold CopySpec. cbn [Src Dest SrcSpecPath DestSpecPath FieldsToPreserve].
  destruct (NestedFieldNoCopy src (split_path path)) as [e|[v|]] eqn:Ev; [by intros [= <- <-]| |by intros [= <- <-]].
  destruct (SetNestedField dest v (split_path path)) as [e|d] eqn:Es; [by intros [= <- <-]|].
  assert (go_range 0 (preserved_fields dest []) = []) as ->.
  { pose proof (go_range_perm _ 0 (preserved_fields dest [])) as Hp. cbn in Hp |- *. rewrite map_to_list_empty in Hp.
    symmetry in Hp. by apply Permutation_nil in Hp. }
  intros [= <- <-]. split.
  - intros q. by eapply nested_get_other.
  - intros v' _ [= <-]. by eapply nested_get_set.
Qed.

(** C33: applying a patch never panics and changes nothing but what is at its path.  With
    an error, or when there is nothing to do, the object is as it was; otherwise it
    decodes to an object in which the path holds what the patched object has there, if
    it has anything, and everything that does not overlap the path is as before: a
    patch of an extension cannot reach the metadata or the status. *)
Theorem ApplyPatchToObject_only_path obj patch patchPath r obj' :
  ApplyPatchToObject obj patch patchPath = (r, obj') →
  (∀ p, r ≠ Panic p) ∧ (r ≠ Ok true → obj' = obj) ∧
  (r = Ok true → ∃ o o' bytes patched,
     decode_Unstructured (re_Raw obj) = inr o ∧ decode_Unstructured bytes = inr patched ∧
     re_Object obj' = Some o' ∧ decode_Unstructured (re_Raw obj') = inr o' ∧
     (∀ q, Overlaps (split_path patchPath) q = false → NestedFieldNoCopy o' q = NestedFieldNoCopy o q) ∧
     (∀ v, NestedFieldNoCopy patched (split_path patchPath) = inr (Some v) →
        NestedFieldNoCopy o' (split_path patchPath) = inr (Some v))).
Proof.
  assert (∀ bytes o1, Patch obj bytes patchPath = Ok o1 → ∃ o o' patched,
     decode_Unstructured (re_Raw obj) = inr o ∧ decode_Unstructured bytes = inr patched ∧
     re_Object o1 = Some o' ∧ decode_Unstructured (re_Raw o1) = inr o' ∧
     (∀ q, Overlaps (split_path patchPath) q = false → NestedFieldNoCopy o' q = NestedFieldNoCopy o q) ∧
     (∀ v, NestedFieldNoCopy patched (split_path patchPath) = inr (Some v) →
        NestedFieldNoCopy o' (split_path patchPath) = inr (Some v))) as Hpatch.
  { intros bytes o1. unfold Patch, bytesToUnstructured.
    destruct (decode_Unstructured (re_Raw obj)) as [e|o] eqn:Eo; [done|]. cbn [pwrap mbind outcome_bind].
    destruct (decode_Unstructured bytes) as [e|patched] eqn:Ep; [done|]. cbn [pwrap mbind outcome_bind].
    destruct (CopySpec _) as [rc o'] eqn:Ec. apply CopySpec_frame in Ec as [Hf Hv].
    destruct rc as [[]|e|p]; [|done..]. cbn [pwrap mbind outcome_bind].
    destruct (MarshalJSON o') as [e|b] eqn:Em; [done|]. intros [= <-]. exists o, o', patched. repeat split; auto.
    by apply decode_marshal. }
  unfold ApplyPatchToObject. case_decide; [by intros [= <- <-]|].
  destruct (apply_patch obj patch patchPath) as [[o1|]|e|p] eqn:Ea; intros [= <- <-]; try done.
  split; [done|]. split; [done|]. intros _.
  assert (∃ bytes, Patch obj bytes patchPath = Ok o1) as [bytes Hb].
  { revert Ea. unfold apply_patch, pwrap. repeat case_decide; try done.
    - destruct (DecodePatch _); [done|]. case_decide; [done|].
      destruct (Apply _ _) as [b|?|?]; [|done..]. cbn. destruct (Patch obj b patchPath) eqn:E; [|done..].
      intros [= <-]. eauto.
    - destruct (MergePatch _ _) as [b|?|?]; [|done..]. cbn. destruct (Patch obj b patchPath) eqn:E; [|done..].
      intros [= <-]. eauto. }
  destruct (Hpatch bytes o1 Hb) as (o & o' & patched & Hrest). by exists o, o', bytes, patched.
Qed.
End patch.

(** ** A sample: two objects and their encodings *)

Definition sample_object (name : string) (spec : Z) : json := JObject [("name", JString name); ("spec", JNumber spec)].

Definition sample_decode (b : string) : error + json :=
  if decide (b = "a3") then inr (sample_object "a" 3) else if decide (b = "a4") then inr (sample_object "a" 4)
  else if decide (b = "b4") then inr (sample_object "b" 4) else inl (EText "invalid character").
Definition sample_marshal (j : json) : error + string :=
  match j with
  | JObject [(k1, JString n); (k2, JNumber z)] =>
      if decide ((k1, n, k2, z) = ("name", "a", "spec", 3%Z)) then inr "a3"
      else if decide ((k1, n, k2, z) = ("name", "a", "spec", 4%Z)) then inr "a4" else inl (EText "unsupported value")
  | _ => inl (EText "unsupported value")
  end.
Lemma sample_decode_marshal j b : sample_marshal j = inr b → sample_decode b = inr j.
Proof.
  destruct j as [| | | | |[|[k1 [| | |n| |]] [|[k2 [| |z| | |]] [|? ?]]]]; try discriminate. unfold sample_marshal.
  case_decide as E3; [intros [= <-]; by simplify_eq|]. case_decide as E4; [intros [= <-]; by simplify_eq|done].
Qed.

#[export] Instance plain_patches : PatchLib := {
  JsonPatch := string;
  DecodePatch s := inr s;
  patch_length s := String.length s;
  Apply p _ := if decide (p = "boom") then Panic "boom" else Ok p;
  MergePatch _ p := Ok p;
  decode_Unstructured := sample_decode;
  MarshalJSON := sample_marshal;
  decode_marshal := sample_decode_marshal
}.

(** A patch that would rename the object changes its specification only. *)
Lemma ApplyPatchToObject_only_path_witness :
  ∃ obj', ApplyPatchToObject (Build_RawExtension "a3" None) (Build_HookPatch JSONPatchType "b4") "spec" = (Ok true, obj') ∧
    ∃ o', re_Object obj' = Some o' ∧ NestedFieldNoCopy o' ["name"] = inr (Some (JString "a")) ∧
      NestedFieldNoCopy o' ["spec"] = inr (Some (JNumber 4)).
Proof.
  assert (ApplyPatchToObject (Build_RawExtension "a3" None) (Build_HookPatch JSONPatchType "b4") "spec" =
    (Ok true, Build_RawExtension "a4" (Some (sample_object "a" 4)))) as Hrun by (vm_compute; reflexivity).
  exists (Build_RawExtension "a4" (Some (sample_object "a" 4))). split; [exact Hrun|].
  destruct (proj2 (proj2 (ApplyPatchToObject_only_path _ _ _ _ _ Hrun)) eq_refl)
    as (o & o' & bytes & patched & Ho & _ & Ho' & _ & Hother & _).
  exists o'. split; [exact Ho'|]. injection Ho' as <-. split; [|vm_compute; reflexivity].
  rewrite (Hother ["name"]); [|vm_compute; reflexivity]. vm_compute in Ho. injection Ho as <-. vm_compute. reflexivity.
Defined.
Example patch_panic_recovered :
  (ApplyPatchToObject (Build_RawExtension "a3" None) (Build_HookPatch JSONPatchType "boom") "spec").1 =
    Err (EAgg [EText "observed a panic when applying patch: boom"]).
Proof. vm_compute. reflexivity. Qed.

(** A specification that cannot be read because a parent is not a map is taken for one
    that is not there: nothing is copied, and no error is returned. *)
Example CopySpec_swallows_error :
  let src := JObject [("spec", JNumber 3)] in
  NestedFieldNoCopy src ["spec"; "template"] = inl (EText "accessor error") ∧
  (CopySpec {| Src := src; Dest := JObject []; SrcSpecPath := "spec.template"; DestSpecPath := "spec.template";
               FieldsToPreserve := [] |}).1 = Ok tt.
Proof. split; vm_compute; reflexivity. Qed.
