(* ===== verification/ApiVersion.v ===== *)
(** * API versions of contracts

    pkg/util/contract.go: which version of a resource to use, from the labels of its
    CustomResourceDefinition that say which of its versions implement which version of
    the Cluster API contract.  The order of Kubernetes version strings is a parameter:
    a strict weak order. *)

From stdpp Require Import base tactics option list gmap strings numbers sorting.
From Stdlib Require Import Ascii.
From S2P Require Import Prelude Go.
Open Scope string_scope.
Open Scope list_scope.
Open Scope stdpp_scope.

Class KubeVersions := {
  (* apimachineryversion.CompareKubeAwareVersionStrings *)
  CompareKubeAwareVersionStrings : string → string → Z;
  clusterv1_Group : string;
  Version : string; (* clusterv1.GroupVersion.Version *)
  (* contract.CalculateCRDName *)
  CalculateCRDName : string → string → string;

  kube_versions_order : strict_weak (λ a b, bool_decide (CompareKubeAwareVersionStrings a b < 0)%Z)
}.

Section api_version.
Context `{KubeVersions, GoSort, GoRange}.

Definition Less (a b : string) : bool := bool_decide (CompareKubeAwareVersionStrings a b < 0)%Z.

Definition GetCompatibleVersions (contract : string) : gset string :=
  if decide (contract = "v1beta2") then {[contract; "v1beta1"]} else {[contract]}.

(** The labels of the definition, by key; [UnsortedList] walks a map. *)
Fixpoint first_labelled (labels : gmap string string) (contracts : list string) : option (string * string) :=
  match contracts with
  | [] => None
  | contractVersion :: rest =>
      match labels !! (clusterv1_Group +:+ "/" +:+ contractVersion) with
      | Some supportedVersions => if decide (supportedVersions = "") then first_labelled labels rest
                                  else Some (contractVersion, supportedVersions)
      | None => first_labelled labels rest
      end
  end.
Definition sorted_contracts (contract : string) : list string :=
  go_sort (λ a b, Less b a) (elements (GetCompatibleVersions contract)).
Definition GetLatestContractAndAPIVersionFromContract (labels : gmap string string) (name currentContractVersion : string)
    : outcome (string * string) :=
  if decide (currentContractVersion = "") then Err (EText "current contract version cannot be empty")
  else
    match first_labelled labels (sorted_contracts currentContractVersion) with
    | Some (contractVersion, supportedVersions) =>
        match list.last (go_sort Less (Split supportedVersions "_"%char)) with
        | Some version => Ok (contractVersion, version)
        | None => Panic "index out of range"
        end
    | None => Err (EText ("cannot find any versions matching contract versions for CRD " +:+ name))
    end.

(** [GetGKMetadata] reads the metadata of the definition: here the labels, if the read
    succeeds. *)
Definition GetAPIVersion (get : string → error + gmap string string) (group kind : string) : outcome string :=
  let name := CalculateCRDName group kind in
  match get name with
  | inl err => Err (EWrap ("failed to get apiVersion for kind " +:+ kind)
                     (EWrap "failed to get CustomResourceDefinition metadata" err))
  | inr labels =>
      match GetLatestContractAndAPIVersionFromContract labels name Version with
      | Err err => Err (EWrap ("failed to get apiVersion for kind " +:+ kind) err)
      | Panic p => Panic p
      | Ok (_, version) => Ok (if decide (group = "") then version else group +:+ "/" +:+ version)
      end
  end.

(** ** The latest of a sorted list *)

Lemma sw_le_trans (lt : string → string → bool) : strict_weak lt → Transitive (λ x y, lt y x = false).
Proof.
  intros Hsw a b c Hab Hbc. destruct (lt c a) eqn:E; [|done].
  apply (sw_neg_trans lt Hsw _ b) in E as [?|?]; congruence.
Qed.
Lemma sw_flip (lt : string → string → bool) : strict_weak lt → strict_weak (λ a b, lt b a).
Proof.
  intros [Hi Ht Hn]. split; [done|intros a b c ??; by eapply Ht|].
  intros a b c Hab. destruct (Hn c b a Hab) as [?|?]; auto.
Qed.

Lemma sorted_last_max (lt : string → string → bool) l x :
  strict_weak lt → list.last (go_sort lt l) = Some x → ∀ y, y ∈ l → lt x y = false.
Proof.
  intros Hsw Hx y Hy. pose proof (go_sort_sorted _ lt l Hsw) as Hs.
  apply Sorted_StronglySorted in Hs; [|by apply sw_le_trans]. apply last_Some in Hx as [l' Hl]. rewrite Hl in Hs.
  rewrite <-(elem_of_go_sort lt), Hl in Hy. apply elem_of_app in Hy as [Hy|Hy].
  - clear Hl. induction l' as [|z l' IH]; [by apply not_elem_of_nil in Hy|].
    apply StronglySorted_inv in Hs as [Hs Hall]. apply elem_of_cons in Hy as [->|Hy]; [|by apply IH].
    rewrite list.Forall_forall in Hall. apply Hall. set_solver.
  - apply list_elem_of_singleton in Hy as ->. apply Hsw.
Qed.

Lemma Split_last_some (lt : string → string → bool) s c : is_Some (list.last (go_sort lt (Split s c))).
Proof.
  apply last_is_Some. intros Hn. pose proof (go_sort_perm _ lt (Split s c)) as Hp. rewrite Hn in Hp.
  apply Permutation_nil in Hp. by apply (Split_not_nil s c).
Qed.

Definition supported (labels : gmap string string) (contract versions : string) : Prop :=
  labels !! (clusterv1_Group +:+ "/" +:+ contract) = Some versions ∧ versions ≠ "".

Lemma first_labelled_spec labels l :
  match first_labelled labels l with
  | Some (c, s) => ∃ l1 l2, l = l1 ++ c :: l2 ∧ supported labels c s ∧ ∀ c' s', c' ∈ l1 → ¬ supported labels c' s'
  | None => ∀ c s, c ∈ l → ¬ supported labels c s
  end.
Proof.
  induction l as [|c l IH]; cbn [first_labelled]; [intros ?? Hc; by apply not_elem_of_nil in Hc|].
  assert ((∀ s, ¬ supported labels c s) → match first_labelled labels l with
    | Some (c0, s) => ∃ l1 l2, c :: l = l1 ++ c0 :: l2 ∧ supported labels c0 s ∧ ∀ c' s', c' ∈ l1 → ¬ supported labels c' s'
    | None => ∀ c0 s, c0 ∈ c :: l → ¬ supported labels c0 s end) as Hskip.
  { intros Hc. destruct (first_labelled labels l) as [[c0 s]|].
    - destruct IH as (l1 & l2 & -> & Hs & Hn). exists (c :: l1), l2. split; [done|]. split; [done|].
      intros c' s' [->|Hc']%elem_of_cons; auto.
    - intros c0 s [->|Hc0]%elem_of_cons; auto. }
  destruct (labels !! (clusterv1_Group +:+ "/" +:+ c)) as [s|] eqn:El.
  - case_decide as Hs; [|by exists [], l; split; [|split; [|intros ?? Hn; by apply not_elem_of_nil in Hn]]].
    apply Hskip. intros s' [Hs' Hne]. rewrite El in Hs'. by simplify_eq.
  - apply Hskip. intros s' [Hs' _]. by rewrite El in Hs'.
Qed.

(** The version that is used is the right one.  It is listed, by a label that is not
    empty, as an implementation of a compatible version of the contract, no listed
    version comes later, and no compatible contract version that comes later is
    implemented at all; and there is an error exactly when no compatible contract
    version is. *)
Theorem latest_version_spec labels name current :
  current ≠ "" →
  match GetLatestContractAndAPIVersionFromContract labels name current with
  | Ok (contract, version) => ∃ versions,
      contract ∈ GetCompatibleVersions current ∧ supported labels contract versions ∧
      version ∈ Split versions "_"%char ∧ (∀ v, v ∈ Split versions "_"%char → Less version v = false) ∧
      ∀ c s, c ∈ GetCompatibleVersions current → supported labels c s → Less contract c = false
  | Err _ => ∀ c s, c ∈ GetCompatibleVersions current → ¬ supported labels c s
  | Panic _ => False
  end.
Proof.
  intros Hc. unfold GetLatestContractAndAPIVersionFromContract. rewrite decide_False by done.
  assert (∀ c, c ∈ sorted_contracts current ↔ c ∈ GetCompatibleVersions current) as Hin.
  { intros c. unfold sorted_contracts. by rewrite elem_of_go_sort, elem_of_elements. }
  pose proof (first_labelled_spec labels (sorted_contracts current)) as Hf.
  destruct (first_labelled labels (sorted_contracts current)) as [[c s]|].
  - destruct Hf as (l1 & l2 & Hl & Hs & Hn).
    destruct (Split_last_some Less s "_"%char) as [v Hv]. rewrite Hv. exists s.
    split; [apply Hin; rewrite Hl; set_solver|]. split; [done|].
    split; [apply (elem_of_go_sort Less); apply last_Some in Hv as [l' ->]; set_solver|].
    split; [by apply (sorted_last_max Less _ _ kube_versions_order)|].
    intros c' s' Hc' Hs'. apply Hin in Hc'. rewrite Hl in Hc'.
    apply elem_of_app in Hc' as [Hc'|Hc']; [by destruct (Hn c' s' Hc')|].
    pose proof (go_sort_sorted _ (λ a b, Less b a) (elements (GetCompatibleVersions current)) (sw_flip _ kube_versions_order))
      as Hsort. unfold sorted_contracts in Hl. rewrite Hl in Hsort.
    apply Sorted_StronglySorted in Hsort; [|apply sw_le_trans, sw_flip, kube_versions_order].
    apply StronglySorted_app_1_r in Hsort. apply StronglySorted_inv in Hsort as [_ Hall].
    apply elem_of_cons in Hc' as [->|Hc']; [apply (sw_irrefl _ kube_versions_order)|].
    rewrite list.Forall_forall in Hall. by apply Hall.
  - intros c s Hcc Hs. apply Hin in Hcc. by destruct (Hf c s Hcc).
Qed.
End api_version.

(** ** A concrete order: the known versions by rank, then all others alike *)

Definition known_versions : list string :=
  ["v1alpha1"; "v1alpha2"; "v1beta1"; "v1beta2"; "v1"; "v2"].
Fixpoint rank (l : list string) (s : string) : Z :=
  match l with [] => 0 | x :: rest => if decide (x = s) then Z.of_nat (length rest) - 10 else rank rest s end.
Definition compare_rank (a b : string) : Z := rank known_versions b - rank known_versions a.

Lemma compare_rank_order : strict_weak (λ a b, bool_decide (compare_rank a b < 0)%Z).
Proof.
  unfold compare_rank. split.
  - intros x. apply bool_decide_eq_false. lia.
  - intros x y z. rewrite !bool_decide_eq_true. lia.
  - intros x y z. rewrite !bool_decide_eq_true. lia.
Qed.
#[global] Instance ranked_versions : KubeVersions := {|
  CompareKubeAwareVersionStrings := compare_rank; clusterv1_Group := "cluster.x-k8s.io"; Version := "v1beta2";
  CalculateCRDName group kind := kind +:+ "s." +:+ group; kube_versions_order := compare_rank_order
|}.

Definition demo_labels : gmap string string := {["cluster.x-k8s.io/v1beta1" := "v1beta1_v1_v1alpha1"]}.

(** Only the older contract is implemented: its latest version is found. *)
Lemma latest_version_spec_witness :
  GetLatestContractAndAPIVersionFromContract demo_labels "x" "v1beta2" = Ok ("v1beta1", "v1") ∧
  (∃ versions, supported demo_labels "v1beta1" versions ∧
    ∀ v, v ∈ Split versions "_"%char → Less "v1" v = false).
Proof.
  assert (GetLatestContractAndAPIVersionFromContract demo_labels "x" "v1beta2" = Ok ("v1beta1", "v1")) as E
    by (vm_compute; reflexivity).
  split; [exact E|]. pose proof (latest_version_spec demo_labels "x" "v1beta2") as Hl. rewrite E in Hl.
  destruct Hl as (vs & _ & Hs & _ & Hv & _); [discriminate|]. exists vs. split; [exact Hs|exact Hv].
Defined.
