(* ===== verification/CacheWait.v ===== *)
(** * Waiting for the cache, and differences

    pkg/capi/client/client.go: after a write, a controller waits until the cache it reads
    from has caught up, so that its next reconcile does not act on old objects.  The
    cache answers the [n]-th read as it likes; the objects of the caller are shared by
    pointer and are overwritten by every read.  [waitFor_sound] says what a wait that
    succeeds has seen, [waitFor_progress] when it succeeds.

    pkg/capi/compare/equal.go: [Diff], which turns a panic of the comparison into an
    error. *)

From stdpp Require Import base tactics option list gmap strings numbers.
From Stdlib Require Import QArith Ascii.
From S2P Require Import Prelude Go Objects Etcd Certificates UserData.
Open Scope nat_scope.
Open Scope string_scope.
Open Scope list_scope.
Open Scope stdpp_scope.

(** ** The backoff *)

(** [wait.Backoff]; durations in nanoseconds. *)
Record Backoff := { bo_Duration : Z; bo_Factor : Q; bo_Steps : nat; bo_Cap : Z }.
Definition waitBackoffDuration : Z := 25 * 1000.
Definition waitBackoffFactor : Q := 12 # 10.
Definition waitBackoffSteps : nat := 63.
Definition waitBackoff : Backoff :=
  Build_Backoff waitBackoffDuration waitBackoffFactor waitBackoffSteps (2 * 1000000000).

(** What is read of an object of the cache: its key, its version and whether it is being
    deleted. *)
Record CachedObject := { cb_Key : ObjectKey; cb_ResourceVersion : string; cb_DeletionTimestamp : bool }.

Class Cache := {
  (* the answer to the [n]-th read; after an error the object is as it was *)
  cache_Get : nat → ObjectKey → CachedObject + error;
  (* resourceversion.CompareResourceVersion *)
  CompareResourceVersion : string → string → error + Z;
  (* wait.ExponentialBackoffWithContext: how many times it tries at most, ... *)
  attempts : Backoff → nat;
  attempts_bound b : attempts b <= bo_Steps b;
  (* ... and the error of the context before a try, when that is over *)
  interrupted : nat → option error;
  (* apiutil.GVKForObject, of the type of the objects: the kind *)
  GVKForObject : error + string;
  (* the type of the objects is Unstructured *)
  is_Unstructured : bool
}.
Definition ErrWaitTimeout : error := EText "timed out waiting for the condition".

(** ** State *)

(** The objects by pointer, the number of the next read, and the observations of
    [waitDurationMetric] (kind and status). *)
Record CacheWorld := {
  cw_objs : gmap nat CachedObject; cw_calls : nat; cw_observed : list (string * string)
}.
Abbreviation K := (comp CacheWorld).

Record desiredObject := { do_Object : nat; do_Key : ObjectKey; do_MinimumResourceVersion : string }.

Section wait.
Context `{Cache}.

Definition deref (p : nat) : K CachedObject := λ w,
  match cw_objs w !! p with
  | Some o => (Ok o, w)
  | None => (Panic "invalid memory address or nil pointer dereference", w)
  end.
(** [c.Get(ctx, key, object)] *)
Definition Get (key : ObjectKey) (p : nat) : K unit := λ w,
  match cache_Get (cw_calls w) key with
  | inl o => (Ok tt, Build_CacheWorld (<[p := o]> (cw_objs w)) (S (cw_calls w)) (cw_observed w))
  | inr e => (Err e, Build_CacheWorld (cw_objs w) (S (cw_calls w)) (cw_observed w))
  end.

(** ** The checks: whether an error is retryable, and the error *)

Definition checkIfObjectUpToDate (d : desiredObject) : K (bool * option error) :=
  if decide (do_MinimumResourceVersion d = "")
  then mret (false, Some (EText "cannot compare with invalid resourceVersion: resourceVersion not set"))
  else
    r ← try (Get (do_Key d) (do_Object d));
    match r with
    | inr err => if IsNotFound err then mret (false, None) else mret (false, Some err)
    | inl _ =>
        o ← deref (do_Object d);
        match CompareResourceVersion (cb_ResourceVersion o) (do_MinimumResourceVersion d) with
        | inl err => mret (false, Some (EWrap "cannot compare with invalid resourceVersion" err))
        | inr cmp =>
            if bool_decide (cmp < 0)%Z then mret (true, Some (EText "resourceVersion not yet up-to-date"))
            else mret (false, None)
        end
    end.

Definition checkIfObjectAdded (d : desiredObject) : K (bool * option error) :=
  r ← try (Get (do_Key d) (do_Object d));
  match r with
  | inr err => if IsNotFound err then mret (true, Some err) else mret (false, Some err)
  | inl _ => mret (false, None)
  end.

Definition checkIfObjectDeleted (d : desiredObject) : K (bool * option error) :=
  r ← try (Get (do_Key d) (do_Object d));
  match r with
  | inr err => if IsNotFound err then mret (false, None) else mret (false, Some err)
  | inl _ =>
      o ← deref (do_Object d);
      if cb_DeletionTimestamp o then mret (false, None)
      else mret (true, Some (EText "still exists"))
  end.

(** ** Polling *)

Definition checkFunc : Type := desiredObject → K (bool * option error).

(** The body of the condition: the errors, and whether the polling stops. *)
Fixpoint round (check : checkFunc) (ds : list desiredObject) (pollErrs : list error) : K (list error * bool) :=
  match ds with
  | [] => mret (pollErrs, match pollErrs with [] => true | _ => false end)
  | d :: rest =>
      '(isErrorRetryable, err) ← check d;
      match err with
      | None => round check rest pollErrs
      | Some err =>
          let pollErrs := pollErrs ++ [err] in
          if isErrorRetryable : bool then round check rest pollErrs else mret (pollErrs, true)
      end
  end.

(** [pollErrs] is assigned by every round; the second component is the error of
    [ExponentialBackoffWithContext]. *)
Fixpoint poll (check : checkFunc) (ds : list desiredObject) (tries i : nat) (pollErrs : list error)
    : K (list error * option error) :=
  match tries with
  | 0 => mret (pollErrs, Some ErrWaitTimeout)
  | S tries =>
      match interrupted i with
      | Some err => mret (pollErrs, Some err)
      | None =>
          '(pollErrs, done) ← round check ds [];
          if done : bool then mret (pollErrs, None) else poll check ds tries (S i) pollErrs
      end
  end.

Fixpoint desired_of (objs : list nat) : K (list desiredObject) :=
  match objs with
  | [] => mret []
  | p :: rest =>
      o ← deref p;
      ds ← desired_of rest;
      mret (Build_desiredObject p (cb_Key o) (cb_ResourceVersion o) :: ds)
  end.
Definition observe (kind status : string) : K unit :=
  modify (λ w, Build_CacheWorld (cw_objs w) (cw_calls w) (cw_observed w ++ [(kind, status)])).

Definition waitFor (action : string) (check : checkFunc) (objs : list nat) : K unit :=
  match objs with
  | [] => mret tt
  | _ =>
      if is_Unstructured then
        fail (EText ("failed to wait for up-to-date objects in the cache after " +:+ action +:+
                     ": Unstructured is not supported"))
      else
        match GVKForObject with
        | inl err => fail (EWrap ("failed to wait for up-to-date objects in the cache after " +:+ action) err)
        | inr kind =>
            ds ← desired_of objs;
            '(pollErrs, err) ← poll check ds (attempts waitBackoff) 0 [];
            match err, pollErrs with
            | None, [] => observe kind "success"
            | _, _ =>
                _ ← observe kind "error";
                fail (EText ("failed to wait for up-to-date " +:+ kind +:+ " objects in the cache after " +:+ action))
            end
        end
  end.

Definition WaitForCacheToBeUpToDate (action : string) (objs : list nat) : K unit :=
  waitFor action checkIfObjectUpToDate objs.
Definition WaitForObjectsToBeAddedToTheCache (action : string) (objs : list nat) : K unit :=
  waitFor action checkIfObjectAdded objs.
Definition WaitForObjectsToBeDeletedFromTheCache (action : string) (objs : list nat) : K unit :=
  waitFor action checkIfObjectDeleted objs.
End wait.

(** ** What the waits wait for *)

Inductive Wanted := UpToDate | Added | Deleted.

Section wait_claims.
Context `{Cache}.

Definition check_of (k : Wanted) : checkFunc :=
  match k with
  | UpToDate => checkIfObjectUpToDate | Added => checkIfObjectAdded | Deleted => checkIfObjectDeleted
  end.
Definition wait_of (k : Wanted) : string → list nat → K unit :=
  match k with
  | UpToDate => WaitForCacheToBeUpToDate
  | Added => WaitForObjectsToBeAddedToTheCache
  | Deleted => WaitForObjectsToBeDeletedFromTheCache
  end.

(** [answer] shows what was wanted of an object that had the version [rv]. *)
Definition arrived (k : Wanted) (rv : string) (answer : CachedObject + error) : Prop :=
  match k, answer with
  | UpToDate, inl o => rv ≠ "" ∧ ∃ z, CompareResourceVersion (cb_ResourceVersion o) rv = inr z ∧ (0 ≤ z)%Z
  | UpToDate, inr e => rv ≠ "" ∧ IsNotFound e = true
  | Added, answer => ∃ o, answer = inl o
  | Deleted, inl o => cb_DeletionTimestamp o = true
  | Deleted, inr e => IsNotFound e = true
  end.
(** [answer] ends the waiting with an error. *)
Definition fatal (k : Wanted) (rv : string) (answer : CachedObject + error) : Prop :=
  (k = UpToDate ∧ (rv = "" ∨ ∃ o e, answer = inl o ∧ CompareResourceVersion (cb_ResourceVersion o) rv = inl e)) ∨
  ∃ e, answer = inr e ∧ IsNotFound e = false.

Local Ltac by_answer :=
  (eexists _, _, _; split; [reflexivity|]); cbn; repeat split; intros; first [lia|naive_solver lia].

Lemma check_spec k d w :
  let answer := cache_Get (cw_calls w) (do_Key d) in
  ∃ retryable err w', check_of k d w = (Ok (retryable, err), w') ∧ cw_observed w' = cw_observed w ∧
    cw_calls w <= cw_calls w' <= cw_calls w + 1 ∧
    (err = None ↔ arrived k (do_MinimumResourceVersion d) answer) ∧
    (err = None → cw_calls w' = cw_calls w + 1) ∧
    (¬ fatal k (do_MinimumResourceVersion d) answer → cw_calls w' = cw_calls w + 1 ∧ (err = None ∨ retryable = true)).
Proof.
  destruct d as [p key rv]. unfold fatal. destruct k; cbn [check_of do_Key do_MinimumResourceVersion];
    unfold checkIfObjectUpToDate, checkIfObjectAdded, checkIfObjectDeleted; cbn [do_Key do_Object do_MinimumResourceVersion].
  - case_decide as Hrv.
    { eexists _, _, _. split; [reflexivity|]. repeat split; try done; try lia; intros; exfalso;
        destruct (cache_Get _ _) as [o|e]; cbn in *; naive_solver. }
    unfold mbind, comp_bind, try, Get, deref. destruct (cache_Get (cw_calls w) key) as [o|e] eqn:Eg; cbn -[lookup insert].
    + rewrite lookup_insert_eq. destruct (CompareResourceVersion _ rv) as [e|z] eqn:Ec; [|case_bool_decide];
        (eexists _, _, _; split; [reflexivity|]); cbn; (split; [done|]); (split; [lia|]).
      * split; [|naive_solver]. split; [done|]. intros (_ & z & Hz & _). congruence.
      * split; [|naive_solver lia]. split; [done|]. intros (_ & z' & Hz & ?). exfalso. naive_solver lia.
      * split; [naive_solver lia|]. split; [lia|]. split; [lia|auto].
    + destruct (IsNotFound e) eqn:En; by_answer.
  - unfold mbind, comp_bind, try, Get, deref. destruct (cache_Get (cw_calls w) key) as [o|e] eqn:Eg; cbn -[lookup insert];
      [|destruct (IsNotFound e) eqn:En]; by_answer.
  - unfold mbind, comp_bind, try, Get, deref. destruct (cache_Get (cw_calls w) key) as [o|e] eqn:Eg; cbn -[lookup insert].
    + rewrite lookup_insert_eq. destruct (cb_DeletionTimestamp o) eqn:Ed;
        by_answer.
    + destruct (IsNotFound e) eqn:En; by_answer.
Qed.

(** The [i]-th of the objects is shown as wanted by the [i]-th read from the [n]-th on. *)
Definition round_arrived (k : Wanted) (ds : list desiredObject) (n : nat) : Prop :=
  ∀ i d, ds !! i = Some d → arrived k (do_MinimumResourceVersion d) (cache_Get (n + i) (do_Key d)).
Definition round_fine (k : Wanted) (ds : list desiredObject) (n : nat) : Prop :=
  ∀ i d, ds !! i = Some d → ¬ fatal k (do_MinimumResourceVersion d) (cache_Get (n + i) (do_Key d)).

Lemma arrived_not_fatal k rv answer : arrived k rv answer → ¬ fatal k rv answer.
Proof.
  intros Ha [[-> [Hr|(o & e & -> & He)]]|(e & -> & He)]; cbn in Ha.
  - destruct answer; by destruct Ha.
  - destruct Ha as (_ & z & Hz & _). congruence.
  - destruct k; [destruct Ha|destruct Ha|]; congruence.
Qed.

Lemma round_spec k ds acc w :
  ∃ errs done w', round (check_of k) ds acc w = (Ok (errs, done), w') ∧ cw_observed w' = cw_observed w ∧
    cw_calls w <= cw_calls w' <= cw_calls w + length ds ∧
    (errs = [] → acc = [] ∧ done = true ∧ cw_calls w' = cw_calls w + length ds ∧ round_arrived k ds (cw_calls w)) ∧
    (round_arrived k ds (cw_calls w) → acc = [] → errs = []) ∧
    (round_fine k ds (cw_calls w) → cw_calls w' = cw_calls w + length ds ∧ (errs = [] ∨ done = false)).
Proof.
  revert acc w. induction ds as [|d ds IH]; intros acc w; cbn [round].
  { eexists _, _, _. split; [reflexivity|]. split; [done|]. cbn. split; [lia|].
    split; [intros ->; repeat split; [lia|by intros ? ? ?]|]. split; [done|]. intros _. split; [lia|]. destruct acc; auto. }
  destruct (check_spec k d w) as (rt & err & w1 & Hc & Ho & Hn & Ha & Hs & Hf).
  unfold mbind, comp_bind. rewrite Hc.
  assert (∀ P : nat → desiredObject → Prop, (∀ i x, (d :: ds) !! i = Some x → P i x) ↔
    P 0 d ∧ ∀ i x, ds !! i = Some x → P (S i) x) as Hcons.
  { intros P. split; [intros Hp; split; [by apply Hp|]; intros i x Hi; by apply Hp|].
    intros [H0 HS] [|i] x Hi; [by injection Hi as <-|by apply HS]. }
  assert (cw_calls w1 = cw_calls w + 1 → (round_arrived k (d :: ds) (cw_calls w) ↔
      arrived k (do_MinimumResourceVersion d) (cache_Get (cw_calls w) (do_Key d)) ∧ round_arrived k ds (cw_calls w1)) ∧
    (round_fine k (d :: ds) (cw_calls w) ↔
      ¬ fatal k (do_MinimumResourceVersion d) (cache_Get (cw_calls w) (do_Key d)) ∧ round_fine k ds (cw_calls w1))) as Hw1.
  { intros E. unfold round_arrived, round_fine. rewrite !Hcons, Nat.add_0_r, E.
    split; (split; intros [H1 H2]; (split; [exact H1|]); intros i x Hi; specialize (H2 i x Hi));
      (replace (cw_calls w + 1 + i) with (cw_calls w + S i) in * by lia); exact H2. }
  destruct err as [e|].
  - destruct rt.
    + destruct (IH (acc ++ [e]) w1) as (errs & done & w' & Hr & Ho' & Hn' & Hz & Hall & Hfin).
      exists errs, done, w'. split; [exact Hr|]. split; [congruence|]. cbn [length]. split; [lia|].
      split; [intros He; destruct (Hz He) as [Hacc _]; by destruct acc|].
      split; [intros Har; exfalso; specialize (Har 0 d eq_refl); rewrite Nat.add_0_r in Har; by apply Ha in Har|].
      intros Hfine. pose proof (Hfine 0 d eq_refl) as Hd. rewrite Nat.add_0_r in Hd. apply Hf in Hd as [E _].
      apply Hw1 in Hfine as [_ Hfine]; [|done]. destruct (Hfin Hfine) as [? ?]. split; [lia|done].
    + exists (acc ++ [e]), true, w1. split; [done|]. split; [done|]. cbn [length]. split; [lia|].
      split; [intros He; by destruct acc|].
      split; [intros Har; exfalso; specialize (Har 0 d eq_refl); rewrite Nat.add_0_r in Har; by apply Ha in Har|].
      intros Hfine. pose proof (Hfine 0 d eq_refl) as Hd. rewrite Nat.add_0_r in Hd. apply Hf in Hd as [_ [?|?]]; done.
  - specialize (Hs eq_refl). destruct (Hw1 Hs) as [Hwa Hwf]. pose proof (proj1 Ha eq_refl) as Hd.
    destruct (IH acc w1) as (errs & done & w' & Hr & Ho' & Hn' & Hz & Hall & Hfin).
    exists errs, done, w'. split; [exact Hr|]. split; [congruence|]. cbn [length]. split; [lia|].
    split; [intros He; destruct (Hz He) as (? & ? & ? & ?); repeat split; [done|done|lia|by apply Hwa]|].
    split; [intros [_ Har]%Hwa; by apply Hall|]. intros [_ Hfine]%Hwf. destruct (Hfin Hfine). split; [lia|done].
Qed.

Lemma poll_spec k ds tries i acc w :
  ∃ errs err w', poll (check_of k) ds tries i acc w = (Ok (errs, err), w') ∧ cw_observed w' = cw_observed w ∧
    cw_calls w' <= cw_calls w + tries * length ds ∧
    (err = None → errs = [] → ∃ n, cw_calls w' = n + length ds ∧ cw_calls w <= n ∧ round_arrived k ds n) ∧
    ∀ r, r < tries → (∀ j, j <= r → interrupted (i + j) = None) →
      (∀ j, j < r → round_fine k ds (cw_calls w + j * length ds)) →
      round_arrived k ds (cw_calls w + r * length ds) → errs = [] ∧ err = None.
Proof.
  revert i acc w. induction tries as [|tries IH]; intros i acc w; cbn [poll].
  { eexists _, _, _. split; [reflexivity|]. split; [done|]. split; [lia|]. split; [done|]. intros; lia. }
  destruct (interrupted i) as [e|] eqn:Ei.
  { eexists _, _, _. split; [reflexivity|]. split; [done|]. split; [lia|]. split; [done|].
    intros r _ Hint _ _. specialize (Hint 0 ltac:(lia)). rewrite Nat.add_0_r in Hint. congruence. }
  destruct (round_spec k ds [] w) as (errs & done & w1 & Hr & Ho & Hn & Hz & Hall & Hfine).
  unfold mbind, comp_bind. rewrite Hr. destruct done.
  - exists errs, None, w1. split; [done|]. split; [done|]. cbn [Nat.mul]. split; [lia|].
    split; [intros _ He; destruct (Hz He) as (_ & _ & ? & ?); exists (cw_calls w); split; [lia|by split]|].
    intros [|r] _ _ Hf Ha; [split; [apply Hall; [by rewrite Nat.mul_0_l, Nat.add_0_r in Ha|done]|done]|].
    specialize (Hf 0 ltac:(lia)). rewrite Nat.mul_0_l, Nat.add_0_r in Hf. destruct (Hfine Hf) as [_ [?|?]]; done.
  - destruct (IH (S i) errs w1) as (errs' & err & w' & Hp & Ho' & Hn' & Hs & Hprog).
    exists errs', err, w'. split; [done|]. split; [congruence|]. cbn [Nat.mul]. split; [lia|].
    split; [intros He1 He2; destruct (Hs He1 He2) as (n & ? & ? & ?); exists n; repeat split; [done|lia|done]|].
    intros [|r] Hlt Hint Hf Ha.
    + rewrite Nat.mul_0_l, Nat.add_0_r in Ha. destruct (Hz (Hall Ha eq_refl)) as (_ & ? & _); done.
    + pose proof (Hf 0 ltac:(lia)) as Hf0. rewrite Nat.mul_0_l, Nat.add_0_r in Hf0. destruct (Hfine Hf0) as [E _].
      assert (∀ j, cw_calls w1 + j * length ds = cw_calls w + S j * length ds) as Ej by (intros j; rewrite E; cbn; lia).
      apply (Hprog r); [lia|..].
      * intros j Hj. replace (S i + j) with (i + S j) by lia. apply Hint. lia.
      * intros j Hj. rewrite Ej. apply Hf. lia.
      * by rewrite Ej.
Qed.

Lemma desired_of_spec objs w :
  match desired_of objs w with
  | (Ok ds, w') => w' = w ∧ length ds = length objs ∧
      ∀ i p, objs !! i = Some p → ∃ o, cw_objs w !! p = Some o ∧
        ds !! i = Some (Build_desiredObject p (cb_Key o) (cb_ResourceVersion o))
  | (Err _, _) => False
  | (Panic _, _) => ∃ p, p ∈ objs ∧ cw_objs w !! p = None
  end.
Proof.
  induction objs as [|p objs IH]; [by repeat split|]. cbn [desired_of].
  unfold mbind, comp_bind, deref in *. destruct (cw_objs w !! p) as [o|] eqn:Ep; [|exists p; split; [set_solver|done]].
  destruct (desired_of objs w) as [[ds|e|?] w'].
  - destruct IH as (-> & Hl & Hi). split; [done|]. split; [cbn; lia|].
    intros [|i] q Hq; [injection Hq as <-; eauto|by apply Hi].
  - done.
  - destruct IH as (q & ? & ?). exists q. split; [set_solver|done].
Qed.

Lemma desired_elem ds objs w i d :
  length ds = length objs →
  (∀ i p, objs !! i = Some p → ∃ o, cw_objs w !! p = Some o ∧
        ds !! i = Some (Build_desiredObject p (cb_Key o) (cb_ResourceVersion o))) →
  ds !! i = Some d → ∃ p o, objs !! i = Some p ∧ cw_objs w !! p = Some o ∧
    d = Build_desiredObject p (cb_Key o) (cb_ResourceVersion o).
Proof.
  intros Hl Hi Hd. destruct (lookup_lt_is_Some_2 objs i) as [p Hp]; [rewrite <-Hl; by eapply lookup_lt_Some|].
  destruct (Hi i p Hp) as (o & Ho & Hd'). exists p, o. by simplify_eq.
Qed.


(** And a wait succeeds as soon as the cache has caught up.  If no read before its
    round number [r] is fatal, the reads of that round show all objects as wanted, and
    the context is not over and the backoff not used up before, the wait ends with
    success and is counted as one. *)
Theorem waitFor_progress k action objs w kind r :
  objs ≠ [] → is_Unstructured = false → GVKForObject = inr kind →
  (∀ p, p ∈ objs → is_Some (cw_objs w !! p)) →
  r < attempts waitBackoff → (∀ j, j <= r → interrupted j = None) →
  (∀ i p o, objs !! i = Some p → cw_objs w !! p = Some o →
    (∀ j, j < r → ¬ fatal k (cb_ResourceVersion o) (cache_Get (cw_calls w + j * length objs + i) (cb_Key o))) ∧
    arrived k (cb_ResourceVersion o) (cache_Get (cw_calls w + r * length objs + i) (cb_Key o))) →
  ∃ w', wait_of k action objs w = (Ok tt, w') ∧ cw_observed w' = cw_observed w ++ [(kind, "success")].
Proof.
  intros Hne Hu Hk Hok Hr Hint Hreads.
  assert (∀ x, wait_of k action objs w = x ↔ waitFor action (check_of k) objs w = x) as Hwait by (by destruct k).
  setoid_rewrite Hwait. unfold waitFor. destruct objs as [|p0 objs']; [done|]. set (objs := p0 :: objs') in *.
  rewrite Hu, Hk. unfold mbind, comp_bind.
  pose proof (desired_of_spec objs w) as Hd. destruct (desired_of objs w) as [[ds|e|?] w1]; [|done|].
  2: { destruct Hd as (p & Hp & Hn). destruct (Hok p Hp). congruence. }
  destruct Hd as (-> & Hl & Hi).
  destruct (poll_spec k ds (attempts waitBackoff) 0 [] w) as (errs & err & w2 & Hp & Ho & _ & _ & Hprog).
  rewrite Hp. destruct (Hprog r Hr Hint) as [-> ->].
  - intros j Hj i d Hd. destruct (desired_elem _ _ _ _ _ Hl Hi Hd) as (p & o & Hp0 & Ho0 & ->). cbn.
    rewrite Hl. by apply (Hreads i p o Hp0 Ho0).
  - intros i d Hd. destruct (desired_elem _ _ _ _ _ Hl Hi Hd) as (p & o & Hp0 & Ho0 & ->). cbn.
    rewrite Hl. by apply (Hreads i p o Hp0 Ho0).
  - eexists. split; [reflexivity|]. cbn. by rewrite Ho.
Qed.
End wait_claims.

(** ** Differences *)

(** What [cmp.Diff] does: a text, or a panic with an error, a text or something else. *)
Inductive Diffed := Text (s : string) | PanicError (e : error) | PanicText (s : string) | PanicOther.

(** [strings.ReplaceAll] of the two bytes of the non-breaking space, and of a tab by two
    spaces. *)
Fixpoint replace_nbsp (s : string) : string :=
  match s with
  | String "194"%char (String "160"%char rest) => String " "%char (replace_nbsp rest)
  | String c rest => String c (replace_nbsp rest)
  | EmptyString => EmptyString
  end.
Fixpoint replace_tab (s : string) : string :=
  match s with
  | String c rest => if decide (c = "009"%char) then "  " +:+ replace_tab rest else String c (replace_tab rest)
  | EmptyString => EmptyString
  end.

(** Whether they are equal, the difference, and an error. *)
Definition Diff (compared : Diffed) : bool * string * option error :=
  match compared with
  | Text diff =>
      let diff := if decide (diff = "") then diff else TrimSpace (replace_tab (replace_nbsp diff)) in
      (bool_decide (diff = ""), diff, None)
  | PanicError err => (false, "", Some (EWrap "error diffing objects" err))
  | PanicText errMsg => (false, "", Some (EText ("error diffing objects: " +:+ errMsg)))
  | PanicOther => (false, "", Some (EText "error diffing objects: panic of unknown type"))
  end.

Fixpoint all_space (s : string) : bool :=
  match s with String c s => is_space c && all_space s | EmptyString => true end.
Lemma trim_left_empty s : trim_left s = "" ↔ all_space s = true.
Proof. induction s as [|c s IH]; cbn; [done|]. by destruct (is_space c). Qed.
Lemma trim_right_empty s : trim_right s = "" ↔ all_space s = true.
Proof.
  induction s as [|c s IH]; cbn; [done|]. destruct (trim_right s) as [|c' t].
  - destruct (is_space c); cbn; [|done]. by rewrite <-IH.
  - split; [done|]. intros [_ Hs]%andb_prop. by apply IH in Hs.
Qed.
Lemma TrimSpace_empty s : TrimSpace s = "" ↔ all_space s = true.
Proof.
  unfold TrimSpace. rewrite trim_left_empty. induction s as [|c s IH]; cbn; [done|].
  destruct (trim_right s) as [|c' t] eqn:E.
  - apply trim_right_empty in E. rewrite E. destruct (is_space c) eqn:Ec; cbn; [done|]. by rewrite Ec.
  - cbn in *. destruct (is_space c); [exact IH|done].
Qed.

(** Objects are equal for [Diff] exactly when the comparison ends with a text of blanks
    only: a panic is an error, and never "equal". *)
Theorem Diff_equal compared :
  (Diff compared).1.1 = true ↔
  ∃ diff, compared = Text diff ∧ all_space (replace_tab (replace_nbsp diff)) = true.
Proof.
  destruct compared as [diff| | |]; cbn; [|split; [done|by intros (? & ? & _)]..].
  rewrite bool_decide_eq_true. case_decide as Hd; [subst; split; [by exists ""|done]|].
  rewrite TrimSpace_empty. split; [by exists diff|by intros (? & [= <-] & ?)].
Qed.

(** ** Concrete caches *)

Definition numeric (s : string) : Z := Z.of_nat (String.length s). (* versions in unary, for the examples *)

(** A cache that has the object in the version "x" up to the second read and in the
    version "xx" from the third on. *)
#[global] Instance slow_cache : Cache := {|
  cache_Get n key := inl (Build_CachedObject key (if decide (n < 2) then "x" else "xx") false);
  CompareResourceVersion a b := inr (numeric a - numeric b)%Z;
  attempts b := bo_Steps b; attempts_bound b := Nat.le_refl _;
  interrupted _ := None; GVKForObject := inr "Machine"; is_Unstructured := false
|}.
Definition updated : CacheWorld :=
  Build_CacheWorld {[0 := Build_CachedObject ("default", "m") "xx" false]} 0 [].


Lemma waitFor_progress_witness :
  ∃ w', wait_of UpToDate "update" [0] updated = (Ok tt, w') ∧ cw_observed w' = [("Machine", "success")].
Proof.
  apply (waitFor_progress UpToDate "update" [0] updated "Machine" 2); [discriminate|reflexivity|reflexivity|..].
  - intros p Hp. apply list_elem_of_singleton in Hp as ->. eexists. reflexivity.
  - vm_compute. lia.
  - reflexivity.
  - intros i p o Hp Ho. destruct i as [|i]; [|discriminate]. injection Hp as <-. injection Ho as <-. split.
    + intros j _ [[_ [Hf|(? & ? & _ & Hf)]]|(? & Hf & _)]; discriminate.
    + split; [discriminate|]. exists 0%Z. split; [reflexivity|lia].
Defined.

(** The object is never deleted: the wait gives up after 63 reads. *)
Example wait_times_out :
  let w := wait_of Deleted "delete" [0] updated in
  is_ok w.1 = false ∧ cw_calls w.2 = 63 ∧ cw_observed w.2 = [("Machine", "error")].
Proof. vm_compute. auto. Qed.
