(* ===== verification/EtcdClients.v ===== *)
(** * etcd clients are closed

    pkg/etcd/client_generator.go opens clients of the etcd members, some of them only to
    find the leader, and hands at most one of them to the caller, which closes it when it
    is done (pkg/rke2/workload_cluster_etcd.go).  [open_clients] counts, from the calls a
    run made and their answers, the clients of an endpoint that are still open;
    [etcd_clients_closed] says that the operations of a workload cluster leave none
    behind, whichever calls fail. *)

From stdpp Require Import base tactics option list gmap strings numbers.
From S2P Require Import Prelude Go Api Objects Libs World Etcd.
Open Scope string_scope.
Open Scope Z_scope.
Open Scope list_scope.
Open Scope stdpp_scope.

Section clients.
Context `{EV : Env}.

(** What a call adds to the open clients of an endpoint: dialing opens one unless it
    fails, closing closes one even when it reports an error. *)
Definition client_delta (ep : string) (before : list Call) (c : Call) : Z :=
  match c with
  | CEtcdDial e => if decide (e = ep) then match ask before c with inr _ => 1 | inl _ => 0 end else 0
  | CEtcdClose e => if decide (e = ep) then -1 else 0
  | _ => 0
  end.
Fixpoint open_clients (ep : string) (calls : list Call) : Z :=
  match calls with
  | [] => 0
  | c :: before => open_clients ep before + client_delta ep before c
  end.

(** A run of [m] leaves [f] more clients open, given how it ends. *)
Definition leaves {A} (f : outcome A → string → Z) (m : M A) : Prop :=
  ∀ w ep, open_clients ep (w_calls (m w).2) = open_clients ep (w_calls w) + f (m w).1 ep.
Definition none {A} (_ : outcome A) (_ : string) : Z := 0.
(** The client that is returned, and no other. *)
Definition just_result (o : outcome Client) (ep : string) : Z :=
  match o with Ok c => if decide (ec_Endpoint c = ep) then 1 else 0 | _ => 0 end.

Lemma leaves_silent {A} (m : M A) : (∀ w, w_calls (m w).2 = w_calls w) → leaves none m.
Proof. intros Hm w ep. rewrite Hm. unfold none. lia. Qed.

Lemma leaves_bind {A B} (m : M A) (g : A → M B) f h :
  leaves f m → (∀ a, leaves (λ o ep, h o ep - f (Ok a) ep) (g a)) →
  (∀ e ep, h (Err e) ep = f (Err e) ep) → (∀ p ep, h (Panic p) ep = f (Panic p) ep) →
  leaves h (mbind g m).
Proof.
  intros Hm Hg He Hp w ep. unfold mbind, comp_bind. specialize (Hm w ep). destruct (m w) as [[a|e|p] w'].
  - rewrite (Hg a w' ep). cbn in Hm. lia.
  - cbn in *. by rewrite He.
  - cbn in *. by rewrite Hp.
Qed.

Lemma leaves_try {A} (m : M A) f :
  leaves f m → leaves (λ o ep, match o with
    | Ok (inl a) => f (Ok a) ep | Ok (inr e) | Err e => f (Err e) ep | Panic p => f (Panic p) ep end) (try m).
Proof. intros Hm w ep. specialize (Hm w ep). unfold try. by destruct (m w) as [[a|e|p] w']. Qed.

Lemma leaves_wrap {A} msg (m : M A) f :
  leaves f m → (∀ e ep, f (Err (EWrap msg e)) ep = f (Err e) ep) → leaves f (wrap msg m).
Proof.
  intros Hm Hf w ep. specialize (Hm w ep). unfold wrap. destruct (m w) as [[a|e|p] w']; [done| |done].
  cbn in *. by rewrite Hf.
Qed.

Lemma leaves_ext {A} (m : M A) f h : leaves f m → (∀ o ep, f o ep = h o ep) → leaves h m.
Proof. intros Hm He w ep. by rewrite (Hm w ep), He. Qed.

Lemma leaves_api (c : Call) :
  (∀ e, c ≠ CEtcdDial e ∧ c ≠ CEtcdClose e) → leaves none (api c).
Proof.
  intros Hc w ep. unfold api, none. cbn.
  assert (client_delta ep (w_calls w) c = 0)%Z as ->; [|lia]. destruct c; try done; by edestruct Hc as [??].
Qed.

(** Dialing leaves a client open exactly when it succeeds; closing closes one. *)
Lemma leaves_dial e :
  leaves (λ o ep, match o with Ok _ => if decide (e = ep) then 1 else 0 | _ => 0 end)%Z (api (CEtcdDial e)).
Proof.
  intros w ep. unfold api. cbn [w_calls open_clients client_delta snd fst].
  case_decide; destruct (ask (w_calls w) (CEtcdDial e)); lia.
Qed.
Lemma leaves_close e : leaves (λ _ ep, if decide (e = ep) then -1 else 0)%Z (try (api (CEtcdClose e))).
Proof.
  intros w ep. unfold api, try. cbn. destruct (ask (w_calls w) (CEtcdClose e)); cbn; case_decide; lia.
Qed.

Definition one (c : Client) (ep : string) : Z := if decide (ec_Endpoint c = ep) then 1 else 0.

Lemma leaves_ret {A} (a : A) f : (∀ ep, f (Ok a) ep = 0) → leaves f (mret a).
Proof. intros Hf w ep. cbn. rewrite Hf. lia. Qed.
Lemma leaves_fail {A} e (f : outcome A → string → Z) : (∀ ep, f (Err e) ep = 0) → leaves f (fail e).
Proof. intros Hf w ep. cbn. rewrite Hf. lia. Qed.
Lemma leaves_lift {A} (o : outcome A) : leaves none (lift o).
Proof. by apply leaves_silent. Qed.

Lemma leaves_none_bind {A B} (m : M A) (g : A → M B) h :
  leaves none m → (∀ a, leaves h (g a)) →
  (∀ e ep, h (Err e) ep = 0) → (∀ p ep, h (Panic p) ep = 0) → leaves h (mbind g m).
Proof.
  intros Hm Hg He Hp. eapply leaves_bind; [exact Hm| |exact He|exact Hp].
  intros a. eapply leaves_ext; [apply Hg|]. intros o ep. unfold none. lia.
Qed.
Lemma leaves_none_wrap {A} msg (m : M A) : leaves none m → leaves none (wrap msg m).
Proof. intros Hm. by apply leaves_wrap. Qed.

Definition close_after {A} (c : Client) (o : outcome A) : M (outcome A) :=
  _ ← try (api (CEtcdClose (ec_Endpoint c))); mret o.
Lemma close_after_run {A} c (o : outcome A) w ep :
  (close_after c o w).1 = Ok o ∧
  open_clients ep (w_calls (close_after c o w).2) = open_clients ep (w_calls w) - one c ep.
Proof.
  pose proof (leaves_close (ec_Endpoint c) w ep) as Hc. unfold close_after, mbind, comp_bind, one.
  assert (∃ a w', try (api (CEtcdClose (ec_Endpoint c))) w = (Ok a, w')) as (a & w' & E).
  { unfold try, api. cbn. destruct (ask _ _); eauto. }
  rewrite E in *. cbn in *. split; [done|]. case_decide; lia.
Qed.

(** [defer client.Close()] closes the client, however the rest ends. *)
Lemma leaves_with_client {A} c (m : M A) f :
  leaves f m → leaves (λ o ep, f o ep - one c ep) (with_client c m).
Proof.
  intros Hm w ep. specialize (Hm w ep). change (with_client c m) with (finally m (close_after c)). unfold finally.
  destruct (m w) as [[a|e|p] w']; cbn [fst snd] in *.
  - destruct (close_after_run c (Ok a) w' ep) as [Hr Hs].
    destruct (close_after c (Ok a) w') as [r w'']; cbn in Hr, Hs; subst r. cbn. lia.
  - destruct (close_after_run c (Err (A := A) e) w' ep) as [Hr Hs].
    destruct (close_after c (Err (A := A) e) w') as [r w'']; cbn in Hr, Hs; subst r. cbn. lia.
  - destruct (close_after_run c (Panic (A := A) p) w' ep) as [Hr Hs]. cbn. lia.
Qed.

(** ** The clients that are opened *)

Lemma NewClient_leaves e : leaves just_result (NewClient e).
Proof.
  intros w ep. unfold NewClient, newEtcdClient, wrap, try, mbind, comp_bind, mret, comp_ret, fail, api, just_result. cbn.
  destruct (ask (w_calls w) (CEtcdDial e)) eqn:Ed; cbn; rewrite ?Ed; [case_decide; lia|].
  destruct (ask _ (CEtcdStatus e)) eqn:Es; cbn; rewrite ?Ed; [|case_decide; lia].
  destruct (ask _ (CEtcdClose e)) eqn:Ec; cbn; rewrite ?Ed; case_decide; lia.
Qed.

Lemma first_available_leaves names errs : leaves just_result (first_available names errs).
Proof.
  revert errs. induction names as [|n names IH]; intros errs; cbn [first_available]; [by apply leaves_fail|].
  eapply leaves_bind; [apply leaves_try, NewClient_leaves| |done|done].
  intros [c|err]; [apply leaves_ret; intros ep; cbn; lia|].
  eapply leaves_ext; [apply IH|]. intros o ep. cbn. lia.
Qed.
Lemma ForFirstAvailableNode_leaves names : leaves just_result (ForFirstAvailableNode names).
Proof. destruct names; [by apply leaves_fail|apply first_available_leaves]. Qed.

Lemma Members_leaves c : leaves none (Members c).
Proof.
  unfold Members, Alarms. apply leaves_none_bind; [apply leaves_none_wrap, leaves_api; done| |done|done].
  intros r. apply leaves_none_bind; [apply leaves_none_wrap, leaves_api; done| |done|done].
  intros a. by apply leaves_ret.
Qed.

Lemma getLeaderClient_leaves n ns : leaves just_result (getLeaderClient n ns).
Proof.
  unfold getLeaderClient. eapply leaves_bind; [apply leaves_try, ForFirstAvailableNode_leaves| |done|done].
  intros [c|err]; [|apply leaves_fail; intros ep; cbn; lia].
  eapply leaves_ext; [apply (leaves_with_client c _ just_result)|].
  - eapply leaves_none_bind; [eapply leaves_ext; [apply leaves_try, Members_leaves|by intros [[]| |] ?]| |done|done].
    intros [ms|err]; [|by apply leaves_fail].
    apply leaves_none_bind; [apply leaves_lift| |done|done]. intros node. apply ForFirstAvailableNode_leaves.
  - intros o ep. unfold one, just_result. lia.
Qed.

Lemma ForLeader_leaves ns : leaves just_result (ForLeader ns).
Proof.
  assert (∀ l errs, leaves just_result (leader_via l ns errs)) as Hl.
  { induction l as [|x l IH]; intros errs; cbn [leader_via]; [by apply leaves_fail|].
    eapply leaves_bind; [apply leaves_try, getLeaderClient_leaves| |done|done].
    intros [c|err]; [apply leaves_ret; intros ep; cbn; lia|].
    destruct (is_connection_error err); [|apply leaves_fail; intros ep; cbn; lia].
    eapply leaves_ext; [apply IH|]. intros o ep. cbn. lia. }
  destruct ns; [by apply leaves_fail|apply Hl].
Qed.

(** A client of the leader that is closed after its use. *)
Lemma with_leader_leaves {A} msg ns (m : Client → M A) :
  (∀ c, leaves none (m c)) →
  leaves none (c ← wrap msg (ForLeader ns); with_client c (m c)).
Proof.
  intros Hm. eapply leaves_bind; [apply leaves_wrap; [apply ForLeader_leaves|done]| |done|done].
  intros c. eapply leaves_ext; [apply leaves_with_client, Hm|]. done.
Qed.

Lemma EtcdMembers_leaves wl : leaves none (EtcdMembers wl).
Proof.
  unfold EtcdMembers, getControlPlaneNodes. destruct (wl_etcd wl); [|by apply leaves_ret].
  apply leaves_none_bind; [apply leaves_none_wrap, leaves_api; done| |done|done].
  intros nodes. apply with_leader_leaves. intros c.
  apply leaves_none_bind; [apply leaves_none_wrap, Members_leaves| |done|done]. intros ms. by apply leaves_ret.
Qed.

Lemma ForwardEtcdLeadership_leaves wl m k : leaves none (ForwardEtcdLeadership wl m k).
Proof.
  unfold ForwardEtcdLeadership, getControlPlaneNodes. destruct m as [m|]; [|by apply leaves_ret].
  destruct (NodeRef_IsDefined m); [|by apply leaves_ret]. destruct k as [k|]; [|by apply leaves_fail].
  destruct (NodeRef_IsDefined k); [|by apply leaves_fail]. destruct (wl_etcd wl); [|by apply leaves_ret].
  apply leaves_none_bind; [apply leaves_none_wrap, leaves_api; done| |done|done].
  intros nodes. apply with_leader_leaves. intros c.
  apply leaves_none_bind; [apply leaves_none_wrap, Members_leaves| |done|done].
  intros ms. destruct (MemberForName ms _) as [cur|]; [|by apply leaves_ret].
  case_decide; [|by apply leaves_ret]. destruct (MemberForName ms _) as [next|]; [|by apply leaves_fail].
  unfold MoveLeader. apply leaves_none_wrap, leaves_none_wrap, leaves_api. done.
Qed.

(** C7: no etcd client is left behind.  Looking for the leader leaves exactly the client
    it returns open, and none with an error; asking for the members of the etcd cluster
    and moving its leadership close every client they opened, of any endpoint, whichever
    of the calls they make fail. *)
Theorem etcd_clients_closed wl machine candidate nodeNames w ep :
  open_clients ep (w_calls (EtcdMembers wl w).2) = open_clients ep (w_calls w) ∧
  open_clients ep (w_calls (ForwardEtcdLeadership wl machine candidate w).2) = open_clients ep (w_calls w) ∧
  match ForLeader nodeNames w with
  | (Ok c, w') => open_clients ep (w_calls w') = open_clients ep (w_calls w) + if decide (ec_Endpoint c = ep) then 1 else 0
  | (_, w') => open_clients ep (w_calls w') = open_clients ep (w_calls w)
  end.
Proof.
  split; [rewrite (EtcdMembers_leaves wl w ep); unfold none; lia|].
  split; [rewrite (ForwardEtcdLeadership_leaves wl machine candidate w ep); unfold none; lia|].
  pose proof (ForLeader_leaves nodeNames w ep) as Hl. destruct (ForLeader nodeNames w) as [[c|e|p] w']; cbn in *; lia.
Qed.
End clients.
