(* ===== verification/Convergence.v ===== *)
(** * A rollout ends

    The step of a reconcile that changes the set of machines
    ([Reconciler.rolloutOrScale]: replacing outdated machines, or scaling to the number
    of replicas), run again and again.  The server's set of control plane machines is a
    function of the calls made and their answers ([alive]); [round] is one such step and
    what happens until the next one.  [rollout_converges] is the progress property the
    safety theorems of [Reconciler] leave open: every step that ends without an error
    comes closer to the spec, and after [distance] of them there are as many machines as
    replicas and all are up to date. *)

From stdpp Require Import base tactics option list gmap strings numbers fin_sets.
From S2P Require Import Prelude Go Api Objects Libs World Hooks Etcd Desired ControlPlane Scale.
From S2P Require Import Remediation Workload Lifecycle Inplace Demo Reconciler Status Controller.
Open Scope string_scope.
Open Scope list_scope.
Open Scope stdpp_scope.

(** ** The machines on the server *)

Section server.
Context `{EV : Env} (initial : gset string).

(** A call that fails has no effect, except that a machine to delete that is not found
    is gone already. *)
Definition machine_effect (before : list Call) (c : Call) (names : gset string) : gset string :=
  match c with
  | CApplyMachine m => match ask before (CApplyMachine m) with inr _ => {[m_Name m]} ∪ names | inl _ => names end
  | CDeleteMachine n =>
      match ask before (CDeleteMachine n) with
      | inr _ => names ∖ {[n]}
      | inl e => if IsNotFound e then names ∖ {[n]} else names
      end
  | _ => names
  end.
Fixpoint alive (calls : list Call) : gset string :=
  match calls with
  | [] => initial
  | c :: before => machine_effect before c (alive before)
  end.
Definition live (w : World) : gset string := alive (w_calls w).

(** Calls that neither create nor delete a machine. *)
Definition inert (c : Call) : Prop :=
  match c with CApplyMachine _ | CDeleteMachine _ => False | _ => True end.

Lemma alive_inert l calls : Forall inert l → alive (l ++ calls) = alive calls.
Proof. induction 1 as [|c l Hc _ IH]; [done|]. cbn [app alive]. rewrite IH. by destruct c. Qed.

(** The state of the server after [m], and the calls [m] makes. *)
Definition grows (w w' : World) : Prop := ∃ l, w_calls w' = l ++ w_calls w.
Lemma grows_trans w1 w2 w3 : grows w1 w2 → grows w2 w3 → grows w1 w3.
Proof. intros [l1 H1] [l2 H2]. exists (l2 ++ l1). by rewrite H2, H1, app_assoc. Qed.

Lemma inert_run {A} (m : M A) w : emits inert m → live (m w).2 = live w ∧ grows w (m w).2.
Proof.
  intros Hm. destruct (Hm w) as (l & Hl & Hi). unfold live. rewrite Hl, alive_inert by done.
  split; [done|]. by exists l.
Qed.

(** The machine [m] was applied between [w] and [w']. *)
Definition applied (w w' : World) (m : Machine) : Prop :=
  ∃ l, w_calls w' = l ++ w_calls w ∧ CApplyMachine m ∈ l.
Lemma applied_later w w' w'' m : applied w w' m → grows w' w'' → applied w w'' m.
Proof. intros (l & Hl & Hm) [l' Hl']. exists (l' ++ l). rewrite Hl', Hl, app_assoc. set_solver. Qed.
Lemma applied_earlier w w' w'' m : grows w w' → applied w' w'' m → applied w w'' m.
Proof. intros [l Hl] (l' & Hl' & Hm). exists (l' ++ l). rewrite Hl', Hl, app_assoc. set_solver. Qed.

(** What a step may do to the machines: nothing, or with success one of the two. *)
Definition creates (w w' : World) : Prop := ∃ m, applied w w' m ∧ live w' = {[m_Name m]} ∪ live w.
End server.

Section effects.
Context `{CapiConsts, CollLib, CondLib, SetsLib, MetaLib, ServerJson, RemediationJson, WorkloadLib,
          InPlaceLib, ReconcilerLib, GoSort, GoRange, Clock, EV : Env} (initial : gset string).
Abbreviation live := (live initial).

Lemma createMachine_effect rcp cluster ir br fd w :
  ∃ w', grows w w' ∧
    ((∃ e, createMachine rcp cluster ir br fd w = (Err e, w') ∧ live w' = live w) ∨
     (createMachine rcp cluster ir br fd w = (Ok tt, w') ∧ creates initial w w')).
Proof.
  unfold createMachine, mbind, comp_bind, wrap.
  destruct (computeDesiredMachine_created rcp cluster ir br fd w) as (m & w1 & -> & Hc & _).
  exists (Build_World (w_cp w1) (CApplyMachine m :: w_calls w1) (w_names w1)).
  split; [exists [CApplyMachine m]; cbn; by rewrite Hc|].
  destruct (api_cases (CApplyMachine m) w1) as [(e & He & ->)|(a & Ha & ->)].
  - left. eexists. split; [done|]. unfold Convergence.live. cbn [w_calls alive machine_effect].
    rewrite He. by rewrite Hc.
  - right. split; [done|]. exists m. split; [exists [CApplyMachine m]; cbn; rewrite Hc; split; [done|set_solver]|].
    unfold Convergence.live. cbn [w_calls alive machine_effect]. rewrite Ha. by rewrite Hc.
Qed.

(** A computation that fails leaves the machines alone, and one that succeeds creates
    exactly one. *)
Definition result_of {A} (w : World) (Q : World → Prop) (r : outcome A * World) : Prop :=
  grows w r.2 ∧ match r.1 with Ok _ => Q r.2 | _ => live r.2 = live w end.
Definition creates_one {A} (m : M A) : Prop := ∀ w, result_of w (creates initial w) (m w).
Definition changes_none {A} (m : M A) : Prop := ∀ w, grows w (m w).2 ∧ live (m w).2 = live w.

Lemma inert_changes_none {A} (m : M A) : emits inert m → changes_none m.
Proof. intros Hm w. destruct (inert_run initial m w Hm). done. Qed.

Lemma creates_after {A B} (m : M A) (f : A → M B) :
  changes_none m → (∀ a, creates_one (f a)) → creates_one (m ≫= f).
Proof.
  intros Hm Hf w. unfold result_of, mbind, comp_bind. destruct (Hm w) as [Hg Hl].
  destruct (m w) as [[a|e|p] w1]; cbn in *; [|done..].
  specialize (Hf a w1). destruct (f a w1) as [o w2]. destruct Hf as [Hg' Ho]. cbn in *.
  split; [by eapply grows_trans|]. destruct o as [b|e|p]; [|congruence..].
  destruct Ho as (mm & Ha & Hs). exists mm. split; [by eapply applied_earlier|]. by rewrite Hs, Hl.
Qed.
Lemma creates_before {A B} (m : M A) (b : B) : creates_one m → creates_one (_ ← m; mret b).
Proof.
  intros Hm w. specialize (Hm w). unfold result_of, mbind, comp_bind in *. by destruct (m w) as [[a|e|p] w1].
Qed.

Lemma clone_creates_one cluster rcp spec fd : creates_one (cloneConfigsAndGenerateMachine cluster rcp spec fd).
Proof.
  unfold cloneConfigsAndGenerateMachine. cbn zeta.
  apply creates_after; [apply inert_changes_none; emits_auto|]. intros apiVersion.
  apply creates_after; [apply inert_changes_none; emits_auto|]. intros [infraMachine infraRef].
  apply creates_after; [apply inert_changes_none; unfold generateRKE2Config; emits_auto|].
  assert (∀ (cfg : option RKE2Config) (errs : list error) w0 w, grows w0 w → live w = live w0 → errs ≠ [] →
    result_of w0 (creates initial w0) ((match errs with
      | [] => mret tt
      | _ => cleanup ← cleanupFromGeneration infraMachine cfg;
             fail (EAgg match cleanup with [] => errs | _ => errs ++ [EWrap "failed to cleanup generated resources" (EAgg cleanup)] end)
      end : M unit) w)) as Hclean.
  { intros cfg errs w0 w Hg Hl Hne. destruct errs as [|e es]; [done|]. unfold result_of.
    match goal with |- context [snd (?m w)] => assert (emits inert m) as Hi by (unfold cleanupFromGeneration; emits_auto);
      destruct (inert_run initial m w Hi) as [Hl' Hg'];
      assert (∀ a, (m w).1 ≠ Ok a) as Hno;
      [intros a; unfold mbind, comp_bind; by destruct (cleanupFromGeneration infraMachine cfg w) as [[?|?|?] ?]|];
      destruct (m w) as [[a|?|?] w'] end; [by destruct (Hno a)| |]; cbn in *; (split; [by eapply grows_trans|congruence]). }
  intros [[cfg ref]|err].
  - intros w. unfold mbind at 1, comp_bind at 1. unfold mbind at 1, comp_bind at 1, try.
    destruct (createMachine_effect rcp cluster infraRef ref fd w) as (w1 & Hg & [(e & -> & Hl)|(-> & Hc)]); cbn beta iota.
    + by apply (Hclean (Some cfg) [EWrap "failed to create Machine" e] w w1).
    + cbn. done.
  - intros w. unfold mbind at 1, comp_bind at 1. cbn beta iota.
    apply (Hclean None [EWrap "failed to generate bootstrap config" err] w w); [by exists []|done|done].
Qed.

Hint Resolve GetWorkloadCluster_machines InitWorkload_machines : keeps.

Lemma changes_none_bind {A B} (m : M A) (f : A → M B) :
  changes_none m → (∀ a, changes_none (f a)) → changes_none (m ≫= f).
Proof.
  intros Hm Hf w. unfold mbind, comp_bind. destruct (Hm w) as [Hg Hl].
  destruct (m w) as [[a|e|p] w1]; cbn in *; [|done..].
  destruct (Hf a w1) as [Hg' Hl']. split; [by eapply grows_trans|congruence].
Qed.

Lemma stable_excluding l c : stable [] c → stable l c.
Proof.
  intros [Hd Hh]. split; [done|]. intros n m Hm. destruct (Hh n m Hm) as [(e & He & _)|?]; [set_solver|by right].
Qed.

Lemma scaleUp_effect w : stable [] (w_cp w) → result_of w (creates initial w) (scaleUpControlPlane w).
Proof.
  intros Hs. unfold scaleUpControlPlane. unfold mbind at 1, comp_bind at 1.
  destruct (preflightChecks_run [] w) as (r & p & -> & Hz & _). rewrite (proj2 Hz (or_intror Hs)). cbn [negb].
  set (w1 := w_with_cp _ w). assert (live w1 = live w ∧ grows w w1) as [Hl Hg] by (split; [done|by exists []]).
  assert (creates_one (c ← get_cp;
    _ ← cloneConfigsAndGenerateMachine (cp_Cluster c) (cp_RCP c) (sp_RKE2ConfigSpec (rcp_Spec (cp_RCP c)))
          (NextFailureDomainForScaleUp c); mret (requeueAfter Minute))) as Hc.
  { apply creates_after; [by apply inert_changes_none; auto with emits|]. intros c. apply creates_before, clone_creates_one. }
  exact (Hc w1).
Qed.

Lemma result_of_after {A} w w1 (Q Q' : World → Prop) (r : outcome A * World) :
  grows w w1 → live w1 = live w → result_of w1 Q r → (∀ w', grows w1 w' → Q w' → Q' w') → result_of w Q' r.
Proof.
  intros Hg Hl [Hg' Hr] HQ. split; [by eapply grows_trans|]. destruct r.1; [by apply HQ|congruence..].
Qed.

(** The last step of scaling down, once the preflight checks have passed. *)
Lemma delete_effect (pre : M unit) name w :
  changes_none pre →
  result_of w (λ w', live w' = live w ∖ {[name]})
    ((_ ← pre; r ← try (api (CDeleteMachine name));
      match r with
      | inl _ => mret requeue
      | inr err => if IsNotFound err then mret requeue else fail err
      end) w).
Proof.
  intros Hpre. unfold mbind at 1, comp_bind at 1. destruct (Hpre w) as [Hg Hl].
  destruct (pre w) as [[[]|e|p] w1]; cbn [fst snd] in *; [|by split..]. unfold result_of.
  unfold mbind, comp_bind, try, api. destruct (ask (w_calls w1) (CDeleteMachine name)) as [e|[]] eqn:Ea; cbn -[difference].
  - assert (grows w (Build_World (w_cp w1) (CDeleteMachine name :: w_calls w1) (w_names w1))) as Hg'
      by (eapply grows_trans; [exact Hg|by exists [CDeleteMachine name]]).
    destruct (IsNotFound e) eqn:En; cbn -[difference]; (split; [exact Hg'|]);
      unfold Convergence.live; cbn [w_calls alive machine_effect]; rewrite Ea, En; [|exact Hl].
    change (live w1 ∖ {[name]} = live w ∖ {[name]}). by rewrite Hl.
  - split; [eapply grows_trans; [exact Hg|by exists [CDeleteMachine name]]|].
    unfold Convergence.live; cbn [w_calls alive machine_effect]; rewrite Ea.
    change (live w1 ∖ {[name]} = live w ∖ {[name]}). by rewrite Hl.
Qed.

Lemma leadership_inert wl m k : emits inert (ForwardEtcdLeadership wl m k).
Proof. eapply emits_mono; [|apply (ForwardEtcdLeadership_calls wl m k)]. by intros []. Qed.

Lemma scaleDown_effect outdated w :
  cp_Machines (w_cp w) ≠ ∅ → stable [] (w_cp w) →
  result_of w (λ w', ∃ m, scale_down_candidate (w_cp w) outdated m ∧ live w' = live w ∖ {[m_Name m]})
    (scaleDownControlPlane outdated w).
Proof.
  intros Hne Hs. unfold scaleDownControlPlane. unfold mbind at 1, comp_bind at 1. cbn [get_cp gets].
  unfold mbind at 1, comp_bind at 1. unfold wrap at 1, lift.
  destruct (selectMachineForScaleDown_spec (w_cp w) outdated Hne) as (m & -> & Hm & _).
  unfold mbind at 1, comp_bind at 1. destruct (preflightChecks_run [m] w) as (r & p & -> & Hz & _).
  rewrite (proj2 Hz (or_intror (stable_excluding [m] _ Hs))). cbn [negb].
  set (w1 := w_with_cp _ w). assert (live w1 = live w) as Hl by done.
  unfold mbind at 1, comp_bind at 1.
  destruct (inert_run initial (wrap "getting workload cluster" GetWorkloadCluster) w1) as [Hl2 Hg2].
  { unfold GetWorkloadCluster. emits_auto. }
  destruct (wrap "getting workload cluster" GetWorkloadCluster w1) as [[wl|e|q] w2]; cbn [fst snd] in *;
    [|split; [exact Hg2|exact Hl2]..].
  match goal with |- result_of _ _ ((_ ← ?pre; _) w2) => pose proof (delete_effect pre (m_Name m) w2) as Hd end.
  eapply result_of_after; [exact Hg2|exact Hl2|apply Hd|].
  { apply inert_changes_none. pose proof (leadership_inert wl (Some m) (coll_Newest (cp_Machines (w_cp w)))). emits_auto. }
  intros w3 _ Ho. exists m. split; [done|]. by rewrite Ho, Hl2.
Qed.
End effects.

(** ** One step *)

Section step.
Context `{CapiConsts, CollLib, CondLib, SetsLib, MetaLib, ServerJson, RemediationJson, WorkloadLib,
          InPlaceLib, ReconcilerLib, GoSort, GoRange, Clock, EV : Env} (initial : gset string).
Abbreviation live := (live initial).

(** The names of the outdated machines. *)
Definition outdated (c : ControlPlane) : gset string := dom (MachinesNeedingRollout c).1.

(** A control plane of [R] replicas and surge [S] whose machines have settled: none is
    being deleted, all are healthy, and only outdated machines are marked for deletion
    while there are any. *)
Record steady (R S : Z) (c : ControlPlane) : Prop := {
  sy_replicas : sp_Replicas (rcp_Spec (cp_RCP c)) = Some R;
  sy_strategy : ∃ st, sp_RolloutStrategy (rcp_Spec (cp_RCP c)) = Some st ∧ rs_Type st = RollingUpdateStrategyType ∧
    IntValue (default (FromInt 1) (rs_RollingUpdate st ≫= ru_MaxSurge)) = S;
  sy_initialized : rcp_initialized (cp_RCP c) = true;
  sy_stable : stable [] c;
  sy_keyed : ∀ n m, cp_Machines c !! n = Some m → m_Name m = n;
  sy_outdated : ∀ n m, (MachinesNeedingRollout c).1 !! n = Some m → m_Name m = n ∧ is_Some (cp_Machines c !! n);
  sy_marked : ∀ n m, cp_Machines c !! n = Some m → has_delete_annotation m → outdated c = ∅ ∨ n ∈ outdated c
}.
(** The numbers of replicas and surge that a rolling update can work with. *)
Definition workable (R S : Z) : Prop := (1 ≤ R ∧ 0 ≤ S ∧ 2 ≤ R + S ≤ MaxInt32)%Z.

Definition machines (c : ControlPlane) : Z := Z.of_nat (size (cp_Machines c)).

(** What a step that ends without an error has done. *)
Inductive progress (R S : Z) (w w' : World) : Prop :=
| progress_done : outdated (w_cp w) = ∅ → machines (w_cp w) = R → live w' = live w → progress R S w w'
| progress_surge : outdated (w_cp w) ≠ ∅ → (machines (w_cp w) < R + S)%Z → creates initial w w' → progress R S w w'
| progress_replace n : n ∈ outdated (w_cp w) → (R + S ≤ machines (w_cp w))%Z → live w' = live w ∖ {[n]} → progress R S w w'
| progress_up : outdated (w_cp w) = ∅ → (machines (w_cp w) < R)%Z → creates initial w w' → progress R S w w'
| progress_down n : outdated (w_cp w) = ∅ → (R < machines (w_cp w))%Z → is_Some (cp_Machines (w_cp w) !! n) →
    live w' = live w ∖ {[n]} → progress R S w w'.

(** The parts of the control plane that decide. *)
Definition scope (c : ControlPlane) : Machines * RKE2ControlPlaneSpec * bool :=
  (cp_Machines c, rcp_Spec (cp_RCP c), rcp_initialized (cp_RCP c)).

Lemma set_condition_scope cond : keeps scope (rcp_set_condition cond).
Proof. unfold rcp_set_condition, modify_rcp. apply keeps_modify_cp. reflexivity. Qed.
Hint Resolve set_condition_scope : keeps.
Lemma GetWorkloadCluster_scope : keeps scope GetWorkloadCluster.
Proof. unfold GetWorkloadCluster. keeps_auto. Qed.
Lemma InitWorkload_scope : keeps scope InitWorkload.
Proof. unfold InitWorkload, getControlPlaneNodes, modify_workload. keeps_auto. Qed.

(** Nothing has happened to the machines yet. *)
Definition so_far (w0 w : World) : Prop :=
  grows w0 w ∧ live w = live w0 ∧ scope (w_cp w) = scope (w_cp w0).
Lemma so_far_refl w : so_far w w.
Proof. split; [by exists []|done]. Qed.

Lemma inert_then {A} (m : M A) (f : A → M Result) w0 w (Q : World → Prop) :
  emits inert m → keeps scope m → so_far w0 w →
  (∀ a w1, so_far w0 w1 → result_of initial w0 Q (f a w1)) → result_of initial w0 Q ((m ≫= f) w).
Proof.
  intros Hm Hk (Hg & Hl & Hs) Hf. unfold mbind, comp_bind. destruct (inert_run initial m w Hm) as [Hl1 Hg1].
  pose proof (Hk w) as Hs1. destruct (m w) as [[a|e|p] w1]; cbn [fst snd] in *.
  - apply Hf. split; [by eapply grows_trans|]. split; congruence.
  - split; [by eapply grows_trans|]. cbn. congruence.
  - split; [by eapply grows_trans|]. cbn. congruence.
Qed.
Lemma inert_end w0 w (o : outcome Result) (Q : World → Prop) :
  so_far w0 w → (∀ r, o = Ok r → Q w) → result_of initial w0 Q (o, w).
Proof. intros (Hg & Hl & _) HQ. split; [done|]. destruct o; cbn; [by eapply HQ|done|done]. Qed.

Lemma scope_machines c c' : scope c = scope c' → cp_Machines c = cp_Machines c'.
Proof. by intros [= ->]. Qed.

(** The two steps that change something, after nothing has happened. *)
Lemma scaleUp_so_far w0 w :
  so_far w0 w → stable [] (w_cp w0) → result_of initial w0 (creates initial w0) (scaleUpControlPlane w).
Proof.
  intros (Hg & Hl & Hs) Hst. eapply result_of_after; [exact Hg|exact Hl|apply scaleUp_effect|].
  - eapply stable_ext; [|exact Hst]. symmetry. by apply scope_machines.
  - intros w' _ (m & Ha & Hc). exists m. split; [by eapply applied_earlier|]. unfold Convergence.live in *. congruence.
Qed.
Lemma scaleDown_so_far w0 w out :
  so_far w0 w → stable [] (w_cp w0) → cp_Machines (w_cp w0) ≠ ∅ →
  result_of initial w0 (λ w', ∃ m, scale_down_candidate (w_cp w0) out m ∧ live w' = live w0 ∖ {[m_Name m]})
    (scaleDownControlPlane out w).
Proof.
  intros (Hg & Hl & Hs) Hst Hne. apply scope_machines in Hs.
  eapply result_of_after; [exact Hg|exact Hl|apply scaleDown_effect|].
  - by rewrite Hs.
  - by eapply stable_ext.
  - intros w' _ (m & Hc & Hd). exists m. split; [|by rewrite Hd, Hl].
    unfold scale_down_candidate in *. by rewrite <-Hs.
Qed.

(** Which machine a step removes. *)
Lemma removed_outdated R S c m :
  steady R S c → outdated c ≠ ∅ → scale_down_candidate c (MachinesNeedingRollout c).1 m → m_Name m ∈ outdated c.
Proof.
  intros Hst Hne (Hc1 & Hc2 & Hc3 & _). unfold outdated in *.
  assert (∀ n, (MachinesNeedingRollout c).1 !! n = Some m → m_Name m ∈ dom (MachinesNeedingRollout c).1) as Hin.
  { intros n Hn. destruct (sy_outdated _ _ _ Hst n m Hn) as [<- _]. apply elem_of_dom. eauto. }
  destruct (decide (0 < size (MachineWithDeleteAnnotation (MachinesNeedingRollout c).1))%nat) as [Ho|Ho].
  { apply MachineWithDeleteAnnotation_pos in Ho. destruct (Hc1 Ho) as [[n Hn] _]. eauto. }
  rewrite MachineWithDeleteAnnotation_pos in Ho.
  destruct (decide (0 < size (MachineWithDeleteAnnotation (cp_Machines c)))%nat) as [Ha|Ha].
  { apply MachineWithDeleteAnnotation_pos in Ha. destruct (Hc2 Ho Ha) as [[n Hn] Hd].
    destruct (sy_marked _ _ _ Hst n m Hn Hd) as [?|Hx]; [done|]. by rewrite (sy_keyed _ _ _ Hst n m Hn). }
  rewrite MachineWithDeleteAnnotation_pos in Ha.
  destruct (Hc3 Ho Ha) as [n Hn]; [|eauto]. intros He. apply Hne. by rewrite He, dom_empty_L.
Qed.
Lemma removed_any R S c m :
  steady R S c → scale_down_candidate c ∅ m → is_Some (cp_Machines c !! m_Name m).
Proof.
  intros Hst (_ & _ & _ & _ & [[n Hn]|[n Hn]]); [by rewrite lookup_empty in Hn|].
  rewrite (sy_keyed _ _ _ Hst n m Hn). eauto.
Qed.

Lemma max_nodes_surge R S n :
  workable R S → (0 ≤ n)%Z → (SafeInt32 n < wrap32 (R + SafeInt32 S))%Z ↔ (n < R + S)%Z.
Proof.
  intros (? & ? & ?) Hn. unfold MaxInt32 in *. rewrite (wrap32_id (R + SafeInt32 S)); unfold SafeInt32, MaxInt32;
    repeat case_decide; rewrite ?wrap32_id; lia.
Qed.

Lemma upgrade_progress R S results w :
  feature_InPlaceUpdates = false → workable R S → steady R S (w_cp w) → cp_Machines (w_cp w) ≠ ∅ →
  outdated (w_cp w) ≠ ∅ → ∀ w1, so_far w w1 →
  result_of initial w (progress R S w) (upgradeControlPlane (MachinesNeedingRollout (w_cp w)).1 results w1).
Proof.
  intros Hf Hw Hst Hne Ho w1 Hs. pose proof (sy_stable _ _ _ Hst) as Hstable. unfold upgradeControlPlane.
  unfold mbind at 1, comp_bind at 1. cbn [get_cp gets]. cbn zeta.
  pose proof Hs as (_ & _ & Hsc). pose proof (f_equal snd Hsc) as Hi. cbn in Hi.
  rewrite Hi, (sy_initialized _ _ _ Hst). cbn [negb].
  assert (sp_RolloutStrategy (rcp_Spec (cp_RCP (w_cp w1))) = sp_RolloutStrategy (rcp_Spec (cp_RCP (w_cp w))) ∧
    sp_Replicas (rcp_Spec (cp_RCP (w_cp w1))) = sp_Replicas (rcp_Spec (cp_RCP (w_cp w)))) as [E1 E2].
  { pose proof (f_equal (λ x, x.1.2) Hsc) as Hsp. cbn in Hsp. by rewrite Hsp. }
  apply (inert_then _ _ w); [unfold GetWorkloadCluster; emits_auto|apply keeps_wrap, GetWorkloadCluster_scope|done|].
  intros wl w2 Hs2. apply (inert_then _ _ w); [|apply InitWorkload_scope|done|].
  { unfold InitWorkload, getControlPlaneNodes. emits_auto. }
  intros _ w3 Hs3. rewrite E1, E2. destruct (sy_strategy _ _ _ Hst) as (st & -> & Hty & HS).
  rewrite decide_True by done. rewrite (sy_replicas _ _ _ Hst), HS.
  rewrite (scope_machines _ _ Hsc).
  case_decide as Hn; rewrite (max_nodes_surge R S) in Hn by (done || lia).
  - destruct (scaleUp_so_far w w3) as [? Hr]; [done|done|]. split; [done|].
    destruct (scaleUpControlPlane w3).1; [|done..]. by apply progress_surge.
  - unfold mbind at 1, comp_bind at 1. cbn [get_cp gets]. unfold mbind at 1, comp_bind at 1, lift.
    destruct (selectMachineForInPlaceUpdateOrScaleDown _ _) as [m|e|p]; [|by apply inert_end..].
    destruct (results !! m_Name m) as [res|]; [|by apply inert_end]. rewrite Hf. cbn [andb].
    destruct (scaleDown_so_far w w3 (MachinesNeedingRollout (w_cp w)).1) as [? Hr]; [done..|]. split; [done|].
    destruct (scaleDownControlPlane _ w3).1; [|done..]. destruct Hr as (m' & Hm & Hd).
    eapply progress_replace; [by eapply removed_outdated| |exact Hd]. unfold machines. lia.
Qed.

Lemma rolloutOrScale_progress R S w :
  feature_InPlaceUpdates = false → workable R S → steady R S (w_cp w) → cp_Machines (w_cp w) ≠ ∅ →
  result_of initial w (progress R S w) (rolloutOrScale (size (cp_Machines (w_cp w))) w).
Proof.
  intros Hf Hw Hst Hne. pose proof (sy_stable _ _ _ Hst) as Hstable. unfold rolloutOrScale.
  unfold mbind at 1, comp_bind at 1. cbn [get_cp gets].
  destruct (MachinesNeedingRollout (w_cp w)) as [need results] eqn:En.
  assert (outdated (w_cp w) = dom need) as Ho by (unfold outdated; by rewrite En).
  case_decide as Hd.
  - apply (inert_then _ _ w); [auto with emits|apply set_condition_scope|apply so_far_refl|]. intros _ w1 Hs.
    replace need with (MachinesNeedingRollout (w_cp w)).1 by (by rewrite En).
    apply (upgrade_progress R S); [done..| |done]. rewrite Ho. intros He. apply dom_empty_inv_L in He. subst.
    rewrite map_size_empty in Hd. lia.
  - assert (outdated (w_cp w) = ∅) as Hz.
    { rewrite Ho. assert (need = ∅) as -> by (apply map_size_empty_inv; lia). apply dom_empty_L. }
    apply (inert_then _ _ w); [emits_auto|case_match; [apply set_condition_scope|apply keeps_ret]|apply so_far_refl|].
    intros _ w1 Hs. unfold scaleToReplicas. unfold mbind at 1, comp_bind at 1. cbn [get_cp gets].
    assert (sp_Replicas (rcp_Spec (cp_RCP (w_cp w1))) = Some R) as ->.
    { destruct Hs as (_ & _ & Hs). pose proof (f_equal (λ x, x.1.2) Hs) as Hsp. cbn in Hsp.
      rewrite Hsp. by apply (sy_replicas _ _ _ Hst). }
    cbn zeta. fold (machines (w_cp w)).
    assert (machines (w_cp w) ≠ 0)%Z as Hnz.
    { unfold machines. intros Hm. apply Hne, map_size_empty_inv. lia. }
    rewrite decide_False by lia. case_decide as Hup; [|case_decide as Hdown].
    + destruct (scaleUp_so_far w w1) as [? Hr]; [done|done|]. split; [done|].
      destruct (scaleUpControlPlane w1).1; [|done..]. apply progress_up; [done|lia|done].
    + destruct (scaleDown_so_far w w1 ∅) as [? Hr]; [done..|]. split; [done|].
      destruct (scaleDownControlPlane _ w1).1; [|done..]. destruct Hr as (m & Hm & Hl).
      eapply progress_down; [done|lia| |exact Hl]. by eapply removed_any.
    + apply inert_end; [done|]. intros _ _. apply progress_done; [done| |by apply Hs].
      assert (0 ≤ machines (w_cp w))%Z by (unfold machines; lia). lia.
Qed.
End step.

(** ** Step after step *)

Section name_sets.
Implicit Types (o l : gset string) (n : string).
Lemma inter_insert o l n : o ⊆ l → o ∩ ({[n]} ∪ l) = o.
Proof. set_solver. Qed.
Lemma inter_remove o l n : o ⊆ l → o ∩ (l ∖ {[n]}) = o ∖ {[n]}.
Proof. set_solver. Qed.
Lemma remove_absent o n : n ∉ o → o ∖ {[n]} = o.
Proof. set_solver. Qed.
Lemma size_insert l n : n ∉ l → Z.of_nat (size ({[n]} ∪ l)) = (Z.of_nat (size l) + 1)%Z.
Proof.
  intros Hn. assert (({[n]} : gset string) ## l) as Hd by set_solver.
  pose proof (size_union ({[n]} : gset string) l Hd) as E. pose proof (size_singleton (C := gset string) n). lia.
Qed.
Lemma size_remove l n : n ∈ l → Z.of_nat (size (l ∖ {[n]})) = (Z.of_nat (size l) - 1)%Z.
Proof.
  intros Hn. assert ({[n]} ∪ l ∖ {[n]} = l) as E.
  { apply set_eq. intros x. destruct (decide (x = n)) as [->|]; set_solver. }
  assert (n ∉ l ∖ {[n]}) as Hni by set_solver. pose proof (size_insert _ _ Hni) as Hs. rewrite E in Hs. lia.
Qed.
End name_sets.

Section rounds.
Context `{CapiConsts, CollLib, CondLib, SetsLib, MetaLib, ServerJson, RemediationJson, WorkloadLib,
          InPlaceLib, ReconcilerLib, GoSort, GoRange, Clock, EV : Env} (initial : gset string) (R S : Z).
Abbreviation live := (live initial).

(** The machines have settled, and the controller knows the machines there are. *)
Definition settled (w : World) : Prop :=
  steady R S (w_cp w) ∧ dom (cp_Machines (w_cp w)) = live w ∧ cp_Machines (w_cp w) ≠ ∅.

(** One step and the time until the next: the names of new machines are not in use, and
    until the next step nobody else creates or deletes a machine or makes one outdated.
    [b] is whether the step ended without an error. *)
Inductive round (w : World) : bool → World → Prop :=
| round_step o w' w1 :
    rolloutOrScale (size (cp_Machines (w_cp w))) w = (o, w') →
    (∀ m, applied w w' m → m_Name m ∉ live w) →
    steady R S (w_cp w1) → dom (cp_Machines (w_cp w1)) = live w1 → live w1 = live w' →
    outdated (w_cp w1) = outdated (w_cp w) ∩ live w1 →
    round w (is_ok o) w1.

(** Rounds, with the number of those whose step ended without an error. *)
Inductive rounds : World → nat → World → Prop :=
| rounds_none w : rounds w 0 w
| rounds_more w b w1 k w2 : round w b w1 → rounds w1 k w2 → rounds w (if b then Datatypes.S k else k) w2.

(** How far the machines are from the spec. *)
Definition distance (c : ControlPlane) : Z :=
  let o := Z.of_nat (size (outdated c)) in
  if decide (o = 0)%Z then Z.abs (machines c - R) else (2 * o + Z.abs (R + S - machines c) + S + 1)%Z.

Lemma distance_done c : (distance c ≤ 0)%Z → (0 ≤ S)%Z → outdated c = ∅ ∧ machines c = R.
Proof.
  unfold distance. intros Hd HS. case_decide as Ho; [|lia]. split; [|lia].
  apply leibniz_equiv, size_empty_inv. lia.
Qed.

Lemma machines_dom c : machines c = Z.of_nat (size (dom (cp_Machines c))).
Proof. unfold machines. by rewrite size_dom. Qed.

Lemma outdated_live w : settled w → outdated (w_cp w) ⊆ live w.
Proof.
  intros (Hst & Hd & _) n Hn. unfold outdated in Hn. apply elem_of_dom in Hn as [m Hm].
  rewrite <-Hd. apply elem_of_dom. by apply (sy_outdated _ _ _ Hst n m Hm).
Qed.

(** The numbers of machines and of outdated machines after a round. *)
Definition counted (w w1 : World) (dn do : Z) : Prop :=
  machines (w_cp w1) = (machines (w_cp w) + dn)%Z ∧
  Z.of_nat (size (outdated (w_cp w1))) = (Z.of_nat (size (outdated (w_cp w))) + do)%Z.

Lemma counted_same w w' w1 :
  settled w → dom (cp_Machines (w_cp w1)) = live w1 → live w1 = live w' →
  outdated (w_cp w1) = outdated (w_cp w) ∩ live w1 → live w' = live w → counted w w1 0 0.
Proof.
  intros Hs Hd Hl Ho Hw. pose proof (outdated_live w Hs) as Hsub. destruct Hs as (_ & Hd0 & _). unfold counted.
  rewrite !machines_dom, Hd, Hd0, Hl, Hw, Ho, Hl, Hw. split; [lia|].
  rewrite (subseteq_intersection_1_L _ _ Hsub). lia.
Qed.
Lemma counted_create w w' w1 :
  settled w → dom (cp_Machines (w_cp w1)) = live w1 → live w1 = live w' →
  outdated (w_cp w1) = outdated (w_cp w) ∩ live w1 →
  (∀ m, applied w w' m → m_Name m ∉ live w) → creates initial w w' → counted w w1 1 0.
Proof.
  intros Hs Hd Hl Ho Hf (m & Ha & Hw). pose proof (outdated_live w Hs) as Hsub. destruct Hs as (_ & Hd0 & _).
  specialize (Hf m Ha). unfold counted.
  assert (live w' = {[m_Name m]} ∪ live w) as Hw' by exact Hw.
  rewrite !machines_dom, Hd, Hd0, Hl, Hw', Ho, Hl, Hw', inter_insert, size_insert by done. lia.
Qed.
Lemma counted_delete w w' w1 n :
  settled w → dom (cp_Machines (w_cp w1)) = live w1 → live w1 = live w' →
  outdated (w_cp w1) = outdated (w_cp w) ∩ live w1 →
  n ∈ live w → live w' = live w ∖ {[n]} → counted w w1 (-1) (if decide (n ∈ outdated (w_cp w)) then -1 else 0).
Proof.
  intros Hs Hd Hl Ho Hn Hw. pose proof (outdated_live w Hs) as Hsub. destruct Hs as (_ & Hd0 & _). unfold counted.
  rewrite !machines_dom, Hd, Hd0, Hl, Hw, Ho, Hl, Hw, inter_remove, size_remove by done. split; [lia|].
  case_decide as Hin; [by rewrite size_remove|]. rewrite remove_absent by done. lia.
Qed.

(** The numbers of machines a rollout keeps within. *)
Definition within (c c1 : ControlPlane) : Prop :=
  (Z.min (machines c) (R + Z.min S 1 - 1) ≤ machines c1 ≤ Z.max (machines c) (R + S))%Z.

Lemma size_zero (l : gset string) : Z.of_nat (size l) = 0%Z ↔ l = ∅.
Proof.
  split; [|intros ->; by rewrite size_empty]. intros Hz. apply leibniz_equiv, size_empty_inv. lia.
Qed.

Lemma round_closer w b w1 :
  feature_InPlaceUpdates = false → workable R S → settled w → round w b w1 →
  settled w1 ∧ within (w_cp w) (w_cp w1) ∧
  (distance (w_cp w1) ≤ if b then Z.max 0 (distance (w_cp w) - 1) else distance (w_cp w))%Z.
Proof.
  intros Hf Hw Hs [o w' w1' Hrun Hfresh Hst1 Hd1 Hl1 Ho1]. pose proof Hw as (HR & HS & HRS).
  pose proof Hs as (Hst & Hd & Hne).
  destruct (rolloutOrScale_progress initial R S w Hf Hw Hst Hne) as [_ Hr]. rewrite Hrun in Hr. cbn [fst snd] in Hr.
  assert (1 ≤ machines (w_cp w))%Z as Hpos.
  { unfold machines. assert (size (cp_Machines (w_cp w)) ≠ 0); [|lia]. intros Hz. by apply Hne, map_size_empty_inv. }
  assert (∃ dn do, counted w w1' dn do ∧ (1 ≤ machines (w_cp w) + dn)%Z ∧
    (Z.min (machines (w_cp w)) (R + Z.min S 1 - 1) ≤ machines (w_cp w) + dn ≤ Z.max (machines (w_cp w)) (R + S))%Z ∧
    (distance (w_cp w1') ≤ if is_ok o then Z.max 0 (distance (w_cp w) - 1) else distance (w_cp w))%Z)
    as (dn & do & (Hn & _) & Hp & Hb & Hdist).
  { pose proof (size_zero (outdated (w_cp w))) as Hz.
    assert (live w' = live w → counted w w1' 0 0) as Hsame by (intros; by eapply counted_same).
    assert (creates initial w w' → counted w w1' 1 0) as Hcreate by (intros; by eapply counted_create).
    destruct o as [r|e|p]; cbn [is_ok].
    - destruct Hr as [Ho Hm Hl|Ho Hm Hc|n Ho Hm Hl|Ho Hm Hc|n Ho Hm [m Hn] Hl].
      + exists 0%Z, 0%Z. specialize (Hsame Hl). split; [done|]. destruct Hsame as [En Eo]. unfold distance.
        rewrite En, Eo. apply Hz in Ho. repeat case_decide; lia.
      + exists 1%Z, 0%Z. specialize (Hcreate Hc). split; [done|]. destruct Hcreate as [En Eo]. unfold distance.
        rewrite En, Eo. rewrite <-Hz in Ho. repeat case_decide; lia.
      + exists (-1)%Z, (-1)%Z. assert (counted w w1' (-1) (-1)) as Hc.
        { replace (-1)%Z with (if decide (n ∈ outdated (w_cp w)) then -1 else 0)%Z at 2 by (by rewrite decide_True).
          eapply counted_delete; [done..| |done]. by apply outdated_live. }
        split; [done|]. destruct Hc as [En Eo]. unfold distance. rewrite En, Eo.
        assert (outdated (w_cp w) ≠ ∅) as Hno by (intros E; rewrite E in Ho; by apply not_elem_of_empty in Ho).
        rewrite <-Hz in Hno. repeat case_decide; lia.
      + exists 1%Z, 0%Z. specialize (Hcreate Hc). split; [done|]. destruct Hcreate as [En Eo]. unfold distance.
        rewrite En, Eo. apply Hz in Ho. repeat case_decide; lia.
      + exists (-1)%Z, 0%Z. assert (counted w w1' (-1) 0) as Hc.
        { replace 0%Z with (if decide (n ∈ outdated (w_cp w)) then -1 else 0)%Z
            by (rewrite Ho; rewrite decide_False; [done|apply not_elem_of_empty]).
          eapply counted_delete; [done..| |done]. rewrite <-Hd. apply elem_of_dom. eauto. }
        split; [done|]. destruct Hc as [En Eo]. unfold distance. rewrite En, Eo. apply Hz in Ho. repeat case_decide; lia.
    - exists 0%Z, 0%Z. specialize (Hsame Hr). split; [done|]. destruct Hsame as [En Eo]. unfold distance.
      rewrite En, Eo. repeat case_decide; lia.
    - exists 0%Z, 0%Z. specialize (Hsame Hr). split; [done|]. destruct Hsame as [En Eo]. unfold distance.
      rewrite En, Eo. repeat case_decide; lia. }
  split; [split; [done|]; split; [done|]|].
  - intros He. unfold machines at 1 in Hn. rewrite He, map_size_empty in Hn. lia.
  - split; [|done]. unfold within. by rewrite Hn.
Qed.

(** C16: a rollout ends.  Start with machines that have settled, and let the step be run
    again and again, each time when they have settled again.  After [distance] steps
    that ended without an error, there are as many machines as replicas and none is
    outdated, and this stays so; steps that fail in between do no harm.  All the way
    there are at most as many machines as replicas plus surge, unless there were more
    already, and never fewer than replicas (with surge 0, replicas less one), unless
    there were fewer already. *)
Theorem rollout_converges w k w' :
  feature_InPlaceUpdates = false → workable R S → settled w → rounds w k w' →
  within (w_cp w) (w_cp w') ∧
  ((distance (w_cp w) ≤ Z.of_nat k)%Z → outdated (w_cp w') = ∅ ∧ machines (w_cp w') = R).
Proof.
  intros Hf Hw Hs Hr. pose proof Hw as (_ & HS & _).
  assert (within (w_cp w) (w_cp w') ∧ (distance (w_cp w') ≤ Z.max 0 (distance (w_cp w) - Z.of_nat k))%Z) as [Hb Hd].
  { clear HS. induction Hr as [w|w b w1 k w2 Hround _ IH]; [split; [unfold within; lia|lia]|].
    destruct (round_closer w b w1 Hf Hw Hs Hround) as (Hs1 & Hb1 & Hd1). destruct (IH Hs1) as [Hb2 Hd2].
    split; [unfold within in *; lia|]. destruct b; lia. }
  split; [done|]. intros Hk. apply distance_done; lia.
Qed.
End rounds.

(** ** A concrete rollout

    One replica, with an outdated machine: a second machine is created, the outdated one
    is deleted, and then nothing more happens. *)

(** The names of the machines applied between two states. *)
Definition applied_names (w w' : World) : list string :=
  omap (λ c, match c with CApplyMachine m => Some (m_Name m) | _ => None end)
    (take (length (w_calls w') - length (w_calls w)) (w_calls w')).
Lemma applied_in w w' m : applied w w' m → m_Name m ∈ applied_names w w'.
Proof.
  intros (l & Hl & Hm). unfold applied_names. rewrite Hl, length_app.
  replace (length l + length (w_calls w) - length (w_calls w))%nat with (length l) by lia.
  rewrite take_app_length. apply list_elem_of_omap. by exists (CApplyMachine m).
Qed.

Definition demo_settled (name : string) (created : Time) : Machine :=
  m_with_conditions
    [mkCond RKE2ControlPlaneMachineAgentHealthyCondition ConditionTrue "" "";
     mkCond RKE2ControlPlaneMachineEtcdMemberHealthyCondition ConditionTrue "" ""] (demo_machine_at name name created).
Definition rolling_machines (l : list (string * Time)) : Machines :=
  list_to_map (map (λ '(name, created), (name, demo_settled name created)) l).
Definition rolling_cp (old new : list (string * Time)) : ControlPlane :=
  Build_ControlPlane (demo_rcp 1 true) demo_cluster (rolling_machines (old ++ new)) (rolling_machines (old ++ new))
    (rolling_machines old) (list_to_map (map (λ '(name, _), (name, ur_new false None None)) old))
    false no_preflight ∅ ∅ None "" "".

Lemma rolling_lookup l n m : rolling_machines l !! n = Some m → ∃ t, (n, t) ∈ l ∧ m = demo_settled n t.
Proof.
  intros Hm. apply elem_of_list_to_map_2, list_elem_of_fmap in Hm as ([name t] & [= -> ->] & Hin). eauto.
Qed.

Lemma rolling_steady old new : steady 1 1 (rolling_cp old new).
Proof.
  split.
  - reflexivity.
  - eexists. split; [reflexivity|]. split; reflexivity.
  - reflexivity.
  - split; intros n m Hm; apply rolling_lookup in Hm as (t & _ & ->); [reflexivity|]. right. split; reflexivity.
  - intros n m Hm. by apply rolling_lookup in Hm as (t & _ & ->).
  - intros n m Hm. cbn [MachinesNeedingRollout fst rolling_cp cp_machinesNotUptoDate] in Hm.
    apply Filter_spec in Hm as [Hm _]. apply rolling_lookup in Hm as (t & Hin & ->). split; [done|].
    cbn [cp_Machines rolling_cp]. unfold rolling_machines. rewrite map_app.
    apply elem_of_dom. rewrite dom_list_to_map, elem_of_list_to_set. apply list_elem_of_fmap.
    exists (n, demo_settled n t). split; [done|]. apply elem_of_app. left. apply list_elem_of_fmap. by exists (n, t).
  - intros n m Hm [x Hx]. apply rolling_lookup in Hm as (t & _ & ->). discriminate.
Qed.

Definition rolling_step (old new : list (string * Time)) (before : World) : World * (outcome Result * World) :=
  let w := Build_World (rolling_cp old new) (w_calls before) (w_names before) in
  (w, rolloutOrScale (EV := demo_env) (size (cp_Machines (w_cp w))) w).
Definition rolling_initial : gset string := {["m1"]}.
Definition rolling0 := rolling_step [("m1", 1%Z)] [] (Build_World (rolling_cp [] []) [] 0).
Definition rolling1 := rolling_step [("m1", 1%Z)] [("cp-1", 2%Z)] rolling0.2.2.
Definition rolling2 := rolling_step [] [("cp-1", 2%Z)] rolling1.2.2.
Definition rolling3 := rolling_step [] [("cp-1", 2%Z)] rolling2.2.2.
Definition rolling4 := rolling_step [] [("cp-1", 2%Z)] rolling3.2.2.
Definition rolling5 := rolling_step [] [("cp-1", 2%Z)] rolling4.2.2.

(** What [round] asks for, decided. *)
Definition rolling_ok (s s1 : World * (outcome Result * World)) : bool :=
  forallb (λ n, bool_decide (n ∉ live (EV := demo_env) rolling_initial s.1)) (applied_names s.1 s.2.2) &&
  bool_decide (dom (cp_Machines (w_cp s1.1)) = live (EV := demo_env) rolling_initial s1.1) &&
  bool_decide (live (EV := demo_env) rolling_initial s1.1 = live (EV := demo_env) rolling_initial s.2.2) &&
  bool_decide (outdated (w_cp s1.1) = outdated (w_cp s.1) ∩ live (EV := demo_env) rolling_initial s1.1).

Lemma rolling_round (s s1 : World * (outcome Result * World)) old new :
  s.2 = rolloutOrScale (EV := demo_env) (size (cp_Machines (w_cp s.1))) s.1 →
  w_cp s1.1 = rolling_cp old new →
  rolling_ok s s1 = true →
  round (EV := demo_env) rolling_initial 1 1 s.1 (is_ok s.2.1) s1.1.
Proof.
  intros Hrun Hcp Hb. apply andb_prop in Hb as [Hb H4]. apply andb_prop in Hb as [Hb H3].
  apply andb_prop in Hb as [H1 H2]. apply bool_decide_eq_true in H2, H3, H4.
  apply (round_step (EV := demo_env) _ _ _ s.1 s.2.1 s.2.2); [rewrite <-Hrun; by destruct s.2|..|done|done|done].
  - intros m Hm. apply applied_in in Hm. rewrite forallb_forall in H1. apply list_elem_of_In in Hm.
    specialize (H1 _ Hm). by apply bool_decide_eq_true in H1.
  - rewrite Hcp. apply rolling_steady.
Qed.

Lemma rolling_rounds : rounds (EV := demo_env) rolling_initial 1 1 rolling0.1 5 rolling5.1.
Proof.
  assert (∀ (s s1 : World * (outcome Result * World)) old new k w, s.2 = rolloutOrScale (EV := demo_env) (size (cp_Machines (w_cp s.1))) s.1 →
    w_cp s1.1 = rolling_cp old new → is_ok s.2.1 = true → rolling_ok s s1 = true →
    rounds (EV := demo_env) rolling_initial 1 1 s1.1 k w →
    rounds (EV := demo_env) rolling_initial 1 1 s.1 (Datatypes.S k) w) as Hmore.
  { intros s s1 old new k w Hrun Hcp Hok Hb Hr.
    pose proof (rounds_more (EV := demo_env) _ _ _ _ _ _ _ _ (rolling_round s s1 old new Hrun Hcp Hb) Hr) as Hx.
    by rewrite Hok in Hx. }
  apply (Hmore rolling0 rolling1 [("m1", 1%Z)] [("cp-1", 2%Z)]); [reflexivity|reflexivity|by vm_compute|by vm_compute|].
  apply (Hmore rolling1 rolling2 [] [("cp-1", 2%Z)]); [reflexivity|reflexivity|by vm_compute|by vm_compute|].
  apply (Hmore rolling2 rolling3 [] [("cp-1", 2%Z)]); [reflexivity|reflexivity|by vm_compute|by vm_compute|].
  apply (Hmore rolling3 rolling4 [] [("cp-1", 2%Z)]); [reflexivity|reflexivity|by vm_compute|by vm_compute|].
  apply (Hmore rolling4 rolling5 [] [("cp-1", 2%Z)]); [reflexivity|reflexivity|by vm_compute|by vm_compute|].
  apply rounds_none.
Qed.

Lemma rolling_outdated : outdated (w_cp rolling0.1) = {["m1"]}.
Proof. apply (bool_decide_eq_true_1 (outdated (w_cp rolling0.1) = {["m1"]})). by vm_compute. Qed.
Lemma rolling_settled : settled (EV := demo_env) rolling_initial 1 1 rolling0.1.
Proof.
  split; [apply (rolling_steady [("m1", 1%Z)] [])|]. split.
  - apply (bool_decide_eq_true_1 (dom (cp_Machines (w_cp rolling0.1)) = live (EV := demo_env) rolling_initial rolling0.1)).
    by vm_compute.
  - apply (bool_decide_eq_true_1 (cp_Machines (w_cp rolling0.1) ≠ ∅)). by vm_compute.
Qed.

Lemma rollout_converges_witness :
  outdated (w_cp rolling0.1) = {["m1"]} ∧ outdated (w_cp rolling5.1) = ∅ ∧ machines (w_cp rolling5.1) = 1%Z.
Proof.
  assert (workable 1 1) as Hw by (unfold workable, MaxInt32; lia).
  assert (distance 1 1 (w_cp rolling0.1) ≤ Z.of_nat 5)%Z as Hd by (vm_compute; discriminate).
  split; [apply rolling_outdated|].
  exact (proj2 (rollout_converges (EV := demo_env) rolling_initial 1 1 rolling0.1 5 rolling5.1
    eq_refl Hw rolling_settled rolling_rounds) Hd).
Defined.
