(* ===== verification/V1Webhooks.v ===== *)
(** * Admission of v1beta1 objects

    controlplane/api/v1beta1/rke2controlplane_webhook.go and
    rke2controlplanetemplate_webhook.go, bootstrap/api/v1beta1/rke2config_webhook.go
    and rke2configtemplate_webhook.go: the defaulting and validation of the older API
    version.  The programs register the webhooks of v1beta2 only, so that an object
    written as v1beta1 is converted first and then defaulted and validated as v1beta2.
    [v1_defaulting_commutes] and [v1_validation_agrees] say when that is the same;
    [deprecated_fields_ignored] is where it is not.

    The bodies of CorrectArbitraryData are the same text in both packages; [corrected],
    [correct_values] and [drop_ignored] of [Webhooks] stand for the parts of both. *)

From stdpp Require Import base tactics option list gmap strings numbers.
From S2P Require Import Prelude Go Api Objects V1beta1 Casts Conversion Libs World Demo Scale Reconciler Controller Webhooks.
Open Scope string_scope.
Open Scope list_scope.
Open Scope stdpp_scope.

#[global] Instance v1_TLSConfig_eq_dec : EqDecision V1beta1.TLSConfig.
Proof. solve_decision. Defined.

Section webhooks.
Context `{WebhookLib, GoRange}.

(** ** The bootstrap configuration *)

Definition v1_CorrectArbitraryData (site : nat) (data : gmap string string) :
    gmap string string * option error :=
  let data := drop_ignored data in correct_values (go_range site data) data.

Definition v1_ac_with_data (format : string) (data : strmap) (a : V1beta1.RKE2AgentConfig) : V1beta1.RKE2AgentConfig :=
  let '(V1beta1.Build_RKE2AgentConfig f1 f2 f3 f4 f5 f6 f7 f8 f9 f10 f11 f12 f13 f14 f15 f16 f17 f18 f19 f20
          f21 f22 f23 _ (V1beta1.Build_AdditionalUserData config _ strict)) := a in
  V1beta1.Build_RKE2AgentConfig f1 f2 f3 f4 f5 f6 f7 f8 f9 f10 f11 f12 f13 f14 f15 f16 f17 f18 f19 f20
    f21 f22 f23 format (V1beta1.Build_AdditionalUserData config data strict).
Definition v1_cs_with_agent (a : V1beta1.RKE2AgentConfig) (s : V1beta1.RKE2ConfigSpec) : V1beta1.RKE2ConfigSpec :=
  V1beta1.Build_RKE2ConfigSpec (V1beta1.cs_Files s) (V1beta1.cs_PreRKE2Commands s) (V1beta1.cs_PostRKE2Commands s) a
    (V1beta1.cs_PrivateRegistriesConfig s) (V1beta1.cs_GzipUserData s).
Definition v1_Data (s : V1beta1.RKE2ConfigSpec) : strmap :=
  V1beta1.aud_Data (V1beta1.ac_AdditionalUserData (V1beta1.cs_AgentConfig s)).

Definition v1_DefaultRKE2ConfigSpec (spec : V1beta1.RKE2ConfigSpec) : V1beta1.RKE2ConfigSpec :=
  let a := V1beta1.cs_AgentConfig spec in
  let format := if decide (V1beta1.ac_Format a = "") then CloudConfig else V1beta1.ac_Format a in
  let data := (λ d, (v1_CorrectArbitraryData 60 d).1) <$> v1_Data spec in
  v1_cs_with_agent (v1_ac_with_data format data a) spec.

Definition v1_RKE2Config_Default (rc : V1beta1.RKE2Config) : outcome V1beta1.RKE2Config :=
  Ok (V1beta1.Build_RKE2Config (V1beta1.cfg_APIVersion rc) (V1beta1.cfg_Kind rc) (V1beta1.cfg_ObjectMeta rc)
        (v1_DefaultRKE2ConfigSpec (V1beta1.cfg_Spec rc)) (V1beta1.cfg_Status rc)).

Definition v1_gzipped (f : V1beta1.File) : bool :=
  bool_decide (V1beta1.f_Encoding f = Gzip) || bool_decide (V1beta1.f_Encoding f = GzipBase64).

Definition v1_validateIgnition (s : V1beta1.RKE2ConfigSpec) (pathPrefix : string) : list FieldError :=
  let ac := V1beta1.cs_AgentConfig s in
  if decide (V1beta1.ac_Format ac = Ignition) then
    let '(entries, fatal, text) := ToIgn3_3Bytes (V1beta1.aud_Config (V1beta1.ac_AdditionalUserData ac)) in
    (if ((0 <? entries)%nat && V1beta1.aud_Strict (V1beta1.ac_AdditionalUserData ac)) || fatal
     then [field_Invalid (pathPrefix +:+ ".agentConfig.AdditionalUserData.Config")
             ("error parsing Butane config: " +:+ text)] else []) ++
    concat (imap (λ i f, if v1_gzipped f then [field_Forbidden
                     (path_Index (pathPrefix +:+ ".files") i +:+ ".encoding") cannotUseWithIgnition]
                   else []) (elems (V1beta1.cs_Files s)))
  else [].

Definition v1_bare_registry (r : V1beta1.RegistryConfig) : bool :=
  bool_decide (V1beta1.rc_AuthSecret r = no_ref) && bool_decide (V1beta1.rc_TLS r = V1beta1.Build_TLSConfig no_ref false).

Definition v1_validateRegistries (s : V1beta1.RKE2ConfigSpec) (pathPrefix : string) : list FieldError :=
  concat (map (λ '(regName, regConfig),
    if v1_bare_registry regConfig
    then [field_Invalid (pathPrefix +:+ ".privateRegistriesConfig.configs." +:+ regName)
            ("need either credentials, tls settings or both for registry: " +:+ regName)]
    else []) (go_range 61 (default ∅ (V1beta1.reg_Configs (V1beta1.cs_PrivateRegistriesConfig s))))).

Definition v1_validate (s : V1beta1.RKE2ConfigSpec) (pathPrefix : string) : list FieldError :=
  v1_validateIgnition s pathPrefix ++ v1_validateRegistries s pathPrefix.
Definition v1_ValidateRKE2ConfigSpec (spec : V1beta1.RKE2ConfigSpec) : list FieldError := v1_validate spec "spec".

Definition v1_RKE2Config_ValidateCreate (rc : V1beta1.RKE2Config) : outcome unit :=
  validated (om_Name (V1beta1.cfg_ObjectMeta rc)) (v1_ValidateRKE2ConfigSpec (V1beta1.cfg_Spec rc)).
Definition v1_RKE2Config_ValidateUpdate (old new : V1beta1.RKE2Config) : outcome unit :=
  validated (om_Name (V1beta1.cfg_ObjectMeta new)) (v1_ValidateRKE2ConfigSpec (V1beta1.cfg_Spec new)).

(** A template of configurations is defaulted and never refused. *)
Definition v1_RKE2ConfigTemplate_Default (rct : V1beta1.RKE2ConfigTemplate) : outcome V1beta1.RKE2ConfigTemplate :=
  let t := V1beta1.cts_Template (V1beta1.ct_Spec rct) in
  Ok (V1beta1.Build_RKE2ConfigTemplate (V1beta1.ct_ObjectMeta rct)
        (V1beta1.Build_RKE2ConfigTemplateSpec
           (V1beta1.Build_RKE2ConfigTemplateResource (v1_DefaultRKE2ConfigSpec (V1beta1.ctr_Spec t))))).
Definition v1_RKE2ConfigTemplate_ValidateCreate (rct : V1beta1.RKE2ConfigTemplate) : outcome unit := Ok tt.
Definition v1_RKE2ConfigTemplate_ValidateUpdate (old new : V1beta1.RKE2ConfigTemplate) : outcome unit := Ok tt.

(** ** The control plane *)

Definition v1_defaultNodeDeletionTimeout : Duration := (10 * Second)%Z.
Definition v1_defaultNodeDrainTimeout : Duration := (120 * Second)%Z.
Definition v1_defaultNodeVolumeDetachTimeout : Duration := (300 * Second)%Z.

(** The machine template's reference falls back to that of the spec, its namespace to
    that of the object; both are corev1 references. *)
Definition v1_default_infra (r : V1beta1.RKE2ControlPlane) : V1beta1.InfraReference :=
  let s := V1beta1.rcp_Spec r in
  let ref := V1beta1.mtpl_InfrastructureRef (V1beta1.sp_MachineTemplate s) in
  let ref := if decide (V1beta1.ir_Name ref = "") then V1beta1.sp_InfrastructureRef s else ref in
  if decide (V1beta1.ir_Namespace ref = "")
  then V1beta1.Build_InfraReference (V1beta1.ir_APIVersion ref) (V1beta1.ir_Kind ref)
         (om_Namespace (V1beta1.rcp_ObjectMeta r)) (V1beta1.ir_Name ref)
  else ref.

Definition v1_default_drain (s : V1beta1.RKE2ControlPlaneSpec) : option Duration :=
  let t := match V1beta1.mtpl_NodeDrainTimeout (V1beta1.sp_MachineTemplate s) with
           | None => V1beta1.sp_NodeDrainTimeout s | t => t end in
  or_default v1_defaultNodeDrainTimeout t.

Definition v1_default_template (r : V1beta1.RKE2ControlPlane) : V1beta1.RKE2ControlPlaneMachineTemplate :=
  let s := V1beta1.rcp_Spec r in
  let t := V1beta1.sp_MachineTemplate s in
  V1beta1.Build_RKE2ControlPlaneMachineTemplate (V1beta1.mtpl_Labels t) (V1beta1.mtpl_Annotations t)
    (v1_default_infra r) (v1_default_drain s)
    (or_default v1_defaultNodeVolumeDetachTimeout (V1beta1.mtpl_NodeVolumeDetachTimeout t))
    (or_default v1_defaultNodeDeletionTimeout (V1beta1.mtpl_NodeDeletionTimeout t)).

(** The data is corrected a second time, and here an error is returned. *)
Definition v1_correct_again (site : nat) (s : V1beta1.RKE2ConfigSpec) : error + V1beta1.RKE2ConfigSpec :=
  match v1_Data s with
  | None => inr s
  | Some d =>
      match v1_CorrectArbitraryData site d with
      | (d', None) =>
          let a := V1beta1.cs_AgentConfig s in
          inr (v1_cs_with_agent (v1_ac_with_data (V1beta1.ac_Format a) (Some d') a) s)
      | (_, Some e) => inl e
      end
  end.

Definition v1_RKE2ControlPlane_Default (rcp : V1beta1.RKE2ControlPlane) : outcome V1beta1.RKE2ControlPlane :=
  let s := V1beta1.rcp_Spec rcp in
  match v1_correct_again 62 (v1_DefaultRKE2ConfigSpec (V1beta1.sp_RKE2ConfigSpec s)) with
  | inl e => Err (EWrap "failed to correct additional user data for RKE2ControlPlane" e)
  | inr config =>
      Ok (V1beta1.Build_RKE2ControlPlane (V1beta1.rcp_ObjectMeta rcp)
        (V1beta1.Build_RKE2ControlPlaneSpec config (or_default 1%Z (V1beta1.sp_Replicas s)) (V1beta1.sp_Version s)
           (v1_default_template rcp) (V1beta1.sp_ServerConfig s) (V1beta1.sp_ManifestsConfigMapReference s)
           (V1beta1.sp_InfrastructureRef s) (V1beta1.sp_NodeDrainTimeout s) (V1beta1.sp_RegistrationMethod s)
           (V1beta1.sp_RegistrationAddress s) (V1beta1.sp_RolloutStrategy s) (V1beta1.sp_RemediationStrategy s))
        (V1beta1.rcp_Status rcp))
  end.

Definition v1_validateCNI (s : V1beta1.RKE2ControlPlaneSpec) : list FieldError :=
  let sc := V1beta1.sp_ServerConfig s in
  if V1beta1.sc_CNIMultusEnable sc && bool_decide (V1beta1.sc_CNI sc = "")
  then [field_Invalid "spec.serverConfig.cni" "must be specified when cniMultusEnable is true"] else [].

Definition v1_validateRegistrationMethod (s : V1beta1.RKE2ControlPlaneSpec) : list FieldError :=
  if decide (V1beta1.sp_RegistrationMethod s = RegistrationMethodAddress) then
    if decide (V1beta1.sp_RegistrationAddress s = "")
    then [field_Invalid "spec.registrationAddress"
            "registrationAddress must be supplied when using registration method 'address'"] else []
  else [].

Definition v1_validateMachineTemplate (s : V1beta1.RKE2ControlPlaneSpec) : list FieldError :=
  let t := V1beta1.sp_MachineTemplate s in
  (if bool_decide (V1beta1.ir_Name (V1beta1.mtpl_InfrastructureRef t) = "") &&
      bool_decide (V1beta1.ir_Name (V1beta1.sp_InfrastructureRef s) = "")
   then [field_Invalid "spec.machineTemplate.infrastructureRef" "machineTemplate is required"] else []) ++
  validate_timeout "spec.machineTemplate.NodeDrainTimeout" (V1beta1.mtpl_NodeDrainTimeout t) ++
  validate_timeout "spec.machineTemplate.nodeVolumeDetachTimeout" (V1beta1.mtpl_NodeVolumeDetachTimeout t) ++
  validate_timeout "spec.machineTemplate.nodeDeletionTimeout" (V1beta1.mtpl_NodeDeletionTimeout t).

Definition v1_validateSpec (s : V1beta1.RKE2ControlPlaneSpec) : list FieldError :=
  match V1beta1.sp_Replicas s with
  | None => [field_Required "spec.replicas" "is required"]
  | Some n => if decide (n <= 0)%Z
              then [field_Forbidden "spec.replicas" "cannot be less than or equal to 0"] else []
  end.

Definition v1_RKE2ControlPlane_ValidateCreate (rcp : V1beta1.RKE2ControlPlane) : outcome unit :=
  let s := V1beta1.rcp_Spec rcp in
  validated (om_Name (V1beta1.rcp_ObjectMeta rcp))
    (v1_ValidateRKE2ConfigSpec (V1beta1.sp_RKE2ConfigSpec s) ++ v1_validateCNI s ++
     v1_validateRegistrationMethod s ++ v1_validateMachineTemplate s ++ v1_validateSpec s).

Definition v1_RKE2ControlPlane_ValidateUpdate (old new : V1beta1.RKE2ControlPlane) : outcome unit :=
  let s := V1beta1.rcp_Spec new in
  validated (om_Name (V1beta1.rcp_ObjectMeta new))
    (v1_ValidateRKE2ConfigSpec (V1beta1.sp_RKE2ConfigSpec s) ++ v1_validateCNI s ++
     v1_validateMachineTemplate s ++ v1_validateSpec s ++
     registration_immutable (V1beta1.sp_RegistrationMethod (V1beta1.rcp_Spec old)) (V1beta1.sp_RegistrationMethod s)).
Definition v1_RKE2ControlPlane_ValidateDelete (rcp : V1beta1.RKE2ControlPlane) : outcome unit := Ok tt.

(** ** Templates of control planes *)

Definition v1_template_spec (t : V1beta1.RKE2ControlPlaneTemplate) : V1beta1.RKE2ControlPlaneSpec :=
  V1beta1.tr_Spec (V1beta1.tsp_Template (V1beta1.tpl_Spec t)).
Definition v1_tpl_with_config (c : V1beta1.RKE2ConfigSpec) (t : V1beta1.RKE2ControlPlaneTemplate) :
    V1beta1.RKE2ControlPlaneTemplate :=
  let r := V1beta1.tsp_Template (V1beta1.tpl_Spec t) in
  let s := V1beta1.tr_Spec r in
  V1beta1.Build_RKE2ControlPlaneTemplate (V1beta1.tpl_ObjectMeta t) (V1beta1.Build_RKE2ControlPlaneTemplateSpec
    (V1beta1.Build_RKE2ControlPlaneTemplateResource (V1beta1.tr_Labels r) (V1beta1.tr_Annotations r)
      (V1beta1.Build_RKE2ControlPlaneSpec c (V1beta1.sp_Replicas s) (V1beta1.sp_Version s)
        (V1beta1.sp_MachineTemplate s) (V1beta1.sp_ServerConfig s) (V1beta1.sp_ManifestsConfigMapReference s)
        (V1beta1.sp_InfrastructureRef s) (V1beta1.sp_NodeDrainTimeout s) (V1beta1.sp_RegistrationMethod s)
        (V1beta1.sp_RegistrationAddress s) (V1beta1.sp_RolloutStrategy s) (V1beta1.sp_RemediationStrategy s))))
    (V1beta1.tpl_Status t).

Definition v1_RKE2ControlPlaneTemplate_Default (t : V1beta1.RKE2ControlPlaneTemplate) :
    outcome V1beta1.RKE2ControlPlaneTemplate :=
  match v1_correct_again 63 (v1_DefaultRKE2ConfigSpec (V1beta1.sp_RKE2ConfigSpec (v1_template_spec t))) with
  | inl e => Err (EWrap "failed to correct additional user data for RKE2ControlPlaneTemplate" e)
  | inr config => Ok (v1_tpl_with_config config t)
  end.

Definition v1_template_validateCNI (t : V1beta1.RKE2ControlPlaneTemplate) : list FieldError :=
  v1_validateCNI (v1_template_spec t).
Definition v1_template_validateRegistrationMethod (t : V1beta1.RKE2ControlPlaneTemplate) : list FieldError :=
  v1_validateRegistrationMethod (v1_template_spec t).

Definition v1_RKE2ControlPlaneTemplate_ValidateCreate (t : V1beta1.RKE2ControlPlaneTemplate) : outcome unit :=
  let s := v1_template_spec t in
  validated (om_Name (V1beta1.tpl_ObjectMeta t))
    (v1_ValidateRKE2ConfigSpec (V1beta1.sp_RKE2ConfigSpec s) ++ v1_template_validateCNI t ++
     v1_template_validateRegistrationMethod t).

(** The old object may be nil, when it could not be converted. *)
Definition v1_RKE2ControlPlaneTemplate_ValidateUpdate (old : option V1beta1.RKE2ControlPlaneTemplate)
    (new : V1beta1.RKE2ControlPlaneTemplate) : outcome unit :=
  match old with
  | None => validated "" [field_InternalError "<nil>" "failed to convert old RKE2ControlPlane to object"]
  | Some old =>
      let s := v1_template_spec new in
      validated (om_Name (V1beta1.tpl_ObjectMeta new))
        (v1_ValidateRKE2ConfigSpec (V1beta1.sp_RKE2ConfigSpec s) ++ v1_template_validateCNI new ++
         registration_immutable (V1beta1.sp_RegistrationMethod (v1_template_spec old)) (V1beta1.sp_RegistrationMethod s))
  end.
End webhooks.

(** ** What the libraries promise

    A value that was read from YAML can be written; a duration is converted to whole
    seconds, towards zero, and capped above. *)
Class YamlLaws `{WebhookLib} : Prop := {
  encode_map v m : yaml_Unmarshal_map v = Some m → ∃ b, yaml_Encode_map m = inr b;
  encode_list v l : yaml_Unmarshal_list v = Some l → ∃ b, yaml_Encode_list l = inr b
}.
Class SecondsLaws `{ConvLib} : Prop := {
  seconds_none : ConvertToSeconds None = None;
  seconds_of d : is_Some (ConvertToSeconds (Some d));
  seconds_trunc d : (- 2 ^ 31 * Second ≤ d)%Z →
    ConvertToSeconds (Some d) = Some (Z.min MaxInt32 (d `quot` Second))%Z
}.

(** ** Defaulting *)

Section correcting.
Context `{YamlLaws, GoRange}.

Definition corrected_value (v : string) : string :=
  match corrected v with inr (Some v') => v' | _ => v end.

Lemma corrected_inr v : ∃ o, corrected v = inr o.
Proof.
  unfold corrected. destruct (yaml_Unmarshal_map v) as [m|] eqn:Em.
  - destruct (encode_map v m Em) as [b ->]. eauto.
  - destruct (yaml_Unmarshal_list v) as [l|] eqn:El; [|eauto].
    destruct (encode_list v l El) as [b ->]. eauto.
Qed.

Lemma correct_values_run l d :
  NoDup l.*1 → (∀ k v, (k, v) ∈ l → d !! k = Some v) →
  ∃ d', correct_values l d = (d', None) ∧
    ∀ k, d' !! k = if decide (k ∈ l.*1) then corrected_value <$> d !! k else d !! k.
Proof.
  revert d. induction l as [|[k v] l IH]; intros d Hnd Hl.
  { exists d. split; [done|]. intros k. rewrite decide_False; [done|]. cbn. set_solver. }
  apply list.NoDup_cons in Hnd as [Hk Hnd]. pose proof (Hl k v (list_elem_of_here _ _)) as Hkv.
  assert (∀ x y, (x, y) ∈ l → x ≠ k) as Hne.
  { intros x y Hx ->. apply Hk. apply list_elem_of_fmap. by exists (k, y). }
  assert (∀ d', (∀ x, x ≠ k → d' !! x = d !! x) → d' !! k = Some (corrected_value v) →
    ∃ d'', correct_values l d' = (d'', None) ∧
      ∀ x, d'' !! x = if decide (x ∈ k :: l.*1) then corrected_value <$> d !! x else d !! x) as Hgo.
  { intros d' Hd' Hk'. destruct (IH d' Hnd) as (d'' & Hrun & Hd'').
    - intros x y Hx. rewrite Hd' by eauto. apply Hl. by right.
    - exists d''. split; [done|]. intros x. rewrite Hd''. destruct (decide (x = k)) as [->|Hx].
      + rewrite decide_False by done. rewrite decide_True by (by left). by rewrite Hk', Hkv.
      + rewrite Hd' by done. repeat case_decide; set_solver. }
  cbn [correct_values fmap list_fmap fst]. destruct (corrected_inr v) as [o Ho]. rewrite Ho.
  assert (corrected_value v = default v o) as Hv by (unfold corrected_value; rewrite Ho; by destruct o).
  destruct o as [v'|]; apply Hgo; cbn in Hv; rewrite ?Hv.
  - intros x Hx. by rewrite lookup_insert_ne.
  - by rewrite lookup_insert_eq.
  - done.
  - done.
Qed.

(** Correcting does not depend on the order of the map. *)
Definition corrected_data (data : gmap string string) : gmap string string :=
  corrected_value <$> drop_ignored data.
Lemma correct_run site d : CorrectArbitraryData site d = (corrected_data d, None).
Proof.
  unfold CorrectArbitraryData. set (m := drop_ignored d).
  destruct (correct_values_run (go_range site m) m) as (d' & Hrun & Hd').
  - apply NoDup_go_range_fst.
  - intros k v. by rewrite elem_of_go_range.
  - rewrite Hrun. f_equal. apply map_eq. intros k. unfold corrected_data. rewrite Hd', lookup_fmap. fold m.
    case_decide as Hk; [done|]. destruct (m !! k) as [v|] eqn:Hm; [|done]. destruct Hk.
    apply list_elem_of_fmap. exists (k, v). split; [done|]. by apply elem_of_go_range.
Qed.
Lemma v1_correct_run site d : v1_CorrectArbitraryData site d = (corrected_data d, None).
Proof. apply correct_run. Qed.

(** The configuration after both corrections. *)
Definition filled_data (data : strmap) : strmap := (λ d, corrected_data (corrected_data d)) <$> data.
Definition filled_config (twice : bool) (s : RKE2ConfigSpec) : RKE2ConfigSpec :=
  let a := cs_AgentConfig s in
  cs_with_agent (ac_with_data (if decide (ac_Format a = "") then CloudConfig else ac_Format a)
    ((if twice then filled_data else fmap (M := option) corrected_data) (cs_Data s)) a) s.
Definition v1_filled_config (twice : bool) (s : V1beta1.RKE2ConfigSpec) : V1beta1.RKE2ConfigSpec :=
  let a := V1beta1.cs_AgentConfig s in
  v1_cs_with_agent (v1_ac_with_data (if decide (V1beta1.ac_Format a = "") then CloudConfig else V1beta1.ac_Format a)
    ((if twice then filled_data else fmap (M := option) corrected_data) (v1_Data s)) a) s.

Lemma default_run s : DefaultRKE2ConfigSpec s = filled_config false s.
Proof.
  unfold DefaultRKE2ConfigSpec, filled_config. do 2 f_equal. destruct (cs_Data s); [|done].
  cbn. by rewrite correct_run.
Qed.
Lemma v1_default_run s : v1_DefaultRKE2ConfigSpec s = v1_filled_config false s.
Proof.
  unfold v1_DefaultRKE2ConfigSpec, v1_filled_config. do 2 f_equal. destruct (v1_Data s); [|done].
  cbn. by rewrite v1_correct_run.
Qed.
Lemma default_twice_run site s : correct_again site (DefaultRKE2ConfigSpec s) = inr (filled_config true s).
Proof.
  rewrite default_run. destruct s as [? ? ? a ? ?]. destruct a as [????????????????????????[? d ?]].
  unfold correct_again, filled_config, cs_Data. cbn. destruct d as [d|]; [|done]. cbn. by rewrite correct_run.
Qed.
Lemma v1_default_twice_run site s :
  v1_correct_again site (v1_DefaultRKE2ConfigSpec s) = inr (v1_filled_config true s).
Proof.
  rewrite v1_default_run. destruct s as [? ? ? a ? ?]. destruct a as [????????????????????????[? d ?]].
  unfold v1_correct_again, v1_filled_config, v1_Data. cbn. destruct d as [d|]; [|done]. cbn. by rewrite v1_correct_run.
Qed.

Lemma filled_config_convert twice s :
  Convert_v1beta1_RKE2ConfigSpec_To_v1beta2_RKE2ConfigSpec (v1_filled_config twice s) =
  filled_config twice (Convert_v1beta1_RKE2ConfigSpec_To_v1beta2_RKE2ConfigSpec s).
Proof.
  destruct s as [? ? ? a ? ?]. destruct a as [????????????????????????[? d ?]]. by destruct twice.
Qed.
End correcting.

Section defaulting.
Context `{YamlLaws, SecondsLaws, GoRange}.

(** A control plane whose machine template says itself what the deprecated fields of
    the spec would fill in. *)
Definition self_contained (r : V1beta1.RKE2ControlPlane) : Prop :=
  let s := V1beta1.rcp_Spec r in
  let t := V1beta1.sp_MachineTemplate s in
  V1beta1.ir_Name (V1beta1.mtpl_InfrastructureRef t) ≠ "" ∧
  (V1beta1.mtpl_NodeDrainTimeout t = None → V1beta1.sp_NodeDrainTimeout s = None).

Definition v1_filled (r : V1beta1.RKE2ControlPlane) : V1beta1.RKE2ControlPlane :=
  let s := V1beta1.rcp_Spec r in
  V1beta1.Build_RKE2ControlPlane (V1beta1.rcp_ObjectMeta r)
    (V1beta1.Build_RKE2ControlPlaneSpec (v1_filled_config true (V1beta1.sp_RKE2ConfigSpec s))
       (or_default 1%Z (V1beta1.sp_Replicas s)) (V1beta1.sp_Version s)
       (v1_default_template r) (V1beta1.sp_ServerConfig s) (V1beta1.sp_ManifestsConfigMapReference s)
       (V1beta1.sp_InfrastructureRef s) (V1beta1.sp_NodeDrainTimeout s) (V1beta1.sp_RegistrationMethod s)
       (V1beta1.sp_RegistrationAddress s) (V1beta1.sp_RolloutStrategy s) (V1beta1.sp_RemediationStrategy s))
    (V1beta1.rcp_Status r).
Definition filled (r : RKE2ControlPlane) : RKE2ControlPlane :=
  let s := rcp_Spec r in
  Build_RKE2ControlPlane (rcp_ObjectMeta r)
    (Build_RKE2ControlPlaneSpec (filled_config true (sp_RKE2ConfigSpec s)) (or_default 1%Z (sp_Replicas s))
       (sp_Version s) (default_template (sp_MachineTemplate s)) (sp_ServerConfig s)
       (sp_ManifestsConfigMapReference s) (sp_RegistrationMethod s) (sp_RegistrationAddress s)
       (sp_RolloutStrategy s) (sp_RemediationStrategy s)) (rcp_Status r).

Lemma v1_Default_run r : v1_RKE2ControlPlane_Default r = Ok (v1_filled r).
Proof. unfold v1_RKE2ControlPlane_Default. by rewrite v1_default_twice_run. Qed.
Lemma Default_run r : RKE2ControlPlane_Default r = Ok (filled r).
Proof. unfold RKE2ControlPlane_Default. by rewrite default_twice_run. Qed.

Lemma infra_convert r :
  V1beta1.ir_Name (V1beta1.mtpl_InfrastructureRef (V1beta1.sp_MachineTemplate (V1beta1.rcp_Spec r))) ≠ "" →
  convertToContractVersionedObjectReference (v1_default_infra r) =
  convertToContractVersionedObjectReference
    (V1beta1.mtpl_InfrastructureRef (V1beta1.sp_MachineTemplate (V1beta1.rcp_Spec r))).
Proof. intros Hn. unfold v1_default_infra. destruct (decide (V1beta1.ir_Name _ = "")); [done|]. by case_decide. Qed.

Lemma seconds_default n d :
  (0 ≤ n ≤ MaxInt32)%Z → ConvertToSeconds (or_default (n * Second)%Z d) = or_default n (ConvertToSeconds d).
Proof.
  intros Hn. destruct d as [d|]; cbn [or_default].
  - by destruct (seconds_of d) as [z ->].
  - rewrite seconds_none. cbn [or_default]. unfold MaxInt32 in *. rewrite seconds_trunc by (unfold Second; lia).
    f_equal. rewrite Z.quot_mul by done. unfold MaxInt32. lia.
Qed.

(** The template of the defaulted object is that of the object, defaulted. *)
Lemma template_convert r out :
  self_contained r →
  (t ← Convert_v1beta1_RKE2ControlPlaneMachineTemplate_To_v1beta2_RKE2ControlPlaneMachineTemplate
         (V1beta1.sp_MachineTemplate (V1beta1.rcp_Spec r)) out; Ok (default_template t)) =
  Convert_v1beta1_RKE2ControlPlaneMachineTemplate_To_v1beta2_RKE2ControlPlaneMachineTemplate
    (v1_default_template r) out.
Proof.
  intros [Hn Hdrain].
  unfold Convert_v1beta1_RKE2ControlPlaneMachineTemplate_To_v1beta2_RKE2ControlPlaneMachineTemplate.
  cbn [v1_default_template V1beta1.mtpl_Labels V1beta1.mtpl_Annotations V1beta1.mtpl_InfrastructureRef
       V1beta1.mtpl_NodeDrainTimeout V1beta1.mtpl_NodeVolumeDetachTimeout V1beta1.mtpl_NodeDeletionTimeout].
  rewrite infra_convert by done. unfold v1_default_drain.
  assert (match V1beta1.mtpl_NodeDrainTimeout (V1beta1.sp_MachineTemplate (V1beta1.rcp_Spec r)) with
    | None => V1beta1.sp_NodeDrainTimeout (V1beta1.rcp_Spec r) | t => t end =
    V1beta1.mtpl_NodeDrainTimeout (V1beta1.sp_MachineTemplate (V1beta1.rcp_Spec r))) as ->.
  { destruct (V1beta1.mtpl_NodeDrainTimeout _); [done|by apply Hdrain]. }
  unfold v1_defaultNodeDrainTimeout, v1_defaultNodeVolumeDetachTimeout, v1_defaultNodeDeletionTimeout.
  rewrite !seconds_default by (unfold MaxInt32; lia).
  destruct (Convert_v1beta1_ObjectMeta_To_v1beta2_ObjectMeta _) as [m|e|p]; [|done..]. cbn [mbind outcome_bind].
  by destruct (convertToContractVersionedObjectReference _).
Qed.

Lemma ConvertTo_filled r dst :
  self_contained r →
  (x ← RKE2ControlPlane_ConvertTo r dst; Ok (filled x)) = RKE2ControlPlane_ConvertTo (v1_filled r) dst.
Proof.
  intros Hs. pose proof (template_convert r (sp_MachineTemplate (rcp_Spec dst)) Hs) as Ht.
  unfold RKE2ControlPlane_ConvertTo, Convert_v1beta1_RKE2ControlPlane_To_v1beta2_RKE2ControlPlane,
    Convert_v1beta1_RKE2ControlPlaneSpec_To_v1beta2_RKE2ControlPlaneSpec.
  cbn [v1_filled V1beta1.rcp_ObjectMeta V1beta1.rcp_Spec V1beta1.rcp_Status V1beta1.sp_MachineTemplate
       V1beta1.sp_RKE2ConfigSpec V1beta1.sp_Replicas V1beta1.sp_Version V1beta1.sp_ServerConfig
       V1beta1.sp_ManifestsConfigMapReference V1beta1.sp_RegistrationMethod V1beta1.sp_RegistrationAddress
       V1beta1.sp_RolloutStrategy V1beta1.sp_RemediationStrategy v1_default_template V1beta1.mtpl_InfrastructureRef].
  rewrite infra_convert by apply Hs. rewrite <-Ht. rewrite filled_config_convert.
  destruct (Convert_v1beta1_RKE2ControlPlaneMachineTemplate_To_v1beta2_RKE2ControlPlaneMachineTemplate _ _)
    as [t|e|p]; [|done..]. cbn [mbind outcome_bind rcp_Status].
  destruct (Convert_v1beta1_RKE2ControlPlaneStatus_To_v1beta2_RKE2ControlPlaneStatus _ _) as [st|e|p]; [|done..].
  cbn [mbind outcome_bind].
  destruct (convertToContractVersionedObjectReference _) as [ref|e|p]; [|done..]. cbn [mbind outcome_bind].
  destruct (UnmarshalData _) as [[[restored a]|]|e|p]; [|done..].
  cbn [mbind outcome_bind rcp_Status]. by case_decide.
Qed.

Lemma RKE2Config_commutes c dst :
  (x ← RKE2Config_ConvertTo c dst; RKE2Config_Default x) =
  (c' ← v1_RKE2Config_Default c; RKE2Config_ConvertTo c' dst).
Proof.
  unfold RKE2Config_Default, v1_RKE2Config_Default, RKE2Config_ConvertTo,
    Convert_v1beta1_RKE2Config_To_v1beta2_RKE2Config.
  cbn [mbind outcome_bind V1beta1.cfg_Status V1beta1.cfg_Spec V1beta1.cfg_ObjectMeta V1beta1.cfg_APIVersion
       V1beta1.cfg_Kind].
  rewrite v1_default_run, filled_config_convert.
  destruct (Convert_v1beta1_RKE2ConfigStatus_To_v1beta2_RKE2ConfigStatus _ _) as [st|e|p]; [|done..].
  cbn [mbind outcome_bind]. destruct (UnmarshalData _) as [[[restored a]|]|e|p]; [..|done|done];
    cbn [mbind outcome_bind cfg_Spec cfg_with]; by rewrite default_run.
Qed.

Lemma RKE2ConfigTemplate_commutes t :
  (x ← RKE2ConfigTemplate_ConvertTo t; RKE2ConfigTemplate_Default x) =
  (t' ← v1_RKE2ConfigTemplate_Default t; RKE2ConfigTemplate_ConvertTo t').
Proof.
  unfold RKE2ConfigTemplate_Default, v1_RKE2ConfigTemplate_Default, RKE2ConfigTemplate_ConvertTo,
    Convert_v1beta1_RKE2ConfigTemplate_To_v1beta2_RKE2ConfigTemplate,
    Convert_v1beta1_RKE2ConfigTemplateSpec_To_v1beta2_RKE2ConfigTemplateSpec,
    Convert_v1beta1_RKE2ConfigTemplateResource_To_v1beta2_RKE2ConfigTemplateResource.
  cbn [mbind outcome_bind V1beta1.ct_ObjectMeta V1beta1.ct_Spec V1beta1.cts_Template V1beta1.ctr_Spec].
  rewrite v1_default_run, filled_config_convert.
  destruct (UnmarshalData _) as [[[restored a]|]|e|p]; [..|done|done];
    cbn [mbind outcome_bind ct_Spec cts_Template ctr_Spec ct_ObjectMeta]; by rewrite default_run.
Qed.

Lemma RKE2ControlPlaneTemplate_commutes t dst :
  (x ← RKE2ControlPlaneTemplate_ConvertTo t dst; RKE2ControlPlaneTemplate_Default x) =
  (t' ← v1_RKE2ControlPlaneTemplate_Default t; RKE2ControlPlaneTemplate_ConvertTo t' dst).
Proof.
  unfold v1_RKE2ControlPlaneTemplate_Default. rewrite v1_default_twice_run. cbn [mbind outcome_bind].
  assert (∀ x, RKE2ControlPlaneTemplate_Default x =
    Ok (tpl_with_config (filled_config true (trs_RKE2ConfigSpec (template_spec x))) x)) as Hd.
  { intros x. unfold RKE2ControlPlaneTemplate_Default. by rewrite default_twice_run. }
  unfold RKE2ControlPlaneTemplate_ConvertTo, Convert_v1beta1_RKE2ControlPlaneTemplate_To_v1beta2_RKE2ControlPlaneTemplate,
    Convert_v1beta1_RKE2ControlPlaneTemplateSpec_To_v1beta2_RKE2ControlPlaneTemplateSpec,
    Convert_v1beta1_RKE2ControlPlaneTemplateResource_To_v1beta2_RKE2ControlPlaneTemplateResource,
    Convert_v1beta1_RKE2ControlPlaneSpec_To_v1beta2_RKE2ControlPlaneTemplateResourceSpec.
  cbn [v1_tpl_with_config V1beta1.tpl_ObjectMeta V1beta1.tpl_Spec V1beta1.tsp_Template V1beta1.tr_Labels
       V1beta1.tr_Annotations V1beta1.tr_Spec V1beta1.sp_MachineTemplate V1beta1.sp_RKE2ConfigSpec
       V1beta1.sp_ServerConfig V1beta1.sp_ManifestsConfigMapReference V1beta1.sp_RegistrationMethod
       V1beta1.sp_RegistrationAddress V1beta1.sp_RolloutStrategy V1beta1.sp_RemediationStrategy].
  rewrite filled_config_convert. unfold v1_template_spec.
  destruct (Convert_v1beta1_ObjectMeta_To_v1beta2_ObjectMeta _) as [m|e|p]; [|done..]. cbn [mbind outcome_bind].
  destruct (Convert_v1beta1_RKE2ControlPlaneMachineTemplate_To_v1beta2_RKE2ControlPlaneMachineTemplate _ _)
    as [mt|e|p]; [|done..]. cbn [mbind outcome_bind].
  destruct (UnmarshalData _) as [[[restored a]|]|e|p]; [..|done|done]; cbn [mbind outcome_bind];
    rewrite Hd; reflexivity.
Qed.
End defaulting.

(** ** Validation *)

Section validating.
Context `{WebhookLib, ReconcilerLib, SecondsLaws, GoRange}.

Lemma gzipped_convert f : gzipped (Convert_v1beta1_File_To_v1beta2_File f) = v1_gzipped f.
Proof. by destruct f. Qed.
Lemma bare_convert r : bare_registry (Convert_v1beta1_RegistryConfig_To_v1beta2_RegistryConfig r) = v1_bare_registry r.
Proof.
  destruct r as [auth [secret skip]]. unfold bare_registry, v1_bare_registry. cbn. f_equal.
  apply bool_decide_ext. split; by intros [= -> ->].
Qed.

Lemma validateIgnition_convert s p :
  validateIgnition (Convert_v1beta1_RKE2ConfigSpec_To_v1beta2_RKE2ConfigSpec s) p = v1_validateIgnition s p.
Proof.
  destruct s as [files ? ? a ? ?]. destruct a as [????????????????????????[? ? ?]].
  unfold validateIgnition, v1_validateIgnition. cbn. case_decide; [|done].
  destruct (ToIgn3_3Bytes _) as [[entries fatal] text]. f_equal. f_equal.
  destruct files as [files|]; [|done]. cbn. rewrite imap_fmap. apply imap_ext. intros i f _. cbn.
  by rewrite gzipped_convert.
Qed.

Lemma registries_none {A} (bare : A → bool) (msg : string → A → FieldError) site (m : gmap string A) :
  concat (map (λ '(n, r), if bare r then [msg n r] else []) (go_range site m)) = [] ↔
  ∀ n r, m !! n = Some r → bare r = false.
Proof.
  rewrite concat_nil, list.Forall_forall. split.
  - intros Hn n r Hr. apply (elem_of_go_range site) in Hr.
    specialize (Hn _ (list_elem_of_fmap_2 _ _ _ Hr)). cbn in Hn. by destruct (bare r).
  - intros Hb l Hl. apply list_elem_of_fmap in Hl as ([n r] & -> & Hr).
    apply elem_of_go_range in Hr. by rewrite (Hb _ _ Hr).
Qed.

Lemma validateRegistries_convert s p :
  validateRegistries (Convert_v1beta1_RKE2ConfigSpec_To_v1beta2_RKE2ConfigSpec s) p = [] ↔
  v1_validateRegistries s p = [].
Proof.
  unfold validateRegistries, v1_validateRegistries.
  rewrite (registries_none bare_registry (λ n _, _)), (registries_none v1_bare_registry (λ n _, _)).
  destruct s as [? ? ? ? [mirrors configs] ?]. cbn. destruct configs as [m|]; cbn; [|set_solver].
  setoid_rewrite lookup_fmap. split.
  - intros Hb n r Hr. rewrite <-bare_convert. apply (Hb n). by rewrite Hr.
  - intros Hb n r Hr. destruct (m !! n) as [r0|] eqn:Hn; [|done]. injection Hr as <-.
    rewrite bare_convert. by eapply Hb.
Qed.

Lemma config_validates s :
  ValidateRKE2ConfigSpec (Convert_v1beta1_RKE2ConfigSpec_To_v1beta2_RKE2ConfigSpec s) = [] ↔
  v1_ValidateRKE2ConfigSpec s = [].
Proof.
  unfold ValidateRKE2ConfigSpec, v1_ValidateRKE2ConfigSpec, validate, v1_validate.
  by rewrite !app_nil, validateIgnition_convert, validateRegistries_convert.
Qed.

(** A timeout whose sign survives the conversion: not between minus one second and
    zero, and not below what 32 bits of seconds can say. *)
Definition keeps_sign (o : option Duration) : Prop :=
  ∀ d, o = Some d → (- 2 ^ 31 * Second ≤ d ≤ - Second ∨ 0 ≤ d)%Z.

Lemma timeout_validates p p' o :
  keeps_sign o → validate_timeout p (ConvertToSeconds o) = [] ↔ validate_timeout p' o = [].
Proof.
  intros Ho. destruct o as [d|]; [|by rewrite seconds_none]. specialize (Ho d eq_refl).
  rewrite seconds_trunc by (unfold Second in *; lia). cbn. unfold MaxInt32.
  assert (d `quot` Second < 0 ↔ d < 0)%Z as Hq.
  { unfold Second in *. destruct Ho as [Ho|Ho]; Z.to_euclidean_division_equations; lia. }
  repeat case_decide; (split; intros; [|]); first [done|lia].
Qed.

(** What validation looks at in the converted object. *)
Lemma ConvertTo_fields r dst x :
  RKE2ControlPlane_ConvertTo r dst = Ok x →
  let s := V1beta1.rcp_Spec r in
  let t := V1beta1.sp_MachineTemplate s in
  sp_RKE2ConfigSpec (rcp_Spec x) = Convert_v1beta1_RKE2ConfigSpec_To_v1beta2_RKE2ConfigSpec (V1beta1.sp_RKE2ConfigSpec s) ∧
  sp_Replicas (rcp_Spec x) = V1beta1.sp_Replicas s ∧
  sp_ServerConfig (rcp_Spec x) = Convert_v1beta1_RKE2ServerConfig_To_v1beta2_RKE2ServerConfig (V1beta1.sp_ServerConfig s) ∧
  sp_RegistrationMethod (rcp_Spec x) = V1beta1.sp_RegistrationMethod s ∧
  sp_RegistrationAddress (rcp_Spec x) = V1beta1.sp_RegistrationAddress s ∧
  cv_Name (ts_InfrastructureRef (mtpl_Spec (sp_MachineTemplate (rcp_Spec x)))) =
    V1beta1.ir_Name (V1beta1.mtpl_InfrastructureRef t) ∧
  ts_Deletion (mtpl_Spec (sp_MachineTemplate (rcp_Spec x))) =
    Build_RKE2ControlPlaneMachineTemplateDeletionSpec (ConvertToSeconds (V1beta1.mtpl_NodeDrainTimeout t))
      (ConvertToSeconds (V1beta1.mtpl_NodeVolumeDetachTimeout t)) (ConvertToSeconds (V1beta1.mtpl_NodeDeletionTimeout t)).
Proof.
  unfold RKE2ControlPlane_ConvertTo, Convert_v1beta1_RKE2ControlPlane_To_v1beta2_RKE2ControlPlane,
    Convert_v1beta1_RKE2ControlPlaneSpec_To_v1beta2_RKE2ControlPlaneSpec,
    Convert_v1beta1_RKE2ControlPlaneMachineTemplate_To_v1beta2_RKE2ControlPlaneMachineTemplate.
  destruct (Convert_v1beta1_ObjectMeta_To_v1beta2_ObjectMeta _) as [m|e|p]; [|done..]. cbn [mbind outcome_bind].
  destruct (convertToContractVersionedObjectReference _) as [ref|e|p] eqn:Hr; [|done..]. cbn [mbind outcome_bind].
  destruct (Convert_v1beta1_RKE2ControlPlaneStatus_To_v1beta2_RKE2ControlPlaneStatus _ _) as [st|e|p]; [|done..].
  cbn [mbind outcome_bind].
  assert (cv_Name ref = V1beta1.ir_Name (V1beta1.mtpl_InfrastructureRef (V1beta1.sp_MachineTemplate (V1beta1.rcp_Spec r))))
    as Hname.
  { revert Hr. unfold convertToContractVersionedObjectReference.
    destruct (decide _); [by intros [= <-]|].
    destruct (ParseGroupVersion _) as [[group v]|e|p]; [|done..]. by intros [= <-]. }
  destruct (UnmarshalData _) as [[[restored a]|]|e|p]; [..|done|done]; cbn [mbind outcome_bind];
    intros [= <-]; done.
Qed.

Lemma server_cni s :
  sc_CNIMultusEnable (Convert_v1beta1_RKE2ServerConfig_To_v1beta2_RKE2ServerConfig s) = V1beta1.sc_CNIMultusEnable s ∧
  sc_CNI (Convert_v1beta1_RKE2ServerConfig_To_v1beta2_RKE2ServerConfig s) = V1beta1.sc_CNI s.
Proof. by destruct s. Qed.

(** The machine template says which infrastructure template, and its timeouts keep
    their sign. *)
Definition plain_template (r : V1beta1.RKE2ControlPlane) : Prop :=
  let t := V1beta1.sp_MachineTemplate (V1beta1.rcp_Spec r) in
  V1beta1.ir_Name (V1beta1.mtpl_InfrastructureRef t) ≠ "" ∧ keeps_sign (V1beta1.mtpl_NodeDrainTimeout t) ∧
  keeps_sign (V1beta1.mtpl_NodeVolumeDetachTimeout t) ∧ keeps_sign (V1beta1.mtpl_NodeDeletionTimeout t).

Definition taint_errors (x : RKE2ControlPlane) : list FieldError :=
  validateMachineTaints (ts_Taints (mtpl_Spec (sp_MachineTemplate (rcp_Spec x)))) "spec.machineTemplate.spec.taints".

Lemma template_validates r dst x :
  plain_template r → RKE2ControlPlane_ConvertTo r dst = Ok x →
  validateMachineTemplate x = [] ↔ taint_errors x = [] ∧ v1_validateMachineTemplate (V1beta1.rcp_Spec r) = [].
Proof.
  intros (Hn & Hdrain & Hdetach & Hdelete) Hx.
  destruct (ConvertTo_fields r dst x Hx) as (_ & _ & _ & _ & _ & Hname & Hdel).
  unfold validateMachineTemplate, v1_validateMachineTemplate, taint_errors. rewrite !app_nil, Hdel.
  cbn [td_NodeDrainTimeoutSeconds td_NodeVolumeDetachTimeoutSeconds td_NodeDeletionTimeoutSeconds].
  rewrite (timeout_validates _ "spec.machineTemplate.NodeDrainTimeout") by done.
  rewrite (timeout_validates _ "spec.machineTemplate.nodeVolumeDetachTimeout") by done.
  rewrite (timeout_validates _ "spec.machineTemplate.nodeDeletionTimeout") by done.
  assert (Ref_IsDefined (ts_InfrastructureRef (mtpl_Spec (sp_MachineTemplate (rcp_Spec x)))) = true) as ->.
  { unfold Ref_IsDefined. apply bool_decide_eq_true. intros E. rewrite E in Hname. cbn in Hname. congruence. }
  rewrite (bool_decide_eq_false_2 (V1beta1.ir_Name (V1beta1.mtpl_InfrastructureRef _) = "")) by done.
  cbn. naive_solver.
Qed.

Lemma rest_validates r dst x :
  RKE2ControlPlane_ConvertTo r dst = Ok x →
  let s := V1beta1.rcp_Spec r in
  (ValidateRKE2ConfigSpec (sp_RKE2ConfigSpec (rcp_Spec x)) = [] ↔
    v1_ValidateRKE2ConfigSpec (V1beta1.sp_RKE2ConfigSpec s) = []) ∧
  validateCNI x = v1_validateCNI s ∧ validateRegistrationMethod x = v1_validateRegistrationMethod s ∧
  validateSpec x = v1_validateSpec s.
Proof.
  intros Hx. destruct (ConvertTo_fields r dst x Hx) as (Hc & Hrep & Hsc & Hm & Ha & _). cbn zeta.
  rewrite Hc, config_validates. split; [done|].
  unfold validateCNI, v1_validateCNI, validateRegistrationMethod, v1_validateRegistrationMethod,
    validateSpec, v1_validateSpec.
  rewrite Hsc, Hrep, Hm, Ha. destruct (server_cni (V1beta1.sp_ServerConfig (V1beta1.rcp_Spec r))) as [-> ->]. done.
Qed.

Lemma create_agrees r dst x :
  plain_template r → RKE2ControlPlane_ConvertTo r dst = Ok x →
  RKE2ControlPlane_ValidateCreate x = Ok tt ↔
  v1_RKE2ControlPlane_ValidateCreate r = Ok tt ∧ taint_errors x = [] ∧ validateScaling x = [].
Proof.
  intros Hp Hx. unfold RKE2ControlPlane_ValidateCreate, v1_RKE2ControlPlane_ValidateCreate.
  destruct (rest_validates r dst x Hx) as (Hc & Hcni & Hreg & Hspec). pose proof (template_validates r dst x Hp Hx) as Ht.
  rewrite !validated_ok, !app_nil, Hc, Hcni, Hreg, Hspec, Ht. tauto.
Qed.

Lemma update_agrees r dst x old dst' xold :
  plain_template r → RKE2ControlPlane_ConvertTo r dst = Ok x → RKE2ControlPlane_ConvertTo old dst' = Ok xold →
  RKE2ControlPlane_ValidateUpdate xold x = Ok tt ↔
  v1_RKE2ControlPlane_ValidateUpdate old r = Ok tt ∧ taint_errors x = [] ∧
    (scaling_changed xold x = true → validateScaling x = []).
Proof.
  intros Hp Hx Hold. unfold RKE2ControlPlane_ValidateUpdate, v1_RKE2ControlPlane_ValidateUpdate.
  destruct (rest_validates r dst x Hx) as (Hc & Hcni & _ & Hspec). pose proof (template_validates r dst x Hp Hx) as Ht.
  destruct (ConvertTo_fields r dst x Hx) as (_ & _ & _ & Hm & _).
  destruct (ConvertTo_fields old dst' xold Hold) as (_ & _ & _ & Hmold & _).
  rewrite !validated_ok, !app_nil, Hc, Hcni, Hspec, Ht, Hm, Hmold.
  destruct (scaling_changed xold x); intuition congruence.
Qed.
End validating.

(** ** The claims *)

(** Defaulting and conversion commute.  Converting an object written as v1beta1 and
    defaulting it as v1beta2 gives what defaulting it as v1beta1 and then converting
    it gives, errors included: for configurations, their templates and templates of
    control planes, and for control planes that do without the deprecated fields. *)
Theorem v1_defaulting_commutes `{YamlLaws, SecondsLaws, GoRange} :
  (∀ c dst, (x ← RKE2Config_ConvertTo c dst; RKE2Config_Default x) =
     (c' ← v1_RKE2Config_Default c; RKE2Config_ConvertTo c' dst)) ∧
  (∀ t, (x ← RKE2ConfigTemplate_ConvertTo t; RKE2ConfigTemplate_Default x) =
     (t' ← v1_RKE2ConfigTemplate_Default t; RKE2ConfigTemplate_ConvertTo t')) ∧
  (∀ t dst, (x ← RKE2ControlPlaneTemplate_ConvertTo t dst; RKE2ControlPlaneTemplate_Default x) =
     (t' ← v1_RKE2ControlPlaneTemplate_Default t; RKE2ControlPlaneTemplate_ConvertTo t' dst)) ∧
  ∀ r dst, self_contained r →
    (x ← RKE2ControlPlane_ConvertTo r dst; RKE2ControlPlane_Default x) =
    (r' ← v1_RKE2ControlPlane_Default r; RKE2ControlPlane_ConvertTo r' dst).
Proof.
  split; [apply RKE2Config_commutes|]. split; [apply RKE2ConfigTemplate_commutes|].
  split; [apply RKE2ControlPlaneTemplate_commutes|].
  intros r dst Hs. rewrite v1_Default_run. cbn [mbind outcome_bind]. rewrite <-ConvertTo_filled by done.
  destruct (RKE2ControlPlane_ConvertTo r dst) as [x|e|p]; [|done..]. apply Default_run.
Qed.

Lemma keeps_sign_default v o : (0 ≤ v)%Z → keeps_sign o → keeps_sign (or_default v o).
Proof. intros Hv Ho d. destruct o as [d'|]; cbn; [apply Ho|]. intros [= <-]. by right. Qed.

(** C25: both API versions admit the same control planes.  Take a control plane written
    as v1beta1 that does without the deprecated fields and whose timeouts keep their
    sign in whole seconds.  Defaulted and validated as v1beta2 after its conversion,
    which is what the programs do, it becomes what it becomes defaulted as v1beta1,
    and it is accepted, when it is created and when it is updated, exactly when the
    v1beta1 webhooks accept it and its taints and its numbers of replicas and surge
    satisfy the rules that are new in v1beta2. *)
Theorem v1_admission_agrees `{YamlLaws, SecondsLaws, ReconcilerLib, GoRange} r dst x :
  self_contained r →
  (let t := V1beta1.sp_MachineTemplate (V1beta1.rcp_Spec r) in
   keeps_sign (V1beta1.mtpl_NodeDrainTimeout t) ∧ keeps_sign (V1beta1.mtpl_NodeVolumeDetachTimeout t) ∧
   keeps_sign (V1beta1.mtpl_NodeDeletionTimeout t)) →
  (y ← RKE2ControlPlane_ConvertTo r dst; RKE2ControlPlane_Default y) = Ok x →
  ∃ r', v1_RKE2ControlPlane_Default r = Ok r' ∧ RKE2ControlPlane_ConvertTo r' dst = Ok x ∧
    (RKE2ControlPlane_ValidateCreate x = Ok tt ↔
     v1_RKE2ControlPlane_ValidateCreate r' = Ok tt ∧ taint_errors x = [] ∧ validateScaling x = []) ∧
    ∀ old dst' xold, RKE2ControlPlane_ConvertTo old dst' = Ok xold →
      (RKE2ControlPlane_ValidateUpdate xold x = Ok tt ↔
       v1_RKE2ControlPlane_ValidateUpdate old r' = Ok tt ∧ taint_errors x = [] ∧
         (scaling_changed xold x = true → validateScaling x = [])).
Proof.
  intros Hs (Hdrain & Hdetach & Hdelete) Hx. exists (v1_filled r). split; [apply v1_Default_run|].
  assert (RKE2ControlPlane_ConvertTo (v1_filled r) dst = Ok x) as Hx'.
  { rewrite <-ConvertTo_filled by done. destruct (RKE2ControlPlane_ConvertTo r dst) as [y|e|p]; [|done..].
    cbn in Hx |- *. by rewrite <-Hx, Default_run. }
  assert (plain_template (v1_filled r)) as Hp.
  { destruct Hs as [Hn Hd]. split; [|split; [|split]]; cbn.
    - unfold v1_default_infra. destruct (decide (V1beta1.ir_Name _ = "")); [done|]. by case_decide.
    - unfold v1_default_drain. destruct (V1beta1.mtpl_NodeDrainTimeout _) as [d|] eqn:E.
      + by apply keeps_sign_default.
      + rewrite Hd by done. by apply keeps_sign_default.
    - by apply keeps_sign_default.
    - by apply keeps_sign_default. }
  split; [done|]. split; [by eapply create_agrees|]. intros old dst' xold Hold. by eapply update_agrees.
Qed.

(** ** Samples *)

Lemma plain_yaml : @YamlLaws plain_webhook_lib.
Proof. split; intros; eexists; reflexivity. Qed.
Lemma plain_seconds : @SecondsLaws plain_conv_lib.
Proof. split; [done|by eexists|done]. Qed.

(** A control plane as a v1beta1 client writes it: the references and timeouts given,
    three replicas, and nothing else. *)
Definition v1_written (template spec : V1beta1.InfraReference) (template_drain spec_drain : option Duration) :
    V1beta1.RKE2ControlPlane :=
  let s := zero_v1_spec in
  V1beta1.Build_RKE2ControlPlane (demo_meta "cp")
    (V1beta1.Build_RKE2ControlPlaneSpec (V1beta1.sp_RKE2ConfigSpec s) (Some 3%Z) "v1.30.0+rke2r1"
       (V1beta1.Build_RKE2ControlPlaneMachineTemplate None None template template_drain None None)
       (V1beta1.sp_ServerConfig s) (V1beta1.sp_ManifestsConfigMapReference s) spec spec_drain
       (V1beta1.sp_RegistrationMethod s) (V1beta1.sp_RegistrationAddress s) None None) zero_v1_status.
Definition no_infra : V1beta1.InfraReference := V1beta1.Build_InfraReference "" "" "" "".
Definition demo_infra : V1beta1.InfraReference :=
  V1beta1.Build_InfraReference "infrastructure.cluster.x-k8s.io/v1beta2" "DemoTemplate" "" "cp-template".

(** What the registered webhooks make of an object written as v1beta1, and what the
    v1beta1 webhooks make of it. *)
Definition as_registered (r : V1beta1.RKE2ControlPlane) : outcome RKE2ControlPlane :=
  x ← RKE2ControlPlane_ConvertTo (H := plain_conv_lib) r zero_RKE2ControlPlane;
  x ← RKE2ControlPlane_Default x; _ ← RKE2ControlPlane_ValidateCreate x; Ok x.
Definition as_v1beta1 (r : V1beta1.RKE2ControlPlane) : outcome RKE2ControlPlane :=
  r ← v1_RKE2ControlPlane_Default r; _ ← v1_RKE2ControlPlane_ValidateCreate r;
  RKE2ControlPlane_ConvertTo (H := plain_conv_lib) r zero_RKE2ControlPlane.
Definition drain_of (o : outcome RKE2ControlPlane) : option Z :=
  match o with
  | Ok x => td_NodeDrainTimeoutSeconds (ts_Deletion (mtpl_Spec (sp_MachineTemplate (rcp_Spec x))))
  | _ => None
  end.

(** The fields that v1beta1 declares deprecated have no effect any more.  The drain
    timeout of the spec gives way to the default, where the v1beta1 webhook used it; a
    control plane that names its infrastructure template in the spec is refused, where
    the v1beta1 webhook moved the name and accepted it. *)
Theorem deprecated_fields_ignored :
  (let r := v1_written demo_infra no_infra None (Some (600 * Second)%Z) in
   drain_of (as_registered r) = Some 120%Z ∧ drain_of (as_v1beta1 r) = Some 600%Z) ∧
  (let r := v1_written no_infra demo_infra None None in
   is_ok (as_registered r) = false ∧ is_ok (as_v1beta1 r) = true).
Proof. vm_compute. auto. Qed.

(** A refusal between a second and nothing: the half second below zero that v1beta1
    refuses is zero seconds in v1beta2. *)
Example half_second :
  let r := v1_written demo_infra no_infra (Some (- 500000000)%Z) None in
  drain_of (as_registered r) = Some 0%Z ∧ is_ok (as_v1beta1 r) = false.
Proof. vm_compute. auto. Qed.

Definition demo_written : V1beta1.RKE2ControlPlane := v1_written demo_infra no_infra (Some (90 * Second)%Z) None.
Definition demo_defaulted : RKE2ControlPlane :=
  ok_or zero_RKE2ControlPlane
    (y ← RKE2ControlPlane_ConvertTo (H := plain_conv_lib) demo_written zero_RKE2ControlPlane; RKE2ControlPlane_Default y).

Lemma v1_admission_agrees_witness :
  RKE2ControlPlane_ValidateCreate demo_defaulted = Ok tt ∧ drain_of (Ok demo_defaulted) = Some 90%Z.
Proof.
  split; [|vm_compute; reflexivity].
  destruct (v1_admission_agrees (H0 := plain_yaml) (H2 := plain_seconds) demo_written zero_RKE2ControlPlane demo_defaulted)
    as (r' & Hr' & _ & Hc & _).
  - split; [discriminate|done].
  - split; [|split]; intros d Hd; vm_compute in Hd; [|discriminate|discriminate].
    injection Hd as <-. right. vm_compute. discriminate.
  - vm_compute. reflexivity.
  - vm_compute in Hr'. injection Hr' as <-. apply Hc. repeat split; vm_compute; reflexivity.
Defined.
