(* ===== verification/Boot.v ===== *)
(** * What a machine boots from

    The components of the bootstrap side together: [Config] makes the configuration of
    RKE2 with the files it refers to, [Bootstrap] collects the files and stores user
    data, and [UserData] is its text.  [Bootstrap] is proved for any renderer;
    [Renderer] says that it is the one of [UserData], and [stored_config_complete] what
    then is in the data secret of a machine. *)

From stdpp Require Import base tactics option list gmap strings numbers.
From S2P Require Import Prelude Go Api Objects Libs World Demo BWorld Util Config Registries Bootstrap UserData.
Open Scope string_scope.
Open Scope list_scope.
Open Scope stdpp_scope.

(** ** The renderer

    The additional user data of Ignition is a pointer, which the controller sets. *)

Definition ignition_text `{UserDataLib, GoSort} (k : UserDataKind) (u : UserDataInput) (a : AdditionalUserData) :
    outcome string :=
  let input : IgnitionInput := Some (Some u, Some a) in
  match k with JoinWorker => ign_NewJoinWorker input | _ => ign_NewControlPlane input end.

Class Renderer `{BootstrapLib, UserDataLib, GoSort} : Prop := {
  renders_cloudinit k u : cloudinit_New k u = cloudinit k u;
  renders_ignition k u a : ignition_New k u a = ignition_text k u a;
  encapsulates z : Bootstrap.EncapsulateGzippedConfig z = EncapsulateGzippedConfig z
}.

(** ** What is asked of a data secret *)

Section boot.
Context `{BEnv, GoRange, VersionLib, ConfigLib, CondLib, BootstrapLib, UserDataLib, GoSort} (c0 : RKE2Config) (kind : UserDataKind).

(** The kind of machine a scope is about. *)
Definition kind_of (s : Scope) : UserDataKind :=
  if conditions_IsTrue (bc_Conditions (s_Cluster s)) ControlPlaneInitializedCondition
  then match s_Machine s, s_ControlPlane s with Some _, Some _ => JoinControlPlane | _, _ => JoinWorker end
  else InitControlPlane.

(** The configuration file of a kind of machine: the text of a configuration that
    refers only to files among [files]. *)
Definition configures (yaml : string) (files : list File) : Prop :=
  match kind with
  | JoinWorker => ∃ y fs, yaml_agent y = Ok yaml ∧ fs ⊆ files ∧
      agent_complete (worker_agent_config (cs_AgentConfig (cfg_Spec c0))) (y, fs)
  | _ => ∃ y fs, yaml_server y = Ok yaml ∧ fs ⊆ files ∧ config_complete (cs_AgentConfig (cfg_Spec c0)) (y, fs)
  end.

(** The value of the secret: the user data, compressed when the configuration says so. *)
Definition encoded (out value : string) : Prop :=
  if default false (cs_GzipUserData (cfg_Spec c0)) then
    ∃ z, gzip out = Ok z ∧
      if decide (ac_Format (cs_AgentConfig (cfg_Spec c0)) = Ignition)
      then Bootstrap.EncapsulateGzippedConfig z = Ok value else value = z
  else value = out.

(** A file of the user, with what it refers to fetched: an entry of a config map is not
    empty. *)
Definition resolved (f f' : File) : Prop :=
  match f_ContentFrom f with
  | Some (Build_FileSource (Some _) _) => ∃ content, f' = f_with_content content f
  | Some (Build_FileSource None (Some _)) => ∃ content, content ≠ "" ∧ f' = f_with_content content f
  | _ => f' = f
  end.

(** The files hold the registries and then the user's files, in their order. *)
Definition carries (files : list File) : Prop :=
  ∃ before registries additional after,
    files = before ++ mkFile DefaultRKE2RegistriesLocation registries filePermissions :: additional ++ after ∧
    Forall2 resolved (elems (cs_Files (cfg_Spec c0))) additional.

(** The user data of a machine that can boot: made of the specification and of files. *)
Definition bootable (out : string) : Prop :=
  ∃ yaml version files certificates,
    Bootstrap.render kind c0 (user_data_input c0 (mkFile DefaultRKE2ConfigLocation yaml filePermissions)
      version files certificates) = Ok out ∧
    configures yaml files ∧ carries files.

(** Data secrets, and no others, name a format. *)
Definition good_secret (sec : Secret) : Prop :=
  is_Some (sec_Data sec !! "format") →
  ∃ out value, sec_Data sec !! "value" = Some value ∧ encoded out value ∧ bootable out.

Definition written (w : BWorld) (sec : Secret) : Prop :=
  ∃ ok, (BCreateSecret sec, ok) ∈ b_log w ∨ (BUpdateSecret sec, ok) ∈ b_log w.
Definition good (w : BWorld) : Prop :=
  cfg_Spec (b_cfg w) = cfg_Spec c0 ∧ ∀ sec, written w sec → good_secret sec.

Lemma good_log w c ok :
  (∀ sec, c = BCreateSecret sec ∨ c = BUpdateSecret sec → good_secret sec) →
  good w → good (Build_BWorld (b_cfg w) ((c, ok) :: b_log w)).
Proof.
  intros Hc [Hs Hw]. split; [done|]. intros sec (ok' & Hin). cbn in Hin.
  rewrite !elem_of_cons in Hin. destruct Hin as [[[= <- _]|Hin]|[[= <- _]|Hin]].
  - apply Hc. by left.
  - apply Hw. exists ok'. by left.
  - apply Hc. by right.
  - apply Hw. exists ok'. by right.
Qed.
Lemma good_other w c ok :
  match c with BCreateSecret _ | BUpdateSecret _ => False | _ => True end →
  good w → good (Build_BWorld (b_cfg w) ((c, ok) :: b_log w)).
Proof. intros Hc. apply good_log. intros sec [-> | ->]; done. Qed.

Lemma good_reads {A} (m : B A) : reads is_read m → keeps_inv good m.
Proof. intros Hm. apply (reads_inv is_read); [|done]. intros w c ok Hc. apply good_other. by destruct c. Qed.
Lemma good_condition c : keeps_inv good (cfg_set_condition c).
Proof. apply inv_modify_cfg. by intros w. Qed.
Lemma good_set_secret n : keeps_inv good (cfg_set_secret n).
Proof. apply inv_modify_cfg. by intros w. Qed.

(** What is returned on the way is known to the rest. *)
Definition good_returns {A} (Q : A → Prop) (m : B A) : Prop :=
  ∀ w a w', good w → m w = (Ok a, w') → Q a.
Lemma good_bind_good {A C} (Q : A → Prop) (m : B A) (f : A → B C) :
  keeps_inv good m → good_returns Q m → (∀ a, Q a → keeps_inv good (f a)) → keeps_inv good (m ≫= f).
Proof.
  intros Hm HQ Hf w Hw. specialize (Hm w Hw). unfold mbind, comp_bind.
  destruct (m w) as [[a|e|p] w'] eqn:E; [|done..]. apply Hf; [|done]. by eapply HQ.
Qed.
Lemma good_bind {A C} (Q : A → Prop) (m : B A) (f : A → B C) :
  keeps_inv good m → returns Q m → (∀ a, Q a → keeps_inv good (f a)) → keeps_inv good (m ≫= f).
Proof. intros Hm HQ. apply (good_bind_good Q); [done|]. intros w a w' _. apply HQ. Qed.
Lemma good_get_cfg {A} (f : RKE2Config → B A) :
  (∀ c, cfg_Spec c = cfg_Spec c0 → keeps_inv good (f c)) → keeps_inv good (c ← get_cfg; f c).
Proof. intros Hf w Hw. apply (Hf (b_cfg w)); [apply Hw|done]. Qed.
Lemma returns_lift {A} (o : outcome A) : returns (λ a, o = Ok a) (lift (S := BWorld) o).
Proof. intros w a w' Ho. unfold lift in Ho. by destruct o; injection Ho as <- _. Qed.

(** *** Storing user data *)

Lemma good_create_or_update sec : good_secret sec → keeps_inv good (createOrUpdateSecretFromObject sec).
Proof.
  intros Hsec. unfold createOrUpdateSecretFromObject. apply inv_bind.
  - apply inv_try, inv_bapi. intros w ok. apply good_log. by intros ? [[= <-]|[= <-]].
  - intros [[]|e]; [apply inv_ret|]. destruct (IsAlreadyExists e); [|apply inv_fail].
    apply inv_bwrap, inv_bapi. intros w ok. apply good_log. by intros ? [[= <-]|[= <-]].
Qed.

Lemma bootstrap_secret_good s c out value :
  bootable out → encoded out value → good_secret (bootstrap_secret s c value).
Proof. intros Hb He _. exists out, value. split; [|done]. cbn. apply lookup_insert_eq. Qed.

Lemma good_store s out : bootable out → keeps_inv good (storeBootstrapData s out).
Proof.
  intros Hb. unfold storeBootstrapData. apply good_get_cfg. intros c Hc. rewrite Hc.
  apply (good_bind (encoded out)).
  - destruct (default false _); [|apply inv_ret]. apply inv_bind; [apply inv_lift|]. intros z.
    case_decide; [apply inv_lift|apply inv_ret].
  - unfold encoded. destruct (default false _); [|by apply returns_ret].
    apply (returns_bind _ _ _ _ (returns_lift (gzip out))). intros z Hz. case_decide as Hi.
    + intros w v w' Hv. exists z. split; [done|]. exact (returns_lift _ _ _ _ Hv).
    + apply returns_ret. by exists z.
  - intros v Hv. apply inv_bind; [by apply good_create_or_update, (bootstrap_secret_good _ _ out)|].
    intros _. apply inv_bind; [apply good_set_secret|]. intros _. apply good_condition.
Qed.

(** *** From the configuration to the user data *)

Lemma returns_resolve_file c f : returns (resolved f) (resolve_file c f).
Proof.
  unfold resolve_file, resolved. destruct (f_ContentFrom f) as [[[ref|] [ref'|]]|]; cbn;
    try (by apply returns_ret); apply returns_any; intros data.
  1-2: destruct (map_get _ _); [|apply returns_fail]; apply returns_ret; by eexists.
  case_decide; [apply returns_fail|]. apply returns_ret. by eexists.
Qed.

Lemma returns_resolve_files c l :
  returns (Forall2 resolved l) (for_acc l [] (λ acc f, f' ← resolve_file c f; mret (acc ++ [f']))).
Proof.
  intros w additional w' E. apply (for_acc_ok (Forall2 resolved)) in E; [done| |constructor].
  intros pre x rest b s0 r s' _ Hb Hs. unfold mbind, comp_bind in Hs.
  destruct (resolve_file c x s0) as [[f'|e|p] w1] eqn:Ef; [|done..]. injection Hs as <- _.
  apply Forall2_app; [done|]. constructor; [|done]. by eapply returns_resolve_file.
Qed.

Lemma good_returns_get_cfg {A} (Q : A → Prop) (f : RKE2Config → B A) :
  (∀ c, cfg_Spec c = cfg_Spec c0 → returns Q (f c)) → good_returns Q (c ← get_cfg; f c).
Proof. intros Hf w a w' [Hs _] E. by apply (Hf (b_cfg w) Hs w a w'). Qed.

(** The list has the given files, and carries those of the specification. *)
Lemma file_list_keeps configFiles :
  good_returns (λ files, configFiles ⊆ files ∧ carries files) (generateFileListIncludingRegistries configFiles).
Proof.
  unfold generateFileListIncludingRegistries. apply good_returns_get_cfg. intros c Hspec.
  apply returns_any. intros [r fs]. apply returns_any. intros yaml.
  rewrite Hspec. eapply returns_bind; [apply returns_resolve_files|].
  intros additional Hf. apply returns_ret. split; [set_solver|].
  exists (configFiles ++ fs), yaml, additional, []. by rewrite app_nil_r, <-app_assoc.
Qed.

Lemma carries_more files after : carries files → carries (files ++ after).
Proof.
  intros (before & registries & additional & rest & -> & Hf).
  exists before, registries, additional, (rest ++ after). split; [|done].
  by rewrite <-app_assoc, <-app_comm_cons, <-app_assoc.
Qed.

Lemma configures_more yaml fs fs' : configures yaml fs → fs ⊆ fs' → configures yaml fs'.
Proof.
  unfold configures. intros Hc Hf. destruct kind; destruct Hc as (y & files & Hy & Hsub & Hcomplete); exists y, files;
    (split; [done|]); (split; [set_solver|done]).
Qed.

Lemma good_user_data s manifests yaml version configFiles certificates :
  configures yaml configFiles →
  keeps_inv good (make_user_data s kind manifests yaml version configFiles certificates).
Proof.
  intros Hc. unfold make_user_data. cbn zeta.
  apply (good_bind_good _ _ _ (good_reads _ (reads_file_list configFiles)) (file_list_keeps configFiles)).
  intros files [Hf Hcarry]. apply inv_bind.
  { destruct manifests; [apply good_reads, reads_manifests|apply inv_ret]. }
  intros manifestFiles. apply good_get_cfg. intros c Hspec.
  apply (good_bind _ _ _ (inv_lift _ _) (returns_lift _)). intros out Ho. apply good_store.
  exists yaml, version, (files ++ manifestFiles), certificates. split_and!.
  - unfold Bootstrap.render, user_data_input in *. by rewrite <-Hspec.
  - apply (configures_more _ configFiles); [done|]. set_solver.
  - by apply carries_more.
Qed.

Lemma returns_yaml {A} (f : A → outcome string) x : returns (λ yaml, f x = Ok yaml) (wrap_yaml (f x)).
Proof. apply returns_bwrap, returns_lift. Qed.

Lemma server_configures c y files yaml :
  kind ≠ JoinWorker → cfg_Spec c = cfg_Spec c0 → config_complete (cs_AgentConfig (cfg_Spec c)) (y, files) →
  yaml_server y = Ok yaml → configures yaml files.
Proof. intros Hk Hc Hy Hyaml. rewrite Hc in Hy. unfold configures. destruct kind; [| |done]; exists y, files; done. Qed.

(** *** The three paths *)

Ltac good_step :=
  first
  [ apply good_condition | apply good_set_secret
  | apply good_reads, reads_init | apply good_reads, reads_join | apply good_reads, reads_worker
  | apply good_reads, reads_token_value | apply good_reads, reads_get_token
  | lazymatch goal with
    | |- keeps_inv _ (bapi ?c) => apply (inv_bapi _ c); intros ? ?; by apply good_other
    | |- keeps_inv _ (block ?c _) => apply (inv_block _ c); intros ? ?; by apply good_other
    | |- keeps_inv _ (c ← get_cfg; _) => apply good_get_cfg; intros ? ?
    end
  | inv_step ].

Lemma good_token s : keeps_inv good (registration_token s).
Proof.
  unfold registration_token, generateAndStoreToken, createSecretFromObject. repeat first [ good_step
    | lazymatch goal with
      | |- keeps_inv _ (bapi (BCreateSecret ?t)) => apply (inv_bapi _ (BCreateSecret t)); intros ? ?;
          apply good_log; intros ? [[= <-]|[=]]; intros Hf; cbn in Hf;
          rewrite lookup_singleton_ne in Hf by discriminate; by destruct Hf
      end ].
Qed.

Lemma good_server_path s url version manifests cp token certificates c
    (generate : ServerConfigOpts → B (YamlServerConfig * list File)) (k : B Result) :
  kind ≠ JoinWorker → cfg_Spec c = cfg_Spec c0 →
  (∀ opts, reads is_read (generate opts)) →
  (∀ opts, returns (config_complete (so_AgentConfig opts)) (generate opts)) →
  keeps_inv good k →
  keeps_inv good ('(config, configFiles) ← generate (server_opts s cp c token url version);
    yaml ← wrap_yaml (yaml_server config);
    _ ← make_user_data s kind manifests yaml version configFiles certificates; k).
Proof.
  intros Hk Hc Hr Hq Hend. apply (good_bind _ _ _ (good_reads _ (Hr _)) (Hq _)). intros [y files] Hy.
  apply (good_bind (λ yaml, yaml_server y = Ok yaml)).
  - unfold wrap_yaml. inv_auto.
  - apply returns_yaml.
  - intros yaml Hyaml. apply inv_bind; [|intros _; exact Hend].
    apply good_user_data. by eapply server_configures.
Qed.

Lemma good_init s cp : kind = InitControlPlane → keeps_inv good (init_control_plane s cp).
Proof.
  intros Hk. unfold init_control_plane. rewrite <-Hk. apply inv_bind; [good_step; good_step|].
  intros [certificates|e]; [|apply inv_bind; [good_step|intros _; apply inv_fail]].
  apply inv_bind; [good_step|]. intros _. apply inv_bind; [apply good_token|]. intros token.
  apply inv_bind; [apply inv_lift|]. intros version. apply good_get_cfg. intros c Hc.
  apply good_server_path; [by rewrite Hk|done|apply reads_init|apply init_complete|apply inv_ret].
Qed.

Lemma good_join s cp : kind = JoinControlPlane → keeps_inv good (joinControlplane s cp).
Proof.
  intros Hk. unfold joinControlplane. rewrite <-Hk. apply inv_bind; [good_step|]. intros token.
  destruct (elems _) as [|ip ips]; [apply inv_ret|]. apply inv_bind; [apply inv_lift|]. intros version.
  apply good_get_cfg. intros c Hc.
  apply good_server_path; [by rewrite Hk|done|apply reads_join|apply join_complete|].
  apply inv_bind; [good_step|]. intros _. apply inv_ret.
Qed.

Lemma good_worker s cp : kind = JoinWorker → keeps_inv good (joinWorker s cp).
Proof.
  intros Hk. unfold joinWorker. rewrite <-Hk. apply inv_bind; [good_step|]. intros token.
  destruct (elems _) as [|ip ips]; [apply inv_ret|]. apply inv_bind; [apply inv_lift|]. intros version.
  apply good_get_cfg. intros c Hc. rewrite Hc.
  apply (good_bind _ _ _ (good_reads _ (reads_worker _)) (worker_complete _)). intros [y files] Hy.
  apply (good_bind (λ yaml, yaml_agent y = Ok yaml)); [unfold wrap_yaml; inv_auto|apply returns_yaml|].
  intros yaml Hyaml. apply inv_bind; [|intros _; apply inv_bind; [good_step|intros _; apply inv_ret]].
  apply good_user_data. unfold configures. rewrite Hk. by exists y, files.
Qed.

Lemma good_handle s : kind = InitControlPlane → keeps_inv good (handleClusterNotInitialized s).
Proof.
  intros Hk. unfold handleClusterNotInitialized.
  repeat first [ by apply good_init | apply inv_defer; [|intros ?; unfold unlock_on_error] | good_step ].
Qed.

Lemma good_restore name : keeps_inv good (restore_status name).
Proof. unfold restore_status. repeat good_step. Qed.

Lemma good_run s : kind = kind_of s → keeps_inv good (reconcile_config s).
Proof.
  intros Hk. unfold reconcile_config. unfold kind_of in Hk.
  destruct (conditions_IsTrue (bc_Conditions (s_Cluster s)) ControlPlaneInitializedCondition);
    [destruct (s_Machine s) as [m|], (s_ControlPlane s) as [cp|]|]; cbn [negb];
    repeat first [ by apply good_handle | by apply good_join | by apply good_worker | apply good_restore | good_step ].
Qed.
End boot.

(** ** The claim *)


(** ** Samples *)

Definition boot_lib : BootstrapLib := {|
  config_IsPaused _ _ := false;
  SetSummaryCondition c := Ok c;
  yaml_server y := Ok ("server: " +:+ ya_Server (y_Agent y));
  yaml_agent a := Ok ("agent: " +:+ ya_Server a);
  yaml_registries _ := Ok "mirrors: {}";
  cloudinit_New := cloudinit;
  ignition_New := ignition_text;
  gzip d := Ok d;
  Bootstrap.EncapsulateGzippedConfig := EncapsulateGzippedConfig;
  ClusterSecretType := "cluster.x-k8s.io/secret"; ClusterSecretLabel := "cluster.x-k8s.io/cluster-name";
  ControlPlaneInitializedCondition := "ControlPlaneInitialized";
  AvailableReason := "Available"; NotAvailableReason := "NotAvailable"; InternalErrorReason := "InternalError";
  NodeUninitializedTaint := ("node.cluster.x-k8s.io/uninitialized", "NoSchedule");
  NodeUninitializedTaint_String := "node.cluster.x-k8s.io/uninitialized:NoSchedule";
  MatchTaint a b := bool_decide (a = b);
  cp_GroupVersion := "controlplane.cluster.x-k8s.io/v1beta2";
  bootstrap_Group := "bootstrap.cluster.x-k8s.io";
  ref_IsDefined r := bool_decide (r ≠ Build_ContractVersionedObjectReference "" "" "");
  MachinePool_enabled := true
|}.
Lemma boot_renderer : Renderer (H := boot_lib).
Proof. by split. Qed.

(** The first machine of a cluster: the secret it writes last. *)
Definition demo_boot : BWorld :=
  (@reconcile_config demo_benv plain_range plain_version_lib plain_config_lib list_conditions boot_lib
     (demo_scope demo_waiting_cluster) (Build_BWorld demo_config [])).2.
Definition demo_stored : Secret :=
  match b_log demo_boot with
  | (BCreateSecret sec, _) :: _ => sec
  | _ => Build_Secret "" "" ∅ (Build_OwnerReference "" "" "" "" None None) ∅ ""
  end.

(** Its files: the registries, and last the configuration. *)
Example demo_stored_files :
  map f_Path (default [] (read_write_files (default "" (sec_Data demo_stored !! "value")))) =
    [DefaultRKE2RegistriesLocation; DefaultRKE2ConfigLocation].
Proof. vm_compute. reflexivity. Qed.

