(* ===== verification/Memory.v ===== *)
(** * Memory: Go's variables, pointers, slices and maps

    The other files model an API object as a value, which is right as long as
    nobody changes an object that somebody else can see.  What makes it right
    are the deep copies the program takes before it changes anything, and those
    are about memory: which pointers, slices and maps two objects share.  This
    file models that memory: cells that hold a variable, the array behind a
    slice or a map, addresses of variables, of elements and of fields inside
    them, values that point into it, and the statements of Go that read, write
    and allocate.  A statement is a function of the heap; [None] is a panic
    (a nil pointer, an index out of range) or a program that is not typed. *)

From Stdlib Require Import String.
From stdpp Require Import base tactics option list gmap strings numbers.
From S2P Require Import Prelude Go.
Open Scope string_scope.
Open Scope list_scope.
Open Scope stdpp_scope.

(** ** Values and cells *)

Abbreviation loc := positive (only parsing).

(** The address of a variable ([a_idx = None]) or of an element of an array, or
    of a field inside it: [&x.Spec.Files], the address of an element. *)
Record addr : Type := Addr { a_loc : loc; a_idx : option nat; a_path : list string }.

(** A slice is an array, the offset of its first element and its length. *)
Inductive val : Type :=
| VBool (b : bool)
| VInt (z : Z)
| VStr (s : string)
| VPtr (p : option addr)
| VSlice (s : option (loc * nat * nat))
| VMap (m : option loc)
| VStruct (fs : list (string * val)).

Inductive cell : Type :=
| CVar (v : val)
| CArr (vs : list val)
| CMap (m : gmap string val).

Abbreviation heap := (gmap loc cell).

(** The types of Go as far as memory is concerned.  A struct type is its chain
    of fields. *)
Inductive ty : Type :=
| TBool | TInt | TStr
| TPtr (t : ty) | TSlice (t : ty) | TMap (t : ty)
| TEnd | TField (f : string) (t rest : ty).

Fixpoint struct (fs : list (string * ty)) : ty :=
  match fs with
  | [] => TEnd
  | (f, t) :: fs => TField f t (struct fs)
  end.

(** The zero value of a type, what [new] and [make] fill memory with. *)
Fixpoint zero (t : ty) : val :=
  match t with
  | TBool => VBool false
  | TInt => VInt 0
  | TStr => VStr ""
  | TPtr _ => VPtr None
  | TSlice _ => VSlice None
  | TMap _ => VMap None
  | TEnd => VStruct []
  | TField f t r =>
      match zero r with
      | VStruct fs => VStruct ((f, zero t) :: fs)
      | _ => VStruct [(f, zero t)]
      end
  end.

(** ** Fields and paths of fields *)

Fixpoint assoc (f : string) (fs : list (string * val)) : option val :=
  match fs with
  | [] => None
  | (g, v) :: fs => if decide (f = g) then Some v else assoc f fs
  end.

Fixpoint set_assoc (f : string) (x : val) (fs : list (string * val)) : list (string * val) :=
  match fs with
  | [] => []
  | (g, v) :: fs => if decide (f = g) then (g, x) :: fs else (g, v) :: set_assoc f x fs
  end.

Definition field (f : string) (v : val) : option val :=
  match v with VStruct fs => assoc f fs | _ => None end.

Definition put_field (f : string) (x : val) (v : val) : val :=
  match v with VStruct fs => VStruct (set_assoc f x fs) | _ => v end.

Fixpoint get (v : val) (p : list string) : option val :=
  match p with
  | [] => Some v
  | f :: p => x ← field f v; get x p
  end.

Fixpoint put (v : val) (p : list string) (x : val) : option val :=
  match p with
  | [] => Some x
  | f :: p => y ← field f v; y' ← put y p x; Some (put_field f y' v)
  end.

Definition cell_get (c : cell) (i : option nat) : option val :=
  match c, i with
  | CVar v, None => Some v
  | CArr vs, Some k => vs !! k
  | _, _ => None
  end.

Definition cell_put (c : cell) (i : option nat) (x : val) : option cell :=
  match c, i with
  | CVar _, None => Some (CVar x)
  | CArr vs, Some k => if decide (k < length vs) then Some (CArr (<[k := x]> vs)) else None
  | _, _ => None
  end.

(** What is at an address, and the heap with something else there. *)
Definition read (h : heap) (a : addr) : option val :=
  c ← h !! a_loc a; v ← cell_get c (a_idx a); get v (a_path a).

Definition write (h : heap) (a : addr) (x : val) : option heap :=
  c ← h !! a_loc a;
  v ← cell_get c (a_idx a);
  v' ← put v (a_path a) x;
  c' ← cell_put c (a_idx a) v';
  Some (<[a_loc a := c']> h).

(** [&x.f], and [&s[k]] for a slice. *)
Definition sel (a : addr) (f : string) : addr :=
  Addr (a_loc a) (a_idx a) (a_path a ++ [f]).

Definition elem_at (l : loc) (off k : nat) : addr := Addr l (Some (off + k)) [].

(** ** Statements *)

Definition M (A : Type) : Type := heap → option (A * heap).

Global Instance M_ret : MRet M := λ A x h, Some (x, h).
Global Instance M_bind : MBind M := λ A B f m h,
  match m h with Some (x, h') => f x h' | None => None end.

Definition panic {A} : M A := λ _, None.

Definition load (a : addr) : M val := λ h, v ← read h a; Some (v, h).
Definition store (a : addr) (x : val) : M unit := λ h, h' ← write h a x; Some (tt, h').

Definition fresh_loc (h : heap) : loc := fresh (dom h : gset positive).
Definition alloc (c : cell) : M loc := λ h, Some (fresh_loc h, <[fresh_loc h := c]> h).

(** [new(T)], and the variable that holds a value. *)
Definition new_var (v : val) : M addr := l ← alloc (CVar v); mret (Addr l None []).
Definition new (t : ty) : M addr := new_var (zero t).

(** The target of a pointer; nil panics. *)
Definition deref (v : val) : M addr :=
  match v with VPtr (Some a) => mret a | _ => panic end.

(** The array, offset and length of a slice that is not nil. *)
Definition slice_of (v : val) : M (loc * nat * nat) :=
  match v with VSlice (Some s) => mret s | _ => panic end.

(** [len] of a slice. *)
Definition len (v : val) : M nat :=
  match v with VSlice (Some (_, _, n)) => mret n | VSlice None => mret 0 | _ => panic end.

(** [&s[k]]: out of range panics. *)
Definition index (v : val) (k : nat) : M addr :=
  '(l, off, n) ← slice_of v;
  if decide (k < n) then mret (elem_at l off k) else panic.

(** [make([]T, n)] and [make(map[string]T)]. *)
Definition make_slice (t : ty) (n : nat) : M val :=
  l ← alloc (CArr (replicate n (zero t))); mret (VSlice (Some (l, 0, n))).
Definition make_map : M val := l ← alloc (CMap ∅); mret (VMap (Some l)).

(** The entries of a map, in the order of this [range]. *)
Definition entries `{GoRange} (v : val) : M (list (string * val)) := λ h,
  match v with
  | VMap None => Some ([], h)
  | VMap (Some l) => match h !! l with Some (CMap m) => Some (go_range 0 m, h) | _ => None end
  | _ => None
  end.

(** [m[k] = x]: a nil map panics. *)
Definition set_key (v : val) (k : string) (x : val) : M unit := λ h,
  match v with
  | VMap (Some l) =>
      match h !! l with Some (CMap m) => Some (tt, <[l := CMap (<[k := x]> m)]> h) | _ => None end
  | _ => None
  end.

Definition is_nil (v : val) : bool :=
  match v with VPtr None | VSlice None | VMap None => true | _ => false end.

(** [for i := 0; i < n; i++ { body i }]. *)
Fixpoint for_range (k n : nat) (body : nat → M unit) : M unit :=
  match n with
  | 0 => mret ()
  | S n => body k ≫= λ _, for_range (S k) n body
  end.

Fixpoint for_each {A} (l : list A) (body : A → M unit) : M unit :=
  match l with
  | [] => mret ()
  | x :: l => body x ≫= λ _, for_each l body
  end.

(** ** The equations of reading and writing *)

Lemma M_bind_some {A B} (m : M A) (f : A → M B) h x h' :
  m h = Some (x, h') → (m ≫= f) h = f x h'.
Proof. intros E. unfold mbind, M_bind. by rewrite E. Qed.

Lemma assoc_set f x fs y : assoc f fs = Some y → assoc f (set_assoc f x fs) = Some x.
Proof.
  induction fs as [|[g v] fs IH]; simpl; [done|].
  case_decide; simpl; [by rewrite decide_True|]. rewrite decide_False by done. apply IH.
Qed.

Lemma assoc_set_ne f g x fs : f ≠ g → assoc f (set_assoc g x fs) = assoc f fs.
Proof.
  intros Hne. induction fs as [|[k v] fs IH]; simpl; [done|].
  case_decide; simplify_eq; simpl.
  - rewrite !decide_False by done. done.
  - case_decide; [done|apply IH].
Qed.

Lemma set_assoc_set f x y fs : set_assoc f y (set_assoc f x fs) = set_assoc f y fs.
Proof.
  induction fs as [|[g v] fs IH]; simpl; [done|].
  case_decide; simpl; [by rewrite decide_True|]. rewrite decide_False by done. by rewrite IH.
Qed.

Lemma set_assoc_id f x fs : assoc f fs = Some x → set_assoc f x fs = fs.
Proof.
  induction fs as [|[g v] fs IH]; simpl; [done|].
  case_decide; intros; simplify_eq; [done|]. by rewrite IH.
Qed.

Lemma field_set f x v y : field f v = Some y → field f (put_field f x v) = Some x.
Proof. destruct v; simpl; try done. apply assoc_set. Qed.

Lemma field_set_ne f g x v : f ≠ g → field f (put_field g x v) = field f v.
Proof. intros. destruct v; simpl; try done. by apply assoc_set_ne. Qed.

Lemma put_field_put f x y v : put_field f y (put_field f x v) = put_field f y v.
Proof. destruct v; simpl; try done. by rewrite set_assoc_set. Qed.

Lemma put_field_id f x v : field f v = Some x → put_field f x v = v.
Proof. destruct v; simpl; try done. intros. by rewrite set_assoc_id. Qed.

Lemma get_app v p q : get v (p ++ q) = x ← get v p; get x q.
Proof.
  revert v. induction p as [|f p IH]; intros v; simpl; [done|].
  destruct (field f v); simpl; [apply IH|done].
Qed.

Lemma put_some v p x y : get v p = Some y → ∃ v', put v p x = Some v'.
Proof.
  revert v. induction p as [|f p IH]; intros v; simpl; [eauto|].
  destruct (field f v) as [z|]; simpl; [|done]. intros [z' ->]%IH. simpl. eauto.
Qed.

Lemma get_put v p x v' : put v p x = Some v' → get v' p = Some x.
Proof.
  revert v v'. induction p as [|f p IH]; intros v v'; simpl; [by intros; simplify_eq|].
  destruct (field f v) as [z|] eqn:Ez; simpl; [|done].
  destruct (put z p x) as [z'|] eqn:E; simpl; [|done]. intros. simplify_eq.
  rewrite (field_set f z' v z Ez). simpl. by eapply IH.
Qed.

Lemma put_put v p x y v' : put v p x = Some v' → put v' p y = put v p y.
Proof.
  revert v v'. induction p as [|f p IH]; intros v v'; simpl; [done|].
  destruct (field f v) as [z|] eqn:Ez; simpl; [|done].
  destruct (put z p x) as [z'|] eqn:E; simpl; [|done]. intros. simplify_eq.
  rewrite (field_set f z' v z Ez). simpl. rewrite (IH z z' E).
  destruct (put z p y); simpl; [|done]. by rewrite put_field_put.
Qed.

Lemma put_get v p x : get v p = Some x → put v p x = Some v.
Proof.
  revert v. induction p as [|f p IH]; intros v; simpl; [by intros; simplify_eq|].
  destruct (field f v) as [z|] eqn:Ez; simpl; [|done].
  intros ->%IH. simpl. by rewrite put_field_id.
Qed.

Lemma put_app v p q x y : get v p = Some y →
  put v (p ++ q) x = y' ← put y q x; put v p y'.
Proof.
  revert v. induction p as [|f p IH]; intros v; simpl.
  - intros. simplify_eq. by destruct (put y q x).
  - destruct (field f v) as [z|] eqn:Ez; simpl; [|done].
    intros E. rewrite (IH z E). by destruct (put y q x); simpl.
Qed.

Lemma cell_put_some c i v x : cell_get c i = Some v → ∃ c', cell_put c i x = Some c'.
Proof.
  destruct c, i; simpl; try done; eauto.
  intros H%lookup_lt_Some. rewrite decide_True by done. eauto.
Qed.

Lemma cell_get_put c i x c' : cell_put c i x = Some c' → cell_get c' i = Some x.
Proof.
  destruct c, i; simpl; try done; intros; try case_decide; simplify_eq; simpl; [done|].
  by apply list_lookup_insert_eq.
Qed.

Lemma cell_put_put c i x y c' : cell_put c i x = Some c' → cell_put c' i y = cell_put c i y.
Proof.
  destruct c, i; simpl; try done; intros; try case_decide; simplify_eq; simpl; [done|].
  rewrite length_insert, decide_True by done. by rewrite list_insert_insert_eq.
Qed.

Lemma cell_put_get c i x : cell_get c i = Some x → cell_put c i x = Some c.
Proof.
  destruct c, i; simpl; try done; intros H; [by simplify_eq|].
  rewrite decide_True by by eapply lookup_lt_Some. by rewrite list_insert_id.
Qed.

Section read_write.
Implicit Types (h : heap) (a b : addr) (x y : val).

(** Decompose a read and a write. *)
Lemma read_inv h a x : read h a = Some x →
  ∃ c v, h !! a_loc a = Some c ∧ cell_get c (a_idx a) = Some v ∧ get v (a_path a) = Some x.
Proof.
  unfold read. intros (c & ? & (v & ? & ?)%bind_Some)%bind_Some. eauto.
Qed.

Lemma write_inv h a x h' : write h a x = Some h' →
  ∃ c v v' c', h !! a_loc a = Some c ∧ cell_get c (a_idx a) = Some v ∧
    put v (a_path a) x = Some v' ∧ cell_put c (a_idx a) v' = Some c' ∧
    h' = <[a_loc a := c']> h.
Proof.
  unfold write.
  intros (c & ? & (v & ? & (v' & ? & (c' & ? & ?)%bind_Some)%bind_Some)%bind_Some)%bind_Some.
  simplify_eq. eauto 10.
Qed.

Lemma write_some h a x y : read h a = Some y → ∃ h', write h a x = Some h'.
Proof.
  intros (c & v & E1 & E2 & E3)%read_inv. unfold write. rewrite E1. simpl. rewrite E2. simpl.
  destruct (put_some v (a_path a) x y E3) as [v' ->]. simpl.
  destruct (cell_put_some c (a_idx a) v v' E2) as [c' ->]. simpl. eauto.
Qed.

Lemma read_write h a x h' : write h a x = Some h' → read h' a = Some x.
Proof.
  intros (c & v & v' & c' & E1 & E2 & E3 & E4 & ->)%write_inv.
  unfold read. rewrite lookup_insert_eq. simpl.
  rewrite (cell_get_put _ _ _ _ E4). simpl. by eapply get_put.
Qed.

Lemma write_write h a x y h' : write h a x = Some h' → write h' a y = write h a y.
Proof.
  intros (c & v & v' & c' & E1 & E2 & E3 & E4 & ->)%write_inv.
  unfold write. rewrite lookup_insert_eq, E1. simpl.
  rewrite (cell_get_put _ _ _ _ E4), E2. simpl. rewrite (put_put _ _ _ y _ E3).
  destruct (put v (a_path a) y) as [w|]; simpl; [|done]. rewrite (cell_put_put _ _ _ _ _ E4).
  destruct (cell_put c (a_idx a) w); simpl; [|done]. f_equal. apply insert_insert_eq.
Qed.

Lemma write_read h a x : read h a = Some x → write h a x = Some h.
Proof.
  intros (c & v & E1 & E2 & E3)%read_inv. unfold write. rewrite E1. simpl. rewrite E2. simpl.
  rewrite (put_get _ _ _ E3). simpl. rewrite (cell_put_get _ _ _ E2). simpl.
  by rewrite insert_id.
Qed.

Lemma read_sel h a f : read h (sel a f) = v ← read h a; field f v.
Proof.
  unfold read, sel. simpl. destruct (h !! a_loc a); simpl; [|done].
  destruct (cell_get _ _); simpl; [|done]. rewrite get_app.
  destruct (get _ _) as [v'|]; simpl; [|done]. by destruct (field f v').
Qed.

Lemma write_sel h a f v x y : read h a = Some v → field f v = Some y →
  write h (sel a f) x = write h a (put_field f x v).
Proof.
  intros (c & w & E1 & E2 & E3)%read_inv Ef. unfold write, sel. simpl.
  rewrite E1. simpl. rewrite E2. simpl. rewrite (put_app _ _ _ _ v E3). simpl.
  rewrite Ef. simpl. done.
Qed.

Lemma write_ne h a x h' l : write h a x = Some h' → l ≠ a_loc a → h' !! l = h !! l.
Proof.
  intros (c & v & v' & c' & _ & _ & _ & _ & ->)%write_inv Hne. by apply lookup_insert_ne.
Qed.

Lemma write_dom h a x h' : write h a x = Some h' → (dom h' : gset positive) = dom h.
Proof.
  intros (c & v & v' & c' & E1 & _ & _ & _ & ->)%write_inv.
  apply dom_insert_lookup_L. eauto.
Qed.

Lemma write_none h a x h' l : write h a x = Some h' → h' !! l = None ↔ h !! l = None.
Proof. intros H. by rewrite <-!(not_elem_of_dom (D := gset positive)), (write_dom _ _ _ _ H). Qed.

Lemma read_mono h h' a x : h ⊆ h' → read h a = Some x → read h' a = Some x.
Proof.
  intros Hs (c & v & E1 & E2 & E3)%read_inv. unfold read.
  rewrite (lookup_weaken _ _ _ _ E1 Hs). simpl. by rewrite E2.
Qed.

Lemma write_mono h1 h2 a x h1' : h1 ⊆ h2 → write h1 a x = Some h1' →
  ∃ h2', write h2 a x = Some h2' ∧ h1' ⊆ h2'.
Proof.
  intros Hs (c & v & v' & c' & E1 & E2 & E3 & E4 & ->)%write_inv.
  exists (<[a_loc a := c']> h2). split; [|by apply insert_mono].
  unfold write. rewrite (lookup_weaken _ _ _ _ E1 Hs). simpl. rewrite E2. simpl.
  rewrite E3. simpl. by rewrite E4.
Qed.

(** A read depends on one cell. *)
Lemma read_agree h h' a : h !! a_loc a = h' !! a_loc a → read h a = read h' a.
Proof. unfold read. by intros ->. Qed.

Lemma read_loc h a x : read h a = Some x → is_Some (h !! a_loc a).
Proof. intros (c & _ & E & _)%read_inv. eauto. Qed.

Lemma fresh_loc_none h : h !! fresh_loc h = None.
Proof. apply (not_elem_of_dom (D := gset positive)). unfold fresh_loc. apply is_fresh. Qed.

Lemma alloc_sub h c : h ⊆ <[fresh_loc h := c]> h.
Proof. apply insert_subseteq, fresh_loc_none. Qed.

Lemma loc_fresh_ne h a x : read h a = Some x → a_loc a ≠ fresh_loc h.
Proof. intros [c E]%read_loc Heq. rewrite Heq, fresh_loc_none in E. done. Qed.

End read_write.
