(* ===== verification/DeepCopy.v ===== *)
(** * DeepCopy: the statements of a deep copy, and what a deep copy promises

    The generated functions [DeepCopyInto] and [DeepCopy] are sequences of a
    few kinds of statements, which are definitions here.  What they promise
    ([deep_copies]) is stated for any type: the copy has the same contents
    ([deep_equal], which is reflect.DeepEqual) and all memory it points to is
    new.  One lemma per kind of statement and one for a struct ([covers]: every
    field that holds a pointer, a slice or a map has a statement that copies
    it) give the promise for each generated function by going through its
    fields. *)

From Stdlib Require Import String.
From stdpp Require Import base tactics option strings numbers gmap list.
From S2P Require Import Prelude Go Memory.
Open Scope string_scope.
Open Scope list_scope.
Open Scope stdpp_scope.

(** ** The statements *)

(** [*out = *in], also [out.F = in.F] and [**out = **in] at other addresses. *)
Definition assign (i o : addr) : M unit := v ← load i; store o v.

(** A DeepCopyInto: the receiver and the argument are addresses. *)
Abbreviation copier := (addr → addr → M unit) (only parsing).

(** [if in != nil { *out = new(T); D }], where [D] copies from the target of
    one pointer to the target of the other. *)
Definition ptr_into (t : ty) (D : copier) : copier := λ i o,
  v ← load i;
  if is_nil v then mret () else
  b ← new t; store o (VPtr (Some b)) ≫= λ _,
  p ← load i ≫= deref; q ← load o ≫= deref; D p q.

Definition ptr_assign (t : ty) : copier := ptr_into t assign.

(** [if in != nil { *out = make([]T, len); for i := range { D } }]. *)
Definition slice_into (t : ty) (D : copier) : copier := λ i o,
  v ← load i;
  if is_nil v then mret () else
  n ← len v; s ← make_slice t n; store o s ≫= λ _,
  for_range 0 n (λ k,
    x ← load i; p ← index x k; y ← load o; q ← index y k; D p q).

(** [if in != nil { *out = make([]T, len); copy }]: the builtin copy moves
    elements while both slices have one. *)
Definition copy_slice (i o : addr) : M unit :=
  x ← load i; y ← load o; n ← len x; m ← len y;
  for_range 0 (n `min` m) (λ k, p ← index x k; q ← index y k; assign p q).

Definition slice_copy (t : ty) : copier := λ i o,
  v ← load i;
  if is_nil v then mret () else
  n ← len v; s ← make_slice t n; store o s ≫= λ _, copy_slice i o.

(** [DeepCopy]: nil for nil. *)
Definition DeepCopy (t : ty) (D : copier) (i : option addr) : M (option addr) :=
  match i with
  | None => mret None
  | Some i => o ← new t; D i o ≫= λ _, mret (Some o)
  end.

(** [DeepCopyObject]: the copy as a runtime.Object, an interface value with the
    type of what it points to.  A nil pointer gives the nil interface. *)
Definition DeepCopyObject (name : string) (copy : option addr → M (option addr))
    (i : option addr) : M (option (string * addr)) :=
  c ← copy i;
  match c with Some c => mret (Some (name, c)) | None => mret None end.

(** [*val.DeepCopy()] for the variable of a loop. *)
Definition deref_copy (t : ty) (D : copier) (v : val) : M val :=
  b ← new_var v; c ← DeepCopy t D (Some b); c' ← deref (VPtr c); load c'.

Section maps.
Context `{GoRange}.

(** [if in != nil { *out = make(map[string]T, len); for key, val := range { out[key] = F val } }]. *)
Definition map_into (F : val → M val) : copier := λ i o,
  v ← load i;
  if is_nil v then mret () else
  m ← make_map; store o m ≫= λ _,
  es ← load i ≫= entries;
  for_each es (λ '(k, x), x' ← F x; y ← load o; set_key y k x').

(** [out[key] = val], and [out[key] = *val.DeepCopy()]. *)
Definition map_assign : copier := map_into mret.
Definition map_deep (t : ty) (D : copier) : copier := map_into (deref_copy t D).
End maps.

(** The statements of a DeepCopyInto after its [*out = *in]: each works on one
    field of both objects. *)
Fixpoint on_fields (ss : list (string * copier)) (i o : addr) : M unit :=
  match ss with
  | [] => mret ()
  | (f, F) :: ss => F (sel i f) (sel o f) ≫= λ _, on_fields ss i o
  end.

Definition copy_struct (ss : list (string * copier)) : copier := λ i o,
  assign i o ≫= λ _, on_fields ss i o.

(** ** Equal contents and shared memory *)

(** The contents of [v] in [h] and of [v'] in [h'] are the same: reflect.DeepEqual. *)
Fixpoint deep_equal (t : ty) (h : heap) (v : val) (h' : heap) (v' : val) : Prop :=
  match t with
  | TBool => ∃ b, v = VBool b ∧ v' = VBool b
  | TInt => ∃ z, v = VInt z ∧ v' = VInt z
  | TStr => ∃ s, v = VStr s ∧ v' = VStr s
  | TPtr t =>
      (v = VPtr None ∧ v' = VPtr None) ∨
      (∃ a a' x x', v = VPtr (Some a) ∧ v' = VPtr (Some a') ∧
        read h a = Some x ∧ read h' a' = Some x' ∧ deep_equal t h x h' x')
  | TSlice t =>
      (v = VSlice None ∧ v' = VSlice None) ∨
      (∃ l off l' off' n, v = VSlice (Some (l, off, n)) ∧ v' = VSlice (Some (l', off', n)) ∧
        is_Some (h !! l) ∧ is_Some (h' !! l') ∧
        ∀ k, k < n → ∃ x x', read h (elem_at l off k) = Some x ∧
          read h' (elem_at l' off' k) = Some x' ∧ deep_equal t h x h' x')
  | TMap t =>
      (v = VMap None ∧ v' = VMap None) ∨
      (∃ l l' m m', v = VMap (Some l) ∧ v' = VMap (Some l') ∧
        h !! l = Some (CMap m) ∧ h' !! l' = Some (CMap m') ∧
        ∀ k, (m !! k = None ∧ m' !! k = None) ∨
             (∃ x x', m !! k = Some x ∧ m' !! k = Some x' ∧ deep_equal t h x h' x'))
  | TEnd => (∃ fs, v = VStruct fs) ∧ (∃ fs, v' = VStruct fs)
  | TField f t r =>
      (∃ x x', field f v = Some x ∧ field f v' = Some x' ∧ deep_equal t h x h' x') ∧
      deep_equal r h v h' v'
  end.

(** The value has the type and everything it points to is there. *)
Definition typed (t : ty) (h : heap) (v : val) : Prop := deep_equal t h v h v.

(** The value points to the memory at [l], maybe through other memory. *)
Fixpoint reaches (t : ty) (h : heap) (v : val) (l : loc) : Prop :=
  match t with
  | TBool | TInt | TStr | TEnd => False
  | TPtr t =>
      ∃ a, v = VPtr (Some a) ∧ (l = a_loc a ∨ ∃ x, read h a = Some x ∧ reaches t h x l)
  | TSlice t =>
      ∃ l0 off n, v = VSlice (Some (l0, off, n)) ∧
        (l = l0 ∨ ∃ k x, k < n ∧ read h (elem_at l0 off k) = Some x ∧ reaches t h x l)
  | TMap t =>
      ∃ l0, v = VMap (Some l0) ∧
        (l = l0 ∨ ∃ m k x, h !! l0 = Some (CMap m) ∧ m !! k = Some x ∧ reaches t h x l)
  | TField f t r => (∃ x, field f v = Some x ∧ reaches t h x l) ∨ reaches r h v l
  end.

(** The values of the type hold no pointer, slice or map. *)
Fixpoint flat (t : ty) : bool :=
  match t with
  | TBool | TInt | TStr | TEnd => true
  | TPtr _ | TSlice _ | TMap _ => false
  | TField _ t r => flat t && flat r
  end.

(** *** Both depend only on the memory the value reaches *)

Definition agree (P : loc → Prop) (h h' : heap) : Prop := ∀ l, P l → h !! l = h' !! l.

Lemma reaches_agree t h h' v : agree (reaches t h v) h h' →
  ∀ l, reaches t h' v l ↔ reaches t h v l.
Proof.
  revert v. induction t as [| | |t IH|t IH|t IH| |f t IHt r IHr]; intros v Ha l; simpl; try done.
  - f_equiv; intros a. split; intros [-> Hr]; (split; [done|]);
      (assert (read h a = read h' a) as E by (apply read_agree, Ha; simpl; eauto));
      (destruct Hr as [->|(x & Ex & Hx)]; [by left|right; exists x]);
      [rewrite E|rewrite <-E]; (split; [done|]); (apply (IH x); [|done]);
      intros l' ?; apply Ha; simpl; (exists a; split; [done|]); right; exists x; (split; [congruence|done]).
  - f_equiv; intros l0; f_equiv; intros off; f_equiv; intros n.
    split; intros [-> Hr]; (split; [done|]);
      (assert (∀ k, read h (elem_at l0 off k) = read h' (elem_at l0 off k)) as E
        by (intros k; apply read_agree, Ha; simpl; eauto 10));
      (destruct Hr as [->|(k & x & Hk & Ex & Hx)]; [by left|right; exists k, x]);
      (split; [done|]);
      [rewrite E|rewrite <-E]; (split; [done|]); (apply (IH x); [|done]);
      intros l' ?; apply Ha; simpl; (exists l0, off, n; split; [done|]); right; exists k, x;
      (split; [done|]); (split; [specialize (E k); congruence|done]).
  - f_equiv; intros l0.
    split; intros [-> Hr]; (split; [done|]);
      (assert (h !! l0 = h' !! l0) as E by (apply Ha; simpl; eauto));
      (destruct Hr as [->|(m & k & x & Em & Ek & Hx)]; [by left|right; exists m, k, x]);
      [rewrite E|rewrite <-E]; (split; [done|]); (split; [done|]); (apply (IH x); [|done]);
      intros l' ?; apply Ha; simpl; (exists l0; split; [done|]); right; exists m, k, x;
      (split; [congruence|done]).
  - assert (∀ l, reaches r h' v l ↔ reaches r h v l) as Er.
    { apply IHr. intros l' ?. apply Ha. simpl. by right. }
    rewrite Er. split; (intros [(x & Ex & Hx)|?]; [|by right]); left; exists x; (split; [done|]);
      (apply (IHt x); [|done]); intros l' ?; apply Ha; simpl; left; eauto.
Qed.

Lemma deep_equal_agree t h1 h2 h1' h2' v v' :
  agree (reaches t h1 v) h1 h2 → agree (reaches t h1' v') h1' h2' →
  deep_equal t h1 v h1' v' → deep_equal t h2 v h2' v'.
Proof.
  revert v v'.
  induction t as [| | |t IH|t IH|t IH| |f t IHt r IHr]; intros v v' Ha Ha'; simpl; try done.
  - intros [?|(a & a' & x & x' & -> & -> & Ex & Ex' & He)]; [by left|right].
    exists a, a', x, x'. split_and!; [done|done| | |].
    + rewrite <-Ex. symmetry. apply read_agree, Ha. simpl. eauto.
    + rewrite <-Ex'. symmetry. apply read_agree, Ha'. simpl. eauto.
    + revert He. apply IH; intros l ?; [apply Ha|apply Ha']; simpl; eauto 10.
  - intros [?|(l & off & l' & off' & n & -> & -> & Hl & Hl' & He)]; [by left|right].
    assert (h1 !! l = h2 !! l) as E by (apply Ha; simpl; eauto 10).
    assert (h1' !! l' = h2' !! l') as E' by (apply Ha'; simpl; eauto 10).
    exists l, off, l', off', n. split_and!; [done|done|congruence|congruence|].
    intros k Hk. destruct (He k Hk) as (x & x' & Ex & Ex' & Hx). exists x, x'. split_and!.
    + rewrite <-Ex. by apply read_agree.
    + rewrite <-Ex'. by apply read_agree.
    + revert Hx. apply IH; intros j ?; [apply Ha|apply Ha']; simpl; eauto 15.
  - intros [?|(l & l' & m & m' & -> & -> & Em & Em' & He)]; [by left|right].
    exists l, l', m, m'. split_and!; [done|done| | |].
    + rewrite <-Em. symmetry. apply Ha. simpl. eauto.
    + rewrite <-Em'. symmetry. apply Ha'. simpl. eauto.
    + intros k. destruct (He k) as [?|(x & x' & Ex & Ex' & Hx)]; [by left|right].
      exists x, x'. split_and!; [done|done|].
      revert Hx. apply IH; intros j ?; [apply Ha|apply Ha']; simpl; eauto 15.
  - intros [(x & x' & Ex & Ex' & Hx) Hr]. split.
    + exists x, x'. split_and!; [done|done|].
      revert Hx. apply IHt; intros j ?; [apply Ha|apply Ha']; simpl; eauto.
    + revert Hr. apply IHr; intros j ?; [apply Ha|apply Ha']; simpl; eauto.
Qed.

(** What is the same as something has the type. *)
Lemma deep_equal_typed t h v h' v' : deep_equal t h v h' v' → typed t h v.
Proof.
  unfold typed. revert v v'.
  induction t as [| | |t IH|t IH|t IH| |f t IHt r IHr]; intros v v'; simpl.
  - naive_solver.
  - naive_solver.
  - naive_solver.
  - intros [[? ?]|(a & a' & x & x' & ? & ? & ? & ? & ?)]; [by left|]. right. eauto 10.
  - intros [[? ?]|(l & off & l' & off' & n & ? & ? & ? & ? & He)]; [by left|]. right.
    exists l, off, l, off, n. split_and!; try done.
    intros k (x & x' & ? & ? & ?)%He. eauto 10.
  - intros [[? ?]|(l & l' & m & m' & ? & ? & ? & ? & He)]; [by left|]. right.
    exists l, l, m, m. split_and!; try done.
    intros k. destruct (He k) as [[? ?]|(x & x' & ? & ? & ?)]; [by left|right]. eauto 10.
  - naive_solver.
  - intros [(x & x' & ? & ? & ?) ?]. split; eauto 10.
Qed.

Lemma deep_equal_sym t h v h' v' : deep_equal t h v h' v' → deep_equal t h' v' h v.
Proof. revert v v'. induction t; intros v v'; simpl; naive_solver. Qed.

Lemma flat_reaches t h v l : flat t = true → ¬ reaches t h v l.
Proof.
  revert v. induction t as [| | |t IH|t IH|t IH| |f t IHt r IHr]; intros v; simpl; try done.
  - intros _ [].
  - intros _ [].
  - intros _ [].
  - intros _ [].
  - intros [Ht Hr]%andb_prop [(x & _ & Hx)|Hx]; [by apply (IHt x Ht)|by apply (IHr v Hr)].
Qed.

Lemma flat_deep_equal t h h' v : flat t = true → typed t h v → deep_equal t h v h' v.
Proof.
  intros Hf. apply deep_equal_agree; [done|].
  intros l []%(flat_reaches t h v l Hf).
Qed.

(** ** What a deep copy promises

    From an object of the type to memory that is somewhere else: the statement
    does not panic, writes nothing but the target and new memory, and leaves in
    the target a value with the same contents that points to new memory only. *)

Definition apart (t : ty) (h : heap) (v : val) (i o : addr) : Prop :=
  a_loc i ≠ a_loc o ∧ ¬ reaches t h v (a_loc o).

Definition all_new (t : ty) (h h' : heap) (v : val) : Prop :=
  ∀ l, reaches t h' v l → h !! l = None.

Definition copied (t : ty) (h : heap) (v : val) (o : addr) (h' : heap) : Prop :=
  ∃ h1 v', write h o v' = Some h1 ∧ h1 ⊆ h' ∧ deep_equal t h v h' v' ∧ all_new t h h' v'.

Definition deep_copies (t : ty) (D : addr → addr → M unit) : Prop :=
  ∀ h i o v w, read h i = Some v → read h o = Some w → typed t h v → apart t h v i o →
    ∃ h', D i o h = Some (tt, h') ∧ copied t h v o h'.

(** The statement of a field runs when the target already holds the value of
    the source, after [*out = *in]. *)
Definition fills (t : ty) (F : addr → addr → M unit) : Prop :=
  ∀ h i o v, read h i = Some v → read h o = Some v → typed t h v → apart t h v i o →
    ∃ h', F i o h = Some (tt, h') ∧ copied t h v o h'.

Lemma deep_copies_fills t D : deep_copies t D → fills t D.
Proof. intros HD h i o v Hi Ho. by eapply HD. Qed.

(** *** Steps of the proofs *)

Lemma bind_load {A} (f : val → M A) h a x :
  read h a = Some x → (load a ≫= f) h = f x h.
Proof. intros E. apply M_bind_some. unfold load. by rewrite E. Qed.

Lemma bind_store {A} (f : unit → M A) h a x h' :
  write h a x = Some h' → (store a x ≫= f) h = f tt h'.
Proof. intros E. apply M_bind_some. unfold store. by rewrite E. Qed.

Lemma bind_ret {A B} (f : A → M B) x h : (mret x ≫= f) h = f x h.
Proof. done. Qed.

Lemma bind_assoc {A B C} (m : M A) (f : A → M B) (g : B → M C) h :
  ((m ≫= f) ≫= g) h = (m ≫= λ x, f x ≫= g) h.
Proof. unfold mbind, M_bind. by destruct (m h) as [[? ?]|]. Qed.

Lemma bind_new_var {A} (f : addr → M A) v h :
  (new_var v ≫= f) h = f (Addr (fresh_loc h) None []) (<[fresh_loc h := CVar v]> h).
Proof. done. Qed.

(** Memory that was there is as before, but for the target. *)
Lemma copied_frame t h v o h' l c :
  copied t h v o h' → h !! l = Some c → l ≠ a_loc o → h' !! l = Some c.
Proof.
  intros (h1 & v' & Hw & Hs & _ & _) Hl Hne.
  eapply lookup_weaken; [|exact Hs]. by rewrite (write_ne _ _ _ _ _ Hw Hne).
Qed.

(** The memory of a typed value is there. *)
Lemma typed_reaches t h v l : typed t h v → reaches t h v l → is_Some (h !! l).
Proof.
  unfold typed. revert v.
  induction t as [| | |t IH|t IH|t IH| |f t IHt r IHr]; intros v; simpl; try done.
  - intros [[-> _]|(a & a' & x & x' & -> & ? & Ex & Ex' & Hx)] (b & ? & Hr); simplify_eq.
    destruct Hr as [->|(y & Ey & Hy)]; [by eapply read_loc|]. simplify_eq. by eapply IH.
  - intros [[-> _]|(a & off & a' & off' & n & -> & ? & ? & ? & He)] (b & ? & ? & ? & Hr); simplify_eq.
    destruct Hr as [->|(k & y & Hk & Ey & Hy)]; [done|].
    destruct (He k Hk) as (x & x' & ? & ? & ?). simplify_eq. by eapply IH.
  - intros [[-> _]|(a & a' & m & m' & -> & ? & Em & Em' & He)] (b & ? & Hr); simplify_eq.
    destruct Hr as [->|(m1 & k & y & Em1 & Ek & Hy)]; [by eauto|]. simplify_eq.
    destruct (He k) as [[? ?]|(x & x' & ? & ? & ?)]; simplify_eq. by eapply IH.
  - intros [(x & x' & ? & ? & Hx) Hr] [(y & Ey & Hy)|Hy]; simplify_eq; [by eapply IHt|].
    by apply (IHr v).
Qed.

(** A value and its contents stay when the heap changes only where the value
    does not reach. *)
Lemma typed_keep t h h' v :
  typed t h v → agree (reaches t h v) h h' → typed t h' v.
Proof. intros Ht Ha. by apply (deep_equal_agree t h h' h h' v v). Qed.

Lemma agree_sub t h h' v : typed t h v → h ⊆ h' → agree (reaches t h v) h h'.
Proof.
  intros Ht Hs l Hl. destruct (typed_reaches t h v l Ht Hl) as [c E].
  rewrite E. symmetry. by eapply lookup_weaken.
Qed.

Lemma agree_write t h o x h' v : ¬ reaches t h v (a_loc o) →
  write h o x = Some h' → agree (reaches t h v) h h'.
Proof.
  intros Hn Hw l Hl. symmetry. eapply write_ne; [done|]. intros ->. done.
Qed.

Lemma agree_copied t t' h v o h' x : typed t h v → ¬ reaches t h v (a_loc o) →
  copied t' h x o h' → agree (reaches t h v) h h'.
Proof.
  intros Ht Hn Hc l Hl. destruct (typed_reaches t h v l Ht Hl) as [c E].
  rewrite E. symmetry. eapply copied_frame; [done..|]. intros ->. done.
Qed.

(** [h'] keeps what [h] holds, but for the memory at [s] that is being filled. *)
Definition grown (s : loc) (h h' : heap) : Prop := delete s h ⊆ h'.

Lemma grown_lookup s h h' l c : grown s h h' → l ≠ s → h !! l = Some c → h' !! l = Some c.
Proof. intros Hg Hne Hl. eapply lookup_weaken; [|exact Hg]. by rewrite lookup_delete_ne. Qed.

Lemma grown_intro s h h' :
  (∀ l c, l ≠ s → h !! l = Some c → h' !! l = Some c) → grown s h h'.
Proof.
  intros Hl. apply map_subseteq_spec. intros l c Hc.
  apply lookup_delete_Some in Hc as [? ?]. apply Hl; [congruence|done].
Qed.

Lemma grown_refl s h : grown s h h.
Proof. apply grown_intro. done. Qed.

Lemma grown_trans s h1 h2 h3 : grown s h1 h2 → grown s h2 h3 → grown s h1 h3.
Proof.
  intros H1 H2. apply grown_intro. intros l c Hne Hc.
  eapply grown_lookup; [exact H2|done|]. by eapply grown_lookup.
Qed.

Lemma grown_sub s h h' : h ⊆ h' → grown s h h'.
Proof. intros Hs. apply grown_intro. intros l c _ Hc. by eapply lookup_weaken. Qed.

Lemma copied_grown t h v o h' : copied t h v o h' → grown (a_loc o) h h'.
Proof. intros Hc. apply grown_intro. intros l c Hne Hl. by eapply copied_frame. Qed.

Lemma grown_read s h h' a x :
  grown s h h' → a_loc a ≠ s → read h a = Some x → read h' a = Some x.
Proof.
  intros Hg Hne Hr. destruct (read_loc _ _ _ Hr) as [c Ec].
  rewrite <-Hr. symmetry. apply read_agree. rewrite Ec. symmetry. by eapply grown_lookup.
Qed.

Lemma grown_agree t s h h' v :
  typed t h v → ¬ reaches t h v s → grown s h h' → agree (reaches t h v) h h'.
Proof.
  intros Ht Hn Hg l Hl. destruct (typed_reaches t h v l Ht Hl) as [c E].
  rewrite E. symmetry. eapply grown_lookup; [done| |done]. by intros ->.
Qed.

Lemma grown_none s h h' l : grown s h h' → l ≠ s → h' !! l = None → h !! l = None.
Proof.
  intros Hg Hne Hn. destruct (h !! l) eqn:E; [|done].
  rewrite (grown_lookup _ _ _ _ _ Hg Hne E) in Hn. done.
Qed.

(** A part that is copied stays copied while the rest is filled: what it points
    to is new and apart from the memory [s], which was there before. *)
Lemma part_stays t s h h1 h2 x x' : is_Some (h !! s) → typed t h x →
  deep_equal t h x h1 x' → all_new t h h1 x' → grown s h1 h2 →
  deep_equal t h x h2 x' ∧ all_new t h h2 x'.
Proof.
  intros [c Hs] Ht He Hn Hg.
  assert (agree (reaches t h1 x') h1 h2) as Ha.
  { apply (grown_agree t s); [|intros Hl%Hn; congruence|done].
    by apply deep_equal_sym, deep_equal_typed in He. }
  split; [by eapply deep_equal_agree|].
  intros l Hl. apply Hn. by apply (reaches_agree t h1 h2 x' Ha).
Qed.

(** A part that was copied after the heap changed from [h1] to [h2], which does
    not touch the part, is a copy seen from [h1]. *)
Lemma part_before t s h1 h2 h3 x x' : is_Some (h2 !! s) → grown s h1 h2 →
  agree (reaches t h1 x) h1 h2 → deep_equal t h2 x h3 x' → all_new t h2 h3 x' →
  deep_equal t h1 x h3 x' ∧ all_new t h1 h3 x'.
Proof.
  intros [c Hs] Hg Hagr He Hn. split.
  - eapply deep_equal_agree; [|done|exact He].
    intros l Hl. symmetry. apply Hagr. by apply (reaches_agree t h1 h2 x Hagr).
  - intros l Hl%Hn. apply (grown_none s h1 h2); [done| |done]. intros ->. congruence.
Qed.

(** New memory is not reached. *)
Lemma typed_fresh t h v : typed t h v → ¬ reaches t h v (fresh_loc h).
Proof. intros Ht [c E]%(typed_reaches _ _ _ _ Ht). by rewrite fresh_loc_none in E. Qed.

(** Allocation followed by storing what points to it in the target. *)
Lemma alloc_store h o v x c : read h o = Some v → ∃ hb h1,
  write (<[fresh_loc h := c]> h) o x = Some hb ∧ write h o x = Some h1 ∧
  h1 ⊆ hb ∧ hb !! fresh_loc h = Some c ∧ a_loc o ≠ fresh_loc h ∧ grown (a_loc o) h hb ∧
  ∀ h', grown (fresh_loc h) hb h' → h1 ⊆ h'.
Proof.
  intros Ho. pose proof (loc_fresh_ne _ _ _ Ho) as Hne.
  destruct (write_some h o x v Ho) as [h1 H1].
  destruct (write_mono _ _ _ _ _ (alloc_sub h c) H1) as (hb & Hb & Hs).
  exists hb, h1. split_and!; try done.
  - rewrite (write_ne _ _ _ _ _ Hb) by done. by rewrite lookup_insert_eq.
  - apply grown_intro. intros l c' Hl Hc. rewrite (write_ne _ _ _ _ _ Hb Hl).
    eapply lookup_weaken; [done|apply alloc_sub].
  - intros h' Hg. apply map_subseteq_spec. intros l c' Hl.
    apply (grown_lookup _ _ _ _ _ Hg); [|by eapply lookup_weaken].
    intros ->. apply (write_none _ _ _ _ (fresh_loc h)) in H1.
    rewrite fresh_loc_none in H1. naive_solver.
Qed.

(** *** The statements of flat values *)

Lemma assign_copies t : flat t = true → deep_copies t assign.
Proof.
  intros Hf h i o v w Hi Ho Ht Ha. destruct (write_some h o v w Ho) as [h' Hw].
  exists h'. split.
  - unfold assign. rewrite (bind_load _ _ _ _ Hi). unfold store. by rewrite Hw.
  - exists h', v. split_and!; [done|done|by apply flat_deep_equal|].
    intros l []%(flat_reaches t h' v l Hf).
Qed.

Lemma copied_nil t h v o : read h o = Some v → typed t h v → (∀ l, ¬ reaches t h v l) →
  copied t h v o h.
Proof.
  intros Ho Ht Hn. exists h, v. split_and!; [by apply write_read|done|done|].
  intros l []%Hn.
Qed.

(** *** Pointers *)

Lemma ptr_into_fills t D : deep_copies t D → fills (TPtr t) (ptr_into t D).
Proof.
  intros HD h i o v Hi Ho Ht [Hio Hno]. unfold ptr_into. rewrite (bind_load _ _ _ _ Hi).
  assert (Hcases := Ht). unfold typed in Hcases. simpl in Hcases.
  destruct Hcases as [[-> _]|(a & a' & x & x' & -> & _ & Ea & _ & Hx)]; simpl.
  { exists h. split; [done|]. apply (copied_nil (TPtr t)); [done..|]. by intros l (a & ? & _). }
  apply deep_equal_typed in Hx. unfold new. rewrite bind_new_var.
  set (s := fresh_loc h). set (b := Addr s None []).
  destruct (alloc_store h o _ (VPtr (Some b)) (CVar (zero t)) Ho)
    as (hb & h1 & Hb & H1 & Hs & Hbs & Hos & Hg & Hend). fold s in Hb, Hbs, Hos, Hend.
  rewrite (bind_store _ _ _ _ _ Hb).
  assert (a_loc i ≠ s) as His by by eapply loc_fresh_ne.
  assert (a_loc a ≠ s) as Has by by eapply loc_fresh_ne.
  assert (a_loc a ≠ a_loc o) as Hao.
  { intros E. apply Hno. simpl. exists a. auto. }
  assert (¬ reaches t h x (a_loc o)) as Hxo.
  { intros E. apply Hno. simpl. exists a. eauto. }
  assert (agree (reaches t h x) h hb) as Hagr by by eapply grown_agree.
  rewrite bind_assoc, (bind_load _ hb i (VPtr (Some a))) by by eapply grown_read.
  simpl. rewrite bind_ret, bind_assoc, (bind_load _ hb o (VPtr (Some b))) by by eapply read_write.
  simpl. rewrite bind_ret.
  destruct (HD hb a b x (zero t)) as (h' & Hrun & Hc).
  { by eapply grown_read. }
  { unfold read, b. simpl. rewrite Hbs. done. }
  { by eapply typed_keep. }
  { split; [done|]. rewrite (reaches_agree t h hb x Hagr). simpl.
    by apply typed_fresh. }
  exists h'. split; [done|]. assert (Hc' := Hc).
  destruct Hc' as (h2 & y & Hw & Hsub & He & Hn).
  assert (read h' b = Some y) as Ey by (eapply read_mono; [exact Hsub|by eapply read_write]).
  destruct (part_before t (a_loc o) h hb h' x y) as [He' Hn']; [|done..|].
  { apply read_write in Hb. by eapply read_loc. }
  exists h1, (VPtr (Some b)). split_and!; [done| | |].
  - apply Hend. by apply (copied_grown _ _ _ _ _ Hc).
  - right. by exists a, b, x, y.
  - intros l (b' & [= <-] & [->|(y' & Ey' & Hl)]); [apply fresh_loc_none|].
    assert (y' = y) as -> by congruence. by apply Hn'.
Qed.

Lemma ptr_assign_fills t : flat t = true → fills (TPtr t) (ptr_assign t).
Proof. intros. by apply ptr_into_fills, assign_copies. Qed.

(** *** Slices *)

Lemma read_other_index h h' l j k p q x :
  write h (Addr l (Some j) p) x = Some h' → j ≠ k →
  read h' (Addr l (Some k) q) = read h (Addr l (Some k) q).
Proof.
  intros (c & v & v' & c' & E1 & E2 & E3 & E4 & ->)%write_inv Hne. simpl in *.
  unfold read. simpl. rewrite lookup_insert_eq, E1. simpl.
  destruct c; simpl in *; try done. case_decide; simplify_eq. simpl.
  by rewrite list_lookup_insert_ne.
Qed.

Section slice_loop.
Context (t : ty) (D : addr → addr → M unit) (HD : deep_copies t D).
Context (hb : heap) (l s : loc) (off N : nat) (Hs : is_Some (hb !! s)) (Hls : l ≠ s).
Context (Hsrc : ∀ k, k < N → ∃ x, read hb (elem_at l off k) = Some x ∧
  typed t hb x ∧ ¬ reaches t hb x s).

(** Element [j] of the new array is a copy. *)
Definition elem_done (j : nat) (h : heap) : Prop :=
  ∃ x x', read hb (elem_at l off j) = Some x ∧ read h (elem_at s 0 j) = Some x' ∧
    deep_equal t hb x h x' ∧ all_new t hb h x'.

Lemma elem_step k h : k < N → grown s hb h → (∀ j, j < N → is_Some (read h (elem_at s 0 j))) →
  (∀ j, j < k → elem_done j h) →
  ∃ h', D (elem_at l off k) (elem_at s 0 k) h = Some (tt, h') ∧ grown s hb h' ∧
    is_Some (h' !! s) ∧ (∀ j, j < N → is_Some (read h' (elem_at s 0 j))) ∧ (∀ j, j < S k → elem_done j h').
Proof using HD Hls Hs Hsrc.
  intros Hk Hg Hall Hdone. destruct (Hsrc k Hk) as (x & Ex & Hx & Hxs).
  destruct (Hall k Hk) as [w Ew].
  pose proof (grown_agree t s hb h x Hx Hxs Hg) as Hagr.
  destruct (HD h (elem_at l off k) (elem_at s 0 k) x w) as (h' & Hrun & Hc).
  { by eapply grown_read. }
  { done. }
  { by eapply typed_keep. }
  { split; [done|]. by rewrite (reaches_agree t hb h x Hagr). }
  assert (grown s h h') as Hg' by apply (copied_grown _ _ _ _ _ Hc).
  assert (grown s hb h') as Hg2 by by eapply grown_trans.
  destruct Hc as (h1 & y & Hw & Hsub & He & Hn).
  assert (∀ j, j ≠ k → j < N → read h' (elem_at s 0 j) = read h (elem_at s 0 j)) as Hother.
  { intros j Hne Hj. destruct (Hall j Hj) as [z Ez]. rewrite Ez.
    eapply read_mono; [exact Hsub|]. rewrite <-Ez. apply (read_other_index h h1 s k j [] [] y); [exact Hw|lia]. }
  assert (read h' (elem_at s 0 k) = Some y) as Ey by (eapply read_mono; [exact Hsub|by eapply read_write]).
  exists h'. split_and!; [done|done|by apply (read_loc _ _ _ Ey)| |].
  - intros j Hj. destruct (decide (j = k)) as [->|Hne]; [eauto|]. rewrite Hother by done. auto.
  - intros j Hj. destruct (decide (j = k)) as [->|Hne].
    + exists x, y. split; [done|]. split; [done|].
      apply (part_before t s hb h h'); try done. by apply (read_loc _ _ _ Ew).
    + destruct (Hdone j) as (z & z' & Ez & Ez' & Hz & Hzn); [lia|].
      exists z, z'. rewrite Hother by lia. split; [done|]. split; [done|].
      destruct (Hsrc j) as (z2 & Ez2 & Hz2 & _); [lia|]. simplify_eq.
      by apply (part_stays t s hb h h').
Qed.

Lemma for_range_copies (body : nat → M unit) :
  (∀ k h, k < N → grown s hb h → body k h = D (elem_at l off k) (elem_at s 0 k) h) →
  ∀ n k h, k + n = N → grown s hb h → is_Some (h !! s) → (∀ j, j < N → is_Some (read h (elem_at s 0 j))) →
    (∀ j, j < k → elem_done j h) →
    ∃ h', for_range k n body h = Some (tt, h') ∧ grown s hb h' ∧ is_Some (h' !! s) ∧
      (∀ j, j < N → elem_done j h').
Proof using HD Hls Hs Hsrc.
  intros Hbody. induction n as [|n IH]; intros k h Hkn Hg Hsh Hall Hdone; simpl.
  { exists h. split_and!; [done..|]. intros j Hj. apply Hdone. lia. }
  destruct (elem_step k h) as (h' & Hrun & Hg' & Hsh' & Hall' & Hdone'); [lia|done..|].
  destruct (IH (S k) h') as (h2 & Hrun2 & ?); [lia|done..|].
  exists h2. split; [|done]. erewrite M_bind_some; [exact Hrun2|].
  by rewrite Hbody by (done || lia).
Qed.
End slice_loop.

Lemma replicate_read h s n t k : h !! s = Some (CArr (replicate n (zero t))) → k < n →
  read h (elem_at s 0 k) = Some (zero t).
Proof. intros E Hk. unfold read. simpl. rewrite E. simpl. by rewrite lookup_replicate_2. Qed.

(** The elements of a slice that is copied, before and after the new array is
    stored. *)
Lemma slice_parts t h hb l off n o : typed (TSlice t) h (VSlice (Some (l, off, n))) →
  ¬ reaches (TSlice t) h (VSlice (Some (l, off, n))) (a_loc o) → grown (a_loc o) h hb →
  l ≠ a_loc o ∧ ∀ k, k < n → ∃ x, read h (elem_at l off k) = Some x ∧ typed t h x ∧
    agree (reaches t h x) h hb ∧ ¬ reaches t h x (fresh_loc h).
Proof.
  intros [[? _]|(l1 & off1 & l2 & off2 & n' & E1 & _ & _ & _ & Helems)] Hno Hg; [done|].
  simplify_eq. split.
  { intros ->. apply Hno. simpl. eauto 10. }
  intros k Hk. destruct (Helems k Hk) as (x & x' & Ex & _ & Hx).
  apply deep_equal_typed in Hx. exists x. split_and!; [done|done| |by apply typed_fresh].
  apply (grown_agree t (a_loc o)); [done| |done]. intros Hr. apply Hno. simpl. eauto 10.
Qed.

(** The common part of both ways to copy a slice: after the new array is stored
    in the target, a loop copies element by element. *)
Definition copies_elements (D : addr → addr → M unit) (rest : nat → M unit) (i o : addr) : Prop :=
  ∀ hb l off n s, read hb i = Some (VSlice (Some (l, off, n))) →
    read hb o = Some (VSlice (Some (s, 0, n))) → a_loc i ≠ s → a_loc o ≠ s →
    ∃ body, rest n hb = for_range 0 n body hb ∧
      ∀ k h, k < n → grown s hb h → body k h = D (elem_at l off k) (elem_at s 0 k) h.

Lemma slice_fills t D (rest : nat → addr → addr → M unit) :
  deep_copies t D → (∀ i o, copies_elements D (λ n, rest n i o) i o) →
  fills (TSlice t) (λ i o,
    v ← load i;
    if is_nil v then mret () else
    n ← len v; s ← make_slice t n; store o s ≫= λ _, rest n i o).
Proof.
  intros HD Hrest h i o v Hi Ho Ht [Hio Hno]. rewrite (bind_load _ _ _ _ Hi).
  assert (Hcases := Ht). unfold typed in Hcases. simpl in Hcases.
  destruct Hcases as [[-> _]|(l & off & l' & off' & n & -> & _ & Hl & _ & Helems)]; simpl.
  { exists h. split; [done|]. apply (copied_nil (TSlice t)); [done..|]. by intros ? (? & ? & ? & ? & _). }
  rewrite bind_ret. unfold make_slice. rewrite bind_assoc.
  set (s := fresh_loc h). set (c := CArr (replicate n (zero t))).
  erewrite M_bind_some; [|done]. fold s. rewrite bind_ret.
  destruct (alloc_store h o _ (VSlice (Some (s, 0, n))) c Ho)
    as (hb & h1 & Hb & H1 & Hs & Hbs & Hos & Hg & Hend). fold s in Hb, Hbs, Hos, Hend.
  rewrite (bind_store _ _ _ _ _ Hb).
  assert (a_loc i ≠ s) as His by by eapply loc_fresh_ne.
  assert (l ≠ s) as Hls by (intros ->; unfold s in Hl; rewrite fresh_loc_none in Hl; by destruct Hl).
  destruct (slice_parts t h hb l off n o Ht Hno Hg) as [Hlo Hel].
  assert (read hb o = Some (VSlice (Some (s, 0, n)))) as Hbo by by eapply read_write.
  destruct (Hrest i o hb l off n s) as (body & Hloop & Hbody); [by eapply grown_read|done..|].
  rewrite Hloop.
  destruct (for_range_copies t D HD hb l s off n (mk_is_Some _ _ Hbs) Hls) with (body := body) (n := n) (k := 0) (h := hb)
    as (h' & Hrun & Hg' & Hsh & Hdone); [|done|done|apply grown_refl|done| |lia|].
  { intros k Hk. destruct (Hel k Hk) as (x & Ex & Hx & Hagr & Hxs). exists x. split_and!.
    - by eapply grown_read.
    - by eapply typed_keep.
    - by rewrite (reaches_agree t h hb x Hagr). }
  { intros j Hj. rewrite (replicate_read hb s n t j Hbs Hj). done. }
  exists h'. split; [done|].
  assert (∀ j, j < n → ∃ x x', read h (elem_at l off j) = Some x ∧ read h' (elem_at s 0 j) = Some x' ∧
    deep_equal t h x h' x' ∧ all_new t h h' x') as Hcopies.
  { intros j Hj. destruct (Hdone j Hj) as (x & x' & Ex & Ex' & He & Hn).
    destruct (Hel j Hj) as (y & Ey & Hy & Hagr & _).
    assert (x = y) as ->.
    { assert (read hb (elem_at l off j) = Some y) as E by by eapply grown_read. congruence. }
    exists y, x'. split; [done|]. split; [done|].
    apply (part_before t (a_loc o) h hb h'); try done. by apply (read_loc _ _ _ Hbo). }
  exists h1, (VSlice (Some (s, 0, n))). split_and!; [done|by apply Hend| |].
  - right. exists l, off, s, 0, n. split_and!; [done|done|done|done|].
    intros k Hk. destruct (Hcopies k Hk) as (x & x' & ? & ? & ? & _). eauto.
  - intros r (? & ? & ? & [= <- <- <-] & [->|(k & x & Hk & Ex & Hr)]); [apply fresh_loc_none|].
    destruct (Hcopies k Hk) as (y & y' & ? & ? & ? & Hn). simplify_eq. by apply Hn.
Qed.

Lemma bind_index {A} (f : addr → M A) l off n k h :
  k < n → (index (VSlice (Some (l, off, n))) k ≫= f) h = f (elem_at l off k) h.
Proof. intros Hk. unfold index. simpl. unfold mbind, M_bind. simpl. by rewrite decide_True by done. Qed.

Lemma slice_into_fills t D : deep_copies t D → fills (TSlice t) (slice_into t D).
Proof.
  intros HD. apply (slice_fills t D (λ n i o, for_range 0 n (λ k,
    x ← load i; p ← index x k; y ← load o; q ← index y k; D p q))); [done|].
  intros i o hb l off n s Hi Ho His Hos. eexists. split; [done|].
  intros k h Hk Hg. cbn beta.
  rewrite (bind_load _ h i (VSlice (Some (l, off, n)))) by (eapply grown_read; [exact Hg|done|exact Hi]).
  rewrite bind_index by done.
  rewrite (bind_load _ h o (VSlice (Some (s, 0, n)))) by (eapply grown_read; [exact Hg|done|exact Ho]).
  by rewrite bind_index by done.
Qed.

Lemma slice_copy_fills t : flat t = true → fills (TSlice t) (slice_copy t).
Proof.
  intros Hf. apply (slice_fills t assign (λ _, copy_slice)); [by apply assign_copies|].
  intros i o hb l off n s Hi Ho His Hos. eexists. split.
  - unfold copy_slice. rewrite (bind_load _ hb i _ Hi), (bind_load _ hb o _ Ho). simpl.
    rewrite !bind_ret, Nat.min_id. done.
  - intros k h Hk Hg. simpl. by rewrite !bind_index by done.
Qed.

(** *** Structs *)

Fixpoint names (t : ty) : list string :=
  match t with TField f _ r => f :: names r | _ => [] end.

(** Every field of the struct that holds a pointer, a slice or a map has a
    statement that copies it, in the order of the fields. *)
Inductive covers : ty → list (string * (addr → addr → M unit)) → Prop :=
| covers_end : covers TEnd []
| covers_flat f t r ss :
    bool_decide (f ∉ names r) = true → flat t = true → covers r ss → covers (TField f t r) ss
| covers_field f t r F ss :
    bool_decide (f ∉ names r) = true → fills t F → covers r ss →
    covers (TField f t r) ((f, F) :: ss).

Lemma field_is_struct f v x : field f v = Some x → ∃ fs, v = VStruct fs.
Proof. destruct v; simpl; try done. eauto. Qed.

Lemma typed_is_struct r ss h v : covers r ss → typed r h v → ∃ fs, v = VStruct fs.
Proof.
  unfold typed. destruct 1; simpl; [by intros [? _]| |];
    intros [(x & ? & Ex & _) _]; by eapply field_is_struct.
Qed.

(** The statements turn a target whose fields [r] are those of the source into
    one whose fields [r] are copies, and keep the other fields. *)
Definition filled (r : ty) (h : heap) (v w : val) (o : addr) (h' : heap) (w' : val) : Prop :=
  (∃ h1, write h o w' = Some h1 ∧ h1 ⊆ h') ∧ (∀ f, f ∉ names r → field f w' = field f w) ∧
  deep_equal r h v h' w' ∧ all_new r h h' w'.

(** A field without a statement. *)
Lemma filled_flat f t r h v w o h' w' x : f ∉ names r → flat t = true →
  field f v = Some x → field f w = Some x → typed t h x →
  filled r h v w o h' w' → filled (TField f t r) h v w o h' w'.
Proof.
  intros Hf Hfl Ev Ew Hx (Hwr & Hkeep & He & Hn). split_and!; [done| | |].
  - intros g Hg. apply Hkeep. intros ?. apply Hg. by right.
  - split; [|done]. exists x, x. rewrite Hkeep, Ew by done. split_and!; [done|done|].
    by apply flat_deep_equal.
  - intros l [(y & Ey & Hl)|Hl]; [|by apply Hn]. by apply flat_reaches in Hl.
Qed.

(** A field whose statement ran first. *)
Lemma filled_field f t r h v w o h1 h' x w' w1 : f ∉ names r → read h o = Some w →
  field f v = Some x → field f w = Some x → typed t h x → typed r h v →
  ¬ reaches t h x (a_loc o) → ¬ reaches r h v (a_loc o) →
  copied t h x (sel o f) h1 → read h1 o = Some w1 →
  filled r h1 v w1 o h' w' → filled (TField f t r) h v w o h' w'.
Proof.
  intros Hf Ho Ev Ew Hx Hr Hxo Hro Hc Ho1.
  assert (agree (reaches r h v) h h1) as Hagr by by apply (agree_copied r t h v (sel o f) h1 x).
  pose proof (copied_grown _ _ _ _ _ Hc) as Hg.
  destruct Hc as (h2 & x1 & Hw & Hs & He & Hn).
  rewrite (write_sel h o f w x1 x Ho Ew) in Hw.
  assert (w1 = put_field f x1 w) as ->.
  { assert (read h1 o = Some (put_field f x1 w)) as E; [|congruence].
    eapply read_mono; [exact Hs|]. by eapply read_write. }
  intros ((h3 & Hw3 & Hs3) & Hkeep & He' & Hn').
  pose proof (read_write _ _ _ _ Hw) as Ho2.
  destruct (write_some h2 o w' _ Ho2) as [h4 Hw4].
  destruct (write_mono _ _ _ _ _ Hs Hw4) as (h3' & Hw3' & Hs4). simplify_eq.
  assert (grown (a_loc o) h1 h') as Hg'.
  { apply grown_intro. intros l c Hne Hl. eapply lookup_weaken; [|exact Hs3].
    by rewrite (write_ne _ _ _ _ _ Hw3 Hne). }
  destruct (read_loc _ _ _ Ho) as [c Eo].
  destruct (part_stays t (a_loc o) h h1 h' x x1) as [He2 Hn2]; [eauto|done..|].
  assert (field f w' = Some x1) as Ew'.
  { rewrite Hkeep by done. by eapply field_set. }
  split_and!.
  - exists h4. split; [by rewrite <-(write_write _ _ _ _ _ Hw)|by etrans].
  - intros g Hne. rewrite Hkeep by (intros ?; apply Hne; by right).
    apply field_set_ne. intros ->. apply Hne. by left.
  - split; [by exists x, x1|]. eapply deep_equal_agree; [|done|exact He'].
    intros l Hl. symmetry. apply Hagr. by apply (reaches_agree r h h1 v Hagr).
  - intros l [(y & Ey & Hl)|Hl]; [simplify_eq; by apply Hn2|].
    apply Hn' in Hl. destruct (decide (l = a_loc o)) as [->|Hne].
    + apply (read_mono _ _ _ _ Hs) in Ho2. destruct (read_loc _ _ _ Ho2) as [? E]. congruence.
    + by apply (grown_none (a_loc o) h h1).
Qed.

(** The target after the statement of one field: the other fields are kept. *)
Lemma copied_target t h x o f h1 w : read h o = Some w → field f w = Some x →
  copied t h x (sel o f) h1 →
  ∃ w1, read h1 o = Some w1 ∧ (∀ g, g ≠ f → field g w1 = field g w) ∧ (∃ fs, w1 = VStruct fs).
Proof.
  intros Ho Ew (h2 & x1 & Hw & Hs & _ & _). rewrite (write_sel h o f w x1 x Ho Ew) in Hw.
  exists (put_field f x1 w). split_and!.
  - eapply read_mono; [exact Hs|]. by eapply read_write.
  - intros g Hne. by apply field_set_ne.
  - destruct (field_is_struct _ _ _ Ew) as [fs ->]. simpl. eauto.
Qed.

Lemma on_fields_fills r ss : covers r ss → ∀ h i o v w,
  read h i = Some v → read h o = Some w → (∃ fs, w = VStruct fs) →
  typed r h v → apart r h v i o → (∀ f, f ∈ names r → field f w = field f v) →
  ∃ h' w', on_fields ss i o h = Some (tt, h') ∧ filled r h v w o h' w'.
Proof.
  induction 1 as [|f t r ss Hf Hfl Hc IH|f t r F ss Hf HF Hc IH];
    intros h i o v w Hi Ho Hw Ht [Hio Hno] Hsame; simpl in *.
  - exists h, w. split; [done|]. split_and!; [|done| |by intros ? []].
    + exists h. split; [by apply write_read|done].
    + destruct Ht as [? _]. done.
  - apply bool_decide_eq_true in Hf.
    destruct Ht as [(x & x' & Ex & Ex' & Hx) Hr]. apply deep_equal_typed in Hx.
    destruct (IH h i o v w) as (h' & w' & Hrun & Hfill); [done..| | |].
    { split; [done|]. intros ?. apply Hno. by right. }
    { intros g Hg. apply Hsame. by right. }
    exists h', w'. split; [done|]. apply (filled_flat f t r h v w o h' w' x); try done.
    rewrite Hsame by by left. done.
  - apply bool_decide_eq_true in Hf.
    destruct Ht as [(x & x' & Ex & Ex' & Hx) Hr]. apply deep_equal_typed in Hx.
    assert (field f w = Some x) as Ew by (rewrite Hsame by (by left); done).
    assert (¬ reaches t h x (a_loc o)) as Hxo by (intros ?; apply Hno; left; eauto).
    assert (¬ reaches r h v (a_loc o)) as Hro by (intros ?; apply Hno; by right).
    destruct (HF h (sel i f) (sel o f) x) as (h1 & Hrun1 & Hc1); [| |done|done|].
    { rewrite read_sel, Hi. done. }
    { rewrite read_sel, Ho. done. }
    assert (agree (reaches r h v) h h1) as Hagr by by apply (agree_copied r t h v (sel o f) h1 x).
    assert (read h1 i = Some v) as Hi1.
    { eapply grown_read; [apply (copied_grown _ _ _ _ _ Hc1)|done|done]. }
    destruct (field_is_struct _ _ _ Ew) as [fs Efs].
    destruct (copied_target t h x o f h1 w Ho Ew Hc1) as (w1 & Ho1 & Hw1 & Hs1).
    destruct (IH h1 i o v w1) as (h' & w' & Hrun & Hfill); [done|done|done| | | |].
    { by apply (typed_keep r h h1). }
    { split; [done|]. by rewrite (reaches_agree r h h1 v Hagr). }
    { intros g Hg. rewrite Hw1 by (intros ->; done). apply Hsame. by right. }
    exists h', w'. split; [by erewrite M_bind_some|].
    by apply (filled_field f t r h v w o h1 h' x w' w1).
Qed.

(** A struct whose reference fields all have their statements is deep copied. *)
Lemma struct_copies t ss : covers t ss → deep_copies t (copy_struct ss).
Proof.
  intros Hc h i o v w Hi Ho Ht Ha. destruct (write_some h o v w Ho) as [h1 Hw].
  assert (agree (reaches t h v) h h1) as Hagr by (eapply agree_write; [apply Ha|done]).
  destruct Ha as [Hio Hno]. unfold copy_struct, assign. rewrite bind_assoc, (bind_load _ _ _ _ Hi).
  rewrite (bind_store _ _ _ _ _ Hw).
  destruct (on_fields_fills t ss Hc h1 i o v v) as (h' & w' & Hrun & (h2 & Hw2 & Hs2) & _ & He & Hn).
  - rewrite <-Hi. symmetry. apply read_agree. symmetry. by eapply write_ne.
  - by eapply read_write.
  - by eapply typed_is_struct.
  - by apply (typed_keep t h h1).
  - split; [done|]. by rewrite (reaches_agree t h h1 v Hagr).
  - done.
  - exists h'. split; [done|]. exists h2, w'. split_and!; [|done| |].
    + by rewrite <-(write_write _ _ _ _ _ Hw).
    + eapply deep_equal_agree; [|done|exact He].
      intros l Hl. symmetry. apply Hagr. by apply (reaches_agree t h h1 v Hagr).
    + intros l Hl. apply (write_none _ _ _ _ _ Hw). by apply Hn.
Qed.

(** *** Maps *)

(** What is stored for the value of an entry: a copy of it. *)
Definition copies_value (t : ty) (F : val → M val) : Prop :=
  ∀ h x, typed t h x → ∃ h' x', F x h = Some (x', h') ∧ h ⊆ h' ∧
    deep_equal t h x h' x' ∧ all_new t h h' x'.

Lemma mret_copies_value t : flat t = true → copies_value t mret.
Proof.
  intros Hf h x Hx. exists h, x. split_and!; [done|done|by apply flat_deep_equal|].
  intros l []%(flat_reaches t h x l Hf).
Qed.

Section map_loop.
Context (t : ty) (F : val → M val) (HF : copies_value t F).
Context (hb : heap) (s : loc) (o : addr) (Hos : a_loc o ≠ s).
Context (Hs : is_Some (hb !! s)) (Ho : read hb o = Some (VMap (Some s))).

(** The entries [done] of the source are in the new map, and nothing else. *)
Definition entries_done (done : list (string * val)) (h : heap) : Prop :=
  grown s hb h ∧ ∃ m, h !! s = Some (CMap m) ∧ (∀ k, k ∉ done.*1 → m !! k = None) ∧
    ∀ k x, (k, x) ∈ done → ∃ x', m !! k = Some x' ∧ deep_equal t hb x h x' ∧ all_new t hb h x'.

Lemma entry_step done k x h :
  entries_done done h → k ∉ done.*1 → typed t hb x → ¬ reaches t hb x s →
  (∀ k' x', (k', x') ∈ done → typed t hb x') →
  ∃ h', (x' ← F x; y ← load o; set_key y k x') h = Some (tt, h') ∧
    entries_done (done ++ [(k, x)]) h'.
Proof using HF Ho Hos Hs.
  intros (Hg & m & Em & Hout & Hin) Hk Hx Hxs Htyped.
  pose proof (grown_agree t s hb h x Hx Hxs Hg) as Hagr.
  destruct (HF h x (typed_keep t hb h x Hx Hagr)) as (h1 & x' & Hrun & Hsub & He & Hn).
  assert (h1 !! s = Some (CMap m)) as Em1 by by eapply lookup_weaken.
  set (h2 := <[s := CMap (<[k := x']> m)]> h1).
  assert (grown s h1 h2) as Hg12.
  { apply grown_intro. intros l c Hne Hl. unfold h2. by rewrite lookup_insert_ne by done. }
  assert (grown s h h2) as Hg2 by (eapply grown_trans; [by apply grown_sub|done]).
  exists h2. split.
  { rewrite (M_bind_some _ _ _ _ _ Hrun), (bind_load _ h1 o (VMap (Some s))).
    - unfold set_key. by rewrite Em1.
    - eapply read_mono; [done|]. by eapply grown_read. }
  split; [by eapply grown_trans|]. exists (<[k := x']> m). split_and!.
  - unfold h2. by rewrite lookup_insert_eq.
  - intros k' Hk'. rewrite fmap_app in Hk'. simpl in Hk'.
    rewrite lookup_insert_ne by set_solver. apply Hout. set_solver.
  - intros k' y Hy. apply elem_of_app in Hy as [Hy|Hy].
    + destruct (Hin k' y Hy) as (y' & Ey & Hey & Hny). exists y'. split.
      * rewrite lookup_insert_ne; [done|]. intros <-. apply Hk.
        apply list_elem_of_fmap. by exists (k, y).
      * apply (part_stays t s hb h h2); eauto.
    + apply list_elem_of_singleton in Hy. simplify_eq. exists x'. rewrite lookup_insert_eq.
      split; [done|].
      destruct (part_stays t s h h1 h2 x x') as [He2 Hn2]; [eauto|by eapply typed_keep|done..|].
      apply (part_before t s hb h h2); eauto.
Qed.

Lemma entries_loop todo done h :
  entries_done done h → NoDup (done ++ todo).*1 →
  (∀ k x, (k, x) ∈ done ++ todo → typed t hb x ∧ ¬ reaches t hb x s) →
  ∃ h', for_each todo (λ '(k, x), x' ← F x; y ← load o; set_key y k x') h = Some (tt, h') ∧
    entries_done (done ++ todo) h'.
Proof using HF Ho Hos Hs.
  revert done h. induction todo as [|[k x] todo IH]; intros done h Hd Hnd Hall; simpl.
  - exists h. by rewrite app_nil_r.
  - destruct (entry_step done k x h) as (h1 & Hrun & Hd1); [done| | | | |].
    + rewrite fmap_app in Hnd. apply NoDup_app in Hnd as (_ & Hnd & _).
      intros Hk. apply (Hnd k Hk). by left.
    + apply (Hall k x). set_solver.
    + apply (Hall k x). set_solver.
    + intros k' x' Hk'. apply (Hall k' x'). set_solver.
    + rewrite cons_middle, app_assoc in Hnd, Hall |- *.
      destruct (IH (done ++ [(k, x)]) h1 Hd1 Hnd Hall) as (h2 & Hrun2 & ?).
      exists h2. split; [|done]. by erewrite M_bind_some.
Qed.
End map_loop.

Section map_statements.
Context `{GoRange}.

Lemma map_parts t h hb l m o : typed (TMap t) h (VMap (Some l)) → h !! l = Some (CMap m) →
  ¬ reaches (TMap t) h (VMap (Some l)) (a_loc o) → grown (a_loc o) h hb →
  ∀ k x, m !! k = Some x →
    typed t h x ∧ agree (reaches t h x) h hb ∧ ¬ reaches t h x (fresh_loc h).
Proof.
  intros [[? _]|(l1 & l2 & m1 & m2 & E1 & _ & Em1 & _ & Hm)] Em Hno Hg k x Ek; [done|].
  simplify_eq. destruct (Hm k) as [[? ?]|(y & y' & ? & ? & Hx)]; simplify_eq.
  apply deep_equal_typed in Hx. split_and!; [done| |by apply typed_fresh].
  apply (grown_agree t (a_loc o)); [done| |done]. intros Hr. apply Hno. simpl. eauto 10.
Qed.

Lemma map_into_fills t F : copies_value t F → fills (TMap t) (map_into F).
Proof.
  intros HF h i o v Hi Ho Ht [Hio Hno]. unfold map_into. rewrite (bind_load _ _ _ _ Hi).
  assert (Hcases := Ht). unfold typed in Hcases. simpl in Hcases.
  destruct Hcases as [[-> _]|(l & l' & m & m2 & -> & [= <-] & Em & Em2 & Hm)]; simpl.
  { exists h. split; [done|]. apply (copied_nil (TMap t)); [done..|]. by intros ? (? & ? & _). }
  rewrite Em in Em2. injection Em2 as <-. unfold make_map. rewrite bind_assoc.
  set (s := fresh_loc h). erewrite M_bind_some; [|done]. fold s. rewrite bind_ret.
  destruct (alloc_store h o _ (VMap (Some s)) (CMap ∅) Ho)
    as (hb & h1 & Hb & H1 & Hs & Hbs & Hos & Hg & Hend). fold s in Hb, Hbs, Hos, Hend.
  rewrite (bind_store _ _ _ _ _ Hb).
  assert (a_loc i ≠ s) as His by by eapply loc_fresh_ne.
  assert (l ≠ a_loc o) as Hlo by (intros ->; apply Hno; simpl; eauto).
  rewrite bind_assoc, (bind_load _ hb i (VMap (Some l))) by by eapply grown_read.
  assert (hb !! l = Some (CMap m)) as Eml by by eapply grown_lookup.
  erewrite M_bind_some; [|unfold entries; by rewrite Eml].
  pose proof (map_parts t h hb l m o Ht Em Hno Hg) as Hent.
  assert (read hb o = Some (VMap (Some s))) as Hbo by by eapply read_write.
  destruct (entries_loop t F HF hb s o Hos (mk_is_Some _ _ Hbs) Hbo (go_range 0 m) [] hb)
    as (h' & Hrun & Hg' & m' & Em' & Hout & Hin).
  { split; [apply grown_refl|]. exists ∅. split_and!; [done|by intros; apply lookup_empty|].
    by intros k x ?%not_elem_of_nil. }
  { apply NoDup_go_range_fst. }
  { intros k x (Hx & Hagr & Hxs)%elem_of_go_range%Hent.
    split; [by eapply typed_keep|by rewrite (reaches_agree t h hb x Hagr)]. }
  assert (∀ k x, m !! k = Some x → ∃ x', m' !! k = Some x' ∧ deep_equal t h x h' x' ∧ all_new t h h' x')
    as Hcopies.
  { intros k x Ek. destruct (Hent k x Ek) as (Hx & Hagr & _).
    destruct (Hin k x) as (x' & Ex' & He & Hn); [by apply elem_of_go_range|].
    exists x'. split; [done|].
    apply (part_before t (a_loc o) h hb h'); try done. by apply (read_loc _ _ _ Hbo). }
  exists h'. split; [exact Hrun|].
  exists h1, (VMap (Some s)). split_and!; [done|by apply Hend| |].
  - right. exists l, s, m, m'. split_and!; [done..|]. intros k.
    destruct (m !! k) as [x|] eqn:Ek; [right|left].
    + destruct (Hcopies k x Ek) as (x' & ? & ? & _). eauto.
    + split; [done|]. apply Hout. simpl. intros ([k' x] & -> & Hin')%list_elem_of_fmap.
      apply elem_of_go_range in Hin'. simpl in Ek. congruence.
  - intros r (? & [= <-] & [->|(m2 & k & x & Em2 & Ek & Hr)]); [apply fresh_loc_none|].
    simplify_eq. destruct (m !! k) as [y|] eqn:Eky.
    + destruct (Hcopies k y Eky) as (y' & ? & ? & Hn). simplify_eq. by apply Hn.
    + rewrite Hout in Ek; [done|]. simpl. intros ([k' x'] & -> & Hin')%list_elem_of_fmap.
      apply elem_of_go_range in Hin'. simpl in Eky. congruence.
Qed.

Lemma map_assign_fills t : flat t = true → fills (TMap t) map_assign.
Proof. intros. by apply map_into_fills, mret_copies_value. Qed.
End map_statements.

(** ** DeepCopy *)

(** What a call of DeepCopy promises: a new object with the same contents, all
    of it in memory that did not exist before, and everything else untouched. *)
Definition fresh_copy (t : ty) (h : heap) (v : val) (h' : heap) (o : addr) (w : val) : Prop :=
  h ⊆ h' ∧ read h' o = Some w ∧ deep_equal t h v h' w ∧
  h !! a_loc o = None ∧ all_new t h h' w.

Lemma DeepCopy_fresh t D h i v : deep_copies t D → read h i = Some v → typed t h v →
  ∃ h' o w, DeepCopy t D (Some i) h = Some (Some o, h') ∧ fresh_copy t h v h' o w.
Proof.
  intros HD Hi Ht. simpl. unfold new. rewrite bind_new_var.
  set (s := fresh_loc h). set (o := Addr s None []). set (ha := <[s := CVar (zero t)]> h).
  pose proof (alloc_sub h (CVar (zero t))) as Hs. fold s in Hs. fold ha in Hs.
  pose proof (agree_sub t h ha v Ht Hs) as Hagr.
  assert (h !! s = None) as Hnone by apply fresh_loc_none.
  destruct (HD ha i o v (zero t)) as (h' & Hrun & Hc).
  { by eapply read_mono. }
  { unfold read, o, ha. simpl. by rewrite lookup_insert_eq. }
  { by apply (typed_keep t h ha). }
  { split; simpl; [by eapply loc_fresh_ne|]. rewrite (reaches_agree t h ha v Hagr).
    intros Hr. destruct (typed_reaches t h v s Ht Hr) as [? E]. congruence. }
  pose proof (copied_grown _ _ _ _ _ Hc) as Hg.
  destruct Hc as (h1 & w & Hw & Hs1 & He & Hn).
  exists h', o, w. split; [by erewrite M_bind_some|]. split_and!; [| | |done|].
  - apply map_subseteq_spec. intros l c Hl. apply (grown_lookup s ha h'); [done|congruence|].
    by eapply lookup_weaken.
  - eapply read_mono; [exact Hs1|]. by eapply read_write.
  - eapply deep_equal_agree; [|done|exact He].
    intros l Hl. symmetry. apply Hagr. by apply (reaches_agree t h ha v Hagr).
  - intros l Hl. eapply lookup_weaken_None; [by apply Hn|done].
Qed.

Lemma deref_copy_copies_value t D : deep_copies t D → copies_value t (deref_copy t D).
Proof.
  intros HD h x Hx. unfold deref_copy. rewrite bind_new_var.
  pose proof (alloc_sub h (CVar x)) as Hs. pose proof (agree_sub t _ _ x Hx Hs) as Hagr.
  destruct (DeepCopy_fresh t D (<[fresh_loc h := CVar x]> h) (Addr (fresh_loc h) None []) x)
    as (h' & o & w & Hrun & Hs' & Ho & He & _ & Hn); [done| | |].
  { unfold read. simpl. by rewrite lookup_insert_eq. }
  { by apply (typed_keep t h). }
  exists h', w. split_and!; [|by etrans| |].
  - rewrite (M_bind_some _ _ _ _ _ Hrun). simpl. rewrite bind_ret. unfold load. by rewrite Ho.
  - eapply deep_equal_agree; [|done|exact He].
    intros l Hl. symmetry. apply Hagr. by apply (reaches_agree t _ _ x Hagr).
  - intros l Hl. eapply lookup_weaken_None; [by apply Hn|done].
Qed.

Lemma map_deep_fills `{GoRange} t D : deep_copies t D → fills (TMap t) (map_deep t D).
Proof. intros. by apply map_into_fills, deref_copy_copies_value. Qed.

(** *** A copy and its original do not see each other's changes *)

Lemma fresh_copy_isolated t h v h' o w i : read h i = Some v → typed t h v →
  fresh_copy t h v h' o w →
  (* writes to the copy and to new memory *)
  (∀ h2, (∀ l, is_Some (h !! l) → h2 !! l = h !! l) → read h2 i = Some v ∧ deep_equal t h v h2 v) ∧
  (* writes to the original and to what was there *)
  (∀ h2, (∀ l, h !! l = None → h2 !! l = h' !! l) → read h2 o = Some w ∧ deep_equal t h v h2 w).
Proof.
  intros Hi Ht (Hs & Ho & He & Hno & Hn). split; intros h2 Hk.
  - split.
    + rewrite <-Hi. apply read_agree, Hk. by eapply read_loc.
    + eapply deep_equal_agree; [done| |exact Ht]. intros l Hl. symmetry.
      apply Hk. by eapply typed_reaches.
  - split.
    + rewrite <-Ho. by apply read_agree, Hk.
    + eapply deep_equal_agree; [done| |exact He]. intros l Hl. symmetry. by apply Hk, Hn.
Qed.

(** ** Automation: a generated function is checked field by field *)

Create HintDb deepcopy.
#[export] Hint Resolve ptr_into_fills ptr_assign_fills slice_into_fills slice_copy_fills
  map_assign_fills map_deep_fills deep_copies_fills assign_copies : deepcopy.


Lemma flat_TField f t r : flat t = true → flat r = true → flat (TField f t r) = true.
Proof. simpl. by intros -> ->. Qed.

Ltac head_of t := lazymatch t with ?f _ => head_of f | _ => t end.

(** A type without references: by evaluation, by a law of a type of another
    module, or field by field. *)
Create HintDb flat_types.
Ltac solve_flat :=
  first
    [ reflexivity
    | solve [eauto 2 with flat_types]
    | lazymatch goal with
      | |- flat (TField _ _ _) = true => apply flat_TField; solve_flat
      | |- flat ?t = true => let h := head_of t in unfold h; cbn [struct]; solve_flat
      end ].
#[export] Hint Extern 1 (flat _ = true) => solve_flat : deepcopy.

Ltac covers_fields :=
  first
    [ apply covers_end
    | apply covers_field; [reflexivity | solve [eauto 6 with deepcopy] | covers_fields]
    | apply covers_flat; [reflexivity | solve_flat | covers_fields] ].

(** The goal [deep_copies T_layout T_DeepCopyInto]. *)
Ltac struct_copy :=
  lazymatch goal with
  | |- deep_copies ?t ?D =>
      let ht := head_of t in let hD := head_of D in
      unfold ht, hD; apply struct_copies; cbn [struct]; covers_fields
  end.

(** ** Tables of copied types *)

(** A type with its functions: its name, its layout, [DeepCopyInto] and [DeepCopy]. *)
Record copied_type : Type := CopiedType {
  ct_name : string; ct_layout : ty;
  ct_into : addr → addr → M unit;
  ct_copy : option addr → M (option addr)
}.

Definition copies_type (c : copied_type) : Prop :=
  deep_copies (ct_layout c) (ct_into c) ∧ ct_copy c = DeepCopy (ct_layout c) (ct_into c).

(** An object with its [DeepCopyObject]. *)
Record copied_object : Type := CopiedObject {
  co_name : string; co_layout : ty;
  co_copy : option addr → M (option (string * addr))
}.

Definition copies_object (c : copied_object) : Prop :=
  ∃ D, deep_copies (co_layout c) D ∧
    co_copy c = DeepCopyObject (co_name c) (DeepCopy (co_layout c) D).
