(* ===== verification/Externals.v ===== *)
(** * Externals: the types of other modules that the API types contain

    The deep copies of metav1.ObjectMeta and the like are not code of this
    repository: their layouts and their DeepCopyInto are parameters
    ([ExternalTypes]), with what their modules document as laws
    ([ExternalLaws]): a DeepCopyInto deep copies, and the types that the
    generated code copies by assignment hold no pointers.  [demo_types] are
    such types, cut down to a few fields, for evaluation. *)

From Stdlib Require Import String.
From stdpp Require Import base tactics option strings numbers gmap list.
From S2P Require Import Prelude Go Memory DeepCopy.
Open Scope string_scope.
Open Scope list_scope.
Open Scope stdpp_scope.

Class ExternalTypes : Type := {
  metav1_ObjectMeta : ty; metav1_ObjectMeta_DeepCopyInto : addr → addr → M unit;
  metav1_ListMeta : ty; metav1_ListMeta_DeepCopyInto : addr → addr → M unit;
  metav1_Condition : ty; metav1_Condition_DeepCopyInto : addr → addr → M unit;
  metav1_Time : ty; metav1_Time_DeepCopyInto : addr → addr → M unit;
  clusterv1_ObjectMeta : ty; clusterv1_ObjectMeta_DeepCopyInto : addr → addr → M unit;
  clusterv1beta1_ObjectMeta : ty; clusterv1beta1_ObjectMeta_DeepCopyInto : addr → addr → M unit;
  clusterv1beta1_Condition : ty; clusterv1beta1_Condition_DeepCopyInto : addr → addr → M unit;
  metav1_TypeMeta : ty;
  metav1_Duration : ty;
  corev1_ObjectReference : ty;
  intstr_IntOrString : ty;
  clusterv1_MachineTaint : ty;
  clusterv1_ContractVersionedObjectReference : ty
}.

Class ExternalLaws `{ExternalTypes} : Prop := {
  ObjectMeta_copies : deep_copies metav1_ObjectMeta metav1_ObjectMeta_DeepCopyInto;
  ListMeta_copies : deep_copies metav1_ListMeta metav1_ListMeta_DeepCopyInto;
  Condition_copies : deep_copies metav1_Condition metav1_Condition_DeepCopyInto;
  Time_copies : deep_copies metav1_Time metav1_Time_DeepCopyInto;
  v1_ObjectMeta_copies : deep_copies clusterv1_ObjectMeta clusterv1_ObjectMeta_DeepCopyInto;
  v1beta1_ObjectMeta_copies :
    deep_copies clusterv1beta1_ObjectMeta clusterv1beta1_ObjectMeta_DeepCopyInto;
  v1beta1_Condition_copies :
    deep_copies clusterv1beta1_Condition clusterv1beta1_Condition_DeepCopyInto;
  TypeMeta_flat : flat metav1_TypeMeta = true;
  Duration_flat : flat metav1_Duration = true;
  ObjectReference_flat : flat corev1_ObjectReference = true;
  IntOrString_flat : flat intstr_IntOrString = true;
  MachineTaint_flat : flat clusterv1_MachineTaint = true;
  ContractVersionedObjectReference_flat : flat clusterv1_ContractVersionedObjectReference = true
}.

#[export] Hint Resolve ObjectMeta_copies ListMeta_copies Condition_copies Time_copies
  v1_ObjectMeta_copies v1beta1_ObjectMeta_copies v1beta1_Condition_copies
  : deepcopy.
#[export] Hint Resolve TypeMeta_flat Duration_flat ObjectReference_flat IntOrString_flat MachineTaint_flat
  ContractVersionedObjectReference_flat : flat_types.

(** ** Types for evaluation *)

Definition demo_ObjectMeta : ty := struct [
  ("Name", TStr); ("Labels", TMap TStr);
  ("OwnerReferences", TSlice (struct [("Name", TStr); ("Controller", TPtr TBool)]))].

Definition demo_OwnerReference_DeepCopyInto : addr → addr → M unit :=
  copy_struct [("Controller", ptr_assign TBool)].

Definition demo_ObjectMeta_DeepCopyInto `{GoRange} : addr → addr → M unit := copy_struct [
  ("Labels", map_assign);
  ("OwnerReferences", slice_into (struct [("Name", TStr); ("Controller", TPtr TBool)])
    demo_OwnerReference_DeepCopyInto)].

Definition demo_Condition : ty := struct [("Type", TStr); ("Status", TStr)].
Definition demo_ref : ty := struct [("Kind", TStr); ("Name", TStr)].

#[export] Instance demo_types `{GoRange} : ExternalTypes := {
  metav1_ObjectMeta := demo_ObjectMeta;
  metav1_ObjectMeta_DeepCopyInto := demo_ObjectMeta_DeepCopyInto;
  metav1_ListMeta := struct [("ResourceVersion", TStr)];
  metav1_ListMeta_DeepCopyInto := copy_struct [];
  metav1_Condition := demo_Condition; metav1_Condition_DeepCopyInto := copy_struct [];
  metav1_Time := TInt; metav1_Time_DeepCopyInto := assign;
  clusterv1_ObjectMeta := demo_ObjectMeta;
  clusterv1_ObjectMeta_DeepCopyInto := demo_ObjectMeta_DeepCopyInto;
  clusterv1beta1_ObjectMeta := demo_ObjectMeta;
  clusterv1beta1_ObjectMeta_DeepCopyInto := demo_ObjectMeta_DeepCopyInto;
  clusterv1beta1_Condition := demo_Condition;
  clusterv1beta1_Condition_DeepCopyInto := copy_struct [];
  metav1_TypeMeta := demo_ref; metav1_Duration := TInt; corev1_ObjectReference := demo_ref;
  intstr_IntOrString := TInt; clusterv1_MachineTaint := demo_ref;
  clusterv1_ContractVersionedObjectReference := demo_ref
}.

Lemma demo_OwnerReference_copies :
  deep_copies (struct [("Name", TStr); ("Controller", TPtr TBool)]) demo_OwnerReference_DeepCopyInto.
Proof. unfold demo_OwnerReference_DeepCopyInto. apply struct_copies. cbn [struct]. covers_fields. Qed.
#[local] Hint Resolve demo_OwnerReference_copies : deepcopy.

Lemma demo_ObjectMeta_copies `{GoRange} : deep_copies demo_ObjectMeta demo_ObjectMeta_DeepCopyInto.
Proof. struct_copy. Qed.

#[export] Instance demo_laws `{GoRange} : ExternalLaws.
Proof.
  split; simpl; try reflexivity; try apply demo_ObjectMeta_copies;
    try (apply struct_copies; covers_fields).
  by apply assign_copies.
Qed.
