(* ===== verification/BootstrapCopyV1.v ===== *)
(** * BootstrapCopyV1: the deep copies of the bootstrap API v1beta1

    One layout (the fields of a type as far as memory is concerned), one
    [DeepCopyInto] and one [DeepCopy] per type of bootstrap/api/v1beta1, in the order
    of their dependencies, and [DeepCopyObject] for the objects.  Each
    [DeepCopyInto] is shown to keep the promise of [DeepCopy.deep_copies]. *)

From Stdlib Require Import String.
From stdpp Require Import base tactics option strings numbers gmap list.
From S2P Require Import Prelude Go Memory DeepCopy Externals.
Open Scope string_scope.
Open Scope list_scope.
Open Scope stdpp_scope.

Section definitions.
Context `{GoRange, ExternalTypes}.

Definition AdditionalUserData_layout : ty := struct [
  ("Config", TStr);
  ("Data", TMap TStr);
  ("Strict", TBool)].

Definition AdditionalUserData_DeepCopyInto : addr → addr → M unit := copy_struct [
  ("Data", map_assign)].

Definition AdditionalUserData_DeepCopy : option addr → M (option addr) :=
  DeepCopy AdditionalUserData_layout AdditionalUserData_DeepCopyInto.

Definition ComponentConfig_layout : ty := struct [
  ("ExtraEnv", TMap TStr);
  ("ExtraArgs", TSlice TStr);
  ("ExtraMounts", TMap TStr);
  ("OverrideImage", TStr)].

Definition ComponentConfig_DeepCopyInto : addr → addr → M unit := copy_struct [
  ("ExtraEnv", map_assign);
  ("ExtraArgs", slice_copy TStr);
  ("ExtraMounts", map_assign)].

Definition ComponentConfig_DeepCopy : option addr → M (option addr) :=
  DeepCopy ComponentConfig_layout ComponentConfig_DeepCopyInto.

Definition FileSourceRef_layout : ty := struct [
  ("Name", TStr);
  ("Namespace", TStr);
  ("Key", TStr)].

Definition FileSourceRef_DeepCopyInto : addr → addr → M unit := copy_struct [].

Definition FileSourceRef_DeepCopy : option addr → M (option addr) :=
  DeepCopy FileSourceRef_layout FileSourceRef_DeepCopyInto.

Definition FileSource_layout : ty := struct [
  ("Secret", TPtr FileSourceRef_layout);
  ("ConfigMap", TPtr FileSourceRef_layout)].

Definition FileSource_DeepCopyInto : addr → addr → M unit := copy_struct [
  ("Secret", ptr_assign FileSourceRef_layout);
  ("ConfigMap", ptr_assign FileSourceRef_layout)].

Definition FileSource_DeepCopy : option addr → M (option addr) :=
  DeepCopy FileSource_layout FileSource_DeepCopyInto.

Definition File_layout : ty := struct [
  ("Path", TStr);
  ("Owner", TStr);
  ("Permissions", TStr);
  ("Encoding", TStr);
  ("Content", TStr);
  ("ContentFrom", TPtr FileSource_layout)].

Definition File_DeepCopyInto : addr → addr → M unit := copy_struct [
  ("ContentFrom", ptr_into FileSource_layout FileSource_DeepCopyInto)].

Definition File_DeepCopy : option addr → M (option addr) :=
  DeepCopy File_layout File_DeepCopyInto.

Definition Mirror_layout : ty := struct [
  ("Endpoint", TSlice TStr);
  ("Rewrite", TMap TStr)].

Definition Mirror_DeepCopyInto : addr → addr → M unit := copy_struct [
  ("Endpoint", slice_copy TStr);
  ("Rewrite", map_assign)].

Definition Mirror_DeepCopy : option addr → M (option addr) :=
  DeepCopy Mirror_layout Mirror_DeepCopyInto.

Definition NTP_layout : ty := struct [
  ("Servers", TSlice TStr);
  ("Enabled", TPtr TBool)].

Definition NTP_DeepCopyInto : addr → addr → M unit := copy_struct [
  ("Servers", slice_copy TStr);
  ("Enabled", ptr_assign TBool)].

Definition NTP_DeepCopy : option addr → M (option addr) :=
  DeepCopy NTP_layout NTP_DeepCopyInto.

Definition RKE2AgentConfig_layout : ty := struct [
  ("DataDir", TStr);
  ("NodeLabels", TSlice TStr);
  ("NodeAnnotations", TMap TStr);
  ("NodeTaints", TSlice TStr);
  ("NodeNamePrefix", TStr);
  ("NTP", TPtr NTP_layout);
  ("ImageCredentialProviderConfigMap", TPtr corev1_ObjectReference);
  ("ContainerRuntimeEndpoint", TStr);
  ("Snapshotter", TStr);
  ("CISProfile", TStr);
  ("PodSecurityAdmissionConfigFile", TStr);
  ("ResolvConf", TPtr corev1_ObjectReference);
  ("ResolvConfPath", TStr);
  ("ProtectKernelDefaults", TBool);
  ("SystemDefaultRegistry", TStr);
  ("EnableContainerdSElinux", TBool);
  ("KubeletPath", TStr);
  ("Kubelet", TPtr ComponentConfig_layout);
  ("KubeProxy", TPtr ComponentConfig_layout);
  ("RuntimeImage", TStr);
  ("LoadBalancerPort", TInt);
  ("AirGapped", TBool);
  ("AirGappedChecksum", TStr);
  ("Format", TStr);
  ("AdditionalUserData", AdditionalUserData_layout)].

Definition RKE2AgentConfig_DeepCopyInto : addr → addr → M unit := copy_struct [
  ("NodeLabels", slice_copy TStr);
  ("NodeAnnotations", map_assign);
  ("NodeTaints", slice_copy TStr);
  ("NTP", ptr_into NTP_layout NTP_DeepCopyInto);
  ("ImageCredentialProviderConfigMap", ptr_assign corev1_ObjectReference);
  ("ResolvConf", ptr_assign corev1_ObjectReference);
  ("Kubelet", ptr_into ComponentConfig_layout ComponentConfig_DeepCopyInto);
  ("KubeProxy", ptr_into ComponentConfig_layout ComponentConfig_DeepCopyInto);
  ("AdditionalUserData", AdditionalUserData_DeepCopyInto)].

Definition RKE2AgentConfig_DeepCopy : option addr → M (option addr) :=
  DeepCopy RKE2AgentConfig_layout RKE2AgentConfig_DeepCopyInto.

Definition TLSConfig_layout : ty := struct [
  ("TLSConfigSecret", corev1_ObjectReference);
  ("InsecureSkipVerify", TBool)].

Definition TLSConfig_DeepCopyInto : addr → addr → M unit := copy_struct [
  ("TLSConfigSecret", assign)].

Definition TLSConfig_DeepCopy : option addr → M (option addr) :=
  DeepCopy TLSConfig_layout TLSConfig_DeepCopyInto.

Definition RegistryConfig_layout : ty := struct [
  ("AuthSecret", corev1_ObjectReference);
  ("TLS", TLSConfig_layout)].

Definition RegistryConfig_DeepCopyInto : addr → addr → M unit := copy_struct [
  ("AuthSecret", assign);
  ("TLS", assign)].

Definition RegistryConfig_DeepCopy : option addr → M (option addr) :=
  DeepCopy RegistryConfig_layout RegistryConfig_DeepCopyInto.

Definition Registry_layout : ty := struct [
  ("Mirrors", TMap Mirror_layout);
  ("Configs", TMap RegistryConfig_layout)].

Definition Registry_DeepCopyInto : addr → addr → M unit := copy_struct [
  ("Mirrors", map_deep Mirror_layout Mirror_DeepCopyInto);
  ("Configs", map_assign)].

Definition Registry_DeepCopy : option addr → M (option addr) :=
  DeepCopy Registry_layout Registry_DeepCopyInto.

Definition RKE2ConfigSpec_layout : ty := struct [
  ("Files", TSlice File_layout);
  ("PreRKE2Commands", TSlice TStr);
  ("PostRKE2Commands", TSlice TStr);
  ("AgentConfig", RKE2AgentConfig_layout);
  ("PrivateRegistriesConfig", Registry_layout);
  ("GzipUserData", TPtr TBool)].

Definition RKE2ConfigSpec_DeepCopyInto : addr → addr → M unit := copy_struct [
  ("Files", slice_into File_layout File_DeepCopyInto);
  ("PreRKE2Commands", slice_copy TStr);
  ("PostRKE2Commands", slice_copy TStr);
  ("AgentConfig", RKE2AgentConfig_DeepCopyInto);
  ("PrivateRegistriesConfig", Registry_DeepCopyInto);
  ("GzipUserData", ptr_assign TBool)].

Definition RKE2ConfigSpec_DeepCopy : option addr → M (option addr) :=
  DeepCopy RKE2ConfigSpec_layout RKE2ConfigSpec_DeepCopyInto.

Definition RKE2ConfigV1Beta2Status_layout : ty := struct [
  ("Conditions", TSlice metav1_Condition)].

Definition RKE2ConfigV1Beta2Status_DeepCopyInto : addr → addr → M unit := copy_struct [
  ("Conditions", slice_into metav1_Condition metav1_Condition_DeepCopyInto)].

Definition RKE2ConfigV1Beta2Status_DeepCopy : option addr → M (option addr) :=
  DeepCopy RKE2ConfigV1Beta2Status_layout RKE2ConfigV1Beta2Status_DeepCopyInto.

Definition RKE2ConfigStatus_layout : ty := struct [
  ("Ready", TBool);
  ("DataSecretName", TPtr TStr);
  ("FailureReason", TStr);
  ("FailureMessage", TStr);
  ("ObservedGeneration", TInt);
  ("Conditions", TSlice clusterv1beta1_Condition);
  ("V1Beta2", TPtr RKE2ConfigV1Beta2Status_layout)].

Definition RKE2ConfigStatus_DeepCopyInto : addr → addr → M unit := copy_struct [
  ("DataSecretName", ptr_assign TStr);
  ("Conditions", slice_into clusterv1beta1_Condition clusterv1beta1_Condition_DeepCopyInto);
  ("V1Beta2", ptr_into RKE2ConfigV1Beta2Status_layout RKE2ConfigV1Beta2Status_DeepCopyInto)].

Definition RKE2ConfigStatus_DeepCopy : option addr → M (option addr) :=
  DeepCopy RKE2ConfigStatus_layout RKE2ConfigStatus_DeepCopyInto.

Definition RKE2Config_layout : ty := struct [
  ("TypeMeta", metav1_TypeMeta);
  ("ObjectMeta", metav1_ObjectMeta);
  ("Spec", RKE2ConfigSpec_layout);
  ("Status", RKE2ConfigStatus_layout)].

Definition RKE2Config_DeepCopyInto : addr → addr → M unit := copy_struct [
  ("TypeMeta", assign);
  ("ObjectMeta", metav1_ObjectMeta_DeepCopyInto);
  ("Spec", RKE2ConfigSpec_DeepCopyInto);
  ("Status", RKE2ConfigStatus_DeepCopyInto)].

Definition RKE2Config_DeepCopy : option addr → M (option addr) :=
  DeepCopy RKE2Config_layout RKE2Config_DeepCopyInto.

Definition RKE2Config_DeepCopyObject : option addr → M (option (string * addr)) :=
  DeepCopyObject "RKE2Config" RKE2Config_DeepCopy.

Definition RKE2ConfigList_layout : ty := struct [
  ("TypeMeta", metav1_TypeMeta);
  ("ListMeta", metav1_ListMeta);
  ("Items", TSlice RKE2Config_layout)].

Definition RKE2ConfigList_DeepCopyInto : addr → addr → M unit := copy_struct [
  ("TypeMeta", assign);
  ("ListMeta", metav1_ListMeta_DeepCopyInto);
  ("Items", slice_into RKE2Config_layout RKE2Config_DeepCopyInto)].

Definition RKE2ConfigList_DeepCopy : option addr → M (option addr) :=
  DeepCopy RKE2ConfigList_layout RKE2ConfigList_DeepCopyInto.

Definition RKE2ConfigList_DeepCopyObject : option addr → M (option (string * addr)) :=
  DeepCopyObject "RKE2ConfigList" RKE2ConfigList_DeepCopy.

Definition RKE2ConfigTemplateResource_layout : ty := struct [
  ("Spec", RKE2ConfigSpec_layout)].

Definition RKE2ConfigTemplateResource_DeepCopyInto : addr → addr → M unit := copy_struct [
  ("Spec", RKE2ConfigSpec_DeepCopyInto)].

Definition RKE2ConfigTemplateResource_DeepCopy : option addr → M (option addr) :=
  DeepCopy RKE2ConfigTemplateResource_layout RKE2ConfigTemplateResource_DeepCopyInto.

Definition RKE2ConfigTemplateSpec_layout : ty := struct [
  ("Template", RKE2ConfigTemplateResource_layout)].

Definition RKE2ConfigTemplateSpec_DeepCopyInto : addr → addr → M unit := copy_struct [
  ("Template", RKE2ConfigTemplateResource_DeepCopyInto)].

Definition RKE2ConfigTemplateSpec_DeepCopy : option addr → M (option addr) :=
  DeepCopy RKE2ConfigTemplateSpec_layout RKE2ConfigTemplateSpec_DeepCopyInto.

Definition RKE2ConfigTemplate_layout : ty := struct [
  ("TypeMeta", metav1_TypeMeta);
  ("ObjectMeta", metav1_ObjectMeta);
  ("Spec", RKE2ConfigTemplateSpec_layout)].

Definition RKE2ConfigTemplate_DeepCopyInto : addr → addr → M unit := copy_struct [
  ("TypeMeta", assign);
  ("ObjectMeta", metav1_ObjectMeta_DeepCopyInto);
  ("Spec", RKE2ConfigTemplateSpec_DeepCopyInto)].

Definition RKE2ConfigTemplate_DeepCopy : option addr → M (option addr) :=
  DeepCopy RKE2ConfigTemplate_layout RKE2ConfigTemplate_DeepCopyInto.

Definition RKE2ConfigTemplate_DeepCopyObject : option addr → M (option (string * addr)) :=
  DeepCopyObject "RKE2ConfigTemplate" RKE2ConfigTemplate_DeepCopy.

Definition RKE2ConfigTemplateList_layout : ty := struct [
  ("TypeMeta", metav1_TypeMeta);
  ("ListMeta", metav1_ListMeta);
  ("Items", TSlice RKE2ConfigTemplate_layout)].

Definition RKE2ConfigTemplateList_DeepCopyInto : addr → addr → M unit := copy_struct [
  ("TypeMeta", assign);
  ("ListMeta", metav1_ListMeta_DeepCopyInto);
  ("Items", slice_into RKE2ConfigTemplate_layout RKE2ConfigTemplate_DeepCopyInto)].

Definition RKE2ConfigTemplateList_DeepCopy : option addr → M (option addr) :=
  DeepCopy RKE2ConfigTemplateList_layout RKE2ConfigTemplateList_DeepCopyInto.

Definition RKE2ConfigTemplateList_DeepCopyObject : option addr → M (option (string * addr)) :=
  DeepCopyObject "RKE2ConfigTemplateList" RKE2ConfigTemplateList_DeepCopy.

(** The types of the package, and its objects. *)
Definition bootstrap_v1beta1_types : list copied_type := [
  CopiedType "AdditionalUserData" AdditionalUserData_layout AdditionalUserData_DeepCopyInto AdditionalUserData_DeepCopy;
  CopiedType "ComponentConfig" ComponentConfig_layout ComponentConfig_DeepCopyInto ComponentConfig_DeepCopy;
  CopiedType "FileSourceRef" FileSourceRef_layout FileSourceRef_DeepCopyInto FileSourceRef_DeepCopy;
  CopiedType "FileSource" FileSource_layout FileSource_DeepCopyInto FileSource_DeepCopy;
  CopiedType "File" File_layout File_DeepCopyInto File_DeepCopy;
  CopiedType "Mirror" Mirror_layout Mirror_DeepCopyInto Mirror_DeepCopy;
  CopiedType "NTP" NTP_layout NTP_DeepCopyInto NTP_DeepCopy;
  CopiedType "RKE2AgentConfig" RKE2AgentConfig_layout RKE2AgentConfig_DeepCopyInto RKE2AgentConfig_DeepCopy;
  CopiedType "TLSConfig" TLSConfig_layout TLSConfig_DeepCopyInto TLSConfig_DeepCopy;
  CopiedType "RegistryConfig" RegistryConfig_layout RegistryConfig_DeepCopyInto RegistryConfig_DeepCopy;
  CopiedType "Registry" Registry_layout Registry_DeepCopyInto Registry_DeepCopy;
  CopiedType "RKE2ConfigSpec" RKE2ConfigSpec_layout RKE2ConfigSpec_DeepCopyInto RKE2ConfigSpec_DeepCopy;
  CopiedType "RKE2ConfigV1Beta2Status" RKE2ConfigV1Beta2Status_layout RKE2ConfigV1Beta2Status_DeepCopyInto RKE2ConfigV1Beta2Status_DeepCopy;
  CopiedType "RKE2ConfigStatus" RKE2ConfigStatus_layout RKE2ConfigStatus_DeepCopyInto RKE2ConfigStatus_DeepCopy;
  CopiedType "RKE2Config" RKE2Config_layout RKE2Config_DeepCopyInto RKE2Config_DeepCopy;
  CopiedType "RKE2ConfigList" RKE2ConfigList_layout RKE2ConfigList_DeepCopyInto RKE2ConfigList_DeepCopy;
  CopiedType "RKE2ConfigTemplateResource" RKE2ConfigTemplateResource_layout RKE2ConfigTemplateResource_DeepCopyInto RKE2ConfigTemplateResource_DeepCopy;
  CopiedType "RKE2ConfigTemplateSpec" RKE2ConfigTemplateSpec_layout RKE2ConfigTemplateSpec_DeepCopyInto RKE2ConfigTemplateSpec_DeepCopy;
  CopiedType "RKE2ConfigTemplate" RKE2ConfigTemplate_layout RKE2ConfigTemplate_DeepCopyInto RKE2ConfigTemplate_DeepCopy;
  CopiedType "RKE2ConfigTemplateList" RKE2ConfigTemplateList_layout RKE2ConfigTemplateList_DeepCopyInto RKE2ConfigTemplateList_DeepCopy].

Definition bootstrap_v1beta1_objects : list copied_object := [
  CopiedObject "RKE2Config" RKE2Config_layout RKE2Config_DeepCopyObject;
  CopiedObject "RKE2ConfigList" RKE2ConfigList_layout RKE2ConfigList_DeepCopyObject;
  CopiedObject "RKE2ConfigTemplate" RKE2ConfigTemplate_layout RKE2ConfigTemplate_DeepCopyObject;
  CopiedObject "RKE2ConfigTemplateList" RKE2ConfigTemplateList_layout RKE2ConfigTemplateList_DeepCopyObject].

End definitions.

(** ** Every function copies *)

Section copies.
Context `{GoRange, ExternalLaws}.

Lemma bv1_AdditionalUserData_copies : deep_copies AdditionalUserData_layout AdditionalUserData_DeepCopyInto.
Proof. struct_copy. Qed.
#[local] Hint Resolve bv1_AdditionalUserData_copies : deepcopy.

Lemma bv1_ComponentConfig_copies : deep_copies ComponentConfig_layout ComponentConfig_DeepCopyInto.
Proof. struct_copy. Qed.
#[local] Hint Resolve bv1_ComponentConfig_copies : deepcopy.

Lemma bv1_FileSourceRef_copies : deep_copies FileSourceRef_layout FileSourceRef_DeepCopyInto.
Proof. struct_copy. Qed.
#[local] Hint Resolve bv1_FileSourceRef_copies : deepcopy.

Lemma bv1_FileSource_copies : deep_copies FileSource_layout FileSource_DeepCopyInto.
Proof. struct_copy. Qed.
#[local] Hint Resolve bv1_FileSource_copies : deepcopy.

Lemma bv1_File_copies : deep_copies File_layout File_DeepCopyInto.
Proof. struct_copy. Qed.
#[local] Hint Resolve bv1_File_copies : deepcopy.

Lemma bv1_Mirror_copies : deep_copies Mirror_layout Mirror_DeepCopyInto.
Proof. struct_copy. Qed.
#[local] Hint Resolve bv1_Mirror_copies : deepcopy.

Lemma bv1_NTP_copies : deep_copies NTP_layout NTP_DeepCopyInto.
Proof. struct_copy. Qed.
#[local] Hint Resolve bv1_NTP_copies : deepcopy.

Lemma bv1_RKE2AgentConfig_copies : deep_copies RKE2AgentConfig_layout RKE2AgentConfig_DeepCopyInto.
Proof. struct_copy. Qed.
#[local] Hint Resolve bv1_RKE2AgentConfig_copies : deepcopy.

Lemma bv1_TLSConfig_copies : deep_copies TLSConfig_layout TLSConfig_DeepCopyInto.
Proof. struct_copy. Qed.
#[local] Hint Resolve bv1_TLSConfig_copies : deepcopy.

Lemma bv1_RegistryConfig_copies : deep_copies RegistryConfig_layout RegistryConfig_DeepCopyInto.
Proof. struct_copy. Qed.
#[local] Hint Resolve bv1_RegistryConfig_copies : deepcopy.

Lemma bv1_Registry_copies : deep_copies Registry_layout Registry_DeepCopyInto.
Proof. struct_copy. Qed.
#[local] Hint Resolve bv1_Registry_copies : deepcopy.

Lemma bv1_RKE2ConfigSpec_copies : deep_copies RKE2ConfigSpec_layout RKE2ConfigSpec_DeepCopyInto.
Proof. struct_copy. Qed.
#[local] Hint Resolve bv1_RKE2ConfigSpec_copies : deepcopy.

Lemma bv1_RKE2ConfigV1Beta2Status_copies : deep_copies RKE2ConfigV1Beta2Status_layout RKE2ConfigV1Beta2Status_DeepCopyInto.
Proof. struct_copy. Qed.
#[local] Hint Resolve bv1_RKE2ConfigV1Beta2Status_copies : deepcopy.

Lemma bv1_RKE2ConfigStatus_copies : deep_copies RKE2ConfigStatus_layout RKE2ConfigStatus_DeepCopyInto.
Proof. struct_copy. Qed.
#[local] Hint Resolve bv1_RKE2ConfigStatus_copies : deepcopy.

Lemma bv1_RKE2Config_copies : deep_copies RKE2Config_layout RKE2Config_DeepCopyInto.
Proof. struct_copy. Qed.
#[local] Hint Resolve bv1_RKE2Config_copies : deepcopy.

Lemma bv1_RKE2ConfigList_copies : deep_copies RKE2ConfigList_layout RKE2ConfigList_DeepCopyInto.
Proof. struct_copy. Qed.
#[local] Hint Resolve bv1_RKE2ConfigList_copies : deepcopy.

Lemma bv1_RKE2ConfigTemplateResource_copies : deep_copies RKE2ConfigTemplateResource_layout RKE2ConfigTemplateResource_DeepCopyInto.
Proof. struct_copy. Qed.
#[local] Hint Resolve bv1_RKE2ConfigTemplateResource_copies : deepcopy.

Lemma bv1_RKE2ConfigTemplateSpec_copies : deep_copies RKE2ConfigTemplateSpec_layout RKE2ConfigTemplateSpec_DeepCopyInto.
Proof. struct_copy. Qed.
#[local] Hint Resolve bv1_RKE2ConfigTemplateSpec_copies : deepcopy.

Lemma bv1_RKE2ConfigTemplate_copies : deep_copies RKE2ConfigTemplate_layout RKE2ConfigTemplate_DeepCopyInto.
Proof. struct_copy. Qed.
#[local] Hint Resolve bv1_RKE2ConfigTemplate_copies : deepcopy.

Lemma bv1_RKE2ConfigTemplateList_copies : deep_copies RKE2ConfigTemplateList_layout RKE2ConfigTemplateList_DeepCopyInto.
Proof. struct_copy. Qed.
#[local] Hint Resolve bv1_RKE2ConfigTemplateList_copies : deepcopy.

Lemma bootstrap_v1beta1_types_copy : Forall copies_type bootstrap_v1beta1_types.
Proof. repeat constructor; eauto with deepcopy. Qed.

Lemma bootstrap_v1beta1_objects_copy : Forall copies_object bootstrap_v1beta1_objects.
Proof. repeat (apply Forall_cons; split; [eexists; split; [|reflexivity]; eauto with deepcopy|]); done. Qed.

End copies.

(** What the control plane API embeds. *)
#[export] Hint Resolve bv1_ComponentConfig_copies bv1_RKE2ConfigSpec_copies : deepcopy.
