(* ===== verification/PlaneCopyV2.v ===== *)
(** * PlaneCopyV2: the deep copies of the control plane API v1beta2

    One layout (the fields of a type as far as memory is concerned), one
    [DeepCopyInto] and one [DeepCopy] per type of controlplane/api/v1beta2, in the order
    of their dependencies, and [DeepCopyObject] for the objects.  Each
    [DeepCopyInto] is shown to keep the promise of [DeepCopy.deep_copies]. *)

From Stdlib Require Import String.
From stdpp Require Import base tactics option strings numbers gmap list.
From S2P Require Import Prelude Go Memory DeepCopy Externals BootstrapCopyV2.
Open Scope string_scope.
Open Scope list_scope.
Open Scope stdpp_scope.

Section definitions.
Context `{GoRange, ExternalTypes}.

Definition DisableComponents_layout : ty := struct [
  ("KubernetesComponents", TSlice TStr);
  ("PluginComponents", TSlice TStr)].

Definition DisableComponents_DeepCopyInto : addr → addr → M unit := copy_struct [
  ("KubernetesComponents", slice_copy TStr);
  ("PluginComponents", slice_copy TStr)].

Definition DisableComponents_DeepCopy : option addr → M (option addr) :=
  DeepCopy DisableComponents_layout DisableComponents_DeepCopyInto.

Definition EtcdS3_layout : ty := struct [
  ("Endpoint", TStr);
  ("EndpointCASecret", TPtr corev1_ObjectReference);
  ("EnforceSSLVerify", TBool);
  ("S3CredentialSecret", TPtr corev1_ObjectReference);
  ("Bucket", TStr);
  ("Region", TStr);
  ("Folder", TStr)].

Definition EtcdS3_DeepCopyInto : addr → addr → M unit := copy_struct [
  ("EndpointCASecret", ptr_assign corev1_ObjectReference);
  ("S3CredentialSecret", ptr_assign corev1_ObjectReference)].

Definition EtcdS3_DeepCopy : option addr → M (option addr) :=
  DeepCopy EtcdS3_layout EtcdS3_DeepCopyInto.

Definition EtcdBackupConfig_layout : ty := struct [
  ("DisableAutomaticSnapshots", TPtr TBool);
  ("SnapshotName", TStr);
  ("ScheduleCron", TStr);
  ("Retention", TStr);
  ("Directory", TStr);
  ("S3", TPtr EtcdS3_layout)].

Definition EtcdBackupConfig_DeepCopyInto : addr → addr → M unit := copy_struct [
  ("DisableAutomaticSnapshots", ptr_assign TBool);
  ("S3", ptr_into EtcdS3_layout EtcdS3_DeepCopyInto)].

Definition EtcdBackupConfig_DeepCopy : option addr → M (option addr) :=
  DeepCopy EtcdBackupConfig_layout EtcdBackupConfig_DeepCopyInto.

Definition EtcdConfig_layout : ty := struct [
  ("ExposeMetrics", TBool);
  ("BackupConfig", EtcdBackupConfig_layout);
  ("CustomConfig", TPtr ComponentConfig_layout)].

Definition EtcdConfig_DeepCopyInto : addr → addr → M unit := copy_struct [
  ("BackupConfig", EtcdBackupConfig_DeepCopyInto);
  ("CustomConfig", ptr_into ComponentConfig_layout ComponentConfig_DeepCopyInto)].

Definition EtcdConfig_DeepCopy : option addr → M (option addr) :=
  DeepCopy EtcdConfig_layout EtcdConfig_DeepCopyInto.

Definition LastRemediationStatus_layout : ty := struct [
  ("Machine", TStr);
  ("Timestamp", metav1_Time);
  ("RetryCount", TInt)].

Definition LastRemediationStatus_DeepCopyInto : addr → addr → M unit := copy_struct [
  ("Timestamp", metav1_Time_DeepCopyInto)].

Definition LastRemediationStatus_DeepCopy : option addr → M (option addr) :=
  DeepCopy LastRemediationStatus_layout LastRemediationStatus_DeepCopyInto.

Definition RKE2ControlPlaneMachineTemplateDeletionSpec_layout : ty := struct [
  ("NodeDrainTimeoutSeconds", TPtr TInt);
  ("NodeVolumeDetachTimeoutSeconds", TPtr TInt);
  ("NodeDeletionTimeoutSeconds", TPtr TInt)].

Definition RKE2ControlPlaneMachineTemplateDeletionSpec_DeepCopyInto : addr → addr → M unit := copy_struct [
  ("NodeDrainTimeoutSeconds", ptr_assign TInt);
  ("NodeVolumeDetachTimeoutSeconds", ptr_assign TInt);
  ("NodeDeletionTimeoutSeconds", ptr_assign TInt)].

Definition RKE2ControlPlaneMachineTemplateDeletionSpec_DeepCopy : option addr → M (option addr) :=
  DeepCopy RKE2ControlPlaneMachineTemplateDeletionSpec_layout RKE2ControlPlaneMachineTemplateDeletionSpec_DeepCopyInto.

Definition RKE2ControlPlaneMachineTemplateSpec_layout : ty := struct [
  ("InfrastructureRef", clusterv1_ContractVersionedObjectReference);
  ("Deletion", RKE2ControlPlaneMachineTemplateDeletionSpec_layout);
  ("Taints", TSlice clusterv1_MachineTaint)].

Definition RKE2ControlPlaneMachineTemplateSpec_DeepCopyInto : addr → addr → M unit := copy_struct [
  ("InfrastructureRef", assign);
  ("Deletion", RKE2ControlPlaneMachineTemplateDeletionSpec_DeepCopyInto);
  ("Taints", slice_copy clusterv1_MachineTaint)].

Definition RKE2ControlPlaneMachineTemplateSpec_DeepCopy : option addr → M (option addr) :=
  DeepCopy RKE2ControlPlaneMachineTemplateSpec_layout RKE2ControlPlaneMachineTemplateSpec_DeepCopyInto.

Definition RKE2ControlPlaneMachineTemplate_layout : ty := struct [
  ("ObjectMeta", clusterv1_ObjectMeta);
  ("Spec", RKE2ControlPlaneMachineTemplateSpec_layout)].

Definition RKE2ControlPlaneMachineTemplate_DeepCopyInto : addr → addr → M unit := copy_struct [
  ("ObjectMeta", clusterv1_ObjectMeta_DeepCopyInto);
  ("Spec", RKE2ControlPlaneMachineTemplateSpec_DeepCopyInto)].

Definition RKE2ControlPlaneMachineTemplate_DeepCopy : option addr → M (option addr) :=
  DeepCopy RKE2ControlPlaneMachineTemplate_layout RKE2ControlPlaneMachineTemplate_DeepCopyInto.

Definition SecretsEncryption_layout : ty := struct [
  ("EncryptionKeySecret", TPtr corev1_ObjectReference);
  ("Provider", TStr)].

Definition SecretsEncryption_DeepCopyInto : addr → addr → M unit := copy_struct [
  ("EncryptionKeySecret", ptr_assign corev1_ObjectReference)].

Definition SecretsEncryption_DeepCopy : option addr → M (option addr) :=
  DeepCopy SecretsEncryption_layout SecretsEncryption_DeepCopyInto.

Definition RKE2ServerConfig_layout : ty := struct [
  ("AuditPolicySecret", TPtr corev1_ObjectReference);
  ("BindAddress", TStr);
  ("AdvertiseAddress", TStr);
  ("TLSSan", TSlice TStr);
  ("ServiceNodePortRange", TStr);
  ("ClusterDNS", TStr);
  ("ClusterDomain", TStr);
  ("DisableComponents", DisableComponents_layout);
  ("CNI", TStr);
  ("CNIMultusEnable", TBool);
  ("IngressController", TSlice TStr);
  ("PauseImage", TStr);
  ("Etcd", EtcdConfig_layout);
  ("SecretsEncryptionProvider", TPtr SecretsEncryption_layout);
  ("KubeAPIServer", TPtr ComponentConfig_layout);
  ("KubeControllerManager", TPtr ComponentConfig_layout);
  ("KubeScheduler", TPtr ComponentConfig_layout);
  ("CloudControllerManager", TPtr ComponentConfig_layout);
  ("CloudProviderName", TStr);
  ("CloudProviderConfigMap", TPtr corev1_ObjectReference);
  ("SupervisorMetrics", TBool);
  ("EmbeddedRegistry", TBool);
  ("ExternalDatastoreSecret", TPtr corev1_ObjectReference)].

Definition RKE2ServerConfig_DeepCopyInto : addr → addr → M unit := copy_struct [
  ("AuditPolicySecret", ptr_assign corev1_ObjectReference);
  ("TLSSan", slice_copy TStr);
  ("DisableComponents", DisableComponents_DeepCopyInto);
  ("IngressController", slice_copy TStr);
  ("Etcd", EtcdConfig_DeepCopyInto);
  ("SecretsEncryptionProvider", ptr_into SecretsEncryption_layout SecretsEncryption_DeepCopyInto);
  ("KubeAPIServer", ptr_into ComponentConfig_layout ComponentConfig_DeepCopyInto);
  ("KubeControllerManager", ptr_into ComponentConfig_layout ComponentConfig_DeepCopyInto);
  ("KubeScheduler", ptr_into ComponentConfig_layout ComponentConfig_DeepCopyInto);
  ("CloudControllerManager", ptr_into ComponentConfig_layout ComponentConfig_DeepCopyInto);
  ("CloudProviderConfigMap", ptr_assign corev1_ObjectReference);
  ("ExternalDatastoreSecret", ptr_assign corev1_ObjectReference)].

Definition RKE2ServerConfig_DeepCopy : option addr → M (option addr) :=
  DeepCopy RKE2ServerConfig_layout RKE2ServerConfig_DeepCopyInto.

Definition RollingUpdate_layout : ty := struct [
  ("MaxSurge", TPtr intstr_IntOrString)].

Definition RollingUpdate_DeepCopyInto : addr → addr → M unit := copy_struct [
  ("MaxSurge", ptr_assign intstr_IntOrString)].

Definition RollingUpdate_DeepCopy : option addr → M (option addr) :=
  DeepCopy RollingUpdate_layout RollingUpdate_DeepCopyInto.

Definition RolloutStrategy_layout : ty := struct [
  ("Type", TStr);
  ("RollingUpdate", TPtr RollingUpdate_layout)].

Definition RolloutStrategy_DeepCopyInto : addr → addr → M unit := copy_struct [
  ("RollingUpdate", ptr_into RollingUpdate_layout RollingUpdate_DeepCopyInto)].

Definition RolloutStrategy_DeepCopy : option addr → M (option addr) :=
  DeepCopy RolloutStrategy_layout RolloutStrategy_DeepCopyInto.

Definition RemediationStrategy_layout : ty := struct [
  ("MaxRetry", TPtr TInt);
  ("RetryPeriod", metav1_Duration);
  ("MinHealthyPeriod", TPtr metav1_Duration)].

Definition RemediationStrategy_DeepCopyInto : addr → addr → M unit := copy_struct [
  ("MaxRetry", ptr_assign TInt);
  ("RetryPeriod", assign);
  ("MinHealthyPeriod", ptr_assign metav1_Duration)].

Definition RemediationStrategy_DeepCopy : option addr → M (option addr) :=
  DeepCopy RemediationStrategy_layout RemediationStrategy_DeepCopyInto.

Definition RKE2ControlPlaneSpec_layout : ty := struct [
  ("RKE2ConfigSpec", RKE2ConfigSpec_layout);
  ("Replicas", TPtr TInt);
  ("Version", TStr);
  ("MachineTemplate", RKE2ControlPlaneMachineTemplate_layout);
  ("ServerConfig", RKE2ServerConfig_layout);
  ("ManifestsConfigMapReference", corev1_ObjectReference);
  ("RegistrationMethod", TStr);
  ("RegistrationAddress", TStr);
  ("RolloutStrategy", TPtr RolloutStrategy_layout);
  ("RemediationStrategy", TPtr RemediationStrategy_layout)].

Definition RKE2ControlPlaneSpec_DeepCopyInto : addr → addr → M unit := copy_struct [
  ("RKE2ConfigSpec", RKE2ConfigSpec_DeepCopyInto);
  ("Replicas", ptr_assign TInt);
  ("MachineTemplate", RKE2ControlPlaneMachineTemplate_DeepCopyInto);
  ("ServerConfig", RKE2ServerConfig_DeepCopyInto);
  ("ManifestsConfigMapReference", assign);
  ("RolloutStrategy", ptr_into RolloutStrategy_layout RolloutStrategy_DeepCopyInto);
  ("RemediationStrategy", ptr_into RemediationStrategy_layout RemediationStrategy_DeepCopyInto)].

Definition RKE2ControlPlaneSpec_DeepCopy : option addr → M (option addr) :=
  DeepCopy RKE2ControlPlaneSpec_layout RKE2ControlPlaneSpec_DeepCopyInto.

Definition RKE2ControlPlaneInitializationStatus_layout : ty := struct [
  ("ControlPlaneInitialized", TPtr TBool)].

Definition RKE2ControlPlaneInitializationStatus_DeepCopyInto : addr → addr → M unit := copy_struct [
  ("ControlPlaneInitialized", ptr_assign TBool)].

Definition RKE2ControlPlaneInitializationStatus_DeepCopy : option addr → M (option addr) :=
  DeepCopy RKE2ControlPlaneInitializationStatus_layout RKE2ControlPlaneInitializationStatus_DeepCopyInto.

Definition RKE2ControlPlaneStatus_layout : ty := struct [
  ("Conditions", TSlice metav1_Condition);
  ("Initialization", RKE2ControlPlaneInitializationStatus_layout);
  ("ObservedGeneration", TInt);
  ("Replicas", TPtr TInt);
  ("Version", TStr);
  ("ReadyReplicas", TPtr TInt);
  ("AvailableReplicas", TPtr TInt);
  ("UpToDateReplicas", TPtr TInt);
  ("AvailableServerIPs", TSlice TStr);
  ("LastRemediation", TPtr LastRemediationStatus_layout)].

Definition RKE2ControlPlaneStatus_DeepCopyInto : addr → addr → M unit := copy_struct [
  ("Conditions", slice_into metav1_Condition metav1_Condition_DeepCopyInto);
  ("Initialization", RKE2ControlPlaneInitializationStatus_DeepCopyInto);
  ("Replicas", ptr_assign TInt);
  ("ReadyReplicas", ptr_assign TInt);
  ("AvailableReplicas", ptr_assign TInt);
  ("UpToDateReplicas", ptr_assign TInt);
  ("AvailableServerIPs", slice_copy TStr);
  ("LastRemediation", ptr_into LastRemediationStatus_layout LastRemediationStatus_DeepCopyInto)].

Definition RKE2ControlPlaneStatus_DeepCopy : option addr → M (option addr) :=
  DeepCopy RKE2ControlPlaneStatus_layout RKE2ControlPlaneStatus_DeepCopyInto.

Definition RKE2ControlPlane_layout : ty := struct [
  ("TypeMeta", metav1_TypeMeta);
  ("ObjectMeta", metav1_ObjectMeta);
  ("Spec", RKE2ControlPlaneSpec_layout);
  ("Status", RKE2ControlPlaneStatus_layout)].

Definition RKE2ControlPlane_DeepCopyInto : addr → addr → M unit := copy_struct [
  ("TypeMeta", assign);
  ("ObjectMeta", metav1_ObjectMeta_DeepCopyInto);
  ("Spec", RKE2ControlPlaneSpec_DeepCopyInto);
  ("Status", RKE2ControlPlaneStatus_DeepCopyInto)].

Definition RKE2ControlPlane_DeepCopy : option addr → M (option addr) :=
  DeepCopy RKE2ControlPlane_layout RKE2ControlPlane_DeepCopyInto.

Definition RKE2ControlPlane_DeepCopyObject : option addr → M (option (string * addr)) :=
  DeepCopyObject "RKE2ControlPlane" RKE2ControlPlane_DeepCopy.

Definition RKE2ControlPlaneList_layout : ty := struct [
  ("TypeMeta", metav1_TypeMeta);
  ("ListMeta", metav1_ListMeta);
  ("Items", TSlice RKE2ControlPlane_layout)].

Definition RKE2ControlPlaneList_DeepCopyInto : addr → addr → M unit := copy_struct [
  ("TypeMeta", assign);
  ("ListMeta", metav1_ListMeta_DeepCopyInto);
  ("Items", slice_into RKE2ControlPlane_layout RKE2ControlPlane_DeepCopyInto)].

Definition RKE2ControlPlaneList_DeepCopy : option addr → M (option addr) :=
  DeepCopy RKE2ControlPlaneList_layout RKE2ControlPlaneList_DeepCopyInto.

Definition RKE2ControlPlaneList_DeepCopyObject : option addr → M (option (string * addr)) :=
  DeepCopyObject "RKE2ControlPlaneList" RKE2ControlPlaneList_DeepCopy.

Definition RKE2ControlPlaneTemplateResourceSpec_layout : ty := struct [
  ("RKE2ConfigSpec", RKE2ConfigSpec_layout);
  ("MachineTemplate", RKE2ControlPlaneMachineTemplate_layout);
  ("ServerConfig", RKE2ServerConfig_layout);
  ("ManifestsConfigMapReference", corev1_ObjectReference);
  ("RegistrationMethod", TStr);
  ("RegistrationAddress", TStr);
  ("RolloutStrategy", TPtr RolloutStrategy_layout);
  ("RemediationStrategy", TPtr RemediationStrategy_layout)].

Definition RKE2ControlPlaneTemplateResourceSpec_DeepCopyInto : addr → addr → M unit := copy_struct [
  ("RKE2ConfigSpec", RKE2ConfigSpec_DeepCopyInto);
  ("MachineTemplate", RKE2ControlPlaneMachineTemplate_DeepCopyInto);
  ("ServerConfig", RKE2ServerConfig_DeepCopyInto);
  ("ManifestsConfigMapReference", assign);
  ("RolloutStrategy", ptr_into RolloutStrategy_layout RolloutStrategy_DeepCopyInto);
  ("RemediationStrategy", ptr_into RemediationStrategy_layout RemediationStrategy_DeepCopyInto)].

Definition RKE2ControlPlaneTemplateResourceSpec_DeepCopy : option addr → M (option addr) :=
  DeepCopy RKE2ControlPlaneTemplateResourceSpec_layout RKE2ControlPlaneTemplateResourceSpec_DeepCopyInto.

Definition RKE2ControlPlaneTemplateResource_layout : ty := struct [
  ("ObjectMeta", clusterv1_ObjectMeta);
  ("Spec", RKE2ControlPlaneTemplateResourceSpec_layout)].

Definition RKE2ControlPlaneTemplateResource_DeepCopyInto : addr → addr → M unit := copy_struct [
  ("ObjectMeta", clusterv1_ObjectMeta_DeepCopyInto);
  ("Spec", RKE2ControlPlaneTemplateResourceSpec_DeepCopyInto)].

Definition RKE2ControlPlaneTemplateResource_DeepCopy : option addr → M (option addr) :=
  DeepCopy RKE2ControlPlaneTemplateResource_layout RKE2ControlPlaneTemplateResource_DeepCopyInto.

Definition RKE2ControlPlaneTemplateSpec_layout : ty := struct [
  ("Template", RKE2ControlPlaneTemplateResource_layout)].

Definition RKE2ControlPlaneTemplateSpec_DeepCopyInto : addr → addr → M unit := copy_struct [
  ("Template", RKE2ControlPlaneTemplateResource_DeepCopyInto)].

Definition RKE2ControlPlaneTemplateSpec_DeepCopy : option addr → M (option addr) :=
  DeepCopy RKE2ControlPlaneTemplateSpec_layout RKE2ControlPlaneTemplateSpec_DeepCopyInto.

Definition RKE2ControlPlaneTemplate_layout : ty := struct [
  ("TypeMeta", metav1_TypeMeta);
  ("ObjectMeta", metav1_ObjectMeta);
  ("Spec", RKE2ControlPlaneTemplateSpec_layout)].

Definition RKE2ControlPlaneTemplate_DeepCopyInto : addr → addr → M unit := copy_struct [
  ("TypeMeta", assign);
  ("ObjectMeta", metav1_ObjectMeta_DeepCopyInto);
  ("Spec", RKE2ControlPlaneTemplateSpec_DeepCopyInto)].

Definition RKE2ControlPlaneTemplate_DeepCopy : option addr → M (option addr) :=
  DeepCopy RKE2ControlPlaneTemplate_layout RKE2ControlPlaneTemplate_DeepCopyInto.

Definition RKE2ControlPlaneTemplate_DeepCopyObject : option addr → M (option (string * addr)) :=
  DeepCopyObject "RKE2ControlPlaneTemplate" RKE2ControlPlaneTemplate_DeepCopy.

Definition RKE2ControlPlaneTemplateList_layout : ty := struct [
  ("TypeMeta", metav1_TypeMeta);
  ("ListMeta", metav1_ListMeta);
  ("Items", TSlice RKE2ControlPlaneTemplate_layout)].

Definition RKE2ControlPlaneTemplateList_DeepCopyInto : addr → addr → M unit := copy_struct [
  ("TypeMeta", assign);
  ("ListMeta", metav1_ListMeta_DeepCopyInto);
  ("Items", slice_into RKE2ControlPlaneTemplate_layout RKE2ControlPlaneTemplate_DeepCopyInto)].

Definition RKE2ControlPlaneTemplateList_DeepCopy : option addr → M (option addr) :=
  DeepCopy RKE2ControlPlaneTemplateList_layout RKE2ControlPlaneTemplateList_DeepCopyInto.

Definition RKE2ControlPlaneTemplateList_DeepCopyObject : option addr → M (option (string * addr)) :=
  DeepCopyObject "RKE2ControlPlaneTemplateList" RKE2ControlPlaneTemplateList_DeepCopy.

(** The types of the package, and its objects. *)
Definition plane_v1beta2_types : list copied_type := [
  CopiedType "DisableComponents" DisableComponents_layout DisableComponents_DeepCopyInto DisableComponents_DeepCopy;
  CopiedType "EtcdS3" EtcdS3_layout EtcdS3_DeepCopyInto EtcdS3_DeepCopy;
  CopiedType "EtcdBackupConfig" EtcdBackupConfig_layout EtcdBackupConfig_DeepCopyInto EtcdBackupConfig_DeepCopy;
  CopiedType "EtcdConfig" EtcdConfig_layout EtcdConfig_DeepCopyInto EtcdConfig_DeepCopy;
  CopiedType "LastRemediationStatus" LastRemediationStatus_layout LastRemediationStatus_DeepCopyInto LastRemediationStatus_DeepCopy;
  CopiedType "RKE2ControlPlaneMachineTemplateDeletionSpec" RKE2ControlPlaneMachineTemplateDeletionSpec_layout RKE2ControlPlaneMachineTemplateDeletionSpec_DeepCopyInto RKE2ControlPlaneMachineTemplateDeletionSpec_DeepCopy;
  CopiedType "RKE2ControlPlaneMachineTemplateSpec" RKE2ControlPlaneMachineTemplateSpec_layout RKE2ControlPlaneMachineTemplateSpec_DeepCopyInto RKE2ControlPlaneMachineTemplateSpec_DeepCopy;
  CopiedType "RKE2ControlPlaneMachineTemplate" RKE2ControlPlaneMachineTemplate_layout RKE2ControlPlaneMachineTemplate_DeepCopyInto RKE2ControlPlaneMachineTemplate_DeepCopy;
  CopiedType "SecretsEncryption" SecretsEncryption_layout SecretsEncryption_DeepCopyInto SecretsEncryption_DeepCopy;
  CopiedType "RKE2ServerConfig" RKE2ServerConfig_layout RKE2ServerConfig_DeepCopyInto RKE2ServerConfig_DeepCopy;
  CopiedType "RollingUpdate" RollingUpdate_layout RollingUpdate_DeepCopyInto RollingUpdate_DeepCopy;
  CopiedType "RolloutStrategy" RolloutStrategy_layout RolloutStrategy_DeepCopyInto RolloutStrategy_DeepCopy;
  CopiedType "RemediationStrategy" RemediationStrategy_layout RemediationStrategy_DeepCopyInto RemediationStrategy_DeepCopy;
  CopiedType "RKE2ControlPlaneSpec" RKE2ControlPlaneSpec_layout RKE2ControlPlaneSpec_DeepCopyInto RKE2ControlPlaneSpec_DeepCopy;
  CopiedType "RKE2ControlPlaneInitializationStatus" RKE2ControlPlaneInitializationStatus_layout RKE2ControlPlaneInitializationStatus_DeepCopyInto RKE2ControlPlaneInitializationStatus_DeepCopy;
  CopiedType "RKE2ControlPlaneStatus" RKE2ControlPlaneStatus_layout RKE2ControlPlaneStatus_DeepCopyInto RKE2ControlPlaneStatus_DeepCopy;
  CopiedType "RKE2ControlPlane" RKE2ControlPlane_layout RKE2ControlPlane_DeepCopyInto RKE2ControlPlane_DeepCopy;
  CopiedType "RKE2ControlPlaneList" RKE2ControlPlaneList_layout RKE2ControlPlaneList_DeepCopyInto RKE2ControlPlaneList_DeepCopy;
  CopiedType "RKE2ControlPlaneTemplateResourceSpec" RKE2ControlPlaneTemplateResourceSpec_layout RKE2ControlPlaneTemplateResourceSpec_DeepCopyInto RKE2ControlPlaneTemplateResourceSpec_DeepCopy;
  CopiedType "RKE2ControlPlaneTemplateResource" RKE2ControlPlaneTemplateResource_layout RKE2ControlPlaneTemplateResource_DeepCopyInto RKE2ControlPlaneTemplateResource_DeepCopy;
  CopiedType "RKE2ControlPlaneTemplateSpec" RKE2ControlPlaneTemplateSpec_layout RKE2ControlPlaneTemplateSpec_DeepCopyInto RKE2ControlPlaneTemplateSpec_DeepCopy;
  CopiedType "RKE2ControlPlaneTemplate" RKE2ControlPlaneTemplate_layout RKE2ControlPlaneTemplate_DeepCopyInto RKE2ControlPlaneTemplate_DeepCopy;
  CopiedType "RKE2ControlPlaneTemplateList" RKE2ControlPlaneTemplateList_layout RKE2ControlPlaneTemplateList_DeepCopyInto RKE2ControlPlaneTemplateList_DeepCopy].

Definition plane_v1beta2_objects : list copied_object := [
  CopiedObject "RKE2ControlPlane" RKE2ControlPlane_layout RKE2ControlPlane_DeepCopyObject;
  CopiedObject "RKE2ControlPlaneList" RKE2ControlPlaneList_layout RKE2ControlPlaneList_DeepCopyObject;
  CopiedObject "RKE2ControlPlaneTemplate" RKE2ControlPlaneTemplate_layout RKE2ControlPlaneTemplate_DeepCopyObject;
  CopiedObject "RKE2ControlPlaneTemplateList" RKE2ControlPlaneTemplateList_layout RKE2ControlPlaneTemplateList_DeepCopyObject].

End definitions.

(** ** Every function copies *)

Section copies.
Context `{GoRange, ExternalLaws}.

Lemma cv2_DisableComponents_copies : deep_copies DisableComponents_layout DisableComponents_DeepCopyInto.
Proof. struct_copy. Qed.
#[local] Hint Resolve cv2_DisableComponents_copies : deepcopy.

Lemma cv2_EtcdS3_copies : deep_copies EtcdS3_layout EtcdS3_DeepCopyInto.
Proof. struct_copy. Qed.
#[local] Hint Resolve cv2_EtcdS3_copies : deepcopy.

Lemma cv2_EtcdBackupConfig_copies : deep_copies EtcdBackupConfig_layout EtcdBackupConfig_DeepCopyInto.
Proof. struct_copy. Qed.
#[local] Hint Resolve cv2_EtcdBackupConfig_copies : deepcopy.

Lemma cv2_EtcdConfig_copies : deep_copies EtcdConfig_layout EtcdConfig_DeepCopyInto.
Proof. struct_copy. Qed.
#[local] Hint Resolve cv2_EtcdConfig_copies : deepcopy.

Lemma cv2_LastRemediationStatus_copies : deep_copies LastRemediationStatus_layout LastRemediationStatus_DeepCopyInto.
Proof. struct_copy. Qed.
#[local] Hint Resolve cv2_LastRemediationStatus_copies : deepcopy.

Lemma cv2_RKE2ControlPlaneMachineTemplateDeletionSpec_copies : deep_copies RKE2ControlPlaneMachineTemplateDeletionSpec_layout RKE2ControlPlaneMachineTemplateDeletionSpec_DeepCopyInto.
Proof. struct_copy. Qed.
#[local] Hint Resolve cv2_RKE2ControlPlaneMachineTemplateDeletionSpec_copies : deepcopy.

Lemma cv2_RKE2ControlPlaneMachineTemplateSpec_copies : deep_copies RKE2ControlPlaneMachineTemplateSpec_layout RKE2ControlPlaneMachineTemplateSpec_DeepCopyInto.
Proof. struct_copy. Qed.
#[local] Hint Resolve cv2_RKE2ControlPlaneMachineTemplateSpec_copies : deepcopy.

Lemma cv2_RKE2ControlPlaneMachineTemplate_copies : deep_copies RKE2ControlPlaneMachineTemplate_layout RKE2ControlPlaneMachineTemplate_DeepCopyInto.
Proof. struct_copy. Qed.
#[local] Hint Resolve cv2_RKE2ControlPlaneMachineTemplate_copies : deepcopy.

Lemma cv2_SecretsEncryption_copies : deep_copies SecretsEncryption_layout SecretsEncryption_DeepCopyInto.
Proof. struct_copy. Qed.
#[local] Hint Resolve cv2_SecretsEncryption_copies : deepcopy.

Lemma cv2_RKE2ServerConfig_copies : deep_copies RKE2ServerConfig_layout RKE2ServerConfig_DeepCopyInto.
Proof. struct_copy. Qed.
#[local] Hint Resolve cv2_RKE2ServerConfig_copies : deepcopy.

Lemma cv2_RollingUpdate_copies : deep_copies RollingUpdate_layout RollingUpdate_DeepCopyInto.
Proof. struct_copy. Qed.
#[local] Hint Resolve cv2_RollingUpdate_copies : deepcopy.

Lemma cv2_RolloutStrategy_copies : deep_copies RolloutStrategy_layout RolloutStrategy_DeepCopyInto.
Proof. struct_copy. Qed.
#[local] Hint Resolve cv2_RolloutStrategy_copies : deepcopy.

Lemma cv2_RemediationStrategy_copies : deep_copies RemediationStrategy_layout RemediationStrategy_DeepCopyInto.
Proof. struct_copy. Qed.
#[local] Hint Resolve cv2_RemediationStrategy_copies : deepcopy.

Lemma cv2_RKE2ControlPlaneSpec_copies : deep_copies RKE2ControlPlaneSpec_layout RKE2ControlPlaneSpec_DeepCopyInto.
Proof. struct_copy. Qed.
#[local] Hint Resolve cv2_RKE2ControlPlaneSpec_copies : deepcopy.

Lemma cv2_RKE2ControlPlaneInitializationStatus_copies : deep_copies RKE2ControlPlaneInitializationStatus_layout RKE2ControlPlaneInitializationStatus_DeepCopyInto.
Proof. struct_copy. Qed.
#[local] Hint Resolve cv2_RKE2ControlPlaneInitializationStatus_copies : deepcopy.

Lemma cv2_RKE2ControlPlaneStatus_copies : deep_copies RKE2ControlPlaneStatus_layout RKE2ControlPlaneStatus_DeepCopyInto.
Proof. struct_copy. Qed.
#[local] Hint Resolve cv2_RKE2ControlPlaneStatus_copies : deepcopy.

Lemma cv2_RKE2ControlPlane_copies : deep_copies RKE2ControlPlane_layout RKE2ControlPlane_DeepCopyInto.
Proof. struct_copy. Qed.
#[local] Hint Resolve cv2_RKE2ControlPlane_copies : deepcopy.

Lemma cv2_RKE2ControlPlaneList_copies : deep_copies RKE2ControlPlaneList_layout RKE2ControlPlaneList_DeepCopyInto.
Proof. struct_copy. Qed.
#[local] Hint Resolve cv2_RKE2ControlPlaneList_copies : deepcopy.

Lemma cv2_RKE2ControlPlaneTemplateResourceSpec_copies : deep_copies RKE2ControlPlaneTemplateResourceSpec_layout RKE2ControlPlaneTemplateResourceSpec_DeepCopyInto.
Proof. struct_copy. Qed.
#[local] Hint Resolve cv2_RKE2ControlPlaneTemplateResourceSpec_copies : deepcopy.

Lemma cv2_RKE2ControlPlaneTemplateResource_copies : deep_copies RKE2ControlPlaneTemplateResource_layout RKE2ControlPlaneTemplateResource_DeepCopyInto.
Proof. struct_copy. Qed.
#[local] Hint Resolve cv2_RKE2ControlPlaneTemplateResource_copies : deepcopy.

Lemma cv2_RKE2ControlPlaneTemplateSpec_copies : deep_copies RKE2ControlPlaneTemplateSpec_layout RKE2ControlPlaneTemplateSpec_DeepCopyInto.
Proof. struct_copy. Qed.
#[local] Hint Resolve cv2_RKE2ControlPlaneTemplateSpec_copies : deepcopy.

Lemma cv2_RKE2ControlPlaneTemplate_copies : deep_copies RKE2ControlPlaneTemplate_layout RKE2ControlPlaneTemplate_DeepCopyInto.
Proof. struct_copy. Qed.
#[local] Hint Resolve cv2_RKE2ControlPlaneTemplate_copies : deepcopy.

Lemma cv2_RKE2ControlPlaneTemplateList_copies : deep_copies RKE2ControlPlaneTemplateList_layout RKE2ControlPlaneTemplateList_DeepCopyInto.
Proof. struct_copy. Qed.
#[local] Hint Resolve cv2_RKE2ControlPlaneTemplateList_copies : deepcopy.

Lemma plane_v1beta2_types_copy : Forall copies_type plane_v1beta2_types.
Proof. repeat constructor; eauto with deepcopy. Qed.

Lemma plane_v1beta2_objects_copy : Forall copies_object plane_v1beta2_objects.
Proof. repeat (apply Forall_cons; split; [eexists; split; [|reflexivity]; eauto with deepcopy|]); done. Qed.

End copies.
