(* ===== verification/Copies.v ===== *)
(** * Copies: what the generated deep copies of all API types guarantee

    The table of every type of the four API packages with its functions, the
    theorem that a copy shares no memory with its original, and a check of
    typed objects that evaluates. *)

From Stdlib Require Import String.
From stdpp Require Import base tactics option strings numbers gmap list.
From S2P Require Import Prelude Go Memory DeepCopy Externals.
From S2P Require BootstrapCopyV2 BootstrapCopyV1 PlaneCopyV2 PlaneCopyV1.
Open Scope string_scope.
Open Scope list_scope.
Open Scope stdpp_scope.

Section tables.
Context `{GoRange, ExternalTypes}.

Definition api_types : list copied_type :=
  BootstrapCopyV2.bootstrap_v1beta2_types ++ BootstrapCopyV1.bootstrap_v1beta1_types ++
  PlaneCopyV2.plane_v1beta2_types ++ PlaneCopyV1.plane_v1beta1_types.

Definition api_objects : list copied_object :=
  BootstrapCopyV2.bootstrap_v1beta2_objects ++ BootstrapCopyV1.bootstrap_v1beta1_objects ++
  PlaneCopyV2.plane_v1beta2_objects ++ PlaneCopyV1.plane_v1beta1_objects.
End tables.

(** ** A check of typed values *)

Fixpoint typedb (t : ty) (h : heap) (v : val) : bool :=
  match t with
  | TBool => match v with VBool _ => true | _ => false end
  | TInt => match v with VInt _ => true | _ => false end
  | TStr => match v with VStr _ => true | _ => false end
  | TPtr t =>
      match v with
      | VPtr None => true
      | VPtr (Some a) => match read h a with Some x => typedb t h x | None => false end
      | _ => false
      end
  | TSlice t =>
      match v with
      | VSlice None => true
      | VSlice (Some (l, off, n)) =>
          bool_decide (is_Some (h !! l)) &&
          forallb (λ k, match read h (elem_at l off k) with Some x => typedb t h x | None => false end)
            (seq 0 n)
      | _ => false
      end
  | TMap t =>
      match v with
      | VMap None => true
      | VMap (Some l) =>
          match h !! l with
          | Some (CMap m) => forallb (λ e, typedb t h e.2) (map_to_list m)
          | _ => false
          end
      | _ => false
      end
  | TEnd => match v with VStruct _ => true | _ => false end
  | TField f t r =>
      match field f v with Some x => typedb t h x | None => false end && typedb r h v
  end.

Lemma typedb_sound t h v : typedb t h v = true → typed t h v.
Proof.
  unfold typed. revert v.
  induction t as [| | |t IH|t IH|t IH| |f t IHt r IHr]; intros v; simpl.
  1-3: destruct v; naive_solver.
  - destruct v as [| | |[a|]| | |]; try done; [|by left]. intros Hx.
    destruct (read h a) as [x|] eqn:Ex; [|done]. right. exists a, a, x, x. split_and!; auto.
  - destruct v as [| | | |[[[l off] n]|]| |]; try done; [|by left].
    intros [Hl Hall]%andb_prop. apply bool_decide_eq_true in Hl. right.
    exists l, off, l, off, n. split_and!; [done..|]. intros k Hk.
    rewrite forallb_forall in Hall. specialize (Hall k).
    destruct (read h (elem_at l off k)) as [x|] eqn:Ex.
    + exists x, x. split_and!; [done..|]. apply IH, Hall, in_seq. lia.
    + exfalso. assert (false = true); [|done]. apply Hall, in_seq. lia.
  - destruct v as [| | | | |[l|]|]; try done; [|by left].
    destruct (h !! l) as [[?|?|m]|] eqn:El; try done. intros Hall. right.
    exists l, l, m, m. split_and!; [done..|]. intros k.
    destruct (m !! k) as [x|] eqn:Ek; [right|by left]. exists x, x. split_and!; [done..|].
    apply IH. rewrite forallb_forall in Hall. apply (Hall (k, x)).
    by apply list_elem_of_In, elem_of_map_to_list.
  - destruct v; naive_solver.
  - intros [Hx Hr]%andb_prop. destruct (field f v) as [x|]; [|done]. eauto 10.
Qed.

(** ** The theorems *)

Section theorems.
Context `{GoRange, ExternalLaws}.

Lemma api_types_copy c : c ∈ api_types → copies_type c.
Proof.
  unfold api_types. rewrite !elem_of_app.
  intros [Hc|[Hc|[Hc|Hc]]]; revert c Hc; apply Forall_forall;
    [apply BootstrapCopyV2.bootstrap_v1beta2_types_copy|apply BootstrapCopyV1.bootstrap_v1beta1_types_copy
    |apply PlaneCopyV2.plane_v1beta2_types_copy|apply PlaneCopyV1.plane_v1beta1_types_copy].
Qed.

Lemma api_objects_copy c : c ∈ api_objects → copies_object c.
Proof.
  unfold api_objects. rewrite !elem_of_app.
  intros [Hc|[Hc|[Hc|Hc]]]; revert c Hc; apply Forall_forall;
    [apply BootstrapCopyV2.bootstrap_v1beta2_objects_copy|apply BootstrapCopyV1.bootstrap_v1beta1_objects_copy
    |apply PlaneCopyV2.plane_v1beta2_objects_copy|apply PlaneCopyV1.plane_v1beta1_objects_copy].
Qed.

(** C17: the deep copies of the API objects are deep.  For each of the 83 types
    of the four API packages, DeepCopy of an object does not panic; the copy has
    the same contents, all memory it points to is new, and nothing that was
    there is changed.  So whatever is later written to the copy (or to any
    memory that is not part of the original) leaves the original as it is, and
    whatever is later written to the original leaves the copy with the contents
    the original had.  A nil pointer is copied to nil. *)
Theorem deep_copies_isolated c h i v :
  c ∈ api_types → read h i = Some v → typed (ct_layout c) h v →
  ct_copy c None h = Some (None, h) ∧
  ∃ h' o w, ct_copy c (Some i) h = Some (Some o, h') ∧
    h ⊆ h' ∧ read h' o = Some w ∧ deep_equal (ct_layout c) h v h' w ∧
    (∀ l, l = a_loc o ∨ reaches (ct_layout c) h' w l → h !! l = None) ∧
    (∀ h2, (∀ l, is_Some (h !! l) → h2 !! l = h !! l) →
      read h2 i = Some v ∧ deep_equal (ct_layout c) h v h2 v) ∧
    (∀ h2, (∀ l, h !! l = None → h2 !! l = h' !! l) →
      read h2 o = Some w ∧ deep_equal (ct_layout c) h v h2 w).
Proof.
  intros [HD Hcopy]%api_types_copy Hi Ht. rewrite Hcopy. split; [done|].
  destruct (DeepCopy_fresh _ _ h i v HD Hi Ht) as (h' & o & w & Hrun & Hfresh).
  destruct (fresh_copy_isolated _ _ _ _ _ _ i Hi Ht Hfresh) as [Horig Hcpy].
  destruct Hfresh as (Hs & Ho & He & Hno & Hn).
  exists h', o, w. split_and!; try done. intros l [->|Hl]; [done|by apply Hn].
Qed.

(** [DeepCopyObject] of the objects: a copy as above, as an interface value of
    the same kind; the nil pointer gives the nil interface, not an interface
    that holds a nil pointer. *)
Theorem DeepCopyObject_copies c h i v :
  c ∈ api_objects → read h i = Some v → typed (co_layout c) h v →
  co_copy c None h = Some (None, h) ∧
  ∃ h' o w, co_copy c (Some i) h = Some (Some (co_name c, o), h') ∧
    fresh_copy (co_layout c) h v h' o w.
Proof.
  intros (D & HD & Hcopy)%api_objects_copy Hi Ht. rewrite Hcopy. split; [done|].
  destruct (DeepCopy_fresh _ _ h i v HD Hi Ht) as (h' & o & w & Hrun & Hfresh).
  exists h', o, w. split; [|done]. unfold DeepCopyObject.
  by rewrite (M_bind_some _ _ _ _ _ Hrun).
Qed.
End theorems.

(** ** On a concrete object

    A registry configuration: a map whose values hold slices and maps, one of
    them shared by two mirrors. *)

Definition demo_heap : heap :=
  <[1%positive := CVar (VStruct [("Mirrors", VMap (Some 2%positive)); ("Configs", VMap None)])]>
  (<[2%positive := CMap (<["docker.io" := VStruct
        [("Endpoint", VSlice (Some (3%positive, 1, 2))); ("Rewrite", VMap (Some 4%positive))]]>
      (<["quay.io" := VStruct
        [("Endpoint", VSlice None); ("Rewrite", VMap (Some 4%positive))]]> ∅))]>
  (<[3%positive := CArr [VStr "unused"; VStr "https://a"; VStr "https://b"]]>
  (<[4%positive := CMap (<["^library/(.*)" := VStr "mirror/$1"]> ∅)]> ∅))).

Definition demo_registry : addr := Addr 1 None [].
Definition demo_registry_value : val :=
  VStruct [("Mirrors", VMap (Some 2%positive)); ("Configs", VMap None)].

Definition Registry_type : copied_type :=
  CopiedType "Registry" BootstrapCopyV2.Registry_layout BootstrapCopyV2.Registry_DeepCopyInto
    BootstrapCopyV2.Registry_DeepCopy.

Lemma demo_registry_typed : typed BootstrapCopyV2.Registry_layout demo_heap demo_registry_value.
Proof. apply typedb_sound. vm_compute. reflexivity. Qed.

(** After the copy the shared map is overwritten, and an endpoint of the
    original too: the copy still has both as they were. *)
Lemma deep_copies_isolated_witness :
  ∃ h' o w, BootstrapCopyV2.Registry_DeepCopy (Some demo_registry) demo_heap = Some (Some o, h') ∧
    deep_equal BootstrapCopyV2.Registry_layout demo_heap demo_registry_value
      (<[3%positive := CArr []]> (<[4%positive := CMap ∅]> h')) w.
Proof.
  destruct (deep_copies_isolated Registry_type demo_heap demo_registry demo_registry_value)
    as (_ & h' & o & w & Hrun & _ & _ & _ & _ & _ & Hkeep).
  - unfold api_types. apply elem_of_app. left.
    repeat (apply elem_of_cons; first [by left|right]).
  - reflexivity.
  - apply demo_registry_typed.
  - exists h', o, w. split; [exact Hrun|]. apply Hkeep. intros l Hl.
    rewrite !lookup_insert_ne; [done| |]; intros <-; vm_compute in Hl; discriminate.
Defined.
