(* ===== verification/Hash.v ===== *)
(** * Hash: the hash of an object, and random tokens

    [Compute] of controlplane/internal/util/hash/hash.go is FNV-1a (hash/fnv of
    Go's library, modelled here) of what go-spew prints, which is a parameter;
    [Random] of pkg/util/util.go is the hexadecimal text of random bytes
    (crypto/rand is a parameter). *)

From Stdlib Require Import Ascii String ZArith.
From stdpp Require Import base tactics option strings numbers list.
From S2P Require Import Prelude Go.
Open Scope string_scope.
Open Scope list_scope.
Open Scope stdpp_scope.
Open Scope Z_scope.

(** ** hash/fnv, 32 bit, variant a *)

Definition fnv_offset32 : Z := 2166136261.
Definition fnv_prime32 : Z := 16777619.

(** [sum32a.Write]: per byte [hash ^= b; hash *= prime32] on a uint32. *)
Definition fnv_byte (h b : Z) : Z := (Z.lxor h b * fnv_prime32) mod 2 ^ 32.
Definition fnv_write (h : Z) (data : list Z) : Z := foldl fnv_byte h data.

Definition is_byte (b : Z) : Prop := 0 ≤ b < 256.
Definition is_uint32 (h : Z) : Prop := 0 ≤ h < 2 ^ 32.

(** What the printer writes to the hasher, piece by piece, and whether it failed. *)
Class Printer (A : Type) : Type := { Fprintf : A → list (list Z) * bool }.

(** [Compute]: the error hides the printer's. *)
Definition Compute `{Printer A} (obj : A) : error + Z :=
  let '(writes, failed) := Fprintf obj in
  let h := foldl fnv_write fnv_offset32 writes in
  if failed then inl (EText "failed to calculate hash") else inr h.

(** *** Arithmetic of 32 bits *)

Lemma lxor_uint32 h b : is_uint32 h → is_byte b → is_uint32 (Z.lxor h b).
Proof.
  unfold is_uint32, is_byte. intros [Hh1 Hh2] [Hb1 Hb2].
  assert (0 ≤ Z.lxor h b) by (apply Z.lxor_nonneg; lia). split; [done|].
  destruct (decide (Z.lxor h b = 0)) as [->|Hne]; [lia|].
  apply Z.log2_lt_pow2; [lia|].
  eapply Z.le_lt_trans; [by apply Z.log2_lxor|].
  apply Z.max_lub_lt.
  - destruct (decide (h = 0)) as [->|]; [simpl; lia|]. apply Z.log2_lt_pow2; lia.
  - destruct (decide (b = 0)) as [->|]; [simpl; lia|]. apply Z.log2_lt_pow2; lia.
Qed.

Lemma fnv_byte_uint32 h b : is_uint32 (fnv_byte h b).
Proof. unfold is_uint32, fnv_byte. apply Z.mod_pos_bound. lia. Qed.

Lemma fnv_write_uint32 h data : is_uint32 h → is_uint32 (fnv_write h data).
Proof.
  revert h. induction data as [|b data IH]; intros h Hh; simpl; [done|].
  apply IH, fnv_byte_uint32.
Qed.

(** The prime is odd, so multiplying by it loses nothing: it has an inverse. *)
Definition fnv_inverse : Z := 899433627.

Lemma fnv_inverse_spec : (fnv_prime32 * fnv_inverse) mod 2 ^ 32 = 1.
Proof. reflexivity. Qed.

Lemma mul_prime_inj x y : is_uint32 x → is_uint32 y →
  (x * fnv_prime32) mod 2 ^ 32 = (y * fnv_prime32) mod 2 ^ 32 → x = y.
Proof.
  intros Hx Hy E.
  assert (∀ z, is_uint32 z → ((z * fnv_prime32) mod 2 ^ 32 * fnv_inverse) mod 2 ^ 32 = z) as Hinv.
  { intros z Hz. rewrite Z.mul_mod_idemp_l by lia. rewrite <-Z.mul_assoc.
    rewrite <-Z.mul_mod_idemp_r by lia. rewrite fnv_inverse_spec, Z.mul_1_r.
    by apply Z.mod_small. }
  rewrite <-(Hinv x Hx), <-(Hinv y Hy). by rewrite E.
Qed.

Lemma lxor_cancel_l h a b : Z.lxor h a = Z.lxor h b → a = b.
Proof.
  intros E. assert (Z.lxor h (Z.lxor h a) = Z.lxor h (Z.lxor h b)) as E2 by congruence.
  by rewrite <-!Z.lxor_assoc, Z.lxor_nilpotent, !Z.lxor_0_l in E2.
Qed.

Lemma lxor_cancel_r h k b : Z.lxor h b = Z.lxor k b → h = k.
Proof. rewrite !(Z.lxor_comm _ b). apply lxor_cancel_l. Qed.

Lemma fnv_byte_inj_state h k b : is_uint32 h → is_uint32 k → is_byte b →
  fnv_byte h b = fnv_byte k b → h = k.
Proof.
  intros Hh Hk Hb E%mul_prime_inj; [by eapply lxor_cancel_r|by apply lxor_uint32..].
Qed.

Lemma fnv_byte_inj_byte h a b : is_uint32 h → is_byte a → is_byte b →
  fnv_byte h a = fnv_byte h b → a = b.
Proof.
  intros Hh Ha Hb E%mul_prime_inj; [by eapply lxor_cancel_l|by apply lxor_uint32..].
Qed.

Lemma fnv_write_inj_state h k data : is_uint32 h → is_uint32 k → Forall is_byte data →
  fnv_write h data = fnv_write k data → h = k.
Proof.
  intros Hh Hk Hd. revert h k Hh Hk.
  induction Hd as [|b data Hb Hd IH]; intros h k Hh Hk E; [done|].
  apply IH in E; [|apply fnv_byte_uint32..]. by eapply fnv_byte_inj_state.
Qed.

Lemma fnv_pieces h writes : foldl fnv_write h writes = fnv_write h (concat writes).
Proof.
  revert h. induction writes as [|w ws IH]; intros h; simpl; [done|].
  rewrite IH. unfold fnv_write. by rewrite foldl_app.
Qed.

(** The hash is a number of 32 bits, is determined by the text and not by how
    the printer splits it, and two texts that differ in one byte only never have
    the same hash. *)
Theorem Compute_spec `{Printer A} (x y : A) :
  (∀ h, Compute x = inr h → is_uint32 h) ∧
  (concat (Fprintf x).1 = concat (Fprintf y).1 → (Fprintf x).2 = (Fprintf y).2 →
    Compute x = Compute y) ∧
  (∀ pre a b post h, concat (Fprintf x).1 = pre ++ a :: post → concat (Fprintf y).1 = pre ++ b :: post →
    is_byte a → is_byte b → Forall is_byte post → a ≠ b →
    Compute x = inr h → Compute y ≠ inr h).
Proof.
  unfold Compute. destruct (Fprintf x) as [wx fx], (Fprintf y) as [wy fy]. simpl.
  rewrite !fnv_pieces. split_and!.
  - intros h. destruct fx; [done|]. intros [= <-]. by apply fnv_write_uint32.
  - by intros -> ->.
  - intros pre a b post h -> -> Ha Hb Hpost Hne. destruct fx; [done|]. intros [= <-].
    destruct fy; [done|]. intros [= E]. unfold fnv_write in E. rewrite !foldl_app in E. simpl in E.
    apply (fnv_write_inj_state _ _ post) in E; [|apply fnv_byte_uint32..|done].
    assert (is_uint32 (foldl fnv_byte fnv_offset32 pre)) as Hpre by by apply fnv_write_uint32.
    by apply fnv_byte_inj_byte in E.
Qed.

(** ** Random tokens *)

Definition hex_char (n : Z) : ascii :=
  ascii_of_N (Z.to_N (if n <? 10 then 48 + n else 87 + n)).

(** [hex.EncodeToString]. *)
Fixpoint EncodeToString (data : list Z) : string :=
  match data with
  | [] => EmptyString
  | b :: data => String (hex_char (b / 16)) (String (hex_char (b mod 16)) (EncodeToString data))
  end.

(** [rand.Read] fills a slice of the given length, or fails. *)
Class Rand : Type := { rand_Read : nat → error + list Z }.
Class RandLaws `{Rand} : Prop := {
  rand_Read_length : ∀ n l, rand_Read n = inr l → length l = n ∧ Forall is_byte l
}.

Definition Random `{Rand} (size : nat) : error + string :=
  match rand_Read size with
  | inl err => inl err
  | inr token => inr (EncodeToString token)
  end.

Definition is_hex (c : ascii) : bool :=
  let n := nat_of_ascii c in
  ((48 <=? n)%nat && (n <=? 57)%nat) || ((97 <=? n)%nat && (n <=? 102)%nat).

Fixpoint all_chars (P : ascii → bool) (s : string) : bool :=
  match s with EmptyString => true | String c s => P c && all_chars P s end.

Lemma hex_char_is_hex n : 0 ≤ n < 16 → is_hex (hex_char n) = true.
Proof.
  intros Hn. assert (n ∈ seqZ 0 16) as Hin by (apply elem_of_seqZ; lia).
  clear Hn. revert n Hin. apply Forall_forall. repeat constructor.
Qed.

Lemma hex_char_inj m n : 0 ≤ m < 16 → 0 ≤ n < 16 → hex_char m = hex_char n → m = n.
Proof.
  unfold hex_char. intros Hm Hn E. apply (f_equal N_of_ascii) in E.
  destruct (Z.ltb_spec m 10), (Z.ltb_spec n 10); rewrite !N_ascii_embedding in E by lia; lia.
Qed.

Lemma nibbles b : is_byte b → 0 ≤ b / 16 < 16 ∧ 0 ≤ b mod 16 < 16.
Proof.
  unfold is_byte. intros ?. split; [|apply Z.mod_pos_bound; lia].
  split; [apply Z.div_pos; lia|apply Z.div_lt_upper_bound; lia].
Qed.

Lemma EncodeToString_spec l : Forall is_byte l →
  String.length (EncodeToString l) = (2 * length l)%nat ∧
  all_chars is_hex (EncodeToString l) = true.
Proof.
  induction 1 as [|b l Hb Hl [IH1 IH2]]; simpl; [done|]. apply nibbles in Hb as [? ?].
  rewrite IH1, IH2, !hex_char_is_hex by done. split; [lia|done].
Qed.

Lemma EncodeToString_inj l l' : Forall is_byte l → Forall is_byte l' →
  EncodeToString l = EncodeToString l' → l = l'.
Proof.
  intros Hl. revert l'. induction Hl as [|b l Hb Hl IH]; intros l' Hl' E.
  - by destruct l'.
  - destruct Hl' as [|c l' Hc Hl']; [done|]. simpl in E. injection E as E1 E2 E3.
    pose proof (nibbles b Hb) as [? ?]. pose proof (nibbles c Hc) as [? ?].
    apply hex_char_inj in E1, E2; try done. f_equal; [|by apply IH].
    rewrite (Z.div_mod b 16), (Z.div_mod c 16) by lia. congruence.
Qed.

(** [Random size] is twice as long as its comment says: a token of [size] random
    bytes is a text of [2 * size] hexadecimal digits, and different bytes give
    different tokens. *)
Theorem Random_length `{RandLaws} size token : Random size = inr token →
  String.length token = (2 * size)%nat ∧ all_chars is_hex token = true ∧
  ∃ l, rand_Read size = inr l ∧
    ∀ l', Forall is_byte l' → EncodeToString l' = token → l' = l.
Proof.
  unfold Random. destruct (rand_Read size) as [err|l] eqn:E; [done|]. intros [= <-].
  destruct (rand_Read_length size l E) as [Hlen Hl].
  destruct (EncodeToString_spec l Hl) as [-> ?]. rewrite Hlen. split_and!; [done..|].
  exists l. split; [done|]. intros l' Hl' Heq. by apply EncodeToString_inj.
Qed.

Example fnv_a : fnv_write fnv_offset32 [97] = 3826002220.
Proof. reflexivity. Qed.

Example hex_example : EncodeToString [0; 255; 16; 171] = "00ff10ab".
Proof. reflexivity. Qed.
