(* ===== verification/Metrics.v ===== *)
(** * Metrics: what the collectors are told

    pkg/capi/runtimemetrics/metrics.go, pkg/capi/client/metrics.go and the
    counters of controlplane/internal/util/ssa/cache.go.  The collectors are
    objects of the Prometheus client; what the program decides is the names of
    their labels, their buckets and the label values of each observation.  The
    client panics when an observation has not one value per name, or when
    buckets do not increase. *)

From Stdlib Require Import String.
From stdpp Require Import base tactics option list gmap strings numbers sorting pretty.
From S2P Require Import Prelude Go Api Objects Extensions.
Open Scope string_scope.
Open Scope list_scope.
Open Scope stdpp_scope.

(** ** Calls of extensions *)

Definition unknownResponseStatus : string := "Unknown".

(** The collectors of [Register]: label names, and buckets in milliseconds. *)
Definition requests_total_labels : list string :=
  ["code"; "host"; "group"; "version"; "hook"; "status"].
Definition request_duration_labels : list string := ["host"; "group"; "version"; "hook"].
Definition request_duration_buckets : list Z :=
  [5; 25; 50; 100; 200; 400; 600; 800; 1000; 1250; 1500; 2000; 3000; 4000; 5000; 6000; 8000;
   10000; 15000; 20000; 30000; 45000; 60000]%Z.

(** [RequestsTotalObserver.Observe]: the label values.  [resp] is the HTTP
    response, whose status code is read when there is no error; [response] is
    the status of the hook's response, [None] for an object without one. *)
Definition requests_total_Observe (host : string) (resp : option Z) (gvh : GroupVersionHook)
    (err : option error) (response : option string) : outcome (list string) :=
  code ← match err with
         | Some _ => Ok "<error>"
         | None => match resp with Some c => Ok (fmt_d c) | None => Panic "invalid memory address or nil pointer dereference" end
         end;
  let status := match response with
                | Some s => if decide (s = "") then unknownResponseStatus else s
                | None => unknownResponseStatus
                end in
  Ok [code; host; gvh_Group gvh; gvh_Version gvh; gvh_Hook gvh; status].

(** [RequestDurationObserver.Observe]. *)
Definition request_duration_Observe (gvh : GroupVersionHook) (host : string) : list string :=
  [host; gvh_Group gvh; gvh_Version gvh; gvh_Hook gvh].

(** ** Waiting for the cache, and the cache of applied requests *)

(** Buckets in microseconds. *)
Definition waitDurationMetric_labels : list string := ["kind"; "status"].
Definition waitDurationMetric_buckets : list Z :=
  [10; 25; 50; 100; 250; 500; 1000; 5000; 10000; 25000; 50000; 100000; 200000; 400000; 600000;
   800000; 1000000; 2500000; 5000000; 10000000]%Z.

Definition wait_Observe (kind : string) (failed : bool) : list string :=
  [kind; if failed then "error" else "success"].

Definition cache_labels : list string := ["kind"; "controller"].
Definition cacheHits : string := "caprke2_ssa_cache_hits_total".
Definition cacheMisses : string := "caprke2_ssa_cache_misses_total".

(** The counter [Has] increments, and with which label values. *)
Definition Has_counter (exists_ : bool) (kind controllerName : string) : string * list string :=
  (if exists_ then cacheHits else cacheMisses, [kind; controllerName]).

(** ** No observation panics *)

Fixpoint increasing (l : list Z) : bool :=
  match l with
  | a :: ((b :: _) as l) => (a <? b)%Z && increasing l
  | _ => true
  end.

(** An HTTP client returns a response or an error, so the status code is there
    when it is read; every observation has one value per label, and buckets
    increase.  An error is never a label value, whatever its text: the code is
    the fixed text <error> or the decimal number of the status. *)
Theorem observations_ok host resp gvh err response kind controllerName failed exists_ :
  (err = None → is_Some resp) →
  ∃ vs, requests_total_Observe host resp gvh err response = Ok vs ∧
    length vs = length requests_total_labels ∧
    (vs !! 0 = Some "<error>" ∨ ∃ c, resp = Some c ∧ vs !! 0 = Some (fmt_d c)) ∧
    (∀ s, vs !! 5 = Some s → s ≠ "") ∧
    length (request_duration_Observe gvh host) = length request_duration_labels ∧
    length (wait_Observe kind failed) = length waitDurationMetric_labels ∧
    length (Has_counter exists_ kind controllerName).2 = length cache_labels ∧
    increasing request_duration_buckets = true ∧ increasing waitDurationMetric_buckets = true.
Proof.
  intros Hresp. unfold requests_total_Observe.
  assert (∃ code, (match err with
         | Some _ => Ok "<error>"
         | None => match resp with Some c => Ok (fmt_d c) | None => Panic "invalid memory address or nil pointer dereference" end
         end) = Ok code ∧ (code = "<error>" ∨ ∃ c, resp = Some c ∧ code = fmt_d c)) as (code & -> & Hcode).
  { destruct err as [e|]; [by eauto|]. destruct Hresp as [c ->]; [done|]. eauto 10. }
  simpl. eexists. split; [done|]. split_and!; try done.
  - destruct Hcode as [->|(c & -> & ->)]; simpl; eauto.
  - simpl. intros s [= <-]. destruct response as [r|]; [case_decide|]; done.
Qed.

Lemma observations_ok_witness :
  ∃ vs, requests_total_Observe "ext.default.svc" (Some 200%Z)
          (Build_GroupVersionHook "g" "v1" "UpdateMachine") None (Some "") = Ok vs ∧
        length vs = 6.
Proof.
  destruct (observations_ok "ext.default.svc" (Some 200%Z) (Build_GroupVersionHook "g" "v1" "UpdateMachine")
    None (Some "") "Machine" "rke2" true false) as (vs & E & Hl & _); [by eauto|].
  exists vs. by split.
Defined.
