(* ===== verification/HttpClients.v ===== *)
(** * HttpClients: the HTTP clients of runtime extensions

    pkg/capi/runtimeclient/client.go keeps one HTTP client per host and bundle of
    authorities ([getHTTPClient]); a client holds the client certificate that was
    in the files when it was made.  When the files change, a watcher calls back
    and the cache is emptied ([New]); entries also expire.  Calls run at the same
    time as the watcher, so that the steps of [getHTTPClient], looking up, making
    a client and adding it, are steps of a relation here, and the function of the
    source is the run of them without an interruption. *)

From Stdlib Require Import Ascii String.
From stdpp Require Import base tactics option list gmap strings numbers.
From S2P Require Import Prelude Go Extensions.
Open Scope string_scope.
Open Scope list_scope.
Open Scope stdpp_scope.

(** ** Clients, entries and keys *)

(** What a client is made of: the certificate read from the files (none when no
    files are given), the authorities it trusts, and the name it asks for. *)
Record HTTPClient := { hc_Cert : option string; hc_CAData : string; hc_ServerName : string }.
Record httpClientEntry := { en_caData : string; en_hostName : string; en_client : HTTPClient }.

Definition newHTTPClientEntry (hostName caData : string) (c : HTTPClient) : httpClientEntry :=
  {| en_hostName := hostName; en_caData := caData; en_client := c |}.

Definition newHTTPClientEntryKey (hostName caData : string) : string :=
  hostName +:+ "/" +:+ caData.
Definition entry_Key (e : httpClientEntry) : string := newHTTPClientEntryKey (en_hostName e) (en_caData e).

(** The cache, the content of the certificate files, and the entries that were made
    by calls that have not added them yet. *)
Record Clients := {
  cl_files : option string;
  cl_cache : gmap string httpClientEntry;
  cl_made : list httpClientEntry
}.

Definition cl_with (cache : gmap string httpClientEntry) (made : list httpClientEntry) (s : Clients) : Clients :=
  {| cl_files := cl_files s; cl_cache := cache; cl_made := made |}.

(** [New]: no clients yet.  [CertFile] and [KeyFile] are given together or not at all
    for the certificate to be watched. *)
Definition New (files : option string) : Clients :=
  {| cl_files := files; cl_cache := ∅; cl_made := [] |}.

(** [transport.TLSConfigFor] refuses bad certificates. *)
Class TLSLib := { TLSConfigFor : option string → string → string → option error }.

Section clients.
Context `{TLSLib}.

Definition createHTTPClient (files : option string) (caData hostName : string) : error + HTTPClient :=
  match TLSConfigFor files caData hostName with
  | Some err => inl (EWrap "failed to create tls config" err)
  | None => inr {| hc_Cert := files; hc_CAData := caData; hc_ServerName := hostName |}
  end.

(** The part of [getHTTPClient] after the URL of the extension is known. *)
Definition client_for_host (hostName caData : string) (s : Clients) : (error + HTTPClient) * Clients :=
  match cl_cache s !! newHTTPClientEntryKey hostName caData with
  | Some cacheEntry => (inr (en_client cacheEntry), s)
  | None =>
      match createHTTPClient (cl_files s) caData hostName with
      | inl err => (inl err, s)
      | inr httpClient =>
          let e := newHTTPClientEntry hostName caData httpClient in
          (inr httpClient, cl_with (<[entry_Key e := e]> (cl_cache s)) (cl_made s) s)
      end
  end.

(** A client for the host of the extension's URL. *)
Definition getHTTPClient `{CatalogLib} (config : ClientConfig) (s : Clients) : (error + HTTPClient) * Clients :=
  match urlForExtension config no_hook "" with
  | inl err => (inl err, s)
  | inr (_, host, _) => client_for_host (url_Hostname host) (cc_CABundle config) s
  end.

(** ** Steps *)

Inductive event : Type :=
| Got (hostName caData : string) (c : HTTPClient)  (* a call returns a client *)
| Failed                                           (* a call returns an error *)
| Made (hostName caData : string)                  (* a call has made a client *)
| Rotated (files : option string)                  (* the files change *)
| DeletedAll                                       (* the callback of the watcher *)
| Expired (key : string).

Inductive step : Clients → event → Clients → Prop :=
| step_hit s hostName caData e :
    cl_cache s !! newHTTPClientEntryKey hostName caData = Some e →
    step s (Got hostName caData (en_client e)) s
| step_fail s hostName caData err :
    cl_cache s !! newHTTPClientEntryKey hostName caData = None →
    createHTTPClient (cl_files s) caData hostName = inl err → step s Failed s
| step_make s hostName caData c :
    cl_cache s !! newHTTPClientEntryKey hostName caData = None →
    createHTTPClient (cl_files s) caData hostName = inr c →
    step s (Made hostName caData) (cl_with (cl_cache s) (newHTTPClientEntry hostName caData c :: cl_made s) s)
| step_add s e made1 made2 :
    cl_made s = made1 ++ e :: made2 →
    step s (Got (en_hostName e) (en_caData e) (en_client e))
      (cl_with (<[entry_Key e := e]> (cl_cache s)) (made1 ++ made2) s)
| step_rotate s files :
    step s (Rotated files) {| cl_files := files; cl_cache := cl_cache s; cl_made := cl_made s |}
| step_delete s : step s DeletedAll (cl_with ∅ (cl_made s) s)
| step_expire s key : step s (Expired key) (cl_with (delete key (cl_cache s)) (cl_made s) s).

Inductive steps : Clients → list event → Clients → Prop :=
| steps_refl s : steps s [] s
| steps_next s e s1 es s2 : step s e s1 → steps s1 es s2 → steps s (e :: es) s2.

Lemma steps_app s es1 s1 es2 s2 : steps s es1 s1 → steps s1 es2 s2 → steps s (es1 ++ es2) s2.
Proof. induction 1; simpl; [done|]. intros. econstructor; eauto. Qed.

(** The function of the source is an uninterrupted run. *)
Lemma client_for_host_steps hostName caData s r s' : client_for_host hostName caData s = (r, s') →
  ∃ es, steps s es s' ∧ (∀ c, r = inr c → list.last es = Some (Got hostName caData c)) ∧
    Forall (λ e, match e with Rotated _ | DeletedAll | Expired _ => False | _ => True end) es.
Proof.
  unfold client_for_host. destruct (cl_cache s !! _) as [e|] eqn:E.
  { intros [= <- <-]. exists [Got hostName caData (en_client e)].
    split; [|by repeat constructor; intros ? [= ->]].
    econstructor; [by apply step_hit|constructor]. }
  destruct (createHTTPClient _ _ _) as [err|c] eqn:Ec; intros [= <- <-].
  - exists [Failed]. split; [|by repeat constructor].
    econstructor; [by eapply step_fail|constructor].
  - exists [Made hostName caData; Got hostName caData c]. split; [|by repeat constructor; intros ? [= ->]].
    econstructor; [by apply step_make|]. econstructor; [|constructor].
    apply (step_add (cl_with _ (newHTTPClientEntry hostName caData c :: cl_made s) s)
      (newHTTPClientEntry hostName caData c) [] (cl_made s)). done.
Qed.

(** ** Whose client it is *)

(** A host name has no slash, so a key tells host and authorities apart. *)
Lemma key_inj h1 h2 c1 c2 : free_of "/" h1 = true → free_of "/" h2 = true →
  newHTTPClientEntryKey h1 c1 = newHTTPClientEntryKey h2 c2 → h1 = h2 ∧ c1 = c2.
Proof.
  unfold newHTTPClientEntryKey. revert h2.
  induction h1 as [|a h1 IH]; intros [|b h2]; simpl; intros H1 H2 E; simplify_eq; [done|].
  apply andb_true_iff in H1 as [_ H1], H2 as [_ H2].
  by destruct (IH h2 H1 H2) as [-> ->].
Qed.

(** The contents the files had: at first, and after each change. *)
Fixpoint contents (files : option string) (es : list event) : list (option string) :=
  match es with
  | [] => [files]
  | Rotated files' :: es => files :: contents files' es
  | _ :: es => contents files es
  end.

(** The hosts of the calls are names. *)
Definition host_ok (e : event) : Prop :=
  match e with Got h _ _ | Made h _ => free_of "/" h = true | _ => True end.

(** A client for a host and its authorities, with a certificate the files had ([P]). *)
Definition client_for (P : option string → Prop) (hostName caData : string) (c : HTTPClient) : Prop :=
  hc_ServerName c = hostName ∧ hc_CAData c = caData ∧ P (hc_Cert c).

Definition entry_ok (P : option string → Prop) (e : httpClientEntry) : Prop :=
  free_of "/" (en_hostName e) = true ∧ client_for P (en_hostName e) (en_caData e) (en_client e).

Definition clients_ok (P : option string → Prop) (s : Clients) : Prop :=
  P (cl_files s) ∧ (∀ k e, cl_cache s !! k = Some e → k = entry_Key e ∧ entry_ok P e) ∧
  Forall (entry_ok P) (cl_made s).

Lemma createHTTPClient_for P files caData hostName c : P files →
  createHTTPClient files caData hostName = inr c → client_for P hostName caData c.
Proof. unfold createHTTPClient. intros HP. by destruct (TLSConfigFor _ _ _); intros [= <-]. Qed.

Lemma step_ok P s e s' : step s e s' → host_ok e → (∀ files, e = Rotated files → P files) →
  clients_ok P s → clients_ok P s' ∧ ∀ h ca c, e = Got h ca c → client_for P h ca c.
Proof.
  intros Hs Hh HP (Hf & Hc & Hm). destruct Hs as [s h ca e E|s h ca err E Ec|s h ca c E Ec|s e m1 m2 E|s files|s|s key];
    simpl in Hh.
  - split; [done|]. intros h' ca' c' [= <- <- <-]. destruct (Hc _ _ E) as [Hk [Hfree He]].
    destruct (key_inj _ _ _ _ Hh Hfree Hk) as [-> ->]. done.
  - done.
  - split; [|done]. split; [done|]. split; [done|]. simpl. constructor; [|done].
    split; [done|]. by eapply createHTTPClient_for.
  - rewrite E in Hm. apply Forall_app in Hm as [Hm1 Hm2]. apply Forall_cons_1 in Hm2 as [He Hm2].
    split; [|by intros h ca c [= <- <- <-]; apply He].
    split; [done|]. split; [|by apply Forall_app]. simpl. intros k e' Hk.
    apply lookup_insert_Some in Hk as [[<- <-]|[_ Hk]]; [done|by apply Hc].
  - split; [|done]. split; [by apply HP|done].
  - split; [|done]. split; [done|]. by split.
  - split; [|done]. split; [done|]. split; [|done]. simpl. intros k e Hk.
    apply lookup_delete_Some in Hk as [_ Hk]. by apply Hc.
Qed.

Lemma steps_ok P s es s' : steps s es s' → Forall host_ok es → clients_ok P s →
  (∀ files, Rotated files ∈ es → P files) →
  ∀ h ca c, Got h ca c ∈ es → client_for P h ca c.
Proof.
  induction 1 as [|s e s1 es s2 Hs Hss IH]; intros Hh Hok HP h ca c Hin; [by apply elem_of_nil in Hin|].
  apply Forall_cons_1 in Hh as [He Hh].
  destruct (step_ok P s e s1 Hs He) as [Hok1 Hgot]; [|done|].
  { intros files ->. apply HP. by left. }
  apply elem_of_cons in Hin as [<-|Hin]; [by apply Hgot|].
  apply IH; try done. intros files Hf. apply HP. by right.
Qed.

Lemma contents_first files es : files ∈ contents files es.
Proof. revert files. induction es as [|[] es IH]; intros f; simpl; try apply IH; by left. Qed.
Lemma contents_rotated files es f : Rotated f ∈ es → f ∈ contents files es.
Proof.
  revert files. induction es as [|e es IH]; intros files Hin; [by apply elem_of_nil in Hin|].
  apply elem_of_cons in Hin as [<-|Hin]; simpl.
  - right. apply contents_first.
  - destruct e; try (by apply IH). right. by apply IH.
Qed.

(** Whatever runs at the same time, a client that is returned for a host and a bundle of
    authorities asks for that host, trusts these authorities, and offers a certificate
    the files had.  When no call is between making a client and adding it as the watcher
    calls back, all clients returned from then on offer a certificate the files had at
    that moment or later. *)
Theorem http_client_matches files es1 s1 es2 s2 :
  steps (New files) es1 s1 → Forall host_ok (es1 ++ es2) →
  steps (cl_with ∅ (cl_made s1) s1) es2 s2 →
  (∀ h ca c, Got h ca c ∈ es1 → client_for (.∈ contents files es1) h ca c) ∧
  (cl_made s1 = [] → ∀ h ca c, Got h ca c ∈ es2 → client_for (.∈ contents (cl_files s1) es2) h ca c).
Proof.
  intros H1 [Hh1 Hh2]%Forall_app H2. split.
  - apply (steps_ok _ _ _ _ H1 Hh1); [|apply contents_rotated].
    split; [apply contents_first|]. split; [|constructor]. by intros k e.
  - intros Hm. apply (steps_ok _ _ _ _ H2 Hh2); [|apply contents_rotated].
    rewrite Hm. split; [apply contents_first|]. split; [|constructor]. by intros k e.
Qed.
End clients.

(** Otherwise an old certificate stays: a call makes a client, the files change and the
    cache is emptied, and the call adds the client, which later calls get. *)
Definition any_tls : TLSLib := {| TLSConfigFor _ _ _ := None |}.

Theorem late_add_keeps_old_certificate :
  ∃ s1 s2, steps (H := any_tls) (New (Some "old")) [Made "h" "ca"; Rotated (Some "new"); DeletedAll] s1 ∧
    steps (H := any_tls) s1 [Got "h" "ca" (Build_HTTPClient (Some "old") "ca" "h")] s2 ∧
    (client_for_host (H := any_tls) "h" "ca" s2).1 = inr (Build_HTTPClient (Some "old") "ca" "h") ∧
    cl_files s2 = Some "new".
Proof.
  set (c := Build_HTTPClient (Some "old") "ca" "h"). set (e := newHTTPClientEntry "h" "ca" c).
  exists (Build_Clients (Some "new") ∅ [e]), (Build_Clients (Some "new") {[entry_Key e := e]} []).
  split; [|split; [|split; vm_compute; reflexivity]].
  - econstructor; [by apply (step_make (New (Some "old")) "h" "ca" c)|].
    econstructor; [apply step_rotate|]. econstructor; [apply step_delete|]. constructor.
  - econstructor; [|constructor]. apply (step_add (Build_Clients (Some "new") ∅ [e]) e [] []). done.
Qed.
