(* ===== verification/SpecDiff.v ===== *)
(** * SpecDiff: whether a patched object has the desired specification

    [matchesUnstructuredSpec] of controlplane/internal/controllers/
    inplace_canupdatemachine.go, the comparison of the objects an extension has
    patched, over the untyped objects of [Unstructured] and [Diff] of [CacheWait].
    [Inplace] takes the texts of the specifications; this is how they are compared. *)

From Stdlib Require Import String.
From stdpp Require Import base tactics option list gmap strings numbers.
From S2P Require Import Prelude Go Ssa Unstructured CacheWait.
Open Scope string_scope.
Open Scope list_scope.
Open Scope stdpp_scope.

(** [Object["spec"]]: nil when it is missing. *)
Fixpoint member (k : string) (fields : list (string * json)) : json :=
  match fields with
  | [] => JNull
  | (k', v) :: fields => if decide (k = k') then v else member k fields
  end.
Definition spec_of (u : json) : json :=
  match u with JObject fields => member "spec" fields | _ => JNull end.

(** cmp.Diff: a report that is blank exactly for equal values, or a panic. *)
Class CmpLib := { cmp_Diff : json → json → Diffed }.
Class CmpLaws `{CmpLib} : Prop := {
  cmp_equal x : cmp_Diff x x = Text "";
  cmp_differ x y s : cmp_Diff x y = Text s → all_space (replace_tab (replace_nbsp s)) = true → x = y
}.

Definition matchesUnstructuredSpec `{CmpLib} (patched desired : RawExtension) : bool * string * option error :=
  match re_Object patched with
  | None => (false, "", Some (EText "patched object is not an Unstructured"))
  | Some patchedUnstructured =>
      match re_Object desired with
      | None => (false, "", Some (EText "desired object is not an Unstructured"))
      | Some desiredUnstructured =>
          Diff (cmp_Diff (JObject [("spec", spec_of patchedUnstructured)])
                         (JObject [("spec", spec_of desiredUnstructured)]))
      end
  end.

(** Equal is said exactly of two untyped objects with the same specification, whatever
    else is different in them, and comes with no difference and no error; a panic of the
    comparison is an error. *)
Theorem matchesUnstructuredSpec_equal `{CmpLaws} patched desired :
  let '(equal, diff, err) := matchesUnstructuredSpec patched desired in
  (equal = true ↔ ∃ p d, re_Object patched = Some p ∧ re_Object desired = Some d ∧ spec_of p = spec_of d) ∧
  (equal = true → diff = "" ∧ err = None).
Proof.
  unfold matchesUnstructuredSpec.
  destruct (re_Object patched) as [p|]; [|split; [split; [done|by intros (? & ? & [=] & _)]|done]].
  destruct (re_Object desired) as [d|]; [|split; [split; [done|by intros (? & ? & _ & [=] & _)]|done]].
  destruct (cmp_Diff _ _) as [s|e|s|] eqn:E; cbn.
  2-4: split; [|done]; split; [done|]; intros (p' & d' & [= <-] & [= <-] & Heq); rewrite Heq, cmp_equal in E; done.
  pose proof (Diff_equal (Text s)) as Hd. cbn in Hd. rewrite Hd. split.
  - split.
    + intros (s' & [= <-] & Hs). pose proof (cmp_differ _ _ _ E Hs) as Heq. injection Heq as Heq. eauto.
    + intros (p' & d' & [= <-] & [= <-] & Heq). rewrite Heq, cmp_equal in E. injection E as <-. by exists "".
  - intros Hs. apply Hd in Hs. apply bool_decide_eq_true in Hs. done.
Qed.

